(* ===== verification/_CoqProject ===== *)
-Q . S2P
Prelude.v
GoLib.v
GoEncoding.v
GoHash.v
KubeTypes.v
KubeObjects.v
Kube.v
KubeRules.v
KubeSim.v
Frame.v
Cond.v
MgmtManager.v
MgmtRoles.v
MgmtBindings.v
MgmtGrants.v
MgmtMembership.v
MgmtHandlers.v
MgmtUsers.v
MgmtGlobal.v
MgmtProjects.v
NodePools.v
NetPolicy.v
NodeSync.v
PodSecurity.v
UserRbac.v
UserProjects.v
UserBindings.v
UserGrants.v
UserNamespaces.v
Tokens.v
TokenAuth.v
UserManager.v
AccessControl.v
RoleBuilder.v
RoleSetup.v
TunnelMessage.v
Tunnel.v
TunnelStream.v
TunnelServer.v
Authorizer.v
Dialer.v
NodeTypes.v
ClusterManager.v
LocalAuth.v
Login.v
SecretSync.v
EncryptedStore.v
SystemAccount.v
HttpProxy.v
PspTemplate.v
UserApi.v
