(* ===== verification/Prelude.v ===== *)
(** * Rancher management server: verification library

    Rancher runs Kubernetes controllers in a management cluster.  They turn
    role templates and their bindings into roles and role bindings, of the
    management cluster and of the user clusters it manages; an API server
    authenticates requests by tokens and lets them through by those role
    bindings; agents in the user clusters register and are reached through a
    reverse tunnel.  A table in the server says for which user clusters
    controllers run.  Other controllers keep the nodes, the network policies, the
    secrets of projects and the pod security policies of the user clusters.  This
    library models these parts as Rocq functions and proves what they promise.

    ** How the code is modelled

    A Go function that reads or writes the cluster is a function in the monad
    [M W] of this file: it takes a world and returns an outcome (a result, an
    error, a panic, or out of fuel) and the world after it.  [for_each],
    [for_fold], [attempt] and [wrap_err] are Go's loops and error handling.
    [wp m Q w] says that [m] run in [w] ends as [Q] says, with a rule for each
    combinator; [if_ok] separates success from errors, and excludes panics.

    The API server, the informer caches, the clock, the order of map iteration,
    the random source, floating point arithmetic and the websocket are code the
    repository only calls.  They are classes ([Client], [Kube], [GoRuntime],
    [Random], [Float64], [Net], [Queue], [Goroutines], [SortSlice], [Bcrypt],
    [FirstLogin]) with laws stated beside them, or arguments of the definitions
    that use them (JSON decoders, the parser and printer of URLs, the text of IPv6
    addresses, the check of certificates and the clients of a user cluster, the
    external authentication providers, the store of the API framework).  [StrictClient]
    and [WriteOnlyData] state the answers to requests for a name that is taken or
    absent and what the server does with the write-only data of a secret, for the
    components that rely on them.  Caches may lag behind the server, and every
    request may fail.  Theorems about complete synchronisation say which caches are
    up to date.  [KubeSim] is an instance that satisfies all laws, on which the
    witnesses run the code.

    Code whose goroutines meet in shared memory is run by a step relation that
    interleaves them.  The calls on the table of user clusters ([ClusterManager]) are
    trees of atomic operations, each of which is a step.  In the sessions of the tunnel
    ([Tunnel], [TunnelStream]) a step is a whole operation of the code: what another
    goroutine does between two critical sections of one operation is not modelled.

    ** Files

    - [Prelude], [GoLib], [GoEncoding], [GoHash]: errors, monad and program logic;
      packages strings, strconv, base64, base32, hex and md5 as far as the code
      uses them.
    - [KubeTypes], [KubeObjects]: the objects of the management cluster and of the
      user clusters, with the fields the modelled code reads or writes.
    - [Kube], [KubeRules], [KubeSim], [Frame]: tables and caches, the
      client interface with its laws; rules for requests and loops of requests;
      the simulated cluster; which kinds of objects a program touches.
    - [Cond]: conditions of a status (vendor norman/condition).
    - [MgmtManager], [MgmtRoles], [MgmtBindings], [MgmtGrants],
      [MgmtMembership]: pkg/controllers/management/auth/manager.go and
      indexes.go, definitions in the first file and theorems in the others.
    - [MgmtHandlers], [MgmtUsers], [MgmtGlobal], [MgmtProjects]: the lifecycles
      of role template bindings, global roles, users, projects and clusters in
      the same directory (crtb_handler, prtb_handler, globalrole_handler,
      globalrolebinding_handler, user, project_cluster_handler).
    - [UserRbac], [UserProjects], [UserBindings], [UserGrants],
      [UserNamespaces]: pkg/controllers/user/rbac, without the package for pod
      security policies, which is [PodSecurity].
    - [NodePools]: pkg/controllers/management/nodepool and pkg/ref.
    - [NetPolicy]: pkg/controllers/user/networkpolicy and
      pkg/controllers/user/nslabels.
    - [NodeSync]: pkg/controllers/user/nodesyncer,
      pkg/controllers/user/noderemove and pkg/node.
    - [Tokens], [TokenAuth]: pkg/auth/tokens, pkg/auth/requests,
      pkg/randomtoken and the token controller.
    - [UserManager]: pkg/auth/providers/common/usermanager.go, the instance
      behind the class [UserManager] the role template bindings use.
    - [AccessControl]: pkg/rbac.
    - [RoleBuilder], [RoleSetup]: app/rolebuilder.go and app/role_data.go, the
      built-in roles and their reconciliation at the start.
    - [TunnelMessage], [Tunnel], [TunnelStream], [TunnelServer]:
      pkg/remotedialer, from the bytes of a message to the table of sessions.
    - [Authorizer]: pkg/tunnelserver, who may open a tunnel; [Dialer]:
      pkg/dialer, through which tunnel a connection goes.
    - [ClusterManager]: pkg/clustermanager and
      pkg/controllers/management/usercontrollers, the controllers of user clusters.
    - [LocalAuth]: pkg/auth/providers/local; [Login]:
      pkg/auth/providers/providers.go and publicapi/login.go; [UserApi]: user_store.go
      and user_actions.go of pkg/api/customization/authn.
    - [SystemAccount]: pkg/systemaccount; [EncryptedStore]: pkg/encryptedstore.
    - [SecretSync]: pkg/controllers/user/secret; [PspTemplate]:
      pkg/controllers/management/podsecuritypolicy.
    - [HttpProxy]: pkg/httpproxy, server/whitelist and
      pkg/api/controllers/whitelistproxy.
    - [NodeTypes]: the node pools, the authorizer and the node syncer together, as a
      step relation over the nodes they share.

    Definitions keep the names of the code.  A lifecycle method that occurs in
    several handlers carries the kind in its name or sits in a module.

    ** What the theorems show

    - Granting: reconciling a role template binding leaves the roles and role
      bindings its templates call for, in the management plane ([MgmtGrants]) and
      in user clusters ([UserBindings], [UserGrants]), and touches nothing else.  In the
      management plane what a role or a binding had before and the reconciliation does not
      look at stays, and with none of that the result is exact.  Gathering templates computes the closure of
      inheritance, and the two planes gather the same roles.
    - Removal: users, bindings, projects and namespaces take their dependants
      with them ([MgmtUsers], [MgmtGlobal], [UserNamespaces]).
    - Requests: a request is let through only with a valid token, for the user
      and the groups of that token; a login can be used, a logout ends it
      unless the token could not be read, the token API stays with the caller's user ([TokenAuth]); access is decided
      exactly by the role bindings, and a granted role template gives the access
      it names ([AccessControl]).
    - Passwords: a login with a password gives a session of the user who has it, or,
      when that user has no local principal, of the user for the empty one ([Login]), a password is changed only against the current one and then opens
      the session ([UserApi]), and the search index finds what a scan finds
      ([LocalAuth]).
    - Clusters: under any interleaving of calls the controllers of a cluster are
      started at most once with a record, no call is stuck, and a record whose controllers
      failed to start does not stay in the table; when calls do not overlap
      controllers run exactly for the records of the table ([ClusterManager]).
    - Users: a principal belongs to one user, which is found or created, and a
      binding that names a principal is given that user ([UserManager]).
    - Nodes: a sync of a node pool leaves the number of nodes it asks for
      ([NodePools]); a host that registers with a token gets its node, and only in
      the cluster of the token ([Authorizer]); a pass of the node syncer leaves every
      node with a machine that mirrors it, with the sums of what its pods ask for
      ([NodeSync]); no sequence of steps of these components makes an ill-typed
      node ([NodeTypes]).
    - Isolation: the policies of a project admit exactly its own pods and the nodes,
      or everything while no node has the annotation of flannel, and other policies can only
      admit more ([NetPolicy]); of the managed bindings a service account keeps exactly those to the
      pod security policies of its project ([PodSecurity]); the proxy sends requests to listed hosts
      only ([HttpProxy]).
    - Secrets: copies of project secrets follow them ([SecretSync]); the encrypted store
      returns what was stored ([EncryptedStore]); the system user of a
      cluster keeps its one token ([SystemAccount]).
    - Start: the built-in global roles and role templates are in the cluster as
      described, the templates can always be gathered, and those for viewing only
      read ([RoleSetup]).
    - Tunnel: what one end writes the other reads; channels are closed exactly
      when their connection has an error, no operation panics, bytes arrive in
      order and complete, readers get what was received before an error, and the
      table of sessions is a queue for each client; connections to a cluster
      take only its own ways ([Dialer]).
    - Flaws: where the code does not do what it means to, a theorem says what it
      does instead (duplicated project memberships, template cycles, lost
      updates of cached global roles, role references that cannot be updated,
      bindings left behind, one verb per sync, users found by a shared label, a
      flag of built-in templates that is never corrected,
      overflow of long times to live, connect addresses cut at 100 bytes, tunnels
      of different clusters under one key, pods of the same name counted once, the
      binding to a default policy that is deleted, a handler that dereferences nil
      for a machine without a node, update events of clusters that panic, controllers
      that run on without a record, stale credentials, secrets of users overwritten
      by copies, refused requests that the proxy sends all the same, cookies sent to
      external hosts, templates that cannot be removed, a loop of tries that tries
      once, usernames given twice, verbs of management roles and subjects of bindings that are
      never corrected, a logout that succeeds although the token could not be read, sessions
      of the user for the empty principal, service accounts filed under one key).

    ** Bounds and fuel

    Fuel occurs in [gatherRoleTemplates] and its copy for user clusters, which
    recurse over the graph of templates; any fuel above the length of the longest
    chain of inheritance is enough, and the theorems take such a chain length as
    their hypothesis.  [split_fuel] and [itoa_fuel] get the length of the string
    and the number of binary digits.  In [NodePools] the search for free host names
    gets the number of names taken plus the number of nodes missing, the loop
    that trims a pool the number of its nodes, and the theorem on a sync of a pool
    shows that neither runs out.  The retries of [EncryptedStore] and [UserApi] are
    the numbers in the code.  All other recursion is structural.
    Integers are kept at their width where it matters: message identifiers,
    connection identifiers, durations and times to live wrap at 64 bits; a
    header of a message fits its 24 bytes for connection identifiers below 2^41.

    ** Not modelled

    Constructors that wire clients, indexes and handlers together; logging and
    sleeping; the goroutine that writes the status annotation of a new namespace; the HTTP and
    websocket glue of the tunnel; the TLS dialer of docker-machine nodes and the
    dialer of the local cluster; the TLS handshake of the cluster manager.  Of the
    rest of the repository: the providers other than the local one and the
    provisioning drivers are clients of external services; the other stores of the
    API, catalogs, pipelines, alerting and logging are glue around frameworks and
    tools outside the repository; the controllers for workloads, services and
    ingresses work on kinds of objects outside the modelled state.  Of the API server:
    finalizers, so that a deletion removes the object; slices that are empty and slices that
    are nil are the same list.

    ** This file

    Errors, outcomes, the monad with its loops, and the program logic. *)

From stdpp Require Import base gmap list strings sorting.

(** ** Errors

    [goerr] is the Go [error] interface as the code observes it: an API status
    error with its reason (package [k8s.io/apimachinery/pkg/api/errors]), an
    error made with [errors.New]/[fmt.Errorf], the end-of-file value of package
    [io], an error wrapped by [errors.Wrap]/[errors.Wrapf] of
    [github.com/pkg/errors], or one of norman's: the error a condition is to
    report with a reason, and the error after which a controller gives up.
    [reasonForError] looks at the dynamic type of the error only, so it does not
    see through a wrapper. *)

Inductive status_reason :=
  | StatusReasonUnknown
  | StatusReasonNotFound
  | StatusReasonAlreadyExists
  | StatusReasonConflict
  | StatusReasonForbidden
  | StatusReasonInternalError.

#[export] Instance status_reason_eq_dec : EqDecision status_reason.
Proof. solve_decision. Defined.

Inductive goerr :=
  | StatusError (reason : status_reason) (msg : string)
  | PlainError (msg : string)
  | EOF
  | ErrClosedPipe
  | Wrapped (msg : string) (cause : goerr)
  | ConditionError (reason msg : string)
  | ForgetError (cause : goerr).

#[export] Instance goerr_eq_dec : EqDecision goerr.
Proof. solve_decision. Defined.

(** The [Error] method. *)
Fixpoint Error (e : goerr) : string :=
  match e with
  | StatusError _ msg => msg
  | PlainError msg => msg
  | EOF => "EOF"
  | ErrClosedPipe => "io: read/write on closed pipe"
  | Wrapped msg cause => msg +:+ ": " +:+ Error cause
  | ConditionError _ msg => msg
  | ForgetError cause => Error cause
  end.

Definition reasonForError (e : goerr) : status_reason :=
  match e with
  | StatusError r _ => r
  | _ => StatusReasonUnknown
  end.

Definition IsNotFound (e : goerr) : bool :=
  bool_decide (reasonForError e = StatusReasonNotFound).

Definition IsConflict (e : goerr) : bool :=
  bool_decide (reasonForError e = StatusReasonConflict).

Definition IsForbidden (e : goerr) : bool :=
  bool_decide (reasonForError e = StatusReasonForbidden).

Definition IsAlreadyExists (e : goerr) : bool :=
  bool_decide (reasonForError e = StatusReasonAlreadyExists).

(** ** Outcomes of a Go call

    [OutOfFuel] is the outcome of a definition whose recursion is bounded by a
    fuel argument when the bound is reached: the Go call has not returned. *)

Inductive outcome (A : Type) :=
  | Ok (a : A)
  | Err (e : goerr)
  | Panic
  | OutOfFuel.
Arguments Ok {A} a.
Arguments Err {A} e.
Arguments Panic {A}.
Arguments OutOfFuel {A}.

(** A stateful Go call over a world [W]. *)
Definition M (W A : Type) : Type := W → outcome A * W.

Declare Scope go_scope.
Delimit Scope go_scope with go.
Open Scope go_scope.

Section monad.
Context {W : Type}.

Definition ret {A} (a : A) : M W A := λ w, (Ok a, w).

Definition throw {A} (e : goerr) : M W A := λ w, (Err e, w).

Definition panic {A} : M W A := λ w, (Panic, w).

Definition out_of_fuel {A} : M W A := λ w, (OutOfFuel, w).

Definition bind {A B} (m : M W A) (k : A → M W B) : M W B := λ w,
  match m w with
  | (Ok a, w') => k a w'
  | (Err e, w') => (Err e, w')
  | (Panic, w') => (Panic, w')
  | (OutOfFuel, w') => (OutOfFuel, w')
  end.

(** [attempt m] is the pair [x, err := m()] before the code looks at [err]. *)
Definition attempt {A} (m : M W A) : M W (goerr + A) := λ w,
  match m w with
  | (Ok a, w') => (Ok (inr a), w')
  | (Err e, w') => (Ok (inl e), w')
  | (Panic, w') => (Panic, w')
  | (OutOfFuel, w') => (OutOfFuel, w')
  end.

(** A call that only reads the world. *)
Definition reads {A} (f : W → outcome A) : M W A := λ w, (f w, w).

(** [if err != nil { return errors.Wrapf(err, msg) }]. *)
Definition wrap_err {A} (msg : string) (m : M W A) : M W A := λ w,
  match m w with
  | (Err e, w') => (Err (Wrapped msg e), w')
  | r => r
  end.

(** [for _, x := range xs { if err := f(x); err != nil { return err } }]. *)
Fixpoint for_each {A} (f : A → M W unit) (xs : list A) : M W unit :=
  match xs with
  | [] => ret tt
  | x :: xs => bind (f x) (λ _, for_each f xs)
  end.

(** The same loop with variables of the enclosing function assigned in its body. *)
Fixpoint for_fold {A S} (f : S → A → M W S) (s : S) (xs : list A) : M W S :=
  match xs with
  | [] => ret s
  | x :: xs => bind (f s x) (λ s', for_fold f s' xs)
  end.

End monad.

Notation "'let*' x ':=' m 'in' k" := (bind m (λ x, k))
  (at level 10, x name, m at level 100, k at level 200) : go_scope.
Notation "'do*' m 'in' k" := (bind m (λ _, k))
  (at level 10, m at level 100, k at level 200) : go_scope.

(** ** Reasoning about calls

    [wp m Q w]: the call [m] from the world [w] ends in an outcome and a world
    that satisfy [Q]. *)

Definition wp {W A} (m : M W A) (Q : outcome A → W → Prop) (w : W) : Prop :=
  Q (m w).1 (m w).2.

(** The postconditions of the usual contracts: [returns Q] says that the call
    returns without an error in a state that satisfies [Q]; [if_ok Q I] says
    that it returns, with [Q] if there is no error and [I] otherwise. *)

Definition returns {W A} (Q : A → W → Prop) : outcome A → W → Prop := λ r w,
  match r with Ok a => Q a w | _ => False end.

Definition if_ok {W A} (Q : A → W → Prop) (I : goerr → W → Prop) :
    outcome A → W → Prop := λ r w,
  match r with Ok a => Q a w | Err e => I e w | _ => False end.

Create HintDb go discriminated.

Section wp.
Context {W : Type}.
Implicit Types (w : W).

Lemma wp_unfold {A} (m : M W A) Q w r w' : m w = (r, w') → Q r w' → wp m Q w.
Proof. unfold wp. by intros ->. Qed.

Lemma wp_run {A} (m : M W A) Q w : wp m Q w → ∃ r w', m w = (r, w') ∧ Q r w'.
Proof. unfold wp. destruct (m w) as [r w']. eauto. Qed.

Lemma wp_mono {A} (m : M W A) (Q Q' : outcome A → W → Prop) w :
  wp m Q w → (∀ r w', Q r w' → Q' r w') → wp m Q' w.
Proof. unfold wp. auto. Qed.

Lemma wp_conj {A} (m : M W A) (Q Q' : outcome A → W → Prop) w :
  wp m Q w → wp m Q' w → wp m (λ r w', Q r w' ∧ Q' r w') w.
Proof. unfold wp. auto. Qed.

Lemma wp_ret {A} (a : A) (Q : outcome A → W → Prop) w : Q (Ok a) w → wp (ret a) Q w.
Proof. done. Qed.

Lemma wp_throw {A} e (Q : outcome A → W → Prop) w : Q (Err e) w → wp (throw e) Q w.
Proof. done. Qed.

Lemma wp_reads {A} (f : W → outcome A) (Q : outcome A → W → Prop) w :
  Q (f w) w → wp (reads f) Q w.
Proof. done. Qed.

Definition bind_post {A B} (k : A → M W B) (Q : outcome B → W → Prop) :
    outcome A → W → Prop := λ r w,
  match r with
  | Ok a => wp (k a) Q w
  | Err e => Q (Err e) w
  | Panic => Q Panic w
  | OutOfFuel => Q OutOfFuel w
  end.

Lemma wp_bind {A B} (m : M W A) (k : A → M W B) Q w :
  wp m (bind_post k Q) w → wp (bind m k) Q w.
Proof. unfold wp, bind. by destruct (m w) as [[] w']. Qed.

Lemma wp_bind_assoc {A B C} (m : M W A) (f : A → M W B) (k : B → M W C) Q w :
  wp (bind (bind m f) k) Q w → wp (bind m (λ x, bind (f x) k)) Q w.
Proof. unfold wp, bind. by destruct (m w) as [[] w']. Qed.

Lemma wp_bind_returns {A B} (m : M W A) (k : A → M W B) P Q w :
  wp m (returns P) w → (∀ a w', P a w' → wp (k a) Q w') → wp (bind m k) Q w.
Proof.
  intros Hm Hk. apply wp_bind. eapply wp_mono; [exact Hm|].
  intros [] w' Hr; simpl in *; naive_solver.
Qed.

Lemma wp_bind_if_ok {A B} (m : M W A) (k : A → M W B) P I Q J w :
  wp m (if_ok P I) w →
  (∀ a w', P a w' → wp (k a) (if_ok Q J) w') → (∀ e w', I e w' → J e w') →
  wp (bind m k) (if_ok Q J) w.
Proof.
  intros Hm Hk He. apply wp_bind. eapply wp_mono; [exact Hm|].
  intros [] w' Hr; simpl in *; naive_solver.
Qed.

Lemma wp_if_ok_returns {A} (m : M W A) P I w :
  wp m (if_ok P I) w → (∀ e w', ¬ I e w') → wp m (returns P) w.
Proof.
  intros Hm Hno. eapply wp_mono; [exact Hm|]. intros [] w' Hr; simpl in *; naive_solver.
Qed.

Lemma wp_attempt {A} (m : M W A) (Q : outcome (goerr + A) → W → Prop) w :
  wp m (λ r w', match r with
                | Ok a => Q (Ok (inr a)) w'
                | Err e => Q (Ok (inl e)) w'
                | Panic => Q Panic w'
                | OutOfFuel => Q OutOfFuel w'
                end) w →
  wp (attempt m) Q w.
Proof. unfold wp, attempt. by destruct (m w) as [[] w']. Qed.

Lemma wp_wrap_err {A} msg (m : M W A) (Q : outcome A → W → Prop) w :
  wp m (λ r w', match r with
                | Err e => Q (Err (Wrapped msg e)) w'
                | r => Q r w'
                end) w →
  wp (wrap_err msg m) Q w.
Proof. unfold wp, wrap_err. by destruct (m w) as [[] w']. Qed.

(** Loop rules: an invariant indexed by the part of the list already visited. *)
Lemma wp_for_each {A} (I : list A → W → Prop) (J : goerr → W → Prop) f xs w :
  I [] w →
  (∀ done x rest w, xs = done ++ x :: rest → I done w →
     wp (f x) (if_ok (λ _ w', I (done ++ [x]) w') J) w) →
  wp (for_each f xs) (if_ok (λ _ w', I xs w') J) w.
Proof.
  intros Hi Hstep.
  assert (∀ rest don w, xs = don ++ rest → I don w →
    wp (for_each f rest) (if_ok (λ _ w', I xs w') J) w) as Hgen; [|by apply (Hgen xs [])].
  induction rest as [|x rest IH]; intros don w' -> Hd; simpl.
  - apply wp_ret. by rewrite app_nil_r.
  - eapply wp_bind_if_ok; [by eapply Hstep| |done].
    intros [] w'' Hd'. apply (IH (don ++ [x])); [|done]. by rewrite <-app_assoc.
Qed.

Lemma wp_for_each_returns {A} (I : list A → W → Prop) f xs w :
  I [] w →
  (∀ done x rest w, xs = done ++ x :: rest → I done w →
     wp (f x) (returns (λ _ w', I (done ++ [x]) w')) w) →
  wp (for_each f xs) (returns (λ _ w', I xs w')) w.
Proof.
  intros Hi Hstep.
  eapply wp_mono; [apply (wp_for_each I (λ _ _, False)); [done|]|by intros []].
  intros don x rest w' Heq Hd. eapply wp_mono; [by eapply Hstep|by intros []].
Qed.

Lemma wp_for_fold {A S} (I : list A → S → W → Prop) (J : goerr → W → Prop)
    (f : S → A → M W S) s xs w :
  I [] s w →
  (∀ done x rest s w, xs = done ++ x :: rest → I done s w →
     wp (f s x) (if_ok (λ s' w', I (done ++ [x]) s' w') J) w) →
  wp (for_fold f s xs) (if_ok (λ s' w', I xs s' w') J) w.
Proof.
  intros Hi Hstep.
  assert (∀ rest don s w, xs = don ++ rest → I don s w →
    wp (for_fold f s rest) (if_ok (λ s' w', I xs s' w') J) w) as Hgen; [|by apply (Hgen xs [])].
  induction rest as [|x rest IH]; intros don s' w' -> Hd; simpl.
  - apply wp_ret. by rewrite app_nil_r.
  - eapply wp_bind_if_ok; [by eapply Hstep| |done].
    intros s'' w'' Hd'. apply (IH (don ++ [x])); [|done]. by rewrite <-app_assoc.
Qed.

Lemma wp_for_each_ext {A} (f g : A → M W unit) xs Q w :
  (∀ x w, f x w = g x w) → wp (for_each f xs) Q w → wp (for_each g xs) Q w.
Proof.
  intros Hfg. assert (∀ w, for_each f xs w = for_each g xs w) as Heq; [|unfold wp; by rewrite Heq].
  induction xs as [|x xs IH]; intros w'; simpl; [done|].
  unfold bind. rewrite Hfg. by destruct (g x w') as [[] ?].
Qed.

End wp.

#[export] Hint Resolve wp_ret wp_throw wp_reads : go.

(** ** Maps filled by a loop *)

(** [for k, v := range m { out[f(v)] = v }] when [f] gives the key back. *)
Lemma foldl_insert_perm {A} (f : A → string) (m : gmap string A) l :
  (∀ k v, m !! k = Some v → f v = k) → l ≡ₚ map_to_list m →
  foldl (λ acc (kv : string * A), <[f kv.2 := kv.2]> acc) ∅ l = m.
Proof.
  intros Hf Hl.
  assert (∀ (acc : gmap string A) l', l' ⊆ l → foldl (λ acc (kv : string * A), <[f kv.2 := kv.2]> acc) acc l' =
    list_to_map (reverse l') ∪ acc) as Hgen.
  { intros acc l'. revert acc. induction l' as [|[k v] l' IH]; intros acc Hsub; simpl.
    - by rewrite map_empty_union.
    - rewrite IH by (intros x Hx; apply Hsub; by right).
      assert (f v = k) as ->.
      { apply Hf, elem_of_map_to_list. rewrite <-Hl. apply Hsub. by left. }
      rewrite reverse_cons, list_to_map_app. simpl. rewrite insert_empty.
      by rewrite <-map_union_assoc, insert_union_singleton_l. }
  rewrite Hgen by done. rewrite map_union_empty.
  rewrite <-(list_to_map_to_list m). apply list_to_map_proper.
  - assert (NoDup (map_to_list m).*1) as Hnd by apply NoDup_fst_map_to_list.
    by rewrite reverse_Permutation, Hl.
  - by rewrite reverse_Permutation.
Qed.

(** A set of strings collected by a loop with a test. *)
Lemma elem_of_collect {A} (c : A → bool) (g : A → list string) xs (acc : gset string) v :
  v ∈ foldl (λ s x, if c x then s ∪ list_to_set (g x) else s) acc xs ↔
  v ∈ acc ∨ ∃ x, x ∈ xs ∧ c x = true ∧ v ∈ g x.
Proof.
  revert acc. induction xs as [|x xs IH]; intros acc; simpl; [set_solver|].
  rewrite IH. setoid_rewrite elem_of_cons. destruct (c x) eqn:E.
  - rewrite elem_of_union, elem_of_list_to_set. split.
    + intros [[?|?]|(y & ? & ? & ?)]; [by left|right; by exists x; auto|right; by exists y; auto].
    + intros [?|(y & [->|?] & ? & ?)]; [by auto|by auto|right; by exists y].
  - split.
    + intros [?|(y & ? & ? & ?)]; [by left|right; by exists y; auto].
    + intros [?|(y & [->|?] & ? & ?)]; [by left|congruence|right; by exists y].
Qed.

Lemma NoDup_fmap_filter {A B} (f : A → B) (P : A → Prop) `{∀ x, Decision (P x)} l :
  NoDup (f <$> l) → NoDup (f <$> filter P l).
Proof.
  induction l as [|x l IH]; [done|]. rewrite fmap_cons, NoDup_cons. intros [Hx Hnd].
  rewrite filter_cons. destruct (decide (P x)); [|by apply IH]. rewrite fmap_cons, NoDup_cons.
  split; [|by apply IH]. contradict Hx. apply list_elem_of_fmap in Hx as (y & -> & Hy).
  apply list_elem_of_fmap. exists y. by apply list_elem_of_filter in Hy as [_ ?].
Qed.

(** ** Relations *)

(** A cycle has paths of every length. *)
Lemma cycle_nsteps {A} (R : relation A) x n : tc R x x → ∃ y, nsteps R n x y.
Proof.
  intros Hx. assert (∀ y, rtc R y x → ∃ z, R y z ∧ rtc R z x) as Hnext.
  { intros y [->|(z & ? & ?)]%rtc_inv; [|by eauto].
    inversion Hx; subst; eauto using tc_rtc. }
  assert (∀ y, rtc R y x → ∃ z, nsteps R n y z) as Hgen; [|by apply Hgen].
  induction n as [|n IH]; intros y Hy; [exists y; constructor|].
  destruct (Hnext y Hy) as (z & ? & Hz). destruct (IH z Hz) as [u ?].
  exists u. by econstructor.
Qed.
