(* ===== verification/GoLib.v ===== *)
(** * Go standard library

    The parts of packages [strings], [strconv] and of norman's [slice] package
    the modelled code calls, on byte strings.  [ToLower], [EqualFold] and
    [TrimSpace] are the byte-wise functions: they agree with Go's on ASCII
    text, which Kubernetes names, verbs, resources and HTTP headers are. *)

From stdpp Require Import base gmap list sorting strings.
From Stdlib Require Import Ascii ZArith Lia.
From S2P Require Import Prelude.

(** ** norman/types/slice *)

Definition ContainsString (slice : list string) (item : string) : bool :=
  existsb (String.eqb item) slice.

Lemma ContainsString_true l x : ContainsString l x = true ↔ x ∈ l.
Proof.
  unfold ContainsString. rewrite existsb_exists. setoid_rewrite String.eqb_eq.
  setoid_rewrite <-list_elem_of_In. split; [by intros (y & ? & <-)|by eauto].
Qed.

Lemma ContainsString_false l x : ContainsString l x = false ↔ x ∉ l.
Proof. rewrite <-ContainsString_true. by destruct (ContainsString l x). Qed.

(** ** Characters *)

Definition char_is (c d : ascii) : bool := Ascii.eqb c d.

Definition is_upper (c : ascii) : bool :=
  let n := N_of_ascii c in (65 <=? n)%N && (n <=? 90)%N.

Definition to_lower_char (c : ascii) : ascii :=
  if is_upper c then ascii_of_N (N_of_ascii c + 32) else c.

Definition is_space (c : ascii) : bool :=
  let n := N_of_ascii c in ((9 <=? n) && (n <=? 13) || (n =? 32))%N.

Definition is_digit (c : ascii) : bool :=
  let n := N_of_ascii c in (48 <=? n)%N && (n <=? 57)%N.

(** ** Package strings *)

Fixpoint ToLower (s : string) : string :=
  match s with
  | EmptyString => EmptyString
  | String c s => String (to_lower_char c) (ToLower s)
  end.

Definition EqualFold (s t : string) : bool := String.eqb (ToLower s) (ToLower t).

Definition HasPrefix (s prefix : string) : bool := String.prefix prefix s.

(** The rest of the string after a prefix of it. *)
Fixpoint drop_prefix (prefix s : string) : option string :=
  match prefix, s with
  | EmptyString, _ => Some s
  | String c p, String d s => if Ascii.eqb c d then drop_prefix p s else None
  | String _ _, EmptyString => None
  end.

Definition TrimPrefix (s prefix : string) : string := default s (drop_prefix prefix s).

Fixpoint TrimLeftSpace (s : string) : string :=
  match s with
  | String c s' => if is_space c then TrimLeftSpace s' else s
  | EmptyString => EmptyString
  end.

Definition string_rev (s : string) : string :=
  String.string_of_list_ascii (rev (String.list_ascii_of_string s)).

Definition HasSuffix (s suffix : string) : bool := HasPrefix (string_rev s) (string_rev suffix).

Definition TrimSpace (s : string) : string :=
  string_rev (TrimLeftSpace (string_rev (TrimLeftSpace s))).

(** [cut_sep sep s]: the text before and after the first occurrence of a
    non-empty [sep]. *)
Fixpoint cut_sep (sep s : string) : option (string * string) :=
  match drop_prefix sep s with
  | Some rest => Some (EmptyString, rest)
  | None =>
    match s with
    | EmptyString => None
    | String c s' =>
      match cut_sep sep s' with
      | Some (before, after) => Some (String c before, after)
      | None => None
      end
    end
  end.

Definition Contains (s sub : string) : bool := bool_decide (is_Some (cut_sep sub s)).

(** [strings.SplitN(s, sep, 2)]. *)
Definition SplitN2 (s sep : string) : list string :=
  match cut_sep sep s with
  | Some (before, after) => [before; after]
  | None => [s]
  end.

(** [strings.Split(s, sep)] for a non-empty [sep]; the fuel is the length of
    the string, and every cut consumes a separator. *)
Fixpoint split_fuel (fuel : nat) (s sep : string) : list string :=
  match fuel with
  | O => [s]
  | S fuel =>
    match cut_sep sep s with
    | Some (before, after) => before :: split_fuel fuel after sep
    | None => [s]
    end
  end.

Definition Split (s sep : string) : list string := split_fuel (String.length s) s sep.

(** ** Package strconv: [Itoa] on the non-negative numbers the code prints *)

Definition digit_char (n : N) : ascii := ascii_of_N (48 + n).

Fixpoint itoa_fuel (fuel : nat) (n : N) (acc : string) : string :=
  match fuel with
  | O => acc
  | S fuel =>
    let acc := String (digit_char (n mod 10)) acc in
    if (n <? 10)%N then acc else itoa_fuel fuel (n / 10)%N acc
  end.

Definition Itoa (n : N) : string := itoa_fuel (S (N.to_nat (N.log2 n))) n EmptyString.

Definition FormatInt (z : Z) : string :=
  if (z <? 0)%Z then String "-" (Itoa (Z.to_N (- z))) else Itoa (Z.to_N z).

(** The number a text of digits denotes, after the digits of [acc]. *)
Fixpoint digits_from (acc : N) (s : string) : N :=
  match s with
  | EmptyString => acc
  | String c s => digits_from (10 * acc + (N_of_ascii c - 48)) s
  end.

(** The value [Atoi] returns for a text of digits; out of range it is the
    greatest [int]. *)
Definition Atoi_digits (s : string) : Z := Z.min (Z.of_N (digits_from 0 s)) (2 ^ 63 - 1).

Definition zeros (n : nat) : string := String.string_of_list_ascii (replicate n "0"%char).

(** [fmt.Sprintf("%0<width>d", z)]: zeros go between the sign and the digits. *)
Definition Sprintf0d (width : nat) (z : Z) : string :=
  let fill := zeros (width - String.length (FormatInt z)) in
  if (z <? 0)%Z then String "-" (fill +:+ Itoa (Z.to_N (- z))) else fill +:+ Itoa (Z.to_N z).

(** ** Package sort *)

(** The order of strings, byte by byte. *)
Fixpoint str_ltb (s t : string) : bool :=
  match s, t with
  | _, EmptyString => false
  | EmptyString, String _ _ => true
  | String c s, String d t =>
    (N_of_ascii c <? N_of_ascii d)%N || Ascii.eqb c d && str_ltb s t
  end.

(** [sort.Slice]: the order of elements that compare equal is not specified. *)
Class SortSlice := { sort_Slice : ∀ {A : Type}, (A → A → bool) → list A → list A }.

(** A strict weak ordering. *)
Record weak_order {A} (less : A → A → bool) : Prop := {
  wo_irrefl x : less x x = false;
  wo_trans x y z : less x y = true → less y z = true → less x z = true;
  wo_incomp x y z : less x y = false → less y z = false → less x z = false }.

Class SortSliceLaws `{!SortSlice} := {
  sort_perm {A} (less : A → A → bool) l : sort_Slice less l ≡ₚ l;
  sort_sorted {A} (less : A → A → bool) l :
    weak_order less → StronglySorted (λ x y, less y x = false) (sort_Slice less l) }.

(** ** Machine integers *)

Definition int64 (x : Z) : Prop := (- 2 ^ 63 ≤ x < 2 ^ 63)%Z.

(** [int64(x)] of a result that may not fit. *)
Definition wrap64 (x : Z) : Z := ((x + 2 ^ 63) mod 2 ^ 64 - 2 ^ 63)%Z.

(** ** Lemmas *)

Lemma wrap64_id x : int64 x → wrap64 x = x.
Proof. unfold int64, wrap64. intros H. rewrite Z.mod_small by lia. lia. Qed.

Lemma wrap64_int64 x : int64 (wrap64 x).
Proof. unfold int64, wrap64. pose proof (Z.mod_pos_bound (x + 2 ^ 63) (2 ^ 64)). lia. Qed.

Lemma append_empty_l (s : string) : EmptyString +:+ s = s.
Proof. done. Qed.

Lemma append_cons c (s t : string) : String c s +:+ t = String c (s +:+ t).
Proof. done. Qed.

Lemma append_empty_r (s : string) : s +:+ EmptyString = s.
Proof. induction s as [|c s IH]; [done|]. by rewrite append_cons, IH. Qed.

Lemma append_assoc (s t u : string) : s +:+ t +:+ u = (s +:+ t) +:+ u.
Proof. induction s as [|c s IH]; [done|]. by rewrite !append_cons, IH. Qed.

Lemma append_length (s t : string) :
  String.length (s +:+ t) = String.length s + String.length t.
Proof. induction s as [|c s IH]; [done|]. rewrite append_cons. simpl. by rewrite IH. Qed.

Lemma append_inj_l (s t u : string) : s +:+ t = s +:+ u → t = u.
Proof.
  induction s as [|c s IH]; [done|]. rewrite !append_cons. intros; simplify_eq; auto.
Qed.

Lemma append_inj_r (s t u : string) : s +:+ u = t +:+ u → s = t.
Proof.
  revert t. induction s as [|c s IH]; intros [|d t] Heq; [done| | |].
  1,2: apply (f_equal String.length) in Heq; rewrite !append_length in Heq; simpl in Heq; lia.
  rewrite !append_cons in Heq. injection Heq as -> Heq. f_equal. by apply IH.
Qed.

Lemma drop_prefix_Some p s r : drop_prefix p s = Some r ↔ s = p +:+ r.
Proof.
  revert s. induction p as [|c p IH]; intros s; simpl.
  - rewrite append_empty_l. naive_solver.
  - rewrite append_cons. destruct s as [|d s]; [naive_solver|].
    destruct (Ascii.eqb_spec c d) as [->|Hne]; [|naive_solver].
    rewrite IH. naive_solver.
Qed.

Lemma TrimPrefix_append p s : TrimPrefix (p +:+ s) p = s.
Proof.
  unfold TrimPrefix. assert (drop_prefix p (p +:+ s) = Some s) as -> by by apply drop_prefix_Some.
  done.
Qed.

Lemma cut_sep_Some sep s b a : cut_sep sep s = Some (b, a) → s = b +:+ sep +:+ a.
Proof.
  revert b a. induction s as [|c s IH]; intros b a; simpl.
  - destruct (drop_prefix sep _) eqn:E; [|done]. intros [= <- <-]. rewrite append_empty_l. by apply drop_prefix_Some.
  - destruct (drop_prefix sep _) eqn:E.
    + intros [= <- <-]. rewrite append_empty_l. by apply drop_prefix_Some.
    + destruct (cut_sep sep s) as [[b' a']|]; [|done]. intros [= <- <-].
      by rewrite append_cons, <-(IH b' a').
Qed.

(** A one-character separator: the cut is the only one with no separator in
    the first part. *)
Fixpoint has_char (c : ascii) (s : string) : bool :=
  match s with
  | EmptyString => false
  | String d s => Ascii.eqb c d || has_char c s
  end.

Lemma cut_sep_char c b a :
  has_char c b = false → cut_sep (String c EmptyString) (b +:+ String c a) = Some (b, a).
Proof.
  induction b as [|d b IH]; intros Hc.
  - rewrite append_empty_l. simpl. by rewrite Ascii.eqb_refl.
  - rewrite append_cons. simpl in *. apply orb_false_iff in Hc as [-> Hc]. by rewrite IH.
Qed.

Lemma cut_sep_char_None c s :
  has_char c s = false ↔ cut_sep (String c EmptyString) s = None.
Proof.
  induction s as [|d s IH]; simpl; [done|].
  destruct (Ascii.eqb c d); simpl; [done|]. rewrite IH.
  by destruct (cut_sep _ s) as [[]|].
Qed.

Lemma cut_sep_char_fst c s b a :
  cut_sep (String c EmptyString) s = Some (b, a) → has_char c b = false.
Proof.
  revert b a. induction s as [|d s IH]; intros b a; simpl; [done|].
  destruct (Ascii.eqb c d) eqn:E; simpl; [by intros [= <- <-]|].
  destruct (cut_sep _ s) as [[b' a']|] eqn:E'; [|done]. intros [= <- <-].
  simpl. rewrite E. simpl. by eapply IH.
Qed.

Lemma prefix_append p s : String.prefix p (p +:+ s) = true.
Proof.
  induction p as [|c p IH]; [by destruct s|]. rewrite append_cons. simpl.
  by rewrite IH; destruct (Ascii.ascii_dec c c).
Qed.

(** The first segment of a text cut at a character it does not contain. *)
Lemma append_char_inj c s t s' t' :
  has_char c s = false → has_char c s' = false →
  s +:+ String c t = s' +:+ String c t' → s = s' ∧ t = t'.
Proof.
  intros Hs Hs' Heq. apply (cut_sep_char _ _ t) in Hs. apply (cut_sep_char _ _ t') in Hs'.
  rewrite Heq in Hs. rewrite Hs in Hs'. by simplify_eq.
Qed.

Lemma to_lower_char_idemp c : to_lower_char (to_lower_char c) = to_lower_char c.
Proof. by destruct c as [[][][][][][][][]]. Qed.

Lemma ToLower_idemp s : ToLower (ToLower s) = ToLower s.
Proof. induction s as [|c s IH]; simpl; [done|]. by rewrite to_lower_char_idemp, IH. Qed.

Lemma EqualFold_refl s : EqualFold s s = true.
Proof. unfold EqualFold. apply String.eqb_refl. Qed.

(** ** Decimal numbers *)

Lemma digit_value n : (n < 10)%N → (N_of_ascii (digit_char n) - 48 = n)%N.
Proof. intros Hn. unfold digit_char. rewrite N_ascii_embedding; lia. Qed.

Lemma itoa_S fuel n acc :
  itoa_fuel (S fuel) n acc =
    if (n <? 10)%N then String (digit_char (n mod 10)) acc
    else itoa_fuel fuel (n / 10) (String (digit_char (n mod 10)) acc).
Proof. done. Qed.

Lemma digits_itoa fuel n acc :
  (n < 10 ^ N.of_nat (S fuel))%N → digits_from 0 (itoa_fuel (S fuel) n acc) = digits_from n acc.
Proof.
  revert n acc. induction fuel as [|fuel IH]; intros n acc Hn; rewrite Nat2N.inj_succ, N.pow_succ_r' in Hn;
    rewrite itoa_S; destruct (N.ltb_spec n 10) as [Hlt|Hge].
  - cbn [digits_from]. by rewrite digit_value, N.mod_small by (rewrite ?N.mod_small; lia).
  - simpl in Hn. lia.
  - cbn [digits_from]. by rewrite digit_value, N.mod_small by (rewrite ?N.mod_small; lia).
  - rewrite IH by (apply N.Div0.div_lt_upper_bound; lia).
    cbn [digits_from]. rewrite digit_value by (apply N.mod_lt; lia).
    rewrite <-N.div_mod' . done.
Qed.

Lemma digits_Itoa n : digits_from 0 (Itoa n) = n.
Proof.
  unfold Itoa. rewrite digits_itoa; [done|].
  apply N.lt_le_trans with (2 ^ N.succ (N.log2 n))%N.
  - destruct (N.eq_0_gt_0_cases n) as [->|Hn]; [done|]. by apply N.log2_spec.
  - rewrite Nat2N.inj_succ, N2Nat.id. apply N.pow_le_mono_l. lia.
Qed.

Lemma zeros_S n : zeros (S n) = String "0" (zeros n).
Proof. done. Qed.

Lemma digits_zeros n s : digits_from 0 (zeros n +:+ s) = digits_from 0 s.
Proof. induction n as [|n IH]; [done|]. rewrite zeros_S, append_cons. exact IH. Qed.

(** The first character of a number is not a sign. *)
Definition starts_digit (s : string) : bool :=
  match s with String c _ => is_digit c | EmptyString => false end.

Lemma itoa_starts fuel n acc : starts_digit (itoa_fuel (S fuel) n acc) = true.
Proof.
  revert n acc. induction fuel as [|fuel IH]; intros n acc; rewrite itoa_S;
    destruct (n <? 10)%N; try apply IH.
  all: assert (n mod 10 < 10)%N by (apply N.mod_lt; lia); cbn [itoa_fuel starts_digit]; unfold is_digit, digit_char;
    rewrite N_ascii_embedding by lia; apply andb_true_intro; split; apply N.leb_le; generalize dependent (n mod 10)%N; intros; lia.
Qed.

Lemma padded_starts n m : starts_digit (zeros n +:+ Itoa m) = true.
Proof. destruct n; [apply itoa_starts|done]. Qed.

(** A number is printed differently from every other, whatever the width. *)
Lemma Sprintf0d_inj width i j : Sprintf0d width i = Sprintf0d width j → i = j.
Proof.
  unfold Sprintf0d. set (f := width - String.length (FormatInt i)).
  set (g := width - String.length (FormatInt j)).
  destruct (Z.ltb_spec i 0), (Z.ltb_spec j 0); intros Heq.
  - injection Heq as Heq. apply (f_equal (digits_from 0)) in Heq.
    rewrite !digits_zeros, !digits_Itoa in Heq. lia.
  - pose proof (padded_starts g (Z.to_N j)) as Hs. rewrite <-Heq in Hs. done.
  - pose proof (padded_starts f (Z.to_N i)) as Hs. rewrite Heq in Hs. done.
  - apply (f_equal (digits_from 0)) in Heq. rewrite !digits_zeros, !digits_Itoa in Heq. lia.
Qed.

(** ** The order of strings *)

Lemma str_ltb_irrefl s : str_ltb s s = false.
Proof.
  induction s as [|c s IH]; [done|]. simpl.
  by rewrite N.ltb_irrefl, IH, andb_false_r.
Qed.

Lemma str_ltb_trans s t u : str_ltb s t = true → str_ltb t u = true → str_ltb s u = true.
Proof.
  revert t u. induction s as [|c s IH]; intros [|d t] [|e u]; simpl; try done.
  rewrite !orb_true_iff, !andb_true_iff, !N.ltb_lt, !Ascii.eqb_eq.
  intros [?|[-> ?]] [?|[-> ?]]; [left; lia|by left|by left|right; eauto].
Qed.

Lemma str_ltb_total s t : str_ltb s t = false → str_ltb t s = false → s = t.
Proof.
  revert t. induction s as [|c s IH]; intros [|d t]; simpl; try done.
  rewrite !orb_false_iff, !N.ltb_ge, !andb_false_iff. intros [? Hs] [? Ht].
  assert (c = d) as ->.
  { rewrite <-(ascii_N_embedding c), <-(ascii_N_embedding d). f_equal. lia. }
  rewrite Ascii.eqb_refl in Hs, Ht. f_equal. apply IH; naive_solver.
Qed.

Lemma str_weak_order {A} (key : A → string) : weak_order (λ x y, str_ltb (key x) (key y)).
Proof.
  split.
  - intros x. apply str_ltb_irrefl.
  - intros x y z. apply str_ltb_trans.
  - intros x y z Hxy Hyz. apply not_true_is_false. intros Hxz.
    destruct (str_ltb (key y) (key x)) eqn:Hyx.
    + rewrite (str_ltb_trans _ _ _ Hyx Hxz) in Hyz. done.
    + by rewrite (str_ltb_total _ _ Hxy Hyx), Hyz in Hxz.
Qed.
