(* ===== verification/GoEncoding.v ===== *)
(** * Go standard library: encodings

    The parts of packages [encoding/base64] (the URL alphabet, with padding, and
    decoding of the standard one) and [encoding/base32] (the extended hex
    alphabet, without) the modelled code calls, and the round trip of the URL
    alphabet. *)

From stdpp Require Import base list strings.
From Stdlib Require Import Ascii ZArith Lia.
From S2P Require Import Prelude.
From S2P Require Import GoLib.

Open Scope N_scope.

Definition byte_at (n : N) : ascii := ascii_of_N n.

(** ** [base64.URLEncoding] *)

Definition url_alphabet : string :=
  "ABCDEFGHIJKLMNOPQRSTUVWXYZabcdefghijklmnopqrstuvwxyz0123456789-_".

Definition url_char (n : N) : ascii :=
  default "A"%char (String.get (N.to_nat n) url_alphabet).

(** The position of a character in an alphabet. *)
Fixpoint index_from (n : N) (c : ascii) (s : string) : option N :=
  match s with
  | EmptyString => None
  | String d s => if Ascii.eqb c d then Some n else index_from (n + 1) c s
  end.

Definition url_value (c : ascii) : option N := index_from 0 c url_alphabet.

Definition pad : ascii := "="%char.

Fixpoint EncodeToString (s : string) : string :=
  match s with
  | EmptyString => EmptyString
  | String a EmptyString =>
    let x := N_of_ascii a in
    String (url_char (x / 4)) (String (url_char (x mod 4 * 16)) (String pad (String pad EmptyString)))
  | String a (String b EmptyString) =>
    let x := N_of_ascii a in
    let y := N_of_ascii b in
    String (url_char (x / 4)) (String (url_char (x mod 4 * 16 + y / 16))
      (String (url_char (y mod 16 * 4)) (String pad EmptyString)))
  | String a (String b (String c s)) =>
    let x := N_of_ascii a in
    let y := N_of_ascii b in
    let z := N_of_ascii c in
    String (url_char (x / 4)) (String (url_char (x mod 4 * 16 + y / 16))
      (String (url_char (y mod 16 * 4 + z / 64)) (String (url_char (z mod 64)) (EncodeToString s))))
  end.

(** Line breaks are skipped. *)
Fixpoint strip_newlines (s : string) : string :=
  match s with
  | EmptyString => EmptyString
  | String c s =>
    if Ascii.eqb c "010"%char || Ascii.eqb c "013"%char then strip_newlines s
    else String c (strip_newlines s)
  end.

(** Groups of four characters; padding ends the input.  [None] is an error. *)
Fixpoint decode_groups (s : string) : option string :=
  match s with
  | EmptyString => Some EmptyString
  | String a (String b (String c (String d s))) =>
    match url_value a, url_value b with
    | Some p, Some q =>
      let x := p * 4 + q / 16 in
      if Ascii.eqb c pad then
        if Ascii.eqb d pad && String.eqb s EmptyString
        then Some (String (byte_at x) EmptyString) else None
      else
        match url_value c with
        | Some r =>
          let y := q mod 16 * 16 + r / 4 in
          if Ascii.eqb d pad then
            if String.eqb s EmptyString
            then Some (String (byte_at x) (String (byte_at y) EmptyString)) else None
          else
            match url_value d, decode_groups s with
            | Some t, Some rest =>
              Some (String (byte_at x) (String (byte_at y)
                      (String (byte_at (r mod 4 * 64 + t)) rest)))
            | _, _ => None
            end
        | None => None
        end
    | _, _ => None
    end
  | _ => None
  end.

Definition DecodeString (s : string) : option string := decode_groups (strip_newlines s).

(** ** [base64.StdEncoding.DecodeString]

    The alphabets differ in the last two characters. *)

Fixpoint url_of_std (s : string) : option string :=
  match s with
  | EmptyString => Some EmptyString
  | String c s =>
    if Ascii.eqb c "-"%char || Ascii.eqb c "_"%char then None else
    let c := if Ascii.eqb c "+"%char then "-"%char else if Ascii.eqb c "/"%char then "_"%char else c in
    String c <$> url_of_std s
  end.

Definition StdDecodeString (s : string) : option string := url_of_std s ≫= DecodeString.

(** *** Round trip *)

Definition url_ok (n : N) : bool :=
  bool_decide (url_value (url_char n) = Some n) && negb (Ascii.eqb (url_char n) pad) &&
  negb (Ascii.eqb (url_char n) "010"%char) && negb (Ascii.eqb (url_char n) "013"%char).

Lemma url_all n : n < 64 → url_ok n = true.
Proof.
  intros Hn.
  assert (forallb url_ok (map N.of_nat (seq 0 64)) = true) as Hall by (vm_compute; reflexivity).
  rewrite forallb_forall in Hall. apply Hall, in_map_iff. exists (N.to_nat n).
  split; [lia|]. apply in_seq. lia.
Qed.

Lemma url_value_char n : n < 64 → url_value (url_char n) = Some n.
Proof.
  intros H%url_all. unfold url_ok in H. rewrite !andb_true_iff in H.
  destruct H as [[[H _] _] _]. exact (bool_decide_eq_true_1 _ H).
Qed.

Lemma url_not_pad n : n < 64 → Ascii.eqb (url_char n) pad = false.
Proof. intros H%url_all. unfold url_ok in H. rewrite !andb_true_iff, !negb_true_iff in H. tauto. Qed.

Lemma url_strip n s : n < 64 → strip_newlines (String (url_char n) s) = String (url_char n) (strip_newlines s).
Proof.
  intros H%url_all. unfold url_ok in H. rewrite !andb_true_iff, !negb_true_iff in H.
  destruct H as [[_ H1] H2]. simpl. by rewrite H1, H2.
Qed.

Lemma pad_strip s : strip_newlines (String pad s) = String pad (strip_newlines s).
Proof. done. Qed.

Lemma N_of_ascii_bound a : N_of_ascii a < 256.
Proof. apply N_ascii_bounded. Qed.

Lemma split4 x : x < 256 → x / 4 < 64 ∧ x mod 4 < 4 ∧ x = 4 * (x / 4) + x mod 4.
Proof.
  intros H. split_and!; [apply N.Div0.div_lt_upper_bound; lia|apply N.mod_lt; lia|apply N.div_mod'].
Qed.

Lemma split16 x : x < 256 → x / 16 < 16 ∧ x mod 16 < 16 ∧ x = 16 * (x / 16) + x mod 16.
Proof.
  intros H. split_and!; [apply N.Div0.div_lt_upper_bound; lia|apply N.mod_lt; lia|apply N.div_mod'].
Qed.

Lemma split64 x : x < 256 → x / 64 < 4 ∧ x mod 64 < 64 ∧ x = 64 * (x / 64) + x mod 64.
Proof.
  intros H. split_and!; [apply N.Div0.div_lt_upper_bound; lia|apply N.mod_lt; lia|apply N.div_mod'].
Qed.

Lemma div_parts k a b : b < k → (a * k + b) / k = a ∧ (a * k + b) mod k = b.
Proof.
  intros H. rewrite N.mul_comm. split; [symmetry; by apply (N.div_unique _ k a b)|
    symmetry; by apply (N.mod_unique _ k a b)].
Qed.

Lemma byte_at_of a n : n = N_of_ascii a → byte_at n = a.
Proof. intros ->. apply ascii_N_embedding. Qed.

Lemma string_ind3 (P : string → Prop) :
  P EmptyString → (∀ a, P (String a EmptyString)) →
  (∀ a b, P (String a (String b EmptyString))) →
  (∀ a b c s, P s → P (String a (String b (String c s)))) → ∀ s, P s.
Proof.
  intros H0 H1 H2 H3.
  assert (∀ s, P s ∧ (∀ a, P (String a s)) ∧ (∀ a b, P (String a (String b s)))) as H; [|apply H].
  induction s as [|c s (IH & IH1 & IH2)]; [by eauto|]. split_and!; eauto.
Qed.

Lemma Decode_Encode s : DecodeString (EncodeToString s) = Some s.
Proof.
  unfold DecodeString. induction s as [|a|a b|a b c s IH] using string_ind3; [done|..];
    cbn [EncodeToString]; pose proof (N_of_ascii_bound a) as Ha;
    pose proof (split4 _ Ha) as (Ha1 & Ha2 & Ha3).
  - rewrite !url_strip, !pad_strip by lia. cbn [decode_groups strip_newlines].
    rewrite !url_value_char by lia. simpl.
    rewrite (byte_at_of a); [done|].
    rewrite <-(N.add_0_r (_ * 16)). destruct (div_parts 16 (N_of_ascii a mod 4) 0) as [-> _]; lia.
  - pose proof (N_of_ascii_bound b) as Hb. pose proof (split16 _ Hb) as (Hb1 & Hb2 & Hb3).
    rewrite !url_strip, !pad_strip by lia. cbn [decode_groups strip_newlines].
    rewrite !url_value_char, url_not_pad by lia. simpl.
    destruct (div_parts 16 (N_of_ascii a mod 4) (N_of_ascii b / 16)) as [-> ->]; [lia|].
    rewrite (byte_at_of a), (byte_at_of b); [done| |lia].
    rewrite <-(N.add_0_r (_ * 4)). destruct (div_parts 4 (N_of_ascii b mod 16) 0) as [-> _]; lia.
  - pose proof (N_of_ascii_bound b) as Hb. pose proof (split16 _ Hb) as (Hb1 & Hb2 & Hb3).
    pose proof (N_of_ascii_bound c) as Hc. pose proof (split64 _ Hc) as (Hc1 & Hc2 & Hc3).
    rewrite !url_strip by lia. cbn [decode_groups].
    rewrite !url_value_char, !url_not_pad by lia. rewrite IH.
    destruct (div_parts 16 (N_of_ascii a mod 4) (N_of_ascii b / 16)) as [-> ->]; [lia|].
    destruct (div_parts 4 (N_of_ascii b mod 16) (N_of_ascii c / 64)) as [-> ->]; [lia|].
    rewrite (byte_at_of a), (byte_at_of b), (byte_at_of c); [done|lia..].
Qed.

(** ** [base32.HexEncoding.WithPadding(base32.NoPadding)] *)

Definition hex_alphabet : string := "0123456789ABCDEFGHIJKLMNOPQRSTUV".

(** The bits of a byte, the highest first. *)
Definition bits (c : ascii) : list bool :=
  match c with Ascii b0 b1 b2 b3 b4 b5 b6 b7 => [b7; b6; b5; b4; b3; b2; b1; b0] end.

Definition five (a b c d e : bool) : ascii :=
  let v (x : bool) (n : nat) := if x then n else 0%nat in
  default "0"%char (String.get (v a 16 + v b 8 + v c 4 + v d 2 + v e 1)%nat hex_alphabet).

(** Groups of five bits; the last one is filled up with zeros. *)
Fixpoint hex_groups (l : list bool) : string :=
  match l with
  | [] => EmptyString
  | a :: b :: c :: d :: e :: l => String (five a b c d e) (hex_groups l)
  | [a; b; c; d] => String (five a b c d false) EmptyString
  | [a; b; c] => String (five a b c false false) EmptyString
  | [a; b] => String (five a b false false false) EmptyString
  | [a] => String (five a false false false false) EmptyString
  end.

Definition HexEncodeToString (s : string) : string :=
  hex_groups (flat_map bits (String.list_ascii_of_string s)).
