(* ===== verification/GoHash.v ===== *)
(** * Go standard library: MD5 and hexadecimal text

    Packages [crypto/md5] and [encoding/hex], as far as the modelled code calls
    them.  Words have 32 bits and wrap around. *)

From stdpp Require Import base list strings.
From Stdlib Require Import Ascii NArith Lia.
From S2P Require Import Prelude.
From S2P Require Import GoLib.
From S2P Require Import GoEncoding.

Open Scope N_scope.

Module GoHash.

(** ** Words of 32 bits *)

Definition word : N := 4294967296.

Definition add32 (x y : N) : N := (x + y) mod word.
Definition not32 (x : N) : N := N.lxor x (word - 1).
Definition rotl32 (x s : N) : N := N.lor (N.shiftl x s mod word) (N.shiftr x (32 - s)).

(** Little-endian words, and back. *)
Fixpoint le_words (l : list N) : list N :=
  match l with
  | a :: b :: c :: d :: l => (a + 256 * b + 65536 * c + 16777216 * d) :: le_words l
  | _ => []
  end.

Definition le_bytes (x : N) : list N :=
  [x mod 256; x / 256 mod 256; x / 65536 mod 256; x / 16777216 mod 256].

(** ** [md5.Sum] *)

Definition sines : list N :=
  [
   3614090360; 3905402710; 606105819; 3250441966; 4118548399; 1200080426;
   2821735955; 4249261313; 1770035416; 2336552879; 4294925233; 2304563134;
   1804603682; 4254626195; 2792965006; 1236535329; 4129170786; 3225465664;
   643717713; 3921069994; 3593408605; 38016083; 3634488961; 3889429448;
   568446438; 3275163606; 4107603335; 1163531501; 2850285829; 4243563512;
   1735328473; 2368359562; 4294588738; 2272392833; 1839030562; 4259657740;
   2763975236; 1272893353; 4139469664; 3200236656; 681279174; 3936430074;
   3572445317; 76029189; 3654602809; 3873151461; 530742520; 3299628645;
   4096336452; 1126891415; 2878612391; 4237533241; 1700485571; 2399980690;
   4293915773; 2240044497; 1873313359; 4264355552; 2734768916; 1309151649;
   4149444226; 3174756917; 718787259; 3951481745].

Definition shifts (i : N) : N :=
  let row := match i / 16 with 0 => [7; 12; 17; 22] | 1 => [5; 9; 14; 20] | 2 => [4; 11; 16; 23] | _ => [6; 10; 15; 21] end in
  nth (N.to_nat (i mod 4)) row 0.

(** The function of a round and the word of the block it takes. *)
Definition round (i b c d : N) : N * N :=
  match i / 16 with
  | 0 => (N.lor (N.land b c) (N.land (not32 b) d), i)
  | 1 => (N.lor (N.land d b) (N.land (not32 d) c), (5 * i + 1) mod 16)
  | 2 => (N.lxor (N.lxor b c) d, (3 * i + 5) mod 16)
  | _ => (N.lxor c (N.lor b (not32 d)), 7 * i mod 16)
  end.

Definition md5_step (block : list N) (s : N * N * N * N) (ik : N * N) : N * N * N * N :=
  let '(a, b, c, d) := s in
  let '(i, k) := ik in
  let '(f, g) := round i b c d in
  let f := add32 (add32 (add32 f a) k) (nth (N.to_nat g) block 0) in
  (d, add32 b (rotl32 f (shifts i)), b, c).

Definition md5_block (s : N * N * N * N) (block : list N) : N * N * N * N :=
  let '(a, b, c, d) := s in
  let '(a', b', c', d') :=
    fold_left (md5_step block) (combine (N.of_nat <$> seq 0 64) sines) s in
  (add32 a a', add32 b b', add32 c c', add32 d d').

Definition string_bytes (s : string) : list N := N_of_ascii <$> String.list_ascii_of_string s.

(** The message, a bit that is set, zeros, and the length in bits. *)
Definition md5_pad (l : list N) : list N :=
  let n := N.of_nat (length l) in
  l ++ 128 :: replicate (N.to_nat ((119 - n mod 64) mod 64)) 0 ++
  le_bytes (8 * n mod word) ++ le_bytes (8 * n / word mod word).

Fixpoint blocks (fuel : nat) (l : list N) : list (list N) :=
  match fuel, l with
  | S fuel, _ :: _ => take 16 l :: blocks fuel (drop 16 l)
  | _, _ => []
  end.

(** The digest of a string, sixteen bytes. *)
Definition md5_Sum (s : string) : list N :=
  let words := le_words (md5_pad (string_bytes s)) in
  let '(a, b, c, d) := fold_left md5_block (blocks (length words) words)
    (1732584193, 4023233417, 2562383102, 271733878) in
  le_bytes a ++ le_bytes b ++ le_bytes c ++ le_bytes d.

(** ** [hex.EncodeToString] *)

Definition hex_digits : string := "0123456789abcdef".

Definition hex_digit (n : N) : ascii := default "0"%char (String.get (N.to_nat n) hex_digits).

Fixpoint hex_EncodeToString (l : list N) : string :=
  match l with
  | [] => EmptyString
  | b :: l => String (hex_digit (b / 16)) (String (hex_digit (b mod 16)) (hex_EncodeToString l))
  end.

(** The digests of the test suite of RFC 1321. *)
Lemma md5_suite :
  hex_EncodeToString (md5_Sum "") = "d41d8cd98f00b204e9800998ecf8427e" ∧
  hex_EncodeToString (md5_Sum "abc") = "900150983cd24fb0d6963f7d28e17f72" ∧
  hex_EncodeToString (md5_Sum "ABCDEFGHIJKLMNOPQRSTUVWXYZabcdefghijklmnopqrstuvwxyz0123456789") =
    "d174ab98d277d9f5a5611c2c9f419d9f" ∧
  hex_EncodeToString (md5_Sum "12345678901234567890123456789012345678901234567890123456789012345678901234567890") =
    "57edf4a22be3c955ac49da2e2107b67a".
Proof. vm_compute. split_and!; reflexivity. Qed.

Lemma hex_length l : String.length (hex_EncodeToString l) = (2 * length l)%nat.
Proof. induction l as [|b l IH]; simpl; [done|rewrite IH; lia]. Qed.

Lemma md5_length s : length (md5_Sum s) = 16%nat.
Proof. unfold md5_Sum. by destruct (fold_left md5_block _ _) as [[[a b] c] d]. Qed.

End GoHash.
