(* ===== verification/KubeTypes.v ===== *)
(** * Kubernetes objects: metadata, RBAC and management types

    The API types of packages [k8s.io/apimachinery/pkg/apis/meta/v1],
    [k8s.io/api/rbac/v1] and
    [github.com/rancher/types/apis/management.cattle.io/v3] (vendored in the
    repository) the access control and authentication code works on, with the
    fields that code reads or writes. *)

From stdpp Require Import base gmap list strings.
From Stdlib Require Import ZArith.

(** ** Object metadata *)

Record TypeMeta := { Kind : string; APIVersion : string }.

Record OwnerReference := {
  or_APIVersion : string;
  or_Kind : string;
  or_Name : string;
  or_UID : string }.

Record ObjectMeta := {
  Name : string;
  GenerateName : string;
  Namespace : string;
  UID : string;
  ResourceVersion : string;
  Labels : gmap string string;
  Annotations : gmap string string;
  OwnerReferences : list OwnerReference;
  CreationTimestamp : Z;
  DeletionTimestamp : option Z }.

(** The zero [metav1.ObjectMeta{}], and the struct literals the code writes. *)
Definition no_meta : ObjectMeta :=
  {| Name := ""; GenerateName := ""; Namespace := ""; UID := ""; ResourceVersion := "";
     Labels := ∅; Annotations := ∅; OwnerReferences := [];
     CreationTimestamp := 0; DeletionTimestamp := None |}.

Definition named_meta (name : string) (labels annotations : gmap string string)
    (owners : list OwnerReference) : ObjectMeta :=
  {| Name := name; GenerateName := ""; Namespace := ""; UID := ""; ResourceVersion := "";
     Labels := labels; Annotations := annotations; OwnerReferences := owners;
     CreationTimestamp := 0; DeletionTimestamp := None |}.

Definition generate_meta (prefix : string) (labels annotations : gmap string string) :
    ObjectMeta :=
  {| Name := ""; GenerateName := prefix; Namespace := ""; UID := ""; ResourceVersion := "";
     Labels := labels; Annotations := annotations; OwnerReferences := [];
     CreationTimestamp := 0; DeletionTimestamp := None |}.

Definition with_Labels (l : gmap string string) (m : ObjectMeta) : ObjectMeta :=
  {| Name := Name m; GenerateName := GenerateName m; Namespace := Namespace m;
     UID := UID m; ResourceVersion := ResourceVersion m; Labels := l; Annotations := Annotations m;
     OwnerReferences := OwnerReferences m; CreationTimestamp := CreationTimestamp m;
     DeletionTimestamp := DeletionTimestamp m |}.

Definition with_Annotations (a : gmap string string) (m : ObjectMeta) : ObjectMeta :=
  {| Name := Name m; GenerateName := GenerateName m; Namespace := Namespace m;
     UID := UID m; ResourceVersion := ResourceVersion m; Labels := Labels m; Annotations := a;
     OwnerReferences := OwnerReferences m; CreationTimestamp := CreationTimestamp m;
     DeletionTimestamp := DeletionTimestamp m |}.

(** ** RBAC and management types *)

Record PolicyRule := {
  Verbs : list string;
  APIGroups : list string;
  Resources : list string;
  ResourceNames : list string;
  NonResourceURLs : list string }.

Record Subject := {
  s_Kind : string;
  s_APIGroup : string;
  s_Name : string;
  s_Namespace : string }.

Record RoleRef := { rr_APIGroup : string; rr_Kind : string; rr_Name : string }.

(** The conditions of a status. *)
Record Condition := {
  c_Type : string;
  c_Status : string;
  c_LastUpdateTime : string;
  c_Reason : string;
  c_Message : string }.

Record Principal := {
  p_Name : string;
  p_DisplayName : string;
  p_LoginName : string;
  p_ProfilePicture : string;
  p_ProfileURL : string;
  p_PrincipalType : string;
  p_Me : bool;
  p_MemberOf : bool;
  p_Provider : string;
  p_ExtraInfo : gmap string string }.

Record ClusterRole := {
  cr_meta : ObjectMeta;
  cr_Rules : list PolicyRule }.

Record Role := {
  r_meta : ObjectMeta;
  r_Rules : list PolicyRule }.

Record ClusterRoleBinding := {
  crb_meta : ObjectMeta;
  crb_Subjects : list Subject;
  crb_RoleRef : RoleRef }.

Record RoleBinding := {
  rb_meta : ObjectMeta;
  rb_Subjects : list Subject;
  rb_RoleRef : RoleRef }.

Record RoleTemplate := {
  rt_meta : ObjectMeta;
  rt_DisplayName : string;
  rt_Description : string;
  rt_Rules : list PolicyRule;
  rt_Builtin : bool;
  rt_External : bool;
  rt_Hidden : bool;
  rt_Locked : bool;
  rt_Context : string;
  rt_RoleTemplateNames : list string }.

Record ProjectRoleTemplateBinding := {
  prtb_meta : ObjectMeta;
  prtb_type : TypeMeta;
  prtb_UserName : string;
  prtb_UserPrincipalName : string;
  prtb_GroupName : string;
  prtb_GroupPrincipalName : string;
  prtb_ProjectName : string;
  prtb_RoleTemplateName : string }.

Record ClusterRoleTemplateBinding := {
  crtb_meta : ObjectMeta;
  crtb_type : TypeMeta;
  crtb_UserName : string;
  crtb_UserPrincipalName : string;
  crtb_GroupName : string;
  crtb_GroupPrincipalName : string;
  crtb_ClusterName : string;
  crtb_RoleTemplateName : string }.

Record GlobalRole := {
  gr_meta : ObjectMeta;
  gr_type : TypeMeta;
  gr_DisplayName : string;
  gr_Description : string;
  gr_Rules : list PolicyRule;
  gr_Builtin : bool }.

Record GlobalRoleBinding := {
  grb_meta : ObjectMeta;
  grb_type : TypeMeta;
  grb_UserName : string;
  grb_GlobalRoleName : string }.

Record Project := {
  proj_meta : ObjectMeta;
  proj_type : TypeMeta;
  proj_DisplayName : string;
  proj_Description : string;
  proj_ClusterName : string;
  proj_Conditions : list Condition }.

Record ClusterSpec := {
  cs_Internal : bool;
  cs_RancherKubernetesEngineConfig : bool;
  cs_DefaultPodSecurityPolicyTemplateName : string }.

(** The status of a cluster but for its conditions. *)
Record ClusterStatus := {
  cs_Driver : string;
  cs_APIEndpoint : string;
  cs_ServiceAccountToken : string;
  cs_CACert : string;
  cs_AppliedPodSecurityPolicyTemplateName : string }.

Record Cluster := {
  cluster_meta : ObjectMeta;
  cluster_type : TypeMeta;
  cluster_Spec : ClusterSpec;
  cluster_Status : ClusterStatus;
  cluster_Conditions : list Condition }.

(** The zero values. *)
Definition no_spec : ClusterSpec :=
  {| cs_Internal := false; cs_RancherKubernetesEngineConfig := false;
     cs_DefaultPodSecurityPolicyTemplateName := "" |}.

Definition no_status : ClusterStatus :=
  {| cs_Driver := ""; cs_APIEndpoint := ""; cs_ServiceAccountToken := ""; cs_CACert := "";
     cs_AppliedPodSecurityPolicyTemplateName := "" |}.

Record NamespaceObject := {
  ns_meta : ObjectMeta;
  ns_Phase : string }.

Record User := {
  user_meta : ObjectMeta;
  user_DisplayName : string;
  user_Description : string;
  user_Username : string;
  user_Password : string;
  user_MustChangePassword : bool;
  user_PrincipalIDs : list string;
  user_Me : bool }.

Record Token := {
  token_meta : ObjectMeta;
  token_type : TypeMeta;
  token_Token : string;
  token_UserPrincipal : Principal;
  token_GroupPrincipals : list Principal;
  token_ProviderInfo : gmap string string;
  token_UserID : string;
  token_AuthProvider : string;
  token_TTLMillis : Z;
  token_LastUpdateTime : string;
  token_IsDerived : bool;
  token_Description : string;
  token_Expired : bool;
  token_ExpiresAt : string }.

Definition set_cr_meta (m : ObjectMeta) (o : ClusterRole) : ClusterRole :=
  {| cr_meta := m; cr_Rules := cr_Rules o |}.

Definition set_r_meta (m : ObjectMeta) (o : Role) : Role :=
  {| r_meta := m; r_Rules := r_Rules o |}.

Definition set_crb_meta (m : ObjectMeta) (o : ClusterRoleBinding) : ClusterRoleBinding :=
  {| crb_meta := m; crb_Subjects := crb_Subjects o; crb_RoleRef := crb_RoleRef o |}.

Definition set_rb_meta (m : ObjectMeta) (o : RoleBinding) : RoleBinding :=
  {| rb_meta := m; rb_Subjects := rb_Subjects o; rb_RoleRef := rb_RoleRef o |}.

Definition set_rt_meta (m : ObjectMeta) (o : RoleTemplate) : RoleTemplate :=
  {| rt_meta := m; rt_DisplayName := rt_DisplayName o; rt_Description := rt_Description o; rt_Rules := rt_Rules o; rt_Builtin := rt_Builtin o; rt_External := rt_External o; rt_Hidden := rt_Hidden o; rt_Locked := rt_Locked o; rt_Context := rt_Context o; rt_RoleTemplateNames := rt_RoleTemplateNames o |}.

Definition set_prtb_meta (m : ObjectMeta) (o : ProjectRoleTemplateBinding) : ProjectRoleTemplateBinding :=
  {| prtb_meta := m; prtb_type := prtb_type o; prtb_UserName := prtb_UserName o; prtb_UserPrincipalName := prtb_UserPrincipalName o; prtb_GroupName := prtb_GroupName o; prtb_GroupPrincipalName := prtb_GroupPrincipalName o; prtb_ProjectName := prtb_ProjectName o; prtb_RoleTemplateName := prtb_RoleTemplateName o |}.

Definition set_crtb_meta (m : ObjectMeta) (o : ClusterRoleTemplateBinding) : ClusterRoleTemplateBinding :=
  {| crtb_meta := m; crtb_type := crtb_type o; crtb_UserName := crtb_UserName o; crtb_UserPrincipalName := crtb_UserPrincipalName o; crtb_GroupName := crtb_GroupName o; crtb_GroupPrincipalName := crtb_GroupPrincipalName o; crtb_ClusterName := crtb_ClusterName o; crtb_RoleTemplateName := crtb_RoleTemplateName o |}.

Definition set_gr_meta (m : ObjectMeta) (o : GlobalRole) : GlobalRole :=
  {| gr_meta := m; gr_type := gr_type o; gr_DisplayName := gr_DisplayName o; gr_Description := gr_Description o; gr_Rules := gr_Rules o; gr_Builtin := gr_Builtin o |}.

Definition set_grb_meta (m : ObjectMeta) (o : GlobalRoleBinding) : GlobalRoleBinding :=
  {| grb_meta := m; grb_type := grb_type o; grb_UserName := grb_UserName o; grb_GlobalRoleName := grb_GlobalRoleName o |}.

Definition set_proj_meta (m : ObjectMeta) (o : Project) : Project :=
  {| proj_meta := m; proj_type := proj_type o; proj_DisplayName := proj_DisplayName o; proj_Description := proj_Description o; proj_ClusterName := proj_ClusterName o; proj_Conditions := proj_Conditions o |}.

Definition set_cluster_meta (m : ObjectMeta) (o : Cluster) : Cluster :=
  {| cluster_meta := m; cluster_type := cluster_type o; cluster_Spec := cluster_Spec o;
     cluster_Status := cluster_Status o; cluster_Conditions := cluster_Conditions o |}.

Definition set_ns_meta (m : ObjectMeta) (o : NamespaceObject) : NamespaceObject :=
  {| ns_meta := m; ns_Phase := ns_Phase o |}.

Definition set_user_meta (m : ObjectMeta) (o : User) : User :=
  {| user_meta := m; user_DisplayName := user_DisplayName o; user_Description := user_Description o;
     user_Username := user_Username o; user_Password := user_Password o;
     user_MustChangePassword := user_MustChangePassword o; user_PrincipalIDs := user_PrincipalIDs o;
     user_Me := user_Me o |}.

Definition set_token_meta (m : ObjectMeta) (o : Token) : Token :=
  {| token_meta := m; token_type := token_type o; token_Token := token_Token o;
     token_UserPrincipal := token_UserPrincipal o;
     token_GroupPrincipals := token_GroupPrincipals o; token_ProviderInfo := token_ProviderInfo o;
     token_UserID := token_UserID o; token_AuthProvider := token_AuthProvider o;
     token_TTLMillis := token_TTLMillis o; token_LastUpdateTime := token_LastUpdateTime o;
     token_IsDerived := token_IsDerived o; token_Description := token_Description o;
     token_Expired := token_Expired o; token_ExpiresAt := token_ExpiresAt o |}.

(** Decidable equality, for [reflect.DeepEqual]. *)
#[export] Instance TypeMeta_eq_dec : EqDecision TypeMeta.
Proof. solve_decision. Defined.
#[export] Instance OwnerReference_eq_dec : EqDecision OwnerReference.
Proof. solve_decision. Defined.
#[export] Instance ObjectMeta_eq_dec : EqDecision ObjectMeta.
Proof. solve_decision. Defined.
#[export] Instance PolicyRule_eq_dec : EqDecision PolicyRule.
Proof. solve_decision. Defined.
#[export] Instance Subject_eq_dec : EqDecision Subject.
Proof. solve_decision. Defined.
#[export] Instance RoleRef_eq_dec : EqDecision RoleRef.
Proof. solve_decision. Defined.
#[export] Instance Condition_eq_dec : EqDecision Condition.
Proof. solve_decision. Defined.
#[export] Instance Principal_eq_dec : EqDecision Principal.
Proof. solve_decision. Defined.
#[export] Instance ClusterRole_eq_dec : EqDecision ClusterRole.
Proof. solve_decision. Defined.
#[export] Instance Role_eq_dec : EqDecision Role.
Proof. solve_decision. Defined.
#[export] Instance ClusterRoleBinding_eq_dec : EqDecision ClusterRoleBinding.
Proof. solve_decision. Defined.
#[export] Instance RoleBinding_eq_dec : EqDecision RoleBinding.
Proof. solve_decision. Defined.
#[export] Instance RoleTemplate_eq_dec : EqDecision RoleTemplate.
Proof. solve_decision. Defined.
#[export] Instance ProjectRoleTemplateBinding_eq_dec : EqDecision ProjectRoleTemplateBinding.
Proof. solve_decision. Defined.
#[export] Instance ClusterRoleTemplateBinding_eq_dec : EqDecision ClusterRoleTemplateBinding.
Proof. solve_decision. Defined.
#[export] Instance GlobalRole_eq_dec : EqDecision GlobalRole.
Proof. solve_decision. Defined.
#[export] Instance GlobalRoleBinding_eq_dec : EqDecision GlobalRoleBinding.
Proof. solve_decision. Defined.
#[export] Instance Project_eq_dec : EqDecision Project.
Proof. solve_decision. Defined.
#[export] Instance ClusterSpec_eq_dec : EqDecision ClusterSpec.
Proof. solve_decision. Defined.
#[export] Instance ClusterStatus_eq_dec : EqDecision ClusterStatus.
Proof. solve_decision. Defined.
#[export] Instance Cluster_eq_dec : EqDecision Cluster.
Proof. solve_decision. Defined.
#[export] Instance NamespaceObject_eq_dec : EqDecision NamespaceObject.
Proof. solve_decision. Defined.
#[export] Instance User_eq_dec : EqDecision User.
Proof. solve_decision. Defined.
#[export] Instance Token_eq_dec : EqDecision Token.
Proof. solve_decision. Defined.

(** Objects are keyed by namespace (empty for cluster-scoped kinds) and name. *)
Abbreviation nsname := (string * string)%type.
