(* ===== verification/KubeObjects.v ===== *)
(** * Kubernetes objects: nodes, workloads and policies

    The API types the controllers of nodes, network policies, pod security
    policies and secrets work on (vendored packages [k8s.io/api] and
    [github.com/rancher/types/apis/management.cattle.io/v3]), with the fields
    that code reads or writes, and a table for each kind of object. *)

From stdpp Require Import base gmap list strings.
From Stdlib Require Import ZArith.
From S2P Require Import KubeTypes.

(** A Go slice: [None] is nil, which [reflect.DeepEqual] tells from an empty
    slice. *)
Abbreviation slice A := (option (list A)).

Definition items {A} (s : slice A) : list A := default [] s.

(** What a decoded object has for a field that is omitted when empty. *)
Definition omit_empty {A} (s : slice A) : slice A :=
  match s with Some [] => None | _ => s end.

(** ** Nodes *)

Record CustomConfig := {
  cc_Address : string;
  cc_InternalAddress : string;
  cc_User : string;
  cc_DockerSocket : string;
  cc_SSHKey : string }.

Record RKEConfigNode := {
  rke_Address : string;
  rke_InternalAddress : string;
  rke_Role : list string;
  rke_HostnameOverride : string;
  rke_User : string }.

Record DockerInfo := {
  di_ID : string;
  di_Driver : string;
  di_Debug : bool;
  di_LoggingDriver : string;
  di_CgroupDriver : string;
  di_KernelVersion : string;
  di_OperatingSystem : string;
  di_OSType : string;
  di_Architecture : string;
  di_IndexServerAddress : string;
  di_DockerRootDir : string;
  di_HTTPProxy : string;
  di_HTTPSProxy : string;
  di_NoProxy : string;
  di_Name : string;
  di_Labels : list string;
  di_ExperimentalBuild : bool;
  di_ServerVersion : string }.

(** Resources by name, in units of 10^-9, the finest a quantity can be. *)
Notation ResourceList := (gmap string Z).

Record Taint := { taint_Key : string; taint_Value : string; taint_Effect : string }.

(** [corev1.NodeSpec] and [corev1.NodeStatus]. *)
Record CoreNodeSpec := {
  cns_PodCIDR : string;
  cns_Unschedulable : bool;
  cns_Taints : list Taint }.

Record NodeCondition := {
  nc_Type : string;
  nc_Status : string;
  nc_LastHeartbeatTime : Z;
  nc_LastTransitionTime : Z;
  nc_Reason : string;
  nc_Message : string }.

Record NodeAddress := { na_Type : string; na_Address : string }.

Record CoreNodeStatus := {
  cnt_Capacity : ResourceList;
  cnt_Allocatable : ResourceList;
  cnt_Conditions : list NodeCondition;
  cnt_Addresses : list NodeAddress }.

Definition no_node_spec : CoreNodeSpec :=
  {| cns_PodCIDR := ""; cns_Unschedulable := false; cns_Taints := [] |}.

Definition no_node_status : CoreNodeStatus :=
  {| cnt_Capacity := ∅; cnt_Allocatable := ∅; cnt_Conditions := []; cnt_Addresses := [] |}.

(** ** Pods, services and network policies *)

Record ContainerPort := {
  cp_Name : string;
  cp_HostPort : Z;
  cp_ContainerPort : Z;
  cp_Protocol : string;
  cp_HostIP : string }.

Record Container := {
  ctr_Name : string;
  ctr_Ports : list ContainerPort;
  ctr_Requests : ResourceList;
  ctr_Limits : ResourceList }.

(** [intstr.IntOrString]. *)
Inductive IntOrString := FromInt (n : Z) | FromString (s : string).

Record ServicePort := {
  sp_Name : string;
  sp_Protocol : string;
  sp_Port : Z;
  sp_TargetPort : IntOrString;
  sp_NodePort : Z }.

(** A [LabelSelector] without expressions: [MatchLabels]. *)
Record LabelSelector := { MatchLabels : gmap string string }.

Record IPBlock := { CIDR : string; Except : list string }.

Record NetworkPolicyPeer := {
  peer_PodSelector : option LabelSelector;
  peer_NamespaceSelector : option LabelSelector;
  peer_IPBlock : option IPBlock }.

Record NetworkPolicyPort := {
  npp_Protocol : option string;
  npp_Port : option IntOrString }.

Record NetworkPolicyIngressRule := {
  ing_From : slice NetworkPolicyPeer;
  ing_Ports : slice NetworkPolicyPort }.

Record NetworkPolicySpec := {
  nps_PodSelector : LabelSelector;
  nps_Ingress : slice NetworkPolicyIngressRule;
  nps_PolicyTypes : slice string }.

(** ** Pod security policies *)

(** The strategy options of a policy: the rule and the ranges it is about. *)
Record StrategyOptions := { so_Rule : string; so_Ranges : list (Z * Z) }.

Record PodSecurityPolicySpec := {
  psps_Privileged : bool;
  psps_DefaultAddCapabilities : list string;
  psps_RequiredDropCapabilities : list string;
  psps_AllowedCapabilities : list string;
  psps_Volumes : list string;
  psps_HostNetwork : bool;
  psps_HostPorts : list (Z * Z);
  psps_HostPID : bool;
  psps_HostIPC : bool;
  psps_SELinux : StrategyOptions;
  psps_RunAsUser : StrategyOptions;
  psps_SupplementalGroups : StrategyOptions;
  psps_FSGroup : StrategyOptions;
  psps_ReadOnlyRootFilesystem : bool;
  psps_DefaultAllowPrivilegeEscalation : option bool;
  psps_AllowPrivilegeEscalation : option bool;
  psps_AllowedHostPaths : list string }.

(** ** The kinds of objects *)

(** A node as the management server sees it ([v3.Node]). *)
Record Node := {
  node_meta : ObjectMeta;
  node_Etcd : bool;
  node_ControlPlane : bool;
  node_Worker : bool;
  node_NodeTemplateName : string;
  node_NodePoolName : string;
  node_CustomConfig : option CustomConfig;
  node_Imported : bool;
  node_RequestedHostname : string;
  node_InternalNodeSpec : CoreNodeSpec;
  node_DesiredNodeLabels : gmap string string;
  node_DesiredNodeAnnotations : gmap string string;
  node_DesiredNodeUnschedulable : string;
  node_Conditions : list Condition;
  node_InternalNodeStatus : CoreNodeStatus;
  node_NodeName : string;
  node_Requested : ResourceList;
  node_Limits : ResourceList;
  node_NodeConfig : option RKEConfigNode;
  node_NodeAnnotations : gmap string string;
  node_NodeLabels : gmap string string;
  node_DockerInfo : option DockerInfo }.

Record NodePool := {
  pool_meta : ObjectMeta;
  pool_Etcd : bool;
  pool_ControlPlane : bool;
  pool_Worker : bool;
  pool_NodeTemplateName : string;
  pool_HostnamePrefix : string;
  pool_Quantity : Z;
  pool_DisplayName : string;
  pool_ClusterName : string;
  pool_Conditions : list Condition }.

Record ClusterRegistrationToken := {
  crt_meta : ObjectMeta;
  crt_ClusterName : string;
  crt_InsecureCommand : string;
  crt_Command : string;
  crt_NodeCommand : string;
  crt_ManifestURL : string;
  crt_Token : string }.

Record ProjectNetworkPolicy := {
  pnp_meta : ObjectMeta;
  pnp_ProjectName : string;
  pnp_Description : string }.

Record PodSecurityPolicyTemplate := {
  pspt_meta : ObjectMeta;
  pspt_Description : string;
  pspt_Spec : PodSecurityPolicySpec }.

Record PodSecurityPolicyTemplateProjectBinding := {
  psptpb_meta : ObjectMeta;
  psptpb_PodSecurityPolicyTemplateName : string;
  psptpb_TargetProjectName : string }.

(** The namespaces and the secrets of the management cluster, where a project has a
    namespace of its name; [NamespaceObject] and [Secret] are those of the user
    cluster. *)
Record ManagementNamespace := {
  mns_meta : ObjectMeta;
  mns_Phase : string }.

Record ManagementSecret := {
  msec_meta : ObjectMeta;
  msec_Kind : string;
  msec_Data : gmap string string;
  msec_StringData : gmap string string;
  msec_Type : string }.

Record Secret := {
  sec_meta : ObjectMeta;
  sec_Kind : string;
  sec_Data : gmap string string;
  sec_StringData : gmap string string;
  sec_Type : string }.

(** A node of the user cluster ([corev1.Node]). *)
Record CoreNode := {
  cnode_meta : ObjectMeta;
  cnode_Spec : CoreNodeSpec;
  cnode_Status : CoreNodeStatus }.

Record Pod := {
  pod_meta : ObjectMeta;
  pod_NodeName : string;
  pod_Phase : string;
  pod_InitContainers : list Container;
  pod_Containers : list Container }.

Record Service := {
  svc_meta : ObjectMeta;
  svc_Selector : gmap string string;
  svc_Ports : list ServicePort }.

Record NetworkPolicy := {
  netpol_meta : ObjectMeta;
  netpol_Spec : NetworkPolicySpec }.

Record PodSecurityPolicy := {
  psp_meta : ObjectMeta;
  psp_Spec : PodSecurityPolicySpec }.

Record Group := {
  grp_meta : ObjectMeta;
  grp_DisplayName : string }.

Record GroupMember := {
  gm_meta : ObjectMeta;
  gm_GroupName : string;
  gm_PrincipalID : string }.

Record AuthConfig := {
  ac_meta : ObjectMeta;
  ac_Enabled : bool;
  ac_AccessMode : string;
  ac_AllowedPrincipalIDs : list string }.

Record ServiceAccount := {
  sa_meta : ObjectMeta }.

Definition set_node_meta (m : ObjectMeta) (o : Node) : Node :=
  {| node_meta := m; node_Etcd := node_Etcd o; node_ControlPlane := node_ControlPlane o;
     node_Worker := node_Worker o; node_NodeTemplateName := node_NodeTemplateName o;
     node_NodePoolName := node_NodePoolName o; node_CustomConfig := node_CustomConfig o;
     node_Imported := node_Imported o; node_RequestedHostname := node_RequestedHostname o;
     node_InternalNodeSpec := node_InternalNodeSpec o;
     node_DesiredNodeLabels := node_DesiredNodeLabels o;
     node_DesiredNodeAnnotations := node_DesiredNodeAnnotations o;
     node_DesiredNodeUnschedulable := node_DesiredNodeUnschedulable o;
     node_Conditions := node_Conditions o; node_InternalNodeStatus := node_InternalNodeStatus o;
     node_NodeName := node_NodeName o; node_Requested := node_Requested o; node_Limits := node_Limits o;
     node_NodeConfig := node_NodeConfig o; node_NodeAnnotations := node_NodeAnnotations o;
     node_NodeLabels := node_NodeLabels o; node_DockerInfo := node_DockerInfo o |}.

Definition set_pool_meta (m : ObjectMeta) (o : NodePool) : NodePool :=
  {| pool_meta := m; pool_Etcd := pool_Etcd o; pool_ControlPlane := pool_ControlPlane o;
     pool_Worker := pool_Worker o; pool_NodeTemplateName := pool_NodeTemplateName o;
     pool_HostnamePrefix := pool_HostnamePrefix o; pool_Quantity := pool_Quantity o;
     pool_DisplayName := pool_DisplayName o; pool_ClusterName := pool_ClusterName o;
     pool_Conditions := pool_Conditions o |}.

Definition set_crt_meta (m : ObjectMeta) (o : ClusterRegistrationToken) : ClusterRegistrationToken :=
  {| crt_meta := m; crt_ClusterName := crt_ClusterName o;
     crt_InsecureCommand := crt_InsecureCommand o; crt_Command := crt_Command o;
     crt_NodeCommand := crt_NodeCommand o; crt_ManifestURL := crt_ManifestURL o;
     crt_Token := crt_Token o |}.

Definition set_pnp_meta (m : ObjectMeta) (o : ProjectNetworkPolicy) : ProjectNetworkPolicy :=
  {| pnp_meta := m; pnp_ProjectName := pnp_ProjectName o;
     pnp_Description := pnp_Description o |}.

Definition set_pspt_meta (m : ObjectMeta) (o : PodSecurityPolicyTemplate) : PodSecurityPolicyTemplate :=
  {| pspt_meta := m; pspt_Description := pspt_Description o; pspt_Spec := pspt_Spec o |}.

Definition set_psptpb_meta (m : ObjectMeta) (o : PodSecurityPolicyTemplateProjectBinding) : PodSecurityPolicyTemplateProjectBinding :=
  {| psptpb_meta := m;
     psptpb_PodSecurityPolicyTemplateName := psptpb_PodSecurityPolicyTemplateName o;
     psptpb_TargetProjectName := psptpb_TargetProjectName o |}.

Definition set_mns_meta (m : ObjectMeta) (o : ManagementNamespace) : ManagementNamespace :=
  {| mns_meta := m; mns_Phase := mns_Phase o |}.

Definition set_msec_meta (m : ObjectMeta) (o : ManagementSecret) : ManagementSecret :=
  {| msec_meta := m; msec_Kind := msec_Kind o; msec_Data := msec_Data o;
     msec_StringData := msec_StringData o; msec_Type := msec_Type o |}.

Definition set_sec_meta (m : ObjectMeta) (o : Secret) : Secret :=
  {| sec_meta := m; sec_Kind := sec_Kind o; sec_Data := sec_Data o;
     sec_StringData := sec_StringData o; sec_Type := sec_Type o |}.

Definition set_cnode_meta (m : ObjectMeta) (o : CoreNode) : CoreNode :=
  {| cnode_meta := m; cnode_Spec := cnode_Spec o; cnode_Status := cnode_Status o |}.

Definition set_pod_meta (m : ObjectMeta) (o : Pod) : Pod :=
  {| pod_meta := m; pod_NodeName := pod_NodeName o; pod_Phase := pod_Phase o;
     pod_InitContainers := pod_InitContainers o; pod_Containers := pod_Containers o |}.

Definition set_svc_meta (m : ObjectMeta) (o : Service) : Service :=
  {| svc_meta := m; svc_Selector := svc_Selector o; svc_Ports := svc_Ports o |}.

Definition set_netpol_meta (m : ObjectMeta) (o : NetworkPolicy) : NetworkPolicy :=
  {| netpol_meta := m; netpol_Spec := netpol_Spec o |}.

Definition set_psp_meta (m : ObjectMeta) (o : PodSecurityPolicy) : PodSecurityPolicy :=
  {| psp_meta := m; psp_Spec := psp_Spec o |}.

Definition set_grp_meta (m : ObjectMeta) (o : Group) : Group :=
  {| grp_meta := m; grp_DisplayName := grp_DisplayName o |}.

Definition set_gm_meta (m : ObjectMeta) (o : GroupMember) : GroupMember :=
  {| gm_meta := m; gm_GroupName := gm_GroupName o; gm_PrincipalID := gm_PrincipalID o |}.

Definition set_ac_meta (m : ObjectMeta) (o : AuthConfig) : AuthConfig :=
  {| ac_meta := m; ac_Enabled := ac_Enabled o; ac_AccessMode := ac_AccessMode o; ac_AllowedPrincipalIDs := ac_AllowedPrincipalIDs o |}.

Definition set_sa_meta (m : ObjectMeta) (_ : ServiceAccount) : ServiceAccount :=
  {| sa_meta := m |}.

(** Decidable equality, for [reflect.DeepEqual]. *)
#[export] Instance CustomConfig_eq_dec : EqDecision CustomConfig.
Proof. solve_decision. Defined.
#[export] Instance RKEConfigNode_eq_dec : EqDecision RKEConfigNode.
Proof. solve_decision. Defined.
#[export] Instance DockerInfo_eq_dec : EqDecision DockerInfo.
Proof. solve_decision. Defined.
#[export] Instance Taint_eq_dec : EqDecision Taint.
Proof. solve_decision. Defined.
#[export] Instance CoreNodeSpec_eq_dec : EqDecision CoreNodeSpec.
Proof. solve_decision. Defined.
#[export] Instance NodeCondition_eq_dec : EqDecision NodeCondition.
Proof. solve_decision. Defined.
#[export] Instance NodeAddress_eq_dec : EqDecision NodeAddress.
Proof. solve_decision. Defined.
#[export] Instance CoreNodeStatus_eq_dec : EqDecision CoreNodeStatus.
Proof. solve_decision. Defined.
#[export] Instance ContainerPort_eq_dec : EqDecision ContainerPort.
Proof. solve_decision. Defined.
#[export] Instance Container_eq_dec : EqDecision Container.
Proof. solve_decision. Defined.
#[export] Instance IntOrString_eq_dec : EqDecision IntOrString.
Proof. solve_decision. Defined.
#[export] Instance ServicePort_eq_dec : EqDecision ServicePort.
Proof. solve_decision. Defined.
#[export] Instance LabelSelector_eq_dec : EqDecision LabelSelector.
Proof. solve_decision. Defined.
#[export] Instance IPBlock_eq_dec : EqDecision IPBlock.
Proof. solve_decision. Defined.
#[export] Instance NetworkPolicyPeer_eq_dec : EqDecision NetworkPolicyPeer.
Proof. solve_decision. Defined.
#[export] Instance NetworkPolicyPort_eq_dec : EqDecision NetworkPolicyPort.
Proof. solve_decision. Defined.
#[export] Instance NetworkPolicyIngressRule_eq_dec : EqDecision NetworkPolicyIngressRule.
Proof. solve_decision. Defined.
#[export] Instance NetworkPolicySpec_eq_dec : EqDecision NetworkPolicySpec.
Proof. solve_decision. Defined.
#[export] Instance StrategyOptions_eq_dec : EqDecision StrategyOptions.
Proof. solve_decision. Defined.
#[export] Instance PodSecurityPolicySpec_eq_dec : EqDecision PodSecurityPolicySpec.
Proof. solve_decision. Defined.
#[export] Instance Node_eq_dec : EqDecision Node.
Proof. solve_decision. Defined.
#[export] Instance NodePool_eq_dec : EqDecision NodePool.
Proof. solve_decision. Defined.
#[export] Instance ClusterRegistrationToken_eq_dec : EqDecision ClusterRegistrationToken.
Proof. solve_decision. Defined.
#[export] Instance ProjectNetworkPolicy_eq_dec : EqDecision ProjectNetworkPolicy.
Proof. solve_decision. Defined.
#[export] Instance PodSecurityPolicyTemplate_eq_dec : EqDecision PodSecurityPolicyTemplate.
Proof. solve_decision. Defined.
#[export] Instance PodSecurityPolicyTemplateProjectBinding_eq_dec : EqDecision PodSecurityPolicyTemplateProjectBinding.
Proof. solve_decision. Defined.
#[export] Instance ManagementNamespace_eq_dec : EqDecision ManagementNamespace.
Proof. solve_decision. Defined.
#[export] Instance ManagementSecret_eq_dec : EqDecision ManagementSecret.
Proof. solve_decision. Defined.
#[export] Instance Secret_eq_dec : EqDecision Secret.
Proof. solve_decision. Defined.
#[export] Instance CoreNode_eq_dec : EqDecision CoreNode.
Proof. solve_decision. Defined.
#[export] Instance Pod_eq_dec : EqDecision Pod.
Proof. solve_decision. Defined.
#[export] Instance Service_eq_dec : EqDecision Service.
Proof. solve_decision. Defined.
#[export] Instance NetworkPolicy_eq_dec : EqDecision NetworkPolicy.
Proof. solve_decision. Defined.
#[export] Instance PodSecurityPolicy_eq_dec : EqDecision PodSecurityPolicy.
Proof. solve_decision. Defined.
#[export] Instance Group_eq_dec : EqDecision Group.
Proof. solve_decision. Defined.
#[export] Instance GroupMember_eq_dec : EqDecision GroupMember.
Proof. solve_decision. Defined.
#[export] Instance AuthConfig_eq_dec : EqDecision AuthConfig.
Proof. solve_decision. Defined.
#[export] Instance ServiceAccount_eq_dec : EqDecision ServiceAccount.
Proof. solve_decision. Defined.

(** ** Tables *)

Record Tables := {
  t_Nodes : gmap nsname Node;
  t_NodePools : gmap nsname NodePool;
  t_ClusterRegistrationTokens : gmap nsname ClusterRegistrationToken;
  t_ProjectNetworkPolicies : gmap nsname ProjectNetworkPolicy;
  t_PodSecurityPolicyTemplates : gmap nsname PodSecurityPolicyTemplate;
  t_PodSecurityPolicyTemplateProjectBindings : gmap nsname PodSecurityPolicyTemplateProjectBinding;
  t_ManagementNamespaces : gmap nsname ManagementNamespace;
  t_ManagementSecrets : gmap nsname ManagementSecret;
  t_Secrets : gmap nsname Secret;
  t_CoreNodes : gmap nsname CoreNode;
  t_Pods : gmap nsname Pod;
  t_Services : gmap nsname Service;
  t_NetworkPolicies : gmap nsname NetworkPolicy;
  t_PodSecurityPolicies : gmap nsname PodSecurityPolicy;
  t_Groups : gmap nsname Group;
  t_GroupMembers : gmap nsname GroupMember;
  t_AuthConfigs : gmap nsname AuthConfig;
  t_ServiceAccounts : gmap nsname ServiceAccount }.

(** Every entry of [c] is the one of [a] or the one of [b]. *)
Definition between {O} (a b c : gmap nsname O) : Prop :=
  ∀ k, c !! k = a !! k ∨ c !! k = b !! k.

Definition tables_between (a b c : Tables) : Prop :=
  between (t_Nodes a) (t_Nodes b) (t_Nodes c) ∧
  between (t_NodePools a) (t_NodePools b) (t_NodePools c) ∧
  between (t_ClusterRegistrationTokens a) (t_ClusterRegistrationTokens b) (t_ClusterRegistrationTokens c) ∧
  between (t_ProjectNetworkPolicies a) (t_ProjectNetworkPolicies b) (t_ProjectNetworkPolicies c) ∧
  between (t_PodSecurityPolicyTemplates a) (t_PodSecurityPolicyTemplates b) (t_PodSecurityPolicyTemplates c) ∧
  between (t_PodSecurityPolicyTemplateProjectBindings a) (t_PodSecurityPolicyTemplateProjectBindings b) (t_PodSecurityPolicyTemplateProjectBindings c) ∧
  between (t_ManagementNamespaces a) (t_ManagementNamespaces b) (t_ManagementNamespaces c) ∧
  between (t_ManagementSecrets a) (t_ManagementSecrets b) (t_ManagementSecrets c) ∧
  between (t_Secrets a) (t_Secrets b) (t_Secrets c) ∧
  between (t_CoreNodes a) (t_CoreNodes b) (t_CoreNodes c) ∧
  between (t_Pods a) (t_Pods b) (t_Pods c) ∧
  between (t_Services a) (t_Services b) (t_Services c) ∧
  between (t_NetworkPolicies a) (t_NetworkPolicies b) (t_NetworkPolicies c) ∧
  between (t_PodSecurityPolicies a) (t_PodSecurityPolicies b) (t_PodSecurityPolicies c) ∧
  between (t_Groups a) (t_Groups b) (t_Groups c) ∧
  between (t_GroupMembers a) (t_GroupMembers b) (t_GroupMembers c) ∧
  between (t_AuthConfigs a) (t_AuthConfigs b) (t_AuthConfigs c) ∧
  between (t_ServiceAccounts a) (t_ServiceAccounts b) (t_ServiceAccounts c).

Definition set_t_Nodes (x : gmap nsname Node) (t : Tables) : Tables :=
  {| t_Nodes := x; t_NodePools := t_NodePools t;
     t_ClusterRegistrationTokens := t_ClusterRegistrationTokens t;
     t_ProjectNetworkPolicies := t_ProjectNetworkPolicies t;
     t_PodSecurityPolicyTemplates := t_PodSecurityPolicyTemplates t;
     t_PodSecurityPolicyTemplateProjectBindings := t_PodSecurityPolicyTemplateProjectBindings t;
     t_ManagementNamespaces := t_ManagementNamespaces t;
     t_ManagementSecrets := t_ManagementSecrets t; t_Secrets := t_Secrets t;
     t_CoreNodes := t_CoreNodes t; t_Pods := t_Pods t; t_Services := t_Services t;
     t_NetworkPolicies := t_NetworkPolicies t;
     t_PodSecurityPolicies := t_PodSecurityPolicies t;
     t_Groups := t_Groups t; t_GroupMembers := t_GroupMembers t; t_AuthConfigs := t_AuthConfigs t;
     t_ServiceAccounts := t_ServiceAccounts t |}.

Definition set_t_NodePools (x : gmap nsname NodePool) (t : Tables) : Tables :=
  {| t_Nodes := t_Nodes t; t_NodePools := x;
     t_ClusterRegistrationTokens := t_ClusterRegistrationTokens t;
     t_ProjectNetworkPolicies := t_ProjectNetworkPolicies t;
     t_PodSecurityPolicyTemplates := t_PodSecurityPolicyTemplates t;
     t_PodSecurityPolicyTemplateProjectBindings := t_PodSecurityPolicyTemplateProjectBindings t;
     t_ManagementNamespaces := t_ManagementNamespaces t;
     t_ManagementSecrets := t_ManagementSecrets t; t_Secrets := t_Secrets t;
     t_CoreNodes := t_CoreNodes t; t_Pods := t_Pods t; t_Services := t_Services t;
     t_NetworkPolicies := t_NetworkPolicies t;
     t_PodSecurityPolicies := t_PodSecurityPolicies t;
     t_Groups := t_Groups t; t_GroupMembers := t_GroupMembers t; t_AuthConfigs := t_AuthConfigs t;
     t_ServiceAccounts := t_ServiceAccounts t |}.

Definition set_t_ClusterRegistrationTokens (x : gmap nsname ClusterRegistrationToken) (t : Tables) : Tables :=
  {| t_Nodes := t_Nodes t; t_NodePools := t_NodePools t; t_ClusterRegistrationTokens := x;
     t_ProjectNetworkPolicies := t_ProjectNetworkPolicies t;
     t_PodSecurityPolicyTemplates := t_PodSecurityPolicyTemplates t;
     t_PodSecurityPolicyTemplateProjectBindings := t_PodSecurityPolicyTemplateProjectBindings t;
     t_ManagementNamespaces := t_ManagementNamespaces t;
     t_ManagementSecrets := t_ManagementSecrets t; t_Secrets := t_Secrets t;
     t_CoreNodes := t_CoreNodes t; t_Pods := t_Pods t; t_Services := t_Services t;
     t_NetworkPolicies := t_NetworkPolicies t;
     t_PodSecurityPolicies := t_PodSecurityPolicies t;
     t_Groups := t_Groups t; t_GroupMembers := t_GroupMembers t; t_AuthConfigs := t_AuthConfigs t;
     t_ServiceAccounts := t_ServiceAccounts t |}.

Definition set_t_ProjectNetworkPolicies (x : gmap nsname ProjectNetworkPolicy) (t : Tables) : Tables :=
  {| t_Nodes := t_Nodes t; t_NodePools := t_NodePools t;
     t_ClusterRegistrationTokens := t_ClusterRegistrationTokens t;
     t_ProjectNetworkPolicies := x;
     t_PodSecurityPolicyTemplates := t_PodSecurityPolicyTemplates t;
     t_PodSecurityPolicyTemplateProjectBindings := t_PodSecurityPolicyTemplateProjectBindings t;
     t_ManagementNamespaces := t_ManagementNamespaces t;
     t_ManagementSecrets := t_ManagementSecrets t; t_Secrets := t_Secrets t;
     t_CoreNodes := t_CoreNodes t; t_Pods := t_Pods t; t_Services := t_Services t;
     t_NetworkPolicies := t_NetworkPolicies t;
     t_PodSecurityPolicies := t_PodSecurityPolicies t;
     t_Groups := t_Groups t; t_GroupMembers := t_GroupMembers t; t_AuthConfigs := t_AuthConfigs t;
     t_ServiceAccounts := t_ServiceAccounts t |}.

Definition set_t_PodSecurityPolicyTemplates (x : gmap nsname PodSecurityPolicyTemplate) (t : Tables) : Tables :=
  {| t_Nodes := t_Nodes t; t_NodePools := t_NodePools t;
     t_ClusterRegistrationTokens := t_ClusterRegistrationTokens t;
     t_ProjectNetworkPolicies := t_ProjectNetworkPolicies t;
     t_PodSecurityPolicyTemplates := x;
     t_PodSecurityPolicyTemplateProjectBindings := t_PodSecurityPolicyTemplateProjectBindings t;
     t_ManagementNamespaces := t_ManagementNamespaces t;
     t_ManagementSecrets := t_ManagementSecrets t; t_Secrets := t_Secrets t;
     t_CoreNodes := t_CoreNodes t; t_Pods := t_Pods t; t_Services := t_Services t;
     t_NetworkPolicies := t_NetworkPolicies t;
     t_PodSecurityPolicies := t_PodSecurityPolicies t;
     t_Groups := t_Groups t; t_GroupMembers := t_GroupMembers t; t_AuthConfigs := t_AuthConfigs t;
     t_ServiceAccounts := t_ServiceAccounts t |}.

Definition set_t_PodSecurityPolicyTemplateProjectBindings (x : gmap nsname PodSecurityPolicyTemplateProjectBinding) (t : Tables) : Tables :=
  {| t_Nodes := t_Nodes t; t_NodePools := t_NodePools t;
     t_ClusterRegistrationTokens := t_ClusterRegistrationTokens t;
     t_ProjectNetworkPolicies := t_ProjectNetworkPolicies t;
     t_PodSecurityPolicyTemplates := t_PodSecurityPolicyTemplates t;
     t_PodSecurityPolicyTemplateProjectBindings := x;
     t_ManagementNamespaces := t_ManagementNamespaces t;
     t_ManagementSecrets := t_ManagementSecrets t; t_Secrets := t_Secrets t;
     t_CoreNodes := t_CoreNodes t; t_Pods := t_Pods t; t_Services := t_Services t;
     t_NetworkPolicies := t_NetworkPolicies t;
     t_PodSecurityPolicies := t_PodSecurityPolicies t;
     t_Groups := t_Groups t; t_GroupMembers := t_GroupMembers t; t_AuthConfigs := t_AuthConfigs t;
     t_ServiceAccounts := t_ServiceAccounts t |}.

Definition set_t_ManagementNamespaces (x : gmap nsname ManagementNamespace) (t : Tables) : Tables :=
  {| t_Nodes := t_Nodes t; t_NodePools := t_NodePools t;
     t_ClusterRegistrationTokens := t_ClusterRegistrationTokens t;
     t_ProjectNetworkPolicies := t_ProjectNetworkPolicies t;
     t_PodSecurityPolicyTemplates := t_PodSecurityPolicyTemplates t;
     t_PodSecurityPolicyTemplateProjectBindings := t_PodSecurityPolicyTemplateProjectBindings t;
     t_ManagementNamespaces := x; t_ManagementSecrets := t_ManagementSecrets t;
     t_Secrets := t_Secrets t; t_CoreNodes := t_CoreNodes t; t_Pods := t_Pods t;
     t_Services := t_Services t; t_NetworkPolicies := t_NetworkPolicies t;
     t_PodSecurityPolicies := t_PodSecurityPolicies t;
     t_Groups := t_Groups t; t_GroupMembers := t_GroupMembers t; t_AuthConfigs := t_AuthConfigs t;
     t_ServiceAccounts := t_ServiceAccounts t |}.

Definition set_t_ManagementSecrets (x : gmap nsname ManagementSecret) (t : Tables) : Tables :=
  {| t_Nodes := t_Nodes t; t_NodePools := t_NodePools t;
     t_ClusterRegistrationTokens := t_ClusterRegistrationTokens t;
     t_ProjectNetworkPolicies := t_ProjectNetworkPolicies t;
     t_PodSecurityPolicyTemplates := t_PodSecurityPolicyTemplates t;
     t_PodSecurityPolicyTemplateProjectBindings := t_PodSecurityPolicyTemplateProjectBindings t;
     t_ManagementNamespaces := t_ManagementNamespaces t; t_ManagementSecrets := x;
     t_Secrets := t_Secrets t; t_CoreNodes := t_CoreNodes t; t_Pods := t_Pods t;
     t_Services := t_Services t; t_NetworkPolicies := t_NetworkPolicies t;
     t_PodSecurityPolicies := t_PodSecurityPolicies t;
     t_Groups := t_Groups t; t_GroupMembers := t_GroupMembers t; t_AuthConfigs := t_AuthConfigs t;
     t_ServiceAccounts := t_ServiceAccounts t |}.

Definition set_t_Secrets (x : gmap nsname Secret) (t : Tables) : Tables :=
  {| t_Nodes := t_Nodes t; t_NodePools := t_NodePools t;
     t_ClusterRegistrationTokens := t_ClusterRegistrationTokens t;
     t_ProjectNetworkPolicies := t_ProjectNetworkPolicies t;
     t_PodSecurityPolicyTemplates := t_PodSecurityPolicyTemplates t;
     t_PodSecurityPolicyTemplateProjectBindings := t_PodSecurityPolicyTemplateProjectBindings t;
     t_ManagementNamespaces := t_ManagementNamespaces t;
     t_ManagementSecrets := t_ManagementSecrets t; t_Secrets := x;
     t_CoreNodes := t_CoreNodes t; t_Pods := t_Pods t; t_Services := t_Services t;
     t_NetworkPolicies := t_NetworkPolicies t;
     t_PodSecurityPolicies := t_PodSecurityPolicies t;
     t_Groups := t_Groups t; t_GroupMembers := t_GroupMembers t; t_AuthConfigs := t_AuthConfigs t;
     t_ServiceAccounts := t_ServiceAccounts t |}.

Definition set_t_CoreNodes (x : gmap nsname CoreNode) (t : Tables) : Tables :=
  {| t_Nodes := t_Nodes t; t_NodePools := t_NodePools t;
     t_ClusterRegistrationTokens := t_ClusterRegistrationTokens t;
     t_ProjectNetworkPolicies := t_ProjectNetworkPolicies t;
     t_PodSecurityPolicyTemplates := t_PodSecurityPolicyTemplates t;
     t_PodSecurityPolicyTemplateProjectBindings := t_PodSecurityPolicyTemplateProjectBindings t;
     t_ManagementNamespaces := t_ManagementNamespaces t;
     t_ManagementSecrets := t_ManagementSecrets t; t_Secrets := t_Secrets t;
     t_CoreNodes := x; t_Pods := t_Pods t; t_Services := t_Services t;
     t_NetworkPolicies := t_NetworkPolicies t;
     t_PodSecurityPolicies := t_PodSecurityPolicies t;
     t_Groups := t_Groups t; t_GroupMembers := t_GroupMembers t; t_AuthConfigs := t_AuthConfigs t;
     t_ServiceAccounts := t_ServiceAccounts t |}.

Definition set_t_Pods (x : gmap nsname Pod) (t : Tables) : Tables :=
  {| t_Nodes := t_Nodes t; t_NodePools := t_NodePools t;
     t_ClusterRegistrationTokens := t_ClusterRegistrationTokens t;
     t_ProjectNetworkPolicies := t_ProjectNetworkPolicies t;
     t_PodSecurityPolicyTemplates := t_PodSecurityPolicyTemplates t;
     t_PodSecurityPolicyTemplateProjectBindings := t_PodSecurityPolicyTemplateProjectBindings t;
     t_ManagementNamespaces := t_ManagementNamespaces t;
     t_ManagementSecrets := t_ManagementSecrets t; t_Secrets := t_Secrets t;
     t_CoreNodes := t_CoreNodes t; t_Pods := x; t_Services := t_Services t;
     t_NetworkPolicies := t_NetworkPolicies t;
     t_PodSecurityPolicies := t_PodSecurityPolicies t;
     t_Groups := t_Groups t; t_GroupMembers := t_GroupMembers t; t_AuthConfigs := t_AuthConfigs t;
     t_ServiceAccounts := t_ServiceAccounts t |}.

Definition set_t_Services (x : gmap nsname Service) (t : Tables) : Tables :=
  {| t_Nodes := t_Nodes t; t_NodePools := t_NodePools t;
     t_ClusterRegistrationTokens := t_ClusterRegistrationTokens t;
     t_ProjectNetworkPolicies := t_ProjectNetworkPolicies t;
     t_PodSecurityPolicyTemplates := t_PodSecurityPolicyTemplates t;
     t_PodSecurityPolicyTemplateProjectBindings := t_PodSecurityPolicyTemplateProjectBindings t;
     t_ManagementNamespaces := t_ManagementNamespaces t;
     t_ManagementSecrets := t_ManagementSecrets t; t_Secrets := t_Secrets t;
     t_CoreNodes := t_CoreNodes t; t_Pods := t_Pods t; t_Services := x;
     t_NetworkPolicies := t_NetworkPolicies t;
     t_PodSecurityPolicies := t_PodSecurityPolicies t;
     t_Groups := t_Groups t; t_GroupMembers := t_GroupMembers t; t_AuthConfigs := t_AuthConfigs t;
     t_ServiceAccounts := t_ServiceAccounts t |}.

Definition set_t_NetworkPolicies (x : gmap nsname NetworkPolicy) (t : Tables) : Tables :=
  {| t_Nodes := t_Nodes t; t_NodePools := t_NodePools t;
     t_ClusterRegistrationTokens := t_ClusterRegistrationTokens t;
     t_ProjectNetworkPolicies := t_ProjectNetworkPolicies t;
     t_PodSecurityPolicyTemplates := t_PodSecurityPolicyTemplates t;
     t_PodSecurityPolicyTemplateProjectBindings := t_PodSecurityPolicyTemplateProjectBindings t;
     t_ManagementNamespaces := t_ManagementNamespaces t;
     t_ManagementSecrets := t_ManagementSecrets t; t_Secrets := t_Secrets t;
     t_CoreNodes := t_CoreNodes t; t_Pods := t_Pods t; t_Services := t_Services t;
     t_NetworkPolicies := x; t_PodSecurityPolicies := t_PodSecurityPolicies t;
     t_Groups := t_Groups t; t_GroupMembers := t_GroupMembers t; t_AuthConfigs := t_AuthConfigs t;
     t_ServiceAccounts := t_ServiceAccounts t |}.

Definition set_t_PodSecurityPolicies (x : gmap nsname PodSecurityPolicy) (t : Tables) : Tables :=
  {| t_Nodes := t_Nodes t; t_NodePools := t_NodePools t;
     t_ClusterRegistrationTokens := t_ClusterRegistrationTokens t;
     t_ProjectNetworkPolicies := t_ProjectNetworkPolicies t;
     t_PodSecurityPolicyTemplates := t_PodSecurityPolicyTemplates t;
     t_PodSecurityPolicyTemplateProjectBindings := t_PodSecurityPolicyTemplateProjectBindings t;
     t_ManagementNamespaces := t_ManagementNamespaces t;
     t_ManagementSecrets := t_ManagementSecrets t; t_Secrets := t_Secrets t;
     t_CoreNodes := t_CoreNodes t; t_Pods := t_Pods t; t_Services := t_Services t;
     t_NetworkPolicies := t_NetworkPolicies t; t_PodSecurityPolicies := x;
     t_Groups := t_Groups t; t_GroupMembers := t_GroupMembers t; t_AuthConfigs := t_AuthConfigs t;
     t_ServiceAccounts := t_ServiceAccounts t |}.

Definition set_t_Groups (x : gmap nsname Group) (t : Tables) : Tables :=
  {| t_Nodes := t_Nodes t; t_NodePools := t_NodePools t;
     t_ClusterRegistrationTokens := t_ClusterRegistrationTokens t;
     t_ProjectNetworkPolicies := t_ProjectNetworkPolicies t;
     t_PodSecurityPolicyTemplates := t_PodSecurityPolicyTemplates t;
     t_PodSecurityPolicyTemplateProjectBindings := t_PodSecurityPolicyTemplateProjectBindings t;
     t_ManagementNamespaces := t_ManagementNamespaces t;
     t_ManagementSecrets := t_ManagementSecrets t; t_Secrets := t_Secrets t;
     t_CoreNodes := t_CoreNodes t; t_Pods := t_Pods t; t_Services := t_Services t;
     t_NetworkPolicies := t_NetworkPolicies t;
     t_PodSecurityPolicies := t_PodSecurityPolicies t;
     t_Groups := x; t_GroupMembers := t_GroupMembers t; t_AuthConfigs := t_AuthConfigs t; t_ServiceAccounts := t_ServiceAccounts t |}.

Definition set_t_GroupMembers (x : gmap nsname GroupMember) (t : Tables) : Tables :=
  {| t_Nodes := t_Nodes t; t_NodePools := t_NodePools t;
     t_ClusterRegistrationTokens := t_ClusterRegistrationTokens t;
     t_ProjectNetworkPolicies := t_ProjectNetworkPolicies t;
     t_PodSecurityPolicyTemplates := t_PodSecurityPolicyTemplates t;
     t_PodSecurityPolicyTemplateProjectBindings := t_PodSecurityPolicyTemplateProjectBindings t;
     t_ManagementNamespaces := t_ManagementNamespaces t;
     t_ManagementSecrets := t_ManagementSecrets t; t_Secrets := t_Secrets t;
     t_CoreNodes := t_CoreNodes t; t_Pods := t_Pods t; t_Services := t_Services t;
     t_NetworkPolicies := t_NetworkPolicies t;
     t_PodSecurityPolicies := t_PodSecurityPolicies t;
     t_Groups := t_Groups t; t_GroupMembers := x; t_AuthConfigs := t_AuthConfigs t; t_ServiceAccounts := t_ServiceAccounts t |}.

Definition set_t_AuthConfigs (x : gmap nsname AuthConfig) (t : Tables) : Tables :=
  {| t_Nodes := t_Nodes t; t_NodePools := t_NodePools t;
     t_ClusterRegistrationTokens := t_ClusterRegistrationTokens t;
     t_ProjectNetworkPolicies := t_ProjectNetworkPolicies t;
     t_PodSecurityPolicyTemplates := t_PodSecurityPolicyTemplates t;
     t_PodSecurityPolicyTemplateProjectBindings := t_PodSecurityPolicyTemplateProjectBindings t;
     t_ManagementNamespaces := t_ManagementNamespaces t;
     t_ManagementSecrets := t_ManagementSecrets t; t_Secrets := t_Secrets t;
     t_CoreNodes := t_CoreNodes t; t_Pods := t_Pods t; t_Services := t_Services t;
     t_NetworkPolicies := t_NetworkPolicies t;
     t_PodSecurityPolicies := t_PodSecurityPolicies t;
     t_Groups := t_Groups t; t_GroupMembers := t_GroupMembers t; t_AuthConfigs := x; t_ServiceAccounts := t_ServiceAccounts t |}.

Definition set_t_ServiceAccounts (x : gmap nsname ServiceAccount) (t : Tables) : Tables :=
  {| t_Nodes := t_Nodes t; t_NodePools := t_NodePools t;
     t_ClusterRegistrationTokens := t_ClusterRegistrationTokens t;
     t_ProjectNetworkPolicies := t_ProjectNetworkPolicies t;
     t_PodSecurityPolicyTemplates := t_PodSecurityPolicyTemplates t;
     t_PodSecurityPolicyTemplateProjectBindings := t_PodSecurityPolicyTemplateProjectBindings t;
     t_ManagementNamespaces := t_ManagementNamespaces t;
     t_ManagementSecrets := t_ManagementSecrets t; t_Secrets := t_Secrets t;
     t_CoreNodes := t_CoreNodes t; t_Pods := t_Pods t; t_Services := t_Services t;
     t_NetworkPolicies := t_NetworkPolicies t;
     t_PodSecurityPolicies := t_PodSecurityPolicies t;
     t_Groups := t_Groups t; t_GroupMembers := t_GroupMembers t; t_AuthConfigs := t_AuthConfigs t; t_ServiceAccounts := x |}.
