(* ===== verification/Kube.v ===== *)
(** * Kubernetes API clients

    The contents of a cluster, a table per kind of [KubeTypes] and
    [KubeObjects], and the client interfaces the controllers call.

    The API server and the informer caches are services outside the
    repository: they are the parameter [Client] of every definition that uses
    them, with their documented behaviour in the classes [ClientLaws] (a call
    that succeeds has its effect, a call that fails has none) and
    [ClientHealthy] (a call that can succeed does).  The order in which Go
    visits the entries of a map is not specified by the language, so it is a
    parameter as well ([GoRuntime]); the theorems hold for every order. *)

From stdpp Require Import base gmap list strings.
From Stdlib Require Import ZArith.
From S2P Require Import Prelude.
From S2P Require Import GoLib.
From S2P Require Import KubeTypes.
From S2P Require Import KubeObjects.

(** ** Cluster contents *)

Record KState := {
  s_ClusterRoles : gmap nsname ClusterRole;
  s_Roles : gmap nsname Role;
  s_ClusterRoleBindings : gmap nsname ClusterRoleBinding;
  s_RoleBindings : gmap nsname RoleBinding;
  s_RoleTemplates : gmap nsname RoleTemplate;
  s_ProjectRoleTemplateBindings : gmap nsname ProjectRoleTemplateBinding;
  s_ClusterRoleTemplateBindings : gmap nsname ClusterRoleTemplateBinding;
  s_GlobalRoles : gmap nsname GlobalRole;
  s_GlobalRoleBindings : gmap nsname GlobalRoleBinding;
  s_Projects : gmap nsname Project;
  s_Clusters : gmap nsname Cluster;
  s_Namespaces : gmap nsname NamespaceObject;
  s_Users : gmap nsname User;
  s_Tokens : gmap nsname Token;
  s_Tables : Tables }.

Definition kstate_between (a b c : KState) : Prop :=
  between (s_ClusterRoles a) (s_ClusterRoles b) (s_ClusterRoles c) ∧
  between (s_Roles a) (s_Roles b) (s_Roles c) ∧
  between (s_ClusterRoleBindings a) (s_ClusterRoleBindings b) (s_ClusterRoleBindings c) ∧
  between (s_RoleBindings a) (s_RoleBindings b) (s_RoleBindings c) ∧
  between (s_RoleTemplates a) (s_RoleTemplates b) (s_RoleTemplates c) ∧
  between (s_ProjectRoleTemplateBindings a) (s_ProjectRoleTemplateBindings b) (s_ProjectRoleTemplateBindings c) ∧
  between (s_ClusterRoleTemplateBindings a) (s_ClusterRoleTemplateBindings b) (s_ClusterRoleTemplateBindings c) ∧
  between (s_GlobalRoles a) (s_GlobalRoles b) (s_GlobalRoles c) ∧
  between (s_GlobalRoleBindings a) (s_GlobalRoleBindings b) (s_GlobalRoleBindings c) ∧
  between (s_Projects a) (s_Projects b) (s_Projects c) ∧
  between (s_Clusters a) (s_Clusters b) (s_Clusters c) ∧
  between (s_Namespaces a) (s_Namespaces b) (s_Namespaces c) ∧
  between (s_Users a) (s_Users b) (s_Users c) ∧
  between (s_Tokens a) (s_Tokens b) (s_Tokens c) ∧
  tables_between (s_Tables a) (s_Tables b) (s_Tables c).

(** [Stored O]: the kind [O] has metadata and a table in the cluster.  [same_spec]
    is equality of everything but the metadata and the fields the API server
    fills in by default; [may_update old new] tells that the fields the API server
    does not let a request change (the role of a binding) are the same;
    [unconditional] tells that a request may leave out the resource version of the
    object it replaces, as for the built-in kinds. *)
Class Stored (O : Type) := {
  meta : O → ObjectMeta;
  set_meta : ObjectMeta → O → O;
  tbl : KState → gmap nsname O;
  set_tbl : gmap nsname O → KState → KState;
  same_spec : O → O → Prop;
  may_update : O → O → bool;
  unconditional : bool }.

Class StoredLaws (O : Type) `{!Stored O} := {
  meta_set o m : meta (set_meta m o) = m;
  tbl_set s m : tbl (set_tbl m s) = m;
  set_tbl_tbl s : set_tbl (tbl s) s = s;
  set_tbl_set s m m' : set_tbl m (set_tbl m' s) = set_tbl m s;
  tbl_between a b c : kstate_between a b c → between (tbl a) (tbl b) (tbl c);
  same_spec_refl o : same_spec o o;
  same_spec_set o m o' : same_spec (set_meta m o) o' ↔ same_spec o o';
  may_update_set o m : may_update o (set_meta m o) = true }.

Definition same_subject (a b : Subject) : Prop :=
  s_Kind a = s_Kind b ∧ s_Name a = s_Name b ∧ s_Namespace a = s_Namespace b.

Definition same_roleref (a b : RoleRef) : Prop :=
  rr_Kind a = rr_Kind b ∧ rr_Name a = rr_Name b.

#[export] Instance same_roleref_dec a b : Decision (same_roleref a b).
Proof. unfold same_roleref. apply _. Defined.

Definition set_s_ClusterRoles (t : gmap nsname ClusterRole) (s : KState) : KState :=
  {| s_ClusterRoles := t; s_Roles := s_Roles s; s_ClusterRoleBindings := s_ClusterRoleBindings s; s_RoleBindings := s_RoleBindings s; s_RoleTemplates := s_RoleTemplates s;
     s_ProjectRoleTemplateBindings := s_ProjectRoleTemplateBindings s; s_ClusterRoleTemplateBindings := s_ClusterRoleTemplateBindings s;
     s_GlobalRoles := s_GlobalRoles s; s_GlobalRoleBindings := s_GlobalRoleBindings s;
     s_Projects := s_Projects s; s_Clusters := s_Clusters s; s_Namespaces := s_Namespaces s; s_Users := s_Users s;
     s_Tokens := s_Tokens s; s_Tables := s_Tables s |}.

Definition set_s_Roles (t : gmap nsname Role) (s : KState) : KState :=
  {| s_ClusterRoles := s_ClusterRoles s; s_Roles := t; s_ClusterRoleBindings := s_ClusterRoleBindings s; s_RoleBindings := s_RoleBindings s; s_RoleTemplates := s_RoleTemplates s;
     s_ProjectRoleTemplateBindings := s_ProjectRoleTemplateBindings s; s_ClusterRoleTemplateBindings := s_ClusterRoleTemplateBindings s;
     s_GlobalRoles := s_GlobalRoles s; s_GlobalRoleBindings := s_GlobalRoleBindings s;
     s_Projects := s_Projects s; s_Clusters := s_Clusters s; s_Namespaces := s_Namespaces s; s_Users := s_Users s;
     s_Tokens := s_Tokens s; s_Tables := s_Tables s |}.

Definition set_s_ClusterRoleBindings (t : gmap nsname ClusterRoleBinding) (s : KState) : KState :=
  {| s_ClusterRoles := s_ClusterRoles s; s_Roles := s_Roles s; s_ClusterRoleBindings := t; s_RoleBindings := s_RoleBindings s; s_RoleTemplates := s_RoleTemplates s;
     s_ProjectRoleTemplateBindings := s_ProjectRoleTemplateBindings s; s_ClusterRoleTemplateBindings := s_ClusterRoleTemplateBindings s;
     s_GlobalRoles := s_GlobalRoles s; s_GlobalRoleBindings := s_GlobalRoleBindings s;
     s_Projects := s_Projects s; s_Clusters := s_Clusters s; s_Namespaces := s_Namespaces s; s_Users := s_Users s;
     s_Tokens := s_Tokens s; s_Tables := s_Tables s |}.

Definition set_s_RoleBindings (t : gmap nsname RoleBinding) (s : KState) : KState :=
  {| s_ClusterRoles := s_ClusterRoles s; s_Roles := s_Roles s; s_ClusterRoleBindings := s_ClusterRoleBindings s; s_RoleBindings := t; s_RoleTemplates := s_RoleTemplates s;
     s_ProjectRoleTemplateBindings := s_ProjectRoleTemplateBindings s; s_ClusterRoleTemplateBindings := s_ClusterRoleTemplateBindings s;
     s_GlobalRoles := s_GlobalRoles s; s_GlobalRoleBindings := s_GlobalRoleBindings s;
     s_Projects := s_Projects s; s_Clusters := s_Clusters s; s_Namespaces := s_Namespaces s; s_Users := s_Users s;
     s_Tokens := s_Tokens s; s_Tables := s_Tables s |}.

Definition set_s_RoleTemplates (t : gmap nsname RoleTemplate) (s : KState) : KState :=
  {| s_ClusterRoles := s_ClusterRoles s; s_Roles := s_Roles s; s_ClusterRoleBindings := s_ClusterRoleBindings s; s_RoleBindings := s_RoleBindings s; s_RoleTemplates := t;
     s_ProjectRoleTemplateBindings := s_ProjectRoleTemplateBindings s; s_ClusterRoleTemplateBindings := s_ClusterRoleTemplateBindings s;
     s_GlobalRoles := s_GlobalRoles s; s_GlobalRoleBindings := s_GlobalRoleBindings s;
     s_Projects := s_Projects s; s_Clusters := s_Clusters s; s_Namespaces := s_Namespaces s; s_Users := s_Users s;
     s_Tokens := s_Tokens s; s_Tables := s_Tables s |}.

Definition set_s_ProjectRoleTemplateBindings (t : gmap nsname ProjectRoleTemplateBinding) (s : KState) : KState :=
  {| s_ClusterRoles := s_ClusterRoles s; s_Roles := s_Roles s; s_ClusterRoleBindings := s_ClusterRoleBindings s; s_RoleBindings := s_RoleBindings s; s_RoleTemplates := s_RoleTemplates s;
     s_ProjectRoleTemplateBindings := t; s_ClusterRoleTemplateBindings := s_ClusterRoleTemplateBindings s;
     s_GlobalRoles := s_GlobalRoles s; s_GlobalRoleBindings := s_GlobalRoleBindings s;
     s_Projects := s_Projects s; s_Clusters := s_Clusters s; s_Namespaces := s_Namespaces s; s_Users := s_Users s;
     s_Tokens := s_Tokens s; s_Tables := s_Tables s |}.

Definition set_s_ClusterRoleTemplateBindings (t : gmap nsname ClusterRoleTemplateBinding) (s : KState) : KState :=
  {| s_ClusterRoles := s_ClusterRoles s; s_Roles := s_Roles s; s_ClusterRoleBindings := s_ClusterRoleBindings s; s_RoleBindings := s_RoleBindings s; s_RoleTemplates := s_RoleTemplates s;
     s_ProjectRoleTemplateBindings := s_ProjectRoleTemplateBindings s; s_ClusterRoleTemplateBindings := t;
     s_GlobalRoles := s_GlobalRoles s; s_GlobalRoleBindings := s_GlobalRoleBindings s;
     s_Projects := s_Projects s; s_Clusters := s_Clusters s; s_Namespaces := s_Namespaces s; s_Users := s_Users s;
     s_Tokens := s_Tokens s; s_Tables := s_Tables s |}.

Definition set_s_GlobalRoles (t : gmap nsname GlobalRole) (s : KState) : KState :=
  {| s_ClusterRoles := s_ClusterRoles s; s_Roles := s_Roles s; s_ClusterRoleBindings := s_ClusterRoleBindings s; s_RoleBindings := s_RoleBindings s; s_RoleTemplates := s_RoleTemplates s;
     s_ProjectRoleTemplateBindings := s_ProjectRoleTemplateBindings s; s_ClusterRoleTemplateBindings := s_ClusterRoleTemplateBindings s;
     s_GlobalRoles := t; s_GlobalRoleBindings := s_GlobalRoleBindings s;
     s_Projects := s_Projects s; s_Clusters := s_Clusters s; s_Namespaces := s_Namespaces s; s_Users := s_Users s;
     s_Tokens := s_Tokens s; s_Tables := s_Tables s |}.

Definition set_s_GlobalRoleBindings (t : gmap nsname GlobalRoleBinding) (s : KState) : KState :=
  {| s_ClusterRoles := s_ClusterRoles s; s_Roles := s_Roles s; s_ClusterRoleBindings := s_ClusterRoleBindings s; s_RoleBindings := s_RoleBindings s; s_RoleTemplates := s_RoleTemplates s;
     s_ProjectRoleTemplateBindings := s_ProjectRoleTemplateBindings s; s_ClusterRoleTemplateBindings := s_ClusterRoleTemplateBindings s;
     s_GlobalRoles := s_GlobalRoles s; s_GlobalRoleBindings := t;
     s_Projects := s_Projects s; s_Clusters := s_Clusters s; s_Namespaces := s_Namespaces s; s_Users := s_Users s;
     s_Tokens := s_Tokens s; s_Tables := s_Tables s |}.

Definition set_s_Projects (t : gmap nsname Project) (s : KState) : KState :=
  {| s_ClusterRoles := s_ClusterRoles s; s_Roles := s_Roles s; s_ClusterRoleBindings := s_ClusterRoleBindings s; s_RoleBindings := s_RoleBindings s; s_RoleTemplates := s_RoleTemplates s;
     s_ProjectRoleTemplateBindings := s_ProjectRoleTemplateBindings s; s_ClusterRoleTemplateBindings := s_ClusterRoleTemplateBindings s;
     s_GlobalRoles := s_GlobalRoles s; s_GlobalRoleBindings := s_GlobalRoleBindings s;
     s_Projects := t; s_Clusters := s_Clusters s; s_Namespaces := s_Namespaces s; s_Users := s_Users s;
     s_Tokens := s_Tokens s; s_Tables := s_Tables s |}.

Definition set_s_Clusters (t : gmap nsname Cluster) (s : KState) : KState :=
  {| s_ClusterRoles := s_ClusterRoles s; s_Roles := s_Roles s; s_ClusterRoleBindings := s_ClusterRoleBindings s; s_RoleBindings := s_RoleBindings s; s_RoleTemplates := s_RoleTemplates s;
     s_ProjectRoleTemplateBindings := s_ProjectRoleTemplateBindings s; s_ClusterRoleTemplateBindings := s_ClusterRoleTemplateBindings s;
     s_GlobalRoles := s_GlobalRoles s; s_GlobalRoleBindings := s_GlobalRoleBindings s;
     s_Projects := s_Projects s; s_Clusters := t; s_Namespaces := s_Namespaces s; s_Users := s_Users s;
     s_Tokens := s_Tokens s; s_Tables := s_Tables s |}.

Definition set_s_Namespaces (t : gmap nsname NamespaceObject) (s : KState) : KState :=
  {| s_ClusterRoles := s_ClusterRoles s; s_Roles := s_Roles s; s_ClusterRoleBindings := s_ClusterRoleBindings s; s_RoleBindings := s_RoleBindings s; s_RoleTemplates := s_RoleTemplates s;
     s_ProjectRoleTemplateBindings := s_ProjectRoleTemplateBindings s; s_ClusterRoleTemplateBindings := s_ClusterRoleTemplateBindings s;
     s_GlobalRoles := s_GlobalRoles s; s_GlobalRoleBindings := s_GlobalRoleBindings s;
     s_Projects := s_Projects s; s_Clusters := s_Clusters s; s_Namespaces := t; s_Users := s_Users s;
     s_Tokens := s_Tokens s; s_Tables := s_Tables s |}.

Definition set_s_Users (t : gmap nsname User) (s : KState) : KState :=
  {| s_ClusterRoles := s_ClusterRoles s; s_Roles := s_Roles s; s_ClusterRoleBindings := s_ClusterRoleBindings s; s_RoleBindings := s_RoleBindings s; s_RoleTemplates := s_RoleTemplates s;
     s_ProjectRoleTemplateBindings := s_ProjectRoleTemplateBindings s; s_ClusterRoleTemplateBindings := s_ClusterRoleTemplateBindings s;
     s_GlobalRoles := s_GlobalRoles s; s_GlobalRoleBindings := s_GlobalRoleBindings s;
     s_Projects := s_Projects s; s_Clusters := s_Clusters s; s_Namespaces := s_Namespaces s; s_Users := t;
     s_Tokens := s_Tokens s; s_Tables := s_Tables s |}.

Definition set_s_Tokens (t : gmap nsname Token) (s : KState) : KState :=
  {| s_ClusterRoles := s_ClusterRoles s; s_Roles := s_Roles s; s_ClusterRoleBindings := s_ClusterRoleBindings s; s_RoleBindings := s_RoleBindings s; s_RoleTemplates := s_RoleTemplates s;
     s_ProjectRoleTemplateBindings := s_ProjectRoleTemplateBindings s; s_ClusterRoleTemplateBindings := s_ClusterRoleTemplateBindings s;
     s_GlobalRoles := s_GlobalRoles s; s_GlobalRoleBindings := s_GlobalRoleBindings s;
     s_Projects := s_Projects s; s_Clusters := s_Clusters s; s_Namespaces := s_Namespaces s; s_Users := s_Users s;
     s_Tokens := t; s_Tables := s_Tables s |}.

Definition set_s_Tables (t : Tables) (s : KState) : KState :=
  {| s_ClusterRoles := s_ClusterRoles s; s_Roles := s_Roles s; s_ClusterRoleBindings := s_ClusterRoleBindings s; s_RoleBindings := s_RoleBindings s; s_RoleTemplates := s_RoleTemplates s;
     s_ProjectRoleTemplateBindings := s_ProjectRoleTemplateBindings s; s_ClusterRoleTemplateBindings := s_ClusterRoleTemplateBindings s;
     s_GlobalRoles := s_GlobalRoles s; s_GlobalRoleBindings := s_GlobalRoleBindings s;
     s_Projects := s_Projects s; s_Clusters := s_Clusters s; s_Namespaces := s_Namespaces s; s_Users := s_Users s;
     s_Tokens := s_Tokens s; s_Tables := t |}.

Lemma same_subjects_refl l : Forall2 same_subject l l.
Proof. induction l; constructor; by repeat split. Qed.

Ltac stored_solve :=
  split;
  [done|done|by intros []|done|by intros ???; unfold kstate_between; naive_solver|
   first [ by intros [] | intros []; split; [apply same_subjects_refl|done]]|
   by intros [] ??|
   first [done | intros [] ?; by apply bool_decide_eq_true_2]].

#[export] Instance ClusterRole_stored : Stored ClusterRole := {
  meta := cr_meta; set_meta := set_cr_meta;
  tbl := s_ClusterRoles; set_tbl := set_s_ClusterRoles;
  same_spec := λ o o', o' = set_cr_meta (cr_meta o') o;
  may_update _ _ := true; unconditional := true }.
#[export] Instance ClusterRole_stored_laws : StoredLaws ClusterRole.
Proof. stored_solve. Qed.

#[export] Instance Role_stored : Stored Role := {
  meta := r_meta; set_meta := set_r_meta;
  tbl := s_Roles; set_tbl := set_s_Roles;
  same_spec := λ o o', o' = set_r_meta (r_meta o') o;
  may_update _ _ := true; unconditional := true }.
#[export] Instance Role_stored_laws : StoredLaws Role.
Proof. stored_solve. Qed.

#[export] Instance ClusterRoleBinding_stored : Stored ClusterRoleBinding := {
  meta := crb_meta; set_meta := set_crb_meta;
  tbl := s_ClusterRoleBindings; set_tbl := set_s_ClusterRoleBindings;
  same_spec := λ o o', Forall2 same_subject (crb_Subjects o) (crb_Subjects o') ∧
    same_roleref (crb_RoleRef o) (crb_RoleRef o');
  may_update o o' := bool_decide (same_roleref (crb_RoleRef o) (crb_RoleRef o')); unconditional := true }.
#[export] Instance ClusterRoleBinding_stored_laws : StoredLaws ClusterRoleBinding.
Proof. stored_solve. Qed.

#[export] Instance RoleBinding_stored : Stored RoleBinding := {
  meta := rb_meta; set_meta := set_rb_meta;
  tbl := s_RoleBindings; set_tbl := set_s_RoleBindings;
  same_spec := λ o o', Forall2 same_subject (rb_Subjects o) (rb_Subjects o') ∧
    same_roleref (rb_RoleRef o) (rb_RoleRef o');
  may_update o o' := bool_decide (same_roleref (rb_RoleRef o) (rb_RoleRef o')); unconditional := true }.
#[export] Instance RoleBinding_stored_laws : StoredLaws RoleBinding.
Proof. stored_solve. Qed.

#[export] Instance RoleTemplate_stored : Stored RoleTemplate := {
  meta := rt_meta; set_meta := set_rt_meta;
  tbl := s_RoleTemplates; set_tbl := set_s_RoleTemplates;
  same_spec := λ o o', o' = set_rt_meta (rt_meta o') o;
  may_update _ _ := true; unconditional := false }.
#[export] Instance RoleTemplate_stored_laws : StoredLaws RoleTemplate.
Proof. stored_solve. Qed.

#[export] Instance ProjectRoleTemplateBinding_stored : Stored ProjectRoleTemplateBinding := {
  meta := prtb_meta; set_meta := set_prtb_meta;
  tbl := s_ProjectRoleTemplateBindings; set_tbl := set_s_ProjectRoleTemplateBindings;
  same_spec := λ o o', o' = set_prtb_meta (prtb_meta o') o;
  may_update _ _ := true; unconditional := false }.
#[export] Instance ProjectRoleTemplateBinding_stored_laws : StoredLaws ProjectRoleTemplateBinding.
Proof. stored_solve. Qed.

#[export] Instance ClusterRoleTemplateBinding_stored : Stored ClusterRoleTemplateBinding := {
  meta := crtb_meta; set_meta := set_crtb_meta;
  tbl := s_ClusterRoleTemplateBindings; set_tbl := set_s_ClusterRoleTemplateBindings;
  same_spec := λ o o', o' = set_crtb_meta (crtb_meta o') o;
  may_update _ _ := true; unconditional := false }.
#[export] Instance ClusterRoleTemplateBinding_stored_laws : StoredLaws ClusterRoleTemplateBinding.
Proof. stored_solve. Qed.

#[export] Instance GlobalRole_stored : Stored GlobalRole := {
  meta := gr_meta; set_meta := set_gr_meta;
  tbl := s_GlobalRoles; set_tbl := set_s_GlobalRoles;
  same_spec := λ o o', o' = set_gr_meta (gr_meta o') o;
  may_update _ _ := true; unconditional := false }.
#[export] Instance GlobalRole_stored_laws : StoredLaws GlobalRole.
Proof. stored_solve. Qed.

#[export] Instance GlobalRoleBinding_stored : Stored GlobalRoleBinding := {
  meta := grb_meta; set_meta := set_grb_meta;
  tbl := s_GlobalRoleBindings; set_tbl := set_s_GlobalRoleBindings;
  same_spec := λ o o', o' = set_grb_meta (grb_meta o') o;
  may_update _ _ := true; unconditional := false }.
#[export] Instance GlobalRoleBinding_stored_laws : StoredLaws GlobalRoleBinding.
Proof. stored_solve. Qed.

#[export] Instance Project_stored : Stored Project := {
  meta := proj_meta; set_meta := set_proj_meta;
  tbl := s_Projects; set_tbl := set_s_Projects;
  same_spec := λ o o', o' = set_proj_meta (proj_meta o') o;
  may_update _ _ := true; unconditional := false }.
#[export] Instance Project_stored_laws : StoredLaws Project.
Proof. stored_solve. Qed.

#[export] Instance Cluster_stored : Stored Cluster := {
  meta := cluster_meta; set_meta := set_cluster_meta;
  tbl := s_Clusters; set_tbl := set_s_Clusters;
  same_spec := λ o o', o' = set_cluster_meta (cluster_meta o') o;
  may_update _ _ := true; unconditional := false }.
#[export] Instance Cluster_stored_laws : StoredLaws Cluster.
Proof. stored_solve. Qed.

#[export] Instance NamespaceObject_stored : Stored NamespaceObject := {
  meta := ns_meta; set_meta := set_ns_meta;
  tbl := s_Namespaces; set_tbl := set_s_Namespaces;
  same_spec := λ o o', o' = set_ns_meta (ns_meta o') o;
  may_update _ _ := true; unconditional := true }.
#[export] Instance NamespaceObject_stored_laws : StoredLaws NamespaceObject.
Proof. stored_solve. Qed.

#[export] Instance User_stored : Stored User := {
  meta := user_meta; set_meta := set_user_meta;
  tbl := s_Users; set_tbl := set_s_Users;
  same_spec := λ o o', o' = set_user_meta (user_meta o') o;
  may_update _ _ := true; unconditional := false }.
#[export] Instance User_stored_laws : StoredLaws User.
Proof. stored_solve. Qed.

#[export] Instance Token_stored : Stored Token := {
  meta := token_meta; set_meta := set_token_meta;
  tbl := s_Tokens; set_tbl := set_s_Tokens;
  same_spec := λ o o', o' = set_token_meta (token_meta o') o;
  may_update _ _ := true; unconditional := false }.
#[export] Instance Token_stored_laws : StoredLaws Token.
Proof. stored_solve. Qed.

(** What the API server makes of a secret: the plain text data is added to the
    encoded data, which the key decides, and the type has a default.  The type cannot change
    later. *)
Definition effective (data stringData : gmap string string) : gmap string string :=
  stringData ∪ data.

Definition secret_type (t : string) : string := if decide (t = "") then "Opaque" else t.

(** What it makes of a network policy: empty lists are left out, a protocol and the
    policy types have defaults. *)
Definition stored_port (p : NetworkPolicyPort) : NetworkPolicyPort :=
  {| npp_Protocol := Some (default "TCP" (npp_Protocol p)); npp_Port := npp_Port p |}.

Definition stored_rule (r : NetworkPolicyIngressRule) : NetworkPolicyIngressRule :=
  {| ing_From := omit_empty (ing_From r);
     ing_Ports := omit_empty (map stored_port <$> ing_Ports r) |}.

Definition stored_spec (s : NetworkPolicySpec) : NetworkPolicySpec :=
  {| nps_PodSelector := nps_PodSelector s;
     nps_Ingress := omit_empty (map stored_rule <$> nps_Ingress s);
     nps_PolicyTypes :=
       match items (nps_PolicyTypes s) with [] => Some ["Ingress"] | l => Some l end |}.

Lemma effective_idemp (d s : gmap string string) : effective (effective d s) ∅ = effective d s.
Proof. unfold effective. by rewrite (left_id_L ∅ (∪)). Qed.

Lemma secret_type_idemp t : secret_type (secret_type t) = secret_type t.
Proof. unfold secret_type. by repeat case_decide. Qed.

Lemma omit_empty_map {A} (f : A → A) (s : slice A) :
  (∀ x, f (f x) = f x) →
  omit_empty (map f <$> omit_empty (map f <$> s)) = omit_empty (map f <$> s).
Proof.
  intros Hf. destruct s as [[|x l]|]; [done| |done]. cbn. rewrite Hf. do 2 f_equal.
  rewrite map_map. by apply map_ext.
Qed.

Lemma stored_rule_idemp r : stored_rule (stored_rule r) = stored_rule r.
Proof.
  unfold stored_rule. cbn. f_equal; [by destruct (ing_From r) as [[]|]|].
  by apply omit_empty_map.
Qed.

Lemma stored_spec_idemp s : stored_spec (stored_spec s) = stored_spec s.
Proof.
  unfold stored_spec. cbn. f_equal; [apply omit_empty_map, stored_rule_idemp|].
  by destruct (items (nps_PolicyTypes s)).
Qed.

Ltac stored_solve' :=
  split;
  [done|done
  |by intros [? ? ? ? ? ? ? ? ? ? ? ? ? ? []]|done
  |let H := fresh in intros ??? H; unfold kstate_between, tables_between in H; tauto
  |first [by intros [] | by intros []; split]|by intros [] ??|first [done | by intros; apply bool_decide_eq_true]].

#[export] Instance Node_stored : Stored Node := {
  meta := node_meta; set_meta := set_node_meta;
  tbl s := t_Nodes (s_Tables s); set_tbl t s := set_s_Tables (set_t_Nodes t (s_Tables s)) s;
  same_spec := λ o o', o' = set_node_meta (node_meta o') o;
  may_update _ _ := true; unconditional := false }.
#[export] Instance Node_stored_laws : StoredLaws Node.
Proof. stored_solve'. Qed.

#[export] Instance NodePool_stored : Stored NodePool := {
  meta := pool_meta; set_meta := set_pool_meta;
  tbl s := t_NodePools (s_Tables s); set_tbl t s := set_s_Tables (set_t_NodePools t (s_Tables s)) s;
  same_spec := λ o o', o' = set_pool_meta (pool_meta o') o;
  may_update _ _ := true; unconditional := false }.
#[export] Instance NodePool_stored_laws : StoredLaws NodePool.
Proof. stored_solve'. Qed.

#[export] Instance ClusterRegistrationToken_stored : Stored ClusterRegistrationToken := {
  meta := crt_meta; set_meta := set_crt_meta;
  tbl s := t_ClusterRegistrationTokens (s_Tables s); set_tbl t s := set_s_Tables (set_t_ClusterRegistrationTokens t (s_Tables s)) s;
  same_spec := λ o o', o' = set_crt_meta (crt_meta o') o;
  may_update _ _ := true; unconditional := false }.
#[export] Instance ClusterRegistrationToken_stored_laws : StoredLaws ClusterRegistrationToken.
Proof. stored_solve'. Qed.

#[export] Instance ProjectNetworkPolicy_stored : Stored ProjectNetworkPolicy := {
  meta := pnp_meta; set_meta := set_pnp_meta;
  tbl s := t_ProjectNetworkPolicies (s_Tables s); set_tbl t s := set_s_Tables (set_t_ProjectNetworkPolicies t (s_Tables s)) s;
  same_spec := λ o o', o' = set_pnp_meta (pnp_meta o') o;
  may_update _ _ := true; unconditional := false }.
#[export] Instance ProjectNetworkPolicy_stored_laws : StoredLaws ProjectNetworkPolicy.
Proof. stored_solve'. Qed.

#[export] Instance PodSecurityPolicyTemplate_stored : Stored PodSecurityPolicyTemplate := {
  meta := pspt_meta; set_meta := set_pspt_meta;
  tbl s := t_PodSecurityPolicyTemplates (s_Tables s); set_tbl t s := set_s_Tables (set_t_PodSecurityPolicyTemplates t (s_Tables s)) s;
  same_spec := λ o o', o' = set_pspt_meta (pspt_meta o') o;
  may_update _ _ := true; unconditional := false }.
#[export] Instance PodSecurityPolicyTemplate_stored_laws : StoredLaws PodSecurityPolicyTemplate.
Proof. stored_solve'. Qed.

#[export] Instance PodSecurityPolicyTemplateProjectBinding_stored : Stored PodSecurityPolicyTemplateProjectBinding := {
  meta := psptpb_meta; set_meta := set_psptpb_meta;
  tbl s := t_PodSecurityPolicyTemplateProjectBindings (s_Tables s); set_tbl t s := set_s_Tables (set_t_PodSecurityPolicyTemplateProjectBindings t (s_Tables s)) s;
  same_spec := λ o o', o' = set_psptpb_meta (psptpb_meta o') o;
  may_update _ _ := true; unconditional := false }.
#[export] Instance PodSecurityPolicyTemplateProjectBinding_stored_laws : StoredLaws PodSecurityPolicyTemplateProjectBinding.
Proof. stored_solve'. Qed.

#[export] Instance ManagementNamespace_stored : Stored ManagementNamespace := {
  meta := mns_meta; set_meta := set_mns_meta;
  tbl s := t_ManagementNamespaces (s_Tables s); set_tbl t s := set_s_Tables (set_t_ManagementNamespaces t (s_Tables s)) s;
  same_spec := λ o o', o' = set_mns_meta (mns_meta o') o;
  may_update _ _ := true; unconditional := true }.
#[export] Instance ManagementNamespace_stored_laws : StoredLaws ManagementNamespace.
Proof. stored_solve'. Qed.

#[export] Instance ManagementSecret_stored : Stored ManagementSecret := {
  meta := msec_meta; set_meta := set_msec_meta;
  tbl s := t_ManagementSecrets (s_Tables s); set_tbl t s := set_s_Tables (set_t_ManagementSecrets t (s_Tables s)) s;
  same_spec := λ o o', effective (msec_Data o) (msec_StringData o) = effective (msec_Data o') (msec_StringData o') ∧
    secret_type (msec_Type o) = secret_type (msec_Type o');
  may_update o0 o := bool_decide (secret_type (msec_Type o) = secret_type (msec_Type o0)); unconditional := true }.
#[export] Instance ManagementSecret_stored_laws : StoredLaws ManagementSecret.
Proof. stored_solve'. Qed.

#[export] Instance Secret_stored : Stored Secret := {
  meta := sec_meta; set_meta := set_sec_meta;
  tbl s := t_Secrets (s_Tables s); set_tbl t s := set_s_Tables (set_t_Secrets t (s_Tables s)) s;
  same_spec := λ o o', effective (sec_Data o) (sec_StringData o) = effective (sec_Data o') (sec_StringData o') ∧
    secret_type (sec_Type o) = secret_type (sec_Type o');
  may_update o0 o := bool_decide (secret_type (sec_Type o) = secret_type (sec_Type o0)); unconditional := true }.
#[export] Instance Secret_stored_laws : StoredLaws Secret.
Proof. stored_solve'. Qed.

#[export] Instance CoreNode_stored : Stored CoreNode := {
  meta := cnode_meta; set_meta := set_cnode_meta;
  tbl s := t_CoreNodes (s_Tables s); set_tbl t s := set_s_Tables (set_t_CoreNodes t (s_Tables s)) s;
  same_spec := λ o o', o' = set_cnode_meta (cnode_meta o') o;
  may_update _ _ := true; unconditional := true }.
#[export] Instance CoreNode_stored_laws : StoredLaws CoreNode.
Proof. stored_solve'. Qed.

#[export] Instance Pod_stored : Stored Pod := {
  meta := pod_meta; set_meta := set_pod_meta;
  tbl s := t_Pods (s_Tables s); set_tbl t s := set_s_Tables (set_t_Pods t (s_Tables s)) s;
  same_spec := λ o o', o' = set_pod_meta (pod_meta o') o;
  may_update _ _ := true; unconditional := true }.
#[export] Instance Pod_stored_laws : StoredLaws Pod.
Proof. stored_solve'. Qed.

#[export] Instance Service_stored : Stored Service := {
  meta := svc_meta; set_meta := set_svc_meta;
  tbl s := t_Services (s_Tables s); set_tbl t s := set_s_Tables (set_t_Services t (s_Tables s)) s;
  same_spec := λ o o', o' = set_svc_meta (svc_meta o') o;
  may_update _ _ := true; unconditional := true }.
#[export] Instance Service_stored_laws : StoredLaws Service.
Proof. stored_solve'. Qed.

#[export] Instance NetworkPolicy_stored : Stored NetworkPolicy := {
  meta := netpol_meta; set_meta := set_netpol_meta;
  tbl s := t_NetworkPolicies (s_Tables s); set_tbl t s := set_s_Tables (set_t_NetworkPolicies t (s_Tables s)) s;
  same_spec := λ o o', stored_spec (netpol_Spec o) = stored_spec (netpol_Spec o');
  may_update _ _ := true; unconditional := true }.
#[export] Instance NetworkPolicy_stored_laws : StoredLaws NetworkPolicy.
Proof. stored_solve'. Qed.

#[export] Instance PodSecurityPolicy_stored : Stored PodSecurityPolicy := {
  meta := psp_meta; set_meta := set_psp_meta;
  tbl s := t_PodSecurityPolicies (s_Tables s); set_tbl t s := set_s_Tables (set_t_PodSecurityPolicies t (s_Tables s)) s;
  same_spec := λ o o', o' = set_psp_meta (psp_meta o') o;
  may_update _ _ := true; unconditional := true }.
#[export] Instance PodSecurityPolicy_stored_laws : StoredLaws PodSecurityPolicy.
Proof. stored_solve'. Qed.

#[export] Instance Group_stored : Stored Group := {
  meta := grp_meta; set_meta := set_grp_meta;
  tbl s := t_Groups (s_Tables s); set_tbl t s := set_s_Tables (set_t_Groups t (s_Tables s)) s;
  same_spec := λ o o', o' = set_grp_meta (grp_meta o') o;
  may_update _ _ := true; unconditional := true }.
#[export] Instance Group_stored_laws : StoredLaws Group.
Proof. stored_solve'. Qed.

#[export] Instance GroupMember_stored : Stored GroupMember := {
  meta := gm_meta; set_meta := set_gm_meta;
  tbl s := t_GroupMembers (s_Tables s); set_tbl t s := set_s_Tables (set_t_GroupMembers t (s_Tables s)) s;
  same_spec := λ o o', o' = set_gm_meta (gm_meta o') o;
  may_update _ _ := true; unconditional := true }.
#[export] Instance GroupMember_stored_laws : StoredLaws GroupMember.
Proof. stored_solve'. Qed.

#[export] Instance AuthConfig_stored : Stored AuthConfig := {
  meta := ac_meta; set_meta := set_ac_meta;
  tbl s := t_AuthConfigs (s_Tables s); set_tbl t s := set_s_Tables (set_t_AuthConfigs t (s_Tables s)) s;
  same_spec := λ o o', o' = set_ac_meta (ac_meta o') o;
  may_update _ _ := true; unconditional := true }.
#[export] Instance AuthConfig_stored_laws : StoredLaws AuthConfig.
Proof. stored_solve'. Qed.

#[export] Instance ServiceAccount_stored : Stored ServiceAccount := {
  meta := sa_meta; set_meta := set_sa_meta;
  tbl s := t_ServiceAccounts (s_Tables s); set_tbl t s := set_s_Tables (set_t_ServiceAccounts t (s_Tables s)) s;
  same_spec := λ o o', o' = set_sa_meta (sa_meta o') o;
  may_update _ _ := true; unconditional := true }.
#[export] Instance ServiceAccount_stored_laws : StoredLaws ServiceAccount.
Proof. stored_solve'. Qed.

(** ** Go runtime *)

(** The order in which a [range] statement visits the entries of a map, the
    wall clock in nanoseconds, and the text a time is formatted to. *)
Class GoRuntime (W : Type) := {
  map_range : ∀ {A}, W → gmap string A → list (string * A);
  time_Now : W → Z;
  format_RFC3339 : Z → string }.

Class GoRuntimeLaws (W : Type) `{!GoRuntime W} := {
  map_range_perm {A} w (m : gmap string A) : map_range w m ≡ₚ map_to_list m }.

Definition range {W A} `{!GoRuntime W} (m : gmap string A) : M W (list (string * A)) :=
  λ w, (Ok (map_range w m), w).

(** [go func() { time.Sleep(d); m() }()]: the call is left for later. *)
Class Goroutines (W : Type) := { go_later : Z → M W unit → W → W }.

(** The work queue of the controller of the kind [O], filled by [Enqueue]. *)
Class Queue (W O : Type) := { Enqueue : string → string → M W unit }.

(** ** API clients *)

(** A label selector built from a set: every pair must be among the labels. *)
Definition Selector := gmap string string.

Definition Everything : Selector := ∅.

Definition selects (sel labels : gmap string string) : Prop := sel ⊆ labels.

#[export] Instance selects_dec sel labels : Decision (selects sel labels).
Proof. unfold selects. apply _. Defined.

(** The calls of the typed client, lister and indexer of the kind [O].
    [api_*] are requests to the API server, the others read the informer
    cache; the first argument is the namespace the client or lister is for. *)
Class Client (W O : Type) := {
  api_create : string → O → M W O;
  api_update : string → O → M W O;
  api_delete : string → string → M W unit;
  api_get : string → string → W → outcome O;
  api_list : string → Selector → W → outcome (list O);
  lister_Get : string → string → W → outcome O;
  lister_List : string → Selector → W → outcome (list O);
  ByIndex : (O → list string) → string → W → outcome (list O) }.

(** A lister returns pointers into the cache: an assignment through one of them
    changes what the cache shows, not the cluster; if the cache has dropped the object,
    it changes nothing that can be read. *)
Class CacheAlias (W O : Type) := { cache_write : O → W → W }.

(** What the cluster holds and what the caches show. *)
Class Kube (W : Type) := {
  view : W → KState;
  cached : W → KState }.

Section laws.
Context {W O : Type} `{!Kube W, !Stored O, !Client W O}.

Definition obj_key (o : O) : nsname := (Namespace (meta o), Name (meta o)).

(** The namespace a request is sent to: the object's, or the client's. *)
Definition client_ns (ns : string) (o : O) : string :=
  if decide (Namespace (meta o) = "") then ns else Namespace (meta o).

Definition write_key (ns : string) (o : O) : nsname := (client_ns ns o, Name (meta o)).

Definition put_obj (o : O) (s : KState) : KState :=
  set_tbl (<[obj_key o := o]> (tbl s)) s.

Definition del_obj (k : nsname) (s : KState) : KState := set_tbl (delete k (tbl s)) s.

(** [o'] is what the server stores for the object [o] sent to it. *)
Definition stored_as (ns : string) (o o' : O) : Prop :=
  Namespace (meta o') = client_ns ns o ∧
  Name (meta o') ≠ "" ∧
  (Name (meta o) ≠ "" → Name (meta o') = Name (meta o)) ∧
  Labels (meta o') = Labels (meta o) ∧
  Annotations (meta o') = Annotations (meta o) ∧
  OwnerReferences (meta o') = OwnerReferences (meta o) ∧
  same_spec o o'.

(** A cache lags behind the cluster: after a request each of its entries is the
    one it had or the one the cluster has now. *)
Definition cache_step (w w' : W) : Prop :=
  kstate_between (cached w) (view w') (cached w').

Definition well_keyed (t : gmap nsname O) : Prop := map_Forall (λ k o, k = obj_key o) t.

(** Deleting an object removes it: finalizers, which keep it until a controller has cleared
    them, are not modelled. *)
Class ClientLaws := {
  create_law ns o w :
    match api_create ns o w with
    | (Ok o', w') =>
      stored_as ns o o' ∧ tbl (view w) !! obj_key o' = None ∧
      view w' = put_obj o' (view w) ∧ cache_step w w'
    | (Err _, w') => view w' = view w ∧ cache_step w w'
    | _ => False
    end;
  update_law ns o w :
    match api_update ns o w with
    | (Ok o', w') =>
      stored_as ns o o' ∧
      (∃ o0, tbl (view w) !! write_key ns o = Some o0 ∧ may_update o0 o = true) ∧
      Name (meta o) ≠ "" ∧
      view w' = put_obj o' (view w) ∧ cache_step w w'
    | (Err _, w') => view w' = view w ∧ cache_step w w'
    | _ => False
    end;
  delete_law ns n w :
    match api_delete ns n w with
    | (Ok _, w') =>
      is_Some (tbl (view w) !! (ns, n)) ∧
      view w' = del_obj (ns, n) (view w) ∧ cache_step w w'
    | (Err e, w') =>
      (IsNotFound e = true → tbl (view w) !! (ns, n) = None) ∧
      view w' = view w ∧ cache_step w w'
    | _ => False
    end;
  get_law ns n w :
    match api_get ns n w with
    | Ok o => tbl (view w) !! (ns, n) = Some o
    | Err e => IsNotFound e = true → tbl (view w) !! (ns, n) = None
    | _ => False
    end;
  list_law ns sel w :
    match api_list ns sel w with
    | Ok l =>
      l ≡ₚ filter (λ o, (ns = "" ∨ Namespace (meta o) = ns) ∧ selects sel (Labels (meta o)))
                  ((map_to_list (tbl (view w))).*2)
    | Err _ => True
    | _ => False
    end;
  lister_get_law ns n w :
    match tbl (cached w) !! (ns, n) with
    | Some o => lister_Get ns n w = Ok o
    | None => ∃ e, lister_Get ns n w = Err e ∧ IsNotFound e = true
    end;
  lister_list_law ns sel w : ∃ l,
    lister_List ns sel w = Ok l ∧
    l ≡ₚ filter (λ o, (ns = "" ∨ Namespace (meta o) = ns) ∧ selects sel (Labels (meta o)))
                ((map_to_list (tbl (cached w))).*2);
  by_index_law f key w : ∃ l,
    ByIndex f key w = Ok l ∧
    l ≡ₚ filter (λ o, key ∈ f o) ((map_to_list (tbl (cached w))).*2);
  view_keyed w : well_keyed (tbl (view w));
  cached_keyed w : well_keyed (tbl (cached w));
  view_named w k : is_Some (tbl (O:=O) (view w) !! k) → k.2 ≠ "";
  cached_named w k : is_Some (tbl (O:=O) (cached w) !! k) → k.2 ≠ "" }.

(** A request that can succeed does: the server is reachable, a name is free or
    generated, an update carries the resource version of the stored object. *)
Class ClientHealthy := {
  create_healthy ns o w :
    (Name (meta o) ≠ "" → tbl (view w) !! write_key ns o = None) →
    (Name (meta o) = "" → GenerateName (meta o) ≠ "") →
    ∃ o' w', api_create ns o w = (Ok o', w');
  update_healthy ns o w :
    Name (meta o) ≠ "" →
    (∃ o0, tbl (view w) !! write_key ns o = Some o0 ∧
           (ResourceVersion (meta o) = ResourceVersion (meta o0) ∨
            unconditional (O:=O) = true ∧ ResourceVersion (meta o) = "") ∧
           may_update o0 o = true) →
    ∃ o' w', api_update ns o w = (Ok o', w');
  delete_healthy ns n w :
    is_Some (tbl (view w) !! (ns, n)) → ∃ w', api_delete ns n w = (Ok tt, w');
  delete_absent ns n w :
    tbl (view w) !! (ns, n) = None →
    ∃ e w', api_delete ns n w = (Err e, w') ∧ IsNotFound e = true;
  get_healthy ns n w o : tbl (view w) !! (ns, n) = Some o → api_get ns n w = Ok o;
  get_absent ns n w :
    tbl (view w) !! (ns, n) = None → ∃ e, api_get ns n w = Err e ∧ IsNotFound e = true;
  list_healthy ns sel w : ∃ l, api_list ns sel w = Ok l }.

(** The answers to a request for a name that is taken or absent, for the kinds that an update
    does not create. *)
Class StrictClient := {
  create_taken ns o w :
    Name (meta o) ≠ "" → is_Some (tbl (view w) !! write_key ns o) →
    ∃ e w', api_create ns o w = (Err e, w') ∧ IsAlreadyExists e = true;
  update_absent ns o w :
    Name (meta o) ≠ "" → tbl (view w) !! write_key ns o = None →
    ∃ e w', api_update ns o w = (Err e, w') ∧ IsNotFound e = true }.

Class CacheAliasLaws `{!CacheAlias W O} := {
  cache_write_view (o : O) w : view (cache_write o w) = view w;
  cache_write_cached (o : O) w :
    is_Some (tbl (cached w) !! obj_key o) → cached (cache_write o w) = put_obj o (cached w);
  cache_write_absent (o : O) w :
    tbl (cached w) !! obj_key o = None → cached (cache_write o w) = cached w }.

(** Neither starting a goroutine nor a work queue touches the cluster. *)
Class GoroutinesLaws `{!Goroutines W} := {
  go_later_view d m w : view (go_later d m w) = view w;
  go_later_cached d m w : cached (go_later d m w) = cached w }.

Class QueueLaws `{!Queue W O} := {
  Enqueue_law ns n w : ∃ w', Enqueue (O:=O) ns n w = (Ok tt, w') ∧ view w' = view w ∧
    cached w' = cached w }.

End laws.

Arguments GoroutinesLaws W {_ _}.
Arguments QueueLaws W O {_ _}.

Arguments CacheAliasLaws W O {_ _ _}.
Arguments put_obj : simpl never.
Arguments del_obj : simpl never.
Arguments ClientLaws W O {_ _ _}.
Arguments ClientHealthy W O {_ _ _}.
Arguments StrictClient W O {_ _ _}.
