(* ===== verification/KubeRules.v ===== *)
(** * Proof rules for API calls

    The laws of [Kube] as rules for [wp], one per request.  In the case of an
    error the rule also tells what a healthy API server excludes. *)

From stdpp Require Import base gmap list strings.
From S2P Require Import Prelude.
From S2P Require Import GoLib.
From S2P Require Import KubeTypes.
From S2P Require Import KubeObjects.
From S2P Require Import Kube.

Section rules.
Context {W O : Type} `{!Kube W, !Stored O, !StoredLaws O, !Client W O, !ClientLaws W O}.
Implicit Types (o : O) (w : W).

Lemma stored_as_key ns o o' :
  stored_as ns o o' → Name (meta o) ≠ "" → obj_key o' = write_key ns o.
Proof. intros (Hns & _ & Hn & _) Hne. unfold obj_key, write_key. by rewrite Hns, Hn. Qed.

Lemma tbl_put o s : tbl (put_obj o s) = <[obj_key o := o]> (tbl s).
Proof. apply tbl_set. Qed.

Lemma tbl_put_eq o s : tbl (put_obj o s) !! obj_key o = Some o.
Proof. by rewrite tbl_put, lookup_insert_eq. Qed.

Lemma tbl_del k s : tbl (del_obj (O:=O) k s) = delete k (tbl (O:=O) s).
Proof. apply tbl_set. Qed.

(** [s'] differs from [s] in the table of [O] only. *)
Definition only_tbl (s s' : KState) : Prop := s' = set_tbl (tbl (O:=O) s') s.

Lemma only_tbl_refl s : only_tbl s s.
Proof. unfold only_tbl. by rewrite set_tbl_tbl. Qed.

Lemma only_tbl_trans s1 s2 s3 : only_tbl s1 s2 → only_tbl s2 s3 → only_tbl s1 s3.
Proof. unfold only_tbl. intros H1 H2. rewrite H2 at 1. rewrite H1. by rewrite set_tbl_set. Qed.

Lemma only_tbl_put s s' o : only_tbl s s' → only_tbl s (put_obj o s').
Proof.
  unfold only_tbl. intros Hs. rewrite tbl_put. unfold put_obj.
  rewrite Hs at 2. by rewrite set_tbl_set.
Qed.

Lemma only_tbl_del s s' k : only_tbl s s' → only_tbl s (del_obj (O:=O) k s').
Proof.
  unfold only_tbl. intros Hs. rewrite tbl_del. unfold del_obj.
  rewrite Hs at 2. by rewrite set_tbl_set.
Qed.

(** What a request for an object of the kind [O] does not disturb. *)
Definition undisturbed (I : W → Prop) : Prop :=
  ∀ w w', I w → only_tbl (view w) (view w') → cache_step w w' → I w'.

Lemma wp_create ns o (Q : outcome O → W → Prop) w :
  (∀ o' w', stored_as ns o o' → tbl (view w) !! obj_key o' = None →
     view w' = put_obj o' (view w) → cache_step w w' → Q (Ok o') w') →
  (∀ e w', view w' = view w → cache_step w w' →
     (ClientHealthy W O → (Name (meta o) ≠ "" → tbl (view w) !! write_key ns o = None) →
        (Name (meta o) = "" → GenerateName (meta o) ≠ "") → False) → Q (Err e) w') →
  wp (api_create ns o) Q w.
Proof.
  intros Hok Herr. unfold wp. pose proof (create_law ns o w) as Hlaw.
  destruct (api_create ns o w) as [[] w'] eqn:Hrun; simpl; [naive_solver| |done..].
  destruct Hlaw. apply Herr; [done..|]. intros Hh Hf Hg.
  destruct (create_healthy ns o w Hf Hg) as (o' & w'' & ?). congruence.
Qed.

Lemma wp_update ns o (Q : outcome O → W → Prop) w :
  (∀ o' w', stored_as ns o o' → obj_key o' = write_key ns o →
     (∃ o0, tbl (view w) !! write_key ns o = Some o0 ∧ may_update o0 o = true) →
     view w' = put_obj o' (view w) → cache_step w w' → Q (Ok o') w') →
  (∀ e w', view w' = view w → cache_step w w' →
     (ClientHealthy W O → Name (meta o) ≠ "" →
        (∃ o0, tbl (view w) !! write_key ns o = Some o0 ∧
               ResourceVersion (meta o) = ResourceVersion (meta o0) ∧
               may_update o0 o = true) → False) →
     Q (Err e) w') →
  wp (api_update ns o) Q w.
Proof.
  intros Hok Herr. unfold wp. pose proof (update_law ns o w) as Hlaw.
  destruct (api_update ns o w) as [[] w'] eqn:Hrun; simpl; [| |done..].
  - destruct Hlaw as (? & ? & ? & ? & ?). eauto using stored_as_key.
  - destruct Hlaw. apply Herr; [done..|]. intros Hh Hn (o0 & ? & ? & ?).
    destruct (update_healthy ns o w Hn) as (o' & w'' & ?); [by eauto 6|]. congruence.
Qed.

(** For the kinds that allow it, an update without a resource version replaces what
    is there. *)
Lemma wp_update_any ns o (Q : outcome O → W → Prop) w :
  unconditional (O:=O) = true → ResourceVersion (meta o) = "" → ClientHealthy W O →
  Name (meta o) ≠ "" →
  (∃ o0, tbl (view w) !! write_key ns o = Some o0 ∧ may_update o0 o = true) →
  (∀ o' w', stored_as ns o o' → obj_key o' = write_key ns o →
     view w' = put_obj o' (view w) → cache_step w w' → Q (Ok o') w') →
  wp (api_update ns o) Q w.
Proof.
  intros Hun Hrv Hh Hn (o0 & Ho0 & Hm) Hok.
  destruct (update_healthy ns o w Hn) as (o' & w' & Hrun); [by eauto 8|].
  pose proof (update_law ns o w) as Hlaw. rewrite Hrun in Hlaw. destruct Hlaw as (? & _ & _ & ? & ?).
  eapply wp_unfold; [exact Hrun|]. eauto using stored_as_key.
Qed.

Lemma wp_delete ns n (Q : outcome unit → W → Prop) w :
  (∀ w', is_Some (tbl (O:=O) (view w) !! (ns, n)) →
     view w' = del_obj (O:=O) (ns, n) (view w) → cache_step w w' → Q (Ok tt) w') →
  (∀ e w', (IsNotFound e = true → tbl (O:=O) (view w) !! (ns, n) = None) →
     view w' = view w → cache_step w w' →
     (ClientHealthy W O → IsNotFound e = true) →
     (ClientHealthy W O → is_Some (tbl (O:=O) (view w) !! (ns, n)) → False) → Q (Err e) w') →
  wp (api_delete (O:=O) ns n) Q w.
Proof.
  intros Hok Herr. unfold wp. pose proof (delete_law (O:=O) ns n w) as Hlaw.
  destruct (api_delete (O:=O) ns n w) as [[[]| | |] w'] eqn:Hrun; simpl; [naive_solver| |done..].
  destruct Hlaw as (? & ? & ?). apply Herr; [done..| |].
  - intros Hh. destruct (tbl (O:=O) (view w) !! (ns, n)) eqn:Hn.
    + destruct (delete_healthy (O:=O) ns n w) as (w'' & ?); [by rewrite Hn|congruence].
    + destruct (delete_absent (O:=O) ns n w Hn) as (e' & w'' & ? & ?). congruence.
  - intros Hh Hs. destruct (delete_healthy (O:=O) ns n w Hs) as (w'' & ?). congruence.
Qed.

(** The listing of a cache. *)
Lemma elem_of_lister ns sel w l o :
  lister_List ns sel w = Ok l →
  o ∈ l ↔ tbl (cached w) !! obj_key o = Some o ∧
          (ns = "" ∨ Namespace (meta o) = ns) ∧ selects sel (Labels (meta o)).
Proof.
  intros Hl. destruct (lister_list_law (O:=O) ns sel w) as (l' & Hl' & Hperm).
  rewrite Hl in Hl'. injection Hl' as <-.
  rewrite Hperm, list_elem_of_filter, list_elem_of_fmap.
  split.
  - intros [? ([k o'] & -> & Hk%elem_of_map_to_list)]. simpl.
    by rewrite <-(cached_keyed w _ _ Hk).
  - intros [Hk ?]. split; [done|]. exists (obj_key o, o).
    split; [done|]. by apply elem_of_map_to_list.
Qed.

Lemma NoDup_values (t : gmap nsname O) : well_keyed t → NoDup (obj_key <$> (map_to_list t).*2).
Proof.
  intros Ht. rewrite <-list_fmap_compose.
  assert ((obj_key ∘ snd) <$> map_to_list t = (map_to_list t).*1) as ->.
  { apply list_fmap_ext. intros i [k o] Hi. simpl. symmetry. apply Ht.
    apply elem_of_map_to_list, list_elem_of_lookup. eauto. }
  apply NoDup_fst_map_to_list.
Qed.

Lemma NoDup_lister ns sel w l :
  lister_List ns sel w = Ok l → NoDup (obj_key <$> l).
Proof.
  intros Hl. destruct (lister_list_law (O:=O) ns sel w) as (l' & Hl' & Hperm).
  rewrite Hl in Hl'. injection Hl' as <-.
  rewrite Hperm. apply NoDup_fmap_filter, NoDup_values, cached_keyed.
Qed.

Lemma elem_of_index f key w l o :
  ByIndex f key w = Ok l → o ∈ l ↔ tbl (cached w) !! obj_key o = Some o ∧ key ∈ f o.
Proof.
  intros Hl. destruct (by_index_law (O:=O) f key w) as (l' & Hl' & Hperm).
  rewrite Hl in Hl'. injection Hl' as <-.
  rewrite Hperm, list_elem_of_filter, list_elem_of_fmap.
  split.
  - intros [? ([k o'] & -> & Hk%elem_of_map_to_list)]. simpl.
    by rewrite <-(cached_keyed w _ _ Hk).
  - intros [Hk ?]. split; [done|]. exists (obj_key o, o).
    split; [done|]. by apply elem_of_map_to_list.
Qed.

Lemma NoDup_index f key w l : ByIndex f key w = Ok l → NoDup (obj_key <$> l).
Proof.
  intros Hl. destruct (by_index_law (O:=O) f key w) as (l' & Hl' & Hperm).
  rewrite Hl in Hl'. injection Hl' as <-.
  rewrite Hperm. apply NoDup_fmap_filter, NoDup_values, cached_keyed.
Qed.

(** The answer of the server to a listing. *)
Lemma elem_of_list ns sel w l o :
  api_list ns sel w = Ok l →
  o ∈ l ↔ tbl (view w) !! obj_key o = Some o ∧
          (ns = "" ∨ Namespace (meta o) = ns) ∧ selects sel (Labels (meta o)).
Proof.
  intros Hl. pose proof (list_law (O:=O) ns sel w) as Hlaw. rewrite Hl in Hlaw.
  rewrite Hlaw, list_elem_of_filter, list_elem_of_fmap.
  split.
  - intros [? ([k o'] & -> & Hk%elem_of_map_to_list)]. simpl.
    by rewrite <-(view_keyed w _ _ Hk).
  - intros [Hk ?]. split; [done|]. exists (obj_key o, o).
    split; [done|]. by apply elem_of_map_to_list.
Qed.

(** ** Loops of requests *)

Lemma elem_of_keys (ns n : string) (l : list string) : (ns, n) ∈ pair ns <$> l ↔ n ∈ l.
Proof.
  rewrite list_elem_of_fmap. split; [by intros (? & [= ->] & ?)|]. intros. by exists n.
Qed.

Lemma elem_of_keys_ns (ns ns' n : string) (l : list string) :
  (ns', n) ∈ pair ns <$> l ↔ ns' = ns ∧ n ∈ l.
Proof.
  rewrite list_elem_of_fmap. split; [by intros (? & [= -> ->] & ?)|]. intros [-> ?]. by exists n.
Qed.

Lemma keys_mono (ns : string) (l l' : list string) :
  l ⊆ l' → pair ns <$> l ⊆ pair ns <$> l'.
Proof.
  intros Hl k (n & -> & Hn)%list_elem_of_fmap. apply elem_of_keys. by apply Hl.
Qed.

(** [s'] is [s] but for objects of the kind [O] with the keys [ks]. *)
Definition changed_at (ks : list nsname) (s s' : KState) : Prop :=
  only_tbl s s' ∧ ∀ k, k ∉ ks → tbl (O:=O) s' !! k = tbl (O:=O) s !! k.

(** Objects in the namespace [ns] may have changed, and nothing else. *)
Definition changed_in (ns : string) (s s' : KState) : Prop :=
  only_tbl s s' ∧ ∀ k, k.1 ≠ ns → tbl (O:=O) s' !! k = tbl s !! k.

#[export] Instance changed_in_preorder ns : PreOrder (changed_in ns).
Proof.
  split; [intros s; split; [apply only_tbl_refl|done]|].
  intros s1 s2 s3 [H1 K1] [H2 K2]. split; [by eapply only_tbl_trans|]. intros k Hk. by rewrite K2, K1.
Qed.

Lemma changed_in_put s o : changed_in (Namespace (meta o)) s (put_obj o s).
Proof.
  split; [apply only_tbl_put, only_tbl_refl|]. intros k Hk. rewrite tbl_put, lookup_insert_ne; [done|].
  intros <-. by apply Hk.
Qed.

Lemma changed_in_del s k : changed_in k.1 s (del_obj (O:=O) k s).
Proof.
  split; [apply only_tbl_del, only_tbl_refl|]. intros k' Hk. rewrite tbl_del, lookup_delete_ne; [done|].
  intros <-. by apply Hk.
Qed.

Lemma changed_at_refl ks s : changed_at ks s s.
Proof. split; [apply only_tbl_refl|done]. Qed.

Lemma changed_at_mono ks ks' s s' : ks ⊆ ks' → changed_at ks s s' → changed_at ks' s s'.
Proof. intros Hks [? Hk]. split; [done|]. intros k Hn. apply Hk. contradict Hn. by apply Hks. Qed.

Lemma changed_at_trans ks s1 s2 s3 :
  changed_at ks s1 s2 → changed_at ks s2 s3 → changed_at ks s1 s3.
Proof.
  intros [H1 K1] [H2 K2]. split.
  - by eapply only_tbl_trans.
  - intros k Hk. by rewrite K2, K1.
Qed.

Lemma changed_at_put ks s o : obj_key o ∈ ks → changed_at ks s (put_obj o s).
Proof.
  intros Ho. split; [apply only_tbl_put, only_tbl_refl|]. intros k Hk.
  rewrite tbl_put, lookup_insert_ne; [done|]. by intros <-.
Qed.

Lemma changed_at_del ks s k : k ∈ ks → changed_at ks s (del_obj (O:=O) k s).
Proof.
  intros Ho. split; [apply only_tbl_del, only_tbl_refl|]. intros k' Hk.
  rewrite tbl_del, lookup_delete_ne; [done|]. by intros <-.
Qed.

(** The objects of [l] are in [s'], the rest is as in [s]. *)
Definition created (ns : string) (l : list (string * O)) (s s' : KState) : Prop :=
  changed_at (pair ns <$> l.*1) s s' ∧
  ∀ n o, (n, o) ∈ l → ∃ o', tbl s' !! (ns, n) = Some o' ∧ stored_as ns o o'.

Definition deleted (ns : string) (names : list string) (s s' : KState) : Prop :=
  changed_at (pair ns <$> names) s s' ∧ ∀ n, n ∈ names → tbl (O:=O) s' !! (ns, n) = None.

Lemma wp_create_all ns (l : list (string * O)) w :
  NoDup l.*1 → (∀ n o, (n, o) ∈ l → write_key ns o = (ns, n) ∧ n ≠ "") →
  wp (for_each (λ kv : string * O, do* api_create ns kv.2 in ret tt) l)
    (if_ok (λ _ w', created ns l (view w) (view w'))
       (λ _ w', changed_at (pair ns <$> l.*1) (view w) (view w') ∧
          (ClientHealthy W O → ¬ ∀ n, n ∈ l.*1 → tbl (O:=O) (view w) !! (ns, n) = None))) w.
Proof.
  intros Hnd Hl. apply (wp_for_each (λ don w', created ns don (view w) (view w'))).
  { split; [apply changed_at_refl|]. by intros ?? ?%elem_of_nil. }
  intros don [n o] rest w' -> [Hch Hcr]. simpl.
  destruct (Hl n o) as [Hkey Hne]; [apply elem_of_app; right; left|]. clear Hl.
  rewrite fmap_app, fmap_cons in *. simpl in *. apply NoDup_app in Hnd as (_ & Hdis & _).
  assert (n ∉ don.*1) as Hn by (intros Hin; apply (Hdis n Hin); left). clear Hdis.
  apply wp_bind, wp_create; simpl.
  - intros o' w'' Hst _ Hv _. apply wp_ret. simpl. rewrite Hv.
    assert (obj_key o' = (ns, n)) as Hk.
    { rewrite <-Hkey. apply stored_as_key; [done|]. unfold write_key in Hkey. by simplify_eq. }
    split.
    + rewrite fmap_app. eapply changed_at_trans.
      * eapply changed_at_mono; [|done]. apply keys_mono. intros x ?. apply elem_of_app. by left.
      * apply changed_at_put. rewrite Hk. apply elem_of_keys, elem_of_app. right. left.
    + intros n' o1 [Hin|Heq%list_elem_of_singleton]%elem_of_app.
      * destruct (Hcr n' o1 Hin) as (o2 & Ho2 & ?). exists o2. split; [|done].
        rewrite tbl_put, Hk, lookup_insert_ne; [done|]. intros [= ->]. apply Hn.
        apply list_elem_of_fmap. by exists (n', o1).
      * simplify_eq. exists o'. by rewrite tbl_put, Hk, lookup_insert_eq.
  - intros e w'' -> _ Hno. split.
    { eapply changed_at_mono; [|done]. apply keys_mono. intros x ?. apply elem_of_app. by left. }
    intros Hh Hfree. apply Hno; [done| |].
    + intros _. rewrite Hkey. destruct Hch as [_ ->]; [|by rewrite elem_of_keys].
      apply Hfree, elem_of_app. right. left.
    + unfold write_key in Hkey. by simplify_eq.
Qed.

Lemma wp_delete_all ns names w :
  NoDup names →
  wp (for_each (api_delete (O:=O) ns) names)
    (if_ok (λ _ w', deleted ns names (view w) (view w'))
       (λ _ w', changed_at (pair ns <$> names) (view w) (view w') ∧
          (ClientHealthy W O → ¬ ∀ n, n ∈ names → is_Some (tbl (O:=O) (view w) !! (ns, n))))) w.
Proof.
  intros Hnd. apply (wp_for_each (λ don w', deleted ns don (view w) (view w'))).
  { split; [apply changed_at_refl|]. by intros ? ?%elem_of_nil. }
  intros don n rest w' -> [Hch Hde].
  apply NoDup_app in Hnd as (_ & Hdis & _).
  assert (n ∉ don) as Hn by (intros Hin; apply (Hdis n Hin); left). clear Hdis.
  apply wp_delete; simpl.
  - intros w'' _ Hv _. rewrite Hv. split.
    + eapply changed_at_trans.
      * eapply changed_at_mono; [|done]. apply keys_mono. intros x ?. apply elem_of_app. by left.
      * apply changed_at_del, elem_of_keys, elem_of_app. right. left.
    + intros n' Hn'. rewrite tbl_del. destruct (decide (n' = n)) as [->|Hne].
      { by rewrite lookup_delete_eq. }
      rewrite lookup_delete_ne by congruence. apply Hde.
      apply elem_of_app in Hn' as [?|?%list_elem_of_singleton]; done.
  - intros e w'' _ -> _ _ Hno. split.
    { eapply changed_at_mono; [|done]. apply keys_mono. intros x ?. apply elem_of_app. by left. }
    intros Hh Hs. apply Hno; [done|]. destruct Hch as [_ ->]; [|by rewrite elem_of_keys].
    apply Hs, elem_of_app. right. left.
Qed.

End rules.

(** ** Range statements *)

Section range.
Context {W : Type} `{!GoRuntime W, !GoRuntimeLaws W}.

Lemma wp_range {A} (m : gmap string A) (Q : outcome (list (string * A)) → W → Prop) w :
  (∀ l, l ≡ₚ map_to_list m → Q (Ok l) w) → wp (range m) Q w.
Proof. intros HQ. unfold wp, range. simpl. apply HQ, map_range_perm. Qed.

Lemma range_elem {A} (m : gmap string A) l k a :
  l ≡ₚ map_to_list m → (k, a) ∈ l ↔ m !! k = Some a.
Proof. intros ->. apply elem_of_map_to_list. Qed.

Lemma range_dom {A} (m : gmap string A) l k :
  l ≡ₚ map_to_list m → k ∈ l.*1 ↔ is_Some (m !! k).
Proof.
  intros Hl. rewrite list_elem_of_fmap. split.
  - intros ([k' a] & -> & Hin%(range_elem _ _ _ _ Hl)). eauto.
  - intros [a Ha%(range_elem _ _ _ _ Hl)]. by exists (k, a).
Qed.

Lemma range_NoDup {A} (m : gmap string A) l : l ≡ₚ map_to_list m → NoDup l.*1.
Proof. intros ->. apply NoDup_fst_map_to_list. Qed.

End range.

Section caches.
Context {W : Type} `{!Kube W}.

Lemma cache_step_same (w : W) : cache_step w w.
Proof. unfold cache_step, kstate_between, tables_between, between. naive_solver. Qed.

Lemma cache_step_tbl {O} `{!Stored O, !StoredLaws O} (w w' : W) k :
  cache_step w w' →
  tbl (O:=O) (cached w') !! k = tbl (cached w) !! k ∨
  tbl (O:=O) (cached w') !! k = tbl (view w') !! k.
Proof. intros Hc. by apply (tbl_between _ _ _ Hc). Qed.

(** An entry the cache shows as it is stays so if no request changes it. *)
Lemma cache_step_sync {O} `{!Stored O, !StoredLaws O} (w w' : W) k :
  cache_step w w' →
  tbl (O:=O) (view w') !! k = tbl (view w) !! k →
  tbl (O:=O) (cached w) !! k = tbl (view w) !! k →
  tbl (O:=O) (cached w') !! k = tbl (view w') !! k.
Proof. intros Hc Hv Hs. destruct (cache_step_tbl (O:=O) w w' k Hc); congruence. Qed.

End caches.

(** The cache of the kind [O] shows the cluster as it is. *)
Definition in_sync_kind {W} (O : Type) `{!Kube W, !Stored O} (w : W) : Prop :=
  tbl (O:=O) (cached w) = tbl (view w).

Section sync.
Context {W : Type} `{!Kube W}.
Implicit Types (w : W).

(** A request for one kind keeps the cache of another in step. *)
Lemma sync_undisturbed {A B} `{!Stored A, !StoredLaws A, !Stored B, !StoredLaws B} w w' :
  (∀ s s', only_tbl (O:=A) s s' → tbl (O:=B) s' = tbl (O:=B) s) →
  in_sync_kind B w → only_tbl (O:=A) (view w) (view w') → cache_step w w' → in_sync_kind B w'.
Proof.
  intros Hab Hs Hot Hcs. apply map_eq. intros k.
  apply (cache_step_sync (O:=B) w w' k Hcs); [by rewrite (Hab _ _ Hot)|by rewrite Hs].
Qed.

End sync.

Ltac other_kind :=
  let s := fresh in let s' := fresh in let H := fresh in
  intros s s' H; unfold only_tbl in H; by rewrite H.
