(* ===== verification/KubeSim.v ===== *)
(** * A simulated cluster

    An executable instance of the client interface of [Kube]: an API server
    that holds the objects in tables and informer caches that show a fixed
    snapshot.  It satisfies [ClientLaws] and [ClientHealthy], so the theorems
    proved against those classes apply to it; the witnesses run the
    controllers on it. *)

From stdpp Require Import base gmap list sorting strings stringmap pretty.
From Stdlib Require Import ZArith.
From S2P Require Import Prelude.
From S2P Require Import GoLib.
From S2P Require Import KubeTypes.
From S2P Require Import KubeObjects.
From S2P Require Import Kube.

Definition empty_tables : Tables :=
  {| t_Nodes := ∅; t_NodePools := ∅; t_ClusterRegistrationTokens := ∅;
     t_ProjectNetworkPolicies := ∅; t_PodSecurityPolicyTemplates := ∅;
     t_PodSecurityPolicyTemplateProjectBindings := ∅; t_ManagementNamespaces := ∅;
     t_ManagementSecrets := ∅; t_Secrets := ∅; t_CoreNodes := ∅; t_Pods := ∅;
     t_Services := ∅; t_NetworkPolicies := ∅; t_PodSecurityPolicies := ∅; t_Groups := ∅; t_GroupMembers := ∅; t_AuthConfigs := ∅;
     t_ServiceAccounts := ∅ |}.

Definition empty_state : KState :=
  {| s_ClusterRoles := ∅; s_Roles := ∅; s_ClusterRoleBindings := ∅; s_RoleBindings := ∅; s_RoleTemplates := ∅; s_ProjectRoleTemplateBindings := ∅; s_ClusterRoleTemplateBindings := ∅; s_GlobalRoles := ∅; s_GlobalRoleBindings := ∅; s_Projects := ∅; s_Clusters := ∅; s_Namespaces := ∅; s_Users := ∅; s_Tokens := ∅;
     s_Tables := empty_tables |}.

(** Entries without a name or filed under a key that is not their own are not
    objects. *)
Definition clean_tbl {O} `{!Stored O} (t : gmap nsname O) : gmap nsname O :=
  filter (λ p, p.1 = obj_key p.2 ∧ p.1.2 ≠ "") t.

Definition clean_tables (t : Tables) : Tables :=
  {| t_Nodes := clean_tbl (t_Nodes t);
     t_NodePools := clean_tbl (t_NodePools t);
     t_ClusterRegistrationTokens := clean_tbl (t_ClusterRegistrationTokens t);
     t_ProjectNetworkPolicies := clean_tbl (t_ProjectNetworkPolicies t);
     t_PodSecurityPolicyTemplates := clean_tbl (t_PodSecurityPolicyTemplates t);
     t_PodSecurityPolicyTemplateProjectBindings := clean_tbl (t_PodSecurityPolicyTemplateProjectBindings t);
     t_ManagementNamespaces := clean_tbl (t_ManagementNamespaces t);
     t_ManagementSecrets := clean_tbl (t_ManagementSecrets t);
     t_Secrets := clean_tbl (t_Secrets t);
     t_CoreNodes := clean_tbl (t_CoreNodes t);
     t_Pods := clean_tbl (t_Pods t);
     t_Services := clean_tbl (t_Services t);
     t_NetworkPolicies := clean_tbl (t_NetworkPolicies t);
     t_PodSecurityPolicies := clean_tbl (t_PodSecurityPolicies t);
     t_Groups := clean_tbl (t_Groups t);
     t_GroupMembers := clean_tbl (t_GroupMembers t);
     t_AuthConfigs := clean_tbl (t_AuthConfigs t);
     t_ServiceAccounts := clean_tbl (t_ServiceAccounts t) |}.

Definition clean (s : KState) : KState :=
  {| s_ClusterRoles := clean_tbl (s_ClusterRoles s);
     s_Roles := clean_tbl (s_Roles s);
     s_ClusterRoleBindings := clean_tbl (s_ClusterRoleBindings s);
     s_RoleBindings := clean_tbl (s_RoleBindings s);
     s_RoleTemplates := clean_tbl (s_RoleTemplates s);
     s_ProjectRoleTemplateBindings := clean_tbl (s_ProjectRoleTemplateBindings s);
     s_ClusterRoleTemplateBindings := clean_tbl (s_ClusterRoleTemplateBindings s);
     s_GlobalRoles := clean_tbl (s_GlobalRoles s);
     s_GlobalRoleBindings := clean_tbl (s_GlobalRoleBindings s);
     s_Projects := clean_tbl (s_Projects s);
     s_Clusters := clean_tbl (s_Clusters s);
     s_Namespaces := clean_tbl (s_Namespaces s);
     s_Users := clean_tbl (s_Users s);
     s_Tokens := clean_tbl (s_Tokens s);
     s_Tables := clean_tables (s_Tables s) |}.

(** [sim_cached] is what the informers show. *)
Record Sim := { sim_view : KState; sim_cached : KState; sim_now : Z }.

#[export] Instance sim_kube : Kube Sim := {
  view w := clean (sim_view w);
  cached w := clean (sim_cached w) }.

#[export] Instance sim_runtime : GoRuntime Sim := {
  map_range _ _ m := map_to_list m;
  time_Now := sim_now;
  format_RFC3339 t := pretty t }.

#[export] Instance sim_runtime_laws : GoRuntimeLaws Sim.
Proof. by split. Qed.

(** Goroutines that have not run yet, and work queues nobody looks at. *)
#[export] Instance sim_goroutines : Goroutines Sim := { go_later _ _ w := w }.

#[export] Instance sim_goroutines_laws : GoroutinesLaws Sim.
Proof. by split. Qed.

#[export] Instance sim_queue O : Queue Sim O := { Enqueue _ _ := ret tt }.

#[export] Instance sim_queue_laws O : QueueLaws Sim O.
Proof. split. intros ns n w. by exists w. Qed.

(** Sorting by insertion. *)
Fixpoint insert_by {A} (less : A → A → bool) (x : A) (l : list A) : list A :=
  match l with
  | [] => [x]
  | y :: l' => if less y x then y :: insert_by less x l' else x :: l
  end.

#[export] Instance sim_sort : SortSlice := {
  sort_Slice _ less l := foldr (insert_by less) [] l }.

Lemma insert_by_perm {A} (less : A → A → bool) x l : insert_by less x l ≡ₚ x :: l.
Proof.
  induction l as [|y l IH]; simpl; [done|]. destruct (less y x); [|done].
  rewrite IH. apply Permutation_swap.
Qed.

Lemma insert_by_sorted {A} (less : A → A → bool) x l :
  weak_order less → StronglySorted (λ x y, less y x = false) l →
  StronglySorted (λ x y, less y x = false) (insert_by less x l).
Proof.
  intros Hw. induction 1 as [|y l Hs IH Hall]; simpl; [by repeat constructor|].
  destruct (less y x) eqn:Hyx; constructor; [done| |by constructor|].
  - rewrite insert_by_perm. constructor; [|done]. apply not_true_is_false. intros Hxy.
    pose proof (wo_trans _ Hw _ _ _ Hxy Hyx) as Hxx. by rewrite (wo_irrefl _ Hw) in Hxx.
  - constructor; [done|]. eapply Forall_impl; [exact Hall|]. intros z Hzy.
    exact (wo_incomp _ Hw _ _ _ Hzy Hyx).
Qed.

#[export] Instance sim_sort_laws : SortSliceLaws.
Proof.
  split.
  - intros A less l. simpl. induction l as [|x l IH]; simpl; [done|]. by rewrite insert_by_perm, IH.
  - intros A less l Hw. simpl. induction l as [|x l IH]; simpl; [constructor|]. by apply insert_by_sorted.
Qed.

(** A cluster whose caches are up to date. *)
Definition synced (s : KState) : Sim := {| sim_view := s; sim_cached := s; sim_now := 0 |}.

(** [defaults] fills in what the server does when a request leaves it out: the API
    group of the role a binding refers to. *)
Class SimKind (O : Type) `{!Stored O} := {
  defaults : O → O;
  tbl_clean s : tbl (clean s) = clean_tbl (tbl s);
  clean_set m s : clean (set_tbl m s) = set_tbl (clean_tbl m) (clean s);
  stamp_spec o m : same_spec o (set_meta m (defaults o)) }.

Section sim.
Context {O : Type} `{!Stored O, !StoredLaws O, !SimKind O}.

Definition sim_not_found {A} (n : string) : outcome A :=
  Err (StatusError StatusReasonNotFound n).

Definition sim_set (s : KState) (w : Sim) : Sim :=
  {| sim_view := s; sim_cached := sim_cached w; sim_now := sim_now w |}.

Definition sim_names (w : Sim) : gset string :=
  {[ "" ]} ∪ set_map snd (dom (tbl (O:=O) (view w))).

(** The metadata of a created object: name, namespace, UID and creation time are
    filled in. *)
Definition stamp (ns name : string) (w : Sim) (o : O) : O :=
  let m := meta o in
  set_meta {| Name := name; GenerateName := GenerateName m; Namespace := client_ns ns o;
              UID := if decide (UID m = "") then "uid-" +:+ name else UID m;
              ResourceVersion := ResourceVersion m;
              Labels := Labels m; Annotations := Annotations m;
              OwnerReferences := OwnerReferences m; CreationTimestamp := sim_now w;
              DeletionTimestamp := DeletionTimestamp m |} (defaults o).

Definition sim_create (ns : string) (o : O) : M Sim O := λ w,
  let m := meta o in
  if decide (Name m = "" ∧ GenerateName m = "") then
    (Err (StatusError StatusReasonUnknown "name or generateName is required"), w)
  else
    let name := if decide (Name m = "") then fresh_string_of_set (GenerateName m) (sim_names w)
                else Name m in
    let o' := stamp ns name w o in
    match tbl (view w) !! obj_key o' with
    | Some _ => (Err (StatusError StatusReasonAlreadyExists name), w)
    | None => (Ok o', sim_set (put_obj o' (sim_view w)) w)
    end.

Definition sim_update (ns : string) (o : O) : M Sim O := λ w,
  if decide (Name (meta o) = "") then (Err (PlainError "object missing name"), w)
  else match tbl (view w) !! write_key ns o with
       | None => (sim_not_found (Name (meta o)), w)
       | Some o0 =>
         if may_update o0 o then
           let o' := stamp ns (Name (meta o)) w o in
           (Ok o', sim_set (put_obj o' (sim_view w)) w)
         else (Err (StatusError StatusReasonUnknown "cannot change roleRef"), w)
       end.

Definition sim_delete (ns n : string) : M Sim unit := λ w,
  match tbl (O:=O) (view w) !! (ns, n) with
  | None => (sim_not_found n, w)
  | Some _ => (Ok tt, sim_set (del_obj (O:=O) (ns, n) (sim_view w)) w)
  end.

Definition sim_lookup (t : gmap nsname O) (ns n : string) : outcome O :=
  match t !! (ns, n) with Some o => Ok o | None => sim_not_found n end.

Definition sim_select (t : gmap nsname O) (ns : string) (sel : Selector) : list O :=
  filter (λ o, (ns = "" ∨ Namespace (meta o) = ns) ∧ selects sel (Labels (meta o)))
         ((map_to_list t).*2).

#[export] Instance sim_client : Client Sim O := {
  api_create := sim_create;
  api_update := sim_update;
  api_delete := sim_delete;
  api_get ns n w := sim_lookup (tbl (view w)) ns n;
  api_list ns sel w := Ok (sim_select (tbl (view w)) ns sel);
  lister_Get ns n w := sim_lookup (tbl (cached w)) ns n;
  lister_List ns sel w := Ok (sim_select (tbl (cached w)) ns sel);
  ByIndex f key w := Ok (filter (λ o, key ∈ f o) ((map_to_list (tbl (cached w))).*2)) }.

#[export] Instance sim_alias : CacheAlias Sim O := {
  cache_write o w :=
    if decide (is_Some (tbl (cached w) !! obj_key o))
    then {| sim_view := sim_view w; sim_cached := put_obj o (sim_cached w); sim_now := sim_now w |}
    else w }.

Lemma stamp_key ns n w o : obj_key (stamp ns n w o) = (client_ns ns o, n).
Proof. unfold obj_key, stamp. by rewrite meta_set. Qed.

Lemma stamp_stored_as ns n w o :
  n ≠ "" → (Name (meta o) ≠ "" → n = Name (meta o)) → stored_as ns o (stamp ns n w o).
Proof.
  intros Hn Hname. unfold stored_as. unfold stamp.
  rewrite meta_set. simpl. split_and!; auto using stamp_spec.
Qed.

Lemma clean_put o s : Name (meta o) ≠ "" → clean (put_obj o s) = put_obj o (clean s).
Proof.
  intros Hn. unfold put_obj. rewrite clean_set, tbl_clean. f_equal. unfold clean_tbl.
  by apply map_filter_insert_True.
Qed.

Lemma clean_del k s : clean (del_obj (O:=O) k s) = del_obj (O:=O) k (clean s).
Proof.
  unfold del_obj. rewrite clean_set, tbl_clean. f_equal. unfold clean_tbl.
  by apply map_filter_delete.
Qed.

Lemma cache_step_set s w : cache_step w (sim_set s w).
Proof. unfold cache_step, kstate_between, tables_between, between. simpl. naive_solver. Qed.

Lemma cache_step_refl (w : Sim) : cache_step w w.
Proof. unfold cache_step, kstate_between, tables_between, between. simpl. naive_solver. Qed.

Lemma clean_tbl_keyed t : well_keyed (clean_tbl (O:=O) t).
Proof. intros k o. unfold clean_tbl. rewrite map_lookup_filter_Some. by intros [_ [Hk _]]. Qed.

Lemma clean_tbl_named t k : is_Some (clean_tbl (O:=O) t !! k) → k.2 ≠ "".
Proof. intros [o Ho]. unfold clean_tbl in Ho. by apply map_lookup_filter_Some in Ho as (_ & _ & ?). Qed.

Lemma sim_fresh w p : fresh_string_of_set p (sim_names w) ≠ "" ∧
  ∀ ns, tbl (O:=O) (view w) !! (ns, fresh_string_of_set p (sim_names w)) = None.
Proof.
  pose proof (fresh_string_of_set_fresh (sim_names w) p) as Hfr.
  split.
  - intros Heq. apply Hfr. rewrite Heq. unfold sim_names. set_solver.
  - intros ns. apply eq_None_not_Some. intros Hs%elem_of_dom. apply Hfr.
    unfold sim_names. apply elem_of_union_r, elem_of_map. by eexists (ns, _).
Qed.

#[export] Instance sim_client_laws : ClientLaws Sim O.
Proof.
  split.
  - intros ns o w. unfold api_create, sim_client, sim_create. case_decide as Hname.
    { split; [done|apply cache_step_refl]. }
    set (name := if decide _ then _ else _).
    destruct (tbl (view w) !! obj_key _) eqn:Hl.
    { split; [done|apply cache_step_refl]. }
    assert (name ≠ "") as Hne by (subst name; case_decide; [apply sim_fresh|done]).
    split_and!; [|done|apply clean_put; unfold stamp; by rewrite meta_set|apply cache_step_set].
    apply stamp_stored_as; [done|]. subst name. by case_decide.
  - intros ns o w. unfold api_update, sim_client, sim_update. case_decide as Hname.
    { split; [done|apply cache_step_refl]. }
    destruct (tbl (view w) !! write_key ns o) as [o0|] eqn:Hl.
    + destruct (may_update o0 o) eqn:Hm; [|split; [done|apply cache_step_refl]].
      split_and!; [by apply stamp_stored_as|by exists o0|done| |apply cache_step_set].
      apply clean_put. unfold stamp. by rewrite meta_set.
    + split; [done|apply cache_step_refl].
  - intros ns n w. unfold api_delete, sim_client, sim_delete. destruct (tbl (view w) !! (ns, n)) eqn:Hl.
    + split_and!; [done|apply clean_del|apply cache_step_set].
    + split_and!; [done|done|apply cache_step_refl].
  - intros ns n w. simpl. unfold sim_lookup. by destruct (_ !! _).
  - intros ns sel w. simpl. done.
  - intros ns n w. simpl. unfold sim_lookup. destruct (_ !! _); [done|]. by eexists.
  - intros ns sel w. simpl. by eexists.
  - intros f key w. simpl. by eexists.
  - intros w. simpl. rewrite tbl_clean. apply clean_tbl_keyed.
  - intros w. simpl. rewrite tbl_clean. apply clean_tbl_keyed.
  - intros w k. simpl. rewrite tbl_clean. apply clean_tbl_named.
  - intros w k. simpl. rewrite tbl_clean. apply clean_tbl_named.
Qed.

#[export] Instance sim_alias_laws : CacheAliasLaws Sim O.
Proof.
  split.
  - intros o w. unfold cache_write, sim_alias. by case_decide.
  - intros o w Ho. unfold cache_write, sim_alias. rewrite decide_True by done. apply clean_put.
    apply (cached_named w (obj_key o)). exact Ho.
  - intros o w Ho. unfold cache_write, sim_alias. rewrite decide_False; [done|]. rewrite Ho. by intros [? ?].
Qed.

#[export] Instance sim_client_healthy : ClientHealthy Sim O.
Proof.
  split.
  - intros ns o w Hfree Hgen. unfold api_create, sim_client, sim_create.
    rewrite decide_False by naive_solver. rewrite stamp_key. case_decide as Hname.
    + destruct (sim_fresh w (GenerateName (meta o))) as [_ Hf]. rewrite (Hf _). by eauto.
    + unfold write_key in Hfree. rewrite (Hfree Hname). by eauto.
  - intros ns o w Hname (o0 & Ho & _ & Hm). unfold api_update, sim_client, sim_update.
    rewrite decide_False by done. rewrite Ho, Hm. by eauto.
  - intros ns n w [o Ho]. unfold api_delete, sim_client, sim_delete. rewrite Ho. by eauto.
  - intros ns n w Hn. unfold api_delete, sim_client, sim_delete. rewrite Hn. by eauto.
  - intros ns n w o Ho. simpl. unfold sim_lookup. exact (f_equal (λ r : option O, match r with Some o => Ok o | None => sim_not_found n end) Ho).
  - intros ns n w Hn. simpl. unfold sim_lookup. eexists.
    split; [exact (f_equal (λ r : option O, match r with Some o => Ok o | None => sim_not_found n end) Hn)|done].
  - intros ns sel w. by eexists.
Qed.

#[export] Instance sim_strict_client : StrictClient Sim O.
Proof.
  split.
  - intros ns o w Hn [o0 Ho]. unfold api_create, sim_client, sim_create. rewrite decide_False by naive_solver.
    rewrite stamp_key, decide_False by done. unfold write_key in Ho. rewrite Ho. by eauto.
  - intros ns o w Hn Ho. unfold api_update, sim_client, sim_update. rewrite decide_False by done. rewrite Ho. by eauto.
Qed.

End sim.

Definition default_group (r : RoleRef) : RoleRef :=
  {| rr_APIGroup := if decide (rr_APIGroup r = "") then "rbac.authorization.k8s.io" else rr_APIGroup r;
     rr_Kind := rr_Kind r; rr_Name := rr_Name r |}.

Ltac sim_kind f :=
  refine {| defaults := f |}; [reflexivity|reflexivity|];
  intros [] ?; first [reflexivity | split; [apply same_subjects_refl|done]
               | symmetry; apply stored_spec_idemp
               | split; symmetry; [apply effective_idemp|apply secret_type_idemp]].

#[export] Instance ClusterRole_sim : SimKind ClusterRole.
Proof. sim_kind (λ o : ClusterRole, o). Defined.
#[export] Instance Role_sim : SimKind Role.
Proof. sim_kind (λ o : Role, o). Defined.
#[export] Instance ClusterRoleBinding_sim : SimKind ClusterRoleBinding.
Proof. sim_kind (λ o, {| crb_meta := crb_meta o; crb_Subjects := crb_Subjects o; crb_RoleRef := default_group (crb_RoleRef o) |}). Defined.
#[export] Instance RoleBinding_sim : SimKind RoleBinding.
Proof. sim_kind (λ o, {| rb_meta := rb_meta o; rb_Subjects := rb_Subjects o; rb_RoleRef := default_group (rb_RoleRef o) |}). Defined.
#[export] Instance RoleTemplate_sim : SimKind RoleTemplate.
Proof. sim_kind (λ o : RoleTemplate, o). Defined.
#[export] Instance ProjectRoleTemplateBinding_sim : SimKind ProjectRoleTemplateBinding.
Proof. sim_kind (λ o : ProjectRoleTemplateBinding, o). Defined.
#[export] Instance ClusterRoleTemplateBinding_sim : SimKind ClusterRoleTemplateBinding.
Proof. sim_kind (λ o : ClusterRoleTemplateBinding, o). Defined.
#[export] Instance GlobalRole_sim : SimKind GlobalRole.
Proof. sim_kind (λ o : GlobalRole, o). Defined.
#[export] Instance GlobalRoleBinding_sim : SimKind GlobalRoleBinding.
Proof. sim_kind (λ o : GlobalRoleBinding, o). Defined.
#[export] Instance Project_sim : SimKind Project.
Proof. sim_kind (λ o : Project, o). Defined.
#[export] Instance Cluster_sim : SimKind Cluster.
Proof. sim_kind (λ o : Cluster, o). Defined.
#[export] Instance NamespaceObject_sim : SimKind NamespaceObject.
Proof. sim_kind (λ o : NamespaceObject, o). Defined.
#[export] Instance User_sim : SimKind User.
Proof. sim_kind (λ o : User, o). Defined.
#[export] Instance Token_sim : SimKind Token.
Proof. sim_kind (λ o : Token, o). Defined.
#[export] Instance Node_sim : SimKind Node.
Proof. sim_kind (λ o : Node, o). Defined.
#[export] Instance NodePool_sim : SimKind NodePool.
Proof. sim_kind (λ o : NodePool, o). Defined.
#[export] Instance ClusterRegistrationToken_sim : SimKind ClusterRegistrationToken.
Proof. sim_kind (λ o : ClusterRegistrationToken, o). Defined.
#[export] Instance ProjectNetworkPolicy_sim : SimKind ProjectNetworkPolicy.
Proof. sim_kind (λ o : ProjectNetworkPolicy, o). Defined.
#[export] Instance PodSecurityPolicyTemplate_sim : SimKind PodSecurityPolicyTemplate.
Proof. sim_kind (λ o : PodSecurityPolicyTemplate, o). Defined.
#[export] Instance PodSecurityPolicyTemplateProjectBinding_sim : SimKind PodSecurityPolicyTemplateProjectBinding.
Proof. sim_kind (λ o : PodSecurityPolicyTemplateProjectBinding, o). Defined.
#[export] Instance ManagementNamespace_sim : SimKind ManagementNamespace.
Proof. sim_kind (λ o : ManagementNamespace, o). Defined.
#[export] Instance ManagementSecret_sim : SimKind ManagementSecret.
Proof. sim_kind (λ o : ManagementSecret, {| msec_meta := msec_meta o; msec_Kind := msec_Kind o; msec_Data := effective (msec_Data o) (msec_StringData o); msec_StringData := ∅; msec_Type := secret_type (msec_Type o) |}). Defined.
#[export] Instance Secret_sim : SimKind Secret.
Proof. sim_kind (λ o : Secret, {| sec_meta := sec_meta o; sec_Kind := sec_Kind o; sec_Data := effective (sec_Data o) (sec_StringData o); sec_StringData := ∅; sec_Type := secret_type (sec_Type o) |}). Defined.
#[export] Instance CoreNode_sim : SimKind CoreNode.
Proof. sim_kind (λ o : CoreNode, o). Defined.
#[export] Instance Pod_sim : SimKind Pod.
Proof. sim_kind (λ o : Pod, o). Defined.
#[export] Instance Service_sim : SimKind Service.
Proof. sim_kind (λ o : Service, o). Defined.
#[export] Instance NetworkPolicy_sim : SimKind NetworkPolicy.
Proof. sim_kind (λ o : NetworkPolicy, {| netpol_meta := netpol_meta o; netpol_Spec := stored_spec (netpol_Spec o) |}). Defined.
#[export] Instance PodSecurityPolicy_sim : SimKind PodSecurityPolicy.
Proof. sim_kind (λ o : PodSecurityPolicy, o). Defined.
#[export] Instance Group_sim : SimKind Group.
Proof. sim_kind (λ o : Group, o). Defined.
#[export] Instance GroupMember_sim : SimKind GroupMember.
Proof. sim_kind (λ o : GroupMember, o). Defined.
#[export] Instance AuthConfig_sim : SimKind AuthConfig.
Proof. sim_kind (λ o : AuthConfig, o). Defined.
#[export] Instance ServiceAccount_sim : SimKind ServiceAccount.
Proof. sim_kind (λ o : ServiceAccount, o). Defined.
