(* ===== verification/Frame.v ===== *)
(** * What a call may change

    [safe ks m]: whatever the world, the call [m] ends without a panic and changes
    no objects of the cluster but those of the kinds [ks].  One rule per
    construct of the monad, collected in the hint database [frame], shows it for a
    whole handler. *)

From stdpp Require Import base gmap list strings.
From S2P Require Import Prelude.
From S2P Require Import GoLib.
From S2P Require Import KubeTypes.
From S2P Require Import KubeObjects.
From S2P Require Import Kube.
From S2P Require Import KubeRules.

Inductive kind :=
  | KClusterRole | KRole | KClusterRoleBinding | KRoleBinding | KRoleTemplate
  | KProjectRoleTemplateBinding | KClusterRoleTemplateBinding | KGlobalRole | KGlobalRoleBinding
  | KProject | KCluster | KNamespace | KUser | KToken
  | KNode | KNodePool | KClusterRegistrationToken | KProjectNetworkPolicy
  | KPodSecurityPolicyTemplate | KPodSecurityPolicyTemplateProjectBinding | KManagementNamespace | KManagementSecret
  | KSecret | KCoreNode | KPod | KService
  | KNetworkPolicy | KPodSecurityPolicy | KGroup | KGroupMember | KAuthConfig
  | KServiceAccount.

#[export] Instance kind_eq_dec : EqDecision kind.
Proof. solve_decision. Defined.

(** The two states agree on the objects of the kind. *)
Definition agree (k : kind) (s s' : KState) : Prop :=
  match k with
  | KClusterRole => s_ClusterRoles s' = s_ClusterRoles s
  | KRole => s_Roles s' = s_Roles s
  | KClusterRoleBinding => s_ClusterRoleBindings s' = s_ClusterRoleBindings s
  | KRoleBinding => s_RoleBindings s' = s_RoleBindings s
  | KRoleTemplate => s_RoleTemplates s' = s_RoleTemplates s
  | KProjectRoleTemplateBinding => s_ProjectRoleTemplateBindings s' = s_ProjectRoleTemplateBindings s
  | KClusterRoleTemplateBinding => s_ClusterRoleTemplateBindings s' = s_ClusterRoleTemplateBindings s
  | KGlobalRole => s_GlobalRoles s' = s_GlobalRoles s
  | KGlobalRoleBinding => s_GlobalRoleBindings s' = s_GlobalRoleBindings s
  | KProject => s_Projects s' = s_Projects s
  | KCluster => s_Clusters s' = s_Clusters s
  | KNamespace => s_Namespaces s' = s_Namespaces s
  | KUser => s_Users s' = s_Users s
  | KToken => s_Tokens s' = s_Tokens s
  | KNode => t_Nodes (s_Tables s') = t_Nodes (s_Tables s)
  | KNodePool => t_NodePools (s_Tables s') = t_NodePools (s_Tables s)
  | KClusterRegistrationToken => t_ClusterRegistrationTokens (s_Tables s') = t_ClusterRegistrationTokens (s_Tables s)
  | KProjectNetworkPolicy => t_ProjectNetworkPolicies (s_Tables s') = t_ProjectNetworkPolicies (s_Tables s)
  | KPodSecurityPolicyTemplate => t_PodSecurityPolicyTemplates (s_Tables s') = t_PodSecurityPolicyTemplates (s_Tables s)
  | KPodSecurityPolicyTemplateProjectBinding => t_PodSecurityPolicyTemplateProjectBindings (s_Tables s') = t_PodSecurityPolicyTemplateProjectBindings (s_Tables s)
  | KManagementNamespace => t_ManagementNamespaces (s_Tables s') = t_ManagementNamespaces (s_Tables s)
  | KManagementSecret => t_ManagementSecrets (s_Tables s') = t_ManagementSecrets (s_Tables s)
  | KSecret => t_Secrets (s_Tables s') = t_Secrets (s_Tables s)
  | KCoreNode => t_CoreNodes (s_Tables s') = t_CoreNodes (s_Tables s)
  | KPod => t_Pods (s_Tables s') = t_Pods (s_Tables s)
  | KService => t_Services (s_Tables s') = t_Services (s_Tables s)
  | KNetworkPolicy => t_NetworkPolicies (s_Tables s') = t_NetworkPolicies (s_Tables s)
  | KPodSecurityPolicy => t_PodSecurityPolicies (s_Tables s') = t_PodSecurityPolicies (s_Tables s)
  | KGroup => t_Groups (s_Tables s') = t_Groups (s_Tables s)
  | KGroupMember => t_GroupMembers (s_Tables s') = t_GroupMembers (s_Tables s)
  | KAuthConfig => t_AuthConfigs (s_Tables s') = t_AuthConfigs (s_Tables s)
  | KServiceAccount => t_ServiceAccounts (s_Tables s') = t_ServiceAccounts (s_Tables s)
  end.

Definition touches (ks : list kind) (s s' : KState) : Prop := ∀ k, k ∉ ks → agree k s s'.

#[export] Instance touches_preorder ks : PreOrder (touches ks).
Proof.
  split.
  - intros s k _. by destruct k.
  - intros s1 s2 s3 H1 H2 k Hk. specialize (H1 k Hk). specialize (H2 k Hk).
    destruct k; simpl in *; congruence.
Qed.

(** The kind of the objects of a type. *)
Class KindOf (O : Type) `{!Stored O} := {
  kind_of : kind;
  only_kind s s' : only_tbl (O:=O) s s' → touches [kind_of] s s' }.

Ltac kind_solve :=
  let k := fresh in let Hk := fresh in let H := fresh in
  intros ? ? H k Hk; unfold only_tbl in H; rewrite H;
  destruct k; try reflexivity; exfalso; apply Hk; by left.

#[export] Program Instance ClusterRole_kind : KindOf ClusterRole := {| kind_of := KClusterRole |}.
Next Obligation. kind_solve. Qed.
#[export] Program Instance Role_kind : KindOf Role := {| kind_of := KRole |}.
Next Obligation. kind_solve. Qed.
#[export] Program Instance ClusterRoleBinding_kind : KindOf ClusterRoleBinding :=
  {| kind_of := KClusterRoleBinding |}.
Next Obligation. kind_solve. Qed.
#[export] Program Instance RoleBinding_kind : KindOf RoleBinding := {| kind_of := KRoleBinding |}.
Next Obligation. kind_solve. Qed.
#[export] Program Instance Cluster_kind : KindOf Cluster := {| kind_of := KCluster |}.
Next Obligation. kind_solve. Qed.
#[export] Program Instance NamespaceObject_kind : KindOf NamespaceObject := {| kind_of := KNamespace |}.
Next Obligation. kind_solve. Qed.
#[export] Program Instance User_kind : KindOf User := {| kind_of := KUser |}.
Next Obligation. kind_solve. Qed.
#[export] Program Instance Token_kind : KindOf Token := {| kind_of := KToken |}.
Next Obligation. kind_solve. Qed.
#[export] Program Instance Node_kind : KindOf Node :=
  {| kind_of := KNode |}.
Next Obligation. kind_solve. Qed.
#[export] Program Instance NodePool_kind : KindOf NodePool :=
  {| kind_of := KNodePool |}.
Next Obligation. kind_solve. Qed.
#[export] Program Instance ClusterRegistrationToken_kind : KindOf ClusterRegistrationToken :=
  {| kind_of := KClusterRegistrationToken |}.
Next Obligation. kind_solve. Qed.
#[export] Program Instance ProjectNetworkPolicy_kind : KindOf ProjectNetworkPolicy :=
  {| kind_of := KProjectNetworkPolicy |}.
Next Obligation. kind_solve. Qed.
#[export] Program Instance PodSecurityPolicyTemplate_kind : KindOf PodSecurityPolicyTemplate :=
  {| kind_of := KPodSecurityPolicyTemplate |}.
Next Obligation. kind_solve. Qed.
#[export] Program Instance PodSecurityPolicyTemplateProjectBinding_kind : KindOf PodSecurityPolicyTemplateProjectBinding :=
  {| kind_of := KPodSecurityPolicyTemplateProjectBinding |}.
Next Obligation. kind_solve. Qed.
#[export] Program Instance ManagementNamespace_kind : KindOf ManagementNamespace :=
  {| kind_of := KManagementNamespace |}.
Next Obligation. kind_solve. Qed.
#[export] Program Instance ManagementSecret_kind : KindOf ManagementSecret :=
  {| kind_of := KManagementSecret |}.
Next Obligation. kind_solve. Qed.
#[export] Program Instance Secret_kind : KindOf Secret :=
  {| kind_of := KSecret |}.
Next Obligation. kind_solve. Qed.
#[export] Program Instance CoreNode_kind : KindOf CoreNode :=
  {| kind_of := KCoreNode |}.
Next Obligation. kind_solve. Qed.
#[export] Program Instance Pod_kind : KindOf Pod :=
  {| kind_of := KPod |}.
Next Obligation. kind_solve. Qed.
#[export] Program Instance Service_kind : KindOf Service :=
  {| kind_of := KService |}.
Next Obligation. kind_solve. Qed.
#[export] Program Instance NetworkPolicy_kind : KindOf NetworkPolicy :=
  {| kind_of := KNetworkPolicy |}.
Next Obligation. kind_solve. Qed.
#[export] Program Instance PodSecurityPolicy_kind : KindOf PodSecurityPolicy :=
  {| kind_of := KPodSecurityPolicy |}.
Next Obligation. kind_solve. Qed.
#[export] Program Instance Group_kind : KindOf Group :=
  {| kind_of := KGroup |}.
Next Obligation. kind_solve. Qed.
#[export] Program Instance GroupMember_kind : KindOf GroupMember :=
  {| kind_of := KGroupMember |}.
Next Obligation. kind_solve. Qed.
#[export] Program Instance AuthConfig_kind : KindOf AuthConfig :=
  {| kind_of := KAuthConfig |}.
Next Obligation. kind_solve. Qed.
#[export] Program Instance ServiceAccount_kind : KindOf ServiceAccount :=
  {| kind_of := KServiceAccount |}.
Next Obligation. kind_solve. Qed.

Section safe.
Context {W : Type} `{!Kube W}.
Implicit Types (w : W) (ks : list kind).

Definition safe {A} ks (m : M W A) : Prop :=
  ∀ w, touches ks (view w) (view (m w).2) ∧ (m w).1 ≠ Panic.

(** A function of the state that does not panic. *)
Definition calm {A} (f : W → outcome A) : Prop := ∀ w, f w ≠ Panic.

Lemma safe_ret {A} ks (a : A) : safe ks (ret a).
Proof. by intros w. Qed.

Lemma safe_throw {A} ks e : safe ks (throw (W:=W) (A:=A) e).
Proof. by intros w. Qed.

Lemma safe_out_of_fuel {A} ks : safe ks (out_of_fuel (W:=W) (A:=A)).
Proof. by intros w. Qed.

Lemma safe_reads {A} ks (f : W → outcome A) : calm f → safe ks (reads f).
Proof. intros Hf w. split; [done|apply Hf]. Qed.

Lemma safe_bind {A B} ks (m : M W A) (k : A → M W B) :
  safe ks m → (∀ a, safe ks (k a)) → safe ks (bind m k).
Proof.
  intros Hm Hk w. destruct (Hm w) as [H1 Hp]. unfold bind.
  destruct (m w) as [[a|e| |] w1]; simpl in *; [|done..].
  destruct (Hk a w1) as [H2 ?]. split; [by etransitivity|done].
Qed.

Lemma safe_attempt {A} ks (m : M W A) : safe ks m → safe ks (attempt m).
Proof. intros Hm w. destruct (Hm w). unfold attempt. by destruct (m w) as [[] w1]. Qed.

Lemma safe_wrap_err {A} ks msg (m : M W A) : safe ks m → safe ks (wrap_err msg m).
Proof. intros Hm w. destruct (Hm w). unfold wrap_err. by destruct (m w) as [[] w1]. Qed.

Lemma safe_for_each {A} ks (f : A → M W unit) xs : (∀ x, safe ks (f x)) → safe ks (for_each f xs).
Proof.
  intros Hf. induction xs as [|x xs IH]; simpl; [apply safe_ret|]. by apply safe_bind.
Qed.

Lemma safe_for_fold {A S} ks (f : S → A → M W S) s xs :
  (∀ s x, safe ks (f s x)) → safe ks (for_fold f s xs).
Proof.
  intros Hf. revert s. induction xs as [|x xs IH]; intros s; simpl; [apply safe_ret|].
  by apply safe_bind.
Qed.

Lemma safe_if {A} ks (b : bool) (m m' : M W A) :
  safe ks m → safe ks m' → safe ks (if b then m else m').
Proof. by destruct b. Qed.

Lemma safe_decide {A} ks P (d : Decision P) (m m' : M W A) :
  safe ks m → safe ks m' → safe ks (if decide P then m else m').
Proof. by destruct (decide P). Qed.

Lemma safe_range {A} ks (m : gmap string A) `{!GoRuntime W} : safe ks (range m).
Proof. by intros w. Qed.

Lemma calm_Ok {A} (f : W → A) : calm (λ w, Ok (f w)).
Proof. by intros w. Qed.

Section requests.
Context {O : Type} `{!Stored O, !Client W O, !ClientLaws W O}.

Lemma calm_lister_Get ns n : calm (lister_Get (O:=O) ns n).
Proof.
  intros w. pose proof (lister_get_law (O:=O) ns n w) as Hl.
  destruct (tbl (cached w) !! (ns, n)); [by rewrite Hl|]. by destruct Hl as (e & -> & _).
Qed.

Lemma calm_lister_List ns sel : calm (lister_List (O:=O) ns sel).
Proof. intros w. by destruct (lister_list_law (O:=O) ns sel w) as (l & -> & _). Qed.

Lemma calm_ByIndex (f : O → list string) key : calm (ByIndex f key).
Proof. intros w. by destruct (by_index_law f key w) as (l & -> & _). Qed.

Context `{!StoredLaws O, !KindOf O}.

Lemma touches_only ks s s' : kind_of (O:=O) ∈ ks → only_tbl (O:=O) s s' → touches ks s s'.
Proof.
  intros Hin Hot k Hk. apply (only_kind _ _ Hot). rewrite list_elem_of_singleton. by intros ->.
Qed.

Lemma safe_create ks ns (o : O) : kind_of (O:=O) ∈ ks → safe ks (api_create ns o).
Proof.
  intros Hin w. pose proof (create_law ns o w) as Hl.
  destruct (api_create ns o w) as [[o'|e| |] w1]; simpl; try done.
  - destruct Hl as (_ & _ & -> & _). split; [|done].
    eapply touches_only; [done|]. apply only_tbl_put, only_tbl_refl.
  - by destruct Hl as [-> _].
Qed.

Lemma safe_update ks ns (o : O) : kind_of (O:=O) ∈ ks → safe ks (api_update ns o).
Proof.
  intros Hin w. pose proof (update_law ns o w) as Hl.
  destruct (api_update ns o w) as [[o'|e| |] w1]; simpl; try done.
  - destruct Hl as (_ & _ & _ & -> & _). split; [|done].
    eapply touches_only; [done|]. apply only_tbl_put, only_tbl_refl.
  - by destruct Hl as [-> _].
Qed.

Lemma safe_delete ks ns n : kind_of (O:=O) ∈ ks → safe ks (api_delete (W:=W) (O:=O) ns n).
Proof.
  intros Hin w. pose proof (delete_law (O:=O) ns n w) as Hl.
  destruct (api_delete (O:=O) ns n w) as [[[]|e| |] w1]; simpl; try done.
  - destruct Hl as (_ & -> & _). split; [|done].
    eapply touches_only; [done|]. apply only_tbl_del, only_tbl_refl.
  - by destruct Hl as (_ & -> & _).
Qed.

End requests.
End safe.

Create HintDb frame discriminated.
#[export] Hint Resolve safe_ret safe_throw safe_out_of_fuel safe_range : frame.
#[export] Hint Resolve calm_Ok : frame.
#[export] Hint Extern 1 (calm (lister_Get _ _)) => apply calm_lister_Get : frame.
#[export] Hint Extern 1 (calm (lister_List _ _)) => apply calm_lister_List : frame.
#[export] Hint Extern 1 (calm (ByIndex _ _)) => apply calm_ByIndex : frame.

(** One step of the analysis of a call; calls of other functions are left to the
    hints. *)
Ltac safe_step :=
  match goal with
  | |- ∀ _, _ => intro
  | |- _ => solve [auto with frame]
  | |- safe _ (bind _ _) => apply safe_bind
  | |- safe _ (attempt _) => apply safe_attempt
  | |- safe _ (wrap_err _ _) => apply safe_wrap_err
  | |- safe _ (for_each _ _) => apply safe_for_each
  | |- safe _ (for_fold _ _ _) => apply safe_for_fold
  | |- safe _ (api_create _ _) => apply safe_create; set_solver
  | |- safe _ (api_update _ _) => apply safe_update; set_solver
  | |- safe _ (api_delete _ _) => apply safe_delete; set_solver
  | |- safe _ (reads _) => apply safe_reads
  | |- safe _ (match ?x with _ => _ end) => destruct x
  end.

Ltac safe_solve := repeat safe_step.
