(* ===== verification/Cond.v ===== *)
(** * Conditions

    [src/vendor/github.com/rancher/norman/condition/condition.go]: the
    conditions of the status of an object, and the wrapper that runs a step of a
    controller under a condition.  The code reaches the conditions by reflection
    ([getValue(obj, "Status", "Conditions")]); here the kinds that have them are
    the instances of [Conditioned]. *)

From stdpp Require Import base gmap list strings.
From Stdlib Require Import ZArith.
From S2P Require Import Prelude.
From S2P Require Import GoLib.
From S2P Require Import KubeTypes.
From S2P Require Import KubeObjects.
From S2P Require Import Kube.
From S2P Require Import KubeSim.

Class Conditioned (O : Type) := {
  conditions : O → list Condition;
  set_conditions : list Condition → O → O }.

Class ConditionedLaws (O : Type) `{!Conditioned O} := {
  conditions_set o l : conditions (set_conditions l o) = l;
  set_conditions_same o : set_conditions (conditions o) o = o;
  set_conditions_set o l l' : set_conditions l (set_conditions l' o) = set_conditions l o }.

#[export] Instance Project_conditioned : Conditioned Project := {
  conditions := proj_Conditions;
  set_conditions l o :=
    {| proj_meta := proj_meta o; proj_type := proj_type o; proj_DisplayName := proj_DisplayName o;
       proj_Description := proj_Description o; proj_ClusterName := proj_ClusterName o;
       proj_Conditions := l |} }.

#[export] Instance Cluster_conditioned : Conditioned Cluster := {
  conditions := cluster_Conditions;
  set_conditions l o :=
    {| cluster_meta := cluster_meta o; cluster_type := cluster_type o; cluster_Spec := cluster_Spec o;
       cluster_Status := cluster_Status o; cluster_Conditions := l |} }.

#[export] Instance Project_conditioned_laws : ConditionedLaws Project.
Proof. split; by intros []. Qed.

#[export] Instance Cluster_conditioned_laws : ConditionedLaws Cluster.
Proof. split; by intros []. Qed.

(** ** One condition *)

Definition findCond (l : list Condition) (name : string) : option Condition :=
  List.find (λ c, String.eqb (c_Type c) name) l.

Definition newCond (name : string) : Condition :=
  {| c_Type := name; c_Status := "Unknown"; c_LastUpdateTime := ""; c_Reason := ""; c_Message := "" |}.

(** [f] applied to what [findOrCreateCond] returns. *)
Fixpoint on_first (name : string) (f : Condition → Condition) (l : list Condition) :
    list Condition :=
  match l with
  | [] => [f (newCond name)]
  | c :: l => if String.eqb (c_Type c) name then f c :: l else c :: on_first name f l
  end.

Definition touchTS (now : string) (c : Condition) : Condition :=
  {| c_Type := c_Type c; c_Status := c_Status c; c_LastUpdateTime := now;
     c_Reason := c_Reason c; c_Message := c_Message c |}.

(** [setValue(cond, "Status", v)] and the same for the other fields. *)
Definition set_status (now v : string) (c : Condition) : Condition :=
  if String.eqb (c_Status c) v then c else
  {| c_Type := c_Type c; c_Status := v; c_LastUpdateTime := now;
     c_Reason := c_Reason c; c_Message := c_Message c |}.

Definition set_message (now v : string) (c : Condition) : Condition :=
  if String.eqb (c_Message c) v then c else
  {| c_Type := c_Type c; c_Status := c_Status c; c_LastUpdateTime := now;
     c_Reason := c_Reason c; c_Message := v |}.

Definition set_reason (now v : string) (c : Condition) : Condition :=
  if String.eqb (c_Reason c) v then c else
  {| c_Type := c_Type c; c_Status := c_Status c; c_LastUpdateTime := now;
     c_Reason := v; c_Message := c_Message c |}.

(** [getFieldValue(cond, "Reason").SetString(v)]. *)
Definition put_reason (v : string) (c : Condition) : Condition :=
  {| c_Type := c_Type c; c_Status := c_Status c; c_LastUpdateTime := c_LastUpdateTime c;
     c_Reason := v; c_Message := c_Message c |}.

Section cond.
Context {O : Type} `{!Conditioned O}.
Implicit Types (c : string) (obj : O).

Definition field (get : Condition → string) (c : string) (obj : O) : string :=
  match findCond (conditions obj) c with Some cond => get cond | None => "" end.

Definition getStatus (c : string) (obj : O) : string := field c_Status c obj.
Definition GetReason (c : string) (obj : O) : string := field c_Reason c obj.
Definition GetMessage (c : string) (obj : O) : string := field c_Message c obj.
Definition GetLastUpdated (c : string) (obj : O) : string := field c_LastUpdateTime c obj.

Definition IsTrue (c : string) (obj : O) : bool := String.eqb (getStatus c obj) "True".
Definition IsFalse (c : string) (obj : O) : bool := String.eqb (getStatus c obj) "False".

Definition change_cond (c : string) (f : Condition → Condition) (obj : O) : O :=
  set_conditions (on_first c f (conditions obj)) obj.

Definition setStatus (now c v : string) (obj : O) : O := change_cond c (set_status now v) obj.
Definition Message (now c v : string) (obj : O) : O := change_cond c (set_message now v) obj.
Definition Reason (c v : string) (obj : O) : O := change_cond c (put_reason v) obj.
Definition LastUpdated (c ts : string) (obj : O) : O := change_cond c (touchTS ts) obj.

Definition ReasonAndMessageFromError (now c : string) (err : goerr) (obj : O) : O :=
  if IsConflict err then obj else
  let obj := change_cond c (set_message now (Error err)) obj in
  change_cond c (set_reason now (match err with ConditionError r _ => r | _ => "Error" end)) obj.

(** ** Steps under a condition *)

Context {W : Type} `{!GoRuntime W}.

(** A change that reads the clock. *)
Definition at_now (f : string → O) : M W O := λ w,
  (Ok (f (format_RFC3339 (W:=W) (time_Now w))), w).

(** A step works on the object through the pointer it shares with its caller; it
    returns the object, or nil, and an error, or nil. *)
Definition cond_step := O → M W (option O * option goerr).

Definition doInternal (c : string) (obj : O) (f : cond_step) : M W (O * option goerr) :=
  let* obj := if IsFalse c obj then ret obj
              else at_now (λ now, setStatus now c "Unknown" obj) in
  let* r := f obj in
  let obj := default obj (fst r) in
  match snd r with
  | Some (ForgetError _ as err) =>
    let* obj := if String.eqb (GetMessage c obj) ""
                then at_now (λ now, ReasonAndMessageFromError now c err obj) else ret obj in
    ret (obj, Some err)
  | Some err =>
    let* obj := at_now (λ now, setStatus now c "False" obj) in
    let* obj := at_now (λ now, ReasonAndMessageFromError now c err obj) in
    ret (obj, Some err)
  | None =>
    let* obj := at_now (λ now, setStatus now c "True" obj) in
    let obj := Reason c "" obj in
    let* obj := at_now (λ now, Message now c "" obj) in
    ret (obj, None)
  end.

Definition Do (c : string) (obj : O) (f : cond_step) : M W (O * option goerr) :=
  let status := getStatus c obj in
  let ts := GetLastUpdated c obj in
  let reason := GetReason c obj in
  let message := GetMessage c obj in
  let* r := doInternal c obj f in
  let obj := fst r in
  let obj := if String.eqb status (getStatus c obj) && String.eqb reason (GetReason c obj) &&
                String.eqb message (GetMessage c obj)
             then LastUpdated c ts obj else obj in
  ret (obj, snd r).

Definition DoUntilTrue (c : string) (obj : O) (f : cond_step) : M W (O * option goerr) :=
  if IsTrue c obj then ret (obj, None) else Do c obj f.

Definition Once (c : string) (obj : O) (f : cond_step) : M W (O * option goerr) :=
  if IsFalse c obj then ret (obj, Some (ForgetError (PlainError (GetReason c obj))))
  else DoUntilTrue c obj f.

End cond.

(** ** Lemmas *)

Definition keeps_type (f : Condition → Condition) : Prop := ∀ c, c_Type (f c) = c_Type c.

Lemma set_status_type now v : keeps_type (set_status now v).
Proof. intros c. unfold set_status. by case_match. Qed.
Lemma set_message_type now v : keeps_type (set_message now v).
Proof. intros c. unfold set_message. by case_match. Qed.
Lemma set_reason_type now v : keeps_type (set_reason now v).
Proof. intros c. unfold set_reason. by case_match. Qed.
Lemma put_reason_type v : keeps_type (put_reason v).
Proof. done. Qed.
Lemma touchTS_type now : keeps_type (touchTS now).
Proof. done. Qed.
#[export] Hint Resolve set_status_type set_message_type set_reason_type put_reason_type
  touchTS_type : go.

Lemma find_on_first c f l : keeps_type f →
  findCond (on_first c f l) c = Some (f (default (newCond c) (findCond l c))).
Proof.
  intros Hf. induction l as [|x l IH]; simpl.
  - by rewrite Hf, String.eqb_refl.
  - destruct (String.eqb_spec (c_Type x) c) as [Hx|Hx]; simpl; rewrite ?Hf.
    + by rewrite Hx, String.eqb_refl.
    + destruct (String.eqb_spec (c_Type x) c); [done|]. exact IH.
Qed.

Lemma find_on_other c c' f l : keeps_type f → c ≠ c' →
  findCond (on_first c f l) c' = findCond l c'.
Proof.
  intros Hf Hne. induction l as [|x l IH]; simpl.
  - rewrite Hf. simpl. by destruct (String.eqb_spec c c').
  - destruct (String.eqb_spec (c_Type x) c) as [Hx|Hx]; simpl; rewrite ?Hf.
    + rewrite Hx. by destruct (String.eqb_spec c c').
    + by destruct (String.eqb (c_Type x) c').
Qed.

Lemma on_first_compose c f g l : keeps_type f →
  on_first c g (on_first c f l) = on_first c (g ∘ f) l.
Proof.
  intros Hf. induction l as [|x l IH]; simpl.
  - by rewrite Hf, String.eqb_refl.
  - destruct (String.eqb_spec (c_Type x) c) as [Hx|Hx]; simpl; rewrite ?Hf.
    + by rewrite Hx, String.eqb_refl.
    + destruct (String.eqb_spec (c_Type x) c); [done|]. by rewrite IH.
Qed.

Lemma on_first_same c f l x :
  findCond l c = Some x → f x = x → on_first c f l = l.
Proof.
  induction l as [|y l IH]; simpl; [done|].
  destruct (String.eqb_spec (c_Type y) c); [by intros [= ->] ->|]. intros. f_equal. auto.
Qed.

Section cond_lemmas.
Context {O : Type} `{!Conditioned O, !ConditionedLaws O}.
Context {W : Type} `{!GoRuntime W}.
Implicit Types (obj : O) (w : W).

Lemma field_change get c f obj : keeps_type f →
  field get c (change_cond c f obj) = get (f (default (newCond c) (findCond (conditions obj) c))).
Proof. intros Hf. unfold field, change_cond. by rewrite conditions_set, find_on_first. Qed.

Lemma field_change_other get c c' f obj : keeps_type f → c ≠ c' →
  field get c' (change_cond c f obj) = field get c' obj.
Proof. intros Hf Hne. unfold field, change_cond. by rewrite conditions_set, find_on_other. Qed.

Lemma change_compose c f g obj : keeps_type f →
  change_cond c g (change_cond c f obj) = change_cond c (g ∘ f) obj.
Proof.
  intros Hf. unfold change_cond. by rewrite conditions_set, set_conditions_set, on_first_compose.
Qed.

Lemma change_same c f obj x :
  findCond (conditions obj) c = Some x → f x = x → change_cond c f obj = obj.
Proof.
  intros Hx Hf. unfold change_cond. by rewrite (on_first_same _ _ _ x), set_conditions_same.
Qed.

Lemma wp_at_now (f : string → O) (Q : outcome O → W → Prop) w :
  (∀ now, Q (Ok (f now)) w) → wp (at_now f) Q w.
Proof. intros HQ. apply HQ. Qed.

(** The condition [x] after a step that succeeds: the status is set at [n1] and
    [n2], the message at [n3]. *)
Definition succeed (n2 n3 : string) : Condition → Condition :=
  set_message n3 "" ∘ put_reason "" ∘ set_status n2 "True".

(** What a condition looks like when a step has succeeded before. *)
Definition settled (c : string) (obj : O) : Prop :=
  ∃ x, findCond (conditions obj) c = Some x ∧
    c_Status x = "True" ∧ c_Reason x = "" ∧ c_Message x = "".

(** The object a step is run on. *)
Definition started (c now : string) (obj : O) : O :=
  if IsFalse c obj then obj else setStatus now c "Unknown" obj.

Lemma doInternal_success c obj (f : cond_step) w w' (g : O → option O)
    (Q : outcome (O * option goerr) → W → Prop) :
  (∀ now, f (started c now obj) w = (Ok (g (started c now obj), None), w')) →
  (∀ n1 n2 n3, Q (Ok (change_cond c (succeed n2 n3)
     (default (started c n1 obj) (g (started c n1 obj))), None)) w') →
  wp (doInternal c obj f) Q w.
Proof.
  intros Hf HQ. unfold doInternal. apply wp_bind. unfold started in *.
  destruct (IsFalse c obj); [apply wp_ret; pose ("") as n1|apply wp_at_now; intros n1];
    simpl; (apply wp_bind; eapply wp_unfold; [apply (Hf n1)|]); simpl;
    (apply wp_bind, wp_at_now; intros n2); simpl;
    (apply wp_bind, wp_at_now; intros n3); simpl; apply wp_ret;
    specialize (HQ n1 n2 n3); unfold Message, Reason, setStatus in *;
    rewrite change_compose by auto with go; rewrite change_compose by auto with go; exact HQ.
Qed.

Lemma succeed_type n2 n3 : keeps_type (succeed n2 n3).
Proof.
  intros x. unfold succeed. simpl. rewrite set_message_type. simpl. by rewrite set_status_type.
Qed.

Lemma succeed_fields n2 n3 x :
  c_Status (succeed n2 n3 x) = "True" ∧ c_Reason (succeed n2 n3 x) = "" ∧
  c_Message (succeed n2 n3 x) = "".
Proof.
  unfold succeed, set_message, put_reason, set_status. simpl.
  destruct (String.eqb_spec (c_Status x) "True") as [Hs|Hs]; simpl;
    destruct (String.eqb_spec (c_Message x) "") as [Hm|Hm]; done.
Qed.

(** A step that succeeds without touching the object leaves a settled object
    exactly as it was, the time of the last update included. *)
Lemma Do_settled c obj (f : cond_step) w w' :
  settled c obj → (∀ now, f (started c now obj) w = (Ok (Some (started c now obj), None), w')) →
  Do c obj f w = (Ok (obj, None), w').
Proof.
  intros (x & Hx & Hs & Hr & Hm) Hf.
  cut (wp (Do c obj f) (λ r w1, (r, w1) = (Ok (obj, None), w')) w).
  { unfold wp. by destruct (Do c obj f w). }
  unfold Do. apply wp_bind. apply (doInternal_success _ _ _ _ w' Some); [done|].
  intros n1 n2 n3. simpl. apply wp_ret.
  assert (started c n1 obj = setStatus n1 c "Unknown" obj) as Hst.
  { unfold started, IsFalse, getStatus, field. by rewrite Hx, Hs. }
  rewrite Hst. unfold setStatus. rewrite change_compose by auto with go.
  unfold getStatus, GetReason, GetMessage.
  rewrite !field_change by (intros ?; simpl; by rewrite succeed_type, set_status_type).
  assert (succeed n2 n3 (set_status n1 "Unknown" x) =
    {| c_Type := c_Type x; c_Status := "True"; c_LastUpdateTime := n2; c_Reason := "";
       c_Message := "" |}) as Hres.
  { unfold succeed, set_status, put_reason, set_message. rewrite Hs. simpl. by rewrite Hm. }
  unfold GetLastUpdated, field. rewrite Hx. simpl. rewrite Hres. simpl. rewrite Hs, Hr, Hm. simpl.
  unfold LastUpdated. rewrite change_compose by (intros ?; simpl; by rewrite succeed_type, set_status_type).
  rewrite (change_same _ _ _ x); [done|done|]. simpl. rewrite Hres. unfold touchTS. simpl.
  rewrite <-Hs, <-Hr at 1. rewrite <-Hm. by destruct x.
Qed.

(** The object after a step that succeeded: the condition is settled, the rest is
    as the step left it. *)
Definition completes (c : string) (o o' : O) : Prop :=
  settled c o' ∧ ∃ g, keeps_type g ∧ o' = change_cond c g o.

Lemma completes_succeed c o ts n2 n3 :
  completes c o (change_cond c (succeed n2 n3) o) ∧
  completes c o (change_cond c (touchTS ts ∘ succeed n2 n3) o).
Proof.
  assert (∀ x, c_Type (touchTS ts (succeed n2 n3 x)) = c_Type x) as Hts
    by (intros x; simpl; apply succeed_type).
  split; (split; [|eexists; split; [|done]; first [apply succeed_type|exact Hts]]);
    unfold settled, change_cond; rewrite conditions_set, find_on_first by first [apply succeed_type|exact Hts];
    (eexists; split; [done|]); simpl; apply succeed_fields.
Qed.

(** The rule for a step under a condition. *)
Lemma wp_Do c obj (f : cond_step) (Q : outcome (O * option goerr) → W → Prop) w :
  (∀ now, wp (f (started c now obj)) (λ r w', match r with
     | Ok (o, None) => ∀ o', completes c (default (started c now obj) o) o' → Q (Ok (o', None)) w'
     | Ok (_, Some e) => ∀ o', Q (Ok (o', Some e)) w'
     | Err e => Q (Err e) w'
     | Panic => Q Panic w'
     | OutOfFuel => Q OutOfFuel w'
     end) w) →
  wp (Do c obj f) Q w.
Proof.
  intros Hf. unfold Do, doInternal. apply wp_bind, wp_bind.
  assert (∃ now, wp (if IsFalse c obj then ret obj else at_now (λ now, setStatus now c "Unknown" obj))
    (returns (λ o w', o = started c now obj ∧ w' = w)) w) as [n1 Hstart].
  { unfold started. destruct (IsFalse c obj); [by exists ""|].
    by exists (format_RFC3339 (W:=W) (time_Now w)). }
  eapply wp_mono; [exact Hstart|]. intros [o|e| |] w' Hr; simpl in Hr; try done. destruct Hr as [-> ->].
  specialize (Hf n1). cbn [bind_post]. apply wp_bind. eapply wp_mono; [exact Hf|].
  intros [[o [e|]]|e| |] w' Hr; simpl in *; try done.
  - destruct e; simpl;
      repeat (first [apply wp_at_now; intros ?|apply wp_ret|apply wp_bind|case_match]; simpl); apply Hr.
  - apply wp_bind, wp_at_now. intros n2. simpl. apply wp_bind, wp_at_now. intros n3. simpl.
    apply wp_ret. simpl. apply wp_ret. unfold Message, Reason, setStatus.
    rewrite change_compose by auto with go. rewrite change_compose by auto with go.
    change (set_message n3 "" ∘ (put_reason "" ∘ set_status n2 "True")) with (succeed n2 n3).
    destruct (completes_succeed c (default (started c n1 obj) o) (GetLastUpdated c obj) n2 n3) as [H1 H2].
    destruct (_ && _); [|by apply Hr]. unfold LastUpdated.
    rewrite change_compose by apply succeed_type. by apply Hr.
Qed.

(** Running a step under a condition.  If the condition was settled and the
    step succeeds without changing the object, the object comes out exactly as it
    went in, the time of the last update included, so that nothing is written.  *)
Theorem Do_does_not_flap c obj (f : cond_step) w w' :
  settled c obj → (∀ now, f (started c now obj) w = (Ok (Some (started c now obj), None), w')) →
  Do c obj f w = (Ok (obj, None), w').
Proof. apply Do_settled. Qed.

End cond_lemmas.

(** ** Witness: a project whose condition is settled *)

Definition demo_true (c : string) : Condition :=
  {| c_Type := c; c_Status := "True"; c_LastUpdateTime := "2018-01-01T00:00:00Z"; c_Reason := "";
     c_Message := "" |}.

Definition demo_settled (l : list string) : Project :=
  {| proj_meta := {| Name := "p-1"; GenerateName := ""; Namespace := "c-1"; UID := ""; ResourceVersion := "";
       Labels := ∅; Annotations := ∅; OwnerReferences := []; CreationTimestamp := 0;
       DeletionTimestamp := None |};
     proj_type := {| Kind := "Project"; APIVersion := "v3" |}; proj_DisplayName := "";
     proj_Description := ""; proj_ClusterName := "c-1"; proj_Conditions := demo_true <$> l |}.

Lemma settled_demo c l : settled c (demo_settled (c :: l)).
Proof.
  exists (demo_true c). unfold findCond. simpl. rewrite String.eqb_refl. by split_and!.
Qed.

Lemma Do_does_not_flap_witness :
  Do "Ready" (demo_settled ["Ready"]) (λ o, ret (Some o, None)) (synced empty_state) =
    (Ok (demo_settled ["Ready"], None), synced empty_state).
Proof.
  apply (Do_does_not_flap "Ready" (demo_settled ["Ready"]) (λ o, ret (Some o, None))).
  - apply settled_demo.
  - intros now. reflexivity.
Defined.
