(* ===== verification/MgmtManager.v ===== *)
(** * Management-plane RBAC manager

    [src/pkg/controllers/management/auth/manager.go] and [indexes.go]: how a
    cluster or project role template binding becomes roles and role bindings
    of the management cluster.  One definition per function; the listers,
    indexers and clients of the [manager] struct are the [Client] instances of
    the section context. *)

From stdpp Require Import base gmap list strings.
From S2P Require Import Prelude.
From S2P Require Import GoLib.
From S2P Require Import KubeTypes.
From S2P Require Import KubeObjects.
From S2P Require Import Kube.

(** ** Constants *)

Notation clusterResource := "clusters" (only parsing).
Notation projectResource := "projects" (only parsing).
Notation membershipBindingOwner := "memberhsip-binding-owner" (only parsing).
Notation crtbInProjectBindingOwner := "crtb-in-project-binding-owner" (only parsing).
Notation prtbInClusterBindingOwner := "prtb-in-cluster-binding-owner" (only parsing).

(** ** Index functions *)

Definition getRBOwnerKey (rb : RoleBinding) : list string :=
  map or_UID (OwnerReferences (rb_meta rb)).

Definition rbByOwner (rb : RoleBinding) : list string := getRBOwnerKey rb.

Definition rbRoleSubjectKey (roleName : string) (subject : Subject) : string :=
  roleName +:+ "." +:+ s_Kind subject +:+ "." +:+ s_Name subject.

Definition rbRoleSubjectKeys (roleName : string) (subjects : list Subject) : list string :=
  map (rbRoleSubjectKey roleName) subjects.

(** The two cases of the type switch of [rbByRoleAndSubject]. *)
Definition crbByRoleAndSubject (rb : ClusterRoleBinding) : list string :=
  rbRoleSubjectKeys (rr_Name (crb_RoleRef rb)) (crb_Subjects rb).

Definition rbByRoleAndSubject (rb : RoleBinding) : list string :=
  rbRoleSubjectKeys (rr_Name (rb_RoleRef rb)) (rb_Subjects rb).

(** ** Subjects *)

(** The [interface{}] argument of [buildSubjectFromRTB] and [ensureBindings]. *)
Inductive rtb :=
  | rtb_project (b : ProjectRoleTemplateBinding)
  | rtb_cluster (b : ClusterRoleTemplateBinding)
  | rtb_other.

Definition mkSubject (kind name : string) : Subject :=
  {| s_Kind := kind; s_APIGroup := ""; s_Name := name; s_Namespace := "" |}.

Definition err_more_than_one : goerr :=
  PlainError "roletemplatebinding has more than one subject fields set".

Definition buildSubjectFromRTB (binding : rtb) : outcome Subject :=
  let build userName groupPrincipalName groupName :=
    let '(name, kind) := if String.eqb userName "" then ("", "") else (userName, "User") in
    if negb (String.eqb groupPrincipalName "") && negb (String.eqb name "")
    then Err err_more_than_one else
    let '(name, kind) := if String.eqb groupPrincipalName "" then (name, kind)
                         else (groupPrincipalName, "Group") in
    if negb (String.eqb groupName "") && negb (String.eqb name "")
    then Err err_more_than_one else
    let '(name, kind) := if String.eqb groupName "" then (name, kind)
                         else (groupName, "Group") in
    if String.eqb name ""
    then Err (PlainError "roletemplatebinding doesn't have any subject fields set")
    else Ok (mkSubject kind name) in
  match binding with
  | rtb_project b => build (prtb_UserName b) (prtb_GroupPrincipalName b) (prtb_GroupName b)
  | rtb_cluster b => build (crtb_UserName b) (crtb_GroupPrincipalName b) (crtb_GroupName b)
  | rtb_other => Err (PlainError "unrecognized roleTemplateBinding type")
  end.

(** ** The manager *)

(** [x, _ := lister.Get(...)]: a failed lookup leaves the nil pointer. *)
Definition or_nil {A} (r : outcome A) : option A :=
  match r with Ok a => Some a | _ => None end.

Section manager.
Context {W : Type} `{!GoRuntime W}.
Context `{!Client W ClusterRole, !Client W Role, !Client W ClusterRoleBinding,
          !Client W RoleBinding, !Client W RoleTemplate}.

(** The keys of a [map[string]bool] in the order of a [range] over it. *)
Definition range_keys (s : gset string) : M W (list string) :=
  let* kvs := range (gset_to_gmap true s) in ret (kvs.*1).

(** *** Membership roles and bindings *)

(** [owner] is the type and object metadata of [ownerObject]; [client] sends the
    [ClusterRole] value to the endpoint of the object client. *)
Definition createMembershipRole (resourceType roleName : string) (makeOwner : bool)
    (owner : TypeMeta * ObjectMeta) (client : ClusterRole → M W unit) : M W unit :=
  let rule := {| Verbs := if makeOwner then ["*"] else ["get"];
                 APIGroups := ["management.cattle.io"];
                 Resources := [resourceType];
                 ResourceNames := [Name owner.2];
                 NonResourceURLs := [] |} in
  client {| cr_meta := named_meta roleName ∅ ∅
              [{| or_APIVersion := APIVersion owner.1; or_Kind := Kind owner.1;
                  or_Name := Name owner.2; or_UID := UID owner.2 |}];
            cr_Rules := [rule] |}.

Definition createClusterMembershipRole (roleName : string) (cluster : Cluster)
    (makeOwner : bool) : M W unit :=
  let* cr := reads (λ w, Ok (or_nil (lister_Get (O:=ClusterRole) "" roleName w))) in
  match cr with
  | None =>
    createMembershipRole clusterResource roleName makeOwner
      (cluster_type cluster, cluster_meta cluster)
      (λ cr, do* api_create "" cr in ret tt)
  | Some _ => ret tt
  end.

Definition createProjectMembershipRole (roleName namespace : string) (project : Project)
    (makeOwner : bool) : M W unit :=
  let* cr := reads (λ w, Ok (or_nil (lister_Get (O:=Role) namespace roleName w))) in
  match cr with
  | None =>
    createMembershipRole projectResource roleName makeOwner
      (proj_type project, proj_meta project)
      (λ cr, do* api_create namespace {| r_meta := cr_meta cr; r_Rules := cr_Rules cr |} in
             ret tt)
  | Some _ => ret tt
  end.

(** The generic part, over the kind of the binding: [list] is the lister, and
    [convert] reads the name of the role out of a binding. *)
Definition reconcileMembershipBindingForDelete {O} `{!Client W O, !Stored O}
    (convert : O → string) (namespace roleToKeep rtbUID : string) : M W unit :=
  let* roleBindings := reads (lister_List namespace {[ rtbUID := membershipBindingOwner ]}) in
  for_each (λ rb : O,
    if String.eqb (convert rb) roleToKeep then ret tt else
    let labels := if bool_decide (Labels (meta rb) !! rtbUID = Some membershipBindingOwner)
                  then delete rtbUID (Labels (meta rb)) else Labels (meta rb) in
    let rb := set_meta (with_Labels labels (meta rb)) rb in
    if bool_decide (labels = ∅) then
      let* r := attempt (api_delete (O:=O) namespace (Name (meta rb))) in
      match r with
      | inl e => if IsNotFound e then ret tt else throw e
      | inr _ => ret tt
      end
    else do* api_update namespace rb in ret tt) roleBindings.

Definition reconcileClusterMembershipBindingForDelete (roleToKeep rtbUID : string) : M W unit :=
  reconcileMembershipBindingForDelete (λ rb : ClusterRoleBinding, rr_Name (crb_RoleRef rb))
    "" roleToKeep rtbUID.

Definition reconcileProjectMembershipBindingForDelete
    (namespace roleToKeep rtbUID : string) : M W unit :=
  reconcileMembershipBindingForDelete (λ rb : RoleBinding, rr_Name (rb_RoleRef rb))
    namespace roleToKeep rtbUID.

Definition ensureClusterMembershipBinding (roleName rtbUID : string) (cluster : Cluster)
    (makeOwner : bool) (subject : Subject) : M W unit :=
  do* createClusterMembershipRole roleName cluster makeOwner in
  let key := rbRoleSubjectKey roleName subject in
  let* crbs := reads (lister_List "" {[ rtbUID := membershipBindingOwner ]}) in
  let* crb := for_fold (λ (crb : option ClusterRoleBinding) (iCRB : ClusterRoleBinding),
    let rest := do* reconcileClusterMembershipBindingForDelete roleName rtbUID in ret crb in
    if negb (Nat.eqb (length (crb_Subjects iCRB)) 1) then
      match crb_Subjects iCRB with
      | [] => panic
      | subject0 :: _ =>
        if String.eqb (rbRoleSubjectKey (rr_Name (crb_RoleRef iCRB)) subject0) key
        then ret (Some iCRB) else rest
      end
    else rest) None crbs in
  match crb with
  | Some _ => ret tt
  | None =>
    let* objs := reads (ByIndex crbByRoleAndSubject key) in
    match objs with
    | [] =>
      do* api_create "" {| crb_meta := generate_meta "clusterrolebinding-"
                                         {[ rtbUID := membershipBindingOwner ]} ∅;
                           crb_Subjects := [subject];
                           crb_RoleRef := {| rr_APIGroup := ""; rr_Kind := "ClusterRole";
                                             rr_Name := roleName |} |} in
      ret tt
    | crb :: _ =>
      let m := crb_meta crb in
      match Labels m !! rtbUID with
      | Some _ => ret tt
      | None =>
        do* api_update "" (set_crb_meta
              (with_Labels (<[rtbUID := membershipBindingOwner]> (Labels m)) m) crb) in
        ret tt
      end
    end
  end.

(** The index queried here is the one of the cluster role bindings, and its
    objects are asserted to be role bindings: the assertion yields the nil
    pointer, whose labels the next statement reads. *)
Definition ensureProjectMembershipBinding (roleName rtbUID namespace : string)
    (project : Project) (makeOwner : bool) (subject : Subject) : M W unit :=
  do* createProjectMembershipRole roleName namespace project makeOwner in
  let key := rbRoleSubjectKey roleName subject in
  let* rbs := reads (lister_List "" {[ rtbUID := membershipBindingOwner ]}) in
  let* rb := for_fold (λ (rb : option RoleBinding) (iRB : RoleBinding),
    let rest := do* reconcileProjectMembershipBindingForDelete namespace roleName rtbUID in
                ret rb in
    if negb (Nat.eqb (length (rb_Subjects iRB)) 1) then
      match rb_Subjects iRB with
      | [] => panic
      | subject0 :: _ =>
        if String.eqb (rbRoleSubjectKey (rr_Name (rb_RoleRef iRB)) subject0) key
        then ret (Some iRB) else rest
      end
    else rest) None rbs in
  match rb with
  | Some _ => ret tt
  | None =>
    let* objs := reads (ByIndex crbByRoleAndSubject key) in
    match objs with
    | [] =>
      do* api_create namespace {| rb_meta := generate_meta "rolebinding-"
                                               {[ rtbUID := membershipBindingOwner ]} ∅;
                                  rb_Subjects := [subject];
                                  rb_RoleRef := {| rr_APIGroup := ""; rr_Kind := "Role";
                                                   rr_Name := roleName |} |} in
      ret tt
    | _ :: _ => panic
    end
  end.

(** *** Role templates *)

(** The fuel bounds the depth of the recursion; it is exhausted when the
    [RoleTemplateNames] of the templates have a cycle. *)
Fixpoint gatherRoleTemplates (fuel : nat) (rt : RoleTemplate)
    (roleTemplates : gmap string RoleTemplate) : M W (gmap string RoleTemplate) :=
  match fuel with
  | O => out_of_fuel
  | S fuel =>
    for_fold (λ roleTemplates rtName,
      let* subRT := wrap_err ("couldn't get RoleTemplate " +:+ rtName)
                      (reads (lister_Get "" rtName)) in
      wrap_err ("couldn't gather RoleTemplate " +:+ rtName)
        (gatherRoleTemplates fuel subRT roleTemplates))
      (<[Name (rt_meta rt) := rt]> roleTemplates) (rt_RoleTemplateNames rt)
  end.

Definition gatherAndDedupeRoles (fuel : nat) (roleTemplateName : string) :
    M W (gmap string RoleTemplate) :=
  let* rt := reads (lister_Get "" roleTemplateName) in
  let* allRoles := gatherRoleTemplates fuel rt ∅ in
  let* kvs := range allRoles in
  ret (foldl (λ roles kv, <[Name (rt_meta kv.2) := kv.2]> roles) ∅ kvs).

(** The verbs of the rules that apply to all objects of the resource. *)
Definition verbs_for (resource : string) (rules : list PolicyRule) : gset string :=
  foldl (λ verbs rule,
    if (ContainsString (Resources rule) resource || ContainsString (Resources rule) "*")
       && Nat.eqb (length (ResourceNames rule)) 0
    then verbs ∪ list_to_set (Verbs rule) else verbs) ∅ rules.

Definition checkForManagementPlaneRules (role : RoleTemplate)
    (managementPlaneResource : string) : M W (gset string) :=
  let* rules :=
    if rt_External role then
      let* r := attempt (reads (lister_Get (O:=ClusterRole) "" (Name (rt_meta role)))) in
      match r with
      | inl e => if IsNotFound e then ret [] else throw e
      | inr externalRole => ret (cr_Rules externalRole)
      end
    else ret (rt_Rules role) in
  ret (verbs_for managementPlaneResource rules).

Definition buildRule (resource : string) (verbs : gset string) : M W PolicyRule :=
  let* vs := range_keys verbs in
  ret {| Verbs := vs; APIGroups := ["*"]; Resources := [resource];
         ResourceNames := []; NonResourceURLs := [] |}.

(** The verbs some rule lists for the resource by name. *)
Definition current_verbs (resource : string) (rules : list PolicyRule) : gset string :=
  foldl (λ verbs rule,
    if ContainsString (Resources rule) resource
    then verbs ∪ list_to_set (Verbs rule) else verbs) ∅ rules.

(** Every rule for the resource becomes [new]; if there is none, it is appended. *)
Definition replace_rules (resource : string) (new : PolicyRule) (rules : list PolicyRule) :
    list PolicyRule :=
  if existsb (λ rule, ContainsString (Resources rule) resource) rules
  then map (λ rule, if ContainsString (Resources rule) resource then new else rule) rules
  else rules ++ [new].

Definition reconcileManagementPlaneRole (namespace : string)
    (resourceToVerbs : gmap string (gset string)) (rt : RoleTemplate) : M W unit :=
  let* found := reads (λ w, Ok (or_nil (lister_Get (O:=Role) namespace (Name (rt_meta rt)) w))) in
  match found with
  | Some role =>
    let* kvs := range resourceToVerbs in
    let* res := for_fold (λ '((newRules, update) : list PolicyRule * bool) '((resource, newVerbs) : string * gset string),
      if decide (current_verbs resource (r_Rules role) = newVerbs) then ret (newRules, update)
      else let* rule := buildRule resource newVerbs in
           ret (replace_rules resource rule newRules, true)) (r_Rules role, false) kvs in
    if snd res then
      do* api_update namespace {| r_meta := r_meta role; r_Rules := fst res |} in ret tt
    else ret tt
  | None =>
    let* kvs := range resourceToVerbs in
    let* rules := for_fold (λ rules '((resource, newVerbs) : string * gset string),
      let* rule := buildRule resource newVerbs in ret (rules ++ [rule])) [] kvs in
    do* wrap_err ("couldn't create role " +:+ Name (rt_meta rt))
          (api_create namespace {| r_meta := named_meta (Name (rt_meta rt)) ∅ ∅ [];
                                   r_Rules := rules |}) in
    ret tt
  end.

(** The first loop: what is left to create, what is to be deleted, and the names
    already processed. *)
Definition diff_step (acc : gmap string RoleBinding * gset string * gset string)
    (kv : string * RoleBinding) : gmap string RoleBinding * gset string * gset string :=
  let '(desired, todelete, processed) := acc in
  let name := Name (rb_meta kv.2) in
  if decide (name ∈ processed) then (desired, todelete, processed) else
  match desired !! name with
  | Some _ => (delete name desired, todelete, {[name]} ∪ processed)
  | None => (desired, {[name]} ∪ todelete, {[name]} ∪ processed)
  end.

Definition diff_bindings (current : list (string * RoleBinding))
    (desiredRBs : gmap string RoleBinding) :
    gmap string RoleBinding * gset string * gset string :=
  foldl diff_step (desiredRBs, ∅, ∅) current.

Definition reconcileDesiredMGMTPlaneRoleBindings (namespace : string)
    (currentRBs desiredRBs : gmap string RoleBinding) : M W unit :=
  let* current := range currentRBs in
  let '(desiredRBs, rbsToDelete, _) := diff_bindings current desiredRBs in
  let* desired := range desiredRBs in
  do* for_each (λ kv : string * RoleBinding, do* api_create namespace kv.2 in ret tt) desired in
  let* names := range_keys rbsToDelete in
  for_each (api_delete (O:=RoleBinding) namespace) names.

(** *** Granting privileges

    The body the three [grant] functions share: for every role gathered from
    the template, the role binding it needs and the role's rules.  [mk] is the
    metadata of a new binding, given its name. *)
Definition grant_roles (fuel : nat) (roleTemplateName namespace bindingName : string)
    (resources : list string) (subject : Subject) (mk : string → ObjectMeta) :
    M W (gmap string RoleBinding) :=
  let* roles := gatherAndDedupeRoles fuel roleTemplateName in
  let* kvs := range roles in
  for_fold (λ desiredRBs (kv : string * RoleTemplate),
    let role := kv.2 in
    let* res := for_fold
      (λ '((desiredRBs, resourceToVerbs) : gmap string RoleBinding * gmap string (gset string))
         resource,
        let* verbs := checkForManagementPlaneRules role resource in
        if decide (verbs = ∅) then ret (desiredRBs, resourceToVerbs) else
        let name := bindingName +:+ "-" +:+ Name (rt_meta role) in
        let desiredRBs := match desiredRBs !! name with
          | Some _ => desiredRBs
          | None => <[name := {| rb_meta := mk name;
                                 rb_Subjects := [subject];
                                 rb_RoleRef := {| rr_APIGroup := ""; rr_Kind := "Role";
                                                  rr_Name := Name (rt_meta role) |} |}]> desiredRBs
          end in
        ret (desiredRBs, <[resource := verbs]> resourceToVerbs)) (desiredRBs, ∅) resources in
    if decide (snd res = ∅) then ret (fst res)
    else do* reconcileManagementPlaneRole namespace (snd res) role in ret (fst res)) ∅ kvs.

(** [for _, rb := range current { currentRBs[rb.Name] = rb }]. *)
Definition by_name (l : list RoleBinding) : gmap string RoleBinding :=
  foldl (λ m rb, <[Name (rb_meta rb) := rb]> m) ∅ l.

Definition grantManagementPlanePrivileges (fuel : nat) (roleTemplateName : string)
    (resources : list string) (subject : Subject) (bindingType : TypeMeta)
    (bindingMeta : ObjectMeta) : M W unit :=
  let namespace := Namespace bindingMeta in
  let* desiredRBs := grant_roles fuel roleTemplateName namespace (Name bindingMeta)
    resources subject (λ name, named_meta name ∅ ∅
      [{| or_APIVersion := APIVersion bindingType; or_Kind := Kind bindingType;
          or_Name := Name bindingMeta; or_UID := UID bindingMeta |}]) in
  let* current := reads (ByIndex rbByOwner (UID bindingMeta)) in
  reconcileDesiredMGMTPlaneRoleBindings namespace (by_name current) desiredRBs.

Definition grantManagementClusterScopedPrivilegesInProjectNamespace (fuel : nat)
    (roleTemplateName projectNamespace : string) (resources : list string)
    (subject : Subject) (binding : ClusterRoleTemplateBinding) : M W unit :=
  let bm := crtb_meta binding in
  let* desiredRBs := grant_roles fuel roleTemplateName projectNamespace (Name bm)
    resources subject
    (λ name, named_meta name {[ UID bm := crtbInProjectBindingOwner ]} ∅ []) in
  let* current := reads (lister_List projectNamespace {[ UID bm := crtbInProjectBindingOwner ]}) in
  reconcileDesiredMGMTPlaneRoleBindings projectNamespace (by_name current) desiredRBs.

Definition grantManagementProjectScopedPrivilegesInClusterNamespace (fuel : nat)
    (roleTemplateName clusterNamespace : string) (resources : list string)
    (subject : Subject) (binding : ProjectRoleTemplateBinding) : M W unit :=
  let bm := prtb_meta binding in
  let* desiredRBs := grant_roles fuel roleTemplateName clusterNamespace (Name bm)
    resources subject
    (λ name, named_meta name {[ UID bm := prtbInClusterBindingOwner ]} ∅ []) in
  let* current := reads (lister_List clusterNamespace {[ UID bm := prtbInClusterBindingOwner ]}) in
  reconcileDesiredMGMTPlaneRoleBindings clusterNamespace (by_name current) desiredRBs.

End manager.
