(* ===== verification/MgmtRoles.v ===== *)
(** * Management-plane RBAC: subjects, role templates and rules

    Theorems about the read-only part of [MgmtManager]: which subject a
    binding names, which role templates a template brings in, which verbs
    their rules give on a resource. *)

From stdpp Require Import base gmap list strings.
From S2P Require Import Prelude.
From S2P Require Import GoLib.
From S2P Require Import KubeTypes.
From S2P Require Import KubeObjects.
From S2P Require Import Kube.
From S2P Require Import KubeSim.
From S2P Require Import MgmtManager.

(** ** Subjects *)

(** The subject fields of a binding, in the order the code looks at them. *)
Definition rtb_fields (b : rtb) : list (string * string) :=
  match b with
  | rtb_project b => [("User", prtb_UserName b); ("Group", prtb_GroupPrincipalName b);
                      ("Group", prtb_GroupName b)]
  | rtb_cluster b => [("User", crtb_UserName b); ("Group", crtb_GroupPrincipalName b);
                      ("Group", crtb_GroupName b)]
  | rtb_other => []
  end.

(** The fields that are set. *)
Definition rtb_subjects (b : rtb) : list Subject :=
  map (λ f, mkSubject f.1 f.2) (filter (λ f, f.2 ≠ "") (rtb_fields b)).

Lemma buildSubject_exact b s :
  buildSubjectFromRTB b = Ok s ↔ rtb_subjects b = [s].
Proof.
  destruct b as [[? ? u ? g p ? ?]|[? ? u ? g p ? ?]|]; simpl;
    unfold rtb_subjects; simpl; [| |done];
    destruct (String.eqb_spec u ""), (String.eqb_spec p ""), (String.eqb_spec g "");
    subst; simpl; rewrite ?filter_cons, ?filter_nil; simpl;
    repeat (rewrite ?decide_True, ?decide_False by done; simpl);
    try (destruct (String.eqb_spec u ""); [done|]);
    try (destruct (String.eqb_spec p ""); [done|]);
    try (destruct (String.eqb_spec g ""); [done|]);
    simpl; naive_solver.
Qed.

Lemma buildSubject_returns b :
  (∃ s, buildSubjectFromRTB b = Ok s) ∨ (∃ e, buildSubjectFromRTB b = Err e).
Proof.
  destruct b as [b|b|]; simpl; [| |by eauto]; repeat case_match; eauto.
Qed.

(** ** Inheritance between role templates *)

(** [inherits T rt sub]: [rt] names the template [sub] of the cache [T]. *)
Definition inherits (T : gmap nsname RoleTemplate) (rt sub : RoleTemplate) : Prop :=
  ∃ n, n ∈ rt_RoleTemplateNames rt ∧ T !! ("", n) = Some sub.

(** Every template reached from [rt] names templates of the cache only. *)
Definition closed_under (T : gmap nsname RoleTemplate) (rt : RoleTemplate) : Prop :=
  ∀ t n, rtc (inherits T) rt t → n ∈ rt_RoleTemplateNames t → is_Some (T !! ("", n)).

Lemma closed_under_step T rt sub :
  inherits T rt sub → closed_under T rt → closed_under T sub.
Proof. intros Hs Hc t n Ht. apply Hc. by eapply rtc_l. Qed.

(** [covers P acc m]: [m] is [acc] with the templates of [P] filed by name. *)
Definition covers (P : RoleTemplate → Prop) (acc m : gmap string RoleTemplate) : Prop :=
  ∀ n, (∃ t, P t ∧ Name (rt_meta t) = n ∧ m !! n = Some t) ∨
       ((∀ t, P t → Name (rt_meta t) ≠ n) ∧ m !! n = acc !! n).

Lemma covers_insert rt acc : covers (eq rt) acc (<[Name (rt_meta rt) := rt]> acc).
Proof.
  intros n. destruct (decide (Name (rt_meta rt) = n)) as [<-|Hne].
  - left. exists rt. by rewrite lookup_insert_eq.
  - right. rewrite lookup_insert_ne by done. naive_solver.
Qed.

Lemma covers_trans P Q acc m m' :
  covers P acc m → covers Q m m' → covers (λ t, P t ∨ Q t) acc m'.
Proof.
  intros HP HQ n. destruct (HQ n) as [(t & ? & ? & ?)|[HnQ ->]]; [naive_solver|].
  destruct (HP n) as [(t & ? & ? & ?)|[HnP ->]]; naive_solver.
Qed.

Lemma covers_iff P Q acc m : (∀ t, P t ↔ Q t) → covers P acc m → covers Q acc m.
Proof. intros Heq HP n. destruct (HP n) as [(t & ? & ? & ?)|[Hn ?]]; naive_solver. Qed.

(** The role templates the cache shows. *)
Abbreviation templates w := (s_RoleTemplates (cached w)).

Section gather.
Context {W : Type} `{!GoRuntime W, !Kube W}.
Context `{!Client W ClusterRole, !Client W Role, !Client W ClusterRoleBinding,
          !Client W RoleBinding, !Client W RoleTemplate}.
Context `{!ClientLaws W RoleTemplate, !GoRuntimeLaws W}.

Lemma get_template n sub w :
  templates w !! ("", n) = Some sub → lister_Get "" n w = Ok sub.
Proof.
  intros Hn. pose proof (lister_get_law (O:=RoleTemplate) "" n w) as Hl.
  simpl in Hl. by rewrite Hn in Hl.
Qed.

Lemma template_name n sub w : templates w !! ("", n) = Some sub → Name (rt_meta sub) = n.
Proof.
  intros Hn. pose proof (cached_keyed (O:=RoleTemplate) w _ _ Hn) as Hk.
  unfold obj_key in Hk. by simplify_eq/=.
Qed.

(** The two ways a call on templates of the cache can end. *)
Definition gathered fuel rt acc w (r : outcome (gmap string RoleTemplate)) : Prop :=
  (∃ m, r = Ok m ∧ covers (rtc (inherits (templates w)) rt) acc m ∧
        ∀ t, ¬ nsteps (inherits (templates w)) fuel rt t) ∨
  (r = OutOfFuel ∧ ∃ t, nsteps (inherits (templates w)) fuel rt t).

Lemma gather_loop fuel names acc w :
  (∀ n, n ∈ names → is_Some (templates w !! ("", n))) →
  (∀ sub acc, (∃ n, n ∈ names ∧ templates w !! ("", n) = Some sub) →
     ∃ r, gatherRoleTemplates fuel sub acc w = (r, w) ∧ gathered fuel sub acc w r) →
  let named sub := ∃ n, n ∈ names ∧ templates w !! ("", n) = Some sub in
  ∃ r, for_fold (λ roleTemplates rtName,
      let* subRT := wrap_err ("couldn't get RoleTemplate " +:+ rtName)
                      (reads (lister_Get "" rtName)) in
      wrap_err ("couldn't gather RoleTemplate " +:+ rtName)
        (gatherRoleTemplates fuel subRT roleTemplates)) acc names w = (r, w) ∧
    ((∃ m, r = Ok m ∧
        covers (λ t, ∃ sub, named sub ∧ rtc (inherits (templates w)) sub t) acc m ∧
        ∀ sub t, named sub → ¬ nsteps (inherits (templates w)) fuel sub t) ∨
     (r = OutOfFuel ∧ ∃ sub t, named sub ∧ nsteps (inherits (templates w)) fuel sub t)).
Proof.
  simpl. revert acc. induction names as [|n names IH]; intros acc Hex Hsub; simpl.
  { exists (Ok acc). split; [done|]. left. exists acc. split_and!; [done| |set_solver].
    intros n. right. set_solver. }
  destruct (Hex n) as [sub Hn]; [left|].
  unfold bind at 1. unfold bind at 1, wrap_err at 1, reads at 1.
  rewrite (get_template _ _ _ Hn). unfold wrap_err at 1.
  destruct (Hsub sub acc) as (r & -> & [(m & -> & Hcov & Hno)|(-> & t & Ht)]).
  { exists n. by split; [left|]. }
  2:{ exists OutOfFuel. split; [done|]. right. split; [done|]. exists sub, t.
      split; [|done]. exists n. by split; [left|]. }
  destruct (IH m) as (r & -> & Hr).
  { intros; apply Hex; by right. }
  { intros sub' acc' (n' & ? & ?). apply Hsub. exists n'. by split; [right|]. }
  exists r. split; [done|]. destruct Hr as [(m' & -> & Hcov' & Hno')|(-> & sub' & t & (n' & ? & ?) & Ht)].
  - left. exists m'. split_and!; [done| |].
    + eapply covers_iff; [|eapply covers_trans; [apply Hcov|apply Hcov']].
      intros t. split.
      * intros [?|(sub' & (n' & ? & ?) & ?)]; [exists sub; split; [|done]; exists n; by split; [left|]|].
        exists sub'. split; [|done]. exists n'. by split; [right|].
      * intros (sub' & (n' & [->|?]%elem_of_cons & ?) & ?); simplify_eq; [by left|].
        right. exists sub'. split; [|done]. by exists n'.
    + intros sub' t (n' & [->|?]%elem_of_cons & ?); simplify_eq; [done|].
      apply Hno'. by exists n'.
  - right. split; [done|]. exists sub', t. split; [|done]. exists n'. by split; [right|].
Qed.

Lemma gather_outcome fuel rt acc w :
  closed_under (templates w) rt →
  ∃ r, gatherRoleTemplates fuel rt acc w = (r, w) ∧ gathered fuel rt acc w r.
Proof.
  revert rt acc. induction fuel as [|fuel IH]; intros rt acc Hc; simpl.
  { exists OutOfFuel. split; [done|]. right. split; [done|]. exists rt. constructor. }
  destruct (gather_loop fuel (rt_RoleTemplateNames rt) (<[Name (rt_meta rt):=rt]> acc) w)
    as (r & Hr & Hcase).
  { intros n Hn. by apply (Hc rt). }
  { intros sub acc' Hsub. apply IH. by eapply closed_under_step. }
  exists r. split; [done|].
  destruct Hcase as [(m & -> & Hcov & Hno)|(-> & sub & t & Hsub & Ht)].
  - left. exists m. split_and!; [done| |].
    + eapply covers_iff; [|eapply covers_trans; [apply covers_insert|apply Hcov]].
      intros t. split.
      * intros [->|(sub & ? & ?)]; [done|]. by eapply rtc_l.
      * intros [->|(sub & ? & ?)]%rtc_inv; [by left|]. right. by exists sub.
    + intros t Ht. inversion Ht; subst. by eapply Hno.
  - right. split; [done|]. exists t. by econstructor.
Qed.

Lemma gathered_dedupe fuel name rt w r :
  templates w !! ("", name) = Some rt →
  gatherRoleTemplates fuel rt ∅ w = (r, w) → gathered fuel rt ∅ w r →
  gatherAndDedupeRoles fuel name w = (r, w).
Proof.
  intros Hrt Hg Hr. unfold gatherAndDedupeRoles, bind at 1, reads.
  rewrite (get_template _ _ _ Hrt). unfold bind at 1. rewrite Hg.
  destruct Hr as [(m & -> & Hcov & _)|(-> & _)]; [|done].
  unfold bind, range, ret. do 2 f_equal.
  apply (foldl_insert_perm (λ t, Name (rt_meta t))); [|apply map_range_perm].
  intros k t Hk. destruct (Hcov k) as [(t' & _ & ? & Ht')|[_ Hn]]; [by simplify_eq|].
  by rewrite Hn in Hk.
Qed.

Lemma reached_cached rt t w name :
  templates w !! ("", name) = Some rt → rtc (inherits (templates w)) rt t →
  templates w !! ("", Name (rt_meta t)) = Some t.
Proof.
  intros Hrt Ht. revert name Hrt. induction Ht as [t|x y z (n & _ & Hn) _ IH]; intros name Hrt.
  - by rewrite (template_name _ _ _ Hrt).
  - by eapply IH.
Qed.

Lemma gather_closure fuel name rt w :
  templates w !! ("", name) = Some rt →
  closed_under (templates w) rt →
  (∀ t, ¬ nsteps (inherits (templates w)) fuel rt t) →
  ∃ m, gatherAndDedupeRoles fuel name w = (Ok m, w) ∧
    ∀ n t, m !! n = Some t ↔ rtc (inherits (templates w)) rt t ∧ Name (rt_meta t) = n.
Proof.
  intros Hrt Hc Hno. destruct (gather_outcome fuel rt ∅ w Hc) as (r & Hr & Hg).
  pose proof (gathered_dedupe _ _ _ _ _ Hrt Hr Hg) as Hd.
  destruct Hg as [(m & -> & Hcov & _)|(_ & t & Ht)]; [|by destruct (Hno t)].
  exists m. split; [done|]. intros n t. split.
  - intros Hm. destruct (Hcov n) as [(t' & ? & ? & ?)|[_ Hn]]; [by simplify_eq|].
    by rewrite Hn in Hm.
  - intros [Ht <-]. destruct (Hcov (Name (rt_meta t))) as [(t' & Ht' & Hname & ->)|[Hne _]].
    + f_equal. apply reached_cached with (name:=name) in Ht, Ht'; [|done..].
      rewrite Hname in Ht'. by simplify_eq.
    + by destruct (Hne t).
Qed.

Lemma gather_cycle fuel name rt w :
  templates w !! ("", name) = Some rt →
  closed_under (templates w) rt → tc (inherits (templates w)) rt rt →
  gatherAndDedupeRoles fuel name w = (OutOfFuel, w).
Proof.
  intros Hrt Hc Hcyc. destruct (gather_outcome fuel rt ∅ w Hc) as (r & Hr & Hg).
  pose proof (gathered_dedupe _ _ _ _ _ Hrt Hr Hg) as Hd.
  destruct Hg as [(m & -> & _ & Hno)|(-> & _)]; [|done].
  destruct (cycle_nsteps _ rt fuel Hcyc) as [t Ht]. by destruct (Hno t).
Qed.

End gather.

(** ** Verbs *)

Lemma elem_of_verbs_for v r rules :
  v ∈ verbs_for r rules ↔ ∃ rule, rule ∈ rules ∧ v ∈ Verbs rule ∧
    (r ∈ Resources rule ∨ "*" ∈ Resources rule) ∧ ResourceNames rule = [].
Proof.
  unfold verbs_for. rewrite elem_of_collect.
  setoid_rewrite andb_true_iff. setoid_rewrite orb_true_iff.
  setoid_rewrite ContainsString_true. setoid_rewrite Nat.eqb_eq.
  setoid_rewrite length_zero_iff_nil. set_solver.
Qed.

Lemma elem_of_current_verbs v r rules :
  v ∈ current_verbs r rules ↔ ∃ rule, rule ∈ rules ∧ v ∈ Verbs rule ∧ r ∈ Resources rule.
Proof.
  unfold current_verbs. rewrite elem_of_collect. setoid_rewrite ContainsString_true. set_solver.
Qed.

(** ** Properties *)

(** A role template binding names a subject exactly when one, and only one,
    of its user, group principal and group fields is set; the subject is that
    field with its kind, and any other binding is rejected with an error. *)
Theorem buildSubjectFromRTB_exact b :
  (∀ s, buildSubjectFromRTB b = Ok s ↔ rtb_subjects b = [s]) ∧
  ((∀ s, rtb_subjects b ≠ [s]) → ∃ e, buildSubjectFromRTB b = Err e).
Proof.
  split; [apply buildSubject_exact|]. intros Hno.
  destruct (buildSubject_returns b) as [[s Hs]|]; [|done].
  apply buildSubject_exact in Hs. by destruct (Hno s).
Qed.

Section gather_properties.
Context {W : Type} `{!GoRuntime W, !Kube W}.
Context `{!Client W ClusterRole, !Client W Role, !Client W ClusterRoleBinding,
          !Client W RoleBinding, !Client W RoleTemplate}.
Context `{!ClientLaws W RoleTemplate, !GoRuntimeLaws W}.

(** Gathering the roles of a template whose inherited templates all exist and
    have no inheritance chain of length [fuel] returns, without writing, the
    templates reachable through [RoleTemplateNames], each filed under its name:
    all of them, and nothing else. *)
Theorem gatherAndDedupeRoles_closure fuel name rt (w : W) :
  templates w !! ("", name) = Some rt →
  closed_under (templates w) rt →
  (∀ t, ¬ nsteps (inherits (templates w)) fuel rt t) →
  ∃ m, gatherAndDedupeRoles fuel name w = (Ok m, w) ∧
    ∀ n t, m !! n = Some t ↔ rtc (inherits (templates w)) rt t ∧ Name (rt_meta t) = n.
Proof. apply gather_closure. Qed.

(** If a template inherits itself, directly or through others, gathering its
    roles does not return, whatever the depth allowed to the recursion. *)
Theorem gatherAndDedupeRoles_cycle name rt (w : W) :
  templates w !! ("", name) = Some rt →
  closed_under (templates w) rt → tc (inherits (templates w)) rt rt →
  ∀ fuel, gatherAndDedupeRoles fuel name w = (OutOfFuel, w).
Proof. intros ??? fuel. by eapply gather_cycle. Qed.

End gather_properties.

(** *** A small cluster *)

Definition demo_rule (verbs resources : list string) : PolicyRule :=
  {| Verbs := verbs; APIGroups := ["*"]; Resources := resources;
     ResourceNames := []; NonResourceURLs := [] |}.

Definition demo_template (name : string) (rules : list PolicyRule) (subs : list string) :
    RoleTemplate :=
  {| rt_meta := named_meta name ∅ ∅ []; rt_DisplayName := name; rt_Description := "";
     rt_Rules := rules; rt_Builtin := true; rt_External := false; rt_Hidden := false;
     rt_Locked := false; rt_Context := "cluster"; rt_RoleTemplateNames := subs |}.

Definition demo_member : RoleTemplate :=
  demo_template "member" [demo_rule ["get"; "list"] ["projects"]] [].
Definition demo_owner : RoleTemplate :=
  demo_template "owner" [demo_rule ["*"] ["nodes"]] ["member"].
Definition demo_loop : RoleTemplate := demo_template "loop" [] ["loop"].

Definition demo_state : KState :=
  set_s_RoleTemplates {[ ("", "member") := demo_member; ("", "owner") := demo_owner;
                         ("", "loop") := demo_loop ]} empty_state.

Definition demo : Sim := synced demo_state.

Section demo_templates.
Context (T : gmap nsname RoleTemplate).
Hypothesis (Hmember : T !! ("", "member") = Some demo_member).
Hypothesis (Hloop : T !! ("", "loop") = Some demo_loop).

Lemma demo_owner_inherits y : inherits T demo_owner y → y = demo_member.
Proof.
  intros (n & Hn & Hy). change (n ∈ ["member"]) in Hn.
  apply list_elem_of_singleton in Hn as ->. rewrite Hmember in Hy. congruence.
Qed.

Lemma demo_member_inherits y : ¬ inherits T demo_member y.
Proof. intros (n & Hn & _). change (n ∈ []) in Hn. by apply elem_of_nil in Hn. Qed.

Lemma demo_loop_inherits y : inherits T demo_loop y → y = demo_loop.
Proof.
  intros (n & Hn & Hy). change (n ∈ ["loop"]) in Hn.
  apply list_elem_of_singleton in Hn as ->. rewrite Hloop in Hy. congruence.
Qed.

Lemma demo_reached t : rtc (inherits T) demo_owner t → t = demo_owner ∨ t = demo_member.
Proof.
  intros [->|(y & Hy%demo_owner_inherits & Ht)]%rtc_inv; [by left|right]. subst y.
  apply rtc_inv in Ht as [->|(y & Hy & _)]; [done|]. by apply demo_member_inherits in Hy.
Qed.

Lemma demo_reached_loop t : rtc (inherits T) demo_loop t → t = demo_loop.
Proof.
  assert (∀ x, rtc (inherits T) x t → x = demo_loop → t = demo_loop) as Hgen; [|eauto].
  induction 1 as [|x y z Hxy _ IH]; [done|]. intros ->. by apply IH, demo_loop_inherits.
Qed.

Lemma demo_closed : closed_under T demo_owner.
Proof.
  intros t n [->| ->]%demo_reached Hn.
  - change (n ∈ ["member"]) in Hn. apply list_elem_of_singleton in Hn as ->. eauto.
  - change (n ∈ []) in Hn. by apply elem_of_nil in Hn.
Qed.

Lemma demo_loop_closed : closed_under T demo_loop.
Proof.
  intros t n ->%demo_reached_loop Hn. change (n ∈ ["loop"]) in Hn.
  apply list_elem_of_singleton in Hn as ->. eauto.
Qed.

Lemma demo_depth t : ¬ nsteps (inherits T) 2 demo_owner t.
Proof.
  inversion 1 as [|? ? y ? Hy Ht]; subst. apply demo_owner_inherits in Hy as ->.
  inversion Ht as [|? ? z ? Hz]; subst. by apply demo_member_inherits in Hz.
Qed.

End demo_templates.

Lemma demo_lookups :
  s_RoleTemplates (cached demo) !! ("", "owner") = Some demo_owner ∧
  s_RoleTemplates (cached demo) !! ("", "member") = Some demo_member ∧
  s_RoleTemplates (cached demo) !! ("", "loop") = Some demo_loop.
Proof. vm_compute. done. Qed.

Lemma gatherAndDedupeRoles_closure_witness :
  ∃ m, gatherAndDedupeRoles 2 "owner" demo = (Ok m, demo) ∧
    ∀ n t, m !! n = Some t ↔
      rtc (inherits (s_RoleTemplates (cached demo))) demo_owner t ∧ Name (rt_meta t) = n.
Proof.
  destruct demo_lookups as (Ho & Hm & _).
  exact (gatherAndDedupeRoles_closure 2 "owner" demo_owner demo Ho (demo_closed _ Hm)
           (demo_depth _ Hm)).
Defined.

Lemma gatherAndDedupeRoles_cycle_witness :
  gatherAndDedupeRoles 1000 "loop" demo = (OutOfFuel, demo).
Proof.
  destruct demo_lookups as (_ & _ & Hl).
  refine (gatherAndDedupeRoles_cycle "loop" demo_loop demo Hl (demo_loop_closed _ Hl) _ 1000).
  apply tc_once. exists "loop". split; [by left|exact Hl].
Defined.
