(* ===== verification/MgmtBindings.v ===== *)
(** * Management-plane RBAC: role bindings

    Theorems about the part of [MgmtManager] that writes: the bindings of a
    role template binding are made exactly the desired ones, the roles they
    refer to get the desired verbs, membership bindings follow the template
    bindings they belong to. *)

From stdpp Require Import base gmap list strings.
From S2P Require Import Prelude.
From S2P Require Import GoLib.
From S2P Require Import KubeTypes.
From S2P Require Import KubeObjects.
From S2P Require Import Kube.
From S2P Require Import KubeRules.
From S2P Require Import KubeSim.
From S2P Require Import MgmtManager.
From S2P Require Import MgmtRoles.

(** ** The difference between the current and the desired bindings *)

Definition keyed (m : gmap string RoleBinding) : Prop :=
  ∀ n rb, m !! n = Some rb → Name (rb_meta rb) = n.

Definition kv_names (l : list (string * RoleBinding)) : list string :=
  (λ kv, Name (rb_meta kv.2)) <$> l.

Lemma diff_bindings_loop l d t p :
  NoDup (kv_names l) → list_to_set (kv_names l) ## p →
  ∃ d', foldl diff_step (d, t, p) l =
      (d', t ∪ (list_to_set (kv_names l) ∖ dom d), list_to_set (kv_names l) ∪ p) ∧
    ∀ k, d' !! k = if decide (k ∈ kv_names l) then None else d !! k.
Proof.
  revert d t p. induction l as [|kv l IH]; intros d t p Hnd Hp.
  { exists d. split; [|done]. simpl. f_equal; [f_equal|]; set_solver. }
  assert (kv_names (kv :: l) = Name (rb_meta kv.2) :: kv_names l) as Heq by done.
  rewrite Heq in *. clear Heq. simpl. revert IH Hnd Hp.
  generalize (Name (rb_meta kv.2)) (kv_names l). clear kv. intros n names IH.
  rewrite NoDup_cons. intros [Hn Hnd] Hp. simpl in Hp.
  rewrite decide_False by set_solver.
  destruct (d !! n) as [rb|] eqn:Hd.
  - destruct (IH (delete n d) t ({[n]} ∪ p) Hnd) as (d' & -> & Hd'); [set_solver|].
    exists d'. split.
    + f_equal; [f_equal|]; [|set_solver]. rewrite dom_delete_L.
      assert (n ∈ dom d) by by apply elem_of_dom. set_solver.
    + intros k. rewrite Hd'. destruct (decide (k ∈ names)).
      { rewrite decide_True; [done|by right]. }
      destruct (decide (k = n)) as [->|Hne].
      { rewrite decide_True by left. by rewrite lookup_delete_eq. }
      rewrite decide_False by set_solver. by rewrite lookup_delete_ne.
  - destruct (IH d ({[n]} ∪ t) ({[n]} ∪ p) Hnd) as (d' & -> & Hd'); [set_solver|].
    exists d'. split.
    + f_equal; [f_equal|]; [|set_solver].
      assert (n ∉ dom d) by by apply not_elem_of_dom. set_solver.
    + intros k. rewrite Hd'. destruct (decide (k ∈ names)).
      { rewrite decide_True; [done|by right]. }
      destruct (decide (k = n)) as [->|Hne].
      { by rewrite decide_True by left. }
      by rewrite decide_False by set_solver.
Qed.

Lemma diff_bindings_spec cur des l :
  keyed cur → l ≡ₚ map_to_list cur →
  diff_bindings l des = (des ∖ cur, dom cur ∖ dom des, dom cur).
Proof.
  intros Hk Hl.
  assert (kv_names l = l.*1) as Hnames.
  { apply list_fmap_ext. intros i [n rb] Hi. apply Hk, elem_of_map_to_list.
    rewrite <-Hl. apply list_elem_of_lookup. eauto. }
  assert (list_to_set (kv_names l) = dom cur) as Hdom.
  { rewrite Hnames, Hl. symmetry. apply leibniz_equiv, dom_alt. }
  destruct (diff_bindings_loop l des ∅ ∅) as (d' & Hrun & Hd'); [|set_solver|].
  { rewrite Hnames, Hl. apply NoDup_fst_map_to_list. }
  unfold diff_bindings. rewrite Hrun, Hdom.
  rewrite union_empty_l_L, union_empty_r_L. do 2 f_equal.
  apply map_eq. intros k. rewrite Hd', lookup_difference.
  destruct (cur !! k) eqn:Hc; case_decide as Hin; try done.
  - destruct Hin. rewrite <-(elem_of_list_to_set (C:=gset string)), Hdom. apply elem_of_dom. eauto.
  - rewrite <-(elem_of_list_to_set (C:=gset string)), Hdom in Hin. apply elem_of_dom in Hin.
    rewrite Hc in Hin. by destruct Hin.
Qed.

(** ** What a reconciliation of role bindings promises

    [current] are the bindings found for the owner, [desired] the ones it should
    have, both by name, in the namespace [ns].  Bindings are compared by name
    only: one that is current and desired stays as it is. *)

Definition reconciled (ns : string) (current desired : gmap string RoleBinding)
    (s s' : KState) : Prop :=
  only_tbl (O:=RoleBinding) s s' ∧
  (∀ n, match current !! n, desired !! n with
        | None, Some rb => ∃ rb', s_RoleBindings s' !! (ns, n) = Some rb' ∧ stored_as ns rb rb'
        | Some _, None => s_RoleBindings s' !! (ns, n) = None
        | _, _ => s_RoleBindings s' !! (ns, n) = s_RoleBindings s !! (ns, n)
        end) ∧
  (∀ ns' n, ns' ≠ ns → s_RoleBindings s' !! (ns', n) = s_RoleBindings s !! (ns', n)).

(** What holds after an error: no other binding has changed. *)
Definition partly_reconciled (ns : string) (current desired : gmap string RoleBinding)
    (s s' : KState) : Prop :=
  only_tbl (O:=RoleBinding) s s' ∧
  ∀ ns' n, ns' ≠ ns ∨ (is_Some (current !! n) ↔ is_Some (desired !! n)) →
    s_RoleBindings s' !! (ns', n) = s_RoleBindings s !! (ns', n).

(** The bindings to delete exist and the ones to create do not. *)
Definition caught_up (ns : string) (current desired : gmap string RoleBinding)
    (s : KState) : Prop :=
  ∀ n, match current !! n, desired !! n with
       | None, Some _ => s_RoleBindings s !! (ns, n) = None
       | Some _, None => is_Some (s_RoleBindings s !! (ns, n))
       | _, _ => True
       end.

(** A binding that can be created in [ns] under its name. *)
Definition creatable (ns : string) (m : gmap string RoleBinding) : Prop :=
  ∀ n rb, m !! n = Some rb → write_key ns rb = (ns, n) ∧ n ≠ "".

Section bindings.
Context {W : Type} `{!GoRuntime W, !GoRuntimeLaws W, !Kube W}.
Context `{!Client W ClusterRole, !Client W Role, !Client W ClusterRoleBinding,
          !Client W RoleBinding, !Client W RoleTemplate}.
Context `{!ClientLaws W RoleBinding}.

Lemma wp_range_keys (s : gset string) (Q : outcome (list string) → W → Prop) w :
  (∀ l, NoDup l → (∀ x, x ∈ l ↔ x ∈ s) → Q (Ok l) w) → wp (range_keys s) Q w.
Proof.
  intros HQ. apply wp_bind, wp_range. intros l Hl. simpl. apply wp_ret, HQ.
  - by eapply range_NoDup.
  - intros x. rewrite (range_dom _ _ _ Hl), lookup_gset_to_gmap. case_guard; naive_solver.
Qed.

Lemma reconcile_desired ns current desired w :
  keyed current → creatable ns desired →
  wp (reconcileDesiredMGMTPlaneRoleBindings ns current desired)
    (if_ok (λ _ w', reconciled ns current desired (view w) (view w'))
       (λ _ w', partly_reconciled ns current desired (view w) (view w') ∧
          (ClientHealthy W RoleBinding → ¬ caught_up ns current desired (view w)))) w.
Proof.
  intros Hcur Hdes. unfold reconcileDesiredMGMTPlaneRoleBindings.
  apply wp_bind, wp_range. intros l Hl. simpl.
  rewrite (diff_bindings_spec _ _ _ Hcur Hl).
  apply wp_bind, wp_range. intros todo Htodo. simpl.
  assert (∀ n, n ∈ todo.*1 ↔ current !! n = None ∧ is_Some (desired !! n)) as Hin.
  { intros n. rewrite (range_dom _ _ _ Htodo), lookup_difference.
    destruct (current !! n); naive_solver. }
  eapply wp_bind_if_ok; [apply wp_create_all| |].
  { by eapply range_NoDup. }
  { intros n rb Hn%(range_elem _ _ _ _ Htodo).
    apply lookup_difference_Some in Hn as [? _]. by apply Hdes. }
  - intros [] w1 [[Honly Hfr] Hcr]. apply wp_bind, wp_range_keys. intros names Hnd Hnames. simpl.
    assert (∀ n, n ∈ names ↔ is_Some (current !! n) ∧ desired !! n = None) as Hin'.
    { intros n. by rewrite Hnames, elem_of_difference, elem_of_dom, not_elem_of_dom. }
    eapply wp_mono; [by apply wp_delete_all|].
    intros [[]|e| |] w2 Hw2; simpl in Hw2; [| |done..].
    + destruct Hw2 as [[Honly2 Hfr2] Hde]. split_and!; [exact (only_tbl_trans _ _ _ Honly Honly2)| |].
      * intros n. destruct (current !! n) eqn:Hc, (desired !! n) as [rb|] eqn:Hd.
        -- rewrite Hfr2 by (rewrite elem_of_keys, Hin'; intros [_ ?]; congruence).
           apply Hfr. rewrite elem_of_keys, Hin. intros [? _]; congruence.
        -- apply Hde, Hin'. eauto.
        -- rewrite Hfr2 by (rewrite elem_of_keys, Hin'; intros [[??] _]; congruence). apply Hcr.
           apply (range_elem _ _ _ _ Htodo), lookup_difference_Some. done.
        -- rewrite Hfr2 by (rewrite elem_of_keys, Hin'; intros [[??] _]; congruence).
           apply Hfr. rewrite elem_of_keys, Hin. intros [_ [??]]; congruence.
      * intros ns' n Hne. rewrite Hfr2 by (rewrite elem_of_keys_ns; intros [? _]; congruence).
        apply Hfr. rewrite elem_of_keys_ns; intros [? _]; congruence.
    + destruct Hw2 as [[Honly2 Hfr2] Hno]. split; [split; [exact (only_tbl_trans _ _ _ Honly Honly2)|]|].
      * intros ns' n Hcase.
        rewrite Hfr2 by (rewrite elem_of_keys_ns, Hin', eq_None_not_Some; tauto).
        apply Hfr. rewrite elem_of_keys_ns, Hin, eq_None_not_Some. tauto.
      * intros Hh Hup. apply Hno; [done|]. intros n Hn. specialize (Hup n).
        apply Hin' in Hn as [[? Hc] Hd]. rewrite Hc, Hd in Hup.
        by rewrite Hfr by (rewrite elem_of_keys, Hin; intros [? _]; congruence).
  - intros e w' [[Honly Hfr] Hno]. split; [split; [done|]|].
    + intros ns' n Hcase. apply Hfr. rewrite elem_of_keys_ns, Hin, eq_None_not_Some. tauto.
    + intros Hh Hup. apply Hno; [done|]. intros n [Hc [rb Hd]]%Hin. specialize (Hup n).
      by rewrite Hc, Hd in Hup.
Qed.

(** Reconciling the role bindings of an owner creates the desired ones that are
    missing, deletes the current ones that are not desired and touches nothing
    else.  It fails only if the API server does, or if a binding to create
    exists already or one to delete does not; then only those bindings may have
    changed. *)
Theorem reconcileDesiredMGMTPlaneRoleBindings_correct ns current desired w :
  keyed current → creatable ns desired →
  wp (reconcileDesiredMGMTPlaneRoleBindings ns current desired)
    (if_ok (λ _ w', reconciled ns current desired (view w) (view w'))
       (λ _ w', partly_reconciled ns current desired (view w) (view w') ∧
          (ClientHealthy W RoleBinding → ¬ caught_up ns current desired (view w)))) w.
Proof. apply reconcile_desired. Qed.

End bindings.

(** *** Witness: one binding to create, one to delete, one to keep *)

Definition demo_rb (name : string) : RoleBinding :=
  {| rb_meta := named_meta name ∅ ∅ []; rb_Subjects := [mkSubject "User" "u-1"];
     rb_RoleRef := {| rr_APIGroup := ""; rr_Kind := "Role"; rr_Name := "member" |} |}.

Definition demo_stored (ns name : string) : RoleBinding :=
  set_rb_meta {| Name := name; GenerateName := ""; Namespace := ns; UID := ""; ResourceVersion := ""; Labels := ∅;
                 Annotations := ∅; OwnerReferences := []; CreationTimestamp := 0;
                 DeletionTimestamp := None |} (demo_rb name).

Definition demo_bindings : Sim :=
  synced (set_s_RoleBindings {[ ("c-1", "old") := demo_stored "c-1" "old";
                                ("c-1", "kept") := demo_stored "c-1" "kept" ]} empty_state).

Definition demo_current : gmap string RoleBinding :=
  {[ "old" := demo_stored "c-1" "old"; "kept" := demo_stored "c-1" "kept" ]}.

Definition demo_desired : gmap string RoleBinding :=
  {[ "new" := demo_rb "new"; "kept" := demo_rb "kept" ]}.

(** A computed outcome picks the side of the contract. *)
Lemma run_ok {W A} (m : M W A) (Q : A → W → Prop) I w a :
  wp m (if_ok Q I) w → (m w).1 = Ok a → ∃ w', m w = (Ok a, w') ∧ Q a w'.
Proof. unfold wp. destruct (m w) as [r w']. simpl. intros HQ ->. eauto. Qed.

Lemma reconcileDesiredMGMTPlaneRoleBindings_correct_witness :
  ∃ w', reconcileDesiredMGMTPlaneRoleBindings "c-1" demo_current demo_desired demo_bindings =
          (Ok tt, w') ∧
    reconciled "c-1" demo_current demo_desired (view demo_bindings) (view w').
Proof.
  refine (run_ok _ _ _ demo_bindings tt
    (reconcileDesiredMGMTPlaneRoleBindings_correct "c-1" demo_current demo_desired demo_bindings _ _) _).
  - intros n rb. unfold demo_current. rewrite lookup_insert_Some, lookup_singleton_Some.
    by intros [[<- <-]|[_ [<- <-]]].
  - intros n rb. unfold demo_desired. rewrite lookup_insert_Some, lookup_singleton_Some.
    by intros [[<- <-]|[_ [<- <-]]].
  - vm_compute. reflexivity.
Defined.
