(* ===== verification/MgmtGrants.v ===== *)
(** * Management-plane RBAC: granting the rules of a role template

    Theorems about [reconcileManagementPlaneRole] and the [grant] functions of
    [MgmtManager]: the role of a template ends up with the verbs the template
    gives on each resource, and the subject is bound to exactly the roles of
    the templates it inherits that give some verb on a managed resource. *)

From stdpp Require Import base gmap list strings.
From S2P Require Import Prelude.
From S2P Require Import GoLib.
From S2P Require Import KubeTypes.
From S2P Require Import KubeObjects.
From S2P Require Import Kube.
From S2P Require Import KubeRules.
From S2P Require Import KubeSim.
From S2P Require Import MgmtManager.
From S2P Require Import MgmtRoles.
From S2P Require Import MgmtBindings.

(** ** Rules for one resource *)

(** Every rule names one resource, as the rules of [buildRule] do. *)
Definition plain (rules : list PolicyRule) : Prop :=
  ∀ rule, rule ∈ rules → ∃ r, Resources rule = [r].

(** A rule as [buildRule] makes it. *)
Definition rule_for (resource : string) (verbs : gset string) (rule : PolicyRule) : Prop :=
  Resources rule = [resource] ∧ ResourceNames rule = [] ∧ APIGroups rule = ["*"] ∧
  list_to_set (Verbs rule) = verbs.

Lemma current_verbs_other r rule rules :
  r ∉ Resources rule → current_verbs r (rules ++ [rule]) = current_verbs r rules.
Proof.
  intros Hr. apply set_eq. intros v. rewrite !elem_of_current_verbs. set_solver.
Qed.

Lemma plain_snoc rule rules r : plain rules → Resources rule = [r] → plain (rules ++ [rule]).
Proof. intros Hp Hr rule' [?|?%list_elem_of_singleton]%elem_of_app; subst; eauto. Qed.

Lemma elem_of_replace resource new rules rule :
  rule ∈ replace_rules resource new rules ↔
  rule = new ∨ (rule ∈ rules ∧ resource ∉ Resources rule).
Proof.
  unfold replace_rules. destruct (existsb _ rules) eqn:Hex.
  - apply existsb_exists in Hex as (rule0 & Hin0 & Hc0). rewrite list_elem_of_fmap. split.
    + intros (y & -> & Hy). destruct (ContainsString (Resources y) resource) eqn:Hc; [by left|].
      right. split; [done|]. by apply ContainsString_false.
    + intros [ ->|[Hin Hn]].
      * exists rule0. rewrite Hc0. by split; [|apply list_elem_of_In].
      * exists rule. apply ContainsString_false in Hn. by rewrite Hn.
  - rewrite elem_of_app, list_elem_of_singleton. split; [|naive_solver].
    intros [Hin| ->]; [|by left]. right. split; [done|]. apply ContainsString_false.
    destruct (ContainsString _ _) eqn:Hc; [|done].
    rewrite <-Hex. symmetry. apply existsb_exists. exists rule.
    by split; [apply list_elem_of_In|].
Qed.

Lemma plain_replace resource new rules :
  plain rules → Resources new = [resource] → plain (replace_rules resource new rules).
Proof. intros Hp Hn rule [ ->|[? _]]%elem_of_replace; eauto. Qed.

Lemma current_verbs_replace r resource verbs new rules :
  plain rules → rule_for resource verbs new →
  current_verbs r (replace_rules resource new rules) =
  if decide (r = resource) then verbs else current_verbs r rules.
Proof.
  intros Hp (Hres & _ & _ & Hv). apply set_eq. intros v. rewrite elem_of_current_verbs.
  setoid_rewrite elem_of_replace. case_decide as Hr.
  - subst r verbs. rewrite elem_of_list_to_set. split.
    + intros (rule & [ ->|[_ Hn]] & Hin & Hr); [done|]. by destruct Hn.
    + intros Hin. exists new. rewrite Hres. set_solver.
  - rewrite elem_of_current_verbs. split.
    + intros (rule & [ ->|[Hrule _]] & Hin & Hr'); [|by eauto].
      rewrite Hres in Hr'. set_solver.
    + intros (rule & Hrule & Hin & Hr'). exists rule. split; [right; split; [done|]|done].
      destruct (Hp rule Hrule) as [r0 Hr0]. rewrite Hr0 in *. set_solver.
Qed.

(** ** The role of a template in a namespace *)

(** Rules of [old] and rules [buildRule] made. *)
Definition built (old rules : list PolicyRule) : Prop :=
  ∀ rule, rule ∈ rules → rule ∈ old ∨ ∃ r verbs, rule_for r verbs rule.

(** The rules give the verbs of [rtv] on its resources, and on the others the
    verbs the rules [old] gave. *)
Definition gives (rtv : gmap string (gset string)) (old rules : list PolicyRule) : Prop :=
  plain rules ∧ built old rules ∧
  ∀ r, current_verbs r rules =
    match rtv !! r with Some verbs => verbs | None => current_verbs r old end.

Lemma built_replace old r verbs new rules :
  built old rules → rule_for r verbs new → built old (replace_rules r new rules).
Proof. intros Hb Hn rule [ ->|[? _]]%elem_of_replace; [right; by exists r, verbs|auto]. Qed.

Lemma built_snoc old r verbs rule rules : built old rules → rule_for r verbs rule → built old (rules ++ [rule]).
Proof. intros Hb Hn rule' [?|Heq%list_elem_of_singleton]%elem_of_app; [auto|subst; right; by exists r, verbs]. Qed.

Section roles.
Context {W : Type} `{!GoRuntime W, !GoRuntimeLaws W, !Kube W}.
Context `{!Client W ClusterRole, !Client W Role, !Client W ClusterRoleBinding,
          !Client W RoleBinding, !Client W RoleTemplate}.
Context `{!ClientLaws W Role}.

Lemma wp_buildRule r verbs (Q : outcome PolicyRule → W → Prop) w :
  (∀ rule, rule_for r verbs rule → Q (Ok rule) w) → wp (buildRule r verbs) Q w.
Proof.
  intros HQ. apply wp_bind, wp_range_keys. intros l _ Hl. simpl. apply wp_ret, HQ.
  split_and!; try done. simpl. apply set_eq. intros v. by rewrite elem_of_list_to_set.
Qed.

(** The invariant of both loops over [resourceToVerbs]. *)
Definition ruled (kvs : list (string * gset string)) (old rules : list PolicyRule) : Prop :=
  (plain rules ∧ built old rules) ∧
  (∀ r v, (r, v) ∈ kvs → current_verbs r rules = v) ∧
  (∀ r, r ∉ kvs.*1 → current_verbs r rules = current_verbs r old).

Lemma ruled_gives rtv kvs old rules :
  kvs ≡ₚ map_to_list rtv → ruled kvs old rules → gives rtv old rules.
Proof.
  intros Hkvs ([Hp Hb] & Hin & Hout). split_and!; [done..|]. intros r.
  destruct (rtv !! r) as [v|] eqn:Hr.
  - apply Hin. by apply (range_elem _ _ _ _ Hkvs).
  - apply Hout. rewrite (range_dom _ _ _ Hkvs), Hr. by intros [? ?].
Qed.

Lemma ruled_snoc kvs r v old rules rules' :
  r ∉ kvs.*1 → ruled kvs old rules → plain rules' ∧ built old rules' →
  (∀ r', current_verbs r' rules' = if decide (r' = r) then v else current_verbs r' rules) →
  ruled (kvs ++ [(r, v)]) old rules'.
Proof.
  intros Hr (Hp & Hin & Hout) Hp' Heq. split; [done|]. split.
  - intros r' v' [Hin'|Heq'%list_elem_of_singleton]%elem_of_app; rewrite Heq.
    + rewrite decide_False; [by apply Hin|]. intros ->. apply Hr.
      apply list_elem_of_fmap. by exists (r, v').
    + simplify_eq. by rewrite decide_True.
  - intros r' Hr'. rewrite fmap_app, not_elem_of_app in Hr'. destruct Hr' as [? Hne].
    rewrite Heq, decide_False by set_solver. by apply Hout.
Qed.

Lemma NoDup_snoc {A} (don : list (string * A)) r v rest :
  NoDup (don ++ (r, v) :: rest).*1 → r ∉ don.*1.
Proof.
  rewrite fmap_app, NoDup_app. intros (_ & Hdis & _) Hin. apply (Hdis r Hin). left.
Qed.

Lemma update_loop (old : list PolicyRule) kvs w :
  plain old → NoDup kvs.*1 →
  wp (for_fold (λ '((newRules, update) : list PolicyRule * bool) '((resource, newVerbs) : string * gset string),
      if decide (current_verbs resource old = newVerbs) then ret (newRules, update)
      else let* rule := buildRule resource newVerbs in
           ret (replace_rules resource rule newRules, true)) (old, false) kvs)
    (if_ok (λ res w', w' = w ∧ ruled kvs old res.1 ∧ (res.2 = false → res.1 = old))
           (λ _ _, False)) w.
Proof.
  intros Hp Hnd.
  apply (wp_for_fold (λ don res w', w' = w ∧ ruled don old res.1 ∧ (res.2 = false → res.1 = old))).
  { split_and!; [done|split_and!; [done|by left|set_solver..]|done]. }
  intros don [r v] rest [rules upd] w' -> (-> & Hr & Hu). simpl in *.
  pose proof (NoDup_snoc _ _ _ _ Hnd) as Hnew. case_decide as Hcur.
  - apply wp_ret. simpl. split_and!; [done| |done].
    apply (ruled_snoc _ _ _ _ rules); [done|done|apply Hr|]. intros r'. case_decide; [|done].
    subst. destruct Hr as (_ & _ & Hout). by apply Hout.
  - apply wp_bind, wp_buildRule. intros rule Hrule. simpl. apply wp_ret. simpl.
    split_and!; [done| |done].
    apply (ruled_snoc _ _ _ _ rules); [done|done| |].
    + split; [apply plain_replace; [apply Hr|apply Hrule]|]. by apply built_replace with v; [apply Hr|].
    + intros r'. apply current_verbs_replace; [apply (proj1 Hr)|done].
Qed.

Lemma create_loop kvs w :
  NoDup kvs.*1 →
  wp (for_fold (λ rules '((resource, newVerbs) : string * gset string),
      let* rule := buildRule resource newVerbs in ret (rules ++ [rule])) [] kvs)
    (if_ok (λ rules w', w' = w ∧ ruled kvs [] rules) (λ _ _, False)) w.
Proof.
  intros Hnd.
  apply (wp_for_fold (λ don rules w', w' = w ∧ ruled don [] rules)).
  { split_and!; [done|split_and!; [by intros rule ?%elem_of_nil..|set_solver|set_solver]]. }
  intros don [r v] rest rules w' -> (-> & Hr). simpl in *.
  pose proof (NoDup_snoc _ _ _ _ Hnd) as Hnew.
  apply wp_bind, wp_buildRule. intros rule Hrule. pose proof Hrule as (Hres & _ & _ & Hv). simpl. apply wp_ret. simpl.
  split; [done|]. apply (ruled_snoc _ _ _ _ rules); [done|done| |].
  - split; [eapply plain_snoc; [apply Hr|done]|]. by apply built_snoc with r v; [apply Hr|].
  - intros r'. case_decide as Hr'.
    + subst r'. destruct Hr as (_ & _ & Hout). specialize (Hout r Hnew).
      apply set_eq. intros x. rewrite elem_of_current_verbs.
      rewrite <-Hv, elem_of_list_to_set. split.
      2:{ intros Hx. exists rule. rewrite Hres, elem_of_app, !list_elem_of_singleton. auto. }
      intros (rule' & [Hin|Heq%list_elem_of_singleton]%elem_of_app & Hx & Hin'); [|by subst].
      assert (x ∈ current_verbs r rules) as Hx' by (apply elem_of_current_verbs; eauto).
      rewrite Hout in Hx'. by apply elem_of_empty in Hx'.
    + apply current_verbs_other. rewrite Hres. set_solver.
Qed.

Lemma reconcile_role ns rtv rt w :
  let key := (ns, Name (rt_meta rt)) in
  Name (rt_meta rt) ≠ "" →
  s_Roles (cached w) !! key = s_Roles (view w) !! key →
  (∀ role, s_Roles (view w) !! key = Some role → plain (r_Rules role)) →
  wp (reconcileManagementPlaneRole ns rtv rt)
    (if_ok (λ _ w', cache_step w w' ∧ changed_at (O:=Role) [key] (view w) (view w') ∧
              ∃ role, s_Roles (view w') !! key = Some role ∧
                gives rtv (from_option r_Rules [] (s_Roles (view w) !! key)) (r_Rules role))
       (λ _ w', view w' = view w ∧ cache_step w w' ∧ ¬ ClientHealthy W Role)) w.
Proof.
  intros key Hname Hsync Hplain. unfold reconcileManagementPlaneRole.
  apply wp_bind, wp_reads. simpl.
  pose proof (lister_get_law (O:=Role) ns (Name (rt_meta rt)) w) as Hget. simpl in Hget.
  fold key in Hget. destruct (s_Roles (cached w) !! key) as [role|] eqn:Hc.
  - rewrite Hget. simpl. rewrite <-Hsync. simpl.
    assert (key = obj_key role) as Hkey by by apply (cached_keyed (O:=Role) w).
    unfold key, obj_key in Hkey. simpl in Hkey. injection Hkey as Hns Hn.
    assert (∀ rules, write_key ns {| r_meta := r_meta role; r_Rules := rules |} = key) as Hwk.
    { intros rules. unfold write_key, client_ns. simpl. rewrite <-Hns, <-Hn. by case_decide; subst. }
    apply wp_bind, wp_range. intros kvs Hkvs. simpl.
    eapply wp_bind_if_ok; [apply update_loop| |done].
    { apply Hplain. by rewrite <-Hsync. }
    { by eapply range_NoDup. }
    intros [rules upd] w' (-> & Hr & Hu). simpl in *. destruct upd.
    + apply wp_bind, wp_update; simpl.
      * intros o' w' Hst Hk _ Hv Hcs. apply wp_ret. simpl. rewrite Hwk in Hk.
        split_and!; [done|rewrite Hv; apply changed_at_put; rewrite Hk; by left|].
        exists o'. rewrite Hv, <-Hk. split; [exact (tbl_put_eq o' (view w))|]. destruct Hst as (_ & _ & _ & _ & _ & _ & Hsp). simpl in Hsp.
        rewrite Hsp. simpl. by eapply ruled_gives.
      * intros e w' Hv Hcs Hno. split_and!; [done..|]. intros Hh. apply Hno; [done|by rewrite <-Hn|].
        exists role. by rewrite Hwk, <-Hsync.
    + apply wp_ret. simpl. split_and!; [apply cache_step_same|apply changed_at_refl|].
      exists role. split; [done|]. rewrite <-(Hu eq_refl) at 2. by eapply ruled_gives.
  - destruct Hget as (e & Hget & _). rewrite Hget. simpl. rewrite <-Hsync. simpl.
    apply wp_bind, wp_range. intros kvs Hkvs. simpl.
    eapply wp_bind_if_ok; [apply create_loop; by eapply range_NoDup| |done].
    intros rules w' [-> Hr].
    apply wp_bind, wp_wrap_err, wp_create; simpl.
    + intros o' w' Hst _ Hv Hcs. apply wp_ret. simpl.
      assert (obj_key o' = key) as Hk by by apply (stored_as_key _ _ _ Hst).
      split_and!; [done|rewrite Hv; apply changed_at_put; rewrite Hk; by left|].
      exists o'. rewrite Hv, <-Hk. split; [exact (tbl_put_eq o' (view w))|]. destruct Hst as (_ & _ & _ & _ & _ & _ & Hsp). simpl in Hsp.
      rewrite Hsp. simpl. by eapply ruled_gives.
    + intros e' w' Hv Hcs Hno. split_and!; [done..|]. intros Hh. by apply Hno.
Qed.

End roles.

(** ** What a template needs in a namespace *)

(** The rules of a template: its own, or those of the cluster role it stands for. *)
Definition effective_rules (crs : gmap nsname ClusterRole) (t : RoleTemplate) : list PolicyRule :=
  if rt_External t
  then from_option cr_Rules [] (crs !! ("", Name (rt_meta t)))
  else rt_Rules t.

(** The managed resources on which the rules give some verb, with the verbs. *)
Definition needs_step (rules : list PolicyRule) (m : gmap string (gset string)) (r : string) :
    gmap string (gset string) :=
  if decide (verbs_for r rules = ∅) then m else <[r := verbs_for r rules]> m.

Definition needs (resources : list string) (rules : list PolicyRule) :
    gmap string (gset string) :=
  foldl (needs_step rules) ∅ resources.

Lemma needs_acc resources rules m r :
  foldl (needs_step rules) m resources !! r =
  if decide (r ∈ resources ∧ verbs_for r rules ≠ ∅) then Some (verbs_for r rules) else m !! r.
Proof.
  revert m. induction resources as [|x resources IH]; intros m; cbn [foldl].
  { rewrite decide_False; [done|]. by intros [?%elem_of_nil _]. }
  rewrite IH. destruct (decide (r ∈ resources ∧ verbs_for r rules ≠ ∅)) as [[Hin Hne]|Hno].
  { rewrite decide_True; [done|]. split; [by right|done]. }
  unfold needs_step. destruct (decide (verbs_for x rules = ∅)) as [He|He].
  - rewrite decide_False; [done|]. intros [[ ->|?]%elem_of_cons ?]; [done|]. by apply Hno.
  - destruct (decide (r = x)) as [ ->|Hne].
    + rewrite lookup_insert_eq, decide_True; [done|]. split; [by left|done].
    + rewrite lookup_insert_ne by done. rewrite decide_False; [done|].
      intros [[ ->|?]%elem_of_cons ?]; [done|]. by apply Hno.
Qed.

Lemma lookup_needs resources rules r v :
  needs resources rules !! r = Some v ↔
  r ∈ resources ∧ verbs_for r rules = v ∧ v ≠ ∅.
Proof.
  unfold needs. rewrite needs_acc. case_decide; [|rewrite lookup_empty]; naive_solver.
Qed.

(** The binding the code makes for the role of [t]. *)
Definition rb_for (mk : string → ObjectMeta) (bindingName : string) (subject : Subject)
    (t : RoleTemplate) : string * RoleBinding :=
  let name := bindingName +:+ "-" +:+ Name (rt_meta t) in
  (name, {| rb_meta := mk name; rb_Subjects := [subject];
            rb_RoleRef := {| rr_APIGroup := ""; rr_Kind := "Role";
                             rr_Name := Name (rt_meta t) |} |}).

(** [desired] holds the bindings for the templates of [P] that need one. *)
Definition desired_for (resources : list string) (crs : gmap nsname ClusterRole)
    (mk : string → ObjectMeta) (bindingName : string) (subject : Subject)
    (P : RoleTemplate → Prop) (desired : gmap string RoleBinding) : Prop :=
  ∀ n rb, desired !! n = Some rb ↔
    ∃ t, P t ∧ needs resources (effective_rules crs t) ≠ ∅ ∧
         rb_for mk bindingName subject t = (n, rb).

Lemma rb_for_inj mk b s t t' n rb rb' :
  rb_for mk b s t = (n, rb) → rb_for mk b s t' = (n, rb') →
  Name (rt_meta t) = Name (rt_meta t').
Proof.
  unfold rb_for. intros [= Hn _] [= Hn' _]. rewrite <-Hn in Hn'.
  do 2 apply append_inj_l in Hn'. done.
Qed.

Section grant.
Context {W : Type} `{!GoRuntime W, !GoRuntimeLaws W, !Kube W}.
Context `{!Client W ClusterRole, !Client W Role, !Client W ClusterRoleBinding,
          !Client W RoleBinding, !Client W RoleTemplate}.
Context `{!ClientLaws W ClusterRole, !ClientLaws W Role, !ClientLaws W RoleBinding,
          !ClientLaws W RoleTemplate}.

Lemma check_rules t r w :
  checkForManagementPlaneRules t r w =
  (Ok (verbs_for r (effective_rules (s_ClusterRoles (cached w)) t)), w).
Proof.
  unfold checkForManagementPlaneRules, effective_rules, bind. destruct (rt_External t); [|done].
  unfold attempt, reads.
  pose proof (lister_get_law (O:=ClusterRole) "" (Name (rt_meta t)) w) as Hget. simpl in Hget.
  destruct (s_ClusterRoles (cached w) !! _) as [cr|].
  - by rewrite Hget.
  - destruct Hget as (e & -> & ->). done.
Qed.

(** The loop over the resources, for one template. *)
Lemma resource_loop mk bindingName subject t resources d m w :
  let rules := effective_rules (s_ClusterRoles (cached w)) t in
  let '(name, rb) := rb_for mk bindingName subject t in
  for_fold
    (λ '((desiredRBs, resourceToVerbs) : gmap string RoleBinding * gmap string (gset string))
       resource,
      let* verbs := checkForManagementPlaneRules t resource in
      if decide (verbs = ∅) then ret (desiredRBs, resourceToVerbs) else
      let desiredRBs := match desiredRBs !! name with
        | Some _ => desiredRBs
        | None => <[name := rb]> desiredRBs
        end in
      ret (desiredRBs, <[resource := verbs]> resourceToVerbs)) (d, m) resources w =
  (Ok (if existsb (λ r, bool_decide (verbs_for r rules ≠ ∅)) resources
       then match d !! name with Some _ => d | None => <[name := rb]> d end else d,
       foldl (needs_step rules) m resources), w).
Proof.
  intros rules. destruct (rb_for _ _ _ _) as [name rb]. revert d m.
  induction resources as [|x resources IH]; intros d m; [done|].
  simpl. unfold bind at 1. unfold bind at 1. rewrite check_rules. fold rules. unfold needs_step at 2.
  destruct (decide (verbs_for x rules = ∅)) as [He|He].
  - unfold ret at 1. rewrite IH. by rewrite bool_decide_eq_false_2 by naive_solver.
  - unfold ret at 1. rewrite IH. rewrite bool_decide_eq_true_2 by done. simpl.
    destruct (d !! name) eqn:Hd; [by rewrite Hd; destruct (existsb _ _)|].
    rewrite lookup_insert_eq. by destruct (existsb _ _).
Qed.

Lemma needs_existsb resources rules :
  existsb (λ r, bool_decide (verbs_for r rules ≠ ∅)) resources = true ↔
  needs resources rules ≠ ∅.
Proof.
  rewrite existsb_exists. split.
  - intros (r & Hin%list_elem_of_In & Hne%bool_decide_eq_true) He.
    assert (needs resources rules !! r = Some (verbs_for r rules)) as Hr by by apply lookup_needs.
    by rewrite He in Hr.
  - intros (r & v & (? & ? & ?)%lookup_needs)%map_choose. exists r.
    split; [by apply list_elem_of_In|]. apply bool_decide_eq_true. congruence.
Qed.

Lemma resources_ok mk bindingName subject t resources d w :
  let rules := effective_rules (s_ClusterRoles (cached w)) t in
  let '(name, rb) := rb_for mk bindingName subject t in
  for_fold
    (λ '((desiredRBs, resourceToVerbs) : gmap string RoleBinding * gmap string (gset string))
       resource,
      let* verbs := checkForManagementPlaneRules t resource in
      if decide (verbs = ∅) then ret (desiredRBs, resourceToVerbs) else
      let desiredRBs := match desiredRBs !! name with
        | Some _ => desiredRBs
        | None => <[name := rb]> desiredRBs
        end in
      ret (desiredRBs, <[resource := verbs]> resourceToVerbs)) (d, ∅) resources w =
  (Ok (if decide (needs resources rules = ∅) then d
       else match d !! name with Some _ => d | None => <[name := rb]> d end,
       needs resources rules), w).
Proof.
  intros rules. pose proof (resource_loop mk bindingName subject t resources d ∅ w) as Hloop.
  cbv zeta in Hloop. fold rules in Hloop. destruct (rb_for _ _ _ _) as [name rb].
  etrans; [exact Hloop|]. do 3 f_equal. case_decide as Hn.
  - destruct (existsb _ _) eqn:He; [|done]. by apply needs_existsb in He.
  - by apply needs_existsb in Hn as ->.
Qed.

(** The roles of the templates of [P] in [ns] have the verbs the templates give
    on the managed resources; nothing else has changed. *)
Definition roles_granted (ns : string) (resources : list string)
    (crs : gmap nsname ClusterRole) (P : RoleTemplate → Prop) (s s' : KState) : Prop :=
  only_tbl (O:=Role) s s' ∧
  (∀ t, P t → needs resources (effective_rules crs t) ≠ ∅ →
     ∃ role, s_Roles s' !! (ns, Name (rt_meta t)) = Some role ∧
       gives (needs resources (effective_rules crs t))
         (from_option r_Rules [] (s_Roles s !! (ns, Name (rt_meta t)))) (r_Rules role)) ∧
  (∀ k, (∀ t, P t → needs resources (effective_rules crs t) ≠ ∅ → k ≠ (ns, Name (rt_meta t))) →
     s_Roles s' !! k = s_Roles s !! k).

(** The caches of the kinds a grant reads show the cluster as it is. *)
Definition in_sync (w : W) : Prop :=
  s_ClusterRoles (cached w) = s_ClusterRoles (view w) ∧
  s_Roles (cached w) = s_Roles (view w) ∧
  s_RoleBindings (cached w) = s_RoleBindings (view w).

(** The state of the loop over the templates after those of [P]. *)
Definition granting (ns : string) (resources : list string) (w : W) (P : RoleTemplate → Prop)
    (w' : W) : Prop :=
  roles_granted ns resources (s_ClusterRoles (view w)) P (view w) (view w') ∧
  s_ClusterRoles (cached w') = s_ClusterRoles (view w) ∧
  s_RoleBindings (cached w') = s_RoleBindings (view w) ∧
  (∀ n, (∀ t, P t → Name (rt_meta t) ≠ n) →
     s_Roles (cached w') !! (ns, n) = s_Roles (view w) !! (ns, n)).

Lemma granting_start ns resources w : in_sync w → granting ns resources w (λ _, False) w.
Proof.
  intros (Hcr & Hr & Hrb). split_and!; [split_and!; [apply only_tbl_refl|done..]|done|done|].
  intros n _. by rewrite Hr.
Qed.

Lemma granting_skip ns resources w P t w' :
  needs resources (effective_rules (s_ClusterRoles (view w)) t) = ∅ →
  granting ns resources w P w' → granting ns resources w (λ t', P t' ∨ t' = t) w'.
Proof.
  intros Hn ((Hot & Hin & Hout) & ? & ? & Hr). split_and!; [split_and!; [done| |]|done|done|].
  - intros t' [Ht'| ->]; [by apply Hin|done].
  - intros k Hk. apply Hout. intros t' ??. apply Hk; by auto.
  - intros n Hk. apply Hr. intros t' ?. apply Hk. by left.
Qed.

Lemma only_role_tables s s' : only_tbl (O:=Role) s s' →
  s_ClusterRoles s' = s_ClusterRoles s ∧ s_RoleBindings s' = s_RoleBindings s ∧
  s_ClusterRoleBindings s' = s_ClusterRoleBindings s.
Proof. unfold only_tbl. by intros ->. Qed.

Lemma granting_step ns resources w P t w1 w2 role :
  let rules := effective_rules (s_ClusterRoles (view w)) t in
  (∀ t', P t' → Name (rt_meta t') ≠ Name (rt_meta t)) →
  needs resources rules ≠ ∅ →
  granting ns resources w P w1 → cache_step w1 w2 →
  changed_at (O:=Role) [(ns, Name (rt_meta t))] (view w1) (view w2) →
  s_Roles (view w2) !! (ns, Name (rt_meta t)) = Some role →
  gives (needs resources rules)
    (from_option r_Rules [] (s_Roles (view w1) !! (ns, Name (rt_meta t)))) (r_Rules role) →
  granting ns resources w (λ t', P t' ∨ t' = t) w2.
Proof.
  intros rules Hnew Hne ((Hot & Hin & Hout) & Hcr & Hrb & Hr) Hcs [Hot' Hfr] Hrole Hg.
  destruct (only_role_tables _ _ Hot) as (Hcr1 & Hrb1 & _).
  destruct (only_role_tables _ _ Hot') as (Hcr2 & Hrb2 & _). simpl in Hfr.
  assert (s_Roles (view w1) !! (ns, Name (rt_meta t)) =
          s_Roles (view w) !! (ns, Name (rt_meta t))) as Hold.
  { apply Hout. intros t' Ht' _ [= Heq]. by apply (Hnew t'). }
  assert (∀ t', P t' → (ns, Name (rt_meta t')) ∉ [(ns, Name (rt_meta t))]) as Hdiff.
  { intros t' Ht' Heq%list_elem_of_singleton. injection Heq as Heq. by apply (Hnew t'). }
  split_and!; [split_and!| | |].
  - exact (only_tbl_trans _ _ _ Hot Hot').
  - intros t' [Ht'|Heq] Hne'.
    + rewrite Hfr by by apply Hdiff. by apply Hin.
    + subst t'. exists role. by rewrite <-Hold.
  - intros k Hk. rewrite Hfr.
    + apply Hout. intros t' ??. apply Hk; by auto.
    + intros Heq%list_elem_of_singleton. apply (Hk t); by auto.
  - apply map_eq. intros k. rewrite <-Hcr1, <-Hcr2.
    pose proof (cache_step_sync (O:=ClusterRole) w1 w2 k Hcs) as Hs; simpl in Hs; apply Hs; congruence.
  - apply map_eq. intros k. rewrite <-Hrb1, <-Hrb2.
    pose proof (cache_step_sync (O:=RoleBinding) w1 w2 k Hcs) as Hs; simpl in Hs; apply Hs; congruence.
  - intros n Hn.
    assert ((ns, n) ∉ [(ns, Name (rt_meta t))]) as Hk.
    { intros Heq%list_elem_of_singleton. injection Heq as Heq. apply (Hn t); by auto. }
    assert (s_Roles (view w1) !! (ns, n) = s_Roles (view w) !! (ns, n)) as Hold'.
    { apply Hout. intros t' Ht' _ [= Heq]. apply (Hn t'); by auto. }
    rewrite <-Hold', <-Hfr by done.
    pose proof (cache_step_sync (O:=Role) w1 w2 (ns, n) Hcs) as Hs; simpl in Hs; apply Hs.
    + by apply Hfr.
    + rewrite Hold'. apply Hr. intros t' ?. apply Hn. by left.
Qed.

(** The template [rt] can be granted in [ns]: the templates it inherits exist and
    have no chain of length [fuel], the caches are up to date, and the roles the
    templates have in [ns] are made of rules for one resource each. *)
Definition grantable (fuel : nat) (rt : RoleTemplate) (ns : string) (w : W) : Prop :=
  templates w !! ("", Name (rt_meta rt)) = Some rt ∧
  closed_under (templates w) rt ∧
  (∀ t, ¬ nsteps (inherits (templates w)) fuel rt t) ∧
  in_sync w ∧
  ∀ t, rtc (inherits (templates w)) rt t →
    ∀ role, s_Roles (view w) !! (ns, Name (rt_meta t)) = Some role → plain (r_Rules role).

(** After an error: roles of other templates, and other tables, are unchanged. *)
Definition partly_granted (ns : string) (P : RoleTemplate → Prop) (s s' : KState) : Prop :=
  only_tbl (O:=Role) s s' ∧
  ∀ k, (∀ t, P t → k ≠ (ns, Name (rt_meta t))) → s_Roles s' !! k = s_Roles s !! k.

Lemma desired_for_skip resources crs mk b subject P t d :
  needs resources (effective_rules crs t) = ∅ →
  desired_for resources crs mk b subject P d →
  desired_for resources crs mk b subject (λ t', P t' ∨ t' = t) d.
Proof.
  intros Hn Hd n rb. rewrite (Hd n rb). split.
  - intros (t' & ? & ? & ?). exists t'. auto.
  - intros (t' & [?| ->] & ? & ?); [|done]. by exists t'.
Qed.

Lemma desired_for_step resources crs mk b subject P t d :
  (∀ t', P t' → Name (rt_meta t') ≠ Name (rt_meta t)) →
  needs resources (effective_rules crs t) ≠ ∅ →
  desired_for resources crs mk b subject P d →
  let '(name, rb) := rb_for mk b subject t in
  desired_for resources crs mk b subject (λ t', P t' ∨ t' = t)
    match d !! name with Some _ => d | None => <[name := rb]> d end.
Proof.
  intros Hnew Hne Hd. destruct (rb_for mk b subject t) as [name rb] eqn:Hrb.
  destruct (d !! name) as [rb'|] eqn:Hname.
  { apply Hd in Hname as (t' & Ht' & _ & Hrb'). destruct (Hnew t' Ht').
    by eapply rb_for_inj. }
  intros n rb'. destruct (decide (n = name)) as [ ->|Hn].
  - rewrite lookup_insert_eq. split.
    + intros [= <-]. exists t. auto.
    + intros (t' & [Ht'| ->] & _ & Hrb'); [|congruence]. destruct (Hnew t' Ht').
      by eapply rb_for_inj.
  - rewrite lookup_insert_ne by done. rewrite (Hd n rb'). split.
    + intros (t' & ? & ? & ?). exists t'. auto.
    + intros (t' & [?| ->] & ? & Hrb'); [|congruence]. by exists t'.
Qed.

Lemma granting_ext ns resources w P P' w' :
  (∀ t, P t ↔ P' t) → granting ns resources w P w' → granting ns resources w P' w'.
Proof.
  intros HP ((? & Hin & Hout) & ? & ? & Hr). split_and!; [split_and!; [done| |]|done|done|].
  - intros t Ht%HP. by apply Hin.
  - intros k Hk. apply Hout. intros t Ht%HP. by apply Hk.
  - intros n Hn. apply Hr. intros t Ht%HP. by apply Hn.
Qed.

Lemma desired_for_ext resources crs mk b subject P P' d :
  (∀ t, P t ↔ P' t) →
  desired_for resources crs mk b subject P d → desired_for resources crs mk b subject P' d.
Proof. intros HP Hd n rb. rewrite (Hd n rb). by setoid_rewrite HP. Qed.

Lemma granting_fresh ns resources w P w' n :
  granting ns resources w P w' → (∀ t, P t → Name (rt_meta t) ≠ n) →
  s_Roles (view w') !! (ns, n) = s_Roles (view w) !! (ns, n).
Proof.
  intros ((_ & _ & Hout) & _) Hn. apply Hout. intros t Ht _ [= Heq]. by apply (Hn t).
Qed.

Lemma grant_roles_ok fuel rt ns b resources subject mk w :
  grantable fuel rt ns w →
  let reached := rtc (inherits (templates w)) rt in
  wp (grant_roles fuel (Name (rt_meta rt)) ns b resources subject mk)
    (if_ok (λ d w', granting ns resources w reached w' ∧
              desired_for resources (s_ClusterRoles (view w)) mk b subject reached d)
       (λ _ w', partly_granted ns reached (view w) (view w') ∧ ¬ ClientHealthy W Role)) w.
Proof.
  intros (Hrt & Hcl & Hno & Hsync & Hroles) reached. unfold grant_roles.
  destruct (gather_closure fuel (Name (rt_meta rt)) rt w Hrt Hcl Hno) as (m & Hm & Hmem).
  apply wp_bind. eapply wp_unfold; [exact Hm|]. simpl.
  apply wp_bind, wp_range. intros kvs Hkvs. simpl.
  pose proof (range_NoDup _ _ Hkvs) as Hnd.
  assert (∀ n t, (n, t) ∈ kvs ↔ reached t ∧ Name (rt_meta t) = n) as Hin.
  { intros n t. by rewrite (range_elem _ _ _ _ Hkvs), Hmem. }
  set (I (don : list (string * RoleTemplate)) d w' := granting ns resources w (λ t, (Name (rt_meta t), t) ∈ don) w' ∧
    desired_for resources (s_ClusterRoles (view w)) mk b subject
      (λ t, (Name (rt_meta t), t) ∈ don) d).
  eapply wp_mono; [apply (wp_for_fold I (λ _ w', partly_granted ns reached (view w) (view w') ∧
    ¬ ClientHealthy W Role))|].
  - split.
    + eapply granting_ext; [|by apply granting_start]. set_solver.
    + intros n rb. rewrite lookup_empty. split; [done|]. set_solver.
  - intros don [n t] rest d w' Heq [Hg Hd]. cbn [snd].
    destruct (proj1 (Hin n t)) as [Ht <-]; [rewrite Heq; set_solver|].
    rewrite Heq in Hnd. apply NoDup_snoc in Hnd.
    assert (∀ t', (Name (rt_meta t'), t') ∈ don → Name (rt_meta t') ≠ Name (rt_meta t)) as Hnew.
    { intros t' Ht' Hn. apply Hnd. rewrite <-Hn. apply list_elem_of_fmap.
      by exists (Name (rt_meta t'), t'). }
    assert (∀ t', (Name (rt_meta t'), t') ∈ don ∨ t' = t ↔
                  (Name (rt_meta t'), t') ∈ don ++ [(Name (rt_meta t), t)]) as Hsnoc.
    { intros t'. rewrite elem_of_app, list_elem_of_singleton. naive_solver. }
    pose proof (resources_ok mk b subject t resources d w') as Hloop. cbv zeta in Hloop.
    assert (s_ClusterRoles (cached w') = s_ClusterRoles (view w)) as Hcr by apply Hg.
    rewrite Hcr in Hloop. apply wp_bind. eapply wp_unfold; [exact Hloop|]. cbn [bind_post snd fst].
    destruct (decide (needs _ _ = ∅)) as [Hne|Hne].
    + apply wp_ret. split.
      * eapply granting_ext; [exact Hsnoc|by apply granting_skip].
      * eapply desired_for_ext; [exact Hsnoc|by apply desired_for_skip].
    + eapply wp_bind_if_ok; [apply reconcile_role| |].
      * apply (cached_named (O:=RoleTemplate) w ("", Name (rt_meta t))).
        exists t. exact (reached_cached _ _ _ _ Hrt Ht).
      * rewrite (granting_fresh _ _ _ _ _ _ Hg Hnew). apply Hg. exact Hnew.
      * rewrite (granting_fresh _ _ _ _ _ _ Hg Hnew). by apply Hroles.
      * intros [] w2 (Hcs & Hch & role & Hrole & Hgv). apply wp_ret. split.
        -- eapply granting_ext; [exact Hsnoc|]. by eapply granting_step.
        -- eapply desired_for_ext; [exact Hsnoc|]. by apply desired_for_step.
      * intros e w2 (Hv & _ & Hh). split; [|done]. rewrite Hv. destruct Hg as ((Hot & _ & Hout) & _).
        split; [exact Hot|]. intros k Hk. apply Hout. intros t' Ht' _. apply Hk.
        apply (Hin (Name (rt_meta t'))). rewrite Heq, elem_of_app. by left.
  - intros [d|e| |] w' Hr; simpl in *; try done. destruct Hr as [Hg Hd].
    assert (∀ t, (Name (rt_meta t), t) ∈ kvs ↔ reached t) as Heq.
    { intros t. rewrite Hin. naive_solver. }
    split; [eapply granting_ext; [exact Heq|exact Hg]|eapply desired_for_ext; [exact Heq|exact Hd]].
Qed.

(** *** The whole grant *)

Lemma by_name_acc (l : list RoleBinding) (acc : gmap string RoleBinding) n rb :
  (∀ a a', a ∈ l → a' ∈ l → Name (rb_meta a) = Name (rb_meta a') → a = a') →
  foldl (λ m a, <[Name (rb_meta a) := a]> m) acc l !! n = Some rb ↔
  (rb ∈ l ∧ Name (rb_meta rb) = n) ∨
  (acc !! n = Some rb ∧ ∀ a, a ∈ l → Name (rb_meta a) ≠ n).
Proof.
  revert acc. induction l as [|x l IH]; intros acc Hu; simpl; [set_solver|].
  rewrite IH by (intros ????; apply Hu; by right).
  destruct (decide (Name (rb_meta x) = n)) as [<-|Hne].
  - rewrite lookup_insert_eq. split.
    + intros [[? ?]|[[= ->] _]]; left; split; [by right|done|by left|done].
    + intros [[[ ->|Hin]%elem_of_cons Hn]|[_ Hno]]; [| |by destruct (Hno x); [left|]].
      * destruct (decide (Exists (λ a, Name (rb_meta a) = Name (rb_meta x)) l)) as [He|He].
        -- apply Exists_exists in He as (a & Ha & Hna). left. split; [|done].
           rewrite (Hu x a); [done|left|by right|done].
        -- right. split; [done|]. intros a Ha Hna. apply He, Exists_exists. by exists a.
      * left. by split.
  - rewrite lookup_insert_ne by done. split.
    + intros [[? ?]|[? Hno]]; [left; split; [by right|done]|].
      right. split; [done|]. intros a [ ->|?]%elem_of_cons; auto.
    + intros [[[ ->|Hin]%elem_of_cons Hn]|[? Hno]]; [done|by left|].
      right. split; [done|]. intros a ?. apply Hno. by right.
Qed.

(** Bindings found in a cache, of one namespace, filed by name. *)
Lemma by_name_found (ns : string) (l : list RoleBinding) (t : gmap nsname RoleBinding) (mine : RoleBinding → Prop) :
  well_keyed t →
  (∀ rb, rb ∈ l ↔ t !! obj_key rb = Some rb ∧ mine rb) →
  (∀ rb, rb ∈ l → Namespace (rb_meta rb) = ns) →
  ∀ n rb, by_name l !! n = Some rb ↔ t !! (ns, n) = Some rb ∧ mine rb.
Proof.
  intros Hk Hl Hns n rb. unfold by_name. rewrite by_name_acc.
  - split.
    + intros [[Hin <-]|[Hno _]]; [|by rewrite lookup_empty in Hno].
      rewrite <-(Hns _ Hin). by apply Hl.
    + intros [Ht Hm]. left. pose proof (Hk _ _ Ht) as Hkey. simpl in Hkey. split.
      * apply Hl. by rewrite <-Hkey.
      * unfold obj_key in Hkey. by simplify_eq.
  - intros a a' Ha Ha' Hn. pose proof (Hns _ Ha) as Hna. pose proof (Hns _ Ha') as Hna'.
    apply Hl in Ha as [Ha _], Ha' as [Ha' _]. unfold obj_key in *. simpl in *. congruence.
Qed.

(** The contract of a grant.  [mine] tells the bindings that belong to the role
    template binding; [reached] are the templates its template brings in.
    - Only roles and role bindings change.
    - In [ns], the role of every reached template that gives verbs on a managed
      resource has exactly those verbs on it, and on every other resource the verbs it had;
      roles of other names are unchanged.
    - Every such template has a binding, an old one of ours, as it was, or a new one for
      [subject]; conversely each binding of ours in [ns] is for such a template.
    - Bindings that are neither ours nor wanted are unchanged. *)
Definition granted (ns : string) (resources : list string) (crs : gmap nsname ClusterRole)
    (reached : RoleTemplate → Prop) (mk : string → ObjectMeta) (b : string)
    (subject : Subject) (mine : RoleBinding → Prop) (s s' : KState) : Prop :=
  let wanted t := reached t ∧ needs resources (effective_rules crs t) ≠ ∅ in
  s' = set_s_RoleBindings (s_RoleBindings s') (set_s_Roles (s_Roles s') s) ∧
  (∀ t, wanted t → ∃ role, s_Roles s' !! (ns, Name (rt_meta t)) = Some role ∧
     gives (needs resources (effective_rules crs t))
       (from_option r_Rules [] (s_Roles s !! (ns, Name (rt_meta t)))) (r_Rules role)) ∧
  (∀ k, (∀ t, wanted t → k ≠ (ns, Name (rt_meta t))) → s_Roles s' !! k = s_Roles s !! k) ∧
  (∀ t, wanted t → let '(n, rb) := rb_for mk b subject t in
     ∃ rb', s_RoleBindings s' !! (ns, n) = Some rb' ∧
       (mine rb' ∧ s_RoleBindings s !! (ns, n) = Some rb' ∨ stored_as ns rb rb')) ∧
  (∀ n rb, s_RoleBindings s' !! (ns, n) = Some rb → mine rb →
     ∃ t, wanted t ∧ (rb_for mk b subject t).1 = n) ∧
  (∀ ns' n, (ns' = ns → (∀ t, wanted t → (rb_for mk b subject t).1 ≠ n) ∧
                        ∀ rb, s_RoleBindings s !! (ns, n) = Some rb → ¬ mine rb) →
     s_RoleBindings s' !! (ns', n) = s_RoleBindings s !! (ns', n)).

Lemma granted_intro ns resources crs reached mk b subject mine s s1 s' cur des :
  roles_granted ns resources crs reached s s1 →
  (∀ n rb, cur !! n = Some rb ↔ s_RoleBindings s !! (ns, n) = Some rb ∧ mine rb) →
  desired_for resources crs mk b subject reached des →
  reconciled ns cur des s1 s' →
  granted ns resources crs reached mk b subject mine s s'.
Proof.
  intros (Hot & Hroles & Hother) Hcur Hdes (Hot' & Hrb & Hns).
  destruct (only_role_tables _ _ Hot) as (_ & Hrb1 & _).
  assert (s_Roles s' = s_Roles s1) as Hr' by (unfold only_tbl in Hot'; by rewrite Hot').
  unfold granted. rewrite Hr'. rewrite Hrb1 in *. split_and!.
  - unfold only_tbl in *. rewrite Hot' at 1. rewrite Hot. done.
  - intros t [Ht Hne]. by apply Hroles.
  - intros k Hk. apply Hother. intros t ??. by apply Hk.
  - intros t [Ht Hne]. destruct (rb_for mk b subject t) as [n rb] eqn:Hf.
    assert (des !! n = Some rb) as Hd by (apply Hdes; eauto).
    specialize (Hrb n). rewrite Hd in Hrb. destruct (cur !! n) as [rb'|] eqn:Hc.
    + apply Hcur in Hc as [Hc Hm]. exists rb'. rewrite Hrb. auto.
    + destruct Hrb as (rb' & ? & ?). eauto.
  - intros n rb Hn Hm. specialize (Hrb n). destruct (des !! n) as [rb0|] eqn:Hd.
    + apply Hdes in Hd as (t & ? & ? & Hf). exists t. by rewrite Hf.
    + destruct (cur !! n) eqn:Hc; [congruence|]. rewrite Hn in Hrb.
      by rewrite (proj2 (Hcur n rb)) in Hc.
  - intros ns' n Hk. destruct (decide (ns' = ns)) as [->|Hne]; [|by apply Hns].
    destruct (Hk eq_refl) as [Hd Hm]. specialize (Hrb n).
    destruct (cur !! n) eqn:Hc; [apply Hcur in Hc as [Hc ?]; by destruct (Hm _ Hc)|].
    destruct (des !! n) as [rb0|] eqn:Hdn; [|done].
    apply Hdes in Hdn as (t & ? & ? & Hf). destruct (Hd t); [done|]. by rewrite Hf.
Qed.

(** The verbs the role [n] of [ns] has on a resource. *)
Definition role_verbs (s : KState) (ns n r : string) : gset string :=
  current_verbs r (from_option r_Rules [] (s_Roles s !! (ns, n))).

(** Nothing is left of templates as they were: roles have no verbs on managed resources their
    templates do not name, and the bindings of ours bind the subject to the role. *)
Definition no_leftovers (ns : string) (resources : list string) (crs : gmap nsname ClusterRole)
    (reached : RoleTemplate → Prop) (mk : string → ObjectMeta) (b : string)
    (subject : Subject) (mine : RoleBinding → Prop) (s : KState) : Prop :=
  (∀ t r, reached t → r ∈ resources → verbs_for r (effective_rules crs t) = ∅ →
     role_verbs s ns (Name (rt_meta t)) r = ∅) ∧
  (∀ t rb, reached t → s_RoleBindings s !! (ns, (rb_for mk b subject t).1) = Some rb → mine rb →
     same_spec (rb_for mk b subject t).2 rb).

(** Roles and bindings are exactly what the templates call for. *)
Definition exactly_granted (ns : string) (resources : list string) (crs : gmap nsname ClusterRole)
    (reached : RoleTemplate → Prop) (mk : string → ObjectMeta) (b : string)
    (subject : Subject) (mine : RoleBinding → Prop) (s : KState) : Prop :=
  let wanted t := reached t ∧ needs resources (effective_rules crs t) ≠ ∅ in
  (∀ t r, reached t → r ∈ resources →
     role_verbs s ns (Name (rt_meta t)) r = verbs_for r (effective_rules crs t)) ∧
  (∀ t, wanted t → ∃ rb, s_RoleBindings s !! (ns, (rb_for mk b subject t).1) = Some rb ∧
     same_spec (rb_for mk b subject t).2 rb) ∧
  (∀ n rb, s_RoleBindings s !! (ns, n) = Some rb → mine rb →
     ∃ t, wanted t ∧ (rb_for mk b subject t).1 = n).

Lemma granted_verbs ns resources crs reached mk b subject mine s s' t r :
  granted ns resources crs reached mk b subject mine s s' →
  reached t → r ∈ resources → verbs_for r (effective_rules crs t) ≠ ∅ →
  ∃ role, s_Roles s' !! (ns, Name (rt_meta t)) = Some role ∧
    current_verbs r (r_Rules role) = verbs_for r (effective_rules crs t) ∧
    built (from_option r_Rules [] (s_Roles s !! (ns, Name (rt_meta t)))) (r_Rules role).
Proof.
  intros (_ & Hroles & _) Ht Hr Hne.
  pose proof (proj2 (lookup_needs _ _ _ _) (conj Hr (conj eq_refl Hne))) as Hl.
  destruct (Hroles t) as (role & Hrole & _ & Hb & Hg).
  { split; [done|]. intros He. by rewrite He in Hl. }
  exists role. by rewrite Hg, Hl.
Qed.

Lemma granted_exactly ns resources crs reached mk b subject mine s s' :
  (∀ t t', reached t → reached t' → Name (rt_meta t) = Name (rt_meta t') → t = t') →
  granted ns resources crs reached mk b subject mine s s' →
  no_leftovers ns resources crs reached mk b subject mine s →
  exactly_granted ns resources crs reached mk b subject mine s'.
Proof.
  intros Hinj Hg [Hold Hours]. split_and!.
  - intros t r Ht Hr. unfold role_verbs. destruct (decide (verbs_for r (effective_rules crs t) = ∅)) as [He|Hne].
    + rewrite He, <-(Hold t r Ht Hr He). unfold role_verbs. destruct Hg as (_ & Hroles & Hother & _).
      destruct (decide (needs resources (effective_rules crs t) = ∅)) as [Hn|Hn].
      * rewrite Hother; [done|]. intros t' [Ht' Hn'] [= Heq]. by rewrite (Hinj t t' Ht Ht' Heq) in Hn.
      * destruct (Hroles t) as (role & -> & _ & _ & Hv); [done|]. simpl. rewrite Hv.
        destruct (needs _ _ !! r) as [v|] eqn:Hl; [|done]. apply lookup_needs in Hl. naive_solver.
    + destruct (granted_verbs _ _ _ _ _ _ _ _ _ _ _ _ Hg Ht Hr Hne) as (role & -> & ? & _). done.
  - intros t Ht. destruct Hg as (_ & _ & _ & Hrbs & _). specialize (Hrbs t Ht).
    destruct (rb_for mk b subject t) as [n rb] eqn:Hf. destruct Hrbs as (rb' & Hrb' & [[Hm Ho]|Hst]).
    + exists rb'. split; [done|]. specialize (Hours t rb'). rewrite Hf in Hours. apply Hours; [apply Ht|done..].
    + exists rb'. split; [done|apply Hst].
  - apply Hg.
Qed.

(** The part the three grants share, after the roles. *)
Lemma grant_ok fuel rt ns b resources subject mk mine (find : W → outcome (list RoleBinding)) w :
  grantable fuel rt ns w →
  (∀ n, Name (mk n) = n ∧ Namespace (mk n) = "") →
  (∀ w', ∃ l, find w' = Ok l ∧
     ∀ rb, rb ∈ l ↔ s_RoleBindings (cached w') !! obj_key rb = Some rb ∧ mine rb) →
  (∀ k rb, s_RoleBindings (view w) !! k = Some rb → mine rb → k.1 = ns) →
  let reached := rtc (inherits (templates w)) rt in
  let crs := s_ClusterRoles (view w) in
  wp (let* desiredRBs := grant_roles fuel (Name (rt_meta rt)) ns b resources subject mk in
      let* current := reads find in
      reconcileDesiredMGMTPlaneRoleBindings ns (by_name current) desiredRBs)
    (if_ok (λ _ w', granted ns resources crs reached mk b subject mine (view w) (view w'))
       (λ _ w', ClientHealthy W Role → ClientHealthy W RoleBinding →
          ¬ ∀ t rb, reached t → needs resources (effective_rules crs t) ≠ ∅ →
              s_RoleBindings (view w) !! (ns, (rb_for mk b subject t).1) = Some rb → mine rb)) w.
Proof.
  intros Hg Hmk Hfind Hhere reached crs.
  eapply wp_bind_if_ok; [by apply grant_roles_ok| |by intros e w' [_ ?] ?].
  intros des w1 [(Hroles & _ & Hcrb & _) Hdes].
  apply wp_bind, wp_reads. destruct (Hfind w1) as (l & -> & Hl). simpl.
  destruct (only_role_tables _ _ (proj1 Hroles)) as (_ & Hrb1 & _).
  assert (∀ n rb, by_name l !! n = Some rb ↔ s_RoleBindings (view w) !! (ns, n) = Some rb ∧ mine rb)
    as Hcur.
  { rewrite Hcrb in Hl. apply (by_name_found ns l _ mine).
    - exact (view_keyed (O:=RoleBinding) w).
    - exact Hl.
    - intros rb [Hin Hm]%Hl. by apply (Hhere _ _ Hin). }
  eapply wp_mono; [apply reconcile_desired|].
  - intros n rb [Hn _]%Hcur. pose proof (view_keyed (O:=RoleBinding) w _ _ Hn) as Hkey.
    unfold obj_key in Hkey. by simplify_eq/=.
  - intros n rb (t & _ & _ & [= Hn <-])%Hdes. unfold write_key, client_ns. simpl.
    destruct (Hmk n) as [HN HNs]. rewrite Hn, HN, HNs. split; [by rewrite decide_True|].
    rewrite <-Hn. intros He. apply (f_equal String.length) in He.
    rewrite !append_length in He. simpl in He. lia.
  - intros [[]|e| |] w2 Hr; simpl in *; try done.
    + by eapply granted_intro.
    + intros _ Hh Hall. destruct Hr as [_ Hr]. apply (Hr Hh). intros n.
      rewrite Hrb1. destruct (by_name l !! n) as [rb|] eqn:Hc, (des !! n) as [rb'|] eqn:Hd; try done.
      * apply Hcur in Hc as [? _]. eauto.
      * destruct (s_RoleBindings (view w) !! (ns, n)) as [rb|] eqn:Hv; [|done].
        apply Hdes in Hd as (t & Ht & Hne & Hf). rewrite <-Hc. symmetry. apply Hcur.
        split; [done|]. apply (Hall t rb Ht Hne). by injection Hf as -> _.
Qed.

(** *** Properties *)

(** The bindings that belong to a role template binding: by owner reference in
    its own namespace, by label in the others. *)
Definition owned_by (uid : string) (rb : RoleBinding) : Prop := uid ∈ getRBOwnerKey rb.

Definition labelled (ns uid owner : string) (rb : RoleBinding) : Prop :=
  Namespace (rb_meta rb) = ns ∧ Labels (rb_meta rb) !! uid = Some owner.

Definition owner_meta (ty : TypeMeta) (bm : ObjectMeta) (name : string) : ObjectMeta :=
  named_meta name ∅ ∅
    [{| or_APIVersion := APIVersion ty; or_Kind := Kind ty; or_Name := Name bm; or_UID := UID bm |}].

Definition label_meta (uid owner name : string) : ObjectMeta :=
  named_meta name {[ uid := owner ]} ∅ [].

(** A template that needs a binding does not find its name taken by a binding
    of somebody else. *)
Definition names_free (ns : string) (resources : list string) (rt : RoleTemplate)
    (b : string) (mine : RoleBinding → Prop) (w : W) : Prop :=
  ∀ t rb, rtc (inherits (templates w)) rt t →
    needs resources (effective_rules (s_ClusterRoles (view w)) t) ≠ ∅ →
    s_RoleBindings (view w) !! (ns, b +:+ "-" +:+ Name (rt_meta t)) = Some rb → mine rb.

Lemma wp_grant_own_namespace fuel rt resources subject bindingType bindingMeta w :
  let ns := Namespace bindingMeta in
  let mine := owned_by (UID bindingMeta) in
  grantable fuel rt ns w →
  (∀ k rb, s_RoleBindings (view w) !! k = Some rb → mine rb → k.1 = ns) →
  wp (grantManagementPlanePrivileges fuel (Name (rt_meta rt)) resources subject bindingType bindingMeta)
    (if_ok (λ _ w', granted ns resources (s_ClusterRoles (view w))
              (rtc (inherits (templates w)) rt) (owner_meta bindingType bindingMeta)
              (Name bindingMeta) subject mine (view w) (view w'))
       (λ _ _, ClientHealthy W Role → ClientHealthy W RoleBinding →
          ¬ names_free ns resources rt (Name bindingMeta) mine w)) w.
Proof.
  intros ns mine Hg Hhere. unfold grantManagementPlanePrivileges.
  apply (grant_ok fuel rt ns _ resources subject (owner_meta bindingType bindingMeta) mine); [done| | |done].
  - done.
  - intros w'. destruct (by_index_law (O:=RoleBinding) rbByOwner (UID bindingMeta) w') as (l & Hl & _).
    exists l. split; [done|]. intros rb. exact (elem_of_index (O:=RoleBinding) _ _ _ _ rb Hl).
Qed.


Lemma labelled_found ns uid owner w :
  ∃ l, lister_List (O:=RoleBinding) ns {[ uid := owner ]} w = Ok l ∧
    (ns ≠ "" → ∀ rb, rb ∈ l ↔
      s_RoleBindings (cached w) !! obj_key rb = Some rb ∧ labelled ns uid owner rb).
Proof.
  destruct (lister_list_law (O:=RoleBinding) ns {[ uid := owner ]} w) as (l & Hl & _).
  exists l. split; [done|]. intros Hns rb.
  rewrite (elem_of_lister (O:=RoleBinding) _ _ _ _ _ Hl). unfold labelled, selects. simpl.
  rewrite map_singleton_subseteq_l. naive_solver.
Qed.

Lemma grant_labelled fuel rt ns b resources subject uid owner w :
  ns ≠ "" → grantable fuel rt ns w →
  let mine := labelled ns uid owner in
  wp (let* desiredRBs := grant_roles fuel (Name (rt_meta rt)) ns b resources subject (label_meta uid owner) in
      let* current := reads (lister_List ns {[ uid := owner ]}) in
      reconcileDesiredMGMTPlaneRoleBindings ns (by_name current) desiredRBs)
    (if_ok (λ _ w', granted ns resources (s_ClusterRoles (view w))
              (rtc (inherits (templates w)) rt) (label_meta uid owner) b subject mine (view w) (view w'))
       (λ _ _, ClientHealthy W Role → ClientHealthy W RoleBinding →
          ¬ names_free ns resources rt b mine w)) w.
Proof.
  intros Hns Hg mine. apply (grant_ok fuel rt ns b resources subject (label_meta uid owner) mine); [done..| |].
  - intros w'. destruct (labelled_found ns uid owner w') as (l & Hl & Hin). exists l. auto.
  - intros k rb Hk [Hn _]. pose proof (view_keyed (O:=RoleBinding) w _ _ Hk) as ->. done.
Qed.

(** Granting a cluster role template binding's template in the namespace of a
    project of the cluster: as above, the binding's own role bindings being those of
    the namespace that carry its label. *)
Theorem grantInProjectNamespace_correct fuel rt ns resources subject binding w :
  let uid := UID (crtb_meta binding) in
  let mine := labelled ns uid crtbInProjectBindingOwner in
  ns ≠ "" → grantable fuel rt ns w →
  wp (grantManagementClusterScopedPrivilegesInProjectNamespace fuel (Name (rt_meta rt)) ns
        resources subject binding)
    (if_ok (λ _ w', granted ns resources (s_ClusterRoles (view w))
              (rtc (inherits (templates w)) rt) (label_meta uid crtbInProjectBindingOwner)
              (Name (crtb_meta binding)) subject mine (view w) (view w'))
       (λ _ _, ClientHealthy W Role → ClientHealthy W RoleBinding →
          ¬ names_free ns resources rt (Name (crtb_meta binding)) mine w)) w.
Proof. intros uid mine. apply grant_labelled. Qed.

(** Granting a project role template binding's template in the namespace of
    the cluster of the project: as above, the binding's own role bindings being those
    of the namespace that carry its label. *)
Theorem grantInClusterNamespace_correct fuel rt ns resources subject binding w :
  let uid := UID (prtb_meta binding) in
  let mine := labelled ns uid prtbInClusterBindingOwner in
  ns ≠ "" → grantable fuel rt ns w →
  wp (grantManagementProjectScopedPrivilegesInClusterNamespace fuel (Name (rt_meta rt)) ns
        resources subject binding)
    (if_ok (λ _ w', granted ns resources (s_ClusterRoles (view w))
              (rtc (inherits (templates w)) rt) (label_meta uid prtbInClusterBindingOwner)
              (Name (prtb_meta binding)) subject mine (view w) (view w'))
       (λ _ _, ClientHealthy W Role → ClientHealthy W RoleBinding →
          ¬ names_free ns resources rt (Name (prtb_meta binding)) mine w)) w.
Proof. intros uid mine. apply grant_labelled. Qed.

End grant.

(** *** Witnesses: the templates of [demo] granted in an empty namespace *)

Definition demo_binding : ObjectMeta :=
  {| Name := "crtb-1"; GenerateName := ""; Namespace := "c-1"; UID := "uid-1"; ResourceVersion := "";
     Labels := ∅; Annotations := ∅; OwnerReferences := [];
     CreationTimestamp := 0; DeletionTimestamp := None |}.

Definition demo_type : TypeMeta := {| Kind := "ClusterRoleTemplateBinding"; APIVersion := "v3" |}.

Definition demo_subject : Subject := mkSubject "User" "u-1".

Definition demo_crtb : ClusterRoleTemplateBinding :=
  {| crtb_meta := demo_binding; crtb_type := demo_type; crtb_UserName := "u-1";
     crtb_UserPrincipalName := ""; crtb_GroupName := ""; crtb_GroupPrincipalName := "";
     crtb_ClusterName := "c-1"; crtb_RoleTemplateName := "owner" |}.

Definition demo_prtb : ProjectRoleTemplateBinding :=
  {| prtb_meta := demo_binding; prtb_type := demo_type; prtb_UserName := "u-1";
     prtb_UserPrincipalName := ""; prtb_GroupName := ""; prtb_GroupPrincipalName := "";
     prtb_ProjectName := "c-1:p-1"; prtb_RoleTemplateName := "owner" |}.

Definition demo_resources : list string := ["projects"; "nodes"; "clusterevents"].

Lemma demo_grantable ns : grantable 2 demo_owner ns demo.
Proof.
  destruct demo_lookups as (Ho & Hm & _). split_and!; [exact Ho|by apply demo_closed|
    by apply demo_depth|by split_and!|].
  intros t _ role Hr. change (s_Roles (view demo)) with (∅ : gmap nsname Role) in Hr.
  by rewrite lookup_empty in Hr.
Qed.

Lemma demo_no_leftovers ns mk b subject mine reached :
  no_leftovers ns demo_resources (s_ClusterRoles (view demo)) reached mk b subject mine (view demo).
Proof.
  split.
  - intros t r _ _ _. unfold role_verbs. change (s_Roles (view demo)) with (∅ : gmap nsname Role).
    by rewrite lookup_empty.
  - intros t rb _ Hk. change (s_RoleBindings (view demo)) with (∅ : gmap nsname RoleBinding) in Hk.
    by rewrite lookup_empty in Hk.
Qed.


Lemma grantInProjectNamespace_correct_witness :
  ∃ w', grantManagementClusterScopedPrivilegesInProjectNamespace 2 "owner" "p-1" demo_resources
          demo_subject demo_crtb demo = (Ok tt, w') ∧
    granted "p-1" demo_resources (s_ClusterRoles (view demo))
      (rtc (inherits (s_RoleTemplates (cached demo))) demo_owner)
      (label_meta "uid-1" crtbInProjectBindingOwner) "crtb-1" demo_subject
      (labelled "p-1" "uid-1" crtbInProjectBindingOwner) (view demo) (view w').
Proof.
  refine (run_ok _ _ _ demo tt (grantInProjectNamespace_correct 2 demo_owner "p-1"
    demo_resources demo_subject demo_crtb demo _ (demo_grantable _)) _).
  - done.
  - vm_compute. reflexivity.
Defined.

Lemma grantInClusterNamespace_correct_witness :
  ∃ w', grantManagementProjectScopedPrivilegesInClusterNamespace 2 "owner" "c-1" demo_resources
          demo_subject demo_prtb demo = (Ok tt, w') ∧
    granted "c-1" demo_resources (s_ClusterRoles (view demo))
      (rtc (inherits (s_RoleTemplates (cached demo))) demo_owner)
      (label_meta "uid-1" prtbInClusterBindingOwner) "crtb-1" demo_subject
      (labelled "c-1" "uid-1" prtbInClusterBindingOwner) (view demo) (view w').
Proof.
  refine (run_ok _ _ _ demo tt (grantInClusterNamespace_correct 2 demo_owner "c-1"
    demo_resources demo_subject demo_prtb demo _ (demo_grantable _)) _).
  - done.
  - vm_compute. reflexivity.
Defined.
