(* ===== verification/MgmtMembership.v ===== *)
(** * Management-plane RBAC: membership bindings

    Theorems about the membership roles and bindings of [MgmtManager]: a role
    template binding marks the membership bindings that exist because of it
    with a label, and releases them when it is changed or deleted. *)

From stdpp Require Import base gmap list strings.
From Stdlib Require Import Ascii.
From S2P Require Import Prelude.
From S2P Require Import GoLib.
From S2P Require Import KubeTypes.
From S2P Require Import KubeObjects.
From S2P Require Import Kube.
From S2P Require Import KubeRules.
From S2P Require Import KubeSim.
From S2P Require Import MgmtManager.
From S2P Require Import MgmtRoles.
From S2P Require Import MgmtBindings.

(** ** Releasing bindings *)

Section release.
Context {W : Type} `{!GoRuntime W, !GoRuntimeLaws W, !Kube W}.
Context `{!Client W ClusterRole, !Client W Role, !Client W ClusterRoleBinding,
          !Client W RoleBinding, !Client W RoleTemplate}.
Context {O : Type} `{!Stored O, !StoredLaws O, !Client W O, !ClientLaws W O}.
Context (convert : O → string) (ns roleToKeep uid : string).
Context (I : W → Prop) (HI : undisturbed (O:=O) I).
Implicit Types (o : O) (w : W).

(** A binding in [ns] marked with [uid] that is for another role. *)
Definition released (o : O) : Prop :=
  Labels (meta o) !! uid = Some membershipBindingOwner ∧ convert o ≠ roleToKeep ∧
  (ns = "" ∨ Namespace (meta o) = ns).

(** What becomes of it: the mark is removed, and a binding without marks deleted. *)
Definition release (o : O) (after : option O) : Prop :=
  if decide (delete uid (Labels (meta o)) = ∅) then after = None
  else ∃ o', after = Some o' ∧ Labels (meta o') = delete uid (Labels (meta o)) ∧ same_spec o o'.

Definition all_released (s s' : KState) : Prop :=
  only_tbl (O:=O) s s' ∧
  ∀ k, match tbl (O:=O) s !! k with
       | Some o => (released o → release o (tbl s' !! k)) ∧
                   (¬ released o → tbl (O:=O) s' !! k = Some o)
       | None => tbl (O:=O) s' !! k = None
       end.

(** The state of the loop after the bindings of [don]. *)
Definition releasing (w : W) (don : list O) (w' : W) : Prop :=
  only_tbl (O:=O) (view w) (view w') ∧
  (∀ o, o ∈ don → released o → release o (tbl (view w') !! obj_key o)) ∧
  (∀ k, (∀ o, o ∈ don → released o → k ≠ obj_key o) →
     tbl (O:=O) (view w') !! k = tbl (view w) !! k ∧
     tbl (O:=O) (cached w') !! k = tbl (view w) !! k) ∧
  between (tbl (O:=O) (view w)) (tbl (O:=O) (view w')) (tbl (O:=O) (cached w')) ∧ I w'.

Lemma releasing_start w : I w → tbl (O:=O) (cached w) = tbl (view w) → releasing w [] w.
Proof.
  intros Hi Hs. split_and!; [apply only_tbl_refl|by intros ? ?%elem_of_nil| | |done].
  - intros k _. by rewrite Hs.
  - intros k. left. by rewrite Hs.
Qed.

Lemma releasing_skip w don o w' :
  ¬ released o → releasing w don w' → releasing w (don ++ [o]) w'.
Proof.
  intros Hno (Hot & Hin & Hout & Hbt & Hi). split_and!; [done| | |done|done].
  - intros o' [?|Heq%list_elem_of_singleton]%elem_of_app; [by apply Hin|by subst].
  - intros k Hk. apply Hout. intros o' ??. apply Hk; [apply elem_of_app; by left|done].
Qed.

Lemma releasing_step w don o w1 w2 :
  obj_key o ∉ obj_key <$> don → released o →
  releasing w don w1 → cache_step w1 w2 →
  changed_at (O:=O) [obj_key o] (view w1) (view w2) →
  release o (tbl (view w2) !! obj_key o) →
  releasing w (don ++ [o]) w2.
Proof.
  intros Hnew Hrel (Hot & Hin & Hout & Hbt & Hi) Hcs [Hot' Hfr] Ho.
  split_and!; [exact (only_tbl_trans _ _ _ Hot Hot')| | | |by eapply HI].
  - intros o' [Ho'|Heq%list_elem_of_singleton]%elem_of_app Hrel'; [|by subst].
    rewrite Hfr; [by apply Hin|]. intros Heq%list_elem_of_singleton. apply Hnew.
    rewrite <-Heq. apply list_elem_of_fmap. by exists o'.
  - intros k Hk. destruct (Hout k) as [Hv Hc].
    { intros o' ??. apply Hk; [apply elem_of_app; by left|done]. }
    assert (tbl (O:=O) (view w2) !! k = tbl (view w1) !! k) as Hv2.
    { apply Hfr. intros Heq%list_elem_of_singleton. apply (Hk o); [|done|done].
      apply elem_of_app. right. by left. }
    split; [congruence|]. rewrite <-Hv, <-Hv2. apply (cache_step_sync w1 w2 k Hcs Hv2). congruence.
  - intros k. destruct (cache_step_tbl (O:=O) w1 w2 k Hcs) as [Hc| ->]; [|by right].
    rewrite Hc. destruct (decide (k = obj_key o)) as [->|Hne].
    + left. apply Hout. intros o' Ho' _ Heq. apply Hnew. rewrite Heq.
      apply list_elem_of_fmap. by exists o'.
    + rewrite (Hfr k); [by apply Hbt|]. by intros ?%list_elem_of_singleton.
Qed.

(** The objects of the kind live in [ns], or [ns] is one of their namespaces. *)
Definition scoped (s : KState) : Prop :=
  ns ≠ "" ∨ ∀ k o, tbl (O:=O) s !! k = Some o → k.1 = "".

(** One binding of the list. *)
Lemma release_one don o w w1 :
  let rb := set_meta (with_Labels (delete uid (Labels (meta o))) (meta o)) o in
  obj_key o ∉ obj_key <$> don → released o → Namespace (meta o) = ns → Name (meta o) ≠ "" →
  tbl (view w) !! obj_key o = Some o →
  releasing w don w1 →
  wp (if bool_decide (delete uid (Labels (meta o)) = ∅) then
        let* r := attempt (api_delete (O:=O) ns (Name (meta rb))) in
        match r with
        | inl e => if IsNotFound e then ret tt else throw e
        | inr _ => ret tt
        end
      else do* api_update ns rb in ret tt)
    (if_ok (λ _ w2, releasing w (don ++ [o]) w2) (λ _ _, ¬ ClientHealthy W O)) w1.
Proof.
  intros rb Hnew Hrel Hns Hname Ho Hing.
  assert ((ns, Name (meta rb)) = obj_key o) as Hk.
  { unfold rb, obj_key. rewrite meta_set. simpl. by rewrite Hns. }
  assert (write_key ns rb = obj_key o) as Hwk.
  { unfold write_key, client_ns, rb, obj_key. rewrite meta_set. simpl. rewrite Hns.
    by case_decide. }
  destruct (proj1 (proj2 (proj2 Hing)) (obj_key o)) as [Hv Hc].
  { intros o' Ho' _ Heq. apply Hnew. rewrite Heq. apply list_elem_of_fmap. by exists o'. }
  case_bool_decide as He.
  - apply wp_bind, wp_attempt, wp_delete; rewrite Hk.
    + intros w2 _ Hv2 Hcs. apply wp_ret. eapply releasing_step; [done..| |].
      * rewrite Hv2. apply changed_at_del. by left.
      * unfold release. rewrite decide_True by done. rewrite Hv2, tbl_del. apply lookup_delete_eq.
    + intros e w2 Hnf Hv2 Hcs Hhe _. cbn [bind_post]. destruct (IsNotFound e) eqn:Hi.
      * apply wp_ret. eapply releasing_step; [done..| |].
        -- rewrite Hv2. apply changed_at_refl.
        -- unfold release. rewrite decide_True by done. rewrite Hv2. by apply Hnf.
      * apply wp_throw. intros Hh. specialize (Hhe Hh). congruence.
  - apply wp_bind, wp_update; rewrite Hwk.
    + intros o' w2 Hst Hko' _ Hv2 Hcs. apply wp_ret. eapply releasing_step; [done..| |].
      * rewrite Hv2. apply changed_at_put. rewrite Hko'. by left.
      * unfold release. rewrite decide_False by done. exists o'. rewrite Hv2, <-Hko'.
        split; [apply tbl_put_eq|]. destruct Hst as (_ & _ & _ & Hl & _ & _ & Hsp).
        unfold rb in Hl, Hsp. rewrite meta_set in Hl. split; [done|]. by apply same_spec_set in Hsp.
    + intros e w2 Hv2 Hcs Hno. simpl. intros Hh. apply (Hno Hh).
      * unfold rb. by rewrite meta_set.
      * exists o. rewrite Hv. unfold rb. rewrite meta_set. by split_and!; [| |apply may_update_set].
Qed.

Lemma releasing_all l w w' :
  (∀ o, o ∈ l ↔ tbl (view w) !! obj_key o = Some o ∧ (ns = "" ∨ Namespace (meta o) = ns) ∧
                selects {[ uid := membershipBindingOwner ]} (Labels (meta o))) →
  releasing w l w' → all_released (view w) (view w').
Proof.
  intros Hl (Hot & Hin & Hout & _). split; [done|]. intros k.
  destruct (tbl (view w) !! k) as [o|] eqn:Ho.
  - pose proof (view_keyed w _ _ Ho) as ->. split.
    + intros Hrel. apply Hin; [|done]. apply Hl. destruct Hrel as (? & _ & ?).
      split_and!; [done|done|]. by apply map_singleton_subseteq_l.
    + intros Hno. rewrite <-Ho. apply Hout. intros o' [Ho' _]%Hl Hrel Heq.
      rewrite Heq, Ho' in Ho. congruence.
  - rewrite <-Ho. apply Hout. intros o' [Ho' _]%Hl _ ->. congruence.
Qed.

Lemma reconcileMembership_released w :
  I w → tbl (O:=O) (cached w) = tbl (view w) → scoped (view w) →
  wp (reconcileMembershipBindingForDelete convert ns roleToKeep uid)
    (if_ok (λ _ w', all_released (view w) (view w') ∧ I w' ∧
              between (tbl (O:=O) (view w)) (tbl (O:=O) (view w')) (tbl (O:=O) (cached w')) ∧
              ∀ k, (∀ o, tbl (view w) !! k = Some o → ¬ released o) →
                tbl (O:=O) (cached w') !! k = tbl (view w) !! k)
           (λ _ _, ¬ ClientHealthy W O)) w.
Proof.
  intros Hi Hsync Hscope. unfold reconcileMembershipBindingForDelete.
  apply wp_bind, wp_reads.
  destruct (lister_list_law (O:=O) ns {[ uid := membershipBindingOwner ]} w) as (l & Hl & _).
  rewrite Hl. simpl. pose proof (NoDup_lister _ _ _ _ Hl) as Hnd.
  assert (∀ o, o ∈ l ↔ tbl (view w) !! obj_key o = Some o ∧ (ns = "" ∨ Namespace (meta o) = ns) ∧
                selects {[ uid := membershipBindingOwner ]} (Labels (meta o))) as Hin.
  { intros o. rewrite (elem_of_lister _ _ _ _ _ Hl). by rewrite Hsync. }
  eapply wp_mono; [apply (wp_for_each (releasing w) (λ _ _, ¬ ClientHealthy W O))|].
  - by apply releasing_start.
  - intros don o rest w1 Heq Hing. destruct (proj1 (Hin o)) as (Ho & Hns & Hsel).
    { rewrite Heq. apply elem_of_app. right. left. }
    apply map_singleton_subseteq_l in Hsel.
    destruct (String.eqb_spec (convert o) roleToKeep) as [Hc|Hc].
    { apply wp_ret. apply releasing_skip; [|done]. by intros (_ & ? & _). }
    rewrite (bool_decide_eq_true_2 (Labels (meta o) !! uid = Some membershipBindingOwner)) by done.
    assert (meta (set_meta (with_Labels (delete uid (Labels (meta o))) (meta o)) o) =
            with_Labels (delete uid (Labels (meta o))) (meta o)) as Hm by apply meta_set.
    apply (release_one don o w w1); [|by split_and!| | |done|done].
    + rewrite Heq, fmap_app, fmap_cons in Hnd. apply NoDup_app in Hnd as (_ & Hdis & _).
      intros Hk. apply (Hdis _ Hk). left.
    + destruct Hns as [->|]; [|done]. destruct Hscope as [?|Hs]; [done|]. apply (Hs _ _ Ho).
    + apply (view_named (O:=O) w (obj_key o)). eauto.
  - intros [[]|e| |] w' Hr; simpl in *; try done. split; [by eapply releasing_all|].
    split; [apply Hr|]. split; [apply Hr|]. intros k Hk. apply Hr. intros o [Ho _]%Hin Hrel ->. by apply (Hk o).
Qed.

End release.

(** ** Membership of a cluster *)

Section ensure.
Context {W : Type} `{!GoRuntime W, !GoRuntimeLaws W, !Kube W}.
Context `{!Client W ClusterRole, !Client W Role, !Client W ClusterRoleBinding,
          !Client W RoleBinding, !Client W RoleTemplate}.
Context `{!ClientLaws W ClusterRole, !ClientLaws W Role, !ClientLaws W ClusterRoleBinding,
          !ClientLaws W RoleBinding}.
Implicit Types (w : W).

(** The rule of a membership role. *)
Definition membership_rule (resource name : string) (makeOwner : bool) : PolicyRule :=
  {| Verbs := if makeOwner then ["*"] else ["get"]; APIGroups := ["management.cattle.io"];
     Resources := [resource]; ResourceNames := [name]; NonResourceURLs := [] |}.

Lemma createClusterRole_ok roleName cluster makeOwner w :
  let key := ("", roleName) in
  roleName ≠ "" → s_ClusterRoles (cached w) !! key = s_ClusterRoles (view w) !! key →
  wp (createClusterMembershipRole roleName cluster makeOwner)
    (if_ok (λ _ w', cache_step w w' ∧ changed_at (O:=ClusterRole) [key] (view w) (view w') ∧
              ∃ cr, s_ClusterRoles (view w') !! key = Some cr ∧
                (s_ClusterRoles (view w) !! key = None →
                 cr_Rules cr = [membership_rule clusterResource (Name (cluster_meta cluster)) makeOwner]))
           (λ _ _, ¬ ClientHealthy W ClusterRole)) w.
Proof.
  intros key Hname Hsync. unfold createClusterMembershipRole.
  apply wp_bind, wp_reads. simpl.
  pose proof (lister_get_law (O:=ClusterRole) "" roleName w) as Hget. simpl in Hget.
  fold key in Hget. destruct (s_ClusterRoles (cached w) !! key) as [cr|] eqn:Hc.
  - rewrite Hget. apply wp_ret. simpl.
    split_and!; [apply cache_step_same|apply changed_at_refl|]. exists cr. by rewrite <-Hsync.
  - destruct Hget as (e & -> & _). simpl. apply wp_bind, wp_create; simpl.
    + intros o' w' Hst _ Hv Hcs. apply wp_ret. simpl.
      assert (obj_key o' = key) as Hk by by apply (stored_as_key _ _ _ Hst).
      split_and!; [done|rewrite Hv; apply changed_at_put; rewrite Hk; by left|].
      exists o'. rewrite Hv, <-Hk. split; [exact (tbl_put_eq o' (view w))|].
      destruct Hst as (_ & _ & _ & _ & _ & _ & Hsp). simpl in Hsp. by rewrite Hsp.
    + intros e' w' _ _ Hno Hh. by apply Hno.
Qed.

Lemma createProjectRole_ok roleName ns project makeOwner w :
  let key := (ns, roleName) in
  roleName ≠ "" → s_Roles (cached w) !! key = s_Roles (view w) !! key →
  wp (createProjectMembershipRole roleName ns project makeOwner)
    (if_ok (λ _ w', cache_step w w' ∧ changed_at (O:=Role) [key] (view w) (view w') ∧
              ∃ r, s_Roles (view w') !! key = Some r ∧
                (s_Roles (view w) !! key = None →
                 r_Rules r = [membership_rule projectResource (Name (proj_meta project)) makeOwner]))
           (λ _ _, ¬ ClientHealthy W Role)) w.
Proof.
  intros key Hname Hsync. unfold createProjectMembershipRole.
  apply wp_bind, wp_reads. simpl.
  pose proof (lister_get_law (O:=Role) ns roleName w) as Hget. simpl in Hget.
  fold key in Hget. destruct (s_Roles (cached w) !! key) as [r|] eqn:Hc.
  - rewrite Hget. apply wp_ret. simpl.
    split_and!; [apply cache_step_same|apply changed_at_refl|]. exists r. by rewrite <-Hsync.
  - destruct Hget as (e & -> & _). simpl. apply wp_bind, wp_create; simpl.
    + intros o' w' Hst _ Hv Hcs. apply wp_ret. simpl.
      assert (obj_key o' = key) as Hk by by apply (stored_as_key _ _ _ Hst).
      split_and!; [done|rewrite Hv; apply changed_at_put; rewrite Hk; by left|].
      exists o'. rewrite Hv, <-Hk. split; [exact (tbl_put_eq o' (view w))|].
      destruct Hst as (_ & _ & _ & _ & _ & _ & Hsp). simpl in Hsp. by rewrite Hsp.
    + intros e' w' _ _ Hno Hh. by apply Hno.
Qed.

Abbreviation crb_role := (λ rb : ClusterRoleBinding, rr_Name (crb_RoleRef rb)).
Abbreviation crb_labels := (λ rb : ClusterRoleBinding, Labels (crb_meta rb)).

Lemma index_same_spec (o o' : ClusterRoleBinding) :
  same_spec o o' → crbByRoleAndSubject o' = crbByRoleAndSubject o ∧ crb_role o' = crb_role o.
Proof.
  intros [Hsub [_ Hrole]]. unfold crbByRoleAndSubject. rewrite <-Hrole. split; [|done].
  unfold rbRoleSubjectKeys. induction Hsub as [|a b la lb (Hk & Hn & _) _ IH]; [done|].
  simpl. rewrite IH. unfold rbRoleSubjectKey. by rewrite Hk, Hn.
Qed.

(** The cluster role bindings marked with [uid] are as this code leaves them:
    cluster-scoped, at most one, with one subject; and the index key tells the
    bindings of [roleName] from others. *)
Definition tidy (roleName uid key : string) (t : gmap nsname ClusterRoleBinding) : Prop :=
  (∀ k rb, t !! k = Some rb → k.1 = "") ∧
  (∀ k rb, t !! k = Some rb → crb_labels rb !! uid = Some membershipBindingOwner →
     length (crb_Subjects rb) = 1) ∧
  (∀ k k' rb rb', t !! k = Some rb → t !! k' = Some rb' →
     crb_labels rb !! uid = Some membershipBindingOwner →
     crb_labels rb' !! uid = Some membershipBindingOwner → k = k') ∧
  (∀ k rb, t !! k = Some rb → key ∈ crbByRoleAndSubject rb → crb_role rb = roleName).

(** A binding of the role and subject of [key] is marked with [uid], and no
    binding of another role is. *)
Definition is_member (roleName uid key : string) (t : gmap nsname ClusterRoleBinding) : Prop :=
  (∃ k rb, t !! k = Some rb ∧ key ∈ crbByRoleAndSubject rb ∧ is_Some (crb_labels rb !! uid)) ∧
  ∀ k rb, t !! k = Some rb → crb_labels rb !! uid = Some membershipBindingOwner →
    crb_role rb = roleName.

(** The bindings and their cache after the release loop. *)
Definition kept (roleName uid : string) (t : gmap nsname ClusterRoleBinding) (w : W) : Prop :=
  (∀ k, match t !! k with
        | Some o => (released crb_role "" roleName uid o → release uid o (s_ClusterRoleBindings (view w) !! k)) ∧
                    (¬ released crb_role "" roleName uid o → s_ClusterRoleBindings (view w) !! k = Some o)
        | None => s_ClusterRoleBindings (view w) !! k = None
        end) ∧
  between t (s_ClusterRoleBindings (view w)) (s_ClusterRoleBindings (cached w)).

Lemma kept_marks roleName uid t w k rb :
  kept roleName uid t w → s_ClusterRoleBindings (view w) !! k = Some rb →
  crb_labels rb !! uid = Some membershipBindingOwner → crb_role rb = roleName.
Proof.
  intros [Hk _] Hrb Hl. specialize (Hk k). rewrite Hrb in Hk.
  destruct (t !! k) as [o|]; [|done]. destruct Hk as [Hrel Hno].
  destruct (decide (crb_labels o !! uid = Some membershipBindingOwner)) as [Ho|Ho].
  - destruct (decide (crb_role o = roleName)) as [Hr|Hr].
    + assert (Some rb = Some o) as [= ->]; [|done]. apply Hno. by intros (_ & ? & _).
    + assert (release uid o (Some rb)) as Hr'. { apply Hrel. split_and!; [done|done|by left]. }
      unfold release in Hr'. destruct (decide _); [done|]. destruct Hr' as (o' & [= <-] & Hlab & _).
      simpl in Hlab. by rewrite Hlab, lookup_delete_eq in Hl.
  - assert (Some rb = Some o) as [= ->]; [|done]. apply Hno. by intros (? & _).
Qed.

Lemma kept_found roleName uid key t w k rb :
  tidy roleName uid key t → kept roleName uid t w →
  s_ClusterRoleBindings (cached w) !! k = Some rb → key ∈ crbByRoleAndSubject rb →
  s_ClusterRoleBindings (view w) !! k = Some rb ∧ crb_role rb = roleName.
Proof.
  intros (_ & _ & _ & Hkey) [Hk Hbt] Hc Hin. specialize (Hk k).
  destruct (Hbt k) as [Heq|Heq]; rewrite Hc in Heq.
  - rewrite <-Heq in Hk. pose proof (Hkey k rb (eq_sym Heq) Hin) as Hr.
    split; [|done]. apply Hk. by intros (_ & ? & _).
  - rewrite <-Heq in *. split; [done|]. destruct (t !! k) as [o|] eqn:Ht; [|done].
    destruct Hk as [Hrel Hno].
    destruct (decide (crb_role o = roleName)) as [Hr|Hr].
    + assert (Some rb = Some o) as [= ->]; [|done]. apply Hno. by intros (_ & ? & _).
    + destruct (decide (crb_labels o !! uid = Some membershipBindingOwner)) as [Ho|Ho].
      * assert (release uid o (Some rb)) as Hr'. { apply Hrel. split_and!; [done|done|by left]. }
        unfold release in Hr'. destruct (decide _); [done|].
        destruct Hr' as (o' & [= <-] & _ & [Hidx Hrole]%index_same_spec).
        rewrite Hidx in Hin. rewrite Hrole. by apply (Hkey k o).
      * assert (Some rb = Some o) as [= ->]; [apply Hno; by intros (? & _)|]. by apply (Hkey k o).
Qed.

(** At most one binding is listed. *)
Lemma tidy_list roleName uid key w l :
  s_ClusterRoleBindings (cached w) = s_ClusterRoleBindings (view w) →
  tidy roleName uid key (s_ClusterRoleBindings (view w)) →
  lister_List (O:=ClusterRoleBinding) "" {[ uid := membershipBindingOwner ]} w = Ok l →
  (l = [] ∧ ∀ k rb, s_ClusterRoleBindings (view w) !! k = Some rb →
     crb_labels rb !! uid ≠ Some membershipBindingOwner) ∨
  (∃ rb, l = [rb] ∧ length (crb_Subjects rb) = 1).
Proof.
  intros Hs (_ & Hone & Huniq & _) Hl.
  assert (∀ o, o ∈ l ↔ s_ClusterRoleBindings (view w) !! obj_key o = Some o ∧
    crb_labels o !! uid = Some membershipBindingOwner) as Hin.
  { intros o. rewrite (elem_of_lister (O:=ClusterRoleBinding) _ _ _ _ _ Hl). simpl. rewrite Hs.
    unfold selects. rewrite map_singleton_subseteq_l. naive_solver. }
  pose proof (NoDup_lister (O:=ClusterRoleBinding) _ _ _ _ Hl) as Hnd.
  destruct l as [|rb [|rb' l]].
  - left. split; [done|]. intros k rb Hk Hlab.
    pose proof (view_keyed (O:=ClusterRoleBinding) w _ _ Hk) as Hkey. simpl in Hkey. subst k.
    assert (rb ∈ []) as He by by apply Hin. by apply elem_of_nil in He.
  - right. exists rb. split; [done|]. destruct (proj1 (Hin rb)) as [? ?]; [by left|]. by eapply Hone.
  - exfalso. destruct (proj1 (Hin rb)) as [? ?]; [by left|].
    destruct (proj1 (Hin rb')) as [? ?]; [right; by left|].
    rewrite !fmap_cons, NoDup_cons in Hnd. destruct Hnd as [Hnd _]. apply Hnd.
    rewrite (Huniq (obj_key rb) (obj_key rb') rb rb') by done. left.
Qed.

Lemma release_loop roleName uid key w :
  s_ClusterRoleBindings (cached w) = s_ClusterRoleBindings (view w) →
  tidy roleName uid key (s_ClusterRoleBindings (view w)) →
  wp (let* crbs := reads (lister_List "" {[ uid := membershipBindingOwner ]}) in
      for_fold (λ (crb : option ClusterRoleBinding) (iCRB : ClusterRoleBinding),
        let rest := do* reconcileClusterMembershipBindingForDelete roleName uid in ret crb in
        if negb (Nat.eqb (length (crb_Subjects iCRB)) 1) then
          match crb_Subjects iCRB with
          | [] => panic
          | subject0 :: _ =>
            if String.eqb (rbRoleSubjectKey (rr_Name (crb_RoleRef iCRB)) subject0) key
            then ret (Some iCRB) else rest
          end
        else rest) None crbs)
    (if_ok (λ r w', r = None ∧ only_tbl (O:=ClusterRoleBinding) (view w) (view w') ∧
              kept roleName uid (s_ClusterRoleBindings (view w)) w')
       (λ _ _, ¬ ClientHealthy W ClusterRoleBinding)) w.
Proof.
  intros Hs Ht. apply wp_bind, wp_reads.
  destruct (lister_list_law (O:=ClusterRoleBinding) "" {[ uid := membershipBindingOwner ]} w)
    as (l & Hl & _).
  destruct (tidy_list _ _ _ _ _ Hs Ht Hl) as [[-> Hno]|(rb & -> & Hone)]; rewrite Hl; simpl.
  - apply wp_ret. split_and!; [done|apply only_tbl_refl|split].
    + intros k. destruct (_ !! k) as [o|] eqn:Ho; [|done]. split; [|done].
      intros (Hlab & _). by destruct (Hno _ _ Ho).
    + intros k. rewrite Hs. by left.
  - rewrite Hone. simpl. unfold reconcileClusterMembershipBindingForDelete.
    apply wp_bind, wp_bind.
    eapply wp_mono; [apply (reconcileMembership_released _ _ _ _ (λ _, True)); [done|done|exact Hs|right; apply Ht]|].
    intros [[]|e| |] w' Hr; simpl in Hr; try done.
    destruct Hr as ([Hot Hall] & _ & Hbt & _). by split_and!.
Qed.

(** The part after the loop: mark the binding of the role and subject, or create
    one. *)
Lemma mark_or_create roleName uid subject t w :
  let key := rbRoleSubjectKey roleName subject in
  tidy roleName uid key t → kept roleName uid t w →
  wp (let* objs := reads (ByIndex crbByRoleAndSubject key) in
      match objs with
      | [] =>
        do* api_create "" {| crb_meta := generate_meta "clusterrolebinding-"
                                           {[ uid := membershipBindingOwner ]} ∅;
                             crb_Subjects := [subject];
                             crb_RoleRef := {| rr_APIGroup := ""; rr_Kind := "ClusterRole";
                                               rr_Name := roleName |} |} in
        ret tt
      | crb :: _ =>
        let m := crb_meta crb in
        match Labels m !! uid with
        | Some _ => ret tt
        | None =>
          do* api_update "" (set_crb_meta
                (with_Labels (<[uid := membershipBindingOwner]> (Labels m)) m) crb) in
          ret tt
        end
      end)
    (if_ok (λ _ w', only_tbl (O:=ClusterRoleBinding) (view w) (view w') ∧
              is_member roleName uid key (s_ClusterRoleBindings (view w')))
       (λ _ _, ¬ ClientHealthy W ClusterRoleBinding)) w.
Proof.
  intros key Ht Hkept. apply wp_bind, wp_reads.
  destruct (by_index_law (O:=ClusterRoleBinding) crbByRoleAndSubject key w) as (l & Hl & _).
  pose proof (λ o, elem_of_index (O:=ClusterRoleBinding) _ _ _ _ o Hl) as Hin. rewrite Hl. simpl.
  destruct l as [|crb l].
  - apply wp_bind, wp_create; simpl.
    + intros o' w' Hst _ Hv _. apply wp_ret. simpl. rewrite Hv.
      destruct Hst as (_ & _ & _ & Hlab & _ & _ & [Hidx Hrole]%index_same_spec). simpl in *.
      split; [apply only_tbl_put, only_tbl_refl|]. split.
      * exists (obj_key o'), o'. split; [exact (tbl_put_eq o' (view w))|].
        rewrite Hidx, Hlab, lookup_singleton_eq. split; [|done]. simpl. by left.
      * intros k rb Hk Hm.
        change (tbl (put_obj o' (view w)) !! k = Some rb) in Hk. rewrite tbl_put in Hk.
        apply lookup_insert_Some in Hk as [[_ <-]|[_ Hk]]; [by rewrite Hrole|].
        by eapply kept_marks.
    + intros e w' _ _ Hno Hh. by apply (Hno Hh).
  - destruct (proj1 (Hin crb)) as [Hc Hk]; [by left|]. simpl in Hc.
    destruct (kept_found _ _ _ _ _ _ _ Ht Hkept Hc Hk) as [Hv Hr].
    destruct (Labels (crb_meta crb) !! uid) as [x|] eqn:Hlab.
    { apply wp_ret. split; [apply only_tbl_refl|]. split; [exists (obj_key crb), crb|].
      - by rewrite Hlab.
      - intros k rb. by eapply kept_marks. }
    assert (Name (crb_meta crb) ≠ "") as Hname.
    { change ((obj_key crb).2 ≠ ""). apply (view_named (O:=ClusterRoleBinding) w). by exists crb. }
    set (crb' := set_crb_meta _ crb).
    assert (write_key "" crb' = obj_key crb) as Hwk.
    { unfold write_key, client_ns, obj_key. simpl. case_decide as Hns; [by rewrite Hns|done]. }
    apply wp_bind, wp_update; rewrite Hwk.
    + intros o' w' Hst Hk' _ Hv' _. apply wp_ret. simpl. rewrite Hv'.
      destruct Hst as (_ & _ & _ & Hlab' & _ & _ & [Hidx Hrole]%index_same_spec). simpl in *.
      split; [apply only_tbl_put, only_tbl_refl|]. split.
      * exists (obj_key o'), o'. split; [exact (tbl_put_eq o' (view w))|].
        by rewrite Hidx, Hlab', lookup_insert_eq.
      * intros k rb Hkk Hm.
        change (tbl (put_obj o' (view w)) !! k = Some rb) in Hkk. rewrite tbl_put in Hkk.
        apply lookup_insert_Some in Hkk as [[_ <-]|[_ Hkk]]; [by rewrite Hrole|].
        by eapply kept_marks.
    + intros e w' _ _ Hno Hh. apply (Hno Hh); [done|]. exists crb.
      by split_and!; [| |exact (may_update_set crb _)].
Qed.

Lemma ensureCluster_ok roleName uid cluster makeOwner subject w :
  let key := rbRoleSubjectKey roleName subject in
  roleName ≠ "" →
  s_ClusterRoles (cached w) = s_ClusterRoles (view w) →
  s_ClusterRoleBindings (cached w) = s_ClusterRoleBindings (view w) →
  tidy roleName uid key (s_ClusterRoleBindings (view w)) →
  wp (ensureClusterMembershipBinding roleName uid cluster makeOwner subject)
    (if_ok (λ _ w', is_Some (s_ClusterRoles (view w') !! ("", roleName)) ∧
              is_member roleName uid key (s_ClusterRoleBindings (view w')))
       (λ _ _, ClientHealthy W ClusterRole → ¬ ClientHealthy W ClusterRoleBinding)) w.
Proof.
  intros key Hname Hcr Hcrb Ht. unfold ensureClusterMembershipBinding.
  eapply wp_bind_if_ok; [apply createClusterRole_ok; [done|by rewrite Hcr]| |by intros e w' ? ?].
  intros [] w1 (Hcs & [Hot _] & cr & Hcr1 & _).
  assert (s_ClusterRoleBindings (view w1) = s_ClusterRoleBindings (view w)) as Hv1
    by (unfold only_tbl in Hot; by rewrite Hot).
  assert (s_ClusterRoleBindings (cached w1) = s_ClusterRoleBindings (view w1)) as Hc1.
  { apply map_eq. intros k. pose proof (cache_step_sync (O:=ClusterRoleBinding) w w1 k Hcs) as Hs.
    simpl in Hs. apply Hs; congruence. }
  apply wp_bind_assoc. eapply wp_bind_if_ok; [apply (release_loop _ _ key); [done|by rewrite Hv1]| |by intros e w' ? _].
  intros r w2 (-> & Hot2 & Hk2).
  assert (s_ClusterRoles (view w2) = s_ClusterRoles (view w1)) as Hcr2
    by (unfold only_tbl in Hot2; by rewrite Hot2).
  eapply wp_mono; [eapply mark_or_create; [|exact Hk2]; by rewrite Hv1|].
  intros [[]|e| |] w3 Hr; simpl in *; try done. destruct Hr as [Hot3 Hmem]. split; [|done].
  assert (s_ClusterRoles (view w3) = s_ClusterRoles (view w2)) as ->
    by (unfold only_tbl in Hot3; by rewrite Hot3).
  rewrite Hcr2, Hcr1. eauto.
Qed.

(** ** Membership of a project *)

Lemma reconcileMembership_noop {O} `{!Stored O, !StoredLaws O, !Client W O, !ClientLaws W O}
    (convert : O → string) ns roleToKeep uid Q w :
  (∀ k o, tbl (cached w) !! k = Some o →
     Labels (meta o) !! uid = Some membershipBindingOwner → convert o = roleToKeep) →
  Q (Ok tt) w → wp (reconcileMembershipBindingForDelete convert ns roleToKeep uid) Q w.
Proof.
  intros Hkeep HQ. unfold reconcileMembershipBindingForDelete. apply wp_bind, wp_reads.
  destruct (lister_list_law (O:=O) ns {[ uid := membershipBindingOwner ]} w) as (l & Hl & _).
  rewrite Hl. simpl. eapply wp_mono; [apply (wp_for_each_returns (λ _ w', w' = w))|].
  - done.
  - intros don o rest w' Heq ->.
    destruct (proj1 (elem_of_lister _ _ _ _ o Hl)) as (Ho & _ & Hsel).
    { rewrite Heq. apply elem_of_app. right. left. }
    apply map_singleton_subseteq_l in Hsel. rewrite (Hkeep _ _ Ho Hsel), String.eqb_refl.
    by apply wp_ret.
  - intros [[]|e| |] w' Hr; simpl in Hr; try done. by subst.
Qed.

Lemma ensureProject_creates roleName uid ns project makeOwner subject w :
  ClientHealthy W Role → ClientHealthy W RoleBinding →
  roleName ≠ "" →
  s_Roles (cached w) = s_Roles (view w) →
  s_RoleBindings (cached w) = s_RoleBindings (view w) →
  (∀ k rb, s_RoleBindings (view w) !! k = Some rb →
     Labels (rb_meta rb) !! uid = Some membershipBindingOwner →
     length (rb_Subjects rb) = 1 ∧ rr_Name (rb_RoleRef rb) = roleName) →
  (∀ k crb, s_ClusterRoleBindings (cached w) !! k = Some crb →
     rbRoleSubjectKey roleName subject ∉ crbByRoleAndSubject crb) →
  (∀ k crb, s_ClusterRoleBindings (view w) !! k = Some crb →
     rbRoleSubjectKey roleName subject ∉ crbByRoleAndSubject crb) →
  wp (ensureProjectMembershipBinding roleName uid ns project makeOwner subject)
    (returns (λ _ w', ∃ rb, s_RoleBindings (view w) !! obj_key rb = None ∧
       s_RoleBindings (view w') = <[obj_key rb := rb]> (s_RoleBindings (view w)) ∧
       Namespace (rb_meta rb) = ns ∧ rr_Name (rb_RoleRef rb) = roleName ∧
       Labels (rb_meta rb) = {[ uid := membershipBindingOwner ]} ∧
       Forall2 same_subject [subject] (rb_Subjects rb))) w.
Proof.
  intros Hhr Hhrb Hname Hr Hrb Hmine Hcrbc Hcrbv. unfold ensureProjectMembershipBinding.
  eapply wp_bind_returns.
  { eapply wp_if_ok_returns; [apply createProjectRole_ok; [done|by rewrite Hr]|]. by intros e w' HQ. }
  intros [] w1 (Hcs & [Hot _] & _).
  assert (s_RoleBindings (view w1) = s_RoleBindings (view w)) as Hv1
    by (unfold only_tbl in Hot; by rewrite Hot).
  assert (s_ClusterRoleBindings (view w1) = s_ClusterRoleBindings (view w)) as Hv1'
    by (unfold only_tbl in Hot; by rewrite Hot).
  assert (s_RoleBindings (cached w1) = s_RoleBindings (view w)) as Hc1.
  { apply map_eq. intros k. rewrite <-Hv1.
    pose proof (cache_step_sync (O:=RoleBinding) w w1 k Hcs) as Hs. simpl in Hs. apply Hs; congruence. }
  apply wp_bind, wp_reads.
  destruct (lister_list_law (O:=RoleBinding) "" {[ uid := membershipBindingOwner ]} w1) as (l & Hl & _).
  rewrite Hl. simpl. eapply (wp_bind_returns _ _ (λ r w2, r = None ∧ w2 = w1)).
  - eapply wp_mono; [apply (wp_for_fold (λ _ r w2, r = None ∧ w2 = w1) (λ _ _, False)); [done|]|
                     by intros []].
    intros don rb rest r w2 Heq [-> ->]. destruct (proj1 (elem_of_lister _ _ _ _ rb Hl)) as (Ho & _ & Hsel).
    { rewrite Heq. apply elem_of_app. right. left. }
    apply map_singleton_subseteq_l in Hsel. simpl in Ho, Hsel. rewrite Hc1 in Ho.
    destruct (Hmine _ _ Ho Hsel) as [-> _]. simpl.
    apply wp_bind, reconcileMembership_noop; [|by apply wp_ret].
    intros k o Hk Hlab. simpl in Hk. rewrite Hc1 in Hk. by destruct (Hmine _ _ Hk Hlab).
  - intros r w2 [-> ->]. apply wp_bind, wp_reads.
    destruct (by_index_law (O:=ClusterRoleBinding) crbByRoleAndSubject
      (rbRoleSubjectKey roleName subject) w1) as (objs & Hobjs & _).
    rewrite Hobjs. simpl. destruct objs as [|crb objs].
    2:{ exfalso. destruct (proj1 (elem_of_index _ _ _ _ crb Hobjs)) as [Hc Hin]; [by left|].
        destruct (cache_step_tbl (O:=ClusterRoleBinding) w w1 (obj_key crb) Hcs) as [He|He];
          rewrite Hc in He; symmetry in He; simpl in He; [|rewrite Hv1' in He];
          [by eapply Hcrbc|by eapply Hcrbv]. }
    apply wp_bind, wp_create; simpl; [|by intros e w2 _ _ Hno; destruct (Hno Hhrb)].
    intros rb w2 Hst Hnone Hv2 _. apply wp_ret. simpl. exists rb. rewrite <-Hv1. split; [done|].
    split. { rewrite Hv2. exact (tbl_put rb (view w1)). }
    destruct Hst as (Hns & _ & _ & Hlab & _ & _ & Hsub & _ & Hrole). done.
Qed.

(** ** Properties *)

(** Releasing the membership bindings of a role template binding.  Every
    binding of the namespace marked with its UID that is for another role than
    the one to keep loses the mark, and is deleted when no mark is left; no other
    object changes.  With up-to-date caches it fails only if the API server does. *)
Theorem reconcileMembershipBindingForDelete_correct {O} `{!Stored O, !StoredLaws O, !Client W O, !ClientLaws W O}
    (convert : O → string) ns roleToKeep uid w :
  tbl (O:=O) (cached w) = tbl (view w) → scoped ns (view w) →
  wp (reconcileMembershipBindingForDelete convert ns roleToKeep uid)
    (if_ok (λ _ w', all_released convert ns roleToKeep uid (view w) (view w'))
           (λ _ _, ¬ ClientHealthy W O)) w.
Proof.
  intros Hs Hsc. eapply wp_mono; [by apply (reconcileMembership_released _ _ _ _ (λ _, True))|].
  intros [[]|e| |] w' Hr; simpl in *; try done. by destruct Hr.
Qed.

(** Ensuring membership of a cluster.  If the bindings marked for the role
    template binding are as the code leaves them, then after the call the
    membership role exists, a binding of that role to the subject is marked, and
    no binding of another role is.  With up-to-date caches it fails only if the
    API server does. *)
Theorem ensureClusterMembershipBinding_correct roleName uid cluster makeOwner subject w :
  let key := rbRoleSubjectKey roleName subject in
  roleName ≠ "" →
  s_ClusterRoles (cached w) = s_ClusterRoles (view w) →
  s_ClusterRoleBindings (cached w) = s_ClusterRoleBindings (view w) →
  tidy roleName uid key (s_ClusterRoleBindings (view w)) →
  wp (ensureClusterMembershipBinding roleName uid cluster makeOwner subject)
    (if_ok (λ _ w', is_Some (s_ClusterRoles (view w') !! ("", roleName)) ∧
              is_member roleName uid key (s_ClusterRoleBindings (view w')))
       (λ _ _, ClientHealthy W ClusterRole → ¬ ClientHealthy W ClusterRoleBinding)) w.
Proof. apply ensureCluster_ok. Qed.

(** Ensuring membership of a project creates a new role binding at every call,
    also when the subject is bound to the role already: the existing binding is
    looked up in the index of the cluster role bindings. *)
Theorem ensureProjectMembershipBinding_duplicates roleName uid ns project makeOwner subject w :
  ClientHealthy W Role → ClientHealthy W RoleBinding →
  roleName ≠ "" →
  s_Roles (cached w) = s_Roles (view w) →
  s_RoleBindings (cached w) = s_RoleBindings (view w) →
  (∀ k rb, s_RoleBindings (view w) !! k = Some rb →
     Labels (rb_meta rb) !! uid = Some membershipBindingOwner →
     length (rb_Subjects rb) = 1 ∧ rr_Name (rb_RoleRef rb) = roleName) →
  (∀ k crb, s_ClusterRoleBindings (cached w) !! k = Some crb →
     rbRoleSubjectKey roleName subject ∉ crbByRoleAndSubject crb) →
  (∀ k crb, s_ClusterRoleBindings (view w) !! k = Some crb →
     rbRoleSubjectKey roleName subject ∉ crbByRoleAndSubject crb) →
  wp (ensureProjectMembershipBinding roleName uid ns project makeOwner subject)
    (returns (λ _ w', ∃ rb, s_RoleBindings (view w) !! obj_key rb = None ∧
       s_RoleBindings (view w') = <[obj_key rb := rb]> (s_RoleBindings (view w)) ∧
       Namespace (rb_meta rb) = ns ∧ rr_Name (rb_RoleRef rb) = roleName ∧
       Labels (rb_meta rb) = {[ uid := membershipBindingOwner ]} ∧
       Forall2 same_subject [subject] (rb_Subjects rb))) w.
Proof. apply ensureProject_creates. Qed.

End ensure.

Abbreviation dotless s := (has_char "."%char s = false).

(** For role names and subject kinds without dots, the key of the index tells
    role, kind and name of the subject apart. *)
Theorem rbRoleSubjectKey_injective role role' subject subject' :
  dotless role → dotless role' → dotless (s_Kind subject) → dotless (s_Kind subject') →
  rbRoleSubjectKey role subject = rbRoleSubjectKey role' subject' →
  role = role' ∧ s_Kind subject = s_Kind subject' ∧ s_Name subject = s_Name subject'.
Proof.
  intros Hr Hr' Hk Hk' Heq. unfold rbRoleSubjectKey in Heq.
  apply append_char_inj in Heq as [-> Heq]; [|done..].
  by apply append_char_inj in Heq as [? ?].
Qed.

(** *** Witnesses *)

Lemma rbRoleSubjectKey_injective_witness :
  rbRoleSubjectKey "c-1-clustermember" (mkSubject "User" "u.1") ≠
  rbRoleSubjectKey "c-1-clusterowner" (mkSubject "User" "u.1").
Proof.
  intros Heq.
  destruct (rbRoleSubjectKey_injective "c-1-clustermember" "c-1-clusterowner"
    (mkSubject "User" "u.1") (mkSubject "User" "u.1")) as [? _]; [reflexivity..|exact Heq|].
  discriminate.
Defined.

Definition demo_crb (name role : string) (labels : gmap string string) : ClusterRoleBinding :=
  {| crb_meta := named_meta name labels ∅ [];
     crb_Subjects := [mkSubject "User" "u-1"];
     crb_RoleRef := {| rr_APIGroup := ""; rr_Kind := "ClusterRole"; rr_Name := role |} |}.

(** A subject that was an owner, through a binding of this UID only, and is a
    member through another one. *)
Definition demo_crbs : gmap nsname ClusterRoleBinding :=
  {[ ("", "crb-1") := demo_crb "crb-1" "c-1-clusterowner" {[ "uid-1" := membershipBindingOwner ]};
     ("", "crb-2") := demo_crb "crb-2" "c-1-clustermember" {[ "uid-2" := membershipBindingOwner ]} ]}.

Definition demo_members : Sim := synced (set_s_ClusterRoleBindings demo_crbs empty_state).

Definition demo_cluster : Cluster :=
  {| cluster_meta := named_meta "c-1" ∅ ∅ [];
     cluster_type := {| Kind := "Cluster"; APIVersion := "v3" |}; cluster_Spec := no_spec;
     cluster_Status := no_status; cluster_Conditions := [] |}.

Lemma demo_crbs_view : s_ClusterRoleBindings (view demo_members) = demo_crbs.
Proof. refine (bool_decide_eq_true_1 _ _). vm_compute. reflexivity. Qed.

Lemma demo_crbs_lookup k rb : demo_crbs !! k = Some rb →
  (k = ("", "crb-1") ∧ rb = demo_crb "crb-1" "c-1-clusterowner" {[ "uid-1" := membershipBindingOwner ]}) ∨
  (k = ("", "crb-2") ∧ rb = demo_crb "crb-2" "c-1-clustermember" {[ "uid-2" := membershipBindingOwner ]}).
Proof.
  unfold demo_crbs. rewrite lookup_insert_Some, lookup_singleton_Some. naive_solver.
Qed.

Lemma reconcileMembershipBindingForDelete_correct_witness :
  ∃ w', reconcileClusterMembershipBindingForDelete "c-1-clustermember" "uid-1" demo_members =
          (Ok tt, w') ∧
    all_released (λ rb : ClusterRoleBinding, rr_Name (crb_RoleRef rb)) "" "c-1-clustermember" "uid-1"
      (view demo_members) (view w').
Proof.
  refine (run_ok _ _ _ demo_members tt
    (reconcileMembershipBindingForDelete_correct
       (λ rb : ClusterRoleBinding, rr_Name (crb_RoleRef rb)) "" "c-1-clustermember" "uid-1"
       demo_members _ _) _).
  - reflexivity.
  - right. intros k o Ho. change (s_ClusterRoleBindings (view demo_members) !! k = Some o) in Ho.
    rewrite demo_crbs_view in Ho. by apply demo_crbs_lookup in Ho as [[-> _]|[-> _]].
  - vm_compute. reflexivity.
Defined.

Lemma ensureClusterMembershipBinding_correct_witness :
  ∃ w', ensureClusterMembershipBinding "c-1-clustermember" "uid-1" demo_cluster false
          (mkSubject "User" "u-1") demo_members = (Ok tt, w') ∧
    is_Some (s_ClusterRoles (view w') !! ("", "c-1-clustermember")) ∧
    is_member "c-1-clustermember" "uid-1"
      (rbRoleSubjectKey "c-1-clustermember" (mkSubject "User" "u-1"))
      (s_ClusterRoleBindings (view w')).
Proof.
  refine (run_ok _ _ _ demo_members tt
    (ensureClusterMembershipBinding_correct "c-1-clustermember" "uid-1" demo_cluster false
       (mkSubject "User" "u-1") demo_members _ _ _ _) _).
  - done.
  - reflexivity.
  - reflexivity.
  - rewrite demo_crbs_view. split_and!.
    + by intros k rb [[-> _]|[-> _]]%demo_crbs_lookup.
    + by intros k rb [[_ ->]|[_ ->]]%demo_crbs_lookup.
    + by intros k k' rb rb' [[-> ->]|[-> ->]]%demo_crbs_lookup [[-> ->]|[-> ->]]%demo_crbs_lookup.
    + intros k rb [[_ ->]|[_ ->]]%demo_crbs_lookup; [|done].
      intros Hin%list_elem_of_singleton. by vm_compute in Hin.
  - vm_compute. reflexivity.
Defined.

Definition demo_project : Project :=
  {| proj_meta := named_meta "p-1" ∅ ∅ []; proj_type := {| Kind := "Project"; APIVersion := "v3" |};
     proj_DisplayName := "p"; proj_Description := ""; proj_ClusterName := "c-1";
     proj_Conditions := [] |}.

(** The subject is bound to the project already. *)
Definition demo_member_rb : RoleBinding :=
  {| rb_meta := {| Name := "rb-1"; GenerateName := ""; Namespace := "c-1"; UID := ""; ResourceVersion := "";
                   Labels := {[ "uid-1" := membershipBindingOwner ]}; Annotations := ∅;
                   OwnerReferences := []; CreationTimestamp := 0; DeletionTimestamp := None |};
     rb_Subjects := [mkSubject "User" "u-1"];
     rb_RoleRef := {| rr_APIGroup := ""; rr_Kind := "Role"; rr_Name := "p-1-projectmember" |} |}.

Definition demo_bound : Sim :=
  synced (set_s_RoleBindings {[ ("c-1", "rb-1") := demo_member_rb ]} empty_state).

Lemma ensureProjectMembershipBinding_duplicates_witness :
  wp (ensureProjectMembershipBinding "p-1-projectmember" "uid-1" "c-1" demo_project false
        (mkSubject "User" "u-1"))
    (returns (λ _ w', ∃ rb, s_RoleBindings (view demo_bound) !! obj_key rb = None ∧
       s_RoleBindings (view w') = <[obj_key rb := rb]> (s_RoleBindings (view demo_bound)) ∧
       Namespace (rb_meta rb) = "c-1" ∧ rr_Name (rb_RoleRef rb) = "p-1-projectmember" ∧
       Labels (rb_meta rb) = {[ "uid-1" := membershipBindingOwner ]} ∧
       Forall2 same_subject [mkSubject "User" "u-1"] (rb_Subjects rb))) demo_bound.
Proof.
  apply (ensureProjectMembershipBinding_duplicates "p-1-projectmember" "uid-1" "c-1" demo_project
           false (mkSubject "User" "u-1") demo_bound).
  - apply _.
  - apply _.
  - done.
  - reflexivity.
  - reflexivity.
  - intros k rb Hk _.
    assert (s_RoleBindings (view demo_bound) = {[ ("c-1", "rb-1") := demo_member_rb ]}) as Heq
      by (refine (bool_decide_eq_true_1 _ _); vm_compute; reflexivity).
    rewrite Heq in Hk. clear Heq. apply lookup_singleton_Some in Hk as [_ <-]. split; reflexivity.
  - intros k crb Hk. change (s_ClusterRoleBindings (cached demo_bound)) with (∅ : gmap nsname ClusterRoleBinding) in Hk.
    by rewrite lookup_empty in Hk.
  - intros k crb Hk. change (s_ClusterRoleBindings (view demo_bound)) with (∅ : gmap nsname ClusterRoleBinding) in Hk.
    by rewrite lookup_empty in Hk.
Defined.
