(* ===== verification/MgmtHandlers.v ===== *)
(** * Management-plane RBAC: the handlers

    [src/pkg/controllers/management/auth]: the lifecycles of cluster and project
    role template bindings ([crtb_handler.go], [prtb_handler.go]), of global roles
    and their bindings ([globalrole_handler.go], [globalrolebinding_handler.go]),
    of projects and clusters ([project_cluster_handler.go]) and of users
    ([user.go]).  A handler that returns an object and an error is modelled by a
    call that returns the object when there is no error. *)

From stdpp Require Import base gmap list strings.
From S2P Require Import Prelude.
From S2P Require Import GoLib.
From S2P Require Import KubeTypes.
From S2P Require Import KubeObjects.
From S2P Require Import Kube.
From S2P Require Import Cond.
From S2P Require Import MgmtManager.

(** The interface [user.Manager] of [rancher/types], as the handlers use it. *)
Class UserManager (W : Type) := { EnsureUser : string → string → M W User }.

Definition clusterManagmentPlaneResources : list string :=
  ["clusterroletemplatebindings"; "nodes"; "nodepools"; "clusterevents";
   "projects"; "clusterregistrationtokens"; "clusterpipelines"; "clusterloggings"; "notifiers";
   "clusteralerts"; "podsecuritypolicytemplateprojectbindings"].

Definition projectManagmentPlaneResources : list string :=
  ["projectroletemplatebindings"; "apps"; "secrets"; "pipelines"; "pipelineexecutions";
   "pipelineexecutionlogs"; "projectloggings"; "projectalerts"].

Definition prtbClusterManagmentPlaneResources : list string := ["notifiers"; "clusterpipelines"].

Notation creatorIDAnn := "field.cattle.io/creatorId" (only parsing).
Definition creatorOwnerBindingAnnotation : string :=
  "authz.management.cattle.io/creator-owner-binding".
Definition defaultProjectLabels : gmap string string :=
  {[ "authz.management.cattle.io/default-project" := "true" ]}.
Definition crtbCeatorOwnerAnnotations : gmap string string :=
  {[ creatorOwnerBindingAnnotation := "true" ]}.

Definition globalRoleLabel : gmap string string :=
  {[ "authz.management.cattle.io/globalrole" := "true" ]}.
Notation crNameAnnotation := "authz.management.cattle.io/cr-name" (only parsing).
Notation clusterRoleKind := "ClusterRole" (only parsing).
Definition globalRoleBindingLabel : gmap string string :=
  {[ "authz.management.cattle.io/globalrolebinding" := "true" ]}.
Notation crbNameAnnotation := "authz.management.cattle.io/crb-name" (only parsing).
Notation crbNamePrefix := "cattle-globalrolebinding-" (only parsing).

(** The conditions of [rancher/types]. *)
Notation NamespaceBackedResource := "BackingNamespaceCreated" (only parsing).
Notation CreatorMadeOwner := "CreatorMadeOwner" (only parsing).
Notation DefaultProjectCreated := "DefaultProjectCreated" (only parsing).
Notation ClusterConditionInitialRolesPopulated := "InitialRolesPopulated" (only parsing).

Definition with_crtb_UserName (u : string) (b : ClusterRoleTemplateBinding) :
    ClusterRoleTemplateBinding :=
  {| crtb_meta := crtb_meta b; crtb_type := crtb_type b; crtb_UserName := u;
     crtb_UserPrincipalName := crtb_UserPrincipalName b; crtb_GroupName := crtb_GroupName b;
     crtb_GroupPrincipalName := crtb_GroupPrincipalName b; crtb_ClusterName := crtb_ClusterName b;
     crtb_RoleTemplateName := crtb_RoleTemplateName b |}.

Definition with_prtb_UserName (u : string) (b : ProjectRoleTemplateBinding) :
    ProjectRoleTemplateBinding :=
  {| prtb_meta := prtb_meta b; prtb_type := prtb_type b; prtb_UserName := u;
     prtb_UserPrincipalName := prtb_UserPrincipalName b; prtb_GroupName := prtb_GroupName b;
     prtb_GroupPrincipalName := prtb_GroupPrincipalName b; prtb_ProjectName := prtb_ProjectName b;
     prtb_RoleTemplateName := prtb_RoleTemplateName b |}.

(** [m["k"]] of a map that may lack the key. *)
Definition get_str (m : gmap string string) (k : string) : string := default "" (m !! k).

Module Crtb.
Section crtb.
Context {W : Type} `{!GoRuntime W, !UserManager W}.
Context `{!Client W ClusterRole, !Client W Role, !Client W ClusterRoleBinding,
          !Client W RoleBinding, !Client W RoleTemplate, !Client W Cluster, !Client W Project}.

Definition reconcileSubject (binding : ClusterRoleTemplateBinding) : M W ClusterRoleTemplateBinding :=
  if negb (String.eqb (crtb_UserName binding) "") || negb (String.eqb (crtb_GroupName binding) "")
     || negb (String.eqb (crtb_GroupPrincipalName binding) "")
  then ret binding
  else if negb (String.eqb (crtb_UserPrincipalName binding) "") && String.eqb (crtb_UserName binding) ""
  then
    let displayName := get_str (Annotations (crtb_meta binding))
                         "auth.cattle.io/principal-display-name" in
    let* user := EnsureUser (crtb_UserPrincipalName binding) displayName in
    ret (with_crtb_UserName (Name (user_meta user)) binding)
  else throw (PlainError ("Binding " +:+ Name (crtb_meta binding) +:+ " has no subject")).

(** The lister returns no nil cluster without an error, so the test for one is
    not taken. *)
Definition reconcilBindings (fuel : nat) (binding : ClusterRoleTemplateBinding) : M W unit :=
  if String.eqb (crtb_UserName binding) "" && String.eqb (crtb_GroupPrincipalName binding) ""
     && String.eqb (crtb_GroupName binding) "" then ret tt else
  let clusterName := crtb_ClusterName binding in
  let* cluster := reads (lister_Get (O:=Cluster) "" clusterName) in
  let isOwnerRole := String.eqb (crtb_RoleTemplateName binding) "cluster-owner" in
  let clusterRoleName := ToLower (clusterName +:+ (if isOwnerRole then "-clusterowner"
                                                   else "-clustermember")) in
  let* subject := reads (λ _, buildSubjectFromRTB (rtb_cluster binding)) in
  do* ensureClusterMembershipBinding clusterRoleName (UID (crtb_meta binding)) cluster isOwnerRole subject in
  do* grantManagementPlanePrivileges fuel (crtb_RoleTemplateName binding) clusterManagmentPlaneResources
        subject (crtb_type binding) (crtb_meta binding) in
  let* projects := reads (lister_List (O:=Project) (Namespace (crtb_meta binding)) Everything) in
  for_each (λ p, grantManagementClusterScopedPrivilegesInProjectNamespace fuel
                   (crtb_RoleTemplateName binding) (Name (proj_meta p))
                   projectManagmentPlaneResources subject binding) projects.

Definition removeMGMTClusterScopedPrivilegesInProjectNamespace
    (binding : ClusterRoleTemplateBinding) : M W unit :=
  let* projects := reads (lister_List (O:=Project) (Namespace (crtb_meta binding)) Everything) in
  for_each (λ p,
    let ns := Name (proj_meta p) in
    let* rbs := reads (lister_List (O:=RoleBinding) ns
                         {[ UID (crtb_meta binding) := crtbInProjectBindingOwner ]}) in
    for_each (λ rb, api_delete (O:=RoleBinding) ns (Name (rb_meta rb))) rbs) projects.

Definition Create (fuel : nat) (obj : ClusterRoleTemplateBinding) : M W ClusterRoleTemplateBinding :=
  let* obj := reconcileSubject obj in
  do* reconcilBindings fuel obj in
  if String.eqb (get_str (Annotations (crtb_meta obj)) creatorOwnerBindingAnnotation) "true" then
    let* cluster := reads (lister_Get (O:=Cluster) "" (crtb_ClusterName obj)) in
    if IsTrue ClusterConditionInitialRolesPopulated cluster then ret obj else
    let* cluster := at_now (λ now, setStatus now ClusterConditionInitialRolesPopulated "True" cluster) in
    do* api_update "" cluster in ret obj
  else ret obj.

Definition Updated (fuel : nat) (obj : ClusterRoleTemplateBinding) : M W ClusterRoleTemplateBinding :=
  let* obj := reconcileSubject obj in
  do* reconcilBindings fuel obj in
  ret obj.

Definition Remove (obj : ClusterRoleTemplateBinding) : M W unit :=
  do* reconcileClusterMembershipBindingForDelete "" (UID (crtb_meta obj)) in
  removeMGMTClusterScopedPrivilegesInProjectNamespace obj.

End crtb.
End Crtb.

Module Prtb.
Section prtb.
Context {W : Type} `{!GoRuntime W, !UserManager W}.
Context `{!Client W ClusterRole, !Client W Role, !Client W ClusterRoleBinding,
          !Client W RoleBinding, !Client W RoleTemplate, !Client W Cluster, !Client W Project}.

Definition reconcileSubject (binding : ProjectRoleTemplateBinding) : M W ProjectRoleTemplateBinding :=
  if negb (String.eqb (prtb_UserName binding) "") || negb (String.eqb (prtb_GroupName binding) "")
     || negb (String.eqb (prtb_GroupPrincipalName binding) "")
  then ret binding
  else if negb (String.eqb (prtb_UserPrincipalName binding) "") && String.eqb (prtb_UserName binding) ""
  then
    let displayName := get_str (Annotations (prtb_meta binding))
                         "auth.cattle.io/principal-display-name" in
    let* user := EnsureUser (prtb_UserPrincipalName binding) displayName in
    ret (with_prtb_UserName (Name (user_meta user)) binding)
  else throw (PlainError ("Binding " +:+ Name (prtb_meta binding) +:+ " has no subject")).

Definition reconcileBindings (fuel : nat) (binding : ProjectRoleTemplateBinding) : M W unit :=
  if String.eqb (prtb_UserName binding) "" && String.eqb (prtb_GroupPrincipalName binding) ""
     && String.eqb (prtb_GroupName binding) "" then ret tt else
  match SplitN2 (prtb_ProjectName binding) ":" with
  | clusterName :: projectName :: _ =>
    let* proj := reads (lister_Get (O:=Project) clusterName projectName) in
    let* cluster := reads (lister_Get (O:=Cluster) "" clusterName) in
    let roleName := ToLower (clusterName +:+ "-clustermember") in
    let isOwnerRole := String.eqb (prtb_RoleTemplateName binding) "project-owner" in
    let projectRoleName := ToLower (projectName +:+ (if isOwnerRole then "-projectowner"
                                                     else "-projectmember")) in
    let* subject := reads (λ _, buildSubjectFromRTB (rtb_project binding)) in
    do* ensureProjectMembershipBinding projectRoleName (UID (prtb_meta binding)) clusterName proj
          isOwnerRole subject in
    do* ensureClusterMembershipBinding roleName (UID (prtb_meta binding)) cluster false subject in
    do* grantManagementProjectScopedPrivilegesInClusterNamespace fuel (prtb_RoleTemplateName binding)
          (Namespace (proj_meta proj)) prtbClusterManagmentPlaneResources subject binding in
    grantManagementPlanePrivileges fuel (prtb_RoleTemplateName binding)
      projectManagmentPlaneResources subject (prtb_type binding) (prtb_meta binding)
  | _ => throw (PlainError ("cannot determine project and cluster from " +:+ prtb_ProjectName binding))
  end.

Definition Create (fuel : nat) (obj : ProjectRoleTemplateBinding) : M W ProjectRoleTemplateBinding :=
  let* obj := reconcileSubject obj in
  do* reconcileBindings fuel obj in
  ret obj.

Definition Updated (fuel : nat) (obj : ProjectRoleTemplateBinding) : M W ProjectRoleTemplateBinding :=
  let* obj := reconcileSubject obj in
  do* reconcileBindings fuel obj in
  ret obj.

Definition Remove (obj : ProjectRoleTemplateBinding) : M W unit :=
  match SplitN2 (prtb_ProjectName obj) ":" with
  | clusterName :: _ :: _ =>
    do* reconcileProjectMembershipBindingForDelete clusterName "" (UID (prtb_meta obj)) in
    reconcileClusterMembershipBindingForDelete "" (UID (prtb_meta obj))
  | _ => throw (PlainError ("cannot determine project and cluster from " +:+ prtb_ProjectName obj))
  end.

End prtb.
End Prtb.

Module Global.

Definition generateCRName (name : string) : string := "cattle-globalrole-" +:+ name.

Definition getCRName (globalRole : GlobalRole) : string :=
  match Annotations (gr_meta globalRole) !! crNameAnnotation with
  | Some crName => crName
  | None => generateCRName (Name (gr_meta globalRole))
  end.

Section global.
Context {W : Type} `{!GoRuntime W}.
Context `{!Client W ClusterRole, !CacheAlias W ClusterRole, !Client W ClusterRoleBinding,
          !Client W GlobalRole}.

(** The cluster role the lister returns is assigned to before it is sent: what the
    cache shows changes, whether or not the update succeeds.  The result is the
    global role with the annotation the code adds to it. *)
Definition reconcileGlobalRole (globalRole : GlobalRole) : M W GlobalRole :=
  let crName := getCRName globalRole in
  let* found := reads (λ w, Ok (or_nil (lister_Get (O:=ClusterRole) "" crName w))) in
  match found with
  | Some clusterRole =>
    if decide (gr_Rules globalRole = cr_Rules clusterRole) then ret globalRole else
    let clusterRole := {| cr_meta := cr_meta clusterRole; cr_Rules := gr_Rules globalRole |} in
    do* (λ w, (Ok tt, cache_write clusterRole w)) in
    do* wrap_err ("couldn't update ClusterRole " +:+ Name (cr_meta clusterRole))
          (api_update "" clusterRole) in
    ret globalRole
  | None =>
    let m := gr_meta globalRole in
    do* api_create "" {| cr_meta := named_meta crName globalRoleLabel ∅
                           [{| or_APIVersion := APIVersion (gr_type globalRole);
                               or_Kind := Kind (gr_type globalRole);
                               or_Name := Name m; or_UID := UID m |}];
                         cr_Rules := gr_Rules globalRole |} in
    ret (set_gr_meta (with_Annotations (<[crNameAnnotation := crName]> (Annotations m)) m) globalRole)
  end.

Definition gr_Create (obj : GlobalRole) : M W GlobalRole := reconcileGlobalRole obj.

Definition gr_Updated (obj : GlobalRole) : M W unit := do* reconcileGlobalRole obj in ret tt.

Definition gr_Remove (obj : GlobalRole) : M W unit := ret tt.

Definition reconcileGlobalRoleBinding (globalRoleBinding : GlobalRoleBinding) :
    M W GlobalRoleBinding :=
  let m := grb_meta globalRoleBinding in
  let crbName := match Annotations m !! crbNameAnnotation with
                 | Some crbName => crbName
                 | None => crbNamePrefix +:+ Name m
                 end in
  let subject := mkSubject "User" (grb_UserName globalRoleBinding) in
  let* found := reads (λ w, Ok (or_nil (lister_Get (O:=ClusterRoleBinding) "" crbName w))) in
  let* gr := reads (λ w, Ok (or_nil (lister_Get (O:=GlobalRole) ""
                                       (grb_GlobalRoleName globalRoleBinding) w))) in
  match found with
  | Some crb =>
    let subjects := [subject] in
    let updateSubject := negb (bool_decide (subjects = crb_Subjects crb)) in
    let newRoleRef := match gr with
      | Some gr =>
        let crNameFromGR := getCRName gr in
        if String.eqb crNameFromGR (rr_Name (crb_RoleRef crb)) then None
        else Some {| rr_APIGroup := ""; rr_Kind := clusterRoleKind; rr_Name := crNameFromGR |}
      | None => None
      end in
    if updateSubject || bool_decide (is_Some newRoleRef) then
      do* wrap_err ("couldn't update ClusterRoleBinding " +:+ Name (crb_meta crb))
            (api_update "" {| crb_meta := crb_meta crb; crb_Subjects := subjects;
                              crb_RoleRef := default (crb_RoleRef crb) newRoleRef |}) in
      ret globalRoleBinding
    else ret globalRoleBinding
  | None =>
    let crName := match gr with
                  | Some gr => getCRName gr
                  | None => generateCRName (grb_GlobalRoleName globalRoleBinding)
                  end in
    do* api_create "" {| crb_meta := named_meta crbName globalRoleBindingLabel ∅
                           [{| or_APIVersion := APIVersion (grb_type globalRoleBinding);
                               or_Kind := Kind (grb_type globalRoleBinding);
                               or_Name := Name m; or_UID := UID m |}];
                         crb_Subjects := [subject];
                         crb_RoleRef := {| rr_APIGroup := ""; rr_Kind := clusterRoleKind;
                                           rr_Name := crName |} |} in
    ret (set_grb_meta (with_Annotations (<[crbNameAnnotation := crbName]> (Annotations m)) m)
           globalRoleBinding)
  end.

Definition grb_Create (obj : GlobalRoleBinding) : M W GlobalRoleBinding :=
  reconcileGlobalRoleBinding obj.

Definition grb_Updated (obj : GlobalRoleBinding) : M W unit :=
  do* reconcileGlobalRoleBinding obj in ret tt.

Definition grb_Remove (obj : GlobalRoleBinding) : M W unit := ret tt.

End global.
End Global.

Module ProjectCluster.

(** The two kinds of [runtime.Object] the handlers are called with; the kind of
    the type metadata is the one the code switches on. *)
Class Resource (O : Type) `{!Stored O, !Conditioned O} := { type_meta : O → TypeMeta }.

#[export] Instance Project_resource : Resource Project := { type_meta := proj_type }.
#[export] Instance Cluster_resource : Resource Cluster := { type_meta := cluster_type }.

Section project_cluster.
Context {W : Type} `{!GoRuntime W}.
Context `{!Client W NamespaceObject, !Client W Project, !Client W Cluster,
          !Client W ProjectRoleTemplateBinding, !Client W ClusterRoleTemplateBinding}.

(** A step that returns the object it was given. *)
Definition step_of {O} (f : O → M W unit) : cond_step := λ obj : O,
  let* r := attempt (f obj) in
  ret (Some obj, match r with inl e => Some e | inr _ => None end).

Definition createDefaultProject (obj : Cluster) : M W (Cluster * option goerr) :=
  DoUntilTrue DefaultProjectCreated obj (step_of (λ obj : Cluster,
    let name := Name (cluster_meta obj) in
    let* projects := reads (lister_List (O:=Project) name defaultProjectLabels) in
    match projects with
    | _ :: _ => ret tt
    | [] =>
      match Annotations (cluster_meta obj) !! creatorIDAnn with
      | None => ret tt
      | Some creatorID =>
        do* api_create name
              {| proj_meta := generate_meta "project-" defaultProjectLabels {[ creatorIDAnn := creatorID ]};
                 proj_type := {| Kind := ""; APIVersion := "" |};
                 proj_DisplayName := "Default";
                 proj_Description := "Default project created for the cluster";
                 proj_ClusterName := name; proj_Conditions := [] |} in
        ret tt
      end
    end)).

(** The [metav1.ObjectMeta] of a creator binding. *)
Definition creator_meta (ns : string) (annotations : gmap string string) : ObjectMeta :=
  {| Name := "creator"; GenerateName := ""; Namespace := ns; UID := ""; ResourceVersion := ""; Labels := ∅;
     Annotations := annotations; OwnerReferences := [];
     CreationTimestamp := 0; DeletionTimestamp := None |}.

Definition no_type : TypeMeta := {| Kind := ""; APIVersion := "" |}.

Definition creatorRTB {O} `{!Stored O, !Conditioned O, !Resource O} (obj : O) : M W unit :=
  match Annotations (meta obj) !! creatorIDAnn with
  | None => ret tt
  | Some creatorID =>
    let name := Name (meta obj) in
    if String.eqb (Kind (type_meta obj)) "Project" then
      let* rtb := reads (λ w, Ok (or_nil (lister_Get (O:=ProjectRoleTemplateBinding) name "creator" w))) in
      match rtb with
      | Some _ => ret tt
      | None =>
        do* api_create name
              {| prtb_meta := creator_meta name ∅; prtb_type := no_type; prtb_UserName := creatorID;
                 prtb_UserPrincipalName := ""; prtb_GroupName := ""; prtb_GroupPrincipalName := "";
                 prtb_ProjectName := Namespace (meta obj) +:+ ":" +:+ name;
                 prtb_RoleTemplateName := "project-owner" |} in
        ret tt
      end
    else if String.eqb (Kind (type_meta obj)) "Cluster" then
      let* rtb := reads (λ w, Ok (or_nil (lister_Get (O:=ClusterRoleTemplateBinding) name "creator" w))) in
      match rtb with
      | Some _ => ret tt
      | None =>
        do* api_create name
              {| crtb_meta := creator_meta name crtbCeatorOwnerAnnotations; crtb_type := no_type;
                 crtb_UserName := creatorID; crtb_UserPrincipalName := ""; crtb_GroupName := "";
                 crtb_GroupPrincipalName := ""; crtb_ClusterName := name;
                 crtb_RoleTemplateName := "cluster-owner" |} in
        ret tt
      end
    else ret tt
  end.

Definition reconcileCreatorRTB {O} `{!Stored O, !Conditioned O, !Resource O} (obj : O) :
    M W (O * option goerr) :=
  DoUntilTrue CreatorMadeOwner obj (step_of creatorRTB).

Definition backing_namespace (name : string) : NamespaceObject :=
  {| ns_meta := named_meta name ∅ {[ "management.cattle.io/system-namespace" := "true" ]} [];
     ns_Phase := "" |}.

Definition reconcileResourceToNamespace {O} `{!Stored O, !Conditioned O, !Resource O} (obj : O) :
    M W (O * option goerr) :=
  Do NamespaceBackedResource obj (step_of (λ obj : O,
    let name := Name (meta obj) in
    let* ns := reads (λ w, Ok (or_nil (lister_Get (O:=NamespaceObject) "" name w))) in
    match ns with
    | Some _ => ret tt
    | None =>
      let* r := attempt (api_create "" (backing_namespace name)) in
      match r with
      | inl e => throw (ConditionError "NamespaceCreationFailure"
          (Error (Wrapped ("failed to create namespace for " +:+ Kind (type_meta obj) +:+ " " +:+ name) e)))
      | inr _ => ret tt
      end
    end)).

(** An error of the lookup other than "not found" leaves an empty namespace
    object, whose phase is not "Terminating". *)
Definition deleteNamespace {O} `{!Stored O} (obj : O) : M W unit :=
  let name := Name (meta obj) in
  let* r := attempt (reads (api_get (O:=NamespaceObject) "" name)) in
  let delete :=
    let* r := attempt (api_delete (O:=NamespaceObject) "" name) in
    match r with
    | inl e => if IsNotFound e then ret tt else throw e
    | inr _ => ret tt
    end in
  match r with
  | inl e => if IsNotFound e then ret tt else delete
  | inr ns => if String.eqb (ns_Phase ns) "Terminating" then ret tt else delete
  end.

(** [obj, err := f(obj); if err != nil { return err }]. *)
Definition or_fail {A} (m : M W (A * option goerr)) : M W A :=
  let* r := m in
  match snd r with Some e => throw e | None => ret (fst r) end.

Definition project_sync (orig : option Project) : M W unit :=
  match orig with
  | None => ret tt
  | Some orig =>
    let* obj := or_fail (reconcileResourceToNamespace orig) in
    let* obj := or_fail (reconcileCreatorRTB obj) in
    if decide (orig = obj) then ret tt else do* api_update "" obj in ret tt
  end.

Definition project_Remove (obj : Project) : M W Project := do* deleteNamespace obj in ret obj.

Definition cluster_sync (orig : option Cluster) : M W unit :=
  match orig with
  | None => ret tt
  | Some orig =>
    let* obj := or_fail (reconcileResourceToNamespace orig) in
    let* obj := or_fail (createDefaultProject obj) in
    let* obj := or_fail (reconcileCreatorRTB obj) in
    if decide (orig = obj) then ret tt else do* api_update "" obj in ret tt
  end.

Definition cluster_Remove (obj : Cluster) : M W Cluster := do* deleteNamespace obj in ret obj.

End project_cluster.
End ProjectCluster.

Module UserHandler.

Definition grbByUserRefFunc (b : GlobalRoleBinding) : list string := [grb_UserName b].

Definition prtbByUserRefFunc (b : ProjectRoleTemplateBinding) : list string :=
  if String.eqb (prtb_UserName b) "" then [] else [prtb_UserName b].

Definition crtbByUserRefFunc (b : ClusterRoleTemplateBinding) : list string :=
  if String.eqb (crtb_UserName b) "" then [] else [crtb_UserName b].

Definition tokenByUserRefFunc (t : Token) : list string := [token_UserID t].

Definition with_PrincipalIDs (ids : list string) (u : User) : User :=
  {| user_meta := user_meta u; user_DisplayName := user_DisplayName u;
     user_Description := user_Description u; user_Username := user_Username u;
     user_Password := user_Password u; user_MustChangePassword := user_MustChangePassword u;
     user_PrincipalIDs := ids; user_Me := user_Me u |}.

Definition user_Create (user : User) : User :=
  if existsb (λ id, HasPrefix id "local://") (user_PrincipalIDs user) then user
  else with_PrincipalIDs (user_PrincipalIDs user ++ ["local://" +:+ Name (user_meta user)]) user.

(** [fmt.Errorf(msg+": %v", err)]: a new error with the text of the old one. *)
Definition errorf {W A} (msg : string) (m : M W A) : M W A := λ w,
  match m w with
  | (Err e, w') => (Err (PlainError (msg +:+ ": " +:+ Error e)), w')
  | r => r
  end.

Section user.
Context {W : Type} `{!Client W ProjectRoleTemplateBinding, !Client W ClusterRoleTemplateBinding,
  !Client W GlobalRoleBinding, !Client W Token, !Client W NamespaceObject}.

Definition getCRTBByUserName (username : string) : M W (list ClusterRoleTemplateBinding) :=
  errorf "error getting cluster roles" (reads (ByIndex crtbByUserRefFunc username)).

Definition getPRTBByUserName (username : string) : M W (list ProjectRoleTemplateBinding) :=
  errorf "error getting indexed project roles" (reads (ByIndex prtbByUserRefFunc username)).

Definition getGRBByUserName (username : string) : M W (list GlobalRoleBinding) :=
  errorf "error getting indexed global roles" (reads (ByIndex grbByUserRefFunc username)).

Definition getTokensByUserName (username : string) : M W (list Token) :=
  errorf "error getting indexed tokens" (reads (ByIndex tokenByUserRefFunc username)).

(** The client is the one for all namespaces; [Delete] sends the request without
    a namespace, [DeleteNamespaced] to the one given. *)
Definition deleteAllCRTB (crtbs : list ClusterRoleTemplateBinding) : M W unit :=
  for_each (λ crtb, errorf "error deleting cluster role"
    (if String.eqb (Namespace (crtb_meta crtb)) ""
     then api_delete (O:=ClusterRoleTemplateBinding) "" (Name (crtb_meta crtb))
     else api_delete (O:=ClusterRoleTemplateBinding) (Namespace (crtb_meta crtb))
            (Name (crtb_meta crtb)))) crtbs.

Definition deleteAllPRTB (prtbs : list ProjectRoleTemplateBinding) : M W unit :=
  for_each (λ prtb, errorf "error deleting projet role"
    (if String.eqb (Namespace (prtb_meta prtb)) ""
     then api_delete (O:=ProjectRoleTemplateBinding) "" (Name (prtb_meta prtb))
     else api_delete (O:=ProjectRoleTemplateBinding) (Namespace (prtb_meta prtb))
            (Name (prtb_meta prtb)))) prtbs.

Definition deleteAllGRB (grbs : list GlobalRoleBinding) : M W unit :=
  for_each (λ grb, errorf ("error deleting global role template " +:+ Name (grb_meta grb))
    (if String.eqb (Namespace (grb_meta grb)) ""
     then api_delete (O:=GlobalRoleBinding) "" (Name (grb_meta grb))
     else api_delete (O:=GlobalRoleBinding) (Namespace (grb_meta grb))
            (Name (grb_meta grb)))) grbs.

Definition deleteAllTokens (tokens : list Token) : M W unit :=
  for_each (λ token, errorf "error deleting token"
    (api_delete (O:=Token) (Namespace (token_meta token)) (Name (token_meta token)))) tokens.

Definition deleteUserNamespace (username : string) : M W unit :=
  let* r := attempt (reads (lister_Get (O:=NamespaceObject) "" username)) in
  match r with
  | inl e => if IsNotFound e then ret tt
             else throw (PlainError ("error getting user namespace: " +:+ Error e))
  | inr namespace =>
    if String.eqb (ns_Phase namespace) "Terminating" then ret tt
    else errorf "error deleting user namespace" (api_delete (O:=NamespaceObject) "" username)
  end.

Definition user_Remove (user : User) : M W User :=
  let name := Name (user_meta user) in
  let* clusterRoles := getCRTBByUserName name in
  do* deleteAllCRTB clusterRoles in
  let* projectRoles := getPRTBByUserName name in
  do* deleteAllPRTB projectRoles in
  let* globalRoles := getGRBByUserName name in
  do* deleteAllGRB globalRoles in
  let* tokens := getTokensByUserName name in
  do* deleteAllTokens tokens in
  do* deleteUserNamespace name in
  ret user.

End user.
End UserHandler.
