(* ===== verification/MgmtUsers.v ===== *)
(** * Removing users

    Theorems about [MgmtHandlers.UserHandler]: when a user is removed, so are the
    bindings that name them and their tokens. *)

From stdpp Require Import base gmap list strings.
From S2P Require Import Prelude.
From S2P Require Import GoLib.
From S2P Require Import KubeTypes.
From S2P Require Import KubeObjects.
From S2P Require Import Kube.
From S2P Require Import KubeRules.
From S2P Require Import KubeSim.
From S2P Require Import MgmtManager.
From S2P Require Import MgmtRoles.
From S2P Require Import MgmtBindings.
From S2P Require Import MgmtHandlers.
Import UserHandler.

Lemma wp_errorf {W A} msg (m : M W A) (Q : outcome A → W → Prop) w :
  wp m (λ r w', match r with
                | Err e => Q (Err (PlainError (msg +:+ ": " +:+ Error e))) w'
                | r => Q r w'
                end) w →
  wp (errorf msg m) Q w.
Proof. unfold wp, errorf. by destruct (m w) as [[] w']. Qed.

Section delete_found.
Context {W O : Type} `{!Kube W, !Stored O, !StoredLaws O, !Client W O, !ClientLaws W O}.
Implicit Types (w : W) (o : O).

(** The objects the index does not list under [key]. *)
Definition without (f : O → list string) (key : string) (t : gmap nsname O) : gmap nsname O :=
  filter (λ kv, key ∉ f kv.2) t.

(** A loop that deletes the objects of [l], those of the cluster for which [P]
    holds; [body] is the request with its error reported in some form. *)
Lemma wp_delete_where (I : W → Prop) (P : O → Prop) `{∀ o, Decision (P o)}
    (body : O → M W unit) l w :
  (∀ o w Q, o ∈ l → wp (api_delete (O:=O) (Namespace (meta o)) (Name (meta o)))
     (if_ok (λ _ w', Q (Ok tt) w') (λ _ w', ∀ e, Q (Err e) w')) w → wp (body o) Q w) →
  undisturbed (O:=O) I → I w → NoDup (obj_key <$> l) →
  (∀ o, o ∈ l ↔ tbl (view w) !! obj_key o = Some o ∧ P o) →
  wp (for_each body l)
    (if_ok (λ _ w', I w' ∧ only_tbl (O:=O) (view w) (view w') ∧
              tbl (view w') = filter (λ kv, ¬ P kv.2) (tbl (view w)) ∧
              ∀ k, tbl (cached w) !! k = tbl (O:=O) (view w) !! k → k ∉ obj_key <$> l →
                tbl (cached w') !! k = tbl (O:=O) (view w') !! k)
       (λ _ _, ¬ ClientHealthy W O)) w.
Proof.
  intros Hbody HI Hw Hnd Hin.
  eapply wp_mono; [apply (wp_for_each (λ don w', I w' ∧ only_tbl (O:=O) (view w) (view w') ∧
    (∀ k, tbl (O:=O) (view w') !! k =
      if decide (k ∈ obj_key <$> don) then None else tbl (view w) !! k) ∧
    ∀ k, tbl (cached w) !! k = tbl (O:=O) (view w) !! k → k ∉ obj_key <$> don →
      tbl (cached w') !! k = tbl (O:=O) (view w') !! k) (λ _ _, ¬ ClientHealthy W O))|].
  - split_and!; [done|apply only_tbl_refl| |done]. intros k.
    by rewrite decide_False by apply not_elem_of_nil.
  - intros don o rest w1 Heq (HI1 & Hot & Hk & Hc).
    rewrite Heq, fmap_app, fmap_cons in Hnd. apply NoDup_app in Hnd as (_ & Hdis & _).
    assert (obj_key o ∉ obj_key <$> don) as Hnew by (intros Hd; apply (Hdis _ Hd); left).
    apply Hbody; [rewrite Heq; apply elem_of_app; right; by left|]. apply wp_delete; simpl.
    + intros w2 _ Hv Hcs. rewrite Hv. split_and!.
      * apply (HI w1); [done| |done]. rewrite Hv. apply only_tbl_del, only_tbl_refl.
      * by apply only_tbl_del.
      * intros k. rewrite tbl_del, fmap_app. destruct (decide (k = obj_key o)) as [->|Hne].
        { rewrite lookup_delete_eq, decide_True; [done|]. apply elem_of_app. right. by left. }
        rewrite lookup_delete_ne by done. rewrite Hk.
        destruct (decide (k ∈ obj_key <$> don)); [by rewrite decide_True by (apply elem_of_app; by left)|].
        rewrite decide_False; [done|]. by intros [?|?%list_elem_of_singleton]%elem_of_app.
      * intros k Hs Hno. rewrite <-Hv. rewrite fmap_app, not_elem_of_app in Hno.
        destruct Hno as [Hno Hne]. assert (k ≠ obj_key o) by (intros ->; apply Hne; left). apply (cache_step_sync (O:=O) w1 w2 k Hcs); [|by apply Hc].
        rewrite Hv, tbl_del. by apply lookup_delete_ne, not_eq_sym.
    + intros e w2 _ _ _ _ Hno e' Hh. apply (Hno Hh). rewrite Hk, decide_False by done.
      destruct (proj1 (Hin o)) as [? _]; [rewrite Heq; apply elem_of_app; right; by left|]. by exists o.
  - intros [[]|e| |] w' Hr; simpl in *; try done. destruct Hr as (HI' & Hot & Hk & Hc).
    split_and!; [done|done| |done]. apply map_eq. intros k. rewrite Hk.
    rewrite map_lookup_filter. destruct (tbl (view w) !! k) as [o|] eqn:Ho; simpl.
    2:{ by destruct (decide _). }
    pose proof (view_keyed w _ _ Ho) as ->. case_guard as Hf; simpl.
    + rewrite decide_False; [done|]. intros (o' & Hk' & [Ho' Hf']%Hin)%list_elem_of_fmap.
      rewrite <-Hk' in Ho'. simplify_eq. done.
    + rewrite decide_True; [done|]. apply list_elem_of_fmap. exists o. split; [done|].
      apply Hin. done.
Qed.

Lemma wp_delete_found (I : W → Prop) (msg : O → string) f key l w :
  undisturbed (O:=O) I → I w → in_sync_kind O w → ByIndex f key w = Ok l →
  wp (for_each (λ o, errorf (msg o) (api_delete (O:=O) (Namespace (meta o)) (Name (meta o)))) l)
    (if_ok (λ _ w', I w' ∧ only_tbl (O:=O) (view w) (view w') ∧
              tbl (view w') = without f key (tbl (view w)))
       (λ _ _, ¬ ClientHealthy W O)) w.
Proof.
  intros HI Hw Hsync Hl.
  eapply wp_mono; [apply (wp_delete_where I (λ o, key ∈ f o)); [|done|done| |]|].
  - intros o w1 Q _ HQ. apply wp_errorf. eapply wp_mono; [exact HQ|].
    by intros [[]|e| |] w2 Hr.
  - destruct (by_index_law f key w) as (l' & Hl' & Hp). rewrite Hl in Hl'. injection Hl' as <-.
    rewrite Hp. apply NoDup_fmap_filter, NoDup_values, cached_keyed.
  - intros o. rewrite (elem_of_index _ _ _ _ o Hl). by rewrite Hsync.
  - intros [[]|e| |] w' Hr; simpl in *; try done. by destruct Hr as (? & ? & ? & _).
Qed.

End delete_found.

Section remove.
Context {W : Type} `{!Kube W}.
Context `{!Client W ProjectRoleTemplateBinding, !Client W ClusterRoleTemplateBinding,
  !Client W GlobalRoleBinding, !Client W Token, !Client W NamespaceObject}.
Context `{!ClientLaws W ProjectRoleTemplateBinding, !ClientLaws W ClusterRoleTemplateBinding,
  !ClientLaws W GlobalRoleBinding, !ClientLaws W Token, !ClientLaws W NamespaceObject}.
Implicit Types (w : W).

(** The caches the removal of a user reads are up to date. *)
Definition users_synced w : Prop :=
  in_sync_kind ClusterRoleTemplateBinding w ∧ in_sync_kind ProjectRoleTemplateBinding w ∧
  in_sync_kind GlobalRoleBinding w ∧ in_sync_kind Token w ∧ in_sync_kind NamespaceObject w.

(** The cluster [s'] is [s] without what belongs to the user. *)
Definition user_gone (name : string) (s s' : KState) : Prop :=
  s_ClusterRoleTemplateBindings s' =
    without crtbByUserRefFunc name (s_ClusterRoleTemplateBindings s) ∧
  s_ProjectRoleTemplateBindings s' =
    without prtbByUserRefFunc name (s_ProjectRoleTemplateBindings s) ∧
  s_GlobalRoleBindings s' = without grbByUserRefFunc name (s_GlobalRoleBindings s) ∧
  s_Tokens s' = without tokenByUserRefFunc name (s_Tokens s) ∧
  (∀ ns, s_Namespaces s' !! ("", name) = Some ns → ns_Phase ns = "Terminating") ∧
  s_Users s' = s_Users s.

Definition users_healthy : Prop :=
  ClientHealthy W ClusterRoleTemplateBinding ∧ ClientHealthy W ProjectRoleTemplateBinding ∧
  ClientHealthy W GlobalRoleBinding ∧ ClientHealthy W Token ∧ ClientHealthy W NamespaceObject.

Lemma delete_ns {O} `{!Client W O} ns n (w : W) :
  (if String.eqb ns "" then api_delete (O:=O) "" n else api_delete (O:=O) ns n) w =
  api_delete (O:=O) ns n w.
Proof. by destruct (String.eqb_spec ns "") as [->|]. Qed.

(** One kind after the other: the caches of the kinds still to come stay up to
    date. *)
Lemma delete_crtbs name w :
  in_sync_kind ClusterRoleTemplateBinding w ∧ in_sync_kind ProjectRoleTemplateBinding w ∧ in_sync_kind GlobalRoleBinding w ∧ in_sync_kind Token w ∧ in_sync_kind NamespaceObject w →
  wp (let* l := getCRTBByUserName name in deleteAllCRTB l)
    (if_ok (λ _ w', (in_sync_kind ProjectRoleTemplateBinding w' ∧ in_sync_kind GlobalRoleBinding w' ∧ in_sync_kind Token w' ∧ in_sync_kind NamespaceObject w') ∧
              only_tbl (O:=ClusterRoleTemplateBinding) (view w) (view w') ∧
              tbl (view w') = without crtbByUserRefFunc name (tbl (view w)))
       (λ _ _, ¬ ClientHealthy W ClusterRoleTemplateBinding)) w.
Proof.
  intros (Hc & Hrest). apply wp_bind, wp_errorf, wp_reads.
  destruct (by_index_law crtbByUserRefFunc name w) as (l & Hl & _). rewrite Hl. cbn [bind_post].
  apply (wp_for_each_ext (λ o, errorf "error deleting cluster role"
    (api_delete (O:=ClusterRoleTemplateBinding) (Namespace (meta o)) (Name (meta o))))).
  { intros o w'. unfold errorf. by rewrite delete_ns. }
  apply (wp_delete_found (λ w', in_sync_kind ProjectRoleTemplateBinding w' ∧ in_sync_kind GlobalRoleBinding w' ∧ in_sync_kind Token w' ∧ in_sync_kind NamespaceObject w')
    (λ o : ClusterRoleTemplateBinding, "error deleting cluster role") crtbByUserRefFunc name); [|done..].
  intros w1 w2 Hs ??. split_and!; (eapply (sync_undisturbed (A:=ClusterRoleTemplateBinding)); [other_kind|apply Hs|done..]).
Qed.

Lemma delete_prtbs name w :
  in_sync_kind ProjectRoleTemplateBinding w ∧ in_sync_kind GlobalRoleBinding w ∧ in_sync_kind Token w ∧ in_sync_kind NamespaceObject w →
  wp (let* l := getPRTBByUserName name in deleteAllPRTB l)
    (if_ok (λ _ w', (in_sync_kind GlobalRoleBinding w' ∧ in_sync_kind Token w' ∧ in_sync_kind NamespaceObject w') ∧
              only_tbl (O:=ProjectRoleTemplateBinding) (view w) (view w') ∧
              tbl (view w') = without prtbByUserRefFunc name (tbl (view w)))
       (λ _ _, ¬ ClientHealthy W ProjectRoleTemplateBinding)) w.
Proof.
  intros (Hc & Hrest). apply wp_bind, wp_errorf, wp_reads.
  destruct (by_index_law prtbByUserRefFunc name w) as (l & Hl & _). rewrite Hl. cbn [bind_post].
  apply (wp_for_each_ext (λ o, errorf "error deleting projet role"
    (api_delete (O:=ProjectRoleTemplateBinding) (Namespace (meta o)) (Name (meta o))))).
  { intros o w'. unfold errorf. by rewrite delete_ns. }
  apply (wp_delete_found (λ w', in_sync_kind GlobalRoleBinding w' ∧ in_sync_kind Token w' ∧ in_sync_kind NamespaceObject w')
    (λ o : ProjectRoleTemplateBinding, "error deleting projet role") prtbByUserRefFunc name); [|done..].
  intros w1 w2 Hs ??. split_and!; (eapply (sync_undisturbed (A:=ProjectRoleTemplateBinding)); [other_kind|apply Hs|done..]).
Qed.

Lemma delete_grbs name w :
  in_sync_kind GlobalRoleBinding w ∧ in_sync_kind Token w ∧ in_sync_kind NamespaceObject w →
  wp (let* l := getGRBByUserName name in deleteAllGRB l)
    (if_ok (λ _ w', (in_sync_kind Token w' ∧ in_sync_kind NamespaceObject w') ∧
              only_tbl (O:=GlobalRoleBinding) (view w) (view w') ∧
              tbl (view w') = without grbByUserRefFunc name (tbl (view w)))
       (λ _ _, ¬ ClientHealthy W GlobalRoleBinding)) w.
Proof.
  intros (Hc & Hrest). apply wp_bind, wp_errorf, wp_reads.
  destruct (by_index_law grbByUserRefFunc name w) as (l & Hl & _). rewrite Hl. cbn [bind_post].
  apply (wp_for_each_ext (λ o, errorf ("error deleting global role template " +:+ Name (grb_meta o))
    (api_delete (O:=GlobalRoleBinding) (Namespace (meta o)) (Name (meta o))))).
  { intros o w'. unfold errorf. by rewrite delete_ns. }
  apply (wp_delete_found (λ w', in_sync_kind Token w' ∧ in_sync_kind NamespaceObject w')
    (λ o : GlobalRoleBinding, ("error deleting global role template " +:+ Name (grb_meta o))) grbByUserRefFunc name); [|done..].
  intros w1 w2 Hs ??. split_and!; (eapply (sync_undisturbed (A:=GlobalRoleBinding)); [other_kind|apply Hs|done..]).
Qed.

Lemma delete_tokens name w :
  in_sync_kind Token w ∧ in_sync_kind NamespaceObject w →
  wp (let* l := getTokensByUserName name in deleteAllTokens l)
    (if_ok (λ _ w', (in_sync_kind NamespaceObject w') ∧
              only_tbl (O:=Token) (view w) (view w') ∧
              tbl (view w') = without tokenByUserRefFunc name (tbl (view w)))
       (λ _ _, ¬ ClientHealthy W Token)) w.
Proof.
  intros (Hc & Hrest). apply wp_bind, wp_errorf, wp_reads.
  destruct (by_index_law tokenByUserRefFunc name w) as (l & Hl & _). rewrite Hl. cbn [bind_post].
  apply (wp_for_each_ext (λ o, errorf "error deleting token"
    (api_delete (O:=Token) (Namespace (meta o)) (Name (meta o))))); [done|].
  apply (wp_delete_found (λ w', in_sync_kind NamespaceObject w')
    (λ o : Token, "error deleting token") tokenByUserRefFunc name); [|done..].
  intros w1 w2 Hs ??. (eapply (sync_undisturbed (A:=Token)); [other_kind|apply Hs|done..]).
Qed.

Lemma delete_namespace name w :
  in_sync_kind NamespaceObject w →
  wp (deleteUserNamespace name)
    (if_ok (λ _ w', only_tbl (O:=NamespaceObject) (view w) (view w') ∧
              ∀ ns, s_Namespaces (view w') !! ("", name) = Some ns → ns_Phase ns = "Terminating")
       (λ _ _, ¬ ClientHealthy W NamespaceObject)) w.
Proof.
  intros Hs. unfold deleteUserNamespace. apply wp_bind, wp_attempt, wp_reads.
  pose proof (lister_get_law (O:=NamespaceObject) "" name w) as Hget. rewrite Hs in Hget.
  destruct (tbl (view w) !! ("", name)) as [ns|] eqn:Hns.
  - rewrite Hget. cbn [bind_post]. destruct (String.eqb_spec (ns_Phase ns) "Terminating") as [Hp|Hp].
    + apply wp_ret. split; [apply only_tbl_refl|]. intros ns' Hns'. simpl in Hns. congruence.
    + apply wp_errorf, wp_delete.
      * intros w' _ Hv _. simpl. rewrite Hv. split; [apply only_tbl_del, only_tbl_refl|].
        intros ns' Hns'. change (tbl (del_obj (O:=NamespaceObject) ("", name) (view w)) !! ("", name) = Some ns') in Hns'.
        by rewrite tbl_del, lookup_delete_eq in Hns'.
      * intros e w' _ _ _ _ Hno Hh. apply (Hno Hh). by exists ns.
  - destruct Hget as (e & -> & He). cbn [bind_post]. rewrite He. apply wp_ret. split; [apply only_tbl_refl|].
    intros ns Hns'. simpl in Hns. congruence.
Qed.

(** C37: removing a user deletes every cluster, project and global role binding that
    names the user and every token of theirs, nobody else's, and the namespace of
    the user is gone or on its way out.  With up-to-date caches it fails only if
    the API server does. *)
Theorem user_Remove_correct user w :
  let name := Name (user_meta user) in
  users_synced w →
  wp (user_Remove user)
    (if_ok (λ u w', u = user ∧ user_gone name (view w) (view w'))
       (λ _ _, ¬ users_healthy)) w.
Proof.
  intros name Hs. unfold user_Remove. fold name.
  apply wp_bind_assoc. eapply wp_bind_if_ok; [apply delete_crtbs, Hs| |by intros e w' ? (? & _)].
  intros [] w1 (Hs1 & Hot1 & Ht1).
  apply wp_bind_assoc. eapply wp_bind_if_ok; [apply delete_prtbs, Hs1| |by intros e w' ? (? & ? & _)].
  intros [] w2 (Hs2 & Hot2 & Ht2).
  apply wp_bind_assoc. eapply wp_bind_if_ok; [apply delete_grbs, Hs2| |by intros e w' ? (? & ? & ? & _)].
  intros [] w3 (Hs3 & Hot3 & Ht3).
  apply wp_bind_assoc. eapply wp_bind_if_ok; [apply delete_tokens, Hs3| |by intros e w' ? (? & ? & ? & ? & _)].
  intros [] w4 (Hs4 & Hot4 & Ht4).
  eapply wp_bind_if_ok; [apply delete_namespace, Hs4| |by intros e w' ? (? & ? & ? & ? & ?)].
  intros [] w5 (Hot5 & Hns). apply wp_ret. split; [done|].
  unfold only_tbl in *. simpl in *. unfold user_gone.
  rewrite Hot5. simpl. rewrite Hot4. simpl. rewrite Ht4, Hot3. simpl. rewrite Ht3, Hot2. simpl.
  rewrite Ht2, Hot1. simpl. rewrite Ht1. split_and!; try done.
Qed.

End remove.

(** A created user has a principal of the local provider: if none of the
    principals is local, one made of the name of the user is added; the others are
    kept, and creating again changes nothing. *)
Theorem user_Create_local user :
  let user' := user_Create user in
  (∃ id, id ∈ user_PrincipalIDs user' ∧ HasPrefix id "local://" = true) ∧
  user_PrincipalIDs user `prefix_of` user_PrincipalIDs user' ∧
  user_Create user' = user'.
Proof.
  intros user'. unfold user', user_Create.
  destruct (existsb _ (user_PrincipalIDs user)) eqn:He.
  - split_and!; [|done|by rewrite He]. apply existsb_exists in He as (id & Hin & Hp).
    exists id. split; [by apply list_elem_of_In|done].
  - simpl. split_and!.
    + exists ("local://" +:+ Name (user_meta user)). split; [apply elem_of_app; right; left|].
      unfold HasPrefix. by apply prefix_append.
    + by apply prefix_app_r.
    + rewrite existsb_app. simpl. unfold HasPrefix at 2. rewrite prefix_append.
      by rewrite orb_true_r.
Qed.

(** *** Witness: a user with a global role binding and a token *)

Definition demo_user : User :=
  {| user_meta := named_meta "u-1" ∅ ∅ []; user_DisplayName := "U"; user_Description := "";
     user_Username := "u"; user_Password := ""; user_MustChangePassword := false;
     user_PrincipalIDs := []; user_Me := false |}.

Definition demo_grb (name user : string) : GlobalRoleBinding :=
  {| grb_meta := named_meta name ∅ ∅ []; grb_type := {| Kind := "GlobalRoleBinding"; APIVersion := "v3" |};
     grb_UserName := user; grb_GlobalRoleName := "admin" |}.

Definition demo_principal : Principal :=
  {| p_Name := "local://u-1"; p_DisplayName := "U"; p_LoginName := "u"; p_ProfilePicture := "";
     p_ProfileURL := ""; p_PrincipalType := "user"; p_Me := true; p_MemberOf := false;
     p_Provider := "local"; p_ExtraInfo := ∅ |}.

Definition demo_token (name user : string) : Token :=
  {| token_meta := named_meta name ∅ ∅ []; token_type := {| Kind := "Token"; APIVersion := "v3" |};
     token_Token := "secret"; token_UserPrincipal := demo_principal;
     token_GroupPrincipals := []; token_ProviderInfo := ∅; token_UserID := user;
     token_AuthProvider := "local"; token_TTLMillis := 0; token_LastUpdateTime := "";
     token_IsDerived := false;
     token_Description := ""; token_Expired := false; token_ExpiresAt := "" |}.

Definition demo_users : Sim :=
  synced (set_s_GlobalRoleBindings {[ ("", "grb-1") := demo_grb "grb-1" "u-1";
                                      ("", "grb-2") := demo_grb "grb-2" "u-2" ]}
    (set_s_Tokens {[ ("", "token-1") := demo_token "token-1" "u-1" ]} empty_state)).

Lemma user_Remove_correct_witness :
  ∃ w', user_Remove demo_user demo_users = (Ok demo_user, w') ∧
    demo_user = demo_user ∧ user_gone "u-1" (view demo_users) (view w').
Proof.
  refine (run_ok _ _ _ demo_users demo_user (user_Remove_correct demo_user demo_users _) _).
  - split_and!; reflexivity.
  - vm_compute. reflexivity.
Defined.
