(* ===== verification/MgmtGlobal.v ===== *)
(** * Global roles, and the removal of role template bindings

    Theorems about [MgmtHandlers.Global], and about what the removal of cluster
    and project role template bindings takes away. *)

From stdpp Require Import base gmap list strings.
From S2P Require Import Prelude.
From S2P Require Import GoLib.
From S2P Require Import KubeTypes.
From S2P Require Import KubeObjects.
From S2P Require Import Kube.
From S2P Require Import KubeRules.
From S2P Require Import KubeSim.
From S2P Require Import Cond.
From S2P Require Import MgmtManager.
From S2P Require Import MgmtRoles.
From S2P Require Import MgmtBindings.
From S2P Require Import MgmtMembership.
From S2P Require Import MgmtHandlers.
From S2P Require Import MgmtUsers.
Import Global.

Section global.
Context {W : Type} `{!Kube W, !GoRuntime W}.
Context `{!Client W ClusterRole, !CacheAlias W ClusterRole, !Client W ClusterRoleBinding,
          !Client W GlobalRole}.
Context `{!ClientLaws W ClusterRole, !CacheAliasLaws W ClusterRole,
          !ClientLaws W ClusterRoleBinding, !ClientLaws W GlobalRole}.
Implicit Types (w : W).

Lemma lister_or_nil {O} `{!Stored O, !StoredLaws O, !Client W O, !ClientLaws W O} ns n w :
  or_nil (lister_Get (O:=O) ns n w) = tbl (cached w) !! (ns, n).
Proof.
  pose proof (lister_get_law (O:=O) ns n w) as Hget.
  destruct (tbl (cached w) !! (ns, n)) as [o|]; [by rewrite Hget|].
  by destruct Hget as (e & -> & _).
Qed.

Lemma getCRName_annotated gr :
  let m := gr_meta gr in
  getCRName (set_gr_meta (with_Annotations (<[crNameAnnotation := getCRName gr]> (Annotations m)) m) gr) =
  getCRName gr.
Proof. simpl. unfold getCRName at 1. simpl. by rewrite lookup_insert_eq. Qed.

(** After a global role is reconciled the cluster role made for it exists and
    has its rules, and the global role keeps the name of that cluster role, also
    in its annotation when the cluster role was new.  No other object changes.  If
    the cache shows the cluster role as it is, it fails only if the API server does. *)
Theorem reconcileGlobalRole_correct gr w :
  let key := ("", getCRName gr) in
  getCRName gr ≠ "" →
  s_ClusterRoles (cached w) !! key = s_ClusterRoles (view w) !! key →
  wp (reconcileGlobalRole gr)
    (if_ok (λ gr' w', changed_at (O:=ClusterRole) [key] (view w) (view w') ∧
              (∃ cr, s_ClusterRoles (view w') !! key = Some cr ∧ cr_Rules cr = gr_Rules gr) ∧
              getCRName gr' = getCRName gr ∧ gr_Rules gr' = gr_Rules gr)
       (λ _ w', view w' = view w ∧ ¬ ClientHealthy W ClusterRole)) w.
Proof.
  intros key Hname Hsync. unfold reconcileGlobalRole. apply wp_bind, wp_reads.
  rewrite (lister_or_nil (O:=ClusterRole)). simpl. fold key.
  destruct (s_ClusterRoles (cached w) !! key) as [cr|] eqn:Hc.
  - assert (key = obj_key cr) as Hkey by exact (cached_keyed (O:=ClusterRole) w _ _ Hc).
    case_decide as Hr.
    { apply wp_ret. split_and!; [apply changed_at_refl|exists cr; by rewrite <-Hsync|done|done]. }
    set (cr' := {| cr_meta := cr_meta cr; cr_Rules := gr_Rules gr |}).
    apply wp_bind. eapply wp_unfold; [done|]. cbn [bind_post].
    assert (write_key "" cr' = key) as Hwk.
    { unfold key, obj_key in Hkey. injection Hkey as Hns Hn. unfold write_key, client_ns. simpl in *.
      rewrite <-Hns, <-Hn. by rewrite decide_True. }
    apply wp_bind, wp_wrap_err, wp_update; rewrite Hwk.
    + intros o' w' Hst Hk _ Hv _. apply wp_ret. simpl. rewrite cache_write_view in Hv.
      rewrite Hv. split_and!; [apply changed_at_put; rewrite Hk; by left| |done|done].
      exists o'. rewrite <-Hk. split; [exact (tbl_put_eq o' (view w))|].
      destruct Hst as (_ & _ & _ & _ & _ & _ & Hsp). simpl in Hsp. by rewrite Hsp.
    + intros e w' Hv _ Hno. simpl. rewrite Hv, cache_write_view. split; [done|]. intros Hh.
      apply (Hno Hh).
      * injection Hkey as _ Hn. simpl in *. by rewrite <-Hn.
      * exists cr. rewrite cache_write_view. by rewrite Hsync.
  - apply wp_bind, wp_create; simpl.
    + intros o' w' Hst _ Hv _. apply wp_ret. simpl.
      assert (obj_key o' = key) as Hk by by apply (stored_as_key _ _ _ Hst).
      rewrite Hv. split_and!; [apply changed_at_put; rewrite Hk; by left| |apply getCRName_annotated|done].
      exists o'. rewrite <-Hk. split; [exact (tbl_put_eq o' (view w))|].
      destruct Hst as (_ & _ & _ & _ & _ & _ & Hsp). simpl in Hsp. by rewrite Hsp.
    + intros e w' Hv _ Hno. split; [done|]. intros Hh. by apply (Hno Hh).
Qed.

(** If the update of the cluster role of a global role fails, the new rules
    are left in the cache: unless the cache is refreshed in between, the next run
    finds nothing to do, sends no request and reports success, while the cluster
    role in the cluster is as it was. *)
Theorem reconcileGlobalRole_loses_update gr cr e w w1 :
  let key := ("", getCRName gr) in
  s_ClusterRoles (cached w) !! key = Some cr → cr_Rules cr ≠ gr_Rules gr →
  reconcileGlobalRole gr w = (Err e, w1) →
  view w1 = view w ∧
  (s_ClusterRoles (cached w1) !! key = s_ClusterRoles (view w) !! key ∨
   reconcileGlobalRole gr w1 = (Ok gr, w1)).
Proof.
  intros key Hc Hr Hrun.
  assert (wp (reconcileGlobalRole gr) (λ r w', r = Err e → view w' = view w ∧
    (s_ClusterRoles (cached w') !! key = s_ClusterRoles (view w) !! key ∨
     ∃ cr', s_ClusterRoles (cached w') !! key = Some cr' ∧ cr_Rules cr' = gr_Rules gr)) w) as Hwp.
  { unfold reconcileGlobalRole. apply wp_bind, wp_reads.
    rewrite (lister_or_nil (O:=ClusterRole)). simpl. fold key. rewrite Hc.
    assert (key = obj_key cr) as Hkey by exact (cached_keyed (O:=ClusterRole) w _ _ Hc).
    rewrite decide_False by congruence.
    set (cr' := {| cr_meta := cr_meta cr; cr_Rules := gr_Rules gr |}).
    apply wp_bind. eapply wp_unfold; [done|]. cbn [bind_post].
    apply wp_bind, wp_wrap_err, wp_update; [by intros; apply wp_ret|].
    intros e' w' Hv Hcs _ _. rewrite Hv, cache_write_view. split; [done|].
    destruct (cache_step_tbl (O:=ClusterRole) _ _ key Hcs) as [Hk|Hk]; simpl in Hk.
    - right. exists cr'. split; [|done]. rewrite Hk, cache_write_cached.
      + rewrite Hkey. exact (tbl_put_eq cr' (cached w)).
      + exists cr. change (obj_key cr') with (obj_key cr). by rewrite <-Hkey.
    - left. rewrite Hk, Hv, cache_write_view. done. }
  unfold wp in Hwp. rewrite Hrun in Hwp. simpl in Hwp.
  destruct (Hwp eq_refl) as [Hv [Hk|(cr' & Hk & Hrules)]]; (split; [done|]); [by left|right].
  unfold reconcileGlobalRole, bind, reads. rewrite (lister_or_nil (O:=ClusterRole)). simpl. fold key.
  rewrite Hk. by rewrite decide_True.
Qed.

(** The name of the cluster role binding of a global role binding. *)
Definition crb_name (b : GlobalRoleBinding) : string :=
  match Annotations (grb_meta b) !! crbNameAnnotation with
  | Some crbName => crbName
  | None => crbNamePrefix +:+ Name (grb_meta b)
  end.

(** The binding exists, for another cluster role than the one of the global role. *)
Definition other_role (b : GlobalRoleBinding) w : Prop :=
  ∃ crb gr, s_ClusterRoleBindings (view w) !! ("", crb_name b) = Some crb ∧
    s_GlobalRoles (cached w) !! ("", grb_GlobalRoleName b) = Some gr ∧
    rr_Name (crb_RoleRef crb) ≠ getCRName gr.

(** The binding does what the global role binding says. *)
Definition grb_bound (b : GlobalRoleBinding) (crb : ClusterRoleBinding) (w : W) : Prop :=
  Forall2 same_subject [mkSubject "User" (grb_UserName b)] (crb_Subjects crb) ∧
  ∀ gr, s_GlobalRoles (cached w) !! ("", grb_GlobalRoleName b) = Some gr →
    rr_Name (crb_RoleRef crb) = getCRName gr.

Lemma reconcileGRB b w :
  let key := ("", crb_name b) in
  crb_name b ≠ "" →
  s_ClusterRoleBindings (cached w) !! key = s_ClusterRoleBindings (view w) !! key →
  wp (reconcileGlobalRoleBinding b)
    (if_ok (λ _ w', changed_at (O:=ClusterRoleBinding) [key] (view w) (view w') ∧ ¬ other_role b w ∧
              ∃ crb, s_ClusterRoleBindings (view w') !! key = Some crb ∧ grb_bound b crb w)
       (λ _ w', view w' = view w ∧ (ClientHealthy W ClusterRoleBinding → other_role b w))) w.
Proof.
  intros key Hname Hsync. unfold reconcileGlobalRoleBinding. cbv zeta. fold (crb_name b).
  apply wp_bind, wp_reads. rewrite (lister_or_nil (O:=ClusterRoleBinding)). cbn [bind_post].
  apply wp_bind, wp_reads. rewrite (lister_or_nil (O:=GlobalRole)). cbn [bind_post].
  change (tbl (cached w) !! ("", crb_name b)) with (s_ClusterRoleBindings (cached w) !! key).
  change (tbl (cached w) !! ("", grb_GlobalRoleName b)) with (s_GlobalRoles (cached w) !! ("", grb_GlobalRoleName b)).
  destruct (s_ClusterRoleBindings (cached w) !! key) as [crb|] eqn:Hc.
  - assert (key = obj_key crb) as Hkey by exact (cached_keyed (O:=ClusterRoleBinding) w _ _ Hc).
    unfold key, obj_key in Hkey. injection Hkey as Hns Hn. simpl in Hns, Hn.
    cbv zeta. set (nr := match s_GlobalRoles (cached w) !! ("", grb_GlobalRoleName b) with
               | Some gr => if String.eqb (getCRName gr) (rr_Name (crb_RoleRef crb)) then None
                            else Some {| rr_APIGroup := ""; rr_Kind := clusterRoleKind;
                                         rr_Name := getCRName gr |}
               | None => None end).
    assert (is_Some nr → other_role b w) as Hother.
    { intros Hs. unfold nr in Hs. destruct (s_GlobalRoles _ !! _) as [gr|] eqn:Hg; [|by destruct Hs].
      destruct (String.eqb_spec (getCRName gr) (rr_Name (crb_RoleRef crb))); [by destruct Hs|].
      exists crb, gr. split_and!; [by symmetry|done|by apply not_eq_sym]. }
    assert (∀ gr, s_GlobalRoles (cached w) !! ("", grb_GlobalRoleName b) = Some gr →
      rr_Name (default (crb_RoleRef crb) nr) = getCRName gr) as Hrole.
    { intros gr Hg. unfold nr. rewrite Hg. by destruct (String.eqb_spec (getCRName gr) (rr_Name (crb_RoleRef crb))). }
    assert (rr_Name (default (crb_RoleRef crb) nr) = rr_Name (crb_RoleRef crb) → ¬ other_role b w) as Hsame.
    { intros Hr (crb1 & gr & Hv & Hg & Hne). fold key in Hv. rewrite <-Hsync in Hv. injection Hv as <-.
      apply Hne. rewrite <-Hr. by apply Hrole. }
    clearbody nr. set (o := {| crb_meta := crb_meta crb; crb_Subjects := [mkSubject "User" (grb_UserName b)];
                               crb_RoleRef := default (crb_RoleRef crb) nr |}).
    destruct (negb (bool_decide ([mkSubject "User" (grb_UserName b)] = crb_Subjects crb)) ||
              bool_decide (is_Some nr)) eqn:Hu.
    + assert (write_key "" o = key) as Hwk.
      { unfold write_key, client_ns. simpl. by rewrite <-Hns, <-Hn. }
      apply wp_bind, wp_wrap_err, wp_update; rewrite Hwk.
      * intros o' w' Hst Hk (o0 & Ho0 & Hmay) Hv _. apply wp_ret. simpl in *.
        rewrite <-Hsync in Ho0. injection Ho0 as <-. apply bool_decide_eq_true in Hmay as [_ Hmay].
        destruct Hst as (_ & _ & _ & _ & _ & _ & Hsub & _ & Hrr). simpl in *.
        rewrite Hv. split_and!; [apply changed_at_put; rewrite Hk; by left|by apply Hsame|].
        exists o'. rewrite <-Hk. split; [exact (tbl_put_eq o' (view w))|]. split; [done|].
        intros gr Hg. rewrite <-Hrr. by apply Hrole.
      * intros e w' Hv _ Hno. split; [done|]. intros Hh. apply Hother.
        destruct nr; [by eauto|]. exfalso. apply (Hno Hh); [simpl; by rewrite <-Hn|].
        exists crb. simpl. rewrite <-Hsync. split_and!; [done..|]. by apply bool_decide_eq_true_2.
    + apply orb_false_iff in Hu as [Hsub Hnr].
      apply negb_false_iff, bool_decide_eq_true in Hsub. apply bool_decide_eq_false in Hnr.
      destruct nr; [destruct Hnr; eauto|]. apply wp_ret. simpl.
      split_and!; [apply changed_at_refl|by apply Hsame|]. exists crb. rewrite <-Hsync.
      split; [done|]. split; [rewrite <-Hsub; apply same_subjects_refl|exact Hrole].
  - apply wp_bind, wp_create; simpl.
    + intros o' w' Hst _ Hv _. apply wp_ret. simpl.
      assert (obj_key o' = key) as Hk by by apply (stored_as_key _ _ _ Hst).
      destruct Hst as (_ & _ & _ & _ & _ & _ & Hsub & _ & Hrr). simpl in *.
      rewrite Hv. split_and!; [apply changed_at_put; rewrite Hk; by left| |].
      * intros (crb & gr & Hcrb & _). fold key in Hcrb. rewrite <-Hsync in Hcrb. done.
      * exists o'. rewrite <-Hk. split; [exact (tbl_put_eq o' (view w))|]. split; [done|].
        intros gr Hg. rewrite Hg in Hrr. done.
    + intros e w' Hv _ Hno. split; [done|]. intros Hh. by destruct (Hno Hh).
Qed.

(** After a global role binding is reconciled, its cluster role binding names
    the user of the binding and, if the global role is known, the cluster role of
    it.  No other object changes; nothing changes on an error. *)
Theorem reconcileGlobalRoleBinding_correct b w :
  let key := ("", crb_name b) in
  crb_name b ≠ "" →
  s_ClusterRoleBindings (cached w) !! key = s_ClusterRoleBindings (view w) !! key →
  wp (reconcileGlobalRoleBinding b)
    (if_ok (λ _ w', changed_at (O:=ClusterRoleBinding) [key] (view w) (view w') ∧
              ∃ crb, s_ClusterRoleBindings (view w') !! key = Some crb ∧ grb_bound b crb w)
       (λ _ w', view w' = view w ∧ (ClientHealthy W ClusterRoleBinding → other_role b w))) w.
Proof.
  intros key ??. eapply wp_mono; [by apply reconcileGRB|].
  intros [] w'; simpl; [by intros (? & _ & ?)|done..].
Qed.

(** The handler tries to point an existing cluster role binding to another
    role, which the API server does not allow: when the global role of a binding
    has changed, the call never succeeds. *)
Theorem reconcileGlobalRoleBinding_stuck b w :
  crb_name b ≠ "" →
  s_ClusterRoleBindings (cached w) !! ("", crb_name b) =
    s_ClusterRoleBindings (view w) !! ("", crb_name b) →
  other_role b w →
  ∃ e w', reconcileGlobalRoleBinding b w = (Err e, w') ∧ view w' = view w.
Proof.
  intros Hn Hs Ho. pose proof (reconcileGRB b w Hn Hs) as Hwp. apply wp_run in Hwp.
  destruct Hwp as ([r|e| |] & w' & Hrun & Hr); simpl in Hr; [| |done..].
  - by destruct Hr as (_ & Hno & _).
  - exists e, w'. by destruct Hr.
Qed.

End global.

(** ** Removal of role template bindings *)

Section removal.
Context {W : Type} `{!Kube W, !GoRuntime W, !UserManager W}.
Context `{!Client W ClusterRole, !Client W Role, !Client W ClusterRoleBinding,
          !Client W RoleBinding, !Client W RoleTemplate, !Client W Cluster, !Client W Project}.
Context `{!ClientLaws W ClusterRoleBinding, !ClientLaws W RoleBinding, !ClientLaws W Project}.
Implicit Types (w : W).

Abbreviation crb_role := (λ rb : ClusterRoleBinding, rr_Name (crb_RoleRef rb)).
Abbreviation rb_role := (λ rb : RoleBinding, rr_Name (rb_RoleRef rb)).

(** A role binding a cluster role template binding has made in the namespace of
    one of the projects. *)
Definition made_in (ns uid : string) (rb : RoleBinding) : Prop :=
  Namespace (rb_meta rb) = ns ∧ Labels (rb_meta rb) !! uid = Some crtbInProjectBindingOwner.

#[export] Instance made_in_dec ns uid rb : Decision (made_in ns uid rb).
Proof. unfold made_in. apply _. Defined.

(** The body of the loop over the projects. *)
Lemma remove_in_project ns uid w :
  ns ≠ "" →
  (∀ n, s_RoleBindings (cached w) !! (ns, n) = s_RoleBindings (view w) !! (ns, n)) →
  wp (let* rbs := reads (lister_List (O:=RoleBinding) ns {[ uid := crtbInProjectBindingOwner ]}) in
      for_each (λ rb, api_delete (O:=RoleBinding) ns (Name (rb_meta rb))) rbs)
    (if_ok (λ _ w', only_tbl (O:=RoleBinding) (view w) (view w') ∧
              s_RoleBindings (view w') = filter (λ kv, ¬ made_in ns uid kv.2) (s_RoleBindings (view w)) ∧
              ∀ ns' n, ns' ≠ ns →
                s_RoleBindings (cached w) !! (ns', n) = s_RoleBindings (view w) !! (ns', n) →
                s_RoleBindings (cached w') !! (ns', n) = s_RoleBindings (view w') !! (ns', n))
       (λ _ _, ¬ ClientHealthy W RoleBinding)) w.
Proof.
  intros Hns Hs. apply wp_bind, wp_reads.
  destruct (lister_list_law (O:=RoleBinding) ns {[ uid := crtbInProjectBindingOwner ]} w) as (l & Hl & _).
  rewrite Hl. cbn [bind_post].
  assert (∀ o, o ∈ l ↔ tbl (view w) !! obj_key o = Some o ∧ made_in ns uid o) as Hin.
  { intros o. rewrite (elem_of_lister _ _ _ _ o Hl). unfold made_in, selects.
    rewrite map_singleton_subseteq_l. simpl. split.
    - intros (Ho & [?|Hn] & ?); [done|]. split; [|done]. rewrite <-Ho. symmetry. unfold obj_key. simpl.
      rewrite Hn. apply Hs.
    - intros (Ho & Hn & ?). split_and!; [|by right|done]. rewrite <-Ho. unfold obj_key. simpl.
      rewrite Hn. apply Hs. }
  assert (∀ o, o ∈ l → obj_key o = (ns, Name (rb_meta o))) as Hkeys.
  { intros o [_ [Hn _]]%Hin. unfold obj_key. simpl. by rewrite Hn. }
  eapply wp_mono; [apply (wp_delete_where (λ _, True) (made_in ns uid)); [|done|done| |exact Hin]|].
  - intros o w1 Q Ho HQ. pose proof (Hkeys o Ho) as Hk. unfold obj_key in Hk. injection Hk as Hk.
    simpl in *. rewrite Hk in HQ. eapply wp_mono; [exact HQ|].
    by intros [[]|e| |] w2 Hr.
  - exact (NoDup_lister _ _ _ _ Hl).
  - intros [[]|e| |] w' Hr; simpl in *; try done. destruct Hr as (_ & Hot & Hv & Hc).
    split_and!; [done|done|]. intros ns' n Hne Hs'. apply Hc; [done|].
    intros (o & Hk & Ho)%list_elem_of_fmap. rewrite (Hkeys o Ho) in Hk. congruence.
Qed.

(** The role bindings without those made in the namespaces [names]. *)
Definition unmade (names : list string) (uid : string) (t : gmap nsname RoleBinding) :
    gmap nsname RoleBinding :=
  filter (λ kv, ¬ (kv.1.1 ∈ names ∧ Labels (rb_meta kv.2) !! uid = Some crtbInProjectBindingOwner)) t.

Lemma unmade_snoc (names : list string) (ns uid : string) (t : gmap nsname RoleBinding) :
  well_keyed t →
  filter (λ kv, ¬ made_in ns uid kv.2) (unmade names uid t) = unmade (names ++ [ns]) uid t.
Proof.
  intros Hk. unfold unmade. rewrite map_filter_filter. apply map_filter_ext. intros k rb Hrb.
  pose proof (Hk _ _ Hrb) as Hkey. simpl in Hkey. subst k. unfold made_in. simpl.
  rewrite elem_of_app, list_elem_of_singleton. tauto.
Qed.

Lemma remove_in_projects (ps : list Project) uid w :
  NoDup (Name ∘ proj_meta <$> ps) → (∀ p, p ∈ ps → Name (proj_meta p) ≠ "") →
  in_sync_kind RoleBinding w →
  wp (for_each (λ p,
        let ns := Name (proj_meta p) in
        let* rbs := reads (lister_List (O:=RoleBinding) ns {[ uid := crtbInProjectBindingOwner ]}) in
        for_each (λ rb, api_delete (O:=RoleBinding) ns (Name (rb_meta rb))) rbs) ps)
    (if_ok (λ _ w', only_tbl (O:=RoleBinding) (view w) (view w') ∧
              s_RoleBindings (view w') = unmade (Name ∘ proj_meta <$> ps) uid (s_RoleBindings (view w)))
       (λ _ _, ¬ ClientHealthy W RoleBinding)) w.
Proof.
  intros Hnd Hne Hsync.
  eapply wp_mono; [apply (wp_for_each (λ don w', only_tbl (O:=RoleBinding) (view w) (view w') ∧
    s_RoleBindings (view w') = unmade (Name ∘ proj_meta <$> don) uid (s_RoleBindings (view w)) ∧
    ∀ ns n, ns ∉ Name ∘ proj_meta <$> don →
      s_RoleBindings (cached w') !! (ns, n) = s_RoleBindings (view w') !! (ns, n))
    (λ _ _, ¬ ClientHealthy W RoleBinding))|].
  - split_and!; [apply only_tbl_refl| |intros; by rewrite (Hsync : s_RoleBindings (cached w) = _)].
    unfold unmade. symmetry. apply map_filter_id. intros k rb _ [Hin _]. by apply elem_of_nil in Hin.
  - intros don p rest w1 Heq (Hot & Hv & Hc). cbv zeta.
    assert (Name (proj_meta p) ∉ Name ∘ proj_meta <$> don) as Hnew.
    { rewrite Heq, fmap_app, fmap_cons in Hnd. apply NoDup_app in Hnd as (_ & Hdis & _).
      intros Hd. apply (Hdis _ Hd). left. }
    eapply wp_mono; [apply remove_in_project|].
    + apply Hne. rewrite Heq. apply elem_of_app. right. by left.
    + intros n. by apply Hc.
    + intros [[]|e| |] w2 Hr; simpl in Hr; try done. destruct Hr as (Hot2 & Hv2 & Hc2).
      split_and!; [exact (only_tbl_trans _ _ _ Hot Hot2)| |].
      * rewrite Hv2, Hv, fmap_app. apply unmade_snoc. exact (view_keyed (O:=RoleBinding) w).
      * intros ns n Hns. rewrite fmap_app, not_elem_of_app in Hns. destruct Hns as [Hns Hp].
        apply Hc2; [|by apply Hc]. intros ->. apply Hp. left.
  - intros [[]|e| |] w' Hr; simpl in *; try done. by destruct Hr as (? & ? & _).
Qed.

(** Removing a cluster role template binding takes its privileges away: the
    cluster membership bindings marked for it are released, and the role bindings
    it made in the namespaces of the projects of its cluster are deleted; no other
    object changes.  With up-to-date caches it fails only if the API server does. *)
Theorem crtb_Remove_correct obj w :
  let ns := Namespace (crtb_meta obj) in
  let uid := UID (crtb_meta obj) in
  ns ≠ "" → scoped (O:=ClusterRoleBinding) "" (view w) →
  in_sync_kind ClusterRoleBinding w → in_sync_kind RoleBinding w → in_sync_kind Project w →
  wp (Crtb.Remove obj)
    (if_ok (λ _ w', ∃ s1 names,
              all_released crb_role "" "" uid (view w) s1 ∧
              only_tbl (O:=RoleBinding) s1 (view w') ∧
              s_RoleBindings (view w') = unmade names uid (s_RoleBindings (view w)) ∧
              ∀ n, n ∈ names ↔ is_Some (s_Projects (view w) !! (ns, n)))
       (λ _ _, ClientHealthy W ClusterRoleBinding → ¬ ClientHealthy W RoleBinding)) w.
Proof.
  intros ns uid Hns Hsc Hcrb Hrb Hproj. unfold Crtb.Remove.
  eapply wp_bind_if_ok.
  { apply (reconcileMembership_released _ _ _ _ (λ w', in_sync_kind RoleBinding w' ∧ in_sync_kind Project w'));
      [|done|exact Hcrb|exact Hsc].
    intros w1 w2 [??] ??. split; (eapply (sync_undisturbed (A:=ClusterRoleBinding)); [other_kind|done..]). }
  2:{ by intros e w' ? ?. }
  intros [] w1 (Hrel & (Hrb1 & Hproj1) & _ & _).
  assert (s_RoleBindings (view w1) = s_RoleBindings (view w)) as Hv
    by (destruct Hrel as [Hot _]; unfold only_tbl in Hot; by rewrite Hot).
  assert (s_Projects (view w1) = s_Projects (view w)) as Hp
    by (destruct Hrel as [Hot _]; unfold only_tbl in Hot; by rewrite Hot).
  unfold Crtb.removeMGMTClusterScopedPrivilegesInProjectNamespace. fold ns uid.
  apply wp_bind, wp_reads.
  destruct (lister_list_law (O:=Project) ns Everything w1) as (ps & Hps & _).
  pose proof (λ o, elem_of_lister _ _ _ _ o Hps) as Hin. pose proof (NoDup_lister _ _ _ _ Hps) as Hnd.
  rewrite Hps. cbn [bind_post].
  assert (∀ p, p ∈ ps ↔ s_Projects (view w) !! (ns, Name (proj_meta p)) = Some p) as Hin'.
  { intros p. rewrite Hin, <-Hp. unfold in_sync_kind in Hproj1. rewrite Hproj1. simpl. split.
    - intros (Ho & [?|Hn] & _); [done|]. unfold obj_key in Ho. simpl in Ho. by rewrite Hn in Ho.
    - intros Ho. pose proof (view_keyed (O:=Project) w1 _ _ Ho) as Hk. simpl in Hk.
      split_and!; [by rewrite <-Hk|right; by injection Hk|]. apply map_empty_subseteq. }
  assert (NoDup (Name ∘ proj_meta <$> ps)) as Hnd'.
  { apply (NoDup_fmap_1 (pair ns)). rewrite <-list_fmap_compose.
    erewrite list_fmap_ext; [exact Hnd|]. intros i p Hi. simpl.
    assert (p ∈ ps) as Hpp%Hin' by (apply list_elem_of_lookup; eauto).
    exact (view_keyed (O:=Project) w (ns, Name (proj_meta p)) p Hpp). }
  eapply wp_mono; [apply remove_in_projects; [done| |done]|].
  - intros p Hpp%Hin'. apply (view_named (O:=Project) w (ns, Name (proj_meta p))). by exists p.
  - intros [[]|e| |] w2 Hr; simpl in *; try done. destruct Hr as [Hot Hrbs].
    exists (view w1), (Name ∘ proj_meta <$> ps). rewrite Hrbs, Hv. split_and!; [done..|].
    intros n. rewrite list_elem_of_fmap. split.
    + intros (p & -> & Hpp%Hin'). by exists p.
    + intros [p Hpp]. exists p. pose proof (view_keyed (O:=Project) w (ns, n) p Hpp) as Hk. simpl in Hk.
      unfold obj_key in Hk. injection Hk as _ Hk. simpl in Hk. split; [done|]. apply Hin'. by rewrite <-Hk.
Qed.

(** Removing a project role template binding leaves the role bindings it made
    in the namespace of the cluster: they have no owner reference and the handler
    does not delete them. *)
Theorem prtb_Remove_leaks obj clusterName projectName w :
  let uid := UID (prtb_meta obj) in
  SplitN2 (prtb_ProjectName obj) ":" = [clusterName; projectName] → clusterName ≠ "" →
  in_sync_kind ClusterRoleBinding w → in_sync_kind RoleBinding w →
  scoped (O:=ClusterRoleBinding) "" (view w) →
  wp (Prtb.Remove obj)
    (if_ok (λ _ w', ∀ k rb, s_RoleBindings (view w) !! k = Some rb →
              Labels (rb_meta rb) !! uid = Some prtbInClusterBindingOwner →
              s_RoleBindings (view w') !! k = Some rb)
       (λ _ _, ClientHealthy W RoleBinding → ¬ ClientHealthy W ClusterRoleBinding)) w.
Proof.
  intros uid Hsplit Hcn Hcrb Hrb Hsc. unfold Prtb.Remove. rewrite Hsplit.
  eapply wp_bind_if_ok.
  { apply (reconcileMembership_released _ _ _ _ (λ w', in_sync_kind ClusterRoleBinding w' ∧
      s_ClusterRoleBindings (view w') = s_ClusterRoleBindings (view w)));
      [|done|exact Hrb|by left].
    intros w1 w2 [? Heq] Hot ?. split; [by eapply (sync_undisturbed (A:=RoleBinding)); [other_kind|..]|].
    rewrite <-Heq. unfold only_tbl in Hot. by rewrite Hot. }
  2:{ by intros e w' ? ?. }
  intros [] w1 ([_ Hrel] & (Hcrb1 & Heq) & _ & _).
  eapply wp_mono; [apply (reconcileMembership_released _ _ _ _ (λ _, True)); [done|done|exact Hcrb1|]|].
  { right. intros k o Ho. destruct Hsc as [?|Hsc]; [done|]. apply (Hsc k o). simpl in *. by rewrite <-Heq. }
  intros [[]|e| |] w2 Hr; simpl in Hr; try done.
  2:{ by intros _. }
  destruct Hr as ([Hot _] & _). intros k rb Hk Hlab.
  specialize (Hrel k). simpl in Hrel. rewrite Hk in Hrel. destruct Hrel as [_ Hno].
  assert (s_RoleBindings (view w2) = s_RoleBindings (view w1)) as ->
    by (unfold only_tbl in Hot; by rewrite Hot).
  apply Hno. intros (Hl & _). fold uid in Hl. simpl in Hl. by rewrite Hlab in Hl.
Qed.

End removal.

(** ** Witnesses *)

Definition demo_gr (rules : list PolicyRule) : GlobalRole :=
  {| gr_meta := named_meta "admin" ∅ ∅ []; gr_type := {| Kind := "GlobalRole"; APIVersion := "v3" |};
     gr_DisplayName := "Admin"; gr_Description := ""; gr_Rules := rules; gr_Builtin := true |}.

Definition demo_admin : GlobalRole := demo_gr [demo_rule ["*"] ["*"]].

Definition demo_cr (rules : list PolicyRule) : ClusterRole :=
  {| cr_meta := named_meta "cattle-globalrole-admin" ∅ ∅ []; cr_Rules := rules |}.

(** A cluster role with old rules. *)
Definition demo_roles : gmap nsname ClusterRole :=
  {[ ("", "cattle-globalrole-admin") := demo_cr [demo_rule ["get"] ["*"]] ]}.

Definition demo_outdated : Sim := synced (set_s_ClusterRoles demo_roles empty_state).

(** The same in the cache, of a cluster from which the role is gone. *)
Definition demo_stale : Sim :=
  {| sim_view := empty_state; sim_cached := set_s_ClusterRoles demo_roles empty_state; sim_now := 0 |}.

Lemma reconcileGlobalRole_correct_witness :
  ∃ w', reconcileGlobalRole demo_admin demo_outdated = (Ok demo_admin, w') ∧
    changed_at (O:=ClusterRole) [("", "cattle-globalrole-admin")] (view demo_outdated) (view w') ∧
    (∃ cr, s_ClusterRoles (view w') !! ("", "cattle-globalrole-admin") = Some cr ∧
           cr_Rules cr = gr_Rules demo_admin) ∧
    getCRName demo_admin = getCRName demo_admin ∧ gr_Rules demo_admin = gr_Rules demo_admin.
Proof.
  refine (run_ok _ _ _ demo_outdated demo_admin
    (reconcileGlobalRole_correct demo_admin demo_outdated _ _) _).
  - done.
  - reflexivity.
  - vm_compute. reflexivity.
Defined.

Lemma reconcileGlobalRole_loses_update_witness :
  let w1 := (reconcileGlobalRole demo_admin demo_stale).2 in
  view w1 = view demo_stale ∧
  (s_ClusterRoles (cached w1) !! ("", getCRName demo_admin) =
     s_ClusterRoles (view demo_stale) !! ("", getCRName demo_admin) ∨
   reconcileGlobalRole demo_admin w1 = (Ok demo_admin, w1)).
Proof.
  refine (reconcileGlobalRole_loses_update demo_admin (demo_cr [demo_rule ["get"] ["*"]])
    (Wrapped "couldn't update ClusterRole cattle-globalrole-admin"
       (StatusError StatusReasonNotFound "cattle-globalrole-admin")) demo_stale _ _ _ _).
  - vm_compute. reflexivity.
  - discriminate.
  - vm_compute. reflexivity.
Defined.

Definition demo_grb_crb (role : string) : ClusterRoleBinding :=
  {| crb_meta := named_meta "cattle-globalrolebinding-grb-1" ∅ ∅ [];
     crb_Subjects := [mkSubject "User" "u-9"];
     crb_RoleRef := {| rr_APIGroup := ""; rr_Kind := "ClusterRole"; rr_Name := role |} |}.

Definition demo_grbs (role : string) : Sim :=
  synced (set_s_GlobalRoles {[ ("", "admin") := demo_admin ]}
    (set_s_ClusterRoleBindings
       {[ ("", "cattle-globalrolebinding-grb-1") := demo_grb_crb role ]} empty_state)).

Lemma reconcileGlobalRoleBinding_correct_witness :
  let b := demo_grb "grb-1" "u-1" in
  let w := demo_grbs "cattle-globalrole-admin" in
  ∃ w', reconcileGlobalRoleBinding b w = (Ok b, w') ∧
    changed_at (O:=ClusterRoleBinding) [("", crb_name b)] (view w) (view w') ∧
    ∃ crb, s_ClusterRoleBindings (view w') !! ("", crb_name b) = Some crb ∧ grb_bound b crb w.
Proof.
  intros b w. refine (run_ok _ _ _ w b (reconcileGlobalRoleBinding_correct b w _ _) _).
  - done.
  - reflexivity.
  - vm_compute. reflexivity.
Defined.

Lemma reconcileGlobalRoleBinding_stuck_witness :
  let w := demo_grbs "cattle-globalrole-user" in
  ∃ e w', reconcileGlobalRoleBinding (demo_grb "grb-1" "u-1") w = (Err e, w') ∧ view w' = view w.
Proof.
  intros w. apply (reconcileGlobalRoleBinding_stuck (demo_grb "grb-1" "u-1") w).
  - done.
  - reflexivity.
  - exists (demo_grb_crb "cattle-globalrole-user"), demo_admin.
    split_and!; [vm_compute; reflexivity|vm_compute; reflexivity|discriminate].
Defined.

Definition at_ns (ns name uid : string) (labels : gmap string string) : ObjectMeta :=
  {| Name := name; GenerateName := ""; Namespace := ns; UID := uid; ResourceVersion := "";
     Labels := labels; Annotations := ∅; OwnerReferences := []; CreationTimestamp := 0;
     DeletionTimestamp := None |}.

Definition demo_made (ns name owner : string) : RoleBinding :=
  {| rb_meta := at_ns ns name "" {[ "uid-1" := owner ]};
     rb_Subjects := [mkSubject "User" "u-1"];
     rb_RoleRef := {| rr_APIGroup := ""; rr_Kind := "Role"; rr_Name := "member" |} |}.

Definition demo_p1 : Project :=
  {| proj_meta := at_ns "c-1" "p-1" "" ∅; proj_type := {| Kind := "Project"; APIVersion := "v3" |};
     proj_DisplayName := "p"; proj_Description := ""; proj_ClusterName := "c-1"; proj_Conditions := [] |}.

Definition demo_removal : Sim :=
  synced (set_s_Projects {[ ("c-1", "p-1") := demo_p1 ]}
    (set_s_RoleBindings {[ ("p-1", "crtb-1-member") := demo_made "p-1" "crtb-1-member" crtbInProjectBindingOwner;
                           ("c-1", "prtb-1-member") := demo_made "c-1" "prtb-1-member" prtbInClusterBindingOwner ]}
       empty_state)).

Definition demo_removed_crtb : ClusterRoleTemplateBinding :=
  {| crtb_meta := at_ns "c-1" "crtb-1" "uid-1" ∅;
     crtb_type := {| Kind := "ClusterRoleTemplateBinding"; APIVersion := "v3" |}; crtb_UserName := "u-1";
     crtb_UserPrincipalName := ""; crtb_GroupName := ""; crtb_GroupPrincipalName := "";
     crtb_ClusterName := "c-1"; crtb_RoleTemplateName := "cluster-owner" |}.

Definition demo_removed_prtb : ProjectRoleTemplateBinding :=
  {| prtb_meta := at_ns "p-1" "prtb-1" "uid-1" ∅;
     prtb_type := {| Kind := "ProjectRoleTemplateBinding"; APIVersion := "v3" |}; prtb_UserName := "u-1";
     prtb_UserPrincipalName := ""; prtb_GroupName := ""; prtb_GroupPrincipalName := "";
     prtb_ProjectName := "c-1:p-1"; prtb_RoleTemplateName := "project-owner" |}.

Lemma no_crbs_scoped : scoped (O:=ClusterRoleBinding) "" (view demo_removal).
Proof.
  right. intros k o Ho.
  change (tbl (view demo_removal)) with (∅ : gmap nsname ClusterRoleBinding) in Ho.
  by rewrite lookup_empty in Ho.
Qed.

Lemma crtb_Remove_correct_witness :
  ∃ w', Crtb.Remove demo_removed_crtb demo_removal = (Ok tt, w') ∧
    ∃ s1 names,
      all_released (λ rb : ClusterRoleBinding, rr_Name (crb_RoleRef rb)) "" "" "uid-1"
        (view demo_removal) s1 ∧
      only_tbl (O:=RoleBinding) s1 (view w') ∧
      s_RoleBindings (view w') = unmade names "uid-1" (s_RoleBindings (view demo_removal)) ∧
      ∀ n, n ∈ names ↔ is_Some (s_Projects (view demo_removal) !! ("c-1", n)).
Proof.
  refine (run_ok _ _ _ demo_removal tt
    (crtb_Remove_correct demo_removed_crtb demo_removal _ no_crbs_scoped _ _ _) _);
    [done|reflexivity|reflexivity|reflexivity|vm_compute; reflexivity].
Defined.

Lemma prtb_Remove_leaks_witness :
  ∃ w', Prtb.Remove demo_removed_prtb demo_removal = (Ok tt, w') ∧
    ∀ k rb, s_RoleBindings (view demo_removal) !! k = Some rb →
      Labels (rb_meta rb) !! "uid-1" = Some prtbInClusterBindingOwner →
      s_RoleBindings (view w') !! k = Some rb.
Proof.
  refine (run_ok _ _ _ demo_removal tt
    (prtb_Remove_leaks demo_removed_prtb "c-1" "p-1" demo_removal _ _ _ _ no_crbs_scoped) _);
    [reflexivity|done|reflexivity|reflexivity|vm_compute; reflexivity].
Defined.
