(* ===== verification/MgmtProjects.v ===== *)
(** * Projects and clusters

    Theorems about [MgmtHandlers.ProjectCluster]: what a sync of a project
    creates, and that a project or cluster in its final state is left alone. *)

From stdpp Require Import base gmap list strings.
From S2P Require Import Prelude.
From S2P Require Import GoLib.
From S2P Require Import KubeTypes.
From S2P Require Import KubeObjects.
From S2P Require Import Kube.
From S2P Require Import KubeRules.
From S2P Require Import KubeSim.
From S2P Require Import Cond.
From S2P Require Import MgmtManager.
From S2P Require Import MgmtBindings.
From S2P Require Import MgmtMembership.
From S2P Require Import MgmtHandlers.
From S2P Require Import MgmtUsers.
From S2P Require Import MgmtGlobal.
Import ProjectCluster.

Section projects.
Context {W : Type} `{!Kube W, !GoRuntime W}.
Context `{!Client W NamespaceObject, !Client W Project, !Client W Cluster,
          !Client W ProjectRoleTemplateBinding, !Client W ClusterRoleTemplateBinding}.
Context `{!ClientLaws W NamespaceObject, !ClientLaws W Project, !ClientLaws W Cluster,
          !ClientLaws W ProjectRoleTemplateBinding, !ClientLaws W ClusterRoleTemplateBinding}.
Implicit Types (w : W).

(** A step that returns the object it was given. *)
Lemma wp_step_of {O} (f : O → M W unit) o (Q : outcome (option O * option goerr) → W → Prop) w :
  wp (f o) (λ r w', match r with
    | Ok _ => Q (Ok (Some o, None)) w'
    | Err e => Q (Ok (Some o, Some e)) w'
    | Panic => Q Panic w'
    | OutOfFuel => Q OutOfFuel w'
    end) w →
  wp (step_of f o) Q w.
Proof.
  intros Hf. apply wp_bind, wp_attempt. eapply wp_mono; [exact Hf|].
  intros [] w' Hr; simpl in *; try done; by apply wp_ret.
Qed.

Lemma wp_or_fail {A} (m : M W (A * option goerr)) (Q : outcome A → W → Prop) w :
  wp m (λ r w', match r with
    | Ok (a, None) => Q (Ok a) w'
    | Ok (_, Some e) => Q (Err e) w'
    | Err e => Q (Err e) w'
    | Panic => Q Panic w'
    | OutOfFuel => Q OutOfFuel w'
    end) w →
  wp (or_fail m) Q w.
Proof.
  intros Hm. apply wp_bind. eapply wp_mono; [exact Hm|].
  by intros [[a [e|]]|e| |] w' Hr.
Qed.

Lemma project_started_meta c now (p : Project) :
  proj_meta (started c now p) = proj_meta p ∧ proj_type (started c now p) = proj_type p.
Proof. unfold started. by destruct (IsFalse c p). Qed.

Lemma cluster_started_meta c now (p : Cluster) :
  cluster_meta (started c now p) = cluster_meta p ∧ cluster_type (started c now p) = cluster_type p.
Proof. unfold started. by destruct (IsFalse c p). Qed.

(** The namespace that backs a project. *)
Lemma project_namespace (p : Project) (I : W → Prop) w :
  let key := ("", Name (proj_meta p)) in
  undisturbed (O:=NamespaceObject) I → I w → Name (proj_meta p) ≠ "" →
  s_Namespaces (cached w) !! key = s_Namespaces (view w) !! key →
  wp (or_fail (reconcileResourceToNamespace p))
    (if_ok (λ p' w', I w' ∧ only_tbl (O:=NamespaceObject) (view w) (view w') ∧
              is_Some (s_Namespaces (view w') !! key) ∧
              ∃ now, completes NamespaceBackedResource (started NamespaceBackedResource now p) p')
       (λ _ _, ¬ ClientHealthy W NamespaceObject)) w.
Proof.
  intros key HI Hw Hn Hs. apply wp_or_fail, wp_Do. intros now.
  destruct (project_started_meta NamespaceBackedResource now p) as [Hm Ht].
  apply wp_step_of. simpl. rewrite Hm.
  apply wp_bind, wp_reads. rewrite (lister_or_nil (O:=NamespaceObject)). cbn [bind_post].
  change (tbl (cached w) !! ("", Name (proj_meta p))) with (s_Namespaces (cached w) !! key).
  destruct (s_Namespaces (cached w) !! key) as [ns|] eqn:Hc.
  - apply wp_ret. simpl. intros o' Ho'. split_and!; [done|apply only_tbl_refl| |by eauto].
    exists ns. by rewrite Hs.
  - apply wp_bind, wp_attempt, wp_create; simpl.
    + intros o' w' Hst _ Hv Hcs. apply wp_ret. intros p' Hp'.
      assert (obj_key o' = key) as Hk by by apply (stored_as_key _ _ _ Hst).
      rewrite Hv. split_and!; [|apply only_tbl_put, only_tbl_refl| |by eauto].
      * apply (HI w w' Hw); [|done]. rewrite Hv. apply only_tbl_put, only_tbl_refl.
      * exists o'. rewrite <-Hk. exact (tbl_put_eq o' (view w)).
    + intros e w' _ _ Hno. apply wp_throw. intros p' Hh. by apply (Hno Hh).
Qed.

(** Running a step under one condition keeps the others, the metadata and the type. *)
Lemma project_completes c c' now (p p' : Project) :
  c ≠ c' → completes c (started c now p) p' →
  proj_meta p' = proj_meta p ∧ proj_type p' = proj_type p ∧ IsTrue c' p' = IsTrue c' p.
Proof.
  intros Hne [_ (g & Hg & ->)]. destruct (project_started_meta c now p) as [Hm Ht].
  split_and!; [exact Hm|exact Ht|]. unfold IsTrue, getStatus.
  rewrite field_change_other by done. unfold started. destruct (IsFalse c p); [done|].
  unfold setStatus. by rewrite field_change_other by auto with go.
Qed.

(** The binding of the creator of a project. *)
Definition owner_binding (p : Project) (creatorID : string) (b : ProjectRoleTemplateBinding) : Prop :=
  prtb_UserName b = creatorID ∧ prtb_RoleTemplateName b = "project-owner" ∧
  prtb_ProjectName b = Namespace (proj_meta p) +:+ ":" +:+ Name (proj_meta p).

Definition creator_bound (p : Project) (s s' : KState) : Prop :=
  let key := (Name (proj_meta p), "creator") in
  ∀ creatorID, Annotations (proj_meta p) !! creatorIDAnn = Some creatorID →
  IsTrue CreatorMadeOwner p = false →
  ∃ b, s_ProjectRoleTemplateBindings s' !! key = Some b ∧
    (s_ProjectRoleTemplateBindings s !! key = Some b ∨ owner_binding p creatorID b).

Lemma project_creator (p : Project) w :
  let key := (Name (proj_meta p), "creator") in
  Kind (proj_type p) = "Project" →
  s_ProjectRoleTemplateBindings (cached w) !! key = s_ProjectRoleTemplateBindings (view w) !! key →
  wp (or_fail (reconcileCreatorRTB p))
    (if_ok (λ p' w', only_tbl (O:=ProjectRoleTemplateBinding) (view w) (view w') ∧
              proj_meta p' = proj_meta p ∧ creator_bound p (view w) (view w'))
       (λ _ _, ¬ ClientHealthy W ProjectRoleTemplateBinding)) w.
Proof.
  intros key Hkind Hs. apply wp_or_fail. unfold reconcileCreatorRTB, DoUntilTrue.
  destruct (IsTrue CreatorMadeOwner p) eqn:Hdone.
  { apply wp_ret. split_and!; [apply only_tbl_refl|done|]. intros ??. congruence. }
  apply wp_Do. intros now.
  destruct (project_started_meta CreatorMadeOwner now p) as [Hm Ht].
  apply wp_step_of. unfold creatorRTB. simpl. rewrite Hm, Ht, Hkind. simpl.
  destruct (Annotations (proj_meta p) !! creatorIDAnn) as [creatorID|] eqn:Hann.
  2:{ apply wp_ret. intros p' [_ (g & _ & ->)]. split_and!; [apply only_tbl_refl|exact Hm|].
      intros ??. congruence. }
  apply wp_bind, wp_reads. rewrite (lister_or_nil (O:=ProjectRoleTemplateBinding)). cbn [bind_post].
  change (tbl (cached w) !! (Name (proj_meta p), "creator"))
    with (s_ProjectRoleTemplateBindings (cached w) !! key).
  destruct (s_ProjectRoleTemplateBindings (cached w) !! key) as [b|] eqn:Hc.
  - apply wp_ret. intros p' [_ (g & _ & ->)]. split_and!; [apply only_tbl_refl|exact Hm|].
    intros cid _ _. exists b. fold key. rewrite <-Hs. auto.
  - apply wp_bind, wp_create; simpl.
    + intros o' w' Hst Hfree Hv _. apply wp_ret. intros p' [_ (g & _ & ->)].
      assert (obj_key o' = key) as Hk.
      { rewrite (stored_as_key _ _ _ Hst) by done. unfold write_key, client_ns, key. simpl.
        by case_decide. }
      split_and!; [rewrite Hv; apply only_tbl_put, only_tbl_refl|exact Hm|].
      intros cid Hcid _. rewrite Hann in Hcid. injection Hcid as <-.
      exists o'. fold key. split; [rewrite Hv, <-Hk; exact (tbl_put_eq o' (view w))|]. right.
      destruct Hst as (_ & _ & _ & _ & _ & _ & Hsp). simpl in Hsp. by rewrite Hsp.
    + intros e w' _ _ Hno p' Hh. apply (Hno Hh); [|done]. intros _.
      unfold write_key, client_ns. simpl. case_decide; rewrite <-?Hs; done.
Qed.

(** A sync of a project creates the namespace that backs it and, the first
    time, the binding that makes its creator an owner.  With up-to-date caches it
    fails only if the API server does. *)
Theorem project_sync_correct (p : Project) w :
  let name := Name (proj_meta p) in
  Kind (proj_type p) = "Project" →
  s_Projects (view w) !! obj_key p = Some p →
  in_sync_kind NamespaceObject w → in_sync_kind ProjectRoleTemplateBinding w →
  wp (project_sync (Some p))
    (if_ok (λ _ w', is_Some (s_Namespaces (view w') !! ("", name)) ∧
              creator_bound p (view w) (view w'))
       (λ _ _, ClientHealthy W NamespaceObject → ClientHealthy W ProjectRoleTemplateBinding →
          ¬ ClientHealthy W Project)) w.
Proof.
  intros name Hkind Hp Hns Hprtb. unfold project_sync.
  assert (name ≠ "") as Hname.
  { change ((obj_key p).2 ≠ ""). apply (view_named (O:=Project) w). by exists p. }
  eapply wp_bind_if_ok; [apply (project_namespace p (in_sync_kind ProjectRoleTemplateBinding))| |].
  { intros w1 w2 ???. by eapply (sync_undisturbed (A:=NamespaceObject)); [other_kind|..]. }
  { done. } { done. } { by rewrite (Hns : s_Namespaces (cached w) = _). }
  2:{ by intros e w' ? ?. }
  intros p1 w1 (Hprtb1 & Hot1 & Hn1 & now & Hc).
  apply (project_completes _ CreatorMadeOwner) in Hc as (Hm & Ht & Htrue); [|done].
  eapply wp_bind_if_ok; [apply (project_creator p1); [by rewrite Ht|]| |by intros e w' ? ? ?].
  { by rewrite (Hprtb1 : s_ProjectRoleTemplateBindings (cached w1) = _). }
  intros p2 w2 (Hot2 & Hm2 & Hb).
  assert (s_ProjectRoleTemplateBindings (view w1) = s_ProjectRoleTemplateBindings (view w)) as Hv1
    by (unfold only_tbl in Hot1; by rewrite Hot1).
  assert (is_Some (s_Namespaces (view w2) !! ("", name)) ∧ creator_bound p (view w) (view w2)) as Hpost.
  { split; [unfold only_tbl in Hot2; by rewrite Hot2|].
    intros cid Ha Hd. rewrite <-Hm in Ha. rewrite <-Htrue in Hd. destruct (Hb cid Ha Hd) as (b & Hb1 & Hb2).
    exists b. unfold owner_binding in *. rewrite Hm, Hv1 in *. done. }
  case_decide as Heq; [by apply wp_ret|].
  apply wp_bind, wp_update.
  - intros o' w3 _ _ _ Hv _. apply wp_ret. simpl. by rewrite Hv.
  - intros e w3 _ _ Hno _ _ Hh. apply (Hno Hh); simpl; [by rewrite Hm2, Hm|].
    exists p. rewrite Hm2, Hm. split_and!; [|done|done].
    assert (s_Projects (view w2) = s_Projects (view w)) as ->
      by (unfold only_tbl in *; rewrite Hot2, Hot1; done).
    unfold write_key, client_ns. simpl. rewrite Hm2, Hm. rewrite <-Hp. unfold obj_key. simpl.
    case_decide as Hd; [by rewrite Hd|done].
Qed.

(** The steps of a project or cluster in its final state. *)
Lemma namespace_settled {O} `{!Stored O, !Conditioned O, !ConditionedLaws O, !Resource O} (obj : O) w :
  (∀ now, meta (started NamespaceBackedResource now obj) = meta obj) →
  settled NamespaceBackedResource obj →
  is_Some (s_Namespaces (cached w) !! ("", Name (meta obj))) →
  or_fail (reconcileResourceToNamespace obj) w = (Ok obj, w).
Proof.
  intros Hm Hset [ns Hns]. unfold or_fail, bind.
  assert (reconcileResourceToNamespace obj w = (Ok (obj, None), w)) as ->; [|done].
  apply Do_settled; [done|]. intros now. unfold step_of, bind, attempt, reads.
  rewrite (lister_or_nil (O:=NamespaceObject)). rewrite Hm. simpl. by rewrite Hns.
Qed.

Lemma creator_settled {O} `{!Stored O, !Conditioned O, !Resource O} (obj : O) w :
  IsTrue CreatorMadeOwner obj = true →
  or_fail (reconcileCreatorRTB obj) w = (Ok obj, w).
Proof. intros Ht. unfold or_fail, bind, reconcileCreatorRTB, DoUntilTrue. by rewrite Ht. Qed.

(** A project and a cluster in their final state (namespace present, its
    condition settled, the other conditions true) are left alone: a sync sends no
    request. *)
Theorem sync_idempotent (p : Project) (c : Cluster) w :
  settled NamespaceBackedResource p → IsTrue CreatorMadeOwner p = true →
  is_Some (s_Namespaces (cached w) !! ("", Name (proj_meta p))) →
  settled NamespaceBackedResource c → IsTrue CreatorMadeOwner c = true →
  IsTrue DefaultProjectCreated c = true →
  is_Some (s_Namespaces (cached w) !! ("", Name (cluster_meta c))) →
  project_sync (Some p) w = (Ok tt, w) ∧ cluster_sync (Some c) w = (Ok tt, w).
Proof.
  intros Hp1 Hp2 Hp3 Hc1 Hc2 Hc3 Hc4. split.
  - unfold project_sync, bind. rewrite namespace_settled; [|intros; apply project_started_meta|done|done].
    rewrite creator_settled by done. by rewrite decide_True.
  - unfold cluster_sync, bind. rewrite namespace_settled; [|intros; apply cluster_started_meta|done|done].
    assert (or_fail (createDefaultProject c) w = (Ok c, w)) as ->.
    { unfold or_fail, bind, createDefaultProject, DoUntilTrue. by rewrite Hc3. }
    rewrite creator_settled by done. by rewrite decide_True.
Qed.

End projects.

(** ** Witnesses *)

Definition demo_project : Project :=
  {| proj_meta := {| Name := "p-1"; GenerateName := ""; Namespace := "c-1"; UID := ""; ResourceVersion := "1";
       Labels := ∅; Annotations := {[ creatorIDAnn := "u-1" ]}; OwnerReferences := [];
       CreationTimestamp := 0; DeletionTimestamp := None |};
     proj_type := {| Kind := "Project"; APIVersion := "v3" |}; proj_DisplayName := "";
     proj_Description := ""; proj_ClusterName := "c-1"; proj_Conditions := [] |}.

Definition demo_new_project : Sim :=
  synced (set_s_Projects {[ ("c-1", "p-1") := demo_project ]} empty_state).

Lemma project_sync_correct_witness :
  ∃ w', project_sync (Some demo_project) demo_new_project = (Ok tt, w') ∧
    is_Some (s_Namespaces (view w') !! ("", "p-1")) ∧
    creator_bound demo_project (view demo_new_project) (view w').
Proof.
  refine (run_ok _ _ _ demo_new_project tt
    (project_sync_correct demo_project demo_new_project _ _ _ _) _);
    [reflexivity|vm_compute; reflexivity|reflexivity|reflexivity|vm_compute; reflexivity].
Defined.

Definition demo_final_project : Project :=
  demo_settled [NamespaceBackedResource; CreatorMadeOwner].

Definition demo_final_cluster : Cluster :=
  {| cluster_meta := named_meta "c-1" ∅ ∅ [];
     cluster_type := {| Kind := "Cluster"; APIVersion := "v3" |};
     cluster_Spec := no_spec; cluster_Status := no_status;
     cluster_Conditions :=
       demo_true <$> [NamespaceBackedResource; DefaultProjectCreated; CreatorMadeOwner] |}.

Definition demo_final : Sim :=
  synced (set_s_Namespaces {[ ("", "p-1") := backing_namespace "p-1";
                              ("", "c-1") := backing_namespace "c-1" ]} empty_state).

Lemma sync_idempotent_witness :
  project_sync (Some demo_final_project) demo_final = (Ok tt, demo_final) ∧
  cluster_sync (Some demo_final_cluster) demo_final = (Ok tt, demo_final).
Proof.
  apply (sync_idempotent demo_final_project demo_final_cluster demo_final).
  - apply settled_demo.
  - reflexivity.
  - exists (backing_namespace "p-1"). vm_compute. reflexivity.
  - exists (demo_true NamespaceBackedResource). split_and!; reflexivity.
  - reflexivity.
  - reflexivity.
  - exists (backing_namespace "c-1"). vm_compute. reflexivity.
Defined.
