(* ===== verification/NodePools.v ===== *)
(** * Node pools

    [src/pkg/controllers/management/nodepool/nodepool.go]: the controller that
    keeps as many nodes as a pool asks for, and the references between objects of
    [src/pkg/ref/parse.go].

    A pass looks at the nodes of the pool's namespace twice: once in the cache
    to see whether anything is to be done ([simulate]), and then at the server.
    The loop that looks for a free host name runs until enough nodes exist; its
    fuel is the number of names taken plus the number of nodes missing, which
    [fill_returns] shows to be enough as long as they are fewer than the values of
    an [int]. *)

From stdpp Require Import base gmap list sorting strings.
From Stdlib Require Import Ascii ZArith Lia.
From S2P Require Import Prelude.
From S2P Require Import GoLib.
From S2P Require Import KubeTypes.
From S2P Require Import KubeObjects.
From S2P Require Import Kube.
From S2P Require Import KubeRules.
From S2P Require Import KubeSim.
From S2P Require Import Cond.

(** ** References *)

Definition FromStrings (namespace name : string) : string := namespace +:+ ":" +:+ name.

Definition Ref (m : ObjectMeta) : string :=
  if String.eqb (Namespace m) "" then Name m else FromStrings (Namespace m) (Name m).

Definition Parse (ref : string) : string * string :=
  match SplitN2 ref ":" with
  | [ns; name] => (ns, name)
  | parts => ("", default "" (head parts))
  end.

(** ** Conditions of nodes and pools *)

#[export] Instance Node_conditioned : Conditioned Node := {
  conditions := node_Conditions;
  set_conditions l o :=
    {| node_meta := node_meta o; node_Etcd := node_Etcd o; node_ControlPlane := node_ControlPlane o;
       node_Worker := node_Worker o; node_NodeTemplateName := node_NodeTemplateName o;
       node_NodePoolName := node_NodePoolName o; node_CustomConfig := node_CustomConfig o;
       node_Imported := node_Imported o; node_RequestedHostname := node_RequestedHostname o;
       node_InternalNodeSpec := node_InternalNodeSpec o;
       node_DesiredNodeLabels := node_DesiredNodeLabels o;
       node_DesiredNodeAnnotations := node_DesiredNodeAnnotations o;
       node_DesiredNodeUnschedulable := node_DesiredNodeUnschedulable o;
       node_Conditions := l; node_InternalNodeStatus := node_InternalNodeStatus o;
       node_NodeName := node_NodeName o; node_Requested := node_Requested o; node_Limits := node_Limits o;
       node_NodeConfig := node_NodeConfig o; node_NodeAnnotations := node_NodeAnnotations o;
       node_NodeLabels := node_NodeLabels o; node_DockerInfo := node_DockerInfo o |} }.

#[export] Instance NodePool_conditioned : Conditioned NodePool := {
  conditions := pool_Conditions;
  set_conditions l o :=
    {| pool_meta := pool_meta o; pool_Etcd := pool_Etcd o; pool_ControlPlane := pool_ControlPlane o;
       pool_Worker := pool_Worker o; pool_NodeTemplateName := pool_NodeTemplateName o;
       pool_HostnamePrefix := pool_HostnamePrefix o; pool_Quantity := pool_Quantity o;
       pool_DisplayName := pool_DisplayName o; pool_ClusterName := pool_ClusterName o;
       pool_Conditions := l |} }.

#[export] Instance Node_conditioned_laws : ConditionedLaws Node.
Proof. split; by intros []. Qed.

#[export] Instance NodePool_conditioned_laws : ConditionedLaws NodePool.
Proof. split; by intros []. Qed.

Notation NodeConditionProvisioned := "Provisioned" (only parsing).
Notation NodeConditionInitialized := "Initialized" (only parsing).
Notation NodeConditionConfigSaved := "Saved" (only parsing).
Notation NodePoolConditionUpdated := "Updated" (only parsing).

(** ** Host names *)

Definition newline : ascii := "010"%char.

(** The text before the longest suffix of digits, and that suffix: what the groups
    of [^(.*?)([0-9]+)$] match. *)
Fixpoint split_suffix (s : string) : string * string :=
  match s with
  | EmptyString => (EmptyString, EmptyString)
  | String c s' =>
    let '(p, d) := split_suffix s' in
    if String.eqb p "" && is_digit c then (EmptyString, String c d) else (String c p, d)
  end.

Definition parsePrefix (fullPrefix : string) : string * nat * Z :=
  let '(p, d) := split_suffix fullPrefix in
  if String.eqb d "" || has_char newline p then (fullPrefix, 1, 1%Z)
  else (p, String.length d, Atoi_digits d).

Definition hostname (prefix : string) (minLength : nat) (i : Z) : string :=
  let ia := FormatInt i in
  if (String.length ia <? minLength)%nat then prefix +:+ Sprintf0d minLength i
  else prefix +:+ ia.

(** ** The controller *)

Section nodepools.
Context {W : Type} `{!Client W Node, !Client W NodePool, !Queue W NodePool}.
Context `{!GoRuntime W, !Goroutines W, !SortSlice}.

Definition createNode (name : string) (nodePool : NodePool) (simulate : bool) : M W Node :=
  let newNode :=
    {| node_meta := {| Name := ""; GenerateName := "m-"; Namespace := Namespace (pool_meta nodePool);
                       UID := ""; ResourceVersion := ""; Labels := Labels (pool_meta nodePool);
                       Annotations := Annotations (pool_meta nodePool); OwnerReferences := [];
                       CreationTimestamp := 0; DeletionTimestamp := None |};
       node_Etcd := pool_Etcd nodePool; node_ControlPlane := pool_ControlPlane nodePool;
       node_Worker := pool_Worker nodePool; node_NodeTemplateName := pool_NodeTemplateName nodePool;
       node_NodePoolName := Ref (pool_meta nodePool); node_CustomConfig := None;
       node_Imported := false; node_RequestedHostname := name; node_InternalNodeSpec := no_node_spec;
       node_DesiredNodeLabels := ∅; node_DesiredNodeAnnotations := ∅; node_DesiredNodeUnschedulable := "";
       node_Conditions := []; node_InternalNodeStatus := no_node_status; node_NodeName := "";
       node_Requested := ∅; node_Limits := ∅; node_NodeConfig := None; node_NodeAnnotations := ∅;
       node_NodeLabels := ∅; node_DockerInfo := None |} in
  if simulate then ret newNode else api_create "" newNode.

Definition minute : Z := 60 * 1000 * 1000 * 1000.

Definition deleteNode (node : Node) (duration : Z) : M W unit :=
  let delete := api_delete (O:=Node) (Namespace (node_meta node)) (Name (node_meta node)) in
  if (0 <? duration)%Z then λ w, (Ok tt, go_later duration delete w) else delete.

Definition pool_nodes (nodePool : NodePool) (simulate : bool) : M W (list Node) :=
  if simulate then reads (lister_List (O:=Node) (Namespace (pool_meta nodePool)) Everything)
  else
    let* nodeList := reads (api_list (O:=Node) "" Everything) in
    ret (List.filter (λ n, String.eqb (Namespace (node_meta n)) (Namespace (pool_meta nodePool)))
           nodeList).

Definition in_pool (nodePool : NodePool) (node : Node) : bool :=
  String.eqb (snd (Parse (node_NodePoolName node))) (Name (pool_meta nodePool)).

Definition failed_node (node : Node) : bool :=
  IsFalse NodeConditionProvisioned node || IsFalse NodeConditionInitialized node ||
  IsFalse NodeConditionConfigSaved node.

(** The variables of [createOrCheckNodes]: [byName] as the set of its keys. *)
Record check_state := { byName : gset string; changed : bool; nodes : list Node }.

(** [for _, node := range allNodes]. *)
Definition check_node (nodePool : NodePool) (simulate : bool) (st : check_state) (node : Node) :
    M W check_state :=
  let names := {[ node_RequestedHostname node ]} ∪ byName st in
  if in_pool nodePool node then
    if failed_node node then
      do* if simulate then ret tt
          else (let* _ := attempt (deleteNode node (2 * minute)) in ret tt) in
      ret {| byName := names; changed := true; nodes := nodes st ++ [node] |}
    else ret {| byName := names; changed := changed st; nodes := nodes st ++ [node] |}
  else ret {| byName := names; changed := changed st; nodes := nodes st |}.

(** [for i := start; len(nodes) < quantity; i++]. *)
Fixpoint fill (fuel : nat) (nodePool : NodePool) (simulate : bool) (quantity : Z)
    (prefix : string) (minLength : nat) (i : Z) (st : check_state) : M W check_state :=
  if (Z.of_nat (length (nodes st)) <? quantity)%Z then
    match fuel with
    | O => out_of_fuel
    | S fuel =>
      let name := hostname prefix minLength i in
      let next := wrap64 (i + 1) in
      if bool_decide (name ∈ byName st)
      then fill fuel nodePool simulate quantity prefix minLength next st
      else
        let* newNode := createNode name nodePool simulate in
        fill fuel nodePool simulate quantity prefix minLength next
          {| byName := {[ node_RequestedHostname newNode ]} ∪ byName st; changed := true;
             nodes := nodes st ++ [newNode] |}
    end
  else ret st.

Definition by_hostname (a b : Node) : bool :=
  str_ltb (node_RequestedHostname a) (node_RequestedHostname b).

(** [for len(nodes) > quantity]. *)
Fixpoint trim (fuel : nat) (simulate : bool) (quantity : Z) (st : check_state) : M W check_state :=
  if (quantity <? Z.of_nat (length (nodes st)))%Z then
    match fuel with
    | O => out_of_fuel
    | S fuel =>
      let sorted := sort_Slice by_hostname (nodes st) in
      match last sorted with
      | None => panic
      | Some toDelete =>
        do* if simulate then ret tt else (let* _ := attempt (deleteNode toDelete 0) in ret tt) in
        trim fuel simulate quantity
          {| byName := byName st ∖ {[ node_RequestedHostname toDelete ]}; changed := true;
             nodes := removelast sorted |}
      end
    end
  else ret st.

Definition createOrCheckNodes (nodePool : NodePool) (simulate : bool) : M W bool :=
  let* allNodes := pool_nodes nodePool simulate in
  let* st := for_fold (check_node nodePool simulate)
               {| byName := ∅; changed := false; nodes := [] |} allNodes in
  let quantity := if (pool_Quantity nodePool <? 0)%Z then 0%Z else pool_Quantity nodePool in
  let '(prefix, minLength, start) := parsePrefix (pool_HostnamePrefix nodePool) in
  let missing := Z.to_nat (quantity - Z.of_nat (length (nodes st))) in
  let* st := fill (size (byName st) + missing) nodePool simulate quantity prefix minLength start st in
  let* st := trim (length (nodes st)) simulate quantity st in
  ret (changed st).

Definition createNodes (nodePool : NodePool) : M W unit :=
  let* changed := createOrCheckNodes nodePool true in
  if changed then (do* createOrCheckNodes nodePool false in ret tt) else ret tt.

Definition pool_Create (nodePool : NodePool) : M W NodePool := ret nodePool.

(** The pool is returned with its condition beside the error. *)
Definition pool_Updated (nodePool : NodePool) : M W (NodePool * option goerr) :=
  Do NodePoolConditionUpdated nodePool (λ obj,
    let* r := attempt (createNodes obj) in
    ret (Some obj, match r with inl e => Some e | inr _ => None end)).

Definition pool_Remove (nodePool : NodePool) : M W NodePool :=
  let* allNodes := pool_nodes nodePool false in
  do* for_each (λ node, if in_pool nodePool node then deleteNode node 0 else ret tt) allNodes in
  ret nodePool.

Definition machineChanged (machine : option Node) : M W unit :=
  match machine with
  | None =>
    let* nps := reads (lister_List (O:=NodePool) "" Everything) in
    for_each (λ np, Enqueue (O:=NodePool) (Namespace (pool_meta np)) (Name (pool_meta np))) nps
  | Some machine =>
    if String.eqb (node_NodePoolName machine) "" then ret tt
    else let '(ns, name) := Parse (node_NodePoolName machine) in Enqueue (O:=NodePool) ns name
  end.

End nodepools.

(** ** References: lemmas *)

Lemma Parse_FromStrings ns name :
  has_char ":" ns = false → Parse (FromStrings ns name) = (ns, name).
Proof.
  intros Hns. unfold Parse, SplitN2, FromStrings.
  assert (cut_sep ":" (ns +:+ ":" +:+ name) = Some (ns, name)) as -> by exact (cut_sep_char ":" ns name Hns).
  done.
Qed.

(** A reference to an object is parsed back to its namespace and name. *)
Lemma Parse_Ref m :
  has_char ":" (Namespace m) = false → (Namespace m = "" → has_char ":" (Name m) = false) →
  Parse (Ref m) = (Namespace m, Name m).
Proof.
  intros Hns Hname. unfold Ref. destruct (String.eqb_spec (Namespace m) "") as [He|He].
  - unfold Parse, SplitN2. specialize (Hname He).
    apply cut_sep_char_None in Hname. by rewrite Hname, He.
  - by apply Parse_FromStrings.
Qed.

(** ** Host names: lemmas *)

Lemma hostname_padded prefix n i : hostname prefix n i = prefix +:+ Sprintf0d n i.
Proof.
  unfold hostname. destruct (Nat.ltb_spec (String.length (FormatInt i)) n) as [|Hge]; [done|].
  f_equal. unfold Sprintf0d. replace (n - String.length (FormatInt i)) with 0 by lia.
  unfold FormatInt. by destruct (i <? 0)%Z.
Qed.

Lemma hostname_inj prefix n i j : hostname prefix n i = hostname prefix n j → i = j.
Proof. rewrite !hostname_padded. intros H%append_inj_l. by eapply Sprintf0d_inj. Qed.

Lemma split_suffix_app s p d : split_suffix s = (p, d) → s = p +:+ d.
Proof.
  revert p d. induction s as [|c s IH]; intros p d; simpl; [by intros [= <- <-]|].
  destruct (split_suffix s) as [p' d'] eqn:E. rewrite (IH p' d' eq_refl).
  destruct (String.eqb_spec p' "") as [->|]; simpl; [|by intros [= <- <-]].
  destruct (is_digit c); by intros [= <- <-].
Qed.

Definition all_digits (s : string) : bool := forallb is_digit (String.list_ascii_of_string s).

Lemma split_suffix_digits s p d : split_suffix s = (p, d) → all_digits d = true.
Proof.
  revert p d. induction s as [|c s IH]; intros p d; simpl; [by intros [= <- <-]|].
  destruct (split_suffix s) as [p' d'] eqn:E. pose proof (IH p' d' eq_refl) as Hd.
  destruct (String.eqb_spec p' "") as [->|]; simpl; [|by intros [= <- <-]].
  destruct (is_digit c) eqn:Hc; intros [= <- <-]; [|done]. unfold all_digits in *. simpl. by rewrite Hc.
Qed.

(** A host name for the prefix [full]: the text before its digits and a number, padded with zeros to as many
    digits. *)
Definition numbered (full name : string) : Prop := ∃ p d i,
  full = p +:+ d ∧ all_digits d = true ∧ int64 i ∧ name = p +:+ Sprintf0d (Nat.max 1 (String.length d)) i.

Lemma hostname_numbered full p n start i :
  parsePrefix full = (p, n, start) → int64 i → numbered full (hostname p n i).
Proof.
  unfold parsePrefix. destruct (split_suffix full) as [p' d] eqn:Hs. intros Hp Hi. rewrite hostname_padded.
  destruct (String.eqb_spec d "") as [->|Hd]; simpl in Hp.
  - injection Hp as <- <- _. exists full, "", i. by rewrite append_empty_r.
  - destruct (has_char newline p'); injection Hp as <- <- _.
    + exists full, "", i. by rewrite append_empty_r.
    + exists p', d, i. split_and!; [by apply split_suffix_app|by eapply split_suffix_digits|done|].
      do 2 f_equal. destruct d; [done|]. simpl. lia.
Qed.

Lemma parsePrefix_int64 s p n i : parsePrefix s = (p, n, i) → int64 i.
Proof.
  unfold parsePrefix. destruct (split_suffix s) as [p' d].
  destruct (String.eqb d "" || has_char newline p'); intros [= _ _ <-]; unfold int64, Atoi_digits; lia.
Qed.

(** The values of the loop variable are those of an [int]: none is seen twice in
    2^64 rounds. *)
Lemma wrap64_next i k : wrap64 (wrap64 (i + 1) + k) = wrap64 (i + (1 + k)).
Proof.
  unfold wrap64. f_equal.
  replace ((i + 1 + 2 ^ 63) mod 2 ^ 64 - 2 ^ 63 + k + 2 ^ 63)%Z
    with ((i + 1 + 2 ^ 63) mod 2 ^ 64 + k)%Z by lia.
  rewrite Z.add_mod_idemp_l by lia. f_equal. lia.
Qed.

Lemma wrap64_apart i j k :
  (0 ≤ j < 2 ^ 64)%Z → (0 ≤ k < 2 ^ 64)%Z → wrap64 (i + j) = wrap64 (i + k) → j = k.
Proof.
  unfold wrap64. intros Hj Hk Heq.
  assert ((i + j + 2 ^ 63) mod 2 ^ 64 = (i + k + 2 ^ 63) mod 2 ^ 64)%Z as Hmod by lia.
  pose proof (Z.div_mod (i + j + 2 ^ 63) (2 ^ 64)). pose proof (Z.div_mod (i + k + 2 ^ 63) (2 ^ 64)).
  nia.
Qed.

Section hits.
Context (prefix : string) (minLength : nat).

(** The host names of the next [n] rounds from [i], and how many of them are taken. *)
Definition upcoming (n : nat) (i : Z) : list string :=
  (λ k, hostname prefix minLength (wrap64 (i + Z.of_nat k))) <$> seq 0 n.

Definition hits (n : nat) (i : Z) (names : gset string) : nat :=
  length (filter (.∈ names) (upcoming n i)).

Lemma upcoming_S n i :
  int64 i → upcoming (S n) i = hostname prefix minLength i :: upcoming n (wrap64 (i + 1)).
Proof.
  intros Hi. unfold upcoming. cbn [seq]. rewrite fmap_cons. f_equal.
  - f_equal. rewrite Z.add_0_r. by apply wrap64_id.
  - rewrite <-fmap_S_seq, <-list_fmap_compose. apply list_fmap_ext. intros _ k _. simpl.
    rewrite wrap64_next. do 2 f_equal. lia.
Qed.

Lemma upcoming_NoDup n i : (Z.of_nat n ≤ 2 ^ 64)%Z → NoDup (upcoming n i).
Proof.
  intros Hn. unfold upcoming. apply NoDup_fmap_2_strong; [|apply NoDup_seq].
  intros j k Hj%elem_of_seq Hk%elem_of_seq Heq%hostname_inj. apply wrap64_apart in Heq; lia.
Qed.

Lemma hits_le n i names : (Z.of_nat n ≤ 2 ^ 64)%Z → hits n i names ≤ size names.
Proof.
  intros Hn. unfold hits. rewrite <-(length_fmap id), list_fmap_id.
  assert (NoDup (filter (.∈ names) (upcoming n i))) as Hnd by by apply NoDup_filter, upcoming_NoDup.
  rewrite <-(size_list_to_set (C:=gset string) _ Hnd). apply subseteq_size.
  intros x Hx%elem_of_list_to_set. by apply list_elem_of_filter in Hx as [? _].
Qed.

Lemma hits_S n i names : int64 i →
  hits (S n) i names =
    (if bool_decide (hostname prefix minLength i ∈ names) then 1 else 0) +
    hits n (wrap64 (i + 1)) names.
Proof.
  intros Hi. unfold hits. rewrite upcoming_S, filter_cons by done.
  by case_bool_decide; case_decide.
Qed.

(** A name given to a node is not asked for again. *)
Lemma hits_taken n i names : int64 i → (Z.of_nat (S n) ≤ 2 ^ 64)%Z →
  hits n (wrap64 (i + 1)) ({[ hostname prefix minLength i ]} ∪ names) =
  hits n (wrap64 (i + 1)) names.
Proof.
  intros Hi Hn. unfold hits. f_equal.
  pose proof (upcoming_NoDup (S n) i Hn) as Hnd. rewrite upcoming_S in Hnd by done.
  apply NoDup_cons in Hnd as [Hnot _].
  induction (upcoming n (wrap64 (i + 1))) as [|x l IH]; [done|].
  apply not_elem_of_cons in Hnot as [Hx Hl]. rewrite !filter_cons, IH by done.
  by repeat case_decide; [|set_solver|set_solver|].
Qed.

End hits.

(** ** What a pass does to the cluster *)

Section spec.
Context (pool : NodePool).

Definition member (o : Node) : Prop :=
  Namespace (node_meta o) = Namespace (pool_meta pool) ∧ in_pool pool o = true.

(** [l] lists the nodes of the pool, each once. *)
Definition tracks (s : KState) (l : list Node) : Prop :=
  NoDup (obj_key <$> l) ∧ ∀ o, o ∈ l ↔ tbl s !! obj_key o = Some o ∧ member o.

(** A node made for the pool. *)
Definition made_node (o : Node) : Prop :=
  member o ∧ node_Etcd o = pool_Etcd pool ∧ node_ControlPlane o = pool_ControlPlane pool ∧
  node_Worker o = pool_Worker pool ∧ node_NodeTemplateName o = pool_NodeTemplateName pool ∧
  Labels (node_meta o) = Labels (pool_meta pool) ∧
  Annotations (node_meta o) = Annotations (pool_meta pool) ∧
  numbered (pool_HostnamePrefix pool) (node_RequestedHostname o).

(** Nodes were added, each with a host name of its own in the namespace. *)
Definition grown (s s' : KState) : Prop :=
  only_tbl (O:=Node) s s' ∧
  (∀ k o, tbl (O:=Node) s !! k = Some o → tbl s' !! k = Some o) ∧
  ∀ k o, tbl s' !! k = Some o → tbl (O:=Node) s !! k = None →
    made_node o ∧ ∀ k' o', k' ≠ k → tbl s' !! k' = Some o' →
      Namespace (node_meta o') = Namespace (pool_meta pool) →
      node_RequestedHostname o' ≠ node_RequestedHostname o.

(** Nodes of the pool were removed, last host names first. *)
Definition shrunk (s s' : KState) : Prop :=
  only_tbl (O:=Node) s s' ∧
  ∀ k, tbl (O:=Node) s' !! k = tbl s !! k ∨
    ∃ o, tbl s !! k = Some o ∧ member o ∧ tbl (O:=Node) s' !! k = None ∧
      ∀ k' o', tbl s' !! k' = Some o' → member o' → by_hostname o o' = false.

Lemma grown_refl s : grown s s.
Proof. split; [apply only_tbl_refl|]. split; [done|]. intros k o ??. congruence. Qed.

Lemma grown_trans s1 s2 s3 : grown s1 s2 → grown s2 s3 → grown s1 s3.
Proof.
  intros (Ho & Hk & Hn) (Ho' & Hk' & Hn').
  split; [by eapply only_tbl_trans|]. split; [by eauto|].
  intros k o H3 H1. destruct (tbl (O:=Node) s2 !! k) as [o2|] eqn:H2.
  - assert (o2 = o) as -> by (apply Hk' in H2; congruence).
    destruct (Hn k o H2 H1) as [Hm Hd]. split; [done|]. intros k' o' Hne Ho3 Hns.
    destruct (tbl (O:=Node) s2 !! k') as [o2'|] eqn:H2'.
    + assert (o2' = o') as -> by (apply Hk' in H2'; congruence). by eapply Hd.
    + destruct (Hn' k' o' Ho3 H2') as [_ Hd']. intros Heq.
      destruct Hm as [[Hmns _] _]. by apply (Hd' k o).
  - by apply Hn'.
Qed.

Lemma shrunk_refl s : shrunk s s.
Proof. split; [apply only_tbl_refl|]. intros k. by left. Qed.

Lemma shrunk_trans s1 s2 s3 : shrunk s1 s2 → shrunk s2 s3 → shrunk s1 s3.
Proof.
  intros [Ho Hk] [Ho' Hk']. split; [by eapply only_tbl_trans|]. intros k.
  destruct (Hk' k) as [H3|(o & H2 & Hm & H3 & Hlast)]; destruct (Hk k) as [H2'|(o1 & H1 & Hm1 & H2' & Hl1)].
  - left. congruence.
  - right. exists o1. split_and!; [done..|congruence|]. intros k' o' Ho3 Hm'.
    apply (Hl1 k'); [|done]. destruct (Hk' k') as [<-|(?&_&_&?&_)]; [done|congruence].
  - right. exists o. split_and!; [congruence|done..].
  - congruence.
Qed.

Lemma tracks_elem s l o : tracks s l → o ∈ l → tbl s !! obj_key o = Some o ∧ member o.
Proof. intros [_ Hl]. apply Hl. Qed.

(** What one request does to the nodes of the pool. *)
Lemma tracks_put s l o :
  tracks s l → tbl (O:=Node) s !! obj_key o = None → member o → tracks (put_obj o s) (l ++ [o]).
Proof.
  intros [Hnd Hl] Hnew Hm. split.
  - rewrite fmap_app. apply NoDup_app. split_and!; [done| |apply NoDup_singleton].
    intros k (o' & -> & Ho')%list_elem_of_fmap Heq%list_elem_of_singleton.
    apply Hl in Ho' as [Ho' _]. rewrite Heq in Ho'. by rewrite Ho' in Hnew.
  - intros o'. rewrite elem_of_app, list_elem_of_singleton, Hl, tbl_put.
    destruct (decide (obj_key o' = obj_key o)) as [Heq|Hne].
    + rewrite Heq, lookup_insert_eq. split; [|naive_solver].
      intros [[Ho' _]| ->]; [congruence|done].
    + rewrite lookup_insert_ne by done. naive_solver.
Qed.

Lemma tracks_del s l l' o :
  tracks s l → l ≡ₚ l' ++ [o] → tracks (del_obj (O:=Node) (obj_key o) s) l'.
Proof.
  intros [Hnd Hl] Hperm. rewrite Hperm, fmap_app in Hnd.
  apply NoDup_app in Hnd as (Hnd & Hdis & _). split; [done|].
  intros o'. rewrite tbl_del. destruct (decide (obj_key o' = obj_key o)) as [Heq|Hne].
  - rewrite Heq, lookup_delete_eq. split; [|naive_solver]. intros Ho'. exfalso.
    apply (Hdis (obj_key o')); [by apply list_elem_of_fmap_2|]. rewrite Heq. by left.
  - rewrite lookup_delete_ne by done. rewrite <-Hl, Hperm, elem_of_app, list_elem_of_singleton.
    split; [by left|]. intros [?| ->]; done.
Qed.

Lemma grown_put s o :
  tbl (O:=Node) s !! obj_key o = None → made_node o →
  (∀ k' o', tbl s !! k' = Some o' → Namespace (node_meta o') = Namespace (pool_meta pool) →
     node_RequestedHostname o' ≠ node_RequestedHostname o) →
  grown s (put_obj o s).
Proof.
  intros Hnew Hm Hd. split; [apply only_tbl_put, only_tbl_refl|]. rewrite tbl_put. split.
  - intros k o' Ho'. rewrite lookup_insert_ne; [done|]. congruence.
  - intros k o' Ho' Hk. apply lookup_insert_Some in Ho' as [[<- <-]|[? ?]]; [|congruence].
    split; [done|]. intros k' o'' Hne Ho''. rewrite lookup_insert_ne in Ho'' by done. by eapply Hd.
Qed.

Lemma shrunk_del s o :
  tbl s !! obj_key o = Some o → member o →
  (∀ k' o', tbl s !! k' = Some o' → member o' → by_hostname o o' = false) →
  shrunk s (del_obj (O:=Node) (obj_key o) s).
Proof.
  intros Ho Hm Hl. split; [apply only_tbl_del, only_tbl_refl|]. rewrite tbl_del. intros k.
  destruct (decide (k = obj_key o)) as [->|Hne]; [right|left; by rewrite lookup_delete_ne].
  exists o. rewrite lookup_delete_eq. split_and!; [done..|].
  intros k' o' Ho' Hm'. apply lookup_delete_Some in Ho' as [_ Ho']. by eapply Hl.
Qed.

End spec.

(** ** The passes *)

Section passes.
Context {W : Type} `{!Kube W, !Client W Node, !ClientLaws W Node, !Client W NodePool, !Queue W NodePool}.
Context `{!GoRuntime W, !Goroutines W, !GoroutinesLaws W, !SortSlice, !SortSliceLaws}.
Context (pool : NodePool).
Implicit Types (w : W).

Definition hosts (l : list Node) : gset string := list_to_set (node_RequestedHostname <$> l).

Definition some_failed (l : list Node) : bool := existsb (λ n, in_pool pool n && failed_node n) l.

Lemma wp_check simulate all w :
  wp (for_fold (check_node pool simulate) {| byName := ∅; changed := false; nodes := [] |} all)
    (returns (λ st w',
       byName st = hosts all ∧ nodes st = List.filter (in_pool pool) all ∧
       changed st = some_failed all ∧ view w' = view w ∧ cached w' = cached w ∧
       (simulate = true → w' = w))) w.
Proof.
  eapply wp_mono; [apply (wp_for_fold (λ don st w',
    byName st = hosts don ∧ nodes st = List.filter (in_pool pool) don ∧
    changed st = some_failed don ∧ view w' = view w ∧ cached w' = cached w ∧
    (simulate = true → w' = w)) (λ _ _, False)); [done|]|by intros []].
  intros don n rest st w' -> (Hb & Hn & Hc & Hv & Hca & Hw).
  assert ({[ node_RequestedHostname n ]} ∪ byName st = hosts (don ++ [n])) as Hb'.
  { rewrite Hb. unfold hosts. rewrite fmap_app, list_to_set_app_L. set_solver. }
  unfold check_node. unfold some_failed in *. rewrite existsb_app, List.filter_app. simpl.
  destruct (in_pool pool n) eqn:Hp; simpl; [|apply wp_ret; simpl; rewrite Hn, Hc, app_nil_r, !orb_false_r; done].
  destruct (failed_node n) eqn:Hf; simpl; [|apply wp_ret; simpl; rewrite Hn, Hc, !orb_false_r; done].
  rewrite orb_true_r. destruct simulate.
  - apply wp_bind, wp_ret. simpl. apply wp_ret. simpl. by rewrite Hn.
  - apply wp_bind, wp_bind, wp_attempt. eapply wp_unfold; [reflexivity|].
    apply wp_ret, wp_ret. simpl. by rewrite Hn, go_later_view, go_later_cached.
Qed.

Hypothesis healthy : ClientHealthy W Node.
Hypothesis pool_ns : Namespace (pool_meta pool) ≠ "".
Hypothesis pool_ref : has_char ":" (Namespace (pool_meta pool)) = false.

Lemma wp_createNode name (Q : outcome Node → W → Prop) w :
  numbered (pool_HostnamePrefix pool) name →
  (∀ o w', made_node pool o → node_RequestedHostname o = name →
     tbl (O:=Node) (view w) !! obj_key o = None → view w' = put_obj o (view w) → Q (Ok o) w') →
  wp (createNode name pool false) Q w.
Proof.
  intros Hnum HQ. unfold createNode. apply wp_create.
  - intros o w' (Hns & _ & _ & Hla & Han & _ & Hspec) Hnew Hv _. cbn in Hspec, Hns, Hla, Han.
    apply HQ; [|by rewrite Hspec|done..]. unfold client_ns in Hns. simpl in Hns.
    rewrite decide_False in Hns by done.
    split_and!; [|by rewrite Hspec..|done|done|by rewrite Hspec]. split; [done|].
    unfold in_pool. rewrite Hspec. cbn. rewrite Parse_Ref; [apply String.eqb_refl|done|done].
  - intros e w' _ _ Hno. exfalso. by apply Hno.
Qed.

(** The names the loop knows are those of the namespace. *)
Definition knows (s : KState) (names : gset string) : Prop :=
  ∀ k o, tbl s !! k = Some o → Namespace (node_meta o) = Namespace (pool_meta pool) →
    node_RequestedHostname o ∈ names.

Lemma wp_fill fuel q prefix n i st w :
  (∀ i, int64 i → numbered (pool_HostnamePrefix pool) (hostname prefix n i)) →
  int64 i → (Z.of_nat fuel ≤ 2 ^ 64)%Z →
  hits prefix n fuel i (byName st) + Z.to_nat (q - Z.of_nat (length (nodes st))) ≤ fuel →
  tracks pool (view w) (nodes st) → knows (view w) (byName st) →
  wp (fill fuel pool false q prefix n i st)
    (returns (λ st' w',
       tracks pool (view w') (nodes st') ∧ grown pool (view w) (view w') ∧
       Z.of_nat (length (nodes st')) = Z.max q (Z.of_nat (length (nodes st))) ∧
       ((q ≤ Z.of_nat (length (nodes st)))%Z → w' = w))) w.
Proof.
  intros Hnum. revert i st w. induction fuel as [|fuel IH]; intros i st w Hi Hf Hhits Htr Hkn; simpl;
    destruct (Z.ltb_spec (Z.of_nat (length (nodes st))) q) as [Hlt|Hge];
    try (apply wp_ret; simpl; split_and!; [done|apply grown_refl|lia|done]).
  { lia. }
  rewrite hits_S in Hhits by done. case_bool_decide as Hin.
  - apply IH; [apply wrap64_int64|lia..|done|done].
  - apply wp_bind, wp_createNode; [by apply Hnum|]. intros o w1 Hm Hname Hnew Hv1. simpl.
    rewrite Hname. eapply wp_mono; [apply IH|].
    + apply wrap64_int64.
    + lia.
    + simpl. rewrite hits_taken, length_app by (done || lia). simpl. lia.
    + simpl. rewrite Hv1. apply tracks_put; [done..|apply Hm].
    + simpl. rewrite Hv1. intros k o' Ho' Hns. rewrite tbl_put in Ho'.
      apply lookup_insert_Some in Ho' as [[_ <-]|[_ Ho']]; [rewrite Hname; set_solver|].
      apply elem_of_union_r. by eapply Hkn.
    + intros [st' | | |] w' Hr; [|done..]. destruct Hr as (Htr' & Hgr & Hlen & _). simpl in *.
      rewrite length_app in Hlen. simpl in Hlen. split_and!; [done| |lia|lia].
      eapply grown_trans; [|exact Hgr]. rewrite Hv1. apply grown_put; [done..|].
      intros k' o' Ho' Hns Heq. apply Hin. rewrite <-Hname, <-Heq. by eapply Hkn.
Qed.

(** The last of the sorted nodes is one no other comes after. *)
Lemma sort_last (l : list Node) : l ≠ [] → ∃ o,
  last (sort_Slice by_hostname l) = Some o ∧
  l ≡ₚ removelast (sort_Slice by_hostname l) ++ [o] ∧ ∀ o', o' ∈ l → by_hostname o o' = false.
Proof.
  intros Hne. pose proof (sort_perm by_hostname l) as Hp.
  pose proof (sort_sorted by_hostname l (str_weak_order node_RequestedHostname)) as Hs.
  destruct (sort_Slice by_hostname l) as [|x r] using rev_ind.
  { by apply Permutation_nil_l in Hp. }
  exists x. rewrite last_snoc, removelast_last. split_and!; [done|by rewrite Hp|].
  intros o' Ho'. rewrite <-Hp in Ho'. apply elem_of_app in Ho' as [Ho'| ->%list_elem_of_singleton].
  - apply (StronglySorted_app_1_elem_of _ _ _ o' x Hs); [done|]. by left.
  - apply str_ltb_irrefl.
Qed.

Lemma wp_trim fuel q st w :
  (0 ≤ q)%Z → length (nodes st) ≤ fuel → tracks pool (view w) (nodes st) →
  wp (trim fuel false q st)
    (returns (λ st' w',
       tracks pool (view w') (nodes st') ∧ shrunk pool (view w) (view w') ∧
       Z.of_nat (length (nodes st')) = Z.min q (Z.of_nat (length (nodes st))) ∧
       ((Z.of_nat (length (nodes st)) ≤ q)%Z → w' = w))) w.
Proof.
  intros Hq. revert st w. induction fuel as [|fuel IH]; intros st w Hf Htr; simpl;
    destruct (Z.ltb_spec q (Z.of_nat (length (nodes st)))) as [Hlt|Hge]; try lia;
    try (apply wp_ret; simpl; split_and!; [done|apply shrunk_refl|lia|done]).
  destruct (sort_last (nodes st)) as (o & -> & Hperm & Hlast); [by intros Hn; rewrite Hn in Hlt; simpl in Hlt; lia|].
  assert (o ∈ nodes st) as Ho by (rewrite Hperm; apply elem_of_app; right; by left).
  destruct (tracks_elem _ _ _ _ Htr Ho) as [Hin Hm].
  pose proof (Permutation_length Hperm) as Hlen. rewrite length_app in Hlen. simpl in Hlen.
  apply wp_bind, wp_bind, wp_attempt. unfold deleteNode. simpl. apply wp_delete.
  - intros w1 _ Hv1 _. simpl. apply wp_ret. simpl. change (_, _) with (obj_key o) in Hv1.
    eapply wp_mono; [apply IH; simpl; [lia|]|].
    + rewrite Hv1. by eapply tracks_del.
    + intros [st'| | |] w' Hr; [|done..]. destruct Hr as (Htr' & Hsh & Hl & _). simpl in *.
      split_and!; [done| |lia|lia]. eapply shrunk_trans; [|exact Hsh]. rewrite Hv1.
      apply shrunk_del; [done..|]. intros k' o' Ho' Hm'. apply Hlast, Htr. split; [|done].
      by rewrite <-(view_keyed w _ _ Ho').
  - intros e w1 _ _ _ _ Hno. exfalso. apply Hno; [done|]. exists o. exact Hin.
Qed.

(** The quantity a pool asks for. *)
Definition desired : Z := Z.max 0 (pool_Quantity pool).

Lemma desired_eq : (if (pool_Quantity pool <? 0)%Z then 0%Z else pool_Quantity pool) = desired.
Proof. unfold desired. destruct (Z.ltb_spec (pool_Quantity pool) 0); lia. Qed.

(** The cluster is small enough for the names of an [int]. *)
Definition pool_fits (s : KState) : Prop :=
  (Z.of_nat (size (tbl (O:=Node) s)) + desired ≤ 2 ^ 64)%Z.

Lemma size_hosts (l : list Node) : size (hosts l) ≤ length l.
Proof.
  unfold hosts. induction l as [|o l IH]; [done|]. rewrite fmap_cons, list_to_set_cons.
  pose proof (size_union_alt {[ node_RequestedHostname o ]} (list_to_set (C:=gset string) (node_RequestedHostname <$> l))) as Hu.
  pose proof (subseteq_size (list_to_set (C:=gset string) (node_RequestedHostname <$> l) ∖ {[ node_RequestedHostname o ]})
    (list_to_set (node_RequestedHostname <$> l))) as Hs.
  rewrite size_singleton in Hu. simpl. rewrite Hu. specialize (Hs ltac:(set_solver)). lia.
Qed.

(** A listing of the nodes of the namespace, from the table [t]. *)
Definition lists (t : gmap nsname Node) (l : list Node) : Prop :=
  NoDup (obj_key <$> l) ∧ length l ≤ size t ∧
  ∀ o, o ∈ l ↔ t !! obj_key o = Some o ∧ Namespace (node_meta o) = Namespace (pool_meta pool).

Lemma lists_tracks s l : lists (tbl s) l → tracks pool s (List.filter (in_pool pool) l).
Proof.
  intros (Hnd & _ & Hl). split.
  - clear Hl. induction l as [|o l IH]; simpl; [constructor|]. rewrite fmap_cons, NoDup_cons in Hnd.
    destruct Hnd as [Ho Hnd]. destruct (in_pool pool o); [|by apply IH].
    rewrite fmap_cons, NoDup_cons. split; [|by apply IH]. contradict Ho.
    apply list_elem_of_fmap in Ho as (x & -> & Hx). apply list_elem_of_fmap. exists x. split; [done|].
    apply list_elem_of_In, filter_In in Hx as [Hx _]. by apply list_elem_of_In.
  - intros o. unfold member. rewrite list_elem_of_In, filter_In, <-list_elem_of_In, Hl. tauto.
Qed.

Lemma lists_knows s l : well_keyed (tbl (O:=Node) s) → lists (tbl s) l → knows s (hosts l).
Proof.
  intros Hk (_ & _ & Hl) k o Ho Hns. unfold hosts. apply elem_of_list_to_set, list_elem_of_fmap_2, Hl.
  by rewrite <-(Hk _ _ Ho).
Qed.

Lemma lists_perm (t : gmap nsname Node) (P : Node → Prop) `{∀ o, Decision (P o)} l :
  well_keyed t → l ≡ₚ filter P (map_to_list t).*2 →
  (∀ o, P o ↔ Namespace (node_meta o) = Namespace (pool_meta pool)) → lists t l.
Proof.
  intros Hk Hl HP. split_and!.
  - rewrite Hl. by apply NoDup_fmap_filter, NoDup_values.
  - rewrite Hl. etrans; [apply length_filter|]. by rewrite length_fmap, length_map_to_list.
  - intros o. rewrite Hl, list_elem_of_filter, HP, list_elem_of_fmap. split.
    + intros [Hns ([k o'] & -> & Ho%elem_of_map_to_list)]. simpl in *. by rewrite <-(Hk _ _ Ho).
    + intros [Ho Hns]. split; [done|]. exists (obj_key o, o). by rewrite elem_of_map_to_list.
Qed.

Lemma wp_pool_nodes simulate w :
  wp (pool_nodes pool simulate)
    (returns (λ l w', lists (tbl (if simulate then cached w else view w)) l ∧ w' = w)) w.
Proof.
  unfold pool_nodes. destruct simulate.
  - apply wp_reads. destruct (lister_list_law (O:=Node) (Namespace (pool_meta pool)) Everything w)
      as (l & -> & Hl). split; [|done].
    eapply lists_perm; [apply cached_keyed|exact Hl|]. intros o. simpl. unfold Everything, selects.
    pose proof (map_empty_subseteq (Labels (node_meta o))). naive_solver.
  - apply wp_bind, wp_reads. destruct (list_healthy (O:=Node) "" Everything w) as [l Hl]. rewrite Hl.
    simpl. apply wp_ret. split; [|done].
    pose proof (list_law (O:=Node) "" Everything w) as Hlaw. rewrite Hl in Hlaw.
    assert (∀ k : list Node, List.filter (λ n, String.eqb (Namespace (node_meta n)) (Namespace (pool_meta pool))) k
      = filter (λ n, Namespace (node_meta n) = Namespace (pool_meta pool)) k) as ->.
    { induction k as [|o k IH]; [done|]. rewrite filter_cons, <-IH. cbn [List.filter].
      destruct (String.eqb_spec (Namespace (node_meta o)) (Namespace (pool_meta pool))) as [E|E];
        [by rewrite decide_True|by rewrite decide_False]. }
    eapply lists_perm; [exact (view_keyed (O:=Node) w)|by rewrite Hlaw, list_filter_filter|]. intros o. simpl. unfold Everything, selects.
    pose proof (map_empty_subseteq (Labels (node_meta o))). naive_solver.
Qed.

(** A pass at the server leaves the pool with as many nodes as it asks for. *)
Lemma wp_createOrCheck w :
  pool_fits (view w) →
  wp (createOrCheckNodes pool false)
    (returns (λ _ w', ∃ l, tracks pool (view w') l ∧ Z.of_nat (length l) = desired ∧
       (grown pool (view w) (view w') ∨ shrunk pool (view w) (view w')))) w.
Proof.
  intros Hfits. unfold createOrCheckNodes. unfold pool_fits in Hfits. cbn [tbl Node_stored] in Hfits.
  eapply wp_bind_returns; [apply wp_pool_nodes|]. intros all w0 [Hall ->]. simpl in Hall.
  eapply wp_bind_returns; [apply wp_check|]. intros st w1 (Hb & Hn & _ & Hv1 & _ & _).
  rewrite desired_eq. destruct (parsePrefix (pool_HostnamePrefix pool)) as [[prefix n] start] eqn:Hp.
  assert (tracks pool (view w) (nodes st)) as Htr by (rewrite Hn; by apply lists_tracks).
  assert (0 ≤ desired)%Z as Hpos by (unfold desired; lia).
  eapply wp_bind_returns; [apply wp_fill|].
  - intros i. by eapply hostname_numbered.
  - by eapply parsePrefix_int64.
  - rewrite Hb. pose proof (size_hosts all). destruct Hall as (_ & Hlen & _). lia.
  - rewrite Hb. pose proof (size_hosts all). destruct Hall as (_ & Hlen & _).
    pose proof (hits_le prefix n (size (hosts all) + Z.to_nat (desired - Z.of_nat (length (nodes st))))
      start (hosts all)). lia.
  - by rewrite Hv1.
  - rewrite Hv1, Hb. apply lists_knows; [apply view_keyed|done].
  - intros st2 w2 (Htr2 & Hgr & Hlen2 & Hsame). rewrite Hv1 in Hgr.
    eapply wp_bind_returns; [apply wp_trim; done|]. intros st3 w3 (Htr3 & Hsh & Hlen3 & Hsame3).
    apply wp_ret. exists (nodes st3). split_and!; [done|lia|].
    destruct (Z.le_gt_cases desired (Z.of_nat (length (nodes st)))) as [Hle|Hgt].
    + right. rewrite (Hsame Hle), Hv1 in Hsh. done.
    + left. rewrite Hsame3 by lia. done.
Qed.

(** A simulated pass makes no request; it tells whether there is something to do. *)
Lemma wp_fill_sim fuel q prefix n i st w :
  int64 i → (Z.of_nat fuel ≤ 2 ^ 64)%Z →
  hits prefix n fuel i (byName st) + Z.to_nat (q - Z.of_nat (length (nodes st))) ≤ fuel →
  wp (fill fuel pool true q prefix n i st)
    (returns (λ st' w', w' = w ∧
       changed st' = changed st || (Z.of_nat (length (nodes st)) <? q)%Z ∧
       Z.of_nat (length (nodes st')) = Z.max q (Z.of_nat (length (nodes st))))) w.
Proof.
  revert i st. induction fuel as [|fuel IH]; intros i st Hi Hf Hhits; simpl;
    destruct (Z.ltb_spec (Z.of_nat (length (nodes st))) q) as [Hlt|Hge];
    try (apply wp_ret; simpl; rewrite orb_false_r; split_and!; [done..|lia]).
  { lia. }
  rewrite hits_S in Hhits by done. case_bool_decide as Hin.
  - eapply wp_mono; [apply IH; [apply wrap64_int64|lia..]|].
    intros [] w' Hr; [|done..]. unfold returns in *. destruct Hr as (? & -> & ?). split_and!; [done|f_equal; lia|done].
  - apply wp_bind, wp_ret. simpl. eapply wp_mono; [apply IH|].
    + apply wrap64_int64.
    + lia.
    + simpl. rewrite hits_taken, length_app by (done || lia). simpl. lia.
    + intros [] w' Hr; [|done..]. unfold returns in *. destruct Hr as (? & -> & Hl). simpl in *.
      rewrite length_app in Hl. simpl in Hl. split_and!; [done|by rewrite orb_true_r|lia].
Qed.

Lemma wp_trim_sim fuel q st w :
  (0 ≤ q)%Z → length (nodes st) ≤ fuel →
  wp (trim fuel true q st)
    (returns (λ st' w', w' = w ∧ changed st' = changed st || (q <? Z.of_nat (length (nodes st)))%Z)) w.
Proof.
  intros Hq. revert st. induction fuel as [|fuel IH]; intros st Hf; simpl;
    destruct (Z.ltb_spec q (Z.of_nat (length (nodes st)))) as [Hlt|Hge]; try lia;
    try (apply wp_ret; simpl; by rewrite orb_false_r).
  destruct (sort_last (nodes st)) as (o & -> & Hperm & _); [by intros Hn; rewrite Hn in Hlt; simpl in Hlt; lia|].
  pose proof (Permutation_length Hperm) as Hlen. rewrite length_app in Hlen. simpl in Hlen.
  apply wp_bind, wp_ret. simpl. eapply wp_mono; [apply IH; simpl; lia|].
  intros [] w' Hr; [|done..]. unfold returns in *. destruct Hr as [? ->]. simpl. by rewrite orb_true_r.
Qed.

Lemma wp_simulate w :
  pool_fits (cached w) →
  wp (createOrCheckNodes pool true)
    (returns (λ b w', w' = w ∧ ∃ all, lists (tbl (cached w)) all ∧
       b = some_failed all ||
           negb (Z.of_nat (length (List.filter (in_pool pool) all)) =? desired)%Z)) w.
Proof.
  intros Hfits. unfold createOrCheckNodes. unfold pool_fits in Hfits. cbn [tbl Node_stored] in Hfits.
  eapply wp_bind_returns; [apply wp_pool_nodes|]. intros all w0 [Hall ->]. cbn [tbl Node_stored] in Hall.
  eapply wp_bind_returns; [apply wp_check|]. intros st w1 (Hb & Hn & Hc & _ & _ & ->); [|done].
  rewrite desired_eq. destruct (parsePrefix (pool_HostnamePrefix pool)) as [[prefix n] start] eqn:Hp.
  assert (0 ≤ desired)%Z as Hpos by (unfold desired; lia).
  pose proof (size_hosts all) as Hsize. destruct Hall as (Hall1 & Hlen & Hall3).
  eapply wp_bind_returns; [apply wp_fill_sim|].
  - by eapply parsePrefix_int64.
  - rewrite Hb. lia.
  - rewrite Hb.
    pose proof (hits_le prefix n (size (hosts all) + Z.to_nat (desired - Z.of_nat (length (nodes st))))
      start (hosts all)). lia.
  - intros st2 w2 (-> & Hc2 & Hlen2).
    eapply wp_bind_returns; [apply wp_trim_sim; done|]. intros st3 w3 (-> & Hc3).
    apply wp_ret. split; [done|]. exists all. split; [done|]. rewrite Hc3, Hc2, Hc, <-Hn, <-orb_assoc. f_equal.
    rewrite Hlen2. destruct (Z.ltb_spec (Z.of_nat (length (nodes st))) desired),
      (Z.eqb_spec (Z.of_nat (length (nodes st))) desired); try lia; simpl; try done;
      destruct (Z.ltb_spec desired (Z.max desired (Z.of_nat (length (nodes st))))); try done; lia.
Qed.


(** When the cache shows the nodes the pool asks for and none has failed, the
    controller makes no request: what it settles stays. *)
Theorem createNodes_stable w l :
  pool_fits (cached w) → tracks pool (cached w) l → Z.of_nat (length l) = desired →
  Forall (λ o, failed_node o = false) l → createNodes pool w = (Ok tt, w).
Proof.
  intros Hfits Htr Hlen Hok. pose proof (wp_simulate w Hfits) as Hs. unfold createNodes, bind.
  apply wp_run in Hs as (r & w' & -> & Hr). destruct r as [b| | |]; [|done..].
  destruct Hr as (-> & all & Hall & ->).
  pose proof (lists_tracks _ _ Hall) as Htr'.
  assert (List.filter (in_pool pool) all ≡ₚ l) as Hperm.
  { destruct Htr as [Hnd Hl], Htr' as [Hnd' Hl']. apply NoDup_Permutation.
    - by apply NoDup_fmap_1 in Hnd'.
    - by apply NoDup_fmap_1 in Hnd.
    - intros o. by rewrite Hl, Hl'. }
  assert (some_failed all = false) as ->.
  { unfold some_failed. apply not_true_is_false. intros (o & Ho & Hf)%existsb_exists.
    apply andb_true_iff in Hf as [Hp Hf]. rewrite Forall_forall in Hok.
    rewrite Hok in Hf; [done|]. rewrite <-Hperm. apply list_elem_of_In, filter_In. done. }
  by rewrite (Permutation_length Hperm), Hlen, Z.eqb_refl.
Qed.

(** What is left when the nodes [l] of the pool have been removed. *)
Definition pool_without (l : list Node) (s s' : KState) : Prop :=
  only_tbl (O:=Node) s s' ∧
  ∀ k, tbl (O:=Node) s' !! k =
    if decide (k ∈ obj_key <$> List.filter (in_pool pool) l) then None else tbl s !! k.

(** Removing a pool removes its nodes, and no others. *)
Theorem pool_Remove_correct w :
  wp (pool_Remove pool) (returns (λ _ w',
    tracks pool (view w') [] ∧ only_tbl (O:=Node) (view w) (view w') ∧
    ∀ k o, tbl (view w) !! k = Some o → ¬ member pool o → tbl (view w') !! k = Some o)) w.
Proof.
  unfold pool_Remove. eapply wp_bind_returns; [apply wp_pool_nodes|]. intros all w0 [Hall ->].
  eapply wp_bind_returns; [apply (wp_for_each_returns (λ don w', pool_without don (view w) (view w')))|].
  - split; [apply only_tbl_refl|done].
  - intros don o rest w' -> [Hot Hk]. destruct Hall as (Hnd & _ & Hl).
    destruct (in_pool pool o) eqn:Hp; unfold pool_without; rewrite List.filter_app; cbn [List.filter]; rewrite Hp.
    2: { apply wp_ret. unfold returns. by rewrite app_nil_r. }
    assert (obj_key o ∉ obj_key <$> List.filter (in_pool pool) don) as Hnew.
    { rewrite fmap_app in Hnd. apply NoDup_app in Hnd as (_ & Hdis & _).
      intros (x & Heq & Hx)%list_elem_of_fmap. apply list_elem_of_In, filter_In in Hx as [Hx _].
      apply list_elem_of_In in Hx. apply (Hdis (obj_key x)); [by apply list_elem_of_fmap_2|].
      rewrite <-Heq. by left. }
    unfold deleteNode. change (0 <? 0)%Z with false. cbv iota. apply wp_delete.
    + intros w1 _ Hv1 _. change (_, _) with (obj_key o) in Hv1. unfold returns. rewrite Hv1.
      split; [by apply only_tbl_del|]. intros k. rewrite tbl_del, fmap_app.
      destruct (decide (k = obj_key o)) as [->|Hne].
      * rewrite lookup_delete_eq, decide_True; [done|]. apply elem_of_app. right. by left.
      * rewrite lookup_delete_ne, Hk by done.
        assert (k ∈ (obj_key <$> List.filter (in_pool pool) don) ++ (obj_key <$> [o]) ↔
          k ∈ obj_key <$> List.filter (in_pool pool) don) as Hiff.
        { rewrite elem_of_app. simpl. rewrite list_elem_of_singleton. naive_solver. }
        destruct (decide (k ∈ obj_key <$> List.filter (in_pool pool) don)) as [Hd|Hd];
          [rewrite decide_True by by apply Hiff|rewrite decide_False by by rewrite Hiff]; done.
    + intros e w1 _ _ _ _ Hno. exfalso. apply Hno; [done|]. change (_, _) with (obj_key o).
      rewrite Hk, decide_False by done. exists o. apply Hl, elem_of_app. right. by left.
  - intros [] w' [Hot Hk]. apply wp_ret. pose proof (lists_tracks _ _ Hall) as [_ Htr]. split_and!; [|done|].
    + split; [constructor|]. intros o. split; [by intros ?%elem_of_nil|]. intros [Ho Hm].
      rewrite Hk in Ho. case_decide as Hin; [done|]. destruct Hin. apply list_elem_of_fmap_2, Htr. done.
    + intros k o Ho Hm. rewrite Hk, decide_False; [done|].
      intros (x & -> & Hx)%list_elem_of_fmap. apply Htr in Hx as [Hx Hmx]. congruence.
Qed.

End passes.

(** ** A pool of three *)

Definition demo_pool : NodePool :=
  {| pool_meta := {| Name := "np-1"; GenerateName := ""; Namespace := "c-1"; UID := "u"; ResourceVersion := "1";
                     Labels := ∅; Annotations := ∅; OwnerReferences := []; CreationTimestamp := 0;
                     DeletionTimestamp := None |};
     pool_Etcd := true; pool_ControlPlane := true; pool_Worker := false;
     pool_NodeTemplateName := "nt-1"; pool_HostnamePrefix := "node08"; pool_Quantity := 3;
     pool_DisplayName := ""; pool_ClusterName := "c-1"; pool_Conditions := [] |}.

Definition demo_node (name host pool : string) : Node :=
  {| node_meta := {| Name := name; GenerateName := "m-"; Namespace := "c-1"; UID := name; ResourceVersion := "1";
                     Labels := ∅; Annotations := ∅; OwnerReferences := []; CreationTimestamp := 0;
                     DeletionTimestamp := None |};
     node_Etcd := true; node_ControlPlane := true; node_Worker := false;
     node_NodeTemplateName := "nt-1"; node_NodePoolName := pool; node_CustomConfig := None;
     node_Imported := false; node_RequestedHostname := host; node_InternalNodeSpec := no_node_spec;
     node_DesiredNodeLabels := ∅; node_DesiredNodeAnnotations := ∅; node_DesiredNodeUnschedulable := "";
     node_Conditions := []; node_InternalNodeStatus := no_node_status; node_NodeName := "";
     node_Requested := ∅; node_Limits := ∅; node_NodeConfig := None; node_NodeAnnotations := ∅;
     node_NodeLabels := ∅; node_DockerInfo := None |}.

(** One node of the pool exists, and one of another pool has the name of the second. *)
Definition demo_nodes : KState :=
  set_tbl (<[("c-1", "m-a") := demo_node "m-a" "node08" "c-1:np-1"]>
           (<[("c-1", "m-b") := demo_node "m-b" "node09" "c-1:np-2"]> ∅)) empty_state.

(** The host names the pool has after a pass: the taken name is skipped, and the
    width of the number is kept. *)
Example demo_pool_names :
  match createNodes demo_pool (synced demo_nodes) with
  | (Ok tt, w') =>
    list_to_set (node_RequestedHostname <$> filter (λ n, in_pool demo_pool n = true)
      ((map_to_list (tbl (O:=Node) (view w'))).*2)) = ({[ "node08"; "node10"; "node11" ]} : gset string)
  | _ => False
  end.
Proof. vm_compute. reflexivity. Qed.

