(* ===== verification/NetPolicy.v ===== *)
(** * Network policies of a user cluster

    [src/pkg/controllers/user/networkpolicy] and
    [src/pkg/controllers/user/nslabels/labels.go]: the label that tells the project
    of a namespace, the policy that lets only the namespaces of the same project
    reach its pods, and the exceptions for the nodes, for host ports and for node
    ports.

    The value of [settings.SystemNamespaces] is an argument of the handlers.  Of
    package [net], addresses in dotted notation are modelled; the text of an IPv6
    address is the parameter [ipv6_text]. *)

From stdpp Require Import base gmap list strings.
From Stdlib Require Import Ascii ZArith Lia.
From S2P Require Import Prelude.
From S2P Require Import GoLib.
From S2P Require Import KubeTypes.
From S2P Require Import KubeObjects.
From S2P Require Import Kube.
From S2P Require Import KubeRules.
From S2P Require Import KubeSim.
From S2P Require Import Frame.
From S2P Require Import Cond.

(** The argument is the value of the setting [system-namespaces]. *)
Definition GetSystemNamespaces (systemNamespacesStr : string) : gset string :=
  if String.eqb systemNamespacesStr "" then ∅
  else list_to_set (TrimSpace <$> Split systemNamespacesStr ",").

Notation ProjectIDFieldLabel := "field.cattle.io/projectId" (only parsing).
Notation PodNameFieldLabel := "field.cattle.io/podName" (only parsing).
Notation FlannelPresenceLabel := "flannel.alpha.coreos.com/public-ip" (only parsing).
Notation ProjectScopedSecretAnnotation := "secret.user.cattle.io/secret" (only parsing).
Notation AllNodeKey := "_machine_all_" (only parsing).

(** ** [net.ParseCIDR] *)

(** The number at the start of the text, and the rest. *)
Fixpoint dtoi_from (n : N) (some : bool) (s : string) : option (N * string) :=
  match s with
  | String c s' =>
    if is_digit c then
      let n := (10 * n + (N_of_ascii c - 48))%N in
      if (0xFFFFFF <=? n)%N then None else dtoi_from n true s'
    else if some then Some (n, s) else None
  | EmptyString => if some then Some (n, s) else None
  end.

Definition dtoi (s : string) : option (N * string) := dtoi_from 0 false s.

Definition octet (s : string) : option (N * string) :=
  match dtoi s with
  | Some (n, s') => if (255 <? n)%N then None else Some (n, s')
  | None => None
  end.

Definition dot_octet (s : string) : option (N * string) :=
  match s with String "." s' => octet s' | _ => None end.

Definition parseIPv4 (s : string) : option (N * N * N * N) :=
  match octet s with
  | Some (a, s) =>
    match dot_octet s with
    | Some (b, s) =>
      match dot_octet s with
      | Some (c, s) =>
        match dot_octet s with
        | Some (d, EmptyString) => Some (a, b, c, d)
        | _ => None
        end
      | None => None
      end
    | None => None
    end
  | None => None
  end.

Definition ip_String (ip : N * N * N * N) : string :=
  let '(a, b, c, d) := ip in
  Itoa a +:+ "." +:+ Itoa b +:+ "." +:+ Itoa c +:+ "." +:+ Itoa d.

(** [podCIDRFirstIP.String()]: the address before the slash, printed. *)
Definition cidr_ip (ipv6_text : string → option string) (s : string) : option string :=
  match cut_sep "/" s with
  | None => None
  | Some (addr, mask) =>
    match dtoi mask with
    | Some (n, EmptyString) =>
      match parseIPv4 addr with
      | Some ip => if (32 <? n)%N then None else Some (ip_String ip)
      | None => if (128 <? n)%N then None else ipv6_text addr
      end
    | _ => None
    end
  end.

(** ** Labels of namespaces *)

Section nslabels.
Context {W : Type} `{!Client W NamespaceObject, !Client W Secret}.

Definition updateProjectIDLabelForSecrets (projectID namespace clusterID : string) : M W unit :=
  let* secrets := reads (api_list (O:=Secret) "" Everything) in
  for_each (λ secret : Secret,
    let m := sec_meta secret in
    if String.eqb (default "" (Annotations m !! ProjectScopedSecretAnnotation)) "true"
    then api_delete (O:=Secret) namespace (Name m)
    else
      let v := if String.eqb projectID "" then projectID else clusterID +:+ ":" +:+ projectID in
      let m := with_Annotations (<[ProjectIDFieldLabel := v]> (Annotations m)) m in
      do* api_update "" (set_sec_meta m secret) in ret tt)
    (* the field selector [metadata.namespace] *)
    (List.filter (λ s, String.eqb (Namespace (sec_meta s)) namespace) secrets).

Definition addProjectIDLabelToNamespace (ns : NamespaceObject) (projectID clusterID : string) :
    M W unit :=
  let m := ns_meta ns in
  if String.eqb (default "" (Labels m !! ProjectIDFieldLabel)) projectID then ret tt
  else
    let* _ := attempt (updateProjectIDLabelForSecrets projectID (Name m) clusterID) in
    let m := with_Labels (<[ProjectIDFieldLabel := projectID]> (Labels m)) m in
    do* api_update "" (set_ns_meta m ns) in ret tt.

Definition nslabels_Sync (obj : option NamespaceObject) : M W unit :=
  match obj with
  | None => ret tt
  | Some ns =>
    match Annotations (ns_meta ns) !! ProjectIDFieldLabel with
    | None => ret tt
    | Some field =>
      let add projectID clusterID :=
        let* _ := attempt (addProjectIDLabelToNamespace ns projectID clusterID) in ret tt in
      if String.eqb field "" then add "" ""
      else match Split field ":" with
           | [clusterID; projectID] => add projectID clusterID
           | _ => ret tt
           end
    end
  end.

End nslabels.

(** ** The manager of network policies *)

Notation PolicyTypeIngress := "Ingress" (only parsing).

Definition netpol_at (name namespace : string) (labels : gmap string string)
    (owners : list OwnerReference) (spec : NetworkPolicySpec) : NetworkPolicy :=
  {| netpol_meta := {| Name := name; GenerateName := ""; Namespace := namespace; UID := "";
                       ResourceVersion := ""; Labels := labels; Annotations := ∅;
                       OwnerReferences := owners; CreationTimestamp := 0;
                       DeletionTimestamp := None |};
     netpol_Spec := spec |}.

Definition owner_ref (kind : string) (m : ObjectMeta) : OwnerReference :=
  {| or_APIVersion := "v1"; or_Kind := kind; or_Name := Name m; or_UID := UID m |}.

(** The spec of [programNetworkPolicy]. *)
Definition project_spec (projectID : string) : NetworkPolicySpec :=
  {| nps_PodSelector := {| MatchLabels := ∅ |};
     nps_Ingress := Some [
       {| ing_From := Some [
            {| peer_PodSelector := None;
               peer_NamespaceSelector := Some {| MatchLabels := {[ ProjectIDFieldLabel := projectID ]} |};
               peer_IPBlock := None |}];
          ing_Ports := None |}];
     nps_PolicyTypes := Some [PolicyTypeIngress] |}.

(** The spec of the policies for host and node ports. *)
Definition ports_spec (selector : gmap string string) (ports : list NetworkPolicyPort) :
    NetworkPolicySpec :=
  {| nps_PodSelector := {| MatchLabels := selector |};
     nps_Ingress := Some [{| ing_From := Some []; ing_Ports := Some ports |}];
     nps_PolicyTypes := None |}.

(** The spec of [handleHostNetwork]. *)
Definition hosts_spec (ips : list string) : NetworkPolicySpec :=
  {| nps_PodSelector := {| MatchLabels := ∅ |};
     nps_Ingress := Some [
       {| ing_From := Some ((λ ip,
            {| peer_PodSelector := None; peer_NamespaceSelector := None;
               peer_IPBlock := Some {| CIDR := ip +:+ "/32"; Except := [] |} |}) <$> ips);
          ing_Ports := None |}];
     nps_PolicyTypes := Some [PolicyTypeIngress] |}.

Definition getHostPortsPolicyName (pod : Pod) : string := "hp-" +:+ Name (pod_meta pod).
Definition getNodePortsPolicyName (service : Service) : string := "np-" +:+ Name (svc_meta service).

Definition host_ports (pod : Pod) : list ContainerPort :=
  List.filter (λ p, negb (cp_HostPort p =? 0)%Z) (concat (ctr_Ports <$> pod_Containers pod)).

Definition node_ports (service : Service) : list ServicePort :=
  List.filter (λ p, negb (sp_NodePort p =? 0)%Z) (svc_Ports service).

Notation DefaultNetworkPolicyCreated := "DefaultNetworkPolicyCreated" (only parsing).
Section netpol.
Context {W : Type} `{!GoRuntime W}.
Context `{!Client W NetworkPolicy, !Client W NamespaceObject, !Client W CoreNode, !Client W Pod}.
Context `{!Client W ProjectNetworkPolicy, !Client W Project}.
Context (ipv6_text : string → option string) (SystemNamespaces : string).

Definition program (np : NetworkPolicy) : M W unit :=
  let ns := Namespace (netpol_meta np) in
  let* r := attempt (reads (lister_Get (O:=NetworkPolicy) ns (Name (netpol_meta np)))) in
  match r with
  | inl err =>
    if IsNotFound err then
      let* c := attempt (api_create ns np) in
      match c with
      | inl err => if IsAlreadyExists err || IsForbidden err then ret tt else throw err
      | inr _ => ret tt
      end
    else ret tt
  | inr existing =>
    if bool_decide (DeletionTimestamp (netpol_meta existing) = None) &&
       negb (bool_decide (netpol_Spec existing = netpol_Spec np))
    then do* api_update ns np in ret tt
    else ret tt
  end.

Definition netpol_delete (policyNamespace policyName : string) : M W unit :=
  let* r := attempt (reads (lister_Get (O:=NetworkPolicy) policyNamespace policyName)) in
  match r with
  | inl _ => ret tt
  | inr existing =>
    api_delete (O:=NetworkPolicy) (Namespace (netpol_meta existing)) (Name (netpol_meta existing))
  end.

(** An error of [program] is logged, and the loop goes on. *)
Definition program_logged (np : NetworkPolicy) : M W unit :=
  let* _ := attempt (program np) in ret tt.

Definition programNetworkPolicy (projectID : string) : M W unit :=
  let* namespaces := wrap_err "couldn't list namespaces"
    (reads (lister_List (O:=NamespaceObject) "" {[ ProjectIDFieldLabel := projectID ]})) in
  let systemNamespaces := GetSystemNamespaces SystemNamespaces in
  for_each (λ aNS,
    if bool_decide (Name (ns_meta aNS) ∈ systemNamespaces) then ret tt
    else if bool_decide (is_Some (DeletionTimestamp (ns_meta aNS))) then ret tt
    else program_logged (netpol_at "np-default" (Name (ns_meta aNS))
           {[ ProjectIDFieldLabel := projectID ]} [] (project_spec projectID))) namespaces.

Definition hostPortsUpdateHandler (pod : Pod) : M W unit :=
  let ports := (λ p, {| npp_Protocol := Some (cp_Protocol p);
                        npp_Port := Some (FromInt (cp_ContainerPort p)) |}) <$> host_ports pod in
  let np := netpol_at (getHostPortsPolicyName pod) (Namespace (pod_meta pod)) ∅
              [owner_ref "Pod" (pod_meta pod)]
              (ports_spec {[ PodNameFieldLabel := Name (pod_meta pod) ]} ports) in
  match ports with [] => ret tt | _ => program np end.

Definition hostPortsRemoveHandler (pod : Pod) : M W Pod :=
  do* netpol_delete (Namespace (pod_meta pod)) (getHostPortsPolicyName pod) in ret pod.

Definition nodePortsUpdateHandler (service : Service) : M W unit :=
  let ports := (λ p, {| npp_Protocol := Some (sp_Protocol p);
                        npp_Port := Some (sp_TargetPort p) |}) <$> node_ports service in
  let np := netpol_at (getNodePortsPolicyName service) (Namespace (svc_meta service)) ∅
              [owner_ref "Service" (svc_meta service)] (ports_spec (svc_Selector service) ports) in
  match ports with [] => ret tt | _ => program np end.

(** The addresses of the nodes that run flannel. *)
Definition node_ips (nodes : list CoreNode) : list string :=
  omap (λ node,
    if bool_decide (is_Some (Annotations (cnode_meta node) !! FlannelPresenceLabel))
    then cidr_ip ipv6_text (cns_PodCIDR (cnode_Spec node)) else None) nodes.

Definition handleHostNetwork : M W unit :=
  let* nodes := wrap_err "couldn't list nodes" (reads (lister_List (O:=CoreNode) "" Everything)) in
  let* namespaces := wrap_err "couldn't list namespaces"
    (reads (lister_List (O:=NamespaceObject) "" Everything)) in
  let systemNamespaces := GetSystemNamespaces SystemNamespaces in
  for_each (λ aNS,
    if bool_decide (Name (ns_meta aNS) ∈ systemNamespaces) then ret tt
    else if bool_decide (is_Some (DeletionTimestamp (ns_meta aNS))) ||
            String.eqb (ns_Phase aNS) "Terminating" then ret tt
    else if bool_decide (is_Some (Labels (ns_meta aNS) !! ProjectIDFieldLabel)) then
      program_logged (netpol_at "hn-nodes" (Name (ns_meta aNS)) ∅ [owner_ref "Namespace" (ns_meta aNS)]
        (hosts_spec (node_ips nodes)))
    else ret tt) namespaces.

(** ** Handlers *)

Definition nodeHandler_Sync (clusterNamespace key : string) : M W unit :=
  if String.eqb key (clusterNamespace +:+ "/" +:+ AllNodeKey) then handleHostNetwork else ret tt.

Definition nsSyncer_Sync (obj : option NamespaceObject) : M W unit :=
  match obj with
  | None => ret tt
  | Some ns =>
    if bool_decide (is_Some (DeletionTimestamp (ns_meta ns))) then ret tt
    else
      do* match Labels (ns_meta ns) !! ProjectIDFieldLabel with
          | Some projectID => let* _ := attempt (programNetworkPolicy projectID) in ret tt
          | None => ret tt
          end in
      handleHostNetwork
  end.

Definition pnpSyncer_Sync (obj : option ProjectNetworkPolicy) : M W unit :=
  match obj with
  | None => ret tt
  | Some pnp =>
    if bool_decide (is_Some (DeletionTimestamp (pnp_meta pnp))) then ret tt
    else programNetworkPolicy (Namespace (pnp_meta pnp))
  end.

Definition addLabelIfHostPortsPresent (pod : Pod) : M W unit :=
  let m := pod_meta pod in
  match host_ports pod with
  | [] => ret tt
  | _ =>
    if bool_decide (is_Some (Labels m !! PodNameFieldLabel)) then ret tt
    else do* api_update "" (set_pod_meta (with_Labels (<[PodNameFieldLabel := Name m]> (Labels m)) m) pod)
         in ret tt
  end.

Definition podHandler_Sync (obj : option Pod) : M W unit :=
  match obj with
  | None => ret tt
  | Some pod =>
    if bool_decide (is_Some (DeletionTimestamp (pod_meta pod))) then ret tt
    else do* addLabelIfHostPortsPresent pod in hostPortsUpdateHandler pod
  end.

Definition serviceHandler_Sync (obj : option Service) : M W unit :=
  match obj with
  | None => ret tt
  | Some service =>
    if bool_decide (is_Some (DeletionTimestamp (svc_meta service))) then ret tt
    else nodePortsUpdateHandler service
  end.


(** The error of [Create] is only looked at to log a success. *)
Definition createDefaultNetworkPolicy (p : Project) : M W (Project * option goerr) :=
  Do DefaultNetworkPolicyCreated p (λ p : Project,
    let projectName := Name (proj_meta p) in
    let defaultPolicyName := "pnp-" +:+ projectName in
    let* r := attempt (reads (lister_List (O:=ProjectNetworkPolicy) defaultPolicyName Everything)) in
    match r with
    | inl err => ret (Some p, Some err)
    | inr (_ :: _) => ret (Some p, None)
    | inr [] =>
      let* _ := attempt (api_create ""
        {| pnp_meta := {| Name := defaultPolicyName; GenerateName := ""; Namespace := projectName;
                          UID := ""; ResourceVersion := ""; Labels := ∅; Annotations := ∅;
                          OwnerReferences := []; CreationTimestamp := 0; DeletionTimestamp := None |};
           pnp_Description := "Default network policy for project " +:+ projectName;
           pnp_ProjectName := Namespace (proj_meta p) +:+ ":" +:+ projectName |}) in
      ret (Some p, None)
    end).

Definition projectSyncer_Sync (obj : option Project) : M W unit :=
  match obj with
  | None => ret tt
  | Some p =>
    if bool_decide (is_Some (DeletionTimestamp (proj_meta p))) then ret tt
    else
      let* r := createDefaultNetworkPolicy p in
      match snd r with
      | Some err => throw err
      | None =>
        if bool_decide (p = fst r) then ret tt
        else do* api_update (O:=Project) "" (fst r) in ret tt
      end
  end.

End netpol.

(** ** What the policies admit

    The rules of Kubernetes: a pod no policy of its namespace selects accepts every
    connection; one that is selected accepts what a rule of a policy that selects it
    admits.  A rule with no peers admits every source, one with no ports every port.
    A connection is described by the labels of the pod and the namespace it comes
    from, its address, and the port and protocol it asks for. *)

Record flow := {
  from_ns : string;
  from_ns_labels : gmap string string;
  from_pod_labels : gmap string string;
  from_ip : string;
  to_protocol : string;
  to_port : IntOrString }.

Section admits.
(** [in_block b ip]: the address is in the block. *)
Context (in_block : IPBlock → string → Prop).

Definition peer_admits (ns : string) (p : NetworkPolicyPeer) (c : flow) : Prop :=
  match peer_IPBlock p, peer_NamespaceSelector p, peer_PodSelector p with
  | Some b, _, _ => in_block b (from_ip c)
  | None, Some n, None => selects (MatchLabels n) (from_ns_labels c)
  | None, Some n, Some s =>
    selects (MatchLabels n) (from_ns_labels c) ∧ selects (MatchLabels s) (from_pod_labels c)
  | None, None, Some s => from_ns c = ns ∧ selects (MatchLabels s) (from_pod_labels c)
  | None, None, None => False
  end.

Definition port_admits (p : NetworkPolicyPort) (c : flow) : Prop :=
  npp_Protocol p = Some (to_protocol c) ∧ (npp_Port p = None ∨ npp_Port p = Some (to_port c)).

Definition rule_admits (ns : string) (r : NetworkPolicyIngressRule) (c : flow) : Prop :=
  (items (ing_From r) = [] ∨ ∃ p, p ∈ items (ing_From r) ∧ peer_admits ns p c) ∧
  (items (ing_Ports r) = [] ∨ ∃ p, p ∈ items (ing_Ports r) ∧ port_admits p c).

Definition spec_admits (ns : string) (s : NetworkPolicySpec) (c : flow) : Prop :=
  ∃ r, r ∈ items (nps_Ingress (stored_spec s)) ∧ rule_admits ns r c.

Definition selected (s : NetworkPolicySpec) (pod : gmap string string) : Prop :=
  selects (MatchLabels (nps_PodSelector s)) pod.

(** A pod with the labels [pod] in the namespace [ns] accepts the connection. *)
Definition accepts (s : KState) (ns : string) (pod : gmap string string) (c : flow) : Prop :=
  (∀ n p, tbl s !! (ns, n) = Some p → ¬ selected (netpol_Spec p) pod) ∨
  ∃ n p, tbl s !! (ns, n) = Some p ∧ selected (netpol_Spec p) pod ∧
    spec_admits ns (netpol_Spec p) c.

(** The connection comes from a namespace of the project. *)
Definition from_project (projectID : string) (c : flow) : Prop :=
  from_ns_labels c !! ProjectIDFieldLabel = Some projectID.

Lemma project_spec_admits projectID ns c :
  spec_admits ns (project_spec projectID) c ↔ from_project projectID c.
Proof.
  unfold spec_admits, from_project. split.
  - intros (r & Hr & Hp & _). simpl in Hr. apply list_elem_of_singleton in Hr as ->. simpl in Hp.
    destruct Hp as [?|(p & ->%list_elem_of_singleton & Hp)]; [done|]. unfold peer_admits in Hp. simpl in Hp.
    by apply map_singleton_subseteq_l in Hp.
  - intros Hc. eexists. split; [by apply list_elem_of_singleton|]. split; [right|by left]. simpl.
    eexists. split; [by apply list_elem_of_singleton|]. unfold peer_admits. simpl.
    by apply map_singleton_subseteq_l.
Qed.

(** The block of one address. *)
Definition block32 (ip : string) : IPBlock := {| CIDR := ip +:+ "/32"; Except := [] |}.

(** With no addresses the rule has no peers, and admits everybody. *)
Lemma hosts_spec_admits ips ns c :
  spec_admits ns (hosts_spec ips) c ↔ ips = [] ∨ ∃ ip, ip ∈ ips ∧ in_block (block32 ip) (from_ip c).
Proof.
  unfold spec_admits. destruct ips as [|ip0 ips].
  - split; [by left|]. intros _. eexists. split; [by apply list_elem_of_singleton|]. split; by left.
  - split.
    + intros (r & Hr & Hp & _). simpl in Hr. apply list_elem_of_singleton in Hr as ->. right.
      cbn [ing_From stored_rule omit_empty items default] in Hp.
      destruct Hp as [?|(p & Hin & Hp)]; [done|].
      change (_ :: _) with ((λ ip, {| peer_PodSelector := None; peer_NamespaceSelector := None;
               peer_IPBlock := Some (block32 ip) |}) <$> (ip0 :: ips)) in Hin.
      apply list_elem_of_fmap in Hin as (ip & -> & Hip). by exists ip.
    + intros [?|(ip & Hip & Hb)]; [done|]. eexists. split; [by apply list_elem_of_singleton|].
      split; [right|by left]. eexists. split; [by apply (list_elem_of_fmap_2 _ _ ip)|]. exact Hb.
Qed.

End admits.

(** ** What the manager does *)

Section manager.
Context {W : Type} `{!Kube W, !GoRuntime W}.
Context `{!Client W NetworkPolicy, !ClientLaws W NetworkPolicy}.
Context `{!Client W NamespaceObject, !ClientLaws W NamespaceObject}.
Context `{!Client W CoreNode, !ClientLaws W CoreNode}.
Context `{!Client W Pod, !Client W ProjectNetworkPolicy, !Client W Project}.
Context (ipv6_text : string → option string) (SystemNamespaces : string).
Implicit Types (w : W).

(** The policy of the name is in the namespace, with the spec as the server stores it. *)
Definition in_place (np : NetworkPolicy) (s : KState) : Prop :=
  ∃ o, tbl s !! obj_key np = Some o ∧ stored_spec (netpol_Spec o) = stored_spec (netpol_Spec np).

(** What the cache shows of the policy at [k] is what the cluster has, and the policy
    is not on its way out. *)
Definition fresh_at (k : nsname) w : Prop :=
  tbl (O:=NetworkPolicy) (cached w) !! k = tbl (view w) !! k ∧
  ∀ o, tbl (O:=NetworkPolicy) (view w) !! k = Some o → DeletionTimestamp (netpol_meta o) = None.

Hypothesis healthy : ClientHealthy W NetworkPolicy.

Lemma wp_program np w :
  Name (netpol_meta np) ≠ "" → Namespace (netpol_meta np) ≠ "" → ResourceVersion (netpol_meta np) = "" →
  fresh_at (obj_key np) w →
  wp (program np) (returns (λ _ w',
    in_place np (view w') ∧ changed_at (O:=NetworkPolicy) [obj_key np] (view w) (view w') ∧
    cache_step w w')) w.
Proof.
  intros Hn Hns Hrv [Hc Hd]. unfold program.
  assert (∀ ns, write_key ns np = obj_key np) as Hkey.
  { intros ns. unfold write_key, client_ns, obj_key. by rewrite decide_False. }
  apply wp_bind, wp_attempt, wp_reads.
  pose proof (lister_get_law (O:=NetworkPolicy) (Namespace (netpol_meta np)) (Name (netpol_meta np)) w) as Hg.
  change (_, _) with (obj_key np) in Hg. rewrite Hc in Hg.
  destruct (tbl (O:=NetworkPolicy) (view w) !! obj_key np) as [o|] eqn:Ho.
  - rewrite Hg. unfold bind_post. rewrite (bool_decide_eq_true_2 (DeletionTimestamp _ = None)) by by apply Hd.
    case_bool_decide as Heq; simpl.
    + apply wp_ret. split_and!; [|apply changed_at_refl|apply cache_step_same].
      exists o. by rewrite Heq.
    + apply wp_bind, wp_update_any; [done..| |].
      { exists o. by rewrite Hkey. }
      intros o' w' Hst Hk Hv Hcs. apply wp_ret. rewrite Hkey in Hk. unfold returns. rewrite Hv.
      split_and!; [|apply changed_at_put; rewrite Hk; by left|done].
      exists o'. rewrite tbl_put, Hk, lookup_insert_eq. split; [done|]. symmetry. apply Hst.
  - destruct Hg as (e & -> & He). simpl. rewrite He.
    apply wp_bind, wp_attempt, wp_create.
    + intros o' w' Hst _ Hv Hcs. apply wp_ret. unfold returns. rewrite Hv.
      assert (obj_key o' = obj_key np) as Hk by (rewrite <-(Hkey (Namespace (netpol_meta np))); by apply stored_as_key).
      split_and!; [|apply changed_at_put; rewrite Hk; by left|done].
      exists o'. rewrite tbl_put, Hk, lookup_insert_eq. split; [done|]. symmetry. apply Hst.
    + intros e' w' _ _ Hno. exfalso. apply Hno; [done|by rewrite Hkey|done].
Qed.

(** ** One policy per namespace *)

Section loop.
Context (name : string) (want : NamespaceObject → bool) (mk : NamespaceObject → NetworkPolicy).
Hypothesis Hmk : ∀ ns, netpol_meta (mk ns) = netpol_meta
  (netpol_at name (Name (ns_meta ns)) (Labels (netpol_meta (mk ns)))
     (OwnerReferences (netpol_meta (mk ns))) (netpol_Spec (mk ns))).

Definition wanted_ns (l : list NamespaceObject) : list NamespaceObject := List.filter want l.

Definition policy_keys (l : list NamespaceObject) : list nsname := (λ ns, (Name (ns_meta ns), name)) <$> wanted_ns l.

Lemma mk_key ns : obj_key (mk ns) = (Name (ns_meta ns), name).
Proof. unfold obj_key. simpl. by rewrite Hmk. Qed.

(** The state of the loop after the namespaces [don]. *)
Definition programmed (don : list NamespaceObject) w w' : Prop :=
  changed_at (O:=NetworkPolicy) (policy_keys don) (view w) (view w') ∧
  (∀ k, k ∉ policy_keys don → fresh_at k w → fresh_at k w') ∧
  (∀ ns, ns ∈ wanted_ns don → in_place (mk ns) (view w')) ∧
  (∀ O (S : Stored O) (L : StoredLaws O),
     (∀ s s', only_tbl (O:=NetworkPolicy) s s' → tbl (O:=O) s' = tbl (O:=O) s) →
     in_sync_kind O w → in_sync_kind O w').

Lemma programmed_step don ns w w' w'' :
  want ns = true → Name (ns_meta ns) ∉ Name ∘ ns_meta <$> wanted_ns don →
  programmed don w w' → in_place (mk ns) (view w'') →
  changed_at (O:=NetworkPolicy) [obj_key (mk ns)] (view w') (view w'') → cache_step w' w'' →
  programmed (don ++ [ns]) w w''.
Proof.
  intros Hwant Hnew (Hch & Hfr & Hin & Hsy) Hp Hch' Hcs. rewrite mk_key in Hch'.
  unfold programmed, policy_keys, wanted_ns in *. rewrite List.filter_app. simpl. rewrite Hwant, fmap_app. simpl.
  split_and!.
  - eapply changed_at_trans; (eapply changed_at_mono; [|done]); intros x Hx; apply elem_of_app; by auto.
  - intros k [Hk Hk']%not_elem_of_app Hf. destruct (Hfr k Hk Hf) as [Hc Hd].
    destruct Hch' as [_ Hsame]. specialize (Hsame k Hk'). split; [|by rewrite Hsame].
    eapply cache_step_sync; [exact Hcs|done..].
  - intros ns' [Hns'| ->%list_elem_of_singleton]%elem_of_app; [|done].
    destruct (Hin ns' Hns') as (o & Ho & Hs). exists o. split; [|done].
    destruct Hch' as [_ Hsame]. rewrite Hsame; [done|]. rewrite mk_key. intros [= Heq]%list_elem_of_singleton.
    apply Hnew. rewrite <-Heq. by apply (list_elem_of_fmap_2 (Name ∘ ns_meta)).
  - intros O S L Hoth Hs. apply (sync_undisturbed (A:=NetworkPolicy) w' w''); [done| |apply Hch'|done]. by apply Hsy.
Qed.

Lemma wp_program_all nss w :
  name ≠ "" → NoDup (Name ∘ ns_meta <$> nss) → (∀ ns, ns ∈ nss → Name (ns_meta ns) ≠ "") →
  (∀ k, k ∈ policy_keys nss → fresh_at k w) →
  wp (for_each (λ ns, if want ns then program_logged (mk ns) else ret tt) nss)
    (returns (λ _ w', programmed nss w w')) w.
Proof.
  intros Hname Hnd Hne Hfresh. apply (wp_for_each_returns (λ don w', programmed don w w')).
  { split_and!; [apply changed_at_refl|done|by intros ? ?%elem_of_nil|done]. }
  intros don ns rest w' -> Hdon. destruct (want ns) eqn:Hwant.
  2: { apply wp_ret. unfold returns, programmed, policy_keys, wanted_ns in *.
       rewrite List.filter_app. simpl. by rewrite Hwant, app_nil_r. }
  rewrite fmap_app, fmap_cons in Hnd. apply NoDup_app in Hnd as (_ & Hdis & _).
  assert (Name (ns_meta ns) ∉ Name ∘ ns_meta <$> wanted_ns don) as Hnew.
  { intros (x & Heq & Hx)%list_elem_of_fmap. apply list_elem_of_In, filter_In in Hx as [Hx _].
    apply list_elem_of_In in Hx. apply (Hdis (Name (ns_meta x))); [by apply (list_elem_of_fmap_2 (Name ∘ ns_meta))|].
    simpl in *. rewrite <-Heq. by left. }
  assert ((Name (ns_meta ns), name) ∉ policy_keys don) as Hk.
  { intros (x & [= Heq] & Hx)%list_elem_of_fmap. apply Hnew. rewrite Heq. by apply (list_elem_of_fmap_2 (Name ∘ ns_meta)). }
  unfold program_logged. apply wp_bind, wp_attempt.
  eapply wp_mono; [apply wp_program|].
  - by rewrite Hmk.
  - rewrite Hmk. simpl. apply Hne, elem_of_app. right. by left.
  - by rewrite Hmk.
  - rewrite mk_key. apply Hdon; [done|]. apply Hfresh. unfold policy_keys, wanted_ns.
    rewrite List.filter_app. simpl. rewrite Hwant, fmap_app. apply elem_of_app. right. by left.
  - intros [u| | |] w'' Hr; [|done..]. destruct Hr as (Hp & Hch & Hcs). apply wp_ret.
    by eapply programmed_step.
Qed.

End loop.

(** ** Isolation of projects *)

Definition live (ns : NamespaceObject) : Prop :=
  Name (ns_meta ns) ∉ GetSystemNamespaces SystemNamespaces ∧
  DeletionTimestamp (ns_meta ns) = None ∧ ns_Phase ns ≠ "Terminating".

(** The caches of namespaces and nodes are up to date, and namespaces are
    cluster-scoped. *)
Record readable w : Prop := {
  read_namespaces : in_sync_kind NamespaceObject w;
  read_nodes : in_sync_kind CoreNode w;
  read_scope k ns : tbl (O:=NamespaceObject) (view w) !! k = Some ns → k.1 = "" }.

(** The listing of the namespaces. *)
Lemma readable_list sel w l :
  readable w → lister_List (O:=NamespaceObject) "" sel w = Ok l →
  NoDup (Name ∘ ns_meta <$> l) ∧ (∀ ns, ns ∈ l → Name (ns_meta ns) ≠ "") ∧
  ∀ ns, ns ∈ l ↔ tbl (view w) !! obj_key ns = Some ns ∧ selects sel (Labels (ns_meta ns)).
Proof.
  intros Hq Hl. assert (∀ ns, ns ∈ l → obj_key ns = ("", Name (ns_meta ns)) ∧ Name (ns_meta ns) ≠ "") as Hkey.
  { intros ns Hns. apply (elem_of_lister _ _ _ _ _ Hl) in Hns as [Hns _].
    pose proof (cached_named (O:=NamespaceObject) w _ ltac:(by rewrite Hns)) as Hne.
    rewrite (read_namespaces w Hq) in Hns. apply (read_scope w Hq) in Hns. unfold obj_key in *. simpl in *.
    by rewrite Hns. }
  split_and!.
  - pose proof (NoDup_lister _ _ _ _ Hl) as Hnd.
    assert (obj_key <$> l = pair "" <$> (Name ∘ ns_meta <$> l)) as Heq.
    { rewrite <-list_fmap_compose. apply list_fmap_ext. intros i ns Hi. simpl.
      by apply Hkey, list_elem_of_lookup_2 with i. }
    rewrite Heq in Hnd. by apply NoDup_fmap_1 in Hnd.
  - intros ns Hns. by apply Hkey.
  - intros ns. rewrite (elem_of_lister _ _ _ _ _ Hl), (read_namespaces w Hq). naive_solver.
Qed.

Definition want_default (ns : NamespaceObject) : bool :=
  negb (bool_decide (Name (ns_meta ns) ∈ GetSystemNamespaces SystemNamespaces)) &&
  negb (bool_decide (is_Some (DeletionTimestamp (ns_meta ns)))).

Definition want_hosts (ns : NamespaceObject) : bool :=
  want_default ns && negb (String.eqb (ns_Phase ns) "Terminating") &&
  bool_decide (is_Some (Labels (ns_meta ns) !! ProjectIDFieldLabel)).

Definition default_policy (projectID : string) (ns : NamespaceObject) : NetworkPolicy :=
  netpol_at "np-default" (Name (ns_meta ns)) {[ ProjectIDFieldLabel := projectID ]} [] (project_spec projectID).

Definition hosts_policy (ips : list string) (ns : NamespaceObject) : NetworkPolicy :=
  netpol_at "hn-nodes" (Name (ns_meta ns)) ∅ [owner_ref "Namespace" (ns_meta ns)] (hosts_spec ips).

Lemma wp_programNetworkPolicy projectID w :
  readable w → (∀ n, fresh_at (n, "np-default") w) →
  wp (programNetworkPolicy SystemNamespaces projectID) (returns (λ _ w', ∃ l,
    lister_List (O:=NamespaceObject) "" {[ ProjectIDFieldLabel := projectID ]} w = Ok l ∧
    programmed "np-default" want_default (default_policy projectID) l w w')) w.
Proof.
  intros Hq Hf. unfold programNetworkPolicy. apply wp_bind, wp_wrap_err, wp_reads.
  destruct (lister_list_law (O:=NamespaceObject) "" {[ ProjectIDFieldLabel := projectID ]} w) as (l & Hl & _).
  rewrite Hl. unfold bind_post. destruct (readable_list _ _ _ Hq Hl) as (Hnd & Hne & _).
  apply (wp_for_each_ext (λ ns, if want_default ns then program_logged (default_policy projectID ns) else ret tt)).
  { intros ns w'. unfold want_default. by repeat case_bool_decide. }
  eapply wp_mono; [apply wp_program_all; [done|done|done|done|]|by intros []; naive_solver].
  intros k (ns & -> & _)%list_elem_of_fmap. apply Hf.
Qed.

Lemma wp_handleHostNetwork w :
  readable w → (∀ n, fresh_at (n, "hn-nodes") w) →
  wp (handleHostNetwork ipv6_text SystemNamespaces) (returns (λ _ w', ∃ nodes l,
    lister_List (O:=CoreNode) "" Everything w = Ok nodes ∧
    lister_List (O:=NamespaceObject) "" Everything w = Ok l ∧
    programmed "hn-nodes" want_hosts (hosts_policy (node_ips ipv6_text nodes)) l w w')) w.
Proof.
  intros Hq Hf. unfold handleHostNetwork. apply wp_bind, wp_wrap_err, wp_reads.
  destruct (lister_list_law (O:=CoreNode) "" Everything w) as (nodes & Hnodes & _).
  rewrite Hnodes. unfold bind_post. apply wp_bind, wp_wrap_err, wp_reads.
  destruct (lister_list_law (O:=NamespaceObject) "" Everything w) as (l & Hl & _).
  rewrite Hl. unfold bind_post. destruct (readable_list _ _ _ Hq Hl) as (Hnd & Hne & _).
  apply (wp_for_each_ext (λ ns, if want_hosts ns then program_logged (hosts_policy (node_ips ipv6_text nodes) ns) else ret tt)).
  { intros ns w'. unfold want_hosts, want_default.
    by repeat case_bool_decide; destruct (String.eqb (ns_Phase ns) "Terminating"). }
  eapply wp_mono; [apply wp_program_all; [done|done|done|done|]|by intros []; naive_solver].
  intros k (ns & -> & _)%list_elem_of_fmap. apply Hf.
Qed.

Lemma programmed_readable name want mk l w w' :
  programmed name want mk l w w' → readable w → readable w'.
Proof.
  intros ([Hot _] & _ & _ & Hsy) [H1 H2 H3]. split.
  - apply Hsy; [apply _|other_kind|done].
  - apply Hsy; [apply _|other_kind|done].
  - intros k ns Hns. apply (H3 k ns). unfold only_tbl in Hot. rewrite Hot in Hns. exact Hns.
Qed.

(** The address of a node that runs flannel. *)
Definition flannel_ip (s : KState) (ip : string) : Prop :=
  ∃ k node, tbl (O:=CoreNode) s !! k = Some node ∧
    is_Some (Annotations (cnode_meta node) !! FlannelPresenceLabel) ∧
    cidr_ip ipv6_text (cns_PodCIDR (cnode_Spec node)) = Some ip.

Lemma elem_of_node_ips w nodes ip :
  readable w → lister_List (O:=CoreNode) "" Everything w = Ok nodes →
  ip ∈ node_ips ipv6_text nodes ↔ flannel_ip (view w) ip.
Proof.
  intros Hq Hl. unfold node_ips. rewrite list_elem_of_omap. split.
  - intros (node & Hn & Hip). apply (elem_of_lister _ _ _ _ _ Hl) in Hn as [Hn _].
    case_bool_decide; [|done]. rewrite (read_nodes w Hq) in Hn. by exists (obj_key node), node.
  - intros (k & node & Hn & Ha & Hip). exists node. rewrite bool_decide_eq_true_2 by done. split; [|done].
    apply (elem_of_lister _ _ _ _ _ Hl). pose proof (view_keyed w _ _ Hn) as ->.
    rewrite (read_nodes w Hq). split_and!; [done|by left|apply map_empty_subseteq].
Qed.

Section isolation.
Context (in_block : IPBlock → string → Prop).

(** Another policy of the namespace than the two, such as those for host ports and node ports, lets the
    connection in. *)
Definition opened_by_another (s : KState) (ns : string) (pod : gmap string string) (c : flow) : Prop :=
  ∃ n p, n ≠ "np-default" ∧ n ≠ "hn-nodes" ∧ tbl s !! (ns, n) = Some p ∧
    selected (netpol_Spec p) pod ∧ spec_admits in_block ns (netpol_Spec p) c.

(** What a pod accepts when its namespace has the two policies. *)
Lemma accepts_two projectID ips ns s :
  in_place (default_policy projectID ns) s → in_place (hosts_policy ips ns) s →
  ∀ pod c, accepts in_block s (Name (ns_meta ns)) pod c ↔
    from_project projectID c ∨ (ips = [] ∨ ∃ ip, ip ∈ ips ∧ in_block (block32 ip) (from_ip c)) ∨
    opened_by_another s (Name (ns_meta ns)) pod c.
Proof.
  intros (o1 & Ho1 & Hs1) (o2 & Ho2 & Hs2) pod c. unfold obj_key in Ho1, Ho2. simpl in Ho1, Ho2.
  assert (∀ o np, stored_spec (netpol_Spec o) = stored_spec np → MatchLabels (nps_PodSelector np) = ∅ →
    selected (netpol_Spec o) pod) as Hsel.
  { intros o np Heq Hm. apply (f_equal nps_PodSelector) in Heq. simpl in Heq. unfold selected.
    rewrite Heq, Hm. apply map_empty_subseteq. }
  unfold accepts. split.
  - intros [Hno|(n & p & Hp & Hpod & Had)].
    + exfalso. by apply (Hno "np-default" o1 Ho1), (Hsel o1 (project_spec projectID)).
    + destruct (decide (n = "np-default")) as [->|Hn1]; [|destruct (decide (n = "hn-nodes")) as [->|Hn2]].
      * unfold spec_admits in Had. assert (p = o1) as -> by (simpl in Hp; congruence). left.
        apply (project_spec_admits in_block projectID (Name (ns_meta ns))). by rewrite Hs1 in Had.
      * unfold spec_admits in Had. assert (p = o2) as -> by (simpl in Hp; congruence). right; left.
        apply (hosts_spec_admits in_block ips (Name (ns_meta ns))). by rewrite Hs2 in Had.
      * right; right. by exists n, p.
  - intros [Hc|[Hc|(n & p & _ & _ & Hp & Hpod & Had)]]; right; [| |by exists n, p].
    + exists "np-default", o1. split_and!; [done|by apply (Hsel o1 (project_spec projectID))|].
      unfold spec_admits. rewrite Hs1. by apply project_spec_admits.
    + exists "hn-nodes", o2. split_and!; [done|by apply (Hsel o2 (hosts_spec ips))|].
      unfold spec_admits. rewrite Hs2. by apply hosts_spec_admits.
Qed.

(** C12: project isolation.  After the handler of a namespace of the project has run,
    with an API server that answers and caches that are up to date, a pod of a
    namespace of the project that is neither a system namespace nor going away accepts exactly the
    connections from namespaces of the same project, from the addresses of the nodes that run flannel, and
    those that a policy of the namespace other than these two lets in, such as one for a host port.  When there
    is no such node it accepts every connection: the rule made from no addresses has
    no peers, which admits everybody. *)
Theorem project_isolation ns0 projectID w :
  readable w → (∀ k, fresh_at k w) →
  Labels (ns_meta ns0) !! ProjectIDFieldLabel = Some projectID → DeletionTimestamp (ns_meta ns0) = None →
  wp (nsSyncer_Sync ipv6_text SystemNamespaces (Some ns0)) (returns (λ _ w',
    ∀ k ns, tbl (O:=NamespaceObject) (view w) !! k = Some ns → live ns →
      Labels (ns_meta ns) !! ProjectIDFieldLabel = Some projectID →
      ∀ pod c, accepts in_block (view w') (Name (ns_meta ns)) pod c ↔
        from_project projectID c ∨
        ((∀ ip, ¬ flannel_ip (view w) ip) ∨
         ∃ ip, flannel_ip (view w) ip ∧ in_block (block32 ip) (from_ip c)) ∨
        opened_by_another (view w) (Name (ns_meta ns)) pod c)) w.
Proof.
  intros Hq Hf Hp Hdel. unfold nsSyncer_Sync. rewrite bool_decide_eq_false_2, Hp by (rewrite Hdel; by intros []).
  apply wp_bind, wp_bind, wp_attempt. eapply wp_mono; [by apply wp_programNetworkPolicy|].
  intros [u| | |] w1 H1; [|destruct H1..]. destruct H1 as (l1 & Hl1 & Hpr1). apply wp_ret.
  pose proof (programmed_readable _ _ _ _ _ _ Hpr1 Hq) as Hq1. unfold bind_post.
  eapply wp_mono; [apply wp_handleHostNetwork; [done|]|].
  { intros n. destruct Hpr1 as (_ & Hfr & _ & _). apply Hfr; [|done].
    intros (ns & Heq & _)%list_elem_of_fmap. discriminate. }
  intros [v| | |] w2 H2; [|destruct H2..]. destruct H2 as (nodes & l2 & Hn & Hl2 & Hpr2).
  unfold returns. intros k ns Hns (Hsys & Hdns & Hph) Hlab pod c.
  destruct Hpr1 as ([Hot1 Hch1] & _ & Hin1 & _). destruct Hpr2 as ([Hot2 Hch2] & _ & Hin2 & _).
  pose proof (view_keyed (O:=NamespaceObject) w _ _ Hns) as Hk. rewrite Hk in Hns.
  assert (want_default ns = true) as Hwd.
  { unfold want_default. rewrite !bool_decide_eq_false_2; [done| |done]. rewrite Hdns. by intros []. }
  assert (tbl (O:=NamespaceObject) (view w1) = tbl (view w)) as Hsame by (unfold only_tbl in Hot1; by rewrite Hot1).
  assert (in_place (default_policy projectID ns) (view w2)) as Hd.
  { destruct (Hin1 ns) as (o & Ho & Hs).
    - apply list_elem_of_In, filter_In. split; [|done]. apply list_elem_of_In, (readable_list _ _ _ Hq Hl1).
      split; [done|]. by apply map_singleton_subseteq_l.
    - exists o. split; [|done]. rewrite Hch2; [done|]. intros (ns' & Heq & _)%list_elem_of_fmap. discriminate. }
  assert (in_place (hosts_policy (node_ips ipv6_text nodes) ns) (view w2)) as Hh.
  { apply (Hin2 ns), list_elem_of_In, filter_In. split.
    - apply list_elem_of_In, (readable_list _ _ _ Hq1 Hl2). rewrite Hsame. split; [done|]. apply map_empty_subseteq.
    - unfold want_hosts. rewrite Hwd, Hlab. by destruct (String.eqb_spec (ns_Phase ns) "Terminating"). }
  rewrite (accepts_two projectID (node_ips ipv6_text nodes) ns (view w2) Hd Hh).
  pose proof (λ ip, elem_of_node_ips w1 nodes ip Hq1 Hn) as Hips.
  assert (∀ ip, flannel_ip (view w1) ip ↔ flannel_ip (view w) ip) as Hfl.
  { intros ip. unfold flannel_ip. unfold only_tbl in Hot1. by rewrite Hot1. }
  setoid_rewrite Hfl in Hips. setoid_rewrite Hips.
  assert (node_ips ipv6_text nodes = [] ↔ ∀ ip, ¬ flannel_ip (view w) ip) as ->.
  { split.
    - intros Hnil ip Hip%Hips. rewrite Hnil in Hip. by apply elem_of_nil in Hip.
    - intros Hno. destruct (node_ips ipv6_text nodes) as [|ip ips]; [done|]. destruct (Hno ip). apply Hips. by left. }
  assert (∀ n, n ≠ "np-default" → n ≠ "hn-nodes" →
    tbl (O:=NetworkPolicy) (view w2) !! (Name (ns_meta ns), n) = tbl (view w) !! (Name (ns_meta ns), n)) as Hothers.
  { intros n Hn1 Hn2. rewrite Hch2, Hch1; [done|..]; intros (ns' & Heq & _)%list_elem_of_fmap; congruence. }
  assert (opened_by_another (view w2) (Name (ns_meta ns)) pod c ↔
          opened_by_another (view w) (Name (ns_meta ns)) pod c) as ->; [|done].
  split; intros (n & p & Hn1 & Hn2 & Hp' & ?); exists n, p; [rewrite <-Hothers|rewrite Hothers]; done.
Qed.

End isolation.

(** ** Host ports and node ports *)

Lemma ports_spec_admits in_block sel ports ns c :
  spec_admits in_block ns (ports_spec sel ports) c ↔
  ports = [] ∨ ∃ p, p ∈ ports ∧ port_admits (stored_port p) c.
Proof.
  unfold spec_admits. destruct ports as [|p0 ports].
  - split; [by left|]. intros _. eexists. split; [by apply list_elem_of_singleton|]. split; by left.
  - split.
    + intros (r & Hr & _ & Hp). simpl in Hr. apply list_elem_of_singleton in Hr as ->. right.
      cbn [ing_Ports stored_rule omit_empty items default] in Hp.
      destruct Hp as [?|(p & Hin & Hp)]; [done|].
      change (p ∈ stored_port <$> (p0 :: ports)) in Hin.
      apply list_elem_of_fmap in Hin as (q & -> & Hq). by exists q.
    + intros [?|(p & Hp & Ha)]; [done|]. eexists. split; [by apply list_elem_of_singleton|].
      split; [by left|right]. exists (stored_port p). split; [|done].
      exact (list_elem_of_fmap_2 stored_port _ p Hp).
Qed.

(** The port of a container that a host port of the node leads to. *)
Definition exposed (pod : Pod) (c : flow) : Prop :=
  ∃ ctr p, ctr ∈ pod_Containers pod ∧ p ∈ ctr_Ports ctr ∧ cp_HostPort p ≠ 0%Z ∧
    to_protocol c = cp_Protocol p ∧ to_port c = FromInt (cp_ContainerPort p).

Lemma elem_of_host_ports pod p :
  p ∈ host_ports pod ↔ ∃ ctr, ctr ∈ pod_Containers pod ∧ p ∈ ctr_Ports ctr ∧ cp_HostPort p ≠ 0%Z.
Proof.
  unfold host_ports. rewrite list_elem_of_In, filter_In, <-list_elem_of_In, negb_true_iff, Z.eqb_neq.
  rewrite list_elem_of_In, in_concat. setoid_rewrite <-list_elem_of_In. split.
  - intros [(l & (ctr & -> & Hc)%list_elem_of_fmap & Hp) Hne]. by exists ctr.
  - intros (ctr & Hc & Hp & Hne). split; [|done]. exists (ctr_Ports ctr). split; [|done].
    by apply list_elem_of_fmap_2.
Qed.

(** A pod with host ports is given a policy of its own, which admits every source
    on exactly the container ports that a host port leads to; for a pod without
    host ports no request is made. *)
Theorem hostPorts_exact in_block pod w :
  Name (pod_meta pod) ≠ "" → Namespace (pod_meta pod) ≠ "" →
  fresh_at (Namespace (pod_meta pod), getHostPortsPolicyName pod) w →
  wp (hostPortsUpdateHandler pod) (returns (λ _ w',
    (host_ports pod = [] → w' = w) ∧
    (host_ports pod ≠ [] → ∃ o,
       tbl (view w') !! (Namespace (pod_meta pod), getHostPortsPolicyName pod) = Some o ∧
       (∀ labels, selected (netpol_Spec o) labels ↔
          labels !! PodNameFieldLabel = Some (Name (pod_meta pod))) ∧
       ∀ c, spec_admits in_block (Namespace (pod_meta pod)) (netpol_Spec o) c ↔ exposed pod c))) w.
Proof.
  intros Hn Hns Hf. unfold hostPortsUpdateHandler.
  destruct (host_ports pod) as [|p0 ps] eqn:Hports; [by apply wp_ret|].
  cbn [fmap list_fmap]. set (np := netpol_at _ _ _ _ _).
  eapply wp_mono; [apply (wp_program np w); [done..|exact Hf]|].
  intros [u| | |] w' Hr; [|destruct Hr..]. destruct Hr as ((o & Ho & Hs) & _ & _).
  split; [done|]. intros _. exists o. split; [exact Ho|]. split.
  - intros labels. apply (f_equal nps_PodSelector) in Hs. simpl in Hs. unfold selected. rewrite Hs.
    apply map_singleton_subseteq_l.
  - intros c. unfold spec_admits. rewrite Hs. fold (spec_admits in_block (Namespace (pod_meta pod)) (netpol_Spec np) c).
    subst np. cbn [netpol_Spec netpol_at]. rewrite ports_spec_admits. unfold exposed. split.
    + intros [?|(q & Hq & [Hpr Hpo])]; [done|].
      change (q ∈ (λ p, {| npp_Protocol := Some (cp_Protocol p); npp_Port := Some (FromInt (cp_ContainerPort p)) |})
        <$> (p0 :: ps)) in Hq. apply list_elem_of_fmap in Hq as (p & -> & Hp). rewrite <-Hports in Hp.
      apply elem_of_host_ports in Hp as (ctr & ? & ? & ?). exists ctr, p. simpl in Hpr, Hpo.
      destruct Hpo as [?|Hpo]; [done|]. simplify_eq. done.
    + intros (ctr & p & Hc & Hp & Hne & Hpr & Hpo). right.
      assert (p ∈ p0 :: ps) as Hin by (rewrite <-Hports; apply elem_of_host_ports; by exists ctr).
      eexists. split; [exact (list_elem_of_fmap_2 (λ p, {| npp_Protocol := Some (cp_Protocol p);
        npp_Port := Some (FromInt (cp_ContainerPort p)) |}) _ p Hin)|].
      split; simpl; [by rewrite Hpr|right; by rewrite Hpo].
Qed.

End manager.

(** ** The default policy of a project *)

Section defaults.
Context {W : Type} `{!Kube W, !GoRuntime W}.
Context `{!Client W ProjectNetworkPolicy, !ClientLaws W ProjectNetworkPolicy, !Client W Project}.
Implicit Types (w : W).

(** Whether or not the default policy could be created, the condition that it exists is
    set to true and no error is reported: the answer to [Create] is dropped. *)
Theorem default_policy_reported p w :
  wp (createDefaultNetworkPolicy p) (returns (λ r _,
    snd r = None ∧ IsTrue DefaultNetworkPolicyCreated (fst r) = true)) w.
Proof.
  assert (∀ o o', completes (O:=Project) DefaultNetworkPolicyCreated o o' →
    IsTrue DefaultNetworkPolicyCreated o' = true) as Htrue.
  { intros o o' [(x & Hx & Hs & _) _]. unfold IsTrue, getStatus, field. rewrite Hx, Hs. done. }
  unfold createDefaultNetworkPolicy. apply wp_Do. intros now. apply wp_bind, wp_attempt, wp_reads.
  destruct (lister_list_law (O:=ProjectNetworkPolicy)
    ("pnp-" +:+ Name (proj_meta (started DefaultNetworkPolicyCreated now p))) Everything w) as (l & -> & _).
  unfold bind_post. destruct l as [|x l].
  - apply wp_bind, wp_attempt, wp_create.
    + intros o' w' _ _ _ _. apply wp_ret. intros p' Hp'. split; [done|]. by eapply Htrue.
    + intros e w' _ _ _. apply wp_ret. intros p' Hp'. split; [done|]. by eapply Htrue.
  - apply wp_ret. intros p' Hp'. split; [done|]. by eapply Htrue.
Qed.

End defaults.

(** ** The label of a namespace *)

Lemma Split_pair a b : has_char ":" a = false → has_char ":" b = false →
  Split (a +:+ ":" +:+ b) ":" = [a; b].
Proof.
  intros Ha Hb. unfold Split. change (":" +:+ b) with (String ":" b).
  destruct (String.length (a +:+ String ":" b)) as [|n] eqn:Hn.
  { rewrite append_length in Hn. simpl in Hn. lia. }
  simpl. rewrite (cut_sep_char ":" a b Ha). f_equal. destruct n; simpl; [done|].
  by apply cut_sep_char_None in Hb as ->.
Qed.

Section labels.
Context {W : Type} `{!Kube W, !Client W NamespaceObject, !ClientLaws W NamespaceObject}.
Context `{!Client W Secret, !ClientLaws W Secret}.
Implicit Types (w : W).

Lemma wp_secrets projectID namespace clusterID w :
  wp (updateProjectIDLabelForSecrets projectID namespace clusterID)
    (if_ok (λ _ w', only_tbl (O:=Secret) (view w) (view w')) (λ _ w', only_tbl (O:=Secret) (view w) (view w'))) w.
Proof.
  unfold updateProjectIDLabelForSecrets. apply wp_bind, wp_reads.
  pose proof (list_law (O:=Secret) "" Everything w) as Hl.
  destruct (api_list (O:=Secret) "" Everything w) as [l|e| |]; [|apply only_tbl_refl|done..].
  apply (wp_for_each (λ _ w', only_tbl (O:=Secret) (view w) (view w'))); [apply only_tbl_refl|].
  intros don secret rest w' _ Hot. destruct (String.eqb _ "true").
  - apply wp_delete.
    + intros w1 _ Hv _. unfold if_ok. rewrite Hv. by apply only_tbl_del.
    + intros e w1 _ Hv _ _ _. unfold if_ok. by rewrite Hv.
  - apply wp_bind, wp_update.
    + intros o' w1 _ _ _ Hv _. apply wp_ret. unfold if_ok. rewrite Hv. by apply only_tbl_put.
    + intros e w1 Hv _ _. unfold bind_post, if_ok. by rewrite Hv.
Qed.

(** A namespace whose annotation says that it is in the project [p] of the cluster [c]
    is given the label [p], whatever becomes of the secrets of the namespace. *)
Theorem nslabels_labelled ns c p w :
  ClientHealthy W NamespaceObject → Name (ns_meta ns) ≠ "" → p ≠ "" →
  has_char ":" c = false → has_char ":" p = false →
  Annotations (ns_meta ns) !! ProjectIDFieldLabel = Some (c +:+ ":" +:+ p) →
  tbl (view w) !! obj_key ns = Some ns →
  wp (nslabels_Sync (Some ns)) (returns (λ _ w', ∃ o,
    tbl (view w') !! obj_key ns = Some o ∧ Labels (ns_meta o) !! ProjectIDFieldLabel = Some p ∧
    Annotations (ns_meta o) = Annotations (ns_meta ns) ∧ touches [KNamespace; KSecret] (view w) (view w'))) w.
Proof.
  intros Hh Hn Hp Hc Hp' Ha Hv. unfold nslabels_Sync. rewrite Ha.
  destruct (String.eqb_spec (c +:+ ":" +:+ p) "") as [He|_].
  { apply (f_equal String.length) in He. rewrite !append_length in He. simpl in He. lia. }
  rewrite Split_pair by done. apply wp_bind, wp_attempt. unfold addProjectIDLabelToNamespace.
  destruct (String.eqb_spec (default "" (Labels (ns_meta ns) !! ProjectIDFieldLabel)) p) as [Hl|Hl].
  { apply wp_ret. apply wp_ret. exists ns. split_and!; [done| |done|reflexivity].
    destruct (Labels (ns_meta ns) !! ProjectIDFieldLabel); simpl in Hl; congruence. }
  apply wp_bind, wp_attempt. eapply wp_mono; [apply wp_secrets|].
  assert (∀ w', only_tbl (O:=Secret) (view w) (view w') →
    wp (do* api_update "" (set_ns_meta (with_Labels (<[ProjectIDFieldLabel := p]> (Labels (ns_meta ns))) (ns_meta ns)) ns)
        in ret tt) (returns (λ _ w'', ∃ o, tbl (view w'') !! obj_key ns = Some o ∧
      Labels (ns_meta o) !! ProjectIDFieldLabel = Some p ∧
      Annotations (ns_meta o) = Annotations (ns_meta ns) ∧
      touches [KNamespace; KSecret] (view w) (view w''))) w') as Hup.
  { intros w' Hot. assert (tbl (O:=NamespaceObject) (view w') = tbl (view w)) as Hs
      by (unfold only_tbl in Hot; by rewrite Hot).
    assert (write_key "" (set_ns_meta (with_Labels (<[ProjectIDFieldLabel := p]> (Labels (ns_meta ns))) (ns_meta ns)) ns)
      = obj_key ns) as Hk.
    { unfold write_key, client_ns, obj_key. simpl. case_decide as Hd; [by rewrite Hd|done]. }
    apply wp_bind, wp_update.
    - intros o w1 (_ & _ & _ & Hlab & Han & _) Hko _ Hv1 _. apply wp_ret. exists o. rewrite Hv1.
      rewrite tbl_put, Hko, Hk, lookup_insert_eq. split_and!; [done| |done|].
      + simpl in Hlab. rewrite Hlab. apply lookup_insert_eq.
      + etrans; [eapply (touches_only (O:=Secret)); [|exact Hot]; set_solver|].
        eapply (touches_only (O:=NamespaceObject)); [|apply only_tbl_put, only_tbl_refl]. set_solver.
    - intros e w1 _ _ Hno. exfalso. apply Hno; [done|done|]. exists ns. rewrite Hs, Hk. done. }
  intros [u|e| |] w' Hot; [..|done|done]; eapply wp_mono; [by apply Hup| |by apply Hup|];
    intros [] w'' Hr; try done; by apply wp_ret.
Qed.

End labels.

(** ** Two projects *)

Definition demo_namespace (name project : string) : NamespaceObject :=
  {| ns_meta := named_meta name {[ ProjectIDFieldLabel := project ]}
                  {[ ProjectIDFieldLabel := "c-1:" +:+ project ]} [];
     ns_Phase := "Active" |}.

Definition demo_core_node (name cidr : string) : CoreNode :=
  {| cnode_meta := named_meta name ∅ {[ FlannelPresenceLabel := "10.0.0.1" ]} [];
     cnode_Spec := {| cns_PodCIDR := cidr; cns_Unschedulable := false; cns_Taints := [] |};
     cnode_Status := no_node_status |}.

Definition demo_net : KState :=
  set_tbl (<[("", "web") := demo_namespace "web" "p-1"]>
           (<[("", "db") := demo_namespace "db" "p-2"]> ∅))
    (set_tbl (<[("", "n1") := demo_core_node "n1" "10.42.0.0/24"]> ∅) empty_state).

(** The address is the one of the block. *)
Definition demo_block (b : IPBlock) (ip : string) : Prop := CIDR b = ip +:+ "/32".

Definition demo_flow (ns project ip : string) : flow :=
  {| from_ns := ns; from_ns_labels := {[ ProjectIDFieldLabel := project ]}; from_pod_labels := ∅;
     from_ip := ip; to_protocol := "TCP"; to_port := FromInt 80 |}.

Lemma demo_fresh k : fresh_at k (synced demo_net).
Proof.
  split; [reflexivity|]. intros o Ho. change (tbl (O:=NetworkPolicy) (view (synced demo_net))) with (∅ : gmap nsname NetworkPolicy) in Ho.
  by rewrite lookup_empty in Ho.
Qed.

Lemma demo_readable : readable (synced demo_net).
Proof.
  split; [reflexivity|reflexivity|].
  assert (map_Forall (λ k _, k.1 = "") (tbl (O:=NamespaceObject) (view (synced demo_net)))) as Hs; [|exact Hs].
  refine (bool_decide_unpack _ _). vm_compute. exact I.
Qed.

Lemma demo_flannel : flannel_ip (λ _, None) (view (synced demo_net)) "10.42.0.0".
Proof. exists ("", "n1"), (demo_core_node "n1" "10.42.0.0/24"). split_and!; [reflexivity|by eexists|reflexivity]. Qed.

(** A pod of the project p-1 accepts a connection from the project, and from the node,
    and refuses one from the project p-2. *)
Lemma project_isolation_witness : ∃ w' : Sim,
  accepts demo_block (view w') "web" ∅ (demo_flow "web" "p-1" "10.42.0.7") ∧
  accepts demo_block (view w') "web" ∅ (demo_flow "db" "p-2" "10.42.0.0") ∧
  (accepts demo_block (view w') "web" ∅ (demo_flow "db" "p-2" "10.42.0.9") → False).
Proof.
  pose proof (project_isolation (λ _, None) "kube-system,cattle-system" sim_client_healthy demo_block
    (demo_namespace "web" "p-1") "p-1" (synced demo_net) demo_readable demo_fresh eq_refl eq_refl) as Hw.
  unfold wp in Hw.
  set (r := nsSyncer_Sync (W:=Sim) _ _ _ _) in Hw. exists r.2.
  destruct r.1 as [u| | |]; [|destruct Hw..]. unfold returns in Hw.
  assert (∀ pod c, accepts demo_block (view r.2) "web" pod c ↔
    from_project "p-1" c ∨ ((∀ ip, ¬ flannel_ip (λ _, None) (view (synced demo_net)) ip) ∨
    ∃ ip, flannel_ip (λ _, None) (view (synced demo_net)) ip ∧ demo_block (block32 ip) (from_ip c)) ∨
    opened_by_another demo_block (view (synced demo_net)) "web" pod c) as Hacc.
  { apply (Hw ("", "web") (demo_namespace "web" "p-1") eq_refl); [|reflexivity].
    split_and!; [|reflexivity|discriminate]. refine (bool_decide_unpack _ _). vm_compute. exact I. }
  split_and!; [apply Hacc; by left|apply Hacc; right; left; right|].
  - exists "10.42.0.0". split; [exact demo_flannel|reflexivity].
  - intros [Hp|[[Hno|(ip & (k & node & Hk & _ & Hip) & Hb)]|(n & p & _ & _ & Hp & _)]]%Hacc; [discriminate| | |].
    + exact (Hno "10.42.0.0" demo_flannel).
    + assert (map_Forall (λ _ n, cidr_ip (λ _, None) (cns_PodCIDR (cnode_Spec n)) = Some "10.42.0.0")
        (tbl (O:=CoreNode) (view (synced demo_net)))) as Hall.
      { refine (bool_decide_unpack _ _). vm_compute. exact I. }
      rewrite (Hall _ _ Hk) in Hip. injection Hip as <-. discriminate.
    + change (tbl (O:=NetworkPolicy) (view (synced demo_net))) with (∅ : gmap nsname NetworkPolicy) in Hp.
      by rewrite lookup_empty in Hp.
Defined.

Definition demo_host_pod : Pod :=
  {| pod_meta := {| Name := "p"; GenerateName := ""; Namespace := "web"; UID := "u"; ResourceVersion := "1";
                    Labels := ∅; Annotations := ∅; OwnerReferences := []; CreationTimestamp := 0;
                    DeletionTimestamp := None |};
     pod_NodeName := "n"; pod_Phase := "Running"; pod_InitContainers := [];
     pod_Containers := [{| ctr_Name := "c"; ctr_Requests := ∅; ctr_Limits := ∅; ctr_Ports := [
       {| cp_Name := ""; cp_HostPort := 8080; cp_ContainerPort := 80; cp_Protocol := "TCP"; cp_HostIP := "" |};
       {| cp_Name := ""; cp_HostPort := 0; cp_ContainerPort := 81; cp_Protocol := "TCP"; cp_HostIP := "" |}] |}] |}.

Lemma hostPorts_exact_witness :
  let w' := (hostPortsUpdateHandler demo_host_pod (synced demo_net)).2 in
  ∃ o, tbl (view w') !! ("web", "hp-p") = Some o ∧
    spec_admits demo_block "web" (netpol_Spec o) (demo_flow "db" "p-2" "10.42.0.9").
Proof.
  pose proof (hostPorts_exact sim_client_healthy demo_block demo_host_pod (synced demo_net)
    ltac:(discriminate) ltac:(discriminate) (demo_fresh _)) as Hw.
  unfold wp in Hw. intros w'. change ((hostPortsUpdateHandler demo_host_pod (synced demo_net)).2) with w' in Hw.
  destruct (hostPortsUpdateHandler demo_host_pod (synced demo_net)).1 as [u| | |]; [|destruct Hw..].
  destruct Hw as [_ Hw]. destruct (Hw ltac:(discriminate)) as (o & Ho & _ & Hc). exists o. split; [exact Ho|].
  apply Hc. eexists _, _. split; [apply list_elem_of_here|]. split; [apply list_elem_of_here|].
  split; [discriminate|]. split; reflexivity.
Defined.

Lemma nslabels_labelled_witness :
  let ns := {| ns_meta := named_meta "web" ∅ {[ ProjectIDFieldLabel := "c-1:p-1" ]} []; ns_Phase := "Active" |} in
  let w' := (nslabels_Sync (Some ns) (synced (set_tbl {[ ("", "web") := ns ]} empty_state))).2 in
  ∃ o, tbl (view w') !! ("", "web") = Some o ∧ Labels (ns_meta o) !! ProjectIDFieldLabel = Some "p-1".
Proof.
  intros ns w'.
  pose proof (nslabels_labelled ns "c-1" "p-1" (synced (set_tbl {[ ("", "web") := ns ]} empty_state))
    sim_client_healthy ltac:(discriminate) ltac:(discriminate) eq_refl eq_refl eq_refl eq_refl) as Hw.
  unfold wp in Hw. fold w' in Hw.
  destruct (nslabels_Sync (Some ns) (synced (set_tbl {[ ("", "web") := ns ]} empty_state))).1 as [u| | |];
    [|destruct Hw..].
  destruct Hw as (o & Ho & Hl & _). exists o. split; [exact Ho|exact Hl].
Defined.
