(* ===== verification/NodeSync.v ===== *)
(** * Nodes of a user cluster and their machines

    The handlers that keep the nodes of the management server ([v3.Node], called machines
    here as in the code) in step with the nodes of the user cluster ([corev1.Node]):
    pkg/controllers/user/nodesyncer, and pkg/node, which says which machine stands for
    which node. *)

From stdpp Require Import base gmap list strings.
From Stdlib Require Import Ascii ZArith Lia.
From S2P Require Import Prelude.
From S2P Require Import GoLib.
From S2P Require Import KubeTypes.
From S2P Require Import KubeObjects.
From S2P Require Import Kube.
From S2P Require Import KubeRules.
From S2P Require Import KubeSim.
From S2P Require Import Frame.
From S2P Require Import Cond.
From S2P Require Import NodePools.
From S2P Require Import NetPolicy.

Open Scope go_scope.

Module NodeSync.

Notation annotationName := "management.cattle.io/nodesyncer" (only parsing).
Notation externalAddressAnnotation := "rke.cattle.io/external-ip" (only parsing).
Notation NodeConditionRegistered := "Registered" (only parsing).

(** ** Which machine stands for which node (pkg/node) *)

Definition GetNodeName (machine : Node) : string :=
  if negb (String.eqb (node_NodeName machine) "") then node_NodeName machine else
  match node_NodeConfig machine with Some cfg => rke_HostnameOverride cfg | None => "" end.

Definition getNodeInternalAddress (node : CoreNode) : string :=
  match List.find (λ a, String.eqb (na_Type a) "InternalIP") (cnt_Addresses (cnode_Status node)) with
  | Some a => na_Address a
  | None => ""
  end.

Definition machineAddress (machine : Node) : string :=
  match node_NodeConfig machine with
  | Some cfg => if String.eqb (rke_InternalAddress cfg) "" then rke_Address cfg else rke_InternalAddress cfg
  | None => ""
  end.

Definition IsNodeForNode (node : CoreNode) (machine : Node) : bool :=
  if String.eqb (GetNodeName machine) (Name (cnode_meta node)) then true
  else if String.eqb (machineAddress machine) "" then false
  else String.eqb (machineAddress machine) (getNodeInternalAddress node).

(** The loop over the addresses: it stops at the first external one. *)
Fixpoint endpoint_ips (internalIP : string) (l : list NodeAddress) : string * string :=
  match l with
  | [] => ("", internalIP)
  | ip :: l =>
    if String.eqb (na_Type ip) "ExternalIP" && negb (String.eqb (na_Address ip) "") then (na_Address ip, internalIP)
    else if String.eqb (na_Type ip) "InternalIP" && negb (String.eqb (na_Address ip) "")
    then endpoint_ips (na_Address ip) l else endpoint_ips internalIP l
  end.

(** A nil map of annotations and an empty one are the same text. *)
Definition GetEndpointNodeIP (node : Node) : string :=
  let '(externalIP, internalIP) := endpoint_ips "" (cnt_Addresses (node_InternalNodeStatus node)) in
  if negb (String.eqb externalIP "") then externalIP else
  let annotated := if decide (Annotations (node_meta node) = ∅) then ""
                   else default "" (node_NodeAnnotations node !! externalAddressAnnotation) in
  if negb (String.eqb annotated "") then annotated else internalIP.

Definition GetNodeByNodeName (nodes : list Node) (nodeName : string) : option Node :=
  List.find (λ m, String.eqb (GetNodeName m) nodeName) nodes.

Definition getNode (machine : Node) (nodes : list CoreNode) : option CoreNode :=
  List.find (λ n, IsNodeForNode n machine) nodes.

(** ** Resources of pods *)

(** [quantity.Value()]: whole units, rounded away from zero. *)
Definition nano : Z := 1000000000.

Definition Value (q : Z) : Z :=
  (if 0 <=? q then (q + nano - 1) / nano else - ((nano - 1 - q) / nano))%Z.

Definition add_quantity (name : string) (quantity : Z) (data : ResourceList) : ResourceList :=
  match data !! name with
  | None => <[name := quantity]> data
  | Some value => <[name := (value + quantity)%Z]> data
  end.

Definition addMap (data1 data2 : ResourceList) : ResourceList := map_fold add_quantity data2 data1.

Definition max_quantity (name : string) (quantity : Z) (data : ResourceList) : ResourceList :=
  match data !! name with
  | None => <[name := quantity]> data
  | Some value => if (value <? quantity)%Z then <[name := quantity]> data else data
  end.

Definition addMapForInit (data1 data2 : ResourceList) : ResourceList := map_fold max_quantity data2 data1.

Definition getPodData (pod : Pod) : ResourceList * ResourceList :=
  let requests := fold_left (λ r c, addMap (ctr_Requests c) r) (pod_Containers pod) ∅ in
  let limits := fold_left (λ r c, addMap (ctr_Limits c) r) (pod_Containers pod) ∅ in
  (fold_left (λ r c, addMapForInit (ctr_Requests c) r) (pod_InitContainers pod) requests,
   fold_left (λ r c, addMapForInit (ctr_Limits c) r) (pod_InitContainers pod) limits).

(** [podsData], by the names of the pods. *)
Definition pods_data (pods : list Pod) : gmap string (ResourceList * ResourceList) :=
  fold_left (λ m pod, <[Name (pod_meta pod) := getPodData pod]> m) pods ∅.

(** A nil list of pods and one that is not: only the latter is counted. *)
Definition aggregateRequestAndLimitsForNode (pods : option (list Pod)) : ResourceList * ResourceList :=
  let requests := match pods with
                  | None => ∅
                  | Some pods => {[ "pods" := (Z.of_nat (length pods) * nano)%Z ]}
                  end in
  map_fold (λ _ d acc, (addMap (fst d) (fst acc), addMap (snd d) (snd acc))) (requests, ∅)
    (pods_data (default [] pods)).

Definition counted (pod : Pod) : bool :=
  negb (String.eqb (pod_NodeName pod) "" || bool_decide (is_Some (DeletionTimestamp (pod_meta pod)))) &&
  negb (String.eqb (pod_Phase pod) "Succeeded" || String.eqb (pod_Phase pod) "Failed").

(** The pods that run or will, by node. *)
Definition by_node (pods : list Pod) : gmap string (list Pod) :=
  fold_left (λ m pod, if counted pod
                      then <[pod_NodeName pod := default [] (m !! pod_NodeName pod) ++ [pod]]> m else m) pods ∅.

(** ** Comparison *)

(** A map that was read from its text: an empty one was left out and is nil. *)
Definition decoded (m : ResourceList) : option ResourceList := if decide (m = ∅) then None else Some m.

Definition isEqual (data1 data2 : option ResourceList) : bool :=
  match data1, data2 with
  | None, None => true
  | Some d1, Some d2 =>
    forallb (λ kv, match d2 !! fst kv with
                   | Some value2 => (Value (snd kv) =? Value value2)%Z
                   | None => false
                   end) (map_to_list d1)
  | _, _ => false
  end.

Definition resetConditions (s : CoreNodeStatus) : CoreNodeStatus :=
  {| cnt_Capacity := cnt_Capacity s; cnt_Allocatable := cnt_Allocatable s;
     cnt_Conditions := (λ c, {| nc_Type := nc_Type c; nc_Status := nc_Status c; nc_LastHeartbeatTime := 0;
                                nc_LastTransitionTime := 0; nc_Reason := nc_Reason c;
                                nc_Message := nc_Message c |}) <$> cnt_Conditions s;
     cnt_Addresses := cnt_Addresses s |}.

(** [existing] comes from the cache, [toUpdate] is a changed copy of it. *)
Definition objectsAreEqual (existing toUpdate : Node) : bool :=
  bool_decide (resetConditions (node_InternalNodeStatus toUpdate) =
               resetConditions (node_InternalNodeStatus existing)) &&
  bool_decide (node_InternalNodeSpec toUpdate = node_InternalNodeSpec existing) &&
  String.eqb (node_NodeName toUpdate) (node_NodeName existing) &&
  bool_decide (node_NodeLabels toUpdate = node_NodeLabels existing) &&
  bool_decide (node_NodeAnnotations toUpdate = node_NodeAnnotations existing) &&
  isEqual (Some (node_Requested toUpdate)) (decoded (node_Requested existing)) &&
  isEqual (Some (node_Limits toUpdate)) (decoded (node_Limits existing)).

(** ** The machine of a node *)

(** A machine with the spec, status, labels and annotations of the node, and what its pods ask for. *)
Definition mirrored (node : CoreNode) (requests limits : ResourceList) (o : Node) : Node :=
  let labelled l := bool_decide (is_Some (Labels (cnode_meta node) !! l)) in
  {| node_meta := node_meta o;
     node_Etcd := labelled "node-role.kubernetes.io/etcd" || node_Etcd o;
     node_ControlPlane := labelled "node-role.kubernetes.io/controlplane" ||
                          labelled "node-role.kubernetes.io/master" || node_ControlPlane o;
     node_Worker := labelled "node-role.kubernetes.io/worker" || node_Worker o;
     node_NodeTemplateName := node_NodeTemplateName o;
     node_NodePoolName := node_NodePoolName o; node_CustomConfig := node_CustomConfig o;
     node_Imported := node_Imported o; node_RequestedHostname := node_RequestedHostname o;
     node_InternalNodeSpec := cnode_Spec node;
     node_DesiredNodeLabels := node_DesiredNodeLabels o;
     node_DesiredNodeAnnotations := node_DesiredNodeAnnotations o;
     node_DesiredNodeUnschedulable := node_DesiredNodeUnschedulable o;
     node_Conditions := node_Conditions o; node_InternalNodeStatus := cnode_Status node;
     node_NodeName := Name (cnode_meta node); node_Requested := requests ∪ node_Requested o;
     node_Limits := limits ∪ node_Limits o;
     node_NodeConfig := node_NodeConfig o; node_NodeAnnotations := Annotations (cnode_meta node);
     node_NodeLabels := Labels (cnode_meta node); node_DockerInfo := node_DockerInfo o |}.

(** A machine with new desired labels and annotations, or a new desired state of cordoning. *)
Definition with_desired (labels annotations : gmap string string) (unschedulable : string) (o : Node) : Node :=
  {| node_meta := node_meta o; node_Etcd := node_Etcd o; node_ControlPlane := node_ControlPlane o;
     node_Worker := node_Worker o; node_NodeTemplateName := node_NodeTemplateName o;
     node_NodePoolName := node_NodePoolName o; node_CustomConfig := node_CustomConfig o;
     node_Imported := node_Imported o; node_RequestedHostname := node_RequestedHostname o;
     node_InternalNodeSpec := node_InternalNodeSpec o;
     node_DesiredNodeLabels := labels; node_DesiredNodeAnnotations := annotations;
     node_DesiredNodeUnschedulable := unschedulable;
     node_Conditions := node_Conditions o; node_InternalNodeStatus := node_InternalNodeStatus o;
     node_NodeName := node_NodeName o; node_Requested := node_Requested o; node_Limits := node_Limits o;
     node_NodeConfig := node_NodeConfig o; node_NodeAnnotations := node_NodeAnnotations o;
     node_NodeLabels := node_NodeLabels o; node_DockerInfo := node_DockerInfo o |}.

(** [&v3.Node{...}] for a node that has no machine. *)
Definition new_machine (clusterNamespace : string) (node : CoreNode) : Node :=
  {| node_meta := {| Name := ""; GenerateName := "machine-"; Namespace := clusterNamespace; UID := "";
                     ResourceVersion := ""; Labels := ∅; Annotations := ∅; OwnerReferences := [];
                     CreationTimestamp := 0; DeletionTimestamp := None |};
     node_Etcd := false; node_ControlPlane := false; node_Worker := false; node_NodeTemplateName := "";
     node_NodePoolName := ""; node_CustomConfig := None; node_Imported := false;
     node_RequestedHostname := Name (cnode_meta node); node_InternalNodeSpec := no_node_spec;
     node_DesiredNodeLabels := ∅; node_DesiredNodeAnnotations := ∅; node_DesiredNodeUnschedulable := "";
     node_Conditions := []; node_InternalNodeStatus := no_node_status; node_NodeName := "";
     node_Requested := ∅; node_Limits := ∅; node_NodeConfig := None; node_NodeAnnotations := ∅;
     node_NodeLabels := ∅; node_DockerInfo := None |}.

(** [convert.ToBool] of a string. *)
Definition ToBool (s : string) : bool := ContainsString ["true"; "t"; "yes"; "y"] (ToLower s).

Section syncer.
Context {W : Type} `{!GoRuntime W, !Client W Node, !Client W CoreNode, !Client W Pod, !Client W Cluster}.
Context `{!CacheAlias W CoreNode, !Queue W Node}.
Variables (clusterName clusterNamespace : string).

Notation pods_of := (gmap string (list Pod)).

Definition NodeSyncer_sync : M W unit := Enqueue (O:=Node) clusterNamespace AllNodeKey.

Definition PodsStatsSyncer_sync : M W unit := Enqueue (O:=Node) clusterNamespace AllNodeKey.

Definition getNonTerminatedPods : M W pods_of :=
  let* fromCache := reads (lister_List (O:=Pod) "" Everything) in ret (by_node fromCache).

Definition convertNodeToNode (node : CoreNode) (existing : option Node) (pods : pods_of) : M W Node :=
  let '(requests, limits) := aggregateRequestAndLimitsForNode (pods !! Name (cnode_meta node)) in
  let machine := mirrored node requests limits (default (new_machine clusterNamespace node) existing) in
  let* machine := at_now (λ now, setStatus now NodeConditionRegistered "True" machine) in
  at_now (λ now, Message now NodeConditionRegistered "registered with kubernetes" machine).

Definition removeNode (machine : Node) : M W unit :=
  match Annotations (node_meta machine) !! annotationName with
  | None => ret tt
  | Some _ => wrap_err ("Failed to delete machine [" +:+ Name (node_meta machine) +:+ "]")
                (api_delete (O:=Node) clusterNamespace (Name (node_meta machine)))
  end.

Definition updateNode (existing : Node) (node : CoreNode) (pods : pods_of) : M W unit :=
  let* toUpdate := convertNodeToNode node (Some existing) pods in
  if objectsAreEqual existing toUpdate then ret tt else
  do* wrap_err ("Failed to update machine for node [" +:+ Name (cnode_meta node) +:+ "]")
        (api_update clusterNamespace toUpdate) in
  ret tt.

Definition getNodeForNode (node : CoreNode) (cache : bool) : M W (option Node) :=
  if cache then
    let* machines := reads (lister_List clusterNamespace Everything) in
    ret (List.find (IsNodeForNode node) machines)
  else
    let* machines := reads (api_list clusterNamespace Everything) in
    ret (List.find (λ m, String.eqb (Namespace (node_meta m)) clusterNamespace && IsNodeForNode node m) machines).

Definition with_annotation (o : Node) : Node :=
  if decide (Annotations (node_meta o) = ∅)
  then set_node_meta (with_Annotations {[ annotationName := "true" ]} (node_meta o)) o else o.

Definition createNode (node : CoreNode) (pods : pods_of) : M W unit :=
  let* cluster := reads (lister_Get (O:=Cluster) "" clusterName) in
  if cs_RancherKubernetesEngineConfig (cluster_Spec cluster) then ret tt else
  let* existing := getNodeForNode node false in
  match existing with
  | Some _ => ret tt
  | None =>
    let* machine := convertNodeToNode node None pods in
    do* wrap_err ("Failed to create machine for node [" +:+ Name (cnode_meta node) +:+ "]")
          (api_create clusterNamespace (with_annotation machine)) in
    ret tt
  end.

Definition reconcileNodeForNode (machine : option Node) (node : CoreNode) (pods : pods_of) : M W unit :=
  match machine with
  | None => createNode node pods
  | Some machine => updateNode machine node pods
  end.

(** The machines that stand for a node, by its name, and the others. *)
Definition sort_machines (nodes : list CoreNode) (machines : list Node) :
    gmap string Node * gmap string Node :=
  fold_left (λ acc machine,
    match getNode machine nodes with
    | None => (fst acc, <[Name (node_meta machine) := machine]> (snd acc))
    | Some node => (<[Name (cnode_meta node) := machine]> (fst acc), snd acc)
    end) machines (∅, ∅).

Definition node_map (nodes : list CoreNode) : gmap string CoreNode :=
  fold_left (λ m node, <[Name (cnode_meta node) := node]> m) nodes ∅.

(** The error of the second listing is overwritten before it is looked at. *)
Definition reconcileAll : M W unit :=
  let* nodes := reads (lister_List (O:=CoreNode) "" Everything) in
  let nodeMap := node_map nodes in
  let* machines := attempt (reads (lister_List (O:=Node) clusterNamespace Everything)) in
  let '(machineMap, toDelete) :=
    sort_machines nodes (match machines with inr l => l | inl _ => [] end) in
  let* nodeToPodMap := getNonTerminatedPods in
  let* order := range nodeMap in
  do* for_each (λ kv, reconcileNodeForNode (machineMap !! fst kv) (snd kv) nodeToPodMap) order in
  let* order := range machineMap in
  do* for_each (λ kv, if bool_decide (is_Some (nodeMap !! fst kv)) then ret tt else removeNode (snd kv)) order in
  let* order := range toDelete in
  for_each (λ kv, removeNode (snd kv)) order.

Definition NodesSyncer_sync (key : string) : M W unit :=
  if String.eqb key (clusterNamespace +:+ "/" +:+ AllNodeKey) then reconcileAll else ret tt.

(** The labels and annotations are assigned through the pointer into the cache; a
    machine without a node makes the handler dereference nil. *)
Definition syncLabels (obj : option Node) : M W unit :=
  match obj with
  | None => ret tt
  | Some machine =>
    let annotations := node_DesiredNodeAnnotations machine in
    let labels := node_DesiredNodeLabels machine in
    if bool_decide (annotations = ∅) && bool_decide (labels = ∅) then ret tt else
    let* nodes := reads (lister_List (O:=CoreNode) "" Everything) in
    match getNode machine nodes with
    | None => panic
    | Some node =>
      let m := cnode_meta node in
      let m' := with_Labels (if decide (labels = ∅) then Labels m else labels)
                  (with_Annotations (if decide (annotations = ∅) then Annotations m else annotations) m) in
      do* (if decide (m = m') then ret tt else
           do* (λ w, (Ok tt, cache_write (set_cnode_meta m' node) w)) in
           do* api_update "" (set_cnode_meta m' node) in ret tt) in
      do* api_update clusterNamespace (with_desired ∅ ∅ (node_DesiredNodeUnschedulable machine) machine) in
      ret tt
    end
  end.

Definition with_Unschedulable (b : bool) (node : CoreNode) : CoreNode :=
  {| cnode_meta := cnode_meta node;
     cnode_Spec := {| cns_PodCIDR := cns_PodCIDR (cnode_Spec node); cns_Unschedulable := b;
                      cns_Taints := cns_Taints (cnode_Spec node) |};
     cnode_Status := cnode_Status node |}.

Definition syncCordonFields (obj : option Node) : M W unit :=
  match obj with
  | None => ret tt
  | Some machine =>
    if bool_decide (is_Some (DeletionTimestamp (node_meta machine))) ||
       String.eqb (node_DesiredNodeUnschedulable machine) "" then ret tt else
    let* nodes := reads (lister_List (O:=CoreNode) "" Everything) in
    match getNode machine nodes with
    | None => panic
    | Some node =>
      let desiredValue := ToBool (node_DesiredNodeUnschedulable machine) in
      do* (if Bool.eqb (cns_Unschedulable (cnode_Spec node)) desiredValue then ret tt
           else do* api_update "" (with_Unschedulable desiredValue node) in ret tt) in
      do* api_update clusterNamespace
            (with_desired (node_DesiredNodeLabels machine) (node_DesiredNodeAnnotations machine) "" machine) in
      ret tt
    end
  end.

(** pkg/controllers/user/noderemove: the outcome of the request is not looked at. *)
Definition nodeRemove_Remove (obj : Node) : M W Node :=
  do* (if negb (String.eqb (node_NodeName obj) "")
       then do* attempt (api_delete (O:=CoreNode) "" (node_NodeName obj)) in ret tt else ret tt) in
  ret obj.

End syncer.

(** ** Resources: the sums are right *)

Definition amount (m : ResourceList) (k : string) : Z := default 0%Z (m !! k).

Lemma addMap_union d1 d2 : addMap d1 d2 = union_with (λ a b, Some (b + a)%Z) d1 d2.
Proof.
  unfold addMap. apply map_eq. intros k. rewrite lookup_union_with. revert k.
  apply (map_fold_weak_ind (λ acc m, ∀ k, acc !! k = union_with (λ a b, Some (b + a)%Z) (m !! k) (d2 !! k))).
  - intros k. rewrite lookup_empty. by destruct (d2 !! k).
  - intros n q m acc Hm IH k. unfold add_quantity. rewrite IH, Hm.
    destruct (decide (k = n)) as [->|Hk].
    + rewrite lookup_insert_eq. destruct (d2 !! n) as [v|] eqn:Hd; simpl; by rewrite lookup_insert_eq.
    + rewrite lookup_insert_ne by done. destruct (d2 !! n) as [v|]; simpl; by rewrite lookup_insert_ne, IH.
Qed.

Lemma addMapForInit_union d1 d2 : addMapForInit d1 d2 = union_with (λ a b, Some (Z.max b a)) d1 d2.
Proof.
  unfold addMapForInit. apply map_eq. intros k. rewrite lookup_union_with. revert k.
  apply (map_fold_weak_ind (λ acc m, ∀ k, acc !! k = union_with (λ a b, Some (Z.max b a)) (m !! k) (d2 !! k))).
  - intros k. rewrite lookup_empty. by destruct (d2 !! k).
  - intros n q m acc Hm IH k. unfold max_quantity. rewrite IH, Hm.
    destruct (decide (k = n)) as [->|Hk].
    + rewrite lookup_insert_eq. pose proof (IH n) as Hn. rewrite Hm in Hn.
      destruct (d2 !! n) as [v|] eqn:Hd; simpl in *; [|by rewrite lookup_insert_eq].
      destruct (Z.ltb_spec v q); [rewrite lookup_insert_eq|rewrite Hn]; f_equal; lia.
    + rewrite lookup_insert_ne by done.
      destruct (d2 !! n) as [v|]; simpl; [destruct (v <? q)%Z|]; by rewrite ?lookup_insert_ne, IH.
Qed.

Lemma amount_addMap d1 d2 k : amount (addMap d1 d2) k = (amount d1 k + amount d2 k)%Z.
Proof.
  unfold amount. rewrite addMap_union, lookup_union_with.
  destruct (d1 !! k), (d2 !! k); simpl; lia.
Qed.

Definition nonnegative (m : ResourceList) : Prop := map_Forall (λ _ q, (0 <= q)%Z) m.

Lemma amount_nonneg m k : nonnegative m → (0 <= amount m k)%Z.
Proof. unfold amount. intros Hm. destruct (m !! k) as [q|] eqn:Hq; simpl; [exact (Hm k q Hq)|lia]. Qed.

Lemma amount_addMapForInit d1 d2 k :
  nonnegative d1 → nonnegative d2 → amount (addMapForInit d1 d2) k = Z.max (amount d2 k) (amount d1 k).
Proof.
  intros H1%(λ H, amount_nonneg d1 k H) H2%(λ H, amount_nonneg d2 k H). unfold amount in *.
  rewrite addMapForInit_union, lookup_union_with. destruct (d1 !! k), (d2 !! k); simpl in *; lia.
Qed.

Lemma nonnegative_union f d1 d2 :
  (∀ a b, (0 <= a)%Z → (0 <= b)%Z → ∃ c, f a b = Some c ∧ (0 <= c)%Z) →
  nonnegative d1 → nonnegative d2 → nonnegative (union_with f d1 d2).
Proof.
  intros Hf H1 H2 k q Hq. rewrite lookup_union_with in Hq.
  destruct (d1 !! k) as [a|] eqn:Ha, (d2 !! k) as [b|] eqn:Hb; simpl in Hq; simplify_eq.
  - destruct (Hf a b (H1 _ _ Ha) (H2 _ _ Hb)) as (c & ? & ?). by simplify_eq.
  - exact (H1 _ _ Ha).
  - exact (H2 _ _ Hb).
Qed.

Definition Zsum {A} (f : A → Z) (l : list A) : Z := foldr (λ x s, (f x + s)%Z) 0%Z l.
Definition Zmaximum {A} (f : A → Z) (l : list A) : Z := foldr (λ x s, Z.max (f x) s) 0%Z l.

(** What a pod needs of the resource [k]: its containers run together, and after each of
    the init containers. *)
Definition need (get : Container → ResourceList) (k : string) (pod : Pod) : Z :=
  Z.max (Zsum (λ c, amount (get c) k) (pod_Containers pod)) (Zmaximum (λ c, amount (get c) k) (pod_InitContainers pod)).

Definition pod_ok (pod : Pod) : Prop :=
  Forall (λ c, nonnegative (ctr_Requests c) ∧ nonnegative (ctr_Limits c)) (pod_Containers pod ++ pod_InitContainers pod).

Lemma fold_add (get : Container → ResourceList) l r k :
  Forall (λ c, nonnegative (get c)) l → nonnegative r →
  let r' := fold_left (λ r c, addMap (get c) r) l r in
  nonnegative r' ∧ amount r' k = (amount r k + Zsum (λ c, amount (get c) k) l)%Z.
Proof.
  intros Hl. revert r. induction Hl as [|c l Hc Hl IH]; intros r Hr; simpl; [split; [done|lia]|].
  destruct (IH (addMap (get c) r)) as [Hn ->].
  - rewrite addMap_union. apply nonnegative_union; [|done..]. intros a b ??. eexists. split; [done|lia].
  - split; [done|]. rewrite amount_addMap. lia.
Qed.

Lemma fold_max (get : Container → ResourceList) l r k :
  Forall (λ c, nonnegative (get c)) l → nonnegative r →
  amount (fold_left (λ r c, addMapForInit (get c) r) l r) k =
    Z.max (amount r k) (Zmaximum (λ c, amount (get c) k) l).
Proof.
  intros Hl. revert r. induction Hl as [|c l Hc Hl IH]; intros r Hr; simpl.
  - pose proof (amount_nonneg r k Hr). lia.
  - rewrite IH; [rewrite amount_addMapForInit by done; lia|].
    rewrite addMapForInit_union. apply nonnegative_union; [|done..]. intros a b ??. eexists. split; [done|lia].
Qed.

Lemma getPodData_need pod k :
  pod_ok pod →
  amount (getPodData pod).1 k = need ctr_Requests k pod ∧ amount (getPodData pod).2 k = need ctr_Limits k pod.
Proof.
  intros [Hc Hi]%Forall_app. unfold getPodData, need. simpl.
  assert (nonnegative ∅) as H0 by apply map_Forall_empty.
  assert (∀ get, Forall (λ c, nonnegative (get c)) (pod_Containers pod) →
    Forall (λ c, nonnegative (get c)) (pod_InitContainers pod) →
    amount (fold_left (λ r c, addMapForInit (get c) r) (pod_InitContainers pod)
      (fold_left (λ r c, addMap (get c) r) (pod_Containers pod) ∅)) k =
    Z.max (Zsum (λ c, amount (get c) k) (pod_Containers pod))
          (Zmaximum (λ c, amount (get c) k) (pod_InitContainers pod))) as Hgen.
  { intros get Hg Hg'. destruct (fold_add get _ ∅ k Hg H0) as [Hn Hs]. rewrite fold_max, Hs by done.
    unfold amount at 1. rewrite lookup_empty. simpl. lia. }
  split; apply Hgen; eapply Forall_impl; eauto; naive_solver.
Qed.

Lemma addMap_comm a b c : addMap a (addMap b c) = addMap b (addMap a c).
Proof.
  rewrite !addMap_union. apply map_eq. intros k. rewrite !lookup_union_with.
  destruct (a !! k), (b !! k), (c !! k); simpl; f_equal; lia.
Qed.

Lemma pods_data_snoc pods pod :
  pods_data (pods ++ [pod]) = <[Name (pod_meta pod) := getPodData pod]> (pods_data pods).
Proof. unfold pods_data. by rewrite fold_left_app. Qed.

Lemma pods_data_fresh pods n : n ∉ (Name ∘ pod_meta <$> pods) → pods_data pods !! n = None.
Proof.
  induction pods as [|pod pods IH] using rev_ind; intros Hn; [done|].
  rewrite pods_data_snoc. rewrite fmap_app, elem_of_app in Hn. rewrite lookup_insert_ne; [apply IH; tauto|].
  intros <-. apply Hn. right. by left.
Qed.

(** What the pods of a node ask for, and may use at most, is the sum of what each
    of them needs, when no two of them have the same name; the resource [pods] counts them. *)
Theorem aggregate_correct pods k :
  NoDup (Name ∘ pod_meta <$> pods) → Forall pod_ok pods →
  let '(requests, limits) := aggregateRequestAndLimitsForNode (Some pods) in
  amount requests k = ((if String.eqb k "pods" then Z.of_nat (length pods) * nano else 0) +
                       Zsum (need ctr_Requests k) pods)%Z ∧
  amount limits k = Zsum (need ctr_Limits k) pods.
Proof.
  unfold aggregateRequestAndLimitsForNode. cbn [default from_option id].
  set (start := {[ "pods" := _ ]} : ResourceList).
  assert (amount start k = if String.eqb k "pods" then Z.of_nat (length pods) * nano else 0)%Z as <-.
  { unfold amount, start. destruct (String.eqb_spec k "pods") as [->|]; [by rewrite lookup_singleton_eq|].
    rewrite lookup_singleton_ne; [done|congruence]. }
  clearbody start. intros Hnd Hok.
  set (f := λ (_ : string) (d acc : ResourceList * ResourceList), (addMap d.1 acc.1, addMap d.2 acc.2)).
  assert (∀ (pods : list Pod), NoDup (Name ∘ pod_meta <$> pods) → Forall pod_ok pods →
    let r := map_fold f (start, ∅) (pods_data pods) in
    amount r.1 k = (amount start k + Zsum (need ctr_Requests k) pods)%Z ∧
    amount r.2 k = Zsum (need ctr_Limits k) pods) as Hgen.
  2: { pose proof (Hgen pods Hnd Hok) as Hg. cbn zeta in Hg. fold f.
       destruct (map_fold f (start, ∅) (pods_data pods)) as [a b]. exact Hg. }
  clear pods Hnd Hok. induction pods as [|pod pods IH] using rev_ind; intros Hnd Hok.
  { simpl. unfold pods_data. simpl. rewrite map_fold_empty. simpl. split; [lia|done]. }
  rewrite fmap_app in Hnd. apply NoDup_app in Hnd as (Hnd & Hdis & _). apply Forall_app in Hok as [Hok [Hp _]%Forall_cons].
  pose proof (IH Hnd Hok) as [H1 H2]. rewrite pods_data_snoc.
  assert (∀ g l, Zsum (need g k) (l ++ [pod]) = (Zsum (need g k) l + need g k pod)%Z) as Hsum.
  { intros g l. induction l; simpl; [lia|]. rewrite IHl. lia. }
  cbn zeta. rewrite map_fold_insert_L.
  - cbn zeta in H1, H2. set (acc := map_fold f _ _) in *. unfold f. cbn [fst snd]. destruct (getPodData_need pod k Hp) as [E1 E2].
    rewrite !amount_addMap, !Hsum, H1, H2, E1, E2. lia.
  - intros j1 j2 z1 z2 y _ _ _. unfold f. simpl. f_equal; apply addMap_comm.
  - apply pods_data_fresh. intros Hin. apply (Hdis _ Hin). by left.
Qed.

(** ** Machines follow nodes *)

Lemma find_Some_iff {A} (p : A → bool) l x :
  List.find p l = Some x → x ∈ l ∧ p x = true.
Proof. intros [Hin Hp]%find_some. split; [by apply list_elem_of_In|done]. Qed.

Lemma find_None_iff {A} (p : A → bool) l : List.find p l = None ↔ ∀ x, x ∈ l → p x = false.
Proof.
  split; [intros Hf x Hx; eapply find_none; [done|by apply list_elem_of_In]|].
  induction l as [|x l IH]; simpl; [done|]. intros Hall. rewrite (Hall x) by (by left).
  apply IH. intros y Hy. apply Hall. by right.
Qed.

(** The names of the nodes tell them apart. *)
Lemma node_map_lookup nodes name node :
  (∀ n n', n ∈ nodes → n' ∈ nodes → Name (cnode_meta n) = Name (cnode_meta n') → n = n') →
  node_map nodes !! name = Some node ↔ node ∈ nodes ∧ Name (cnode_meta node) = name.
Proof.
  unfold node_map. induction nodes as [|n nodes IH] using rev_ind; intros Hinj.
  { simpl. rewrite lookup_empty. split; [done|]. by intros [?%elem_of_nil _]. }
  rewrite fold_left_app. simpl. destruct (decide (Name (cnode_meta n) = name)) as [<-|Hne].
  - rewrite lookup_insert_eq. split.
    + intros [= ->]. split; [apply elem_of_app; right; by left|done].
    + intros [Hin Hn]. f_equal. apply Hinj; [apply elem_of_app; right; by left|done|done].
  - rewrite lookup_insert_ne by done. rewrite IH.
    + split; [intros [? ?]; split; [apply elem_of_app; by left|done]|].
      intros [[?| ->%list_elem_of_singleton]%elem_of_app ?]; [done|congruence].
    + intros a b ? ?. apply Hinj; apply elem_of_app; by left.
Qed.

Section sorting.
Context (nodes : list CoreNode) (machines : list Node).

(** A machine stands for at most one node, and a node has at most one machine. *)
Record unambiguous : Prop := {
  one_node n n' m : n ∈ nodes → n' ∈ nodes → m ∈ machines →
    IsNodeForNode n m = true → IsNodeForNode n' m = true → n = n';
  one_machine n m m' : n ∈ nodes → m ∈ machines → m' ∈ machines →
    IsNodeForNode n m = true → IsNodeForNode n m' = true → m = m' }.

Lemma getNode_None m : getNode m nodes = None ↔ ∀ n, n ∈ nodes → IsNodeForNode n m = false.
Proof. exact (find_None_iff (λ n, IsNodeForNode n m) nodes). Qed.

Lemma getNode_Some m n : getNode m nodes = Some n → n ∈ nodes ∧ IsNodeForNode n m = true.
Proof. exact (find_Some_iff (λ n, IsNodeForNode n m) nodes n). Qed.

Lemma getNode_matches m n :
  unambiguous → n ∈ nodes → m ∈ machines → IsNodeForNode n m = true → getNode m nodes = Some n.
Proof.
  intros Hu Hn Hm Hmatch. destruct (getNode m nodes) as [n'|] eqn:Hg.
  - apply getNode_Some in Hg as [Hn' Hm']. f_equal. by apply (one_node Hu n' n m).
  - apply getNode_None with (n := n) in Hg; [congruence|done].
Qed.

(** The loop, for any part of the machines. *)
Lemma sort_machines_spec l :
  l ⊆ machines → (∀ m m', m ∈ machines → m' ∈ machines → Name (node_meta m) = Name (node_meta m') → m = m') →
  (∀ n n', n ∈ nodes → n' ∈ nodes → Name (cnode_meta n) = Name (cnode_meta n') → n = n') →
  unambiguous →
  let '(machineMap, toDelete) := sort_machines nodes l in
  (∀ name m, machineMap !! name = Some m ↔ m ∈ l ∧ ∃ n, n ∈ nodes ∧ Name (cnode_meta n) = name ∧ getNode m nodes = Some n) ∧
  (∀ name m, toDelete !! name = Some m ↔ m ∈ l ∧ Name (node_meta m) = name ∧ getNode m nodes = None).
Proof.
  unfold sort_machines. intros Hl Hinj Hnodes Hu. induction l as [|m0 l IH] using rev_ind.
  { simpl. split; intros name m; rewrite lookup_empty; split; try done; by intros [?%elem_of_nil _]. }
  rewrite fold_left_app. simpl.
  assert (l ⊆ machines) as Hl' by (intros x Hx; apply Hl, elem_of_app; by left).
  assert (m0 ∈ machines) as Hm0 by (apply Hl, elem_of_app; right; by left).
  specialize (IH Hl'). destruct (fold_left _ l (∅, ∅)) as [machineMap toDelete]. destruct IH as [IH1 IH2].
  assert (∀ m, m ∈ l ++ [m0] ↔ m ∈ l ∨ m = m0) as Hin by (intros m; rewrite elem_of_app, list_elem_of_singleton; done).
  destruct (getNode m0 nodes) as [n0|] eqn:Hg; simpl; (split; intros name m; rewrite Hin).
  - pose proof (getNode_Some _ _ Hg) as [Hn0 Hmatch]. destruct (decide (Name (cnode_meta n0) = name)) as [<-|Hne].
    + rewrite lookup_insert_eq. split; [intros [= ->]; split; [by right|by exists n0]|].
      intros [[Hm| ->] (n & Hn & Hname & Hgm)]; [|done]. f_equal.
      assert (n = n0) as -> by (by apply Hnodes). apply getNode_Some in Hgm as [_ Hgm].
      apply (one_machine Hu n0); auto.
    + rewrite lookup_insert_ne, IH1 by done. split; [naive_solver|].
      intros [[?| ->] (n & Hn & Hname & Hgm)]; [by eauto|]. congruence.
  - rewrite IH2. split; [naive_solver|]. intros [[?| ->] [? ?]]; [done|congruence].
  - rewrite IH1. split; [naive_solver|]. intros [[?| ->] (n & ? & ? & ?)]; [by eauto|congruence].
  - destruct (decide (Name (node_meta m0) = name)) as [<-|Hne].
    + rewrite lookup_insert_eq. split; [intros [= ->]; by auto|]. intros [[Hm| ->] [Hname ?]]; [|done].
      f_equal. apply Hinj; auto.
    + rewrite lookup_insert_ne, IH2 by done. split; [naive_solver|]. intros [[?| ->] [? ?]]; [done|congruence].
Qed.

End sorting.

Section reconcile.
Context {W : Type} `{!Kube W, !GoRuntime W, !GoRuntimeLaws W}.
Context `{!Client W Node, !ClientLaws W Node, !Client W CoreNode, !ClientLaws W CoreNode}.
Context `{!Client W Pod, !ClientLaws W Pod, !Client W Cluster, !ClientLaws W Cluster}.
Context (clusterName ns : string).
Hypothesis healthy : ClientHealthy W Node.
Hypothesis ns_named : ns ≠ "".
Implicit Types (w : W) (node : CoreNode) (m : Node).

(** The machine shows the node as it is, and, in whole units, what its pods ask for. *)
Record mirrors node (pods : gmap string (list Pod)) m : Prop := {
  mi_NodeName : node_NodeName m = Name (cnode_meta node);
  mi_labels : node_NodeLabels m = Labels (cnode_meta node);
  mi_annotations : node_NodeAnnotations m = Annotations (cnode_meta node);
  mi_spec : node_InternalNodeSpec m = cnode_Spec node;
  mi_status : resetConditions (node_InternalNodeStatus m) = resetConditions (cnode_Status node);
  mi_requests k q : (aggregateRequestAndLimitsForNode (pods !! Name (cnode_meta node))).1 !! k = Some q →
    ∃ q', node_Requested m !! k = Some q' ∧ Value q' = Value q;
  mi_limits k q : (aggregateRequestAndLimitsForNode (pods !! Name (cnode_meta node))).2 !! k = Some q →
    ∃ q', node_Limits m !! k = Some q' ∧ Value q' = Value q }.

(** What [convertNodeToNode] makes of a machine. *)
Definition converted node (pods : gmap string (list Pod)) m0 m : Prop :=
  ∃ l, let r := aggregateRequestAndLimitsForNode (pods !! Name (cnode_meta node)) in
    m = set_conditions l (mirrored node r.1 r.2 m0).

Lemma wp_convertNodeToNode node existing pods w :
  wp (convertNodeToNode ns node existing pods)
    (returns (λ m w', w' = w ∧ converted node pods (default (new_machine ns node) existing) m)) w.
Proof.
  unfold convertNodeToNode, converted. destruct (aggregateRequestAndLimitsForNode _) as [requests limits].
  set (m0 := mirrored _ _ _ _). apply wp_bind. unfold wp, at_now. simpl. split; [done|].
  unfold Message, setStatus, change_cond. eexists. reflexivity.
Qed.

Lemma converted_mirrors node pods m0 m mt : converted node pods m0 m → mirrors node pods (set_node_meta mt m).
Proof.
  intros [l ->]. split; simpl; try done; intros k q Hq; exists q; (split; [by apply lookup_union_Some_l|done]).
Qed.

Lemma isEqual_Some d1 d2 k q :
  isEqual (Some d1) (decoded d2) = true → d1 !! k = Some q → ∃ q', d2 !! k = Some q' ∧ Value q' = Value q.
Proof.
  unfold decoded. case_decide; [done|]. simpl. rewrite forallb_forall. intros Hall Hk.
  specialize (Hall (k, q)). simpl in Hall. destruct (d2 !! k) as [q'|]; [exists q'; split; [done|]; symmetry|].
  - apply Z.eqb_eq, Hall, list_elem_of_In, elem_of_map_to_list. done.
  - exfalso. assert (false = true); [|done]. apply Hall, list_elem_of_In, elem_of_map_to_list. done.
Qed.

(** A machine that is not updated shows the node already. *)
Lemma objectsAreEqual_mirrors node pods m0 m :
  converted node pods m0 m → objectsAreEqual m0 m = true → mirrors node pods m0.
Proof.
  intros [l ->]. unfold objectsAreEqual. rewrite !andb_true_iff, !bool_decide_eq_true, String.eqb_eq.
  intros ((((((Hst & Hsp) & Hn) & Hl) & Ha) & Hr) & Hlim). simpl in *.
  split; try done; intros k q Hq; (eapply isEqual_Some; [eassumption|]); by apply lookup_union_Some_l.
Qed.

Lemma wp_updateNode m0 node pods w :
  tbl (view w) !! obj_key m0 = Some m0 → Namespace (node_meta m0) = ns →
  wp (updateNode ns m0 node pods) (returns (λ _ w', ∃ m, obj_key m = obj_key m0 ∧ mirrors node pods m ∧
    node_NodeConfig m = node_NodeConfig m0 ∧ view w' = put_obj m (view w) ∧ cache_step w w')) w.
Proof.
  intros Hm0 Hns. unfold updateNode. eapply wp_bind_returns; [apply wp_convertNodeToNode|].
  intros m w' [-> Hconv]. simpl in Hconv. destruct (objectsAreEqual m0 m) eqn:Heq.
  { apply wp_ret. exists m0. split_and!; [done|by eapply objectsAreEqual_mirrors|done| |apply cache_step_same].
    unfold put_obj. rewrite insert_id by done. symmetry. apply set_tbl_tbl. }
  assert (node_meta m = node_meta m0 ∧ node_NodeConfig m = node_NodeConfig m0) as [Hmeta Hcfg] by (destruct Hconv as [l ->]; done).
  assert (write_key ns m = obj_key m0) as Hk.
  { unfold write_key, client_ns, obj_key. simpl. rewrite Hmeta, Hns. by case_decide. }
  apply wp_bind, wp_wrap_err, wp_update.
  - intros o w' (_ & _ & _ & _ & _ & _ & Hspec) Hko _ Hv Hcs. apply wp_ret. exists o. simpl in Hspec.
    split_and!; [by rewrite Hko|rewrite Hspec; by eapply converted_mirrors|by rewrite Hspec|done..].
  - intros e w' _ _ Hno. apply Hno; [done| |].
    + simpl. rewrite Hmeta. exact (view_named (O:=Node) w _ (mk_is_Some _ _ Hm0)).
    + exists m0. rewrite Hk. simpl. by rewrite Hmeta.
Qed.

Lemma wp_createMachine node pods c w :
  tbl (cached w) !! ("", clusterName) = Some c →
  (∀ m, tbl (view w) !! obj_key m = Some m → Namespace (node_meta m) = ns → IsNodeForNode node m = false) →
  wp (createNode clusterName ns node pods) (returns (λ _ w',
    if cs_RancherKubernetesEngineConfig (cluster_Spec c) then w' = w
    else ∃ m, Namespace (node_meta m) = ns ∧ tbl (O:=Node) (view w) !! obj_key m = None ∧ mirrors node pods m ∧
      node_NodeConfig m = None ∧ view w' = put_obj m (view w) ∧ cache_step w w')) w.
Proof.
  intros Hc Hnone. unfold createNode. apply wp_bind, wp_reads.
  pose proof (lister_get_law (O:=Cluster) "" clusterName w) as Hg. rewrite Hc in Hg. rewrite Hg. simpl.
  destruct (cs_RancherKubernetesEngineConfig (cluster_Spec c)); [by apply wp_ret|].
  unfold getNodeForNode. apply wp_bind, wp_bind, wp_reads.
  destruct (list_healthy (O:=Node) ns Everything w) as [l Hl]. rewrite Hl. simpl. apply wp_ret. simpl.
  destruct (List.find _ l) as [m|] eqn:Hf.
  { exfalso. apply find_Some_iff in Hf as [Hm [Hns Hmatch]%andb_prop]. apply String.eqb_eq in Hns.
    apply (elem_of_list _ _ _ _ _ Hl) in Hm as [Hm _]. by rewrite Hnone in Hmatch. }
  eapply wp_bind_returns; [apply wp_convertNodeToNode|]. intros m w' [-> Hconv]. simpl in Hconv.
  assert (node_meta m = node_meta (new_machine ns node) ∧ node_NodeConfig m = None) as [Hmeta Hcfg]
    by (destruct Hconv as [l' ->]; done).
  assert (∃ mt, with_annotation m = set_node_meta mt m ∧ Name mt = "" ∧ GenerateName mt = "machine-" ∧
    Namespace mt = ns) as (mt & -> & Hn & Hgn & Hmns).
  { unfold with_annotation. rewrite decide_True by (by rewrite Hmeta). eexists. split; [done|]. by rewrite Hmeta. }
  apply wp_bind, wp_wrap_err, wp_create.
  - intros o w' Hst Hfree Hv Hcs. apply wp_ret. exists o. destruct Hst as (Hons & _ & _ & _ & _ & _ & Hspec).
    simpl in Hspec, Hons. split_and!; [|done| |by rewrite Hspec|done..].
    + rewrite Hons. unfold client_ns. simpl. rewrite Hmns. by case_decide.
    + rewrite Hspec. exact (converted_mirrors _ _ _ m (node_meta o) Hconv).
  - intros e w' _ _ Hno. apply Hno; simpl; [done|by rewrite Hn|by rewrite Hgn].
Qed.

Section loop.
Context (w0 : W) (c : Cluster) (nodes : list CoreNode) (machines : list Node) (pods : gmap string (list Pod)).

Hypothesis nodes_named : ∀ n n', n ∈ nodes → n' ∈ nodes → Name (cnode_meta n) = Name (cnode_meta n') → n = n'.
Hypothesis nodes_ne : ∀ n, n ∈ nodes → Name (cnode_meta n) ≠ "".
Hypothesis machines_are : ∀ m, m ∈ machines ↔ tbl (view w0) !! obj_key m = Some m ∧ Namespace (node_meta m) = ns.
Hypothesis clear : unambiguous nodes machines.

(** The nodes that are to have a machine: in clusters RKE made, machines come first. *)
Definition owed node : Prop :=
  (∃ m, m ∈ machines ∧ IsNodeForNode node m = true) ∨ cs_RancherKubernetesEngineConfig (cluster_Spec c) = false.

(** The state after the nodes [don]. *)
Record reconciled (don : list CoreNode) (s : KState) : Prop := {
  rc_changes : changed_in (O:=Node) ns (view w0) s;
  rc_done node : node ∈ don → owed node → ∃ m, tbl s !! obj_key m = Some m ∧ Namespace (node_meta m) = ns ∧
    mirrors node pods m ∧ ∀ m0, m0 ∈ machines → IsNodeForNode node m0 = true → obj_key m = obj_key m0;
  rc_rest m : m ∈ machines → (∀ node, node ∈ don → IsNodeForNode node m = false) → tbl s !! obj_key m = Some m;
  rc_made m : tbl s !! obj_key m = Some m → Namespace (node_meta m) = ns → m ∈ machines ∨
    ∃ node, node ∈ don ∧ node_NodeName m = Name (cnode_meta node) ∧
      (node_NodeConfig m = None ∨
       ∃ m0, m0 ∈ machines ∧ IsNodeForNode node m0 = true ∧ node_NodeConfig m = node_NodeConfig m0) }.

Lemma reconciled_nil : reconciled [] (view w0).
Proof.
  split; [done|by intros node ?%elem_of_nil| |].
  - intros m [? _]%machines_are _. done.
  - intros m Hm Hns. left. by apply machines_are.
Qed.

Lemma NodeName_matches node m : node_NodeName m = Name (cnode_meta node) → node ∈ nodes → IsNodeForNode node m = true.
Proof.
  intros Hn Hin. unfold IsNodeForNode, GetNodeName. rewrite Hn.
  destruct (String.eqb_spec (Name (cnode_meta node)) "") as [He|]; [by destruct (nodes_ne _ Hin)|]. simpl.
  by rewrite String.eqb_refl.
Qed.

(** A machine made or updated for another node does not stand for this one. *)
Lemma made_elsewhere don s node m :
  reconciled don s → don ⊆ nodes → node ∈ nodes → node ∉ don →
  (∀ m0, m0 ∈ machines → IsNodeForNode node m0 = false) →
  tbl s !! obj_key m = Some m → Namespace (node_meta m) = ns → IsNodeForNode node m = false.
Proof.
  intros Hrc Hsub Hn Hnew Hno Hm Hns. destruct (rc_made _ _ Hrc m Hm Hns) as [?|(node' & Hd & Hname & Hcfg)]; [auto|].
  assert (Name (cnode_meta node') ≠ Name (cnode_meta node)) as Hne.
  { intros Heq. apply Hnew. by rewrite <-(nodes_named node' node (Hsub _ Hd) Hn Heq). }
  unfold IsNodeForNode. assert (GetNodeName m = Name (cnode_meta node')) as ->.
  { unfold GetNodeName. rewrite Hname. destruct (String.eqb_spec (Name (cnode_meta node')) ""); [|done].
    by destruct (nodes_ne _ (Hsub _ Hd)). }
  destruct (String.eqb_spec (Name (cnode_meta node')) (Name (cnode_meta node))); [done|].
  assert (machineAddress m = "" ∨ ∃ m0, m0 ∈ machines ∧ machineAddress m = machineAddress m0) as Ha.
  { destruct Hcfg as [Hcfg|(m0 & Hm0 & _ & Hcfg)]; unfold machineAddress; rewrite Hcfg; [by left|right; eauto]. }
  destruct Ha as [->|(m0 & Hm0 & ->)]; [done|]. specialize (Hno m0 Hm0). unfold IsNodeForNode in Hno.
  by destruct (String.eqb (GetNodeName m0) _).
Qed.

(** The state after one more node, whose machine is [m]. *)
Lemma reconciled_put don s node m :
  reconciled don s → don ⊆ nodes → node ∈ nodes → node ∉ don →
  Namespace (node_meta m) = ns → mirrors node pods m →
  ((∃ m0, m0 ∈ machines ∧ IsNodeForNode node m0 = true ∧ obj_key m = obj_key m0 ∧
      node_NodeConfig m = node_NodeConfig m0) ∨
   tbl (O:=Node) s !! obj_key m = None ∧ node_NodeConfig m = None ∧
   (∀ m0, m0 ∈ machines → IsNodeForNode node m0 = false)) →
  reconciled (don ++ [node]) (put_obj m s).
Proof.
  intros Hrc Hsub Hn Hnew Hns Hmi Hm.
  assert (∀ m', tbl s !! obj_key m' = Some m' → (∃ node', node' ∈ don ∧ IsNodeForNode node' m' = true) →
    obj_key m' ≠ obj_key m) as Hother.
  { intros m' Hm' (node' & Hd & Hmatch') Heq. destruct Hm as [(m0 & Hm0 & Hmatch & Hk & _)|[Hfree _]]; [|congruence].
    rewrite Hk in Heq. assert (tbl s !! obj_key m0 = Some m0) as Hcur.
    { apply (rc_rest _ _ Hrc m0 Hm0). intros node2 Hd2. apply not_true_is_false. intros Hm2.
      apply Hnew. by rewrite (one_node _ _ clear node node2 m0 Hn (Hsub _ Hd2) Hm0 Hmatch Hm2). }
    assert (m' = m0) as -> by (rewrite Heq in Hm'; congruence). apply Hnew.
    by rewrite (one_node _ _ clear node node' m0 Hn (Hsub _ Hd) Hm0 Hmatch Hmatch'). }
  split.
  - etrans; [apply Hrc|]. rewrite <-Hns. exact (changed_in_put (O:=Node) s m).
  - intros node' [Hd| ->%list_elem_of_singleton]%elem_of_app Howed.
    + destruct (rc_done _ _ Hrc node' Hd Howed) as (m' & Hm' & Hns' & Hmi' & Hk').
      exists m'. split_and!; [|done..]. rewrite tbl_put, lookup_insert_ne; [done|]. intros Heq.
      apply (Hother m' Hm'); [|done]. exists node'. split; [done|]. apply NodeName_matches; [apply Hmi'|by apply Hsub].
    + exists m. rewrite tbl_put, lookup_insert_eq. split_and!; [done..|]. intros m1 Hm1 Hmatch1.
      destruct Hm as [(m0 & Hm0 & Hmatch & Hk & _)|(_ & _ & Hno)]; [|by rewrite Hno in Hmatch1].
      by rewrite Hk, (one_machine _ _ clear node m0 m1 Hn Hm0 Hm1 Hmatch Hmatch1).
  - intros m1 Hm1 Hrest. rewrite tbl_put, lookup_insert_ne.
    + apply (rc_rest _ _ Hrc m1 Hm1). intros node' Hd. apply Hrest, elem_of_app. by left.
    + intros Heq. assert (tbl s !! obj_key m1 = Some m1) as Hcur.
      { apply (rc_rest _ _ Hrc m1 Hm1). intros node' Hd. apply Hrest, elem_of_app. by left. }
      destruct Hm as [(m0 & Hm0 & Hmatch & Hk & _)|[Hfree _]]; [|congruence].
      assert (m1 = m0) as ->.
      { rewrite Hk in Heq. apply machines_are in Hm0 as [Hm0 _], Hm1 as [Hm1 _]. rewrite Heq in Hm0. congruence. }
      rewrite (Hrest node) in Hmatch; [done|]. apply elem_of_app. right. by left.
  - intros m' Hm' Hns'. rewrite tbl_put in Hm'. apply lookup_insert_Some in Hm' as [[Heq <-]|[Hne Hm']].
    + right. exists node. split; [apply elem_of_app; right; by left|]. split; [apply Hmi|].
      destruct Hm as [(m0 & Hm0 & Hmatch & _ & Hcfg)|(_ & Hcfg & _)]; [right; eauto|by left].
    + destruct (rc_made _ _ Hrc m' Hm' Hns') as [?|(node' & Hd & Hrest)]; [by left|]. right. exists node'.
      split; [apply elem_of_app; by left|done].
Qed.

(** A node for which there is nothing to do. *)
Lemma reconciled_skip don s node : reconciled don s → ¬ owed node → reconciled (don ++ [node]) s.
Proof.
  intros [R1 R2 R3 R4] Hno. split; [done| | |].
  - intros node' [Hd| ->%list_elem_of_singleton]%elem_of_app Howed; [by apply R2|done].
  - intros m Hin Hrest. apply R3; [done|]. intros node' Hd. apply Hrest, elem_of_app. by left.
  - intros m Hm Hmns. destruct (R4 m Hm Hmns) as [?|(node' & Hd & ?)]; [by left|]. right. exists node'.
    split; [apply elem_of_app; by left|done].
Qed.

Definition annotated m : bool := bool_decide (is_Some (Annotations (node_meta m) !! annotationName)).

Definition cluster_known w : Prop := in_sync_kind Cluster w ∧ tbl (view w) !! ("", clusterName) = Some c.

Lemma cluster_known_step w w' :
  cluster_known w → only_tbl (O:=Node) (view w) (view w') → cache_step w w' → cluster_known w'.
Proof.
  intros [Hs Hc] Hot Hcs. split; [eapply (sync_undisturbed (A:=Node) (B:=Cluster)); [other_kind|done..]|].
  unfold only_tbl in Hot. by rewrite Hot.
Qed.

Lemma wp_reconcile_nodes machineMap toDelete order :
  sort_machines nodes machines = (machineMap, toDelete) →
  (∀ m m', m ∈ machines → m' ∈ machines → Name (node_meta m) = Name (node_meta m') → m = m') →
  order ≡ₚ map_to_list (node_map nodes) → cluster_known w0 →
  wp (for_each (λ kv, reconcileNodeForNode clusterName ns (machineMap !! fst kv) (snd kv) pods) order)
    (returns (λ _ w', reconciled order.*2 (view w') ∧ cluster_known w')) w0.
Proof.
  intros Hsort Hinj Hperm Hck.
  pose proof (sort_machines_spec nodes machines machines (λ x H, H) Hinj nodes_named clear) as Hspec.
  rewrite Hsort in Hspec. destruct Hspec as [Hmap _].
  assert (∀ name node, (name, node) ∈ order → node ∈ nodes ∧ Name (cnode_meta node) = name) as Hord.
  { intros name node Hin. rewrite Hperm in Hin. apply elem_of_map_to_list in Hin.
    by apply (node_map_lookup nodes name node nodes_named). }
  assert (NoDup order.*1) as Hnd by (rewrite Hperm; apply NoDup_fst_map_to_list).
  apply (wp_for_each_returns (λ don w', reconciled don.*2 (view w') ∧ cluster_known w')).
  { split; [apply reconciled_nil|done]. }
  intros don [name node] rest w Heq [Hrc Hckw]. simpl.
  assert (don.*2 ⊆ nodes) as Hsub.
  { intros x ([n y] & -> & Hy)%list_elem_of_fmap. apply (Hord n y). rewrite Heq. apply elem_of_app. by left. }
  destruct (Hord name node) as [Hn Hname]; [rewrite Heq; apply elem_of_app; right; by left|].
  assert (node ∉ don.*2) as Hnew.
  { intros ([name' y] & -> & Hy)%list_elem_of_fmap. simpl in *.
    destruct (Hord name' y) as [_ Hname']; [rewrite Heq; apply elem_of_app; by left|].
    rewrite Heq, fmap_app, fmap_cons in Hnd. apply NoDup_app in Hnd as (_ & Hdis & _).
    apply (Hdis name'); [by apply (list_elem_of_fmap_2 fst _ _ Hy)|]. rewrite <-Hname', Hname. by left. }
  assert (∀ w', only_tbl (O:=Node) (view w) (view w') → cache_step w w' → cluster_known w') as Hstep
    by (intros; by eapply cluster_known_step).
  rewrite fmap_app. unfold reconcileNodeForNode. destruct (machineMap !! name) as [m0|] eqn:Hm0.
  - apply Hmap in Hm0 as (Hin & n & Hn' & Hname' & Hg). assert (n = node) as -> by (apply nodes_named; congruence).
    apply getNode_Some in Hg as [_ Hmatch].
    assert (tbl (view w) !! obj_key m0 = Some m0) as Hcur.
    { apply (rc_rest _ _ Hrc m0 Hin). intros node2 Hd2. apply not_true_is_false. intros Hm2.
      apply Hnew. by rewrite (one_node _ _ clear node node2 m0 Hn (Hsub _ Hd2) Hin Hmatch Hm2). }
    pose proof (proj2 (proj1 (machines_are m0) Hin)) as Hns0.
    eapply wp_mono; [by apply wp_updateNode|]. intros [[]|e| |] w' Hw'; simpl in *; try done.
    destruct Hw' as (m & Hk & Hmi & Hcfg & Hv & Hcs). pose proof Hk as [= Hkns _].
    split; [|apply Hstep; [rewrite Hv; apply only_tbl_put, only_tbl_refl|done]]. rewrite Hv.
    apply reconciled_put; [done..| |done|left; by exists m0]. simpl in Hkns. by rewrite Hkns.
  - assert (∀ m, m ∈ machines → IsNodeForNode node m = false) as Hno.
    { intros m Hin. apply not_true_is_false. intros Hmatch.
      assert (machineMap !! name = Some m) as ?; [|congruence]. apply Hmap. split; [done|]. exists node.
      split_and!; [done..|]. by apply (getNode_matches nodes machines). }
    assert (tbl (cached w) !! ("", clusterName) = Some c) as Hc.
    { destruct Hckw as [Hs Hc]. unfold in_sync_kind in Hs. by rewrite Hs. }
    eapply wp_mono; [apply (wp_createMachine node pods c w Hc)|].
    { intros m Hm Hmns. by apply (made_elsewhere don.*2 (view w)). }
    intros [[]|e| |] w' Hw'; simpl in *; try done.
    destruct (cs_RancherKubernetesEngineConfig (cluster_Spec c)) eqn:Hrke.
    + subst w'. split; [|done]. apply reconciled_skip; [done|]. intros [(m & Hin & Hmatch)|]; [|congruence].
      by rewrite Hno in Hmatch.
    + destruct Hw' as (m & Hmns & Hfree & Hmi & Hcfg & Hv & Hcs).
      split; [|apply Hstep; [rewrite Hv; apply only_tbl_put, only_tbl_refl|done]]. rewrite Hv.
      apply reconciled_put; [done..|]. right. done.
Qed.

(** The machines without a node: those this code made are deleted. *)
Lemma wp_remove_all (l : list (string * Node)) w1 :
  NoDup (obj_key <$> l.*2) →
  (∀ m, m ∈ l.*2 → tbl (view w1) !! obj_key m = Some m ∧ Namespace (node_meta m) = ns) →
  wp (for_each (λ kv, removeNode ns (snd kv)) l) (returns (λ _ w',
    changed_in (O:=Node) ns (view w1) (view w') ∧
    (∀ k, k ∉ obj_key <$> List.filter annotated l.*2 → tbl (O:=Node) (view w') !! k = tbl (view w1) !! k) ∧
    ∀ m, m ∈ l.*2 → annotated m = true → tbl (O:=Node) (view w') !! obj_key m = None)) w1.
Proof.
  intros Hnd Hl. apply (wp_for_each_returns (λ (don : list (string * Node)) w',
    changed_in (O:=Node) ns (view w1) (view w') ∧
    (∀ k, k ∉ obj_key <$> List.filter annotated don.*2 → tbl (O:=Node) (view w') !! k = tbl (view w1) !! k) ∧
    ∀ m, m ∈ don.*2 → annotated m = true → tbl (O:=Node) (view w') !! obj_key m = None)).
  { split_and!; [done|done|by intros m ?%elem_of_nil]. }
  intros don [name m] rest w Heq (Hch & Hrest & Hgone). rewrite fmap_app.
  change ([(name, m)].*2) with [m]. cbn [snd].
  rewrite List.filter_app. cbn [List.filter]. unfold removeNode.
  destruct (Annotations (node_meta m) !! annotationName) as [v|] eqn:Ha.
  2: { assert (annotated m = false) as Hno by (apply bool_decide_eq_false_2; rewrite Ha; by intros [? ?]).
       rewrite Hno, app_nil_r. apply wp_ret. split_and!; [done..|].
       intros m' [?| ->%list_elem_of_singleton]%elem_of_app Han; [by apply Hgone|congruence]. }
  assert (annotated m = true) as -> by (apply bool_decide_eq_true_2; rewrite Ha; eauto). rewrite Heq, fmap_app, fmap_cons, fmap_app, fmap_cons in Hnd. simpl in Hnd.
  apply NoDup_app in Hnd as (_ & Hdis & _). destruct (Hl m) as [Hm Hns].
  { rewrite Heq, fmap_app. apply elem_of_app. right. by left. }
  assert (obj_key m ∉ obj_key <$> don.*2) as Hnew by (intros Hx; apply (Hdis _ Hx); by left).
  assert (tbl (view w) !! obj_key m = Some m) as Hcur.
  { rewrite Hrest; [done|]. intros (x & Hx & Hin)%list_elem_of_fmap. apply Hnew. rewrite Hx.
    apply list_elem_of_fmap_2. apply list_elem_of_In, filter_In in Hin as [Hin _]. by apply list_elem_of_In. }
  assert (obj_key m = (ns, Name (node_meta m))) as Hk by (unfold obj_key; simpl; by rewrite Hns).
  rewrite Hk in Hcur. apply wp_wrap_err, wp_delete.
  - intros w' _ Hv _. split_and!.
    + etrans; [exact Hch|]. rewrite Hv. exact (changed_in_del (O:=Node) (view w) (ns, Name (node_meta m))).
    + intros k Hkn. rewrite fmap_app, elem_of_app in Hkn. rewrite Hv, tbl_del, lookup_delete_ne; [apply Hrest; tauto|].
      intros <-. apply Hkn. right. rewrite <-Hk. by left.
    + intros m' [Hd| ->%list_elem_of_singleton]%elem_of_app Han; rewrite Hv, tbl_del.
      * apply lookup_delete_None. right. by apply Hgone.
      * by rewrite Hk, lookup_delete_eq.
  - intros e w' _ _ _ _ Hno. apply Hno; [done|]. by eexists.
Qed.

(** What is left to do after the nodes: the machines of nodes that are gone. *)
Lemma wp_cleanup machineMap toDelete all w1 :
  sort_machines nodes machines = (machineMap, toDelete) →
  (∀ m m', m ∈ machines → m' ∈ machines → Name (node_meta m) = Name (node_meta m') → m = m') →
  (∀ n, n ∈ all ↔ n ∈ nodes) → reconciled all (view w1) →
  wp (let* order := range machineMap in
      do* for_each (λ kv, if bool_decide (is_Some (node_map nodes !! fst kv)) then ret tt
                          else removeNode ns (snd kv)) order in
      let* order := range toDelete in
      for_each (λ kv, removeNode ns (snd kv)) order)
    (returns (λ _ w', changed_in (O:=Node) ns (view w0) (view w') ∧
       (∀ node, node ∈ nodes → owed node → ∃ m, tbl (view w') !! obj_key m = Some m ∧ Namespace (node_meta m) = ns ∧
          mirrors node pods m ∧ ∀ m0, m0 ∈ machines → IsNodeForNode node m0 = true → obj_key m = obj_key m0) ∧
       ∀ m, m ∈ machines → (∀ node, node ∈ nodes → IsNodeForNode node m = false) →
         tbl (O:=Node) (view w') !! obj_key m = if annotated m then None else Some m)) w1.
Proof.
  intros Hsort Hinj Hall Hrc.
  pose proof (sort_machines_spec nodes machines machines (λ x H, H) Hinj nodes_named clear) as Hspec.
  rewrite Hsort in Hspec. destruct Hspec as [Hmap Hdel].
  apply wp_bind, wp_range. intros order2 Hord2. cbn [bind_post].
  eapply wp_bind_returns; [apply (wp_for_each_returns (λ _ w', w' = w1)); [done|]|].
  { intros don [name m] rest w Heq ->. cbn [fst snd]. rewrite bool_decide_eq_true_2; [by apply wp_ret|].
    assert ((name, m) ∈ order2) as Hin by (rewrite Heq; apply elem_of_app; right; by left).
    apply (range_elem _ _ _ _ Hord2), Hmap in Hin as (_ & n & Hn & Hname & _). exists n.
    by apply node_map_lookup. }
  intros [] w ->. apply wp_bind, wp_range. intros l Hl. cbn [bind_post].
  assert (∀ m, m ∈ l.*2 ↔ m ∈ machines ∧ ∀ node, node ∈ nodes → IsNodeForNode node m = false) as Hlm.
  { intros m. rewrite <-getNode_None, list_elem_of_fmap. split.
    - intros ([name m'] & -> & Hin). apply (range_elem _ _ _ _ Hl), Hdel in Hin. tauto.
    - intros [Hin Hg]. exists (Name (node_meta m), m). split; [done|]. apply (range_elem _ _ _ _ Hl), Hdel. done. }
  assert (∀ m, m ∈ l.*2 → tbl (view w1) !! obj_key m = Some m ∧ Namespace (node_meta m) = ns) as Hcur.
  { intros m [Hin Hno]%Hlm. split; [|by apply machines_are]. apply (rc_rest _ _ Hrc m Hin).
    intros node Hn%Hall. by apply Hno. }
  eapply wp_mono; [apply (wp_remove_all l w1); [|exact Hcur]|].
  { apply NoDup_fmap_2_strong.
    - intros m m' Hm Hm' Heq. apply Hcur in Hm as [Hm _], Hm' as [Hm' _]. rewrite Heq in Hm. congruence.
    - eapply NoDup_fmap_1 with (f := λ m, Name (node_meta m)). rewrite <-list_fmap_compose.
      assert ((λ m, Name (node_meta m)) ∘ snd <$> l = l.*1) as ->; [|by eapply range_NoDup].
      apply list_fmap_ext. intros i [name m] Hi. apply list_elem_of_lookup_2, (range_elem _ _ _ _ Hl), Hdel in Hi.
      simpl. tauto. }
  intros [[]|e| |] w' Hw'; try done. destruct Hw' as (Hch & Hrest & Hgone).
  assert (∀ k, k ∈ obj_key <$> List.filter annotated l.*2 → ∃ m, k = obj_key m ∧ m ∈ l.*2 ∧ annotated m = true) as Hkeys.
  { intros k (m & -> & Hm)%list_elem_of_fmap. apply list_elem_of_In, filter_In in Hm as [Hm Ha].
    exists m. split_and!; [done|by apply list_elem_of_In|done]. }
  split_and!; [etrans; [apply Hrc|done]| |].
  - intros node Hn Howed. destruct (rc_done _ _ Hrc node (proj2 (Hall node) Hn) Howed) as (m & Hm & Hns & Hmi & Hk).
    exists m. split_and!; [|done..]. rewrite Hrest; [done|]. intros (m' & Heq & Hm' & _)%Hkeys.
    destruct (Hcur m' Hm') as [Hc' _]. rewrite Heq in Hm. assert (m = m') as <- by congruence.
    apply Hlm in Hm' as [_ Hno]. assert (IsNodeForNode node m = true) as Hy; [|by rewrite Hno in Hy].
    by apply NodeName_matches; [apply Hmi|].
  - intros m Hin Hno. destruct (annotated m) eqn:Ha; [apply Hgone; [by apply Hlm|done]|].
    rewrite Hrest; [apply Hcur, Hlm; done|]. intros (m' & Heq & Hm' & Ha')%Hkeys.
    apply Hcur in Hm' as [Hm' _]. assert (m ∈ l.*2) as Hm%Hcur by (by apply Hlm). destruct Hm as [Hm _].
    rewrite Heq in Hm. congruence.
Qed.

End loop.

(** The caches of machines and clusters are up to date, nodes have no namespace, and it is
    clear which machine stands for which node. *)
Record clear_cut (c : Cluster) w : Prop := {
  cc_machines : in_sync_kind Node w;
  cc_cluster : cluster_known c w;
  cc_nodes k node : tbl (cached w) !! k = Some node → Namespace (cnode_meta node) = "";
  cc_node k k' n n' m : tbl (cached w) !! k = Some n → tbl (cached w) !! k' = Some n' →
    tbl (view w) !! obj_key m = Some m → Namespace (node_meta m) = ns →
    IsNodeForNode n m = true → IsNodeForNode n' m = true → n = n';
  cc_machine k n m m' : tbl (cached w) !! k = Some n →
    tbl (view w) !! obj_key m = Some m → Namespace (node_meta m) = ns →
    tbl (view w) !! obj_key m' = Some m' → Namespace (node_meta m') = ns →
    IsNodeForNode n m = true → IsNodeForNode n m' = true → m = m' }.

Definition machine_of w m : Prop := tbl (view w) !! obj_key m = Some m ∧ Namespace (node_meta m) = ns.

(** C16: after a pass over all nodes, every node of the cluster that is to have a machine
    has one that shows it as it is, the machine it had if it had one; machines of nodes
    that are gone are deleted if this code made them and kept otherwise; nothing but
    machines of the cluster changes. *)
Theorem reconcileAll_correct c w :
  clear_cut c w →
  wp (reconcileAll clusterName ns) (returns (λ _ w', ∃ pods,
    lister_List (O:=Pod) "" Everything w = Ok pods ∧
    changed_in (O:=Node) ns (view w) (view w') ∧
    (∀ k node, tbl (cached w) !! k = Some node →
       (∃ m, machine_of w m ∧ IsNodeForNode node m = true) ∨ cs_RancherKubernetesEngineConfig (cluster_Spec c) = false →
       ∃ m, machine_of w' m ∧ mirrors node (by_node pods) m ∧
         ∀ m0, machine_of w m0 → IsNodeForNode node m0 = true → obj_key m = obj_key m0) ∧
    (∀ m, machine_of w m → (∀ k node, tbl (cached w) !! k = Some node → IsNodeForNode node m = false) →
       tbl (O:=Node) (view w') !! obj_key m = if annotated m then None else Some m))) w.
Proof.
  intros [Hsync Hck Hnodes Hone Hmach]. unfold reconcileAll. apply wp_bind, wp_reads.
  destruct (lister_list_law (O:=CoreNode) "" Everything w) as (nodes & Hln & _). rewrite Hln. cbn [bind_post].
  assert (∀ n, n ∈ nodes ↔ tbl (cached w) !! obj_key n = Some n) as Hin.
  { intros n. rewrite (elem_of_lister _ _ _ _ n Hln). split; [by intros (? & _)|]. intros ?. split_and!; [done|by left|].
    apply map_empty_subseteq. }
  apply wp_bind, wp_attempt, wp_reads.
  destruct (lister_list_law (O:=Node) ns Everything w) as (machines & Hlm & _). rewrite Hlm. cbn [bind_post].
  assert (∀ m, m ∈ machines ↔ machine_of w m) as Hmin.
  { intros m. rewrite (elem_of_lister _ _ _ _ m Hlm). unfold machine_of, in_sync_kind in *. rewrite Hsync.
    split; [intros (? & [?|?] & _); done|]. intros [? ?]. split_and!; [done|by right|apply map_empty_subseteq]. }
  destruct (sort_machines nodes machines) as [machineMap toDelete] eqn:Hsort.
  unfold getNonTerminatedPods. apply wp_bind, wp_bind, wp_reads.
  destruct (lister_list_law (O:=Pod) "" Everything w) as (pods & Hlp & _). rewrite Hlp. cbn [bind_post]. apply wp_ret.
  cbn [bind_post]. apply wp_bind, wp_range. intros order Hord. cbn [bind_post].
  assert (∀ n n', n ∈ nodes → n' ∈ nodes → Name (cnode_meta n) = Name (cnode_meta n') → n = n') as Hninj.
  { intros n n' Hn%Hin Hn'%Hin Heq. pose proof (Hnodes _ _ Hn) as E1. pose proof (Hnodes _ _ Hn') as E2.
    unfold obj_key in Hn, Hn'. simpl in Hn, Hn'. rewrite E1, Heq in Hn. rewrite E2 in Hn'. congruence. }
  assert (∀ m m', m ∈ machines → m' ∈ machines → Name (node_meta m) = Name (node_meta m') → m = m') as Hminj.
  { intros m m' [Hm E1]%Hmin [Hm' E2]%Hmin Heq. unfold obj_key in Hm, Hm'. simpl in Hm, Hm'.
    rewrite E1, Heq in Hm. rewrite E2 in Hm'. congruence. }
  assert (unambiguous nodes machines) as Hu.
  { split; [intros n n' m Hn%Hin Hn'%Hin [? ?]%Hmin|intros n m m' Hn%Hin [? ?]%Hmin [? ?]%Hmin]; eauto. }
  assert (∀ n, n ∈ nodes → Name (cnode_meta n) ≠ "") as Hnne.
  { intros n Hn%Hin. exact (cached_named (O:=CoreNode) w _ (mk_is_Some _ _ Hn)). }
  eapply wp_bind_returns; [by apply (wp_reconcile_nodes w c nodes machines (by_node pods) Hninj Hnne Hmin Hu machineMap toDelete)|].
  intros [] w1 [Hrc _].
  assert (∀ n, n ∈ order.*2 ↔ n ∈ nodes) as Hall.
  { intros n. rewrite list_elem_of_fmap. split.
    - intros ([name n'] & -> & Hn). apply (range_elem _ _ _ _ Hord), (node_map_lookup _ _ _ Hninj) in Hn. tauto.
    - intros Hn. exists (Name (cnode_meta n), n). split; [done|].
      by apply (range_elem _ _ _ _ Hord), (node_map_lookup _ _ _ Hninj). }
  eapply wp_mono; [by apply (wp_cleanup w c nodes machines (by_node pods) Hninj Hnne Hmin Hu machineMap toDelete order.*2)|].
  intros [[]|e| |] w' Hw'; try done. destruct Hw' as (Hch & Hdone & Hgone). exists pods. split_and!; [done..| |].
  - intros k node Hk Howed. pose proof (cached_keyed (O:=CoreNode) w _ _ Hk) as ->. apply Hin in Hk.
    destruct (Hdone node Hk) as (m & Hm & Hns & Hmi & Hkey).
    { destruct Howed as [(m & Hm%Hmin & ?)|?]; [left; eauto|by right]. }
    exists m. split_and!; [done..|]. intros m0 Hm0%Hmin. auto.
  - intros m Hm%Hmin Hno. apply Hgone; [done|]. intros node Hn%Hin. by eapply Hno.
Qed.

End reconcile.

(** A request for new labels of a machine whose node is not in the cache makes the handler
    panic. *)
Theorem syncLabels_panics {W} `{!Kube W, !Client W CoreNode, !ClientLaws W CoreNode, !Client W Node,
    !CacheAlias W CoreNode} ns machine (w : W) :
  node_DesiredNodeLabels machine ≠ ∅ →
  (∀ k node, tbl (cached w) !! k = Some node → IsNodeForNode node machine = false) →
  (syncLabels ns (Some machine) w).1 = Panic.
Proof.
  intros Hl Hno. unfold syncLabels. rewrite (bool_decide_eq_false_2 (node_DesiredNodeLabels machine = ∅)) by done.
  rewrite andb_false_r. unfold bind, reads.
  destruct (lister_list_law (O:=CoreNode) "" Everything w) as (nodes & Hln & _). rewrite Hln.
  assert (getNode machine nodes = None) as ->; [|done]. apply getNode_None. intros n Hn.
  apply (elem_of_lister _ _ _ _ n Hln) in Hn as (Hn & _). eauto.
Qed.

(** Removing a machine always succeeds and changes no node but its own; that one is gone
    if the server of the cluster answers. *)
Theorem nodeRemove_Remove_ok {W} `{!Kube W, !Client W CoreNode, !ClientLaws W CoreNode} obj (w : W) :
  wp (nodeRemove_Remove obj) (returns (λ o w', o = obj ∧
    changed_at (O:=CoreNode) [("", node_NodeName obj)] (view w) (view w') ∧
    (ClientHealthy W CoreNode → node_NodeName obj ≠ "" →
     tbl (O:=CoreNode) (view w') !! ("", node_NodeName obj) = None))) w.
Proof.
  unfold nodeRemove_Remove. destruct (String.eqb_spec (node_NodeName obj) "") as [He|Hne]; cbn [negb].
  { apply wp_bind, wp_ret, wp_ret. split_and!; [done|apply changed_at_refl|done]. }
  apply wp_bind, wp_bind, wp_attempt, wp_delete.
  - intros w' _ Hv _. apply wp_ret, wp_ret. split_and!; [done| |].
    + rewrite Hv. apply changed_at_del. by left.
    + intros _ _. by rewrite Hv, tbl_del, lookup_delete_eq.
  - intros e w' _ Hv _ Hnf Habs. apply wp_ret, wp_ret. split_and!; [done|rewrite Hv; apply changed_at_refl|].
    intros Hh _. rewrite Hv. destruct (tbl (O:=CoreNode) (view w) !! ("", node_NodeName obj)) eqn:Hl; [|done].
    exfalso. apply (Habs Hh). by eexists.
Qed.

(** ** Examples *)

Definition demo_work (ns name : string) (cpu : Z) : Pod :=
  {| pod_meta := {| Name := name; GenerateName := ""; Namespace := ns; UID := ns; ResourceVersion := "1";
                    Labels := ∅; Annotations := ∅; OwnerReferences := []; CreationTimestamp := 0;
                    DeletionTimestamp := None |};
     pod_NodeName := "web"; pod_Phase := "Running"; pod_InitContainers := [];
     pod_Containers := [{| ctr_Name := "c"; ctr_Ports := []; ctr_Requests := {[ "cpu" := cpu ]};
                           ctr_Limits := ∅ |}] |}.

Lemma demo_work_ok ns name cpu : (0 <= cpu)%Z → pod_ok (demo_work ns name cpu).
Proof. intros Hc. repeat constructor; simpl; [by apply map_Forall_singleton|apply map_Forall_empty]. Qed.

Lemma aggregate_correct_witness :
  amount (aggregateRequestAndLimitsForNode (Some [demo_work "a" "x" 1; demo_work "a" "y" 2])).1 "cpu" = 3%Z.
Proof.
  pose proof (aggregate_correct [demo_work "a" "x" 1; demo_work "a" "y" 2] "cpu"
    ltac:(refine (bool_decide_unpack _ _); vm_compute; exact I)
    (Forall_cons_2 _ _ _ (demo_work_ok "a" "x" 1 ltac:(lia)) (Forall_cons_2 _ _ _ (demo_work_ok "a" "y" 2 ltac:(lia)) (Forall_nil_2 _)))) as Hw.
  destruct (aggregateRequestAndLimitsForNode (Some [demo_work "a" "x" 1; demo_work "a" "y" 2])) as [requests limits].
  destruct Hw as [Hw _]. exact Hw.
Defined.

(** Pods are told apart by their names only: of two pods of different namespaces
    with the same name on a node, one is left out of the sum. *)
Theorem same_name_pods_lost :
  amount (aggregateRequestAndLimitsForNode (Some [demo_work "a" "x" 1; demo_work "b" "x" 2])).1 "cpu" = 2%Z ∧
  Zsum (need ctr_Requests "cpu") [demo_work "a" "x" 1; demo_work "b" "x" 2] = 3%Z.
Proof. vm_compute. split; reflexivity. Qed.

Definition demo_worker : CoreNode :=
  {| cnode_meta := {| Name := "web"; GenerateName := ""; Namespace := ""; UID := "n"; ResourceVersion := "1";
                      Labels := {[ "node-role.kubernetes.io/worker" := "true" ]}; Annotations := ∅;
                      OwnerReferences := []; CreationTimestamp := 0; DeletionTimestamp := None |};
     cnode_Spec := {| cns_PodCIDR := "10.42.0.0/24"; cns_Unschedulable := false; cns_Taints := [] |};
     cnode_Status := no_node_status |}.

(** A machine this code made, for a node that is gone. *)
Definition demo_lost : Node :=
  with_annotation (demo_node "machine-1" "old" "").

Definition demo_imported : Cluster :=
  {| cluster_meta := named_meta "c-1" ∅ ∅ []; cluster_type := {| Kind := "Cluster"; APIVersion := "v3" |};
     cluster_Spec := no_spec; cluster_Status := no_status; cluster_Conditions := [] |}.

Definition demo_sync : KState :=
  put_obj demo_worker (put_obj demo_lost (put_obj demo_imported (put_obj (demo_work "a" "x" 1) empty_state))).

(** The node gets a machine and the machine without a node is deleted. *)
Lemma reconcileAll_correct_witness :
  let w' := (reconcileAll "c-1" "c-1" (synced demo_sync)).2 in
  (∃ m, machine_of "c-1" w' m ∧ node_NodeName m = "web") ∧ tbl (O:=Node) (view w') !! obj_key demo_lost = None.
Proof.
  intros w'. set (w := synced demo_sync).
  assert (∀ k (n : CoreNode), tbl (cached w) !! k = Some n → n = demo_worker) as Hnodes.
  { intros k n. apply (map_Forall_lookup_1 (λ _ n, n = demo_worker)).
    refine (bool_decide_unpack _ _). vm_compute. exact I. }
  assert (∀ k (m : Node), tbl (view w) !! k = Some m → m = demo_lost) as Hmachines.
  { intros k m. apply (map_Forall_lookup_1 (λ _ m, m = demo_lost)).
    refine (bool_decide_unpack _ _). vm_compute. exact I. }
  assert (clear_cut "c-1" "c-1" demo_imported w) as Hclear.
  { split; [reflexivity|split; reflexivity| | |].
    - intros k n Hn. by rewrite (Hnodes k n Hn).
    - intros k k' n n' m Hn Hn' _ _ _ _. by rewrite (Hnodes k n Hn), (Hnodes k' n' Hn').
    - intros k n m m' _ Hm _ Hm' _ _ _. by rewrite (Hmachines _ m Hm), (Hmachines _ m' Hm'). }
  pose proof (reconcileAll_correct "c-1" "c-1" sim_client_healthy ltac:(discriminate) demo_imported w Hclear) as Hw.
  unfold wp in Hw. change ((reconcileAll "c-1" "c-1" w).2) with w' in Hw.
  destruct (reconcileAll "c-1" "c-1" w).1 as [u| | |]; [|destruct Hw..].
  destruct Hw as (pods & _ & _ & Hdone & Hgone). split.
  - destruct (Hdone ("", "web") demo_worker) as (m & Hm & Hmi & _); [vm_compute; reflexivity|right; reflexivity|].
    exists m. split; [exact Hm|exact (mi_NodeName _ _ _ Hmi)].
  - apply (Hgone demo_lost); [split; vm_compute; reflexivity|].
    intros k n Hn. rewrite (Hnodes k n Hn). vm_compute. reflexivity.
Defined.

End NodeSync.
