(* ===== verification/PodSecurity.v ===== *)
(** * Pod security policies of a user cluster

    [src/pkg/controllers/user/rbac/podsecuritypolicy]: the handlers that turn the pod
    security policy templates of the management server into policies of the user
    cluster, and bind the service accounts of a project to them.

    A template [t] becomes the policy [t-psp] and the cluster role [t-clusterrole]
    that may use it; a service account is bound to the cluster roles of the templates
    of its project, or to the one of the default template of the cluster. *)

From stdpp Require Import base gmap list strings.
From Stdlib Require Import Ascii ZArith Lia.
From S2P Require Import Prelude.
From S2P Require Import GoLib.
From S2P Require Import KubeTypes.
From S2P Require Import KubeObjects.
From S2P Require Import Kube.
From S2P Require Import KubeRules.
From S2P Require Import KubeSim.
From S2P Require Import Frame.

Module PodSecurity.

Definition apiGroup := "rbac.authorization.k8s.io".
Notation podSecurityPolicyTemplateParentAnnotation := "serviceaccount.cluster.cattle.io/pod-security" (only parsing).
Notation podSecurityPolicyTemplateVersionAnnotation := "serviceaccount.cluster.cattle.io/pod-security-version" (only parsing).
Notation projectIDAnnotation := "field.cattle.io/projectId" (only parsing).
Notation psptpbRoleBindingAnnotation := "podsecuritypolicy.rbac.user.cattle.io/psptpb-role-binding" (only parsing).

(** [m[k]] of a map with string values. *)
Definition annotation_of (k : string) (m : gmap string string) : string := default "" (m !! k).

(** ** Indexes *)

Definition non_empty (s : string) : list string := if String.eqb s "" then [] else [s].

Definition namespaceByProjectName (ns : NamespaceObject) : list string :=
  non_empty (annotation_of projectIDAnnotation (Annotations (ns_meta ns))).

Definition psptpbByTargetProjectName (b : PodSecurityPolicyTemplateProjectBinding) : list string :=
  non_empty (psptpb_TargetProjectName b).

Definition policyByPSPTParentAnnotation (p : PodSecurityPolicy) : list string :=
  non_empty (annotation_of podSecurityPolicyTemplateParentAnnotation (Annotations (psp_meta p))).

Definition clusterRoleByPSPTName (r : ClusterRole) : list string :=
  non_empty (annotation_of podSecurityPolicyTemplateParentAnnotation (Annotations (cr_meta r))).

Definition roleBindingByServiceAccount (rb : RoleBinding) : list string :=
  match rb_Subjects rb with
  | [s] => if String.eqb (s_Name s) "" || String.eqb (s_Namespace s) "" then []
           else [s_Namespace s +:+ "-" +:+ s_Name s]
  | _ => []
  end.

(** ** Names *)

Definition policy_name (template : string) : string := template +:+ "-psp".

Definition getClusterRoleName (template : string) : string := template +:+ "-clusterrole".

Definition getRoleBindingName (obj : ServiceAccount) (clusterRoleName : string) : string :=
  Name (sa_meta obj) +:+ "-" +:+ Namespace (sa_meta obj) +:+ "-" +:+ clusterRoleName +:+ "-binding".

Definition getDefaultRoleBindingName (obj : ServiceAccount) (clusterRoleName : string) : string :=
  "default-" +:+ Name (sa_meta obj) +:+ "-" +:+ Namespace (sa_meta obj) +:+ "-" +:+ clusterRoleName +:+ "-binding".

(** ** Objects the handlers make *)

Definition new_policy (template : PodSecurityPolicyTemplate) (name : string) : PodSecurityPolicy :=
  {| psp_meta := named_meta name ∅
       (<[podSecurityPolicyTemplateVersionAnnotation := ResourceVersion (pspt_meta template)]>
        {[ podSecurityPolicyTemplateParentAnnotation := Name (pspt_meta template) ]}) [];
     psp_Spec := pspt_Spec template |}.

Definition new_role (clusterRoleName policyName template : string) : ClusterRole :=
  {| cr_meta := named_meta clusterRoleName ∅ {[ podSecurityPolicyTemplateParentAnnotation := template ]} [];
     cr_Rules := [{| Verbs := ["use"]; APIGroups := ["extensions"]; Resources := ["podsecuritypolicies"];
                     ResourceNames := [policyName]; NonResourceURLs := [] |}] |}.

Definition new_account_binding (obj : ServiceAccount) (name template clusterRoleName : string) : RoleBinding :=
  {| rb_meta := {| Name := name; GenerateName := ""; Namespace := Namespace (sa_meta obj); UID := "";
                   ResourceVersion := ""; Labels := ∅;
                   Annotations := <[podSecurityPolicyTemplateParentAnnotation := template]>
                                  {[ psptpbRoleBindingAnnotation := "true" ]};
                   OwnerReferences := [{| or_APIVersion := "v1"; or_Kind := "ServiceAccount";
                                          or_Name := Name (sa_meta obj); or_UID := UID (sa_meta obj) |}];
                   CreationTimestamp := 0; DeletionTimestamp := None |};
     rb_Subjects := [{| s_Kind := "ServiceAccount"; s_APIGroup := ""; s_Name := Name (sa_meta obj);
                        s_Namespace := Namespace (sa_meta obj) |}];
     rb_RoleRef := {| rr_APIGroup := apiGroup; rr_Kind := "ClusterRole"; rr_Name := clusterRoleName |} |}.

Section podsecurity.
Context {W : Type} `{!GoRuntime W, !CacheAlias W Cluster}.
Context `{!Client W PodSecurityPolicy, !Client W PodSecurityPolicyTemplate}.
Context `{!Client W PodSecurityPolicyTemplateProjectBinding, !Client W ClusterRole, !Client W RoleBinding}.
Context `{!Client W NamespaceObject, !Client W ServiceAccount, !Client W Cluster}.
Context `{!Queue W NamespaceObject, !Queue W ServiceAccount}.

(** [_, err := get(); if IsNotFound(err) { create() } else { error }]. *)
Definition unless_exists {O} (get : W → outcome O) (getting : string) (create : M W unit) :
    M W unit :=
  let* r := attempt (reads get) in
  match r with
  | inr _ => ret tt
  | inl err => if IsNotFound err then create else throw (Wrapped getting err)
  end.

Definition resyncServiceAccounts (namespace : string) : M W unit :=
  let* serviceAccounts := wrap_err "error getting service accounts"
    (reads (lister_List (O:=ServiceAccount) namespace Everything)) in
  for_each (λ account, Enqueue (O:=ServiceAccount) (Namespace (sa_meta account)) (Name (sa_meta account)))
    serviceAccounts.

(** *** Bindings of templates to projects *)

Definition createPolicy (template podSecurityPolicyName : string) : M W PodSecurityPolicy :=
  let* template := wrap_err "error getting pspt"
    (reads (lister_Get (O:=PodSecurityPolicyTemplate) "" template)) in
  api_create "" (new_policy template podSecurityPolicyName).

Definition createClusterRole (clusterRoleName podSecurityPolicyName template : string) : M W ClusterRole :=
  api_create "" (new_role clusterRoleName podSecurityPolicyName template).

Definition syncNamespacesInProject (projectName : string) : M W unit :=
  let* namespaces := wrap_err "error getting namespaces"
    (reads (ByIndex namespaceByProjectName projectName)) in
  for_each (λ ns, Enqueue (O:=NamespaceObject) "" (Name (ns_meta ns))) namespaces.

Definition binding_sync (obj : PodSecurityPolicyTemplateProjectBinding) :
    M W PodSecurityPolicyTemplateProjectBinding :=
  let template := psptpb_PodSecurityPolicyTemplateName obj in
  if String.eqb template "" then ret obj
  else
    do* unless_exists (lister_Get (O:=PodSecurityPolicy) "" (policy_name template))
          "error getting policy"
          (do* wrap_err "error creating policy" (createPolicy template (policy_name template)) in ret tt) in
    do* unless_exists (lister_Get (O:=ClusterRole) "" (getClusterRoleName template))
          "error getting cluster role"
          (do* wrap_err "error creating cluster role"
             (createClusterRole (getClusterRoleName template) (policy_name template) template) in ret tt) in
    do* syncNamespacesInProject (psptpb_TargetProjectName obj) in
    ret obj.

Definition binding_Create := binding_sync.
Definition binding_Updated := binding_sync.

Definition binding_Remove (obj : PodSecurityPolicyTemplateProjectBinding) :
    M W PodSecurityPolicyTemplateProjectBinding :=
  do* syncNamespacesInProject (psptpb_TargetProjectName obj) in ret obj.

(** *** The default template of a cluster *)

Definition with_applied (template : string) (c : Cluster) : Cluster :=
  {| cluster_meta := cluster_meta c; cluster_type := cluster_type c; cluster_Spec := cluster_Spec c;
     cluster_Status :=
       let s := cluster_Status c in
       {| cs_Driver := cs_Driver s; cs_APIEndpoint := cs_APIEndpoint s;
          cs_ServiceAccountToken := cs_ServiceAccountToken s; cs_CACert := cs_CACert s;
          cs_AppliedPodSecurityPolicyTemplateName := template |};
     cluster_Conditions := cluster_Conditions c |}.

(** [obj] is the object of the cache: the assignment to its status is seen there. *)
Definition cluster_sync (clusterName : string) (obj : option Cluster) : M W unit :=
  match obj with
  | None => ret tt
  | Some obj =>
    let template := cs_DefaultPodSecurityPolicyTemplateName (cluster_Spec obj) in
    if negb (String.eqb clusterName (Name (cluster_meta obj))) ||
       String.eqb template (cs_AppliedPodSecurityPolicyTemplateName (cluster_Status obj)) then ret tt
    else if String.eqb template "" then ret tt
    else
      do* unless_exists (lister_Get (O:=PodSecurityPolicy) "" (policy_name template))
            "error getting policy"
            (let* pspt := wrap_err "error getting pspt"
               (reads (lister_Get (O:=PodSecurityPolicyTemplate) "" template)) in
             do* wrap_err "error creating psp" (api_create "" (new_policy pspt (policy_name template))) in
             ret tt) in
      do* unless_exists (lister_Get (O:=ClusterRole) "" (getClusterRoleName template))
            "error getting cluster role"
            (do* wrap_err "error creating cluster role" (api_create ""
               (new_role (getClusterRoleName template) (policy_name template) template)) in ret tt) in
      let obj := with_applied template obj in
      do* (λ w, (Ok tt, cache_write obj w)) in
      do* wrap_err "error updating cluster" (api_update "" obj) in
      resyncServiceAccounts ""
  end.

Definition namespace_sync (obj : option NamespaceObject) : M W unit :=
  match obj with
  | None => ret tt
  | Some ns => resyncServiceAccounts (Name (ns_meta ns))
  end.

(** *** Templates *)

Definition template_Create (obj : PodSecurityPolicyTemplate) : M W (option PodSecurityPolicyTemplate) :=
  ret None.

Definition template_Updated (obj : PodSecurityPolicyTemplate) : M W PodSecurityPolicyTemplate :=
  let* policies := wrap_err "error getting policies"
    (reads (ByIndex policyByPSPTParentAnnotation (Name (pspt_meta obj)))) in
  do* for_each (λ policy : PodSecurityPolicy,
    let m := psp_meta policy in
    if String.eqb (annotation_of podSecurityPolicyTemplateVersionAnnotation (Annotations m))
         (ResourceVersion (pspt_meta obj)) then ret tt
    else
      do* wrap_err "error updating psp" (api_update ""
        {| psp_meta := with_Annotations
             (<[podSecurityPolicyTemplateVersionAnnotation := ResourceVersion (pspt_meta obj)]> (Annotations m)) m;
           psp_Spec := pspt_Spec obj |}) in ret tt) policies in
  ret obj.

Definition template_Remove (obj : PodSecurityPolicyTemplate) : M W PodSecurityPolicyTemplate :=
  let* policies := wrap_err "error getting policies"
    (reads (ByIndex policyByPSPTParentAnnotation (Name (pspt_meta obj)))) in
  do* for_each (λ policy : PodSecurityPolicy, wrap_err "error deleting policy"
        (api_delete (O:=PodSecurityPolicy) "" (Name (psp_meta policy)))) policies in
  let* clusterRoles := wrap_err "error getting cluster roles"
    (reads (ByIndex clusterRoleByPSPTName (Name (pspt_meta obj)))) in
  do* for_each (λ role : ClusterRole, wrap_err "error deleting cluster role"
        (api_delete (O:=ClusterRole) (Namespace (cr_meta role)) (Name (cr_meta role)))) clusterRoles in
  ret obj.

(** *** Service accounts *)

Definition okToDelete (svcAct : ServiceAccount) (rb : RoleBinding) (cluster : Cluster)
    (originalDesiredBindingsLen : nat) : bool :=
  let template := cs_DefaultPodSecurityPolicyTemplateName (cluster_Spec cluster) in
  if String.eqb (annotation_of psptpbRoleBindingAnnotation (Annotations (rb_meta rb))) "" then false
  else if String.eqb (annotation_of projectIDAnnotation (Annotations (rb_meta rb))) "" then true
  else if String.eqb template "" then true
  else if (0 <? originalDesiredBindingsLen)%nat then true
  else negb (String.eqb (getDefaultRoleBindingName svcAct (getClusterRoleName template)) (Name (rb_meta rb))).

(** The bindings of the project that are not being deleted, by the cluster role they
    ask for. *)
Definition desired_templates (l : list PodSecurityPolicyTemplateProjectBinding) :
    gmap string PodSecurityPolicyTemplateProjectBinding :=
  foldl (λ m b, if bool_decide (is_Some (DeletionTimestamp (psptpb_meta b))) then m
                else <[getClusterRoleName (psptpb_PodSecurityPolicyTemplateName b) := b]> m) ∅ l.

(** [for _, rawRoleBinding := range roleBindings]. *)
Definition prune (obj : ServiceAccount) (cluster : Cluster) (n : nat)
    (desiredBindings : gmap string PodSecurityPolicyTemplateProjectBinding) (roleBinding : RoleBinding) :
    M W (gmap string PodSecurityPolicyTemplateProjectBinding) :=
  let key := rr_Name (rb_RoleRef roleBinding) in
  if bool_decide (desiredBindings !! key = None) && okToDelete obj roleBinding cluster n
  then
    do* wrap_err "error deleting role binding" (api_delete (O:=RoleBinding)
      (Namespace (rb_meta roleBinding)) (Name (rb_meta roleBinding))) in
    ret desiredBindings
  else ret (delete key desiredBindings).

Definition serviceaccount_sync (clusterName : string) (obj : option ServiceAccount) : M W unit :=
  match obj with
  | None => ret tt
  | Some obj =>
    let* namespace := wrap_err "error getting projects"
      (reads (lister_Get (O:=NamespaceObject) "" (Namespace (sa_meta obj)))) in
    let project := annotation_of projectIDAnnotation (Annotations (ns_meta namespace)) in
    let* psptpbs := if String.eqb project "" then ret []
                    else wrap_err "error getting psptpbs" (reads (ByIndex psptpbByTargetProjectName project)) in
    let onePSPTPBExists :=
      existsb (λ b, negb (bool_decide (is_Some (DeletionTimestamp (psptpb_meta b))))) psptpbs in
    let desiredBindings := desired_templates psptpbs in
    let originalDesiredBindingsLen := size desiredBindings in
    let* roleBindings := wrap_err "error getting role bindings"
      (reads (ByIndex roleBindingByServiceAccount
                (Namespace (sa_meta obj) +:+ "-" +:+ Name (sa_meta obj)))) in
    let* cluster := wrap_err "error getting cluster" (reads (lister_Get (O:=Cluster) "" clusterName)) in
    let* desiredBindings := for_fold (prune obj cluster originalDesiredBindingsLen) desiredBindings roleBindings in
    let* todo := range desiredBindings in
    do* for_each (λ kv : string * PodSecurityPolicyTemplateProjectBinding,
          do* wrap_err "error creating binding" (api_create "" (new_account_binding obj
                (getRoleBindingName obj (fst kv)) (psptpb_PodSecurityPolicyTemplateName (snd kv)) (fst kv))) in
          ret tt) todo in
    let template := cs_DefaultPodSecurityPolicyTemplateName (cluster_Spec cluster) in
    if onePSPTPBExists || String.eqb project "" || String.eqb template "" then ret tt
    else
      let clusterRoleName := getClusterRoleName template in
      let roleBindingName := getDefaultRoleBindingName obj clusterRoleName in
      unless_exists (lister_Get (O:=RoleBinding) (Namespace (sa_meta obj)) roleBindingName)
        "error getting role binding"
        (do* wrap_err "error creating role binding" (api_create "" (new_account_binding obj roleBindingName template clusterRoleName)) in
         ret tt)
  end.

End podsecurity.

(** ** Service accounts: what they are bound to *)

Section accounts.
Context {W : Type} `{!Kube W, !GoRuntime W, !GoRuntimeLaws W}.
Context `{!Client W RoleBinding, !ClientLaws W RoleBinding, !Client W NamespaceObject, !ClientLaws W NamespaceObject}.
Context `{!Client W PodSecurityPolicyTemplateProjectBinding, !ClientLaws W PodSecurityPolicyTemplateProjectBinding}.
Context `{!Client W Cluster, !ClientLaws W Cluster, !Client W ServiceAccount}.
Context (obj : ServiceAccount).
Implicit Types (w : W).

Notation role rb := (rr_Name (rb_RoleRef rb)).

(** The binding has the service account as its only subject. *)
Definition binds (rb : RoleBinding) : Prop :=
  ∃ s, rb_Subjects rb = [s] ∧ s_Name s = Name (sa_meta obj) ∧ s_Namespace s = Namespace (sa_meta obj).

Definition sa_key : string := Namespace (sa_meta obj) +:+ "-" +:+ Name (sa_meta obj).

Definition sa_keyed (rb : RoleBinding) : Prop := sa_key ∈ roleBindingByServiceAccount rb.

(** The binding was made by these handlers. *)
Definition managed (rb : RoleBinding) : Prop :=
  annotation_of psptpbRoleBindingAnnotation (Annotations (rb_meta rb)) ≠ "".

Definition own_role (r : string) (rb : RoleBinding) : Prop := sa_keyed rb ∧ role rb = r.

(** Where the project has templates every binding of the handlers may be deleted. *)
Lemma okToDelete_managed rb cluster n :
  0 < n → okToDelete obj rb cluster n = true ↔ managed rb.
Proof.
  intros Hn%Nat.ltb_lt. unfold okToDelete, managed. rewrite Hn.
  destruct (String.eqb_spec (annotation_of psptpbRoleBindingAnnotation (Annotations (rb_meta rb))) ""); [naive_solver|].
  by repeat destruct (String.eqb _ _).
Qed.

Section prune.
Context (cluster : Cluster) (n : nat) (D : gmap string PodSecurityPolicyTemplateProjectBinding).

(** The state of the loop over the bindings [don] of the service account. *)
Record pruned_to (don : list RoleBinding) (m : gmap string PodSecurityPolicyTemplateProjectBinding)
    (s s' : KState) : Prop := {
  pr_only : only_tbl (O:=RoleBinding) s s';
  pr_seen k : k ∈ (λ rb, role rb) <$> don → m !! k = None;
  pr_unseen k : k ∉ (λ rb, role rb) <$> don → m !! k = D !! k;
  pr_rest k : k ∉ obj_key <$> don → tbl (O:=RoleBinding) s' !! k = tbl s !! k;
  pr_done rb : rb ∈ don → tbl s' !! obj_key rb = Some rb ∨
    managed rb ∧ tbl (O:=RoleBinding) s' !! obj_key rb = None;
  pr_kept k : k ∈ (λ rb, role rb) <$> don → is_Some (D !! k) →
    ∃ rb, rb ∈ don ∧ role rb = k ∧ tbl s' !! obj_key rb = Some rb;
  pr_clean rb : rb ∈ don → managed rb → tbl s' !! obj_key rb = Some rb → is_Some (D !! role rb) }.

Lemma pruned_nil s : pruned_to [] D s s.
Proof.
  split; [apply only_tbl_refl|by intros k ?%elem_of_nil|done|done|by intros rb ?%elem_of_nil|
    by intros k ?%elem_of_nil|by intros rb ?%elem_of_nil].
Qed.

(** A binding is kept. *)
Lemma pruned_keep don m s s' rb :
  pruned_to don m s s' → obj_key rb ∉ obj_key <$> don → tbl s !! obj_key rb = Some rb →
  (managed rb → is_Some (m !! role rb)) → (∀ x, x ∈ don → obj_key x ≠ obj_key rb) →
  pruned_to (don ++ [rb]) (delete (role rb) m) s s'.
Proof.
  intros [Ho Hs Hu Hr Hd Hk Hc] Hnew Hrb Hm Hne. pose proof (Hr _ Hnew) as Hrb'. rewrite Hrb in Hrb'.
  split; [done|..]; rewrite ?fmap_app.
  - intros k Hin. destruct (decide (k = role rb)) as [->|Hkr]; [apply lookup_delete_eq|].
    rewrite lookup_delete_ne by done. apply Hs. apply elem_of_app in Hin as [?|?%list_elem_of_singleton]; done.
  - intros k [Hk1 Hk2]%not_elem_of_app. rewrite lookup_delete_ne; [by apply Hu|].
    intros <-. apply Hk2. by left.
  - intros k [Hk1 _]%not_elem_of_app. by apply Hr.
  - intros x [Hx| ->%list_elem_of_singleton]%elem_of_app; [by apply Hd|by left].
  - intros k [Hin|Heq%list_elem_of_singleton]%elem_of_app HD.
    + destruct (Hk k Hin HD) as (x & ? & ? & ?). exists x. rewrite elem_of_app. by auto.
    + exists rb. rewrite elem_of_app. split_and!; [right; by left|done..].
  - intros x [Hx| ->%list_elem_of_singleton]%elem_of_app Hmx Hin; [by apply Hc|].
    destruct (decide (role rb ∈ (λ rb, role rb) <$> don)) as [Hseen|Hun].
    + destruct (Hm Hmx) as [b Hb]. by rewrite (Hs _ Hseen) in Hb.
    + rewrite <-(Hu _ Hun). by apply Hm.
Qed.

(** A binding is deleted. *)
Lemma pruned_drop don m s s' rb :
  pruned_to don m s s' → obj_key rb ∉ obj_key <$> don → managed rb → m !! role rb = None →
  pruned_to (don ++ [rb]) m s (del_obj (O:=RoleBinding) (obj_key rb) s').
Proof.
  intros [Ho Hs Hu Hr Hd Hk Hc] Hnew Hm Hnone.
  assert (∀ x, x ∈ don → tbl (O:=RoleBinding) (del_obj (O:=RoleBinding) (obj_key rb) s') !! obj_key x = tbl s' !! obj_key x) as Hsame.
  { intros x Hx. rewrite tbl_del, lookup_delete_ne; [done|]. intros Heq. apply Hnew. rewrite Heq.
    by apply list_elem_of_fmap_2. }
  split; [by apply only_tbl_del|..]; rewrite ?fmap_app.
  - intros k [Hin|Heq%list_elem_of_singleton]%elem_of_app; [by apply Hs|by rewrite Heq].
  - intros k [Hk1 _]%not_elem_of_app. by apply Hu.
  - intros k [Hk1 Hk2]%not_elem_of_app. rewrite tbl_del, lookup_delete_ne; [by apply Hr|].
    intros <-. apply Hk2. by left.
  - intros x [Hx| ->%list_elem_of_singleton]%elem_of_app; [rewrite Hsame by done; by apply Hd|].
    right. split; [done|]. rewrite tbl_del. apply lookup_delete_eq.
  - intros k [Hin|Heq%list_elem_of_singleton]%elem_of_app HD.
    + destruct (Hk k Hin HD) as (x & ? & ? & ?). exists x. rewrite elem_of_app, Hsame by done. by auto.
    + destruct (decide (k ∈ (λ rb, role rb) <$> don)) as [Hseen|Hun].
      * destruct (Hk k Hseen HD) as (x & ? & ? & ?). exists x. rewrite elem_of_app, Hsame by done. by auto.
      * rewrite Heq in Hun, HD. rewrite <-(Hu _ Hun), Hnone in HD. by destruct HD.
  - intros x [Hx| ->%list_elem_of_singleton]%elem_of_app Hmx Hin.
    + apply Hc; [done..|]. by rewrite <-Hsame.
    + rewrite tbl_del, lookup_delete_eq in Hin. done.
Qed.

End prune.

Hypothesis healthy : ClientHealthy W RoleBinding.

(** The bindings of the service account that the index shows. *)
Definition shown (s : KState) (l : list RoleBinding) : Prop :=
  NoDup (obj_key <$> l) ∧ ∀ rb, rb ∈ l ↔ tbl s !! obj_key rb = Some rb ∧ sa_keyed rb.

Lemma wp_prune_all cluster n D l w :
  0 < n → shown (view w) l →
  wp (for_fold (prune obj cluster n) D l) (returns (λ m w', pruned_to D l m (view w) (view w'))) w.
Proof.
  intros Hpos [Hnd Hl].
  eapply wp_mono; [apply (wp_for_fold (λ don m w', pruned_to D don m (view w) (view w')) (λ _ _, False))|by intros []].
  { apply pruned_nil. }
  intros don rb rest m w' -> Hpr. destruct (proj1 (Hl rb)) as [Hrb Hk].
  { apply elem_of_app. right. by left. }
  assert (obj_key rb ∉ obj_key <$> don) as Hnew.
  { rewrite fmap_app in Hnd. apply NoDup_app in Hnd as (_ & Hdis & _). intros Hin. apply (Hdis _ Hin). by left. }
  assert (∀ x, x ∈ don → obj_key x ≠ obj_key rb) as Hne.
  { intros x Hx Heq. apply Hnew. rewrite <-Heq. by apply list_elem_of_fmap_2. }
  unfold prune.
  assert (managed rb → okToDelete obj rb cluster n = true) as Hok.
  { intros Hmr. by apply okToDelete_managed. }
  case_bool_decide as Hnone; simpl.
  2: { apply wp_ret. apply pruned_keep; [done..| |done]. intros _. by apply not_eq_None_Some. }
  destruct (okToDelete obj rb cluster n) eqn:Hdel.
  2: { apply wp_ret. apply pruned_keep; [done..| |done]. intros Hmr. by specialize (Hok Hmr). }
  assert (managed rb) as Hmr.
  { unfold okToDelete in Hdel. unfold managed. by destruct (String.eqb_spec (annotation_of psptpbRoleBindingAnnotation (Annotations (rb_meta rb))) ""). }
  apply wp_bind, wp_wrap_err, wp_delete.
  - intros w1 _ Hv _. change (_, _) with (obj_key rb) in Hv. apply wp_ret. unfold if_ok. rewrite Hv.
    by apply pruned_drop.
  - intros e w1 _ _ _ _ Hno. exfalso. apply Hno; [done|]. change (_, _) with (obj_key rb).
    rewrite (pr_rest _ _ _ _ _ Hpr) by done. by exists rb.
Qed.

(** ** Bindings that are made *)

Hypothesis sa_ns : Namespace (sa_meta obj) ≠ "".
Hypothesis sa_name : Name (sa_meta obj) ≠ "".

Lemma getRoleBindingName_inj r r' : getRoleBindingName obj r = getRoleBindingName obj r' → r = r'.
Proof.
  unfold getRoleBindingName. intros Heq. do 4 apply append_inj_l in Heq. by apply append_inj_r in Heq.
Qed.

Lemma getRoleBindingName_ne r : getRoleBindingName obj r ≠ "".
Proof.
  unfold getRoleBindingName. destruct (Name (sa_meta obj)); [done|]. by rewrite append_cons.
Qed.

(** What the server stores for a binding made for the account. *)
Lemma new_account_binding_stored name template r o' :
  stored_as "" (new_account_binding obj name template r) o' →
  binds o' ∧ managed o' ∧ role o' = r ∧ Namespace (rb_meta o') = Namespace (sa_meta obj).
Proof.
  intros (Hns & _ & _ & _ & Ha & _ & [Hsub [_ Hrole]]). simpl in *. split_and!.
  - inversion Hsub as [|s0 s' l0 l' (_ & Hn & Hs) Hrest Heq1 Heq2]; subst. inversion Hrest; subst.
    exists s'. split; [done|]. simpl in *. by rewrite <-Hn, <-Hs.
  - unfold managed. rewrite Ha. unfold annotation_of. rewrite lookup_insert_ne by done. by rewrite lookup_singleton_eq.
  - done.
  - unfold client_ns in Hns. simpl in Hns. by rewrite decide_False in Hns.
Qed.

Lemma binds_keyed rb : binds rb → sa_keyed rb.
Proof.
  intros (s & Hs & Hn & Hns). unfold sa_keyed, roleBindingByServiceAccount, sa_key. rewrite Hs, Hn, Hns.
  destruct (String.eqb_spec (Name (sa_meta obj)) ""), (String.eqb_spec (Namespace (sa_meta obj)) "");
    try done. by left.
Qed.

(** The bindings for the entries [don] have been made. *)
Record bound_to (don : list (string * PodSecurityPolicyTemplateProjectBinding)) (s s' : KState) : Prop := {
  bt_only : only_tbl (O:=RoleBinding) s s';
  bt_keep k (rb : RoleBinding) : tbl s !! k = Some rb → tbl s' !! k = Some rb;
  bt_made kv : kv ∈ don → ∃ k rb, tbl s' !! k = Some rb ∧ binds rb ∧ role rb = kv.1;
  bt_new k (rb : RoleBinding) : tbl s' !! k = Some rb → tbl (O:=RoleBinding) s !! k = None →
    ∃ kv, kv ∈ don ∧ k = (Namespace (sa_meta obj), getRoleBindingName obj kv.1) ∧ binds rb ∧ role rb = kv.1 }.

Lemma wp_bind_all l w :
  NoDup l.*1 → (∀ kv, kv ∈ l → tbl (O:=RoleBinding) (view w) !! (Namespace (sa_meta obj), getRoleBindingName obj kv.1) = None) →
  wp (for_each (λ kv : string * PodSecurityPolicyTemplateProjectBinding,
        do* wrap_err "error creating binding" (api_create "" (new_account_binding obj
              (getRoleBindingName obj (fst kv)) (psptpb_PodSecurityPolicyTemplateName (snd kv)) (fst kv))) in
        ret tt) l) (returns (λ _ w', bound_to l (view w) (view w'))) w.
Proof.
  intros Hnd Hfree. apply (wp_for_each_returns (λ don w', bound_to don (view w) (view w'))).
  { split; [apply only_tbl_refl|done|by intros kv ?%elem_of_nil|]. intros k rb H1 H2. congruence. }
  intros don kv rest w' -> [Ho Hk Hm Hn].
  rewrite fmap_app, fmap_cons in Hnd. apply NoDup_app in Hnd as (_ & Hdis & _).
  assert (tbl (O:=RoleBinding) (view w') !! (Namespace (sa_meta obj), getRoleBindingName obj kv.1) = None) as Hnone.
  { apply eq_None_not_Some. intros [rb Hrb]. destruct (Hn _ _ Hrb) as (kv' & Hin & Heq & _).
    - apply Hfree, elem_of_app. right. by left.
    - injection Heq as Heq%getRoleBindingName_inj. apply (Hdis kv'.1); [by apply list_elem_of_fmap_2|].
      rewrite <-Heq. by left. }
  apply wp_bind, wp_wrap_err, wp_create.
  - intros o' w1 Hst Hnew Hv _. apply wp_ret. destruct (new_account_binding_stored _ _ _ _ Hst) as (Hb & _ & Hr & _).
    pose proof (stored_as_key _ _ _ Hst (getRoleBindingName_ne kv.1)) as Hkey.
    unfold write_key, client_ns in Hkey. simpl in Hkey. rewrite decide_False in Hkey by done.
    unfold returns. rewrite Hv. split.
    + by apply only_tbl_put.
    + intros k rb Hrb%Hk. rewrite tbl_put, lookup_insert_ne; [done|]. intros <-. congruence.
    + intros kv' [Hin| ->%list_elem_of_singleton]%elem_of_app.
      * destruct (Hm kv' Hin) as (k & rb & Hrb & ?). exists k, rb. split; [|done].
        rewrite tbl_put, lookup_insert_ne; [done|]. intros <-. congruence.
      * exists (obj_key o'), o'. by rewrite tbl_put, lookup_insert_eq.
    + intros k rb Hrb Hk0. rewrite tbl_put in Hrb. apply lookup_insert_Some in Hrb as [[<- <-]|[_ Hrb]].
      * exists kv. rewrite elem_of_app. split_and!; [right; by left|done..].
      * destruct (Hn _ _ Hrb Hk0) as (kv' & ? & ?). exists kv'. rewrite elem_of_app. by auto.
  - intros e w1 _ _ Hno. exfalso. apply Hno; [done| |].
    + intros _. unfold write_key, client_ns. simpl. by rewrite decide_False.
    + intros Hempty. by apply getRoleBindingName_ne in Hempty.
Qed.

(** ** The handler *)

Definition live_binding (b : PodSecurityPolicyTemplateProjectBinding) : Prop :=
  DeletionTimestamp (psptpb_meta b) = None.

Lemma desired_templates_Some l r :
  is_Some (desired_templates l !! r) ↔
  ∃ b, b ∈ l ∧ live_binding b ∧ getClusterRoleName (psptpb_PodSecurityPolicyTemplateName b) = r.
Proof.
  unfold desired_templates, live_binding.
  assert (∀ m : gmap string PodSecurityPolicyTemplateProjectBinding, is_Some (foldl (λ m b, if bool_decide (is_Some (DeletionTimestamp (psptpb_meta b))) then m
    else <[getClusterRoleName (psptpb_PodSecurityPolicyTemplateName b) := b]> m) m l !! r) ↔ is_Some (m !! r) ∨
    ∃ b, b ∈ l ∧ DeletionTimestamp (psptpb_meta b) = None ∧
      getClusterRoleName (psptpb_PodSecurityPolicyTemplateName b) = r) as Hgen.
  { induction l as [|b l IH]; intros m; simpl.
    - split; [by left|]. by intros [?|(b & ?%elem_of_nil & _)].
    - rewrite IH. setoid_rewrite elem_of_cons. case_bool_decide as Hd.
      + assert (DeletionTimestamp (psptpb_meta b) ≠ None) by by apply not_eq_None_Some. naive_solver.
      + apply eq_None_not_Some in Hd. rewrite lookup_insert_is_Some'. naive_solver. }
  rewrite Hgen, lookup_empty. split; [by intros [[]|?]|by right].
Qed.

(** The templates the project of the account's namespace is bound to, as the cache
    shows them. *)
Definition template_of (project t : string) w : Prop :=
  ∃ k b, tbl (cached w) !! k = Some b ∧ psptpb_TargetProjectName b = project ∧ live_binding b ∧
    psptpb_PodSecurityPolicyTemplateName b = t.

Lemma elem_of_psptpbs project l w b :
  project ≠ "" → ByIndex psptpbByTargetProjectName project w = Ok l →
  b ∈ l ↔ tbl (cached w) !! obj_key b = Some b ∧ psptpb_TargetProjectName b = project.
Proof.
  intros Hp Hl. rewrite (elem_of_index _ _ _ _ _ Hl). unfold psptpbByTargetProjectName, non_empty.
  destruct (String.eqb_spec (psptpb_TargetProjectName b) "") as [He|He].
  - rewrite elem_of_nil, He. naive_solver.
  - rewrite list_elem_of_singleton. naive_solver.
Qed.

(** The roles the handler wants are those of the templates. *)
Lemma desired_of project pbs w r :
  project ≠ "" → ByIndex psptpbByTargetProjectName project w = Ok pbs →
  is_Some (desired_templates pbs !! r) ↔ ∃ t, template_of project t w ∧ r = getClusterRoleName t.
Proof.
  intros Hp Hpbs. pose proof (λ b, elem_of_psptpbs project pbs w b Hp Hpbs) as Hin.
  rewrite desired_templates_Some. split.
  - intros (b & [Hb Hbp]%Hin & Hl & <-). eexists. split; [|done]. by exists (obj_key b), b.
  - intros (t & (k & b & Hb & Hbp & Hl & <-) & ->). exists b. split_and!; [|done..]. apply Hin.
    by rewrite <-(cached_keyed w _ _ Hb).
Qed.

(** From the bindings [s] had, of which the handler saw [rbs], it has deleted some and is left with [m] to
    make, in the order [todo]. *)
Section made.
Context (D m : gmap string PodSecurityPolicyTemplateProjectBinding) (rbs : list RoleBinding).
Context (todo : list (string * PodSecurityPolicyTemplateProjectBinding)) (s s1 s2 : KState).
Hypothesis keyed : ∀ k (rb : RoleBinding), tbl s !! k = Some rb → k = obj_key rb.
Hypothesis all_shown : shown s rbs.
Hypothesis pruned : pruned_to D rbs m s s1.
Hypothesis to_make : todo ≡ₚ map_to_list m.

Lemma todo_unseen r b : (r, b) ∈ todo → r ∉ (λ rb, role rb) <$> rbs ∧ D !! r = Some b.
Proof using pruned to_make.
  intros Hkv%(range_elem _ _ _ _ to_make). assert (r ∉ (λ rb, role rb) <$> rbs) as Hun.
  { intros Hseen. by rewrite (pr_seen _ _ _ _ _ pruned _ Hseen) in Hkv. }
  by rewrite <-(pr_unseen _ _ _ _ _ pruned _ Hun).
Qed.

Lemma todo_free r b :
  (r, b) ∈ todo →
  ((∀ k rb, tbl s !! k = Some rb → sa_keyed rb → role rb ≠ r) →
     tbl (O:=RoleBinding) s !! (Namespace (sa_meta obj), getRoleBindingName obj r) = None) →
  tbl (O:=RoleBinding) s1 !! (Namespace (sa_meta obj), getRoleBindingName obj r) = None.
Proof using keyed all_shown pruned to_make.
  intros [Hun _]%todo_unseen Hfree.
  assert (tbl (O:=RoleBinding) s !! (Namespace (sa_meta obj), getRoleBindingName obj r) = None) as Hnone.
  { apply Hfree. intros k rb Hrb Hk Hr. apply Hun. rewrite <-Hr.
    apply (list_elem_of_fmap_2 (λ rb, role rb)), all_shown. by rewrite <-(keyed _ _ Hrb). }
  rewrite (pr_rest _ _ _ _ _ pruned); [done|]. intros (rb & Hk & Hrb)%list_elem_of_fmap.
  apply all_shown in Hrb as [Hrb _]. rewrite <-Hk in Hrb. congruence.
Qed.

Hypothesis bound : bound_to todo s1 s2.

Lemma wanted_bound r : is_Some (D !! r) →
  ∃ k rb, tbl s2 !! k = Some rb ∧ sa_keyed rb ∧ role rb = r ∧ (binds rb ∨ tbl s !! k = Some rb).
Proof using all_shown pruned to_make bound sa_ns sa_name.
  intros [b Hb]. destruct (decide (r ∈ (λ rb, role rb) <$> rbs)) as [Hseen|Hun].
  - destruct (pr_kept _ _ _ _ _ pruned _ Hseen) as (rb & Hrb & Hr & Hv); [by eexists|].
    apply all_shown in Hrb as [Hrb Hk].
    exists (obj_key rb), rb. split_and!; [by apply (bt_keep _ _ _ bound)|done|done|by right].
  - destruct (bt_made _ _ _ bound (r, b)) as (k & rb & ? & ? & ?);
      [|exists k, rb; split_and!; [done|by apply binds_keyed|done|by left]].
    apply (range_elem _ _ _ _ to_make). by rewrite (pr_unseen _ _ _ _ _ pruned _ Hun).
Qed.

Lemma managed_wanted k rb : tbl s2 !! k = Some rb → sa_keyed rb → managed rb → is_Some (D !! role rb).
Proof using keyed all_shown pruned to_make bound.
  intros Hrb Hk Hm. destruct (tbl (O:=RoleBinding) s1 !! k) as [rb1|] eqn:H1.
  - assert (rb1 = rb) as -> by (apply (bt_keep _ _ _ bound) in H1; congruence).
    destruct (decide (k ∈ obj_key <$> rbs)) as [Hkey|Hkey].
    + apply list_elem_of_fmap in Hkey as (x & -> & Hx).
      destruct (pr_done _ _ _ _ _ pruned x Hx) as [Hx1|[_ Hx1]]; [|congruence].
      assert (x = rb) as -> by congruence. exact (pr_clean _ _ _ _ _ pruned rb Hx Hm H1).
    + rewrite (pr_rest _ _ _ _ _ pruned) in H1 by done. destruct Hkey.
      rewrite (keyed _ _ H1) in H1 |- *. apply list_elem_of_fmap_2. by apply all_shown.
  - destruct (bt_new _ _ _ bound _ _ Hrb H1) as ([r b] & [_ HD]%todo_unseen & _ & _ & Hr). simpl in Hr.
    rewrite Hr, HD. by eexists.
Qed.

Lemma others_kept k rb : tbl s !! k = Some rb → ¬ sa_keyed rb ∨ ¬ managed rb → tbl s2 !! k = Some rb.
Proof using keyed all_shown pruned bound.
  intros Hrb Hcase. apply (bt_keep _ _ _ bound).
  destruct (decide (k ∈ obj_key <$> rbs)) as [Hkey|Hkey]; [|by rewrite (pr_rest _ _ _ _ _ pruned)].
  assert (rb ∈ rbs) as Hin.
  { apply list_elem_of_fmap in Hkey as (x & -> & Hx). pose proof Hx as [Hx' _]%all_shown. congruence. }
  pose proof Hin as [_ Hk]%all_shown.
  rewrite (keyed _ _ Hrb). destruct (pr_done _ _ _ _ _ pruned rb Hin) as [?|[? _]]; [done|naive_solver].
Qed.

End made.

(** C21: a service account of a namespace whose project is bound to templates ends up with
    a binding to the cluster role of each of them under its index key, and no binding made by the
    handlers to any other role; other bindings are not touched.  The binding
    has the account as its subject, unless it was there before and is that of another account with the same
    key, which the namespace and the name joined by a dash do not tell apart.  The API server
    answers, the cache of bindings is up to date, and the names of the bindings that
    are missing are free. *)
Theorem serviceaccount_sync_correct clusterName (ns : NamespaceObject) (cluster : Cluster) w :
  let project := annotation_of projectIDAnnotation (Annotations (ns_meta ns)) in
  in_sync_kind RoleBinding w →
  tbl (cached w) !! ("", Namespace (sa_meta obj)) = Some ns →
  tbl (cached w) !! ("", clusterName) = Some cluster →
  project ≠ "" → (∃ t, template_of project t w) →
  (∀ t, template_of project t w →
     (∀ k rb, tbl (view w) !! k = Some rb → sa_keyed rb → role rb ≠ getClusterRoleName t) →
     tbl (O:=RoleBinding) (view w) !! (Namespace (sa_meta obj), getRoleBindingName obj (getClusterRoleName t)) = None) →
  wp (serviceaccount_sync clusterName (Some obj)) (returns (λ _ w',
    (∀ t, template_of project t w → ∃ k rb, tbl (view w') !! k = Some rb ∧ sa_keyed rb ∧
       role rb = getClusterRoleName t ∧ (binds rb ∨ tbl (view w) !! k = Some rb)) ∧
    (∀ k rb, tbl (view w') !! k = Some rb → sa_keyed rb → managed rb →
       ∃ t, template_of project t w ∧ role rb = getClusterRoleName t) ∧
    (∀ k rb, tbl (view w) !! k = Some rb → ¬ sa_keyed rb ∨ ¬ managed rb → tbl (view w') !! k = Some rb) ∧
    only_tbl (O:=RoleBinding) (view w) (view w'))) w.
Proof.
  intros project Hsync Hns Hcl Hp (t0 & Ht0) Hfree. unfold serviceaccount_sync.
  apply wp_bind, wp_wrap_err, wp_reads.
  pose proof (lister_get_law (O:=NamespaceObject) "" (Namespace (sa_meta obj)) w) as Hg. rewrite Hns in Hg. rewrite Hg.
  unfold bind_post. fold project. destruct (String.eqb_spec project "") as [?|_]; [done|].
  apply wp_bind, wp_wrap_err, wp_reads.
  destruct (by_index_law psptpbByTargetProjectName project w) as (pbs & Hpbs & _). rewrite Hpbs. unfold bind_post.
  apply wp_bind, wp_wrap_err, wp_reads. fold sa_key.
  destruct (by_index_law roleBindingByServiceAccount sa_key w) as (rbs & Hrbs & _). rewrite Hrbs. unfold bind_post.
  apply wp_bind, wp_wrap_err, wp_reads.
  pose proof (lister_get_law (O:=Cluster) "" clusterName w) as Hgc. rewrite Hcl in Hgc. rewrite Hgc. unfold bind_post.
  assert (shown (view w) rbs) as Hshown.
  { split; [by eapply NoDup_index|]. intros rb. rewrite (elem_of_index _ _ _ _ _ Hrbs), Hsync. done. }
  pose proof (view_keyed (O:=RoleBinding) w) as Hkeyed.
  pose proof (λ r, desired_of project pbs w r Hp Hpbs) as HD.
  assert (is_Some (desired_templates pbs !! getClusterRoleName t0)) as [b0 Hb0] by (apply HD; eauto).
  assert (0 < size (desired_templates pbs)) as Hsize.
  { apply Nat.neq_0_lt_0. intros Hz%map_size_empty_inv. by rewrite Hz in Hb0. }
  eapply wp_bind_returns; [by apply wp_prune_all|]. intros m w1 Hpr.
  apply wp_bind, wp_range. intros todo Htodo. unfold bind_post.
  eapply wp_bind_returns; [apply wp_bind_all; [by eapply range_NoDup|]|].
  { intros [r b] Hkv. simpl. destruct (todo_unseen _ _ _ _ _ _ Hpr Htodo _ _ Hkv) as [_ Hr].
    apply (todo_free _ _ _ _ _ _ Hkeyed Hshown Hpr Htodo _ _ Hkv).
    destruct (proj1 (HD r)) as (t & Ht & ->); [by eexists|]. by apply Hfree. }
  intros [] w2 Hbt.
  assert (existsb (λ b, negb (bool_decide (is_Some (DeletionTimestamp (psptpb_meta b))))) pbs = true) as ->.
  { destruct (proj1 (desired_templates_Some pbs _) (mk_is_Some _ _ Hb0)) as (b & Hb & Hl & _).
    apply existsb_exists. exists b. split; [by apply list_elem_of_In|]. unfold live_binding in Hl. by rewrite Hl. }
  apply wp_ret. split_and!.
  - intros t Ht. apply (wanted_bound _ _ _ _ _ _ _ Hshown Hpr Htodo Hbt), HD. eauto.
  - intros k rb Hrb Hk Hm. apply HD.
    exact (managed_wanted _ _ _ _ _ _ _ Hkeyed Hshown Hpr Htodo Hbt _ _ Hrb Hk Hm).
  - exact (others_kept _ _ _ _ _ _ _ Hkeyed Hshown Hpr Hbt).
  - eapply only_tbl_trans; [apply Hpr|apply Hbt].
Qed.

End accounts.

(** ** Templates: their policies follow them *)

Section templates.
Context {W : Type} `{!Kube W}.
Context `{!Client W PodSecurityPolicy, !ClientLaws W PodSecurityPolicy}.
Context `{!Client W ClusterRole, !ClientLaws W ClusterRole}.
Context (obj : PodSecurityPolicyTemplate).
Implicit Types (w : W).

Notation version p := (annotation_of podSecurityPolicyTemplateVersionAnnotation (Annotations (psp_meta p))).

Definition made_from (p : PodSecurityPolicy) : Prop :=
  annotation_of podSecurityPolicyTemplateParentAnnotation (Annotations (psp_meta p)) = Name (pspt_meta obj).

Definition role_from (r : ClusterRole) : Prop :=
  annotation_of podSecurityPolicyTemplateParentAnnotation (Annotations (cr_meta r)) = Name (pspt_meta obj).

(** [p] is what becomes of the policy [p0] of the template. *)
Definition follows (p0 p : PodSecurityPolicy) : Prop :=
  version p = ResourceVersion (pspt_meta obj) ∧ made_from p ∧
  (version p0 = ResourceVersion (pspt_meta obj) → p = p0) ∧
  (version p0 ≠ ResourceVersion (pspt_meta obj) → psp_Spec p = pspt_Spec obj).

Hypothesis healthy : ClientHealthy W PodSecurityPolicy.
Hypothesis healthy_roles : ClientHealthy W ClusterRole.
Hypothesis obj_name : Name (pspt_meta obj) ≠ "".

Lemma elem_of_policies w l p :
  in_sync_kind PodSecurityPolicy w →
  ByIndex policyByPSPTParentAnnotation (Name (pspt_meta obj)) w = Ok l →
  p ∈ l ↔ tbl (view w) !! obj_key p = Some p ∧ made_from p.
Proof.
  intros Hs Hl. rewrite (elem_of_index _ _ _ _ _ Hl), Hs. unfold policyByPSPTParentAnnotation, non_empty, made_from.
  destruct (String.eqb_spec (annotation_of podSecurityPolicyTemplateParentAnnotation (Annotations (psp_meta p))) "") as [He|He].
  - rewrite elem_of_nil, He. naive_solver.
  - rewrite list_elem_of_singleton. naive_solver.
Qed.

Lemma elem_of_roles w l r :
  in_sync_kind ClusterRole w →
  ByIndex clusterRoleByPSPTName (Name (pspt_meta obj)) w = Ok l →
  r ∈ l ↔ tbl (view w) !! obj_key r = Some r ∧ role_from r.
Proof.
  intros Hs Hl. rewrite (elem_of_index _ _ _ _ _ Hl), Hs. unfold clusterRoleByPSPTName, non_empty, role_from.
  destruct (String.eqb_spec (annotation_of podSecurityPolicyTemplateParentAnnotation (Annotations (cr_meta r))) "") as [He|He].
  - rewrite elem_of_nil, He. naive_solver.
  - rewrite list_elem_of_singleton. naive_solver.
Qed.

(** The policies [don] have been brought up to date. *)
Record updated (don : list PodSecurityPolicy) (s s' : KState) : Prop := {
  up_changed : changed_at (O:=PodSecurityPolicy) (obj_key <$> don) s s';
  up_done p0 : p0 ∈ don → ∃ p, tbl s' !! obj_key p0 = Some p ∧ follows p0 p }.

Lemma updated_put don p0 p s s' :
  updated don s s' → obj_key p0 ∉ obj_key <$> don → obj_key p = obj_key p0 → follows p0 p →
  updated (don ++ [p0]) s (put_obj p s').
Proof.
  intros [Hch Hd] Hnew Hk Hf. split; [rewrite fmap_app|].
  - eapply changed_at_trans; [eapply changed_at_mono; [|done]; intros x ?; apply elem_of_app; by left|].
    apply changed_at_put. rewrite Hk. apply elem_of_app. right. by left.
  - intros q [Hq| ->%list_elem_of_singleton]%elem_of_app.
    + destruct (Hd q Hq) as (p' & Hp' & ?). exists p'. split; [|done]. rewrite tbl_put, lookup_insert_ne; [done|].
      rewrite Hk. intros Heq. apply Hnew. rewrite Heq. by apply list_elem_of_fmap_2.
    + exists p. by rewrite tbl_put, Hk, lookup_insert_eq.
Qed.

(** An update of a template reaches every policy made from it: each carries the
    version of the template, and those that were older its spec; other policies and
    other objects are not touched. *)
Theorem template_Updated_propagates w :
  in_sync_kind PodSecurityPolicy w →
  wp (template_Updated obj) (returns (λ _ w',
    (∀ k p0, tbl (view w) !! k = Some p0 → made_from p0 → ∃ p, tbl (view w') !! k = Some p ∧ follows p0 p) ∧
    (∀ k p0, tbl (view w) !! k = Some p0 → ¬ made_from p0 → tbl (view w') !! k = Some p0) ∧
    only_tbl (O:=PodSecurityPolicy) (view w) (view w'))) w.
Proof.
  intros Hs. unfold template_Updated. apply wp_bind, wp_wrap_err, wp_reads.
  destruct (by_index_law policyByPSPTParentAnnotation (Name (pspt_meta obj)) w) as (l & Hl & _). rewrite Hl.
  unfold bind_post. pose proof (λ p, elem_of_policies w l p Hs Hl) as Hin.
  pose proof (NoDup_index _ _ _ _ Hl) as Hnd.
  eapply wp_bind_returns; [apply (wp_for_each_returns (λ don w', updated don (view w) (view w')))|].
  { split; [apply changed_at_refl|by intros p ?%elem_of_nil]. }
  - intros don p rest w' -> Hup. destruct (proj1 (Hin p)) as [Hp Hm]; [apply elem_of_app; right; by left|].
    rewrite fmap_app, fmap_cons in Hnd. apply NoDup_app in Hnd as (_ & Hdis & _).
    assert (obj_key p ∉ obj_key <$> don) as Hnew by (intros Hx; apply (Hdis _ Hx); by left).
    assert (tbl (view w') !! obj_key p = Some p) as Hp'.
    { destruct (up_changed _ _ _ Hup) as [_ ->]; done. }
    destruct (String.eqb_spec (version p) (ResourceVersion (pspt_meta obj))) as [Hv|Hv].
    + apply wp_ret. assert (put_obj p (view w') = view w') as Hid.
      { unfold put_obj. rewrite insert_id by done. apply set_tbl_tbl. }
      unfold returns. rewrite <-Hid. apply updated_put; [done..|]. unfold follows. split_and!; done.
    + set (q := {| psp_meta := _; psp_Spec := _ |}).
      assert (write_key "" q = obj_key p) as Hk.
      { unfold write_key, client_ns, obj_key. simpl. case_decide as Hd; [by rewrite Hd|done]. }
      apply wp_bind, wp_wrap_err, wp_update.
      * intros o w1 (_ & _ & _ & _ & Ha & _ & Hspec) Hko _ Hv1 _. apply wp_ret. unfold returns. rewrite Hv1.
        simpl in Ha, Hspec. apply updated_put; [done..|by rewrite Hko, Hk|]. unfold follows, made_from, annotation_of in *.
        rewrite Ha, lookup_insert_eq, lookup_insert_ne by done. split_and!; [done..|]. intros _. by rewrite Hspec.
      * intros e w1 _ _ Hno. exfalso. apply Hno; [done| |].
        -- exact (view_named (O:=PodSecurityPolicy) w (obj_key p) (mk_is_Some _ _ Hp)).
        -- exists p. by rewrite Hk.
  - intros [] w' Hup. apply wp_ret. split_and!.
    + intros k p0 Hp Hm. rewrite (view_keyed w _ _ Hp) in Hp |- *. apply (up_done _ _ _ Hup), Hin. done.
    + intros k p0 Hp Hm. destruct (up_changed _ _ _ Hup) as [_ ->]; [done|].
      intros (x & -> & Hx)%list_elem_of_fmap. apply Hin in Hx as [Hx ?]. congruence.
    + apply Hup.
Qed.

(** The objects [don] of a kind have been deleted. *)
Definition gone {O} `{!Stored O} (don : list O) (s s' : KState) : Prop :=
  changed_at (O:=O) (obj_key <$> don) s s' ∧ ∀ o, o ∈ don → tbl (O:=O) s' !! obj_key o = None.

Lemma wp_delete_list {O} `{!Stored O, !StoredLaws O, !Client W O, !ClientLaws W O} msg (f : O → string * string) (l : list O) w :
  ClientHealthy W O → NoDup (obj_key <$> l) → (∀ o, o ∈ l → f o = obj_key o ∧ tbl (view w) !! obj_key o = Some o) →
  wp (for_each (λ o, wrap_err msg (api_delete (O:=O) (fst (f o)) (snd (f o)))) l)
    (returns (λ _ w', gone l (view w) (view w') ∧
       ∀ O' (S : Stored O') (L : StoredLaws O'), (∀ s s', only_tbl (O:=O) s s' → tbl (O:=O') s' = tbl (O:=O') s) →
         in_sync_kind O' w → in_sync_kind O' w')) w.
Proof.
  intros Hh Hnd Hl. apply (wp_for_each_returns (λ don w', gone don (view w) (view w') ∧
    ∀ O' (S : Stored O') (L : StoredLaws O'), (∀ s s', only_tbl (O:=O) s s' → tbl (O:=O') s' = tbl (O:=O') s) →
      in_sync_kind O' w → in_sync_kind O' w')).
  { split_and!; [split; [apply changed_at_refl|by intros ? ?%elem_of_nil]|done]. }
  intros don o rest w' -> ([Hch Hd] & Hsy). destruct (Hl o) as [Hf Ho]; [apply elem_of_app; right; by left|].
  rewrite fmap_app, fmap_cons in Hnd. apply NoDup_app in Hnd as (_ & Hdis & _).
  assert (obj_key o ∉ obj_key <$> don) as Hnew by (intros Hx; apply (Hdis _ Hx); by left).
  assert (tbl (view w') !! obj_key o = Some o) as Ho' by (destruct Hch as [_ ->]; done).
  rewrite Hf. apply wp_wrap_err, wp_delete.
  - intros w1 _ Hv Hcs. rewrite <-surjective_pairing in Hv. unfold returns. rewrite Hv. split_and!; [split|].
    + rewrite fmap_app. eapply changed_at_trans; [eapply changed_at_mono; [|done]; intros x ?; apply elem_of_app; by left|].
      apply changed_at_del, elem_of_app. right. by left.
    + intros x Hx. rewrite tbl_del. destruct (decide (obj_key x = obj_key o)) as [->|Hne]; [apply lookup_delete_eq|].
      rewrite lookup_delete_ne by done. apply elem_of_app in Hx as [?|?%list_elem_of_singleton]; [by apply Hd|congruence].
    + intros O' S L Hoth Hs. apply (sync_undisturbed (A:=O) w' w1 Hoth); [by apply Hsy| |done].
      rewrite Hv. apply only_tbl_del, only_tbl_refl.
  - intros e w1 _ _ _ _ Hno. exfalso. apply Hno; [done|]. rewrite <-surjective_pairing, Ho'. by exists o.
Qed.

(** Removing a template removes the policies and the cluster roles made from it. *)
Theorem template_Remove_correct w :
  in_sync_kind PodSecurityPolicy w → in_sync_kind ClusterRole w →
  (∀ k p, tbl (O:=PodSecurityPolicy) (view w) !! k = Some p → k.1 = "") →
  wp (template_Remove obj) (returns (λ _ w',
    (∀ k p, tbl (view w') !! k = Some p → ¬ made_from p) ∧
    (∀ k r, tbl (view w') !! k = Some r → ¬ role_from r) ∧
    (∀ k p, tbl (view w) !! k = Some p → ¬ made_from p → tbl (view w') !! k = Some p) ∧
    (∀ k r, tbl (view w) !! k = Some r → ¬ role_from r → tbl (view w') !! k = Some r))) w.
Proof.
  intros Hs Hsr Hscope. unfold template_Remove. apply wp_bind, wp_wrap_err, wp_reads.
  destruct (by_index_law policyByPSPTParentAnnotation (Name (pspt_meta obj)) w) as (l & Hl & _). rewrite Hl.
  unfold bind_post. pose proof (λ p, elem_of_policies w l p Hs Hl) as Hin.
  eapply wp_bind_returns.
  { apply (wp_delete_list (O:=PodSecurityPolicy) "error deleting policy" (λ p, ("", Name (psp_meta p))) l w healthy).
    - by eapply NoDup_index.
    - intros p [Hp _]%Hin. split; [|done]. apply Hscope in Hp. unfold obj_key in *. simpl in *. by rewrite Hp. }
  intros [] w1 ([[Hot Hch] Hgone] & Hsy).
  assert (in_sync_kind ClusterRole w1) as Hs1 by (apply Hsy; [apply _|other_kind|done]).
  assert (tbl (O:=ClusterRole) (view w1) = tbl (view w)) as Hr1 by (unfold only_tbl in Hot; by rewrite Hot).
  apply wp_bind, wp_wrap_err, wp_reads.
  destruct (by_index_law clusterRoleByPSPTName (Name (pspt_meta obj)) w1) as (rs & Hrs & _). rewrite Hrs.
  unfold bind_post. pose proof (λ r, elem_of_roles w1 rs r Hs1 Hrs) as Hinr.
  eapply wp_bind_returns.
  { apply (wp_delete_list (O:=ClusterRole) "error deleting cluster role" (λ r, (Namespace (cr_meta r), Name (cr_meta r))) rs w1 healthy_roles).
    - by eapply NoDup_index.
    - intros r [Hr _]%Hinr. done. }
  intros [] w2 ([[Hot2 Hch2] Hgone2] & _). apply wp_ret.
  assert (tbl (O:=PodSecurityPolicy) (view w2) = tbl (view w1)) as Hp2 by (unfold only_tbl in Hot2; by rewrite Hot2).
  split_and!.
  - intros k p Hp Hm. rewrite Hp2 in Hp. destruct (decide (k ∈ obj_key <$> l)) as [(x & -> & Hx)%list_elem_of_fmap|Hk].
    + rewrite (Hgone x Hx) in Hp. done.
    + rewrite Hch in Hp by done. apply Hk. rewrite (view_keyed w _ _ Hp) in Hp |- *. by apply list_elem_of_fmap_2, Hin.
  - intros k r Hr Hm. destruct (decide (k ∈ obj_key <$> rs)) as [(x & -> & Hx)%list_elem_of_fmap|Hk].
    + rewrite (Hgone2 x Hx) in Hr. done.
    + rewrite Hch2 in Hr by done. apply Hk. rewrite (view_keyed w1 _ _ Hr) in Hr |- *. by apply list_elem_of_fmap_2, Hinr.
  - intros k p Hp Hm. rewrite Hp2, Hch; [done|]. intros (x & -> & Hx)%list_elem_of_fmap. apply Hin in Hx as [Hx ?]. congruence.
  - intros k r Hr Hm. rewrite Hch2, Hr1; [done|]. intros (x & -> & Hx)%list_elem_of_fmap. apply Hinr in Hx as [Hx ?].
    rewrite Hr1 in Hx. congruence.
Qed.

End templates.

(** ** Examples *)

Definition demo_account (ns name : string) : ServiceAccount :=
  {| sa_meta := {| Name := name; GenerateName := ""; Namespace := ns; UID := "u"; ResourceVersion := "1";
                   Labels := ∅; Annotations := ∅; OwnerReferences := []; CreationTimestamp := 0;
                   DeletionTimestamp := None |} |}.

Definition demo_psp_ns (name project : string) : NamespaceObject :=
  {| ns_meta := named_meta name ∅ {[ projectIDAnnotation := project ]} []; ns_Phase := "Active" |}.

Definition demo_psp_cluster (template : string) : Cluster :=
  {| cluster_meta := named_meta "c-1" ∅ ∅ []; cluster_type := {| Kind := "Cluster"; APIVersion := "v3" |};
     cluster_Spec := {| cs_Internal := false; cs_RancherKubernetesEngineConfig := false;
                       cs_DefaultPodSecurityPolicyTemplateName := template |};
     cluster_Status := no_status; cluster_Conditions := [] |}.

Definition demo_psptpb (name template project : string) : PodSecurityPolicyTemplateProjectBinding :=
  {| psptpb_meta := named_meta name ∅ ∅ []; psptpb_PodSecurityPolicyTemplateName := template;
     psptpb_TargetProjectName := project |}.

Definition demo_table {O} `{!Stored O} (l : list O) (s : KState) : KState := foldr put_obj s l.

(** A cluster with a default template, and an account that is bound to it. *)
Definition demo_default : KState :=
  demo_table [demo_psp_ns "web" "c-1:p-1"] (demo_table [demo_psp_cluster "restricted"]
    (demo_table [new_account_binding (demo_account "web" "default")
       (getDefaultRoleBindingName (demo_account "web" "default") (getClusterRoleName "restricted"))
       "restricted" (getClusterRoleName "restricted")] empty_state)).

(** The handler takes the binding to the default template away from an account that
    has it: the annotation that tells the project is looked for on the role binding,
    which never has it, so the binding is deleted, and the cache that still shows it
    keeps it from being made again. *)
Theorem default_binding_lost :
  let w := synced demo_default in
  let r := serviceaccount_sync "c-1" (Some (demo_account "web" "default")) w in
  size (tbl (O:=RoleBinding) (view w)) = 1 ∧ r.1 = Ok tt ∧ tbl (O:=RoleBinding) (view r.2) = ∅.
Proof. vm_compute. split_and!; reflexivity. Qed.

(** Two accounts with the same index key, each bound to the template of its project. *)
Definition demo_collision : KState :=
  demo_table [demo_psp_ns "a" "c-1:p-1"; demo_psp_ns "a-b" "c-1:p-2"] (demo_table [demo_psp_cluster ""]
    (demo_table [demo_psptpb "b1" "t1" "c-1:p-1"; demo_psptpb "b2" "t2" "c-1:p-2"]
    (demo_table [new_account_binding (demo_account "a-b" "c")
       (getRoleBindingName (demo_account "a-b" "c") (getClusterRoleName "t2")) "t2" (getClusterRoleName "t2")]
    empty_state))).

(** The handler of the account [b-c] of the namespace [a] deletes the binding of the
    account [c] of the namespace [a-b]: both are indexed under [a-b-c]. *)
Theorem colliding_accounts :
  let w := synced demo_collision in
  let r := serviceaccount_sync "c-1" (Some (demo_account "a" "b-c")) w in
  let other := ("a-b", getRoleBindingName (demo_account "a-b" "c") (getClusterRoleName "t2")) in
  is_Some (tbl (O:=RoleBinding) (view w) !! other) ∧ r.1 = Ok tt ∧ tbl (O:=RoleBinding) (view r.2) !! other = None.
Proof. vm_compute. split_and!; [by eexists|reflexivity|reflexivity]. Qed.

(** An account whose project is bound to the template t1. *)
Definition demo_psp_bound : KState :=
  demo_table [demo_psp_ns "web" "c-1:p-1"] (demo_table [demo_psp_cluster "restricted"]
    (demo_table [demo_psptpb "b1" "t1" "c-1:p-1"] empty_state)).

Lemma serviceaccount_sync_correct_witness :
  let w' := (serviceaccount_sync "c-1" (Some (demo_account "web" "default")) (synced demo_psp_bound)).2 in
  ∃ k rb, tbl (view w') !! k = Some rb ∧ binds (demo_account "web" "default") rb ∧
    rr_Name (rb_RoleRef rb) = "t1-clusterrole".
Proof.
  intros w'.
  assert (∀ k (rb : RoleBinding), tbl (view (synced demo_psp_bound)) !! k = Some rb → False) as Hnone.
  { intros k rb Hrb. change (tbl (O:=RoleBinding) (view (synced demo_psp_bound))) with (∅ : gmap nsname RoleBinding) in Hrb.
    by rewrite lookup_empty in Hrb. }
  pose proof (serviceaccount_sync_correct (demo_account "web" "default") sim_client_healthy ltac:(discriminate)
    ltac:(discriminate) "c-1" (demo_psp_ns "web" "c-1:p-1") (demo_psp_cluster "restricted") (synced demo_psp_bound)
    eq_refl eq_refl eq_refl ltac:(discriminate)) as Hw.
  assert (template_of "c-1:p-1" "t1" (synced demo_psp_bound)) as Ht.
  { exists ("", "b1"), (demo_psptpb "b1" "t1" "c-1:p-1"). split_and!; reflexivity. }
  specialize (Hw (ex_intro _ "t1" Ht)). unfold wp in Hw.
  change ((serviceaccount_sync "c-1" (Some (demo_account "web" "default")) (synced demo_psp_bound)).2) with w' in Hw.
  destruct (serviceaccount_sync "c-1" (Some (demo_account "web" "default")) (synced demo_psp_bound)).1 as [u| | |].
  all: try (destruct Hw; intros; apply eq_None_not_Some; intros [rb Hrb]; exact (Hnone _ _ Hrb)).
  destruct Hw as [Hw _]; [intros; apply eq_None_not_Some; intros [rb Hrb]; exact (Hnone _ _ Hrb)|].
  destruct (Hw "t1" Ht) as (k & rb & Hrb & _ & Hr & [Hb|Hold]); [|destruct (Hnone k rb Hold)].
  exists k, rb. split; [exact Hrb|]. split; [exact Hb|exact Hr].
Defined.

Definition demo_psp_spec (privileged : bool) : PodSecurityPolicySpec :=
  let any := {| so_Rule := "RunAsAny"; so_Ranges := [] |} in
  {| psps_Privileged := privileged; psps_DefaultAddCapabilities := []; psps_RequiredDropCapabilities := [];
     psps_AllowedCapabilities := []; psps_Volumes := ["*"]; psps_HostNetwork := false; psps_HostPorts := [];
     psps_HostPID := false; psps_HostIPC := false; psps_SELinux := any; psps_RunAsUser := any;
     psps_SupplementalGroups := any; psps_FSGroup := any; psps_ReadOnlyRootFilesystem := false;
     psps_DefaultAllowPrivilegeEscalation := None; psps_AllowPrivilegeEscalation := None;
     psps_AllowedHostPaths := [] |}.

Definition demo_psp_template (version : string) (privileged : bool) : PodSecurityPolicyTemplate :=
  {| pspt_meta := {| Name := "t1"; GenerateName := ""; Namespace := ""; UID := "u"; ResourceVersion := version;
                     Labels := ∅; Annotations := ∅; OwnerReferences := []; CreationTimestamp := 0;
                     DeletionTimestamp := None |};
     pspt_Description := ""; pspt_Spec := demo_psp_spec privileged |}.

(** A policy made from an older version of the template, which allowed privileged pods. *)
Definition demo_policies : KState :=
  demo_table [new_policy (demo_psp_template "1" true) "t1-psp"] empty_state.

Lemma template_Updated_propagates_witness :
  let w' := (template_Updated (demo_psp_template "2" false) (synced demo_policies)).2 in
  ∃ k p, tbl (O:=PodSecurityPolicy) (view w') !! k = Some p ∧ psps_Privileged (psp_Spec p) = false.
Proof.
  intros w'.
  pose proof (template_Updated_propagates (demo_psp_template "2" false) sim_client_healthy ltac:(discriminate)
    (synced demo_policies) eq_refl) as Hw.
  unfold wp in Hw.
  change ((template_Updated (demo_psp_template "2" false) (synced demo_policies)).2) with w' in Hw.
  destruct (template_Updated (demo_psp_template "2" false) (synced demo_policies)).1 as [u| | |]; [|destruct Hw..].
  destruct Hw as [Hw _].
  destruct (Hw ("", "t1-psp") (new_policy (demo_psp_template "1" true) "t1-psp") eq_refl eq_refl)
    as (p & Hp & _ & _ & _ & Hs).
  exists ("", "t1-psp"), p. split; [exact Hp|]. rewrite Hs; [reflexivity|discriminate].
Defined.

End PodSecurity.
