(* ===== verification/UserRbac.v ===== *)
(** * RBAC of a user cluster

    [src/pkg/controllers/user/rbac]: [handler_base.go] (roles and bindings made
    from role template bindings), [crtb_handler.go], [roletemplate_handler.go],
    [globalrole_handler.go] and [cluster_handler.go].

    The handlers talk to two clusters.  Every kind belongs to one of them only
    (cluster roles, bindings and namespaces to the user cluster, the others to
    the management cluster), so that one [KState] holds both. *)

From stdpp Require Import base gmap list strings.
From S2P Require Import Prelude.
From S2P Require Import GoLib.
From S2P Require Import KubeTypes.
From S2P Require Import KubeObjects.
From S2P Require Import Kube.
From S2P Require Import Cond.
From S2P Require Import MgmtManager.

Module UserRbac.

Notation rtbOwnerLabel := "authz.cluster.cattle.io/rtb-owner" (only parsing).
Notation projectIDAnnotation := "field.cattle.io/projectId" (only parsing).

(** ** Index functions *)

Definition prtbByProjectName (prtb : ProjectRoleTemplateBinding) : list string :=
  [prtb_ProjectName prtb].

Definition getPRTBProjectAndSubjectKey (prtb : ProjectRoleTemplateBinding) : string :=
  let name :=
    if negb (String.eqb (prtb_UserName prtb) "") then prtb_UserName prtb
    else if negb (String.eqb (prtb_UserPrincipalName prtb) "") then prtb_UserPrincipalName prtb
    else if negb (String.eqb (prtb_GroupName prtb) "") then prtb_GroupName prtb
    else prtb_GroupPrincipalName prtb in
  prtb_ProjectName prtb +:+ "." +:+ name.

Definition prtbByProjectAndSubject (prtb : ProjectRoleTemplateBinding) : list string :=
  [getPRTBProjectAndSubjectKey prtb].

Definition prtbByUID (prtb : ProjectRoleTemplateBinding) : list string := [UID (prtb_meta prtb)].

Definition nsByProjectID (ns : NamespaceObject) : list string :=
  match Annotations (ns_meta ns) !! projectIDAnnotation with Some id => [id] | None => [] end.

Definition rbRoleSubjectKey (roleName : string) (subject : Subject) : string :=
  roleName +:+ "." +:+ s_Kind subject +:+ "." +:+ s_Name subject.

Definition crbRoleSubjectKeys (roleName : string) (subjects : list Subject) : list string :=
  map (rbRoleSubjectKey roleName) subjects.

Definition crbByRoleAndSubject (crb : ClusterRoleBinding) : list string :=
  crbRoleSubjectKeys (rr_Name (crb_RoleRef crb)) (crb_Subjects crb).

(** The two cases of the type switch of [rtbByClusterAndRoleTemplateName]. *)
Definition prtbByClusterAndRoleTemplateName (rtb : ProjectRoleTemplateBinding) : list string :=
  if negb (String.eqb (prtb_RoleTemplateName rtb) "") && negb (String.eqb (prtb_ProjectName rtb) "")
  then match SplitN2 (prtb_ProjectName rtb) ":" with
       | [p; _] => [p +:+ "-" +:+ prtb_RoleTemplateName rtb]
       | _ => []
       end
  else [].

Definition crtbByClusterAndRoleTemplateName (rtb : ClusterRoleTemplateBinding) : list string :=
  if negb (String.eqb (crtb_RoleTemplateName rtb) "") && negb (String.eqb (crtb_ClusterName rtb) "")
  then [crtb_ClusterName rtb +:+ "-" +:+ crtb_RoleTemplateName rtb] else [].

Definition grbByRole (grb : GlobalRoleBinding) : list string := [grb_GlobalRoleName grb].

Definition grbByUserAndRole (grb : GlobalRoleBinding) : list string :=
  [grb_UserName grb +:+ "-" +:+ grb_GlobalRoleName grb].

(** ** Subjects and bindings *)

(** A copy of the function of the management plane. *)
Definition buildSubjectFromRTB (binding : rtb) : outcome Subject :=
  MgmtManager.buildSubjectFromRTB binding.

(** The key, the metadata, the subjects and the role of a binding. *)
Definition bindingParts (roleName parentUID : string) (subject : Subject) :
    string * ObjectMeta * list Subject * RoleRef :=
  (rbRoleSubjectKey roleName subject,
   generate_meta "clusterrolebinding-" {[ rtbOwnerLabel := parentUID ]} ∅,
   [subject],
   {| rr_APIGroup := ""; rr_Kind := "ClusterRole"; rr_Name := roleName |}).

(** The function values [create] and [convert] that [ensureBindings] is given. *)
Class Binding (O : Type) := {
  create : ObjectMeta → list Subject → RoleRef → O;
  convert : O → string * string * list Subject }.

#[export] Instance ClusterRoleBinding_binding : Binding ClusterRoleBinding := {
  create m s r := {| crb_meta := m; crb_Subjects := s; crb_RoleRef := r |};
  convert crb := (Name (crb_meta crb), rr_Name (crb_RoleRef crb), crb_Subjects crb) }.

#[export] Instance RoleBinding_binding : Binding RoleBinding := {
  create m s r := {| rb_meta := m; rb_Subjects := s; rb_RoleRef := r |};
  convert rb := (Name (rb_meta rb), rr_Name (rb_RoleRef rb), rb_Subjects rb) }.

(** ** Role templates *)

Definition lower_rule (r : PolicyRule) : PolicyRule :=
  {| Verbs := map ToLower (Verbs r); APIGroups := APIGroups r;
     Resources := map ToLower (Resources r); ResourceNames := ResourceNames r;
     NonResourceURLs := NonResourceURLs r |}.

Definition with_rt_Rules (rules : list PolicyRule) (rt : RoleTemplate) : RoleTemplate :=
  {| rt_meta := rt_meta rt; rt_DisplayName := rt_DisplayName rt; rt_Description := rt_Description rt;
     rt_Rules := rules; rt_Builtin := rt_Builtin rt; rt_External := rt_External rt;
     rt_Hidden := rt_Hidden rt; rt_Locked := rt_Locked rt; rt_Context := rt_Context rt;
     rt_RoleTemplateNames := rt_RoleTemplateNames rt |}.

(** The loop that cleans the roles replaces every entry by a lowered copy. *)
Definition clean_role (rt : RoleTemplate) : RoleTemplate :=
  if rt_External rt then rt else with_rt_Rules (map lower_rule (rt_Rules rt)) rt.

Section manager.
Context {W : Type} `{!GoRuntime W}.
Context `{!Client W ClusterRole, !Client W ClusterRoleBinding, !Client W RoleBinding,
          !Client W RoleTemplate}.

(** [reflect.DeepEqual] also tells nil slices from empty ones; lists do not, so that the code may send
    an update where there is none here. *)
Definition ensureRole (rt : RoleTemplate) : M W unit :=
  let name := Name (rt_meta rt) in
  if rt_External rt then ret tt else
  let* found := reads (λ w, Ok (or_nil (lister_Get (O:=ClusterRole) "" name w))) in
  match found with
  | Some role =>
    if decide (cr_Rules role = rt_Rules rt) then ret tt
    else do* wrap_err ("couldn't update role " +:+ name)
               (api_update "" {| cr_meta := cr_meta role; cr_Rules := rt_Rules rt |}) in
         ret tt
  | None =>
    do* wrap_err ("couldn't create role " +:+ name)
          (api_create "" {| cr_meta := named_meta name ∅ ∅ []; cr_Rules := rt_Rules rt |}) in
    ret tt
  end.

Definition ensureRoles (rts : gmap string RoleTemplate) : M W unit :=
  let* kvs := range rts in
  for_each (λ kv : string * RoleTemplate, ensureRole kv.2) kvs.

(** [gatherRolesRecurse] and [gatherRoles] call each other: the inner call of
    [gatherRoles] is written out.  The fuel bounds the depth of the recursion. *)
Fixpoint gatherRolesRecurse (fuel : nat) (rt : RoleTemplate)
    (roleTemplates : gmap string RoleTemplate) : M W (gmap string RoleTemplate) :=
  match fuel with
  | O => out_of_fuel
  | S fuel =>
    for_fold (λ roleTemplates rtName,
      let* subRT := wrap_err ("couldn't get RoleTemplate " +:+ rtName)
                      (reads (lister_Get "" rtName)) in
      wrap_err ("couldn't gather RoleTemplate " +:+ rtName)
        (let* roleTemplates := gatherRolesRecurse fuel subRT roleTemplates in
         ret (clean_role <$> roleTemplates)))
      (<[Name (rt_meta rt) := rt]> roleTemplates) (rt_RoleTemplateNames rt)
  end.

Definition gatherRoles (fuel : nat) (rt : RoleTemplate)
    (roleTemplates : gmap string RoleTemplate) : M W (gmap string RoleTemplate) :=
  let* roleTemplates := gatherRolesRecurse fuel rt roleTemplates in
  ret (clean_role <$> roleTemplates).

(** *** Bindings *)

(** The bindings to create, by key, when [kvs] are the roles gathered. *)
Definition desired_bindings {O} `{!Binding O} (uid : string) (subject : Subject)
    (kvs : list (string * RoleTemplate)) : gmap string O :=
  foldl (λ desiredRBs kv,
    let '(rbKey, objectMeta, subjects, roleRef) := bindingParts kv.1 uid subject in
    <[rbKey := create objectMeta subjects roleRef]> desiredRBs) ∅ kvs.

(** The loop over the current bindings: what is left to create, what is to be
    deleted, and the names already processed. *)
Definition sort_step {O} `{!Binding O} (acc : gmap string O * gset string * gset string) (rb : O) :
    gmap string O * gset string * gset string :=
  let '(desiredRBs, rbsToDelete, processed) := acc in
  let '(rbName, roleName, subjects) := convert rb in
  if decide (rbName ∈ processed) then acc else
  let processed := {[rbName]} ∪ processed in
  match subjects with
  | [subject0] =>
    let crbKey := rbRoleSubjectKey roleName subject0 in
    match desiredRBs !! crbKey with
    | Some _ => (delete crbKey desiredRBs, rbsToDelete, processed)
    | None => (desiredRBs, {[rbName]} ∪ rbsToDelete, processed)
    end
  | _ => (desiredRBs, {[rbName]} ∪ rbsToDelete, processed)
  end.

(** [err != nil && !apierrors.IsNotFound(err)]. *)
Definition unless_not_found (m : M W unit) : M W unit :=
  let* r := attempt m in
  match r with
  | inl e => if IsNotFound e then ret tt else throw e
  | inr _ => ret tt
  end.

Definition ensureBindings {O} `{!Binding O, !Stored O, !Client W O} (ns : string)
    (roles : gmap string RoleTemplate) (binding : rtb) (bindingMeta : ObjectMeta) : M W unit :=
  let* subject := reads (λ _, buildSubjectFromRTB binding) in
  let* kvs := range roles in
  let desiredRBs := desired_bindings (UID bindingMeta) subject kvs in
  let* currentRBs := reads (lister_List ns {[ rtbOwnerLabel := UID bindingMeta ]}) in
  let '(desiredRBs, rbsToDelete, _) := foldl sort_step (desiredRBs, ∅, ∅) (currentRBs : list O) in
  let* desired := range desiredRBs in
  do* for_each (λ kv : string * O, do* api_create ns kv.2 in ret tt) desired in
  let* names := range_keys rbsToDelete in
  for_each (λ name, unless_not_found (api_delete (O:=O) ns name)) names.

Definition ensureClusterBindings (roles : gmap string RoleTemplate)
    (binding : ClusterRoleTemplateBinding) : M W unit :=
  ensureBindings (O:=ClusterRoleBinding) "" roles (rtb_cluster binding) (crtb_meta binding).

Definition ensureProjectRoleBindings (ns : string) (roles : gmap string RoleTemplate)
    (binding : ProjectRoleTemplateBinding) : M W unit :=
  ensureBindings (O:=RoleBinding) ns roles (rtb_project binding) (prtb_meta binding).

(** ** Cluster role template bindings *)

Definition syncCRTB (fuel : nat) (binding : ClusterRoleTemplateBinding) : M W unit :=
  if String.eqb (crtb_RoleTemplateName binding) "" then ret tt else
  if String.eqb (crtb_UserName binding) "" && String.eqb (crtb_GroupPrincipalName binding) "" &&
     String.eqb (crtb_GroupName binding) "" then ret tt else
  let* rt := wrap_err ("couldn't get role template " +:+ crtb_RoleTemplateName binding)
               (reads (lister_Get "" (crtb_RoleTemplateName binding))) in
  let* roles := gatherRoles fuel rt ∅ in
  do* wrap_err "couldn't ensure roles" (ensureRoles roles) in
  wrap_err "couldn't ensure cluster bindings" (ensureClusterBindings roles binding).

Definition ensureCRTBDelete (binding : ClusterRoleTemplateBinding) : M W unit :=
  let* rbs := wrap_err "couldn't list clusterrolebindings with selector"
                (reads (lister_List "" {[ rtbOwnerLabel := UID (crtb_meta binding) ]})) in
  for_each (λ rb : ClusterRoleBinding,
    let* r := attempt (api_delete (O:=ClusterRoleBinding) "" (Name (crb_meta rb))) in
    match r with
    | inl e => if IsNotFound e then ret tt
               else throw (Wrapped ("error deleting clusterrolebinding " +:+ Name (crb_meta rb)) e)
    | inr _ => ret tt
    end) rbs.

(** [Create] and [Updated] are the same. *)
Definition crtb_Create (fuel : nat) (obj : ClusterRoleTemplateBinding) :
    M W ClusterRoleTemplateBinding := do* syncCRTB fuel obj in ret obj.

Definition crtb_Updated (fuel : nat) (obj : ClusterRoleTemplateBinding) :
    M W ClusterRoleTemplateBinding := do* syncCRTB fuel obj in ret obj.

Definition crtb_Remove (obj : ClusterRoleTemplateBinding) : M W ClusterRoleTemplateBinding :=
  do* ensureCRTBDelete obj in ret obj.

(** ** Access to resources that have no namespace *)

Definition globalResourcesNeededInProjects : list string := ["persistentvolumes"; "storageclasses"].

Definition checkForGlobalResourceRules (role : RoleTemplate) (resource : string) :
    M W (gset string) :=
  let* rules :=
    if rt_External role then
      let* r := attempt (reads (lister_Get (O:=ClusterRole) "" (Name (rt_meta role)))) in
      match r with
      | inl e => if IsNotFound e then ret [] else throw e
      | inr externalRole => ret (cr_Rules externalRole)
      end
    else ret (rt_Rules role) in
  ret (verbs_for resource rules).

Definition buildRule (resource : string) (verbs : gset string) : M W PolicyRule :=
  let* vs := range_keys verbs in
  ret {| Verbs := vs; APIGroups := ["*"]; Resources := [resource];
         ResourceNames := []; NonResourceURLs := [] |}.

Definition reconcileRoleForProjectAccessToGlobalResource (resource : string) (rt : RoleTemplate)
    (newVerbs : gset string) : M W string :=
  let roleName := Name (rt_meta rt) +:+ "-promoted" in
  let* found := reads (λ w, Ok (or_nil (lister_Get (O:=ClusterRole) "" roleName w))) in
  match found with
  | Some role =>
    if decide (current_verbs resource (cr_Rules role) = newVerbs) then ret roleName else
    let* rule := buildRule resource newVerbs in
    do* api_update "" {| cr_meta := cr_meta role;
                         cr_Rules := replace_rules resource rule (cr_Rules role) |} in
    ret roleName
  | None =>
    let* rule := buildRule resource newVerbs in
    do* wrap_err ("couldn't create role " +:+ roleName)
          (api_create "" {| cr_meta := named_meta roleName ∅ ∅ []; cr_Rules := [rule] |}) in
    ret roleName
  end.

(** The loops over the templates and the resources, with the names of the roles
    that were reconciled. *)
Definition promote (kvs : list (string * RoleTemplate)) : M W (list string) :=
  for_fold (λ roles (kv : string * RoleTemplate),
    for_fold (λ roles resource,
      let* verbs := checkForGlobalResourceRules kv.2 resource in
      if decide (verbs = ∅) then ret roles
      else let* roleName := reconcileRoleForProjectAccessToGlobalResource resource kv.2 verbs in
           ret (roles ++ [roleName])) roles globalResourcesNeededInProjects) [] kvs.

(** ** Role templates of a cluster *)

Definition syncRT (fuel : nat) (template : RoleTemplate) (usedInProjects : bool) : M W unit :=
  let* roles := gatherRoles fuel template ∅ in
  do* wrap_err "couldn't ensure roles" (ensureRoles roles) in
  if usedInProjects then
    let* kvs := range roles in
    for_each (λ kv : string * RoleTemplate,
      for_each (λ resource,
        let* verbs := checkForGlobalResourceRules kv.2 resource in
        if decide (verbs = ∅) then ret tt
        else do* wrap_err "couldn't reconcile role for project access to global resources"
                   (reconcileRoleForProjectAccessToGlobalResource resource kv.2 verbs) in
             ret tt) globalResourcesNeededInProjects) kvs
  else ret tt.

Definition ensureRTDelete (template : RoleTemplate) : M W unit :=
  let* r := attempt (api_delete (O:=ClusterRole) "" (Name (rt_meta template))) in
  match r with
  | inl e => if IsNotFound e then ret tt
             else throw (Wrapped ("error deleting clusterrole " +:+ Name (rt_meta template)) e)
  | inr _ => ret tt
  end.

(** [clusterName] is the name of the cluster the handlers are for. *)
Definition rt_Updated `{!Client W ProjectRoleTemplateBinding, !Client W ClusterRoleTemplateBinding}
    (fuel : nat) (clusterName : string) (obj : RoleTemplate) : M W unit :=
  let key := clusterName +:+ "-" +:+ Name (rt_meta obj) in
  let* prtbs := reads (ByIndex prtbByClusterAndRoleTemplateName key) in
  let hasPRTBs := negb (Nat.eqb (length prtbs) 0) in
  let* hasRTBs := if hasPRTBs then ret true else
    let* crtbs := reads (ByIndex crtbByClusterAndRoleTemplateName key) in
    ret (negb (Nat.eqb (length crtbs) 0)) in
  if hasRTBs then syncRT fuel obj hasPRTBs else ret tt.

Definition rt_Remove (obj : RoleTemplate) : M W RoleTemplate :=
  do* ensureRTDelete obj in ret obj.

End manager.

(** ** Global administrators *)

Definition grbCRBName (grb : GlobalRoleBinding) : string := "globaladmin-" +:+ grb_UserName grb.

Notation ClusterConditionGlobalAdminsSynced := "GlobalAdminsSynced" (only parsing).

Section admins.
Context {W : Type} `{!GoRuntime W}.
Context `{!Client W ClusterRoleBinding, !Client W GlobalRoleBinding, !Client W Cluster,
          !Queue W GlobalRoleBinding}.

Definition admin_binding (obj : GlobalRoleBinding) : ClusterRoleBinding :=
  {| crb_meta := named_meta (grbCRBName obj) ∅ ∅ [];
     crb_Subjects := [mkSubject "User" (grb_UserName obj)];
     crb_RoleRef := {| rr_APIGroup := ""; rr_Kind := "ClusterRole"; rr_Name := "cluster-admin" |} |}.

Definition grb_Create (obj : GlobalRoleBinding) : M W GlobalRoleBinding :=
  if negb (String.eqb (grb_GlobalRoleName obj) "admin") then ret obj else
  let* r := attempt (reads (lister_Get (O:=ClusterRoleBinding) "" (grbCRBName obj))) in
  match r with
  | inr _ => ret obj
  | inl e => if IsNotFound e then do* api_create "" (admin_binding obj) in ret obj else throw e
  end.

Definition grb_Remove (obj : GlobalRoleBinding) : M W GlobalRoleBinding :=
  if negb (String.eqb (grb_GlobalRoleName obj) "admin") then ret obj else
  let* grbs := reads (ByIndex grbByUserAndRole
                        (grb_UserName obj +:+ "-" +:+ grb_GlobalRoleName obj)) in
  if Nat.ltb 1 (length grbs) then ret obj else
  do* unless_not_found (api_delete (O:=ClusterRoleBinding) "" (grbCRBName obj)) in ret obj.

Definition doSync (cluster : Cluster) : M W (Cluster * option goerr) :=
  DoUntilTrue ClusterConditionGlobalAdminsSynced cluster (λ cluster : Cluster,
    let* r := attempt (
      let* grbs := reads (ByIndex grbByRole "admin") in
      for_each (λ grb : GlobalRoleBinding,
        Enqueue (O:=GlobalRoleBinding) "" (Name (grb_meta grb))) grbs) in
    ret (Some cluster, match r with inl e => Some e | inr _ => None end)).

(** The cluster is updated also when [doSync] failed; its error is the one
    returned. *)
Definition cluster_sync (clusterName key : string) (cluster : option Cluster) : M W unit :=
  match cluster with
  | None => ret tt
  | Some original =>
    if String.eqb key "" || negb (String.eqb (Name (cluster_meta original)) clusterName)
    then ret tt else
    let* r := doSync original in
    let* upd := if decide (fst r = original) then ret (inr original)
                else attempt (api_update "" (fst r)) in
    match snd r, upd with
    | Some e, _ => throw e
    | None, inl e => throw e
    | None, inr _ => ret tt
    end
  end.

End admins.
End UserRbac.
