(* ===== verification/UserProjects.v ===== *)
(** * Projects of a user cluster

    [src/pkg/controllers/user/rbac]: [prtb_handler.go], [namespace_handler.go]
    and [project_handler.go]: what project role template bindings, namespaces and
    projects of the management cluster become in the user cluster. *)

From stdpp Require Import base gmap list strings.
From S2P Require Import Prelude.
From S2P Require Import GoLib.
From S2P Require Import KubeTypes.
From S2P Require Import KubeObjects.
From S2P Require Import Kube.
From S2P Require Import Cond.
From S2P Require Import MgmtManager.
From S2P Require Import UserRbac.
Import UserRbac.

Module UserProjects.

Definition owner : string := "owner-user".

Notation projectNSAnn := "authz.cluster.auth.io/project-namespaces" (only parsing).

Definition projectNSVerbToSuffix : gmap string string :=
  {[ "get" := "readonly"; "*" := "edit" ]}.

(** [fmt.Sprintf(projectNSGetClusterRoleNameFmt, project, suffix)]. *)
Definition projectNSRoleName (project suffix : string) : string :=
  project +:+ "-namespaces-" +:+ suffix.

(** [parts := strings.SplitN(id, ":", 2); len(parts) == 2 && len(parts[1]) > 0]:
    the project of a project ID. *)
Definition project_part (id : string) : option string :=
  match SplitN2 id ":" with
  | [_; p] => if String.eqb p "" then None else Some p
  | _ => None
  end.

(** ** Index of the cluster roles *)

Definition crByNS (cr : ClusterRole) : list string :=
  match Annotations (cr_meta cr) !! projectNSAnn with
  | None => []
  | Some _ =>
    flat_map (λ r,
      if ContainsString (Resources r) "namespaces" &&
         (ContainsString (Verbs r) "get" || ContainsString (Verbs r) "*")
      then ResourceNames r else []) (cr_Rules cr)
  end.

(** ** Project role template bindings *)

(** A rule that lets create any namespace. *)
Definition creates_namespaces (rule : PolicyRule) : bool :=
  ContainsString (Resources rule) "namespaces" && Nat.eqb (length (ResourceNames rule)) 0 &&
  (ContainsString (Verbs rule) "*" || ContainsString (Verbs rule) "create").

Notation ClusterConditionDefaultNamespaceAssigned := "DefaultNamespaceAssigned" (only parsing).
Section prtb.
Context {W : Type} `{!GoRuntime W}.
Context `{!Client W ClusterRole, !Client W ClusterRoleBinding, !Client W RoleBinding,
          !Client W RoleTemplate, !Client W NamespaceObject,
          !Client W ProjectRoleTemplateBinding}.

(** The binding of one role to the subject: a new one, or the mark on each of
    the existing ones. *)
Definition own_binding (rtbUID : string) (subject : Subject) (role : string) : M W unit :=
  let* crbs := reads (λ w, Ok (default [] (or_nil
                 (ByIndex crbByRoleAndSubject (rbRoleSubjectKey role subject) w)))) in
  match crbs with
  | [] =>
    do* api_create "" {| crb_meta := generate_meta "clusterrolebinding-" {[ rtbUID := owner ]} ∅;
                         crb_Subjects := [subject];
                         crb_RoleRef := {| rr_APIGroup := ""; rr_Kind := "ClusterRole";
                                           rr_Name := role |} |} in
    ret tt
  | _ :: _ =>
    for_each (λ crb : ClusterRoleBinding,
      let m := crb_meta crb in
      match Labels m !! rtbUID with
      | Some _ => ret tt
      | None => do* api_update "" (set_crb_meta (with_Labels (<[rtbUID := owner]> (Labels m)) m) crb) in
                ret tt
      end) crbs
  end.

Definition reconcileProjectAccessToGlobalResources (binding : ProjectRoleTemplateBinding)
    (rts : gmap string RoleTemplate) : M W unit :=
  match project_part (prtb_ProjectName binding) with
  | None => ret tt
  | Some projectName =>
    let* kvs := range rts in
    let createNSPerms := existsb (λ kv, existsb creates_namespaces (rt_Rules kv.2)) kvs in
    let roleVerb := if createNSPerms then "*" else "get" in
    let role := projectNSRoleName projectName (default "" (projectNSVerbToSuffix !! roleVerb)) in
    let* kvs := range rts in
    let* promoted := promote kvs in
    let roles := role :: promoted in
    let* roles :=
      if createNSPerms then
        let* nsRole := reads (λ w, Ok (or_nil (lister_Get (O:=ClusterRole) "" "create-ns" w))) in
        match nsRole with
        | Some _ => ret (roles ++ ["create-ns"])
        | None =>
          let* createNSRT := reads (lister_Get "" "create-ns") in
          let* r := attempt (ensureRoles {[ "create-ns" := createNSRT ]}) in
          match r with
          | inl e => if IsAlreadyExists e then ret (roles ++ ["create-ns"]) else throw e
          | inr _ => ret (roles ++ ["create-ns"])
          end
        end
      else ret roles in
    let* subject := reads (λ _, buildSubjectFromRTB (rtb_project binding)) in
    for_each (own_binding (UID (prtb_meta binding)) subject) roles
  end.

Definition reconcileProjectAccessToGlobalResourcesForDelete
    (binding : ProjectRoleTemplateBinding) : M W unit :=
  let* prtbs := reads (ByIndex prtbByProjectAndSubject (getPRTBProjectAndSubjectKey binding)) in
  if existsb (λ pr, bool_decide (DeletionTimestamp (prtb_meta pr) = None)) prtbs then ret tt else
  let rtbUID := UID (prtb_meta binding) in
  let* crbs := reads (lister_List "" {[ rtbUID := owner ]}) in
  for_each (λ crb : ClusterRoleBinding,
    let m := crb_meta crb in
    let labels := if bool_decide (Labels m !! rtbUID = Some owner)
                  then delete rtbUID (Labels m) else Labels m in
    if decide (labels = ∅) then
      unless_not_found (api_delete (O:=ClusterRoleBinding) "" (Name m))
    else do* api_update "" (set_crb_meta (with_Labels labels m) crb) in ret tt) crbs.

Definition syncPRTB (fuel : nat) (binding : ProjectRoleTemplateBinding) : M W unit :=
  if String.eqb (prtb_RoleTemplateName binding) "" then ret tt else
  if String.eqb (prtb_UserName binding) "" && String.eqb (prtb_GroupPrincipalName binding) "" &&
     String.eqb (prtb_GroupName binding) "" then ret tt else
  let* rt := wrap_err ("couldn't get role template " +:+ prtb_RoleTemplateName binding)
               (reads (lister_Get "" (prtb_RoleTemplateName binding))) in
  let* namespaces := wrap_err ("couldn't list namespaces with project ID " +:+ prtb_ProjectName binding)
                       (reads (ByIndex nsByProjectID (prtb_ProjectName binding))) in
  let* roles := gatherRoles fuel rt ∅ in
  do* wrap_err "couldn't ensure roles" (ensureRoles roles) in
  do* for_each (λ ns : NamespaceObject,
        wrap_err ("couldn't ensure binding " +:+ Name (prtb_meta binding) +:+ " in " +:+
                  Name (ns_meta ns))
          (ensureProjectRoleBindings (Name (ns_meta ns)) roles binding)) namespaces in
  reconcileProjectAccessToGlobalResources binding roles.

(** [if err := bindingCli.Delete(...); err != nil && !IsNotFound(err)], wrapped. *)
Definition delete_rb (msg ns name : string) : M W unit :=
  let* r := attempt (api_delete (O:=RoleBinding) ns name) in
  match r with
  | inl e => if IsNotFound e then ret tt else throw (Wrapped (msg +:+ name) e)
  | inr _ => ret tt
  end.

Definition ensurePRTBDelete (binding : ProjectRoleTemplateBinding) : M W unit :=
  let* namespaces := wrap_err ("couldn't list namespaces with project ID " +:+ prtb_ProjectName binding)
                       (reads (ByIndex nsByProjectID (prtb_ProjectName binding))) in
  do* for_each (λ ns : NamespaceObject,
        let* rbs := wrap_err "couldn't list rolebindings with selector"
                      (reads (lister_List (Name (ns_meta ns))
                                {[ rtbOwnerLabel := UID (prtb_meta binding) ]})) in
        for_each (λ rb : RoleBinding,
          delete_rb "error deleting rolebinding " (Name (ns_meta ns)) (Name (rb_meta rb))) rbs)
        namespaces in
  reconcileProjectAccessToGlobalResourcesForDelete binding.

Definition prtb_Create (fuel : nat) (obj : ProjectRoleTemplateBinding) :
    M W ProjectRoleTemplateBinding := do* syncPRTB fuel obj in ret obj.

Definition prtb_Updated (fuel : nat) (obj : ProjectRoleTemplateBinding) :
    M W ProjectRoleTemplateBinding := do* syncPRTB fuel obj in ret obj.

Definition prtb_Remove (obj : ProjectRoleTemplateBinding) : M W ProjectRoleTemplateBinding :=
  do* ensurePRTBDelete obj in ret obj.

(** ** Namespaces *)

Definition ns_rule (verb ns : string) : PolicyRule :=
  {| Verbs := [verb]; APIGroups := [EmptyString]; Resources := ["namespaces"]; ResourceNames := [ns];
     NonResourceURLs := [] |}.

Definition createProjectNSRole (roleName verb ns : string) : M W unit :=
  do* api_create "" {| cr_meta := named_meta roleName ∅ {[ projectNSAnn := roleName ]} [];
                       cr_Rules := if String.eqb ns "" then [] else [ns_rule verb ns] |} in
  ret tt.

Definition names_ns (verb ns : string) (r : PolicyRule) : bool :=
  ContainsString (Verbs r) verb && ContainsString (Resources r) "namespaces" &&
  ContainsString (ResourceNames r) ns.

Definition with_ResourceNames (l : list string) (r : PolicyRule) : PolicyRule :=
  {| Verbs := Verbs r; APIGroups := APIGroups r; Resources := Resources r; ResourceNames := l;
     NonResourceURLs := NonResourceURLs r |}.

(** The backwards loop that cuts the name out of [resNames]. *)
Definition cut_name (ns : string) (r : PolicyRule) : PolicyRule :=
  with_ResourceNames (List.filter (λ n, negb (String.eqb n ns)) (ResourceNames r)) r.

(** What becomes of a role that lists the namespace and should not. *)
Definition leaveRole (verb ns : string) (cr : ClusterRole) : M W unit :=
  let modified := existsb (names_ns verb ns) (cr_Rules cr) in
  let rules := map (λ r, if names_ns verb ns r then cut_name ns r else r) (cr_Rules cr) in
  let kept := List.filter (λ r, negb (Nat.eqb (length (ResourceNames r)) 0)) rules in
  if Nat.eqb (length kept) 0 then api_delete (O:=ClusterRole) "" (Name (cr_meta cr)) else
  if modified then do* api_update "" {| cr_meta := cr_meta cr; cr_Rules := kept |} in ret tt
  else ret tt.

(** The first rule with the verb gets the name; if there is none, a rule is appended. *)
Fixpoint add_name (verb ns : string) (rules : list PolicyRule) : list PolicyRule :=
  match rules with
  | [] => [ns_rule verb ns]
  | r :: rules =>
    if ContainsString (Verbs r) verb && ContainsString (Resources r) "namespaces"
    then with_ResourceNames (ResourceNames r ++ [ns]) r :: rules
    else r :: add_name verb ns rules
  end.

(** The role of the project of the namespace; none if it is being deleted. *)
Definition desired_role (ns : NamespaceObject) (name : string) : string :=
  if decide (DeletionTimestamp (ns_meta ns) = None) then
    match project_part (default "" (Annotations (ns_meta ns) !! projectIDAnnotation)) with
    | Some p => projectNSRoleName p name
    | None => ""
    end
  else "".

(** One iteration of the loop over the verbs; [true] is [return nil]. *)
Definition reconcileVerb (ns : NamespaceObject) (verb name : string) : M W bool :=
  let nsName := Name (ns_meta ns) in
  let desiredRole := desired_role ns name in
  let* clusterRoles := reads (ByIndex crByNS nsName) in
  let* nsInDesiredRole := for_fold (λ found cr,
    if String.eqb (Name (cr_meta cr)) desiredRole then ret true
    else do* leaveRole verb nsName cr in ret found) false clusterRoles in
  if nsInDesiredRole || String.eqb desiredRole "" then ret false else
  let* r := attempt (reads (lister_Get (O:=ClusterRole) "" desiredRole)) in
  match r with
  | inl e =>
    if IsNotFound e then do* createProjectNSRole desiredRole verb nsName in ret true else throw e
  | inr cr =>
    if existsb (names_ns verb nsName) (cr_Rules cr) then ret false else
    do* api_update "" {| cr_meta := cr_meta cr; cr_Rules := add_name verb nsName (cr_Rules cr) |} in
    ret true
  end.

(** A loop that [return nil] leaves early. *)
Fixpoint for_until {A} (f : A → M W bool) (xs : list A) : M W unit :=
  match xs with
  | [] => ret tt
  | x :: xs => let* stop := f x in if stop then ret tt else for_until f xs
  end.

Definition reconcileNamespaceProjectClusterRole (ns : NamespaceObject) : M W unit :=
  let* kvs := range projectNSVerbToSuffix in
  for_until (λ kv : string * string, reconcileVerb ns kv.1 kv.2) kvs.

(** The bindings of one project role template binding in the namespace. *)
Definition addPRTB (fuel : nat) (nsName : string) (prtb : ProjectRoleTemplateBinding) : M W unit :=
  if String.eqb (prtb_UserName prtb) "" && String.eqb (prtb_GroupPrincipalName prtb) "" &&
     String.eqb (prtb_GroupName prtb) "" then ret tt else
  if String.eqb (prtb_RoleTemplateName prtb) "" then ret tt else
  let* rt := wrap_err ("couldn't get role template " +:+ prtb_RoleTemplateName prtb)
               (reads (lister_Get "" (prtb_RoleTemplateName prtb))) in
  let* roles := gatherRoles fuel rt ∅ in
  do* wrap_err "couldn't ensure roles" (ensureRoles roles) in
  wrap_err ("couldn't ensure binding " +:+ Name (prtb_meta prtb) +:+ " in " +:+ nsName)
    (ensureProjectRoleBindings nsName roles prtb).

(** [convert.ToString(rb.Labels[rtbOwnerLabel])]. *)
Definition rb_owner (rb : RoleBinding) : string :=
  default "" (Labels (rb_meta rb) !! rtbOwnerLabel).

Definition delete_in (nsName name : string) : M W unit :=
  delete_rb "couldn't delete role binding " nsName name.

Definition ensurePRTBAddToNamespace (fuel : nat) (ns : NamespaceObject) : M W bool :=
  let nsName := Name (ns_meta ns) in
  let projectID := default "" (Annotations (ns_meta ns) !! projectIDAnnotation) in
  let listRBs := wrap_err ("couldn't list role bindings in " +:+ nsName)
                   (reads (lister_List nsName Everything)) in
  if String.eqb projectID "" then
    let* rbs := listRBs in
    do* for_each (λ rb : RoleBinding,
          if String.eqb (rb_owner rb) "" then ret tt
          else delete_in nsName (Name (rb_meta rb))) rbs in
    ret false
  else
    let* prtbs := wrap_err ("couldn't get project role binding templates associated with project id "
                            +:+ projectID) (reads (ByIndex prtbByProjectName projectID)) in
    let hasPRTBs := negb (Nat.eqb (length prtbs) 0) in
    do* for_each (addPRTB fuel nsName) prtbs in
    match project_part projectID with
    | None => ret hasPRTBs
    | Some namespace =>
      let* rbs := listRBs in
      do* for_each (λ rb : RoleBinding,
            if String.eqb (rb_owner rb) "" then ret tt else
            let* r := attempt (reads (ByIndex prtbByUID (rb_owner rb))) in
            match r with
            | inl e => if IsNotFound e then ret tt
                       else throw (Wrapped ("couldn't find prtb for " +:+ Name (rb_meta rb)) e)
            | inr prtbs =>
              for_each (λ prtb : ProjectRoleTemplateBinding,
                if String.eqb (Namespace (prtb_meta prtb)) namespace then ret tt
                else delete_in nsName (Name (rb_meta rb))) prtbs
            end) rbs in
      ret hasPRTBs
    end.

Definition syncNS (fuel : nat) (obj : NamespaceObject) : M W bool :=
  let* hasPRTBs := ensurePRTBAddToNamespace fuel obj in
  do* reconcileNamespaceProjectClusterRole obj in
  ret hasPRTBs.

Definition ns_Updated (fuel : nat) (obj : NamespaceObject) : M W NamespaceObject :=
  do* syncNS fuel obj in ret obj.

Definition ns_Remove (obj : NamespaceObject) : M W NamespaceObject :=
  do* reconcileNamespaceProjectClusterRole obj in ret obj.

(** ** Projects *)


Definition set_annotation (k v : string) (m : ObjectMeta) : ObjectMeta :=
  with_Annotations (<[k := v]> (Annotations m)) m.

(** [updateCluster] is set by the step, which runs unless the condition is true. *)
Definition ensureDefaultNamespaceAssigned `{!Client W Cluster} (clusterName : string)
    (project : Project) : M W unit :=
  match Labels (proj_meta project) !! "authz.management.cattle.io/default-project" with
  | None => ret tt
  | Some _ =>
    let* r := attempt (reads (lister_Get (O:=NamespaceObject) "" "default")) in
    match r with
    | inl e => if IsNotFound e then ret tt else throw e
    | inr ns =>
      let* cluster := reads (lister_Get (O:=Cluster) "" clusterName) in
      let* c := DoUntilTrue ClusterConditionDefaultNamespaceAssigned cluster (λ _,
        if negb (String.eqb (default "" (Annotations (ns_meta ns) !! projectIDAnnotation)) "")
        then ret (None, None) else
        let* r := attempt (api_update "" (set_ns_meta
                    (set_annotation projectIDAnnotation
                       (clusterName +:+ ":" +:+ Name (proj_meta project)) (ns_meta ns)) ns)) in
        ret (None, match r with inl e => Some e | inr _ => None end)) in
      do* (if IsTrue ClusterConditionDefaultNamespaceAssigned cluster then ret tt
           else do* api_update "" (fst c) in ret tt) in
      match snd c with Some e => throw e | None => ret tt end
    end
  end.

Definition project_Create `{!Client W Cluster} (clusterName : string) (project : Project) :
    M W Project :=
  let* kvs := range projectNSVerbToSuffix in
  do* for_each (λ kv : string * string,
        let roleName := projectNSRoleName (Name (proj_meta project)) kv.2 in
        let* r := attempt (reads (lister_Get (O:=ClusterRole) "" roleName)) in
        match r with
        | inl e => if IsNotFound e then createProjectNSRole roleName kv.1 "" else ret tt
        | inr _ => ret tt
        end) kvs in
  do* ensureDefaultNamespaceAssigned clusterName project in
  ret project.

(** A namespace somebody created through the API goes with its project, another
    one only leaves it. *)
Definition release_namespace (ns : NamespaceObject) : M W unit :=
  match Annotations (ns_meta ns) !! "field.cattle.io/creatorId" with
  | Some _ => unless_not_found (api_delete (O:=NamespaceObject) "" (Name (ns_meta ns)))
  | None =>
    do* api_update "" (set_ns_meta (with_Annotations
          (delete projectIDAnnotation (Annotations (ns_meta ns))) (ns_meta ns)) ns) in
    ret tt
  end.

Definition project_Remove (project : Project) : M W unit :=
  let* kvs := range projectNSVerbToSuffix in
  do* for_each (λ kv : string * string,
        unless_not_found (api_delete (O:=ClusterRole) ""
          (projectNSRoleName (Name (proj_meta project)) kv.2))) kvs in
  let projectID := Namespace (proj_meta project) +:+ ":" +:+ Name (proj_meta project) in
  let* namespaces := reads (ByIndex nsByProjectID projectID) in
  for_each release_namespace namespaces.

End prtb.
End UserProjects.
