(* ===== verification/UserBindings.v ===== *)
(** * RBAC of a user cluster: roles and bindings

    Theorems about [UserRbac]: the roles gathered are those of the management
    plane with their rules in lower case, every role gets a cluster role with its
    rules, and the bindings of a role template binding are made exactly the
    desired ones. *)

From stdpp Require Import base gmap list strings.
From S2P Require Import Prelude.
From S2P Require Import GoLib.
From S2P Require Import KubeTypes.
From S2P Require Import KubeObjects.
From S2P Require Import Kube.
From S2P Require Import KubeRules.
From S2P Require Import KubeSim.
From S2P Require Import Cond.
From S2P Require Import MgmtManager.
From S2P Require Import MgmtRoles.
From S2P Require Import MgmtBindings.
From S2P Require Import MgmtUsers.
From S2P Require Import MgmtGlobal.
From S2P Require Import UserRbac.
Import UserRbac.

(** The postcondition of a contract at its outcome, the tables left folded. *)
Ltac at_post := cbv beta iota delta [if_ok returns bind_post].

(** ** Gathering roles *)

Lemma lower_rule_idemp r : lower_rule (lower_rule r) = lower_rule r.
Proof.
  destruct r as [v a re n u]. unfold lower_rule. simpl. f_equal;
    rewrite map_map; apply map_ext; intros; apply ToLower_idemp.
Qed.

Lemma clean_role_idemp t : clean_role (clean_role t) = clean_role t.
Proof.
  unfold clean_role. destruct (rt_External t) eqn:He; [by rewrite He|]. simpl. rewrite He.
  unfold with_rt_Rules. simpl. f_equal. rewrite map_map. apply map_ext, lower_rule_idemp.
Qed.

Lemma clean_idemp (m : gmap string RoleTemplate) : clean_role <$> (clean_role <$> m) = clean_role <$> m.
Proof. rewrite <-map_fmap_compose. apply map_fmap_ext. intros. apply clean_role_idemp. Qed.

Section gather.
Context {W : Type} `{!GoRuntime W}.
Context `{!Client W ClusterRole, !Client W Role, !Client W ClusterRoleBinding,
          !Client W RoleBinding, !Client W RoleTemplate}.

(** The same outcome, up to the cleaning of the roles. *)
Definition same_roles (r r' : outcome (gmap string RoleTemplate) * W) : Prop :=
  match r, r' with
  | (Ok m, w), (Ok m', w') => clean_role <$> m = clean_role <$> m' ∧ w = w'
  | (r, w), (r', w') => r = r' ∧ w = w'
  end.

Lemma same_roles_loop (f f' : gmap string RoleTemplate → string → M W (gmap string RoleTemplate))
    names acc acc' w :
  (∀ m m' n w, clean_role <$> m = clean_role <$> m' → same_roles (f m n w) (f' m' n w)) →
  clean_role <$> acc = clean_role <$> acc' →
  same_roles (for_fold f acc names w) (for_fold f' acc' names w).
Proof.
  intros Hf. revert acc acc' w. induction names as [|n names IH]; intros acc acc' w Hacc; simpl; [done|].
  specialize (Hf acc acc' n w Hacc). unfold bind, same_roles in *.
  destruct (f acc n w) as [[m|e| |] w1], (f' acc' n w) as [[m'|e'| |] w2];
    destruct Hf as [Heq ->]; try discriminate; simplify_eq; try done. by apply IH.
Qed.

Lemma gatherRecurse_same fuel rt acc acc' w :
  clean_role <$> acc = clean_role <$> acc' →
  same_roles (gatherRolesRecurse fuel rt acc w) (gatherRoleTemplates fuel rt acc' w).
Proof.
  revert rt acc acc' w. induction fuel as [|fuel IH]; intros rt acc acc' w Hacc; simpl; [done|].
  apply same_roles_loop; [|by rewrite !fmap_insert, Hacc].
  clear acc acc' w Hacc. intros acc acc' n w Hacc. unfold bind, wrap_err, reads.
  destruct (lister_Get "" n w) as [sub|e| |]; [|done..].
  specialize (IH sub acc acc' w Hacc). unfold same_roles in IH.
  destruct (gatherRolesRecurse fuel sub acc w) as [[m|e| |] w1], (gatherRoleTemplates fuel sub acc' w)
    as [[m'|e'| |] w2]; destruct IH as [Heq ->]; try discriminate; simplify_eq; try done.
  simpl. by rewrite clean_idemp.
Qed.

Lemma gather_same fuel rt acc w :
  gatherRoles fuel rt acc w =
  bind (gatherRoleTemplates fuel rt acc) (λ m, ret (clean_role <$> m)) w.
Proof.
  pose proof (gatherRecurse_same fuel rt acc acc w eq_refl) as Hs. unfold gatherRoles, bind.
  destruct (gatherRolesRecurse fuel rt acc w) as [[m|e| |] w1],
    (gatherRoleTemplates fuel rt acc w) as [[m'|e'| |] w2]; destruct Hs as [Heq ->];
    try discriminate; [by unfold ret; rewrite Heq|congruence|done|done].
Qed.

(** C38: the roles gathered in a user cluster are the ones gathered in the
    management plane, rules in lower case: the same templates, the same errors,
    the same runs that do not end, and nothing is written. *)
Theorem gatherRoles_same fuel rt acc w :
  gatherRoles fuel rt acc w =
  bind (gatherRoleTemplates fuel rt acc) (λ m, ret (clean_role <$> m)) w.
Proof. apply gather_same. Qed.

End gather.

(** ** Cluster roles *)

(** The templates are filed under their names. *)
Definition filed (rts : gmap string RoleTemplate) : Prop :=
  ∀ n t, rts !! n = Some t → Name (rt_meta t) = n ∧ n ≠ "".

(** The cluster role of the template [t] has its rules. *)
Definition has_role (t : RoleTemplate) (s : KState) : Prop :=
  ∃ cr, s_ClusterRoles s !! ("", Name (rt_meta t)) = Some cr ∧ cr_Rules cr = rt_Rules t.

(** The cluster role [n] belongs to none of the templates. *)
Definition other_roles (rts : gmap string RoleTemplate) (n : nsname) : Prop :=
  ∀ t, rts !! n.2 = Some t → n.1 = "" → rt_External t = true.

Definition roles_kept (rts : gmap string RoleTemplate) (s s' : KState) : Prop :=
  only_tbl (O:=ClusterRole) s s' ∧
  ∀ k, other_roles rts k → s_ClusterRoles s' !! k = s_ClusterRoles s !! k.

Definition roles_ensured (rts : gmap string RoleTemplate) (s s' : KState) : Prop :=
  roles_kept rts s s' ∧
  ∀ n t, rts !! n = Some t → rt_External t = false → has_role t s'.

Section roles.
Context {W : Type} `{!GoRuntime W, !GoRuntimeLaws W, !Kube W}.
Context `{!Client W ClusterRole, !ClientLaws W ClusterRole}.
Implicit Types (w : W).

Lemma wp_ensureRole t w :
  let key := ("", Name (rt_meta t)) in
  Name (rt_meta t) ≠ "" → rt_External t = false →
  s_ClusterRoles (cached w) !! key = s_ClusterRoles (view w) !! key →
  wp (ensureRole t)
    (if_ok (λ _ w', changed_at (O:=ClusterRole) [key] (view w) (view w') ∧ has_role t (view w') ∧
              cache_step w w')
       (λ _ w', view w' = view w ∧ cache_step w w' ∧ ¬ ClientHealthy W ClusterRole)) w.
Proof.
  intros key Hn Hext Hs. unfold ensureRole. rewrite Hext. cbv zeta.
  apply wp_bind, wp_reads. rewrite (lister_or_nil (O:=ClusterRole)). cbn [bind_post].
  change (tbl (cached w) !! ("", Name (rt_meta t))) with (s_ClusterRoles (cached w) !! key).
  destruct (s_ClusterRoles (cached w) !! key) as [cr|] eqn:Hc.
  - case_decide as Hr.
    { apply wp_ret. split_and!; [apply changed_at_refl|exists cr; split; [symmetry; exact Hs|done]|apply cache_step_same]. }
    assert (obj_key cr = key) as Hk by (symmetry; exact (cached_keyed (O:=ClusterRole) w key cr Hc)).
    assert (∀ rules, write_key "" {| cr_meta := cr_meta cr; cr_Rules := rules |} = key) as Hwk.
    { intros rules. rewrite <-Hk. unfold write_key, client_ns, obj_key. simpl.
      case_decide as Hd; [|done]. by rewrite Hd. }
    apply wp_bind, wp_wrap_err, wp_update; cbn [bind_post].
    + intros o' w' Hst Hok _ Hv Hcs. apply wp_ret. at_post. rewrite Hv. rewrite Hwk in Hok.
      split_and!; [|exists o'; split|done].
      * apply changed_at_put. rewrite Hok. by left.
      * fold key. rewrite <-Hok. exact (tbl_put_eq o' (view w)).
      * destruct Hst as (_ & _ & _ & _ & _ & _ & Hsp). simpl in Hsp. by rewrite Hsp.
    + intros e w' Hv Hcs Hno. split_and!; [done|done|]. intros Hh. apply (Hno Hh).
      * simpl. unfold obj_key, key in Hk. simpl in Hk. congruence.
      * exists cr. rewrite Hwk. split_and!; [symmetry; exact Hs|done|done].
  - assert (∀ rules, write_key "" {| cr_meta := named_meta (Name (rt_meta t)) ∅ ∅ []; cr_Rules := rules |} = key)
      as Hwk by done.
    apply wp_bind, wp_wrap_err, wp_create; cbn [bind_post].
    + intros o' w' Hst _ Hv Hcs. apply wp_ret. at_post. rewrite Hv.
      assert (obj_key o' = key) as Hok by exact (stored_as_key _ _ _ Hst Hn).
      split_and!; [|exists o'; split|done].
      * apply changed_at_put. rewrite Hok. by left.
      * fold key. rewrite <-Hok. exact (tbl_put_eq o' (view w)).
      * destruct Hst as (_ & _ & _ & _ & _ & _ & Hsp). simpl in Hsp. by rewrite Hsp.
    + intros e w' Hv Hcs Hno. split_and!; [done|done|]. intros Hh. apply (Hno Hh); [|done].
      intros _. rewrite Hwk. symmetry. exact Hs.
Qed.

(** The state of the loop: the templates [don] are done, for the others the
    cache shows the cluster roles as they are. *)
Lemma wp_ensureRoles (I : W → Prop) rts w :
  undisturbed (O:=ClusterRole) I → I w → filed rts →
  (∀ n t, rts !! n = Some t → rt_External t = false →
     s_ClusterRoles (cached w) !! ("", n) = s_ClusterRoles (view w) !! ("", n)) →
  wp (ensureRoles rts)
    (if_ok (λ _ w', I w' ∧ roles_ensured rts (view w) (view w'))
       (λ _ w', I w' ∧ roles_kept rts (view w) (view w') ∧ ¬ ClientHealthy W ClusterRole)) w.
Proof.
  intros HI Hw Hf Hs. apply wp_bind, wp_range. intros kvs Hkvs. cbn [bind_post].
  pose (inv := λ (don : list (string * RoleTemplate)) (w' : W),
    I w' ∧ roles_kept rts (view w) (view w') ∧
    (∀ n t, (n, t) ∈ don → rt_External t = false → has_role t (view w')) ∧
    (∀ n t, rts !! n = Some t → n ∉ don.*1 → rt_External t = false →
       s_ClusterRoles (cached w') !! ("", n) = s_ClusterRoles (view w') !! ("", n))).
  eapply wp_mono; [apply (wp_for_each inv (λ _ w', I w' ∧ roles_kept rts (view w) (view w') ∧
    ¬ ClientHealthy W ClusterRole))|].
  - split_and!; [done|by split; [apply only_tbl_refl|]|by intros n t ?%not_elem_of_nil|eauto].
  - intros don [n t] rest w1 Heq (HI1 & [Hot Hk] & Hdon & Hrest). simpl.
    assert (rts !! n = Some t) as Ht.
    { apply (range_elem _ _ _ _ Hkvs). rewrite Heq. apply elem_of_app. right. by left. }
    destruct (Hf n t Ht) as [Hname Hne].
    assert (n ∉ don.*1) as Hnew.
    { pose proof (range_NoDup _ _ Hkvs) as Hnd. rewrite Heq, fmap_app, fmap_cons in Hnd.
      apply NoDup_app in Hnd as (_ & Hdis & _). intros Hin. apply (Hdis _ Hin). by left. }
    destruct (rt_External t) eqn:Hext.
    { unfold ensureRole. rewrite Hext. apply wp_ret. split_and!; [done|done| |].
      - intros n' t' [Hin|Hin%list_elem_of_singleton]%elem_of_app ?; [eauto|congruence].
      - intros n' t' Ht' Hin. apply (Hrest n' t' Ht'). intros ?. apply Hin.
        rewrite fmap_app. apply elem_of_app. by left. }
    eapply wp_mono; [apply wp_ensureRole; [congruence|done|rewrite Hname; by apply (Hrest n t)]|].
    assert (∀ w2, changed_at (O:=ClusterRole) [("", Name (rt_meta t))] (view w1) (view w2) →
      roles_kept rts (view w) (view w2)) as Hkeep.
    { intros w2 [Hot2 Hk2]. split; [exact (only_tbl_trans (O:=ClusterRole) _ _ _ Hot Hot2)|].
      intros k Hother. change (s_ClusterRoles (view w2) !! k = s_ClusterRoles (view w) !! k).
      rewrite <-(Hk k Hother). apply Hk2. rewrite list_elem_of_singleton. intros ->.
      unfold other_roles in Hother. simpl in Hother. rewrite Hname in Hother.
      rewrite (Hother t Ht eq_refl) in Hext. done. }
    intros [[]|e| |] w2 Hr; simpl in Hr; try done.
    + destruct Hr as (Hch & Hhas & Hcs). split_and!.
      * apply (HI w1); [done|apply Hch|done].
      * by apply Hkeep.
      * intros n' t' [Hin|Hin%list_elem_of_singleton]%elem_of_app Hext'; [|by simplify_eq].
        destruct (Hdon n' t' Hin Hext') as (cr & Hcr & Hrules). exists cr. split; [|done].
        rewrite <-Hcr. apply Hch. rewrite list_elem_of_singleton. intros [= Hnn].
        assert (rts !! n' = Some t') as Ht'.
        { apply (range_elem _ _ _ _ Hkvs). rewrite Heq. apply elem_of_app. by left. }
        destruct (Hf n' t' Ht') as [Hname' _]. apply Hnew. apply list_elem_of_fmap.
        exists (n', t'). split; [|done]. simpl. congruence.
      * intros n' t' Ht' Hin Hext'. rewrite fmap_app in Hin.
        refine (cache_step_sync (O:=ClusterRole) w1 w2 ("", n') Hcs _ _).
        { apply Hch. rewrite list_elem_of_singleton. intros [= ->]. apply Hin, elem_of_app. right.
          apply list_elem_of_singleton. simpl. congruence. }
        apply (Hrest n' t'); [done| |done]. intros ?. apply Hin, elem_of_app. by left.
    + destruct Hr as (Hv & Hcs & Hno). split_and!; [|rewrite Hv; done|done].
      apply (HI w1); [done| |done]. rewrite Hv. apply only_tbl_refl.
  - intros [[]|e| |] w' Hr; simpl in *; try done. destruct Hr as (HI' & Hk & Hdon & _).
    split; [done|]. split; [done|]. intros n t Ht. apply (Hdon n t).
    by apply (range_elem _ _ _ _ Hkvs).
Qed.

End roles.

(** ** Bindings *)

(** The key of a binding with one subject. *)
Definition bkey {O} `{!Binding O} (o : O) : option string :=
  match convert o with
  | (_, roleName, [subject0]) => Some (rbRoleSubjectKey roleName subject0)
  | _ => None
  end.

Class BindingLaws (O : Type) `{!Stored O, !Binding O} := {
  convert_name o : (convert o).1.1 = Name (meta o);
  create_meta m s r : meta (create m s r : O) = m;
  create_key m s r : bkey (create m [s] r : O) = Some (rbRoleSubjectKey (rr_Name r) s);
  same_key (o o' : O) : same_spec o o' → bkey o' = bkey o }.

Lemma same_subject_key r r' l l' :
  Forall2 same_subject l l' → rr_Name r = rr_Name r' →
  match l' with [s] => Some (rbRoleSubjectKey (rr_Name r') s) | _ => None end =
  match l with [s] => Some (rbRoleSubjectKey (rr_Name r) s) | _ => None end.
Proof.
  intros Hl Hr. destruct Hl as [|s s' l l' (Hk & Hn & _) Hl]; [done|].
  destruct Hl; [|done]. unfold rbRoleSubjectKey. by rewrite Hr, Hk, Hn.
Qed.

#[export] Instance ClusterRoleBinding_binding_laws : BindingLaws ClusterRoleBinding.
Proof. split; try done. intros o o' [Hs [_ Hr]]. exact (same_subject_key _ _ _ _ Hs Hr). Qed.

#[export] Instance RoleBinding_binding_laws : BindingLaws RoleBinding.
Proof. split; try done. intros o o' [Hs [_ Hr]]. exact (same_subject_key _ _ _ _ Hs Hr). Qed.

(** *** Sorting the current bindings *)

Section sorting.
Context {O : Type} `{!Stored O, !Binding O, !BindingLaws O}.
Implicit Types (D : gmap string O) (o : O) (cur keep : list O).

Abbreviation oname o := (Name (meta o)).

Lemma sort_step_key D del (proc : gset string) o :
  oname o ∉ proc →
  sort_step (D, del, proc) o =
    match bkey o ≫= λ key, pair key <$> D !! key with
    | Some (key, _) => (delete key D, del, {[oname o]} ∪ proc)
    | None => (D, {[oname o]} ∪ del, {[oname o]} ∪ proc)
    end.
Proof.
  intros Hn. unfold sort_step, bkey. pose proof (convert_name o) as Hname.
  destruct (convert o) as [[n r] subs]. simpl in Hname. subst n. rewrite decide_False by done.
  destruct subs as [|s [|]]; [done| |done]. simpl. by destruct (D !! _).
Qed.

Lemma push_name (n : string) (a p : gset string) : a ∪ ({[n]} ∪ p) = {[n]} ∪ a ∪ p.
Proof. set_solver. Qed.

(** [keep] are the bindings of [cur] that stay, one for each key they take out of
    [D]; the others are deleted. *)
Definition sorted D cur D' (del : gset string) keep : Prop :=
  keep ⊆ cur ∧ NoDup (bkey <$> keep) ∧
  (∀ o, o ∈ keep → ∃ key, bkey o = Some key ∧ is_Some (D !! key)) ∧
  (∀ key, D' !! key = if decide (Some key ∈ bkey <$> keep) then None else D !! key) ∧
  (∀ o, o ∈ cur → oname o ∈ del ↔ o ∉ keep) ∧
  (∀ n, n ∈ del → ∃ o, o ∈ cur ∧ oname o = n).

Lemma sorting D cur del (proc : gset string) :
  NoDup (Name ∘ meta <$> cur) → list_to_set (Name ∘ meta <$> cur) ## proc →
  ∃ D' del' keep, foldl sort_step (D, del, proc) cur =
      (D', del ∪ del', list_to_set (Name ∘ meta <$> cur) ∪ proc) ∧
    sorted D cur D' del' keep.
Proof.
  revert D del proc. induction cur as [|o cur IH]; intros D del proc Hnd Hp.
  { exists D, ∅, []. split; [simpl; do 2 f_equal; set_solver|].
    split_and!; [done|constructor| | |done|set_solver].
    - by intros o ?%not_elem_of_nil.
    - intros key. by rewrite decide_False by apply not_elem_of_nil. }
  rewrite fmap_cons, NoDup_cons in Hnd. destruct Hnd as [Hn Hnd]. simpl in Hn, Hp.
  cbn [foldl]. rewrite sort_step_key by set_solver.
  assert (∀ o', o' ∈ cur → oname o' ≠ oname o) as Hother.
  { intros o' Hin Heq. apply Hn. apply list_elem_of_fmap. exists o'. by rewrite <-Heq. }
  assert (o ∉ cur) as Hnotin by (intros Hin; by apply (Hother o)).
  destruct (bkey o ≫= λ key, pair key <$> D !! key) as [[key x]|] eqn:Hkey.
  - apply bind_Some in Hkey as (key' & Hbk & (x' & HD & [= -> ->])%fmap_Some).
    destruct (IH (delete key' D) del ({[oname o]} ∪ proc) Hnd) as (D' & del' & keep & Hrun & Hs);
      [set_solver|].
    destruct Hs as (Hsub & Hndk & Hkeys & HD' & Hdel & Hdom).
    assert (Some key' ∉ bkey <$> keep) as Hfresh.
    { intros (o' & Hk' & Hin)%list_elem_of_fmap. destruct (Hkeys o' Hin) as (k & Hk & [y Hy]).
      rewrite Hk in Hk'. injection Hk' as ->. by rewrite lookup_delete_eq in Hy. }
    exists D', del', (o :: keep). split; [by rewrite Hrun, push_name|].
    split_and!.
    + intros y [->|Hy]%elem_of_cons; [by left|right; by apply Hsub].
    + rewrite fmap_cons, Hbk. by constructor.
    + intros y [->|Hy]%elem_of_cons; [eauto|]. destruct (Hkeys y Hy) as (k & ? & [z Hz]).
      exists k. split; [done|]. apply lookup_delete_Some in Hz as [_ ?]. eauto.
    + intros k. rewrite HD', fmap_cons, Hbk. destruct (decide (k = key')) as [->|Hne].
      { rewrite lookup_delete_eq, (decide_True (P:=Some key' ∈ Some key' :: _)) by left.
        by case_decide. }
      rewrite lookup_delete_ne by done. apply decide_ext. rewrite elem_of_cons. naive_solver.
    + intros y [->|Hy]%elem_of_cons.
      * split; [|intros Hk; destruct Hk; by left]. intros (o' & Hin & Heq)%Hdom.
        by destruct (Hother o' Hin).
      * rewrite (Hdel y Hy), not_elem_of_cons. split; [|tauto]. intros ?. split; [|done].
        by intros ->.
    + intros n (o' & ? & ?)%Hdom. exists o'. by split; [right|].
  - destruct (IH D ({[oname o]} ∪ del) ({[oname o]} ∪ proc) Hnd) as (D' & del' & keep & Hrun & Hs);
      [set_solver|].
    destruct Hs as (Hsub & Hndk & Hkeys & HD' & Hdel & Hdom).
    exists D', ({[oname o]} ∪ del'), keep.
    split; [by rewrite Hrun, !push_name|].
    split_and!; [|done|done|done| |].
    + intros y Hy. right. by apply Hsub.
    + intros y [->|Hy]%elem_of_cons.
      * split; [|set_solver]. intros _ Hk. by apply Hnotin, Hsub.
      * rewrite elem_of_union, elem_of_singleton, (Hdel y Hy). split; [|tauto].
        intros [Heq|?]; [|done]. by destruct (Hother y Hy).
    + intros n [->%elem_of_singleton|(o' & ? & ?)%Hdom]%elem_of_union.
      * exists o. by split; [left|].
      * exists o'. by split; [right|].
Qed.

End sorting.

(** *** Creating and deleting *)

Section requests.
Context {W O : Type} `{!Kube W, !Stored O, !StoredLaws O, !Client W O, !ClientLaws W O}.
Implicit Types (w : W) (o : O) (t : gmap nsname O).

(** What requests for objects in the namespace [ns] do not disturb. *)
Definition undisturbed_at (ns : string) (I : W → Prop) : Prop :=
  ∀ w w', I w → only_tbl (O:=O) (view w) (view w') →
    (∀ k, k.1 ≠ ns → tbl (O:=O) (view w') !! k = tbl (view w) !! k) → cache_step w w' → I w'.

Definition with_new (news : list O) t : gmap nsname O :=
  list_to_map ((λ o, (obj_key o, o)) <$> news) ∪ t.

(** The objects [news] are new in [t]. *)
Definition fresh_in (news : list O) t : Prop :=
  NoDup (obj_key <$> news) ∧ ∀ o, o ∈ news → t !! obj_key o = None.

Lemma lookup_with_new news t k :
  fresh_in news t →
  ∀ o, with_new news t !! k = Some o ↔ (o ∈ news ∧ obj_key o = k) ∨ t !! k = Some o.
Proof.
  intros [Hnd Hfr] o. unfold with_new. rewrite lookup_union_Some.
  - rewrite <-elem_of_list_to_map.
    + rewrite list_elem_of_fmap. split; (intros [Hl|?]; [left|by right]).
      * destruct Hl as (o' & [= -> ->] & ?). done.
      * destruct Hl as [? <-]. by exists o.
    + rewrite <-list_fmap_compose. exact Hnd.
  - apply map_disjoint_spec. intros k' x y Hx Hy.
    apply elem_of_list_to_map_2 in Hx. apply list_elem_of_fmap in Hx as (o' & [= -> ->] & Hin).
    by rewrite (Hfr o' Hin) in Hy.
Qed.

Lemma with_new_snoc news o t :
  fresh_in news t → with_new news t !! obj_key o = None →
  fresh_in (news ++ [o]) t ∧ with_new (news ++ [o]) t = <[obj_key o := o]> (with_new news t).
Proof.
  intros [Hnd Hfr] Ho.
  assert (fresh_in (news ++ [o]) t) as Hf.
  { apply lookup_union_None in Ho as [Hl Ht]. split.
    - rewrite fmap_app. apply NoDup_app. split_and!; [done| |apply NoDup_singleton].
      intros k Hk ->%list_elem_of_singleton. apply not_elem_of_list_to_map in Hl. apply Hl.
      rewrite <-list_fmap_compose. exact Hk.
    - intros o' [?| ->%list_elem_of_singleton]%elem_of_app; [by apply Hfr|done]. }
  split; [done|]. apply map_eq. intros k. apply option_eq. intros x.
  rewrite (lookup_with_new _ _ _ Hf), lookup_insert_Some, (lookup_with_new _ _ _ (conj Hnd Hfr)).
  rewrite elem_of_app, list_elem_of_singleton.
  assert (∀ x k, with_new news t !! k = Some x → obj_key o ≠ k) as Hne.
  { intros x' k' Hx <-. congruence. }
  specialize (Hne x k). rewrite (lookup_with_new _ _ _ (conj Hnd Hfr)) in Hne.
  split.
  - intros [[[?| ->] ?]|?]; [right|by left|right]; (split; [apply Hne|]); tauto.
  - intros [[<- <-]|[_ [[? ?]|?]]]; tauto.
Qed.

Lemma wp_create_generated ns (l : list (string * O)) w :
  (∀ kv, kv ∈ l → Name (meta kv.2) = "" ∧ GenerateName (meta kv.2) ≠ "" ∧
     Namespace (meta kv.2) = "") →
  wp (for_each (λ kv : string * O, do* api_create ns kv.2 in ret tt) l)
    (if_ok (λ _ w', only_tbl (O:=O) (view w) (view w') ∧
              (∃ news, Forall2 (λ kv o, stored_as ns kv.2 o) l news ∧ fresh_in news (tbl (view w)) ∧
                 tbl (view w') = with_new news (tbl (view w))) ∧
              ∀ I : W → Prop, undisturbed_at ns I → I w → I w')
       (λ _ _, ¬ ClientHealthy W O)) w.
Proof.
  intros Hl. apply (wp_for_each (λ don w', only_tbl (O:=O) (view w) (view w') ∧
    (∃ news, Forall2 (λ kv o, stored_as ns kv.2 o) don news ∧ fresh_in news (tbl (view w)) ∧
       tbl (view w') = with_new news (tbl (view w))) ∧
    ∀ I : W → Prop, undisturbed_at ns I → I w → I w')).
  { split_and!; [apply only_tbl_refl| |done]. exists []. split_and!; [constructor| |].
    - split; [constructor|]. by intros o ?%not_elem_of_nil.
    - unfold with_new. simpl. by rewrite map_empty_union. }
  intros don kv rest w1 Heq (Hot & (news & Hst & Hfr & Ht) & HI).
  destruct (Hl kv) as (Hn & Hg & Hns); [rewrite Heq; apply elem_of_app; right; by left|].
  apply wp_bind, wp_create; at_post.
  - intros o' w2 Hs Hfree Hv Hcs. apply wp_ret. at_post.
    split_and!; [rewrite Hv; by apply only_tbl_put| |].
    + exists (news ++ [o']). rewrite Ht in Hfree.
      destruct (with_new_snoc news o' _ Hfr Hfree) as [Hf ->]. split_and!; [|done|].
      * apply Forall2_app; [done|]. constructor; [exact Hs|constructor].
      * by rewrite Hv, tbl_put, Ht.
    + intros I Hund Hw. apply (Hund w1 w2); [by apply HI| | |done]; rewrite Hv.
      * apply only_tbl_put, only_tbl_refl.
      * intros k Hk. rewrite tbl_put, lookup_insert_ne; [done|]. intros <-. apply Hk.
        destruct Hs as (Hns' & _). simpl. rewrite Hns'. unfold client_ns. by rewrite Hns.
  - intros e w2 _ _ Hno Hh. by apply (Hno Hh).
Qed.

(** [t'] is [t] without the objects of [ns] with the given names. *)
Definition gone_names (ns : string) (names : list string) t t' : Prop :=
  ∀ k, t' !! k = if decide (k.1 = ns ∧ k.2 ∈ names) then None else t !! k.

(** Deleting by name the objects for which [P] holds. *)
Lemma gone_filter ns (P : O → Prop) `{∀ o, Decision (P o)} (l : list O) t t' :
  well_keyed t → (∀ o, o ∈ l ↔ t !! obj_key o = Some o ∧ P o) →
  (∀ k o, t !! k = Some o → P o → k.1 = ns) →
  gone_names ns ((λ o, Name (meta o)) <$> l) t t' → t' = filter (λ kv, ¬ P kv.2) t.
Proof.
  intros Hwk Hin Hns Hgone. apply map_eq. intros k. rewrite Hgone.
  destruct (t !! k) as [o|] eqn:Hk.
  - assert (k = obj_key o) as Hko by exact (Hwk _ _ Hk). symmetry. case_decide as Hd.
    + destruct Hd as [Hk1 (o' & Hn & [Ho' HP]%Hin)%list_elem_of_fmap].
      assert (obj_key o' = k) as Hk'.
      { destruct k as [a n]. simpl in Hk1, Hn. subst. unfold obj_key at 1. f_equal.
        exact (Hns _ _ Ho' HP). }
      rewrite Hk', Hk in Ho'. injection Ho' as <-. apply map_lookup_filter_None. right.
      intros x Hx. rewrite Hk in Hx. injection Hx as <-. simpl. tauto.
    + apply map_lookup_filter_Some. split; [done|]. simpl. intros HP. apply Hd.
      split; [by eapply Hns|]. apply list_elem_of_fmap. exists o. split; [by rewrite Hko|].
      apply Hin. by rewrite <-Hko.
  - symmetry. case_decide; apply map_lookup_filter_None; by left.
Qed.

(** A loop of requests to delete; an object that is not there is no error, any
    other error is reported in some form. *)
Lemma wp_delete_each {A} ns (name : A → string) (report : A → goerr → goerr) (xs : list A) w :
  wp (for_each (λ x,
        let* r := attempt (api_delete (O:=O) ns (name x)) in
        match r with
        | inl e => if IsNotFound e then ret tt else throw (report x e)
        | inr _ => ret tt
        end) xs)
    (if_ok (λ _ w', only_tbl (O:=O) (view w) (view w') ∧
              gone_names ns (name <$> xs) (tbl (view w)) (tbl (view w')) ∧
              ∀ I : W → Prop, undisturbed_at ns I → I w → I w')
       (λ _ _, ¬ ClientHealthy W O)) w.
Proof.
  apply (wp_for_each (λ don w', only_tbl (O:=O) (view w) (view w') ∧
    gone_names ns (name <$> don) (tbl (view w)) (tbl (view w')) ∧
    ∀ I : W → Prop, undisturbed_at ns I → I w → I w')).
  { split_and!; [apply only_tbl_refl| |done]. intros k. rewrite decide_False; [done|].
    by intros [_ ?%not_elem_of_nil]. }
  intros don x rest w1 _ (Hot & Hk & HI). set (n := name x).
  assert (∀ k, tbl (view w1) !! (ns, n) = None ∨ k ≠ (ns, n) →
    tbl (O:=O) (view w1) !! k =
      if decide (k.1 = ns ∧ k.2 ∈ name <$> (don ++ [x])) then None else tbl (view w) !! k) as Hsame.
  { intros [a b] Hcase. rewrite fmap_app.
    destruct (decide ((a, b).1 = ns ∧ (a, b).2 ∈ (name <$> don) ++ (name <$> [x]))) as [[Ha Hb]|Hno].
    - simpl in Ha, Hb. subst a. apply elem_of_app in Hb as [Hb| ->%list_elem_of_singleton].
      + rewrite Hk. by rewrite decide_True.
      + destruct Hcase as [Hc|?]; [exact Hc|done].
    - rewrite Hk. rewrite decide_False; [done|]. intros [??]. apply Hno. split; [done|].
      apply elem_of_app. by left. }
  apply wp_bind, wp_attempt, wp_delete; at_post.
  - intros w2 _ Hv Hcs. apply wp_ret. at_post.
    split_and!; [rewrite Hv; by apply only_tbl_del| |].
    + rewrite Hv. intros k. rewrite tbl_del. destruct (decide (k = (ns, n))) as [->|Hne].
      * rewrite lookup_delete_eq, decide_True; [done|]. split; [done|]. rewrite fmap_app.
        apply elem_of_app. right. by apply list_elem_of_singleton.
      * rewrite lookup_delete_ne by done. apply Hsame. by right.
    + intros I Hund Hw. apply (Hund w1 w2); [by apply HI| | |done]; rewrite Hv.
      * apply only_tbl_del, only_tbl_refl.
      * intros k Hne. rewrite tbl_del, lookup_delete_ne; [done|]. by intros <-.
  - intros e w2 Hnf Hv Hcs Hh _. destruct (IsNotFound e) eqn:He.
    + apply wp_ret. at_post. split_and!; [by rewrite Hv| |].
      * rewrite Hv. intros k. apply Hsame. left. by apply Hnf.
      * intros I Hund Hw. apply (Hund w1 w2); [by apply HI| | |done]; rewrite Hv; [apply only_tbl_refl|done].
    + apply wp_throw. at_post. intros Hhe. specialize (Hh Hhe). congruence.
Qed.

End requests.

(** *** The bindings of a role template binding *)

Section ensure.
Context {W : Type} `{!GoRuntime W, !GoRuntimeLaws W, !Kube W}.
Context {O : Type} `{!EqDecision O, !Binding O, !Stored O, !StoredLaws O, !BindingLaws O,
                     !Client W O, !ClientLaws W O}.
Implicit Types (w : W) (o : O).

(** The bindings that carry the label of the template binding [uid]. *)
Definition owned (ns uid : string) (o : O) : Prop :=
  (ns = "" ∨ Namespace (meta o) = ns) ∧ Labels (meta o) !! rtbOwnerLabel = Some uid.

(** The keys of the desired bindings: one for each role. *)
Definition wanted (roles : gmap string RoleTemplate) (subject : Subject) (key : string) : Prop :=
  ∃ role, is_Some (roles !! role) ∧ key = rbRoleSubjectKey role subject.

(** What is promised: the bindings of [uid] in [ns] are one for each role, all
    others are as they were. *)
Definition bindings_ensured (ns uid : string) (roles : gmap string RoleTemplate) (subject : Subject)
    (s s' : KState) : Prop :=
  only_tbl (O:=O) s s' ∧
  (∀ k o, ¬ owned ns uid o → tbl s' !! k = Some o ↔ tbl s !! k = Some o) ∧
  (∀ k o, tbl s' !! k = Some o → owned ns uid o →
     ∃ key, bkey o = Some key ∧ wanted roles subject key) ∧
  (∀ key, wanted roles subject key →
     ∃ k o, tbl s' !! k = Some o ∧ owned ns uid o ∧ bkey o = Some key ∧
       ∀ k' o', tbl s' !! k' = Some o' → owned ns uid o' → bkey o' = Some key → k' = k).

Definition new_binding (uid : string) (subject : Subject) (role : string) : O :=
  create (generate_meta "clusterrolebinding-" {[ rtbOwnerLabel := uid ]} ∅) [subject]
    {| rr_APIGroup := ""; rr_Kind := "ClusterRole"; rr_Name := role |}.

Lemma key_inj role role' subject :
  rbRoleSubjectKey role subject = rbRoleSubjectKey role' subject → role = role'.
Proof. unfold rbRoleSubjectKey. apply append_inj_r. Qed.

Lemma lookup_desired uid subject kvs (key : string) o :
  NoDup kvs.*1 →
  desired_bindings (O:=O) uid subject kvs !! key = Some o ↔
  ∃ role, role ∈ kvs.*1 ∧ key = rbRoleSubjectKey role subject ∧ o = new_binding uid subject role.
Proof.
  unfold desired_bindings, bindingParts.
  induction kvs as [|kv kvs IH] using rev_ind; intros Hnd; simpl.
  { rewrite lookup_empty. split; [done|]. by intros (? & ?%not_elem_of_nil & _). }
  rewrite fmap_app in *. apply NoDup_app in Hnd as (Hnd & Hdis & _).
  rewrite foldl_snoc. specialize (IH Hnd). rewrite lookup_insert_Some. split.
  - intros [[<- <-]|[Hne Hin]].
    + exists kv.1. split_and!; [|done|done]. apply elem_of_app. right. by left.
    + apply IH in Hin as (role & ? & -> & ->). exists role. split_and!; [|done|done].
      apply elem_of_app. by left.
  - intros (role & [Hin|Hin%list_elem_of_singleton]%elem_of_app & -> & ->).
    + right. split.
      * intros Heq%key_inj. subst role. apply (Hdis _ Hin). by left.
      * apply IH. by exists role.
    + left. subst role. done.
Qed.

Lemma NoDup_fmap_eq {A B} (f : A → B) (l : list A) x y :
  NoDup (f <$> l) → x ∈ l → y ∈ l → f x = f y → x = y.
Proof.
  intros Hnd [i Hi]%list_elem_of_lookup [j Hj]%list_elem_of_lookup Heq.
  assert (i = j) as ->; [|congruence].
  apply (NoDup_lookup _ i j (f x) Hnd); rewrite list_lookup_fmap.
  - by rewrite Hi.
  - by rewrite Hj, Heq.
Qed.

(** What the server stores for the new bindings. *)
Lemma stored_new ns uid subject D (l : list (string * O)) news :
  (∀ key o, D !! key = Some o →
     ∃ role, key = rbRoleSubjectKey role subject ∧ o = new_binding uid subject role) →
  l ≡ₚ map_to_list D → Forall2 (λ kv o, stored_as ns kv.2 o) l news →
  bkey <$> news = Some <$> l.*1 ∧ ∀ o, o ∈ news → owned ns uid o.
Proof.
  intros HD Hl Hst.
  assert (∀ kv, kv ∈ l → D !! kv.1 = Some kv.2) as Hin.
  { intros [key o] Hkv. by apply (range_elem _ _ _ _ Hl). }
  clear Hl. induction Hst as [|[key o] o' l news Hs Hst IH].
  { split; [done|]. by intros o ?%not_elem_of_nil. }
  destruct IH as [IHk IHo]; [intros; apply Hin; by right|].
  destruct (HD key o) as (role & -> & ->); [apply (Hin (key, o)); by left|].
  destruct Hs as (Hns & _ & _ & Hlab & _ & _ & Hsp). simpl in *.
  split.
  - f_equal; [|done]. rewrite (same_key _ _ Hsp).
    unfold new_binding. by rewrite create_key.
  - intros x [->|?]%elem_of_cons; [|by apply IHo]. unfold owned.
    rewrite Hns, Hlab. unfold new_binding, client_ns. rewrite create_meta. simpl.
    rewrite lookup_singleton_eq. split; [by right|done].
Qed.

(** The contents of the table at the end. *)
Lemma final_bindings (ns uid : string) (D D' : gmap string O) (cur keep news : list O)
    (del : gset string) (t t' : gmap nsname O) (names : list string) :
  sorted D cur D' del keep → (∀ o, o ∈ news → owned ns uid o) → fresh_in news t →
  well_keyed t → (∀ o, o ∈ cur ↔ t !! obj_key o = Some o ∧ owned ns uid o) →
  (∀ o, o ∈ cur → Namespace (meta o) = ns) →
  (∀ n, n ∈ names ↔ n ∈ del) → gone_names ns names (with_new news t) t' →
  ∀ k o, t' !! k = Some o ↔
    obj_key o = k ∧ (o ∈ news ∨ o ∈ keep ∨ (t !! k = Some o ∧ ¬ owned ns uid o)).
Proof.
  intros (Hsub & _ & _ & _ & Hdel & Hdom) Hnew Hfr Hwk Hcur Hns Hnames Ht' k o.
  assert (∀ n, n ∈ names → ∃ o, o ∈ cur ∧ obj_key o = (ns, n) ∧ o ∉ keep) as Hgone.
  { intros n Hn. apply Hnames in Hn. destruct (Hdom n Hn) as (o' & Hin & Hname). exists o'.
    split_and!; [done| |].
    - unfold obj_key. by rewrite (Hns o' Hin), Hname.
    - apply Hdel; [done|]. by rewrite Hname. }
  assert (∀ o, o ∈ keep → Name (meta o) ∉ names) as Hkept.
  { intros o' Hk Hn%Hnames. apply Hdel in Hn; [done|]. by apply Hsub. }
  rewrite Ht'. case_decide as Hg.
  - split; [done|]. destruct k as [a n]. destruct Hg as [Ha Hn]. simpl in Ha, Hn. subst a.
    destruct (Hgone n Hn) as (o' & Hin & Hkey & Hnk). apply Hcur in Hin as [Hto Hown].
    intros [Hk [?|[Hkeep|[Hold Hno]]]].
    + destruct Hfr as [_ Hfr]. rewrite <-Hkey in Hk. rewrite <-Hk, (Hfr o) in Hto; done.
    + destruct (Hkept o Hkeep). unfold obj_key in Hk. by simplify_eq/=.
    + rewrite <-Hkey, Hto in Hold. congruence.
  - rewrite (lookup_with_new _ _ _ Hfr). split.
    + intros [[? ?]|Hold]; [by split; [|left]|]. pose proof (Hwk _ _ Hold) as Hk. split; [done|].
      right. destruct (decide (Labels (meta o) !! rtbOwnerLabel = Some uid)) as [Hlab|Hlab].
      2:{ right. split; [done|]. by intros [_ ?]. }
      destruct (decide (ns = "" ∨ Namespace (meta o) = ns)) as [Hsc|Hsc].
      2:{ right. split; [done|]. by intros [? _]. }
      left. assert (o ∈ cur) as Hin by (apply Hcur; rewrite <-Hk; done).
      destruct (decide (Name (meta o) ∈ del)) as [Hd|Hd].
      { destruct Hg. apply Hnames in Hd. rewrite Hk. unfold obj_key. simpl. by rewrite (Hns o Hin). }
      destruct (decide (o ∈ keep)) as [?|Hnk]; [done|]. destruct Hd. by apply Hdel.
    + intros [Hk [?|[Hkeep|[Hold _]]]]; [by left|right|by right].
      rewrite <-Hk. apply Hcur. by apply Hsub.
Qed.

(** One binding for each key that is wanted, and nothing but these. *)
Lemma ensured_from_final (ns uid : string) (roles : gmap string RoleTemplate) (subject : Subject)
    (D D' : gmap string O) (cur keep news : list O) (del : gset string) (l : list (string * O))
    (s s' : KState) :
  (∀ key, is_Some (D !! key) ↔ wanted roles subject key) →
  sorted D cur D' del keep → l ≡ₚ map_to_list D' → bkey <$> news = Some <$> l.*1 →
  (∀ o, o ∈ news → owned ns uid o) → (∀ o, o ∈ keep → owned ns uid o) →
  only_tbl (O:=O) s s' →
  (∀ k o, tbl s !! k = Some o → obj_key o = k) →
  (∀ k o, tbl s' !! k = Some o ↔
    obj_key o = k ∧ (o ∈ news ∨ o ∈ keep ∨ (tbl s !! k = Some o ∧ ¬ owned ns uid o))) →
  bindings_ensured ns uid roles subject s s'.
Proof.
  intros HD (_ & Hnd & Hkeys & HD' & _) Hl Hnews Hnew Hkeep Hot Hwk Hfin.
  assert (NoDup (bkey <$> news)) as Hndn.
  { rewrite Hnews. apply (NoDup_fmap_2 Some). by eapply range_NoDup. }
  assert (∀ key, Some key ∈ bkey <$> news ↔ is_Some (D' !! key)) as HinD'.
  { intros key. rewrite Hnews, list_elem_of_fmap, <-(range_dom _ _ _ Hl). naive_solver. }
  assert (∀ key, is_Some (D' !! key) ↔ is_Some (D !! key) ∧ Some key ∉ bkey <$> keep) as Hleft.
  { intros key. rewrite HD'. case_decide as Hd; [|tauto]. split; [by intros [??]|tauto]. }
  assert (∀ (f : list O) o, o ∈ f → bkey o ∈ bkey <$> f) as Hmem.
  { intros f o Ho. apply list_elem_of_fmap. eauto. }
  split_and!; [done| | |].
  - intros k o Hno. rewrite Hfin. split.
    + intros [_ [Ho|[Ho|[? _]]]]; [by destruct Hno; apply Hnew|by destruct Hno; apply Hkeep|done].
    + intros Ho. split; [by apply Hwk|]. auto.
  - intros k o [_ [Ho|[Ho|[_ Hno]]]]%Hfin Hown; [| |done].
    + pose proof (Hmem _ _ Ho) as Hb. rewrite Hnews in Hb. apply list_elem_of_fmap in Hb as (key & Hb & _).
      exists key. split; [done|]. apply HD, Hleft, HinD'. rewrite <-Hb. by apply Hmem.
    + destruct (Hkeys o Ho) as (key & ? & ?). exists key. split; [done|]. by apply HD.
  - intros key Hkey%HD. destruct (decide (Some key ∈ bkey <$> keep)) as [Hin|Hout].
    + pose proof Hin as (o & Hb & Ho)%list_elem_of_fmap. exists (obj_key o), o.
      split_and!; [apply Hfin; auto|by apply Hkeep|done|].
      intros k' o' [<- [Ho'|[Ho'|[_ Hno]]]]%Hfin Hown Hb'; [| |done].
      * exfalso. assert (Some key ∈ bkey <$> news) as Hx by (rewrite <-Hb'; by apply Hmem).
        apply HinD', Hleft in Hx as [_ ?]. done.
      * f_equal. apply (NoDup_fmap_eq bkey keep); [done..|]. congruence.
    + assert (Some key ∈ bkey <$> news) as (o & Hb & Ho)%list_elem_of_fmap by by apply HinD', Hleft.
      exists (obj_key o), o. split_and!; [apply Hfin; auto|by apply Hnew|done|].
      intros k' o' [<- [Ho'|[Ho'|[_ Hno]]]]%Hfin Hown Hb'; [| |done].
      * f_equal. apply (NoDup_fmap_eq bkey news); [done..|]. congruence.
      * destruct Hout. rewrite <-Hb'. by apply Hmem.
Qed.

(** The namespace is one of the kind. *)
Definition in_scope (ns : string) (s : KState) : Prop :=
  ns ≠ "" ∨ ∀ k o, tbl (O:=O) s !! k = Some o → k.1 = "".

(** The cache shows the objects of the namespace as they are. *)
Definition sync_ns (ns : string) (w : W) : Prop :=
  ∀ k, ns = "" ∨ k.1 = ns → tbl (O:=O) (cached w) !! k = tbl (view w) !! k.

Lemma wp_ensureBindings (ns : string) (roles : gmap string RoleTemplate) (binding : rtb)
    (m : ObjectMeta) (subject : Subject) w :
  UserRbac.buildSubjectFromRTB binding = Ok subject → sync_ns ns w → in_scope ns (view w) →
  wp (ensureBindings (O:=O) ns roles binding m)
    (if_ok (λ _ w', bindings_ensured ns (UID m) roles subject (view w) (view w') ∧
              ∀ I : W → Prop, undisturbed_at (O:=O) ns I → I w → I w')
       (λ _ _, ¬ ClientHealthy W O)) w.
Proof.
  intros Hsub Hsync Hscope. unfold ensureBindings.
  apply wp_bind, wp_reads. rewrite Hsub. at_post. apply wp_bind, wp_range. intros kvs Hkvs. at_post.
  apply wp_bind, wp_reads.
  destruct (lister_list_law (O:=O) ns {[ rtbOwnerLabel := UID m ]} w) as (cur & Hcur & _).
  rewrite Hcur. at_post.
  assert (∀ o, o ∈ cur ↔ tbl (view w) !! obj_key o = Some o ∧ owned ns (UID m) o) as Hin.
  { intros o. rewrite (elem_of_lister _ _ _ _ o Hcur). unfold owned, selects.
    rewrite map_singleton_subseteq_l. split; (intros [Ho [Hn Hlab]]; split; [|done]);
      [rewrite <-Hsync|rewrite Hsync]; done. }
  assert (∀ o, o ∈ cur → Namespace (meta o) = ns) as Hns.
  { intros o [Ho [[Hs|Hs] _]]%Hin; [|done]. destruct Hscope as [?|Hsc]; [done|].
    rewrite Hs. by apply (Hsc _ _ Ho). }
  assert (NoDup (Name ∘ meta <$> cur)) as Hnd.
  { pose proof (NoDup_lister _ _ _ _ Hcur) as Hnd.
    assert (obj_key <$> cur = pair ns <$> (Name ∘ meta <$> cur)) as Heq.
    { rewrite <-list_fmap_compose. apply list_fmap_ext. intros i o Hi. unfold obj_key. simpl.
      f_equal. apply Hns, list_elem_of_lookup. eauto. }
    rewrite Heq in Hnd. by eapply NoDup_fmap_1. }
  pose proof (λ key o, lookup_desired (UID m) subject kvs key o (range_NoDup _ _ Hkvs)) as HD.
  set (D := desired_bindings (O:=O) (UID m) subject kvs) in *.
  destruct (sorting D cur ∅ ∅ Hnd) as (D' & del & keep & Hrun & Hsorted); [set_solver|].
  rewrite Hrun. rewrite union_empty_l_L. apply wp_bind, wp_range. intros l Hl. at_post.
  assert (∀ key o, D' !! key = Some o → D !! key = Some o) as HD'.
  { intros key o. destruct Hsorted as (_ & _ & _ & -> & _). by case_decide. }
  eapply wp_bind_if_ok; [apply wp_create_generated| |done].
  { intros kv Hkv. destruct kv as [key o]. apply (range_elem _ _ _ _ Hl), HD', HD in Hkv
      as (role & _ & _ & ->). simpl. unfold new_binding. by rewrite create_meta. }
  intros [] w1 (Hot1 & (news & Hst & Hfr & Ht1) & HI1).
  apply wp_bind, wp_range_keys. intros names _ Hnames. at_post.
  eapply wp_mono; [apply (wp_delete_each ns id (λ _ e, e))|].
  intros [[]|e| |] w2 Hr; try done. at_post.
  destruct Hr as (Hot2 & Hgone & HI2). split; [|by intros I Hund Hw; apply HI2, HI1]. rewrite list_fmap_id in Hgone. rewrite Ht1 in Hgone.
  destruct (stored_new ns (UID m) subject D' l news) as [Hkeys Hown]; [|done|done|].
  { intros key o Ho%HD'%HD. destruct Ho as (role & _ & ? & ?). eauto. }
  apply (ensured_from_final ns (UID m) roles subject D D' cur keep news del l); try done.
  - intros key. unfold wanted. split.
    + intros [o (role & Hr & -> & _)%HD]. exists role. by rewrite <-(range_dom _ _ _ Hkvs).
    + intros (role & Hr & ->). rewrite <-(range_dom _ _ _ Hkvs) in Hr.
      exists (new_binding (UID m) subject role). apply HD. eauto.
  - intros o Ho. apply Hin. destruct Hsorted as (Hs & _). by apply Hs.
  - exact (only_tbl_trans _ _ _ Hot1 Hot2).
  - intros k o Ho. symmetry. exact (view_keyed w _ _ Ho).
  - apply (final_bindings ns (UID m) D D' cur keep news del _ _ names); try done.
    exact (view_keyed w).
Qed.

End ensure.

(** ** Cluster role template bindings *)

Section crtb.
Context {W : Type} `{!GoRuntime W, !GoRuntimeLaws W, !Kube W}.
Context `{!Client W ClusterRole, !Client W Role, !Client W ClusterRoleBinding, !Client W RoleBinding,
          !Client W RoleTemplate}.
Context `{!ClientLaws W ClusterRole, !ClientLaws W ClusterRoleBinding, !ClientLaws W RoleTemplate}.
Implicit Types (w : W).

(** The roles a template gives in a user cluster: those of the templates it
    inherits, itself included, rules in lower case. *)
Definition user_roles (w : W) (rt : RoleTemplate) (roles : gmap string RoleTemplate) : Prop :=
  ∀ n t, roles !! n = Some t ↔
    ∃ t0, rtc (inherits (templates w)) rt t0 ∧ Name (rt_meta t0) = n ∧ t = clean_role t0.

(** The template and all it inherits are in the cache, without a chain of
    inheritance of length [fuel]. *)
Definition gatherable (fuel : nat) (name : string) (rt : RoleTemplate) (w : W) : Prop :=
  templates w !! ("", name) = Some rt ∧ closed_under (templates w) rt ∧
  ∀ t, ¬ nsteps (inherits (templates w)) fuel rt t.

Lemma clean_role_meta t : rt_meta (clean_role t) = rt_meta t.
Proof. unfold clean_role. by destruct (rt_External t). Qed.

Lemma gather_user fuel name rt w :
  gatherable fuel name rt w →
  ∃ roles, gatherRoles fuel rt ∅ w = (Ok roles, w) ∧ user_roles w rt roles ∧ filed roles.
Proof.
  intros (Hrt & Hc & Hno). destruct (gather_outcome fuel rt ∅ w Hc) as (r & Hr & Hg).
  destruct Hg as [(m & -> & Hcov & _)|(_ & t & Ht)]; [|by destruct (Hno t)].
  exists (clean_role <$> m). rewrite gather_same. unfold bind. rewrite Hr. split; [done|].
  assert (user_roles w rt (clean_role <$> m)) as Huser.
  { intros n t. rewrite lookup_fmap_Some. split.
    - intros (t0 & <- & Hm). exists t0. destruct (Hcov n) as [(t' & ? & ? & ?)|[_ Hn]]; [by simplify_eq|].
      by rewrite Hn in Hm.
    - intros (t0 & Ht & <- & ->). exists t0. split; [done|].
      destruct (Hcov (Name (rt_meta t0))) as [(t' & Ht' & Hname & ->)|[Hne _]]; [|by destruct (Hne t0)].
      f_equal. apply reached_cached with (name:=name) in Ht, Ht'; [|done..].
      rewrite Hname in Ht'. by simplify_eq. }
  split; [done|]. intros n t (t0 & Ht & <- & ->)%Huser. rewrite clean_role_meta. split; [done|].
  eapply reached_cached in Ht; [|done].
  apply (cached_named (O:=RoleTemplate) w ("", Name (rt_meta t0))). by exists t0.
Qed.

(** The state in which the roles are ensured and the one in which the bindings are. *)
Definition crtb_synced (binding : ClusterRoleTemplateBinding) (roles : gmap string RoleTemplate)
    (subject : Subject) (s s' : KState) : Prop :=
  ∃ s1, roles_ensured roles s s1 ∧
    bindings_ensured (O:=ClusterRoleBinding) "" (UID (crtb_meta binding)) roles subject s1 s'.

(** C2: a sync of a cluster role template binding gives every role of its
    template a cluster role with exactly its rules, and leaves, of the cluster
    role bindings with its label, exactly one for each of these roles, with its
    subject; all other bindings and roles are as they were.  With up-to-date
    caches it fails only if the API server does. *)
Theorem syncCRTB_correct fuel binding rt subject w :
  crtb_RoleTemplateName binding ≠ "" →
  UserRbac.buildSubjectFromRTB (rtb_cluster binding) = Ok subject →
  gatherable fuel (crtb_RoleTemplateName binding) rt w →
  in_sync_kind ClusterRole w → in_sync_kind ClusterRoleBinding w →
  in_scope (O:=ClusterRoleBinding) "" (view w) →
  wp (syncCRTB fuel binding)
    (if_ok (λ _ w', ∃ roles, user_roles w rt roles ∧
              crtb_synced binding roles subject (view w) (view w'))
       (λ _ _, ClientHealthy W ClusterRole → ¬ ClientHealthy W ClusterRoleBinding)) w.
Proof.
  intros Hne Hsub Hg Hcr Hcrb Hsc. unfold syncCRTB.
  destruct (String.eqb_spec (crtb_RoleTemplateName binding) "") as [|_]; [done|].
  assert (String.eqb (crtb_UserName binding) "" && String.eqb (crtb_GroupPrincipalName binding) "" &&
     String.eqb (crtb_GroupName binding) "" = false) as ->.
  { apply not_true_iff_false. rewrite !andb_true_iff. intros [[H1 H2] H3].
    unfold UserRbac.buildSubjectFromRTB, MgmtManager.buildSubjectFromRTB in Hsub.
    rewrite H1, H2, H3 in Hsub. simpl in Hsub. done. }
  apply wp_bind, wp_wrap_err, wp_reads. rewrite (get_template _ _ _ (proj1 Hg)). at_post.
  destruct (gather_user _ _ _ _ Hg) as (roles & Hrun & Huser & Hfiled).
  apply wp_bind. eapply wp_unfold; [exact Hrun|]. at_post.
  apply wp_bind, wp_wrap_err. eapply wp_mono.
  { apply (wp_ensureRoles (λ w1, in_sync_kind ClusterRoleBinding w1 ∧
      in_scope (O:=ClusterRoleBinding) "" (view w1))); [|done|done|].
    - intros w1 w2 [Hs1 Hs2] Hot Hcs. split.
      + by eapply (sync_undisturbed (A:=ClusterRole)); [other_kind|..].
      + unfold in_scope in *. simpl. unfold only_tbl in Hot. by rewrite Hot.
    - intros n t _ _. by rewrite (Hcr : s_ClusterRoles (cached w) = _). }
  intros [[]|e| |] w1 Hr; simpl in Hr; try done; at_post.
  2:{ intros Hh. destruct Hr as (_ & _ & Hno). done. }
  destruct Hr as ([Hs1 Hs2] & Hens). apply wp_wrap_err.
  eapply wp_mono; [apply (wp_ensureBindings (O:=ClusterRoleBinding) "" roles (rtb_cluster binding)
    (crtb_meta binding) subject w1 Hsub); [by intros k _; rewrite Hs1|done]|].
  intros [[]|e| |] w2 Hr; simpl in Hr; try done; at_post. destruct Hr as [Hr _]. exists roles. split; [done|]. by exists (view w1).
Qed.

(** Removing a cluster role template binding deletes the cluster role
    bindings with its label and nothing else. *)
Theorem ensureCRTBDelete_correct binding w :
  in_sync_kind ClusterRoleBinding w → in_scope (O:=ClusterRoleBinding) "" (view w) →
  wp (ensureCRTBDelete binding)
    (if_ok (λ _ w', only_tbl (O:=ClusterRoleBinding) (view w) (view w') ∧
              s_ClusterRoleBindings (view w') =
                filter (λ kv, Labels (crb_meta kv.2) !! rtbOwnerLabel ≠ Some (UID (crtb_meta binding)))
                  (s_ClusterRoleBindings (view w)))
       (λ _ _, ¬ ClientHealthy W ClusterRoleBinding)) w.
Proof.
  intros Hsync Hsc. unfold ensureCRTBDelete. apply wp_bind, wp_wrap_err, wp_reads.
  destruct (lister_list_law (O:=ClusterRoleBinding) "" {[ rtbOwnerLabel := UID (crtb_meta binding) ]} w)
    as (l & Hl & _).
  rewrite Hl. at_post.
  eapply wp_mono; [apply (wp_delete_each (O:=ClusterRoleBinding) "" (λ rb, Name (crb_meta rb))
    (λ rb, Wrapped ("error deleting clusterrolebinding " +:+ Name (crb_meta rb))))|].
  intros [[]|e| |] w' Hr; simpl in Hr; try done; at_post. destruct Hr as (Hot & Hgone & _).
  split; [done|].
  refine (gone_filter "" (λ o : ClusterRoleBinding,
    Labels (crb_meta o) !! rtbOwnerLabel = Some (UID (crtb_meta binding))) l _ _ _ _ _ Hgone).
  - exact (view_keyed w).
  - intros o. rewrite (elem_of_lister _ _ _ _ o Hl). unfold selects.
    rewrite map_singleton_subseteq_l, Hsync. simpl. tauto.
  - intros k o Ho _. destruct Hsc as [?|Hsc]; [done|]. by apply (Hsc k o).
Qed.

End crtb.

(** ** Witnesses: a binding of a user to the template of [MgmtRoles] *)

Definition demo_user_crtb : ClusterRoleTemplateBinding :=
  {| crtb_meta := {| Name := "crtb-1"; GenerateName := ""; Namespace := "c-1"; UID := "uid-1";
       ResourceVersion := ""; Labels := ∅; Annotations := ∅; OwnerReferences := [];
       CreationTimestamp := 0; DeletionTimestamp := None |};
     crtb_type := {| Kind := "ClusterRoleTemplateBinding"; APIVersion := "v3" |}; crtb_UserName := "u-1";
     crtb_UserPrincipalName := ""; crtb_GroupName := ""; crtb_GroupPrincipalName := "";
     crtb_ClusterName := "c-1"; crtb_RoleTemplateName := "owner" |}.

(** A binding left over from a role the template does not give any more. *)
Definition demo_leftover : ClusterRoleBinding :=
  {| crb_meta := named_meta "old" {[ rtbOwnerLabel := "uid-1" ]} ∅ [];
     crb_Subjects := [mkSubject "User" "u-1"];
     crb_RoleRef := {| rr_APIGroup := ""; rr_Kind := "ClusterRole"; rr_Name := "gone" |} |}.

Definition demo_user_cluster : Sim :=
  synced (set_s_ClusterRoleBindings {[ ("", "old") := demo_leftover ]} demo_state).

Lemma demo_user_lookups :
  s_RoleTemplates (cached demo_user_cluster) !! ("", "owner") = Some demo_owner ∧
  s_RoleTemplates (cached demo_user_cluster) !! ("", "member") = Some demo_member.
Proof. vm_compute. done. Qed.

Lemma demo_user_scope : in_scope (O:=ClusterRoleBinding) "" (view demo_user_cluster).
Proof.
  right. refine (bool_decide_eq_true_1 (map_Forall (λ k _, k.1 = "")
    (s_ClusterRoleBindings (view demo_user_cluster))) _). vm_compute. reflexivity.
Qed.

Lemma demo_gatherable : gatherable 2 "owner" demo_owner demo_user_cluster.
Proof.
  destruct demo_user_lookups as [Ho Hm].
  split_and!; [exact Ho|exact (demo_closed _ Hm)|exact (demo_depth _ Hm)].
Qed.

Lemma syncCRTB_correct_witness :
  ∃ w', syncCRTB 2 demo_user_crtb demo_user_cluster = (Ok tt, w') ∧
    ∃ roles, user_roles demo_user_cluster demo_owner roles ∧
      crtb_synced demo_user_crtb roles (mkSubject "User" "u-1") (view demo_user_cluster) (view w').
Proof.
  refine (run_ok _ _ _ demo_user_cluster tt (syncCRTB_correct 2 demo_user_crtb demo_owner
    (mkSubject "User" "u-1") demo_user_cluster _ _ demo_gatherable _ _ demo_user_scope) _);
    [done|reflexivity|reflexivity|reflexivity|vm_compute; reflexivity].
Defined.

Lemma ensureCRTBDelete_correct_witness :
  ∃ w', ensureCRTBDelete demo_user_crtb demo_user_cluster = (Ok tt, w') ∧
    only_tbl (O:=ClusterRoleBinding) (view demo_user_cluster) (view w') ∧
    s_ClusterRoleBindings (view w') =
      filter (λ kv, Labels (crb_meta kv.2) !! rtbOwnerLabel ≠ Some "uid-1")
        (s_ClusterRoleBindings (view demo_user_cluster)).
Proof.
  refine (run_ok _ _ _ demo_user_cluster tt (ensureCRTBDelete_correct demo_user_crtb
    demo_user_cluster _ demo_user_scope) _); [reflexivity|vm_compute; reflexivity].
Defined.
