(* ===== verification/UserGrants.v ===== *)
(** * RBAC of a user cluster: projects

    Theorems about [UserProjects] and the rest of [UserRbac]: which kinds of
    objects a handler may write, what a project role template binding and a
    namespace become, and what is left behind. *)

From stdpp Require Import base gmap list strings.
From S2P Require Import Prelude.
From S2P Require Import GoLib.
From S2P Require Import KubeTypes.
From S2P Require Import KubeObjects.
From S2P Require Import Kube.
From S2P Require Import KubeRules.
From S2P Require Import KubeSim.
From S2P Require Import Frame.
From S2P Require Import Cond.
From S2P Require Import MgmtManager.
From S2P Require Import MgmtRoles.
From S2P Require Import MgmtBindings.
From S2P Require Import MgmtUsers.
From S2P Require Import MgmtGlobal.
From S2P Require Import UserRbac.
From S2P Require Import UserProjects.
From S2P Require Import UserBindings.
Import UserRbac UserProjects.

(** ** What the handlers write *)

Section write_sets.
Context {W : Type} `{!GoRuntime W, !Kube W}.
Context `{!Client W ClusterRole, !Client W ClusterRoleBinding, !Client W RoleBinding,
          !Client W RoleTemplate, !Client W NamespaceObject, !Client W Cluster,
          !Client W GlobalRoleBinding,
          !Client W ProjectRoleTemplateBinding, !Client W ClusterRoleTemplateBinding}.
Context `{!ClientLaws W ClusterRole, !ClientLaws W ClusterRoleBinding, !ClientLaws W RoleBinding,
          !ClientLaws W RoleTemplate, !ClientLaws W NamespaceObject, !ClientLaws W Cluster,
          !ClientLaws W GlobalRoleBinding,
          !ClientLaws W ProjectRoleTemplateBinding, !ClientLaws W ClusterRoleTemplateBinding}.
Implicit Types (ks : list kind).

Lemma calm_subject b : calm (W:=W) (λ _, UserRbac.buildSubjectFromRTB b).
Proof.
  intros w. unfold UserRbac.buildSubjectFromRTB.
  destruct (buildSubject_returns b) as [[s ->]|[e ->]]; done.
Qed.
#[local] Hint Resolve calm_subject : frame.

Lemma safe_range_keys ks s : safe (W:=W) ks (range_keys s).
Proof. unfold range_keys. safe_solve. Qed.
#[local] Hint Resolve safe_range_keys : frame.

Lemma safe_ensureRoles ks rts : KClusterRole ∈ ks → safe (W:=W) ks (ensureRoles rts).
Proof. intros Hk. unfold ensureRoles, ensureRole. safe_solve. Qed.

Lemma safe_gatherRoles ks fuel rt acc : safe (W:=W) ks (gatherRoles fuel rt acc).
Proof.
  unfold gatherRoles. apply safe_bind; [|intros; apply safe_ret].
  revert rt acc. induction fuel as [|fuel IH]; intros rt acc; simpl; safe_solve.
Qed.
#[local] Hint Resolve safe_gatherRoles : frame.

Lemma safe_ensureBindings {O} `{!Binding O, !Stored O, !StoredLaws O, !KindOf O, !Client W O, !ClientLaws W O}
    ks ns roles b m :
  kind_of (O:=O) ∈ ks → safe (W:=W) ks (ensureBindings (O:=O) ns roles b m).
Proof.
  intros Hk. unfold ensureBindings, unless_not_found. safe_solve.
Qed.

Lemma safe_checkForGlobalResourceRules ks rt r : safe (W:=W) ks (checkForGlobalResourceRules rt r).
Proof. unfold checkForGlobalResourceRules. safe_solve. Qed.
#[local] Hint Resolve safe_checkForGlobalResourceRules : frame.

Lemma safe_promoteRole ks r rt verbs :
  KClusterRole ∈ ks → safe (W:=W) ks (reconcileRoleForProjectAccessToGlobalResource r rt verbs).
Proof.
  intros Hk. unfold reconcileRoleForProjectAccessToGlobalResource, UserRbac.buildRule.
  safe_solve.
Qed.

Lemma safe_syncCRTB fuel b : safe (W:=W) [KClusterRole; KClusterRoleBinding] (syncCRTB fuel b).
Proof.
  unfold syncCRTB, ensureClusterBindings. safe_solve.
  - apply safe_ensureRoles. set_solver.
  - apply safe_ensureBindings. set_solver.
Qed.

Lemma safe_ensureCRTBDelete b : safe (W:=W) [KClusterRoleBinding] (ensureCRTBDelete b).
Proof. unfold ensureCRTBDelete. safe_solve. Qed.

Lemma safe_rt_Updated fuel c rt : safe (W:=W) [KClusterRole] (rt_Updated fuel c rt).
Proof.
  unfold rt_Updated, syncRT. safe_solve.
  - apply safe_ensureRoles. set_solver.
  - apply safe_promoteRole. set_solver.
Qed.

Lemma safe_ensureRTDelete rt : safe (W:=W) [KClusterRole] (ensureRTDelete rt).
Proof. unfold ensureRTDelete. safe_solve. Qed.

Lemma safe_grb_Create b : safe (W:=W) [KClusterRoleBinding] (UserRbac.grb_Create b).
Proof. unfold UserRbac.grb_Create. safe_solve. Qed.

Lemma safe_grb_Remove b : safe (W:=W) [KClusterRoleBinding] (UserRbac.grb_Remove b).
Proof. unfold UserRbac.grb_Remove, unless_not_found. safe_solve. Qed.

Lemma safe_projectAccess b rts :
  safe (W:=W) [KClusterRole; KClusterRoleBinding] (reconcileProjectAccessToGlobalResources b rts).
Proof.
  unfold reconcileProjectAccessToGlobalResources, promote, own_binding. safe_solve.
  - apply safe_promoteRole. set_solver.
  - apply safe_ensureRoles. set_solver.
Qed.

Lemma safe_projectAccessForDelete b :
  safe (W:=W) [KClusterRoleBinding] (reconcileProjectAccessToGlobalResourcesForDelete b).
Proof.
  unfold reconcileProjectAccessToGlobalResourcesForDelete, unless_not_found. safe_solve.
Qed.

Lemma safe_weaken {A} ks ks' (m : M W A) : ks ⊆ ks' → safe ks m → safe ks' m.
Proof.
  intros Hks Hm w. destruct (Hm w) as [Ht ?]. split; [|done]. intros k Hk. apply Ht. set_solver.
Qed.

Lemma safe_syncPRTB fuel b :
  safe (W:=W) [KClusterRole; KRoleBinding; KClusterRoleBinding] (syncPRTB fuel b).
Proof.
  unfold syncPRTB, ensureProjectRoleBindings. safe_solve.
  - apply safe_ensureRoles. set_solver.
  - apply safe_ensureBindings. set_solver.
  - eapply safe_weaken; [|apply safe_projectAccess]. set_solver.
Qed.

Lemma safe_ensurePRTBDelete b :
  safe (W:=W) [KRoleBinding; KClusterRoleBinding] (ensurePRTBDelete b).
Proof.
  unfold ensurePRTBDelete, delete_rb. safe_solve.
  eapply safe_weaken; [|apply safe_projectAccessForDelete]. set_solver.
Qed.

Lemma safe_for_until {A} ks (f : A → M W bool) xs : (∀ x, safe ks (f x)) → safe ks (for_until f xs).
Proof.
  intros Hf. induction xs as [|x xs IH]; simpl; [apply safe_ret|].
  apply safe_bind; [done|]. by intros [].
Qed.

Lemma safe_nsRole ns : safe (W:=W) [KClusterRole] (reconcileNamespaceProjectClusterRole ns).
Proof.
  unfold reconcileNamespaceProjectClusterRole. apply safe_bind; [apply safe_range|]. intros kvs.
  apply safe_for_until. intros kv. unfold reconcileVerb, leaveRole, createProjectNSRole. safe_solve.
Qed.

Lemma safe_syncNS fuel ns : safe (W:=W) [KClusterRole; KRoleBinding] (syncNS fuel ns).
Proof.
  unfold syncNS, ensurePRTBAddToNamespace, addPRTB, delete_in, delete_rb, ensureProjectRoleBindings.
  safe_solve.
  - apply safe_ensureRoles. set_solver.
  - apply safe_ensureBindings. set_solver.
  - eapply safe_weaken; [|apply safe_nsRole]. set_solver.
Qed.

Lemma safe_project_Remove p : safe (W:=W) [KClusterRole; KNamespace] (UserProjects.project_Remove p).
Proof. unfold UserProjects.project_Remove, release_namespace, unless_not_found. safe_solve. Qed.

Lemma safe_DoUntilTrue {O} `{!Conditioned O} ks c (obj : O) (f : cond_step (W:=W)) :
  (∀ o, safe ks (f o)) → safe ks (DoUntilTrue c obj f).
Proof.
  assert (∀ g : string → O, safe (W:=W) ks (at_now g)) as Hnow by by intros g w.
  intros Hf. unfold DoUntilTrue, Do, doInternal. safe_solve.
Qed.

Lemma safe_project_Create c p :
  safe (W:=W) [KClusterRole; KNamespace; KCluster] (UserProjects.project_Create c p).
Proof.
  unfold UserProjects.project_Create, createProjectNSRole, ensureDefaultNamespaceAssigned. safe_solve.
  apply safe_DoUntilTrue. safe_solve.
Qed.

(** No handler of a user cluster panics, whatever the objects and the caches
    look like, and each changes objects of a few kinds only: cluster roles,
    bindings, and for projects the namespaces and the status of the cluster.
    Templates, template bindings, projects, users and tokens are never changed. *)
Theorem user_handlers_safe fuel clusterName crtb prtb rt grb ns project :
  safe (W:=W) [KClusterRole; KClusterRoleBinding] (crtb_Create fuel crtb) ∧
  safe (W:=W) [KClusterRoleBinding] (crtb_Remove crtb) ∧
  safe (W:=W) [KClusterRole; KRoleBinding; KClusterRoleBinding] (prtb_Create fuel prtb) ∧
  safe (W:=W) [KRoleBinding; KClusterRoleBinding] (prtb_Remove prtb) ∧
  safe (W:=W) [KClusterRole] (rt_Updated fuel clusterName rt) ∧
  safe (W:=W) [KClusterRole] (rt_Remove rt) ∧
  safe (W:=W) [KClusterRoleBinding] (UserRbac.grb_Create grb) ∧
  safe (W:=W) [KClusterRoleBinding] (UserRbac.grb_Remove grb) ∧
  safe (W:=W) [KClusterRole; KRoleBinding] (ns_Updated fuel ns) ∧
  safe (W:=W) [KClusterRole] (ns_Remove ns) ∧
  safe (W:=W) [KClusterRole; KNamespace; KCluster] (UserProjects.project_Create clusterName project) ∧
  safe (W:=W) [KClusterRole; KNamespace] (UserProjects.project_Remove project).
Proof.
  split_and!; try (apply safe_bind; [|intros; apply safe_ret]).
  - apply safe_syncCRTB.
  - apply safe_ensureCRTBDelete.
  - apply safe_syncPRTB.
  - apply safe_ensurePRTBDelete.
  - apply safe_rt_Updated.
  - apply safe_ensureRTDelete.
  - apply safe_grb_Create.
  - apply safe_grb_Remove.
  - apply safe_syncNS.
  - apply safe_nsRole.
  - apply safe_project_Create.
  - apply safe_project_Remove.
Qed.

End write_sets.

(** ** Project role template bindings *)

Section prtb.
Context {W : Type} `{!GoRuntime W, !GoRuntimeLaws W, !Kube W}.
Context `{!Client W ClusterRole, !Client W Role, !Client W ClusterRoleBinding, !Client W RoleBinding,
          !Client W RoleTemplate, !Client W NamespaceObject, !Client W Cluster,
          !Client W GlobalRoleBinding,
          !Client W ProjectRoleTemplateBinding, !Client W ClusterRoleTemplateBinding}.
Context `{!ClientLaws W ClusterRole, !ClientLaws W ClusterRoleBinding, !ClientLaws W RoleBinding,
          !ClientLaws W RoleTemplate, !ClientLaws W NamespaceObject, !ClientLaws W Cluster,
          !ClientLaws W GlobalRoleBinding,
          !ClientLaws W ProjectRoleTemplateBinding, !ClientLaws W ClusterRoleTemplateBinding}.
Implicit Types (w : W) (rb : RoleBinding) (t : gmap nsname RoleBinding).

(** In the namespace [ns] the template binding [uid] has one role binding for
    each role, and no other. *)
Definition exact_in (uid : string) (roles : gmap string RoleTemplate) (subject : Subject)
    (ns : string) (t : gmap nsname RoleBinding) : Prop :=
  (∀ k rb, t !! k = Some rb → owned ns uid rb → ∃ key, bkey rb = Some key ∧ wanted roles subject key) ∧
  (∀ key, wanted roles subject key →
     ∃ k rb, t !! k = Some rb ∧ owned ns uid rb ∧ bkey rb = Some key ∧
       ∀ k' rb', t !! k' = Some rb' → owned ns uid rb' → bkey rb' = Some key → k' = k).

Lemma exact_in_ext uid roles subject ns t t' :
  (∀ k rb, owned ns uid rb → t !! k = Some rb ↔ t' !! k = Some rb) →
  exact_in uid roles subject ns t → exact_in uid roles subject ns t'.
Proof.
  intros Heq [H1 H2]. split.
  - intros k rb Hk Hown. apply (H1 k); [|done]. by apply Heq.
  - intros key (k & rb & Hk & Hown & Hb & Hu)%H2. exists k, rb.
    split_and!; [by apply Heq|done|done|]. intros k' rb' Hk' Hown'. apply Hu; [|done].
    by apply Heq.
Qed.

(** The role bindings not of [uid], or not in one of the namespaces, are the same. *)
Definition others_in (uid : string) (names : list string) (t t' : gmap nsname RoleBinding) : Prop :=
  ∀ k rb, (∀ ns, ns ∈ names → ¬ owned ns uid rb) → t' !! k = Some rb ↔ t !! k = Some rb.

(** The loop over the namespaces of a project. *)
Lemma wp_bind_namespaces (msg : NamespaceObject → string) roles binding subject
    (nss : list NamespaceObject) w :
  let names := (λ ns, Name (ns_meta ns)) <$> nss in
  let uid := UID (prtb_meta binding) in
  UserRbac.buildSubjectFromRTB (rtb_project binding) = Ok subject →
  in_sync_kind RoleBinding w → NoDup names → (∀ n, n ∈ names → n ≠ "") →
  wp (for_each (λ ns, wrap_err (msg ns)
        (ensureProjectRoleBindings (Name (ns_meta ns)) roles binding)) nss)
    (if_ok (λ _ w', only_tbl (O:=RoleBinding) (view w) (view w') ∧
              (∀ n, n ∈ names → exact_in uid roles subject n (s_RoleBindings (view w'))) ∧
              others_in uid names (s_RoleBindings (view w)) (s_RoleBindings (view w')))
       (λ _ _, ¬ ClientHealthy W RoleBinding)) w.
Proof.
  intros names uid Hsub Hsync Hnd Hnz.
  pose (inv := λ (don : list NamespaceObject) (w' : W),
    let dn := (λ ns, Name (ns_meta ns)) <$> don in
    only_tbl (O:=RoleBinding) (view w) (view w') ∧
    (∀ n, n ∈ dn → exact_in uid roles subject n (s_RoleBindings (view w'))) ∧
    others_in uid dn (s_RoleBindings (view w)) (s_RoleBindings (view w')) ∧
    (∀ k : nsname, k.1 ∉ dn → s_RoleBindings (cached w') !! k = s_RoleBindings (view w') !! k)).
  eapply wp_mono; [apply (wp_for_each inv (λ _ _, ¬ ClientHealthy W RoleBinding))|].
  - split_and!; [apply only_tbl_refl|by intros n ?%not_elem_of_nil|done|].
    intros k _. by rewrite (Hsync : s_RoleBindings (cached w) = _).
  - intros don ns rest w1 Heq (Hot & Hex & Hoth & Hs). set (n := Name (ns_meta ns)).
    assert (n ∈ names) as Hin.
    { unfold names. rewrite Heq, fmap_app. apply elem_of_app. right. by left. }
    assert (n ∉ (λ ns, Name (ns_meta ns)) <$> don) as Hnew.
    { unfold names in Hnd. rewrite Heq, fmap_app in Hnd. apply NoDup_app in Hnd as (_ & Hdis & _).
      intros Hd. apply (Hdis _ Hd). by left. }
    apply wp_wrap_err. eapply wp_mono.
    { apply (wp_ensureBindings (O:=RoleBinding) n roles (rtb_project binding) (prtb_meta binding)
        subject w1 Hsub).
      - intros k [?|<-]; [by destruct (Hnz n Hin)|]. by apply Hs.
      - left. by apply Hnz. }
    intros [[]|e| |] w2 Hr; simpl in Hr; try done; at_post.
    destruct Hr as ((Hot2 & Hoth2 & Hex1 & Hex2) & HI).
    assert (∀ n' rb, n' ∈ names → n' ≠ n → owned n' uid rb → ¬ owned n uid rb) as Hdis.
    { intros n' rb Hn' Hne [[->|Ho] _] [[?|Ho'] _]; [by destruct (Hnz "")..| |congruence].
      by destruct (Hnz n). }
    split_and!.
    + exact (only_tbl_trans (O:=RoleBinding) _ _ _ Hot Hot2).
    + intros n' Hn'. rewrite fmap_app in Hn'.
      apply elem_of_app in Hn' as [Hn'| ->%list_elem_of_singleton]; [|by split].
      assert (n' ≠ n) as Hne by by intros ->.
      eapply exact_in_ext; [|by apply Hex]. intros k rb Hown. symmetry.
      apply (Hoth2 k rb). apply (Hdis n' rb); [|done|done].
      unfold names. rewrite Heq, fmap_app. apply elem_of_app. by left.
    + intros k rb Hno. rewrite <-(Hoth k rb).
      * apply (Hoth2 k rb). apply Hno. rewrite fmap_app. apply elem_of_app. right. by left.
      * intros n' Hn'. apply Hno. rewrite fmap_app. apply elem_of_app. by left.
    + intros k Hk. rewrite fmap_app in Hk.
      apply (HI (λ w', s_RoleBindings (cached w') !! k = s_RoleBindings (view w') !! k)).
      * intros wa wb Hwa _ Hv Hcs. refine (cache_step_sync (O:=RoleBinding) wa wb k Hcs _ Hwa).
        apply Hv. intros Hk1. apply Hk, elem_of_app. right. by apply list_elem_of_singleton.
      * apply Hs. intros ?. apply Hk, elem_of_app. by left.
  - intros [[]|e| |] w' Hr; simpl in *; try done. by destruct Hr as (? & ? & ? & _).
Qed.

(** The namespaces of a project, in the cache. *)
Definition project_namespaces (id : string) (w : W) (n : string) : Prop :=
  ∃ ns, s_Namespaces (cached w) !! ("", n) = Some ns ∧
    Annotations (ns_meta ns) !! projectIDAnnotation = Some id.

Lemma indexed_namespaces id l w :
  in_scope (O:=NamespaceObject) "" (cached w) → ByIndex nsByProjectID id w = Ok l →
  let names := (λ ns, Name (ns_meta ns)) <$> l in
  NoDup names ∧ (∀ n, n ∈ names ↔ project_namespaces id w n) ∧ ∀ n, n ∈ names → n ≠ "".
Proof.
  intros Hsc Hl names.
  assert (∀ ns, ns ∈ l ↔ s_Namespaces (cached w) !! ("", Name (ns_meta ns)) = Some ns ∧
    Annotations (ns_meta ns) !! projectIDAnnotation = Some id) as Hin.
  { intros ns. rewrite (elem_of_index _ _ _ _ ns Hl). unfold nsByProjectID, obj_key. simpl.
    assert (s_Namespaces (cached w) !! (Namespace (ns_meta ns), Name (ns_meta ns)) = Some ns ↔
      s_Namespaces (cached w) !! ("", Name (ns_meta ns)) = Some ns) as ->.
    { destruct Hsc as [?|Hsc]; [done|]. split; intros Hk; [|].
      - specialize (Hsc _ _ Hk). simpl in Hsc. by rewrite <-Hsc at 1.
      - pose proof (cached_keyed (O:=NamespaceObject) w _ _ Hk) as Hkey.
        unfold obj_key in Hkey. simpl in Hkey. by rewrite <-Hkey. }
    destruct (Annotations (ns_meta ns) !! projectIDAnnotation) as [i|].
    - rewrite list_elem_of_singleton. naive_solver.
    - rewrite elem_of_nil. naive_solver. }
  assert (∀ n, n ∈ names ↔ project_namespaces id w n) as Hnames.
  { intros n. unfold names. rewrite list_elem_of_fmap. split.
    - intros (ns & -> & Hns%Hin). by exists ns.
    - intros (ns & Hk & Ha). pose proof (cached_keyed (O:=NamespaceObject) w _ _ Hk) as Hkey.
      unfold obj_key in Hkey. simplify_eq/=. exists ns. split; [done|]. by apply Hin. }
  split_and!; [|done|].
  - destruct (by_index_law nsByProjectID id w) as (l' & Hl' & Hp). rewrite Hl in Hl'. injection Hl' as <-.
    assert (NoDup (obj_key <$> l)) as Hnd.
    { rewrite Hp. apply NoDup_fmap_filter, NoDup_values, cached_keyed. }
    assert (obj_key <$> l = pair "" <$> names) as Heq.
    { unfold names. rewrite <-list_fmap_compose. apply list_fmap_ext. intros i ns Hi. simpl.
      assert (ns ∈ l) as [Hk _]%Hin by (apply list_elem_of_lookup; eauto).
      pose proof (cached_keyed (O:=NamespaceObject) w _ _ Hk) as Hkey. by rewrite <-Hkey. }
    rewrite Heq in Hnd. by eapply NoDup_fmap_1.
  - intros n (ns & Hk & _)%Hnames. apply (cached_named (O:=NamespaceObject) w ("", n)). by exists ns.
Qed.

(** What a sync of a project role template binding leaves: a cluster role for
    every role, in every namespace of the project one role binding for each of
    them; then only cluster roles and cluster role bindings change. *)
Definition prtb_synced (binding : ProjectRoleTemplateBinding) (roles : gmap string RoleTemplate)
    (subject : Subject) (names : string → Prop) (s s' : KState) : Prop :=
  let uid := UID (prtb_meta binding) in
  (∃ s1, roles_ensured roles s s1 ∧ touches [KClusterRole; KClusterRoleBinding; KRoleBinding] s1 s') ∧
  (∀ n, names n → exact_in uid roles subject n (s_RoleBindings s')) ∧
  ∀ k rb, (∀ n, names n → ¬ owned n uid rb) →
    s_RoleBindings s' !! k = Some rb ↔ s_RoleBindings s !! k = Some rb.

(** C4: a sync of a project role template binding gives every role of its
    template a cluster role and leaves in every namespace of the project, of the
    role bindings with its label, exactly one for each role, with its subject;
    other role bindings are as they were.  This holds whatever the outcome of the
    last step, the access to resources without a namespace, unless the API server
    refuses a request it could serve. *)
Theorem syncPRTB_correct fuel binding rt subject w :
  prtb_RoleTemplateName binding ≠ "" →
  UserRbac.buildSubjectFromRTB (rtb_project binding) = Ok subject →
  gatherable fuel (prtb_RoleTemplateName binding) rt w →
  in_sync_kind ClusterRole w → in_sync_kind RoleBinding w →
  in_scope (O:=NamespaceObject) "" (cached w) →
  wp (syncPRTB fuel binding)
    (λ _ w', (∃ roles, user_roles w rt roles ∧
        prtb_synced binding roles subject (project_namespaces (prtb_ProjectName binding) w)
          (view w) (view w')) ∨
      (ClientHealthy W ClusterRole → ¬ ClientHealthy W RoleBinding)) w.
Proof.
  intros Hne Hsub Hg Hcr Hrb Hsc. unfold syncPRTB.
  destruct (String.eqb_spec (prtb_RoleTemplateName binding) "") as [|_]; [done|].
  assert (String.eqb (prtb_UserName binding) "" && String.eqb (prtb_GroupPrincipalName binding) "" &&
     String.eqb (prtb_GroupName binding) "" = false) as ->.
  { apply not_true_iff_false. rewrite !andb_true_iff. intros [[H1 H2] H3].
    unfold UserRbac.buildSubjectFromRTB, MgmtManager.buildSubjectFromRTB in Hsub.
    rewrite H1, H2, H3 in Hsub. simpl in Hsub. done. }
  apply wp_bind, wp_wrap_err, wp_reads. rewrite (get_template _ _ _ (proj1 Hg)). at_post.
  apply wp_bind, wp_wrap_err, wp_reads.
  destruct (by_index_law nsByProjectID (prtb_ProjectName binding) w) as (l & Hl & _).
  rewrite Hl. at_post. destruct (indexed_namespaces _ _ _ Hsc Hl) as (Hnd & Hnames & Hnz).
  destruct (gather_user _ _ _ _ Hg) as (roles & Hrun & Huser & Hfiled).
  apply wp_bind. eapply wp_unfold; [exact Hrun|]. at_post.
  apply wp_bind, wp_wrap_err. eapply wp_mono.
  { apply (wp_ensureRoles (in_sync_kind RoleBinding)); [|done|done|].
    - intros w1 w2 Hs1 Hot Hcs. by eapply (sync_undisturbed (A:=ClusterRole)); [other_kind|..].
    - intros n t _ _. by rewrite (Hcr : s_ClusterRoles (cached w) = _). }
  intros [[]|e| |] w1 Hr; simpl in Hr; try done; at_post.
  2:{ right. intros Hh. destruct Hr as (_ & _ & Hno). done. }
  destruct Hr as (Hs1 & Hens). apply wp_bind. eapply wp_mono; [by apply (wp_bind_namespaces _ roles binding subject)|].
  intros [[]|e| |] w2 Hr; simpl in Hr; try done; at_post; [|right; intros _; exact Hr].
  destruct Hr as (Hot2 & Hex & Hoth). left. exists roles. split; [done|].
  pose proof (safe_projectAccess binding roles w2) as [Htouch _].
  destruct (reconcileProjectAccessToGlobalResources binding roles w2) as [r w3]. simpl in *.
  assert (s_RoleBindings (view w3) = s_RoleBindings (view w2)) as Hrb3
    by (apply (Htouch KRoleBinding); set_solver).
  assert (s_RoleBindings (view w1) = s_RoleBindings (view w)) as Hrb1.
  { destruct Hens as [[Hot _] _]. unfold only_tbl in Hot. by rewrite Hot. }
  split_and!.
  - exists (view w1). split; [done|]. transitivity (view w2).
    + eapply (touches_only (O:=RoleBinding)); [set_solver|done].
    + intros k Hk. apply Htouch. set_solver.
  - intros n Hn. rewrite Hrb3. apply Hex. by apply Hnames.
  - intros k rb Hno. rewrite Hrb3, <-Hrb1. apply Hoth. intros n Hn. by apply Hno, Hnames.
Qed.

(** *** Removal *)

(** The role bindings of [uid] in the namespaces [names]. *)
Definition bound_in (uid : string) (names : list string) (kv : nsname * RoleBinding) : Prop :=
  kv.1.1 ∈ names ∧ Labels (rb_meta kv.2) !! rtbOwnerLabel = Some uid.

#[local] Instance bound_in_dec uid names kv : Decision (bound_in uid names kv).
Proof. unfold bound_in. apply _. Defined.

Lemma unbind_snoc (uid : string) (names : list string) (n : string) (t : gmap nsname RoleBinding) :
  well_keyed t →
  filter (λ kv, ¬ (Namespace (rb_meta kv.2) = n ∧ Labels (rb_meta kv.2) !! rtbOwnerLabel = Some uid))
    (filter (λ kv, ¬ bound_in uid names kv) t) =
  filter (λ kv, ¬ bound_in uid (names ++ [n]) kv) t.
Proof.
  intros Hwk. rewrite map_filter_filter. apply map_filter_ext. intros k rb Hk.
  pose proof (Hwk _ _ Hk) as ->. unfold bound_in, obj_key. simpl.
  rewrite elem_of_app, list_elem_of_singleton. tauto.
Qed.

Lemma wp_unbind_namespaces uid (nss : list NamespaceObject) w :
  let names := (λ ns, Name (ns_meta ns)) <$> nss in
  in_sync_kind RoleBinding w → NoDup names → (∀ n, n ∈ names → n ≠ "") →
  wp (for_each (λ ns,
        let* rbs := wrap_err "couldn't list rolebindings with selector"
                      (reads (lister_List (Name (ns_meta ns)) {[ rtbOwnerLabel := uid ]})) in
        for_each (λ rb : RoleBinding,
          delete_rb "error deleting rolebinding " (Name (ns_meta ns)) (Name (rb_meta rb))) rbs) nss)
    (if_ok (λ _ w', only_tbl (O:=RoleBinding) (view w) (view w') ∧
              s_RoleBindings (view w') = filter (λ kv, ¬ bound_in uid names kv) (s_RoleBindings (view w)))
       (λ _ _, ¬ ClientHealthy W RoleBinding)) w.
Proof.
  intros names Hsync Hnd Hnz.
  pose (inv := λ (don : list NamespaceObject) (w' : W),
    let dn := (λ ns, Name (ns_meta ns)) <$> don in
    only_tbl (O:=RoleBinding) (view w) (view w') ∧
    s_RoleBindings (view w') = filter (λ kv, ¬ bound_in uid dn kv) (s_RoleBindings (view w)) ∧
    (∀ k : nsname, k.1 ∉ dn → s_RoleBindings (cached w') !! k = s_RoleBindings (view w') !! k)).
  eapply wp_mono; [apply (wp_for_each inv (λ _ _, ¬ ClientHealthy W RoleBinding))|].
  - split_and!; [apply only_tbl_refl| |].
    + symmetry. apply map_filter_id. intros k rb _ [?%not_elem_of_nil _]. done.
    + intros k _. by rewrite (Hsync : s_RoleBindings (cached w) = _).
  - intros don ns rest w1 Heq (Hot & Ht & Hs). set (n := Name (ns_meta ns)).
    assert (n ∉ (λ ns, Name (ns_meta ns)) <$> don) as Hnew.
    { unfold names in Hnd. rewrite Heq, fmap_app in Hnd. apply NoDup_app in Hnd as (_ & Hdis & _).
      intros Hd. apply (Hdis _ Hd). by left. }
    assert (n ≠ "") as Hn0.
    { apply Hnz. unfold names. rewrite Heq, fmap_app. apply elem_of_app. right. by left. }
    apply wp_bind, wp_wrap_err, wp_reads.
    destruct (lister_list_law (O:=RoleBinding) n {[ rtbOwnerLabel := uid ]} w1) as (l & Hl & _).
    rewrite Hl. at_post. unfold delete_rb.
    eapply wp_mono; [apply (wp_delete_each (O:=RoleBinding) n (λ rb, Name (rb_meta rb))
      (λ rb, Wrapped ("error deleting rolebinding " +:+ Name (rb_meta rb))))|].
    intros [[]|e| |] w2 Hr; simpl in Hr; try done; at_post. destruct Hr as (Hot2 & Hgone & HI).
    split_and!.
    + exact (only_tbl_trans (O:=RoleBinding) _ _ _ Hot Hot2).
    + rewrite fmap_app. simpl. rewrite <-(unbind_snoc uid _ n) by exact (view_keyed (O:=RoleBinding) w).
      rewrite <-Ht.
      refine (gone_filter n (λ rb : RoleBinding, Namespace (rb_meta rb) = n ∧
        Labels (rb_meta rb) !! rtbOwnerLabel = Some uid) l _ _ _ _ _ Hgone).
      * exact (view_keyed w1).
      * intros rb. rewrite (elem_of_lister _ _ _ _ rb Hl). unfold selects.
        rewrite map_singleton_subseteq_l. split; (intros [Hk [Hns Hlab]]; split).
        -- destruct Hns as [?|Hns]; [done|]. rewrite <-Hk. symmetry. apply Hs. unfold obj_key. simpl in *. by rewrite Hns.
        -- by destruct Hns.
        -- rewrite <-Hk. apply Hs. unfold obj_key. simpl in *. by rewrite Hns.
        -- by split; [right|].
      * intros k rb Hk [Hns _]. pose proof (view_keyed (O:=RoleBinding) w1 k rb Hk) as ->. exact Hns.
    + intros k Hk. rewrite fmap_app in Hk.
      apply (HI (λ w', s_RoleBindings (cached w') !! k = s_RoleBindings (view w') !! k)).
      * intros wa wb Hwa _ Hv Hcs. refine (cache_step_sync (O:=RoleBinding) wa wb k Hcs _ Hwa).
        apply Hv. intros Hk1. apply Hk, elem_of_app. right. by apply list_elem_of_singleton.
      * apply Hs. intros ?. apply Hk, elem_of_app. by left.
  - intros [[]|e| |] w' Hr; simpl in *; try done. by destruct Hr as (? & ? & _).
Qed.

(** Removing a project role template binding deletes the role bindings with
    its label in the namespaces of the project, and no other role binding,
    whatever the outcome of the last step, unless the API server refuses a
    request it could serve. *)
Theorem ensurePRTBDelete_correct binding w :
  in_sync_kind RoleBinding w → in_scope (O:=NamespaceObject) "" (cached w) →
  wp (ensurePRTBDelete binding)
    (λ _ w', ¬ ClientHealthy W RoleBinding ∨
       ∀ k rb, s_RoleBindings (view w') !! k = Some rb ↔
         s_RoleBindings (view w) !! k = Some rb ∧
         ¬ (project_namespaces (prtb_ProjectName binding) w k.1 ∧
            Labels (rb_meta rb) !! rtbOwnerLabel = Some (UID (prtb_meta binding)))) w.
Proof.
  intros Hsync Hsc. unfold ensurePRTBDelete. apply wp_bind, wp_wrap_err, wp_reads.
  destruct (by_index_law nsByProjectID (prtb_ProjectName binding) w) as (l & Hl & _).
  rewrite Hl. at_post. destruct (indexed_namespaces _ _ _ Hsc Hl) as (Hnd & Hnames & Hnz).
  apply wp_bind. eapply wp_mono; [by apply wp_unbind_namespaces|].
  intros [[]|e| |] w1 Hr; simpl in Hr; try done; at_post; [|by left]. destruct Hr as (_ & Ht).
  right. pose proof (safe_projectAccessForDelete binding w1) as [Htouch _].
  destruct (reconcileProjectAccessToGlobalResourcesForDelete binding w1) as [r w2]. simpl in *.
  assert (s_RoleBindings (view w2) = s_RoleBindings (view w1)) as ->
    by (apply (Htouch KRoleBinding); set_solver).
  intros k rb. rewrite Ht, map_lookup_filter_Some. unfold bound_in. simpl. by rewrite Hnames.
Qed.

(** The last step of the removal of a project role template binding sends no
    request as long as the cache shows another binding of the same project and
    subject that is not being deleted, whichever role that one is for: every
    cluster role binding made for the removed one stays, its label included. *)
Theorem prtb_access_kept binding other w :
  s_ProjectRoleTemplateBindings (cached w) !! obj_key other = Some other →
  getPRTBProjectAndSubjectKey other = getPRTBProjectAndSubjectKey binding →
  DeletionTimestamp (prtb_meta other) = None →
  reconcileProjectAccessToGlobalResourcesForDelete binding w = (Ok tt, w).
Proof.
  intros Ho Hkey Hlive. unfold reconcileProjectAccessToGlobalResourcesForDelete, bind, reads.
  destruct (by_index_law prtbByProjectAndSubject (getPRTBProjectAndSubjectKey binding) w)
    as (l & Hl & _).
  rewrite Hl. assert (existsb (λ pr, bool_decide (DeletionTimestamp (prtb_meta pr) = None)) l = true)
    as ->; [|done].
  apply existsb_exists. exists other. split; [|by apply bool_decide_eq_true_2].
  apply list_elem_of_In, (elem_of_index _ _ _ _ other Hl). split; [exact Ho|].
  unfold prtbByProjectAndSubject. rewrite Hkey. by left.
Qed.

End prtb.

(** ** Witnesses *)

Lemma user_handlers_safe_witness :
  safe (W:=Sim) [KClusterRole; KClusterRoleBinding] (crtb_Create 2 demo_user_crtb) ∧
  safe (W:=Sim) [KClusterRoleBinding] (crtb_Remove demo_user_crtb).
Proof.
  destruct (user_handlers_safe (W:=Sim) 2 "c-1" demo_user_crtb demo_removed_prtb demo_owner
    (demo_grb "grb-1" "u-1") {| ns_meta := no_meta; ns_Phase := "" |} demo_p1) as (H1 & H2 & _).
  exact (conj H1 H2).
Defined.

(** A project with one namespace, which has a binding from a former role. *)
Definition demo_ns (name project : string) : NamespaceObject :=
  {| ns_meta := named_meta name ∅ {[ projectIDAnnotation := project ]} []; ns_Phase := "Active" |}.

Definition demo_user_prtb (name role : string) : ProjectRoleTemplateBinding :=
  {| prtb_meta := at_ns "p-1" name "uid-1" ∅;
     prtb_type := {| Kind := "ProjectRoleTemplateBinding"; APIVersion := "v3" |}; prtb_UserName := "u-1";
     prtb_UserPrincipalName := ""; prtb_GroupName := ""; prtb_GroupPrincipalName := "";
     prtb_ProjectName := "c-1:p-1"; prtb_RoleTemplateName := role |}.

Definition demo_former : RoleBinding :=
  {| rb_meta := at_ns "web" "old" "" {[ rtbOwnerLabel := "uid-1" ]};
     rb_Subjects := [mkSubject "User" "u-1"];
     rb_RoleRef := {| rr_APIGroup := ""; rr_Kind := "ClusterRole"; rr_Name := "gone" |} |}.

Definition demo_project_cluster : Sim :=
  synced (set_s_Namespaces {[ ("", "web") := demo_ns "web" "c-1:p-1" ]}
    (set_s_RoleBindings {[ ("web", "old") := demo_former ]}
       (set_s_ProjectRoleTemplateBindings
          {[ ("p-1", "prtb-1") := demo_user_prtb "prtb-1" "owner";
             ("p-1", "prtb-2") := demo_user_prtb "prtb-2" "member" ]} demo_state))).

Lemma demo_project_scope : in_scope (O:=NamespaceObject) "" (cached demo_project_cluster).
Proof.
  right. refine (bool_decide_eq_true_1 (map_Forall (λ k _, k.1 = "")
    (s_Namespaces (cached demo_project_cluster))) _). vm_compute. reflexivity.
Qed.

Lemma demo_project_gatherable : gatherable 2 "owner" demo_owner demo_project_cluster.
Proof.
  assert (s_RoleTemplates (cached demo_project_cluster) !! ("", "member") = Some demo_member) as Hm
    by (vm_compute; reflexivity).
  split_and!; [vm_compute; reflexivity|exact (demo_closed _ Hm)|exact (demo_depth _ Hm)].
Qed.

Lemma syncPRTB_correct_witness :
  wp (syncPRTB 2 (demo_user_prtb "prtb-1" "owner"))
    (λ _ w', (∃ roles, user_roles demo_project_cluster demo_owner roles ∧
        prtb_synced (demo_user_prtb "prtb-1" "owner") roles (mkSubject "User" "u-1")
          (project_namespaces "c-1:p-1" demo_project_cluster) (view demo_project_cluster) (view w')) ∨
      (ClientHealthy Sim ClusterRole → ¬ ClientHealthy Sim RoleBinding)) demo_project_cluster.
Proof.
  refine (syncPRTB_correct 2 (demo_user_prtb "prtb-1" "owner") demo_owner (mkSubject "User" "u-1")
    demo_project_cluster _ _ demo_project_gatherable _ _ demo_project_scope);
    [done|reflexivity|reflexivity|reflexivity].
Defined.

Lemma ensurePRTBDelete_correct_witness :
  wp (ensurePRTBDelete (demo_user_prtb "prtb-1" "owner"))
    (λ _ w', ¬ ClientHealthy Sim RoleBinding ∨
       ∀ k rb, s_RoleBindings (view w') !! k = Some rb ↔
         s_RoleBindings (view demo_project_cluster) !! k = Some rb ∧
         ¬ (project_namespaces "c-1:p-1" demo_project_cluster k.1 ∧
            Labels (rb_meta rb) !! rtbOwnerLabel = Some "uid-1")) demo_project_cluster.
Proof.
  refine (ensurePRTBDelete_correct (demo_user_prtb "prtb-1" "owner") demo_project_cluster _
    demo_project_scope). reflexivity.
Defined.

Lemma prtb_access_kept_witness :
  reconcileProjectAccessToGlobalResourcesForDelete (demo_user_prtb "prtb-1" "owner")
    demo_project_cluster = (Ok tt, demo_project_cluster).
Proof.
  apply (prtb_access_kept (demo_user_prtb "prtb-1" "owner") (demo_user_prtb "prtb-2" "member"));
    [vm_compute; reflexivity|reflexivity|reflexivity].
Defined.
