(* ===== verification/UserNamespaces.v ===== *)
(** * RBAC of a user cluster: namespaces

    Theorems about the cluster roles of [UserProjects] that list the namespaces of
    a project, about the removal of a project, and about global administrators. *)

From stdpp Require Import base gmap list strings.
From S2P Require Import Prelude.
From S2P Require Import GoLib.
From S2P Require Import KubeTypes.
From S2P Require Import KubeObjects.
From S2P Require Import Kube.
From S2P Require Import KubeRules.
From S2P Require Import KubeSim.
From S2P Require Import Frame.
From S2P Require Import Cond.
From S2P Require Import MgmtManager.
From S2P Require Import MgmtRoles.
From S2P Require Import MgmtBindings.
From S2P Require Import MgmtUsers.
From S2P Require Import MgmtGlobal.
From S2P Require Import UserRbac.
From S2P Require Import UserProjects.
From S2P Require Import UserBindings.
From S2P Require Import UserGrants.
Import UserRbac UserProjects.

(** ** Rules that name a namespace *)

(** The role lets its users do [verb] on the namespace [n] by name. *)
Definition grants (verb n : string) (cr : ClusterRole) : Prop :=
  ∃ r, r ∈ cr_Rules cr ∧ verb ∈ Verbs r ∧ "namespaces" ∈ Resources r ∧ n ∈ ResourceNames r.

Lemma names_ns_true verb n r :
  names_ns verb n r = true ↔ verb ∈ Verbs r ∧ "namespaces" ∈ Resources r ∧ n ∈ ResourceNames r.
Proof. unfold names_ns. rewrite !andb_true_iff, !ContainsString_true. tauto. Qed.

Lemma grants_existsb verb n cr : existsb (names_ns verb n) (cr_Rules cr) = true ↔ grants verb n cr.
Proof.
  rewrite existsb_exists. unfold grants. setoid_rewrite names_ns_true.
  by setoid_rewrite list_elem_of_In.
Qed.

(** A role made for the namespaces of a project. *)
Definition project_role (cr : ClusterRole) : Prop := is_Some (Annotations (cr_meta cr) !! projectNSAnn).

Lemma granted_indexed verb n cr :
  project_role cr → verb = "get" ∨ verb = "*" → grants verb n cr → n ∈ crByNS cr.
Proof.
  intros [a Ha] Hv (r & Hr & Hverb & Hres & Hn). unfold crByNS. rewrite Ha.
  apply list_elem_of_In, in_flat_map. exists r. split; [by apply list_elem_of_In|].
  assert (ContainsString (Resources r) "namespaces" &&
    (ContainsString (Verbs r) "get" || ContainsString (Verbs r) "*") = true) as ->.
  { rewrite andb_true_iff, orb_true_iff, !ContainsString_true. by destruct Hv as [->| ->]; auto. }
  by apply list_elem_of_In.
Qed.

Lemma indexed_project_role n cr : n ∈ crByNS cr → project_role cr.
Proof.
  unfold crByNS, project_role. destruct (Annotations (cr_meta cr) !! projectNSAnn); [eauto|].
  by intros ?%not_elem_of_nil.
Qed.

Section rules.
Context (verb ns : string).
Implicit Types (rules : list PolicyRule) (r : PolicyRule).

Definition cut_rules rules : list PolicyRule :=
  List.filter (λ r, negb (Nat.eqb (length (ResourceNames r)) 0))
    (map (λ r, if names_ns verb ns r then cut_name ns r else r) rules).

Lemma elem_of_cut_name n r : n ∈ ResourceNames (cut_name ns r) ↔ n ∈ ResourceNames r ∧ n ≠ ns.
Proof.
  simpl. rewrite list_elem_of_In, filter_In, negb_true_iff, String.eqb_neq, list_elem_of_In. done.
Qed.

(** The role [cr] names [n] with the verb [v] in a rule that keeps it. *)
Definition survives (v n : string) (cr : ClusterRole) : Prop :=
  ∃ r, r ∈ cr_Rules cr ∧ v ∈ Verbs r ∧ "namespaces" ∈ Resources r ∧ n ∈ ResourceNames r ∧
    (n = ns → names_ns verb ns r = false).

Lemma cut_grants v n cr m :
  grants v n {| cr_meta := m; cr_Rules := cut_rules (cr_Rules cr) |} ↔ survives v n cr.
Proof.
  unfold grants, survives, cut_rules. simpl. split.
  - intros (r & Hr & Hv & Hres & Hn). apply list_elem_of_In, filter_In in Hr as [Hr _].
    apply in_map_iff in Hr as (r0 & <- & Hr0%list_elem_of_In). exists r0.
    destruct (names_ns verb ns r0) eqn:Hc; [|done].
    apply elem_of_cut_name in Hn as [Hn Hne]. by split_and!.
  - intros (r & Hr & Hv & Hres & Hn & Hcut). exists (if names_ns verb ns r then cut_name ns r else r).
    assert (n ∈ ResourceNames (if names_ns verb ns r then cut_name ns r else r)) as Hn'.
    { destruct (names_ns verb ns r) eqn:Hc; [|done]. apply elem_of_cut_name. split; [done|].
      intros ->. by specialize (Hcut eq_refl). }
    split_and!; [|by destruct (names_ns verb ns r)..|done].
    apply list_elem_of_In, filter_In. split; [apply in_map_iff; exists r; by rewrite <-list_elem_of_In|].
    revert Hn'. generalize (ResourceNames (if names_ns verb ns r then cut_name ns r else r)).
    intros [|]; [by intros ?%not_elem_of_nil|done].
Qed.

(** What is left of the role [cr] when the namespace has left it: nothing if it
    names no other namespace. *)
Definition left_of (cr : ClusterRole) (o : option ClusterRole) : Prop :=
  ∀ v n, survives v n cr ↔ ∃ cr', o = Some cr' ∧ grants v n cr'.

Lemma survives_other v n cr : n ≠ ns → survives v n cr ↔ grants v n cr.
Proof. intros Hne. unfold survives, grants. split; [naive_solver|]. intros (r & ?). exists r. naive_solver. Qed.

Lemma survives_gone cr : ¬ survives verb ns cr.
Proof.
  intros (r & Hr & Hv & Hres & Hn & Hno). specialize (Hno eq_refl).
  apply not_true_iff_false in Hno. apply Hno, names_ns_true. done.
Qed.

Lemma survives_kept v cr : ¬ grants verb ns cr → grants v ns cr → survives v ns cr.
Proof.
  intros Hno (r & ? & ? & ? & ?). exists r. split_and!; try done. intros _.
  apply not_true_iff_false. intros (? & ? & ?)%names_ns_true. apply Hno. by exists r.
Qed.

Lemma left_cut cr m : left_of cr (Some {| cr_meta := m; cr_Rules := cut_rules (cr_Rules cr) |}).
Proof. intros v n. rewrite <-(cut_grants v n cr m). naive_solver. Qed.

Lemma left_none cr : cut_rules (cr_Rules cr) = [] → left_of cr None.
Proof.
  intros Hnil v n. rewrite <-(cut_grants v n cr (cr_meta cr)), Hnil. split.
  - by intros (? & ?%not_elem_of_nil & _).
  - by intros (? & ? & _).
Qed.

Lemma left_same cr : ¬ grants verb ns cr → left_of cr (Some cr).
Proof.
  intros Hno v n. destruct (decide (n = ns)) as [->|Hne]; [|rewrite survives_other by done; naive_solver].
  split.
  - intros (r & ? & ? & ? & ? & _). exists cr. split; [done|]. by exists r.
  - intros (cr' & [= <-] & Hg). by apply survives_kept.
Qed.

End rules.

(** ** The roles of one verb *)

Section verb.
Context {W : Type} `{!GoRuntime W, !GoRuntimeLaws W, !Kube W}.
Context `{!Client W ClusterRole, !ClientLaws W ClusterRole}.
Implicit Types (w : W) (cr : ClusterRole).

Lemma role_key cr w :
  in_scope (O:=ClusterRole) "" (view w) → s_ClusterRoles (view w) !! obj_key cr = Some cr →
  Namespace (cr_meta cr) = "" ∧ Name (cr_meta cr) ≠ "".
Proof.
  intros [?|Hsc] Hcr; [done|]. split; [exact (Hsc _ _ Hcr)|].
  change ((obj_key cr).2 ≠ ""). apply (view_named (O:=ClusterRole) w). exists cr. exact Hcr.
Qed.

Lemma role_write_key cr rules :
  Namespace (cr_meta cr) = "" →
  write_key "" {| cr_meta := cr_meta cr; cr_Rules := rules |} = ("", Name (cr_meta cr)).
Proof. intros Hns. unfold write_key, client_ns. simpl. case_decide; [done|]. by rewrite Hns. Qed.

(** What the table of the cluster roles holds after a request. *)
Lemma role_deleted key s : s_ClusterRoles (del_obj (O:=ClusterRole) key s) !! key = None.
Proof. exact (eq_trans (f_equal (lookup key) (tbl_del key s)) (lookup_delete_eq _ _)). Qed.

Lemma role_put key cr s : obj_key cr = key → s_ClusterRoles (put_obj cr s) !! key = Some cr.
Proof. intros <-. exact (tbl_put_eq cr s). Qed.

Lemma wp_leaveRole verb ns cr w :
  let key := ("", Name (cr_meta cr)) in
  Namespace (cr_meta cr) = "" → Name (cr_meta cr) ≠ "" → s_ClusterRoles (view w) !! key = Some cr →
  wp (leaveRole verb ns cr)
    (if_ok (λ _ w', changed_at (O:=ClusterRole) [key] (view w) (view w') ∧ cache_step w w' ∧
              left_of verb ns cr (s_ClusterRoles (view w') !! key))
       (λ _ _, ¬ ClientHealthy W ClusterRole)) w.
Proof.
  intros key Hns Hne Hcr. pose proof (λ rules, role_write_key cr rules Hns) as Hwk.
  unfold leaveRole. fold (cut_rules verb ns (cr_Rules cr)).
  case_match eqn:Hlen.
  - apply Nat.eqb_eq, length_zero_iff_nil in Hlen. apply wp_delete; at_post.
    + intros w' _ Hv Hcs. rewrite Hv.
      split_and!; [apply changed_at_del; by left|done|]. fold key. rewrite role_deleted.
      by apply left_none.
    + intros e w' _ _ _ _ Hno Hh. apply (Hno Hh). by exists cr.
  - case_match eqn:Hmod.
    + apply wp_bind, wp_update; at_post.
      * intros o' w' Hst Hok _ Hv Hcs. apply wp_ret. at_post. rewrite Hv. rewrite Hwk in Hok.
        split_and!; [apply changed_at_put; rewrite Hok; by left|done|].
        rewrite (role_put key o') by done.
        destruct Hst as (_ & _ & _ & _ & _ & _ & Hsp). simpl in Hsp. rewrite Hsp. apply left_cut.
      * intros e w' _ _ Hno Hh. apply (Hno Hh); [done|]. exists cr. rewrite Hwk.
        split_and!; [exact Hcr|done|done].
    + apply wp_ret. at_post. split_and!; [apply changed_at_refl|apply cache_step_same|].
      rewrite Hcr. apply left_same. intros Hg%grants_existsb. congruence.
Qed.

(** The roles but the desired one: those of projects have let the namespace go. *)
Definition others_left (verb ns desired : string) (s s' : KState) : Prop :=
  only_tbl (O:=ClusterRole) s s' ∧
  ∀ k, k ≠ ("", desired) →
    match s_ClusterRoles s !! k with
    | Some cr => if decide (ns ∈ crByNS cr) then left_of verb ns cr (s_ClusterRoles s' !! k)
                 else s_ClusterRoles s' !! k = Some cr
    | None => s_ClusterRoles s' !! k = None
    end.

Lemma wp_leave_loop verb ns desired l w :
  in_sync_kind ClusterRole w → in_scope (O:=ClusterRole) "" (view w) →
  ByIndex crByNS ns w = Ok l →
  wp (for_fold (λ found cr,
        if String.eqb (Name (cr_meta cr)) desired then ret true
        else do* leaveRole verb ns cr in ret found) false l)
    (if_ok (λ found w', others_left verb ns desired (view w) (view w') ∧
              s_ClusterRoles (view w') !! ("", desired) = s_ClusterRoles (view w) !! ("", desired) ∧
              s_ClusterRoles (cached w') !! ("", desired) = s_ClusterRoles (view w') !! ("", desired) ∧
              (found = true ↔ ∃ cr, s_ClusterRoles (view w) !! ("", desired) = Some cr ∧ ns ∈ crByNS cr))
       (λ _ _, ¬ ClientHealthy W ClusterRole)) w.
Proof.
  intros Hsync Hsc Hl.
  assert (∀ cr, cr ∈ l ↔ s_ClusterRoles (view w) !! obj_key cr = Some cr ∧ ns ∈ crByNS cr) as Hin.
  { intros cr. rewrite (elem_of_index _ _ _ _ cr Hl). by rewrite Hsync. }
  assert (∀ cr, cr ∈ l → obj_key cr = ("", Name (cr_meta cr))) as Hkeys.
  { intros cr [Hcr _]%Hin. unfold obj_key. simpl. by rewrite (proj1 (role_key cr w Hsc Hcr)). }
  assert (NoDup (obj_key <$> l)) as Hnd.
  { destruct (by_index_law crByNS ns w) as (l' & Hl' & Hp). rewrite Hl in Hl'. injection Hl' as <-.
    rewrite Hp. apply NoDup_fmap_filter, NoDup_values, cached_keyed. }
  pose (inv := λ (don : list ClusterRole) (found : bool) (w' : W),
    only_tbl (O:=ClusterRole) (view w) (view w') ∧
    (∀ k, k ∉ obj_key <$> don ∨ k = ("", desired) →
       s_ClusterRoles (view w') !! k = s_ClusterRoles (view w) !! k ∧
       s_ClusterRoles (cached w') !! k = s_ClusterRoles (view w') !! k) ∧
    (∀ cr, cr ∈ don → Name (cr_meta cr) ≠ desired →
       left_of verb ns cr (s_ClusterRoles (view w') !! obj_key cr)) ∧
    (found = true ↔ ∃ cr, cr ∈ don ∧ Name (cr_meta cr) = desired)).
  eapply wp_mono; [apply (wp_for_fold inv (λ _ _, ¬ ClientHealthy W ClusterRole))|].
  - split_and!; [apply only_tbl_refl| |by intros cr ?%not_elem_of_nil|].
    + intros k _. split; [done|]. by rewrite (Hsync : s_ClusterRoles (cached w) = _).
    + split; [done|]. by intros (? & ?%not_elem_of_nil & _).
  - intros don cr rest found w1 Heq (Hot & Hsame & Hleft & Hfound).
    assert (cr ∈ l) as Hcr by (rewrite Heq; apply elem_of_app; right; by left).
    assert (obj_key cr ∉ obj_key <$> don) as Hnew.
    { rewrite Heq, fmap_app in Hnd. apply NoDup_app in Hnd as (_ & Hdis & _).
      intros Hd. apply (Hdis _ Hd). by left. }
    destruct (String.eqb_spec (Name (cr_meta cr)) desired) as [Hname|Hname].
    { apply wp_ret. at_post. split_and!; [done| | |].
      - intros k Hk. apply Hsame. destruct Hk as [Hk|Hk]; [left|by right].
        intros ?. apply Hk. rewrite fmap_app. apply elem_of_app. by left.
      - intros cr' [?| ->%list_elem_of_singleton]%elem_of_app; [by apply Hleft|done].
      - split; [|done]. intros _. exists cr. split; [|done]. apply elem_of_app. right. by left. }
    destruct (role_key cr w Hsc) as [Hns Hne]; [by apply Hin|].
    assert (obj_key cr = ("", Name (cr_meta cr))) as Hkey by (unfold obj_key; simpl; by rewrite Hns).
    apply wp_bind. eapply wp_mono.
    { apply wp_leaveRole; [done|done|]. rewrite <-Hkey.
      rewrite (proj1 (Hsame (obj_key cr) (or_introl Hnew))). by apply Hin. }
    intros [[]|e| |] w2 Hr; simpl in Hr; try done; at_post. destruct Hr as ([Hot2 Hk2] & Hcs & Hlf).
    apply wp_ret. at_post. split_and!.
    + exact (only_tbl_trans (O:=ClusterRole) _ _ _ Hot Hot2).
    + intros k Hk.
      assert (k ∉ [("", Name (cr_meta cr))]) as Hother.
      { rewrite list_elem_of_singleton. intros ->. destruct Hk as [Hk|[= Hk]]; [|done].
        apply Hk. rewrite fmap_app. apply elem_of_app. right. rewrite <-Hkey. by left. }
      destruct (Hsame k) as [H1 H2].
      { destruct Hk as [Hk|Hk]; [left|by right]. intros ?. apply Hk. rewrite fmap_app.
        apply elem_of_app. by left. }
      split.
      * rewrite <-H1. exact (Hk2 k Hother).
      * exact (cache_step_sync (O:=ClusterRole) w1 w2 k Hcs (Hk2 k Hother) H2).
    + intros cr' [Hd| ->%list_elem_of_singleton]%elem_of_app Hn'; [|by rewrite Hkey].
      assert (s_ClusterRoles (view w2) !! obj_key cr' = s_ClusterRoles (view w1) !! obj_key cr') as ->.
      { refine (Hk2 (obj_key cr') _). rewrite list_elem_of_singleton, <-Hkey. intros Hc. apply Hnew.
        rewrite <-Hc. apply list_elem_of_fmap. eauto. }
      by apply Hleft.
    + rewrite Hfound. split; (intros (cr' & Hd & Hn'); exists cr'; split; [|done]).
      * apply elem_of_app. by left.
      * apply elem_of_app in Hd as [?| ->%list_elem_of_singleton]; done.
  - intros [found|e| |] w' Hr; simpl in *; try done. destruct Hr as (Hot & Hsame & Hleft & Hfound).
    assert (∀ cr k, s_ClusterRoles (view w) !! k = Some cr → ns ∈ crByNS cr → cr ∈ l ∧ obj_key cr = k) as Hmem.
    { intros cr k Hk Hns. pose proof (view_keyed (O:=ClusterRole) w k cr Hk) as ->.
      split; [|done]. by apply Hin. }
    split_and!; [|apply Hsame; by right..|].
    + split; [done|]. intros k Hk. destruct (s_ClusterRoles (view w) !! k) as [cr|] eqn:Hcr.
      * case_decide as Hns.
        -- destruct (Hmem cr k Hcr Hns) as [Hl' Hkey]. rewrite <-Hkey. apply Hleft; [done|].
           intros Hn. apply Hk. rewrite <-Hkey, (Hkeys cr Hl'). by rewrite Hn.
        -- rewrite <-Hcr. apply Hsame. left. intros (cr' & -> & Hd)%list_elem_of_fmap.
           apply Hin in Hd as [Hd1 Hd2]. congruence.
      * rewrite <-Hcr. apply Hsame. left. intros (cr' & -> & [Hd1 _]%Hin)%list_elem_of_fmap. congruence.
    + rewrite Hfound. split.
      * intros (cr & Hd & Hn). exists cr. apply Hin in Hd as Hd'. destruct Hd' as [Hd1 Hd2].
        rewrite (Hkeys cr Hd), Hn in Hd1. done.
      * intros (cr & Hcr & Hns). exists cr. destruct (Hmem cr _ Hcr Hns) as [Hd Hkey]. split; [done|].
        rewrite (Hkeys cr Hd) in Hkey. by simplify_eq.
Qed.

Lemma add_name_grants verb ns cr m :
  let cr' := {| cr_meta := m; cr_Rules := add_name verb ns (cr_Rules cr) |} in
  grants verb ns cr' ∧ ∀ v n, grants v n cr → grants v n cr'.
Proof.
  unfold grants. simpl. induction (cr_Rules cr) as [|r rules [IH1 IH2]]; simpl.
  { split; [|by intros v n (? & ?%not_elem_of_nil & _)].
    exists (ns_rule verb ns). simpl. split_and!; by left. }
  destruct (ContainsString (Verbs r) verb && ContainsString (Resources r) "namespaces") eqn:Hc.
  - rewrite andb_true_iff, !ContainsString_true in Hc. destruct Hc as [Hv Hres]. split.
    + exists (with_ResourceNames (ResourceNames r ++ [ns]) r). simpl. split_and!; [by left|done|done|].
      apply elem_of_app. right. by left.
    + intros v n (r0 & [->|Hr0]%elem_of_cons & ? & ? & ?).
      * exists (with_ResourceNames (ResourceNames r ++ [ns]) r). simpl.
        split_and!; [by left|done|done|]. apply elem_of_app. by left.
      * exists r0. split_and!; [by right|done..].
  - split.
    + destruct IH1 as (r0 & ? & ?). exists r0. split; [by right|done].
    + intros v n (r0 & [->|Hr0]%elem_of_cons & ?).
      * exists r. split; [by left|done].
      * destruct (IH2 v n) as (r1 & ? & ?); [by exists r0|]. exists r1. split; [by right|done].
Qed.

(** What becomes of the desired role: if it was written ([stop]), it names the
    namespace with the verb and all it named before; if not, it was there, and
    named the namespace. *)
Definition joined (verb ns : string) (stop : bool) (old new : option ClusterRole) : Prop :=
  if stop then
    ∃ cr', new = Some cr' ∧ grants verb ns cr' ∧
      ∀ cr v n, old = Some cr → grants v n cr → grants v n cr'
  else new = old ∧ ∃ cr, old = Some cr ∧ (ns ∈ crByNS cr ∨ grants verb ns cr).

Lemma others_left_put verb ns desired cr s s' :
  obj_key cr = ("", desired) → others_left verb ns desired s s' →
  others_left verb ns desired s (put_obj cr s').
Proof.
  intros Hk [Hot Hl]. split; [by apply only_tbl_put|]. intros k Hne. specialize (Hl k Hne).
  assert (s_ClusterRoles (put_obj cr s') !! k = s_ClusterRoles s' !! k) as ->; [|done].
  refine (eq_trans (f_equal (lookup k) (tbl_put cr s')) _). rewrite Hk.
  by apply lookup_insert_ne.
Qed.

Lemma wp_reconcileVerb ns verb suffix w :
  let nsName := Name (ns_meta ns) in
  let desired := desired_role ns suffix in
  nsName ≠ "" → in_sync_kind ClusterRole w → in_scope (O:=ClusterRole) "" (view w) →
  wp (reconcileVerb ns verb suffix)
    (if_ok (λ stop w', others_left verb nsName desired (view w) (view w') ∧
              if decide (desired = "") then stop = false
              else joined verb nsName stop (s_ClusterRoles (view w) !! ("", desired))
                     (s_ClusterRoles (view w') !! ("", desired)))
       (λ _ _, ¬ ClientHealthy W ClusterRole)) w.
Proof.
  intros nsName desired Hn0 Hsync Hsc. unfold reconcileVerb. fold nsName. fold desired. cbv zeta.
  apply wp_bind, wp_reads. destruct (by_index_law crByNS nsName w) as (l & Hl & _). rewrite Hl. at_post.
  eapply wp_bind_if_ok; [by apply wp_leave_loop| |done].
  intros found w1 (Hleft & Hsame & Hsy & Hfound).
  destruct (String.eqb_spec desired "") as [Hd|Hd].
  { rewrite orb_true_r. apply wp_ret. at_post. split; [done|]. by rewrite decide_True. }
  rewrite orb_false_r.
  destruct found.
  { apply wp_ret. at_post. rewrite decide_False by done. split; [done|]. destruct Hfound as [Hf _].
    destruct (Hf eq_refl) as (cr & Hcr & Hin). split; [done|]. exists cr. auto. }
  apply wp_bind, wp_attempt, wp_reads.
  pose proof (lister_get_law (O:=ClusterRole) "" desired w1) as Hget.
  change (tbl (cached w1)) with (s_ClusterRoles (cached w1)) in Hget. rewrite Hsy, Hsame in Hget.
  destruct (s_ClusterRoles (view w) !! ("", desired)) as [cr|] eqn:Hcr.
  - rewrite Hget. at_post.
    destruct (existsb (names_ns verb nsName) (cr_Rules cr)) eqn:Hex.
    { apply wp_ret. at_post. rewrite decide_False by done. split; [done|]. rewrite Hsame. split; [done|]. exists cr.
      split; [done|]. right. by apply grants_existsb. }
    assert (obj_key cr = ("", desired)) as Hkey
      by (symmetry; exact (view_keyed (O:=ClusterRole) w _ _ Hcr)).
    assert (Namespace (cr_meta cr) = "" ∧ Name (cr_meta cr) = desired) as [Hns Hname]
      by (unfold obj_key in Hkey; by simplify_eq/=).
    pose proof (λ rules, role_write_key cr rules Hns) as Hwk. rewrite Hname in Hwk.
    apply wp_bind, wp_update; at_post.
    + intros o' w' Hst Hok _ Hv Hcs. apply wp_ret. at_post. rewrite decide_False by done. rewrite Hv. rewrite Hwk in Hok.
      split; [by apply others_left_put|]. rewrite (role_put ("", desired) o') by done.
      exists o'. split; [done|]. destruct Hst as (_ & _ & _ & _ & _ & _ & Hsp). simpl in Hsp. rewrite Hsp.
      destruct (add_name_grants verb nsName cr (cr_meta o')) as [H1 H2].
      split; [done|]. intros cr0 v n [= <-]. apply H2.
    + intros e w' _ _ Hno Hh. apply (Hno Hh); [simpl; congruence|]. exists cr. rewrite Hwk.
      split_and!; [exact Hsame|done|done].
  - destruct Hget as (e & Hget & Hnf). rewrite Hget. at_post. rewrite Hnf. unfold createProjectNSRole.
    destruct (String.eqb_spec nsName "") as [?|_]; [done|].
    apply wp_bind, wp_bind, wp_create; at_post.
    + intros o' w' Hst _ Hv Hcs. apply wp_ret. at_post. apply wp_ret. at_post.
      rewrite decide_False by done. rewrite Hv.
      assert (obj_key o' = ("", desired)) as Hok by exact (stored_as_key _ _ _ Hst Hd).
      split; [by apply others_left_put|]. rewrite (role_put ("", desired) o') by done.
      exists o'. split; [done|]. destruct Hst as (_ & _ & _ & _ & _ & _ & Hsp). simpl in Hsp. rewrite Hsp.
      split; [|done]. exists (ns_rule verb nsName). simpl. split_and!; by left.
    + intros e' w' _ _ Hno Hh. apply (Hno Hh); [|done]. intros _. exact Hsame.
Qed.

(** The pass for one verb.  The roles of other projects let the namespace go
    in their rules with the verb, and keep all other names; the role of the
    namespace's project, if it has one, names it afterwards; all other roles are
    as they were.  With an up-to-date cache the pass fails only if the API server
    does. *)
Theorem reconcileVerb_correct ns verb suffix w :
  let nsName := Name (ns_meta ns) in
  let desired := desired_role ns suffix in
  nsName ≠ "" → in_sync_kind ClusterRole w → in_scope (O:=ClusterRole) "" (view w) →
  wp (reconcileVerb ns verb suffix)
    (if_ok (λ stop w', others_left verb nsName desired (view w) (view w') ∧
              if decide (desired = "") then stop = false
              else joined verb nsName stop (s_ClusterRoles (view w) !! ("", desired))
                     (s_ClusterRoles (view w') !! ("", desired)))
       (λ _ _, ¬ ClientHealthy W ClusterRole)) w.
Proof. apply wp_reconcileVerb. Qed.

(** A sync of a namespace stops after the first verb for which it had to add
    the namespace to a role.  The other verb is not looked at: a role of another
    project that names the namespace with it, and not with the first one, goes on
    doing so after the sync has succeeded. *)
Theorem one_verb_per_sync ns verb suffix rest v k cr w :
  let nsName := Name (ns_meta ns) in
  let desired := desired_role ns suffix in
  nsName ≠ "" → in_sync_kind ClusterRole w → in_scope (O:=ClusterRole) "" (view w) →
  map_range w projectNSVerbToSuffix = (verb, suffix) :: rest →
  desired ≠ "" →
  (∀ cr', s_ClusterRoles (view w) !! ("", desired) = Some cr' →
     nsName ∉ crByNS cr' ∧ ¬ grants verb nsName cr') →
  s_ClusterRoles (view w) !! k = Some cr → k ≠ ("", desired) →
  ¬ grants verb nsName cr → grants v nsName cr →
  wp (reconcileNamespaceProjectClusterRole ns)
    (if_ok (λ _ w', ∃ cr', s_ClusterRoles (view w') !! k = Some cr' ∧ grants v nsName cr')
       (λ _ _, ¬ ClientHealthy W ClusterRole)) w.
Proof.
  intros nsName desired Hn0 Hsync Hsc Hrange Hd Hnot Hk Hne Hno Hg.
  unfold reconcileNamespaceProjectClusterRole. apply wp_bind.
  apply (wp_unfold _ _ _ (Ok ((verb, suffix) :: rest)) w); [unfold range; by rewrite Hrange|]. at_post.
  simpl. eapply wp_bind_if_ok; [by apply wp_reconcileVerb| |done].
  intros stop w1 [[_ Hleft] Hjoin]. fold desired nsName in Hjoin, Hleft. rewrite decide_False in Hjoin by done.
  destruct stop.
  - apply wp_ret. at_post. specialize (Hleft k Hne). rewrite Hk in Hleft. case_decide as Hin.
    + destruct (proj1 (Hleft v nsName) (survives_kept _ _ _ _ Hno Hg)) as (cr' & ? & ?). eauto.
    + eauto.
  - destruct Hjoin as (_ & cr' & Hcr' & [Hin|Hgr]); destruct (Hnot cr' Hcr'); contradiction.
Qed.

End verb.

(** ** Global administrators *)

Section admins.
Context {W : Type} `{!GoRuntime W, !Kube W}.
Context `{!Client W ClusterRoleBinding, !Client W GlobalRoleBinding}.
Context `{!ClientLaws W ClusterRoleBinding, !ClientLaws W GlobalRoleBinding}.
Implicit Types (w : W) (obj : GlobalRoleBinding).

(** The cache shows another binding with the user and the role of [obj]. *)
Definition another_admin obj w : Prop :=
  ∃ g, s_GlobalRoleBindings (cached w) !! obj_key g = Some g ∧ obj_key g ≠ obj_key obj ∧
    grb_UserName g +:+ "-" +:+ grb_GlobalRoleName g =
    grb_UserName obj +:+ "-" +:+ grb_GlobalRoleName obj.

Lemma admin_key obj : grbCRBName obj ≠ "" ∧ write_key "" (admin_binding obj) = ("", grbCRBName obj).
Proof. done. Qed.

Lemma wp_grb_Create obj w :
  let key := ("", grbCRBName obj) in
  grb_GlobalRoleName obj = "admin" →
  s_ClusterRoleBindings (cached w) !! key = s_ClusterRoleBindings (view w) !! key →
  wp (UserRbac.grb_Create obj)
    (if_ok (λ o w', o = obj ∧ changed_at (O:=ClusterRoleBinding) [key] (view w) (view w') ∧
              ∃ b, s_ClusterRoleBindings (view w') !! key = Some b ∧
                match s_ClusterRoleBindings (view w) !! key with
                | Some b0 => b = b0
                | None => stored_as "" (admin_binding obj) b
                end)
       (λ _ _, ¬ ClientHealthy W ClusterRoleBinding)) w.
Proof.
  intros key Hadm Hs. unfold UserRbac.grb_Create. rewrite Hadm. simpl negb. cbv iota.
  apply wp_bind, wp_attempt, wp_reads.
  pose proof (lister_get_law (O:=ClusterRoleBinding) "" (grbCRBName obj) w) as Hget.
  change (tbl (cached w) !! ("", grbCRBName obj)) with (s_ClusterRoleBindings (cached w) !! key) in Hget.
  rewrite Hs in Hget. destruct (s_ClusterRoleBindings (view w) !! key) as [b|] eqn:Hb.
  - rewrite Hget. at_post. apply wp_ret. at_post.
    split_and!; [done|apply changed_at_refl|]. exists b. done.
  - destruct Hget as (e & Hget & Hnf). rewrite Hget. at_post. rewrite Hnf.
    apply wp_bind, wp_create; at_post.
    + intros o' w' Hst _ Hv _. apply wp_ret. at_post. rewrite Hv.
      assert (obj_key o' = key) as Hk by by apply (stored_as_key _ _ _ Hst).
      split_and!; [done|apply changed_at_put; rewrite Hk; by left|]. exists o'. split; [|done].
      rewrite <-Hk. exact (tbl_put_eq o' (view w)).
    + intros e' w' _ _ Hno Hh. apply (Hno Hh); [|done]. intros _. exact Hb.
Qed.

Lemma several_admins obj l w :
  s_GlobalRoleBindings (cached w) !! obj_key obj = Some obj →
  ByIndex grbByUserAndRole (grb_UserName obj +:+ "-" +:+ grb_GlobalRoleName obj) w = Ok l →
  1 < length l ↔ another_admin obj w.
Proof.
  intros Hobj Hl.
  assert (∀ g, g ∈ l ↔ s_GlobalRoleBindings (cached w) !! obj_key g = Some g ∧
    grb_UserName g +:+ "-" +:+ grb_GlobalRoleName g =
    grb_UserName obj +:+ "-" +:+ grb_GlobalRoleName obj) as Hin.
  { intros g. rewrite (elem_of_index _ _ _ _ g Hl). unfold grbByUserAndRole.
    rewrite list_elem_of_singleton. simpl. naive_solver. }
  assert (NoDup (obj_key <$> l)) as Hnd.
  { destruct (by_index_law grbByUserAndRole (grb_UserName obj +:+ "-" +:+ grb_GlobalRoleName obj) w)
      as (l' & Hl' & Hp).
    rewrite Hl in Hl'. injection Hl' as <-. rewrite Hp. apply NoDup_fmap_filter, NoDup_values, cached_keyed. }
  assert (obj ∈ l) as Hmem by by apply Hin.
  split.
  - intros Hlen. destruct l as [|a [|b l]]; simpl in Hlen; [lia|lia|].
    rewrite !fmap_cons, !NoDup_cons in Hnd. destruct Hnd as [Hab _].
    assert (obj_key a ≠ obj_key b) as Hne by (intros Heq; apply Hab; rewrite Heq; left).
    destruct (decide (obj_key a = obj_key obj)) as [Heq|Hneq].
    + exists b. destruct (proj1 (Hin b)) as [? ?]; [right; left|]. split_and!; [done|congruence|done].
    + exists a. destruct (proj1 (Hin a)) as [? ?]; [left|]. done.
  - intros (g & Hg & Hne & Hk). assert (g ∈ l) as Hgl by by apply Hin.
    destruct l as [|a [|b l]]; simpl; [by apply not_elem_of_nil in Hgl| |lia].
    apply list_elem_of_singleton in Hgl, Hmem. congruence.
Qed.

(** A user with a binding to the global role admin gets the cluster role
    binding to cluster-admin, and loses it when the last such binding is removed;
    no other cluster role binding changes, and other roles change nothing. *)
Theorem global_admins_correct obj w :
  let key := ("", grbCRBName obj) in
  s_ClusterRoleBindings (cached w) !! key = s_ClusterRoleBindings (view w) !! key →
  s_GlobalRoleBindings (cached w) !! obj_key obj = Some obj →
  if decide (grb_GlobalRoleName obj = "admin") then
    wp (UserRbac.grb_Create obj)
      (if_ok (λ o w', o = obj ∧ changed_at (O:=ClusterRoleBinding) [key] (view w) (view w') ∧
                ∃ b, s_ClusterRoleBindings (view w') !! key = Some b ∧
                  match s_ClusterRoleBindings (view w) !! key with
                  | Some b0 => b = b0
                  | None => stored_as "" (admin_binding obj) b
                  end)
         (λ _ _, ¬ ClientHealthy W ClusterRoleBinding)) w ∧
    wp (UserRbac.grb_Remove obj)
      (if_ok (λ _ w', changed_at (O:=ClusterRoleBinding) [key] (view w) (view w') ∧
                (another_admin obj w → s_ClusterRoleBindings (view w') !! key = s_ClusterRoleBindings (view w) !! key) ∧
                (¬ another_admin obj w → s_ClusterRoleBindings (view w') !! key = None))
         (λ _ _, ¬ ClientHealthy W ClusterRoleBinding)) w
  else UserRbac.grb_Create obj w = (Ok obj, w) ∧ UserRbac.grb_Remove obj w = (Ok obj, w).
Proof.
  intros key Hs Hobj. case_decide as Hadm.
  2:{ unfold UserRbac.grb_Create, UserRbac.grb_Remove.
      destruct (String.eqb_spec (grb_GlobalRoleName obj) "admin"); done. }
  split; [by apply wp_grb_Create|]. unfold UserRbac.grb_Remove.
  destruct (String.eqb_spec (grb_GlobalRoleName obj) "admin") as [_|]; [|done]. simpl negb. cbv iota.
  apply wp_bind, wp_reads.
  destruct (by_index_law grbByUserAndRole (grb_UserName obj +:+ "-" +:+ grb_GlobalRoleName obj) w)
    as (l & Hl & _).
  rewrite Hl. at_post. pose proof (several_admins obj l w Hobj Hl) as Hsev.
  destruct (Nat.ltb_spec 1 (length l)) as [Hlt|Hge].
  { apply wp_ret. at_post. split_and!; [apply changed_at_refl|done|]. intros Hno. by destruct Hno; apply Hsev. }
  assert (¬ another_admin obj w) as Hno by (intros ?%Hsev; lia).
  apply wp_bind. unfold unless_not_found. apply wp_bind, wp_attempt, wp_delete; at_post.
  - intros w' _ Hv _. apply wp_ret. at_post. apply wp_ret. at_post. rewrite Hv.
    split_and!; [apply changed_at_del; by left|done|]. intros _.
    exact (eq_trans (f_equal (lookup key) (tbl_del key (view w))) (lookup_delete_eq _ _)).
  - intros e w' Hnf Hv _ Hh _. destruct (IsNotFound e) eqn:He.
    + apply wp_ret. at_post. apply wp_ret. at_post. rewrite Hv.
      split_and!; [apply changed_at_refl|done|]. intros _. by apply Hnf.
    + apply wp_throw. at_post. intros Hhe. specialize (Hh Hhe). congruence.
Qed.

End admins.

(** ** Removal of a project *)

Section project.
Context {W : Type} `{!GoRuntime W, !GoRuntimeLaws W, !Kube W}.
Context `{!Client W ClusterRole, !Client W NamespaceObject}.
Context `{!ClientLaws W ClusterRole, !ClientLaws W NamespaceObject}.
Implicit Types (w : W) (ns : NamespaceObject).

Definition created_here ns : Prop := is_Some (Annotations (ns_meta ns) !! "field.cattle.io/creatorId").

(** What becomes of a namespace of the project: if somebody created it through the
    API it is deleted, otherwise it belongs to no project any more. *)
Definition freed ns (o : option NamespaceObject) : Prop :=
  (created_here ns → o = None) ∧
  (¬ created_here ns → ∃ ns', o = Some ns' ∧ Labels (ns_meta ns') = Labels (ns_meta ns) ∧
     Annotations (ns_meta ns') = delete projectIDAnnotation (Annotations (ns_meta ns)) ∧
     ns_Phase ns' = ns_Phase ns).

Lemma wp_release_namespace ns w :
  let key := ("", Name (ns_meta ns)) in
  Namespace (ns_meta ns) = "" → Name (ns_meta ns) ≠ "" → s_Namespaces (view w) !! key = Some ns →
  wp (release_namespace ns)
    (if_ok (λ _ w', changed_at (O:=NamespaceObject) [key] (view w) (view w') ∧ cache_step w w' ∧
              freed ns (s_Namespaces (view w') !! key))
       (λ _ _, ¬ ClientHealthy W NamespaceObject)) w.
Proof.
  intros key Hns Hne Hk. unfold release_namespace, freed, created_here.
  destruct (Annotations (ns_meta ns) !! "field.cattle.io/creatorId") as [c|].
  - unfold unless_not_found. apply wp_bind, wp_attempt, wp_delete; at_post.
    + intros w' _ Hv Hcs. apply wp_ret. at_post. rewrite Hv.
      split_and!; [apply changed_at_del; by left|done|intros _|intros Hno; by destruct Hno].
      exact (eq_trans (f_equal (lookup key) (tbl_del key (view w))) (lookup_delete_eq _ _)).
    + intros e w' Hnf Hv Hcs Hh _. destruct (IsNotFound e) eqn:He.
      * exfalso. specialize (Hnf eq_refl). change (s_Namespaces (view w) !! key = None) in Hnf. congruence.
      * apply wp_throw. at_post. intros Hhe. specialize (Hh Hhe). congruence.
  - set (ns1 := set_ns_meta _ ns).
    assert (write_key "" ns1 = key) as Hwk.
    { unfold write_key, client_ns, ns1. simpl. case_decide; [done|]. by rewrite Hns. }
    apply wp_bind, wp_update; at_post.
    + intros o' w' Hst Hok _ Hv Hcs. apply wp_ret. at_post. rewrite Hv. rewrite Hwk in Hok.
      split_and!; [apply changed_at_put; rewrite Hok; by left|done|by intros [? ?]|intros _].
      exists o'. destruct Hst as (_ & _ & _ & Hlab & Hann & _ & Hsp). simpl in Hsp, Hlab, Hann.
      split_and!; [|done|done|by rewrite Hsp].
      rewrite <-Hok. exact (tbl_put_eq o' (view w)).
    + intros e w' _ _ Hno Hh. apply (Hno Hh); [done|]. exists ns. rewrite Hwk.
      split_and!; [exact Hk|done|done].
Qed.

(** The namespaces whose annotation is the ID of the project. *)
Definition of_project (id : string) ns : Prop :=
  Annotations (ns_meta ns) !! projectIDAnnotation = Some id.

#[local] Instance of_project_dec id ns : Decision (of_project id ns).
Proof. unfold of_project. apply _. Defined.

Definition namespaces_freed (id : string) (s s' : KState) : Prop :=
  only_tbl (O:=NamespaceObject) s s' ∧
  ∀ k, match s_Namespaces s !! k with
       | Some ns => if decide (of_project id ns) then freed ns (s_Namespaces s' !! k)
                    else s_Namespaces s' !! k = Some ns
       | None => s_Namespaces s' !! k = None
       end.

Lemma wp_release_all id l w :
  in_sync_kind NamespaceObject w → in_scope (O:=NamespaceObject) "" (view w) →
  ByIndex nsByProjectID id w = Ok l →
  wp (for_each release_namespace l)
    (if_ok (λ _ w', namespaces_freed id (view w) (view w'))
       (λ _ _, ¬ ClientHealthy W NamespaceObject)) w.
Proof.
  intros Hsync Hsc Hl.
  assert (∀ ns, ns ∈ l ↔ s_Namespaces (view w) !! obj_key ns = Some ns ∧ of_project id ns) as Hin.
  { intros ns. rewrite (elem_of_index _ _ _ _ ns Hl), Hsync. unfold nsByProjectID, of_project.
    destruct (Annotations (ns_meta ns) !! projectIDAnnotation) as [i|].
    - rewrite list_elem_of_singleton. naive_solver.
    - rewrite elem_of_nil. naive_solver. }
  assert (NoDup (obj_key <$> l)) as Hnd.
  { destruct (by_index_law nsByProjectID id w) as (l' & Hl' & Hp). rewrite Hl in Hl'. injection Hl' as <-.
    rewrite Hp. apply NoDup_fmap_filter, NoDup_values, cached_keyed. }
  assert (∀ ns, ns ∈ l → Namespace (ns_meta ns) = "" ∧ obj_key ns = ("", Name (ns_meta ns)) ∧
    Name (ns_meta ns) ≠ "") as Hkeys.
  { intros ns [Hk _]%Hin. destruct Hsc as [?|Hsc]; [done|].
    assert (Namespace (ns_meta ns) = "") as Hns by exact (Hsc _ _ Hk).
    split_and!; [done|unfold obj_key; simpl; by rewrite Hns|].
    change ((obj_key ns).2 ≠ ""). apply (view_named (O:=NamespaceObject) w). exists ns. exact Hk. }
  pose (inv := λ (don : list NamespaceObject) (w' : W),
    only_tbl (O:=NamespaceObject) (view w) (view w') ∧
    (∀ k, k ∉ obj_key <$> don → s_Namespaces (view w') !! k = s_Namespaces (view w) !! k) ∧
    (∀ ns, ns ∈ don → freed ns (s_Namespaces (view w') !! obj_key ns))).
  eapply wp_mono; [apply (wp_for_each inv (λ _ _, ¬ ClientHealthy W NamespaceObject))|].
  - split_and!; [apply only_tbl_refl|done|by intros ns ?%not_elem_of_nil].
  - intros don ns rest w1 Heq (Hot & Hsame & Hfr).
    assert (ns ∈ l) as Hmem by (rewrite Heq; apply elem_of_app; right; by left).
    assert (obj_key ns ∉ obj_key <$> don) as Hnew.
    { rewrite Heq, fmap_app in Hnd. apply NoDup_app in Hnd as (_ & Hdis & _).
      intros Hd. apply (Hdis _ Hd). by left. }
    destruct (Hkeys ns Hmem) as (Hns & Hkey & Hne).
    eapply wp_mono; [apply wp_release_namespace; [done|done|]|].
    { rewrite <-Hkey, Hsame by done. by apply Hin. }
    intros [[]|e| |] w2 Hr; simpl in Hr; try done; at_post. destruct Hr as ([Hot2 Hk2] & _ & Hf).
    split_and!.
    + exact (only_tbl_trans (O:=NamespaceObject) _ _ _ Hot Hot2).
    + intros k Hk. rewrite fmap_app in Hk. rewrite <-Hsame.
      * refine (Hk2 k _). rewrite list_elem_of_singleton, <-Hkey. intros ->.
        apply Hk, elem_of_app. right. by left.
      * intros ?. apply Hk, elem_of_app. by left.
    + intros ns' [Hd| ->%list_elem_of_singleton]%elem_of_app; [|by rewrite Hkey].
      assert (s_Namespaces (view w2) !! obj_key ns' = s_Namespaces (view w1) !! obj_key ns') as ->.
      { refine (Hk2 (obj_key ns') _). rewrite list_elem_of_singleton, <-Hkey. intros Hc. apply Hnew.
        rewrite <-Hc. apply list_elem_of_fmap. eauto. }
      by apply Hfr.
  - intros [[]|e| |] w' Hr; simpl in *; try done. destruct Hr as (Hot & Hsame & Hfr).
    split; [done|]. intros k. destruct (s_Namespaces (view w) !! k) as [ns|] eqn:Hk.
    + pose proof (view_keyed (O:=NamespaceObject) w k ns Hk) as Hko. case_decide as Hp.
      * rewrite Hko. apply Hfr, Hin. by rewrite <-Hko.
      * rewrite <-Hk. apply Hsame. intros (ns' & -> & [Hn1 Hn2]%Hin)%list_elem_of_fmap. congruence.
    + rewrite <-Hk. apply Hsame. intros (ns' & -> & [Hn1 _]%Hin)%list_elem_of_fmap. congruence.
Qed.

(** The removal of a project from a user cluster deletes the two roles for
    its namespaces, deletes the namespaces created through the API and takes the
    annotation off the others; other roles and namespaces are as they were.  With
    an up-to-date cache it fails only if the API server does. *)
Theorem project_Remove_correct project w :
  let id := Namespace (proj_meta project) +:+ ":" +:+ Name (proj_meta project) in
  in_sync_kind NamespaceObject w → in_scope (O:=NamespaceObject) "" (view w) →
  wp (UserProjects.project_Remove project)
    (if_ok (λ _ w', ∃ s1,
              only_tbl (O:=ClusterRole) (view w) s1 ∧
              (∀ k, s_ClusterRoles s1 !! k =
                 if decide (k = ("", projectNSRoleName (Name (proj_meta project)) "readonly") ∨
                            k = ("", projectNSRoleName (Name (proj_meta project)) "edit"))
                 then None else s_ClusterRoles (view w) !! k) ∧
              namespaces_freed id s1 (view w'))
       (λ _ _, ClientHealthy W ClusterRole → ¬ ClientHealthy W NamespaceObject)) w.
Proof.
  intros id Hsync Hsc. unfold UserProjects.project_Remove.
  apply wp_bind, wp_range. intros kvs Hkvs. at_post. unfold unless_not_found.
  eapply wp_bind_if_ok; [apply (wp_delete_each (O:=ClusterRole) ""
    (λ kv : string * string, projectNSRoleName (Name (proj_meta project)) kv.2) (λ _ e, e))| |].
  2:{ intros e w' Hno Hh. by destruct Hno. }
  intros [] w1 (Hot & Hgone & HI).
  assert (in_sync_kind NamespaceObject w1 ∧ in_scope (O:=NamespaceObject) "" (view w1)) as [Hs1 Hsc1].
  { apply (HI (λ w', in_sync_kind NamespaceObject w' ∧ in_scope (O:=NamespaceObject) "" (view w'))); [|done].
    intros wa wb [Hwa Hwb] Hot' _ Hcs. split.
    - by eapply (sync_undisturbed (A:=ClusterRole)); [other_kind|..].
    - unfold in_scope in *. simpl. unfold only_tbl in Hot'. by rewrite Hot'. }
  apply wp_bind, wp_reads. destruct (by_index_law nsByProjectID id w1) as (l & Hl & _). fold id. rewrite Hl.
  at_post. eapply wp_mono; [by apply (wp_release_all id)|].
  intros [[]|e| |] w' Hr; simpl in Hr; try done; at_post. exists (view w1). split_and!; [done| |done].
  intros k. specialize (Hgone k). simpl in Hgone.
  refine (eq_trans Hgone _). apply decide_ext. rewrite list_elem_of_fmap.
  assert (∀ kv, kv ∈ kvs ↔ kv = ("get", "readonly") ∨ kv = ("*", "edit")) as Hm.
  { intros kv. rewrite Hkvs. destruct kv as [a b]. rewrite elem_of_map_to_list.
    unfold projectNSVerbToSuffix. rewrite lookup_insert_Some, lookup_singleton_Some. naive_solver. }
  destruct k as [a n]. simpl. split.
  - intros [-> (kv & -> & [->| ->]%Hm)]; auto.
  - intros [[= -> ->]|[= -> ->]]; (split; [done|]).
    + exists ("get", "readonly"). split; [done|]. apply Hm. by left.
    + exists ("*", "edit"). split; [done|]. apply Hm. by right.
Qed.

End project.

(** ** Witnesses: a namespace moved from the project p-0 to p-1 *)

Definition demo_ns_role (project suffix verb : string) (names : list string) : ClusterRole :=
  {| cr_meta := named_meta (projectNSRoleName project suffix) ∅ {[ projectNSAnn := "x" ]} [];
     cr_Rules := [with_ResourceNames names (ns_rule verb "web")] |}.

Definition demo_old_ro : ClusterRole := demo_ns_role "p-0" "readonly" "get" ["db"; "web"].
Definition demo_old_edit : ClusterRole := demo_ns_role "p-0" "edit" "*" ["db"; "web"].

Definition demo_moved : Sim :=
  synced (set_s_Namespaces {[ ("", "web") := demo_ns "web" "c-1:p-1" ]}
    (set_s_ClusterRoles {[ ("", "p-0-namespaces-readonly") := demo_old_ro;
                           ("", "p-0-namespaces-edit") := demo_old_edit ]} empty_state)).

Lemma demo_moved_scope : in_scope (O:=ClusterRole) "" (view demo_moved).
Proof.
  right. refine (bool_decide_eq_true_1 (map_Forall (λ k _, k.1 = "")
    (s_ClusterRoles (view demo_moved))) _). vm_compute. reflexivity.
Qed.

Lemma reconcileVerb_correct_witness :
  ∃ w', reconcileVerb (demo_ns "web" "c-1:p-1") "get" "readonly" demo_moved = (Ok true, w') ∧
    others_left "get" "web" "p-1-namespaces-readonly" (view demo_moved) (view w') ∧
    joined "get" "web" true (s_ClusterRoles (view demo_moved) !! ("", "p-1-namespaces-readonly"))
      (s_ClusterRoles (view w') !! ("", "p-1-namespaces-readonly")).
Proof.
  refine (run_ok _ _ _ demo_moved true (reconcileVerb_correct (demo_ns "web" "c-1:p-1") "get" "readonly"
    demo_moved _ _ demo_moved_scope) _); [done|reflexivity|vm_compute; reflexivity].
Defined.

Lemma one_verb_per_sync_witness :
  ∃ w', reconcileNamespaceProjectClusterRole (demo_ns "web" "c-1:p-1") demo_moved = (Ok tt, w') ∧
    ∃ cr', s_ClusterRoles (view w') !! ("", "p-0-namespaces-edit") = Some cr' ∧ grants "*" "web" cr'.
Proof.
  refine (run_ok _ _ _ demo_moved tt (one_verb_per_sync (demo_ns "web" "c-1:p-1") "get" "readonly"
    [("*", "edit")] "*" ("", "p-0-namespaces-edit") demo_old_edit demo_moved _ _ demo_moved_scope
    _ _ _ _ _ _ _) _).
  - done.
  - reflexivity.
  - vm_compute. reflexivity.
  - done.
  - intros cr' Hcr'. exfalso. revert Hcr'. vm_compute. discriminate.
  - vm_compute. reflexivity.
  - done.
  - rewrite <-grants_existsb. vm_compute. discriminate.
  - apply grants_existsb. vm_compute. reflexivity.
  - vm_compute. reflexivity.
Defined.

Definition demo_admins : Sim :=
  synced (set_s_GlobalRoleBindings {[ ("", "grb-1") := demo_grb "grb-1" "u-1";
                                      ("", "grb-2") := demo_grb "grb-2" "u-1" ]} empty_state).

Lemma global_admins_correct_witness :
  wp (UserRbac.grb_Remove (demo_grb "grb-1" "u-1"))
    (if_ok (λ _ w', changed_at (O:=ClusterRoleBinding) [("", "globaladmin-u-1")] (view demo_admins) (view w') ∧
              (another_admin (demo_grb "grb-1" "u-1") demo_admins →
                 s_ClusterRoleBindings (view w') !! ("", "globaladmin-u-1") =
                 s_ClusterRoleBindings (view demo_admins) !! ("", "globaladmin-u-1")) ∧
              (¬ another_admin (demo_grb "grb-1" "u-1") demo_admins →
                 s_ClusterRoleBindings (view w') !! ("", "globaladmin-u-1") = None))
       (λ _ _, ¬ ClientHealthy Sim ClusterRoleBinding)) demo_admins.
Proof.
  assert (s_GlobalRoleBindings (cached demo_admins) !! ("", "grb-1") = Some (demo_grb "grb-1" "u-1"))
    as Hg by (vm_compute; reflexivity).
  exact (proj2 (global_admins_correct (demo_grb "grb-1" "u-1") demo_admins eq_refl Hg)).
Defined.

(** A project with a namespace created through the API and one that was not. *)
Definition demo_leaving : Sim :=
  synced (set_s_Namespaces
    {[ ("", "web") := demo_ns "web" "c-1:p-1";
       ("", "own") := set_ns_meta (set_annotation "field.cattle.io/creatorId" "u-1"
                        (ns_meta (demo_ns "own" "c-1:p-1"))) (demo_ns "own" "c-1:p-1");
       ("", "other") := demo_ns "other" "c-1:p-0" ]} empty_state).

Lemma demo_leaving_scope : in_scope (O:=NamespaceObject) "" (view demo_leaving).
Proof.
  right. refine (bool_decide_eq_true_1 (map_Forall (λ k _, k.1 = "")
    (s_Namespaces (view demo_leaving))) _). vm_compute. reflexivity.
Qed.

Lemma project_Remove_correct_witness :
  ∃ w', UserProjects.project_Remove demo_p1 demo_leaving = (Ok tt, w') ∧
    ∃ s1, only_tbl (O:=ClusterRole) (view demo_leaving) s1 ∧
      (∀ k, s_ClusterRoles s1 !! k =
         if decide (k = ("", "p-1-namespaces-readonly") ∨ k = ("", "p-1-namespaces-edit"))
         then None else s_ClusterRoles (view demo_leaving) !! k) ∧
      namespaces_freed "c-1:p-1" s1 (view w').
Proof.
  refine (run_ok _ _ _ demo_leaving tt (project_Remove_correct demo_p1 demo_leaving _
    demo_leaving_scope) _); [reflexivity|vm_compute; reflexivity].
Defined.
