(* ===== verification/Tokens.v ===== *)
(** * Tokens and authentication of requests

    The tokens of users (pkg/auth/tokens), the authenticator that turns a request
    into a user and its groups (pkg/auth/requests), the filter that hands them
    on, the generator of token keys (pkg/randomtoken), and the controller that
    stamps the time of expiry (pkg/controllers/management/auth/token.go). *)

From stdpp Require Import base gmap list strings.
From Stdlib Require Import Ascii ZArith Lia.
From S2P Require Import Prelude.
From S2P Require Import GoLib.
From S2P Require Import GoEncoding.
From S2P Require Import KubeTypes.
From S2P Require Import KubeObjects.
From S2P Require Import Kube.
From S2P Require Import MgmtHandlers.

Open Scope go_scope.

Module Tokens.

(** ** Durations

    [time.Duration.Seconds] is a float64.  The float64 operations are a class:
    its laws are the facts of IEEE arithmetic the code relies on, rounding being
    monotone on finite numbers and integers up to 2^53 being exact. *)

Class Float64 := {
  F : Type;
  of_int64 : Z → F;
  fadd : F → F → F;
  fdiv : F → F → F;
  fleb : F → F → bool }.

Definition exact_int (x : Z) : Prop := (- 2 ^ 53 ≤ x ≤ 2 ^ 53)%Z.

Class Float64Laws `{!Float64} := {
  fleb_trans x y z : fleb x y = true → fleb y z = true → fleb x z = true;
  of_int64_leb a b : exact_int a → exact_int b → fleb (of_int64 a) (of_int64 b) = (a <=? b)%Z;
  fadd_mono a y z : exact_int a → fleb (of_int64 (-1)) y = true → fleb y z = true → fleb z (of_int64 1) = true →
    fleb (fadd (of_int64 a) y) (fadd (of_int64 a) z) = true;
  fadd_int a b : exact_int a → exact_int b → exact_int (a + b) →
    fadd (of_int64 a) (of_int64 b) = of_int64 (a + b);
  fdiv_mono a b : exact_int a → exact_int b → (a ≤ b)%Z →
    fleb (fdiv (of_int64 a) (of_int64 1000000000)) (fdiv (of_int64 b) (of_int64 1000000000)) = true;
  fdiv_int a : exact_int (a * 1000000000) →
    fdiv (of_int64 (a * 1000000000)) (of_int64 1000000000) = of_int64 a }.

(** [d.Seconds()] *)
Definition Seconds `{!Float64} (d : Z) : F :=
  fadd (of_int64 (Z.quot d 1000000000)) (fdiv (of_int64 (Z.rem d 1000000000)) (of_int64 1000000000)).

(** [t.Sub(u)]: the difference, or the closest duration. *)
Definition saturate (d : Z) : Z := (Z.max (- 2 ^ 63) (Z.min (2 ^ 63 - 1) d))%Z.

Definition IsExpired `{!Float64} (now : Z) (token : Token) : bool :=
  if (token_TTLMillis token =? 0)%Z then false else
  let durationElapsed := saturate (now - CreationTimestamp (token_meta token)) in
  let ttlDuration := wrap64 (token_TTLMillis token * 1000000) in
  fleb (Seconds ttlDuration) (Seconds durationElapsed).

Definition with_ExpiresAt (s : string) (t : Token) : Token :=
  {| token_meta := token_meta t; token_type := token_type t; token_Token := token_Token t;
     token_UserPrincipal := token_UserPrincipal t; token_GroupPrincipals := token_GroupPrincipals t;
     token_ProviderInfo := token_ProviderInfo t; token_UserID := token_UserID t;
     token_AuthProvider := token_AuthProvider t; token_TTLMillis := token_TTLMillis t;
     token_LastUpdateTime := token_LastUpdateTime t; token_IsDerived := token_IsDerived t;
     token_Description := token_Description t; token_Expired := token_Expired t;
     token_ExpiresAt := s |}.

Definition with_Expired (e : bool) (t : Token) : Token :=
  {| token_meta := token_meta t; token_type := token_type t; token_Token := token_Token t;
     token_UserPrincipal := token_UserPrincipal t; token_GroupPrincipals := token_GroupPrincipals t;
     token_ProviderInfo := token_ProviderInfo t; token_UserID := token_UserID t;
     token_AuthProvider := token_AuthProvider t; token_TTLMillis := token_TTLMillis t;
     token_LastUpdateTime := token_LastUpdateTime t; token_IsDerived := token_IsDerived t;
     token_Description := token_Description t; token_Expired := e;
     token_ExpiresAt := token_ExpiresAt t |}.

Definition SetTokenExpiresAt {W} `{!GoRuntime W} (token : Token) : Token :=
  if (token_TTLMillis token =? 0)%Z then token else
  let ttlDuration := wrap64 (token_TTLMillis token * 1000000) in
  with_ExpiresAt (format_RFC3339 (W:=W) (CreationTimestamp (token_meta token) + ttlDuration)%Z) token.

(** ** Names and keys *)

(** [strings.Split] returns at least one part. *)
Definition first_part (l : list string) : string := default "" (head l).

Definition getAuthProviderName (principalID : string) : string :=
  first_part (Split (first_part (Split principalID "://")) "_").

(** [parts[1]] panics where there is no second part. *)
Definition getUserID (principalID : string) : outcome string :=
  match Split principalID "://" with
  | _ :: p :: _ => Ok p
  | _ => Panic
  end.

Definition SplitTokenParts (tokenID : string) : string * string :=
  match Split tokenID ":" with
  | [name; key] => (name, key)
  | parts => (first_part parts, "")
  end.

(** ** Requests *)

Record Request := {
  Header : gmap string (list string);
  URL_Scheme : string }.

Notation CookieName := "R_SESS" (only parsing).
Notation AuthHeaderName := "Authorization" (only parsing).
Notation AuthValuePrefix := "Bearer" (only parsing).
Notation BasicAuthPrefix := "Basic" (only parsing).

(** [req.Header.Get(k)] for a key in canonical form. *)
Definition header_Get (req : Request) (k : string) : string :=
  default "" (head (default [] (Header req !! k))).

(** Package net/http: the bytes a cookie value may have, and the value without
    double quotes around it. *)
Definition validCookieValueByte (c : ascii) : bool :=
  let b := N_of_ascii c in
  (32 <=? b)%N && (b <? 127)%N && negb (Ascii.eqb c "034"%char) && negb (Ascii.eqb c ";"%char) &&
  negb (Ascii.eqb c "\"%char).

Fixpoint all_bytes (f : ascii → bool) (s : string) : bool :=
  match s with
  | EmptyString => true
  | String c s => f c && all_bytes f s
  end.

Definition unquote (s : string) : string :=
  match s with
  | String "034"%char rest =>
    match string_rev rest with
    | String "034"%char body => string_rev body
    | _ => s
    end
  | _ => s
  end.

Definition parseCookieValue (raw : string) : option string :=
  let raw := unquote raw in if all_bytes validCookieValueByte raw then Some raw else None.

(** One [name=value] part of a Cookie header. *)
Definition cookie_part (name part : string) : option string :=
  let part := TrimSpace part in
  if String.eqb part "" then None else
  let '(n, v) := match SplitN2 part "=" with [n; v] => (n, v) | _ => (part, "") end in
  if String.eqb n name then parseCookieValue v else None.

(** [req.Cookie(name)]: the first cookie of that name. *)
Definition Cookie (req : Request) (name : string) : option string :=
  head (omap (cookie_part name)
         (flat_map (λ line, Split (TrimSpace line) ";") (default [] (Header req !! "Cookie")))).

Definition GetTokenAuthFromRequest (req : Request) : string :=
  let authHeader := TrimSpace (header_Get req AuthHeaderName) in
  if negb (String.eqb authHeader "") then
    match SplitN2 authHeader " " with
    | [p; rest] =>
      if EqualFold p AuthValuePrefix then TrimSpace rest
      else if EqualFold p BasicAuthPrefix then default "" (DecodeString (TrimSpace rest))
      else ""
    | _ => ""
    end
  else default "" (Cookie req CookieName).

(** ** Package randomtoken *)

(** [rand.Int(rand.Reader, max)] *)
Class Random (W : Type) := { rand_Int : N → M W N }.

(** A number below the bound, or an error; objects and caches stay as they are. *)
Class RandomLaws (W : Type) `{!Random W, !Kube W} := {
  rand_Int_law max w :
    match rand_Int max w with
    | (Ok n, w') => (n < max)%N ∧ view w' = view w ∧ cached w' = cached w
    | (Err _, w') => view w' = view w ∧ cached w' = cached w
    | _ => False
    end }.

Definition characters : string := "bcdfghjklmnpqrstvwxz2456789".
Definition tokenLength : nat := 54.
Definition charsLength : N := N.of_nat (String.length characters).

Fixpoint generate {W} `{!Random W} (n : nat) : M W string :=
  match n with
  | O => ret ""
  | S n =>
    let* r := rand_Int charsLength in
    let* rest := generate n in
    ret (String (default "b"%char (String.get (N.to_nat r) characters)) rest)
  end.

Definition Generate {W} `{!Random W} : M W string := generate tokenLength.

(** ** The server of tokens *)

Notation UserIDLabel := "authn.management.cattle.io/token-userId" (only parsing).

Definition tokenKeyIndexer (token : Token) : list string := [token_Token token].

Definition userPrincipalIndexer (user : User) : list string := user_PrincipalIDs user.

Section server.
Context {W : Type} `{!GoRuntime W, !Float64, !Random W, !Client W Token}.

Definition expired (token : Token) : M W bool := reads (λ w, Ok (IsExpired (time_Now w) token)).

Definition createK8sTokenCR (k8sToken : Token) : M W Token :=
  let* r := attempt Generate in
  match r with
  | inl _ => throw (PlainError "failed to generate token key")
  | inr key =>
    api_create ""
      {| token_meta := generate_meta "token-" {[ UserIDLabel := token_UserID k8sToken ]} ∅;
         token_type := {| Kind := "Token"; APIVersion := "management.cattle.io/v3" |};
         token_Token := key;
         token_UserPrincipal := token_UserPrincipal k8sToken;
         token_GroupPrincipals := token_GroupPrincipals k8sToken;
         token_ProviderInfo := token_ProviderInfo k8sToken; token_UserID := token_UserID k8sToken;
         token_AuthProvider := token_AuthProvider k8sToken;
         token_TTLMillis := token_TTLMillis k8sToken;
         token_LastUpdateTime := token_LastUpdateTime k8sToken;
         token_IsDerived := token_IsDerived k8sToken;
         token_Description := token_Description k8sToken; token_Expired := token_Expired k8sToken;
         token_ExpiresAt := token_ExpiresAt k8sToken |}
  end.

Definition updateK8sTokenCR (token : Token) : M W Token := api_update "" token.

(** The results [*v3.Token], [int] and [error] of a call. *)
Definition token_result : Type := option Token * Z * option goerr.

Definition invalid_token : goerr := PlainError "Invalid auth token value".
Definition expired_token : goerr := PlainError "Auth Token has expired".

(** The token the cache has for the key, or else the one the server has for the
    name; [%#v] of an error is written as its text. *)
Definition lookup_token (tokenName tokenKey : string) : M W (Token + (Z * goerr)) :=
  let* r := attempt (reads (ByIndex tokenKeyIndexer tokenKey)) in
  let fromClient :=
    let* g := attempt (reads (api_get "" tokenName)) in
    ret (match g with
         | inr t => inl t
         | inl e => inr (404%Z, e)
         end) in
  match r with
  | inl e => if IsNotFound e then fromClient else ret (inr (0%Z, e))
  | inr [] => fromClient
  | inr (t :: _) => ret (inl t)
  end.

Definition getK8sTokenCR (tokenAuthValue : string) : M W token_result :=
  let '(tokenName, tokenKey) := SplitTokenParts tokenAuthValue in
  let* r := lookup_token tokenName tokenKey in
  match r with
  | inr (404%Z, e) =>
    ret (None, 404%Z, Some (PlainError ("failed to retrieve auth token, error: " +:+ Error e)))
  | inr (code, e) =>
    ret (None, code, Some (PlainError ("failed to retrieve auth token from cache, error: " +:+ Error e)))
  | inl storedToken =>
    if negb (String.eqb (token_Token storedToken) tokenKey) ||
       negb (String.eqb (Name (token_meta storedToken)) tokenName)
    then ret (None, 0%Z, Some invalid_token) else
    let* e := expired storedToken in
    if e then ret (Some storedToken, 410%Z, Some expired_token)
    else ret (Some storedToken, 0%Z, None)
  end.

Definition createDerivedToken (jsonInput : Token) (tokenAuthValue : string) :
    M W (option Token * Z * option goerr) :=
  let* r := getK8sTokenCR tokenAuthValue in
  match r with
  | (_, _, Some e) => ret (None, 401%Z, Some e)
  | (None, _, None) => panic
  | (Some token, _, None) =>
    let* c := attempt (createK8sTokenCR
      {| token_meta := no_meta; token_type := {| Kind := ""; APIVersion := "" |}; token_Token := "";
         token_UserPrincipal := token_UserPrincipal token;
         token_GroupPrincipals := token_GroupPrincipals token;
         token_ProviderInfo := token_ProviderInfo token; token_UserID := token_UserID token;
         token_AuthProvider := token_AuthProvider token;
         token_TTLMillis := token_TTLMillis jsonInput; token_LastUpdateTime := "";
         token_IsDerived := true; token_Description := token_Description jsonInput;
         token_Expired := false; token_ExpiresAt := "" |}) in
    match c with
    | inl e => ret (None, 0%Z, Some e)
    | inr rToken => ret (Some rToken, 0%Z, None)
    end
  end.

(** [if IsExpired(t) { t.Expired = true }] *)
Definition mark_expired (t : Token) : M W Token :=
  let* e := expired t in ret (if e then with_Expired true t else t).

Fixpoint mark_all (l : list Token) : M W (list Token) :=
  match l with
  | [] => ret []
  | t :: l => let* t := mark_expired t in let* l := mark_all l in ret (t :: l)
  end.

Definition getTokens (tokenAuthValue : string) : M W (list Token * Z * option goerr) :=
  let* r := getK8sTokenCR tokenAuthValue in
  match r with
  | (_, _, Some e) => ret ([], 401%Z, Some e)
  | (None, _, None) => panic
  | (Some storedToken, _, None) =>
    let userID := token_UserID storedToken in
    let* l := attempt (reads (api_list "" {[ UserIDLabel := userID ]})) in
    match l with
    | inl e => ret ([], 0%Z, Some (PlainError ("error getting tokens for user: " +:+ userID +:+
                      "  err: " +:+ Error e)))
    | inr items => let* tokens := mark_all items in ret (tokens, 0%Z, None)
    end
  end.

(** The test of the status code of an error is [IsNotFound]. *)
Definition deleteTokenByName (tokenName : string) : M W (Z * option goerr) :=
  let* r := attempt (api_delete (O:=Token) "" tokenName) in
  match r with
  | inl e => if IsNotFound e then ret (0%Z, None)
             else ret (500%Z, Some (PlainError "failed to delete token"))
  | inr _ => ret (0%Z, None)
  end.

Definition deleteToken (tokenAuthValue : string) : M W (Z * option goerr) :=
  let* r := getK8sTokenCR tokenAuthValue in
  match r with
  | (_, 404%Z, Some _) => ret (0%Z, None)
  | (Some storedToken, 410%Z, Some _) => deleteTokenByName (Name (token_meta storedToken))
  | (None, 410%Z, Some _) => panic
  | (_, _, Some e) => ret (401%Z, Some e)
  | (None, _, None) => panic
  | (Some storedToken, _, None) => deleteTokenByName (Name (token_meta storedToken))
  end.

Definition getTokenByID (tokenAuthValue tokenID : string) : M W token_result :=
  let* r := getK8sTokenCR tokenAuthValue in
  match r with
  | (_, _, Some e) => ret (None, 401%Z, Some e)
  | (None, _, None) => panic
  | (Some storedToken, _, None) =>
    let* g := attempt (reads (api_get "" tokenID)) in
    match g with
    | inl e => ret (None, 404%Z, Some e)
    | inr token =>
      if negb (String.eqb (token_UserID token) (token_UserID storedToken))
      then ret (None, 404%Z, Some (PlainError (tokenID +:+ " not found")))
      else let* token := mark_expired token in ret (Some token, 0%Z, None)
    end
  end.

Definition NewLoginToken (userID : string) (userPrincipal : Principal)
    (groupPrincipals : list Principal) (providerInfo : gmap string string) (ttl : Z)
    (description : string) : M W Token :=
  createK8sTokenCR
    {| token_meta := no_meta; token_type := {| Kind := ""; APIVersion := "" |}; token_Token := "";
       token_UserPrincipal := userPrincipal; token_GroupPrincipals := groupPrincipals;
       token_ProviderInfo := providerInfo; token_UserID := userID;
       token_AuthProvider := getAuthProviderName (p_Name userPrincipal); token_TTLMillis := ttl;
       token_LastUpdateTime := ""; token_IsDerived := false; token_Description := description;
       token_Expired := false; token_ExpiresAt := "" |}.

(** ** The purge daemon

    [clientbase.IsNotFound] looks for an error of another client library and is
    false on those of this one; the outcome of a deletion is only logged. *)
Definition purge : M W unit :=
  let* r := attempt (reads (lister_List "" Everything)) in
  for_each (λ token : Token,
    let* e := expired token in
    if e then do* attempt (api_delete (O:=Token) "" (Name (token_meta token))) in ret tt
    else ret tt) (match r with inr l => l | inl _ => [] end).

(** ** The controller of tokens *)

Definition token_sync (obj : option Token) : M W unit :=
  match obj with
  | None => ret tt
  | Some obj =>
    if negb (bool_decide (DeletionTimestamp (token_meta obj) = None)) then ret tt else
    if negb (token_TTLMillis obj =? 0)%Z && String.eqb (token_ExpiresAt obj) ""
    then do* api_update "" (SetTokenExpiresAt (W:=W) obj) in ret tt
    else ret tt
  end.

(** ** The authenticator *)

Definition must_authenticate : goerr := PlainError "must authenticate".

Definition TokenFromRequest (req : Request) : M W Token :=
  let tokenAuthValue := GetTokenAuthFromRequest req in
  if String.eqb tokenAuthValue "" then throw must_authenticate else
  let '(tokenName, tokenKey) := SplitTokenParts tokenAuthValue in
  if String.eqb tokenName "" || String.eqb tokenKey "" then throw must_authenticate else
  let* r := lookup_token tokenName tokenKey in
  match r with
  | inr (404%Z, e) =>
    if IsNotFound e then throw must_authenticate
    else throw (PlainError ("failed to retrieve auth token, error: " +:+ Error e))
  | inr (_, e) =>
    throw (PlainError ("failed to retrieve auth token from cache, error: " +:+ Error e))
  | inl storedToken =>
    if negb (String.eqb (token_Token storedToken) tokenKey) ||
       negb (String.eqb (Name (token_meta storedToken)) tokenName)
    then throw must_authenticate else
    let* e := expired storedToken in
    if e then throw must_authenticate else ret storedToken
  end.

(** The groups of a token. *)
Definition token_groups (token : Token) : list string :=
  map (λ p, TrimPrefix (p_Name p) "local://") (token_GroupPrincipals token).

Definition Authenticate (req : Request) : M W (string * list string) :=
  let* token := TokenFromRequest req in
  ret (token_UserID token, token_groups token).

(** ** The filter

    [inl] is the response with its status, [inr] the request handed on. *)
Definition header_Set (k v : string) (req : Request) : Request :=
  {| Header := <[k := [v]]> (Header req); URL_Scheme := URL_Scheme req |}.

Definition header_Del (k : string) (req : Request) : Request :=
  {| Header := delete k (Header req); URL_Scheme := URL_Scheme req |}.

Definition header_Add (k v : string) (req : Request) : Request :=
  {| Header := <[k := default [] (Header req !! k) ++ [v]]> (Header req);
     URL_Scheme := URL_Scheme req |}.

Definition filter_ServeHTTP (req : Request) : M W (Z * goerr + Request) :=
  let* r := attempt (Authenticate req) in
  ret (match r with
       | inl e => inl (401%Z, e)
       | inr (user, groups) =>
         let req := header_Set "Impersonate-User" user req in
         let req := header_Del "Impersonate-Group" req in
         inr (foldl (λ req group, header_Add "Impersonate-Group" group req) req groups)
       end).

(** ** The handlers of the token API

    A handler answers with a status and data, or with the status of an error; the
    status of an error that is returned as it is is left to the framework (0).
    [ConvertTokenResource] maps a token to the fields of the API schema. *)

Section handlers.
Context {V : Type} (str : string → V) (ConvertTokenResource : Token → outcome (gmap string V)).

Definition answer (A : Type) : Type := (Z * goerr + Z * A)%type.

Definition no_token {A} : answer A :=
  inl (401%Z, PlainError "No valid token cookie or auth header").

Definition failed {A} (status : Z) (e : goerr) : answer A :=
  inl (if (status =? 0)%Z then 500%Z else status, PlainError (Error e)).

Definition converted {A} (token : Token) (k : gmap string V → answer A) : M W (answer A) :=
  let* r := attempt (reads (λ _, ConvertTokenResource token)) in
  ret (match r with inl e => inl (0%Z, e) | inr data => k data end).

Definition deriveToken (req : Request) (jsonInput : Token) : M W (answer (gmap string V)) :=
  let tokenAuthValue := GetTokenAuthFromRequest req in
  if String.eqb tokenAuthValue "" then ret no_token else
  let* r := createDerivedToken jsonInput tokenAuthValue in
  match r with
  | (_, status, Some e) => ret (failed status e)
  | (None, _, None) => panic
  | (Some token, _, None) =>
    converted token (λ tokenData,
      inr (201%Z, <["token" := str (Name (token_meta token) +:+ ":" +:+ token_Token token)]> tokenData))
  end.

(** [tokensFromStore] starts with one nil map for each token. *)
Fixpoint appendTokens (tokensFromStore : list (option (gmap string V))) (tokens : list Token) :
    M W (answer (list (option (gmap string V)))) :=
  match tokens with
  | [] => ret (inr (200%Z, tokensFromStore))
  | token :: tokens =>
    let* r := attempt (reads (λ _, ConvertTokenResource token)) in
    match r with
    | inl e => ret (inl (0%Z, e))
    | inr data => appendTokens (tokensFromStore ++ [Some data]) tokens
    end
  end.

Definition listTokens (req : Request) : M W (answer (list (option (gmap string V)))) :=
  let tokenAuthValue := GetTokenAuthFromRequest req in
  if String.eqb tokenAuthValue "" then ret no_token else
  let* r := getTokens tokenAuthValue in
  match r with
  | (_, status, Some e) => ret (failed status e)
  | (tokens, _, None) => appendTokens (replicate (length tokens) None) tokens
  end.

(** The cookies set, and the answer. *)
Definition logout (req : Request) : M W (list (string * string) * (Z * goerr + unit)) :=
  let tokenAuthValue := GetTokenAuthFromRequest req in
  if String.eqb tokenAuthValue ""
  then ret ([], inl (401%Z, PlainError "No valid token cookie or auth header")) else
  let* r := deleteToken tokenAuthValue in
  ret ([(CookieName, "")],
       match r with
       | (status, Some e) =>
         inl (if (status =? 0)%Z then 500%Z else status, PlainError (Error e))
       | (_, None) => inr tt
       end).

Definition getToken (req : Request) (tokenID : string) : M W (answer (gmap string V)) :=
  let tokenAuthValue := GetTokenAuthFromRequest req in
  if String.eqb tokenAuthValue "" then ret no_token else
  let* r := getTokenByID tokenAuthValue tokenID in
  match r with
  | (_, status, Some e) => ret (failed (if (status =? 410)%Z then 404%Z else status) e)
  | (None, _, None) => panic
  | (Some token, _, None) => converted token (λ tokenData, inr (200%Z, tokenData))
  end.

Definition removeToken (req : Request) (tokenID : string) : M W (answer unit) :=
  let tokenAuthValue := GetTokenAuthFromRequest req in
  if String.eqb tokenAuthValue "" then ret no_token else
  let* r := getTokenByID tokenAuthValue tokenID in
  let delete_it (name : string) :=
    let* c := getK8sTokenCR tokenAuthValue in
    match c with
    | (_, _, Some e) => ret (inl (0%Z, e))
    | (None, _, None) => panic
    | (Some current, _, None) =>
      if String.eqb (Name (token_meta current)) name && negb (token_IsDerived current)
      then ret (inl (400%Z, PlainError "Cannot delete token for current session. Use logout instead"))
      else
        let* d := deleteTokenByName name in
        match d with
        | (_, Some e) => ret (inl (0%Z, e))
        | (_, None) => ret (inr (204%Z, tt))
        end
    end in
  match r with
  | (t, status, Some e) =>
    if (status =? 410)%Z then delete_it (from_option (λ t, Name (token_meta t)) "" t)
    else ret (failed status e)
  | (None, _, None) => panic
  | (Some t, _, None) => delete_it (Name (token_meta t))
  end.

Definition tokenListHandler (req : Request) (ID : string) :
    M W (answer (list (option (gmap string V))) + answer (gmap string V)) :=
  if negb (String.eqb ID "") then let* r := getToken req ID in ret (inr r)
  else let* r := listTokens req in ret (inl r).

End handlers.

(** [CreateTokenAndSetCookie]: the cookie set, with its [Secure] flag; the answer
    is 200.  The parameter [ttl] is not used. *)
Definition CreateTokenAndSetCookie (req : Request) (userID : string) (userPrincipal : Principal)
    (groupPrincipals : list Principal) (providerInfo : gmap string string) (ttl : Z)
    (description : string) : M W (Z * goerr + (string * string * bool)) :=
  let* r := attempt (NewLoginToken userID userPrincipal groupPrincipals providerInfo 0 description) in
  ret (match r with
       | inl e => inl (500%Z, PlainError ("Failed creating token with error: " +:+ Error e))
       | inr token =>
         inr (CookieName, Name (token_meta token) +:+ ":" +:+ token_Token token,
              String.eqb (URL_Scheme req) "https")
       end).

End server.
End Tokens.
