(* ===== verification/TokenAuth.v ===== *)
(** * Tokens and authentication of requests: theorems

    Who a request is taken for, how long a token lives, that a login can be used
    and a logout ends it, and that the token API stays with the user's own
    tokens. *)

From stdpp Require Import base gmap list strings.
From Stdlib Require Import Ascii ZArith Lia QArith.
From Stdlib Require Qcanon.
From S2P Require Import Prelude.
From S2P Require Import GoLib.
From S2P Require Import GoEncoding.
From S2P Require Import KubeTypes.
From S2P Require Import KubeObjects.
From S2P Require Import Kube.
From S2P Require Import KubeRules.
From S2P Require Import KubeSim.
From S2P Require Import MgmtHandlers.
From S2P Require Import MgmtUsers.
From S2P Require Import Tokens.
Import Tokens.

Open Scope go_scope.

Module TokenAuth.

(** ** Durations *)

Section durations.
Context `{!Float64, !Float64Laws}.
Open Scope Z_scope.

Notation second := 1000000000.

Lemma exact_small x : - 10000000000 ≤ x ≤ 10000000000 → exact_int x.
Proof. unfold exact_int. lia. Qed.

(** The nanoseconds are less than a second, so that adding them does not overflow. *)
Lemma frac_small n : - second < n < second →
  fleb (of_int64 (-1)) (fdiv (of_int64 n) (of_int64 second)) = true ∧
  fleb (fdiv (of_int64 n) (of_int64 second)) (of_int64 1) = true.
Proof.
  intros Hn. rewrite <-(fdiv_int (-1)), <-(fdiv_int 1) by (apply exact_small; lia).
  split; apply fdiv_mono; try (apply exact_small; lia); lia.
Qed.

Lemma small_leb a b : -1 ≤ a ≤ b → b ≤ 1 → fleb (of_int64 a) (of_int64 b) = true.
Proof. intros Ha Hb. rewrite of_int64_leb by (apply exact_small; lia). apply Z.leb_le. lia. Qed.

Lemma frac_bounds n : 0 ≤ n < second →
  fleb (of_int64 0) (fdiv (of_int64 n) (of_int64 second)) = true ∧
  fleb (fdiv (of_int64 n) (of_int64 second)) (of_int64 1) = true.
Proof.
  intros Hn. rewrite <-(fdiv_int 0), <-(fdiv_int 1) by (apply exact_small; lia).
  split; apply fdiv_mono; try (apply exact_small; lia); lia.
Qed.

Lemma frac_bounds_neg n : - second < n ≤ 0 →
  fleb (fdiv (of_int64 n) (of_int64 second)) (of_int64 0) = true.
Proof.
  intros Hn. rewrite <-(fdiv_int 0) by (apply exact_small; lia).
  apply fdiv_mono; try (apply exact_small; lia); lia.
Qed.

(** A duration lies between whole seconds, and so does its float64. *)
Lemma quot_bounds d : 0 ≤ d → int64 d →
  0 ≤ Z.quot d second ≤ 9223372036 ∧ 0 ≤ Z.rem d second < second ∧
  d = second * Z.quot d second + Z.rem d second.
Proof.
  unfold int64. intros Hpos Hd. pose proof (Z.quot_rem' d second).
  pose proof (Z.rem_bound_pos d second). lia.
Qed.

Lemma Seconds_bounds d : 0 ≤ d → int64 d →
  fleb (of_int64 (Z.quot d second)) (Seconds d) = true ∧
  fleb (Seconds d) (of_int64 (Z.quot d second + 1)) = true.
Proof.
  intros Hpos Hd. destruct (quot_bounds d Hpos Hd) as (Hq & Hr & _).
  destruct (frac_bounds (Z.rem d second) Hr) as [Hlo Hhi]. unfold Seconds.
  rewrite <-(Z.add_0_r (Z.quot d second)) at 1.
  destruct (frac_small (Z.rem d second)) as [Hs _]; [lia|].
  rewrite <-!fadd_int by (apply exact_small; lia).
  split; apply fadd_mono; try done; try (apply exact_small; lia); apply small_leb; lia.
Qed.

Lemma Seconds_mono d d' : 0 ≤ d ≤ d' → int64 d' → fleb (Seconds d) (Seconds d') = true.
Proof.
  intros Hd Hd'. assert (int64 d) as Hd1 by (unfold int64 in *; lia).
  destruct (quot_bounds d) as (Hq & Hr & He); [lia|done|].
  destruct (quot_bounds d') as (Hq' & Hr' & He'); [lia|done|].
  destruct (decide (Z.quot d second = Z.quot d' second)) as [Heq|Hne].
  - unfold Seconds. rewrite Heq. apply fadd_mono; [apply exact_small; lia|apply frac_small; lia| |apply frac_small; lia].
    apply fdiv_mono; [apply exact_small; lia..|lia].
  - destruct (Seconds_bounds d) as [_ Hhi]; [lia|done|].
    destruct (Seconds_bounds d') as [Hlo _]; [lia|done|].
    eapply fleb_trans; [exact Hhi|]. eapply fleb_trans; [|exact Hlo].
    rewrite of_int64_leb by (apply exact_small; lia). apply Z.leb_le. lia.
Qed.

Lemma Seconds_apart d d' :
  0 ≤ d → int64 d' → d + 2 * second ≤ d' → fleb (Seconds d') (Seconds d) = false.
Proof.
  intros Hpos Hd' Hap. assert (int64 d) as Hd1 by (unfold int64 in *; lia).
  destruct (quot_bounds d) as (Hq & Hr & He); [lia|done|].
  destruct (quot_bounds d') as (Hq' & Hr' & He'); [lia|done|].
  destruct (Seconds_bounds d) as [_ Hhi]; [lia|done|].
  destruct (Seconds_bounds d') as [Hlo _]; [lia|done|].
  destruct (fleb (Seconds d') (Seconds d)) eqn:E; [|done]. exfalso.
  assert (fleb (of_int64 (Z.quot d' second)) (of_int64 (Z.quot d second + 1)) = true) as Hle.
  { eapply fleb_trans; [exact Hlo|]. eapply fleb_trans; [exact E|exact Hhi]. }
  rewrite of_int64_leb in Hle by (apply exact_small; lia). apply Z.leb_le in Hle. lia.
Qed.

Lemma Seconds_neg d d' : d < 0 → int64 d → 0 ≤ d' → int64 d' → fleb (Seconds d) (Seconds d') = true.
Proof.
  intros Hn Hd Hpos Hd'. destruct (Seconds_bounds d' Hpos Hd') as [Hlo _].
  destruct (quot_bounds d' Hpos Hd') as (Hq' & _ & _).
  assert (fleb (of_int64 0) (Seconds d') = true) as Hz.
  { eapply fleb_trans; [|exact Hlo]. rewrite of_int64_leb by (apply exact_small; lia).
    apply Z.leb_le. lia. }
  eapply fleb_trans; [|exact Hz].
  assert (- 9223372036 ≤ Z.quot d second ≤ 0 ∧ - second < Z.rem d second ≤ 0) as [Hq Hr].
  { unfold int64 in Hd. pose proof (Z.quot_rem' d second).
    pose proof (Z.rem_bound_pos_neg d second). lia. }
  unfold Seconds. eapply fleb_trans.
  { apply fadd_mono; [apply exact_small; lia|apply frac_small; lia|by apply frac_bounds_neg|by apply small_leb]. }
  rewrite fadd_int by (apply exact_small; lia).
  rewrite of_int64_leb by (apply exact_small; lia). apply Z.leb_le. lia.
Qed.

(** C40: a token with a time to live of at most 9223372036854 milliseconds (292
    years) expires when that time has passed, and is still alive while two
    seconds of it are left.  A longer time to live overflows: up to twice that
    value the duration is negative, and the token has expired when it is made. *)
Theorem IsExpired_bounds now token :
  let ttl := token_TTLMillis token in
  let elapsed := now - CreationTimestamp (token_meta token) in
  0 ≤ elapsed < 2 ^ 63 →
  (ttl = 0 → IsExpired now token = false) ∧
  (0 < ttl ≤ 9223372036854 →
     (ttl * 1000000 ≤ elapsed → IsExpired now token = true) ∧
     (elapsed + 2000000000 ≤ ttl * 1000000 → IsExpired now token = false)) ∧
  (9223372036854 < ttl ≤ 18446744073709 → IsExpired now token = true).
Proof.
  intros ttl elapsed Hel. unfold IsExpired. fold ttl elapsed.
  assert (saturate elapsed = elapsed) as -> by (unfold saturate; lia).
  assert (int64 elapsed) as He by (unfold int64; lia). split_and!.
  - intros ->. done.
  - intros Ht. destruct (Z.eqb_spec ttl 0); [lia|].
    assert (int64 (ttl * 1000000)) as Hi by (unfold int64; lia).
    rewrite wrap64_id by done. split; intros Hc; [apply Seconds_mono; [lia|done]|].
    apply Seconds_apart; [lia|done|lia].
  - intros Ht. destruct (Z.eqb_spec ttl 0); [lia|].
    apply Seconds_neg; [|apply wrap64_int64|lia|done]. unfold wrap64.
    replace (ttl * 1000000 + 2 ^ 63) with (ttl * 1000000 - 2 ^ 63 + 1 * 2 ^ 64) by lia.
    rewrite Z_mod_plus_full, Z.mod_small by lia. lia.
Qed.

End durations.

(** *** Rational arithmetic satisfies the laws of float64 *)

#[export] Instance Q_float : Float64 := {
  F := Q; of_int64 := inject_Z; fadd x y := Qred (x + y); fdiv x y := Qred (x / y);
  fleb := Qle_bool }.

#[export] Instance Q_float_laws : Float64Laws.
Proof.
  assert (∀ a : Z, Qred (inject_Z a) = inject_Z a) as Hred.
  { intros a. apply (Qcanon.Qred_identity (inject_Z a)). simpl. apply Z.gcd_1_r. }
  split; simpl.
  - intros x y z. rewrite !Qle_bool_iff. apply Qle_trans.
  - intros a b _ _. unfold Qle_bool, inject_Z. simpl. by rewrite !Z.mul_1_r.
  - intros a y z _ _ H _. rewrite Qle_bool_iff in *. rewrite !Qred_correct. by apply Qplus_le_r.
  - intros a b _ _ _. rewrite <-(Hred (a + b)%Z). apply Qred_complete. by rewrite inject_Z_plus.
  - intros a b _ _ H. rewrite Qle_bool_iff, !Qred_correct. unfold Qdiv.
    apply Qmult_le_compat_r; [|done]. by rewrite <-Zle_Qle.
  - intros a _. rewrite <-(Hred a). apply Qred_complete. rewrite inject_Z_mult. by field.
Qed.

(** A token of one minute, looked at after half of it; one of 300 years. *)
Definition demo_ttl (millis : Z) : Token :=
  {| token_meta := named_meta "token-1" {[ UserIDLabel := "u-1" ]} ∅ []; token_type := {| Kind := "Token"; APIVersion := "v3" |};
     token_Token := "key"; token_UserPrincipal := demo_principal; token_GroupPrincipals := [];
     token_ProviderInfo := ∅; token_UserID := "u-1"; token_AuthProvider := "local";
     token_TTLMillis := millis; token_LastUpdateTime := ""; token_IsDerived := false;
     token_Description := ""; token_Expired := false; token_ExpiresAt := "" |}.

Lemma IsExpired_bounds_witness :
  IsExpired 30000000000 (demo_ttl 60000) = false ∧ IsExpired 30000000000 (demo_ttl 9467280000000) = true.
Proof.
  destruct (IsExpired_bounds 30000000000 (demo_ttl 60000)) as (_ & Hm & _); [simpl; lia|].
  destruct (IsExpired_bounds 30000000000 (demo_ttl 9467280000000)) as (_ & _ & Hy); [simpl; lia|].
  split; [apply Hm; simpl; lia|apply Hy; simpl; lia].
Defined.

(** ** Names and keys *)

Lemma split_fuel_none n s sep : cut_sep sep s = None → split_fuel n s sep = [s].
Proof. destruct n; simpl; [done|]. by intros ->. Qed.

Lemma SplitTokenParts_join name key :
  has_char ":" name = false → has_char ":" key = false →
  SplitTokenParts (name +:+ ":" +:+ key) = (name, key).
Proof.
  intros Hn Hk. unfold SplitTokenParts, Split. change (":" +:+ key) with (String ":" key).
  assert (0 < String.length (name +:+ String ":" key))%nat as Hlen
    by (rewrite append_length; simpl; lia).
  destruct (String.length _); [lia|]. simpl split_fuel. rewrite cut_sep_char by done.
  rewrite split_fuel_none by (by apply cut_sep_char_None). done.
Qed.

Section auth.
Context {W : Type} `{!GoRuntime W, !Float64, !Random W, !Kube W, !Client W Token, !ClientLaws W Token}.
Implicit Types (w : W) (t : Token).

(** The token [t] is known for the name and the key: it is in the cache, or, if
    the cache has no token with the key, on the server. *)
Definition known (name key : string) w t : Prop :=
  token_Token t = key ∧ Name (token_meta t) = name ∧
  (s_Tokens (cached w) !! obj_key t = Some t ∨ s_Tokens (view w) !! ("", name) = Some t).

(** No token of the cache has the key. *)
Definition uncached (key : string) w : Prop :=
  map_Forall (λ _ t, token_Token t ≠ key) (s_Tokens (cached w)).

Lemma lookup_token_run name key w :
  ∃ r, lookup_token name key w = (Ok r, w) ∧
  match r with
  | inl t => (s_Tokens (cached w) !! obj_key t = Some t ∧ token_Token t = key) ∨
             (uncached key w ∧ s_Tokens (view w) !! ("", name) = Some t)
  | inr (code, e) =>
    code = 404%Z ∧ uncached key w ∧ api_get "" name w = Err e ∧ (IsNotFound e = true → s_Tokens (view w) !! ("", name) = None) ∧
    (ClientHealthy W Token → s_Tokens (view w) !! ("", name) = None)
  end.
Proof.
  unfold lookup_token, bind, attempt, reads.
  destruct (by_index_law (O:=Token) tokenKeyIndexer key w) as (l & Hl & Hperm). rewrite Hl.
  pose proof (λ t, elem_of_index (O:=Token) tokenKeyIndexer key w l t Hl) as Hin.
  destruct l as [|t l].
  - assert (uncached key w) as Hun.
    { intros k t Hk Heq. apply (not_elem_of_nil t), Hin. split.
      - assert (k = obj_key t) as <- by exact (cached_keyed (O:=Token) w k t Hk). exact Hk.
      - rewrite <-Heq. apply list_elem_of_singleton. done. }
    pose proof (get_law (O:=Token) "" name w) as Hget.
    destruct (api_get "" name w) as [t|e| |] eqn:E; try done; eexists; split; [done| |done|].
    + right. by split.
    + split_and!; [done..|]. intros Hh.
      destruct (s_Tokens (view w) !! ("", name)) as [t|] eqn:Et; [|done].
      pose proof (get_healthy (O:=Token) "" name w t Et). congruence.
  - eexists. split; [done|]. left. destruct (proj1 (Hin t)) as [Hc Hk]; [by left|].
    split; [done|]. by apply list_elem_of_singleton in Hk.
Qed.

(** The request is answered with a token it carries the name and the key of, and
    nothing changes. *)
Definition authentic (req : Request) w t : Prop :=
  ∃ name key, SplitTokenParts (GetTokenAuthFromRequest req) = (name, key) ∧
    name ≠ "" ∧ key ≠ "" ∧ known name key w t ∧ IsExpired (time_Now w) t = false.

Lemma TokenFromRequest_sound req w :
  wp (TokenFromRequest req) (if_ok (λ t w', w' = w ∧ authentic req w t) (λ _ w', w' = w)) w.
Proof.
  unfold TokenFromRequest. destruct (String.eqb _ ""); [by apply wp_throw|].
  destruct (SplitTokenParts _) as [name key] eqn:Hs.
  destruct (String.eqb_spec name ""); [by apply wp_throw|].
  destruct (String.eqb_spec key ""); [by apply wp_throw|]. cbn [orb].
  destruct (lookup_token_run name key w) as (r & Hrun & Hr).
  apply wp_bind. eapply wp_unfold; [exact Hrun|]. simpl.
  destruct r as [t|[code e]].
  - destruct (String.eqb_spec (token_Token t) key) as [Hkey|]; [|by apply wp_throw].
    destruct (String.eqb_spec (Name (token_meta t)) name) as [Hname|]; [|by apply wp_throw].
    cbn [negb orb]. apply wp_bind, wp_reads. simpl.
    destruct (IsExpired (time_Now w) t) eqn:He; [by apply wp_throw|]. apply wp_ret.
    split; [done|]. exists name, key. split_and!; [done..| |done]. split_and!; [done..|]. tauto.
  - destruct Hr as [-> _]. by destruct (IsNotFound e).
Qed.

(** *** The filter *)

Lemma add_groups groups req k :
  Header (foldl (λ req group, header_Add "Impersonate-Group" group req) req groups) !! k =
  if decide (k = "Impersonate-Group" ∧ groups ≠ [])
  then Some (default [] (Header req !! "Impersonate-Group") ++ groups) else Header req !! k.
Proof.
  revert req. induction groups as [|g groups IH]; intros req; simpl.
  - rewrite decide_False; [done|]. naive_solver.
  - rewrite IH. simpl. rewrite lookup_insert_eq. simpl.
    destruct (decide (k = "Impersonate-Group")) as [->|Hk].
    + rewrite (decide_True (P := _ ∧ g :: groups ≠ [])) by done.
      case_decide as Hg; [by rewrite <-app_assoc|]. rewrite lookup_insert_eq.
      assert (groups = []) as -> by (destruct groups; [done|]; naive_solver). done.
    + rewrite !decide_False by naive_solver. by rewrite lookup_insert_ne.
Qed.

Lemma wp_filter req w :
  wp (filter_ServeHTTP req) (returns (λ r w', w' = w ∧
    match r with
    | inl (status, _) => status = 401%Z
    | inr req' => ∃ t, authentic req w t ∧
        Header req' !! "Impersonate-User" = Some [token_UserID t] ∧
        default [] (Header req' !! "Impersonate-Group") = token_groups t ∧
        (∀ k, k ≠ "Impersonate-User" → k ≠ "Impersonate-Group" → Header req' !! k = Header req !! k)
    end)) w.
Proof.
  unfold filter_ServeHTTP, Authenticate. apply wp_bind, wp_attempt, wp_bind.
  eapply wp_mono; [apply TokenFromRequest_sound|]. intros [t|e| |] w'; simpl; try done.
  intros [Hw Hauth]. subst w'. apply wp_ret, wp_ret. split; [done|]. exists t.
  rewrite !add_groups. split_and!; [done|..].
  - rewrite decide_False by naive_solver. simpl.
    rewrite lookup_delete_ne by done. by rewrite lookup_insert_eq.
  - simpl. rewrite lookup_delete_eq. case_decide as Hg; [done|].
    destruct (token_groups t); [done|]. naive_solver.
  - intros k Hu Hg. rewrite add_groups, decide_False by naive_solver. simpl.
    by rewrite lookup_delete_ne, lookup_insert_ne.
Qed.

(** C3: a request passes the filter only with the name and the key of a token
    that is known and has not expired; everything else is answered with 401.
    Behind the filter its headers Impersonate-User and Impersonate-Group hold the user and
    the groups of that token and no others, whatever the client sent; every other
    header, Impersonate-Extra-* among them, is as the client sent it. *)
Theorem filter_impersonates req w :
  wp (filter_ServeHTTP req) (returns (λ r w', w' = w ∧
    match r with
    | inl (status, _) => status = 401%Z
    | inr req' => ∃ t, authentic req w t ∧
        Header req' !! "Impersonate-User" = Some [token_UserID t] ∧
        default [] (Header req' !! "Impersonate-Group") = token_groups t ∧
        (∀ k, k ≠ "Impersonate-User" → k ≠ "Impersonate-Group" → Header req' !! k = Header req !! k)
    end)) w.
Proof. apply wp_filter. Qed.

(** ** Keys *)

(** The characters a key is made of. *)
Definition key_char (c : ascii) : bool := has_char c characters.

Definition unchanged w w' : Prop := view w' = view w ∧ cached w' = cached w.

Lemma drawn_char n : (n < charsLength)%N →
  key_char (default "b"%char (String.get (N.to_nat n) characters)) = true.
Proof.
  intros Hn.
  assert (forallb (λ n, key_char (default "b"%char (String.get n characters))) (seq 0 27) = true)
    as Hall by (vm_compute; reflexivity).
  rewrite forallb_forall in Hall. apply Hall, in_seq. change charsLength with 27%N in Hn. lia.
Qed.

Lemma wp_generate `{!RandomLaws W} n w :
  wp (generate n) (if_ok (λ key w', (String.length key = n ∧ all_bytes key_char key = true) ∧
                                    unchanged w w') (λ _ w', unchanged w w')) w.
Proof.
  revert w. induction n as [|n IH]; intros w; simpl; [by apply wp_ret|].
  eapply (wp_bind_if_ok _ _ (λ c w', (c < charsLength)%N ∧ unchanged w w') (λ _ w', unchanged w w')); [| |done].
  { unfold wp. pose proof (rand_Int_law charsLength w) as Hlaw.
    destruct (rand_Int charsLength w) as [[] w']; simpl; try done; by unfold unchanged. }
  intros c w1 (Hc & Hv1 & Hc1). eapply wp_bind_if_ok; [apply IH| |].
  - intros rest w2 ((Hlen & Hall) & Hv2 & Hc2). apply wp_ret. unfold unchanged.
    split; [|by rewrite Hv2, Hc2]. split; [exact (f_equal S Hlen)|].
    apply andb_true_iff. split; [by apply drawn_char|done].
  - intros e w2 [Hv2 Hc2]. unfold unchanged. by rewrite Hv2, Hc2.
Qed.

Lemma key_no_colon key : all_bytes key_char key = true → has_char ":" key = false.
Proof.
  induction key as [|c key IH]; [done|]. cbn [has_char all_bytes].
  rewrite andb_true_iff. intros [Hc Hk]. rewrite IH by done. rewrite orb_false_r. destruct (Ascii.eqb_spec ":" c) as [<-|]; [|done].
  by vm_compute in Hc.
Qed.

(** What the server stores for a token it is asked to make. *)
Record made (t t' : Token) (key : string) : Prop := {
  made_key : token_Token t' = key;
  made_length : String.length key = tokenLength;
  made_chars : all_bytes key_char key = true;
  made_meta : Namespace (token_meta t') = "" ∧ Name (token_meta t') ≠ "" ∧
    Labels (token_meta t') = {[ UserIDLabel := token_UserID t ]};
  made_user : token_UserID t' = token_UserID t ∧ token_UserPrincipal t' = token_UserPrincipal t ∧
    token_GroupPrincipals t' = token_GroupPrincipals t ∧ token_AuthProvider t' = token_AuthProvider t ∧
    token_ProviderInfo t' = token_ProviderInfo t;
  made_life : token_TTLMillis t' = token_TTLMillis t ∧ token_IsDerived t' = token_IsDerived t }.

Lemma wp_createK8sTokenCR `{!RandomLaws W} t w :
  wp (createK8sTokenCR t)
     (if_ok (λ t' w', ∃ key, made t t' key ∧ s_Tokens (view w) !! ("", Name (token_meta t')) = None ∧
               view w' = put_obj t' (view w))
            (λ _ w', view w' = view w)) w.
Proof.
  unfold createK8sTokenCR. apply wp_bind, wp_attempt. eapply wp_mono; [apply wp_generate|].
  intros [key|e| |] w1; simpl; try done; last by (intros [Hv _]; apply wp_throw).
  intros ((Hlen & Hall) & Hv & _). apply wp_create; [|by intros e w' Hv' _ _; simpl; rewrite Hv'].
  intros t' w' Hst Hno Hw' _. simpl.
  destruct Hst as (Hns & Hne & _ & Hl & _ & _ & Hspec). simpl in Hns, Hl, Hspec.
  change (client_ns "" _) with "" in Hns. rewrite Hv in Hno, Hw'.
  exists key. split_and!; [|by rewrite <-Hns|done].
  rewrite Hspec. by split; simpl; rewrite ?Hl, ?Hns.
Qed.

(** ** Login and logout *)

(** A token on the server whose key no other cached token has is found. *)
Lemma lookup_token_found `{!ClientHealthy W Token} name key t w :
  s_Tokens (view w) !! ("", name) = Some t →
  map_Forall (λ _ t', token_Token t' = key → t' = t) (s_Tokens (cached w)) →
  lookup_token name key w = (Ok (inl t), w).
Proof.
  intros Hv Honly. destruct (lookup_token_run name key w) as (r & -> & Hr). do 2 f_equal.
  destruct r as [t'|[code e]].
  - destruct Hr as [[Hc Hk]|[_ Hv']]; [|congruence]. by rewrite (Honly _ _ Hc Hk).
  - destruct Hr as (_ & _ & _ & _ & Hno). rewrite (Hno _) in Hv. done.
Qed.

(** A request with the name and the key of a token that has not expired is taken
    for the user of the token. *)
Lemma Authenticate_stored `{!ClientHealthy W Token} req t w :
  s_Tokens (view w) !! ("", Name (token_meta t)) = Some t →
  Name (token_meta t) ≠ "" → has_char ":" (Name (token_meta t)) = false →
  token_Token t ≠ "" → has_char ":" (token_Token t) = false → IsExpired (time_Now w) t = false →
  map_Forall (λ _ t', token_Token t' = token_Token t → t' = t) (s_Tokens (cached w)) →
  GetTokenAuthFromRequest req = Name (token_meta t) +:+ ":" +:+ token_Token t →
  Authenticate req w = (Ok (token_UserID t, token_groups t), w).
Proof.
  intros Hv Hn Hnc Hk Hkc Hlife Honly Hreq. unfold Authenticate, TokenFromRequest. rewrite Hreq.
  rewrite SplitTokenParts_join by done.
  destruct (String.eqb_spec (Name (token_meta t) +:+ ":" +:+ token_Token t) "") as [E|_].
  { by destruct (Name (token_meta t)). }
  destruct (String.eqb_spec (Name (token_meta t)) ""); [done|].
  destruct (String.eqb_spec (token_Token t) ""); [done|].
  cbn [orb]. unfold bind at 1 2. rewrite (lookup_token_found _ _ t) by done.
  rewrite !String.eqb_refl. simpl. unfold bind, expired, reads. by rewrite Hlife.
Qed.

(** As long as the token is on the server and has not expired, no cached token shares its key and the server
    answers, a request with its value is taken for its user and groups. *)
Definition good_for_requests (t : Token) : Prop := ∀ req w,
  ClientHealthy W Token → s_Tokens (view w) !! ("", Name (token_meta t)) = Some t →
  IsExpired (time_Now w) t = false →
  map_Forall (λ _ t', token_Token t' = token_Token t → t' = t) (s_Tokens (cached w)) →
  GetTokenAuthFromRequest req = Name (token_meta t) +:+ ":" +:+ token_Token t →
  has_char ":" (Name (token_meta t)) = false →
  Authenticate req w = (Ok (token_UserID t, token_groups t), w).

(** What a login token holds, and who a request with it is. *)
Lemma NewLoginToken_stored `{!RandomLaws W} userID p gs info ttl d w t w' :
  NewLoginToken userID p gs info ttl d w = (Ok t, w') →
  view w' = put_obj t (view w) ∧ s_Tokens (view w) !! ("", Name (token_meta t)) = None ∧
  s_Tokens (view w') !! ("", Name (token_meta t)) = Some t ∧
  token_UserID t = userID ∧ token_GroupPrincipals t = gs ∧ token_TTLMillis t = ttl ∧ good_for_requests t.
Proof.
  unfold NewLoginToken. set (t0 := {| token_meta := _ |}).
  pose proof (wp_createK8sTokenCR t0 w) as Hwp. unfold wp in Hwp.
  destruct (createK8sTokenCR t0 w) as [[t1|e| |] w1]; simpl in *; intros [=]; subst.
  destruct Hwp as (key & [Hkey Hlen Hchars (Hns & Hne & _) Hu [Hlife _]] & Hno & Hv). simpl in *.
  destruct Hu as (Hu & _ & Hg & _). split_and!; [done..| |done|done|done|].
  - rewrite Hv. pose proof (tbl_put_eq (O:=Token) t (view w)) as Hp. unfold obj_key in Hp. simpl meta in Hp.
    rewrite Hns in Hp. exact Hp.
  - intros req w2 Hh Hin Hexp Honly Hreq Hcol. subst key. apply Authenticate_stored; auto using key_no_colon.
    intros E. by rewrite E in Hlen.
Qed.

(** A login can be used.  It adds one token for the user to the cluster, and
    a request that comes with the value of the cookie is taken for that user with
    the groups of the login, as long as no other cached token has the key. *)
Theorem login_round_trip `{!RandomLaws W, !ClientHealthy W Token}
    req0 userID userPrincipal groups info ttl desc w c value secure w' :
  CreateTokenAndSetCookie req0 userID userPrincipal groups info ttl desc w =
    (Ok (inr (c, value, secure)), w') →
  ∃ t, c = CookieName ∧ value = Name (token_meta t) +:+ ":" +:+ token_Token t ∧
    s_Tokens (view w) !! ("", Name (token_meta t)) = None ∧ view w' = put_obj t (view w) ∧
    ∀ req, GetTokenAuthFromRequest req = value → has_char ":" (Name (token_meta t)) = false →
      map_Forall (λ _ t', token_Token t' = token_Token t → t' = t) (s_Tokens (cached w')) →
      Authenticate req w' = (Ok (userID, map (λ p, TrimPrefix (p_Name p) "local://") groups), w').
Proof.
  unfold CreateTokenAndSetCookie, bind at 1, attempt.
  destruct (NewLoginToken userID userPrincipal groups info 0 desc w) as [[t|e| |] w1] eqn:Ht; intros [=]; subst.
  apply NewLoginToken_stored in Ht as (Hv & Hno & Hin & Hu & Hg & Httl & Hauth). exists t. split_and!; [done..|].
  intros req Hreq Hcol Honly.
  assert (Authenticate req w' = (Ok (token_UserID t, token_groups t), w')) as ->.
  { apply Hauth; [done..| |done|done|done]. unfold IsExpired. by rewrite Httl. }
  unfold token_groups. by rewrite Hu, Hg.
Qed.

Lemma deleteTokenByName_gone name w w' :
  deleteTokenByName name w = (Ok (0%Z, None), w') → s_Tokens (view w') !! ("", name) = None.
Proof.
  unfold deleteTokenByName, bind, attempt. pose proof (delete_law (O:=Token) "" name w) as Hlaw.
  destruct (api_delete (O:=Token) "" name w) as [[[]|e| |] w1]; simpl; try done.
  - intros [= <-]. destruct Hlaw as (_ & -> & _).
    refine (eq_trans (f_equal (lookup ("", name)) (tbl_del (O:=Token) ("", name) (view w))) _).
    apply lookup_delete_eq.
  - destruct (IsNotFound e); intros [= <-]. destruct Hlaw as (Hno & -> & _). by apply Hno.
Qed.

(** What [deleteToken] goes by: the token is gone, or could not be read. *)
Lemma deleteToken_gone value w w' :
  let name := (SplitTokenParts value).1 in
  deleteToken value w = (Ok (0%Z, None), w') →
  s_Tokens (view w') !! ("", name) = None ∨
  w' = w ∧ ∃ e, api_get (O:=Token) "" name w = Err e ∧ IsNotFound e = false ∧ ¬ ClientHealthy W Token.
Proof.
  unfold deleteToken, getK8sTokenCR. destruct (SplitTokenParts value) as [name key]. simpl fst.
  destruct (lookup_token_run name key w) as (r & Hrun & Hr). unfold bind at 1 2. rewrite Hrun.
  destruct r as [t|[code e]].
  - destruct (String.eqb (token_Token t) key); simpl; [|by intros [=]].
    destruct (String.eqb_spec (Name (token_meta t)) name) as [Hn|]; simpl; [|by intros [=]].
    unfold bind, expired, reads. rewrite <-Hn.
    destruct (IsExpired (time_Now w) t); simpl; left; by eapply deleteTokenByName_gone.
  - destruct Hr as (-> & _ & Hget & Hnf & Hh). simpl. intros [= <-].
    destruct (s_Tokens (view w) !! ("", name)) as [t|] eqn:Ht; [right|by left]. split; [done|].
    exists e. split; [done|]. split; [|intros Hhealthy; by specialize (Hh Hhealthy)].
    destruct (IsNotFound e); [by specialize (Hnf eq_refl)|done].
Qed.

(** C10: a logout ends the life of a token, unless the server cannot be read.  Once [deleteToken] has reported
    success the server has no token with the name, and as soon as the caches have
    caught up no request with the same value is let through; or nothing was done, because no cached token has
    the key and the request for the token failed with an error other than that it is not found, which a
    server that answers does not give. *)
Theorem logout_revokes value w w' :
  let name := (SplitTokenParts value).1 in
  deleteToken value w = (Ok (0%Z, None), w') →
  (s_Tokens (view w') !! ("", name) = None ∧
   ∀ w2 req, view w2 = view w' → in_sync_kind Token w2 → map_Forall (λ k _, k.1 = "") (s_Tokens (view w2)) →
     GetTokenAuthFromRequest req = value → ∃ e, TokenFromRequest req w2 = (Err e, w2)) ∨
  (w' = w ∧ ∃ e, api_get (O:=Token) "" name w = Err e ∧ IsNotFound e = false ∧ ¬ ClientHealthy W Token).
Proof.
  intros name Hdel. destruct (deleteToken_gone value w w' Hdel) as [Hgone|]; [left|by right].
  split; [done|]. intros w2 req Hv2 Hsync Hscope Hreq. pose proof (TokenFromRequest_sound req w2) as Hs. unfold wp in Hs.
  destruct (TokenFromRequest req w2) as [[t|e| |] w3]; simpl in Hs; try done; [|subst; by eexists].
  exfalso. destruct Hs as [_ (name' & key & Hsp & _ & _ & (Hk & Hn & Hin) & _)].
  unfold name in Hgone. rewrite Hreq in Hsp. rewrite Hsp, <-Hv2 in Hgone. simpl in Hgone.
  assert (s_Tokens (view w2) !! obj_key t = Some t ∨ s_Tokens (view w2) !! ("", name') = Some t) as [Hin'|Hin'].
  { destruct Hin as [Hin|Hin]; [left|by right].
    exact (eq_trans (f_equal (lookup (obj_key t)) (eq_sym Hsync)) Hin). }
  - pose proof (Hscope _ _ Hin') as Hns. unfold obj_key in Hin', Hns. simpl in Hin', Hns.
    rewrite Hns, Hn in Hin'. congruence.
  - congruence.
Qed.

(** ** The token API *)

(** The token a caller of the API shows. *)
Definition caller (value : string) w t : Prop :=
  known (SplitTokenParts value).1 (SplitTokenParts value).2 w t.

Lemma wp_getK8sTokenCR value w :
  wp (getK8sTokenCR value) (returns (λ r w', w' = w ∧
    match r with
    | (Some t, code, None) => code = 0%Z ∧ caller value w t
    | (Some t, code, Some _) => code = 410%Z ∧ caller value w t
    | (None, _, Some _) => True
    | (None, _, None) => False
    end)) w.
Proof.
  unfold getK8sTokenCR, caller. destruct (SplitTokenParts value) as [name key].
  destruct (lookup_token_run name key w) as (r & Hrun & Hr).
  apply wp_bind. eapply wp_unfold; [exact Hrun|]. simpl. destruct r as [t|[code e]].
  - destruct (String.eqb_spec (token_Token t) key) as [Hkey|]; [|by apply wp_ret].
    destruct (String.eqb_spec (Name (token_meta t)) name) as [Hname|]; [|by apply wp_ret].
    cbn [negb orb]. apply wp_bind, wp_reads. simpl.
    assert (known name key w t) by (split_and!; [done..|tauto]).
    by destruct (IsExpired (time_Now w) t); apply wp_ret.
  - destruct Hr as [-> _]. by apply wp_ret.
Qed.

Lemma wp_getTokenByID value tokenID w :
  wp (getTokenByID value tokenID) (returns (λ r w', w' = w ∧
    match r with
    | (Some t, _, None) => ∃ t0 t1, caller value w t0 ∧ s_Tokens (view w) !! ("", tokenID) = Some t1 ∧
        token_UserID t1 = token_UserID t0 ∧ Name (token_meta t) = tokenID
    | (None, code, Some _) => code ≠ 410%Z
    | _ => False
    end)) w.
Proof.
  unfold getTokenByID. eapply wp_bind_returns; [apply wp_getK8sTokenCR|].
  intros [[[t0|] code] [e|]] w' [-> Hr]; try done; try (by apply wp_ret).
  apply wp_bind, wp_attempt, wp_reads. pose proof (get_law (O:=Token) "" tokenID w) as Hget.
  destruct (api_get "" tokenID w) as [t1|e| |]; try done.
  simpl. destruct (String.eqb_spec (token_UserID t1) (token_UserID t0)) as [Hu|]; [|by apply wp_ret].
  cbn [negb]. apply wp_bind. unfold mark_expired. apply wp_bind, wp_reads. simpl. apply wp_ret. simpl.
  apply wp_ret. split; [done|]. exists t0, t1. destruct Hr as [_ Hc]. split_and!; [done..|].
  assert (("", tokenID) = obj_key t1) as [= _ ->] by exact (view_keyed (O:=Token) w _ _ Hget).
  by destruct (IsExpired (time_Now w) t1).
Qed.

(** Only tokens of the caller's user come or go. *)
Definition confined (value : string) w w' : Prop :=
  only_tbl (O:=Token) (view w) (view w') ∧
  ∀ k, s_Tokens (view w') !! k = s_Tokens (view w) !! k ∨
    ∃ t0, caller value w t0 ∧ ∀ t,
      s_Tokens (view w) !! k = Some t ∨ s_Tokens (view w') !! k = Some t →
      token_UserID t = token_UserID t0.

Lemma confined_refl value w w' : view w' = view w → confined value w w'.
Proof. intros Hv. unfold confined. rewrite Hv. split; [apply only_tbl_refl|by left]. Qed.

Lemma confined_put value w w' t0 t :
  caller value w t0 → token_UserID t = token_UserID t0 →
  s_Tokens (view w) !! obj_key t = None → view w' = put_obj t (view w) → confined value w w'.
Proof.
  intros Hc Hu Hno Hv. split; [rewrite Hv; apply only_tbl_put, only_tbl_refl|].
  assert (s_Tokens (view w') = <[obj_key t := t]> (s_Tokens (view w))) as Hs.
  { rewrite Hv. exact (tbl_put (O:=Token) t (view w)). }
  intros k. rewrite Hs. destruct (decide (obj_key t = k)) as [<-|]; [|left; by rewrite lookup_insert_ne].
  right. exists t0. split; [done|]. intros t'. rewrite lookup_insert_eq, Hno. intros [[=]|[= <-]]. done.
Qed.

Lemma confined_del value w w' t0 t n :
  caller value w t0 → token_UserID t = token_UserID t0 →
  s_Tokens (view w) !! ("", n) = Some t → view w' = del_obj (O:=Token) ("", n) (view w) →
  confined value w w'.
Proof.
  intros Hc Hu Ht Hv. split; [rewrite Hv; apply only_tbl_del, only_tbl_refl|].
  assert (s_Tokens (view w') = delete ("", n) (s_Tokens (view w))) as Hs.
  { rewrite Hv. exact (tbl_del (O:=Token) ("", n) (view w)). }
  intros k. rewrite Hs. destruct (decide (("", n) = k)) as [<-|]; [|left; by rewrite lookup_delete_ne].
  right. exists t0. split; [done|]. intros t'. rewrite lookup_delete_eq, Ht. intros [[= <-]|[=]]. done.
Qed.

Section handlers.
Context {V : Type} (str : string → V) (ConvertTokenResource : Token → outcome (gmap string V)).

Lemma confined_converted {A} token (k : gmap string V → answer A) value w w1 :
  confined value w w1 → wp (converted ConvertTokenResource token k) (λ _ w', confined value w w') w1.
Proof.
  intros Hc. unfold converted. apply wp_bind, wp_attempt, wp_reads.
  by destruct (ConvertTokenResource token).
Qed.

(** C11: the token API keeps to the user: whatever the caller asks for, making a
    token and removing one change at most tokens of the user of the token the
    caller shows, and objects of no other kind. *)
Theorem token_api_confined `{!RandomLaws W} req jsonInput tokenID w :
  wp (deriveToken str ConvertTokenResource req jsonInput)
     (λ _ w', confined (GetTokenAuthFromRequest req) w w') w ∧
  wp (removeToken req tokenID)
     (λ _ w', confined (GetTokenAuthFromRequest req) w w') w.
Proof.
  set (value := GetTokenAuthFromRequest req).
  assert (confined value w w) as Hrefl by (by apply confined_refl). split.
  - unfold deriveToken. fold value. destruct (String.eqb value ""); [by apply wp_ret|].
    unfold createDerivedToken. apply wp_bind, wp_bind.
    eapply wp_mono; [apply wp_getK8sTokenCR|]. intros [[[[t0|] code] [e|]]| | |] w1; simpl; try done;
      intros [-> Hr]; try done; try (by repeat apply wp_ret).
    destruct Hr as [_ Hc]. apply wp_bind, wp_attempt. eapply wp_mono; [apply wp_createK8sTokenCR|].
    intros [t|e| |] w1; simpl; try done; last by (intros Hv; apply wp_ret, wp_ret, confined_refl).
    intros (key & Hm & Hno & Hv). apply wp_ret. simpl. apply confined_converted.
    destruct (made_meta _ _ _ Hm) as (Hns & _), (made_user _ _ _ Hm) as (Hu & _). simpl in Hu.
    eapply confined_put; [done..| |done]. unfold obj_key. simpl. by rewrite Hns.
  - unfold removeToken. fold value. destruct (String.eqb value ""); [by apply wp_ret|].
    apply wp_bind. eapply wp_mono; [apply wp_getTokenByID|].
    intros [[[[t|] code] [e|]]| | |] w1; simpl; try done; intros [-> Hr]; try done; last first.
    { destruct (Z.eqb_spec code 410); [done|]. by apply wp_ret. }
    destruct Hr as (t0 & t1 & Hc & Ht1 & Hu & Hn).
    apply wp_bind. eapply wp_mono; [apply wp_getK8sTokenCR|].
    intros [[[[t2|] code2] [e|]]| | |] w2; simpl; try done; intros [-> Hr2]; try done; try (by apply wp_ret).
    destruct (_ && _); [by apply wp_ret|]. apply wp_bind. unfold deleteTokenByName.
    apply wp_bind, wp_attempt, wp_delete.
    + intros w3 _ Hv _. apply wp_ret. simpl. apply wp_ret. rewrite Hn in Hv. by eapply confined_del.
    + intros e w3 _ Hv _ _ _. unfold bind_post, wp. simpl. destruct (IsNotFound e); by apply confined_refl.
Qed.

(** The list of the tokens of a user starts with as many empty entries as
    there are tokens. *)
Theorem listTokens_padded conv req tokens w :
  (∀ t, ConvertTokenResource t = Ok (conv t)) → GetTokenAuthFromRequest req ≠ "" →
  getTokens (GetTokenAuthFromRequest req) w = (Ok (tokens, 0%Z, None), w) →
  listTokens ConvertTokenResource req w =
  (Ok (inr (200%Z, replicate (length tokens) None ++ map (λ t, Some (conv t)) tokens)), w).
Proof.
  intros Hconv Hne Hget. unfold listTokens. destruct (String.eqb_spec (GetTokenAuthFromRequest req) ""); [done|].
  unfold bind. rewrite Hget. generalize (replicate (length tokens) (@None (gmap string V))) as acc.
  clear Hget. induction tokens as [|t tokens IH]; intros acc; simpl; [by rewrite app_nil_r|].
  unfold bind, attempt, reads. rewrite Hconv. rewrite IH. by rewrite <-app_assoc.
Qed.

End handlers.

End auth.

(** ** Witnesses *)

(** A source that draws the same number again and again. *)
#[export] Instance sim_random : Random Sim := {
  rand_Int max := if decide (max = 0%N) then throw (PlainError "empty range") else ret 0%N }.

#[export] Instance sim_random_laws : RandomLaws Sim.
Proof. split. intros max w. simpl. case_decide; simpl; split_and!; try done. lia. Qed.

(** A request with a token in a cookie, from a client that asks for more. *)
Definition demo_request (value : string) : Request :=
  {| Header := {[ "Cookie" := ["R_SESS=" +:+ value]; "Impersonate-User" := ["admin"];
                  "Impersonate-Group" := ["system:masters"] ]};
     URL_Scheme := "https" |}.

Definition demo_tokens : Sim :=
  synced (set_s_Tokens {[ ("", "token-1") := demo_ttl 0 ]} empty_state).

Lemma filter_impersonates_witness :
  ∃ req', filter_ServeHTTP (demo_request "token-1:key") demo_tokens = (Ok (inr req'), demo_tokens) ∧
    Header req' !! "Impersonate-User" = Some ["u-1"].
Proof.
  pose proof (filter_impersonates (demo_request "token-1:key") demo_tokens) as Hf. unfold wp in Hf.
  assert (∃ req', filter_ServeHTTP (demo_request "token-1:key") demo_tokens = (Ok (inr req'), demo_tokens))
    as [req' Hrun] by (eexists; vm_compute; reflexivity).
  exists req'. split; [done|]. rewrite Hrun in Hf. destruct Hf as (_ & t & Hauth & Hu & _).
  rewrite Hu. repeat f_equal. destruct Hauth as (name & key & _ & _ & _ & (_ & _ & Hin) & _).
  assert (map_Forall (λ _ t, token_UserID t = "u-1") (s_Tokens (view demo_tokens))) as Hall
    by (refine (bool_decide_unpack _ _); vm_compute; exact I).
  destruct Hin as [Hin|Hin]; exact (Hall _ _ Hin).
Defined.

(** The first login of a user of a group. *)
Definition demo_login : M Sim (Z * goerr + string * string * bool) :=
  CreateTokenAndSetCookie (demo_request "") "u-2" demo_principal [demo_principal] ∅ 0 "".

Lemma login_round_trip_witness :
  ∃ value w', demo_login (synced empty_state) = (Ok (inr (CookieName, value, true)), w') ∧
    Authenticate (demo_request value) w' = (Ok ("u-2", [TrimPrefix (p_Name demo_principal) "local://"]), w').
Proof.
  assert (∃ value w', demo_login (synced empty_state) = (Ok (inr (CookieName, value, true)), w') ∧
    GetTokenAuthFromRequest (demo_request value) = value ∧
    map_Forall (λ _ t, has_char ":" (Name (token_meta t)) = false) (s_Tokens (view w')) ∧
    s_Tokens (cached w') = ∅) as (value & w' & Hrun & Hreq & Hcol & Hcache).
  { do 2 eexists. split; [vm_compute; reflexivity|]. split; [vm_compute; reflexivity|].
    split; [|vm_compute; reflexivity]. refine (bool_decide_unpack _ _). vm_compute. exact I. }
  exists value, w'. split; [done|].
  destruct (login_round_trip (demo_request "") "u-2" demo_principal [demo_principal] ∅ 0 ""
    _ _ _ _ _ Hrun) as (t & _ & _ & _ & Hv & Hauth).
  apply (Hauth (demo_request value)); [done| |rewrite Hcache; apply map_Forall_empty].
  apply (Hcol (obj_key t) t). rewrite Hv. exact (tbl_put_eq (O:=Token) t (view (synced empty_state))).
Defined.

Lemma logout_revokes_witness :
  ∃ w', deleteToken "token-1:key" demo_tokens = (Ok (0%Z, None), w') ∧
    ∃ e, TokenFromRequest (demo_request "token-1:key") (synced (sim_view w')) = (Err e, synced (sim_view w')).
Proof.
  eexists. split; [vm_compute; reflexivity|].
  unshelve refine (let H := logout_revokes "token-1:key" demo_tokens _ _ in _);
    [|vm_compute; reflexivity|].
  destruct H as [[_ H]|(_ & e & _ & _ & Hun)]; [|destruct (Hun _)].
  apply H.
  - reflexivity.
  - reflexivity.
  - refine (bool_decide_unpack _ _). vm_compute. exact I.
  - vm_compute. reflexivity.
Defined.

(** Tokens in JSON, for the answers. *)
Definition demo_convert (t : Token) : outcome (gmap string string) :=
  Ok {[ "name" := Name (token_meta t) ]}.

Lemma token_api_confined_witness :
  wp (removeToken (demo_request "token-1:key") "token-2")
     (λ _ w', confined "token-1:key" demo_tokens w') demo_tokens.
Proof.
  exact (proj2 (token_api_confined (λ s, s) demo_convert (demo_request "token-1:key") (demo_ttl 0)
    "token-2" demo_tokens)).
Defined.

Lemma listTokens_padded_witness :
  listTokens demo_convert (demo_request "token-1:key") demo_tokens =
  (Ok (inr (200%Z, [None; Some {[ "name" := "token-1" ]}])), demo_tokens).
Proof.
  refine (listTokens_padded demo_convert (λ t, {[ "name" := Name (token_meta t) ]})
    (demo_request "token-1:key") [demo_ttl 0] demo_tokens _ _ _).
  - reflexivity.
  - by vm_compute.
  - vm_compute. reflexivity.
Defined.

End TokenAuth.
