(* ===== verification/UserManager.v ===== *)
(** * The user manager

    [pkg/auth/providers/common/usermanager.go]: who may log in, the user a
    principal belongs to, and the tokens of system users.  The manager is the
    instance behind the class [UserManager] the lifecycles of role template
    bindings are written against. *)

From stdpp Require Import base gmap list strings.
From Stdlib Require Import Ascii ZArith Lia.
From S2P Require Import Prelude.
From S2P Require Import GoLib.
From S2P Require Import GoEncoding.
From S2P Require Import KubeTypes.
From S2P Require Import KubeObjects.
From S2P Require Import Kube.
From S2P Require Import KubeRules.
From S2P Require Import KubeSim.
From S2P Require Import MgmtManager.
From S2P Require Import MgmtHandlers.
From S2P Require Import MgmtBindings.
From S2P Require Import MgmtGrants.
From S2P Require Import MgmtUsers.
From S2P Require Import Tokens.
From S2P Require Import TokenAuth.
Import Tokens TokenAuth UserHandler ProjectCluster.

Module UserManagers.

Notation userAuthHeader := "Impersonate-User" (only parsing).

Definition no_principal : Principal :=
  {| p_Name := ""; p_DisplayName := ""; p_LoginName := ""; p_ProfilePicture := "";
     p_ProfileURL := ""; p_PrincipalType := ""; p_Me := false; p_MemberOf := false;
     p_Provider := ""; p_ExtraInfo := ∅ |}.

(** ** Indexes *)

Definition userByPrincipal (u : User) : list string := user_PrincipalIDs u.

Definition by_principals (group user : string) : list string :=
  (if negb (String.eqb group "") then [group] else []) ++
  (if negb (String.eqb user "") then [user] else []).

Definition crtbsByPrincipals (b : ClusterRoleTemplateBinding) : list string :=
  by_principals (crtb_GroupPrincipalName b) (crtb_UserPrincipalName b).

Definition prtbsByPrincipals (b : ProjectRoleTemplateBinding) : list string :=
  by_principals (prtb_GroupPrincipalName b) (prtb_UserPrincipalName b).

Definition providerExists (principalIDs : list string) (provider : string) : bool :=
  existsb (λ id, Contains (first_part (Split id ":")) provider) principalIDs.

(** The label of a principal: its name in base 32, cut to the length a label may
    have. *)
Definition encodedPrincipalID (principalName : string) : string :=
  let e := HexEncodeToString principalName in
  if (63 <? String.length e)%nat then String.substring 0 63 e else e.

Definition principal_labels (principalName : string) : gmap string string :=
  {[ encodedPrincipalID principalName := "hashed-principal-name" ]}.

Definition err_not_unique (principalName : string) : goerr :=
  PlainError ("can't find unique user for principal " +:+ principalName).

(** The loop of [checkLabels]: whether one of the users has the principal; an error
    where two of them do. *)
Fixpoint scan (principalName : string) (matched : bool) (items : list User) : outcome bool :=
  match items with
  | [] => Ok matched
  | u :: items =>
    if ContainsString (user_PrincipalIDs u) principalName
    then if matched then Err (err_not_unique principalName) else scan principalName true items
    else scan principalName matched items
  end.

Section manager.
Context {W : Type} `{!GoRuntime W, !Random W}.
Context `{!Client W User, !Client W GlobalRoleBinding, !Client W Token,
          !Client W ClusterRoleTemplateBinding, !Client W ProjectRoleTemplateBinding}.

Definition GetUser (req : Request) : string := header_Get req userAuthHeader.

Definition SetPrincipalOnCurrentUser (req : Request) (principal : Principal) : M W User :=
  let userID := GetUser req in
  if String.eqb userID "" then throw (PlainError "user not provided") else
  let* user := reads (api_get "" userID) in
  let user :=
    if providerExists (user_PrincipalIDs user) (p_Provider principal)
    then with_PrincipalIDs
           (List.filter (λ id, negb (Contains id (p_Provider principal))) (user_PrincipalIDs user)) user
    else user in
  if negb (ContainsString (user_PrincipalIDs user) (p_Name principal))
  then api_update "" (with_PrincipalIDs (user_PrincipalIDs user ++ [p_Name principal]) user)
  else ret user.

Definition checkCache (principalName : string) : M W (option User) :=
  let* users := reads (ByIndex userByPrincipal principalName) in
  match users with
  | [] => ret None
  | [u] => ret (Some u)
  | _ => throw (err_not_unique principalName)
  end.

Fixpoint atLeastOnePrincipalInProjectOrCluster (principals : list string) : M W bool :=
  match principals with
  | [] => ret false
  | principal :: principals =>
    let* crtbs := reads (ByIndex crtbsByPrincipals principal) in
    match crtbs with
    | _ :: _ => ret true
    | [] =>
      let* prtbs := reads (ByIndex prtbsByPrincipals principal) in
      match prtbs with
      | _ :: _ => ret true
      | [] => atLeastOnePrincipalInProjectOrCluster principals
      end
    end
  end.

Definition CheckAccess (accessMode : string) (allowedPrincipalIDs : list string)
    (userPrinc : Principal) (groups : list Principal) : M W bool :=
  if String.eqb accessMode "unrestricted" || String.eqb accessMode "" then ret true else
  if String.eqb accessMode "required" || String.eqb accessMode "restricted" then
    let* user := checkCache (p_Name userPrinc) in
    let userPrincipals :=
      p_Name userPrinc :: match user with Some u => user_PrincipalIDs u | None => [] end in
    if existsb (ContainsString allowedPrincipalIDs) userPrincipals then ret true else
    if existsb (λ g, ContainsString allowedPrincipalIDs (p_Name g)) groups then ret true else
    if String.eqb accessMode "restricted" then
      atLeastOnePrincipalInProjectOrCluster
        (map p_Name groups ++ match user with Some _ => userPrincipals | None => [] end)
    else ret false
  else throw (PlainError ("Unsupported accessMode: " +:+ accessMode)).

Definition EnsureToken (tokenName description userName : string) : M W string :=
  if HasPrefix tokenName "token-" then throw (PlainError "token names can't start with token-") else
  let value (t : Token) := Name (token_meta t) +:+ ":" +:+ token_Token t in
  let* r := attempt (reads (lister_Get "" tokenName)) in
  match r with
  | inr token => ret (value token)
  | inl e =>
    if negb (IsNotFound e) then throw e else
    let* k := attempt Generate in
    match k with
    | inl _ => throw (PlainError "failed to generate token key")
    | inr key =>
      let* token := api_create ""
        {| token_meta := named_meta tokenName {[ UserIDLabel := userName ]} ∅ [];
           token_type := {| Kind := ""; APIVersion := "" |}; token_Token := key;
           token_UserPrincipal := no_principal; token_GroupPrincipals := [];
           token_ProviderInfo := ∅; token_UserID := userName; token_AuthProvider := "local";
           token_TTLMillis := 0; token_LastUpdateTime := ""; token_IsDerived := true;
           token_Description := description; token_Expired := false; token_ExpiresAt := "" |} in
      ret (value token)
    end
  end.

(** [match = &u] takes the address of the loop variable: at the end of the loop the
    pointer shows the last user of the list. *)
Definition checkLabels (principalName : string) : M W (option User * gmap string string) :=
  let set := principal_labels principalName in
  let* items := reads (api_list "" set) in
  let* matched := reads (λ _, scan principalName false items) in
  ret (if matched then last items else None, set).

Definition EnsureUser (principalName displayName : string) : M W User :=
  let* u := checkCache principalName in
  match u with
  | Some u => ret u
  | None =>
    let* r := checkLabels principalName in
    match r with
    | (Some u, _) => ret u
    | (None, labelSet) =>
      let* created := api_create ""
        {| user_meta := generate_meta "user-" labelSet ∅; user_DisplayName := displayName;
           user_Description := ""; user_Username := ""; user_Password := "";
           user_MustChangePassword := false; user_PrincipalIDs := [principalName]; user_Me := false |} in
      do* api_create ""
        {| grb_meta := generate_meta "globalrolebinding-" ∅ ∅; grb_type := no_type;
           grb_UserName := Name (user_meta created); grb_GlobalRoleName := "user" |} in
      ret created
    end
  end.

End manager.

(** The manager behind the interface of the role template bindings. *)
#[export] Instance userManager {W} `{!Client W User, !Client W GlobalRoleBinding} : UserManager W :=
  { MgmtHandlers.EnsureUser := EnsureUser }.

(** ** Who may log in *)

Section laws.
Context {W : Type} `{!GoRuntime W, !Random W, !Kube W}.
Context `{!Client W User, !ClientLaws W User, !Client W GlobalRoleBinding, !ClientLaws W GlobalRoleBinding}.
Context `{!Client W ClusterRoleTemplateBinding, !ClientLaws W ClusterRoleTemplateBinding}.
Context `{!Client W ProjectRoleTemplateBinding, !ClientLaws W ProjectRoleTemplateBinding}.
Implicit Types (w : W).

(** A user the caches show has the principal. *)
Definition holder (p : string) w (u : User) : Prop :=
  s_Users (cached w) !! obj_key u = Some u ∧ p ∈ user_PrincipalIDs u.

Definition ambiguous (p : string) w : Prop :=
  ∃ u1 u2, holder p w u1 ∧ holder p w u2 ∧ obj_key u1 ≠ obj_key u2.

Lemma checkCache_run p w :
  ∃ r, checkCache p w = (r, w) ∧
  match r with
  | Ok (Some u) => holder p w u ∧ ∀ u', holder p w u' → u' = u
  | Ok None => ∀ u, ¬ holder p w u
  | Err _ => ambiguous p w
  | _ => False
  end.
Proof.
  unfold checkCache, bind, reads.
  destruct (by_index_law (O:=User) userByPrincipal p w) as (l & Hl & _). rewrite Hl.
  pose proof (λ u, elem_of_index (O:=User) userByPrincipal p w l u Hl) as Hin.
  pose proof (NoDup_index (O:=User) userByPrincipal p w l Hl) as Hnd.
  destruct l as [|u [|u2 l]]; eexists; (split; [done|]).
  - intros u Hu. by apply (not_elem_of_nil u), Hin.
  - split; [apply Hin; by left|]. intros u' Hu'. by apply Hin, list_elem_of_singleton in Hu'.
  - exists u, u2. split_and!; [apply Hin; by left|apply Hin; right; by left|].
    simpl in Hnd. apply NoDup_cons in Hnd as [Hnd _]. intros Heq. apply Hnd. rewrite Heq. by left.
Qed.

(** The principal is named by a role template binding of a cluster or a project. *)
Definition bound (p : string) w : Prop :=
  p ≠ "" ∧
  ((∃ b, s_ClusterRoleTemplateBindings (cached w) !! obj_key b = Some b ∧
         (crtb_GroupPrincipalName b = p ∨ crtb_UserPrincipalName b = p)) ∨
   (∃ b, s_ProjectRoleTemplateBindings (cached w) !! obj_key b = Some b ∧
         (prtb_GroupPrincipalName b = p ∨ prtb_UserPrincipalName b = p))).

Lemma elem_of_by_principals p group user :
  p ∈ by_principals group user ↔ p ≠ "" ∧ (group = p ∨ user = p).
Proof.
  unfold by_principals. destruct (String.eqb_spec group ""), (String.eqb_spec user ""); simpl;
    rewrite ?elem_of_cons, ?elem_of_nil; naive_solver.
Qed.

(** A user may log in: everybody may, or one of the principals is allowed, or one
    of them has a role somewhere. *)
Definition admitted (mode : string) (allowed : list string) (p : string) (groups : list string) w : Prop :=
  mode = "unrestricted" ∨ mode = "" ∨
  (mode = "required" ∨ mode = "restricted") ∧
    (∃ q, q ∈ allowed ∧ (q = p ∨ q ∈ groups ∨ ∃ u, holder p w u ∧ q ∈ user_PrincipalIDs u)) ∨
  mode = "restricted" ∧
    (∃ q, bound q w ∧ (q ∈ groups ∨ ∃ u, holder p w u ∧ q ∈ user_PrincipalIDs u)).

Lemma atLeastOne_run l w :
  ∃ r, atLeastOnePrincipalInProjectOrCluster l w = (Ok r, w) ∧ (r = true ↔ ∃ q, bound q w ∧ q ∈ l).
Proof.
  induction l as [|p l IH]; simpl.
  { exists false. split; [done|]. split; [done|]. by intros (q & _ & ?%not_elem_of_nil). }
  unfold bind, reads.
  destruct (by_index_law (O:=ClusterRoleTemplateBinding) crtbsByPrincipals p w) as (cs & Hcs & _).
  pose proof (λ b, elem_of_index (O:=ClusterRoleTemplateBinding) crtbsByPrincipals p w cs b Hcs) as Hc.
  destruct (by_index_law (O:=ProjectRoleTemplateBinding) prtbsByPrincipals p w) as (ps & Hps & _).
  pose proof (λ b, elem_of_index (O:=ProjectRoleTemplateBinding) prtbsByPrincipals p w ps b Hps) as Hp.
  rewrite Hcs. destruct cs as [|b cs]; [rewrite Hps; destruct ps as [|b ps]|].
  - destruct IH as (r & Hr & Hiff). exists r. split; [exact Hr|]. rewrite Hiff.
    setoid_rewrite elem_of_cons. split; [naive_solver|]. intros (q & Hq & [->|]); [|naive_solver].
    exfalso. destruct Hq as (Hne & [(b & Hb & Hn)|(b & Hb & Hn)]).
    + apply (not_elem_of_nil b), Hc. split; [exact Hb|]. by apply elem_of_by_principals.
    + apply (not_elem_of_nil b), Hp. split; [exact Hb|]. by apply elem_of_by_principals.
  - exists true. split; [done|]. split; [intros _|done]. exists p.
    destruct (proj1 (Hp b)) as [Hb Hn]; [by left|]. apply elem_of_by_principals in Hn as [Hne Hn].
    split; [|by left]. split; [done|]. right. by exists b.
  - exists true. split; [done|]. split; [intros _|done]. exists p.
    destruct (proj1 (Hc b)) as [Hb Hn]; [by left|]. apply elem_of_by_principals in Hn as [Hne Hn].
    split; [|by left]. split; [done|]. left. by exists b.
Qed.

(** The principals of a user, as far as the cache shows. *)
Lemma elem_of_own p user w q :
  match user with
  | Some u => holder p w u ∧ ∀ u', holder p w u' → u' = u
  | None => ∀ u, ¬ holder p w u
  end →
  q ∈ p :: match user with Some u => user_PrincipalIDs u | None => [] end ↔
  q = p ∨ ∃ u, holder p w u ∧ q ∈ user_PrincipalIDs u.
Proof.
  intros Hr. rewrite elem_of_cons. destruct user as [u|].
  - destruct Hr as [Hu Huniq]. split; [naive_solver|]. intros [->|(u' & Hu' & ?)]; [by left|].
    right. by rewrite <-(Huniq u').
  - rewrite elem_of_nil. naive_solver.
Qed.

Lemma existsb_contains allowed l :
  existsb (ContainsString allowed) l = true ↔ ∃ q, q ∈ allowed ∧ q ∈ l.
Proof.
  rewrite existsb_exists. setoid_rewrite ContainsString_true. setoid_rewrite <-list_elem_of_In.
  naive_solver.
Qed.

Lemma existsb_map_contains allowed groups :
  existsb (λ g, ContainsString allowed (p_Name g)) groups = existsb (ContainsString allowed) (map p_Name groups).
Proof. induction groups as [|g groups IH]; simpl; [done|]. by rewrite IH. Qed.

(** The manager lets exactly those log in the access mode admits.  It fails
    for an access mode it does not know and for a principal that two users have;
    it never changes anything. *)
Theorem CheckAccess_exact mode allowed userPrinc groups w :
  wp (CheckAccess mode allowed userPrinc groups)
    (if_ok (λ r w', w' = w ∧ (r = true ↔ admitted mode allowed (p_Name userPrinc) (map p_Name groups) w))
       (λ _ w', w' = w ∧ (ambiguous (p_Name userPrinc) w ∨
          mode ∉ ["unrestricted"; ""; "required"; "restricted"]))) w.
Proof.
  unfold CheckAccess, admitted.
  destruct (String.eqb_spec mode "unrestricted") as [->|N1]; [by apply wp_ret; split; [|naive_solver]|].
  destruct (String.eqb_spec mode "") as [->|N2]; [by apply wp_ret; split; [|naive_solver]|]. cbn [orb].
  assert (mode ≠ "required" → mode ≠ "restricted" →
    mode ∉ ["unrestricted"; ""; "required"; "restricted"]) as Hunk.
  { intros. rewrite !elem_of_cons. intros [|[|[|[|[]%elem_of_nil]]]]; done. }
  destruct (_ || _) eqn:Hmode; last first.
  { apply orb_false_iff in Hmode as [H1%String.eqb_neq H2%String.eqb_neq]. apply wp_throw. split; auto. }
  apply orb_true_iff in Hmode. rewrite !String.eqb_eq in Hmode.
  destruct (checkCache_run (p_Name userPrinc) w) as (r & Hrun & Hr).
  apply wp_bind. eapply wp_unfold; [exact Hrun|]. destruct r as [user|e| |]; [|simpl; auto|done..].
  unfold bind_post. cbv beta iota zeta.
  set (own := p_Name userPrinc :: _).
  assert (∀ q, q ∈ own ↔ q = p_Name userPrinc ∨
    ∃ u, holder (p_Name userPrinc) w u ∧ q ∈ user_PrincipalIDs u) as Hown
    by (intros q; by apply elem_of_own).
  destruct (existsb _ own) eqn:E1.
  { apply existsb_contains in E1 as (q & Hq & Hq'%Hown). apply wp_ret. split; [done|].
    split; [intros _|done]. right; right; left. split; [tauto|]. exists q. tauto. }
  rewrite existsb_map_contains. destruct (existsb _ (map p_Name groups)) eqn:E2.
  { apply existsb_contains in E2 as (q & Hq & Hq'). apply wp_ret. split; [done|].
    split; [intros _|done]. right; right; left. split; [tauto|]. exists q. tauto. }
  assert (¬ ∃ q, q ∈ allowed ∧ (q = p_Name userPrinc ∨ q ∈ map p_Name groups ∨
    ∃ u, holder (p_Name userPrinc) w u ∧ q ∈ user_PrincipalIDs u)) as Hnone.
  { apply not_true_iff_false in E1, E2. rewrite existsb_contains in E1, E2.
    setoid_rewrite Hown in E1. naive_solver. }
  destruct (String.eqb_spec mode "restricted") as [->|N3]; last first.
  { apply wp_ret. split; [done|]. split; [done|]. intros [?|[?|[[_ ?]|[? _]]]]; done. }
  destruct (atLeastOne_run (map p_Name groups ++ match user with Some _ => own | None => [] end) w)
    as (r & Hat & Hiff).
  eapply wp_unfold; [exact Hat|]. split; [done|]. rewrite Hiff. split.
  - intros (q & Hb & Hq). right; right; right. split; [done|]. exists q. split; [done|].
    apply elem_of_app in Hq as [|Hq]; [by left|]. right. destruct user as [u|]; [|by apply elem_of_nil in Hq].
    apply Hown in Hq as [->|]; [|done]. exists u. split; [apply Hr|]. apply Hr.
  - intros [?|[?|[[_ ?]|[_ (q & Hb & Hq)]]]]; [done..|]. exists q. split; [done|]. apply elem_of_app.
    destruct Hq as [|(u & Hu & Hq)]; [by left|]. right. destruct user as [u'|]; [|by destruct (Hr u)].
    apply Hown. eauto.
Qed.

(** ** The user of a principal *)

Lemma scan_none p items b :
  (∀ u, u ∈ items → p ∉ user_PrincipalIDs u) → scan p b items = Ok b.
Proof.
  induction items as [|u items IH]; intros Hno; simpl; [done|].
  rewrite (proj2 (ContainsString_false _ _)) by (apply Hno; by left).
  apply IH. intros u' Hu'. apply Hno. by right.
Qed.

(** What a login of a principal nobody has had adds to the cluster: a user with the
    principal and the binding of the user to the global role of users. *)
Record enrolled (p d : string) (u : User) (s s' : KState) : Prop := {
  enrolled_name : Name (user_meta u) ≠ "" ∧ s_Users s !! obj_key u = None;
  enrolled_user : user_PrincipalIDs u = [p] ∧ user_DisplayName u = d ∧
    Labels (user_meta u) = principal_labels p;
  enrolled_role : ∃ grb, grb_UserName grb = Name (user_meta u) ∧ grb_GlobalRoleName grb = "user" ∧
    s_GlobalRoleBindings s !! obj_key grb = None ∧ s' = put_obj grb (put_obj u s) }.

(** The user is the only one with the principal. *)
Definition sole (p : string) (s : KState) (u : User) : Prop :=
  s_Users s !! obj_key u = Some u ∧ p ∈ user_PrincipalIDs u ∧
  ∀ u', s_Users s !! obj_key u' = Some u' → p ∈ user_PrincipalIDs u' → u' = u.

Lemma holder_sync p w u :
  in_sync_kind User w → holder p w u ↔ s_Users (view w) !! obj_key u = Some u ∧ p ∈ user_PrincipalIDs u.
Proof. intros Hs. unfold holder. by rewrite (Hs : s_Users (cached w) = s_Users (view w)). Qed.

(** C25: with a cache of users that is up to date, a principal belongs to one user:
    the one that has it is returned and nothing changes; if nobody has it, a user
    with it and with the global role of users is created.  Where the creation of
    the role fails the user is left behind without it. *)
Theorem EnsureUser_correct p d w :
  in_sync_kind User w →
  wp (EnsureUser p d)
    (if_ok (λ u w', sole p (view w) u ∧ w' = w ∨
               (∀ u', ¬ sole p (view w) u') ∧ enrolled p d u (view w) (view w') ∧ sole p (view w') u)
       (λ _ w', view w' = view w ∨
          ∃ u, user_PrincipalIDs u = [p] ∧ s_Users (view w) !! obj_key u = None ∧
               view w' = put_obj u (view w))) w.
Proof.
  intros Hs. unfold EnsureUser. destruct (checkCache_run p w) as (r & Hrun & Hr).
  apply wp_bind. eapply wp_unfold; [exact Hrun|].
  destruct r as [[u|]|e| |]; [|..|done|done]; [| |by left].
  { apply wp_ret. left. split; [|done]. destruct Hr as [Hu Huniq]. apply holder_sync in Hu as [Hu Hp]; [|done].
    split_and!; [done..|]. intros u' Hu' Hp'. apply Huniq. by apply holder_sync. }
  assert (∀ u', s_Users (view w) !! obj_key u' = Some u' → p ∉ user_PrincipalIDs u') as Hno.
  { intros u' Hu' Hp'. apply (Hr u'). by apply holder_sync. }
  apply wp_bind. unfold checkLabels. apply wp_bind, wp_reads.
  pose proof (list_law (O:=User) "" (principal_labels p) w) as Hlaw.
  destruct (api_list "" (principal_labels p) w) as [items|e| |] eqn:Hl; try done; [|by left].
  unfold bind_post. apply wp_bind, wp_reads. rewrite scan_none; last first.
  { intros u' Hu'. apply Hno. by apply (elem_of_list (O:=User) _ _ _ _ u' Hl) in Hu' as [? _]. }
  unfold bind_post. apply wp_ret. unfold bind_post. cbv iota beta.
  apply wp_bind, wp_create; [|by left].
  intros u w1 Hst Hfree Hv _. destruct Hst as (Hns & Hne & _ & Hlab & _ & _ & Hspec). simpl in Hlab, Hspec, Hne.
  assert (user_PrincipalIDs u = [p] ∧ user_DisplayName u = d) as [Hp Hd] by (by rewrite Hspec).
  unfold bind_post. apply wp_bind, wp_create.
  - intros grb w2 Hst2 Hfree2 Hv2 _. destruct Hst2 as (_ & _ & _ & _ & _ & _ & Hspec2). simpl in Hspec2.
    unfold bind_post. apply wp_ret. right.
    assert (s_Users (view w2) = <[obj_key u := u]> (s_Users (view w))) as Husers.
    { rewrite Hv2. change (s_Users (put_obj grb ?s)) with (s_Users s). rewrite Hv.
      exact (tbl_put (O:=User) u (view w)). }
    split_and!.
    + intros u' (Hu' & Hp' & _). by eapply Hno.
    + rewrite Hv in Hfree2. split; [done|done|]. exists grb.
      split_and!; [by rewrite Hspec2..|exact Hfree2|by rewrite Hv2, Hv].
    + unfold sole. rewrite Husers, lookup_insert_eq. split_and!; [done|rewrite Hp; by left|].
      intros u' [[_ ?]|[Hn Hu']]%lookup_insert_Some Hp'; [done|]. by destruct (Hno u' Hu').
  - intros e w2 Hv2 _ _. right. exists u. split_and!; [done..|]. by rewrite Hv2.
Qed.

(** A user that has the principal is found again once the cache shows it. *)
Lemma EnsureUser_found p d u w : in_sync_kind User w → sole p (view w) u → EnsureUser p d w = (Ok u, w).
Proof.
  intros Hs (Hu & Hp & Huniq). unfold EnsureUser. destruct (checkCache_run p w) as (r & Hrun & Hr).
  unfold bind at 1. rewrite Hrun. destruct r as [[u'|]|e| |]; try done.
  - destruct Hr as [Hu' _]. apply holder_sync in Hu' as [Hu' Hp']; [|done]. by rewrite (Huniq u').
  - destruct (Hr u). by apply holder_sync.
  - destruct Hr as (u1 & u2 & H1 & H2 & Hne). apply holder_sync in H1 as [H1 H1'], H2 as [H2 H2']; [|done..].
    by rewrite (Huniq u1), (Huniq u2) in Hne.
Qed.

(** The principals of the provider make way for the new one. *)
Lemma SetPrincipalOnCurrentUser_links req principal w :
  wp (SetPrincipalOnCurrentUser req principal)
    (if_ok (λ u w', ∃ old, s_Users (view w) !! ("", GetUser req) = Some old ∧
         p_Name principal ∈ user_PrincipalIDs u ∧
         (∀ id, id ∈ user_PrincipalIDs old → Contains id (p_Provider principal) = false →
                id ∈ user_PrincipalIDs u) ∧
         (w' = w ∨ changed_at (O:=User) [("", GetUser req)] (view w) (view w')))
       (λ _ w', view w' = view w)) w.
Proof.
  unfold SetPrincipalOnCurrentUser. destruct (String.eqb_spec (GetUser req) "") as [|Hne]; [by apply wp_throw|].
  apply wp_bind, wp_reads. pose proof (get_law (O:=User) "" (GetUser req) w) as Hget.
  destruct (api_get "" (GetUser req) w) as [old|e| |]; try done. unfold bind_post. cbv zeta.
  assert (("", GetUser req) = obj_key old) as Hk by exact (view_keyed (O:=User) w _ _ Hget).
  set (user := if providerExists _ _ then _ else old).
  assert (∀ id, id ∈ user_PrincipalIDs old → Contains id (p_Provider principal) = false →
                id ∈ user_PrincipalIDs user) as Hkeep.
  { intros id Hid Hc. subst user. destruct (providerExists _ _); [|done]. simpl.
    apply list_elem_of_In, filter_In. rewrite Hc. split; [by apply list_elem_of_In|done]. }
  assert (user_meta user = user_meta old) as Hm by (subst user; by destruct (providerExists _ _)).
  destruct (ContainsString (user_PrincipalIDs user) (p_Name principal)) eqn:Hin; cbn [negb].
  { apply wp_ret. exists old. apply ContainsString_true in Hin. auto. }
  apply wp_update; [|by intros e w' Hv _ _].
  intros u w' Hst Hwk _ Hv _. exists old. destruct Hst as (_ & _ & _ & _ & _ & _ & Hspec). simpl in Hspec.
  split_and!; [done|rewrite Hspec; apply elem_of_app; right; by left| |].
  - intros id Hid Hc. rewrite Hspec. apply elem_of_app. left. auto.
  - right. rewrite Hv. apply changed_at_put, list_elem_of_singleton. rewrite Hwk, Hk.
    unfold write_key, client_ns, obj_key. simpl. rewrite Hm. by case_decide as E; rewrite ?E.
Qed.

(** A role template binding that names a principal is given the user of the
    principal, which exists from then on, and as soon as the cache of users has
    caught up every further sync gives it the same one; for bindings of clusters
    and of projects alike. *)
Theorem reconcileSubject_resolves crtb prtb w :
  in_sync_kind User w →
  crtb_UserName crtb = "" → crtb_GroupName crtb = "" → crtb_GroupPrincipalName crtb = "" →
  crtb_UserPrincipalName crtb ≠ "" →
  prtb_UserName prtb = "" → prtb_GroupName prtb = "" → prtb_GroupPrincipalName prtb = "" →
  prtb_UserPrincipalName prtb ≠ "" →
  wp (Crtb.reconcileSubject crtb) (if_ok (λ b w', ∃ u,
       sole (crtb_UserPrincipalName crtb) (view w') u ∧ b = with_crtb_UserName (Name (user_meta u)) crtb ∧
       ∀ w2, view w2 = view w' → in_sync_kind User w2 → Crtb.reconcileSubject crtb w2 = (Ok b, w2))
     (λ _ _, True)) w ∧
  wp (Prtb.reconcileSubject prtb) (if_ok (λ b w', ∃ u,
       sole (prtb_UserPrincipalName prtb) (view w') u ∧ b = with_prtb_UserName (Name (user_meta u)) prtb ∧
       ∀ w2, view w2 = view w' → in_sync_kind User w2 → Prtb.reconcileSubject prtb w2 = (Ok b, w2))
     (λ _ _, True)) w.
Proof.
  intros Hs Hc1 Hc2 Hc3 Hc4 Hp1 Hp2 Hp3 Hp4.
  assert (∀ p d, wp (EnsureUser p d) (if_ok (λ u w', sole p (view w') u) (λ _ _, True)) w) as Hens.
  { intros p d. eapply wp_mono; [by apply EnsureUser_correct|].
    intros [u|e| |] w'; simpl; try done. by intros [[? ->]|(_ & _ & ?)]. }
  split.
  - unfold Crtb.reconcileSubject. rewrite Hc1, Hc2, Hc3. apply String.eqb_neq in Hc4. rewrite Hc4. simpl.
    eapply wp_bind_if_ok; [apply Hens| |done]. intros u w' Hu. apply wp_ret. exists u.
    split_and!; [done..|]. intros w2 Hv Hs2. unfold bind. rewrite EnsureUser_found with (u := u); [done..|].
    by rewrite Hv.
  - unfold Prtb.reconcileSubject. rewrite Hp1, Hp2, Hp3. apply String.eqb_neq in Hp4. rewrite Hp4. simpl.
    eapply wp_bind_if_ok; [apply Hens| |done]. intros u w' Hu. apply wp_ret. exists u.
    split_and!; [done..|]. intros w2 Hv Hs2. unfold bind. rewrite EnsureUser_found with (u := u); [done..|].
    by rewrite Hv.
Qed.

(** *** Users found by their label *)

Lemma scan_one p items1 u items2 :
  p ∈ user_PrincipalIDs u → (∀ v, v ∈ items1 ++ items2 → p ∉ user_PrincipalIDs v) →
  scan p false (items1 ++ u :: items2) = Ok true.
Proof.
  intros Hp Hno. induction items1 as [|v items1 IH]; simpl.
  - rewrite (proj2 (ContainsString_true _ _) Hp). by apply scan_none.
  - rewrite (proj2 (ContainsString_false _ _)) by (apply Hno; by left).
    apply IH. intros v' Hv'. apply Hno. by right.
Qed.

(** While the cache does not show the user of a principal yet, the user is
    looked up by a label, and the last user with the label is returned, also when
    it is another one that has the principal. *)
Theorem EnsureUser_wrong_user p d w items1 u items2 v :
  (∀ u', ¬ holder p w u') →
  api_list "" (principal_labels p) w = Ok (items1 ++ u :: items2 ++ [v]) →
  p ∈ user_PrincipalIDs u → (∀ v', v' ∈ items1 ++ items2 ++ [v] → p ∉ user_PrincipalIDs v') →
  EnsureUser p d w = (Ok v, w).
Proof.
  intros Hcache Hl Hu Hno. unfold EnsureUser. destruct (checkCache_run p w) as (r & Hrun & Hr).
  unfold bind at 1. rewrite Hrun. destruct r as [[u'|]|e| |]; try done.
  - by destruct (Hcache u' (proj1 Hr)).
  - unfold checkLabels, bind, reads. rewrite Hl, scan_one by done. unfold ret.
    rewrite app_comm_cons, app_assoc, last_snoc. done.
  - destruct Hr as (u1 & _ & Hu1 & _). by destruct (Hcache u1).
Qed.

End laws.

(** ** Tokens of system users *)

Section tokens.
Context {W : Type} `{!GoRuntime W, !Float64, !Random W, !Kube W}.
Context `{!RandomLaws W, !Client W Token, !ClientLaws W Token}.
Implicit Types (w : W).

(** What [EnsureToken] returns the value of: the token of the cache, or a new one. *)
Definition ensured (tokenName userName value : string) w w' (t : Token) : Prop :=
  Name (token_meta t) = tokenName ∧ value = tokenName +:+ ":" +:+ token_Token t ∧
  (s_Tokens (cached w) !! ("", tokenName) = Some t ∧ w' = w ∨
   s_Tokens (cached w) !! ("", tokenName) = None ∧ s_Tokens (view w) !! ("", tokenName) = None ∧
   view w' = put_obj t (view w) ∧ Namespace (token_meta t) = "" ∧ token_UserID t = userName ∧
   token_GroupPrincipals t = [] ∧ token_TTLMillis t = 0%Z ∧
   String.length (token_Token t) = tokenLength ∧ all_bytes key_char (token_Token t) = true).

Lemma wp_EnsureToken tokenName description userName w :
  tokenName ≠ "" →
  wp (EnsureToken tokenName description userName)
    (if_ok (λ value w', ∃ t, ensured tokenName userName value w w' t) (λ _ w', view w' = view w)) w.
Proof.
  intros Hne. unfold EnsureToken. destruct (HasPrefix tokenName "token-"); [by apply wp_throw|].
  apply wp_bind, wp_attempt, wp_reads. pose proof (lister_get_law (O:=Token) "" tokenName w) as Hget.
  change (tbl (cached w)) with (s_Tokens (cached w)) in Hget.
  destruct (s_Tokens (cached w) !! ("", tokenName)) as [t|] eqn:Hc.
  - rewrite Hget. unfold bind_post. apply wp_ret. exists t.
    assert (("", tokenName) = obj_key t) as [= _ Hn] by exact (cached_keyed (O:=Token) w _ _ Hc).
    rewrite <-Hn. split_and!; [done..|]. by left.
  - destruct Hget as (e & -> & He). unfold bind_post. rewrite He. cbn [negb].
    apply wp_bind, wp_attempt. eapply wp_mono; [apply wp_generate|].
    intros [key|e'| |] w1; simpl; try done; last by (intros [Hv _]; apply wp_throw).
    intros ((Hlen & Hall) & Hv & _). apply wp_bind, wp_create; [|by intros e' w' Hv' _ _; simpl; rewrite Hv'].
    intros t w2 Hst Hfree Hv2 _. unfold bind_post. apply wp_ret. exists t.
    destruct Hst as (Hns & _ & Hn & _ & _ & _ & Hspec). simpl in Hns, Hn, Hspec.
    change (client_ns "" _) with "" in Hns. rewrite Hv in Hfree, Hv2. unfold obj_key in Hfree.
    simpl meta in Hfree. rewrite Hns in Hfree. specialize (Hn Hne). rewrite Hn in Hfree.
    unfold ensured. rewrite Hn. split_and!; [done..|]. right.
    split_and!; [done|exact Hfree|done|exact Hns|by rewrite Hspec..].
Qed.

(** The value [EnsureToken] returns for a name without a token can be used: a
    request with it is taken for the user, as long as no other cached token has the
    key.  For a name with a token nothing changes, and its value is returned. *)
Theorem EnsureToken_usable `{!ClientHealthy W Token} tokenName description userName w :
  tokenName ≠ "" → has_char ":" tokenName = false →
  wp (EnsureToken tokenName description userName)
    (if_ok (λ value w',
       match s_Tokens (cached w) !! ("", tokenName) with
       | Some t => w' = w ∧ value = tokenName +:+ ":" +:+ token_Token t
       | None => ∃ t, view w' = put_obj t (view w) ∧
           ∀ req, GetTokenAuthFromRequest req = value →
             map_Forall (λ _ t', token_Token t' = token_Token t → t' = t) (s_Tokens (cached w')) →
             Authenticate req w' = (Ok (userName, []), w')
       end)
       (λ _ w', view w' = view w)) w.
Proof.
  intros Hne Hcol. eapply wp_mono; [by apply wp_EnsureToken|].
  intros [value|e| |] w'; simpl; try done.
  intros (t & Hn & -> & [[-> ->]|(-> & Hno & Hv & Hns & Hu & Hg & Hlife & Hlen & Hall)]); [done|].
  exists t. split; [done|]. intros req Hreq Honly. rewrite <-Hu.
  assert (token_groups t = []) as <- by (unfold token_groups; by rewrite Hg).
  rewrite <-Hn in *. apply Authenticate_stored; auto using key_no_colon.
  - rewrite Hv. pose proof (tbl_put_eq (O:=Token) t (view w)) as Hp. unfold obj_key in Hp.
    simpl meta in Hp. rewrite Hns in Hp. exact Hp.
  - intros E. by rewrite E in Hlen.
  - unfold IsExpired. by rewrite Hlife.
Qed.

End tokens.

(** ** Witnesses *)

Definition demo_person (name principal : string) : User :=
  {| user_meta := named_meta name (principal_labels principal) ∅ []; user_DisplayName := "";
     user_Description := ""; user_Username := ""; user_Password := ""; user_MustChangePassword := false;
     user_PrincipalIDs := [principal]; user_Me := false |}.

(** Two principals with the same first forty bytes. *)
Definition demo_junior : string := "activedirectory_user://CN=Alexander Smith Jr,DC=example".
Definition demo_senior : string := "activedirectory_user://CN=Alexander Smith Sr,DC=example".

Definition demo_directory : KState :=
  set_s_Users {[ ("", "user-1") := demo_person "user-1" demo_junior;
                 ("", "user-2") := demo_person "user-2" demo_senior ]} empty_state.

Definition demo_login_principal (name : string) : Principal :=
  {| p_Name := name; p_DisplayName := ""; p_LoginName := ""; p_ProfilePicture := "";
     p_ProfileURL := ""; p_PrincipalType := "user"; p_Me := true; p_MemberOf := false;
     p_Provider := "activedirectory"; p_ExtraInfo := ∅ |}.

Definition demo_named_crtb : ClusterRoleTemplateBinding :=
  {| crtb_meta := demo_binding; crtb_type := demo_type; crtb_UserName := "";
     crtb_UserPrincipalName := demo_senior; crtb_GroupName := ""; crtb_GroupPrincipalName := "";
     crtb_ClusterName := "c-1"; crtb_RoleTemplateName := "owner" |}.

Definition demo_named_prtb : ProjectRoleTemplateBinding :=
  {| prtb_meta := demo_binding; prtb_type := demo_type; prtb_UserName := "";
     prtb_UserPrincipalName := demo_junior; prtb_GroupName := ""; prtb_GroupPrincipalName := "";
     prtb_ProjectName := "c-1:p-1"; prtb_RoleTemplateName := "owner" |}.

Lemma synced_users s : in_sync_kind User (synced s).
Proof. reflexivity. Qed.

Lemma CheckAccess_exact_witness :
  admitted "restricted" [demo_senior] demo_senior [] (synced demo_directory) ∧
  ¬ admitted "restricted" [demo_senior] demo_junior [] (synced demo_directory).
Proof.
  pose proof (CheckAccess_exact "restricted" [demo_senior] (demo_login_principal demo_senior) []
    (synced demo_directory)) as Hs.
  pose proof (CheckAccess_exact "restricted" [demo_senior] (demo_login_principal demo_junior) []
    (synced demo_directory)) as Hj.
  destruct (run_ok _ _ _ _ true Hs) as (ws & _ & _ & Hs'); [vm_compute; reflexivity|].
  destruct (run_ok _ _ _ _ false Hj) as (wj & _ & _ & Hj'); [vm_compute; reflexivity|].
  split; [by apply Hs'|]. intros Ha. by apply Hj' in Ha.
Defined.

Lemma EnsureUser_correct_witness :
  ∃ u w', EnsureUser demo_junior "Alexander" (synced empty_state) = (Ok u, w') ∧
    enrolled demo_junior "Alexander" u (view (synced empty_state)) (view w').
Proof.
  pose proof (EnsureUser_correct demo_junior "Alexander" (synced empty_state) (synced_users _)) as He.
  assert (∃ u, (EnsureUser demo_junior "Alexander" (synced empty_state)).1 = Ok u) as [u Hu]
    by (eexists; vm_compute; reflexivity).
  destruct (run_ok _ _ _ _ u He Hu) as (w' & Hrun & [[(Hin & _) _]|(_ & Hen & _)]); [|by exists u, w'].
  exfalso. assert (s_Users (view (synced empty_state)) = ∅) as E by reflexivity.
  by rewrite E, lookup_empty in Hin.
Defined.

Lemma reconcileSubject_resolves_witness :
  ∃ b w', Crtb.reconcileSubject demo_named_crtb (synced demo_directory) = (Ok b, w') ∧
    ∃ u, sole demo_senior (view w') u ∧ crtb_UserName b = Name (user_meta u).
Proof.
  assert (∃ b, (Crtb.reconcileSubject demo_named_crtb (synced demo_directory)).1 = Ok b) as [b Hb]
    by (eexists; vm_compute; reflexivity).
  assert (demo_senior ≠ "" ∧ demo_junior ≠ "") as [Hsr Hjr] by (split; discriminate).
  destruct (run_ok _ _ _ _ b (proj1 (reconcileSubject_resolves demo_named_crtb demo_named_prtb
    (synced demo_directory) (synced_users _) eq_refl eq_refl eq_refl Hsr eq_refl eq_refl eq_refl Hjr)) Hb)
    as (w' & Hrun & u & Hu & -> & _).
  eexists _, w'. split; [exact Hrun|]. exists u. exact (conj Hu eq_refl).
Defined.

(** The cache has not seen the two users yet. *)
Definition demo_unseen : Sim :=
  {| sim_view := demo_directory; sim_cached := empty_state; sim_now := 0 |}.

Lemma EnsureUser_wrong_user_witness :
  EnsureUser demo_junior "" demo_unseen = (Ok (demo_person "user-2" demo_senior), demo_unseen).
Proof.
  apply (EnsureUser_wrong_user demo_junior "" demo_unseen [] (demo_person "user-1" demo_junior) []
    (demo_person "user-2" demo_senior)).
  - intros u [Hu _]. assert (s_Users (cached demo_unseen) = ∅) as E by reflexivity.
    by rewrite E, lookup_empty in Hu.
  - vm_compute. reflexivity.
  - by left.
  - intros v Hv. apply list_elem_of_singleton in Hv as ->. by apply ContainsString_false.
Defined.

Lemma EnsureToken_usable_witness :
  ∃ value w', EnsureToken "agent-1" "" "user-1" (synced empty_state) = (Ok value, w') ∧
    Authenticate (demo_request value) w' = (Ok ("user-1", []), w').
Proof.
  assert (∃ value, (EnsureToken "agent-1" "" "user-1" (synced empty_state)).1 = Ok value ∧
    GetTokenAuthFromRequest (demo_request value) = value ∧
    s_Tokens (cached (EnsureToken "agent-1" "" "user-1" (synced empty_state)).2) = ∅) as (value & Hok & Hreq & Hc)
    by (eexists; split; [vm_compute; reflexivity|split; vm_compute; reflexivity]).
  assert ("agent-1" ≠ "") as Hne by done.
  destruct (run_ok _ _ _ _ value (EnsureToken_usable "agent-1" "" "user-1" (synced empty_state) Hne eq_refl) Hok)
    as (w' & Hrun & Hpost).
  exists value, w'. split; [done|]. rewrite Hrun in Hc.
  destruct Hpost as (t & _ & Hauth). apply Hauth; [exact Hreq|].
  change (s_Tokens (cached w') = ∅) in Hc. rewrite Hc. apply map_Forall_empty.
Defined.

End UserManagers.
