(* ===== verification/AccessControl.v ===== *)
(** * Access control of the API

    Package [pkg/rbac]: which objects of the API a request may see and change.
    The authentication filter leaves the user and the groups of a request in its
    impersonation headers; the access control looks up their role bindings in
    the caches and collects the names and namespaces the rules of the roles
    allow. *)

From stdpp Require Import base gmap list strings.
From Stdlib Require Import Ascii ZArith Lia.
From S2P Require Import Prelude.
From S2P Require Import GoLib.
From S2P Require Import KubeTypes.
From S2P Require Import KubeObjects.
From S2P Require Import Kube.
From S2P Require Import KubeRules.
From S2P Require Import KubeSim.
From S2P Require Import MgmtManager.
From S2P Require Import MgmtRoles.
From S2P Require Import MgmtBindings.
From S2P Require Import MgmtGrants.
From S2P Require Import MgmtUsers.
From S2P Require Import Tokens.
From S2P Require Import TokenAuth.
Import Tokens TokenAuth.

Module AccessControl.

Notation rbacGroup := "rbac.authorization.k8s.io" (only parsing).

(** ** Permissions *)

(** A namespace and a name; the map of [ListPermissionSet]. *)
Notation ListPermission := (string * string)%type.
Notation ListPermissionSet := (gmap ListPermission bool).

Definition HasAccess (l : ListPermissionSet) (namespace name : string) : bool :=
  default false (l !! (namespace, name)).

Definition matches (parts : list string) (val : string) : bool :=
  existsb (λ value, String.eqb value "*" || EqualFold value val) parts.

(** The names of the subjects of one kind. *)
Definition by_subject (kind : string) (subjects : list Subject) : list string :=
  map s_Name (List.filter (λ s, String.eqb (s_Kind s) kind) subjects).

Definition clusterRoleBindingBySubject (kind : string) (crb : ClusterRoleBinding) : list string :=
  by_subject kind (crb_Subjects crb).

Definition roleBindingBySubject (kind : string) (rb : RoleBinding) : list string :=
  by_subject kind (rb_Subjects rb).

(** What one rule adds to the permissions. *)
Definition rule_permissions (namespace apiGroup resource verb : string) (rule : PolicyRule) :
    list ListPermission :=
  let nsForResourceNameGets := if String.eqb namespace "*" then "" else namespace in
  if negb (matches (APIGroups rule) apiGroup) || negb (matches (Resources rule) resource) then [] else
  if (0 <? length (ResourceNames rule))%nat then
    let v := if String.eqb verb "list" then "get" else verb in
    if ContainsString (Verbs rule) "*" || ContainsString (Verbs rule) v
    then map (λ resourceName, (nsForResourceNameGets, resourceName)) (ResourceNames rule)
    else []
  else if ContainsString (Verbs rule) "*" || ContainsString (Verbs rule) verb
  then [(namespace, "*")] else [].

Section index.
Context {W : Type} `{!Client W ClusterRole, !Client W Role, !Client W ClusterRoleBinding,
                     !Client W RoleBinding}.

(** Errors of the listers and indexes count as nothing found. *)
Definition found {A} (r : outcome (list A)) : list A := match r with Ok l => l | _ => [] end.

Definition getClusterRoleBindings (kind subjectName : string) (w : W) : list ClusterRoleBinding :=
  found (ByIndex (clusterRoleBindingBySubject kind) subjectName w).

Definition getRoleBindings (kind subjectName : string) (w : W) : list RoleBinding :=
  found (ByIndex (roleBindingBySubject kind) subjectName w).

Definition getRules (namespace kind name : string) (w : W) : list PolicyRule :=
  if String.eqb kind "ClusterRole" then
    match lister_Get (O:=ClusterRole) "" name w with Ok role => cr_Rules role | _ => [] end
  else if String.eqb kind "Role" then
    match lister_Get (O:=Role) namespace name w with Ok role => r_Rules role | _ => [] end
  else [].

Definition filterPermissions (result : list ListPermission)
    (namespace kind name apiGroup resource verb : string) (w : W) : list ListPermission :=
  foldl (λ result rule, result ++ rule_permissions namespace apiGroup resource verb rule)
        result (getRules namespace kind name w).

(** The index for the subjects of one kind: the indexers [crbUser] and [rbUser], or
    [crbGroup] and [rbGroup]. *)
Definition get (index subjectName apiGroup resource verb : string) (w : W) : list ListPermission :=
  let result := foldl (λ result binding,
    if negb (String.eqb (rr_APIGroup (rb_RoleRef binding)) rbacGroup) then result else
    filterPermissions result (Namespace (rb_meta binding)) (rr_Kind (rb_RoleRef binding))
      (rr_Name (rb_RoleRef binding)) apiGroup resource verb w)
    [] (getRoleBindings index subjectName w) in
  foldl (λ result binding,
    if negb (String.eqb (rr_APIGroup (crb_RoleRef binding)) rbacGroup) then result else
    filterPermissions result "*" (rr_Kind (crb_RoleRef binding))
      (rr_Name (crb_RoleRef binding)) apiGroup resource verb w)
    result (getClusterRoleBindings index subjectName w).

Definition getFromIndex (subjectName apiGroup resource verb index : string) (w : W) :
    ListPermissionSet :=
  foldl (λ result value, <[value := true]> result) ∅ (get index subjectName apiGroup resource verb w).

Definition UserPermissions (subjectName apiGroup resource verb : string) (w : W) : ListPermissionSet :=
  getFromIndex subjectName apiGroup resource verb "User" w.

Definition GroupPermissions (subjectName apiGroup resource verb : string) (w : W) : ListPermissionSet :=
  getFromIndex subjectName apiGroup resource verb "Group" w.

Definition getUser (req : Request) : string := header_Get req "Impersonate-User".

Definition getGroups (req : Request) : list string := default [] (Header req !! "Impersonate-Group").

(** The inner loop [permset[k] = v] is a union. *)
Definition getPermissions (req : Request) (apiGroup resource verb : string) (w : W) : ListPermissionSet :=
  foldl (λ permset group, GroupPermissions group apiGroup resource verb w ∪ permset)
        (UserPermissions (getUser req) apiGroup resource verb w) (getGroups req).

(** ** Objects of the API: maps with values of any type, or nil *)

Inductive jvalue :=
  | JString (s : string)
  | JOther.

Definition object : Type := option (gmap string jvalue).

(** [s, _ := obj[k].(string)] *)
Definition get_string (obj : object) (k : string) : string :=
  match obj with
  | Some m => match m !! k with Some (JString s) => s | _ => "" end
  | None => ""
  end.

Definition canAccess (obj : object) (permset : ListPermissionSet) : bool :=
  let namespace := get_string obj "namespaceId" in
  let id := match obj with Some _ => get_string obj "id" | None => "*" end in
  if HasAccess permset namespace "*" || HasAccess permset "*" "*" then true
  else HasAccess permset namespace (TrimPrefix id (namespace +:+ ":")).

Definition CanDo (apiGroup resource verb : string) (req : Request) (obj : object)
    (schemaID : string) (w : W) : outcome unit :=
  if canAccess obj (getPermissions req apiGroup resource verb w) then Ok tt
  else Err (PlainError ("can not " +:+ verb +:+ " " +:+ schemaID +:+ " ")).

Definition Filter (req : Request) (obj : object) (context : gmap string string) (w : W) : object :=
  let apiGroup := default "" (context !! "apiGroup") in
  let resource := default "" (context !! "resource") in
  if String.eqb resource "" then obj else
  if canAccess obj (getPermissions req apiGroup resource "list" w) then obj else None.

Definition FilterList (req : Request) (objs : list object) (context : gmap string string) (w : W) :
    list object :=
  let apiGroup := default "" (context !! "apiGroup") in
  let resource := default "" (context !! "resource") in
  if String.eqb resource "" then objs else
  let permset := getPermissions req apiGroup resource "list" w in
  let all := HasAccess permset "*" "*" in
  foldl (λ result obj, if all then result ++ [obj] else
                       if canAccess obj permset then result ++ [obj] else result) [] objs.

End index.

(** ** What the roles allow *)

(** The rule lists the verb. *)
Definition verb_of (rule : PolicyRule) (v : string) : Prop := "*" ∈ Verbs rule ∨ v ∈ Verbs rule.

Definition about (rule : PolicyRule) (apiGroup resource : string) : Prop :=
  matches (APIGroups rule) apiGroup = true ∧ matches (Resources rule) resource = true.

(** A rule of a binding for [namespace] opens a name in a namespace: the names it
    lists, where [get] is enough to [list] them, or everything. *)
Definition opens (namespace verb : string) (rule : PolicyRule) (p : ListPermission) : Prop :=
  ResourceNames rule ≠ [] ∧ p.1 = (if decide (namespace = "*") then "" else namespace) ∧
    p.2 ∈ ResourceNames rule ∧ verb_of rule (if decide (verb = "list") then "get" else verb) ∨
  ResourceNames rule = [] ∧ p = (namespace, "*") ∧ verb_of rule verb.

Lemma contains_verb rule v :
  ContainsString (Verbs rule) "*" || ContainsString (Verbs rule) v = true ↔ verb_of rule v.
Proof. by rewrite orb_true_iff, !ContainsString_true. Qed.

Lemma elem_of_rule_permissions ns apiGroup resource verb rule p :
  p ∈ rule_permissions ns apiGroup resource verb rule ↔
  about rule apiGroup resource ∧ opens ns verb rule p.
Proof.
  unfold rule_permissions, about, opens.
  destruct (matches (APIGroups rule) apiGroup); simpl; [|rewrite elem_of_nil; naive_solver].
  destruct (matches (Resources rule) resource); simpl; [|rewrite elem_of_nil; naive_solver].
  assert ((if String.eqb ns "*" then "" else ns) = if decide (ns = "*") then "" else ns) as ->
    by (destruct (String.eqb_spec ns "*"), (decide (ns = "*")); done).
  assert ((if String.eqb verb "list" then "get" else verb) = if decide (verb = "list") then "get" else verb) as ->
    by (destruct (String.eqb_spec verb "list"), (decide (verb = "list")); done).
  destruct (ResourceNames rule) as [|n names] eqn:Hn; cbn [length Nat.ltb Nat.leb].
  - destruct (_ || _) eqn:Hv; [apply contains_verb in Hv|apply not_true_iff_false in Hv; rewrite contains_verb in Hv].
    + rewrite list_elem_of_singleton. naive_solver.
    + rewrite elem_of_nil. naive_solver.
  - destruct (_ || _) eqn:Hv; [apply contains_verb in Hv|apply not_true_iff_false in Hv; rewrite contains_verb in Hv].
    + rewrite list_elem_of_fmap. destruct p as [pn pm]. simpl. naive_solver.
    + rewrite elem_of_nil. naive_solver.
Qed.

Lemma elem_of_by_subject kind n l : n ∈ by_subject kind l ↔ ∃ s, s ∈ l ∧ s_Kind s = kind ∧ s_Name s = n.
Proof.
  unfold by_subject. rewrite list_elem_of_fmap. setoid_rewrite list_elem_of_In.
  setoid_rewrite filter_In. setoid_rewrite String.eqb_eq. naive_solver.
Qed.

Lemma elem_of_foldl_app {A B} (f : A → list B) l acc x :
  x ∈ foldl (λ acc a, acc ++ f a) acc l ↔ x ∈ acc ∨ ∃ a, a ∈ l ∧ x ∈ f a.
Proof.
  revert acc. induction l as [|a l IH]; intros acc; simpl.
  - setoid_rewrite elem_of_nil. naive_solver.
  - rewrite IH, elem_of_app. setoid_rewrite elem_of_cons. naive_solver.
Qed.

Section laws.
Context {W : Type} `{!Kube W, !Client W ClusterRole, !Client W Role, !Client W ClusterRoleBinding,
                     !Client W RoleBinding}.
Context `{!ClientLaws W ClusterRole, !ClientLaws W Role, !ClientLaws W ClusterRoleBinding,
          !ClientLaws W RoleBinding}.
Implicit Types (w : W).

(** The caches show a rule of the role a binding refers to. *)
Definition rule_of w (namespace : string) (ref : RoleRef) (rule : PolicyRule) : Prop :=
  rr_Kind ref = "ClusterRole" ∧
    (∃ cr, s_ClusterRoles (cached w) !! ("", rr_Name ref) = Some cr ∧ rule ∈ cr_Rules cr) ∨
  rr_Kind ref = "Role" ∧
    (∃ r, s_Roles (cached w) !! (namespace, rr_Name ref) = Some r ∧ rule ∈ r_Rules r).

Definition names_subject (kind n : string) (l : list Subject) : Prop :=
  ∃ s, s ∈ l ∧ s_Kind s = kind ∧ s_Name s = n.

(** A binding of the subject, to a role with a rule about the resource, opens the
    name in the namespace. *)
Definition allowed w (kind n apiGroup resource verb : string) (p : ListPermission) : Prop :=
  (∃ rb rule, s_RoleBindings (cached w) !! obj_key rb = Some rb ∧ names_subject kind n (rb_Subjects rb) ∧
     rr_APIGroup (rb_RoleRef rb) = rbacGroup ∧ rule_of w (Namespace (rb_meta rb)) (rb_RoleRef rb) rule ∧
     about rule apiGroup resource ∧ opens (Namespace (rb_meta rb)) verb rule p) ∨
  (∃ crb rule, s_ClusterRoleBindings (cached w) !! obj_key crb = Some crb ∧
     names_subject kind n (crb_Subjects crb) ∧
     rr_APIGroup (crb_RoleRef crb) = rbacGroup ∧ rule_of w "*" (crb_RoleRef crb) rule ∧
     about rule apiGroup resource ∧ opens "*" verb rule p).

Lemma elem_of_getRules w ns ref rule : rule ∈ getRules ns (rr_Kind ref) (rr_Name ref) w ↔ rule_of w ns ref rule.
Proof.
  unfold getRules, rule_of.
  destruct (String.eqb_spec (rr_Kind ref) "ClusterRole") as [->|N1].
  - pose proof (lister_get_law (O:=ClusterRole) "" (rr_Name ref) w) as Hg.
    change (tbl (cached w)) with (s_ClusterRoles (cached w)) in Hg.
    destruct (s_ClusterRoles (cached w) !! ("", rr_Name ref)) as [cr|].
    + rewrite Hg. naive_solver.
    + destruct Hg as (e & -> & _). rewrite elem_of_nil. naive_solver.
  - destruct (String.eqb_spec (rr_Kind ref) "Role") as [->|N2]; [|rewrite elem_of_nil; naive_solver].
    pose proof (lister_get_law (O:=Role) ns (rr_Name ref) w) as Hg.
    change (tbl (cached w)) with (s_Roles (cached w)) in Hg.
    destruct (s_Roles (cached w) !! (ns, rr_Name ref)) as [r|].
    + rewrite Hg. naive_solver.
    + destruct Hg as (e & -> & _). rewrite elem_of_nil. naive_solver.
Qed.

Lemma elem_of_filterPermissions acc ns ref apiGroup resource verb w p :
  p ∈ filterPermissions acc ns (rr_Kind ref) (rr_Name ref) apiGroup resource verb w ↔
  p ∈ acc ∨ ∃ rule, rule_of w ns ref rule ∧ about rule apiGroup resource ∧ opens ns verb rule p.
Proof.
  unfold filterPermissions. rewrite elem_of_foldl_app. setoid_rewrite elem_of_getRules.
  by setoid_rewrite elem_of_rule_permissions.
Qed.

(** The loops over bindings, whatever their kind. *)
Lemma elem_of_binding_loop {B} (ref : B → RoleRef) (ns : B → string) apiGroup resource verb w l acc p :
  p ∈ foldl (λ result b, if negb (String.eqb (rr_APIGroup (ref b)) rbacGroup) then result else
               filterPermissions result (ns b) (rr_Kind (ref b)) (rr_Name (ref b)) apiGroup resource verb w)
        acc l ↔
  p ∈ acc ∨ ∃ b rule, b ∈ l ∧ rr_APIGroup (ref b) = rbacGroup ∧ rule_of w (ns b) (ref b) rule ∧
    about rule apiGroup resource ∧ opens (ns b) verb rule p.
Proof.
  revert acc. induction l as [|b l IH]; intros acc; cbn [foldl].
  - setoid_rewrite elem_of_nil. naive_solver.
  - rewrite IH. setoid_rewrite elem_of_cons.
    destruct (String.eqb_spec (rr_APIGroup (ref b)) rbacGroup) as [Hb|Hb]; cbn [negb].
    + rewrite elem_of_filterPermissions. naive_solver.
    + naive_solver.
Qed.

Lemma elem_of_get kind n apiGroup resource verb w p :
  p ∈ get kind n apiGroup resource verb w ↔ allowed w kind n apiGroup resource verb p.
Proof.
  unfold get, getRoleBindings, getClusterRoleBindings, allowed, found, names_subject.
  destruct (by_index_law (O:=RoleBinding) (roleBindingBySubject kind) n w) as (l1 & Hl1 & _).
  destruct (by_index_law (O:=ClusterRoleBinding) (clusterRoleBindingBySubject kind) n w) as (l2 & Hl2 & _).
  rewrite Hl1, Hl2. rewrite (elem_of_binding_loop crb_RoleRef (λ _, "*")),
    (elem_of_binding_loop rb_RoleRef (λ b, Namespace (rb_meta b))), elem_of_nil.
  pose proof (λ b, elem_of_index (O:=RoleBinding) _ n w l1 b Hl1) as H1.
  pose proof (λ b, elem_of_index (O:=ClusterRoleBinding) _ n w l2 b Hl2) as H2.
  setoid_rewrite H1. setoid_rewrite H2. unfold roleBindingBySubject, clusterRoleBindingBySubject.
  setoid_rewrite elem_of_by_subject. simpl. naive_solver.
Qed.

(** *** Sets of permissions *)

(** The request has the permission through its user or through one of its groups. *)
Definition entitled w (req : Request) (apiGroup resource verb : string) (p : ListPermission) : Prop :=
  allowed w "User" (getUser req) apiGroup resource verb p ∨
  ∃ g, g ∈ getGroups req ∧ allowed w "Group" g apiGroup resource verb p.

Lemma lookup_getFromIndex n apiGroup resource verb kind w p :
  getFromIndex n apiGroup resource verb kind w !! p =
  if decide (p ∈ get kind n apiGroup resource verb w) then Some true else None.
Proof.
  unfold getFromIndex. generalize (get kind n apiGroup resource verb w) as l. intros l.
  assert (∀ acc : ListPermissionSet, foldl (λ result value, <[value := true]> result) acc l !! p =
    if decide (p ∈ l) then Some true else acc !! p) as ->; [|case_decide; [done|apply lookup_empty]].
  induction l as [|q l IH]; intros acc; cbn [foldl].
  - rewrite decide_False; [done|]. by intros ?%elem_of_nil.
  - rewrite IH. destruct (decide (p ∈ l)) as [Hp|Hp].
    + rewrite decide_True; [done|by right].
    + destruct (decide (q = p)) as [->|Hne].
      * rewrite lookup_insert_eq, decide_True; [done|by left].
      * rewrite lookup_insert_ne by done. rewrite decide_False; [done|].
        intros [->|]%elem_of_cons; done.
Qed.

Lemma HasAccess_getFromIndex n apiGroup resource verb kind w p :
  HasAccess (getFromIndex n apiGroup resource verb kind w) p.1 p.2 = true ↔
  allowed w kind n apiGroup resource verb p.
Proof.
  unfold HasAccess. destruct p as [ns m]. simpl. rewrite lookup_getFromIndex, <-elem_of_get.
  case_decide; simpl; naive_solver.
Qed.

Lemma HasAccess_union n apiGroup resource verb kind w permset ns m :
  HasAccess (getFromIndex n apiGroup resource verb kind w ∪ permset) ns m = true ↔
  allowed w kind n apiGroup resource verb (ns, m) ∨ HasAccess permset ns m = true.
Proof.
  rewrite <-(HasAccess_getFromIndex _ _ _ _ _ _ (ns, m)). unfold HasAccess. simpl.
  rewrite lookup_union. rewrite lookup_getFromIndex.
  case_decide; destruct (permset !! (ns, m)) as [[]|]; simpl; naive_solver.
Qed.

Lemma HasAccess_getPermissions req apiGroup resource verb w ns m :
  HasAccess (getPermissions req apiGroup resource verb w) ns m = true ↔
  entitled w req apiGroup resource verb (ns, m).
Proof.
  unfold getPermissions, entitled. rewrite <-(HasAccess_getFromIndex _ _ _ _ "User" _ (ns, m)). simpl.
  unfold UserPermissions. generalize (getFromIndex (getUser req) apiGroup resource verb "User" w) as acc.
  induction (getGroups req) as [|g groups IH]; intros acc; simpl.
  - setoid_rewrite elem_of_nil. naive_solver.
  - rewrite IH. unfold GroupPermissions. rewrite HasAccess_union. setoid_rewrite elem_of_cons. naive_solver.
Qed.

(** The request may act on the object: on all objects, on all of its namespace, or
    on this one. *)
Definition authorised w (req : Request) (apiGroup resource verb : string) (obj : object) : Prop :=
  let namespace := get_string obj "namespaceId" in
  let id := match obj with Some _ => get_string obj "id" | None => "*" end in
  entitled w req apiGroup resource verb ("*", "*") ∨ entitled w req apiGroup resource verb (namespace, "*") ∨
  entitled w req apiGroup resource verb (namespace, TrimPrefix id (namespace +:+ ":")).

Lemma canAccess_spec req apiGroup resource verb w obj :
  canAccess obj (getPermissions req apiGroup resource verb w) = true ↔
  authorised w req apiGroup resource verb obj.
Proof.
  unfold canAccess, authorised. destruct (_ || _) eqn:E.
  - apply orb_true_iff in E. rewrite !HasAccess_getPermissions in E. naive_solver.
  - apply orb_false_iff in E. rewrite <-!not_true_iff_false, !HasAccess_getPermissions in E.
    rewrite HasAccess_getPermissions. naive_solver.
Qed.

(** C7: the access control decides exactly what the role bindings say.  [CanDo]
    allows a request exactly when a binding of its user or of one of its groups
    opens the object, and of a list the request is shown exactly the objects it is
    allowed to list, in their order. *)
Theorem access_control_exact req apiGroup resource verb obj schemaID objs context w :
  (CanDo apiGroup resource verb req obj schemaID w = Ok tt ↔ authorised w req apiGroup resource verb obj) ∧
  ∃ shown, FilterList req objs context w = List.filter shown objs ∧
    ∀ o, shown o = true ↔
      default "" (context !! "resource") = "" ∨
      authorised w req (default "" (context !! "apiGroup")) (default "" (context !! "resource")) "list" o.
Proof.
  split.
  - unfold CanDo. rewrite <-canAccess_spec. by destruct (canAccess obj _).
  - unfold FilterList. destruct (String.eqb_spec (default "" (context !! "resource")) "") as [->|Hne].
    { exists (λ _, true). split; [|naive_solver]. induction objs as [|o objs IH]; simpl; congruence. }
    set (permset := getPermissions _ _ _ _ _).
    exists (λ o, canAccess o permset). split; last first.
    { intros o. subst permset. rewrite canAccess_spec. naive_solver. }
    assert (HasAccess permset "*" "*" = true → ∀ o, canAccess o permset = true) as Hall.
    { intros Ha o. unfold canAccess. by rewrite Ha, orb_true_r. }
    assert (∀ acc, foldl (λ result obj, if HasAccess permset "*" "*" then result ++ [obj] else
      if canAccess obj permset then result ++ [obj] else result) acc objs =
      acc ++ List.filter (λ o, canAccess o permset) objs) as ->; [|done].
    induction objs as [|o objs IH]; intros acc; cbn [foldl List.filter]; [by rewrite app_nil_r|].
    rewrite IH. destruct (HasAccess permset "*" "*").
    + rewrite Hall by done. by rewrite <-app_assoc.
    + destruct (canAccess o permset); [by rewrite <-app_assoc|done].
Qed.

(** ** From the token to the role binding *)

Section requests.
Context `{!GoRuntime W, !Float64, !Client W Token, !ClientLaws W Token}.

(** The user of a token, or one of its groups, has the permission. *)
Definition token_allows w (t : Token) (apiGroup resource verb : string) (p : ListPermission) : Prop :=
  allowed w "User" (token_UserID t) apiGroup resource verb p ∨
  ∃ g, g ∈ token_groups t ∧ allowed w "Group" g apiGroup resource verb p.

(** C6: a request that comes through the filter and is allowed to act on an object
    came with a token that is known and has not expired, and a role binding of the
    user or of a group of this token opens the object; impersonation headers the
    client sends do not help it. *)
Theorem request_authorised req req' apiGroup resource verb obj schemaID w w' :
  filter_ServeHTTP req w = (Ok (inr req'), w') →
  CanDo apiGroup resource verb req' obj schemaID w' = Ok tt →
  ∃ t, authentic req w t ∧
    let namespace := get_string obj "namespaceId" in
    let id := match obj with Some _ => get_string obj "id" | None => "*" end in
    token_allows w t apiGroup resource verb ("*", "*") ∨
    token_allows w t apiGroup resource verb (namespace, "*") ∨
    token_allows w t apiGroup resource verb (namespace, TrimPrefix id (namespace +:+ ":")).
Proof.
  intros Hf Hc. pose proof (wp_filter req w) as Hwp. unfold wp in Hwp. rewrite Hf in Hwp.
  simpl in Hwp.
  destruct Hwp as (Hw & t & Hauth & Hu & Hg & _). subst w'. exists t. split; [done|].
  unfold CanDo in Hc. destruct (canAccess obj _) eqn:Ha; [|done].
  apply canAccess_spec in Ha. unfold authorised, entitled in Ha. unfold token_allows.
  assert (getUser req' = token_UserID t) as <- by (unfold getUser, header_Get; by rewrite Hu).
  assert (getGroups req' = token_groups t) as <- by exact Hg. done.
Qed.

End requests.

(** ** From the role template binding to the API *)

Section grants.
Context `{!GoRuntime W, !GoRuntimeLaws W, !Client W RoleTemplate, !ClientLaws W RoleTemplate}.

(** The request is made by the subject. *)
Definition made_by (req : Request) (subject : Subject) : Prop :=
  s_Kind subject = "User" ∧ getUser req = s_Name subject ∨
  s_Kind subject = "Group" ∧ s_Name subject ∈ getGroups req.

(** A role binding of the subject to a role with the verb. *)
Lemma role_gives_access ns rb role subject r v req apiGroup obj schemaID w :
  s_RoleBindings (cached w) !! obj_key rb = Some rb → Namespace (rb_meta rb) = ns →
  names_subject (s_Kind subject) (s_Name subject) (rb_Subjects rb) →
  rr_APIGroup (rb_RoleRef rb) = rbacGroup → rr_Kind (rb_RoleRef rb) = "Role" →
  s_Roles (cached w) !! (ns, rr_Name (rb_RoleRef rb)) = Some role →
  (∀ rule, rule ∈ r_Rules role → APIGroups rule = ["*"] ∧ ResourceNames rule = []) →
  v ∈ current_verbs r (r_Rules role) →
  made_by req subject → get_string obj "namespaceId" = ns →
  CanDo apiGroup r v req obj schemaID w = Ok tt.
Proof.
  intros Hrb Hns Hsub Hgrp Hkind Hrole Hrules Hv Hreq Hobj.
  apply elem_of_current_verbs in Hv as (rule & Hrule & Hv & Hr).
  destruct (Hrules rule Hrule) as [Hag Hrn].
  assert (∀ kind n, names_subject kind n (rb_Subjects rb) → allowed w kind n apiGroup r v (ns, "*")) as Hall.
  { intros kind n Hn. left. exists rb, rule. rewrite Hns. split_and!; [done..| | |].
    - right. split; [done|]. by exists role.
    - split; [by rewrite Hag|]. apply existsb_exists. exists r.
      split; [by apply list_elem_of_In|]. unfold EqualFold. by rewrite String.eqb_refl, orb_true_r.
    - right. split_and!; [done..|]. by right. }
  unfold CanDo. assert (canAccess obj (getPermissions req apiGroup r v w) = true) as ->; [|done].
  apply canAccess_spec. right; left. rewrite Hobj. unfold entitled.
  destruct Hreq as [[Hk ->]|[Hk Hg]]; rewrite Hk in Hsub; [left|right]; eauto.
Qed.

(** C5: granting a role template gives access.  Let the roles the templates reached already have in the
    namespace be made of rules of [buildRule], and let the owned bindings of an earlier grant bind the
    subject to them.  After a grant, once the caches have caught up and where the server has filled
    in the API group of the references of owned bindings to roles, the subject of the binding may
    do with the managed resources of the namespace what any of the templates reached says.  The
    grant does not fail when the API server is healthy and no name it needs is taken. *)
Theorem grant_gives_access fuel rt resources subject bindingType bindingMeta w :
  let ns := Namespace bindingMeta in
  let mine := owned_by (UID bindingMeta) in
  let reached := rtc (inherits (templates w)) rt in
  let binding := rb_for (owner_meta bindingType bindingMeta) (Name bindingMeta) subject in
  grantable fuel rt ns w →
  (∀ t role rule, reached t → s_Roles (view w) !! (ns, Name (rt_meta t)) = Some role → rule ∈ r_Rules role →
     APIGroups rule = ["*"] ∧ ResourceNames rule = []) →
  (∀ k rb, s_RoleBindings (view w) !! k = Some rb → mine rb → k.1 = ns) →
  (∀ t rb, reached t → s_RoleBindings (view w) !! (ns, (binding t).1) = Some rb → mine rb →
     same_spec (binding t).2 rb) →
  wp (grantManagementPlanePrivileges fuel (Name (rt_meta rt)) resources subject bindingType bindingMeta)
    (if_ok (λ _ w', ∀ w2 t r v req apiGroup obj schemaID,
        view w2 = view w' → in_sync w2 →
        (∀ k rb, s_RoleBindings (view w2) !! k = Some rb → mine rb → rr_APIGroup (rb_RoleRef rb) = rbacGroup) →
        reached t → r ∈ resources →
        v ∈ verbs_for r (effective_rules (s_ClusterRoles (view w)) t) →
        made_by req subject → get_string obj "namespaceId" = ns →
        CanDo apiGroup r v req obj schemaID w2 = Ok tt)
       (λ _ _, ClientHealthy W Role → ClientHealthy W RoleBinding →
          ¬ names_free ns resources rt (Name bindingMeta) mine w)) w.
Proof.
  intros ns mine reached binding Hg Hbuilt Hhere Hours.
  eapply wp_mono; [by apply wp_grant_own_namespace|].
  intros [[]|e| |] w'; simpl; try done. intros Hgr.
  intros w2 t r v req apiGroup obj schemaID Hv2 (_ & Hsr & Hsb) Hdef Ht Hr Hv Hreq Hobj.
  destruct (granted_verbs _ _ _ _ _ _ _ _ _ _ t r Hgr Ht Hr) as (role & Hrole & Hcv & Hb); [set_solver|].
  destruct Hgr as (_ & _ & _ & Hrbs & _ & _). destruct (Hrbs t) as (rb & Hrb & Hwhich).
  { split; [done|]. apply needs_existsb, existsb_exists. exists r. split; [by apply list_elem_of_In|].
    apply bool_decide_eq_true. set_solver. }
  rewrite <-Hv2 in Hrole, Hrb. change (_ +:+ _) with ((binding t).1) in Hrb.
  assert (mine rb ∧ same_spec (binding t).2 rb) as [Hm (Hsubs & Hkind & Href)].
  { destruct Hwhich as [[Hm Hold]|Hst]; [by split; [|apply (Hours t)]|].
    destruct Hst as (_ & _ & _ & _ & _ & Hown & Hsp). split; [|exact Hsp].
    unfold mine, owned_by, getRBOwnerKey. change (rb_meta rb) with (meta rb). rewrite Hown. simpl. by left. }
  simpl in Hsubs, Hkind, Href.
  pose proof (view_keyed (O:=RoleBinding) w2 _ _ Hrb) as Hkey.
  eapply (role_gives_access ns rb role subject r v); try done.
  - rewrite Hsb. rewrite <-Hkey. exact Hrb.
  - by injection Hkey.
  - apply Forall2_cons_inv_l in Hsubs as (s & l & (Hk & Hn & _) & _ & ->). exists s.
    split_and!; [by left|done..].
  - exact (Hdef _ _ Hrb Hm).
  - rewrite Hsr. by rewrite <-Href.
  - intros rule [Hin|(r' & vs & _ & ? & ? & _)]%Hb; [|done].
    destruct (s_Roles (view w) !! _) as [old|] eqn:Hold; [|by apply elem_of_nil in Hin]. by apply (Hbuilt t old).
  - by rewrite Hcv.
Qed.

End grants.

End laws.

(** ** Witnesses *)

(** A user with a token and a binding to a cluster role that shows pods. *)
Definition demo_viewer : KState :=
  set_s_Tokens {[ ("", "token-1") := demo_ttl 0 ]}
  (set_s_ClusterRoles {[ ("", "view") :=
      {| cr_meta := named_meta "view" ∅ ∅ [];
         cr_Rules := [{| Verbs := ["get"; "list"]; APIGroups := ["*"]; Resources := ["pods"];
                         ResourceNames := []; NonResourceURLs := [] |}] |} ]}
  (set_s_ClusterRoleBindings {[ ("", "crb-1") :=
      {| crb_meta := named_meta "crb-1" ∅ ∅ [];
         crb_Subjects := [{| s_Kind := "User"; s_APIGroup := rbacGroup; s_Name := "u-1"; s_Namespace := "" |}];
         crb_RoleRef := {| rr_APIGroup := rbacGroup; rr_Kind := "ClusterRole"; rr_Name := "view" |} |} ]}
   empty_state)).

Definition demo_pod : object :=
  Some {[ "namespaceId" := JString "default"; "id" := JString "default:pod-1" ]}.

Definition demo_as (user : string) : Request :=
  {| Header := {[ "Impersonate-User" := [user] ]}; URL_Scheme := "https" |}.

Lemma access_control_exact_witness :
  authorised (synced demo_viewer) (demo_as "u-1") "" "pods" "list" demo_pod ∧
  ¬ authorised (synced demo_viewer) (demo_as "u-1") "" "pods" "delete" demo_pod.
Proof.
  split.
  - apply (proj1 (access_control_exact (demo_as "u-1") "" "pods" "list" demo_pod "pod" [] ∅ (synced demo_viewer))).
    vm_compute. reflexivity.
  - intros Ha.
    apply (proj1 (access_control_exact (demo_as "u-1") "" "pods" "delete" demo_pod "pod" [] ∅ (synced demo_viewer))) in Ha.
    vm_compute in Ha. discriminate.
Defined.

Lemma request_authorised_witness :
  ∃ t, authentic (demo_request "token-1:key") (synced demo_viewer) t.
Proof.
  assert (∃ req', filter_ServeHTTP (demo_request "token-1:key") (synced demo_viewer) =
                    (Ok (inr req'), synced demo_viewer) ∧
                  CanDo "" "pods" "list" req' demo_pod "pod" (synced demo_viewer) = Ok tt) as (req' & Hf & Hc).
  { eexists. split; vm_compute; reflexivity. }
  destruct (request_authorised _ _ _ _ _ _ _ _ _ Hf Hc) as (t & Ht & _). exists t. exact Ht.
Defined.

(** The cluster after the grant, with caches up to date. *)
Definition demo_after : Sim :=
  synced (sim_view (grantManagementPlanePrivileges 2 "owner" demo_resources demo_subject demo_type
                      demo_binding demo).2).

Definition demo_project_object : object :=
  Some {[ "namespaceId" := JString "c-1"; "id" := JString "c-1:p-1" ]}.

Lemma synced_in_sync s : in_sync (synced s).
Proof. by split_and!. Qed.

Lemma demo_no_bindings k rb : s_RoleBindings (view demo) !! k = Some rb → False.
Proof.
  intros Hk. change (s_RoleBindings (view demo)) with (∅ : gmap nsname RoleBinding) in Hk.
  by rewrite lookup_empty in Hk.
Qed.

Lemma grant_gives_access_witness :
  CanDo "management.cattle.io" "projects" "get" (demo_as "u-1") demo_project_object "project" demo_after = Ok tt.
Proof.
  assert ((grantManagementPlanePrivileges 2 "owner" demo_resources demo_subject demo_type
             demo_binding demo).1 = Ok tt) as Hok by (vm_compute; reflexivity).
  unshelve refine (let H := run_ok _ _ _ demo tt (grant_gives_access 2 demo_owner demo_resources demo_subject demo_type
    demo_binding demo (demo_grantable _) _ _ _) Hok in _).
  - intros t role rule _ Hr. change (s_Roles (view demo)) with (∅ : gmap nsname Role) in Hr.
    by rewrite lookup_empty in Hr.
  - intros k rb Hk. destruct (demo_no_bindings _ _ Hk).
  - intros t rb _ Hk. destruct (demo_no_bindings _ _ Hk).
  - destruct H as (w' & Hrun & Hacc).
    assert (map_Forall (λ _ rb, rr_APIGroup (rb_RoleRef rb) = rbacGroup) (s_RoleBindings (view demo_after)))
      as Hgroups by (refine (bool_decide_unpack _ _); vm_compute; exact I).
    refine (Hacc demo_after demo_member "projects" "get" (demo_as "u-1") "management.cattle.io"
              demo_project_object "project" _ _ _ _ _ _ _ _).
    + unfold demo_after. change "owner" with (Name (rt_meta demo_owner)). rewrite Hrun. reflexivity.
    + apply synced_in_sync.
    + intros k rb Hk _. exact (Hgroups k rb Hk).
    + destruct demo_lookups as (_ & Hm & _). apply rtc_once. exists "member". split; [apply list_elem_of_here|exact Hm].
    + apply list_elem_of_here.
    + apply elem_of_verbs_for. eexists. split; [apply list_elem_of_here|].
      split; [apply list_elem_of_here|]. split; [left; apply list_elem_of_here|reflexivity].
    + left. split; reflexivity.
    + reflexivity.
Defined.

End AccessControl.
