(* ===== verification/RoleBuilder.v ===== *)
(** * Built-in roles

    [app/rolebuilder.go] and [app/role_data.go]: the global roles and role
    templates the server writes when it starts, the builder they are described
    with, their reconciliation with what the cluster has, and the first
    administrator. *)

From stdpp Require Import base gmap list strings.
From Stdlib Require Import ZArith.
From S2P Require Import Prelude.
From S2P Require Import GoLib.
From S2P Require Import KubeTypes.
From S2P Require Import KubeObjects.
From S2P Require Import Kube.
From S2P Require Import MgmtHandlers.
Import ProjectCluster.

Declare Scope builder_scope.
Delimit Scope builder_scope with builder.

(** A method call on the result of the call before it. *)
Notation "b ▷ f" := (f b) (at level 62, left associativity, only parsing) : builder_scope.

Module RoleBuilder.

(** ** The builder

    The builders of the roles form a list linked in both directions; the chain
    holds their fields, from the first to the last.  A method of a role or rule
    builder is called on the role or rule an earlier call returned: [cur_role]
    and [cur_rule] point to it. *)

Record roleBuilder := {
  name : string;
  displayName : string;
  context : string;
  builtin : bool;
  external : bool;
  hidden : bool;
  roleTemplateNames : list string;
  rules : list PolicyRule }.

Record builder := {
  chain : list roleBuilder;
  cur_role : nat;
  cur_rule : nat }.

Definition no_role : roleBuilder :=
  {| name := ""; displayName := ""; context := ""; builtin := false; external := false;
     hidden := false; roleTemplateNames := []; rules := [] |}.

Definition newRoleBuilder : builder := {| chain := [no_role]; cur_role := 0; cur_rule := 0 |}.

Definition with_names (d n : string) (r : roleBuilder) : roleBuilder :=
  {| name := n; displayName := d; context := context r; builtin := builtin r; external := external r;
     hidden := hidden r; roleTemplateNames := roleTemplateNames r; rules := rules r |}.

(** [rb.addRole] follows [next] from the first builder: the role takes the first
    place without a name or a new one at the end.  Returns its position. *)
Fixpoint add_role (d n : string) (l : list roleBuilder) : list roleBuilder * nat :=
  match l with
  | [] => ([with_names d n no_role], 0%nat)
  | rb :: next =>
    if String.eqb (name rb) "" then (with_names d n rb :: next, 0%nat)
    else let '(next', i) := add_role d n next in (rb :: next', S i)
  end.

Definition addRole (d n : string) (b : builder) : builder :=
  let '(l, i) := add_role d n (chain b) in {| chain := l; cur_role := i; cur_rule := 0 |}.

Definition on_role (f : roleBuilder → roleBuilder) (b : builder) : builder :=
  {| chain := alter f (cur_role b) (chain b); cur_role := cur_role b; cur_rule := cur_rule b |}.

Definition addRoleTemplate (d n ctx : string) (bi ext hid : bool) (b : builder) : builder :=
  on_role (λ r, {| name := name r; displayName := displayName r; context := ctx; builtin := bi;
                   external := ext; hidden := hid; roleTemplateNames := roleTemplateNames r;
                   rules := rules r |}) (addRole d n b).

Definition with_rules (l : list PolicyRule) (r : roleBuilder) : roleBuilder :=
  {| name := name r; displayName := displayName r; context := context r; builtin := builtin r;
     external := external r; hidden := hidden r; roleTemplateNames := roleTemplateNames r; rules := l |}.

Definition no_rule : PolicyRule :=
  {| Verbs := []; APIGroups := []; Resources := []; ResourceNames := []; NonResourceURLs := [] |}.

(** The rule is the last one of the role. *)
Definition addRule (b : builder) : builder :=
  {| chain := alter (λ r, with_rules (rules r ++ [no_rule]) r) (cur_role b) (chain b);
     cur_role := cur_role b;
     cur_rule := length (default [] (rules <$> chain b !! cur_role b)) |}.

Definition setRoleTemplateNames (names : list string) (b : builder) : builder :=
  on_role (λ r, {| name := name r; displayName := displayName r; context := context r;
                   builtin := builtin r; external := external r; hidden := hidden r;
                   roleTemplateNames := names; rules := rules r |}) b.

Definition on_rule (f : PolicyRule → PolicyRule) (b : builder) : builder :=
  on_role (λ r, with_rules (alter f (cur_rule b) (rules r)) r) b.

Definition verbs (v : list string) (b : builder) : builder :=
  on_rule (λ r, {| Verbs := Verbs r ++ v; APIGroups := APIGroups r; Resources := Resources r;
                   ResourceNames := ResourceNames r; NonResourceURLs := NonResourceURLs r |}) b.

Definition resources (rc : list string) (b : builder) : builder :=
  on_rule (λ r, {| Verbs := Verbs r; APIGroups := APIGroups r; Resources := Resources r ++ rc;
                   ResourceNames := ResourceNames r; NonResourceURLs := NonResourceURLs r |}) b.

Definition resourceNames (rn : list string) (b : builder) : builder :=
  on_rule (λ r, {| Verbs := Verbs r; APIGroups := APIGroups r; Resources := Resources r;
                   ResourceNames := ResourceNames r ++ rn; NonResourceURLs := NonResourceURLs r |}) b.

Definition apiGroups (a : list string) (b : builder) : builder :=
  on_rule (λ r, {| Verbs := Verbs r; APIGroups := APIGroups r ++ a; Resources := Resources r;
                   ResourceNames := ResourceNames r; NonResourceURLs := NonResourceURLs r |}) b.

Definition nonResourceURLs (u : list string) (b : builder) : builder :=
  on_rule (λ r, {| Verbs := Verbs r; APIGroups := APIGroups r; Resources := Resources r;
                   ResourceNames := ResourceNames r; NonResourceURLs := NonResourceURLs r ++ u |}) b.

(** ** The roles *)

Local Open Scope builder_scope.

Definition globalRoles : builder := newRoleBuilder
  ▷ addRole "Create Clusters" "clusters-create"
    ▷ addRule ▷ apiGroups ["management.cattle.io"] ▷ resources ["clusters"] ▷ verbs ["create"]
    ▷ addRule ▷ apiGroups ["management.cattle.io"] ▷ resources ["templates";
        "templateversions"] ▷ verbs ["get"; "list"; "watch"]
    ▷ addRule ▷ apiGroups ["management.cattle.io"] ▷ resources ["nodedrivers"] ▷ verbs ["get";
        "list"; "watch"]
    ▷ addRule ▷ apiGroups ["management.cattle.io"] ▷ resources ["podsecuritypolicytemplates"]
        ▷ verbs ["get"; "list"; "watch"]
    ▷ addRule ▷ apiGroups ["management.cattle.io"] ▷ resources ["nodetemplates"] ▷ verbs ["*"]
  ▷ addRole "Manage Node Drivers" "nodedrivers-manage"
    ▷ addRule ▷ apiGroups ["management.cattle.io"] ▷ resources ["nodedrivers"] ▷ verbs ["*"]
  ▷ addRole "Manage Catalogs" "catalogs-manage"
    ▷ addRule ▷ apiGroups ["management.cattle.io"] ▷ resources ["catalogs"; "templates";
        "templateversions"] ▷ verbs ["*"]
  ▷ addRole "Use Catalog Templates" "catalogs-use"
    ▷ addRule ▷ apiGroups ["management.cattle.io"] ▷ resources ["templates";
        "templateversions"] ▷ verbs ["get"; "list"; "watch"]
  ▷ addRole "Manage Users" "users-manage"
    ▷ addRule ▷ apiGroups ["management.cattle.io"] ▷ resources ["users"; "globalroles";
        "globalrolebindings"] ▷ verbs ["*"]
  ▷ addRole "Manage Roles" "roles-manage"
    ▷ addRule ▷ apiGroups ["management.cattle.io"] ▷ resources ["roletemplates"] ▷ verbs ["*"]
  ▷ addRole "Manage Authentication" "authn-manage"
    ▷ addRule ▷ apiGroups ["management.cattle.io"] ▷ resources ["authconfigs"] ▷ verbs ["get";
        "list"; "watch"; "update"]
  ▷ addRole "Manage Settings" "settings-manage"
    ▷ addRule ▷ apiGroups ["management.cattle.io"] ▷ resources ["settings"] ▷ verbs ["*"]
  ▷ addRole "Manage PodSecurityPolicy Templates" "podsecuritypolicytemplates-manage"
    ▷ addRule ▷ apiGroups ["management.cattle.io"] ▷ resources ["podsecuritypolicytemplates"]
        ▷ verbs ["*"]
  ▷ addRole "Admin" "admin"
    ▷ addRule ▷ apiGroups ["*"] ▷ resources ["*"] ▷ verbs ["*"]
    ▷ addRule ▷ apiGroups [] ▷ nonResourceURLs ["*"] ▷ verbs ["*"]
  ▷ addRole "User" "user"
    ▷ addRule ▷ apiGroups ["management.cattle.io"] ▷ resources ["principals";
        "roletemplates"] ▷ verbs ["get"; "list"; "watch"]
    ▷ addRule ▷ apiGroups ["management.cattle.io"] ▷ resources ["users"] ▷ verbs ["get"; "list";
        "watch"]
    ▷ addRule ▷ apiGroups ["management.cattle.io"] ▷ resources ["preferences"] ▷ verbs ["*"]
    ▷ addRule ▷ apiGroups ["management.cattle.io"] ▷ resources ["settings"] ▷ verbs ["get";
        "list"; "watch"]
    ▷ addRule ▷ apiGroups ["management.cattle.io"] ▷ resources ["clusters"] ▷ verbs ["create"]
    ▷ addRule ▷ apiGroups ["management.cattle.io"] ▷ resources ["templates";
        "templateversions"] ▷ verbs ["get"; "list"; "watch"]
    ▷ addRule ▷ apiGroups ["management.cattle.io"] ▷ resources ["nodedrivers"] ▷ verbs ["get";
        "list"; "watch"]
    ▷ addRule ▷ apiGroups ["management.cattle.io"] ▷ resources ["podsecuritypolicytemplates"]
        ▷ verbs ["get"; "list"; "watch"]
    ▷ addRule ▷ apiGroups ["management.cattle.io"] ▷ resources ["nodetemplates"] ▷ verbs ["*"]
    ▷ addRule ▷ apiGroups ["management.cattle.io"] ▷ resources ["sourcecodecredentials"]
        ▷ verbs ["*"]
    ▷ addRule ▷ apiGroups ["management.cattle.io"] ▷ resources ["sourcecoderepositories"]
        ▷ verbs ["*"]
  ▷ addRole "User Base" "user-base"
    ▷ addRule ▷ apiGroups ["management.cattle.io"] ▷ resources ["principals";
        "roletemplates"] ▷ verbs ["get"; "list"; "watch"]
    ▷ addRule ▷ apiGroups ["management.cattle.io"] ▷ resources ["users"] ▷ verbs ["get"; "list";
        "watch"]
    ▷ addRule ▷ apiGroups ["management.cattle.io"] ▷ resources ["preferences"] ▷ verbs ["*"]
    ▷ addRule ▷ apiGroups ["management.cattle.io"] ▷ resources ["settings"] ▷ verbs ["get";
        "list"; "watch"].

(** The role templates for clusters, from those of Kubernetes on. *)
Definition clusterTemplates : builder := newRoleBuilder
  ▷ addRoleTemplate "Kubernetes cluster-admin" "cluster-admin" "cluster" true true true
  ▷ addRoleTemplate "Kubernetes admin" "admin" "project" true true true
  ▷ addRoleTemplate "Kubernetes edit" "edit" "project" true true true
  ▷ addRoleTemplate "Kubernetes view" "view" "project" true true true
  ▷ addRoleTemplate "Cluster Owner" "cluster-owner" "cluster" true false false
    ▷ addRule ▷ apiGroups ["*"] ▷ resources ["*"] ▷ verbs ["*"]
    ▷ addRule ▷ apiGroups [] ▷ nonResourceURLs ["*"] ▷ verbs ["*"]
  ▷ addRoleTemplate "Cluster Member" "cluster-member" "cluster" true false false
    ▷ addRule ▷ apiGroups ["management.cattle.io"] ▷ resources ["clusterroletemplatebindings"]
        ▷ verbs ["get"; "list"; "watch"]
    ▷ addRule ▷ apiGroups ["management.cattle.io"] ▷ resources ["projects"] ▷ verbs ["create"]
    ▷ addRule ▷ apiGroups ["management.cattle.io"] ▷ resources ["nodes";
        "nodepools"] ▷ verbs ["get"; "list"; "watch"]
    ▷ addRule ▷ apiGroups ["*"] ▷ resources ["nodes"] ▷ verbs ["get"; "list"; "watch"]
    ▷ addRule ▷ apiGroups ["*"] ▷ resources ["persistentvolumes"] ▷ verbs ["get"; "list"; "watch"]
    ▷ addRule ▷ apiGroups ["*"] ▷ resources ["storageclasses"] ▷ verbs ["get"; "list"; "watch"]
    ▷ addRule ▷ apiGroups ["management.cattle.io"] ▷ resources ["clusterevents"] ▷ verbs ["get";
        "list"; "watch"]
    ▷ addRule ▷ apiGroups ["management.cattle.io"] ▷ resources ["clusterpipelines"]
        ▷ verbs ["get"; "list"; "watch"]
    ▷ addRule ▷ apiGroups ["management.cattle.io"] ▷ resources ["clusterloggings"]
        ▷ verbs ["get"; "list"; "watch"]
    ▷ addRule ▷ apiGroups ["management.cattle.io"] ▷ resources ["clusteralerts"] ▷ verbs ["get";
        "list"; "watch"]
    ▷ addRule ▷ apiGroups ["management.cattle.io"] ▷ resources ["notifiers"] ▷ verbs ["get";
        "list"; "watch"]
  ▷ addRoleTemplate "Create Projects" "projects-create" "cluster" true false false
    ▷ addRule ▷ apiGroups ["management.cattle.io"] ▷ resources ["projects"] ▷ verbs ["create"]
  ▷ addRoleTemplate "View All Projects" "projects-view" "cluster" true false false
    ▷ addRule ▷ apiGroups ["management.cattle.io"] ▷ resources ["projects"] ▷ verbs ["get";
        "list"; "watch"]
    ▷ addRule ▷ apiGroups ["management.cattle.io"] ▷ resources ["projectroletemplatebindings"]
        ▷ verbs ["get"; "list"; "watch"]
    ▷ addRule ▷ apiGroups ["project.cattle.io"] ▷ resources ["apps"] ▷ verbs ["get"; "list";
        "watch"]
    ▷ addRule ▷ apiGroups [""] ▷ resources ["namespaces"] ▷ verbs ["get"; "list"; "watch"]
    ▷ addRule ▷ apiGroups ["*"] ▷ resources ["persistentvolumes"] ▷ verbs ["get"; "list"; "watch"]
    ▷ addRule ▷ apiGroups ["*"] ▷ resources ["storageclasses"] ▷ verbs ["get"; "list"; "watch"]
    ▷ addRule ▷ apiGroups ["*"] ▷ resources ["persistentvolumeclaims"] ▷ verbs ["get"; "list";
        "watch"]
    ▷ addRule ▷ apiGroups ["management.cattle.io"] ▷ resources ["clusterevents"] ▷ verbs ["get";
        "list"; "watch"]
    ▷ setRoleTemplateNames ["view"]
  ▷ addRoleTemplate "Manage Nodes" "nodes-manage" "cluster" true false false
    ▷ addRule ▷ apiGroups ["management.cattle.io"] ▷ resources ["nodes"; "nodepools"] ▷ verbs ["*"]
    ▷ addRule ▷ apiGroups ["*"] ▷ resources ["nodes"] ▷ verbs ["*"]
  ▷ addRoleTemplate "View Nodes" "nodes-view" "cluster" true false false
    ▷ addRule ▷ apiGroups ["management.cattle.io"] ▷ resources ["nodes";
        "nodepools"] ▷ verbs ["get"; "list"; "watch"]
    ▷ addRule ▷ apiGroups ["*"] ▷ resources ["nodes"] ▷ verbs ["get"; "list"; "watch"]
  ▷ addRoleTemplate "Manage Storage" "storage-manage" "cluster" true false false
    ▷ addRule ▷ apiGroups ["*"] ▷ resources ["persistentvolumes"] ▷ verbs ["*"]
    ▷ addRule ▷ apiGroups ["*"] ▷ resources ["storageclasses"] ▷ verbs ["*"]
    ▷ addRule ▷ apiGroups ["*"] ▷ resources ["persistentvolumeclaims"] ▷ verbs ["*"]
  ▷ addRoleTemplate "Manage Cluster Members" "clusterroletemplatebindings-manage" "cluster" true
        false false
    ▷ addRule ▷ apiGroups ["management.cattle.io"] ▷ resources ["clusterroletemplatebindings"]
        ▷ verbs ["*"]
  ▷ addRoleTemplate "View Cluster Members" "clusterroletemplatebindings-view" "cluster" true
        false false
    ▷ addRule ▷ apiGroups ["management.cattle.io"] ▷ resources ["clusterroletemplatebindings"]
        ▷ verbs ["get"; "list"; "watch"].

(** Then the role templates for projects. *)
Definition roleTemplates : builder := clusterTemplates
  ▷ addRoleTemplate "Project Owner" "project-owner" "project" true false false
    ▷ addRule ▷ apiGroups ["management.cattle.io"] ▷ resources ["projectroletemplatebindings"]
        ▷ verbs ["*"]
    ▷ addRule ▷ apiGroups ["project.cattle.io"] ▷ resources ["apps"] ▷ verbs ["*"]
    ▷ addRule ▷ apiGroups [""] ▷ resources ["namespaces"] ▷ verbs ["create"]
    ▷ addRule ▷ apiGroups ["*"] ▷ resources ["persistentvolumes"] ▷ verbs ["get"; "list"; "watch"]
    ▷ addRule ▷ apiGroups ["*"] ▷ resources ["storageclasses"] ▷ verbs ["get"; "list"; "watch"]
    ▷ addRule ▷ apiGroups ["*"] ▷ resources ["persistentvolumeclaims"] ▷ verbs ["*"]
    ▷ addRule ▷ apiGroups ["management.cattle.io"] ▷ resources ["clusterevents"] ▷ verbs ["get";
        "list"; "watch"]
    ▷ addRule ▷ apiGroups ["management.cattle.io"] ▷ resources ["clusterpipelines"]
        ▷ verbs ["get"; "list"; "watch"]
    ▷ addRule ▷ apiGroups ["management.cattle.io"] ▷ resources ["pipelines"] ▷ verbs ["*"]
    ▷ addRule ▷ apiGroups ["management.cattle.io"] ▷ resources ["pipelineexecutions"] ▷ verbs ["*"]
    ▷ addRule ▷ apiGroups ["management.cattle.io"] ▷ resources ["pipelineexecutionlogs"]
        ▷ verbs ["*"]
    ▷ addRule ▷ apiGroups ["management.cattle.io"] ▷ resources ["notifiers"] ▷ verbs ["get";
        "list"; "watch"]
    ▷ addRule ▷ apiGroups ["management.cattle.io"] ▷ resources ["projectalerts"] ▷ verbs ["*"]
    ▷ addRule ▷ apiGroups ["management.cattle.io"] ▷ resources ["projectloggings"] ▷ verbs ["*"]
    ▷ setRoleTemplateNames ["admin"]
  ▷ addRoleTemplate "Project Member" "project-member" "project" true false false
    ▷ addRule ▷ apiGroups ["management.cattle.io"] ▷ resources ["projectroletemplatebindings"]
        ▷ verbs ["get"; "list"; "watch"]
    ▷ addRule ▷ apiGroups ["project.cattle.io"] ▷ resources ["apps"] ▷ verbs ["*"]
    ▷ addRule ▷ apiGroups [""] ▷ resources ["namespaces"] ▷ verbs ["create"]
    ▷ addRule ▷ apiGroups ["*"] ▷ resources ["persistentvolumes"] ▷ verbs ["get"; "list"; "watch"]
    ▷ addRule ▷ apiGroups ["*"] ▷ resources ["storageclasses"] ▷ verbs ["get"; "list"; "watch"]
    ▷ addRule ▷ apiGroups ["*"] ▷ resources ["persistentvolumeclaims"] ▷ verbs ["*"]
    ▷ addRule ▷ apiGroups ["management.cattle.io"] ▷ resources ["clusterevents"] ▷ verbs ["get";
        "list"; "watch"]
    ▷ addRule ▷ apiGroups ["management.cattle.io"] ▷ resources ["clusterpipelines"]
        ▷ verbs ["get"; "list"; "watch"]
    ▷ addRule ▷ apiGroups ["management.cattle.io"] ▷ resources ["pipelines"] ▷ verbs ["*"]
    ▷ addRule ▷ apiGroups ["management.cattle.io"] ▷ resources ["pipelineexecutions"] ▷ verbs ["*"]
    ▷ addRule ▷ apiGroups ["management.cattle.io"] ▷ resources ["pipelineexecutionlogs"]
        ▷ verbs ["*"]
    ▷ addRule ▷ apiGroups ["management.cattle.io"] ▷ resources ["notifiers"] ▷ verbs ["get";
        "list"; "watch"]
    ▷ addRule ▷ apiGroups ["management.cattle.io"] ▷ resources ["projectalerts"] ▷ verbs ["*"]
    ▷ addRule ▷ apiGroups ["management.cattle.io"] ▷ resources ["projectloggings"]
        ▷ verbs ["get"; "list"; "watch"]
    ▷ setRoleTemplateNames ["edit"]
  ▷ addRoleTemplate "Read-only" "read-only" "project" true false false
    ▷ addRule ▷ apiGroups ["management.cattle.io"] ▷ resources ["projectroletemplatebindings"]
        ▷ verbs ["get"; "list"; "watch"]
    ▷ addRule ▷ apiGroups ["project.cattle.io"] ▷ resources ["apps"] ▷ verbs ["get"; "list";
        "watch"]
    ▷ addRule ▷ apiGroups ["*"] ▷ resources ["persistentvolumes"] ▷ verbs ["get"; "list"; "watch"]
    ▷ addRule ▷ apiGroups ["*"] ▷ resources ["storageclasses"] ▷ verbs ["get"; "list"; "watch"]
    ▷ addRule ▷ apiGroups ["*"] ▷ resources ["persistentvolumeclaims"] ▷ verbs ["get"; "list";
        "watch"]
    ▷ addRule ▷ apiGroups ["management.cattle.io"] ▷ resources ["clusterevents"] ▷ verbs ["get";
        "list"; "watch"]
    ▷ addRule ▷ apiGroups ["management.cattle.io"] ▷ resources ["clusterpipelines"]
        ▷ verbs ["get"; "list"; "watch"]
    ▷ addRule ▷ apiGroups ["management.cattle.io"] ▷ resources ["pipelines"] ▷ verbs ["get";
        "list"; "watch"]
    ▷ addRule ▷ apiGroups ["management.cattle.io"] ▷ resources ["pipelineexecutions"]
        ▷ verbs ["get"; "list"; "watch"]
    ▷ addRule ▷ apiGroups ["management.cattle.io"] ▷ resources ["pipelineexecutionlogs"]
        ▷ verbs ["get"; "list"; "watch"]
    ▷ addRule ▷ apiGroups ["management.cattle.io"] ▷ resources ["notifiers"] ▷ verbs ["get";
        "list"; "watch"]
    ▷ addRule ▷ apiGroups ["management.cattle.io"] ▷ resources ["projectalerts"] ▷ verbs ["get";
        "list"; "watch"]
    ▷ addRule ▷ apiGroups ["management.cattle.io"] ▷ resources ["projectloggings"]
        ▷ verbs ["get"; "list"; "watch"]
    ▷ setRoleTemplateNames ["view"]
  ▷ addRoleTemplate "Create Namespaces" "create-ns" "project" true false false
    ▷ addRule ▷ apiGroups [""] ▷ resources ["namespaces"] ▷ verbs ["create"]
  ▷ addRoleTemplate "Manage Workloads" "workloads-manage" "project" true false false
    ▷ addRule ▷ apiGroups ["*"] ▷ resources ["pods"; "pods/attach"; "pods/exec";
        "pods/portforward"; "pods/proxy"; "replicationcontrollers";
        "replicationcontrollers/scale"; "daemonsets"; "deployments"; "deployments/rollback";
        "deployments/scale"; "replicasets"; "replicasets/scale"; "statefulsets"; "cronjobs";
        "jobs"; "daemonsets"; "deployments"; "deployments/rollback"; "deployments/scale";
        "replicasets"; "replicasets/scale"; "replicationcontrollers/scale";
        "horizontalpodautoscalers"] ▷ verbs ["*"]
    ▷ addRule ▷ apiGroups ["*"] ▷ resources ["limitranges"; "pods/log"; "pods/status";
        "replicationcontrollers/status"; "resourcequotas"; "resourcequotas/status";
        "bindings"] ▷ verbs ["get"; "list"; "watch"]
    ▷ addRule ▷ apiGroups ["project.cattle.io"] ▷ resources ["apps"] ▷ verbs ["*"]
  ▷ addRoleTemplate "View Workloads" "workloads-view" "project" true false false
    ▷ addRule ▷ apiGroups ["*"] ▷ resources ["pods"; "pods/attach"; "pods/exec";
        "pods/portforward"; "pods/proxy"; "replicationcontrollers";
        "replicationcontrollers/scale"; "daemonsets"; "deployments"; "deployments/rollback";
        "deployments/scale"; "replicasets"; "replicasets/scale"; "statefulsets"; "cronjobs";
        "jobs"; "daemonsets"; "deployments"; "deployments/rollback"; "deployments/scale";
        "replicasets"; "replicasets/scale"; "replicationcontrollers/scale";
        "horizontalpodautoscalers"] ▷ verbs ["get"; "list"; "watch"]
    ▷ addRule ▷ apiGroups ["*"] ▷ resources ["limitranges"; "pods/log"; "pods/status";
        "replicationcontrollers/status"; "resourcequotas"; "resourcequotas/status";
        "bindings"] ▷ verbs ["get"; "list"; "watch"]
    ▷ addRule ▷ apiGroups ["project.cattle.io"] ▷ resources ["apps"] ▷ verbs ["get"; "list";
        "watch"]
  ▷ addRoleTemplate "Manage Ingress" "ingress-manage" "project" true false false
    ▷ addRule ▷ apiGroups ["*"] ▷ resources ["ingresses"] ▷ verbs ["*"]
  ▷ addRoleTemplate "View Ingress" "ingress-view" "project" true false false
    ▷ addRule ▷ apiGroups ["*"] ▷ resources ["ingresses"] ▷ verbs ["get"; "list"; "watch"]
  ▷ addRoleTemplate "Manage Services" "services-manage" "project" true false false
    ▷ addRule ▷ apiGroups ["*"] ▷ resources ["services"; "endpoints"] ▷ verbs ["*"]
  ▷ addRoleTemplate "View Services" "services-view" "project" true false false
    ▷ addRule ▷ apiGroups ["*"] ▷ resources ["services"; "endpoints"] ▷ verbs ["get"; "list";
        "watch"]
  ▷ addRoleTemplate "Manage Secrets" "secrets-manage" "project" true false false
    ▷ addRule ▷ apiGroups ["*"] ▷ resources ["secrets"] ▷ verbs ["*"]
  ▷ addRoleTemplate "View Secrets" "secrets-view" "project" true false false
    ▷ addRule ▷ apiGroups ["*"] ▷ resources ["secrets"] ▷ verbs ["get"; "list"; "watch"]
  ▷ addRoleTemplate "Manage Config Maps" "configmaps-manage" "project" true false false
    ▷ addRule ▷ apiGroups ["*"] ▷ resources ["configmaps"] ▷ verbs ["*"]
  ▷ addRoleTemplate "View Config Maps" "configmaps-view" "project" true false false
    ▷ addRule ▷ apiGroups ["*"] ▷ resources ["configmaps"] ▷ verbs ["get"; "list"; "watch"]
  ▷ addRoleTemplate "Manage Volumes" "persistentvolumeclaims-manage" "project" true false false
    ▷ addRule ▷ apiGroups ["*"] ▷ resources ["persistentvolumes"] ▷ verbs ["get"; "list"; "watch"]
    ▷ addRule ▷ apiGroups ["*"] ▷ resources ["storageclasses"] ▷ verbs ["get"; "list"; "watch"]
    ▷ addRule ▷ apiGroups ["*"] ▷ resources ["persistentvolumeclaims"] ▷ verbs ["*"]
  ▷ addRoleTemplate "View Volumes" "persistentvolumeclaims-view" "project" true false false
    ▷ addRule ▷ apiGroups ["*"] ▷ resources ["persistentvolumes"] ▷ verbs ["get"; "list"; "watch"]
    ▷ addRule ▷ apiGroups ["*"] ▷ resources ["storageclasses"] ▷ verbs ["get"; "list"; "watch"]
    ▷ addRule ▷ apiGroups ["*"] ▷ resources ["persistentvolumeclaims"] ▷ verbs ["get"; "list";
        "watch"]
  ▷ addRoleTemplate "Manage Service Accounts" "serviceaccounts-manage" "project" true false false
    ▷ addRule ▷ apiGroups ["*"] ▷ resources ["serviceaccounts"] ▷ verbs ["*"]
  ▷ addRoleTemplate "View Service Accounts" "serviceaccounts-view" "project" true false false
    ▷ addRule ▷ apiGroups ["*"] ▷ resources ["serviceaccounts"] ▷ verbs ["get"; "list"; "watch"]
  ▷ addRoleTemplate "Manage Project Members" "projectroletemplatebindings-manage" "project" true
        false false
    ▷ addRule ▷ apiGroups ["management.cattle.io"] ▷ resources ["projectroletemplatebindings"]
        ▷ verbs ["*"]
  ▷ addRoleTemplate "View Project Members" "projectroletemplatebindings-view" "project" true
        false false
    ▷ addRule ▷ apiGroups ["management.cattle.io"] ▷ resources ["projectroletemplatebindings"]
        ▷ verbs ["get"; "list"; "watch"].

(** ** Reconciliation *)

Definition defaultGRLabel : gmap string string :=
  {[ "authz.management.cattle.io/bootstrapping" := "default-globalrole" ]}.
Definition defaultRTLabel : gmap string string :=
  {[ "authz.management.cattle.io/bootstrapping" := "default-roletemplate" ]}.
Definition defaultAdminLabel : gmap string string :=
  {[ "authz.management.cattle.io/bootstrapping" := "admin-user" ]}.

(** The maps [builtRoles] and [existing], filled by a loop. *)
Definition roles_by_name {O} `{!Stored O} (l : list O) : gmap string O :=
  foldl (λ m o, <[Name (meta o) := o]> m) ∅ l.

Definition build_gr (current : roleBuilder) : GlobalRole :=
  {| gr_meta := named_meta (name current) defaultGRLabel ∅ []; gr_type := no_type;
     gr_DisplayName := displayName current; gr_Description := ""; gr_Rules := rules current;
     gr_Builtin := false |}.

Definition compareAndMod_gr (haveGR wantGR : GlobalRole) : bool * GlobalRole :=
  (String.eqb (gr_DisplayName haveGR) (gr_DisplayName wantGR) &&
   bool_decide (gr_Rules haveGR = gr_Rules wantGR),
   {| gr_meta := gr_meta haveGR; gr_type := gr_type haveGR; gr_DisplayName := gr_DisplayName wantGR;
      gr_Description := gr_Description haveGR; gr_Rules := gr_Rules wantGR;
      gr_Builtin := gr_Builtin haveGR |}).

Definition build_rt (current : roleBuilder) : RoleTemplate :=
  {| rt_meta := named_meta (name current) defaultRTLabel ∅ []; rt_DisplayName := displayName current;
     rt_Description := ""; rt_Rules := rules current; rt_Builtin := builtin current;
     rt_External := external current; rt_Hidden := hidden current; rt_Locked := false;
     rt_Context := context current; rt_RoleTemplateNames := roleTemplateNames current |}.

(** The flags [Builtin] are compared with [!=]. *)
Definition compareAndMod_rt (haveRT wantRT : RoleTemplate) : bool * RoleTemplate :=
  (String.eqb (rt_DisplayName haveRT) (rt_DisplayName wantRT) &&
   bool_decide (rt_Rules haveRT = rt_Rules wantRT) &&
   bool_decide (rt_RoleTemplateNames haveRT = rt_RoleTemplateNames wantRT) &&
   negb (Bool.eqb (rt_Builtin haveRT) (rt_Builtin wantRT)) &&
   Bool.eqb (rt_External haveRT) (rt_External wantRT) &&
   Bool.eqb (rt_Hidden haveRT) (rt_Hidden wantRT) &&
   String.eqb (rt_Context haveRT) (rt_Context wantRT),
   {| rt_meta := rt_meta haveRT; rt_DisplayName := rt_DisplayName wantRT;
      rt_Description := rt_Description haveRT; rt_Rules := rt_Rules wantRT;
      rt_Builtin := rt_Builtin wantRT; rt_External := rt_External wantRT;
      rt_Hidden := rt_Hidden wantRT; rt_Locked := rt_Locked haveRT;
      rt_Context := rt_Context wantRT; rt_RoleTemplateNames := rt_RoleTemplateNames wantRT |}).

Section reconcile.
Context {W : Type} `{!GoRuntime W}.

Definition reconcile {O} `{!Stored O, !Client W O} (builtRoles : gmap string O)
    (gatherExisting : M W (gmap string O)) (compareAndModify : O → O → bool * O) : M W unit :=
  let* existing := gatherExisting in
  let* names := range existing in
  do* for_each (λ kv : string * O,
        match builtRoles !! kv.1 with
        | Some _ => ret tt
        | None => wrap_err ("couldn't delete " +:+ kv.1) (api_delete (O:=O) "" kv.1)
        end) names in
  let existing := filter (λ kv, is_Some (builtRoles !! kv.1)) existing in
  let* roles := range builtRoles in
  for_each (λ kv : string * O,
    match existing !! kv.1 with
    | Some existingCR =>
      let '(equal, modified) := compareAndModify existingCR kv.2 in
      if equal then ret tt
      else do* wrap_err ("couldn't update " +:+ kv.1) (api_update "" modified) in ret tt
    | None => do* wrap_err ("couldn't create " +:+ kv.1) (api_create "" kv.2) in ret tt
    end) roles.

(** The objects with the label, by name. *)
Definition gather {O} `{!Stored O, !Client W O} (msg : string) (label : gmap string string) :
    M W (gmap string O) :=
  let* l := wrap_err msg (reads (api_list (O:=O) "" label)) in ret (roles_by_name l).

Definition reconcileGlobalRoles `{!Client W GlobalRole} (rb : builder) : M W unit :=
  reconcile (roles_by_name (map build_gr (chain rb)))
    (gather "couldn't list globalRoles with selector authz.management.cattle.io/bootstrapping=default-globalrole"
            defaultGRLabel)
    compareAndMod_gr.

Definition reconcileRoleTemplates `{!Client W RoleTemplate} (rb : builder) : M W unit :=
  reconcile (roles_by_name (map build_rt (chain rb)))
    (gather "couldn't list roleTemplate with selector authz.management.cattle.io/bootstrapping=default-roletemplate"
            defaultRTLabel)
    compareAndMod_rt.

(** ** Start-up *)

Definition no_user : User :=
  {| user_meta := no_meta; user_DisplayName := ""; user_Description := ""; user_Username := "";
     user_Password := ""; user_MustChangePassword := false; user_PrincipalIDs := []; user_Me := false |}.

(** [hash] is the bcrypt hash of the first password.  A failed [Create] returns an
    object without a name beside the error. *)
Definition addRoles `{!Client W GlobalRole, !Client W RoleTemplate, !Client W User,
                      !Client W GlobalRoleBinding} (hash : string) : M W string :=
  do* wrap_err "problem reconciling globl roles" (reconcileGlobalRoles globalRoles) in
  do* wrap_err "problem reconciling role templates" (reconcileRoleTemplates roleTemplates) in
  let* admins := reads (api_list (O:=User) "" defaultAdminLabel) in
  let* admin :=
    match admins with
    | [] =>
      let* r := attempt (api_create ""
        {| user_meta := generate_meta "user-" defaultAdminLabel ∅; user_DisplayName := "Default Admin";
           user_Description := ""; user_Username := "admin"; user_Password := hash;
           user_MustChangePassword := true; user_PrincipalIDs := []; user_Me := false |}) in
      match r with
      | inr u => ret u
      | inl e => if IsAlreadyExists e then ret no_user
                 else throw (Wrapped "can not ensure admin user exists" e)
      end
    | admin :: _ => ret admin
    end in
  let* bindings := reads (api_list (O:=GlobalRoleBinding) "" defaultAdminLabel) in
  do* match bindings with
      | [] =>
        do* attempt (api_create ""
          {| grb_meta := generate_meta "globalrolebinding-" defaultAdminLabel ∅; grb_type := no_type;
             grb_UserName := Name (user_meta admin); grb_GlobalRoleName := "admin" |}) in ret tt
      | _ :: _ => ret tt
      end in
  ret (Name (user_meta admin)).

End reconcile.

End RoleBuilder.
