(* ===== verification/RoleSetup.v ===== *)
(** * Built-in roles: theorems

    What a start of the server leaves of the built-in roles in the cluster, and
    what the built-in role templates look like: that gathering them always ends,
    and that those for viewing only read. *)

From stdpp Require Import base gmap list strings.
From Stdlib Require Import ZArith Lia.
From S2P Require Import Prelude.
From S2P Require Import GoLib.
From S2P Require Import KubeTypes.
From S2P Require Import KubeObjects.
From S2P Require Import Kube.
From S2P Require Import KubeRules.
From S2P Require Import KubeSim.
From S2P Require Import MgmtManager.
From S2P Require Import MgmtRoles.
From S2P Require Import MgmtBindings.
From S2P Require Import MgmtHandlers.
From S2P Require Import RoleBuilder.
Import RoleBuilder.

Module RoleSetup.

(** ** Maps by name *)

Section names.
Context {O : Type} `{!Stored O, !StoredLaws O}.
Implicit Types (o : O).

Lemma by_name_from (l : list O) (m : gmap string O) n o :
  foldl (λ m o, <[Name (meta o) := o]> m) m l !! n = Some o →
  (o ∈ l ∧ Name (meta o) = n) ∨ m !! n = Some o.
Proof.
  revert m. induction l as [|o' l IH]; intros m; simpl; [by right|].
  intros [[? ?]|Hm]%IH; [left; split; [by right|done]|].
  apply lookup_insert_Some in Hm as [[? ->]|[_ ?]]; [left; split; [by left|done]|by right].
Qed.

Lemma by_name_Some (l : list O) n o : roles_by_name l !! n = Some o → o ∈ l ∧ Name (meta o) = n.
Proof. intros [?|H]%by_name_from; [done|]. by rewrite lookup_empty in H. Qed.

Lemma by_name_elem (l : list O) o : o ∈ l → is_Some (roles_by_name l !! Name (meta o)).
Proof.
  unfold roles_by_name. generalize (∅ : gmap string O) as m. induction l as [|o' l IH]; intros m Ho.
  - by apply elem_of_nil in Ho.
  - simpl. apply elem_of_cons in Ho as [<-|Ho]; [|by apply IH].
    assert (∀ m' : gmap string O, is_Some (m' !! Name (meta o)) →
      is_Some (foldl (λ m o, <[Name (meta o) := o]> m) m' l !! Name (meta o))) as Hkeep.
    { clear. induction l as [|o2 l IH]; intros m' Hm; simpl; [done|]. apply IH.
      destruct (decide (Name (meta o2) = Name (meta o))) as [->|];
        [rewrite lookup_insert_eq|rewrite lookup_insert_ne by done]; eauto. }
    apply Hkeep. rewrite lookup_insert_eq. eauto.
Qed.

End names.

(** ** Reconciliation *)

Section reconcile.
Context {W : Type} `{!GoRuntime W, !GoRuntimeLaws W, !Kube W}.
Context {O : Type} `{!Stored O, !StoredLaws O, !Client W O, !ClientLaws W O}.
Implicit Types (w : W) (o : O).
Context (built : gmap string O) (label : gmap string string) (cmp : O → O → bool * O).
Hypothesis (Hbuilt : ∀ n o, built !! n = Some o → Name (meta o) = n ∧ n ≠ "" ∧ Namespace (meta o) = "").
Hypothesis (Hcmp : ∀ have want, meta (cmp have want).2 = meta have).

(** All objects of the kind belong to no namespace. *)
Definition unscoped (s : KState) : Prop := ∀ k, is_Some (tbl (O:=O) s !! k) → k.1 = "".

Definition labelled (s : KState) (n : string) : Prop :=
  ∃ o, tbl (O:=O) s !! ("", n) = Some o ∧ selects label (Labels (meta o)).

(** What becomes of a role that is to exist. *)
Definition renewed (old : option O) (want new : O) : Prop :=
  match old with
  | Some e => selects label (Labels (meta e)) ∧
              (if (cmp e want).1 then new = e else stored_as "" (cmp e want).2 new)
  | None => stored_as "" want new
  end.

(** The cluster afterwards: of the objects with the label exactly those that are to
    exist, renewed; everything else as before. *)
Record set_up (s s' : KState) : Prop := {
  set_up_only : only_tbl (O:=O) s s';
  set_up_built n o : built !! n = Some o →
    ∃ o', tbl s' !! ("", n) = Some o' ∧ renewed (tbl s !! ("", n)) o o';
  set_up_gone n : built !! n = None → labelled s n → tbl (O:=O) s' !! ("", n) = None;
  set_up_rest k : (k.1 = "" → built !! k.2 = None ∧ ¬ labelled s k.2) → tbl (O:=O) s' !! k = tbl s !! k }.

(** The names the reconciliation may touch. *)
Definition concerned (s s' : KState) : Prop :=
  only_tbl (O:=O) s s' ∧
  ∀ k, (k.1 = "" → built !! k.2 = None ∧ ¬ labelled s k.2) → tbl (O:=O) s' !! k = tbl s !! k.

Lemma lookup_existing w l n o :
  unscoped (view w) → api_list "" label w = Ok l →
  roles_by_name l !! n = Some o ↔ tbl (view w) !! ("", n) = Some o ∧ selects label (Labels (meta o)).
Proof.
  intros Hsc Hl.
  assert (∀ o, o ∈ l ↔ tbl (view w) !! obj_key o = Some o ∧ selects label (Labels (meta o))) as Hin.
  { intros o'. rewrite (elem_of_list "" label w l o' Hl). naive_solver. }
  assert (∀ o', o' ∈ l → obj_key o' = ("", Name (meta o'))) as Hkey.
  { intros o' [Ho' _]%Hin. pose proof (Hsc (obj_key o') (ex_intro _ _ Ho')) as Hns.
    unfold obj_key in *. simpl in Hns. by rewrite Hns. }
  split.
  - intros [Ho <-]%by_name_Some. rewrite <-Hkey by done. by apply Hin.
  - intros [Ho Hlab]. assert (obj_key o = ("", n)) as Hk by (symmetry; exact (view_keyed w _ _ Ho)).
    assert (o ∈ l) as Hol by (apply Hin; by rewrite Hk).
    destruct (by_name_elem l o Hol) as [o' Ho']. unfold obj_key in Hk. injection Hk as _ Hn.
    rewrite Hn in Ho'. rewrite Ho'. f_equal. apply by_name_Some in Ho' as [Hol' Hn'].
    pose proof (proj1 (Hin o') Hol') as [Hv' _]. rewrite Hkey, Hn' in Hv' by done. congruence.
Qed.

(** The first loop deletes what is not to exist. *)
Definition pruned (don : list string) (s s' : KState) : Prop :=
  only_tbl (O:=O) s s' ∧
  ∀ k, tbl (O:=O) s' !! k = if decide (k.1 = "" ∧ k.2 ∈ don ∧ built !! k.2 = None) then None else tbl s !! k.

Lemma pruned_concerned don s s' : (∀ n, n ∈ don → labelled s n) → pruned don s s' → concerned s s'.
Proof.
  intros Hdon [Hot Hk]. split; [done|]. intros k Hno. rewrite Hk, decide_False; [done|].
  intros (Hns & Hin & _). destruct (Hno Hns) as [_ Hl]. by apply Hl, Hdon.
Qed.

Lemma wp_prune (names : list (string * O)) w :
  (∀ n, n ∈ names.*1 → labelled (view w) n) →
  wp (for_each (λ kv : string * O,
        match built !! kv.1 with
        | Some _ => ret tt
        | None => wrap_err ("couldn't delete " +:+ kv.1) (api_delete (O:=O) "" kv.1)
        end) names)
    (if_ok (λ _ w', pruned names.*1 (view w) (view w')) (λ _ w', concerned (view w) (view w'))) w.
Proof.
  intros Hlab. apply (wp_for_each (λ don w', pruned don.*1 (view w) (view w'))).
  { split; [apply only_tbl_refl|]. intros k. rewrite decide_False; [done|]. by intros (_ & ?%elem_of_nil & _). }
  intros don [n o] rest w1 Hsplit Hp. simpl. rewrite fmap_app. simpl.
  assert (concerned (view w) (view w1)) as Hc.
  { eapply pruned_concerned; [|exact Hp]. intros n' Hn'. apply Hlab. rewrite Hsplit, fmap_app.
    apply elem_of_app. by left. }
  destruct Hp as [Hot Hk]. destruct (built !! n) as [b|] eqn:Hb.
  - apply wp_ret. split; [done|]. intros k. rewrite Hk. apply decide_ext.
    rewrite elem_of_app, list_elem_of_singleton. naive_solver.
  - apply wp_wrap_err, wp_delete; [|by intros e w2 _ Hv _ _ _; simpl; rewrite Hv].
    intros w2 _ Hv _. simpl. rewrite Hv. split; [by apply only_tbl_del|]. intros k. rewrite tbl_del.
    destruct (decide (k = ("", n))) as [->|Hne].
    + rewrite lookup_delete_eq, decide_True; [done|]. split_and!; [done| |done].
      apply elem_of_app. right. by left.
    + rewrite lookup_delete_ne by done. rewrite Hk. apply decide_ext.
      rewrite elem_of_app, list_elem_of_singleton. destruct k as [kn kk]. simpl. naive_solver.
Qed.

(** The second loop renews or creates what is to exist. *)
Definition renewing (w0 w1 : W) (don : list (string * O)) (w2 : W) : Prop :=
  changed_at (O:=O) (pair "" <$> don.*1) (view w1) (view w2) ∧
  ∀ n o, (n, o) ∈ don → ∃ o', tbl (view w2) !! ("", n) = Some o' ∧ renewed (tbl (view w0) !! ("", n)) o o'.

Lemma renewing_put w0 w1 don n o o' w2 w3 :
  n ∉ don.*1 → renewing w0 w1 don w2 → obj_key o' = ("", n) → renewed (tbl (view w0) !! ("", n)) o o' →
  view w3 = put_obj o' (view w2) → renewing w0 w1 (don ++ [(n, o)]) w3.
Proof.
  intros Hn [Hch Hdon] Hk Hr Hv. split.
  - rewrite fmap_app, Hv. eapply changed_at_trans.
    + eapply changed_at_mono; [|exact Hch]. apply keys_mono. intros x ?. apply elem_of_app. by left.
    + apply changed_at_put. rewrite Hk. apply elem_of_keys, elem_of_app. right. by left.
  - intros n' o1 [Hin|Hin]%elem_of_app.
    + destruct (Hdon n' o1 Hin) as (o2 & Ho2 & Hr2). exists o2. split; [|done]. rewrite Hv, tbl_put, Hk.
      rewrite lookup_insert_ne; [done|]. intros [= ->]. apply Hn. apply list_elem_of_fmap. by exists (n', o1).
    + apply list_elem_of_singleton in Hin as [= -> ->]. exists o'. split; [|done].
      by rewrite Hv, tbl_put, Hk, lookup_insert_eq.
Qed.

Lemma renewing_concerned w0 w1 don w2 :
  (∀ n, n ∈ don.*1 → is_Some (built !! n)) → concerned (view w0) (view w1) → renewing w0 w1 don w2 →
  concerned (view w0) (view w2).
Proof.
  intros Hdon [Hot Hk] [[Hot2 Hk2] _]. split; [by eapply only_tbl_trans|].
  intros k Hno. rewrite Hk2, Hk; [done..|]. destruct k as [kn kk]. rewrite elem_of_keys_ns.
  intros [-> Hin]. destruct (Hno eq_refl) as [Hb _], (Hdon _ Hin) as [b Hb']. simpl in Hb. congruence.
Qed.

Lemma write_key_same e m n : obj_key e = ("", n) → meta m = meta e → write_key (O:=O) "" m = ("", n).
Proof.
  unfold obj_key, write_key, client_ns. intros [= Hns Hn] ->. rewrite Hns, Hn. by case_decide.
Qed.

Lemma wp_renew (existing : gmap string O) (roles : list (string * O)) w0 w1 :
  roles ≡ₚ map_to_list built → concerned (view w0) (view w1) →
  (∀ n, is_Some (built !! n) → tbl (O:=O) (view w1) !! ("", n) = tbl (view w0) !! ("", n)) →
  (∀ n e, is_Some (built !! n) → existing !! n = Some e ↔
     tbl (view w0) !! ("", n) = Some e ∧ selects label (Labels (meta e))) →
  wp (for_each (λ kv : string * O,
        match existing !! kv.1 with
        | Some existingCR =>
          let '(equal, modified) := cmp existingCR kv.2 in
          if equal then ret tt
          else do* wrap_err ("couldn't update " +:+ kv.1) (api_update "" modified) in ret tt
        | None => do* wrap_err ("couldn't create " +:+ kv.1) (api_create "" kv.2) in ret tt
        end) roles)
    (if_ok (λ _ w', renewing w0 w1 roles w') (λ _ w', concerned (view w0) (view w'))) w1.
Proof.
  intros Hroles Hc Hkeep Hex. pose proof (range_NoDup _ _ Hroles) as Hnd.
  apply (wp_for_each (renewing w0 w1)).
  { split; [apply changed_at_refl|]. by intros ?? ?%elem_of_nil. }
  intros don [n o] rest w2 Hsplit Hren. simpl.
  assert (built !! n = Some o) as Hb.
  { apply (range_elem _ _ _ _ Hroles). rewrite Hsplit. apply elem_of_app. right. by left. }
  assert (n ∉ don.*1) as Hn.
  { rewrite Hsplit, fmap_app in Hnd. apply NoDup_app in Hnd as (_ & Hdis & _). intros Hin.
    apply (Hdis n Hin). by left. }
  assert (concerned (view w0) (view w2)) as Hc2.
  { eapply renewing_concerned; [|exact Hc|exact Hren]. intros n' Hn'.
    apply (range_dom _ _ _ Hroles). rewrite Hsplit, fmap_app. apply elem_of_app. by left. }
  assert (tbl (O:=O) (view w2) !! ("", n) = tbl (view w0) !! ("", n)) as Hold.
  { destruct Hren as [[_ Hk] _]. rewrite Hk; [by apply Hkeep|]. by rewrite elem_of_keys. }
  destruct (existing !! n) as [e|] eqn:He.
  - apply (Hex n e) in He as [He Hlab]; [|done]. pose proof (Hcmp e o) as Hm.
    destruct (cmp e o) as [equal modified] eqn:Hce. simpl in Hm.
    assert (obj_key e = ("", n)) as Hke by (symmetry; exact (view_keyed w0 _ _ He)).
    destruct equal.
    + apply wp_ret. destruct Hren as [Hch Hdon]. split.
      * rewrite fmap_app. eapply changed_at_mono; [|exact Hch]. apply keys_mono. intros x ?.
        apply elem_of_app. by left.
      * intros n' o1 [Hin|Hin]%elem_of_app; [by apply Hdon|].
        apply list_elem_of_singleton in Hin as [= -> ->]. exists e. rewrite Hold, He. split; [done|].
        split; [done|]. by rewrite Hce.
    + apply wp_bind, wp_wrap_err, wp_update; [|by intros e' w3 Hv _ _; simpl; rewrite Hv].
      intros o' w3 Hst Hkey _ Hv _. simpl. apply wp_ret.
      eapply renewing_put; [exact Hn|exact Hren| | |exact Hv].
      * rewrite Hkey. by eapply write_key_same.
      * rewrite He. split; [done|]. by rewrite Hce.
  - apply wp_bind, wp_wrap_err, wp_create; [|by intros e' w3 Hv _ _; simpl; rewrite Hv].
    intros o' w3 Hst Hfree Hv _. simpl. apply wp_ret. destruct (Hbuilt n o Hb) as (Hname & Hne & Hns).
    assert (obj_key o' = ("", n)) as Hk.
    { rewrite (stored_as_key "" o o' Hst) by congruence. unfold write_key, client_ns.
      rewrite Hns, Hname. by case_decide. }
    eapply renewing_put; [exact Hn|exact Hren|exact Hk| |exact Hv].
    rewrite <-Hold, <-Hk, Hfree. exact Hst.
Qed.

(** The contract of [reconcile], for every kind of role. *)
Lemma wp_reconcile msg w :
  unscoped (view w) →
  wp (reconcile built (gather msg label) cmp)
    (if_ok (λ _ w', set_up (view w) (view w')) (λ _ w', concerned (view w) (view w'))) w.
Proof.
  intros Hsc. assert (concerned (view w) (view w)) as Hrefl by (split; [apply only_tbl_refl|done]).
  unfold reconcile, gather. apply wp_bind, wp_bind, wp_wrap_err, wp_reads.
  pose proof (list_law (O:=O) "" label w) as Hlaw.
  destruct (api_list "" label w) as [l|e| |] eqn:Hl; try done.
  pose proof (λ n o, lookup_existing w l n o Hsc Hl) as Hex.
  unfold bind_post. apply wp_ret. apply wp_bind, wp_range. intros names Hnames. unfold bind_post.
  assert (∀ n, n ∈ names.*1 ↔ labelled (view w) n) as Hdom.
  { intros n. rewrite (range_dom _ _ _ Hnames). unfold labelled, is_Some. by setoid_rewrite Hex. }
  eapply wp_bind_if_ok; [apply wp_prune; intros n; by apply Hdom| |done].
  intros [] w1 Hp. apply wp_bind, wp_range. intros roles Hroles. unfold bind_post.
  eapply wp_mono; [apply (wp_renew _ roles w w1 Hroles)|].
  - eapply pruned_concerned; [|exact Hp]. intros n. by apply Hdom.
  - intros n [b Hb]. destruct Hp as [_ Hk]. rewrite Hk, decide_False; [done|]. simpl. intros (_ & _ & ?). congruence.
  - intros n e Hb. rewrite map_lookup_filter_Some, Hex. simpl. naive_solver.
  - intros [[]|e| |] w2; simpl; try done. intros Hren. pose proof Hp as [Hot Hk]. split.
    + destruct Hren as [[Hot2 _] _]. by eapply only_tbl_trans.
    + intros n o Hb. destruct Hren as [_ Hdon]. apply Hdon. by apply (range_elem _ _ _ _ Hroles).
    + intros n Hb Hlab. destruct Hren as [[_ Hch] _]. rewrite Hch.
      * rewrite Hk, decide_True; [done|]. split_and!; [done|by apply Hdom|done].
      * rewrite elem_of_keys, (range_dom _ _ _ Hroles), Hb. by intros [? ?].
    + intros k Hno. eapply (renewing_concerned w w1 roles w2); [| |exact Hren|exact Hno].
      * intros n. by rewrite (range_dom _ _ _ Hroles).
      * eapply pruned_concerned; [|exact Hp]. intros n. by apply Hdom.
Qed.

End reconcile.

(** Afterwards an object has the label exactly if it is one of those that are to
    exist. *)
Lemma set_up_exact {O} `{!Stored O, !StoredLaws O} built label cmp s s' n :
  (∀ n o, built !! n = Some o → selects label (Labels (meta o))) →
  (∀ have want : O, meta (cmp have want).2 = meta have) →
  set_up built label cmp s s' → labelled (O:=O) label s' n ↔ is_Some (built !! n).
Proof.
  intros Hlab Hcmp Hs. destruct (built !! n) as [o|] eqn:Hb.
  - split; [by eauto|]. intros _. destruct (set_up_built _ _ _ _ _ Hs n o Hb) as (o' & Ho' & Hr).
    exists o'. split; [done|]. unfold renewed in Hr. destruct (tbl s !! ("", n)) as [e|].
    + destruct Hr as [He Hr]. destruct (cmp e o).1; [by subst|]. destruct Hr as (_ & _ & _ & -> & _).
      by rewrite Hcmp.
    + destruct Hr as (_ & _ & _ & -> & _). by eapply Hlab.
  - split; [|by intros [? ?]]. intros (o & Ho & Ho'). exfalso.
    assert (¬ labelled (O:=O) label s n) as Hl.
    { intros Hl. by rewrite (set_up_gone _ _ _ _ _ Hs n Hb Hl) in Ho. }
    rewrite (set_up_rest _ _ _ _ _ Hs ("", n)) in Ho; [|done]. apply Hl. by exists o.
Qed.

(** ** The built-in roles *)

(** Every role has a name of its own, and inherits templates of the list that
    inherit nothing themselves. *)
Definition well_named (l : list roleBuilder) : bool :=
  bool_decide (NoDup (map name l)) && forallb (λ r, negb (String.eqb (name r) "")) l.

Definition shallow (l : list roleBuilder) : bool :=
  forallb (λ r, forallb (λ n, existsb (λ r', String.eqb (name r') n &&
    Nat.eqb (length (roleTemplateNames r')) 0) l) (roleTemplateNames r)) l.

Lemma globalRoles_named : well_named (chain globalRoles) = true.
Proof. vm_compute. reflexivity. Qed.

Lemma roleTemplates_named : well_named (chain roleTemplates) = true.
Proof. vm_compute. reflexivity. Qed.

Lemma roleTemplates_shallow : shallow (chain roleTemplates) = true.
Proof. vm_compute. reflexivity. Qed.

#[local] Opaque globalRoles roleTemplates.

Lemma well_named_spec l : well_named l = true → NoDup (map name l) ∧ ∀ r, r ∈ l → name r ≠ "".
Proof.
  unfold well_named. rewrite andb_true_iff, bool_decide_eq_true, forallb_forall.
  intros [Hnd Hne]. split; [done|]. intros r Hr. apply list_elem_of_In, Hne in Hr.
  by apply negb_true_iff, String.eqb_neq in Hr.
Qed.

(** The map of what is to exist, for a way to build the objects. *)
Lemma lookup_built {O} `{!Stored O} (f : roleBuilder → O) l :
  NoDup (map name l) → (∀ r, Name (meta (f r)) = name r) →
  (∀ r, r ∈ l → roles_by_name (map f l) !! name r = Some (f r)) ∧
  (∀ n o, roles_by_name (map f l) !! n = Some o → ∃ r, r ∈ l ∧ n = name r ∧ o = f r).
Proof.
  intros Hnd Hf.
  assert (∀ n o, roles_by_name (map f l) !! n = Some o → ∃ r, r ∈ l ∧ n = name r ∧ o = f r) as Hsome.
  { intros n o [Ho <-]%by_name_Some. apply list_elem_of_fmap in Ho as (r & -> & Hr). by exists r. }
  split; [|done]. intros r Hr.
  destruct (by_name_elem (map f l) (f r)) as [o Ho]; [by apply list_elem_of_fmap_2|].
  rewrite Hf in Ho. rewrite Ho. f_equal. apply Hsome in Ho as (r' & Hr' & Hn & ->).
  f_equal. apply list_elem_of_lookup in Hr as [i Hi], Hr' as [j Hj].
  assert (i = j) as ->; [|congruence].
  eapply (NoDup_lookup (map name l)); [done|..]; rewrite list_lookup_fmap.
  - by rewrite Hi.
  - rewrite Hj. simpl. by rewrite Hn.
Qed.

(** The cluster has the built-in global roles, as they are described, and no other
    with their label. *)
Definition global_roles_ok (s : KState) : Prop :=
  (∀ r, r ∈ chain globalRoles → ∃ gr, s_GlobalRoles s !! ("", name r) = Some gr ∧
     gr_DisplayName gr = displayName r ∧ gr_Rules gr = rules r) ∧
  ∀ n, labelled (O:=GlobalRole) defaultGRLabel s n ↔ ∃ r, r ∈ chain globalRoles ∧ name r = n.

Definition template_as (r : roleBuilder) (rt : RoleTemplate) : Prop :=
  rt_DisplayName rt = displayName r ∧ rt_Rules rt = rules r ∧
  rt_RoleTemplateNames rt = roleTemplateNames r ∧ rt_External rt = external r ∧
  rt_Hidden rt = hidden r ∧ rt_Context rt = context r.

(** The same of the role templates; a template in which nothing but the flag
    [Builtin] is wrong stays as it was. *)
Definition role_templates_ok (s s' : KState) : Prop :=
  (∀ r, r ∈ chain roleTemplates → ∃ rt, s_RoleTemplates s' !! ("", name r) = Some rt ∧ template_as r rt ∧
     (rt_Builtin rt = builtin r ∨ rt_Builtin rt ≠ builtin r ∧ s_RoleTemplates s !! ("", name r) = Some rt)) ∧
  ∀ n, labelled (O:=RoleTemplate) defaultRTLabel s' n ↔ ∃ r, r ∈ chain roleTemplates ∧ name r = n.

Lemma global_roles_set_up s s' :
  set_up (roles_by_name (map build_gr (chain globalRoles))) defaultGRLabel compareAndMod_gr s s' → global_roles_ok s'.
Proof.
  intros Hs. destruct (well_named_spec _ globalRoles_named) as [Hnd _].
  destruct (lookup_built (O:=GlobalRole) build_gr _ Hnd) as [Hin Hout]; [done|]. split.
  - intros r Hr. destruct (set_up_built _ _ _ _ _ Hs _ _ (Hin r Hr)) as (gr & Hgr & Hren).
    exists gr. split; [exact Hgr|]. unfold renewed in Hren. destruct (tbl s !! ("", name r)) as [e|].
    + destruct Hren as [_ Hren]. destruct (compareAndMod_gr e (build_gr r)).1 eqn:Heq.
      * subst gr. apply andb_true_iff in Heq as [Hd Hrules].
        apply String.eqb_eq in Hd. apply bool_decide_eq_true in Hrules. done.
      * destruct Hren as (_ & _ & _ & _ & _ & _ & Hspec). simpl in Hspec. by rewrite Hspec.
    + destruct Hren as (_ & _ & _ & _ & _ & _ & Hspec). simpl in Hspec. by rewrite Hspec.
  - intros n. rewrite (λ H1 H2, set_up_exact _ _ _ _ _ n H1 H2 Hs); [|by intros n' o' (r & _ & _ & ->)%Hout|done].
    split; [intros [o (r & Hr & -> & _)%Hout]; by exists r|]. intros (r & Hr & <-). rewrite Hin; eauto.
Qed.

Lemma compare_rt_equal e r :
  (compareAndMod_rt e (build_rt r)).1 = true → template_as r e ∧ rt_Builtin e ≠ builtin r.
Proof.
  unfold compareAndMod_rt, template_as. simpl. rewrite !andb_true_iff, !String.eqb_eq, !bool_decide_eq_true,
    !Bool.eqb_true_iff, negb_true_iff, Bool.eqb_false_iff. naive_solver.
Qed.

Lemma role_templates_set_up s s' :
  set_up (roles_by_name (map build_rt (chain roleTemplates))) defaultRTLabel compareAndMod_rt s s' →
  role_templates_ok s s'.
Proof.
  intros Hs. destruct (well_named_spec _ roleTemplates_named) as [Hnd _].
  destruct (lookup_built (O:=RoleTemplate) build_rt _ Hnd) as [Hin Hout]; [done|]. split.
  - intros r Hr. destruct (set_up_built _ _ _ _ _ Hs _ _ (Hin r Hr)) as (rt & Hrt & Hren).
    exists rt. split; [exact Hrt|]. unfold renewed in Hren.
    change (tbl s !! ("", name r)) with (s_RoleTemplates s !! ("", name r)) in Hren.
    destruct (s_RoleTemplates s !! ("", name r)) as [e|].
    + destruct Hren as [_ Hren]. destruct (compareAndMod_rt e (build_rt r)).1 eqn:Heq.
      * subst rt. apply compare_rt_equal in Heq as [? ?]. split; [done|]. by right.
      * destruct Hren as (_ & _ & _ & _ & _ & _ & Hspec). simpl in Hspec. rewrite Hspec.
        split; [by split_and!|by left].
    + destruct Hren as (_ & _ & _ & _ & _ & _ & Hspec). simpl in Hspec. rewrite Hspec.
      split; [by split_and!|by left].
  - intros n. rewrite (λ H1 H2, set_up_exact _ _ _ _ _ n H1 H2 Hs); [|by intros n' o' (r & _ & _ & ->)%Hout|done].
    split; [intros [o (r & Hr & -> & _)%Hout]; by exists r|]. intros (r & Hr & <-). rewrite Hin; eauto.
Qed.

(** ** Start-up *)

Section start.
Context {W : Type} `{!GoRuntime W, !GoRuntimeLaws W, !Kube W}.
Context `{!Client W GlobalRole, !ClientLaws W GlobalRole, !Client W RoleTemplate, !ClientLaws W RoleTemplate}.
Context `{!Client W User, !ClientLaws W User, !Client W GlobalRoleBinding, !ClientLaws W GlobalRoleBinding}.
Implicit Types (w : W).

Lemma built_named {O} `{!Stored O} (f : roleBuilder → O) l :
  well_named l = true → (∀ r, Name (meta (f r)) = name r ∧ Namespace (meta (f r)) = "") →
  ∀ n o, roles_by_name (map f l) !! n = Some o → Name (meta o) = n ∧ n ≠ "" ∧ Namespace (meta o) = "".
Proof.
  intros [Hnd Hne]%well_named_spec Hf n o Ho.
  destruct (lookup_built f l Hnd (λ r, proj1 (Hf r))) as [_ Hout].
  apply Hout in Ho as (r & Hr & -> & ->). destruct (Hf r). auto.
Qed.

Lemma wp_reconcileGlobalRoles w :
  unscoped (O:=GlobalRole) (view w) →
  wp (reconcileGlobalRoles globalRoles)
    (if_ok (λ _ w', only_tbl (O:=GlobalRole) (view w) (view w') ∧ global_roles_ok (view w'))
       (λ _ _, True)) w.
Proof.
  intros Hsc. pose proof (built_named (O:=GlobalRole) build_gr _ globalRoles_named) as Hb.
  eapply wp_mono; [apply wp_reconcile; [by apply Hb|done|done]|].
  intros [[]|e| |] w'; simpl; try done. intros Hs. split; [apply Hs|]. by eapply global_roles_set_up.
Qed.

Lemma wp_reconcileRoleTemplates w :
  unscoped (O:=RoleTemplate) (view w) →
  wp (reconcileRoleTemplates roleTemplates)
    (if_ok (λ _ w', only_tbl (O:=RoleTemplate) (view w) (view w') ∧ role_templates_ok (view w) (view w'))
       (λ _ _, True)) w.
Proof.
  intros Hsc. pose proof (built_named (O:=RoleTemplate) build_rt _ roleTemplates_named) as Hb.
  eapply wp_mono; [apply wp_reconcile; [by apply Hb|done|done]|].
  intros [[]|e| |] w'; simpl; try done. intros Hs. split; [apply Hs|]. by eapply role_templates_set_up.
Qed.

(** The user the start-up reports is an administrator by its label.  Where there is none yet and the server
    answers that the new one, which it is to find a name for, already exists, the name is empty. *)
Definition admin_ok (s0 s : KState) (n : string) : Prop :=
  (∃ u, s_Users s !! obj_key u = Some u ∧ Name (user_meta u) = n ∧
     selects defaultAdminLabel (Labels (user_meta u))) ∨
  n = "" ∧ ¬ ClientHealthy W User ∧
    ∀ u, s_Users s0 !! obj_key u = Some u → ¬ selects defaultAdminLabel (Labels (user_meta u)).

Lemma wp_admin hash w :
  wp (let* admins := reads (api_list (O:=User) "" defaultAdminLabel) in
      match admins with
      | [] =>
        let* r := attempt (api_create ""
          {| user_meta := generate_meta "user-" defaultAdminLabel ∅; user_DisplayName := "Default Admin";
             user_Description := ""; user_Username := "admin"; user_Password := hash;
             user_MustChangePassword := true; user_PrincipalIDs := []; user_Me := false |}) in
        match r with
        | inr u => ret u
        | inl e => if IsAlreadyExists e then ret no_user
                   else throw (Wrapped "can not ensure admin user exists" e)
        end
      | admin :: _ => ret admin
      end)
    (if_ok (λ u w', only_tbl (O:=User) (view w) (view w') ∧ admin_ok (view w) (view w') (Name (user_meta u)))
       (λ _ _, True)) w.
Proof.
  apply wp_bind, wp_reads. pose proof (list_law (O:=User) "" defaultAdminLabel w) as Hlaw.
  destruct (api_list "" defaultAdminLabel w) as [l|e| |] eqn:Hl; try done. clear Hlaw. unfold bind_post.
  destruct l as [|u l].
  - apply wp_bind, wp_attempt, wp_create.
    + intros u w' Hst _ Hv _. unfold bind_post. apply wp_ret. simpl. rewrite Hv.
      split; [apply only_tbl_put, only_tbl_refl|]. left. exists u.
      destruct Hst as (_ & _ & _ & Hlab & _). simpl in Hlab.
      split_and!; [exact (tbl_put_eq (O:=User) u (view w))|done|]. unfold selects. by rewrite Hlab.
    + intros e w' Hv _ Hno. unfold bind_post. destruct (IsAlreadyExists e); [|by apply wp_throw].
      apply wp_ret. simpl. rewrite Hv. split; [apply only_tbl_refl|]. right. split_and!; [done|by intros Hh; apply Hno|].
      intros u Hu Hlab. apply (not_elem_of_nil u), (elem_of_list (O:=User) _ _ _ _ u Hl). split_and!; [done|by left|done].
  - apply wp_ret. split; [apply only_tbl_refl|]. left. exists u.
    destruct (proj1 (elem_of_list (O:=User) _ _ _ _ u Hl)) as (Hu & _ & Hlab); [by left|]. done.
Qed.

Lemma wp_addRoles hash w :
  unscoped (O:=GlobalRole) (view w) → unscoped (O:=RoleTemplate) (view w) →
  wp (addRoles hash)
    (if_ok (λ n w', global_roles_ok (view w') ∧ role_templates_ok (view w) (view w') ∧ admin_ok (view w) (view w') n)
       (λ _ _, True)) w.
Proof.
  intros Hsg Hst. unfold addRoles.
  apply wp_bind, wp_wrap_err. eapply wp_mono; [by apply wp_reconcileGlobalRoles|].
  intros [[]|e| |] w1; try done. intros [Hot1 Hgr]. unfold bind_post.
  assert (s_RoleTemplates (view w1) = s_RoleTemplates (view w)) as Hrt1 by (by rewrite Hot1).
  apply wp_bind, wp_wrap_err. eapply wp_mono; [apply wp_reconcileRoleTemplates|].
  { intros k. change (tbl (view w1)) with (s_RoleTemplates (view w1)). rewrite Hrt1. apply Hst. }
  intros [[]|e| |] w2; try done. intros [Hot2 Hrt]. unfold bind_post.
  apply wp_bind_assoc. eapply wp_bind_if_ok; [apply wp_admin| |done].
  intros u w3 [Hot3 Hadm].
  assert (s_GlobalRoles (view w3) = s_GlobalRoles (view w1) ∧
          s_RoleTemplates (view w3) = s_RoleTemplates (view w2)) as [Hg3 Hr3].
  { rewrite Hot3. split; [by rewrite Hot2|done]. }
  assert (∀ w4, s_GlobalRoles (view w4) = s_GlobalRoles (view w3) →
    s_RoleTemplates (view w4) = s_RoleTemplates (view w3) → s_Users (view w4) = s_Users (view w3) →
    global_roles_ok (view w4) ∧ role_templates_ok (view w) (view w4) ∧
    admin_ok (view w) (view w4) (Name (user_meta u))) as Hfin.
  { intros w4 Hg Hr Hu. rewrite Hg3 in Hg. rewrite Hr3 in Hr.
    assert (s_Users (view w2) = s_Users (view w)) as Hu2 by (rewrite Hot2; by rewrite Hot1).
    unfold global_roles_ok, role_templates_ok, admin_ok, labelled in *. simpl tbl in *.
    by rewrite Hg, Hr, Hu, <-Hrt1, <-Hu2. }
  apply wp_bind, wp_reads. pose proof (list_law (O:=GlobalRoleBinding) "" defaultAdminLabel w3) as Hlaw.
  destruct (api_list "" defaultAdminLabel w3) as [l|e| |]; try done. unfold bind_post.
  destruct l as [|b l]; [|by apply wp_bind, wp_ret, wp_ret, Hfin].
  apply wp_bind, wp_bind, wp_attempt, wp_create.
  - intros grb w4 _ _ Hv _. unfold bind_post. apply wp_ret, wp_ret, Hfin; by rewrite Hv.
  - intros e w4 Hv _ _. unfold bind_post. apply wp_ret, wp_ret, Hfin; by rewrite Hv.
Qed.

(** C39: a start of the server that succeeds leaves the built-in roles in the
    cluster: every global role and every role template of the list is there as it
    is described, none else carries their labels, and the user it reports carries
    the label of administrators.  Two exceptions: a role template in which nothing but the
    flag Builtin is wrong is left as it was; and the name that is reported is empty where no user carries the label and
    the server, though asked to find a name, answers that the new user already exists. *)
Theorem addRoles_correct hash w :
  unscoped (O:=GlobalRole) (view w) → unscoped (O:=RoleTemplate) (view w) →
  wp (addRoles hash)
    (if_ok (λ n w', global_roles_ok (view w') ∧ role_templates_ok (view w) (view w') ∧ admin_ok (view w) (view w') n)
       (λ _ _, True)) w.
Proof. apply wp_addRoles. Qed.

(** *** Gathering *)

Section gathering.
Context `{!Client W ClusterRole, !Client W Role, !Client W ClusterRoleBinding, !Client W RoleBinding}.

(** The cache of role templates shows the built-in ones. *)
Definition shows_builtin w : Prop :=
  ∀ r, r ∈ chain roleTemplates → ∃ rt, s_RoleTemplates (cached w) !! ("", name r) = Some rt ∧
    rt_RoleTemplateNames rt = roleTemplateNames r.

Lemma shallow_spec r n :
  r ∈ chain roleTemplates → n ∈ roleTemplateNames r →
  ∃ r', r' ∈ chain roleTemplates ∧ name r' = n ∧ roleTemplateNames r' = [].
Proof.
  intros Hr Hn. pose proof roleTemplates_shallow as Hs. unfold shallow in Hs.
  rewrite forallb_forall in Hs. apply list_elem_of_In, Hs in Hr. rewrite forallb_forall in Hr.
  apply list_elem_of_In, Hr, existsb_exists in Hn as (r' & Hr' & Hn').
  apply andb_true_iff in Hn' as [Hn' Hl]. apply String.eqb_eq in Hn'. apply Nat.eqb_eq in Hl.
  exists r'. split_and!; [by apply list_elem_of_In|done|by apply length_zero_iff_nil].
Qed.

(** A template a built-in one inherits inherits nothing. *)
Lemma builtin_inherits w r rt t :
  shows_builtin w → r ∈ chain roleTemplates → s_RoleTemplates (cached w) !! ("", name r) = Some rt →
  inherits (s_RoleTemplates (cached w)) rt t → rt_RoleTemplateNames t = [].
Proof.
  intros Hb Hr Hrt (n & Hn & Ht). destruct (Hb r Hr) as (rt' & Hrt' & Hnames).
  rewrite Hrt in Hrt'. injection Hrt' as <-. rewrite Hnames in Hn.
  destruct (shallow_spec r n Hr Hn) as (r' & Hr' & <- & Hnil).
  destruct (Hb r' Hr') as (t' & Ht' & Hnames'). rewrite Ht in Ht'. injection Ht' as <-. congruence.
Qed.

Lemma builtin_gather w r :
  shows_builtin w → r ∈ chain roleTemplates →
  ∃ rt m, s_RoleTemplates (cached w) !! ("", name r) = Some rt ∧
    gatherAndDedupeRoles 2 (name r) w = (Ok m, w) ∧
    ∀ n t, m !! n = Some t ↔ rtc (inherits (s_RoleTemplates (cached w))) rt t ∧ Name (rt_meta t) = n.
Proof.
  intros Hb Hr. destruct (Hb r Hr) as (rt & Hrt & Hnames).
  pose proof (λ t, builtin_inherits w r rt t Hb Hr Hrt) as Hleaf.
  destruct (gather_closure 2 (name r) rt w) as (m & Hm & Hspec); [done|..|by exists rt, m].
  - intros t n Hreach Hn. apply rtc_inv in Hreach as [<-|(t1 & Hstep & Hrest)].
    + rewrite Hnames in Hn. destruct (shallow_spec r n Hr Hn) as (r' & Hr' & <- & _).
      destruct (Hb r' Hr') as (t' & Ht' & _). eauto.
    + apply Hleaf in Hstep. apply rtc_inv in Hrest as [<-|(t2 & (n' & Hn' & _) & _)].
      * rewrite Hstep in Hn. by apply elem_of_nil in Hn.
      * rewrite Hstep in Hn'. by apply elem_of_nil in Hn'.
  - intros t Hsteps. inversion Hsteps as [|? ? t1 ? H1 H2]; subst.
    inversion H2 as [|? ? t2 ? (n' & Hn' & _) _]; subst. rewrite (Hleaf _ H1) in Hn'.
    by apply elem_of_nil in Hn'.
Qed.

(** C36: after a start that succeeds, once the cache of role templates has caught
    up, gathering the roles of any built-in template returns: two levels are enough,
    every name is found, and the result is the closure of inheritance. *)
Theorem addRoles_gather hash w :
  unscoped (O:=GlobalRole) (view w) → unscoped (O:=RoleTemplate) (view w) →
  wp (addRoles hash)
    (if_ok (λ _ w', ∀ w2 r, view w2 = view w' → in_sync_kind RoleTemplate w2 → r ∈ chain roleTemplates →
       ∃ rt m, s_RoleTemplates (view w2) !! ("", name r) = Some rt ∧
         gatherAndDedupeRoles 2 (name r) w2 = (Ok m, w2) ∧
         ∀ n t, m !! n = Some t ↔ rtc (inherits (s_RoleTemplates (view w2))) rt t ∧ Name (rt_meta t) = n)
       (λ _ _, True)) w.
Proof.
  intros Hg Ht. eapply wp_mono; [by apply wp_addRoles|].
  intros [n|e| |] w'; simpl; try done. intros (_ & [Hall _] & _) w2 r Hv Hs Hr.
  assert (s_RoleTemplates (cached w2) = s_RoleTemplates (view w2)) as Hc by exact Hs.
  rewrite <-Hc. apply builtin_gather; [|done]. intros r' Hr'. rewrite Hc, Hv.
  destruct (Hall r' Hr') as (rt & Hrt & (_ & _ & Hn & _) & _). by exists rt.
Qed.

End gathering.

End start.

(** ** Viewing *)

(** The templates that are meant for looking only, by their names. *)
Definition viewing (r : roleBuilder) : bool :=
  String.eqb (name r) "read-only" || HasPrefix (string_rev (name r)) (string_rev "-view").

Definition reads_only (rule : PolicyRule) : bool :=
  forallb (λ v, String.eqb v "get" || String.eqb v "list" || String.eqb v "watch") (Verbs rule).

Lemma viewing_checked :
  forallb (λ r, negb (viewing r) ||
    (forallb reads_only (rules r) && forallb (String.eqb "view") (roleTemplateNames r)))
    (chain roleTemplates) = true.
Proof. vm_compute. reflexivity. Qed.

(** The built-in templates for viewing give no verb but get, list and watch on
    any resource of the management plane, and inherit at most the cluster role view
    of Kubernetes. *)
Theorem viewing_templates_read r :
  r ∈ chain roleTemplates → viewing r = true →
  (∀ resource, verbs_for resource (rules r) ⊆ {[ "get"; "list"; "watch" ]}) ∧
  ∀ n, n ∈ roleTemplateNames r → n = "view".
Proof.
  intros Hr Hview. pose proof viewing_checked as Hc. rewrite forallb_forall in Hc.
  apply list_elem_of_In, Hc in Hr. rewrite Hview in Hr. cbn [negb orb] in Hr.
  apply andb_true_iff in Hr as [Hrules Hnames]. rewrite forallb_forall in Hrules, Hnames. split.
  - intros resource v (rule & Hrule & Hv & _)%elem_of_verbs_for.
    apply list_elem_of_In, Hrules in Hrule. unfold reads_only in Hrule. rewrite forallb_forall in Hrule.
    apply list_elem_of_In, Hrule in Hv. rewrite !orb_true_iff, !String.eqb_eq in Hv.
    rewrite !elem_of_union, !elem_of_singleton. exact Hv.
  - intros n Hn. by apply list_elem_of_In, Hnames, String.eqb_eq in Hn.
Qed.

(** ** Witnesses *)

Lemma demo_present n :
  existsb (λ r, String.eqb (name r) n) (chain roleTemplates) = true → ∃ r, r ∈ chain roleTemplates ∧ name r = n.
Proof.
  intros (r & Hr & He)%existsb_exists. exists r. split; [by apply list_elem_of_In|by apply String.eqb_eq].
Qed.

Lemma synced_templates s : in_sync_kind RoleTemplate (synced s).
Proof. reflexivity. Qed.

(** The first start, in an empty cluster. *)
Definition demo_started : Sim := synced (sim_view (addRoles "hash" (synced empty_state)).2).

Lemma empty_unscoped : unscoped (O:=GlobalRole) (view (synced empty_state)) ∧
  unscoped (O:=RoleTemplate) (view (synced empty_state)).
Proof. split; intros k [o Ho]; vm_compute in Ho; discriminate. Qed.

Lemma demo_start : ∃ n, (addRoles "hash" (synced empty_state)).1 = Ok n ∧ n ≠ "".
Proof. eexists. split; [vm_compute; reflexivity|discriminate]. Qed.

Lemma addRoles_correct_witness :
  ∃ n w', addRoles "hash" (synced empty_state) = (Ok n, w') ∧ global_roles_ok (view w') ∧ admin_ok (W:=Sim) (view (synced empty_state)) (view w') n.
Proof.
  destruct demo_start as (n & Hn & _). destruct empty_unscoped as [Hg Ht].
  pose proof (addRoles_correct "hash" (synced empty_state) Hg Ht) as Hc.
  pose proof (run_ok (addRoles "hash") _ _ (synced empty_state) n Hc) as Hr.
  destruct (Hr Hn) as (w' & Hrun & Hgr & _ & Hadm).
  exists n, w'. exact (conj Hrun (conj Hgr Hadm)).
Defined.

Lemma addRoles_gather_witness :
  ∃ r m, name r = "project-owner" ∧ gatherAndDedupeRoles 2 (name r) demo_started = (Ok m, demo_started).
Proof.
  destruct demo_start as (n & Hn & _). destruct empty_unscoped as [Hg Ht].
  pose proof (addRoles_gather "hash" (synced empty_state) Hg Ht) as Hc.
  pose proof (run_ok (addRoles "hash") _ _ (synced empty_state) n Hc) as Hr.
  destruct (Hr Hn) as (w' & Hrun & Hall).
  assert (view demo_started = view w') as Hv by (unfold demo_started; rewrite Hrun; reflexivity).
  destruct (demo_present "project-owner") as (r & Hin & Hname); [vm_compute; reflexivity|].
  destruct (Hall demo_started r Hv (synced_templates _) Hin) as (rt & m & _ & Hm & _). exists r, m. exact (conj Hname Hm).
Defined.

Lemma viewing_templates_read_witness :
  ∃ r, r ∈ chain roleTemplates ∧ name r = "read-only" ∧
    verbs_for "apps" (rules r) ⊆ {[ "get"; "list"; "watch" ]}.
Proof.
  destruct (demo_present "read-only") as (r & Hr & Hname); [vm_compute; reflexivity|].
  exists r. split; [exact Hr|]. split; [exact Hname|].
  apply (viewing_templates_read r Hr). unfold viewing. rewrite Hname. reflexivity.
Defined.

End RoleSetup.
