(* ===== verification/TunnelMessage.v ===== *)
(** * The reverse tunnel: messages

    The messages of the reverse tunnel (pkg/remotedialer/message.go): the
    varints of package encoding/binary at the width of an int64, the header of
    24 bytes, and the three kinds of messages, with their round trip.  Byte
    sequences are [string]s. *)

From stdpp Require Import base list strings.
From Stdlib Require Import Ascii ZArith Lia.
From S2P Require Import Prelude.
From S2P Require Import GoLib.

Open Scope go_scope.
Open Scope Z_scope.

Module TunnelMessage.

(** ** Package encoding/binary *)

Definition byte (x : Z) : ascii := ascii_of_N (Z.to_N (x mod 256)).

(** At most ten groups of seven bits make up a uint64. *)
Fixpoint PutUvarint (fuel : nat) (x : Z) : string :=
  match fuel with
  | O => ""
  | S fuel =>
    if x <? 128 then String (byte x) ""
    else String (byte (Z.lor x 128)) (PutUvarint fuel (Z.shiftr x 7))
  end.

(** [ux := uint64(x) << 1; if x < 0 { ux = ^ux }]. *)
Definition zigzag (x : Z) : Z :=
  let ux := (Z.shiftl x 1) mod 2 ^ 64 in
  if x <? 0 then 2 ^ 64 - 1 - ux else ux.

Definition PutVarint (x : Z) : string := PutUvarint 10 (zigzag x).

(** A reader: the bytes that are left, and what reading ends with; [None] is
    the end of the input. *)
Record reader := { r_data : string; r_end : option goerr }.

Definition read_end (r : reader) : goerr := default EOF (r_end r).

Definition overflow : goerr := PlainError "binary: varint overflows a 64-bit integer".

(** [binary.ReadUvarint] after [i] bytes, with shift [s] and the bits [x]. *)
Fixpoint ReadUvarint (data : string) (stop : goerr) (i s x : Z) : outcome (Z * string) :=
  match data with
  | EmptyString => Err stop
  | String c data =>
    let b := Z.of_N (N_of_ascii c) in
    if b <? 128 then
      if (9 <? i) || ((i =? 9) && (1 <? b)) then Err overflow
      else Ok (Z.lor x (Z.shiftl b s mod 2 ^ 64), data)
    else ReadUvarint data stop (i + 1) (s + 7)
           (Z.lor x (Z.shiftl (Z.land b 127) s mod 2 ^ 64))
  end.

(** [x := int64(ux >> 1); if ux&1 != 0 { x = ^x }]. *)
Definition unzigzag (ux : Z) : Z :=
  let x := Z.shiftr ux 1 in if Z.odd ux then Z.lnot x else x.

Definition ReadVarint (r : reader) : outcome (Z * reader) :=
  match ReadUvarint (r_data r) (read_end r) 0 0 0 with
  | Ok (ux, rest) => Ok (unzigzag ux, {| r_data := rest; r_end := r_end r |})
  | Err e => Err e
  | Panic => Panic
  | OutOfFuel => OutOfFuel
  end.

(** [ioutil.ReadAll(io.LimitReader(r, n))], and what is left of [r]. *)
Definition ReadLimited (n : nat) (r : reader) : outcome (string * reader) :=
  let bytes := String.substring 0 n (r_data r) in
  let rest := String.substring n (String.length (r_data r) - n) (r_data r) in
  match r_end r with
  | Some e =>
    if (String.length (r_data r) <? n)%nat then Err e
    else Ok (bytes, {| r_data := rest; r_end := Some e |})
  | None => Ok (bytes, {| r_data := rest; r_end := None |})
  end.

(** ** Messages *)

Definition Data : Z := 1.
Definition Connect : Z := 2.
Definition ErrorType : Z := 3.

Record message := {
  id : Z;
  m_err : option goerr;
  connID : Z;
  deadline : Z;
  messageType : Z;
  bytes : string;
  body : option reader;
  proto : string;
  address : string }.

(** [nextid()]: the next value of the counter. *)
Definition nextid (idCounter : Z) : Z := wrap64 (idCounter + 1).

Definition newMessage (idCounter connID deadline : Z) (bytes : string) : message :=
  {| id := nextid idCounter; m_err := None; connID := connID; deadline := deadline;
     messageType := Data; bytes := bytes; body := None; proto := ""; address := "" |}.

(** The deadline is in nanoseconds. *)
Definition newConnect (idCounter connID deadline : Z) (proto address : string) : message :=
  {| id := nextid idCounter; m_err := None; connID := connID;
     deadline := Z.quot deadline 1000000; messageType := Connect;
     bytes := proto +:+ "/" +:+ address; body := None; proto := proto; address := address |}.

Definition newErrorMessage (idCounter connID : Z) (err : goerr) : message :=
  {| id := nextid idCounter; m_err := Some err; connID := connID; deadline := 0;
     messageType := ErrorType; bytes := Error err; body := None; proto := ""; address := "" |}.

Definition has_deadline (t : Z) : bool := (t =? Data) || (t =? Connect).

(** [PutVarint(buf[offset:], x)] after the bytes [buf[:offset]] of a buffer of
    24: an index out of range panics. *)
Definition put (buf : string) (x : Z) : outcome string :=
  let buf := buf +:+ PutVarint x in
  if (24 <? String.length buf)%nat then Panic else Ok buf.

Definition obind {A B} (m : outcome A) (k : A → outcome B) : outcome B :=
  match m with
  | Ok a => k a
  | Err e => Err e
  | Panic => Panic
  | OutOfFuel => OutOfFuel
  end.

Definition header (m : message) : outcome string :=
  obind (put "" (id m)) (λ buf,
  obind (put buf (connID m)) (λ buf,
  obind (put buf (messageType m)) (λ buf,
  if has_deadline (messageType m) then put buf (deadline m) else Ok buf))).

Definition Bytes (m : message) : outcome string :=
  obind (header m) (λ h, Ok (h +:+ bytes m)).

Definition newServerMessage (r : reader) : outcome message :=
  obind (ReadVarint r) (λ '(id, r),
  obind (ReadVarint r) (λ '(connID, r),
  obind (ReadVarint r) (λ '(mType, r),
  obind (if has_deadline mType then ReadVarint r else Ok (0, r)) (λ '(deadline, r),
  if mType =? Connect then
    obind (ReadLimited 100 r) (λ '(bytes, r),
    match SplitN2 bytes "/" with
    | [proto; address] =>
      Ok {| id := id; m_err := None; connID := connID; deadline := deadline;
            messageType := mType; bytes := bytes; body := Some r;
            proto := proto; address := address |}
    | _ => Err (PlainError "failed to parse connect address")
    end)
  else
    Ok {| id := id; m_err := None; connID := connID; deadline := deadline;
          messageType := mType; bytes := ""; body := Some r;
          proto := ""; address := "" |})))).

(** The error a text stands for. *)
Definition error_of (str : string) : goerr :=
  if String.eqb str "EOF" then EOF else PlainError str.

(** [m.Err()]; reading a nil body panics. *)
Definition Err_ (m : message) : outcome goerr :=
  match m_err m with
  | Some e => Ok e
  | None =>
    match body m with
    | None => Panic
    | Some r =>
      match ReadLimited 100 r with
      | Ok (str, _) => Ok (error_of str)
      | Err e => Ok e
      | Panic => Panic
      | OutOfFuel => OutOfFuel
      end
    end
  end.

(** ** The round trip of a varint *)

Lemma byte_N x : 0 ≤ x < 256 → Z.of_N (N_of_ascii (byte x)) = x.
Proof.
  intros H. unfold byte. rewrite Z.mod_small by done.
  rewrite N_ascii_embedding by lia. lia.
Qed.

Lemma byte_mod x : Z.of_N (N_of_ascii (byte x)) = x mod 256.
Proof.
  pose proof (byte_N (x mod 256) (Z.mod_pos_bound x 256 ltac:(lia))) as <-.
  unfold byte. by rewrite Zmod_mod.
Qed.

(** A byte with the bit of 128 set holds the low seven bits. *)
Lemma group_low x : 0 ≤ x → Z.land (Z.lor x 128 mod 256) 127 = x mod 128.
Proof.
  intros Hx. change 256 with (2 ^ 8). change 127 with (Z.ones 7). change 128 with (2 ^ 7).
  rewrite <-!Z.land_ones by lia. apply Z.bits_inj'. intros n Hn.
  rewrite !Z.land_spec, Z.lor_spec, !Z.testbit_ones_nonneg by lia.
  destruct (Z.ltb_spec n 7).
  - rewrite Z.pow2_bits_false by lia.
    destruct (Z.ltb_spec n 8); [|lia]. by rewrite orb_false_r, andb_true_r.
  - by rewrite !andb_false_r.
Qed.

Lemma group_high x : 0 ≤ x → 128 ≤ Z.lor x 128 mod 256.
Proof.
  intros Hx. change 256 with (2 ^ 8). rewrite <-Z.land_ones by lia.
  assert (0 ≤ Z.land (Z.lor x 128) (Z.ones 8)) by (apply Z.land_nonneg; right; done).
  destruct (Z.le_gt_cases 128 (Z.land (Z.lor x 128) (Z.ones 8))) as [|Hlt]; [done|].
  assert (Z.testbit (Z.land (Z.lor x 128) (Z.ones 8)) 7 = true) as Hbit.
  { rewrite Z.land_spec, Z.lor_spec. by rewrite orb_true_r. }
  rewrite Z.testbit_true in Hbit by lia.
  rewrite Z.div_small in Hbit by lia. done.
Qed.

Lemma lor_add a b s : 0 ≤ s → 0 ≤ a < 2 ^ s → Z.lor a (Z.shiftl b s) = a + b * 2 ^ s.
Proof.
  intros Hs Ha. rewrite <-Z.shiftl_mul_pow2 by done. rewrite <-Z.add_lor_land.
  enough (Z.land a (Z.shiftl b s) = 0) as -> by lia. apply Z.bits_inj'. intros n Hn. rewrite Z.land_spec, Z.bits_0, Z.shiftl_spec by done.
  destruct (Z.ltb_spec n s).
  - by rewrite (Z.testbit_neg_r b), andb_false_r by lia.
  - destruct (decide (a = 0)) as [->|]; [by rewrite Z.bits_0|].
    rewrite (Z.bits_above_log2 a n), andb_false_l; [done|lia|].
    apply Z.log2_lt_pow2; [lia|]. eapply Z.lt_le_trans; [apply Ha|].
    apply Z.pow_le_mono_r; lia.
Qed.

Lemma uvarint_round fuel : ∀ x a i rest stop,
  0 ≤ i → i + Z.of_nat fuel ≤ 10 → 0 ≤ x < 2 ^ (7 * Z.of_nat fuel) → (0 < fuel)%nat →
  x * 2 ^ (7 * i) < 2 ^ 64 → 0 ≤ a < 2 ^ (7 * i) →
  ReadUvarint (PutUvarint fuel x +:+ rest) stop i (7 * i) a = Ok (a + x * 2 ^ (7 * i), rest).
Proof.
  induction fuel as [|fuel IH]; intros x a i rest stop Hi Hfuel Hx Hpos Hfit Ha; [lia|].
  assert (0 < 2 ^ (7 * i)) as Hp by (apply Z.pow_pos_nonneg; lia).
  simpl PutUvarint. destruct (Z.ltb_spec x 128) as [Hlt|Hge]; rewrite append_cons; simpl ReadUvarint.
  - rewrite byte_N by lia. destruct (Z.ltb_spec x 128); [|lia].
    assert (¬ (i = 9 ∧ 1 < x)) as Hno.
    { intros [-> H1]. change (2 ^ (7 * 9)) with (2 ^ 63) in Hfit. lia. }
    destruct (Z.ltb_spec 9 i); [lia|]. simpl.
    destruct (Z.eqb_spec i 9), (Z.ltb_spec 1 x); simpl; try tauto;
      rewrite Z.mod_small by (rewrite Z.shiftl_mul_pow2 by lia; nia);
      by rewrite lor_add by lia.
  - rewrite byte_mod. pose proof (group_high x ltac:(lia)) as Hhigh.
    destruct (Z.ltb_spec (Z.lor x 128 mod 256) 128); [lia|]. rewrite group_low by lia.
    assert (x = 128 * Z.shiftr x 7 + x mod 128) as Hsplit.
    { rewrite Z.shiftr_div_pow2 by lia. apply Z.div_mod. lia. }
    pose proof (Z.mod_pos_bound x 128 ltac:(lia)) as Hmod.
    assert (2 ^ (7 * (i + 1)) = 128 * 2 ^ (7 * i)) as Hpow.
    { replace (7 * (i + 1)) with (7 + 7 * i) by lia. by rewrite Z.pow_add_r by lia. }
    rewrite Z.mod_small by (rewrite Z.shiftl_mul_pow2 by lia; nia).
    rewrite lor_add by lia. replace (7 * i + 7) with (7 * (i + 1)) by lia.
    assert (Z.of_nat (S fuel) = Z.of_nat fuel + 1) as Hsucc by lia. rewrite Hsucc in Hx, Hfuel.
    assert (2 ^ (7 * (Z.of_nat fuel + 1)) = 128 * 2 ^ (7 * Z.of_nat fuel)) as Hpow'.
    { replace (7 * (Z.of_nat fuel + 1)) with (7 + 7 * Z.of_nat fuel) by lia.
      by rewrite Z.pow_add_r by lia. }
    assert (0 < fuel)%nat by (destruct fuel; [simpl in *; lia|lia]).
    rewrite IH; [f_equal; f_equal; rewrite Hpow; nia|lia|lia| |done|rewrite Hpow; nia|rewrite Hpow; nia].
    rewrite Hpow' in Hx. lia.
Qed.

Lemma zigzag_eq x : int64 x → zigzag x = if x <? 0 then - 2 * x - 1 else 2 * x.
Proof.
  intros Hx. unfold zigzag, int64 in *. rewrite Z.shiftl_mul_pow2 by lia.
  destruct (Z.ltb_spec x 0).
  - replace (x * 2 ^ 1) with (2 * x + 2 ^ 64 + (-1) * 2 ^ 64) by lia.
    rewrite Z_mod_plus_full, Z.mod_small by lia. lia.
  - rewrite Z.mod_small by lia. lia.
Qed.

Lemma zigzag_bound x : int64 x → 0 ≤ zigzag x < 2 ^ 64.
Proof. intros Hx. rewrite zigzag_eq by done. unfold int64 in *. case_match; lia. Qed.

Lemma unzigzag_zigzag x : int64 x → unzigzag (zigzag x) = x.
Proof.
  intros Hx. rewrite zigzag_eq by done. unfold unzigzag. rewrite Z.shiftr_div_pow2 by lia.
  change (2 ^ 1) with 2. destruct (Z.ltb_spec x 0).
  - replace (-2 * x - 1) with (1 + 2 * (- x - 1)) by lia.
    rewrite Z.odd_add_mul_2. simpl Z.odd. unfold Z.lnot.
    rewrite Z.mul_comm, Z_div_plus by lia. change (1 / 2) with 0. lia.
  - rewrite Z.mul_comm, Z.odd_mul, andb_false_r. by rewrite Z.div_mul by lia.
Qed.

Lemma varint_round x rest e :
  int64 x → ReadVarint {| r_data := PutVarint x +:+ rest; r_end := e |} =
            Ok (x, {| r_data := rest; r_end := e |}).
Proof.
  intros Hx. pose proof (zigzag_bound x Hx) as Hb.
  assert (ReadUvarint (PutUvarint 10 (zigzag x) +:+ rest) (default EOF e) 0 (7 * 0) 0 =
          Ok (0 + zigzag x * 2 ^ (7 * 0), rest)) as Hr.
  { apply uvarint_round; try lia; change (7 * 0) with 0; change (7 * Z.of_nat 10) with 70; lia. }
  change (7 * 0) with 0 in Hr. unfold ReadVarint, PutVarint, read_end. cbn [r_data r_end].
  rewrite Hr. change (2 ^ 0) with 1.
  by rewrite Z.add_0_l, Z.mul_1_r, unzigzag_zigzag.
Qed.

(** Whatever is read fits in 64 bits. *)
Lemma lor_bound a b n : 0 ≤ n → 0 ≤ a < 2 ^ n → 0 ≤ b < 2 ^ n → 0 ≤ Z.lor a b < 2 ^ n.
Proof.
  intros Hn Ha Hb. split; [apply Z.lor_nonneg; lia|].
  destruct (Z.eq_dec (Z.lor a b) 0) as [->|Hne]; [apply Z.pow_pos_nonneg; lia|].
  apply Z.log2_lt_cancel. rewrite Z.log2_pow2 by done. rewrite Z.log2_lor by lia.
  assert (0 < n).
  { destruct (Z.eq_dec n 0) as [->|]; [|lia]. change (2 ^ 0) with 1 in *.
    assert (a = 0) by lia. assert (b = 0) by lia. by subst. }
  assert (∀ x, 0 ≤ x < 2 ^ n → Z.log2 x < n) as Hlog.
  { intros x Hx. destruct (Z.eq_dec x 0) as [->|]; [done|]. apply Z.log2_lt_pow2; lia. }
  apply Z.max_lub_lt; by apply Hlog.
Qed.

Lemma ReadUvarint_bound data stop : ∀ i s x ux rest,
  0 ≤ x < 2 ^ 64 → ReadUvarint data stop i s x = Ok (ux, rest) → 0 ≤ ux < 2 ^ 64.
Proof.
  induction data as [|c data IH]; intros i s x ux rest Hx; simpl; [done|].
  assert (∀ y, 0 ≤ y mod 2 ^ 64 < 2 ^ 64) as Hmod by (intros; apply Z.mod_pos_bound; lia).
  case_match; [case_match; [done|]|].
  - intros [= <- <-]. by apply lor_bound.
  - apply IH. by apply lor_bound.
Qed.

Lemma ReadVarint_int64 r x r' : ReadVarint r = Ok (x, r') → int64 x.
Proof.
  unfold ReadVarint. destruct (ReadUvarint _ _ _ _ _) as [[ux rest]| | |] eqn:E; try done.
  intros [= <- _]. apply ReadUvarint_bound in E; [|lia]. unfold unzigzag, int64, Z.lnot.
  rewrite Z.shiftr_div_pow2 by lia. change (2 ^ 1) with 2.
  assert (0 ≤ ux / 2 < 2 ^ 63) by (split; [apply Z.div_pos|apply Z.div_lt_upper_bound]; lia).
  case_match; lia.
Qed.

Lemma newServerMessage_ok r m :
  newServerMessage r = Ok m → int64 (connID m) ∧ m_err m = None ∧ is_Some (body m).
Proof.
  unfold newServerMessage.
  destruct (ReadVarint r) as [[i r1]| | |]; simpl; try done.
  destruct (ReadVarint r1) as [[k r2]| | |] eqn:E; simpl; try done. apply ReadVarint_int64 in E.
  destruct (ReadVarint r2) as [[t r3]| | |]; simpl; try done.
  destruct (if has_deadline t then _ else _) as [[d r4]| | |]; simpl; try done.
  case_match; [|intros [= <-]; split_and!; try done; by eexists].
  destruct (ReadLimited 100 r4) as [[b r5]| | |]; simpl; try done.
  destruct (SplitN2 b "/") as [|? [|? []]]; try done; intros [= <-]; split_and!; try done; by eexists.
Qed.

(** Decoding returns: a message or an error. *)
Definition defined {A} (o : outcome A) : Prop :=
  match o with Ok _ | Err _ => True | _ => False end.

Lemma defined_obind {A B} (m : outcome A) (k : A → outcome B) :
  defined m → (∀ a, defined (k a)) → defined (obind m k).
Proof. destruct m; simpl; auto. Qed.

Lemma ReadVarint_defined r : defined (ReadVarint r).
Proof.
  unfold ReadVarint. generalize (r_data r) (read_end r). intros data stop.
  assert (∀ i s x, defined (ReadUvarint data stop i s x)) as Hu.
  { induction data as [|c data IH]; intros i s x; [done|]. cbn [ReadUvarint].
    destruct (_ <? 128); [by destruct (_ || _)|apply IH]. }
  specialize (Hu 0 0 0). by destruct (ReadUvarint data stop 0 0 0) as [[]| | |].
Qed.

Lemma ReadLimited_defined n r : defined (ReadLimited n r).
Proof. unfold ReadLimited. destruct (r_end r); [|done]. by destruct (_ <? n)%nat. Qed.

Lemma newServerMessage_defined r : defined (newServerMessage r).
Proof.
  apply defined_obind; [apply ReadVarint_defined|intros [i r1]].
  apply defined_obind; [apply ReadVarint_defined|intros [k r2]].
  apply defined_obind; [apply ReadVarint_defined|intros [t r3]].
  apply defined_obind; [destruct (has_deadline t); [apply ReadVarint_defined|done]|intros [d r4]].
  destruct (t =? Connect); [|done].
  apply defined_obind; [apply ReadLimited_defined|intros [b r5]].
  by destruct (SplitN2 b "/") as [|? [|? []]].
Qed.

Lemma Err_defined m : m_err m ≠ None ∨ is_Some (body m) → defined (Err_ m).
Proof.
  unfold Err_. intros Hm. destruct (m_err m); [done|]. destruct Hm as [?|[r ->]]; [done|].
  pose proof (ReadLimited_defined 100 r). by destruct (ReadLimited 100 r) as [[]| | |].
Qed.

(** ** The size of a varint *)

Lemma uvarint_length fuel : ∀ x n,
  0 ≤ x < 2 ^ (7 * Z.of_nat n) → (0 < n)%nat → (String.length (PutUvarint fuel x) ≤ n)%nat.
Proof.
  induction fuel as [|fuel IH]; intros x n Hx Hn; simpl; [lia|].
  destruct (Z.ltb_spec x 128); simpl; [lia|].
  destruct n as [|n]; [lia|].
  assert (2 ^ (7 * Z.of_nat (S n)) = 128 * 2 ^ (7 * Z.of_nat n)) as Hpow.
  { replace (7 * Z.of_nat (S n)) with (7 + 7 * Z.of_nat n) by lia. by rewrite Z.pow_add_r by lia. }
  rewrite Hpow in Hx. apply le_n_S, IH.
  - rewrite Z.shiftr_div_pow2 by lia. change (2 ^ 7) with 128.
    split; [apply Z.div_pos; lia|apply Z.div_lt_upper_bound; lia].
  - destruct n; [simpl in *; lia|lia].
Qed.

(** A number of [7 n - 1] bits besides the sign takes [n] bytes at most. *)
Lemma varint_length x n :
  (0 < n)%nat → int64 x → - 2 ^ (7 * Z.of_nat n - 1) ≤ x < 2 ^ (7 * Z.of_nat n - 1) →
  (String.length (PutVarint x) ≤ n)%nat.
Proof.
  intros Hn Hx Hb. apply uvarint_length; [|done]. rewrite zigzag_eq by done.
  replace (7 * Z.of_nat n) with (1 + (7 * Z.of_nat n - 1)) by lia.
  rewrite Z.pow_add_r by lia. case_match; lia.
Qed.

(** ** Headers *)

(** The bytes of a header, were the buffer long enough. *)
Definition header_bytes (m : message) : string :=
  PutVarint (id m) +:+ PutVarint (connID m) +:+ PutVarint (messageType m) +:+
  (if has_deadline (messageType m) then PutVarint (deadline m) else "").

Lemma put_ok buf x :
  (String.length (buf +:+ PutVarint x) ≤ 24)%nat → put buf x = Ok (buf +:+ PutVarint x).
Proof. intros H. unfold put. by destruct (Nat.ltb_spec 24 (String.length (buf +:+ PutVarint x))); [lia|]. Qed.

Lemma header_ok m :
  (String.length (header_bytes m) ≤ 24)%nat → header m = Ok (header_bytes m).
Proof.
  unfold header_bytes, header. rewrite !append_length. intros H.
  rewrite put_ok by (rewrite append_empty_l; lia). cbn [obind]. rewrite append_empty_l.
  rewrite put_ok by (rewrite append_length; lia). cbn [obind].
  rewrite put_ok by (rewrite !append_length; lia). cbn [obind].
  destruct (has_deadline (messageType m)).
  - rewrite put_ok by (rewrite !append_length; lia). by rewrite <-!append_assoc.
  - by rewrite append_empty_r, <-append_assoc.
Qed.

(** What fits: any identifiers without a deadline; with one, connections counted
    in 41 bits and deadlines of 48. *)
Definition fits (m : message) : Prop :=
  int64 (id m) ∧ int64 (connID m) ∧ Data ≤ messageType m ≤ ErrorType ∧
  (messageType m ≠ ErrorType →
   - 2 ^ 41 ≤ connID m < 2 ^ 41 ∧ - 2 ^ 48 ≤ deadline m < 2 ^ 48).

Lemma fits_length m : fits m → (String.length (header_bytes m) ≤ 24)%nat.
Proof.
  intros (Hid & Hconn & Ht & Hd). unfold header_bytes, Data, ErrorType in *.
  rewrite !append_length.
  pose proof (varint_length (id m) 10 ltac:(lia) Hid) as H1.
  pose proof (varint_length (messageType m) 1 ltac:(lia) ltac:(unfold int64; lia)) as H3.
  unfold has_deadline, Data, Connect.
  destruct (decide (messageType m = 3)) as [E|Hne].
  - rewrite E. simpl String.length.
    pose proof (varint_length (connID m) 10 ltac:(lia) Hconn) as H2.
    unfold int64 in *. change (7 * Z.of_nat 10 - 1) with 69 in *.
    change (7 * Z.of_nat 1 - 1) with 6 in *. rewrite E in H3. simpl String.length in H3. lia.
  - destruct (Hd Hne) as [Hc Hdl].
    assert ((messageType m =? 1) || (messageType m =? 2) = true) as -> by
      (apply orb_true_iff; rewrite !Z.eqb_eq; lia).
    pose proof (varint_length (connID m) 6 ltac:(lia) Hconn) as H2.
    pose proof (varint_length (deadline m) 7 ltac:(lia) ltac:(unfold int64; lia)) as H4.
    change (7 * Z.of_nat 10 - 1) with 69 in *. change (7 * Z.of_nat 1 - 1) with 6 in *.
    change (7 * Z.of_nat 6 - 1) with 41 in *. change (7 * Z.of_nat 7 - 1) with 48 in *.
    unfold int64 in *. lia.
Qed.

Lemma Bytes_fits m : fits m → Bytes m = Ok (header_bytes m +:+ bytes m).
Proof. intros H. unfold Bytes. by rewrite header_ok by (by apply fits_length). Qed.

(** The header read back, whatever follows it. *)
Definition received (m : message) (rest : reader) : message :=
  {| id := id m; m_err := None; connID := connID m;
     deadline := if has_deadline (messageType m) then deadline m else 0;
     messageType := messageType m; bytes := ""; body := Some rest;
     proto := ""; address := "" |}.

Lemma read_header m rest e :
  fits m → messageType m ≠ Connect →
  newServerMessage {| r_data := header_bytes m +:+ rest; r_end := e |} =
  Ok (received m {| r_data := rest; r_end := e |}).
Proof.
  intros (Hid & Hconn & Ht & Hd) Hne. unfold newServerMessage, header_bytes, received.
  rewrite <-!append_assoc. rewrite varint_round by done. cbn [obind].
  rewrite varint_round by done. cbn [obind].
  unfold Data, ErrorType, Connect in *.
  rewrite varint_round by (unfold int64; lia). cbn [obind].
  destruct (Z.eqb_spec (messageType m) Connect); [done|].
  unfold has_deadline, Data, Connect in *.
  destruct (Z.eqb_spec (messageType m) 1) as [E|], (Z.eqb_spec (messageType m) 2); try lia; cbn [orb].
  - rewrite varint_round by (destruct Hd; [lia|unfold int64; lia]). done.
  - by rewrite append_empty_l.
Qed.

Lemma substring_append p : ∀ n s,
  (String.length p ≤ n)%nat →
  String.substring 0 n (p +:+ s) = p +:+ String.substring 0 (n - String.length p) s.
Proof.
  induction p as [|c p IH]; intros n s Hn; [by rewrite Nat.sub_0_r|].
  simpl in Hn. destruct n as [|n]; [lia|]. rewrite !append_cons. simpl. f_equal. apply IH. lia.
Qed.

Lemma substring_all s n : (String.length s ≤ n)%nat → String.substring 0 n s = s.
Proof.
  intros Hn. rewrite <-(append_empty_r s) at 1. rewrite substring_append by done.
  by destruct (n - String.length s)%nat; simpl; rewrite append_empty_r.
Qed.

Lemma read_connect m rest :
  fits m → messageType m = Connect →
  newServerMessage {| r_data := header_bytes m +:+ rest; r_end := None |} =
  match SplitN2 (String.substring 0 100 rest) "/" with
  | [p; a] =>
    Ok {| id := id m; m_err := None; connID := connID m; deadline := deadline m;
          messageType := Connect; bytes := String.substring 0 100 rest;
          body := Some {| r_data := String.substring 100 (String.length rest - 100) rest;
                          r_end := None |};
          proto := p; address := a |}
  | _ => Err (PlainError "failed to parse connect address")
  end.
Proof.
  intros (Hid & Hconn & Ht & Hd) Hc. unfold newServerMessage, header_bytes.
  rewrite <-!append_assoc. rewrite varint_round by done. cbn [obind].
  rewrite varint_round by done. cbn [obind]. rewrite Hc.
  rewrite varint_round by done. cbn [obind].
  change (has_deadline Connect) with true. cbn [obind]. cbv iota.
  rewrite varint_round by (destruct Hd; [by rewrite Hc|unfold int64; lia]).
  cbn [obind]. change (Connect =? Connect) with true. cbv iota.
  unfold ReadLimited. cbn [r_end r_data obind]. done.
Qed.

Lemma nextid_int64 c : int64 (nextid c).
Proof. unfold nextid, wrap64, int64. pose proof (Z.mod_pos_bound (c + 1 + 2 ^ 63) (2 ^ 64)). lia. Qed.

Lemma millis_bound d : int64 d → - 2 ^ 48 ≤ Z.quot d 1000000 < 2 ^ 48.
Proof. unfold int64. intros H. pose proof (Z.quot_rem' d 1000000). pose proof (Z.rem_bound_abs d 1000000). lia. Qed.

(** C35: what one end of the tunnel writes the other end reads.  For connections
    counted in 41 bits the header of 24 bytes is always long enough.  A data
    message arrives with its payload; a request to connect arrives with its
    protocol and the first 99 bytes of protocol and address, all of them if they
    fit; an error arrives as the first 100 bytes of its text. *)
Theorem message_round_trip idCounter k :
  - 2 ^ 41 ≤ k < 2 ^ 41 →
  (∀ d data, - 2 ^ 48 ≤ d < 2 ^ 48 → ∃ b,
     Bytes (newMessage idCounter k d data) = Ok b ∧
     newServerMessage {| r_data := b; r_end := None |} =
     Ok (received (newMessage idCounter k d data) {| r_data := data; r_end := None |})) ∧
  (∀ d p a, int64 d → has_char "/" p = false → (String.length p ≤ 99)%nat → ∃ b m,
     Bytes (newConnect idCounter k d p a) = Ok b ∧
     newServerMessage {| r_data := b; r_end := None |} = Ok m ∧
     messageType m = Connect ∧ connID m = k ∧ deadline m = Z.quot d 1000000 ∧ proto m = p ∧
     address m = String.substring 0 (99 - String.length p) a ∧
     ((String.length p + String.length a ≤ 99)%nat → address m = a)) ∧
  (∀ err, ∃ b m,
     Bytes (newErrorMessage idCounter k err) = Ok b ∧
     newServerMessage {| r_data := b; r_end := None |} = Ok m ∧
     messageType m = ErrorType ∧ connID m = k ∧
     Err_ m = Ok (error_of (String.substring 0 100 (Error err)))).
Proof.
  intros Hk. assert (int64 k) as Hk' by (unfold int64; lia).
  pose proof (nextid_int64 idCounter) as Hid. split_and!.
  - intros d data Hd.
    assert (fits (newMessage idCounter k d data)) as Hf.
    { by refine (conj Hid (conj Hk' (conj (conj _ _) (λ _, conj Hk _)))). }
    rewrite Bytes_fits by done. eexists. split; [done|]. by rewrite read_header.
  - intros d p a Hd Hp Hlen.
    assert (fits (newConnect idCounter k d p a)) as Hf.
    { pose proof (millis_bound d Hd).
      by refine (conj Hid (conj Hk' (conj (conj _ _) (λ _, conj Hk _)))). }
    rewrite Bytes_fits by done. eexists _, _. split; [done|]. rewrite read_connect by done.
    change (bytes (newConnect idCounter k d p a)) with (p +:+ String "/" a).
    rewrite substring_append by lia.
    replace (100 - String.length p)%nat with (S (99 - String.length p)) by lia.
    simpl String.substring. unfold SplitN2. rewrite cut_sep_char by done.
    split_and!; try done. intros Hall. simpl. apply substring_all. lia.
  - intros err.
    assert (fits (newErrorMessage idCounter k err)) as Hf.
    { by refine (conj Hid (conj Hk' (conj (conj _ _) (λ H, False_ind _ (H eq_refl))))). }
    rewrite Bytes_fits by done. eexists _, _. split; [done|]. rewrite read_header by done.
    split_and!; try done.
Qed.

Lemma message_round_trip_witness :
  ∃ b m, Bytes (newConnect 41 7 5000000000 "tcp" "10.0.0.1:80") = Ok b ∧
         newServerMessage {| r_data := b; r_end := None |} = Ok m ∧
         proto m = "tcp" ∧ address m = "10.0.0.1:80" ∧ deadline m = 5000.
Proof.
  destruct (message_round_trip 41 7 ltac:(lia)) as (_ & Hc & _).
  destruct (Hc 5000000000 "tcp" "10.0.0.1:80") as (b & m & Hb & Hm & _ & _ & Hd & Hp & _ & Ha);
    [unfold int64; lia|done|simpl; lia|].
  exists b, m. split_and!; try done. apply Ha. simpl. lia.
Defined.

End TunnelMessage.
