(* ===== verification/Tunnel.v ===== *)
(** * The reverse tunnel: connections and sessions

    One end of a tunnel (pkg/remotedialer: connection.go, session.go,
    client_dialer.go).  A session multiplexes connections over one websocket.
    Connections are shared objects: the session's table, the goroutine that pipes
    a connection and the caller that dialled it all hold the pointer, so the
    state has a heap of connections, and a connection stays on it after it has
    left the table.  The goroutines run the operations in any order; the locks
    of the code make each of them one step. *)

From stdpp Require Import base gmap list strings.
From Stdlib Require Import Ascii ZArith Lia.
From S2P Require Import Prelude.
From S2P Require Import GoLib.
From S2P Require Import TunnelMessage.
Import TunnelMessage.

Open Scope go_scope.
Open Scope Z_scope.

Module Tunnel.

(** ** The outside: the websocket, the clock, and the order of map iteration *)

Class Net (S : Type) := {
  (** [wsConn.WriteMessage] *)
  ws_WriteMessage : string → S → option goerr * S;
  (** How reading the rest of a websocket message hands out its bytes. *)
  chunks : string → S → list string;
  (** [t.Sub(time.Now()).Nanoseconds()] *)
  sub_Now : Z → S → Z;
  (** [range s.conns] *)
  conn_order : gmap Z nat → S → list (Z * nat) }.

(** The concatenation of a list of byte sequences. *)
Definition cat (l : list string) : string := foldr String.append "" l.

(** What the code relies on: a reader hands out all its bytes, in order and never
    none of them; a duration is an int64; a map is iterated once per key. *)
Class NetLaws (S : Type) `{!Net S} := {
  chunks_cat x s : cat (chunks x s) = x;
  chunks_full x s : "" ∉ chunks x s;
  sub_Now_int64 t s : int64 (sub_Now t s);
  conn_order_perm m s : conn_order m s ≡ₚ map_to_list m }.

(** ** State *)

Record connection := {
  c_err : option goerr;
  writeDeadline : option Z;
  buf : list string;
  buf_open : bool;
  readBuf : string;
  addr_proto : string;
  addr_address : string;
  c_connID : Z }.

(** [make(chan []byte, 1024)] *)
Definition capacity : nat := 1024.

Definition newConnection (connID : Z) (proto address : string) : connection :=
  {| c_err := None; writeDeadline := None; buf := []; buf_open := true; readBuf := "";
     addr_proto := proto; addr_address := address; c_connID := connID |}.

Definition with_err (e : option goerr) (open : bool) (c : connection) : connection :=
  {| c_err := e; writeDeadline := writeDeadline c; buf := buf c; buf_open := open;
     readBuf := readBuf c; addr_proto := addr_proto c; addr_address := addr_address c;
     c_connID := c_connID c |}.

Definition with_buf (b : list string) (r : string) (c : connection) : connection :=
  {| c_err := c_err c; writeDeadline := writeDeadline c; buf := b; buf_open := buf_open c;
     readBuf := r; addr_proto := addr_proto c; addr_address := addr_address c;
     c_connID := c_connID c |}.

Definition with_writeDeadline (t : option Z) (c : connection) : connection :=
  {| c_err := c_err c; writeDeadline := t; buf := buf c; buf_open := buf_open c;
     readBuf := readBuf c; addr_proto := addr_proto c; addr_address := addr_address c;
     c_connID := c_connID c |}.

(** The state of a session: the counters, the table, the connections allocated so
    far, and the outside.  [dials] are the goroutines [clientDial] started. *)
Record session (S : Type) := {
  idCounter : Z;
  nextConnID : Z;
  conns : gmap Z nat;
  heap : gmap nat connection;
  fresh_ptr : nat;
  dials : list (nat * message);
  sock : S }.
Arguments idCounter {S} _.
Arguments nextConnID {S} _.
Arguments conns {S} _.
Arguments heap {S} _.
Arguments fresh_ptr {S} _.
Arguments dials {S} _.
Arguments sock {S} _.

Section session.
Context {S : Type} `{!Net S}.
Implicit Types w : session S.

Definition with_conns (m : gmap Z nat) w : session S :=
  {| idCounter := idCounter w; nextConnID := nextConnID w; conns := m; heap := heap w;
     fresh_ptr := fresh_ptr w; dials := dials w; sock := sock w |}.

Definition with_heap (h : gmap nat connection) w : session S :=
  {| idCounter := idCounter w; nextConnID := nextConnID w; conns := conns w; heap := h;
     fresh_ptr := fresh_ptr w; dials := dials w; sock := sock w |}.

Definition with_sock (ids : Z) (s : S) w : session S :=
  {| idCounter := ids; nextConnID := nextConnID w; conns := conns w; heap := heap w;
     fresh_ptr := fresh_ptr w; dials := dials w; sock := s |}.

Definition with_nextConnID (n : Z) w : session S :=
  {| idCounter := idCounter w; nextConnID := n; conns := conns w; heap := heap w;
     fresh_ptr := fresh_ptr w; dials := dials w; sock := sock w |}.

Definition with_dial (d : nat * message) w : session S :=
  {| idCounter := idCounter w; nextConnID := nextConnID w; conns := conns w; heap := heap w;
     fresh_ptr := fresh_ptr w; dials := dials w ++ [d]; sock := sock w |}.

Definition modify (f : session S → session S) : M (session S) unit := λ w, (Ok tt, f w).

(** Following a pointer; a pointer that was never allocated is nil. *)
Definition load (p : nat) : M (session S) connection := λ w,
  match heap w !! p with
  | Some c => (Ok c, w)
  | None => (Panic, w)
  end.

Definition store (p : nat) (c : connection) : M (session S) unit :=
  modify (λ w, with_heap (<[p := c]> (heap w)) w).

Definition alloc (c : connection) : M (session S) nat := λ w,
  (Ok (fresh_ptr w),
   {| idCounter := idCounter w; nextConnID := nextConnID w; conns := conns w;
      heap := <[fresh_ptr w := c]> (heap w); fresh_ptr := Datatypes.S (fresh_ptr w);
      dials := dials w; sock := sock w |}).

(** ** Writing messages *)

(** [message.WriteTo] of a message made with the next identifier: the number of
    payload bytes and the error of the websocket. *)
Definition writeMessage (mk : Z → message) : M (session S) (nat * option goerr) := λ w,
  let m := mk (idCounter w) in
  match Bytes m with
  | Ok b =>
    let '(e, s) := ws_WriteMessage b (sock w) in
    (Ok (String.length (bytes m), e), with_sock (nextid (idCounter w)) s w)
  | _ => (Panic, with_sock (nextid (idCounter w)) (sock w) w)
  end.

(** ** Connections *)

(** [c.writeErr(err)] *)
Definition writeErr (p : nat) (err : option goerr) : M (session S) unit :=
  match err with
  | None => ret tt
  | Some e =>
    let* c := load p in
    do* writeMessage (λ i, newErrorMessage i (c_connID c) e) in ret tt
  end.

(** [c.doTunnelClose(err)]; closing a closed channel panics. *)
Definition doTunnelClose (p : nat) (err : option goerr) : M (session S) unit :=
  let* c := load p in
  match c_err c with
  | Some _ => ret tt
  | None =>
    if buf_open c then store p (with_err (Some (default ErrClosedPipe err)) false c) else panic
  end.

Definition tunnelClose (p : nat) (err : option goerr) : M (session S) unit :=
  do* writeErr p err in doTunnelClose p err.

(** [chanWriter.Write(data)]: the error, if any; sending on a closed channel
    panics. *)
Definition chanWriter_Write (p : nat) (data : string) : M (session S) (option goerr) :=
  let* c := load p in
  match c_err c with
  | Some e => ret (Some e)
  | None =>
    if negb (buf_open c) then panic else
    if (length (buf c) <? capacity)%nat
    then do* store p (with_buf (buf c ++ [data]) (readBuf c) c) in ret None
    else ret (Some (PlainError "backed up reader"))
  end.

(** [n := copy(b, c.readBuf); c.readBuf = c.readBuf[n:]] for a [b] of [n] bytes. *)
Definition copyData (p n : nat) : M (session S) string :=
  let* c := load p in
  do* store p (with_buf (buf c)
                 (String.substring n (String.length (readBuf c) - n) (readBuf c)) c) in
  ret (String.substring 0 n (readBuf c)).

(** [c.Read(b)] for a [b] of [n] bytes: what was read and the error; [None] if the
    call blocks. *)
Definition Read (p n : nat) : M (session S) (option (string * option goerr)) :=
  if Nat.eqb n 0 then ret (Some ("", None)) else
  let* s := copyData p n in
  if negb (String.eqb s "") then ret (Some (s, None)) else
  let* c := load p in
  match buf c with
  | next :: rest =>
    do* store p (with_buf rest next c) in
    let* s := copyData p n in
    ret (Some (s, None))
  | [] =>
    if buf_open c then ret None
    else ret (Some ("", Some (default EOF (c_err c))))
  end.

(** [c.Write(b)] *)
Definition Write (p : nat) (b : string) : M (session S) (nat * option goerr) :=
  let* c := load p in
  match c_err c with
  | Some e => ret (0%nat, Some e)
  | None =>
    let* s := reads (λ w, Ok (sock w)) in
    let deadline := match writeDeadline c with
                    | None => 0
                    | Some t => Z.quot (sub_Now t s) 1000000
                    end in
    writeMessage (λ i, newMessage i (c_connID c) deadline b)
  end.

Definition SetWriteDeadline (p : nat) (t : option Z) : M (session S) unit :=
  let* c := load p in store p (with_writeDeadline t c).

(** ** Sessions *)

Definition closeConnection (connID : Z) (err : option goerr) : M (session S) unit :=
  let* conn := reads (λ w, Ok (conns w !! connID)) in
  do* modify (λ w, with_conns (delete connID (conns w)) w) in
  match conn with
  | Some p => tunnelClose p err
  | None => ret tt
  end.

(** [c.Close()] *)
Definition Close (p : nat) : M (session S) unit :=
  let* c := load p in closeConnection (c_connID c) (Some EOF).

Definition clientConnect (m : message) : M (session S) unit :=
  let* p := alloc (newConnection (connID m) (proto m) (address m)) in
  do* modify (λ w, with_conns (<[connID m := p]> (conns w)) w) in
  modify (with_dial (p, m)).

Definition serverConnect (deadline : Z) (proto address : string) : M (session S) nat :=
  let* connID := (λ w, let n := wrap64 (nextConnID w + 1) in (Ok n, with_nextConnID n w)) in
  let* p := alloc (newConnection connID proto address) in
  do* modify (λ w, with_conns (<[connID := p]> (conns w)) w) in
  let* r := writeMessage (λ i, newConnect i connID deadline proto address) in
  match snd r with
  | Some e => do* closeConnection connID (Some e) in throw e
  | None => ret p
  end.

(** [io.Copy(conn.tunnelWriter(), message)]: the chunks read, until the writer or,
    at the end, the reader fails. *)
Fixpoint Copy (p : nat) (l : list string) (stop : option goerr) : M (session S) (option goerr) :=
  match l with
  | [] => ret stop
  | x :: l =>
    let* e := chanWriter_Write p x in
    match e with
    | Some e => ret (Some e)
    | None => Copy p l stop
    end
  end.

(** [%d] of an int64. *)
Definition format_int (x : Z) : string :=
  if x <? 0 then "-" +:+ Itoa (Z.to_N (- x)) else Itoa (Z.to_N x).

Variable clientKey : string.
Variable sessionKey : Z.
Variable auth : option (string → string → bool).

(** The answer to a message for a connection that is not in the table. *)
Definition not_found (m : message) : goerr :=
  PlainError ("connection not found " +:+ clientKey +:+ "/" +:+
    format_int sessionKey +:+ "/" +:+ format_int (connID m)).

(** A data message for the connection [p]. *)
Definition serveData (p : nat) (m : message) : M (session S) unit :=
  let body := default {| r_data := ""; r_end := None |} (body m) in
  let* l := reads (λ w, Ok (chunks (r_data body) (sock w))) in
  let* e := Copy p l (r_end body) in
  match e with
  | Some e => closeConnection (connID m) (Some e)
  | None => ret tt
  end.

(** [serveMessage] once the message is decoded. *)
Definition dispatch (m : message) : M (session S) unit :=
  if messageType m =? Connect then
    match auth with
    | Some f => if f (proto m) (address m) then clientConnect m
                else throw (PlainError "connect not allowed")
    | None => clientConnect m
    end
  else
  let* conn := reads (λ w, Ok (conns w !! connID m)) in
  match conn with
  | None =>
    if messageType m =? Data
    then do* writeMessage (λ i, newErrorMessage i (connID m) (not_found m)) in ret tt
    else ret tt
  | Some p =>
    if messageType m =? Data then serveData p m
    else if messageType m =? ErrorType then
      let* e := reads (λ _, Err_ m) in
      closeConnection (connID m) (Some e)
    else ret tt
  end.

Definition serveMessage (r : reader) : M (session S) unit :=
  let* m := reads (λ _, newServerMessage r) in dispatch m.

(** [s.Close()]; the pings are stopped first. *)
Definition session_Close : M (session S) unit :=
  let* l := reads (λ w, Ok (conn_order (conns w) (sock w))) in
  do* for_each (λ kp : Z * nat, tunnelClose kp.2 (Some (PlainError "tunnel disconnect"))) l in
  modify (with_conns ∅).

(** ** The goroutine of a dialled connection

    Between them the two copy loops of [pipe] call [Read] and [Write]. *)

(** [clientDial] when the dial failed. *)
Definition dial_failed (p : nat) (err : goerr) : M (session S) unit :=
  do* tunnelClose p (Some err) in Close p.

(** The closure [close] of [pipe]. *)
Definition pipe_close (p : nat) (err : option goerr) : M (session S) unit :=
  doTunnelClose p (Some (default EOF err)).

(** The end of [pipe], and the deferred call of [clientDial]. *)
Definition pipe_end (p : nat) (err : goerr) : M (session S) unit :=
  do* writeErr p (Some err) in Close p.

(** ** The operations of an end of a tunnel

    Each is one step.  Where the code gives up a lock in the middle of an operation, or waits
    for a channel, another goroutine can come in between; that is not modelled. *)

Inductive op :=
  | OServe (r : reader)
  | OConnect (deadline : Z) (proto address : string)
  | ORead (p n : nat)
  | OWrite (p : nat) (b : string)
  | OSetWriteDeadline (p : nat) (t : option Z)
  | OClose (p : nat)
  | ODialFailed (p : nat) (err : goerr)
  | OPipeClose (p : nat) (err : option goerr)
  | OPipeEnd (p : nat) (err : goerr)
  | OSessionClose
  | OOtherIds (n : Z).

(** The counter of message identifiers belongs to the process: other sessions
    advance it too. *)
Definition other_ids (n : Z) : M (session S) unit := modify (λ w, with_sock n (sock w) w).

(** What a caller sees of an operation is forgotten, but for the bytes read. *)
Definition exec (o : op) : M (session S) string :=
  match o with
  | OServe r => do* serveMessage r in ret ""
  | OConnect d p a => do* serverConnect d p a in ret ""
  | ORead p n => let* r := Read p n in ret (match r with Some (s, _) => s | None => "" end)
  | OWrite p b => do* Write p b in ret ""
  | OSetWriteDeadline p t => do* SetWriteDeadline p t in ret ""
  | OClose p => do* Close p in ret ""
  | ODialFailed p e => do* dial_failed p e in ret ""
  | OPipeClose p e => do* pipe_close p e in ret ""
  | OPipeEnd p e => do* pipe_end p e in ret ""
  | OSessionClose => do* session_Close in ret ""
  | OOtherIds n => do* other_ids n in ret ""
  end.

End session.

End Tunnel.
