(* ===== verification/TunnelStream.v ===== *)
(** * The reverse tunnel: safety and order

    Theorems about [Tunnel]: whatever the order in which the goroutines of an end
    of a tunnel run, no operation panics, and each connection delivers the bytes
    that arrived for it in order and without gaps. *)

From stdpp Require Import base gmap list strings.
From Stdlib Require Import Ascii ZArith Lia.
From S2P Require Import Prelude.
From S2P Require Import GoLib.
From S2P Require Import TunnelMessage.
From S2P Require Import Tunnel.
Import TunnelMessage Tunnel.

Open Scope go_scope.
Open Scope Z_scope.

Module TunnelStream.

(** ** The stream of a connection *)

(** The bytes a connection holds for its reader. *)
Definition stream (c : connection) : string := readBuf c +:+ cat (buf c).

Lemma cat_app l l' : cat (l ++ l') = cat l +:+ cat l'.
Proof.
  induction l as [|x l IH]; [done|]. simpl. change (cat (l ++ l')) with (cat (l ++ l')) in IH.
  rewrite IH. apply append_assoc.
Qed.

Lemma substring_split n : ∀ s,
  String.substring 0 n s +:+ String.substring n (String.length s - n) s = s.
Proof.
  induction n as [|n IH]; intros s.
  - rewrite Nat.sub_0_r. assert (String.substring 0 0 s = "") as -> by (by destruct s).
    rewrite append_empty_l. by apply substring_all.
  - destruct s as [|c s]; [done|]. simpl. rewrite append_cons. f_equal. apply IH.
Qed.

Section stream.
Context {S : Type} `{!Net S}.
Implicit Types w : session S.

(** ** The invariant of the state *)

Definition small (k : Z) : Prop := - 2 ^ 41 ≤ k < 2 ^ 41.

Record conn_wf (c : connection) : Prop := {
  wf_open : buf_open c = true ↔ c_err c = None;
  wf_capacity : (length (buf c) ≤ capacity)%nat;
  wf_full : "" ∉ buf c;
  wf_connID : small (c_connID c) }.

Record wf w : Prop := {
  wf_heap p c : heap w !! p = Some c → conn_wf c;
  wf_conns k p : conns w !! k = Some p → ∃ c, heap w !! p = Some c ∧ c_connID c = k;
  wf_fresh p : (fresh_ptr w ≤ p)%nat → heap w !! p = None }.

(** ** What a step does to the connections

    [a p] are the bytes that arrived for [p], [d p] the bytes its reader took. *)

Record moved (a d : string) (c c' : connection) : Prop := {
  moved_connID : c_connID c' = c_connID c;
  moved_err : c_err c ≠ None → c_err c' ≠ None;
  moved_stream : ∃ acc lost, a = acc +:+ lost ∧ stream c +:+ acc = d +:+ stream c' ∧
                   (c_err c' = None → lost = "") ∧ (c_err c ≠ None → acc = "") }.

Definition moves (a d : nat → string) w w' : Prop := ∀ p,
  match heap w !! p, heap w' !! p with
  | Some c, Some c' => moved (a p) (d p) c c'
  | Some _, None => False
  | None, Some c' => a p = "" ∧ d p = "" ∧ stream c' = ""
  | None, None => a p = "" ∧ d p = ""
  end.

Definition none : nat → string := λ _, "".

Definition quiet w w' : Prop := moves none none w w'.

Lemma moved_same c c' :
  c_connID c' = c_connID c → stream c' = stream c → (c_err c ≠ None → c_err c' ≠ None) →
  moved "" "" c c'.
Proof.
  intros Hk Hs He. split; [done|done|]. exists "", "". rewrite !append_empty_r, !append_empty_l.
  by split_and!.
Qed.

Lemma moved_none c c' :
  moved "" "" c c' →
  c_connID c' = c_connID c ∧ stream c' = stream c ∧ (c_err c ≠ None → c_err c' ≠ None).
Proof.
  intros [Hk He (acc & lost & Ha & Hs & _)]. split_and!; [done| |done].
  destruct acc; [|done]. by rewrite append_empty_r, append_empty_l in Hs.
Qed.

Lemma quiet_heap w w' : heap w' = heap w → quiet w w'.
Proof.
  intros Hh p. rewrite Hh. destruct (heap w !! p); [|done]. by apply moved_same.
Qed.

Lemma moves_quiet a d w w1 w' : moves a d w w1 → quiet w1 w' → moves a d w w'.
Proof.
  intros H1 H2 p. specialize (H1 p). specialize (H2 p).
  destruct (heap w !! p) as [c|], (heap w1 !! p) as [c1|], (heap w' !! p) as [c'|];
    try done; try tauto; apply moved_none in H2 as (Hk' & Hs' & He').
  - destruct H1 as [Hk He (acc & lost & Ha & Hs & Hl & Hacc)].
    split; [congruence|tauto|]. exists acc, lost. rewrite Hs'. split_and!; try done.
    intros Hn. apply Hl. destruct (c_err c1); [|done]. by destruct (He' ltac:(done)).
  - rewrite Hs'. tauto.
Qed.

Lemma quiet_refl w : quiet w w.
Proof. by apply quiet_heap. Qed.

Lemma quiet_trans w w1 w' : quiet w w1 → quiet w1 w' → quiet w w'.
Proof. apply moves_quiet. Qed.

Lemma quiet_alloc w w' p c :
  quiet w w' → heap w !! p = Some c →
  ∃ c', heap w' !! p = Some c' ∧ c_connID c' = c_connID c ∧ (c_err c ≠ None → c_err c' ≠ None).
Proof.
  intros Hq Hp. specialize (Hq p). rewrite Hp in Hq. destruct (heap w' !! p) as [c'|]; [|done].
  apply moved_none in Hq as (? & ? & ?). eauto.
Qed.

Lemma wf_same w w' :
  wf w → heap w' = heap w → conns w' = conns w → fresh_ptr w' = fresh_ptr w → wf w'.
Proof. intros [H1 H2 H3] Hh Hc Hf. split; rewrite ?Hh, ?Hc, ?Hf; done. Qed.

(** A connection of the heap replaced by one that is as good. *)
Lemma wf_store w p c c' :
  wf w → heap w !! p = Some c → conn_wf c' → c_connID c' = c_connID c →
  wf (with_heap (<[p := c']> (heap w)) w).
Proof.
  intros [H1 H2 H3] Hp Hc' Hk. split; simpl.
  - intros q c0. destruct (decide (p = q)) as [->|].
    + rewrite lookup_insert_eq. by intros [= <-].
    + rewrite lookup_insert_ne by done. apply H1.
  - intros k q Hq. destruct (H2 k q Hq) as (c0 & Hc0 & <-).
    destruct (decide (p = q)) as [->|].
    + exists c'. rewrite lookup_insert_eq. split; [done|congruence].
    + exists c0. by rewrite lookup_insert_ne.
  - intros q Hq. assert (p ≠ q) by (intros ->; rewrite H3 in Hp by done; done).
    rewrite lookup_insert_ne by done. by apply H3.
Qed.

Lemma quiet_store w p c c' :
  heap w !! p = Some c → moved "" "" c c' →
  quiet w (with_heap (<[p := c']> (heap w)) w).
Proof.
  intros Hp Hm q. simpl. destruct (decide (p = q)) as [->|].
  - by rewrite lookup_insert_eq, Hp.
  - rewrite lookup_insert_ne by done. by apply quiet_refl.
Qed.

Lemma wf_conns_sub w m : wf w → m ⊆ conns w → wf (with_conns m w).
Proof.
  intros [H1 H2 H3] Hm. split; simpl; try done. intros k p Hp. apply H2. by eapply lookup_weaken.
Qed.

(** ** Operations that move no bytes *)

(** The operation does not panic, and keeps the invariant and the streams. *)
Definition steady {A} (m : M (session S) A) w : Prop :=
  wp m (if_ok (λ _ w', wf w' ∧ quiet w w') (λ _ w', wf w' ∧ quiet w w')) w.

Lemma steady_ret {A} (a : A) w : wf w → steady (ret a) w.
Proof. split; [done|apply quiet_refl]. Qed.

Lemma steady_throw {A} e w : wf w → steady (throw (A:=A) e) w.
Proof. split; [done|apply quiet_refl]. Qed.

Lemma steady_bind {A B} (m : M (session S) A) (k : A → M (session S) B) w :
  steady m w → (∀ a w', m w = (Ok a, w') → wf w' → quiet w w' → steady (k a) w') →
  steady (bind m k) w.
Proof.
  unfold steady, wp, bind. intros Hm Hk. destruct (m w) as [[a|e| |] w'] eqn:E; try done.
  destruct Hm as [Hwf Hq]. specialize (Hk a w' eq_refl Hwf Hq).
  destruct (k a w') as [[] w'']; simpl in *; try done;
    destruct Hk; split; try done; by eapply quiet_trans.
Qed.

Lemma steady_reads {A} (f : session S → outcome A) w :
  wf w → f w ≠ Panic → f w ≠ OutOfFuel → steady (reads f) w.
Proof.
  intros Hwf Hp Ho. unfold steady, wp, reads. simpl.
  destruct (f w); simpl; try done; (split; [done|apply quiet_refl]).
Qed.

Lemma steady_load p w c :
  wf w → heap w !! p = Some c → ∀ A (k : connection → M (session S) A),
  steady (k c) w → steady (bind (load p) k) w.
Proof. intros Hwf Hp A k Hk. unfold steady, wp, bind, load in *. by rewrite Hp. Qed.

Lemma steady_write mk w : wf w → (∀ i, fits (mk i)) → steady (writeMessage mk) w.
Proof.
  intros Hwf Hf. unfold steady, wp, writeMessage. rewrite Bytes_fits by done.
  destruct (ws_WriteMessage _ _) as [e s]. simpl.
  split; [by eapply wf_same|by apply quiet_heap].
Qed.

Lemma steady_modify f w : wf (f w) → quiet w (f w) → steady (modify f) w.
Proof. done. Qed.

Lemma fits_error i k e : int64 k → fits (newErrorMessage i k e).
Proof.
  intros Hk. pose proof (nextid_int64 i).
  by refine (conj _ (conj Hk (conj (conj _ _) (λ H, False_ind _ (H eq_refl))))).
Qed.

Lemma small_int64 k : small k → int64 k.
Proof. unfold small, int64. lia. Qed.

Lemma steady_writeErr p err w :
  wf w → is_Some (heap w !! p) → steady (writeErr p err) w.
Proof.
  intros Hwf [c Hp]. destruct err as [e|]; [|by apply steady_ret].
  eapply steady_load; [done..|]. apply steady_bind; [|intros; by apply steady_ret].
  apply steady_write; [done|]. intros i. apply fits_error, small_int64, (wf_heap _ Hwf _ _ Hp).
Qed.

Lemma steady_doTunnelClose p err w :
  wf w → is_Some (heap w !! p) → steady (doTunnelClose p err) w.
Proof.
  intros Hwf [c Hp]. eapply steady_load; [done..|].
  pose proof (wf_heap _ Hwf _ _ Hp) as [Hopen Hcap Hfull Hid].
  destruct (c_err c) eqn:E; [by apply steady_ret|].
  rewrite (proj2 Hopen eq_refl). apply steady_modify.
  - eapply wf_store; [done..| |done]. by split.
  - eapply quiet_store; [done|]. by apply moved_same.
Qed.

(** Once closed, a connection has an error. *)
Definition closed p w : Prop := ∃ c, heap w !! p = Some c ∧ c_err c ≠ None.

Lemma closed_quiet p w w' : closed p w → quiet w w' → closed p w'.
Proof.
  intros (c & Hp & He) Hq. destruct (quiet_alloc _ _ _ _ Hq Hp) as (c' & Hp' & _ & He').
  exists c'. split; [done|by apply He'].
Qed.

Lemma doTunnelClose_closes p err w r w' :
  wf w → is_Some (heap w !! p) → doTunnelClose p err w = (r, w') → closed p w'.
Proof.
  intros Hwf [c Hp]. unfold doTunnelClose, bind, load. rewrite Hp.
  destruct (c_err c) eqn:E.
  - intros [= <- <-]. exists c. split; [done|]. by rewrite E.
  - rewrite (proj2 (wf_open _ (wf_heap _ Hwf _ _ Hp)) E). intros [= <- <-].
    eexists. simpl. rewrite lookup_insert_eq. done.
Qed.

(** A sequence of operations on an allocated connection. *)
Lemma steady_seq {A B} p (m : M (session S) A) (k : A → M (session S) B) w :
  is_Some (heap w !! p) → steady m w →
  (∀ a w', wf w' → is_Some (heap w' !! p) → steady (k a) w') → steady (bind m k) w.
Proof.
  intros [c Hp] Hm Hk. apply steady_bind; [done|]. intros a w' _ Hwf Hq. apply Hk; [done|].
  destruct (quiet_alloc _ _ _ _ Hq Hp) as (c' & Hp' & _). eauto.
Qed.

Lemma steady_tunnelClose p err w :
  wf w → is_Some (heap w !! p) → steady (tunnelClose p err) w.
Proof.
  intros Hwf Hp. apply (steady_seq p); [done|by apply steady_writeErr|].
  intros _ w' Hwf' Hp'. by apply steady_doTunnelClose.
Qed.

Lemma tunnelClose_closes p err w r w' :
  wf w → is_Some (heap w !! p) → tunnelClose p err w = (r, w') → closed p w'.
Proof.
  intros Hwf [c Hp]. unfold tunnelClose, bind. pose proof (steady_writeErr p err w Hwf) as Hs.
  unfold steady, wp in Hs. specialize (Hs ltac:(eauto)).
  unfold writeErr, bind, load in *. destruct err as [e|].
  - rewrite Hp in *. unfold writeMessage in *.
    rewrite Bytes_fits in * by (apply fits_error, small_int64, (wf_heap _ Hwf _ _ Hp)).
    destruct (ws_WriteMessage _ _) as [e' s]. simpl in *. destruct Hs as [Hwf' _].
    apply doTunnelClose_closes; [done|]. simpl. eauto.
  - apply doTunnelClose_closes; [done|eauto].
Qed.

Lemma steady_closeConnection k err w : wf w → steady (closeConnection k err) w.
Proof.
  intros Hwf. apply steady_bind; [by apply steady_reads|].
  intros conn w1 [= <- <-] _ _. apply steady_bind.
  { apply steady_modify; [|by apply quiet_heap]. apply wf_conns_sub; [done|]. apply delete_subseteq. }
  intros [] w2 [= <-] Hwf2 _. destruct (conns w !! k) as [p|] eqn:Hk; [|by apply steady_ret].
  apply steady_tunnelClose; [done|]. destruct (wf_conns _ Hwf _ _ Hk) as (c & Hp & _). simpl. eauto.
Qed.

Lemma closeConnection_closes k p err w r w' :
  wf w → conns w !! k = Some p → closeConnection k err w = (r, w') → closed p w'.
Proof.
  intros Hwf Hk. unfold closeConnection, bind, reads, modify. rewrite Hk.
  apply tunnelClose_closes.
  - apply wf_conns_sub; [done|]. apply delete_subseteq.
  - destruct (wf_conns _ Hwf _ _ Hk) as (c & Hp & _). simpl. eauto.
Qed.

Lemma steady_Close p w : wf w → is_Some (heap w !! p) → steady (Close p) w.
Proof. intros Hwf [c Hp]. eapply steady_load; [done..|]. by apply steady_closeConnection. Qed.

Lemma steady_for_each {A} (f : A → M (session S) unit) (P : A → session S → Prop) l w :
  wf w → Forall (λ x, P x w) l →
  (∀ x w, wf w → P x w → steady (f x) w) → (∀ x w w', P x w → quiet w w' → P x w') →
  steady (for_each f l) w.
Proof.
  intros Hwf Hl Hf Hmono. revert w Hwf Hl. induction l as [|x l IH]; intros w Hwf Hl; simpl.
  - by apply steady_ret.
  - inversion_clear Hl as [|?? Hx Hl']. apply steady_bind; [by apply Hf|].
    intros [] w' _ Hwf' Hq. apply IH; [done|]. eapply Forall_impl; [done|]. intros y Hy. exact (Hmono _ _ _ Hy Hq).
Qed.

Lemma steady_session_Close `{!NetLaws S} w : wf w → steady session_Close w.
Proof.
  intros Hwf. apply steady_bind; [by apply steady_reads|]. intros l w1 [= <- <-] _ _.
  apply steady_bind.
  - apply (steady_for_each _ (λ kp w, is_Some (heap w !! kp.2))); [done| | |].
    + apply Forall_forall. intros [k p] Hkp. rewrite conn_order_perm in Hkp.
      apply elem_of_map_to_list in Hkp. destruct (wf_conns _ Hwf _ _ Hkp) as (c & Hp & _). by eexists.
    + intros [k p] w0 Hwf0 Hp. by apply steady_tunnelClose.
    + intros [k p] w0 w0' [c Hp] Hq. destruct (quiet_alloc _ _ _ _ Hq Hp) as (c' & Hp' & _). by eexists.
  - intros [] w2 _ Hwf2 _. apply steady_modify; [|by apply quiet_heap].
    apply wf_conns_sub; [done|]. apply map_empty_subseteq.
Qed.

(** A new connection in the table. *)
Definition entered (c : connection) w : session S :=
  with_conns (<[c_connID c := fresh_ptr w]> (conns w))
    {| idCounter := idCounter w; nextConnID := nextConnID w; conns := conns w;
       heap := <[fresh_ptr w := c]> (heap w); fresh_ptr := Datatypes.S (fresh_ptr w);
       dials := dials w; sock := sock w |}.

Lemma wf_entered k p a w : wf w → small k → wf (entered (newConnection k p a) w).
Proof.
  intros [H1 H2 H3] Hk. split; simpl.
  - intros q c. destruct (decide (fresh_ptr w = q)) as [->|].
    + rewrite lookup_insert_eq. intros [= <-]. split; [done|simpl; lia|by apply not_elem_of_nil|done].
    + rewrite lookup_insert_ne by done. apply H1.
  - intros k' q. destruct (decide (k = k')) as [->|].
    + rewrite lookup_insert_eq. intros [= <-]. eexists. by rewrite lookup_insert_eq.
    + rewrite lookup_insert_ne by done. intros Hq. destruct (H2 _ _ Hq) as (c & Hc & <-).
      exists c. rewrite lookup_insert_ne; [done|]. intros <-. by rewrite H3 in Hc.
  - intros q Hq. rewrite lookup_insert_ne by lia. apply H3. lia.
Qed.

Lemma quiet_entered k p a w : wf w → quiet w (entered (newConnection k p a) w).
Proof.
  intros [_ _ H3] q. simpl. destruct (decide (fresh_ptr w = q)) as [<-|].
  - rewrite lookup_insert_eq. by rewrite H3.
  - rewrite lookup_insert_ne by done. apply quiet_refl.
Qed.

Lemma steady_enter {A} k p a (f : nat → M (session S) A) w :
  wf w → small k → steady (f (fresh_ptr w)) (entered (newConnection k p a) w) →
  steady (let* q := alloc (newConnection k p a) in
          do* modify (λ w, with_conns (<[k := q]> (conns w)) w) in f q) w.
Proof.
  intros Hwf Hk. pose proof (quiet_entered k p a w Hwf) as Hq.
  unfold steady, wp, bind, alloc, modify. change (with_conns _ _) with (entered (newConnection k p a) w).
  destruct (f (fresh_ptr w) (entered (newConnection k p a) w)) as [[] w']; simpl; try done;
    (intros [? ?]; split; [done|by eapply quiet_trans]).
Qed.

Lemma steady_clientConnect m w : wf w → small (connID m) → steady (clientConnect m) w.
Proof.
  intros Hwf Hk. apply steady_enter; [done..|].
  apply steady_modify; [|by apply quiet_heap].
  eapply wf_same; [by apply (wf_entered (connID m) (proto m) (address m) w)|done..].
Qed.

Lemma wrap64_small k : - 2 ^ 41 ≤ k < 2 ^ 41 - 1 → wrap64 (k + 1) = k + 1.
Proof. intros Hk. unfold wrap64. rewrite Z.mod_small by lia. lia. Qed.

Lemma steady_serverConnect d p a w :
  wf w → int64 d → - 2 ^ 41 ≤ nextConnID w < 2 ^ 41 - 1 → steady (serverConnect d p a) w.
Proof.
  intros Hwf Hd Hn. unfold serverConnect.
  assert (small (wrap64 (nextConnID w + 1))) as Hsmall.
  { rewrite wrap64_small by done. unfold small. lia. }
  apply steady_bind.
  { split; [by eapply wf_same|by apply quiet_heap]. }
  intros k w1 [= <- <-] Hwf1 _. set (k := wrap64 (nextConnID w + 1)) in *.
  apply steady_enter; [done..|].
  assert (wf (entered (newConnection k p a) (with_nextConnID k w))) as Hwf2 by (by apply wf_entered).
  apply steady_bind.
  { apply steady_write; [done|]. intros i. pose proof (nextid_int64 i). pose proof (millis_bound d Hd).
    by refine (conj _ (conj (small_int64 _ Hsmall) (conj (conj _ _) (λ _, conj Hsmall _)))). }
  intros [n [e|]] w3 _ Hwf3 _; simpl; [|by apply steady_ret].
  apply steady_bind; [by apply steady_closeConnection|]. intros. by apply steady_throw.
Qed.

Lemma steady_SetWriteDeadline p t w :
  wf w → is_Some (heap w !! p) → steady (SetWriteDeadline p t) w.
Proof.
  intros Hwf [c Hp]. eapply steady_load; [done..|]. apply steady_modify.
  - eapply wf_store; [done..| |done]. by destruct (wf_heap _ Hwf _ _ Hp).
  - eapply quiet_store; [done|]. by apply moved_same.
Qed.

Lemma steady_Write `{!NetLaws S} p b w :
  wf w → is_Some (heap w !! p) → steady (Write p b) w.
Proof.
  intros Hwf [c Hp]. eapply steady_load; [done..|].
  destruct (c_err c); [by apply steady_ret|].
  apply steady_bind; [by apply steady_reads|]. intros s w1 [= <- <-] _ _.
  apply steady_write; [done|]. intros i. pose proof (nextid_int64 i).
  pose proof (wf_connID _ (wf_heap _ Hwf _ _ Hp)) as Hk.
  refine (conj _ (conj (small_int64 _ Hk) (conj (conj _ _) (λ _, conj Hk _)))); try done.
  simpl. destruct (writeDeadline c) as [t|]; [|lia]. apply millis_bound, sub_Now_int64.
Qed.

Lemma steady_dial_failed p e w : wf w → is_Some (heap w !! p) → steady (dial_failed p e) w.
Proof.
  intros Hwf Hp. apply (steady_seq p); [done|by apply steady_tunnelClose|].
  intros. by apply steady_Close.
Qed.

Lemma steady_pipe_end p e w : wf w → is_Some (heap w !! p) → steady (pipe_end p e) w.
Proof.
  intros Hwf Hp. apply (steady_seq p); [done|by apply steady_writeErr|].
  intros. by apply steady_Close.
Qed.

(** ** Reading *)

(** The state with the connection [p] replaced. *)
Definition put_conn (p : nat) (c : connection) w : session S :=
  with_heap (<[p := c]> (heap w)) w.

Lemma put_conn_same p c w : heap w !! p = Some c → put_conn p c w = w.
Proof. intros Hp. unfold put_conn, with_heap. rewrite insert_id by done. by destruct w. Qed.

Lemma put_conn_twice p c c' w : put_conn p c' (put_conn p c w) = put_conn p c' w.
Proof. unfold put_conn, with_heap. simpl. by rewrite insert_insert_eq. Qed.

Lemma put_conn_lookup p c w : heap (put_conn p c w) !! p = Some c.
Proof. apply lookup_insert_eq. Qed.

Definition at_ (p : nat) (s : string) : nat → string := λ q, if decide (q = p) then s else "".

Lemma moves_put a d p c c' w :
  heap w !! p = Some c → moved a d c c' → moves (at_ p a) (at_ p d) w (put_conn p c' w).
Proof.
  intros Hp Hm q. unfold at_. simpl. destruct (decide (q = p)) as [->|Hne].
  - by rewrite lookup_insert_eq, Hp.
  - rewrite lookup_insert_ne by done. by apply (quiet_refl w).
Qed.

Lemma bind_run {A B} (m : M (session S) A) (k : A → M (session S) B) w a w' :
  m w = (Ok a, w') → bind m k w = k a w'.
Proof. unfold bind. by intros ->. Qed.

Lemma load_run p w c : heap w !! p = Some c → load p w = (Ok c, w).
Proof. unfold load. by intros ->. Qed.

Lemma copyData_run p n w c :
  heap w !! p = Some c →
  copyData p n w =
  (Ok (String.substring 0 n (readBuf c)),
   put_conn p (with_buf (buf c)
     (String.substring n (String.length (readBuf c) - n) (readBuf c)) c) w).
Proof. intros Hp. unfold copyData, bind, load. by rewrite Hp. Qed.

(** What a call of [Read] with room for [n] bytes does to its connection. *)
Record read_post (n : nat) (c c' : connection) (r : option (string * option goerr)) : Prop := {
  read_same : c_err c' = c_err c ∧ c_connID c' = c_connID c ∧ buf_open c' = buf_open c;
  read_buf : buf c' = buf c ∨ ∃ x, buf c = x :: buf c';
  read_result :
    match r with
    | Some (s, None) => s ≠ "" ∧ stream c = s +:+ stream c'
    | Some (s, Some e) =>
      s = "" ∧ stream c = "" ∧ stream c' = "" ∧ buf_open c = false ∧ e = default EOF (c_err c)
    | None => stream c = "" ∧ stream c' = "" ∧ buf_open c = true
    end }.

Lemma substring_some n s : (0 < n)%nat → s ≠ "" → String.substring 0 n s ≠ "".
Proof. destruct n; [lia|]. by destruct s. Qed.

Lemma stream_split c n :
  stream c = String.substring 0 n (readBuf c) +:+
    stream (with_buf (buf c) (String.substring n (String.length (readBuf c) - n) (readBuf c)) c).
Proof. unfold stream. simpl. by rewrite append_assoc, substring_split. Qed.

Lemma Read_run p n w c :
  (0 < n)%nat → heap w !! p = Some c → conn_wf c →
  ∃ r c', Read p n w = (Ok r, put_conn p c' w) ∧ read_post n c c' r.
Proof.
  intros Hn Hp Hc. unfold Read. destruct (Nat.eqb_spec n 0); [lia|].
  rewrite (bind_run _ _ _ _ _ (copyData_run p n w c Hp)).
  set (c1 := with_buf _ _ _). destruct (String.eqb_spec (String.substring 0 n (readBuf c)) "") as [E|Hne].
  - assert (readBuf c = "") as Hr.
    { destruct (decide (readBuf c = "")) as [|Hs]; [done|]. by apply (substring_some n) in Hs. }
    assert (c1 = c) as Hc1.
    { unfold c1. rewrite Hr. simpl. destruct n; destruct c; simpl in *; by rewrite Hr. }
    rewrite Hc1, put_conn_same by done. cbn [negb].
    rewrite (bind_run _ _ _ _ _ (load_run p w c Hp)).
    destruct (buf c) as [|next rest] eqn:Eb.
    + assert (stream c = "") as Hs by (unfold stream; by rewrite Hr, Eb).
      exists (if buf_open c then None else Some ("", Some (default EOF (c_err c)))), c.
      rewrite put_conn_same by done.
      split; [by destruct (buf_open c)|]. split; [done|by left|]. by destruct (buf_open c).
    + set (c2 := with_buf rest next c).
      rewrite (bind_run (store p c2) _ w tt (put_conn p c2 w)) by done.
      rewrite (bind_run _ _ _ _ _ (copyData_run p n _ c2 (put_conn_lookup _ _ _))).
      rewrite put_conn_twice. eexists _, _. split; [done|]. split; [done|by right; exists next|].
      split.
      * apply substring_some; [done|]. intros E2. apply (wf_full _ Hc). rewrite Eb.
        assert (next = "") as -> by exact E2. by left.
      * etrans; [|apply (stream_split c2 n)]. unfold stream. by rewrite Hr, Eb.
  - exists (Some (String.substring 0 n (readBuf c), None)), c1. split; [done|].
    split; [done|by left|]. split; [done|]. apply stream_split.
Qed.

Lemma read_post_moved n c c' r :
  read_post n c c' r →
  moved "" (match r with Some (s, _) => s | None => "" end) c c'.
Proof.
  intros [(He & Hk & Ho) _ Hr]. split; [done|by rewrite He|]. exists "", "".
  rewrite !append_empty_r. split_and!; [done| |done|done].
  destruct r as [[s [e|]]|]; [|naive_solver|]; destruct_and!; subst; rewrite append_empty_l; congruence.
Qed.

Lemma read_post_wf n c c' r : conn_wf c → read_post n c c' r → conn_wf c'.
Proof.
  intros [H1 H2 H3 H4] [(He & Hk & Ho) Hb _]. split; [by rewrite He, Ho| | |by rewrite Hk].
  - destruct Hb as [->|[x E]]; [done|]. rewrite E in H2. simpl in H2. lia.
  - destruct Hb as [->|[x E]]; [done|]. rewrite E in H3. set_solver.
Qed.

(** ** Serving a message *)

(** The connection after part of the bytes of a message went into its channel. *)
Record copied (x : string) (e stop : option goerr) (c c' : connection) : Prop := {
  copied_wf : conn_wf c';
  copied_same : c_err c' = c_err c ∧ c_connID c' = c_connID c;
  copied_stream : ∃ acc lost, x = acc +:+ lost ∧ stream c' = stream c +:+ acc ∧
    (e = None → lost = "") ∧ (c_err c ≠ None → acc = "") }.

Lemma Copy_run p l stop : ∀ w c,
  heap w !! p = Some c → conn_wf c → "" ∉ l →
  ∃ e c', Copy p l stop w = (Ok e, put_conn p c' w) ∧ copied (cat l) e stop c c'.
Proof.
  induction l as [|x l IH]; intros w c Hp Hc Hl.
  - exists stop, c. rewrite put_conn_same by done. split; [done|]. split; [done|done|].
    exists "", "". rewrite !append_empty_r. by split_and!.
  - cbn [Copy]. assert (x ≠ "" ∧ "" ∉ l) as [Hx Hl'] by set_solver.
    destruct (c_err c) as [e|] eqn:Ee.
    { exists (Some e), c. rewrite (bind_run _ _ w (Some e) w), put_conn_same; [|done|].
      - split; [done|]. split; [done|done|]. exists "", (cat (x :: l)). rewrite append_empty_r. by split_and!.
      - unfold chanWriter_Write. rewrite (bind_run _ _ _ _ _ (load_run _ _ _ Hp)), Ee. done. }
    assert (buf_open c = true) as Hopen by (by apply (wf_open _ Hc)).
    destruct (Nat.ltb_spec (length (buf c)) capacity) as [Hlt|Hge].
    + set (c1 := with_buf (buf c ++ [x]) (readBuf c) c).
      rewrite (bind_run _ _ w None (put_conn p c1 w)); last first.
      { unfold chanWriter_Write. rewrite (bind_run _ _ _ _ _ (load_run _ _ _ Hp)), Ee, Hopen.
        cbn [negb]. by destruct (Nat.ltb_spec (length (buf c)) capacity); [|lia]. }
      destruct Hc as [H1 H2 H3 H4].
      assert (conn_wf c1) as Hc1.
      { split; simpl; [done| | |done].
        - rewrite length_app. simpl. lia.
        - set_solver. }
      destruct (IH (put_conn p c1 w) c1) as (e & c' & Hrun & [Hwf [He Hk] (acc & lost & Hacc & Hs & Hlost & _)]);
        [apply put_conn_lookup|done|done|].
      exists e, c'. rewrite Hrun, put_conn_twice. split; [done|]. split; [done|done|].
      exists (x +:+ acc), lost. rewrite <-append_assoc, <-Hacc. split_and!; [done| |done|congruence].
      rewrite Hs. unfold stream. simpl. rewrite cat_app. simpl.
      by rewrite append_empty_r, !append_assoc.
    + exists (Some (PlainError "backed up reader")), c.
      rewrite (bind_run _ _ w (Some (PlainError "backed up reader")) w), put_conn_same; [|done|].
      * split; [done|]. split; [done|done|]. exists "", (cat (x :: l)). rewrite append_empty_r. by split_and!.
      * unfold chanWriter_Write. rewrite (bind_run _ _ _ _ _ (load_run _ _ _ Hp)), Ee, Hopen.
        cbn [negb]. by destruct (Nat.ltb_spec (length (buf c)) capacity); [lia|].
Qed.

Definition empty_reader : reader := {| r_data := ""; r_end := None |}.

(** The bytes an operation brings for the connection [p]. *)
Definition arrives (o : op) w (p : nat) : string :=
  match o with
  | OServe r =>
    match newServerMessage r with
    | Ok m =>
      if (messageType m =? Data) && bool_decide (conns w !! connID m = Some p)
      then r_data (default empty_reader (body m)) else ""
    | _ => ""
    end
  | _ => ""
  end.

(** The bytes it hands to the reader of [p]. *)
Definition delivers (o : op) (r : outcome string) (p : nat) : string :=
  match o, r with
  | ORead q _, Ok s => at_ q s p
  | _, _ => ""
  end.

(** The operations the goroutines call: on connections that exist, and with
    connection numbers of 41 bits. *)
Definition allowed (o : op) w : Prop :=
  match o with
  | OServe r => ∀ m, newServerMessage r = Ok m → messageType m = Connect → small (connID m)
  | OConnect d _ _ => int64 d ∧ - 2 ^ 41 ≤ nextConnID w < 2 ^ 41 - 1
  | ORead p _ | OWrite p _ | OSetWriteDeadline p _ | OClose p | ODialFailed p _
  | OPipeClose p _ | OPipeEnd p _ => is_Some (heap w !! p)
  | OSessionClose | OOtherIds _ => True
  end.

Lemma moves_ext a d a' d' w w' :
  moves a d w w' → (∀ p, a p = a' p) → (∀ p, d p = d' p) → moves a' d' w w'.
Proof. intros Hm Ha Hd p. rewrite <-Ha, <-Hd. apply Hm. Qed.

(** An operation returns, and the bytes move as they should. *)
Definition step_ok (o : op) w (r : outcome string) w' : Prop :=
  defined r ∧ wf w' ∧ moves (arrives o w) (delivers o r) w w'.

Lemma steady_step {A} (m : M (session S) A) o w :
  steady m w → (∀ p, arrives o w p = "") → (∀ r p, delivers o r p = "") →
  wp (do* m in ret "") (step_ok o w) w.
Proof.
  unfold steady, wp, bind, step_ok. intros Hm Ha Hd.
  destruct (m w) as [[] w']; simpl in *; try done; destruct Hm as [Hwf Hq];
    (split_and!; [done|done|]; by eapply moves_ext).
Qed.

Lemma Read_step clientKey sessionKey auth p n w :
  wf w → is_Some (heap w !! p) →
  wp (exec clientKey sessionKey auth (ORead p n)) (step_ok (ORead p n) w) w.
Proof.
  intros Hwf [c Hp]. unfold wp, exec. destruct (decide (n = 0%nat)) as [->|Hn].
  { simpl. split_and!; [done|done|]. eapply moves_ext; [apply (quiet_refl w)|done|].
    intros q. simpl. unfold at_. by case_decide. }
  pose proof (wf_heap _ Hwf _ _ Hp) as Hc.
  destruct (Read_run p n w c) as (r & c' & Hrun & Hpost); [lia|done|done|].
  rewrite (bind_run _ _ _ _ _ Hrun). split_and!; [done| |].
  - eapply wf_store; [done..| |apply Hpost]. by eapply read_post_wf.
  - eapply moves_ext; [eapply moves_put; [done|by eapply (read_post_moved n c c' r)]| |done].
    intros q. unfold at_. by case_decide.
Qed.

(** The bytes of a data message, taken or refused. *)
Lemma copied_moved x e stop c c' c2 :
  copied x e stop c c' → moved "" "" c' c2 → (e ≠ None → c_err c2 ≠ None) → moved x "" c c2.
Proof.
  intros [_ [He Hk] (acc & lost & Hx & Hs & Hl & Hacc)] Hm He2.
  apply moved_none in Hm as (Hk2 & Hs2 & Herr). split; [congruence|by rewrite <-He|].
  exists acc, lost. rewrite append_empty_l, Hs2. split_and!; try done.
  intros Hn. apply Hl. destruct e; [|done]. by destruct (He2 ltac:(done)).
Qed.

Lemma serveData_ok `{!NetLaws S} m p w :
  wf w → conns w !! connID m = Some p →
  wp (serveData p m)
     (λ r w', defined r ∧ wf w' ∧
        moves (at_ p (r_data (default empty_reader (body m)))) none w w') w.
Proof.
  unfold serveData. change {| r_data := ""; r_end := None |} with empty_reader.
  generalize (r_data (default empty_reader (body m))) (r_end (default empty_reader (body m))) (connID m).
  clear m. intros x stop k.
  intros Hwf Hk. destruct (wf_conns _ Hwf _ _ Hk) as (c & Hp & _).
  unfold wp. rewrite (bind_run (reads (λ w, Ok (chunks x (sock w)))) _ w (chunks x (sock w)) w) by done.
  destruct (Copy_run p (chunks x (sock w)) stop w c) as (e & c' & Hrun & Hcop);
    [done|by eapply wf_heap|apply chunks_full|].
  rewrite (bind_run _ _ _ _ _ Hrun). rewrite chunks_cat in Hcop.
  assert (wf (put_conn p c' w)) as Hwf' by (eapply wf_store; [done..|apply Hcop|apply Hcop]).
  assert (∀ w2, quiet (put_conn p c' w) w2 → (e ≠ None → closed p w2) → moves (at_ p x) none w w2) as Hmv.
  { intros w2 Hq Hcl q. pose proof (Hq q) as Hq'. unfold at_.
    destruct (decide (q = p)) as [->|Hne].
    - rewrite put_conn_lookup in Hq'. rewrite Hp.
      destruct (heap w2 !! p) as [c2|] eqn:Ep; [|done].
      eapply copied_moved; [done..|]. intros Hn. destruct (Hcl Hn) as (c3 & Ec & Hc3). naive_solver.
    - simpl in Hq'. by rewrite lookup_insert_ne in Hq' by done. }
  destruct e as [e|].
  - pose proof (steady_closeConnection k (Some e) _ Hwf') as Hs. unfold steady, wp in Hs.
    destruct (closeConnection k (Some e) (put_conn p c' w)) as [r w2] eqn:Hcl.
    apply (closeConnection_closes _ p) in Hcl; [|done|done].
    destruct r; simpl in *; try done; destruct Hs; split_and!; try done; by apply Hmv.
  - simpl. split_and!; [done|done|]. apply Hmv; [apply quiet_refl|done].
Qed.

Section run.
Context `{!NetLaws S}.
Variable clientKey : string.
Variable sessionKey : Z.
Variable auth : option (string → string → bool).

(** Everything but a data message for a connection of the table. *)
Lemma steady_dispatch m w :
  wf w → int64 (connID m) → m_err m = None → is_Some (body m) →
  (messageType m = Connect → small (connID m)) →
  messageType m ≠ Data ∨ conns w !! connID m = None →
  steady (dispatch clientKey sessionKey auth m) w.
Proof.
  intros Hwf Hk _ Hbody Hsmall Hd. unfold dispatch.
  destruct (Z.eqb_spec (messageType m) Connect) as [Hc|Hc].
  { assert (steady (clientConnect m) w) by (apply steady_clientConnect; [done|by apply Hsmall]).
    destruct auth as [f|]; [|done]. destruct (f _ _); [done|]. by apply (steady_throw (A:=unit)). }
  apply steady_bind; [by apply steady_reads|]. intros conn w1 [= <- <-] _ _.
  destruct (conns w !! connID m) as [p|] eqn:Ec.
  - destruct Hd as [Hd|]; [|done]. destruct (Z.eqb_spec (messageType m) Data); [done|].
    destruct (messageType m =? ErrorType); [|by apply steady_ret].
    pose proof (Err_defined m (or_intror Hbody)) as He.
    apply steady_bind; [apply steady_reads; [done|..]; by destruct (Err_ m)|].
    intros e w2 _ Hwf2 _. by apply steady_closeConnection.
  - destruct (messageType m =? Data); [|by apply steady_ret].
    apply steady_bind; [|intros; by apply steady_ret].
    apply steady_write; [done|]. intros i. by apply fits_error.
Qed.

Lemma arrives_data r m p w q :
  newServerMessage r = Ok m → messageType m = Data → conns w !! connID m = Some p →
  arrives (OServe r) w q = at_ p (r_data (default empty_reader (body m))) q.
Proof.
  intros Em Ed Ec. unfold arrives, at_. rewrite Em, Ed, Ec, Z.eqb_refl. simpl.
  repeat case_decide; case_bool_decide; congruence.
Qed.

Lemma serve_step r w :
  wf w → allowed (OServe r) w →
  wp (exec clientKey sessionKey auth (OServe r)) (step_ok (OServe r) w) w.
Proof.
  intros Hwf Hal. pose proof (newServerMessage_defined r) as Hdef. unfold exec, serveMessage.
  destruct (newServerMessage r) as [m|e| |] eqn:Em; try done; last first.
  { unfold wp, bind, reads. simpl. split_and!; [done|done|].
    eapply moves_ext; [apply (quiet_refl w)| |done]. intros p. simpl. by rewrite Em. }
  destruct (newServerMessage_ok _ _ Em) as (Hk & Herr & Hbody).
  change (wp (do* dispatch clientKey sessionKey auth m in ret "") (step_ok (OServe r) w) w).
  destruct (decide (messageType m = Data)) as [Ed|Ed].
  2: { apply steady_step; [|intros p; simpl; rewrite Em; by destruct (Z.eqb_spec (messageType m) Data)|done].
       apply steady_dispatch; try done; [by apply Hal|by left]. }
  destruct (conns w !! connID m) as [p|] eqn:Ec.
  2: { apply steady_step; [|intros p; simpl; rewrite Em, Ec; by rewrite andb_false_r|done].
       apply steady_dispatch; try done; [by apply Hal|by right]. }
  pose proof (serveData_ok m p w Hwf Ec) as Hs. unfold wp in Hs |- *.
  assert (dispatch clientKey sessionKey auth m w = serveData p m w) as Hrun.
  { unfold dispatch. rewrite Ed. change (Data =? Connect) with false. change (Data =? Data) with true.
    cbv iota. unfold bind, reads. by rewrite Ec. }
  unfold bind. rewrite Hrun. destruct (serveData p m w) as [o w'].
  assert (step_ok (OServe r) w (Err EOF) w' ∧ step_ok (OServe r) w (Ok "") w') as [? ?].
  { destruct Hs as (_ & Hwf' & Hmv). unfold step_ok. split; (split_and!; [done|done|]);
      (eapply moves_ext; [exact Hmv| |done]); intros q; symmetry; by apply arrives_data. }
  by destruct o; try (by destruct Hs).
Qed.

Lemma exec_step o w :
  wf w → allowed o w → wp (exec clientKey sessionKey auth o) (step_ok o w) w.
Proof.
  intros Hwf Hal. destruct o as [r|d p a|p n|p b|p t|p|p e|p e|p e| |n]; simpl in Hal.
  - by apply serve_step.
  - apply steady_step; [|done..]. destruct Hal. by apply steady_serverConnect.
  - by apply Read_step.
  - apply steady_step; [|done..]. by apply steady_Write.
  - apply steady_step; [|done..]. by apply steady_SetWriteDeadline.
  - apply steady_step; [|done..]. by apply steady_Close.
  - apply steady_step; [|done..]. by apply steady_dial_failed.
  - apply steady_step; [|done..]. by apply steady_doTunnelClose.
  - apply steady_step; [|done..]. by apply steady_pipe_end.
  - apply steady_step; [|done..]. by apply steady_session_Close.
  - apply steady_step; [|done..]. by apply steady_modify; [eapply wf_same|apply quiet_heap].
Qed.

(** ** Runs

    A session as [newClientSession] and [newSession] make it, and the states it
    reaches when its goroutines call operations in any order: with each state
    the bytes that have arrived for a connection, and those read from it. *)

Definition initial (ids next : Z) (s : S) : session S :=
  {| idCounter := ids; nextConnID := next; conns := ∅; heap := ∅; fresh_ptr := 0;
     dials := []; sock := s |}.

Inductive reaches (w0 : session S) : session S → (nat → string) → (nat → string) → Prop :=
  | reaches_start : reaches w0 w0 none none
  | reaches_step w arrived taken o r w' :
      reaches w0 w arrived taken → allowed o w →
      exec clientKey sessionKey auth o w = (r, w') →
      reaches w0 w' (λ p, arrived p +:+ arrives o w p) (λ p, taken p +:+ delivers o r p).

(** What has arrived, in terms of what was read and what is held. *)
Definition accounted (arrived taken : nat → string) w : Prop := ∀ p,
  match heap w !! p with
  | Some c => ∃ lost, arrived p = taken p +:+ stream c +:+ lost ∧ (c_err c = None → lost = "")
  | None => arrived p = "" ∧ taken p = ""
  end.

Lemma accounted_step a d arrived taken w w' :
  accounted arrived taken w → moves a d w w' →
  accounted (λ p, arrived p +:+ a p) (λ p, taken p +:+ d p) w'.
Proof.
  intros Hac Hmv p. specialize (Hac p). specialize (Hmv p).
  destruct (heap w !! p) as [c|], (heap w' !! p) as [c'|]; try done.
  - destruct Hac as (lost & Ha & Hl), Hmv as [_ Herr (acc & lost' & Ha' & Hs & Hl' & Hacc)].
    rewrite Ha, Ha'. destruct (c_err c) as [e|] eqn:E.
    + rewrite Hacc in Hs |- * by done. rewrite append_empty_r in Hs. exists (lost +:+ lost').
      rewrite append_empty_l, Hs, <-!append_assoc. split; [done|]. intros Hn. by destruct Herr.
    + exists lost'. rewrite Hl, append_empty_r by done. split; [|done].
      rewrite <-!append_assoc, (append_assoc (stream c)), Hs. by rewrite <-!append_assoc.
  - destruct Hac as [-> ->], Hmv as (-> & -> & Hs). exists "". by rewrite Hs.
  - by destruct Hac as [-> ->], Hmv as [-> ->].
Qed.

Lemma reaches_ok ids next s w arrived taken :
  reaches (initial ids next s) w arrived taken → wf w ∧ accounted arrived taken w.
Proof.
  induction 1 as [|w arrived taken o r w' _ [Hwf Hac] Hal Hrun].
  - split; [|done]. by split.
  - pose proof (exec_step o w Hwf Hal) as Hst. unfold wp in Hst. rewrite Hrun in Hst.
    destruct Hst as (_ & Hwf' & Hmv). split; [done|]. by eapply accounted_step.
Qed.

(** C30: whatever the order in which the goroutines of a session call its
    operations, the state stays well-formed: a channel is closed exactly when its
    connection has an error and never holds more than 1024 buffers, and the table
    leads to connections with the right number.  Every operation then returns:
    there is no send on a closed channel, no channel is closed twice, no nil
    pointer is followed and no header overflows its buffer. *)
Theorem session_invariant ids next s w arrived taken :
  reaches (initial ids next s) w arrived taken →
  wf w ∧ ∀ o, allowed o w → defined (exec clientKey sessionKey auth o w).1.
Proof.
  intros Hr. apply reaches_ok in Hr as [Hwf _]. split; [done|]. intros o Hal.
  by destruct (exec_step o w Hwf Hal).
Qed.

(** C29: a connection hands out the bytes that arrived for it in order, each once
    and none left out: those read so far followed by those it holds are a prefix
    of those that arrived, and all of them as long as it has no error. *)
Theorem session_stream ids next s w arrived taken p c :
  reaches (initial ids next s) w arrived taken → heap w !! p = Some c →
  ∃ lost, arrived p = taken p +:+ stream c +:+ lost ∧ (c_err c = None → lost = "").
Proof.
  intros Hr Hp. apply reaches_ok in Hr as [_ Hac]. specialize (Hac p). by rewrite Hp in Hac.
Qed.

(** A reader is never cut off from bytes that were accepted.  While the
    connection holds some, also after it was closed, [Read] returns the first of
    them, at least one; when it holds none, [Read] returns the error the
    connection was closed with, and waits only if it has none. *)
Theorem session_Read ids next s w arrived taken p c n :
  reaches (initial ids next s) w arrived taken → heap w !! p = Some c → (0 < n)%nat →
  (stream c ≠ "" → ∃ x c', x ≠ "" ∧ stream c = x +:+ stream c' ∧
     Read p n w = (Ok (Some (x, None)), put_conn p c' w)) ∧
  (stream c = "" → (Read p n w).1 =
     Ok (match c_err c with Some e => Some ("", Some e) | None => None end)).
Proof.
  intros Hr Hp Hn. apply reaches_ok in Hr as [Hwf _].
  pose proof (wf_heap _ Hwf _ _ Hp) as Hc.
  destruct (Read_run p n w c Hn Hp Hc) as (r & c' & Hrun & [_ _ Hres]). rewrite Hrun.
  pose proof (wf_open _ Hc) as Hopen. split.
  - intros Hs. destruct r as [[x [e|]]|]; [by destruct Hres as (_ & ? & _)| |by destruct Hres].
    exists x, c'. by destruct Hres.
  - intros Hs. simpl. f_equal. destruct r as [[x [e|]]|].
    + destruct Hres as (-> & _ & _ & Ho & ->). destruct (c_err c); [done|]. by rewrite (proj2 Hopen eq_refl) in Ho.
    + destruct Hres as [Hx Hres]. rewrite Hs in Hres. by destruct x.
    + destruct Hres as (_ & _ & Ho). by rewrite (proj1 Hopen Ho).
Qed.

End run.

End stream.

(** ** A session on a wire that keeps what is written *)

Definition Wire : Type := list string.

#[export] Instance Wire_net : Net Wire := {
  ws_WriteMessage b s := (None, s ++ [b]);
  chunks x _ := if String.eqb x "" then [] else [x];
  sub_Now t _ := 0;
  conn_order m _ := map_to_list m }.

#[export] Instance Wire_laws : NetLaws Wire.
Proof.
  split.
  - intros x s. simpl. destruct (String.eqb_spec x "") as [->|]; [done|]. simpl. apply append_empty_r.
  - intros x s. simpl. destruct (String.eqb_spec x ""); set_solver.
  - intros. unfold int64. simpl. lia.
  - done.
Qed.

(** A client asked to connect, and five bytes for the connection. *)
Definition demo_message (m : message) : reader :=
  {| r_data := match Bytes m with Ok b => b | _ => "" end; r_end := None |}.

Definition demo_connect : reader := demo_message (newConnect 7 3 0 "tcp" "db:5432").
Definition demo_data : reader := demo_message (newMessage 8 3 0 "hello").

Definition demo_exec (o : op) (w : session Wire) : session Wire := (exec "client" 0 None o w).2.

Definition demo_start : session Wire := initial 100 0 [].
Definition demo_session : session Wire :=
  demo_exec (ORead 0 2) (demo_exec (OServe demo_data) (demo_exec (OServe demo_connect) demo_start)).

Lemma demo_reaches :
  ∃ arrived taken, reaches "client" 0 None demo_start demo_session arrived taken ∧
    arrived 0%nat = "hello" ∧ taken 0%nat = "he".
Proof.
  eexists _, _. split.
  - eapply (reaches_step _ _ _ _ _ _ _ (ORead 0 2)).
    + eapply (reaches_step _ _ _ _ _ _ _ (OServe demo_data)).
      * eapply (reaches_step _ _ _ _ _ _ _ (OServe demo_connect)); [apply reaches_start| |].
        -- intros m Hm _. vm_compute in Hm. injection Hm as <-. by vm_compute.
        -- apply surjective_pairing.
      * intros m Hm Ht. vm_compute in Hm. injection Hm as <-. by vm_compute in Ht.
      * apply surjective_pairing.
    + vm_compute. by eexists.
    + apply surjective_pairing.
  - by vm_compute.
Qed.

Lemma session_invariant_witness :
  wf demo_session ∧ defined (exec "client" 0 None (OClose 0) demo_session).1.
Proof.
  destruct demo_reaches as (a & d & Hr & _ & _).
  destruct (session_invariant "client" 0 None _ _ _ _ _ _ Hr) as [Hwf Hop].
  split; [exact Hwf|]. apply Hop. vm_compute. by eexists.
Defined.

Definition demo_conn : connection := default (newConnection 0 "" "") (heap demo_session !! 0%nat).

Lemma session_stream_witness : ∃ lost, "hello" = "he" +:+ stream demo_conn +:+ lost ∧ lost = "".
Proof.
  destruct demo_reaches as (a & d & Hr & Ha & Hd).
  destruct (session_stream "client" 0 None _ _ _ _ _ _ 0%nat demo_conn Hr) as (lost & Hl & Hn);
    [by vm_compute|].
  exists lost. rewrite Ha, Hd in Hl. split; [exact Hl|]. apply Hn. by vm_compute.
Defined.

Lemma session_Read_witness :
  stream demo_conn = "llo" ∧
  ∃ x c', x ≠ "" ∧ stream demo_conn = x +:+ stream c' ∧
    Read 0 10 demo_session = (Ok (Some (x, None)), put_conn 0 c' demo_session).
Proof.
  destruct demo_reaches as (a & d & Hr & _ & _). split; [by vm_compute|].
  apply (session_Read "client" 0 None _ _ _ _ _ _ 0%nat demo_conn 10 Hr); [by vm_compute|lia|by vm_compute].
Defined.

End TunnelStream.
