(* ===== verification/TunnelServer.v ===== *)
(** * The reverse tunnel: the server's sessions

    The table of sessions of a server (pkg/remotedialer: session_manager.go,
    dialer.go), and the theorem that it is, for every client, the queue of its
    live sessions. *)

From stdpp Require Import base gmap list strings.
From Stdlib Require Import Ascii ZArith Lia.
From S2P Require Import Prelude.
From S2P Require Import GoLib.
From S2P Require Import TunnelMessage.
From S2P Require Import Tunnel.
From S2P Require Import TunnelStream.
Import TunnelMessage Tunnel TunnelStream.

Open Scope go_scope.
Open Scope Z_scope.

Module TunnelServer.

Section server.
Context {S : Type} `{!Net S}.

(** A session with the keys it was registered under. *)
Record entry := {
  e_clientKey : string;
  e_sessionKey : Z;
  e_session : session S }.

(** The sessions made so far, by pointer, and the table [clients]. *)
Record manager := {
  clients : gmap string (list nat);
  sessions : gmap nat entry;
  next_session : nat }.

Implicit Types sm : manager.

Definition newSessionManager : manager :=
  {| clients := ∅; sessions := ∅; next_session := 0 |}.

Definition getByClient (clientKey : string) : M manager nat :=
  reads (λ sm, match default [] (clients sm !! clientKey) with
               | s :: _ => Ok s
               | [] => Err (PlainError ("failed to find session for client " +:+ clientKey))
               end).

(** [sm.add(clientKey, conn)]; [sessionKey] is what [rand.Int63()] returned and
    [ids] the counter of message identifiers. *)
Definition add (clientKey : string) (sessionKey ids : Z) (conn : S) : M manager nat := λ sm,
  let p := next_session sm in
  (Ok p,
   {| clients := <[clientKey := default [] (clients sm !! clientKey) ++ [p]]> (clients sm);
      sessions := <[p := {| e_clientKey := clientKey; e_sessionKey := sessionKey;
                            e_session := initial ids 1 conn |}]> (sessions sm);
      next_session := Datatypes.S p |}).

(** An operation of the session [p]. *)
Definition in_session {A} (p : nat) (m : M (session S) A) : M manager A := λ sm,
  match sessions sm !! p with
  | None => (Panic, sm)
  | Some e =>
    let '(r, s) := m (e_session e) in
    (r, {| clients := clients sm;
           sessions := <[p := {| e_clientKey := e_clientKey e; e_sessionKey := e_sessionKey e;
                                 e_session := s |}]> (sessions sm);
           next_session := next_session sm |})
  end.

(** The key of the session [p], zero for a pointer that was never made. *)
Definition key_of sm (p : nat) : Z := from_option e_sessionKey 0 (sessions sm !! p).

(** [sm.remove(s)] *)
Definition remove (p : nat) : M manager unit := λ sm,
  match sessions sm !! p with
  | None => (Panic, sm)
  | Some e =>
    let newSessions := List.filter (λ v, negb (key_of sm v =? e_sessionKey e))
                         (default [] (clients sm !! e_clientKey e)) in
    let sm' := {| clients := match newSessions with
                             | [] => delete (e_clientKey e) (clients sm)
                             | _ => <[e_clientKey e := newSessions]> (clients sm)
                             end;
                  sessions := sessions sm; next_session := next_session sm |} in
    in_session p session_Close sm'
  end.

Definition HasSession (clientKey : string) : M manager bool :=
  let* r := attempt (getByClient clientKey) in
  ret (match r with inr _ => true | inl _ => false end).

Definition Dial (clientKey : string) (deadline : Z) (proto address : string) : M manager nat :=
  let* p := getByClient clientKey in in_session p (serverConnect deadline proto address).

(** ** The specification: the live sessions in the order of their arrival *)

Definition of_client sm (k : string) (p : nat) : bool :=
  bool_decide (e_clientKey <$> sessions sm !! p = Some k).

Record represents sm (live : list nat) : Prop := {
  rep_NoDup : NoDup live;
  rep_known p : p ∈ live → is_Some (sessions sm !! p);
  rep_fresh p e : sessions sm !! p = Some e → (p < next_session sm)%nat;
  rep_clients k : default [] (clients sm !! k) = List.filter (of_client sm k) live;
  rep_keys p q : p ∈ live → q ∈ live → key_of sm p = key_of sm q →
    e_clientKey <$> sessions sm !! p = e_clientKey <$> sessions sm !! q → p = q }.

(** ** Closing a session *)

Lemma tunnelClose_returns p err (w : session S) :
  wf w → is_Some (heap w !! p) →
  wp (tunnelClose p err) (returns (λ _ w', wf w' ∧ quiet w w' ∧ closed p w')) w.
Proof.
  intros Hwf Hp. pose proof (steady_tunnelClose p err w Hwf Hp) as Hs. unfold steady, wp in *.
  destruct (tunnelClose p err w) as [r w'] eqn:E.
  pose proof (tunnelClose_closes p err w r w' Hwf Hp E) as Hc.
  destruct r as [[]|e| |]; simpl in *; try done; [tauto|]. exfalso. clear -E Hp.
  unfold tunnelClose, writeErr, doTunnelClose, bind, load, store, modify, ret, panic in E.
  destruct Hp as [c Hp].
  destruct err as [e0|]; rewrite ?Hp in E; unfold writeMessage in E; simpl in E.
  - destruct (Bytes _); try done. destruct (ws_WriteMessage _ _). simpl in E. rewrite Hp in E.
    destruct (c_err c), (buf_open c); by simplify_eq.
  - destruct (c_err c), (buf_open c); by simplify_eq.
Qed.

Lemma session_Close_all `{!NetLaws S} (w : session S) :
  wf w →
  wp session_Close (returns (λ _ w', wf w' ∧ conns w' = ∅ ∧
    ∀ k q, conns w !! k = Some q → closed q w')) w.
Proof.
  intros Hwf. unfold session_Close. apply wp_bind, wp_reads. simpl.
  eapply wp_bind_returns.
  { apply (wp_for_each_returns (λ don w', wf w' ∧ quiet w w' ∧ Forall (λ kp, closed kp.2 w') don)).
    - split_and!; [done|apply quiet_refl|done].
    - intros don [k q] rest w' Hl (Hwf' & Hq & Hdon).
      assert (is_Some (heap w' !! q)) as Hq'.
      { assert ((k, q) ∈ conn_order (conns w) (sock w)) as Hin by (rewrite Hl; set_solver).
        rewrite conn_order_perm in Hin. apply elem_of_map_to_list in Hin.
        destruct (wf_conns _ Hwf _ _ Hin) as (c & Hc & _).
        destruct (quiet_alloc _ _ _ _ Hq Hc) as (c' & Hc' & _). by eexists. }
      eapply wp_mono; [by apply tunnelClose_returns|]. intros [[]|e| |] w2; simpl; try done.
      intros (Hwf2 & Hq2 & Hc2). split_and!; [done|by eapply quiet_trans|].
      apply Forall_app. split; [|by constructor]. eapply Forall_impl; [exact Hdon|].
      intros kp Hkp. exact (closed_quiet _ _ _ Hkp Hq2). }
  intros [] w' (Hwf' & _ & Hall). split_and!; simpl; [|done|].
  - apply wf_conns_sub; [done|]. apply map_empty_subseteq.
  - intros k q Hk. rewrite Forall_forall in Hall.
    destruct (Hall (k, q)) as (c & Hc & He); [|by exists c].
    rewrite conn_order_perm. by apply elem_of_map_to_list.
Qed.

(** ** The table against its specification *)

Lemma key_of_sessions sm sm' p :
  (e_sessionKey <$> sessions sm' !! p) = (e_sessionKey <$> sessions sm !! p) →
  key_of sm' p = key_of sm p.
Proof. unfold key_of. by destruct (sessions sm' !! p), (sessions sm !! p); simpl; intros; simplify_eq. Qed.

Lemma of_client_sessions sm sm' k p :
  (e_clientKey <$> sessions sm' !! p) = (e_clientKey <$> sessions sm !! p) →
  of_client sm' k p = of_client sm k p.
Proof. unfold of_client. by intros ->. Qed.

Lemma filter_ext_in {A} (f g : A → bool) l :
  (∀ x, x ∈ l → f x = g x) → List.filter f l = List.filter g l.
Proof.
  induction l as [|x l IH]; intros H; [done|]. simpl. rewrite (H x) by (by left).
  rewrite IH; [done|]. intros y Hy. apply H. by right.
Qed.

(** Operations of a session leave the table as it is. *)
Lemma represents_in_session {A} p (m : M (session S) A) sm live r sm' :
  represents sm live → in_session p m sm = (r, sm') → represents sm' live.
Proof.
  intros [H1 H2 H3 H4 H5] Hrun. unfold in_session in Hrun.
  destruct (sessions sm !! p) as [e|] eqn:Ep; [|by simplify_eq].
  destruct (m (e_session e)) as [r' s]. simplify_eq.
  set (sm' := Build_manager _ _ _).
  assert (∀ q, e_clientKey <$> sessions sm' !! q = e_clientKey <$> sessions sm !! q) as Hc.
  { intros q. simpl. destruct (decide (p = q)) as [<-|]; [by rewrite lookup_insert_eq, Ep|].
    by rewrite lookup_insert_ne. }
  assert (∀ q, key_of sm' q = key_of sm q) as Hk.
  { intros q. apply key_of_sessions. simpl.
    destruct (decide (p = q)) as [<-|]; [by rewrite lookup_insert_eq, Ep|]. by rewrite lookup_insert_ne. }
  split; [done|..].
  - intros q Hq. specialize (Hc q). destruct (H2 q Hq) as [e' He']. rewrite He' in Hc.
    destruct (sessions sm' !! q); [by eexists|done].
  - intros q e' Hq. specialize (Hc q). rewrite Hq in Hc. simpl.
    destruct (sessions sm !! q) as [e''|] eqn:E; [by eapply H3|done].
  - intros k. simpl. rewrite H4. apply filter_ext_in. intros q _. symmetry. by apply of_client_sessions.
  - intros q q' Hq Hq'. rewrite !Hk, !Hc. by apply H5.
Qed.

Lemma represents_add sm live k key ids conn r sm' :
  represents sm live → (∀ p, p ∈ live → of_client sm k p = true → key_of sm p ≠ key) →
  add k key ids conn sm = (r, sm') →
  r = Ok (next_session sm) ∧ represents sm' (live ++ [next_session sm]).
Proof.
  intros [H1 H2 H3 H4 H5] Hkey [= <- <-]. split; [done|]. set (sm' := Build_manager _ _ _).
  set (n := next_session sm) in *.
  assert (n ∉ live) as Hn.
  { intros Hin. destruct (H2 _ Hin) as [e He]. apply H3 in He. lia. }
  assert (∀ q, q ≠ n → sessions sm' !! q = sessions sm !! q) as Ho.
  { intros q Hq. simpl. by rewrite lookup_insert_ne. }
  assert (sessions sm' !! n = Some {| e_clientKey := k; e_sessionKey := key;
                                      e_session := initial ids 1 conn |}) as Hs.
  { apply lookup_insert_eq. }
  assert (∀ q, q ∈ live → q ≠ n) as Hne by (intros q Hq ->; done).
  split.
  - apply NoDup_app. split_and!; [done|set_solver|apply NoDup_singleton].
  - intros q Hq. apply elem_of_app in Hq as [Hq| ->%list_elem_of_singleton].
    + rewrite Ho by auto. by apply H2.
    + rewrite Hs. by eexists.
  - intros q e Hq. simpl. destruct (decide (q = n)) as [->|]; [lia|].
    rewrite Ho in Hq by done. apply H3 in Hq. unfold n. lia.
  - intros k'. rewrite List.filter_app. simpl.
    assert (List.filter (of_client sm' k') live = List.filter (of_client sm k') live) as Hf.
    { apply filter_ext_in. intros q Hq. apply of_client_sessions. by rewrite Ho by auto. }
    assert (of_client sm' k' n = bool_decide (k = k')) as Hn'.
    { unfold of_client. rewrite Hs. simpl. apply bool_decide_ext. naive_solver. }
    rewrite Hf, Hn'. destruct (decide (k = k')) as [<-|Hd].
    + rewrite lookup_insert_eq, bool_decide_true by done. simpl. by rewrite H4.
    + rewrite lookup_insert_ne, bool_decide_false by done. by rewrite app_nil_r, H4.
  - assert (∀ q, q ∈ live → key_of sm' q = key_of sm q) as Hk'.
    { intros q Hq. apply key_of_sessions. by rewrite Ho by auto. }
    assert (∀ q, q ∈ live → key_of sm' q = key_of sm' n →
      e_clientKey <$> sessions sm' !! q = e_clientKey <$> sessions sm' !! n → False) as Hbad.
    { intros q Hq Hkq Hcq. apply (Hkey q Hq).
      - unfold of_client. rewrite Ho, Hs in Hcq by auto. by apply bool_decide_eq_true_2.
      - rewrite Hk' in Hkq by done. rewrite Hkq. unfold key_of. by rewrite Hs. }
    intros p q Hp Hq. rewrite elem_of_app, list_elem_of_singleton in Hp, Hq.
    destruct Hp as [Hp| ->], Hq as [Hq| ->]; try done.
    + rewrite !Hk' by done. rewrite !Ho by auto. by apply H5.
    + intros ??. by destruct (Hbad p).
    + intros ??. by destruct (Hbad q).
Qed.

Lemma filter_filter {A} (f g : A → bool) l :
  List.filter f (List.filter g l) = List.filter (λ x, g x && f x) l.
Proof.
  induction l as [|x l IH]; [done|]. simpl. destruct (g x); simpl; [|done].
  destruct (f x); by rewrite IH.
Qed.

(** The sessions that are left when [p] goes. *)
Definition leave (p : nat) (live : list nat) : list nat :=
  List.filter (λ q, negb (Nat.eqb q p)) live.

Lemma elem_of_leave p q live : q ∈ leave p live ↔ q ∈ live ∧ q ≠ p.
Proof.
  unfold leave. rewrite !list_elem_of_In, filter_In, negb_true_iff, Nat.eqb_neq. done.
Qed.

(** The table without [p], its session not yet closed. *)
Definition unlisted (p : nat) (e : entry) sm : manager :=
  let newSessions := List.filter (λ v, negb (key_of sm v =? e_sessionKey e))
                       (default [] (clients sm !! e_clientKey e)) in
  {| clients := match newSessions with
                | [] => delete (e_clientKey e) (clients sm)
                | _ => <[e_clientKey e := newSessions]> (clients sm)
                end;
     sessions := sessions sm; next_session := next_session sm |}.

Lemma unlisted_clients p e sm live k :
  represents sm live → sessions sm !! p = Some e → p ∈ live →
  default [] (clients (unlisted p e sm) !! k) = List.filter (of_client sm k) (leave p live).
Proof.
  intros [H1 H2 H3 H4 H5] Hp Hin. unfold unlisted, leave. cbn [clients].
  set (new := List.filter _ _).
  assert (default [] (match new with
                      | [] => delete (e_clientKey e) (clients sm)
                      | _ => <[e_clientKey e := new]> (clients sm)
                      end !! k) =
          if decide (e_clientKey e = k) then new else default [] (clients sm !! k)) as ->.
  { destruct new eqn:E; destruct (decide (e_clientKey e = k)) as [<-|].
    - by rewrite lookup_delete_eq.
    - by rewrite lookup_delete_ne.
    - by rewrite lookup_insert_eq.
    - by rewrite lookup_insert_ne. }
  rewrite !H4, filter_filter. destruct (decide (e_clientKey e = k)) as [<-|Hne].
  - unfold new. rewrite H4, filter_filter. apply filter_ext_in. intros q Hq.
    rewrite (andb_comm (negb _)). destruct (of_client sm (e_clientKey e) q) eqn:Ec; [|done]. simpl. f_equal.
    apply bool_decide_eq_true_1 in Ec.
    assert (key_of sm p = e_sessionKey e) as <- by (unfold key_of; by rewrite Hp).
    destruct (Nat.eqb_spec q p) as [->|Hqp]; [by rewrite Z.eqb_refl|].
    apply Z.eqb_neq. intros Hk. apply Hqp, H5; [done..|]. by rewrite Ec, Hp.
  - apply filter_ext_in. intros q Hq. destruct (Nat.eqb_spec q p) as [->|]; simpl; [|by rewrite ?andb_true_r].
    unfold of_client. rewrite Hp. simpl. apply bool_decide_eq_false. congruence.
Qed.

Lemma represents_unlisted p e sm live :
  represents sm live → sessions sm !! p = Some e → p ∈ live →
  represents (unlisted p e sm) (leave p live).
Proof.
  intros Hrep Hp Hin. pose proof Hrep as [H1 H2 H3 H4 H5]. split.
  - by apply NoDup_ListNoDup, List.NoDup_filter, NoDup_ListNoDup.
  - intros q [Hq _]%elem_of_leave. by apply H2.
  - exact H3.
  - intros k. exact (unlisted_clients p e sm live k Hrep Hp Hin).
  - intros q q' [Hq _]%elem_of_leave [Hq' _]%elem_of_leave. by apply H5.
Qed.

(** C31: for every client the table of a server is the queue of its live sessions
    in the order of their arrival.  The session used for a client is the oldest;
    a new session joins at the end; a session that is removed leaves its place,
    and all its connections are closed.  Sessions of a client are told apart by
    the random keys they get. *)
Theorem sessionManager_queue `{!NetLaws S} sm live :
  represents sm live →
  (∀ k, getByClient k sm =
     (match List.filter (of_client sm k) live with
      | p :: _ => Ok p
      | [] => Err (PlainError ("failed to find session for client " +:+ k))
      end, sm)) ∧
  (∀ k key ids conn,
     (∀ p, p ∈ live → of_client sm k p = true → key_of sm p ≠ key) →
     (add k key ids conn sm).1 = Ok (next_session sm) ∧
     represents (add k key ids conn sm).2 (live ++ [next_session sm])) ∧
  (∀ p e, p ∈ live → sessions sm !! p = Some e → wf (e_session e) →
     (remove p sm).1 = Ok tt ∧ represents (remove p sm).2 (leave p live) ∧
     ∃ e', sessions (remove p sm).2 !! p = Some e' ∧ conns (e_session e') = ∅ ∧
       ∀ k q, conns (e_session e) !! k = Some q → closed q (e_session e')).
Proof.
  intros Hrep. split_and!.
  - intros k. unfold getByClient, reads. by rewrite (rep_clients _ _ Hrep).
  - intros k key ids conn Hkey. eapply represents_add; [done..|]. apply surjective_pairing.
  - intros p e Hin Hp Hwf. pose proof (session_Close_all (e_session e) Hwf) as Hcl.
    assert (remove p sm = in_session p session_Close (unlisted p e sm)) as ->.
    { unfold remove. by rewrite Hp. }
    pose proof (represents_unlisted p e sm live Hrep Hp Hin) as Hu.
    assert (represents (in_session p session_Close (unlisted p e sm)).2 (leave p live)) as Hr.
    { eapply (represents_in_session p session_Close); [exact Hu|]. apply surjective_pairing. }
    unfold wp in Hcl. unfold in_session in Hr |- *. cbn [sessions unlisted] in Hr |- *. rewrite Hp in Hr |- *.
    destruct (session_Close (e_session e)) as [r s] eqn:E. destruct r as [[]|e0| |]; simpl in Hcl; try done.
    split_and!; [done|done|]. eexists. split; [apply lookup_insert_eq|]. tauto.
Qed.

Lemma represents_new : represents newSessionManager [].
Proof. split; [by apply NoDup_nil|set_solver|done|done|set_solver]. Qed.

End server.

(** Two sessions of one client: the first one is used until it is removed. *)
Definition demo_two : manager (S:=Wire) :=
  (add "c1" 17 0 [] (add "c1" 4 0 [] newSessionManager).2).2.

Lemma demo_two_live : represents demo_two [0%nat; 1%nat].
Proof.
  set (one := (add "c1" 4 0 [] (newSessionManager (S:=Wire))).2).
  assert (represents one [0%nat]) as H1.
  { refine (proj2 (represents_add _ _ "c1" 4 0 [] _ one represents_new _ (surjective_pairing _))).
    intros p Hp. by apply elem_of_nil in Hp. }
  refine (proj2 (represents_add one _ "c1" 17 0 [] _ demo_two H1 _ (surjective_pairing _))).
  intros p Hp _. apply list_elem_of_singleton in Hp as ->. by vm_compute.
Qed.

Lemma sessionManager_queue_witness :
  (getByClient "c1" demo_two).1 = Ok 0%nat ∧
  (remove 0 demo_two).1 = Ok tt ∧ represents (remove 0 demo_two).2 [1%nat].
Proof.
  destruct (sessionManager_queue demo_two [0%nat; 1%nat] demo_two_live) as (Hget & _ & Hrem).
  destruct (Hrem 0%nat {| e_clientKey := "c1"; e_sessionKey := 4; e_session := initial 0 1 [] |})
    as (Hr & Hrep & _); [by left|by vm_compute| |].
  - split; [done..|]. intros. done.
  - split_and!; [|exact Hr|exact Hrep]. rewrite Hget. by vm_compute.
Defined.

End TunnelServer.
