(* ===== verification/Authorizer.v ===== *)
(** * The reverse tunnel: who may open it

    The agents of clusters and nodes open the tunnel with a request that carries the
    token of a cluster registration token and a description of the node or the cluster
    (pkg/tunnelserver/tunnel.go).  The authorizer finds the cluster of the token,
    registers the node, and names the client the session is kept under. *)

From stdpp Require Import base gmap list strings.
From Stdlib Require Import Ascii ZArith Lia.
From S2P Require Import Prelude.
From S2P Require Import GoLib.
From S2P Require Import GoEncoding.
From S2P Require Import GoHash.
From S2P Require Import KubeTypes.
From S2P Require Import KubeObjects.
From S2P Require Import Kube.
From S2P Require Import KubeRules.
From S2P Require Import KubeSim.
From S2P Require Import Frame.
From S2P Require Import Tokens.
Import GoHash Tokens.

Open Scope go_scope.

Module Authorizer.

Notation importedDriver := "imported" (only parsing).
Notation ClusterDriverLocal := "local" (only parsing).

(** [Token] and [Params], in the canonical form under which headers are kept. *)
Notation TokenHeader := "X-Api-Tunnel-Token" (only parsing).
Notation Params := "X-Api-Tunnel-Params" (only parsing).

(** ** What the agent sends *)

(** [cluster] *)
Record ClusterInput := {
  ci_Address : string;
  ci_Token : string;
  ci_CACert : string }.

(** [client.Node], the fields that are read. *)
Record NodeInput := {
  ni_Etcd : bool;
  ni_ControlPlane : bool;
  ni_Worker : bool;
  ni_RequestedHostname : string;
  ni_Labels : gmap string string;
  ni_CustomConfig : option CustomConfig;
  ni_DockerInfo : option DockerInfo }.

Record input := {
  in_Node : option NodeInput;
  in_Cluster : option ClusterInput }.

(** The request: headers, path and host. *)
Record tunnel_request := {
  tr_Request : Request;
  tr_Path : string;
  tr_Host : string }.

(** [Client] *)
Record tunnel_client := {
  cl_Cluster : Cluster;
  cl_Node : option Node;
  cl_Token : string;
  cl_Server : string }.

(** ** Conversions *)

(** [convert.ToObj] goes through JSON text: both types of a custom configuration have the
    same fields, and the identifier of the docker daemon is not among those of
    [client.DockerInfo]. *)
Definition toCustomConfig (machine : NodeInput) : option CustomConfig := ni_CustomConfig machine.

Definition toDockerInfo (d : DockerInfo) : DockerInfo :=
  {| di_ID := ""; di_Driver := di_Driver d; di_Debug := di_Debug d; di_LoggingDriver := di_LoggingDriver d;
     di_CgroupDriver := di_CgroupDriver d; di_KernelVersion := di_KernelVersion d;
     di_OperatingSystem := di_OperatingSystem d; di_OSType := di_OSType d;
     di_Architecture := di_Architecture d; di_IndexServerAddress := di_IndexServerAddress d;
     di_DockerRootDir := di_DockerRootDir d; di_HTTPProxy := di_HTTPProxy d; di_HTTPSProxy := di_HTTPSProxy d;
     di_NoProxy := di_NoProxy d; di_Name := di_Name d; di_Labels := di_Labels d;
     di_ExperimentalBuild := di_ExperimentalBuild d; di_ServerVersion := di_ServerVersion d |}.

Definition machineName (hostname : string) : string :=
  "m-" +:+ String.substring 0 12 (hex_EncodeToString (md5_Sum hostname)).

(** A node with the roles [etcd], [controlPlane] and [worker], the configuration [cfg]
    and the docker daemon [docker]. *)
Definition with_node (etcd controlPlane worker : bool) (cfg : option RKEConfigNode)
    (docker : option DockerInfo) (o : Node) : Node :=
  {| node_meta := node_meta o; node_Etcd := etcd; node_ControlPlane := controlPlane;
     node_Worker := worker; node_NodeTemplateName := node_NodeTemplateName o;
     node_NodePoolName := node_NodePoolName o; node_CustomConfig := node_CustomConfig o;
     node_Imported := node_Imported o; node_RequestedHostname := node_RequestedHostname o;
     node_InternalNodeSpec := node_InternalNodeSpec o;
     node_DesiredNodeLabels := node_DesiredNodeLabels o;
     node_DesiredNodeAnnotations := node_DesiredNodeAnnotations o;
     node_DesiredNodeUnschedulable := node_DesiredNodeUnschedulable o;
     node_Conditions := node_Conditions o; node_InternalNodeStatus := node_InternalNodeStatus o;
     node_NodeName := node_NodeName o; node_Requested := node_Requested o; node_Limits := node_Limits o;
     node_NodeConfig := cfg; node_NodeAnnotations := node_NodeAnnotations o;
     node_NodeLabels := node_NodeLabels o; node_DockerInfo := docker |}.

(** [newMachine.Status.DockerInfo = dockerInfo] *)
Definition with_DockerInfo (d : DockerInfo) (o : Node) : Node :=
  with_node (node_Etcd o) (node_ControlPlane o) (node_Worker o) (node_NodeConfig o) (Some d) o.

Definition with_roles (inNode : NodeInput) (o : Node) : Node :=
  with_node (ni_Etcd inNode) (ni_ControlPlane inNode) (ni_Worker inNode) (node_NodeConfig o) (node_DockerInfo o) o.

Definition with_NodeConfig (cfg : RKEConfigNode) (o : Node) : Node :=
  with_node (node_Etcd o) (node_ControlPlane o) (node_Worker o) (Some cfg) (node_DockerInfo o) o.

Definition with_addresses (cc : CustomConfig) (cfg : RKEConfigNode) : RKEConfigNode :=
  {| rke_Address := cc_Address cc; rke_InternalAddress := cc_InternalAddress cc; rke_Role := rke_Role cfg;
     rke_HostnameOverride := rke_HostnameOverride cfg; rke_User := rke_User cfg |}.

Definition with_status (driver endpoint token caCert : string) (c : Cluster) : Cluster :=
  {| cluster_meta := cluster_meta c; cluster_type := cluster_type c; cluster_Spec := cluster_Spec c;
     cluster_Status := {| cs_Driver := driver; cs_APIEndpoint := endpoint; cs_ServiceAccountToken := token;
       cs_CACert := caCert;
       cs_AppliedPodSecurityPolicyTemplateName := cs_AppliedPodSecurityPolicyTemplateName (cluster_Status c) |};
     cluster_Conditions := cluster_Conditions c |}.

(** ** Indexes *)

Definition crtIndex (crt : ClusterRegistrationToken) : list string := [crt_Token crt].

Definition nodeIndex (node : Node) : list string :=
  [Namespace (node_meta node) +:+ "/" +:+ node_NodeName node].

(** The node [createNode] sends. *)
Definition new_node (inNode : NodeInput) (cluster : Cluster) (customConfig : CustomConfig) : Node :=
  {| node_meta := {| Name := machineName (ni_RequestedHostname inNode); GenerateName := "";
                     Namespace := Name (cluster_meta cluster); UID := ""; ResourceVersion := "";
                     Labels := ∅; Annotations := ∅; OwnerReferences := []; CreationTimestamp := 0;
                     DeletionTimestamp := None |};
     node_Etcd := ni_Etcd inNode; node_ControlPlane := ni_ControlPlane inNode;
     node_Worker := ni_Worker inNode; node_NodeTemplateName := ""; node_NodePoolName := "";
     node_CustomConfig := Some customConfig; node_Imported := true;
     node_RequestedHostname := ni_RequestedHostname inNode; node_InternalNodeSpec := no_node_spec;
     node_DesiredNodeLabels := ni_Labels inNode; node_DesiredNodeAnnotations := ∅;
     node_DesiredNodeUnschedulable := ""; node_Conditions := []; node_InternalNodeStatus := no_node_status;
     node_NodeName := ""; node_Requested := ∅; node_Limits := ∅; node_NodeConfig := None;
     node_NodeAnnotations := ∅; node_NodeLabels := ∅; node_DockerInfo := None |}.

Section authorizer.
Context {W : Type} `{!Client W ClusterRegistrationToken, !Client W Cluster, !Client W Node}.
Context `{!CacheAlias W Cluster}.

(** [json.Unmarshal] of the text of the header. *)
Variable unmarshal : string → goerr + input.

Definition getClusterByToken (token : string) : M W Cluster :=
  let* keys := reads (ByIndex crtIndex token) in
  match keys with
  | crt :: _ => reads (lister_Get "" (crt_ClusterName crt))
  | [] => throw (PlainError "cluster not found")
  end.

Definition empty_field (c : ClusterInput) : option string :=
  if String.eqb (ci_Address c) "" then Some "address"
  else if String.eqb (ci_Token c) "" then Some "token"
  else if String.eqb (ci_CACert c) "" then Some "caCert" else None.

Definition check_input (i : input) : option string :=
  match in_Node i, in_Cluster i with
  | None, None => Some "missing node or cluster registration info"
  | Some n, c =>
    if String.eqb (ni_RequestedHostname n) "" then Some "invalid input, hostname empty"
    else (λ f, "invalid input, " +:+ f +:+ " empty") <$> (c ≫= empty_field)
  | None, Some c => (λ f, "invalid input, " +:+ f +:+ " empty") <$> empty_field c
  end.

Definition readInput (req : tunnel_request) : M W input :=
  match StdDecodeString (header_Get (tr_Request req) Params) with
  | None => throw (PlainError "illegal base64 data")
  | Some bytes =>
    match unmarshal bytes with
    | inl e => throw e
    | inr i => match check_input i with Some e => throw (PlainError e) | None => ret i end
    end
  end.

Definition getMachine (cluster : Cluster) (inNode : NodeInput) : M W Node :=
  let ns := Name (cluster_meta cluster) in
  let* r := attempt (reads (lister_Get ns (machineName (ni_RequestedHostname inNode)))) in
  match r with
  | inr machine => ret machine
  | inl err =>
    if IsNotFound err then
      let* objs := attempt (reads (ByIndex nodeIndex (ns +:+ "/" +:+ ni_RequestedHostname inNode))) in
      match objs with
      | inr (obj :: _) => ret obj
      | _ =>
        let* r := attempt (reads (lister_Get ns (ni_RequestedHostname inNode))) in
        match r with inr machine => ret machine | inl _ => throw err end
      end
    else throw err
  end.

Definition createNode (inNode : NodeInput) (cluster : Cluster) : M W Node :=
  match toCustomConfig inNode with
  | None => throw (PlainError "invalid input, missing custom config")
  | Some customConfig =>
    if String.eqb (cc_Address customConfig) "" then throw (PlainError "invalid input, address empty")
    else api_create "" (new_node inNode cluster customConfig)
  end.

Definition updateDockerInfo (machine : Node) (inNode : NodeInput) : M W Node :=
  match ni_DockerInfo inNode with
  | None => ret machine
  | Some d =>
    let newMachine := with_DockerInfo (toDockerInfo d) machine in
    if decide (machine = newMachine) then ret machine else api_update "" newMachine
  end.

Definition updateNode (machine : Node) (inNode : NodeInput) : M W Node :=
  let newMachine := with_roles inNode machine in
  if decide (machine = newMachine) then ret machine else api_update "" newMachine.

Definition authorizeNode (register : bool) (cluster : Cluster) (inNode : NodeInput) : M W Node :=
  let* r := attempt (getMachine cluster inNode) in
  let* machine := match r with
                  | inr machine => ret machine
                  | inl err => if IsNotFound err && register then createNode inNode cluster else throw err
                  end in
  let* machine := if register then updateNode machine inNode else ret machine in
  updateDockerInfo machine inNode.

(** The fields are assigned through the pointer into the cache. *)
Definition authorizeCluster (cluster : Cluster) (inCluster : ClusterInput) : M W (Cluster * option goerr) :=
  let st := cluster_Status cluster in
  if negb (String.eqb (cs_Driver st) importedDriver) && negb (String.eqb (cs_Driver st) "")
  then ret (cluster, None) else
  let apiEndpoint := "https://" +:+ ci_Address inCluster in
  let cluster' := with_status importedDriver apiEndpoint (ci_Token inCluster) (ci_CACert inCluster) cluster in
  if decide (cluster_Status cluster = cluster_Status cluster') then ret (cluster, None) else
  let* _ := λ w, (Ok tt, cache_write cluster' w) in
  let* r := attempt (api_update "" cluster') in
  ret (cluster', match r with inl e => Some e | inr _ => None end).

(** The client for a node; a node that registers is returned with the addresses it gave. *)
Definition nodeClient (req : tunnel_request) (cluster : Cluster) (inNode : NodeInput) : M W tunnel_client :=
  let register := HasSuffix (tr_Path req) "/register" in
  let* node := authorizeNode register cluster inNode in
  let node := match register, node_NodeConfig node, ni_CustomConfig inNode with
              | true, Some cfg, Some cc => with_NodeConfig (with_addresses cc cfg) node
              | _, _, _ => node
              end in
  ret {| cl_Cluster := cluster; cl_Node := Some node; cl_Token := header_Get (tr_Request req) TokenHeader;
         cl_Server := tr_Host req |}.

(** What is returned is the client, if any, whether it is authorized, and the error. *)
Definition Authorize (req : tunnel_request) : M W (option tunnel_client * bool * option goerr) :=
  let token := header_Get (tr_Request req) TokenHeader in
  if String.eqb token "" then ret (None, false, None) else
  let* cluster := getClusterByToken token in
  let* i := readInput req in
  match in_Node i, in_Cluster i with
  | Some inNode, _ => let* client := nodeClient req cluster inNode in ret (Some client, true, None)
  | None, Some inCluster =>
    let* r := authorizeCluster cluster inCluster in
    ret (Some {| cl_Cluster := fst r; cl_Node := None; cl_Token := token; cl_Server := tr_Host req |},
         true, snd r)
  | None, None => ret (None, false, None)
  end.

(** The key the sessions of the client are kept under. *)
Definition authorizeTunnel (req : tunnel_request) : M W (string * bool * option goerr) :=
  let* r := Authorize req in
  let '(client, ok, err) := r in
  ret (match client with
       | Some c =>
         match cl_Node c with
         | Some node => (Name (node_meta node), ok, err)
         | None => (Name (cluster_meta (cl_Cluster c)), ok, err)
         end
       | None => ("", false, err)
       end).

(** The user and the groups of an agent of the local cluster. *)
Definition AuthorizeLocalNode (username password : string) :
    M W (option (string * list string * Cluster)) :=
  let* r := attempt (getClusterByToken password) in
  ret (match r with
       | inl _ => None
       | inr cluster =>
         if negb (String.eqb (cs_Driver (cluster_Status cluster)) ClusterDriverLocal) then None
         else if String.eqb username "kube-proxy" then Some ("system:kube-proxy", [], cluster)
         else Some ("system:node:" +:+ username, ["system:nodes"], cluster)
       end).

End authorizer.

(** ** Correctness *)

Section correct.
Context {W : Type} `{!Kube W}.
Context `{!Client W ClusterRegistrationToken, !ClientLaws W ClusterRegistrationToken}.
Context `{!Client W Cluster, !ClientLaws W Cluster, !CacheAlias W Cluster, !CacheAliasLaws W Cluster}.
Context `{!Client W Node, !ClientLaws W Node}.
Context (unmarshal : string → goerr + input).
Implicit Types (w : W) (c : Cluster) (n : Node).

(** The cache shows a registration token with this text for the cluster [c]. *)
Definition holder (token : string) c w : Prop :=
  ∃ crt : ClusterRegistrationToken, tbl (cached w) !! obj_key crt = Some crt ∧ crt_Token crt = token ∧
    crt_ClusterName crt = Name (cluster_meta c) ∧ tbl (cached w) !! ("", Name (cluster_meta c)) = Some c.

Lemma wp_getClusterByToken token w :
  wp (getClusterByToken token)
    (if_ok (λ c w', w' = w ∧ holder token c w)
       (λ _ w', w' = w ∧ ¬ (∃ c, holder token c w ∧
          ∀ crt : ClusterRegistrationToken, tbl (cached w) !! obj_key crt = Some crt → crt_Token crt = token →
            crt_ClusterName crt = Name (cluster_meta c)))) w.
Proof.
  unfold getClusterByToken. apply wp_bind, wp_reads.
  destruct (by_index_law crtIndex token w) as (l & Hl & _). rewrite Hl. simpl.
  pose proof (λ crt, elem_of_index crtIndex token w l crt Hl) as Hin.
  assert (∀ crt : ClusterRegistrationToken, crt ∈ l ↔ tbl (cached w) !! obj_key crt = Some crt ∧ crt_Token crt = token) as Hin'.
  { intros crt. rewrite Hin. unfold crtIndex. rewrite list_elem_of_singleton. naive_solver. }
  destruct l as [|crt l].
  - apply wp_throw. split; [done|]. intros (c & (crt & Hc & Ht & _) & _).
    by apply (not_elem_of_nil crt), Hin'.
  - destruct (proj1 (Hin' crt)) as [Hcrt Ht]; [by left|]. apply wp_reads.
    pose proof (lister_get_law (O:=Cluster) "" (crt_ClusterName crt) w) as Hg.
    destruct (tbl (cached w) !! ("", crt_ClusterName crt)) as [c|] eqn:Hc.
    + rewrite Hg. split; [done|]. exists crt. pose proof (cached_keyed w _ _ Hc) as [= _ Hk].
      simpl in Hk. rewrite <-Hk. done.
    + destruct Hg as (e & -> & _). split; [done|]. intros (c & (crt' & _ & _ & _ & Hc') & Hall).
      rewrite (Hall crt Hcrt Ht), Hc' in Hc. done.
Qed.

(** Nodes in the namespace [ns] may have changed, and nothing else. *)
Notation node_changes := (changed_in (O:=Node)).

Definition current n w : Prop := tbl (view w) !! obj_key n = Some n.

Lemma current_put n w w' : view w' = put_obj n (view w) → current n w'.
Proof. intros Hv. unfold current. rewrite Hv. apply tbl_put_eq. Qed.

(** An update that is sent if it changes the node. *)
Lemma wp_send (f : Node → Node) n w :
  node_meta (f n) = node_meta n →
  wp (if decide (n = f n) then ret n else api_update "" (f n))
    (if_ok (λ n' w', obj_key n' = obj_key n ∧ n' = set_node_meta (node_meta n') (f n) ∧
              node_changes (Namespace (node_meta n)) (view w) (view w') ∧
              (current n w → current n' w') ∧ (current n' w' ∨ n' = n ∧ w' = w))
       (λ _ w', view w' = view w ∧ (ClientHealthy W Node → current n w → Name (node_meta n) ≠ "" → False))) w.
Proof.
  intros Hf. case_decide as Hd.
  { apply wp_ret. simpl. split_and!; [done| |done|done|by right]. rewrite <-Hd. by destruct n. }
  assert (write_key "" (f n) = obj_key n) as Hk.
  { unfold write_key, client_ns, obj_key. simpl. rewrite Hf. case_decide as He; [by rewrite He|done]. }
  apply wp_update.
  - intros n' w' (_ & _ & _ & _ & _ & _ & Hspec) Hkey _ Hv _. rewrite Hk in Hkey.
    pose proof (current_put n' w w' Hv) as Hcur. split_and!; [done|exact Hspec| |by intros _|by left].
    rewrite Hv. injection Hkey as <- _. exact (changed_in_put (O:=Node) (view w) n').
  - intros e w' Hv _ Hno. split; [done|]. intros Hh Hc Hn. apply Hno; [done|simpl; by rewrite Hf|].
    exists n. rewrite Hk. simpl. by rewrite Hf.
Qed.

(** Namespaces and the names of clusters have no slash in them. *)
Definition no_slashes c w : Prop :=
  has_char "/" (Name (cluster_meta c)) = false ∧
  ∀ k n, tbl (cached w) !! k = Some n → has_char "/" (Namespace (node_meta n)) = false.

(** The node that is found is one of the cluster; if none is, there is none under the
    name a new node gets. *)
Lemma wp_getMachine c inNode w :
  no_slashes c w →
  wp (getMachine c inNode)
    (if_ok (λ n w', w' = w ∧ tbl (cached w) !! obj_key n = Some n ∧ Namespace (node_meta n) = Name (cluster_meta c))
       (λ e w', w' = w ∧ IsNotFound e = true ∧
          tbl (O:=Node) (cached w) !! (Name (cluster_meta c), machineName (ni_RequestedHostname inNode)) = None)) w.
Proof.
  intros [Hc Hns]. unfold getMachine. set (name := machineName _).
  assert (∀ m, match tbl (O:=Node) (cached w) !! (Name (cluster_meta c), m) with
    | Some n => lister_Get (Name (cluster_meta c)) m w = Ok n ∧ obj_key n = (Name (cluster_meta c), m)
    | None => ∃ e, lister_Get (O:=Node) (Name (cluster_meta c)) m w = Err e ∧ IsNotFound e = true end) as Hget.
  { intros m. pose proof (lister_get_law (O:=Node) (Name (cluster_meta c)) m w) as Hl.
    destruct (tbl (O:=Node) (cached w) !! (Name (cluster_meta c), m)) as [n|] eqn:Hn; [|done]. split; [done|].
    symmetry. exact (cached_keyed (O:=Node) w _ _ Hn). }
  apply wp_bind, wp_attempt, wp_reads. pose proof (Hget name) as Hg.
  destruct (tbl (O:=Node) (cached w) !! (Name (cluster_meta c), name)) as [n|] eqn:Hn.
  { destruct Hg as [-> Hk]. simpl. apply wp_ret. split; [done|]. rewrite Hk. split; [done|by injection Hk]. }
  destruct Hg as (e & -> & Hnf). simpl. unfold bind_post. rewrite Hnf.
  apply wp_bind, wp_attempt, wp_reads.
  destruct (by_index_law nodeIndex (Name (cluster_meta c) +:+ "/" +:+ ni_RequestedHostname inNode) w) as (l & Hl & _).
  rewrite Hl. simpl. unfold bind_post. destruct l as [|n l].
  - apply wp_bind, wp_attempt, wp_reads. pose proof (Hget (ni_RequestedHostname inNode)) as Hg.
    destruct (tbl (O:=Node) (cached w) !! (Name (cluster_meta c), ni_RequestedHostname inNode)) as [n|] eqn:Hn'.
    + destruct Hg as [-> Hk]. simpl. apply wp_ret. split; [done|]. rewrite Hk. split; [done|by injection Hk].
    + destruct Hg as (e' & -> & _). simpl. by apply wp_throw.
  - apply wp_ret. destruct (proj1 (elem_of_index _ _ _ _ n Hl)) as [Hcn Hidx]; [by left|].
    split; [done|]. split; [done|]. apply list_elem_of_singleton in Hidx.
    symmetry. apply (append_char_inj "/" _ _ _ _ Hc (Hns _ _ Hcn) Hidx).
Qed.

(** What is known of the node that stands for the client. *)
Record authorised c (inNode : NodeInput) w n w' : Prop := {
  au_changes : node_changes (Name (cluster_meta c)) (view w) (view w');
  au_namespace : Namespace (node_meta n) = Name (cluster_meta c);
  au_named : Name (node_meta n) ≠ "";
  au_known : current n w' ∨ view w' = view w ∧ tbl (cached w) !! obj_key n = Some n;
  au_current : in_sync_kind Node w → current n w';
  au_origin : is_Some (tbl (O:=Node) (cached w) !! obj_key n) ∨
    Name (node_meta n) = machineName (ni_RequestedHostname inNode) ∧ node_Imported n = true ∧
    node_CustomConfig n = ni_CustomConfig inNode ∧ node_RequestedHostname n = ni_RequestedHostname inNode }.

(** The description gives an address, which a new node needs. *)
Definition addressed (inNode : NodeInput) : Prop :=
  ∃ cc, ni_CustomConfig inNode = Some cc ∧ cc_Address cc ≠ "".

(** A failure is one of the server, of the input, or of a cache that lags. *)
Definition excused (register : bool) (inNode : NodeInput) w : Prop :=
  ¬ (ClientHealthy W Node ∧ in_sync_kind Node w ∧ register = true ∧ addressed inNode).

Lemma machineName_ne h : machineName h ≠ "".
Proof. done. Qed.

Lemma wp_createNode_agent c inNode w :
  tbl (O:=Node) (cached w) !! (Name (cluster_meta c), machineName (ni_RequestedHostname inNode)) = None →
  wp (createNode inNode c)
    (if_ok (λ n w', authorised c inNode w n w')
       (λ _ w', view w' = view w ∧ excused true inNode w)) w.
Proof.
  intros Habs. unfold createNode, toCustomConfig. destruct (ni_CustomConfig inNode) as [cc|] eqn:Hcc.
  2: { apply wp_throw. split; [done|]. intros (_ & _ & _ & cc & ? & _). congruence. }
  destruct (String.eqb_spec (cc_Address cc) "") as [Ha|Ha].
  { apply wp_throw. split; [done|]. intros (_ & _ & _ & cc' & ? & ?). congruence. }
  assert (write_key "" (new_node inNode c cc) = (Name (cluster_meta c), machineName (ni_RequestedHostname inNode))) as Hk.
  { unfold write_key, client_ns. simpl. case_decide as He; [by rewrite He|done]. }
  apply wp_create.
  - intros n w' Hst _ Hv _. pose proof (stored_as_key "" _ _ Hst (machineName_ne _)) as Hkey. rewrite Hk in Hkey.
    destruct Hst as (_ & Hne & _ & _ & _ & _ & Hspec). injection Hkey as Hns Hname.
    assert (current n w') as Hcur by exact (current_put n w w' Hv).
    split; [|exact Hns|exact Hne|by left|done|].
    + rewrite Hv, <-Hns. exact (changed_in_put (O:=Node) (view w) n).
    + right. simpl in Hspec. rewrite Hspec. simpl. rewrite Hcc. split_and!; [exact Hname|done..].
  - intros e w' Hv _ Hno. split; [done|]. intros (Hh & Hs & _ & _). apply Hno; [done| |done].
    intros _. rewrite Hk. by rewrite <-Hs.
Qed.

(** [f] changes the roles, the configuration or the docker daemon of a node only. *)
Definition mild (f : Node → Node) : Prop :=
  ∀ n, node_meta (f n) = node_meta n ∧ node_Imported (f n) = node_Imported n ∧
    node_CustomConfig (f n) = node_CustomConfig n ∧ node_RequestedHostname (f n) = node_RequestedHostname n.

Lemma wp_authorised_send (f : Node → Node) c register inNode w n w1 :
  mild f → authorised c inNode w n w1 →
  wp (if decide (n = f n) then ret n else api_update "" (f n))
    (if_ok (λ n' w', authorised c inNode w n' w' ∧ n' = set_node_meta (node_meta n') (f n))
       (λ _ w', node_changes (Name (cluster_meta c)) (view w) (view w') ∧ excused register inNode w)) w1.
Proof.
  intros Hf Hau. destruct (Hf n) as (Hm & Hi & Hcc & Hr). destruct Hau as [Hch Hns Hne Hkn Hcu Hor].
  eapply wp_mono; [by apply wp_send|]. intros [n'|e| |] w2; simpl; [|split|done..].
  - intros (Hk & Hn' & Hch2 & Hcu2 & Hkn2). injection Hk as Hk1 Hk2. split; [|done]. split.
    + etrans; [exact Hch|]. by rewrite <-Hns.
    + by rewrite Hk1.
    + by rewrite Hk2.
    + destruct Hkn2 as [?|[-> ->]]; [by left|done].
    + auto.
    + unfold obj_key in *. simpl in *. rewrite Hk1, Hk2. destruct Hor as [?|(? & ? & ? & ?)]; [by left|]. right.
      rewrite Hn'. simpl. rewrite Hi, Hcc, Hr. done.
  - destruct H as [-> _]. done.
  - destruct H as [_ Hno]. intros (Hh & Hs & _ & _). apply Hno; auto.
Qed.

Lemma with_roles_mild inNode : mild (with_roles inNode).
Proof. intros n. split_and!; done. Qed.

Lemma with_DockerInfo_mild d : mild (with_DockerInfo d).
Proof. intros n. split_and!; done. Qed.

Definition same_roles n (inNode : NodeInput) : Prop :=
  node_Etcd n = ni_Etcd inNode ∧ node_ControlPlane n = ni_ControlPlane inNode ∧ node_Worker n = ni_Worker inNode.

Lemma wp_authorizeNode register c inNode w :
  no_slashes c w →
  wp (authorizeNode register c inNode)
    (if_ok (λ n w', authorised c inNode w n w' ∧ (register = true → same_roles n inNode) ∧
              ∀ d, ni_DockerInfo inNode = Some d → node_DockerInfo n = Some (toDockerInfo d))
       (λ _ w', node_changes (Name (cluster_meta c)) (view w) (view w') ∧ excused register inNode w)) w.
Proof.
  intros Hsl. unfold authorizeNode.
  eapply wp_bind_if_ok with (P := λ r w', w' = w ∧ match r with
    | inr n => authorised c inNode w n w
    | inl e => IsNotFound e = true ∧
       tbl (O:=Node) (cached w) !! (Name (cluster_meta c), machineName (ni_RequestedHostname inNode)) = None end)
    (I := λ _ _, False); [|intros r w' [-> Hr]|done].
  { apply wp_attempt. eapply wp_mono; [by apply wp_getMachine|]. intros [n|e| |] w'; simpl; try done.
    intros (-> & Hn & Hns). split; [done|]. split; [done|done| |by right| |by left; eexists].
    - exact (cached_named (O:=Node) w _ (mk_is_Some _ _ Hn)).
    - intros Hs. unfold current. by rewrite <-Hs. }
  eapply wp_bind_if_ok with (P := λ n w', authorised c inNode w n w')
    (I := λ _ w', node_changes (Name (cluster_meta c)) (view w) (view w') ∧ excused register inNode w);
    [|intros n w1 Hau|done].
  { destruct r as [e|n]; [|by apply wp_ret]. destruct Hr as [-> Habs]. destruct register; simpl.
    - eapply wp_mono; [by apply wp_createNode_agent|]. intros [n|e'| |] w'; simpl; try done. by intros [-> ?].
    - apply wp_throw. split; [done|]. by intros (_ & _ & ? & _). }
  eapply wp_bind_if_ok with (P := λ n w', authorised c inNode w n w' ∧ (register = true → same_roles n inNode))
    (I := λ _ w', node_changes (Name (cluster_meta c)) (view w) (view w') ∧ excused register inNode w);
    [|intros n2 w2 [Hau2 Hro]|done].
  { destruct register; [|by apply wp_ret]. unfold updateNode.
    eapply wp_mono; [apply wp_authorised_send; [apply with_roles_mild|done]|].
    intros [n'|e'| |] w'; simpl; try done. intros [? Hn']. split; [done|]. intros _. by rewrite Hn'. }
  unfold updateDockerInfo. destruct (ni_DockerInfo inNode) as [d|]; [|by apply wp_ret].
  eapply wp_mono; [apply wp_authorised_send; [apply with_DockerInfo_mild|done]|].
  intros [n'|e'| |] w'; simpl; try done. intros [Hau' Hn']. split_and!; [done| |].
  - intros Hreg. rewrite Hn'. exact (Hro Hreg).
  - intros d' [= <-]. by rewrite Hn'.
Qed.

(** The description the request carries, when it can be read. *)
Definition sent (req : tunnel_request) (i : input) : Prop :=
  ∃ bytes, StdDecodeString (header_Get (tr_Request req) Params) = Some bytes ∧
    unmarshal bytes = inr i ∧ check_input i = None.

Lemma wp_readInput req w :
  wp (readInput unmarshal req) (if_ok (λ i w', w' = w ∧ sent req i) (λ _ w', w' = w ∧ ¬ ∃ i, sent req i)) w.
Proof.
  unfold readInput, sent. destruct (StdDecodeString _) as [bytes|] eqn:Hb; [|apply wp_throw; naive_solver].
  destruct (unmarshal bytes) as [e|i] eqn:Hu; [apply wp_throw; split; [done|]; intros (i & ? & ? & ? & ?); congruence|].
  destruct (check_input i) eqn:Hc; [apply wp_throw; split; [done|]|apply wp_ret; split; [done|by eauto]].
  intros (i' & ? & ? & ? & ?). congruence.
Qed.

Lemma wp_authorizeCluster c inCluster w :
  tbl (cached w) !! ("", Name (cluster_meta c)) = Some c →
  wp (authorizeCluster c inCluster)
    (returns (λ r w', Name (cluster_meta (fst r)) = Name (cluster_meta c) ∧
       changed_at (O:=Cluster) [("", Name (cluster_meta c))] (view w) (view w'))) w.
Proof.
  intros Hc. unfold authorizeCluster. destruct (negb _ && negb _).
  { apply wp_ret. split; [done|apply changed_at_refl]. }
  set (c' := with_status _ _ _ _ _). case_decide as Hd; [apply wp_ret; split; [done|apply changed_at_refl]|].
  apply wp_bind. unfold wp. simpl. apply wp_bind, wp_attempt.
  pose proof (cached_keyed (O:=Cluster) w _ _ Hc) as [= Hns].
  assert (write_key "" c' = ("", Name (cluster_meta c))) as Hk.
  { unfold write_key, client_ns. simpl. by rewrite <-Hns. }
  apply wp_update; [intros o w' _ Hko _ Hv _|intros e w' Hv _ _]; simpl; apply wp_ret; split; try done;
    rewrite Hv, cache_write_view; [|apply changed_at_refl].
  apply changed_at_put. rewrite Hko, Hk. by left.
Qed.

(** What a request with a token of the cluster [c] may change. *)
Definition confined c (s s' : KState) : Prop :=
  node_changes (Name (cluster_meta c)) s s' ∨ changed_at (O:=Cluster) [("", Name (cluster_meta c))] s s'.

(** The key of a session: the name of the cluster or of one of its nodes. *)
Definition session_key c (key : string) w w' : Prop :=
  key = Name (cluster_meta c) ∨
  ∃ n, key = Name (node_meta n) ∧ Namespace (node_meta n) = Name (cluster_meta c) ∧
    (tbl (view w') !! obj_key n = Some n ∨ tbl (cached w) !! obj_key n = Some n).

Notation token_of req := (header_Get (tr_Request req) TokenHeader).

(** A client with the node [n], whose addresses may be those of the request. *)
Definition client_for c n (req : tunnel_request) (cl : tunnel_client) : Prop :=
  cl_Cluster cl = c ∧ cl_Token cl = token_of req ∧ cl_Server cl = tr_Host req ∧
  ∃ n', cl_Node cl = Some n' ∧ node_meta n' = node_meta n.

Lemma wp_nodeClient req c inNode w :
  no_slashes c w →
  wp (nodeClient req c inNode)
    (if_ok (λ cl w', ∃ n, client_for c n req cl ∧ authorised c inNode w n w' ∧
              (HasSuffix (tr_Path req) "/register" = true → same_roles n inNode) ∧
              ∀ d, ni_DockerInfo inNode = Some d → node_DockerInfo n = Some (toDockerInfo d))
       (λ _ w', node_changes (Name (cluster_meta c)) (view w) (view w') ∧
          excused (HasSuffix (tr_Path req) "/register") inNode w)) w.
Proof.
  intros Hsl. unfold nodeClient. set (register := HasSuffix _ _). cbv zeta.
  eapply wp_bind_if_ok; [by apply wp_authorizeNode| |done]. intros n w' (Hau & Hro & Hd). apply wp_ret.
  exists n. split; [|done]. split_and!; [done..|]. eexists. split; [done|].
  destruct register, (node_NodeConfig n), (ni_CustomConfig inNode); done.
Qed.

(** C14: only a client with a token of a cluster is let in, under the name of that cluster
    or of one of its nodes, and whatever the outcome, a request changes nothing but
    nodes of that cluster and its status. *)
Theorem authorizeTunnel_sound req w :
  (∀ c, holder (token_of req) c w → no_slashes c w) →
  wp (authorizeTunnel unmarshal req) (λ r w',
    (∃ key e, r = Ok (key, false, e)) ∧ view w' = view w ∨
    (∃ e, r = Err e) ∧ view w' = view w ∨
    token_of req ≠ "" ∧ ∃ c, holder (token_of req) c w ∧ confined c (view w) (view w') ∧
      ((∃ e, r = Err e) ∨ ∃ key e, r = Ok (key, true, e) ∧ session_key c key w w')) w.
Proof.
  intros Hsl. unfold authorizeTunnel, Authorize. destruct (String.eqb_spec (token_of req) "") as [Ht|Ht].
  { apply wp_bind, wp_ret. simpl. apply wp_ret. left. by eauto. }
  apply wp_bind, wp_bind. eapply wp_mono; [apply wp_getClusterByToken|].
  intros [c|e| |] w'; simpl; try done; [intros [-> Hc]|intros [-> _]; right; left; by eauto].
  specialize (Hsl c Hc). apply wp_bind. eapply wp_mono; [apply wp_readInput|].
  intros [i|e| |] w'; simpl; try done; [intros [-> _]|intros [-> _]; right; left; by eauto].
  destruct (in_Node i) as [inNode|]; [|destruct (in_Cluster i) as [inCluster|]].
  - apply wp_bind. eapply wp_mono; [by apply wp_nodeClient|]. intros [cl|e| |] w'; simpl; try done.
    + intros (n & (_ & _ & _ & n' & Hn' & Hm) & Hau & _). apply wp_ret. simpl. apply wp_ret. right. right.
      split; [done|]. exists c. split; [done|]. split; [left; apply Hau|]. right. rewrite Hn'.
      eexists _, _. split; [done|]. right. exists n. rewrite Hm. split_and!; [done|apply Hau|].
      destruct (au_known _ _ _ _ _ Hau) as [?|[_ ?]]; auto.
    + intros [Hch _]. right. right. split; [done|]. exists c. split; [done|]. split; [by left|]. left. by eauto.
  - apply wp_bind. destruct Hc as (crt & Hcrt & Htok & Hname & Hc).
    eapply wp_mono; [by apply wp_authorizeCluster|].
    intros [[c' e]|e| |] w'; simpl; try done. intros [Hn Hch]. apply wp_ret. simpl. apply wp_ret. right. right.
    split; [done|]. exists c. split; [by exists crt|]. split; [by right|]. right. eexists _, _. split; [done|].
    by left.
  - apply wp_ret. simpl. apply wp_ret. left. by eauto.
Qed.

(** The nodes that the cache shows for the host [h] in the cluster [c] are named after the host, as registrations
    name them. *)
Definition named_after c (h : string) w : Prop := ∀ n,
  tbl (cached w) !! obj_key n = Some n →
  obj_key n = (Name (cluster_meta c), h) ∨ (Name (cluster_meta c) +:+ "/" +:+ h) ∈ nodeIndex n →
  Name (node_meta n) = machineName h.

Lemma lister_cached ns m w (n : Node) :
  lister_Get ns m w = Ok n → tbl (cached w) !! obj_key n = Some n ∧ obj_key n = (ns, m).
Proof.
  intros Hn. pose proof (lister_get_law (O:=Node) ns m w) as Hl.
  destruct (tbl (O:=Node) (cached w) !! (ns, m)) as [n'|] eqn:Hc.
  - assert (n' = n) as -> by congruence. pose proof (cached_keyed (O:=Node) w _ _ Hc) as Hk. by rewrite <-Hk.
  - destruct Hl as (e & Hl & _). congruence.
Qed.

Lemma wp_getMachine_named c inNode w :
  named_after c (ni_RequestedHostname inNode) w →
  wp (getMachine c inNode)
    (if_ok (λ n w', w' = w ∧ Name (node_meta n) = machineName (ni_RequestedHostname inNode)) (λ _ w', w' = w)) w.
Proof.
  intros Hnamed. unfold getMachine.
  pose proof (λ m, lister_get_law (O:=Node) (Name (cluster_meta c)) m w) as Hlaw.
  assert (∀ m, match lister_Get (O:=Node) (Name (cluster_meta c)) m w with Ok _ | Err _ => True | _ => False end) as Hends.
  { intros m. specialize (Hlaw m). destruct (tbl (O:=Node) (cached w) !! _); [by rewrite Hlaw|].
    by destruct Hlaw as (e & -> & _). }
  apply wp_bind, wp_attempt, wp_reads. pose proof (Hends (machineName (ni_RequestedHostname inNode))) as He.
  destruct (lister_Get _ (machineName _) w) as [n|e| |] eqn:Hg; simpl; try done.
  { apply wp_ret. split; [done|]. by apply lister_cached in Hg as [_ [= _ ->]]. }
  destruct (IsNotFound e); [|by apply wp_throw]. apply wp_bind, wp_attempt, wp_reads.
  destruct (by_index_law nodeIndex (Name (cluster_meta c) +:+ "/" +:+ ni_RequestedHostname inNode) w) as (l & Hl & _).
  rewrite Hl. simpl. unfold bind_post. destruct l as [|n l].
  - apply wp_bind, wp_attempt, wp_reads. pose proof (Hends (ni_RequestedHostname inNode)) as He'.
    destruct (lister_Get _ (ni_RequestedHostname inNode) w) as [n|e'| |] eqn:Hg'; simpl; try done.
    apply wp_ret. split; [done|]. apply lister_cached in Hg' as [Hc Hk]. apply Hnamed; [done|by left].
  - apply wp_ret. split; [done|]. destruct (proj1 (elem_of_index _ _ _ _ n Hl)) as [Hc Hi]; [by left|].
    apply Hnamed; [done|by right].
Qed.

(** An update keeps the name. *)
Lemma wp_send_named (f : Node → Node) n h w :
  node_meta (f n) = node_meta n → Name (node_meta n) = h →
  wp (if decide (n = f n) then ret n else api_update "" (f n)) (if_ok (λ n' _, Name (node_meta n') = h) (λ _ _, True)) w.
Proof.
  intros Hf Hn. eapply wp_mono; [by apply wp_send|]. intros [n'|e| |] w'; simpl; try done.
  intros ([= _ Hk] & _). by rewrite Hk.
Qed.

Lemma wp_authorizeNode_named register c inNode w :
  named_after c (ni_RequestedHostname inNode) w →
  wp (authorizeNode register c inNode)
    (if_ok (λ n _, Name (node_meta n) = machineName (ni_RequestedHostname inNode)) (λ _ _, True)) w.
Proof.
  intros Hnamed. set (named := λ (n : Node) (_ : W), Name (node_meta n) = machineName (ni_RequestedHostname inNode)).
  unfold authorizeNode.
  eapply wp_bind_if_ok with (P := λ r _, match r with inr n => Name (node_meta n) = machineName _ | inl _ => True end)
    (I := λ _ _, True); [|intros r w' Hr|done].
  { apply wp_attempt. eapply wp_mono; [by apply wp_getMachine_named|]. intros [n|e| |] w'; simpl; naive_solver. }
  apply (wp_bind_if_ok _ _ named (λ _ _, True)); [|intros n w1 Hn|done].
  { destruct r as [e|n]; [|by apply wp_ret].
    destruct (IsNotFound e && register); [|by apply wp_throw]. unfold createNode.
    destruct (toCustomConfig inNode) as [cc|]; [|by apply wp_throw].
    destruct (String.eqb (cc_Address cc) ""); [by apply wp_throw|]. apply wp_create; [|done].
    intros o w2 (_ & _ & Hname & _) _ _ _. by apply Hname. }
  apply (wp_bind_if_ok _ _ named (λ _ _, True)); [|intros n2 w2 Hn2|done].
  { destruct register; [|by apply wp_ret]. by apply wp_send_named. }
  unfold updateDockerInfo. destruct (ni_DockerInfo inNode) as [d|]; [|by apply wp_ret]. by apply wp_send_named.
Qed.

(** The requests of the agent of the host [h]. *)
Definition from_host (req : tunnel_request) (h : string) : Prop :=
  ∀ i, sent req i → ∃ inNode, in_Node i = Some inNode ∧ ni_RequestedHostname inNode = h.

(** The key of the sessions of a host follows from its name alone. *)
Lemma wp_authorizeTunnel_key req h w :
  from_host req h → (∀ c, holder (token_of req) c w → named_after c h w) →
  wp (authorizeTunnel unmarshal req) (if_ok (λ r _, ∀ key e, r = (key, true, e) → key = machineName h) (λ _ _, True)) w.
Proof.
  intros Hhost Hnamed. unfold authorizeTunnel, Authorize. destruct (String.eqb_spec (token_of req) "") as [Ht|Ht].
  { apply wp_bind, wp_ret, wp_ret. by intros key e. }
  apply wp_bind, wp_bind. eapply wp_mono; [apply wp_getClusterByToken|].
  intros [c|e| |] w'; simpl; try done. intros [-> Hc].
  apply wp_bind. eapply wp_mono; [apply wp_readInput|].
  intros [i|e| |] w'; simpl; try done. intros [-> Hi]. destruct (Hhost i Hi) as (inNode & -> & <-).
  apply wp_bind. unfold nodeClient. apply wp_bind.
  eapply wp_mono; [apply wp_authorizeNode_named; by apply Hnamed|]. intros [n|e| |] w'; simpl; try done.
  intros Hn. apply wp_ret, wp_ret, wp_ret. intros key e. cbn [cl_Node].
  destruct (HasSuffix _ _), (node_NodeConfig n), (ni_CustomConfig inNode); intros [= <- _]; exact Hn.
Qed.

Hypothesis healthy : ClientHealthy W Node.

(** A registration of a node with a token of the cluster [c] succeeds, when the server
    answers and the cache of nodes is up to date: the cluster has a node, with the roles and
    the docker daemon of the request, that is the one known for the host or a new
    one, named after the host, and nothing but nodes of [c] changes. *)
Theorem Authorize_registers req c i inNode w :
  token_of req ≠ "" → holder (token_of req) c w →
  (∀ crt : ClusterRegistrationToken, tbl (cached w) !! obj_key crt = Some crt → crt_Token crt = token_of req →
     crt_ClusterName crt = Name (cluster_meta c)) →
  no_slashes c w → in_sync_kind Node w →
  sent req i → in_Node i = Some inNode → addressed inNode →
  HasSuffix (tr_Path req) "/register" = true →
  wp (Authorize unmarshal req) (returns (λ r w', ∃ n cl,
    r = (Some cl, true, None) ∧ client_for c n req cl ∧
    tbl (view w') !! obj_key n = Some n ∧ Namespace (node_meta n) = Name (cluster_meta c) ∧
    same_roles n inNode ∧ (∀ d, ni_DockerInfo inNode = Some d → node_DockerInfo n = Some (toDockerInfo d)) ∧
    (is_Some (tbl (O:=Node) (view w) !! obj_key n) ∨
     Name (node_meta n) = machineName (ni_RequestedHostname inNode) ∧ node_Imported n = true ∧
     node_CustomConfig n = ni_CustomConfig inNode) ∧
    node_changes (Name (cluster_meta c)) (view w) (view w'))) w.
Proof.
  intros Ht Hc Huniq Hsl Hs Hsent Hin Had Hreg. unfold Authorize.
  destruct (String.eqb_spec (token_of req) "") as [|_]; [done|].
  apply wp_bind. eapply wp_mono; [apply wp_getClusterByToken|].
  intros [c'|e| |] w'; simpl; try done; [intros [-> (crt & Hcrt & Htok & Hname & Hc')]|intros [_ []]; by exists c].
  assert (c' = c) as ->.
  { rewrite (Huniq crt Hcrt Htok) in Hname. destruct Hc as (_ & _ & _ & _ & Hc). rewrite <-Hname in Hc'. congruence. }
  apply wp_bind. eapply wp_mono; [apply wp_readInput|].
  intros [i'|e| |] w'; simpl; try done; [intros [-> Hsent']|intros [_ []]; by exists i].
  assert (i' = i) as -> by (destruct Hsent as (? & ? & ? & ?), Hsent' as (? & ? & ? & ?); congruence).
  rewrite Hin. apply wp_bind. eapply wp_mono; [by apply wp_nodeClient|]. intros [cl|e| |] w'; simpl; try done.
  - intros (n & Hcl & Hau & Hro & Hd). apply wp_ret. exists n, cl. split_and!; [done|done| |apply Hau|auto|done| |apply Hau].
    + by apply (au_current _ _ _ _ _ Hau).
    + destruct (au_origin _ _ _ _ _ Hau) as [?|(? & ? & ? & ?)]; [left; by rewrite <-Hs|by right].
  - intros [_ Hex]. apply Hex. done.
Qed.

End correct.

(** ** Examples *)

Definition demo_tunnel_cluster (name : string) : Cluster :=
  {| cluster_meta := named_meta name ∅ ∅ []; cluster_type := {| Kind := "Cluster"; APIVersion := "v3" |};
     cluster_Spec := no_spec; cluster_Status := no_status; cluster_Conditions := [] |}.

Definition demo_crt (cluster token : string) : ClusterRegistrationToken :=
  {| crt_meta := {| Name := "system"; GenerateName := ""; Namespace := cluster; UID := token; ResourceVersion := "1";
                    Labels := ∅; Annotations := ∅; OwnerReferences := []; CreationTimestamp := 0;
                    DeletionTimestamp := None |};
     crt_ClusterName := cluster; crt_InsecureCommand := ""; crt_Command := ""; crt_NodeCommand := "";
     crt_ManifestURL := ""; crt_Token := token |}.

(** Two clusters, each with a registration token. *)
Definition demo_clusters : KState :=
  put_obj (demo_tunnel_cluster "c-1") (put_obj (demo_tunnel_cluster "c-2")
    (put_obj (demo_crt "c-1" "t1") (put_obj (demo_crt "c-2" "t2") empty_state))).

Definition demo_host : NodeInput :=
  {| ni_Etcd := true; ni_ControlPlane := false; ni_Worker := true; ni_RequestedHostname := "web"; ni_Labels := ∅;
     ni_CustomConfig := Some {| cc_Address := "10.0.0.1"; cc_InternalAddress := ""; cc_User := "root";
                                cc_DockerSocket := ""; cc_SSHKey := "" |};
     ni_DockerInfo := None |}.

(** A decoder that knows one text. *)
Definition demo_unmarshal (bytes : string) : goerr + input :=
  if String.eqb bytes "web" then inr {| in_Node := Some demo_host; in_Cluster := None |}
  else inl (PlainError "invalid character").

(** The registration of the host [web] with a token. *)
Definition demo_tunnel_request (token : string) : tunnel_request :=
  {| tr_Request := {| Header := <[TokenHeader := [token]]> {[ Params := ["d2Vi"] ]}; URL_Scheme := "https" |};
     tr_Path := "/v3/connect/register"; tr_Host := "rancher" |}.

Definition demo_name := machineName "web".

Definition demo_first : outcome (string * bool * option goerr) * Sim :=
  authorizeTunnel demo_unmarshal (demo_tunnel_request "t1") (synced demo_clusters).

Lemma demo_no_slashes c : holder "t1" c (synced demo_clusters) → no_slashes c (synced demo_clusters).
Proof.
  intros (crt & Hcrt & Htok & Hname & Hc). split.
  - assert (map_Forall (λ _ c, has_char "/" (Name (cluster_meta c)) = false)
      (tbl (O:=Cluster) (cached (synced demo_clusters)))) as Hall.
    { refine (bool_decide_unpack _ _). vm_compute. exact I. }
    exact (Hall _ _ Hc).
  - intros k n Hn. change (tbl (O:=Node) (cached (synced demo_clusters))) with (∅ : gmap nsname Node) in Hn.
    by rewrite lookup_empty in Hn.
Qed.

(** A registration with the token of the cluster c-1 is let in as a node of that cluster. *)
Lemma authorizeTunnel_sound_witness :
  demo_first.1 = Ok (demo_name, true, None) ∧
  ∃ c, holder "t1" c (synced demo_clusters) ∧ session_key c demo_name (synced demo_clusters) demo_first.2.
Proof.
  assert (demo_first.1 = Ok (demo_name, true, None)) as Hr by (vm_compute; reflexivity).
  split; [exact Hr|].
  pose proof (authorizeTunnel_sound demo_unmarshal (demo_tunnel_request "t1") (synced demo_clusters) demo_no_slashes) as Hw.
  unfold wp in Hw. fold demo_first in Hw. rewrite Hr in Hw.
  destruct Hw as [[(key & e & [=]) _]|[[(e & [=]) _]|(_ & c & Hc & _ & [(e & [=])|(key & e & [= <- _] & Hk)])]].
  exists c. split; [exact Hc|exact Hk].
Defined.

Lemma Authorize_registers_witness :
  let w' := (Authorize demo_unmarshal (demo_tunnel_request "t1") (synced demo_clusters)).2 in
  ∃ n, tbl (view w') !! obj_key n = Some n ∧ Namespace (node_meta n) = "c-1" ∧ same_roles n demo_host.
Proof.
  intros w'. set (w := synced demo_clusters).
  assert (map_Forall (λ _ crt, crt_Token crt = "t1" → crt_ClusterName crt = "c-1")
    (tbl (O:=ClusterRegistrationToken) (cached w))) as Hall.
  { refine (bool_decide_unpack _ _). vm_compute. exact I. }
  assert (holder "t1" (demo_tunnel_cluster "c-1") w) as Hc.
  { exists (demo_crt "c-1" "t1"). split_and!; reflexivity. }
  assert (sent demo_unmarshal (demo_tunnel_request "t1") {| in_Node := Some demo_host; in_Cluster := None |}) as Hs.
  { exists "web". split_and!; vm_compute; reflexivity. }
  assert (addressed demo_host) as Ha by (eexists; split; [reflexivity|discriminate]).
  pose proof (Authorize_registers demo_unmarshal sim_client_healthy (demo_tunnel_request "t1")
    (demo_tunnel_cluster "c-1") {| in_Node := Some demo_host; in_Cluster := None |} demo_host w
    ltac:(discriminate) Hc (λ crt Hcrt Ht, Hall _ _ Hcrt Ht) (demo_no_slashes _ Hc) eq_refl
    Hs eq_refl Ha ltac:(vm_compute; reflexivity)) as Hw.
  unfold wp in Hw. change ((Authorize demo_unmarshal (demo_tunnel_request "t1") w).2) with w' in Hw.
  destruct (Authorize demo_unmarshal (demo_tunnel_request "t1") w).1 as [u| | |]; [|destruct Hw..].
  destruct Hw as (n & cl & _ & _ & Hn & Hns & Hro & _). exists n. split; [exact Hn|]. split; [exact Hns|exact Hro].
Defined.

End Authorizer.
