(* ===== verification/Dialer.v ===== *)
(** * Connections to clusters and nodes

    How the server reaches the API of a cluster, a node or its docker daemon
    (pkg/dialer/factory.go): directly, or through a session of the reverse tunnel.
    A dialer is a function of the network and the address; what it does with them is
    a [route]. *)

From stdpp Require Import base gmap list strings.
From Stdlib Require Import Ascii ZArith Lia.
From S2P Require Import Prelude.
From S2P Require Import GoLib.
From S2P Require Import KubeTypes.
From S2P Require Import KubeObjects.
From S2P Require Import Kube.
From S2P Require Import KubeRules.
From S2P Require Import KubeSim.
From S2P Require Import Cond.
From S2P Require Import NodePools.
From S2P Require Import Tunnel.
From S2P Require Import TunnelStream.
From S2P Require Import TunnelServer.
From S2P Require Import Tokens.
From S2P Require Import Authorizer.
Import Tunnel TunnelStream TunnelServer Authorizer.

Open Scope go_scope.

Module Dialer.

Notation ClusterDriverImported := "imported" (only parsing).
Notation ClusterDriverRKE := "rancherKubernetesEngine" (only parsing).
Notation ClusterConditionReady := "Ready" (only parsing).
Notation NodeConditionRegistered := "Registered" (only parsing).
Notation NodeConditionReady := "Ready" (only parsing).
Notation ExternalAddressAnnotation := "rke.cattle.io/external-ip" (only parsing).
Notation InternalAddressAnnotation := "rke.cattle.io/internal-ip" (only parsing).
Notation ControlRole := "controlplane" (only parsing).

(** [net.SplitHostPort]: the host, in brackets if it contains colons, and the port. *)
Definition SplitHostPort (hostport : string) : option (string * string) :=
  match drop_prefix "[" hostport with
  | Some rest =>
    match cut_sep "]" rest with
    | Some (host, r) =>
      match drop_prefix ":" r with
      | Some port => if has_char ":" port || has_char "[" rest || has_char "]" port then None
                     else Some (host, port)
      | None => None
      end
    | None => None
    end
  | None =>
    match cut_sep ":" hostport with
    | Some (host, port) => if has_char ":" port || has_char "[" hostport || has_char "]" hostport then None
                           else Some (host, port)
    | None => None
    end
  end.

(** Where a connection goes: from the server itself, through the session of a client,
    or to the docker daemon of a machine over TLS. *)
Inductive route :=
  | Native (network address : string)
  | Through (clientKey network address : string)
  | Tls (machine : Node).

Definition isCloudDriver (cluster : Cluster) : bool :=
  negb (cs_Internal (cluster_Spec cluster)) &&
  negb (String.eqb (cs_Driver (cluster_Status cluster)) ClusterDriverImported) &&
  negb (String.eqb (cs_Driver (cluster_Status cluster)) ClusterDriverRKE).

(** [v3.NodeConditionReady.IsUnknown(fakeNode)] *)
Definition ready_unknown (status : CoreNodeStatus) : bool :=
  match List.find (λ c, String.eqb (nc_Type c) NodeConditionReady) (cnt_Conditions status) with
  | Some c => String.eqb (nc_Status c) "Unknown"
  | None => false
  end.

Definition nodeGood (node : Node) : bool :=
  IsTrue NodeConditionRegistered node && IsTrue NodeConditionProvisioned node &&
  negb (ready_unknown (node_InternalNodeStatus node)) &&
  bool_decide (DeletionTimestamp (node_meta node) = None).

Definition privateIP (node : Node) : string := default "" (node_NodeAnnotations node !! InternalAddressAnnotation).
Definition publicIP (node : Node) : string := default "" (node_NodeAnnotations node !! ExternalAddressAnnotation).

Definition controls (node : Node) : bool :=
  match node_NodeConfig node with Some cfg => ContainsString (rke_Role cfg) ControlRole | None => false end.

(** The loop over the nodes: the private address of the node with the address [host],
    or that of the last node that will do. *)
Fixpoint pick_host (clusterGood : bool) (host lastGoodHost : string) (nodes : list Node) : option string :=
  match nodes with
  | [] => if String.eqb lastGoodHost "" then None else Some lastGoodHost
  | node :: nodes =>
    if String.eqb (privateIP node) "" || negb (nodeGood node) then pick_host clusterGood host lastGoodHost nodes
    else if String.eqb (publicIP node) host then
      if clusterGood then Some (privateIP node) else pick_host clusterGood host lastGoodHost nodes
    else pick_host clusterGood host (if controls node then privateIP node else lastGoodHost) nodes
  end.

Section factory.
Context {W : Type} `{!Client W Cluster, !Client W Node}.

(** [url.Parse(endpoint)], as far as it gives [u.Host]. *)
Variable url_Host : string → option string.

(** [f.TunnelServer.HasSession] *)
Variable HasSession : string → W → bool.

Notation dialer := (string → string → M W route).

Definition hostPort (cluster : Cluster) : string :=
  match url_Host (cs_APIEndpoint (cluster_Status cluster)) with
  | None => ""
  | Some host => if Contains host ":" then host else host +:+ ":443"
  end.

Definition native : dialer := λ network address, ret (Native network address).

Definition translateClusterAddress (cluster : Cluster) (clusterHostPort address : string) : M W string :=
  if negb (String.eqb clusterHostPort address) then ret address else
  match SplitHostPort address with
  | None => ret address
  | Some (host, port) =>
    let* r := attempt (reads (lister_List (Name (cluster_meta cluster)) Everything)) in
    match r with
    | inl _ => ret address
    | inr nodes =>
      ret (match pick_host (IsTrue ClusterConditionReady cluster) host "" nodes with
           | Some host => host +:+ ":" +:+ port
           | None => address
           end)
    end
  end.

Definition nodeDialer (clusterName machineName : string) : M W dialer :=
  let* machine := reads (lister_Get (O:=Node) clusterName machineName) in
  let* has := (λ w, (Ok (HasSession (Name (node_meta machine)) w), w)) in
  if has : bool then ret (λ network address, ret (Through (Name (node_meta machine)) network address))
  else throw (PlainError ("can not build dialer to " +:+ clusterName +:+ ":" +:+ machineName)).

Definition waiting {A} : M W A := throw (PlainError "waiting for cluster agent to connect").

(** The first node that can be dialled. *)
Fixpoint first_node (clusterName host : string) (nodes : list Node) : M W dialer :=
  match nodes with
  | [] => waiting
  | node :: nodes =>
    if bool_decide (DeletionTimestamp (node_meta node) = None) && IsTrue NodeConditionProvisioned node then
      let* r := attempt (nodeDialer clusterName (Name (node_meta node))) in
      match r with
      | inr d => ret (λ network address, d network (if String.eqb address host then "127.0.0.1:6443" else address))
      | inl _ => first_node clusterName host nodes
      end
    else first_node clusterName host nodes
  end.

Definition clusterDialer (clusterName address : string) : M W dialer :=
  let* cluster := reads (lister_Get (O:=Cluster) "" clusterName) in
  if cs_Internal (cluster_Spec cluster) then ret native else
  let host := hostPort cluster in
  if String.eqb address host && isCloudDriver cluster then ret native else
  let name := Name (cluster_meta cluster) in
  let rke := String.eqb (cs_Driver (cluster_Status cluster)) ClusterDriverRKE in
  let* has := (λ w, (Ok (HasSession name w), w)) in
  if has : bool then
    ret (λ network address,
      let* address := if rke then translateClusterAddress cluster host address else ret address in
      ret (Through name network address))
  else if negb rke then waiting else
  let* nodes := reads (lister_List name Everything) in
  first_node clusterName host nodes.

Definition ClusterDialer (clusterName : string) : dialer := λ network address,
  let* d := clusterDialer clusterName address in d network address.

Definition NodeDialer (clusterName machineName : string) : dialer := λ network address,
  let* d := nodeDialer clusterName machineName in d network address.

Definition DockerDialer (clusterName machineName : string) : M W dialer :=
  let* machine := reads (lister_Get (O:=Node) clusterName machineName) in
  let* has := (λ w, (Ok (HasSession (Name (node_meta machine)) w), w)) in
  if has : bool then
    ret (λ _ _, ret (Through (Name (node_meta machine)) "unix" "/var/run/docker.sock"))
  else if negb (String.eqb (node_NodeTemplateName machine) "") then ret (λ _ _, ret (Tls machine))
  else throw (PlainError ("can not build dialer to " +:+ clusterName +:+ ":" +:+ machineName)).

End factory.

(** ** Correctness *)

Section correct.
Context {W : Type} `{!Kube W, !Client W Cluster, !ClientLaws W Cluster, !Client W Node, !ClientLaws W Node}.
Context (url_Host : string → option string) (HasSession : string → W → bool).
Implicit Types (w : W) (c : Cluster) (n : Node).

(** A node that will do for [host]: it has a private address and is well, and it has the
    address [host] or runs the control plane. *)
Definition serves (host : string) n : Prop :=
  privateIP n ≠ "" ∧ nodeGood n = true ∧ (publicIP n = host ∨ controls n = true).

Lemma pick_host_Some good host last nodes h :
  pick_host good host last nodes = Some h →
  (∃ n, n ∈ nodes ∧ serves host n ∧ h = privateIP n) ∨ h = last.
Proof.
  revert last. induction nodes as [|n nodes IH]; intros last; simpl.
  { destruct (String.eqb last ""); [done|]. intros [= <-]. by right. }
  assert (∀ last', pick_host good host last' nodes = Some h →
    (∃ n', n' ∈ n :: nodes ∧ serves host n' ∧ h = privateIP n') ∨ h = last') as IH'.
  { intros last' [(n' & Hin & ?)|?]%IH; [left; exists n'; split; [by right|done]|by right]. }
  destruct (String.eqb_spec (privateIP n) "") as [|Hp]; simpl; [apply IH'|].
  destruct (nodeGood n) eqn:Hg; simpl; [|apply IH'].
  destruct (String.eqb_spec (publicIP n) host) as [Hh|Hh].
  - destruct good; [|apply IH']. intros [= <-]. left. exists n. split; [by left|]. unfold serves. eauto 6.
  - intros [?| ->]%IH'; [by left|]. destruct (controls n) eqn:Hc; [|by right].
    left. exists n. split; [by left|]. unfold serves. eauto 6.
Qed.

(** The address an RKE cluster is reached at in place of its own. *)
Definition translated c (host address address' : string) w : Prop :=
  address' = address ∨
  address = host ∧ ∃ h port n, SplitHostPort address = Some (h, port) ∧ serves h n ∧
    tbl (cached w) !! obj_key n = Some n ∧ Namespace (node_meta n) = Name (cluster_meta c) ∧
    address' = privateIP n +:+ ":" +:+ port.

Lemma wp_translate c host address w :
  Name (cluster_meta c) ≠ "" →
  wp (translateClusterAddress c host address) (returns (λ a w', w' = w ∧ translated c host address a w)) w.
Proof.
  intros Hne. unfold translateClusterAddress. destruct (String.eqb_spec host address) as [->|]; simpl.
  2: { apply wp_ret. split; [done|by left]. }
  destruct (SplitHostPort address) as [[h port]|] eqn:Hs; [|apply wp_ret; split; [done|by left]].
  apply wp_bind, wp_attempt, wp_reads.
  destruct (lister_list_law (O:=Node) (Name (cluster_meta c)) Everything w) as (l & Hl & _). rewrite Hl. simpl.
  apply wp_ret. split; [done|]. destruct (pick_host _ h "" l) as [h'|] eqn:Hp; [|by left].
  destruct (String.eqb_spec h' "") as [->|Hh'].
  - exfalso. assert (∀ g h last l, pick_host g h last l ≠ Some "") as Hno; [|by eapply Hno].
    clear. intros g h last l. revert last. induction l as [|n l IH]; intros last; simpl.
    + destruct (String.eqb_spec last ""); congruence.
    + destruct (String.eqb_spec (privateIP n) ""); simpl; [done|]. destruct (nodeGood n); simpl; [|done].
      destruct (String.eqb _ h); [|done]. destruct g; [congruence|done].
  - destruct (pick_host_Some _ _ _ _ _ Hp) as [(n & Hn & Hsv & ->)|]; [|done]. right. split; [done|].
    apply (elem_of_lister _ _ _ _ _ Hl) in Hn as (Hn & [?|Hns] & _); [done|]. by exists h, port, n.
Qed.

(** A node of the cluster through which an RKE cluster may be reached. *)
Definition relay c n w : Prop :=
  tbl (cached w) !! obj_key n = Some n ∧ Namespace (node_meta n) = Name (cluster_meta c) ∧
  DeletionTimestamp (node_meta n) = None ∧ IsTrue NodeConditionProvisioned n = true.

Notation dialer := (string → string → M W route).

Lemma wp_nodeDialer ns name w :
  wp (nodeDialer HasSession ns name)
    (if_ok (λ (d : dialer) w', w' = w ∧ HasSession name w = true ∧
              is_Some (tbl (O:=Node) (cached w) !! (ns, name)) ∧
              ∀ network address w, d network address w = (Ok (Through name network address), w))
       (λ _ w', w' = w)) w.
Proof.
  unfold nodeDialer. apply wp_bind, wp_reads. pose proof (lister_get_law (O:=Node) ns name w) as Hg.
  destruct (tbl (O:=Node) (cached w) !! (ns, name)) as [n|] eqn:Hn; [|by destruct Hg as (e & -> & _)].
  rewrite Hg. simpl. pose proof (cached_keyed (O:=Node) w _ _ Hn) as [= _ Hname]. simpl in Hname. rewrite <-Hname.
  apply wp_bind. unfold wp. simpl. destruct (HasSession name w) eqn:Hs; simpl; [|done]. by eauto.
Qed.

Lemma wp_first_node c host nodes w :
  (∀ n, n ∈ nodes → tbl (cached w) !! obj_key n = Some n ∧ Namespace (node_meta n) = Name (cluster_meta c)) →
  wp (first_node HasSession (Name (cluster_meta c)) host nodes)
    (if_ok (λ (d : dialer) w', w' = w ∧ ∃ n, relay c n w ∧ HasSession (Name (node_meta n)) w = true ∧
              ∀ network address w, d network address w =
                (Ok (Through (Name (node_meta n)) network
                       (if String.eqb address host then "127.0.0.1:6443" else address)), w))
       (λ _ w', w' = w)) w.
Proof.
  induction nodes as [|n nodes IH]; intros Hin; simpl; [done|].
  assert (∀ n', n' ∈ nodes → tbl (cached w) !! obj_key n' = Some n' ∧
    Namespace (node_meta n') = Name (cluster_meta c)) as Hin' by (intros; apply Hin; by right).
  destruct (bool_decide _ && _) eqn:Hb; [|by apply IH].
  apply andb_prop in Hb as [Hdel%bool_decide_eq_true_1 Hp]. destruct (Hin n) as [Hn Hns]; [by left|].
  apply wp_bind, wp_attempt. eapply wp_mono; [apply wp_nodeDialer|].
  intros [d|e| |] w'; simpl; try done; [|intros ->; by apply IH].
  intros (-> & Hs & _ & Hd). apply wp_ret. split; [done|]. exists n. split; [done|]. split; [done|].
  intros network address w'. by rewrite Hd.
Qed.

Definition is_RKE c : bool := String.eqb (cs_Driver (cluster_Status c)) ClusterDriverRKE.

(** The ways to the cluster [c] that are meant to be taken. *)
Definition reached c (network address : string) (r : route) w : Prop :=
  let host := hostPort url_Host c in
  match r with
  | Native network' address' =>
    network' = network ∧ address' = address ∧
    (cs_Internal (cluster_Spec c) = true ∨ address = host ∧ isCloudDriver c = true)
  | Through key network' address' =>
    network' = network ∧ cs_Internal (cluster_Spec c) = false ∧ HasSession key w = true ∧
    (key = Name (cluster_meta c) ∧ (if is_RKE c then translated c host address address' w else address' = address) ∨
     is_RKE c = true ∧ HasSession (Name (cluster_meta c)) w = false ∧
     ∃ n, relay c n w ∧ key = Name (node_meta n) ∧
       address' = if String.eqb address host then "127.0.0.1:6443" else address)
  | Tls _ => False
  end.

(** C32: a connection to a cluster leaves the server directly only for an internal cluster or
    for the API of a hosted one; every other goes through a session of the
    cluster or, while an RKE cluster has none, of one of its nodes.  It cannot fail when
    the cluster is known and internal or connected. *)
Theorem ClusterDialer_routes clusterName network address w :
  wp (ClusterDialer url_Host HasSession clusterName network address)
    (if_ok (λ r w', w' = w ∧ ∃ c, tbl (cached w) !! ("", clusterName) = Some c ∧ reached c network address r w)
       (λ _ w', w' = w ∧ ∀ c, tbl (cached w) !! ("", clusterName) = Some c →
          cs_Internal (cluster_Spec c) = false ∧ HasSession clusterName w = false)) w.
Proof.
  unfold ClusterDialer, clusterDialer. apply wp_bind, wp_bind, wp_reads.
  pose proof (lister_get_law (O:=Cluster) "" clusterName w) as Hg.
  destruct (tbl (O:=Cluster) (cached w) !! ("", clusterName)) as [c|] eqn:Hc.
  2: { destruct Hg as (e & -> & _). done. }
  rewrite Hg. simpl. pose proof (cached_keyed (O:=Cluster) w _ _ Hc) as [= _ Hname].
  pose proof (cached_named (O:=Cluster) w _ (mk_is_Some _ _ Hc)) as Hne. simpl in Hname, Hne. rewrite <-Hname.
  destruct (cs_Internal (cluster_Spec c)) eqn:Hi.
  { apply wp_ret, wp_ret. split; [done|]. exists c. split; [done|]. simpl. auto. }
  destruct (String.eqb address _ && isCloudDriver c) eqn:Hcl.
  { apply andb_prop in Hcl as [?%String.eqb_eq ?]. apply wp_ret, wp_ret. split; [done|]. exists c. split; [done|].
    simpl. auto. }
  apply wp_bind. unfold wp at 1. simpl. destruct (HasSession clusterName w) eqn:Hs.
  - apply wp_ret. simpl. eapply wp_bind_if_ok with (I := λ _ _, False)
      (P := λ a w', w' = w ∧ if is_RKE c then translated c (hostPort url_Host c) address a w else a = address); [| |done].
    + unfold is_RKE. destruct (String.eqb _ ClusterDriverRKE); [|by apply wp_ret].
      eapply wp_mono; [apply wp_translate; by rewrite <-Hname|]. by intros [].
    + intros a w' [-> Ha]. apply wp_ret. split; [done|]. exists c. split; [done|]. simpl. rewrite Hi, <-Hname. auto 6.
  - unfold is_RKE in *. destruct (String.eqb (cs_Driver (cluster_Status c)) ClusterDriverRKE) eqn:Hr; simpl.
    2: { split; [done|]. intros c' [= <-]. done. }
    apply wp_bind, wp_reads. destruct (lister_list_law (O:=Node) clusterName Everything w) as (l & Hl & _).
    rewrite Hl. simpl. rewrite Hname. eapply wp_mono; [apply wp_first_node|].
    + intros n Hn. apply (elem_of_lister _ _ _ _ _ Hl) in Hn as (? & [?|?] & _); [done|]. by rewrite <-Hname.
    + intros [d|e| |] w'; simpl; try done; [|intros ->; split; [done|]; intros c' [= <-]; by rewrite <-?Hname].
      intros (-> & n & Hrel & Hsn & Hd). unfold wp. rewrite Hd. simpl. split; [done|]. exists c.
      split; [done|]. simpl. rewrite <-Hname. unfold is_RKE. rewrite Hr. eauto 10.
Qed.

End correct.

(** ** Sessions that share a key *)

Section collision.
Context {W : Type} `{!Kube W}.
Context `{!Client W ClusterRegistrationToken, !ClientLaws W ClusterRegistrationToken}.
Context `{!Client W Cluster, !ClientLaws W Cluster, !CacheAlias W Cluster, !CacheAliasLaws W Cluster}.
Context `{!Client W Node, !ClientLaws W Node}.
Context (unmarshal : string → goerr + input).
Context {S : Type} `{!Net S}.
Implicit Types (w : W) (sm : manager (S:=S)).

Notation token_of req := (Tokens.header_Get (tr_Request req) TokenHeader).

(** The agent of the host [h] is let in under [key], by a cluster that knows the host, if at all, by a node named after it. *)
Definition let_in_as (h key : string) req w : Prop :=
  from_host unmarshal req h ∧ (∀ c, holder (token_of req) c w → named_after c h w) ∧
  ∃ e w', authorizeTunnel unmarshal req w = (Ok (key, true, e), w').

(** [HasSession] of a table of sessions *)
Definition has_in sm (key : string) (_ : W) : bool :=
  match (TunnelServer.HasSession key sm).1 with Ok b => b | _ => false end.

Lemma let_in_key h key req w : let_in_as h key req w → key = machineName h.
Proof.
  intros (Hhost & Hnamed & e & w' & Hrun). pose proof (wp_authorizeTunnel_key unmarshal req h w Hhost Hnamed) as Hw.
  unfold wp in Hw. rewrite Hrun in Hw. simpl in Hw. by eapply Hw.
Qed.

(** The first of two sessions of a client is the one connections are made through. *)
Lemma first_session key k1 ids1 (conn1 : S) k2 ids2 (conn2 : S) sm :
  default [] (clients sm !! key) = [] →
  let sm2 := (add key k2 ids2 conn2 (add key k1 ids1 conn1 sm).2).2 in
  getByClient key sm2 = ((add key k1 ids1 conn1 sm).1, sm2) ∧ ∀ w, has_in sm2 key w = true.
Proof.
  intros Hnone sm2.
  assert (default [] (clients sm2 !! key) = [next_session sm; Datatypes.S (next_session sm)]) as Hq.
  { unfold sm2, add. simpl. rewrite !lookup_insert_eq. simpl. by rewrite Hnone. }
  unfold has_in, TunnelServer.HasSession, bind, attempt, getByClient, reads. by rewrite Hq.
Qed.

(** C33: sessions of different clusters share a key.  Let agents of hosts with the same name be let in by two clusters, whichever they are, that know the
    host, if at all, by a node named after it.  Both are let in under the same key.  When the first of
    them, and then the second, opens a session in a table that has none for the key, a connection to the node of
    any cluster that is called by the key goes through the key, and the session used for it is the first one's. *)
Theorem tunnel_keys_collide h key1 req1 w1 key2 req2 w2 :
  let_in_as h key1 req1 w1 → let_in_as h key2 req2 w2 →
  key1 = key2 ∧
  ∀ k1 ids1 (conn1 : S) k2 ids2 (conn2 : S) sm, default [] (clients sm !! key1) = [] →
    let first := add key1 k1 ids1 conn1 sm in
    let sm2 := (add key2 k2 ids2 conn2 first.2).2 in
    ∀ ns network address w, is_Some (tbl (O:=Node) (cached w) !! (ns, key2)) →
      NodeDialer (has_in sm2) ns key2 network address w = (Ok (Through key2 network address), w) ∧
      getByClient key2 sm2 = (first.1, sm2).
Proof.
  intros H1%let_in_key H2%let_in_key. subst key1 key2. split; [done|].
  intros k1 ids1 conn1 k2 ids2 conn2 sm Hnone first sm2 ns network address w [n Hn].
  destruct (first_session (machineName h) k1 ids1 conn1 k2 ids2 conn2 sm Hnone) as [Hget Hhas]. split; [|exact Hget].
  pose proof (lister_get_law (O:=Node) ns (machineName h) w) as Hg. rewrite Hn in Hg.
  pose proof (cached_keyed (O:=Node) w _ _ Hn) as [= _ Hname].
  unfold NodeDialer, nodeDialer, bind, reads. rewrite Hg. simpl in Hname. rewrite <-Hname.
  unfold sm2, first. by rewrite Hhas.
Qed.

End collision.

(** ** Examples *)

(** An RKE cluster whose agent is not connected, with one node that is. *)
Definition demo_rke : Cluster :=
  {| cluster_meta := named_meta "c-1" ∅ ∅ []; cluster_type := {| Kind := "Cluster"; APIVersion := "v3" |};
     cluster_Spec := no_spec;
     cluster_Status := {| cs_Driver := ClusterDriverRKE; cs_APIEndpoint := "https://10.0.0.1:6443";
       cs_ServiceAccountToken := ""; cs_CACert := ""; cs_AppliedPodSecurityPolicyTemplateName := "" |};
     cluster_Conditions := [] |}.

Definition demo_rke_node : Node :=
  set_conditions [{| c_Type := NodeConditionProvisioned; c_Status := "True"; c_LastUpdateTime := "";
                     c_Reason := ""; c_Message := "" |}] (demo_node "m-1" "web" "").

Definition demo_rke_state : KState := put_obj demo_rke (put_obj demo_rke_node empty_state).

Definition demo_url_Host (s : string) : option string := drop_prefix "https://" s.

Definition demo_has (key : string) (_ : Sim) : bool := String.eqb key "m-1".

Definition demo_dial : outcome route * Sim :=
  ClusterDialer demo_url_Host demo_has "c-1" "tcp" "10.0.0.1:6443" (synced demo_rke_state).

(** The API of the cluster is reached through the node. *)
Lemma ClusterDialer_routes_witness :
  demo_dial.1 = Ok (Through "m-1" "tcp" "127.0.0.1:6443") ∧
  ∃ c, tbl (cached (synced demo_rke_state)) !! ("", "c-1") = Some c ∧
    reached demo_url_Host demo_has c "tcp" "10.0.0.1:6443" (Through "m-1" "tcp" "127.0.0.1:6443")
      (synced demo_rke_state).
Proof.
  assert (demo_dial.1 = Ok (Through "m-1" "tcp" "127.0.0.1:6443")) as Hr by (vm_compute; reflexivity).
  split; [exact Hr|].
  pose proof (ClusterDialer_routes demo_url_Host demo_has "c-1" "tcp" "10.0.0.1:6443" (synced demo_rke_state)) as Hw.
  unfold wp in Hw. fold demo_dial in Hw. rewrite Hr in Hw. destruct Hw as [_ Hw]. exact Hw.
Defined.

(** The registrations of the host [web] with two clusters. *)
Definition demo_second : outcome (string * bool * option goerr) * Sim :=
  authorizeTunnel demo_unmarshal (demo_tunnel_request "t2") demo_first.2.

Definition demo_caught_up : Sim := synced (sim_view demo_second.2).

Lemma demo_from_host token : from_host demo_unmarshal (demo_tunnel_request token) "web".
Proof.
  intros i (bytes & _ & Hi & _). unfold demo_unmarshal in Hi. destruct (String.eqb bytes "web"); [|discriminate Hi].
  injection Hi as <-. by exists demo_host.
Qed.

Lemma demo_named_after c (w : Sim) : tbl (O:=Node) (cached w) = ∅ → named_after c "web" w.
Proof. intros Hw n Hn. rewrite Hw in Hn. by rewrite lookup_empty in Hn. Qed.

Lemma demo_let_in token key (w : Sim) :
  tbl (O:=Node) (cached w) = ∅ →
  (authorizeTunnel demo_unmarshal (demo_tunnel_request token) w).1 = Ok (key, true, None) →
  let_in_as demo_unmarshal "web" key (demo_tunnel_request token) w.
Proof.
  intros Hw Hrun. split; [apply demo_from_host|]. split; [intros c _; by apply demo_named_after|].
  destruct (authorizeTunnel _ _ w) as [r w']. simpl in Hrun. subst r. by exists None, w'.
Qed.

Lemma tunnel_keys_collide_witness :
  ∃ sm2 : manager (S:=Wire),
    NodeDialer (has_in (W:=Sim) sm2) "c-2" demo_name "tcp" "127.0.0.1:22" demo_caught_up =
      (Ok (Through demo_name "tcp" "127.0.0.1:22"), demo_caught_up) ∧
    getByClient demo_name sm2 = (Ok 0%nat, sm2).
Proof.
  assert (let_in_as demo_unmarshal "web" demo_name (demo_tunnel_request "t1") (synced demo_clusters)) as H1.
  { apply demo_let_in; vm_compute; reflexivity. }
  assert (let_in_as demo_unmarshal "web" demo_name (demo_tunnel_request "t2") demo_first.2) as H2.
  { apply demo_let_in; vm_compute; reflexivity. }
  destruct (tunnel_keys_collide (S:=Wire) demo_unmarshal "web" _ _ _ _ _ _ H1 H2) as [_ Huse].
  eexists. apply (Huse 4%Z 0%Z [] 17%Z 0%Z [] newSessionManager eq_refl "c-2" "tcp" "127.0.0.1:22" demo_caught_up).
  vm_compute. eexists. reflexivity.
Defined.

End Dialer.
