(* ===== verification/NodeTypes.v ===== *)
(** * The type of a node

    Nodes ([v3.Node]) are written by three components: node pools make them
    (NodePools), agents register them through the tunnel (Authorizer), and the node
    syncer makes and updates them (NodeSync).  The record leaves open combinations of
    its fields that no component is meant to make; the theorem says that none ever does,
    whatever the order of the operations and whichever of them fail. *)

From stdpp Require Import base gmap list strings.
From Stdlib Require Import Ascii ZArith Lia.
From S2P Require Import Prelude.
From S2P Require Import GoLib.
From S2P Require Import KubeTypes.
From S2P Require Import KubeObjects.
From S2P Require Import Kube.
From S2P Require Import KubeRules.
From S2P Require Import KubeSim.
From S2P Require Import Cond.
From S2P Require Import NodePools.
From S2P Require Import NodeSync.
From S2P Require Import Authorizer.

Open Scope go_scope.

Module NodeTypes.

(** A node is either imported, named after its host, outside the pools and with an address to
    reach it at, or it has no configuration of its own. *)
Definition typed (o : Node) : Prop :=
  match node_CustomConfig o with
  | Some cc => node_Imported o = true ∧ Name (node_meta o) = Authorizer.machineName (node_RequestedHostname o) ∧
               cc_Address cc ≠ "" ∧ node_NodePoolName o = ""
  | None => node_Imported o = false
  end.

Definition all_typed (s : KState) : Prop := map_Forall (λ _ o, typed o) (tbl (O:=Node) s).

Section keeps.
Context {W : Type} `{!Kube W}.

(** Nodes are well typed in the cluster and in the cache. *)
Definition inv (w : W) : Prop := all_typed (view w) ∧ all_typed (cached w).

(** Whatever its outcome, [m] keeps the types of nodes; its value satisfies [Q]. *)
Definition keeps {A} (Q : A → Prop) (m : M W A) : Prop :=
  ∀ w, inv w → wp m (λ r w', inv w' ∧ match r with Ok a => Q a | _ => True end) w.

Lemma keeps_weaken {A} (P Q : A → Prop) m : keeps P m → (∀ a, P a → Q a) → keeps Q m.
Proof. intros Hm Hpq w Hw. eapply wp_mono; [by apply Hm|]. intros [] w' [? ?]; split; auto. Qed.

Lemma keeps_ret {A} (Q : A → Prop) a : Q a → keeps Q (ret a).
Proof. intros Ha w Hw. by apply wp_ret. Qed.

Lemma keeps_throw {A} (Q : A → Prop) e : keeps Q (throw e).
Proof. intros w Hw. by apply wp_throw. Qed.

Lemma keeps_panic {A} (Q : A → Prop) : keeps Q panic.
Proof. by intros w Hw. Qed.

Lemma keeps_fuel {A} (Q : A → Prop) : keeps Q out_of_fuel.
Proof. by intros w Hw. Qed.

Lemma keeps_bind {A B} (P : A → Prop) (Q : B → Prop) m k :
  keeps P m → (∀ a, P a → keeps Q (k a)) → keeps Q (bind m k).
Proof.
  intros Hm Hk w Hw. apply wp_bind. eapply wp_mono; [by apply Hm|].
  intros [a|e| |] w' [Hw' Ha]; simpl; [by apply Hk|done..].
Qed.

Lemma keeps_attempt {A} (Q : A → Prop) m :
  keeps Q m → keeps (λ r, match r with inr a => Q a | inl _ => True end) (attempt m).
Proof. intros Hm w Hw. apply wp_attempt. eapply wp_mono; [by apply Hm|]. by intros [] w'. Qed.

Lemma keeps_wrap_err {A} (Q : A → Prop) msg m : keeps Q m → keeps Q (wrap_err msg m).
Proof. intros Hm w Hw. apply wp_wrap_err. eapply wp_mono; [by apply Hm|]. by intros [] w'. Qed.

Lemma keeps_reads {A} (f : W → outcome A) : keeps (λ _, True) (reads f).
Proof. intros w Hw. apply wp_reads. split; [done|]. by destruct (f w). Qed.

Lemma keeps_for_each {A} (f : A → M W unit) l :
  (∀ x, x ∈ l → keeps (λ _, True) (f x)) → keeps (λ _, True) (for_each f l).
Proof.
  induction l as [|x l IH]; intros Hf; simpl; [by apply keeps_ret|].
  apply (keeps_bind (λ _, True)); [apply Hf; by left|]. intros _ _. apply IH. intros y Hy. apply Hf. by right.
Qed.

Lemma keeps_for_fold {A S} (P : S → Prop) (f : S → A → M W S) s l :
  P s → (∀ s x, x ∈ l → P s → keeps P (f s x)) → keeps P (for_fold f s l).
Proof.
  revert s. induction l as [|x l IH]; intros s Hs Hf; simpl; [by apply keeps_ret|].
  apply (keeps_bind P); [apply Hf; [by left|done]|]. intros s' Hs'. apply IH; [done|].
  intros s2 y Hy. apply Hf. by right.
Qed.

Lemma keeps_range {A} `{!GoRuntime W, !GoRuntimeLaws W} (P : string → A → Prop) (m : gmap string A) :
  map_Forall P m → keeps (Forall (λ kv, P kv.1 kv.2)) (range m).
Proof.
  intros Hm w Hw. apply wp_range. intros l Hl. split; [done|]. apply Forall_forall. intros [k a] Hin.
  apply (range_elem _ _ _ _ Hl) in Hin. exact (Hm k a Hin).
Qed.

Lemma keeps_at_now {O} `{!GoRuntime W, !Conditioned O} (Q : O → Prop) (f : string → O) :
  (∀ now, Q (f now)) → keeps Q (at_now f).
Proof. intros Hf w Hw. by split; [|apply Hf]. Qed.

(** ** Requests *)

Section other.
Context {O : Type} `{!Stored O, !StoredLaws O, !Client W O, !ClientLaws W O}.
Hypothesis other : ∀ s s', only_tbl (O:=O) s s' → tbl (O:=Node) s' = tbl (O:=Node) s.

Lemma inv_other w w' : inv w → only_tbl (O:=O) (view w) (view w') → cache_step w w' → inv w'.
Proof.
  intros [Hv Hc] Hot Hcs. unfold inv, all_typed. rewrite (other _ _ Hot). split; [done|].
  intros k o Hk. destruct (cache_step_tbl (O:=Node) w w' k Hcs) as [Hs|Hs]; rewrite Hk in Hs; symmetry in Hs.
  - exact (Hc k o Hs).
  - rewrite (other _ _ Hot) in Hs. exact (Hv k o Hs).
Qed.

Lemma keeps_update_other ns (o : O) : keeps (λ _, True) (api_update ns o).
Proof.
  intros w Hw. apply wp_update; [intros o' w' _ _ _ Hv Hcs|intros e w' Hv Hcs _]; (split; [|done]);
    (eapply inv_other; [exact Hw| |exact Hcs]); rewrite Hv; [apply only_tbl_put|]; apply only_tbl_refl.
Qed.

Lemma keeps_cache_write `{!CacheAlias W O, !CacheAliasLaws W O} (o : O) :
  keeps (λ _, True) (λ w, (Ok tt, cache_write o w)).
Proof.
  intros w [Hv Hc]. unfold wp. simpl. split; [|done]. unfold inv, all_typed. rewrite cache_write_view. split; [done|].
  destruct (tbl (O:=O) (cached w) !! obj_key o) eqn:Ho.
  - rewrite cache_write_cached by (by rewrite Ho). rewrite (other (cached w)); [done|apply only_tbl_put, only_tbl_refl].
  - by rewrite cache_write_absent.
Qed.

End other.

Context `{!Client W Node, !ClientLaws W Node}.

Lemma inv_put w w' n : inv w → typed n → view w' = put_obj n (view w) → cache_step w w' → inv w'.
Proof.
  intros [Hv Hc] Hn Hv' Hcs.
  assert (all_typed (view w')) as Hall.
  { unfold all_typed. rewrite Hv', tbl_put. by apply map_Forall_insert_2. }
  split; [done|]. intros k o Hk.
  destruct (cache_step_tbl (O:=Node) w w' k Hcs) as [Hs|Hs]; rewrite Hk in Hs; symmetry in Hs;
    [exact (Hc k o Hs)|exact (Hall k o Hs)].
Qed.

Lemma inv_same w w' : inv w → view w' = view w → cache_step w w' → inv w'.
Proof.
  intros [Hv Hc] Hv' Hcs. split; [by rewrite Hv'|]. intros k o Hk.
  destruct (cache_step_tbl (O:=Node) w w' k Hcs) as [Hs|Hs]; rewrite Hk in Hs; symmetry in Hs;
    [exact (Hc k o Hs)|rewrite Hv' in Hs; exact (Hv k o Hs)].
Qed.

(** The type does not depend on the metadata but for the name. *)
Lemma typed_stored o o' :
  typed o → same_spec o o' → (Name (node_meta o) ≠ "" → Name (node_meta o') = Name (node_meta o)) → typed o'.
Proof.
  intros Ht Hspec Hn. simpl in Hspec. rewrite Hspec. unfold typed in *. simpl.
  destruct (node_CustomConfig o) as [cc|]; [|done]. destruct Ht as (? & Hname & ? & ?). split_and!; [done| |done..].
  rewrite Hn; [done|]. by rewrite Hname.
Qed.

Lemma keeps_create ns o : typed o → keeps typed (api_create ns o).
Proof.
  intros Ho w Hw. apply wp_create.
  - intros o' w' (_ & _ & Hn & _ & _ & _ & Hspec) _ Hv Hcs.
    assert (typed o') as Ho' by (by apply (typed_stored o)). split; [by apply (inv_put w w' o')|done].
  - intros e w' Hv Hcs _. split; [by eapply inv_same|done].
Qed.

Lemma keeps_update ns o : typed o → keeps typed (api_update ns o).
Proof.
  intros Ho w Hw. apply wp_update.
  - intros o' w' (_ & _ & Hn & _ & _ & _ & Hspec) _ _ Hv Hcs.
    assert (typed o') as Ho' by (by apply (typed_stored o)). split; [by apply (inv_put w w' o')|done].
  - intros e w' Hv Hcs _. split; [by eapply inv_same|done].
Qed.

Lemma keeps_delete ns n : keeps (λ _, True) (api_delete (O:=Node) ns n).
Proof.
  intros w Hw. apply wp_delete; [intros w' _ Hv Hcs|intros e w' _ Hv Hcs _ _]; (split; [|done]).
  - destruct Hw as [Hvw Hcw]. assert (all_typed (view w')) as Hall.
    { unfold all_typed. rewrite Hv, tbl_del. by apply map_Forall_delete. }
    split; [done|]. intros k o Hk.
    destruct (cache_step_tbl (O:=Node) w w' k Hcs) as [Hs|Hs]; rewrite Hk in Hs; symmetry in Hs;
      [exact (Hcw k o Hs)|exact (Hall k o Hs)].
  - by eapply inv_same.
Qed.

Lemma keeps_lister_Get ns n : keeps typed (reads (lister_Get ns n)).
Proof.
  intros w Hw. apply wp_reads. split; [done|]. pose proof (lister_get_law (O:=Node) ns n w) as Hl.
  destruct (tbl (O:=Node) (cached w) !! (ns, n)) as [o|] eqn:Ho; [rewrite Hl; exact (proj2 Hw _ _ Ho)|].
  by destruct Hl as (e & -> & _).
Qed.

Lemma keeps_lister_List ns sel : keeps (Forall typed) (reads (lister_List ns sel)).
Proof.
  intros w Hw. apply wp_reads. split; [done|]. destruct (lister_list_law (O:=Node) ns sel w) as (l & Hl & _).
  rewrite Hl. apply Forall_forall. intros o Ho. apply (elem_of_lister _ _ _ _ _ Hl) in Ho as [Ho _].
  exact (proj2 Hw _ _ Ho).
Qed.

Lemma keeps_ByIndex f key : keeps (Forall typed) (reads (ByIndex f key)).
Proof.
  intros w Hw. apply wp_reads. split; [done|]. destruct (by_index_law (O:=Node) f key w) as (l & Hl & _).
  rewrite Hl. apply Forall_forall. intros o Ho. apply (elem_of_index _ _ _ _ _ Hl) in Ho as [Ho _].
  exact (proj2 Hw _ _ Ho).
Qed.

End keeps.

(** A handler is taken apart construct by construct; values that matter are followed by the
    rules for reading nodes. *)
Ltac keep_step :=
  first
    [ apply keeps_throw | apply keeps_panic | apply keeps_fuel
    | apply keeps_lister_Get | apply keeps_lister_List | apply keeps_ByIndex
    | apply keeps_reads | apply keeps_delete
    | apply keeps_attempt | apply keeps_wrap_err
    | eapply keeps_bind; [|intros ? ?] ].

Tactic Notation "keep" := repeat first [keep_step | by apply keeps_ret].
Tactic Notation "keep" "using" constr(H) := repeat first [apply H | keep_step | by apply keeps_ret].

Section operations.
Context {W : Type} `{!Kube W, !GoRuntime W, !GoRuntimeLaws W, !Goroutines W, !GoroutinesLaws W, !SortSlice}.
Context `{!Client W Node, !ClientLaws W Node, !Client W NodePool, !Client W Pod}.
Context `{!Client W Cluster, !ClientLaws W Cluster, !CacheAlias W Cluster, !CacheAliasLaws W Cluster}.
Context `{!Client W CoreNode, !ClientLaws W CoreNode, !CacheAlias W CoreNode, !CacheAliasLaws W CoreNode}.
Context `{!Client W ClusterRegistrationToken}.

(** *** Node pools *)

Lemma keeps_deleteNode n d : keeps (λ _, True) (NodePools.deleteNode (W:=W) n d).
Proof.
  unfold NodePools.deleteNode. destruct (0 <? d)%Z; [|apply keeps_delete].
  intros w [Hv Hc]. unfold wp. simpl. split; [|done]. unfold inv. by rewrite go_later_view, go_later_cached.
Qed.

Lemma keeps_fill fuel p sim q prefix len i st :
  keeps (λ _, True) (fill (W:=W) fuel p sim q prefix len i st).
Proof.
  revert i st. induction fuel as [|fuel IH]; intros i st; simpl; (destruct (_ <? q)%Z; [|by apply keeps_ret]).
  - apply keeps_fuel.
  - case_bool_decide; [apply IH|]. apply (keeps_bind typed); [|intros ? ?; apply IH].
    unfold NodePools.createNode. destruct sim; [by apply keeps_ret|by apply keeps_create].
Qed.

Lemma keeps_trim fuel sim q st : keeps (λ _, True) (trim (W:=W) fuel sim q st).
Proof.
  revert st. induction fuel as [|fuel IH]; intros st; simpl; (destruct (q <? _)%Z; [|by apply keeps_ret]).
  - apply keeps_fuel.
  - destruct (last _) as [n|]; [|apply keeps_panic]. apply (keeps_bind (λ _, True)); [|intros ? ?; apply IH].
    destruct sim; [by apply keeps_ret|]. keep using keeps_deleteNode.
Qed.

Lemma keeps_createNodes p : keeps (λ _, True) (createNodes (W:=W) p).
Proof.
  assert (∀ sim, keeps (λ _, True) (createOrCheckNodes (W:=W) p sim)) as Hc.
  { intros sim. unfold createOrCheckNodes. apply (keeps_bind (λ _, True)); [|intros l _].
    { unfold pool_nodes. destruct sim; keep. }
    apply (keeps_bind (λ _, True)); [apply keeps_for_fold; [done|]|intros st _].
    { intros st n _ _. unfold check_node. destruct (in_pool p n); [|by apply keeps_ret].
      destruct (failed_node n); [|by apply keeps_ret]. apply (keeps_bind (λ _, True)); [|intros; by apply keeps_ret].
      destruct sim; [by apply keeps_ret|]. keep using keeps_deleteNode. }
    destruct (parsePrefix _) as [[prefix len] start].
    eapply keeps_bind; [apply keeps_fill|intros ? ?]. keep using keeps_trim. }
  unfold createNodes. eapply keeps_bind; [apply Hc|intros [] _]; keep using Hc.
Qed.

Lemma keeps_Do {O} `{!Conditioned O} c (obj : O) (f : cond_step (W:=W)) :
  (∀ o, keeps (λ _, True) (f o)) → keeps (λ _, True) (Do c obj f).
Proof.
  intros Hf. unfold Do. apply (keeps_bind (λ _, True)); [|intros; by apply keeps_ret].
  unfold doInternal. apply (keeps_bind (λ _, True)); [destruct (IsFalse c obj); [by apply keeps_ret|by apply keeps_at_now]|].
  intros o _. apply (keeps_bind (λ _, True)); [apply Hf|intros [o' e] _]. simpl.
  destruct e as [e|]; [destruct e|]; repeat first
    [ by apply keeps_ret | by apply keeps_at_now
    | apply (keeps_bind (λ _, True)); [|intros ? _] | case_match ].
Qed.

Lemma keeps_pool_Updated p : keeps (λ _, True) (pool_Updated (W:=W) p).
Proof. apply keeps_Do. intros o. keep using keeps_createNodes. Qed.

Lemma keeps_pool_Remove p : keeps (λ _, True) (pool_Remove (W:=W) p).
Proof.
  unfold pool_Remove, pool_nodes. keep. apply keeps_for_each. intros n _. destruct (in_pool p n); [apply keeps_deleteNode|by apply keeps_ret].
Qed.

(** *** The tunnel *)

Lemma typed_with n f : Authorizer.mild f → node_NodePoolName (f n) = node_NodePoolName n → typed n → typed (f n).
Proof. intros Hf Hp. destruct (Hf n) as (Hm & Hi & Hc & Hr). unfold typed. by rewrite Hm, Hi, Hc, Hr, Hp. Qed.

Lemma keeps_send n n' : typed n → typed n' → keeps typed (if decide (n = n') then ret n else api_update (W:=W) "" n').
Proof. intros Hn Hn'. case_decide; [by apply keeps_ret|by apply keeps_update]. Qed.

Lemma keeps_getMachine c i : keeps typed (Authorizer.getMachine (W:=W) c i).
Proof.
  unfold Authorizer.getMachine. eapply keeps_bind; [apply keeps_attempt, keeps_lister_Get|intros [e|n] Hn; [|by apply keeps_ret]].
  destruct (IsNotFound e); [|apply keeps_throw].
  eapply keeps_bind; [apply keeps_attempt, keeps_ByIndex|intros [e'|[|n l]] Hl].
  3: { apply keeps_ret. by apply Forall_cons in Hl as [? _]. }
  all: eapply keeps_bind; [apply keeps_attempt, keeps_lister_Get|intros [e2|n] ?];
    [apply keeps_throw|by apply keeps_ret].
Qed.

Lemma keeps_authorizeNode register c i : keeps typed (Authorizer.authorizeNode (W:=W) register c i).
Proof.
  unfold Authorizer.authorizeNode. eapply keeps_bind; [apply keeps_attempt, keeps_getMachine|intros r Hr].
  apply (keeps_bind typed).
  { destruct r as [e|n]; [|by apply keeps_ret]. destruct (_ && _); [|apply keeps_throw].
    unfold Authorizer.createNode, Authorizer.toCustomConfig. destruct (Authorizer.ni_CustomConfig i) as [cc|]; [|apply keeps_throw].
    destruct (String.eqb_spec (cc_Address cc) ""); [apply keeps_throw|]. by apply keeps_create. }
  intros n Hn. apply (keeps_bind typed); [destruct register; [|by apply keeps_ret]|intros n' Hn'].
  - apply keeps_send; [done|]. by apply typed_with; [apply Authorizer.with_roles_mild| |].
  - unfold Authorizer.updateDockerInfo. destruct (Authorizer.ni_DockerInfo i); [|by apply keeps_ret].
    apply keeps_send; [done|]. by apply typed_with; [apply Authorizer.with_DockerInfo_mild| |].
Qed.

Lemma keeps_authorizeTunnel unmarshal req : keeps (λ _, True) (Authorizer.authorizeTunnel (W:=W) unmarshal req).
Proof.
  unfold Authorizer.authorizeTunnel. apply (keeps_bind (λ _, True)); [|intros [[[c|] ?] ?] _; by apply keeps_ret].
  unfold Authorizer.Authorize. destruct (String.eqb _ ""); [by apply keeps_ret|].
  apply (keeps_bind (λ _, True)); [|intros c _].
  { unfold Authorizer.getClusterByToken. eapply keeps_bind; [apply keeps_reads|intros [|crt l] _; keep]. }
  apply (keeps_bind (λ _, True)); [|intros i _].
  { unfold Authorizer.readInput. repeat case_match; keep. }
  destruct (Authorizer.in_Node i) as [n|]; [|destruct (Authorizer.in_Cluster i) as [cl|]; [|by apply keeps_ret]].
  - unfold Authorizer.nodeClient. keep using keeps_authorizeNode.
  - apply (keeps_bind (λ _, True)); [|intros ? _; by apply keeps_ret].
    unfold Authorizer.authorizeCluster. destruct (negb _ && negb _); [by apply keeps_ret|].
    case_decide; [by apply keeps_ret|].
    assert (∀ s s', only_tbl (O:=Cluster) s s' → tbl (O:=Node) s' = tbl (O:=Node) s) as Hother by other_kind.
    apply (keeps_bind (λ _, True)); [by apply keeps_cache_write|intros _ _].
    eapply keeps_bind; [by apply keeps_attempt, keeps_update_other|intros ? _]. by apply keeps_ret.
Qed.

(** *** The node syncer *)

Lemma keeps_convert ns node existing pods :
  from_option typed True existing → keeps typed (NodeSync.convertNodeToNode (W:=W) ns node existing pods).
Proof.
  intros He w Hw. eapply wp_mono; [apply NodeSync.wp_convertNodeToNode|]. intros [m|e| |] w' Hr; try done.
  destruct Hr as [-> [l ->]]. split; [done|]. by destruct existing as [m|].
Qed.

Lemma keeps_removeNode ns m : keeps (λ _, True) (NodeSync.removeNode (W:=W) ns m).
Proof. unfold NodeSync.removeNode. case_match; keep. Qed.

Lemma keeps_reconcileNode cluster ns machine node pods :
  from_option typed True machine → keeps (λ _, True) (NodeSync.reconcileNodeForNode (W:=W) cluster ns machine node pods).
Proof.
  intros Hm. destruct machine as [m|]; simpl.
  - unfold NodeSync.updateNode. eapply keeps_bind; [by apply keeps_convert|intros m' Hm'].
    case_match; [by apply keeps_ret|]. eapply keeps_bind; [by apply keeps_wrap_err, keeps_update|intros ? _; keep].
  - unfold NodeSync.createNode. eapply keeps_bind; [apply keeps_reads|intros c _].
    case_match; [by apply keeps_ret|]. unfold NodeSync.getNodeForNode.
    eapply keeps_bind; [keep|intros [m|] _; [by apply keeps_ret|]].
    eapply keeps_bind; [by apply keeps_convert|intros m Hm'].
    eapply keeps_bind; [apply keeps_wrap_err, keeps_create|intros ? _; keep].
    unfold NodeSync.with_annotation. by case_decide.
Qed.

Lemma sort_machines_typed nodes machines :
  Forall typed machines →
  let r := NodeSync.sort_machines nodes machines in
  map_Forall (λ _, typed) r.1 ∧ map_Forall (λ _, typed) r.2.
Proof.
  unfold NodeSync.sort_machines. induction machines as [|m l IH] using rev_ind; intros Hl.
  { split; apply map_Forall_empty. }
  apply Forall_app in Hl as [Hl [Hm _]%Forall_cons]. rewrite fold_left_app. simpl. destruct (IH Hl) as [H1 H2].
  case_match; split; simpl; try done; by apply map_Forall_insert_2.
Qed.

Lemma keeps_reconcileAll cluster ns : keeps (λ _, True) (NodeSync.reconcileAll (W:=W) cluster ns).
Proof.
  unfold NodeSync.reconcileAll. eapply keeps_bind; [apply keeps_reads|intros nodes _].
  eapply keeps_bind; [apply keeps_attempt, keeps_lister_List|intros r Hr].
  set (machines := match r with inr l => l | inl _ => [] end).
  assert (Forall typed machines) as Hm by (by destruct r). clearbody machines.
  pose proof (sort_machines_typed nodes machines Hm) as [H1 H2].
  destruct (NodeSync.sort_machines nodes machines) as [machineMap toDelete]. simpl in H1, H2.
  eapply keeps_bind; [unfold NodeSync.getNonTerminatedPods; keep|intros pods _].
  eapply keeps_bind; [apply (keeps_range (λ _ _, True)); done|intros order _].
  eapply keeps_bind; [apply keeps_for_each; intros [name node] _|intros _ _].
  { apply keeps_reconcileNode. simpl. destruct (machineMap !! name) as [m|] eqn:Hn; [exact (H1 _ _ Hn)|done]. }
  eapply keeps_bind; [apply (keeps_range (λ _ _, True)); done|intros order2 _].
  eapply keeps_bind; [apply keeps_for_each; intros [name m] _; case_match; [by apply keeps_ret|apply keeps_removeNode]|].
  intros _ _. eapply keeps_bind; [apply (keeps_range (λ _ _, True)); done|intros order3 _].
  apply keeps_for_each. intros [name m] _. apply keeps_removeNode.
Qed.

Lemma keeps_syncLabels ns obj :
  from_option typed True obj → keeps (λ _, True) (NodeSync.syncLabels (W:=W) ns obj).
Proof.
  intros Ho. destruct obj as [m|]; [|by apply keeps_ret]. simpl. case_match; [by apply keeps_ret|].
  eapply keeps_bind; [apply keeps_reads|intros nodes _]. case_match; [|apply keeps_panic].
  eapply keeps_bind; [|intros _ _; eapply keeps_bind; [by apply keeps_update|intros ? _; keep]].
  instantiate (1 := λ _, True).
  match goal with |- keeps _ (if decide (?a = ?b) then _ else _) => destruct (decide (a = b)) end; [by apply keeps_ret|].
  assert (∀ s s', only_tbl (O:=CoreNode) s s' → tbl (O:=Node) s' = tbl (O:=Node) s) as Hother by other_kind.
  eapply keeps_bind; [by apply keeps_cache_write|intros _ _].
  eapply keeps_bind; [by apply keeps_update_other|intros ? _; keep].
Qed.

Lemma keeps_syncCordonFields ns obj :
  from_option typed True obj → keeps (λ _, True) (NodeSync.syncCordonFields (W:=W) ns obj).
Proof.
  intros Ho. destruct obj as [m|]; [|by apply keeps_ret]. simpl. case_match; [by apply keeps_ret|].
  eapply keeps_bind; [apply keeps_reads|intros nodes _]. case_match; [|apply keeps_panic].
  eapply keeps_bind; [|intros _ _; eapply keeps_bind; [by apply keeps_update|intros ? _; keep]].
  instantiate (1 := λ _, True). case_match; [by apply keeps_ret|].
  assert (∀ s s', only_tbl (O:=CoreNode) s s' → tbl (O:=Node) s' = tbl (O:=Node) s) as Hother by other_kind.
  eapply keeps_bind; [by apply keeps_update_other|intros ? _; keep].
Qed.

(** ** All the components together *)

(** What can happen next: any component handles any request, event or object of its cache, or a
    delayed deletion runs, each to whatever end; or the informer of nodes delivers, after which
    the cache has at every key what it had or what the cluster has. *)
Inductive node_step (unmarshal : string → goerr + Authorizer.input) : W → W → Prop :=
| step_tunnel req w : node_step unmarshal w (Authorizer.authorizeTunnel unmarshal req w).2
| step_pool_Updated p w : node_step unmarshal w (pool_Updated p w).2
| step_pool_Remove p w : node_step unmarshal w (pool_Remove p w).2
| step_deleteNode n d w : node_step unmarshal w (NodePools.deleteNode n d w).2
| step_reconcileAll cluster ns w : node_step unmarshal w (NodeSync.reconcileAll cluster ns w).2
| step_syncLabels ns k w : node_step unmarshal w (NodeSync.syncLabels ns (tbl (O:=Node) (cached w) !! k) w).2
| step_syncCordonFields ns k w : node_step unmarshal w (NodeSync.syncCordonFields ns (tbl (O:=Node) (cached w) !! k) w).2
| step_informer w w' :
    view w' = view w →
    (∀ k, tbl (O:=Node) (cached w') !! k = tbl (O:=Node) (cached w) !! k ∨
          tbl (O:=Node) (cached w') !! k = tbl (O:=Node) (view w) !! k) →
    node_step unmarshal w w'.

Lemma keeps_after {A} (Q : A → Prop) m w : keeps Q m → inv w → inv (m w).2.
Proof. intros Hm Hw. exact (proj1 (Hm w Hw)). Qed.

Lemma cached_typed w k : inv w → from_option typed True (tbl (O:=Node) (cached w) !! k).
Proof. intros [_ Hc]. destruct (tbl (O:=Node) (cached w) !! k) as [o|] eqn:Ho; [exact (Hc _ _ Ho)|done]. Qed.

Lemma node_step_inv unmarshal w w' : node_step unmarshal w w' → inv w → inv w'.
Proof.
  intros Hs Hw. destruct Hs as [| | | | | | |w w' Hv Hc].
  - eapply keeps_after; [apply keeps_authorizeTunnel|done].
  - eapply keeps_after; [apply keeps_pool_Updated|done].
  - eapply keeps_after; [apply keeps_pool_Remove|done].
  - eapply keeps_after; [apply keeps_deleteNode|done].
  - eapply keeps_after; [apply keeps_reconcileAll|done].
  - eapply keeps_after; [by apply keeps_syncLabels, cached_typed|done].
  - eapply keeps_after; [by apply keeps_syncCordonFields, cached_typed|done].
  - destruct Hw as [Hvw Hcw]. split; [unfold all_typed; by rewrite Hv|]. intros k o Ho.
    destruct (Hc k) as [Hk|Hk]; rewrite Ho in Hk; symmetry in Hk; [exact (Hcw _ _ Hk)|exact (Hvw _ _ Hk)].
Qed.

(** C15: nodes keep their type.  Whatever the node pools, the agents that register and the
    node syncer do, in any order, whichever requests fail and however late the caches are, a
    node either is imported, is named after its host, has an address and is in no pool, or has
    no configuration of its own and is not imported. *)
Theorem nodes_typed unmarshal w w' : rtc (node_step unmarshal) w w' → inv w → inv w'.
Proof. induction 1 as [|w1 w2 w3 Hs _ IH]; [done|]. intros Hw. by apply IH, (node_step_inv unmarshal w1). Qed.

End operations.

(** A host registers, and the node syncer reconciles its cluster. *)
Lemma nodes_typed_witness :
  let w1 := (Authorizer.authorizeTunnel Authorizer.demo_unmarshal (Authorizer.demo_tunnel_request "t1")
               (synced Authorizer.demo_clusters)).2 in
  (0 < size (tbl (O:=Node) (view w1))) ∧ inv (NodeSync.reconcileAll "c-1" "c-1" w1).2.
Proof.
  intros w1. split; [vm_compute; lia|].
  apply (nodes_typed Authorizer.demo_unmarshal (synced Authorizer.demo_clusters)).
  - eapply rtc_l; [apply step_tunnel|]. apply rtc_once. apply step_reconcileAll.
  - split; intros k o Ho.
    + change (tbl (O:=Node) (view (synced Authorizer.demo_clusters))) with (∅ : gmap nsname Node) in Ho.
      by rewrite lookup_empty in Ho.
    + change (tbl (O:=Node) (cached (synced Authorizer.demo_clusters))) with (∅ : gmap nsname Node) in Ho.
      by rewrite lookup_empty in Ho.
Defined.

End NodeTypes.
