(* ===== verification/ClusterManager.v ===== *)
(** * The cluster manager

    pkg/clustermanager/manager.go and pkg/controllers/management/usercontrollers: the table
    of user clusters whose controllers run in this process.  Handlers, API requests and
    the goroutines of starting clusters use the table at the same time and without a
    lock of their own, and they hold pointers to clusters of the informer cache, which
    other code writes to.  So a call is a tree of atomic operations on a shared
    store, the calls in progress are a pool of such trees, and a step runs one
    operation of one of them. *)

From stdpp Require Import base gmap list strings.
From Stdlib Require Import Ascii ZArith Lia.
From S2P Require Import Prelude.
From S2P Require Import GoLib.
From S2P Require Import GoEncoding.
From S2P Require Import KubeTypes.
From S2P Require Import KubeObjects.
From S2P Require Import Kube.
From S2P Require Import KubeRules.
From S2P Require Import KubeSim.
From S2P Require Import Cond.
From S2P Require Import Authorizer.
From S2P Require Import Dialer.
Import Dialer.

Open Scope nat_scope.

Module ClusterManager.

Notation ClusterConditionProvisioned := "Provisioned" (only parsing).

(** [httperror.NewAPIError(httperror.ClusterUnavailable, msg)] *)
Definition unavailable (msg : string) : goerr := PlainError ("ClusterUnavailable 503: " +:+ msg).

(** ** Data *)

(** [rest.Config]: of its dialers, the cluster they lead to, and whether connections
    check the certificate of the server without its name. *)
Record RestConfig := {
  rc_Host : string;
  rc_Prefix : string;
  rc_BearerToken : string;
  rc_CAData : string;
  rc_Dial : option string;
  rc_DialTLS : bool }.

(** [config.UserContext] *)
Record UserContext := {
  uc_RESTConfig : RestConfig;
  uc_ClusterName : string }.

(** [clusterRec] points to a cluster.  The context is kept as whether it was cancelled,
    [rec_started] counts how often controllers were started with it, and [rec_failed] is whether
    that failed. *)
Record record := {
  clusterRec : nat;
  rec_cluster : UserContext;
  rec_cancelled : bool;
  rec_started : nat;
  rec_failed : bool }.

(** Whose role bindings decide: those of this server, or those of a user cluster. *)
Inductive access_control :=
| LocalAccess
| ClusterAccess (cluster : UserContext).

(** The context a caller passes: [context.Background()] or [context.TODO()], which are never
    cancelled, or nil. *)
Inductive context :=
| Background
| NilContext.

(** How a call that makes records ends.  A panic unwinds the whole call. *)
Inductive result (A : Type) :=
| Returns (a : A)
| Fails (e : goerr)
| Panics.
Arguments Returns {A} a.
Arguments Fails {A} e.
Arguments Panics {A}.

(** [types.APIContext], as far as it names a cluster. *)
Record APIContext := { SubContext : gmap string string }.

(** ** Calls as trees of operations *)

Section ops.
Context (W : Type).

(** The operations on what is shared: the [sync.Map] of controllers, the informer cache of
    clusters, the objects pointers lead to, and the API server. *)
Inductive op : Type → Type :=
| Load (uid : string) : op (option nat)
| LoadOrStore (uid : string) (p : nat) : op (nat * bool)
| Delete (uid : string) : op unit
| Get (name : string) : op (goerr + nat)
| ReadCluster (p : nat) : op Cluster
| ReadRecord (p : nat) : op record
| NewRecord (r : record) : op nat
| Cancel (p : nat) : op unit
| RunControllers (p : nat) : op (option goerr)
| Api (m : M W unit) : op unit.

Inductive cmd (A : Type) : Type :=
| Done (a : A)
| Vis {B} (o : op B) (k : B → cmd A)
| Spawn (c : cmd unit) (k : cmd A).

End ops.

Arguments Load {W} uid.
Arguments LoadOrStore {W} uid p.
Arguments Delete {W} uid.
Arguments Get {W} name.
Arguments ReadCluster {W} p.
Arguments ReadRecord {W} p.
Arguments NewRecord {W} r.
Arguments Cancel {W} p.
Arguments RunControllers {W} p.
Arguments Api {W} m.
Arguments Done {W A} a.
Arguments Vis {W A B} o k.
Arguments Spawn {W A} c k.

Section tree.
Context {W : Type}.

Fixpoint cmd_then {A B} (c : cmd W A) (f : A → cmd W B) : cmd W B :=
  match c with
  | Done a => f a
  | Vis o k => Vis o (λ b, cmd_then (k b) f)
  | Spawn c k => Spawn c (cmd_then k f)
  end.

Definition trigger {B} (o : op W B) : cmd W B := Vis o Done.

(** [go f()] *)
Definition go (c : cmd W unit) : cmd W unit := Spawn c (Done tt).

End tree.

Declare Scope cmd_scope.
Delimit Scope cmd_scope with cmd.
Notation "'let*' x ':=' m 'in' k" := (cmd_then m%cmd (λ x, k%cmd))
  (at level 10, x name, m at level 100, k at level 200) : cmd_scope.
Notation "'do*' m 'in' k" := (cmd_then m%cmd (λ _, k%cmd))
  (at level 10, m at level 100, k at level 200) : cmd_scope.
Coercion trigger : op >-> cmd.

Section manager.
Context {W : Type} `{!GoRuntime W, !Client W Cluster}.

(** [url.Parse]: the host and the path *)
Variable url_Parse : string → goerr + (string * string).
(** [cert.ParseCertsPEM], as far as it fails *)
Variable ParseCertsPEM : string → option goerr.
(** [config.NewUserContext], as far as it fails *)
Variable NewUserContext : RestConfig → string → option goerr.
(** [m.ScaledContext.LocalConfig] and [m.ScaledContext.RESTConfig] *)
Variables (LocalConfig : option RestConfig) (ManagementConfig : RestConfig).

Definition changed (existing cluster : Cluster) : bool :=
  negb (String.eqb (cs_APIEndpoint (cluster_Status existing)) (cs_APIEndpoint (cluster_Status cluster))) ||
  negb (String.eqb (cs_ServiceAccountToken (cluster_Status existing)) (cs_ServiceAccountToken (cluster_Status cluster))) ||
  negb (String.eqb (cs_CACert (cluster_Status existing)) (cs_CACert (cluster_Status cluster))).

(** [None] is the nil pointer: there is nothing to connect to yet. *)
Definition toRESTConfig (cluster : Cluster) : goerr + option RestConfig :=
  let st := cluster_Status cluster in
  if bool_decide (is_Some (DeletionTimestamp (cluster_meta cluster))) then inr None
  else if cs_Internal (cluster_Spec cluster) then inr LocalConfig
  else if String.eqb (cs_APIEndpoint st) "" || String.eqb (cs_CACert st) "" || String.eqb (cs_ServiceAccountToken st) ""
  then inr None
  else if negb (IsTrue ClusterConditionProvisioned cluster) then inr None
  else match url_Parse (cs_APIEndpoint st) with
       | inl e => inl e
       | inr (host, path) =>
         match StdDecodeString (cs_CACert st) with
         | None => inl (PlainError "illegal base64 data")
         | Some caBytes =>
           let rke := String.eqb (cs_Driver st) ClusterDriverRKE in
           match (if rke && negb (String.eqb caBytes "") then ParseCertsPEM caBytes else None) with
           | Some e => inl e
           | None => inr (Some {| rc_Host := host; rc_Prefix := path; rc_BearerToken := cs_ServiceAccountToken st;
                                  rc_CAData := caBytes; rc_Dial := Some (Name (cluster_meta cluster));
                                  rc_DialTLS := rke |})
           end
         end
       end.

(** [context.WithCancel] dereferences the context it is given. *)
Definition toRecord (ctx : context) (cluster : nat) : cmd W (result (option nat)) :=
  (let* c := ReadCluster cluster in
   match toRESTConfig c with
   | inl e => Done (Fails e)
   | inr None => Done (Returns None)
   | inr (Some kubeConfig) =>
     match NewUserContext kubeConfig (Name (cluster_meta c)) with
     | Some e => Done (Fails e)
     | None =>
       match ctx with
       | NilContext => Done Panics
       | Background =>
         let* s := NewRecord {| clusterRec := cluster;
                                rec_cluster := {| uc_RESTConfig := kubeConfig; uc_ClusterName := Name (cluster_meta c) |};
                                rec_cancelled := false; rec_started := 0; rec_failed := false |} in
         Done (Returns (Some s))
       end
     end
   end)%cmd.

(** The errors of both requests are dropped. *)
Definition markUnavailable (clusterName : string) : M W unit :=
  (let* r := attempt (reads (api_get "" clusterName)) in
   match r with
   | inl _ => ret tt
   | inr cluster =>
     if IsFalse ClusterConditionReady cluster then ret tt else
     let* cluster := at_now (λ now, setStatus now ClusterConditionReady "False" cluster) in
     do* attempt (api_update "" cluster) in ret tt
   end)%go.

Definition Stop (cluster : nat) : cmd W unit :=
  (let* c := ReadCluster cluster in
   let* obj := Load (UID (cluster_meta c)) in
   match obj with
   | None => Done tt
   | Some obj =>
     do* Cancel obj in
     Delete (UID (cluster_meta c))
   end)%cmd.

Definition doStart (rec : nat) : cmd W (option goerr) := RunControllers rec.

(** The part of [start] that makes a new record; [c] is the cluster as it was read first. *)
Definition start_new (ctx : context) (cluster : nat) (c : Cluster) : cmd W (result nat) :=
  (let* controller := toRecord ctx cluster in
   match controller with
   | Panics => Done Panics
   | Fails e => do* Api (markUnavailable (Name (cluster_meta c))) in Done (Fails e)
   | Returns None => Done (Fails (unavailable "cluster not found"))
   | Returns (Some controller) =>
     let* r := LoadOrStore (UID (cluster_meta c)) controller in
     let '(obj, loaded) := r in
     do* (if loaded : bool then Done tt
          else go (let* err := doStart obj in
                   match err with Some _ => Stop cluster | None => Done tt end)) in
     Done (Returns obj)
   end)%cmd.

Definition start (ctx : context) (cluster : nat) : cmd W (result nat) :=
  (let* c := ReadCluster cluster in
   let* obj := Load (UID (cluster_meta c)) in
   match obj with
   | None => start_new ctx cluster c
   | Some obj =>
     let* r := ReadRecord obj in
     let* existing := ReadCluster (clusterRec r) in
     let* c' := ReadCluster cluster in
     if negb (changed existing c') then Done (Returns obj)
     else do* Stop (clusterRec r) in start_new ctx cluster c
   end)%cmd.

Definition Start (ctx : context) (cluster : nat) : cmd W (result unit) :=
  (let* c := ReadCluster cluster in
   if bool_decide (is_Some (DeletionTimestamp (cluster_meta c))) then Done (Returns tt) else
   let* cached := Get (Name (cluster_meta c)) in
   match cached with
   | inl e => Done (Fails e)
   | inr cluster =>
     let* r := start ctx cluster in
     Done (match r with Returns _ => Returns tt | Fails e => Fails e | Panics => Panics end)
   end)%cmd.

Definition RESTConfig (cluster : nat) : cmd W (goerr + RestConfig) :=
  (let* c := ReadCluster cluster in
   let* obj := Load (UID (cluster_meta c)) in
   match obj with
   | None => Done (inl (PlainError ("cluster record not found " +:+ Name (cluster_meta c) +:+ " " +:+ UID (cluster_meta c))))
   | Some obj => let* r := ReadRecord obj in Done (inr (uc_RESTConfig (rec_cluster r)))
   end)%cmd.

(** A project is named by its cluster and its own name, with a colon between them. *)
Definition ClusterName (apiContext : APIContext) : string :=
  let clusterID := default "" (SubContext apiContext !! "/v3/schemas/cluster") in
  if negb (String.eqb clusterID "") then clusterID else
  match SubContext apiContext !! "/v3/schemas/project" with
  | None => clusterID
  | Some projectID => match SplitN2 projectID ":" with [c; _] => c | _ => clusterID end
  end.

(** The contexts are [types.DefaultStorageContext], [config.ManagementStorageContext] and
    [config.UserStorageContext]. *)
Definition cluster (apiContext : APIContext) (context : string) : cmd W (goerr + option nat) :=
  if String.eqb context "" || String.eqb context "mgmt" then Done (inr None)
  else if negb (String.eqb context "user") then Done (inl (PlainError ("illegal context: " +:+ context)))
  else
    let clusterID := ClusterName apiContext in
    if String.eqb clusterID "" then Done (inr None)
    else (let* r := Get clusterID in
          Done (match r with inl e => inl e | inr p => inr (Some p) end))%cmd.

(** The method [record]; a nil context of the request is [None]. *)
Definition find_record (apiContext : option APIContext) (context : string) : cmd W (result (option nat)) :=
  match apiContext with
  | None => Done (Returns None)
  | Some apiContext =>
    (let* c := cluster apiContext context in
     match c with
     | inl e => Done (Fails (unavailable (Error e)))
     | inr None => Done (Returns None)
     | inr (Some c) =>
       let* r := start Background c in
       Done (match r with
             | Returns r => Returns (Some r)
             | Fails e => Fails (unavailable (Error e))
             | Panics => Panics
             end)
     end)%cmd
  end.

Definition AccessControl (apiContext : option APIContext) (context : string) : cmd W (result access_control) :=
  (let* r := find_record apiContext context in
   match r with
   | Panics => Done Panics
   | Fails e => Done (Fails e)
   | Returns None => Done (Returns LocalAccess)
   | Returns (Some p) => let* r := ReadRecord p in Done (Returns (ClusterAccess (rec_cluster r)))
   end)%cmd.

Definition Config (apiContext : option APIContext) (context : string) : cmd W (result RestConfig) :=
  (let* r := find_record apiContext context in
   match r with
   | Panics => Done Panics
   | Fails e => Done (Fails e)
   | Returns None => Done (Returns ManagementConfig)
   | Returns (Some p) => let* r := ReadRecord p in Done (Returns (uc_RESTConfig (rec_cluster r)))
   end)%cmd.

(** The method [UserContext]. *)
Definition user_context (clusterName : string) : cmd W (result UserContext) :=
  (let* c := Get clusterName in
   match c with
   | inl e => Done (Fails e)
   | inr c =>
     let* r := start Background c in
     match r with
     | Panics => Done Panics
     | Fails e => Done (Fails (unavailable (Error e)))
     | Returns p => let* r := ReadRecord p in Done (Returns (rec_cluster r))
     end
   end)%cmd.

(** pkg/controllers/management/usercontrollers.  [RegisterLate] makes the lifecycle without
    a context, so that its field is nil. *)
Definition ClusterLifecycle_Updated (obj : nat) : cmd W (result unit) := Start NilContext obj.
Definition ClusterLifecycleCleanup_Remove (obj : nat) : cmd W (option goerr) :=
  (do* Stop obj in Done None)%cmd.

End manager.

(** ** The store and its operations *)

Section store.
Context {W : Type}.

Record store := {
  st_world : W;
  (** the clusters pointers lead to *)
  objs : gmap nat Cluster;
  (** the informer cache, by name *)
  cache : gmap string nat;
  controllers : gmap string nat;
  records : gmap nat record }.

Definition with_world (w : W) (s : store) : store :=
  {| st_world := w; objs := objs s; cache := cache s; controllers := controllers s; records := records s |}.
Definition with_objs (o : gmap nat Cluster) (s : store) : store :=
  {| st_world := st_world s; objs := o; cache := cache s; controllers := controllers s; records := records s |}.
Definition with_cache (c : gmap string nat) (s : store) : store :=
  {| st_world := st_world s; objs := objs s; cache := c; controllers := controllers s; records := records s |}.
Definition with_controllers (c : gmap string nat) (s : store) : store :=
  {| st_world := st_world s; objs := objs s; cache := cache s; controllers := c; records := records s |}.
Definition with_records (r : gmap nat record) (s : store) : store :=
  {| st_world := st_world s; objs := objs s; cache := cache s; controllers := controllers s; records := r |}.

Definition cancelled (r : record) : record :=
  {| clusterRec := clusterRec r; rec_cluster := rec_cluster r; rec_cancelled := true; rec_started := rec_started r;
     rec_failed := rec_failed r |}.
Definition started (err : option goerr) (r : record) : record :=
  {| clusterRec := clusterRec r; rec_cluster := rec_cluster r; rec_cancelled := rec_cancelled r;
     rec_started := S (rec_started r); rec_failed := match err with Some _ => true | None => rec_failed r end |}.

(** What an operation may return and do.  Controllers may fail to start in any way, and an
    object that is not cached gives an error of any text. *)
Definition exec {B} (o : op W B) : store → B → store → Prop :=
  match o with
  | Load uid => λ s r s', r = controllers s !! uid ∧ s' = s
  | LoadOrStore uid p => λ s r s',
      match controllers s !! uid with
      | Some q => r = (q, true) ∧ s' = s
      | None => r = (p, false) ∧ s' = with_controllers (<[uid := p]> (controllers s)) s
      end
  | Delete uid => λ s _ s', s' = with_controllers (delete uid (controllers s)) s
  | Get name => λ s r s',
      s' = s ∧ match cache s !! name with
               | Some p => r = inr p
               | None => ∃ e, r = inl e ∧ IsNotFound e = true
               end
  | ReadCluster p => λ s c s', objs s !! p = Some c ∧ s' = s
  | ReadRecord p => λ s r s', records s !! p = Some r ∧ s' = s
  | NewRecord r => λ s p s', records s !! p = None ∧ s' = with_records (<[p := r]> (records s)) s
  | Cancel p => λ s _ s', ∃ r, records s !! p = Some r ∧ s' = with_records (<[p := cancelled r]> (records s)) s
  | RunControllers p => λ s err s',
      ∃ r, records s !! p = Some r ∧ s' = with_records (<[p := started err r]> (records s)) s
  | Api m => λ s _ s', s' = with_world (m (st_world s)).2 s
  end.

(** What happens beside the calls: the informer replaces or drops what the cache has under
    a name, code that shares the cached pointers writes to a cluster, but not to its
    metadata, and the API server changes. *)
Inductive outside : store → store → Prop :=
| outside_informer s name p c :
    objs s !! p = None → outside s (with_cache (<[name := p]> (cache s)) (with_objs (<[p := c]> (objs s)) s))
| outside_gone s name : outside s (with_cache (delete name (cache s)) s)
| outside_write s p c c' :
    objs s !! p = Some c → cluster_meta c' = cluster_meta c → outside s (with_objs (<[p := c']> (objs s)) s)
| outside_api s w : outside s (with_world w s).

End store.

Arguments store W : clear implicits.

Section pool.
Context {W : Type} `{!GoRuntime W, !Client W Cluster}.
Variable url_Parse : string → goerr + (string * string).
Variable ParseCertsPEM : string → option goerr.
Variable NewUserContext : RestConfig → string → option goerr.
Variables (LocalConfig : option RestConfig) (ManagementConfig : RestConfig).

Definition ignore {A} (c : cmd W A) : cmd W unit := (do* c in Done tt)%cmd.

(** The calls of the other components: handlers of clusters, the health check that starts
    them again, requests to the API, and code that wants the client of a cluster. *)
Inductive call (s : store W) : cmd W unit → Prop :=
| call_Updated p :
    is_Some (objs s !! p) →
    call s (ignore (ClusterLifecycle_Updated url_Parse ParseCertsPEM NewUserContext LocalConfig p))
| call_Start p :
    is_Some (objs s !! p) → call s (ignore (Start url_Parse ParseCertsPEM NewUserContext LocalConfig Background p))
| call_Remove p : is_Some (objs s !! p) → call s (ignore (ClusterLifecycleCleanup_Remove p))
| call_RESTConfig p : is_Some (objs s !! p) → call s (ignore (RESTConfig p))
| call_UserContext name : call s (ignore (user_context url_Parse ParseCertsPEM NewUserContext LocalConfig name))
| call_AccessControl a ctx :
    call s (ignore (AccessControl url_Parse ParseCertsPEM NewUserContext LocalConfig a ctx))
| call_Config a ctx :
    call s (ignore (Config url_Parse ParseCertsPEM NewUserContext LocalConfig ManagementConfig a ctx)).

(** One operation of one of the calls in progress, a new goroutine, a new call, or
    something from outside. *)
Inductive step : store W * list (cmd W unit) → store W * list (cmd W unit) → Prop :=
| step_op s s' l l' {B} (o : op W B) k b :
    exec o s b s' → step (s, l ++ Vis o k :: l') (s', l ++ k b :: l')
| step_go s l l' c k : step (s, l ++ Spawn c k :: l') (s, l ++ k :: l' ++ [c])
| step_call s l c : call s c → step (s, l) (s, l ++ [c])
| step_outside s s' l : outside s s' → step (s, l) (s', l).

Definition finished (c : cmd W unit) : Prop := c = Done tt.

(** Calls one at a time, each to the end with the goroutines it starts. *)
Fixpoint runs {A : Type} (c : cmd W A) (s : store W) (a : A) (s' : store W) : Prop :=
  match c with
  | Done a' => a = a' ∧ s' = s
  | Vis o k => ∃ b s1, exec o s b s1 ∧ runs (k b) s1 a s'
  | Spawn c k => ∃ s1, runs c s tt s1 ∧ runs k s1 a s'
  end.

Inductive turn (s s' : store W) : Prop :=
| turn_call c : call s c → runs c s tt s' → turn s s'
| turn_outside : outside s s' → turn s s'.

End pool.

(** A server that has just started. *)
Definition fresh_store {W} (w : W) : store W :=
  {| st_world := w; objs := ∅; cache := ∅; controllers := ∅; records := ∅ |}.

(** ** What a call knows and owes

    Knowledge only grows: the pointers to clusters with their UIDs, and the records that
    have been in the table, with the UID they were stored under.  A call has a record
    of its own that it has not stored, must start the controllers of a record it stored,
    must delete the entry of a record it cancelled, and must see the entry of a record gone
    whose controllers failed to start. *)

Record know := { k_obj : gmap nat string; k_pub : gmap nat string }.

Definition grows (κ κ' : know) : Prop := k_obj κ ⊆ k_obj κ' ∧ k_pub κ ⊆ k_pub κ'.

#[export] Instance grows_preorder : PreOrder grows.
Proof. split; [by intros κ|]. intros κ1 κ2 κ3 [? ?] [? ?]. split; by etransitivity. Qed.

Record owes := { own : option (nat * string); duty : option nat; pend : option string; undo : option string }.

Definition nothing : owes := {| own := None; duty := None; pend := None; undo := None |}.
Definition with_own o (g : owes) := {| own := o; duty := duty g; pend := pend g; undo := undo g |}.
Definition with_duty d (g : owes) := {| own := own g; duty := d; pend := pend g; undo := undo g |}.
Definition with_pend u (g : owes) := {| own := own g; duty := duty g; pend := u; undo := undo g |}.
Definition with_undo u (g : owes) := {| own := own g; duty := duty g; pend := pend g; undo := u |}.

(** The table has nothing under [u]. *)
Definition cleared (u : string) (g : owes) : owes := if decide (undo g = Some u) then with_undo None g else g.

Section protocol.
Context {W : Type}.

(** When a call may use an operation, and what it knows and owes afterwards, whatever
    happened in between. *)
Definition op_spec {B} (o : op W B) : know → owes → (know → owes → B → Prop) → Prop :=
  match o with
  | Load uid => λ κ g Q, ∀ κ' r, grows κ κ' →
      (∀ p, r = Some p → k_pub κ' !! p = Some uid) →
      Q κ' (match r with Some _ => g | None => cleared uid g end) r
  | LoadOrStore uid p => λ κ g Q, own g = Some (p, uid) ∧ duty g = None ∧ ∀ κ' q loaded, grows κ κ' →
      k_pub κ' !! q = Some uid → Q κ' (with_own None (with_duty (if loaded : bool then None else Some q) g)) (q, loaded)
  | Delete uid => λ κ g Q, pend g = Some uid ∧ ∀ κ', grows κ κ' → Q κ' (cleared uid (with_pend None g)) tt
  | Get name => λ κ g Q, ∀ κ' r, grows κ κ' → (∀ p, r = inr p → is_Some (k_obj κ' !! p)) → Q κ' g r
  | ReadCluster p => λ κ g Q, is_Some (k_obj κ !! p) ∧ ∀ κ' c, grows κ κ' →
      k_obj κ' !! p = Some (UID (cluster_meta c)) → Q κ' g c
  | ReadRecord p => λ κ g Q, ∃ uid, k_pub κ !! p = Some uid ∧ ∀ κ' r, grows κ κ' →
      k_obj κ' !! clusterRec r = Some uid → Q κ' g r
  | NewRecord r => λ κ g Q, own g = None ∧ rec_cancelled r = false ∧ rec_started r = 0%nat ∧
      rec_failed r = false ∧ ∃ uid,
      k_obj κ !! clusterRec r = Some uid ∧ ∀ κ' p, grows κ κ' → Q κ' (with_own (Some (p, uid)) g) p
  | Cancel p => λ κ g Q, pend g = None ∧ ∃ uid, k_pub κ !! p = Some uid ∧
      ∀ κ', grows κ κ' → Q κ' (with_pend (Some uid) g) tt
  | RunControllers p => λ κ g Q, duty g = Some p ∧ undo g = None ∧ ∃ uid, k_pub κ !! p = Some uid ∧
      ∀ κ' e, grows κ κ' →
        Q κ' (with_undo (match e with Some _ => Some uid | None => None end) (with_duty None g)) e
  | Api m => λ κ g Q, ∀ κ', grows κ κ' → Q κ' g tt
  end.

Definition settled (_ : know) (g : owes) (_ : unit) : Prop := duty g = None ∧ pend g = None ∧ undo g = None.

(** A goroutine takes over the duty of the call that starts it. *)
Fixpoint proto {A : Type} (c : cmd W A) (κ : know) (g : owes) (Q : know → owes → A → Prop) : Prop :=
  match c with
  | Done a => Q κ g a
  | Vis o k => op_spec o κ g (λ κ' g' b, proto (k b) κ' g' Q)
  | Spawn c k => proto c κ (with_duty (duty g) nothing) settled ∧ proto k κ (with_duty None g) Q
  end.

Lemma op_spec_mono {B} (o : op W B) κ κ' g (Q : know → owes → B → Prop) :
  grows κ κ' → op_spec o κ g Q → op_spec o κ' g Q.
Proof.
  intros Hg. destruct Hg as [Ho Hp] eqn:E. clear E.
  assert (∀ κ2, grows κ' κ2 → grows κ κ2) as Htr by (intros κ2 H2; by transitivity κ').
  destruct o; simpl; try naive_solver.
  - intros [[u Hu] HQ]. split; [|naive_solver]. exists u. by eapply lookup_weaken.
  - intros (u & Hu & HQ). exists u. split; [by eapply lookup_weaken|naive_solver].
  - intros (H1 & H2 & H3 & H4 & u & Hu & HQ). split_and!; [done..|]. exists u. split; [by eapply lookup_weaken|naive_solver].
  - intros (H1 & u & Hu & HQ). split; [done|]. exists u. split; [by eapply lookup_weaken|naive_solver].
  - intros (H1 & H2 & u & Hu & HQ). split_and!; [done..|]. exists u. split; [by eapply lookup_weaken|naive_solver].
Qed.

Lemma op_spec_imp {B} (o : op W B) κ g (Q Q' : know → owes → B → Prop) :
  (∀ κ' g' b, grows κ κ' → Q κ' g' b → Q' κ' g' b) → op_spec o κ g Q → op_spec o κ g Q'.
Proof. intros HQ. destruct o; simpl; naive_solver. Qed.

Lemma proto_mono {A} (c : cmd W A) κ κ' g (Q : know → owes → A → Prop) :
  (∀ κ1 κ2 g a, grows κ1 κ2 → Q κ1 g a → Q κ2 g a) → grows κ κ' → proto c κ g Q → proto c κ' g Q.
Proof.
  revert κ κ' g Q. induction c as [A a|A B o k IH|A c IHc k IHk]; simpl; intros κ κ' g Q HQ Hg.
  - by apply HQ.
  - by apply op_spec_mono.
  - intros [Hc Hk]. split; [eapply IHc; [|done..]; done|by eapply IHk].
Qed.

Lemma proto_then {A B} (c : cmd W A) (f : A → cmd W B) κ g Q :
  proto c κ g (λ κ' g' a, proto (f a) κ' g' Q) → proto (cmd_then c f) κ g Q.
Proof.
  revert κ g. induction c as [A a|A B' o k IH|A c IHc k IHk]; simpl; intros κ g; [done| |].
  - apply op_spec_imp. intros κ' g' b _. apply IH.
  - intros [? ?]. split; [done|by apply IHk].
Qed.

Lemma proto_imp {A} (c : cmd W A) κ g (Q Q' : know → owes → A → Prop) :
  proto c κ g Q → (∀ κ' g' a, grows κ κ' → Q κ' g' a → Q' κ' g' a) → proto c κ g Q'.
Proof.
  revert κ g Q Q'. induction c as [A a|A B o k IH|A c IHc k IHk]; simpl; intros κ g Q Q' Hc HQ.
  - by apply HQ.
  - revert Hc. apply op_spec_imp. intros κ' g' b Hg Hk. eapply IH; [exact Hk|]. intros κ2 g2 a Hg2. apply HQ. by transitivity κ'.
  - destruct Hc as [Hc Hk]. split; [done|]. by eapply IHk.
Qed.

End protocol.

(** ** The code follows the protocol *)

Section follows.
Context {W : Type} `{!GoRuntime W, !Client W Cluster}.
Variable url_Parse : string → goerr + (string * string).
Variable ParseCertsPEM : string → option goerr.
Variable NewUserContext : RestConfig → string → option goerr.
Variables (LocalConfig : option RestConfig) (ManagementConfig : RestConfig).

Notation start := (start (W:=W) url_Parse ParseCertsPEM NewUserContext LocalConfig).
Notation start_new := (start_new (W:=W) url_Parse ParseCertsPEM NewUserContext LocalConfig).

Lemma known_grows κ κ' p : grows κ κ' → is_Some (k_obj κ !! p) → is_Some (k_obj κ' !! p).
Proof. intros [Hg _] [u Hu]. exists u. by eapply lookup_weaken. Qed.

Lemma known_at κ κ' p u : grows κ κ' → k_obj κ !! p = Some u → k_obj κ' !! p = Some u.
Proof. intros [Hg _] Hu. by eapply lookup_weaken. Qed.

Lemma public_at κ κ' p u : grows κ κ' → k_pub κ !! p = Some u → k_pub κ' !! p = Some u.
Proof. intros [_ Hg] Hu. by eapply lookup_weaken. Qed.

Lemma cleared_undone u g : undo g = None ∨ undo g = Some u → cleared u g = with_undo None g.
Proof. intros Hu. unfold cleared. case_decide; [done|]. destruct Hu as [Hu|]; [|done]. destruct g. simpl in *. by rewrite Hu. Qed.

Lemma Stop_follows cluster uid κ g (Q : know → owes → unit → Prop) :
  k_obj κ !! cluster = Some uid → pend g = None → undo g = None ∨ undo g = Some uid →
  (∀ κ', grows κ κ' → Q κ' (with_undo None g) tt) → proto (Stop (W:=W) cluster) κ g Q.
Proof.
  intros Hc Hp Hf HQ. simpl. split; [by rewrite Hc|]. intros κ1 c G1 Hu κ2 [p|] G2 Hl; simpl.
  all: pose proof (known_at _ _ _ _ G1 Hc) as Hc1; assert (UID (cluster_meta c) = uid) as E by congruence.
  - split; [done|]. exists (UID (cluster_meta c)). split; [by apply Hl|]. intros κ3 G3. split; [done|].
    intros κ4 G4. rewrite cleared_undone by (by rewrite E).
    replace (with_undo None _) with (with_undo None g) by (by destruct g; simpl in Hp; rewrite Hp).
    apply HQ. by transitivity κ1; [|transitivity κ2; [|transitivity κ3]].
  - rewrite cleared_undone by (by rewrite E). apply HQ. by transitivity κ1.
Qed.

Lemma toRecord_follows ctx cluster κ (Q : know → owes → result (option nat) → Prop) uid :
  k_obj κ !! cluster = Some uid →
  (∀ κ' r, grows κ κ' → (∀ p, r ≠ Returns (Some p)) → Q κ' nothing r) →
  (∀ κ' p, grows κ κ' → Q κ' (with_own (Some (p, uid)) nothing) (Returns (Some p))) →
  proto (toRecord (W:=W) url_Parse ParseCertsPEM NewUserContext LocalConfig ctx cluster) κ nothing Q.
Proof.
  intros Hc Hn Hs. simpl. split; [by rewrite Hc|]. intros κ1 c G1 Hu.
  destruct (toRESTConfig _ _ _ c) as [e|[kc|]]; simpl; [by apply Hn| |by apply Hn].
  destruct (NewUserContext kc _) as [e|]; simpl; [by apply Hn|]. destruct ctx; [|by apply Hn].
  split_and!; [done..|].
  exists uid. split; [by eapply known_at|]. intros κ2 p G2. apply Hs. by transitivity κ1.
Qed.

Lemma start_new_follows ctx cluster c κ (Q : know → owes → result nat → Prop) :
  k_obj κ !! cluster = Some (UID (cluster_meta c)) →
  (∀ κ' r, grows κ κ' → (∀ p, r = Returns p → is_Some (k_pub κ' !! p)) → Q κ' nothing r) →
  proto (start_new ctx cluster c) κ nothing Q.
Proof.
  intros Hc HQ. apply proto_then. apply toRecord_follows with (UID (cluster_meta c)); [done|..].
  - intros κ1 [[p|]|e|] G1 Hno; simpl; [by destruct (Hno p)|by apply HQ| |by apply HQ].
    intros κ2 G2. apply HQ; [by transitivity κ1|done].
  - intros κ1 p G1. simpl. split_and!; [done..|]. intros κ2 q loaded G2 Hq.
    assert (grows κ κ2) as G by (by transitivity κ1).
    destruct loaded; simpl; [apply HQ; [done|intros ? [= <-]; by rewrite Hq]|].
    split; [|apply HQ; [done|intros ? [= <-]; by rewrite Hq]].
    split; [done|]. split; [done|]. exists (UID (cluster_meta c)). split; [done|]. intros κ3 [e|] G3; [|by simpl].
    apply Stop_follows with (UID (cluster_meta c)); [|done|by right|done].
    apply (known_at κ); [by transitivity κ2|done].
Qed.

Lemma start_follows ctx cluster κ (Q : know → owes → result nat → Prop) :
  is_Some (k_obj κ !! cluster) →
  (∀ κ' r, grows κ κ' → (∀ p, r = Returns p → is_Some (k_pub κ' !! p)) → Q κ' nothing r) →
  proto (start ctx cluster) κ nothing Q.
Proof.
  intros Hc HQ. split; [done|]. intros κ1 c G1 Hu κ2 obj G2 Hl.
  assert (∀ κ', grows κ1 κ' → proto (start_new ctx cluster c) κ' nothing Q) as Hnew.
  { intros κ' G'. apply start_new_follows; [by eapply known_at|]. intros κ2' r G2'. apply HQ.
    by transitivity κ1; [|transitivity κ']. }
  destruct obj as [obj|]; [|by apply Hnew]. exists (UID (cluster_meta c)). split; [by apply Hl|].
  intros κ3 r G3 Hr. split; [by rewrite Hr|]. intros κ4 existing G4 He.
  assert (grows κ2 κ4) as G24 by (by transitivity κ3). assert (grows κ1 κ4) as G14 by (by transitivity κ2).
  split; [by apply (known_grows κ); [transitivity κ1|]|]. intros κ5 c' G5 Hc'.
  change (proto (if negb (changed existing c') then Done (Returns obj)
                 else (do* Stop (clusterRec r) in start_new ctx cluster c)%cmd) κ5 nothing Q).
  destruct (changed existing c'); cbn [negb].
  - apply proto_then. apply Stop_follows with (UID (cluster_meta c)); [|done|by left|].
    { apply (known_at κ3); [by transitivity κ4|done]. }
    intros κ6 G6. apply Hnew. by transitivity κ4; [|transitivity κ5].
  - apply HQ; [by transitivity κ1; [|transitivity κ4]|]. intros ? [= <-]. exists (UID (cluster_meta c)).
    eapply public_at; [|by apply Hl]. by transitivity κ4.
Qed.

Lemma find_record_follows a ctx κ (Q : know → owes → result (option nat) → Prop) :
  (∀ κ' r, grows κ κ' → (∀ p, r = Returns (Some p) → is_Some (k_pub κ' !! p)) → Q κ' nothing r) →
  proto (find_record (W:=W) url_Parse ParseCertsPEM NewUserContext LocalConfig a ctx) κ nothing Q.
Proof.
  intros HQ. destruct a as [a|]; [|by apply HQ]. apply proto_then. unfold cluster.
  destruct (_ || _); [by apply HQ|]. destruct (negb _); [by apply HQ|].
  destruct (String.eqb _ _); [by apply HQ|]. intros κ1 [e|p] G1 Hp; [by apply HQ|].
  apply (proto_then (start Background p)), start_follows; [by apply Hp|]. intros κ2 r G2 Hr. simpl.
  apply HQ; [by transitivity κ1|]. intros q Hq. apply Hr. destruct r; naive_solver.
Qed.

Lemma Start_follows ctx cluster κ :
  is_Some (k_obj κ !! cluster) →
  proto (Start (W:=W) url_Parse ParseCertsPEM NewUserContext LocalConfig ctx cluster) κ nothing
    (λ κ' g' _, settled κ' g' tt).
Proof.
  intros Hc. split; [done|]. intros κ1 c G1 _.
  change (proto (if bool_decide (is_Some (DeletionTimestamp (cluster_meta c))) then Done (Returns tt) else
    (let* cached := Get (Name (cluster_meta c)) in
     match cached with
     | inl e => Done (Fails e)
     | inr cluster =>
       let* r := start ctx cluster in
       Done (match r with Returns _ => Returns tt | Fails e => Fails e | Panics => Panics end)
     end)%cmd) κ1 nothing (λ κ' g' _, settled κ' g' tt)).
  case_bool_decide; [done|]. intros κ2 [e|q] G2 Hq; [done|].
  apply (proto_then (start ctx q)), start_follows; [by apply Hq|]. done.
Qed.

Lemma call_follows s c κ :
  (∀ p, is_Some (objs s !! p) → is_Some (k_obj κ !! p)) →
  call url_Parse ParseCertsPEM NewUserContext LocalConfig ManagementConfig s c → proto c κ nothing settled.
Proof.
  intros Hk Hc. destruct Hc as [p Hp|p Hp|p Hp|p Hp|name|a ctx|a ctx]; apply proto_then.
  - by apply Start_follows, Hk.
  - by apply Start_follows, Hk.
  - apply proto_then. destruct (Hk p Hp) as [u Hu]. apply Stop_follows with u; [done|done|by left|done].
  - split; [by apply Hk|]. intros κ1 c G1 _ κ2 [q|] G2 Hq; [|done]. eexists. split; [by apply Hq|done].
  - intros κ1 [e|q] G1 Hq; [done|]. apply (proto_then (start Background q)), start_follows; [by apply Hq|].
    intros κ2 [r|e|] G2 Hr; [|done..]. destruct (Hr r eq_refl) as [u Hu]. exists u. done.
  - apply proto_then, find_record_follows. intros κ1 [[r|]|e|] G1 Hr; [|done..].
    destruct (Hr r eq_refl) as [u Hu]. exists u. done.
  - apply proto_then, find_record_follows. intros κ1 [[r|]|e|] G1 Hr; [|done..].
    destruct (Hr r eq_refl) as [u Hu]. exists u. done.
Qed.

End follows.

(** ** The invariant *)

Section invariant.
Context {W : Type}.

Notation owned gs := (omap own gs).*1.
Notation duties gs := (omap duty gs).

(** The store, what is known of it, and what the calls in progress owe. *)
Record inv (s : store W) (κ : know) (gs : list owes) : Prop := {
  i_objs : k_obj κ = UID ∘ cluster_meta <$> objs s;
  i_cache n p : cache s !! n = Some p → is_Some (objs s !! p);
  i_pub p u : k_pub κ !! p = Some u → ∃ r, records s !! p = Some r ∧ k_obj κ !! clusterRec r = Some u ∧
    rec_started r ≤ 1 ∧ (rec_started r = 0 ↔ p ∈ duties gs);
  i_rest p r : records s !! p = Some r → k_pub κ !! p = None → 
    rec_started r = 0 ∧ rec_cancelled r = false ∧ rec_failed r = false;
  i_table u p : controllers s !! u = Some p → k_pub κ !! p = Some u;
  i_own p u : (p, u) ∈ omap own gs → k_pub κ !! p = None ∧
    ∃ r, records s !! p = Some r ∧ k_obj κ !! clusterRec r = Some u;
  i_own_once : NoDup (owned gs);
  i_duty p : p ∈ duties gs → is_Some (k_pub κ !! p);
  i_duty_once : NoDup (duties gs);
  i_cancelled u p r : controllers s !! u = Some p → records s !! p = Some r → rec_cancelled r = true →
    u ∈ omap pend gs;
  i_failed u p r : controllers s !! u = Some p → records s !! p = Some r → rec_failed r = true →
    u ∈ omap undo gs }.

Lemma inv_perm s κ gs gs' : gs ≡ₚ gs' → inv s κ gs → inv s κ gs'.
Proof.
  intros Hp [H1 H2 H3 H4 H5 H6 H7 H8 H9 H10 H11]. split; try done.
  - intros p u (r & Hr & Ho & Hs & Hd)%H3. exists r. split_and!; [done..|]. by rewrite Hd, Hp.
  - intros p u. rewrite <-Hp. apply H6.
  - by rewrite <-Hp.
  - intros p. rewrite <-Hp. apply H8.
  - by rewrite <-Hp.
  - intros u p r. rewrite <-Hp. apply H10.
  - intros u p r. rewrite <-Hp. apply H11.
Qed.

(** A record that is not in use yet keeps what it was made with. *)
Lemma inv_new s κ g gs p r u :
  inv s κ (g :: gs) → own g = None → records s !! p = None → rec_cancelled r = false → rec_started r = 0 →
  rec_failed r = false → k_obj κ !! clusterRec r = Some u →
  inv (with_records (<[p := r]> (records s)) s) κ (with_own (Some (p, u)) g :: gs).
Proof.
  intros [H1 H2 H3 H4 H5 H6 H7 H8 H9 H10 H11] Hg Hp Hc Hs Hf Hu. simpl in *. rewrite Hg in *.
  assert (k_pub κ !! p = None) as Hnp.
  { apply eq_None_not_Some. intros [u' Hu']. destruct (H3 _ _ Hu') as (r' & Hr' & _). congruence. }
  split; simpl; try done.
  - intros q v (r' & Hr' & Ho & ?)%H3. exists r'. rewrite lookup_insert_ne by congruence. done.
  - intros q r' [[<- <-]|[Hne Hq]]%lookup_insert_Some; [done|by apply H4].
  - intros q v [[= -> ->]|Hin]%elem_of_cons.
    + split; [done|]. exists r. by rewrite lookup_insert_eq.
    + destruct (H6 _ _ Hin) as (Hk & r' & Hr' & Ho). split; [done|]. exists r'. rewrite lookup_insert_ne by congruence. done.
  - constructor; [|done]. intros ([q v] & -> & Hin)%list_elem_of_fmap. destruct (H6 _ _ Hin) as (_ & r' & Hr' & _).
    simpl in Hp. congruence.
  - intros v q r' Hq [[<- <-]|[Hne Hr']]%lookup_insert_Some; [congruence|by eapply H10].
  - intros v q r' Hq [[<- <-]|[Hne Hr']]%lookup_insert_Some; [congruence|by eapply H11].
Qed.

(** The record a call made enters the table. *)
Lemma inv_store s κ g gs p u :
  inv s κ (g :: gs) → own g = Some (p, u) → duty g = None → controllers s !! u = None →
  let κ' := {| k_obj := k_obj κ; k_pub := <[p := u]> (k_pub κ) |} in
  grows κ κ' ∧
  inv (with_controllers (<[u := p]> (controllers s)) s) κ' (with_own None (with_duty (Some p) g) :: gs).
Proof.
  intros [H1 H2 H3 H4 H5 H6 H7 H8 H9 H10 H11] Ho Hd Hu. simpl in *. rewrite Ho, Hd in *.
  destruct (H6 p u) as (Hnp & r & Hr & Hru); [by left|]. apply NoDup_cons in H7 as [Hnin H7].
  destruct (H4 _ _ Hr Hnp) as (Hs0 & Hc0 & Hf0).
  split; [split; [done|]; simpl; by apply insert_subseteq|]. split; simpl; try done.
  - intros q v [[<- <-]|[Hne Hq]]%lookup_insert_Some.
    + exists r. split_and!; [done..|lia|]. split; [by left|done].
    + destruct (H3 _ _ Hq) as (r' & Hr' & Hrv & Hle & Hiff). exists r'. split_and!; [done..|].
      rewrite Hiff, elem_of_cons. naive_solver.
  - intros q r' Hq [Hk Hne]%lookup_insert_None. by apply (H4 q).
  - intros v q [[<- <-]|[Hne Hq]]%lookup_insert_Some; [by rewrite lookup_insert_eq|].
    rewrite lookup_insert_ne; [by apply H5|]. intros <-. apply H5 in Hq. congruence.
  - intros q v Hin. destruct (H6 q v) as (Hk & Hrest); [by right|]. split; [|done].
    rewrite lookup_insert_ne; [done|]. intros <-. apply Hnin. apply list_elem_of_fmap. by exists (p, v).
  - intros q [->|Hin]%elem_of_cons; [by rewrite lookup_insert_eq|]. apply lookup_insert_is_Some'. right. auto.
  - constructor; [|done]. intros Hin. destruct (H8 _ Hin). congruence.
  - intros v q r' [[<- <-]|[Hne Hq]]%lookup_insert_Some Hr'; [congruence|by eapply H10].
  - intros v q r' [[<- <-]|[Hne Hq]]%lookup_insert_Some Hr'; [congruence|by eapply H11].
Qed.

Lemma inv_forget s κ g gs : inv s κ (g :: gs) → inv s κ (with_own None g :: gs).
Proof.
  intros [H1 H2 H3 H4 H5 H6 H7 H8 H9 H10 H11]. simpl in *. split; simpl; try done.
  - intros p u Hin. apply H6. destruct (own g); [by right|done].
  - destruct (own g); [by apply NoDup_cons in H7 as [_ ?]|done].
Qed.

Lemma inv_cleared s κ g gs u : inv s κ (g :: gs) → controllers s !! u = None → inv s κ (cleared u g :: gs).
Proof.
  intros Hi Hu. unfold cleared. case_decide as Hg; [|done].
  destruct Hi as [H1 H2 H3 H4 H5 H6 H7 H8 H9 H10 H11]. split; try done.
  intros v p r Hv Hr Hf. pose proof (H11 _ _ _ Hv Hr Hf) as Hin. simpl in *. rewrite Hg in Hin.
  apply elem_of_cons in Hin as [->|]; [congruence|done].
Qed.

Lemma inv_delete s κ g gs u :
  inv s κ (g :: gs) → pend g = Some u →
  inv (with_controllers (delete u (controllers s)) s) κ (with_pend None g :: gs).
Proof.
  intros [H1 H2 H3 H4 H5 H6 H7 H8 H9 H10 H11] Hp. simpl in *. rewrite Hp in *. split; simpl; try done.
  - intros v p [_ Hv]%lookup_delete_Some. by apply H5.
  - intros v p r [Hne Hv]%lookup_delete_Some Hr Hc.
    destruct (proj1 (elem_of_cons _ _ _) (H10 _ _ _ Hv Hr Hc)); [congruence|done].
  - intros v p r [Hne Hv]%lookup_delete_Some. by eapply H11.
Qed.

Lemma inv_cancel s κ g gs p u r :
  inv s κ (g :: gs) → pend g = None → k_pub κ !! p = Some u → records s !! p = Some r →
  inv (with_records (<[p := cancelled r]> (records s)) s) κ (with_pend (Some u) g :: gs).
Proof.
  intros [H1 H2 H3 H4 H5 H6 H7 H8 H9 H10 H11] Hg Hp Hr. simpl in *. rewrite Hg in *. split; simpl; try done.
  - intros q v Hq. destruct (H3 _ _ Hq) as (r' & Hr' & Hrest). destruct (decide (q = p)) as [->|Hne].
    + exists (cancelled r). rewrite lookup_insert_eq. simplify_eq. done.
    + exists r'. by rewrite lookup_insert_ne.
  - intros q r' [[<- <-]|[Hne Hq]]%lookup_insert_Some Hk; [congruence|by apply (H4 q)].
  - intros q v Hin. destruct (H6 _ _ Hin) as (Hk & r' & Hr' & Hv). split; [done|].
    exists r'. rewrite lookup_insert_ne by congruence. done.
  - intros v q r' Hv [[<- <-]|[Hne Hq]]%lookup_insert_Some Hc; apply elem_of_cons.
    + left. apply H5 in Hv. congruence.
    + right. by eapply H10.
  - intros v q r' Hv [[<- <-]|[Hne Hq]]%lookup_insert_Some Hf; by eapply H11.
Qed.

Lemma inv_run s κ g gs p u r err :
  inv s κ (g :: gs) → duty g = Some p → undo g = None → k_pub κ !! p = Some u → records s !! p = Some r →
  inv (with_records (<[p := started err r]> (records s)) s) κ
    (with_undo (match err with Some _ => Some u | None => None end) (with_duty None g) :: gs).
Proof.
  intros [H1 H2 H3 H4 H5 H6 H7 H8 H9 H10 H11] Hg Hw Hp Hr. simpl in *. rewrite Hg, Hw in *.
  apply NoDup_cons in H9 as [Hnin H9]. split; simpl; try done.
  - intros q v Hq. destruct (H3 _ _ Hq) as (r' & Hr' & Hrv & Hle & Hiff). destruct (decide (q = p)) as [->|Hne].
    + exists (started err r). rewrite lookup_insert_eq. simplify_eq. split_and!; [done..| |].
      * simpl. destruct Hiff as [_ H0]. rewrite H0; [done|by left].
      * split; [done|by intros ?%Hnin].
    + exists r'. rewrite lookup_insert_ne by done. split_and!; [done..|]. rewrite Hiff, elem_of_cons. naive_solver.
  - intros q r' [[<- <-]|[Hne Hq]]%lookup_insert_Some Hk; [congruence|by apply (H4 q)].
  - intros q v Hin. destruct (H6 _ _ Hin) as (Hk & r' & Hr' & Hv). split; [done|].
    exists r'. rewrite lookup_insert_ne by congruence. done.
  - intros q Hin. apply H8. by right.
  - intros v q r' Hv [[<- <-]|[Hne Hq]]%lookup_insert_Some Hc; [by eapply H10|by eapply H10].
  - intros v q r' Hv [[<- <-]|[Hne Hq]]%lookup_insert_Some Hf; destruct err; simpl in *; try (by eapply H11).
    + apply elem_of_cons. left. apply H5 in Hv. congruence.
    + apply elem_of_cons. right. by eapply H11.
Qed.

(** Knowledge of clusters follows the store. *)
Lemma inv_objs s κ gs o c :
  inv s κ gs → UID ∘ cluster_meta <$> objs s ⊆ (UID ∘ cluster_meta <$> o : gmap nat string) →
  (∀ n p, c !! n = Some p → is_Some (o !! p)) →
  ∃ κ', grows κ κ' ∧ inv (with_cache c (with_objs o s)) κ' gs.
Proof.
  intros [H1 H2 H3 H4 H5 H6 H7 H8 H9 H10 H11] Ho Hc.
  exists {| k_obj := UID ∘ cluster_meta <$> o; k_pub := k_pub κ |}. rewrite <-H1 in Ho.
  split; [done|]. split; simpl; try done.
  - intros p u (r & Hr & Hu & Hrest)%H3. exists r. split_and!; [done| |apply Hrest..]. by eapply lookup_weaken.
  - intros p u (Hk & r & Hr & Hu)%H6. split; [done|]. exists r. split; [done|]. by eapply lookup_weaken.
Qed.

Lemma inv_outside s s' κ gs : outside s s' → inv s κ gs → ∃ κ', grows κ κ' ∧ inv s' κ' gs.
Proof.
  intros Ho Hi. destruct Ho as [s name p c Hp|s name|s p c c' Hp Hm|s w].
  - apply (inv_objs s κ gs); [done| |].
    + rewrite fmap_insert. apply insert_subseteq. by rewrite lookup_fmap, Hp.
    + intros n q [[<- <-]|[_ Hn]]%lookup_insert_Some; [by rewrite lookup_insert_eq|].
      apply lookup_insert_is_Some'. right. by eapply i_cache.
  - destruct (inv_objs s κ gs (objs s) (delete name (cache s)) Hi) as (κ' & Hg & Hi'); [done| |].
    { intros n q [_ Hn]%lookup_delete_Some. by eapply i_cache. }
    exists κ'. by destruct s.
  - destruct (inv_objs s κ gs (<[p := c']> (objs s)) (cache s) Hi) as (κ' & Hg & Hi').
    + rewrite fmap_insert. rewrite insert_id; [done|]. rewrite lookup_fmap, Hp. simpl. by rewrite Hm.
    + intros n q Hn. apply lookup_insert_is_Some'. right. by eapply i_cache.
    + exists κ'. by destruct s.
  - exists κ. split; [done|]. by destruct Hi.
Qed.

Lemma op_sound {B} (o : op W B) s b s' κ g gs (Q : know → owes → B → Prop) :
  inv s κ (g :: gs) → exec o s b s' → op_spec o κ g Q →
  ∃ κ' g', grows κ κ' ∧ inv s' κ' (g' :: gs) ∧ Q κ' g' b.
Proof.
  intros Hi He Ho. destruct o as [uid|uid p|uid|name|p|p|r|p|p|m]; simpl in *.
  - destruct He as [-> ->]. eexists κ, _. split_and!; [done| |apply Ho; [done|]; intros p Hp; by eapply i_table].
    destruct (controllers s !! uid) eqn:Hu; [done|by apply inv_cleared].
  - destruct Ho as (Hown & Hd & HQ). destruct (controllers s !! uid) as [q|] eqn:Hu.
    + destruct He as [-> ->]. exists κ, (with_own None (with_duty None g)).
      split_and!; [done| |apply (HQ κ q true); [done|by eapply i_table]].
      replace (with_duty None g) with g by (destruct g; simpl in Hd; by rewrite Hd). by apply inv_forget.
    + destruct He as [-> ->]. destruct (inv_store s κ g gs p uid Hi Hown Hd Hu) as [Hg Hi'].
      eexists _, _. split_and!; [exact Hg|exact Hi'|]. apply (HQ _ p false); [done|]. apply lookup_insert_eq.
  - destruct Ho as [Hp HQ]. subst s'. destruct b. eexists κ, _.
    split_and!; [done|apply inv_cleared; [by apply inv_delete|apply lookup_delete_eq]|by apply HQ].
  - destruct He as [-> Hc]. exists κ, g. split_and!; [done..|]. apply Ho; [done|]. intros p ->.
    destruct (cache s !! name) as [q|] eqn:Hq; [|by destruct Hc as (? & [=] & _)]. injection Hc as ->.
    rewrite (i_objs _ _ _ Hi), lookup_fmap. destruct (i_cache _ _ _ Hi _ _ Hq) as [c ->]. by eexists.
  - destruct He as [Hc ->]. destruct Ho as [_ HQ]. exists κ, g. split_and!; [done..|]. apply HQ; [done|].
    by rewrite (i_objs _ _ _ Hi), lookup_fmap, Hc.
  - destruct He as [Hr ->]. destruct Ho as (u & Hu & HQ). exists κ, g. split_and!; [done..|]. apply HQ; [done|].
    destruct (i_pub _ _ _ Hi _ _ Hu) as (r & Hr' & ? & _). congruence.
  - destruct He as [Hp ->]. destruct Ho as (Hown & Hc & Hs & Hf & u & Hu & HQ). eexists κ, _.
    split_and!; [done|by eapply inv_new|by apply HQ].
  - destruct He as (r & Hr & ->). destruct Ho as (Hp & u & Hu & HQ). destruct b. eexists κ, _.
    split_and!; [done|by eapply inv_cancel|by apply HQ].
  - destruct He as (r & Hr & ->). destruct Ho as (Hd & Hw & u & Hu & HQ). eexists κ, _.
    split_and!; [done|by eapply inv_run|by apply HQ].
  - subst s'. destruct b. exists κ, g. split_and!; [done| |by apply Ho]. by destruct Hi.
Qed.

(** No call is ever stuck at an operation. *)
Lemma op_progress {B} (o : op W B) s κ g gs (Q : know → owes → B → Prop) :
  inv s κ (g :: gs) → op_spec o κ g Q → ∃ b s', exec o s b s'.
Proof.
  intros Hi Ho. destruct o as [uid|uid p|uid|name|p|p|r|p|p|m]; simpl in *.
  - by eauto.
  - destruct (controllers s !! uid); eauto.
  - by exists tt; eauto.
  - destruct (cache s !! name) as [p|]; [by eauto|].
    exists (inl (StatusError StatusReasonNotFound "")), s. split; [done|]. by eexists.
  - destruct Ho as [[u Hu] _]. rewrite (i_objs _ _ _ Hi), lookup_fmap in Hu.
    destruct (objs s !! p) as [c|]; [by eauto|done].
  - destruct Ho as (u & Hu & _). destruct (i_pub _ _ _ Hi _ _ Hu) as (r & Hr & _). eauto.
  - exists (fresh (dom (records s))). eexists. split; [|done]. apply not_elem_of_dom, is_fresh.
  - destruct Ho as (_ & u & Hu & _). destruct (i_pub _ _ _ Hi _ _ Hu) as (r & Hr & _). exists tt. eauto.
  - destruct Ho as (_ & _ & u & Hu & _). destruct (i_pub _ _ _ Hi _ _ Hu) as (r & Hr & _). exists None. eauto.
  - by exists tt; eauto.
Qed.

(** A pool of calls that all follow the protocol. *)
Definition pool (x : store W * list (cmd W unit)) : Prop :=
  ∃ κ gs, inv x.1 κ gs ∧ Forall2 (λ g c, proto c κ g settled) gs x.2.

Lemma others_follow κ κ' gs (ts : list (cmd W unit)) :
  grows κ κ' → Forall2 (λ g c, proto c κ g settled) gs ts → Forall2 (λ g c, proto c κ' g settled) gs ts.
Proof. intros Hg Ht. eapply Forall2_impl; [exact Ht|]. intros g c. by apply proto_mono. Qed.

Lemma inv_go s κ g gs : inv s κ (g :: gs) → inv s κ (with_duty None g :: with_duty (duty g) nothing :: gs).
Proof.
  intros [H1 H2 H3 H4 H5 H6 H7 H8 H9 H10 H11]. simpl in *. split; simpl; try done.
  all: destruct (duty g); done.
Qed.

Lemma fresh_inv (w : W) : inv (fresh_store w) {| k_obj := ∅; k_pub := ∅ |} [].
Proof.
  split; try done; try (by constructor).
  - by intros p u Hin%elem_of_nil.
  - by intros p Hin%elem_of_nil.
Qed.

End invariant.

Section steps.
Context {W : Type} `{!GoRuntime W, !Client W Cluster}.
Variable url_Parse : string → goerr + (string * string).
Variable ParseCertsPEM : string → option goerr.
Variable NewUserContext : RestConfig → string → option goerr.
Variables (LocalConfig : option RestConfig) (ManagementConfig : RestConfig).

Notation step := (step (W:=W) url_Parse ParseCertsPEM NewUserContext LocalConfig ManagementConfig).

Notation call := (call (W:=W) url_Parse ParseCertsPEM NewUserContext LocalConfig ManagementConfig).

Lemma inv_call s κ gs c : inv s κ gs → call s c → inv s κ (nothing :: gs) ∧ proto c κ nothing settled.
Proof.
  intros Hi Hc. split; [by destruct Hi; split|]. eapply call_follows; [|done].
  intros p [c' Hc']. rewrite (i_objs _ _ _ Hi), lookup_fmap, Hc'. by eexists.
Qed.

Lemma step_pool x y : step x y → pool x → pool y.
Proof.
  intros Hs (κ & gs & Hi & Ht). destruct Hs as [s s' l l' B o k b He|s l l' c k|s l c Hc|s s' l Ho]; simpl in *.
  - apply Forall2_app_inv_r in Ht as (gl & gr & Hl & Hr & ->). apply Forall2_cons_inv_r in Hr as (g & gr' & Hp & Hr & ->).
    assert (inv s κ (g :: gl ++ gr')) as Hi' by (eapply inv_perm; [|done]; by rewrite Permutation_middle).
    destruct (op_sound o s b s' κ g (gl ++ gr') _ Hi' He Hp) as (κ' & g' & Hg & Hi2 & Hk).
    exists κ', (gl ++ g' :: gr'). split; [eapply inv_perm; [|done]; by rewrite Permutation_middle|].
    apply Forall2_app; [by eapply others_follow|]. constructor; [done|by eapply others_follow].
  - apply Forall2_app_inv_r in Ht as (gl & gr & Hl & Hr & ->). apply Forall2_cons_inv_r in Hr as (g & gr' & [Hc Hk] & Hr & ->).
    exists κ, (gl ++ with_duty None g :: gr' ++ [with_duty (duty g) nothing]). split.
    + apply (inv_perm s κ (with_duty None g :: with_duty (duty g) nothing :: gl ++ gr')); [solve_Permutation|].
      apply inv_go. eapply inv_perm; [|done]. by rewrite Permutation_middle.
    + apply Forall2_app; [done|]. constructor; [done|]. apply Forall2_app; [done|]. by constructor.
  - destruct (inv_call _ _ _ _ Hi Hc) as [Hi' Hp]. exists κ, (gs ++ [nothing]). split.
    + eapply inv_perm; [|exact Hi']. solve_Permutation.
    + apply Forall2_app; [done|]. by constructor.
  - destruct (inv_outside _ _ _ _ Ho Hi) as (κ' & Hg & Hi'). exists κ', gs. split; [done|]. by eapply others_follow.
Qed.

Lemma pool_reached w y : rtc step (fresh_store w, []) y → pool y.
Proof.
  intros Hr. remember (fresh_store w, []) as x eqn:Hx.
  assert (pool x) as Hp by (subst; eexists _, []; split; [apply fresh_inv|constructor]).
  clear Hx. induction Hr as [|x1 x2 x3 Hs _ IH]; [done|]. by apply IH, (step_pool x1).
Qed.

(** A call that is not finished can take its next step. *)
Definition can_act (s : store W) (c : cmd W unit) : Prop :=
  match c with
  | Done _ => False
  | Vis o _ => ∃ b s', exec o s b s'
  | Spawn _ _ => True
  end.

(** C17: the table of controllers under any interleaving of handlers, API requests and
    starting clusters, with caches that change and controllers that fail: an entry
    belongs to a cluster with its UID; controllers are never started twice with one
    record; no call is stuck; and when no call is in progress, every record in the table
    has had its controllers started, which did not fail, and has not been cancelled. *)
Theorem manager_interleavings w s ts :
  rtc step (fresh_store w, []) (s, ts) →
  (∀ u p, controllers s !! u = Some p → ∃ r c, records s !! p = Some r ∧
     objs s !! clusterRec r = Some c ∧ UID (cluster_meta c) = u) ∧
  (∀ p r, records s !! p = Some r → rec_started r ≤ 1) ∧
  (∀ c, c ∈ ts → finished c ∨ can_act s c) ∧
  (Forall finished ts → ∀ u p r, controllers s !! u = Some p → records s !! p = Some r →
     rec_started r = 1 ∧ rec_failed r = false ∧ rec_cancelled r = false).
Proof.
  intros (κ & gs & Hi & Ht)%pool_reached. simpl in *. split_and!.
  - intros u p Hu%(i_table _ _ _ Hi). destruct (i_pub _ _ _ Hi _ _ Hu) as (r & Hr & Ho & _).
    rewrite (i_objs _ _ _ Hi), lookup_fmap in Ho. destruct (objs s !! clusterRec r) as [c|] eqn:Hc; [|done].
    exists r, c. split_and!; [done..|]. by injection Ho.
  - intros p r Hr. destruct (k_pub κ !! p) as [u|] eqn:Hp.
    + destruct (i_pub _ _ _ Hi _ _ Hp) as (r' & Hr' & _ & Hle & _). congruence.
    + destruct (i_rest _ _ _ Hi _ _ Hr Hp) as [-> _]. lia.
  - intros c (i & Hc)%list_elem_of_lookup. destruct (Forall2_lookup_r _ _ _ _ _ Ht Hc) as (g & Hg & Hp).
    destruct c as [[]|B o k|c k]; [by left|right|by right]. simpl.
    apply (op_progress o s κ g (delete i gs) (λ κ' g' b, proto (k b) κ' g' settled)); [|done].
    eapply inv_perm; [|done]. by apply delete_Permutation.
  - intros Hfin. assert (∀ g, g ∈ gs → settled κ g tt) as Hset.
    { intros g (i & Hg)%list_elem_of_lookup. destruct (Forall2_lookup_l _ _ _ _ _ Ht Hg) as (c & Hc & Hp).
      rewrite Forall_lookup in Hfin. by rewrite (Hfin _ _ Hc) in Hp. }
    intros u p r Hu Hr. pose proof (i_table _ _ _ Hi _ _ Hu) as Hp.
    destruct (i_pub _ _ _ Hi _ _ Hp) as (r' & Hr' & _ & Hle & Hiff). simplify_eq. split_and!.
    + destruct (rec_started r) as [|n]; [|lia]. destruct Hiff as [Hin _].
      destruct (proj1 (list_elem_of_omap _ _ _) (Hin eq_refl)) as (g & Hg & Hd). destruct (Hset g Hg). congruence.
    + destruct (rec_failed r) eqn:Hf; [|done]. pose proof (i_failed _ _ _ Hi _ _ _ Hu Hr Hf) as Hin.
      apply list_elem_of_omap in Hin as (g & Hg & Hd). destruct (Hset g Hg) as (_ & _ & ?). congruence.
    + destruct (rec_cancelled r) eqn:Hc; [|done]. pose proof (i_cancelled _ _ _ Hi _ _ _ Hu Hr Hc) as Hin.
      apply list_elem_of_omap in Hin as (g & Hg & Hd). destruct (Hset g Hg) as (_ & ? & _). congruence.
Qed.

End steps.

(** ** One call at a time *)

Section sequential.
Context {W : Type} `{!GoRuntime W, !Client W Cluster}.
Variable url_Parse : string → goerr + (string * string).
Variable ParseCertsPEM : string → option goerr.
Variable NewUserContext : RestConfig → string → option goerr.
Variables (LocalConfig : option RestConfig) (ManagementConfig : RestConfig).

Notation start := (start (W:=W) url_Parse ParseCertsPEM NewUserContext LocalConfig).
Notation start_new := (start_new (W:=W) url_Parse ParseCertsPEM NewUserContext LocalConfig).
Notation toRecord := (toRecord (W:=W) url_Parse ParseCertsPEM NewUserContext LocalConfig).
Notation call := (call (W:=W) url_Parse ParseCertsPEM NewUserContext LocalConfig ManagementConfig).
Notation turn := (turn (W:=W) url_Parse ParseCertsPEM NewUserContext LocalConfig ManagementConfig).

(** Controllers were started with the record [p], of a cluster with the UID [u], and not
    cancelled; when the start failed, part of them may run. *)
Definition running (s : store W) (u : string) (p : nat) : Prop :=
  ∃ r c, records s !! p = Some r ∧ objs s !! clusterRec r = Some c ∧ UID (cluster_meta c) = u ∧
    0 < rec_started r ∧ rec_cancelled r = false.

(** The table has exactly the records controllers run with; pointers lead somewhere. *)
Record tidy (s : store W) : Prop := {
  t_table u p : controllers s !! u = Some p ↔ running s u p;
  t_records p r : records s !! p = Some r → is_Some (objs s !! clusterRec r);
  t_cache n p : cache s !! n = Some p → is_Some (objs s !! p) }.

Lemma runs_then {A B} (c : cmd W A) (f : A → cmd W B) s b s' :
  runs (cmd_then c f) s b s' ↔ ∃ a s1, runs c s a s1 ∧ runs (f a) s1 b s'.
Proof.
  revert s. induction c as [A a|A B' o k IH|A c IHc k IHk]; simpl; intros s.
  - split; [eauto|by intros (a' & s1 & [-> ->] & ?)].
  - split.
    + intros (x & s1 & He & (a & s2 & ? & ?)%IH). eauto 8.
    + intros (a & s2 & (x & s1 & He & ?) & ?). exists x, s1. split; [done|]. apply IH. eauto.
  - split.
    + intros (s1 & Hc & (a & s2 & ? & ?)%IHk). eauto 8.
    + intros (a & s2 & (s1 & Hc & ?) & ?). exists s1. split; [done|]. apply IHk. eauto.
Qed.

Lemma running_put (s : store W) p r r' u q :
  records s !! p = Some r → clusterRec r' = clusterRec r →
  running (with_records (<[p := r']> (records s)) s) u q ↔
  (if decide (q = p)
   then ∃ c, objs s !! clusterRec r = Some c ∧ UID (cluster_meta c) = u ∧ 0 < rec_started r' ∧ rec_cancelled r' = false
   else running s u q).
Proof.
  intros Hr Hc. unfold running. simpl. case_decide as Hq; [subst; rewrite lookup_insert_eq|by rewrite lookup_insert_ne].
  rewrite <-Hc. naive_solver.
Qed.

(** [Stop] ends the controllers of the cluster, and leaves the rest alone. *)
Lemma Stop_tidy (s s' : store W) a cluster c :
  tidy s → objs s !! cluster = Some c → runs (Stop cluster) s a s' →
  tidy s' ∧ objs s' = objs s ∧ controllers s' = delete (UID (cluster_meta c)) (controllers s).
Proof.
  intros [Ht Hr Hn] Hc (c' & s1 & [Hc' ->] & obj & s2 & [-> ->] & Hk). simplify_eq.
  destruct (controllers s !! UID (cluster_meta c)) as [p|] eqn:Hp.
  2: { destruct Hk as [_ ->]. split_and!; [done..|]. symmetry. by apply delete_id. }
  destruct Hk as ([] & s3 & (r & Hpr & ->) & [] & s4 & -> & _ & ->). simpl.
  split; [|done]. pose proof Hp as (r' & c' & Hr' & Hc' & Hu & _)%Ht. simplify_eq. split; simpl; [|intros q rq|done].
  - intros u q. rewrite lookup_delete_Some.
    change (running _ u q) with (running (with_records (<[p := cancelled r]> (records s)) s) u q).
    rewrite (running_put s p r (cancelled r)) by done. case_decide as Hq; simpl.
    + subst q. split; [intros [Hne Hq]|naive_solver]. apply Ht in Hq as (r2 & c2 & ? & ? & ? & _). congruence.
    + rewrite <-Ht. split; [by intros [_ ?]|]. intros Hq'. split; [|done]. intros <-. congruence.
  - intros [[<- <-]|[_ Hq]]%lookup_insert_Some; [exact (Hr p r Hpr)|by apply (Hr q)].
Qed.

(** A record for the cluster as it is, with controllers that have not been started. *)
Definition made_for (c : Cluster) (cluster : nat) (r : record) : Prop :=
  clusterRec r = cluster ∧ rec_started r = 0 ∧ rec_cancelled r = false ∧
  toRESTConfig url_Parse ParseCertsPEM LocalConfig c = inr (Some (uc_RESTConfig (rec_cluster r))) ∧
  uc_ClusterName (rec_cluster r) = Name (cluster_meta c).

Lemma toRecord_runs ctx cluster s a s' c :
  objs s !! cluster = Some c → runs (toRecord ctx cluster) s a s' →
  (s' = s ∧ ∀ p, a ≠ Returns (Some p)) ∨
  ∃ p r, a = Returns (Some p) ∧ ctx = Background ∧ records s !! p = None ∧ made_for c cluster r ∧
    s' = with_records (<[p := r]> (records s)) s.
Proof.
  intros Hc (c' & s1 & [Hc' ->] & Hk). simplify_eq. simpl in Hk.
  destruct (toRESTConfig url_Parse ParseCertsPEM LocalConfig c) as [e|[kc|]] eqn:Hcfg; simpl in Hk;
    [by destruct Hk as [-> ->]; left| |by destruct Hk as [-> ->]; left].
  destruct (NewUserContext kc _) as [e|]; simpl in Hk; [by destruct Hk as [-> ->]; left|].
  destruct ctx; [|by destruct Hk as [-> ->]; left].
  destruct Hk as (p & s2 & [Hp ->] & -> & ->). right.
  eexists p, _. split; [reflexivity|]. split; [done|]. split; [done|]. split; [|reflexivity]. by split_and!.
Qed.

Lemma tidy_new (s : store W) p r :
  tidy s → records s !! p = None → rec_started r = 0 → is_Some (objs s !! clusterRec r) →
  tidy (with_records (<[p := r]> (records s)) s).
Proof.
  intros [Ht Hr Hn] Hp Hs Hc. split; simpl; [|intros q rq|done].
  - intros u q. rewrite Ht. unfold running. simpl. destruct (decide (q = p)) as [->|].
    + rewrite lookup_insert_eq. split; [naive_solver|]. intros (? & ? & [= <-] & _ & _ & Hs' & _). lia.
    + by rewrite lookup_insert_ne.
  - intros [[<- <-]|[_ Hq]]%lookup_insert_Some; [done|by apply (Hr q)].
Qed.

Lemma tidy_enter (s : store W) p r c err :
  tidy s → records s !! p = Some r → rec_started r = 0 → rec_cancelled r = false → objs s !! clusterRec r = Some c →
  controllers s !! UID (cluster_meta c) = None →
  tidy (with_records (<[p := started err r]> (records s))
         (with_controllers (<[UID (cluster_meta c) := p]> (controllers s)) s)).
Proof.
  intros [Ht Hr Hn] Hp Hs Hc Ho Hu. split; simpl; [|intros q rq|done].
  - intros u q. change (running _ u q) with (running (with_records (<[p := started err r]> (records s)) s) u q).
    rewrite (running_put s p r (started err r)) by done. case_decide as Hq; simpl.
    + subst q. rewrite lookup_insert_Some. split.
      * intros [[<- _]|[Hne Hq]]; [exists c; split_and!; [done..|lia|done]|].
        apply Ht in Hq as (r2 & c2 & ? & _ & _ & Hs2 & _). simplify_eq. lia.
      * intros (c' & ? & <- & _). simplify_eq. by left.
    + rewrite <-Ht, lookup_insert_Some. split; [naive_solver|]. intros Hq'. right. split; [|done]. intros <-. congruence.
  - intros [[<- <-]|[_ Hq]]%lookup_insert_Some; [exact (Hr p r Hp)|by apply (Hr q)].
Qed.

Lemma start_new_tidy ctx cluster c c' (s s' : store W) a :
  tidy s → objs s !! cluster = Some c' → UID (cluster_meta c') = UID (cluster_meta c) →
  controllers s !! UID (cluster_meta c) = None → runs (start_new ctx cluster c) s a s' → tidy s'.
Proof.
  intros Hs Hc Hu Hn (a1 & s1 & Hrec & Hk)%runs_then.
  destruct (toRecord_runs _ _ _ _ _ _ Hc Hrec) as [[-> Hno]|(p & r & -> & _ & Hp & (Hcr & Hs0 & Hc0 & _) & ->)].
  { destruct a1 as [[p|]|e|]; [by destruct (Hno p)|by destruct Hk as [-> ->]| |by destruct Hk as [-> ->]].
    destruct Hk as (b & s2 & -> & -> & ->). by destruct Hs. }
  destruct Hk as ([q loaded] & s2 & He & Hk). simpl in He. rewrite Hn in He. destruct He as [[= -> ->] ->].
  destruct Hk as (s3 & (err & s4 & (r' & Hr' & ->) & Hg) & -> & ->). simpl in Hr'. rewrite lookup_insert_eq in Hr'.
  injection Hr' as <-.
  set (s1 := with_records (<[p := r]> (records s)) s) in *.
  assert (tidy s1) as Hs1 by (apply tidy_new; [done..|]; by rewrite Hcr, Hc).
  assert (tidy (with_records (<[p := started err r]> (records s1))
                  (with_controllers (<[UID (cluster_meta c) := p]> (controllers s1)) s1))) as Hs2.
  { rewrite <-Hu. apply tidy_enter; try done; [apply lookup_insert_eq|by rewrite Hcr|by rewrite Hu]. }
  destruct err as [e|]; [|by destruct Hg as [_ ->]]. by eapply Stop_tidy in Hg as (? & _ & _).
Qed.

Lemma start_tidy ctx cluster (s s' : store W) a :
  tidy s → runs (start ctx cluster) s a s' → tidy s'.
Proof.
  intros Hs (c & s1 & [Hc ->] & obj & s2 & [-> ->] & Hk).
  destruct (controllers s !! UID (cluster_meta c)) as [p|] eqn:Hp; [|by eapply (start_new_tidy _ _ c c)].
  destruct Hk as (r & s2 & [Hr ->] & existing & s3 & [He ->] & c' & s4 & [Hc' ->] & Hk). simplify_eq.
  change (runs (if negb (changed existing c) then Done (Returns p)
                else (do* Stop (clusterRec r) in start_new ctx cluster c)%cmd) s a s') in Hk.
  destruct (changed existing c); cbn [negb] in Hk; [|by destruct Hk as [-> ->]].
  apply runs_then in Hk as ([] & s1 & Hstop & Hk).
  pose proof Hp as (r' & c'' & Hr' & Hc'' & Hu & _)%(t_table s Hs). simplify_eq.
  destruct (Stop_tidy _ _ _ _ _ Hs He Hstop) as (Hs1 & Ho & Hd).
  eapply (start_new_tidy ctx cluster c c); [done| |done| |exact Hk]; [by rewrite Ho|].
  rewrite Hd, Hu. apply lookup_delete_eq.
Qed.

Lemma find_record_tidy a ctx (s s' : store W) b :
  tidy s → runs (find_record (W:=W) url_Parse ParseCertsPEM NewUserContext LocalConfig a ctx) s b s' → tidy s'.
Proof.
  intros Hs Hr. destruct a as [a|]; [|by destruct Hr as [-> ->]]. apply runs_then in Hr as (x & s1 & Hc & Hk).
  assert (s1 = s) as ->.
  { revert Hc. unfold cluster. destruct (_ || _); [by intros [-> ->]|]. destruct (negb _); [by intros [-> ->]|].
    destruct (String.eqb _ _); [by intros [-> ->]|]. by intros (r & s2 & [-> _] & -> & ->). }
  destruct x as [e|[c|]]; [by destruct Hk as [-> ->]| |by destruct Hk as [-> ->]].
  apply runs_then in Hk as (r & s1 & Hstart & -> & ->). by eapply start_tidy.
Qed.

Lemma Start_tidy ctx cluster (s s' : store W) a :
  tidy s → runs (Start (W:=W) url_Parse ParseCertsPEM NewUserContext LocalConfig ctx cluster) s a s' → tidy s'.
Proof.
  intros Hs (c & s2 & [Hc ->] & Hk).
  change (runs (if bool_decide (is_Some (DeletionTimestamp (cluster_meta c))) then Done (Returns tt) else
    (let* cached := Get (Name (cluster_meta c)) in
     match cached with
     | inl e => Done (Fails e)
     | inr cluster =>
       let* r := start ctx cluster in
       Done (match r with Returns _ => Returns tt | Fails e => Fails e | Panics => Panics end)
     end)%cmd) s a s') in Hk.
  case_bool_decide; [by destruct Hk as [-> ->]|]. destruct Hk as ([e|q] & s2 & [-> _] & Hk).
  - by destruct Hk as [-> ->].
  - apply (runs_then (start ctx q)) in Hk as (r & s2 & Hstart & -> & ->). by eapply start_tidy.
Qed.

Lemma call_tidy (s s' : store W) c : tidy s → call s c → runs c s tt s' → tidy s'.
Proof.
  intros Hs Hc. destruct Hc as [p Hp|p Hp|p Hp|p Hp|name|a ctx|a ctx]; intros (x & s1 & Hr & _ & ->)%runs_then.
  - by eapply Start_tidy.
  - by eapply Start_tidy.
  - apply runs_then in Hr as (y & s2 & Hstop & -> & ->). destruct Hp as [c Hc].
    by destruct (Stop_tidy _ _ _ _ _ Hs Hc Hstop) as (? & _).
  - destruct Hr as (c & s2 & [Hc ->] & obj & s3 & [-> ->] & Hk). destruct (controllers s !! _) as [q|].
    + by destruct Hk as (r & s2 & [Hr ->] & -> & ->).
    + by destruct Hk as [-> ->].
  - destruct Hr as ([e|q] & s2 & [-> _] & Hk); [by destruct Hk as [-> ->]|].
    apply (runs_then (start Background q)) in Hk as ([r|e|] & s2 & Hstart & Hk).
    + destruct Hk as (r' & s3 & [_ ->] & -> & ->). by eapply start_tidy.
    + destruct Hk as [-> ->]. by eapply start_tidy.
    + destruct Hk as [-> ->]. by eapply start_tidy.
  - apply runs_then in Hr as (r & s2 & Hf%find_record_tidy & Hk); [|done].
    destruct r as [[r|]|e|]; [|by destruct Hk as [-> ->]..].
    by destruct Hk as (r' & s3 & [_ ->] & -> & ->).
  - apply runs_then in Hr as (r & s2 & Hf%find_record_tidy & Hk); [|done].
    destruct r as [[r|]|e|]; [|by destruct Hk as [-> ->]..].
    by destruct Hk as (r' & s3 & [_ ->] & -> & ->).
Qed.

Lemma tidy_objs (s : store W) o ca :
  tidy s → (∀ p c, objs s !! p = Some c → ∃ c', o !! p = Some c' ∧ UID (cluster_meta c') = UID (cluster_meta c)) →
  (∀ n p, ca !! n = Some p → is_Some (o !! p)) → tidy (with_cache ca (with_objs o s)).
Proof.
  intros [Ht Hr Hn] Ho Hca. split; simpl; [|intros p r Hp|done].
  - intros u p. rewrite Ht. unfold running. simpl. split.
    + intros (r & c & Hp & Hc & Hu & ?). destruct (Ho _ _ Hc) as (c' & Hc' & Hu'). exists r, c'. by rewrite Hu'.
    + intros (r & c & Hp & Hc & Hu & ?). destruct (Hr _ _ Hp) as [c' Hc']. destruct (Ho _ _ Hc') as (c2 & Hc2 & Hu2).
      exists r, c'. simplify_eq. by rewrite <-Hu2.
  - destruct (Hr _ _ Hp) as [c Hc]. destruct (Ho _ _ Hc) as (c' & -> & _). by eexists.
Qed.

Lemma outside_tidy (s s' : store W) : tidy s → outside s s' → tidy s'.
Proof.
  intros Hs Ho. destruct Ho as [s name p c Hp|s name|s p c c' Hp Hm|s w].
  - apply tidy_objs; [done| |].
    + intros q cq Hq. exists cq. rewrite lookup_insert_ne by congruence. done.
    + intros n q [[<- <-]|[_ Hn]]%lookup_insert_Some; [by rewrite lookup_insert_eq|].
      apply lookup_insert_is_Some'. right. by eapply t_cache.
  - enough (tidy (with_cache (delete name (cache s)) (with_objs (objs s) s))) by (by destruct s).
    apply tidy_objs; [done|by eauto|]. intros n q [_ Hn]%lookup_delete_Some. by eapply (t_cache _ Hs).
  - enough (tidy (with_cache (cache s) (with_objs (<[p := c']> (objs s)) s))) by (by destruct s).
    apply tidy_objs; [done|..].
    + intros q cq Hq. destruct (decide (q = p)) as [->|Hne].
      * exists c'. rewrite lookup_insert_eq. simplify_eq. by rewrite Hm.
      * exists cq. by rewrite lookup_insert_ne.
    + intros n q Hn. apply lookup_insert_is_Some'. right. by eapply (t_cache _ Hs).
  - by destruct Hs.
Qed.

(** A call that follows the protocol keeps the invariant also when it runs alone, ... *)
Lemma runs_inv {A} (c : cmd W A) s a s' κ g gs (Q : know → owes → A → Prop) :
  (∀ κ1 κ2 g a, grows κ1 κ2 → Q κ1 g a → Q κ2 g a) →
  inv s κ (g :: gs) → proto c κ g Q → runs c s a s' →
  ∃ κ' g' ex, grows κ κ' ∧ inv s' κ' (g' :: ex ++ gs) ∧ Q κ' g' a ∧ Forall (λ g, settled κ' g tt) ex.
Proof.
  revert s a s' κ g gs Q. induction c as [A a'|A B o k IH|A c IHc k IHk]; intros s a s' κ g gs Q HQ Hi Hp Hr; simpl in *.
  - destruct Hr as [-> ->]. by exists κ, g, [].
  - destruct Hr as (b & s1 & He & Hr). destruct (op_sound o _ _ _ _ _ _ _ Hi He Hp) as (κ1 & g1 & G1 & Hi1 & Hp1).
    destruct (IH b s1 a s' κ1 g1 gs Q HQ Hi1 Hp1 Hr) as (κ2 & g2 & ex & G2 & ?). exists κ2, g2, ex.
    split; [by transitivity κ1|done].
  - destruct Hr as (s1 & Hc & Hk). destruct Hp as [Hpc Hpk]. apply inv_go in Hi.
    eapply inv_perm in Hi; [|apply perm_swap].
    destruct (IHc s tt s1 κ _ _ settled ltac:(done) Hi Hpc Hc) as (κ1 & g1 & ex1 & G1 & Hi1 & Hg1 & He1).
    assert (inv s1 κ1 (with_duty None g :: g1 :: ex1 ++ gs)) as Hi2 by (eapply inv_perm; [|exact Hi1]; solve_Permutation).
    destruct (IHk s1 a s' κ1 _ _ Q HQ Hi2 (proto_mono _ _ _ _ _ HQ G1 Hpk) Hk) as (κ2 & g2 & ex2 & G2 & Hi3 & HQ2 & He2).
    exists κ2, g2, (ex2 ++ g1 :: ex1). split_and!; [by transitivity κ1|by rewrite <-app_assoc|done|].
    apply Forall_app. split; [done|by constructor].
Qed.

(** ... and can be run to its end. *)
Lemma runs_exist {A} (c : cmd W A) s κ g gs (Q : know → owes → A → Prop) :
  (∀ κ1 κ2 g a, grows κ1 κ2 → Q κ1 g a → Q κ2 g a) →
  inv s κ (g :: gs) → proto c κ g Q → ∃ a s', runs c s a s'.
Proof.
  revert s κ g gs Q. induction c as [A a'|A B o k IH|A c IHc k IHk]; intros s κ g gs Q HQ Hi Hp; simpl in *.
  - by eauto.
  - destruct (op_progress o _ _ _ _ _ Hi Hp) as (b & s1 & He).
    destruct (op_sound o _ _ _ _ _ _ _ Hi He Hp) as (κ1 & g1 & G1 & Hi1 & Hp1).
    destruct (IH b s1 κ1 g1 gs Q HQ Hi1 Hp1) as (a & s2 & ?). eauto 8.
  - destruct Hp as [Hpc Hpk]. apply inv_go in Hi. eapply inv_perm in Hi; [|apply perm_swap].
    destruct (IHc s κ _ _ settled ltac:(done) Hi Hpc) as ([] & s1 & Hc).
    destruct (runs_inv c _ _ _ _ _ _ settled ltac:(done) Hi Hpc Hc) as (κ1 & g1 & ex1 & G1 & Hi1 & _).
    assert (inv s1 κ1 (with_duty None g :: g1 :: ex1 ++ gs)) as Hi2 by (eapply inv_perm; [|exact Hi1]; solve_Permutation).
    destruct (IHk s1 κ1 _ _ Q HQ Hi2 (proto_mono _ _ _ _ _ HQ G1 Hpk)) as (a & s2 & Hk). eauto.
Qed.

Lemma fresh_tidy (w : W) : tidy (fresh_store w).
Proof. split; [|done..]. intros u p. split; [done|]. by intros (r & c & Hr & _). Qed.

(** Calls that have ended owe nothing. *)
Definition at_rest (s : store W) : Prop :=
  tidy s ∧ ∃ κ gs, inv s κ gs ∧ Forall (λ g, undo g = None) gs.

Lemma turn_at_rest s s' : turn s s' → at_rest s → at_rest s'.
Proof.
  intros [c Hc Hrun|Ho] (Ht & κ & gs & Hi & Hgs).
  - split; [by eapply call_tidy|]. destruct (inv_call _ _ _ _ _ _ _ _ _ Hi Hc) as [Hi' Hp].
    destruct (runs_inv c _ _ _ _ _ _ settled ltac:(done) Hi' Hp Hrun) as (κ' & g' & ex & _ & Hi2 & (_ & _ & Hg) & Hex).
    exists κ', (g' :: ex ++ gs). split; [done|]. constructor; [done|]. apply Forall_app. split; [|done].
    eapply Forall_impl; [exact Hex|]. by intros g (_ & _ & ?).
  - split; [by eapply outside_tidy|]. destruct (inv_outside _ _ _ _ Ho Hi) as (κ' & _ & ?). eauto.
Qed.

Lemma at_rest_reached w s : rtc turn (fresh_store w) s → at_rest s.
Proof.
  intros Hr. assert (at_rest (fresh_store w)) as Hs.
  { split; [apply fresh_tidy|]. eexists _, []. split; [apply fresh_inv|constructor]. }
  induction Hr as [|s1 s2 s3 Hs12 _ IH]; [done|]. by apply IH, (turn_at_rest s1).
Qed.

(** C18: when calls do not overlap, the table is exact: whatever calls are made, in whatever order,
    and whatever happens between them, controllers run for a cluster (they were started, and not
    cancelled) exactly with the record the table has for it, so never twice; a record whose
    controllers failed to start is not in the table; and every call can be run to its end. *)
Theorem manager_sequential w s :
  rtc turn (fresh_store w) s →
  (∀ u p, controllers s !! u = Some p ↔ running s u p) ∧
  (∀ u p r, controllers s !! u = Some p → records s !! p = Some r → rec_failed r = false) ∧
  (∀ c, call s c → ∃ s', runs c s tt s').
Proof.
  intros (Ht & κ & gs & Hi & Hgs)%at_rest_reached. split_and!; [apply Ht|..].
  - intros u p r Hu Hr. destruct (rec_failed r) eqn:Hf; [|done].
    pose proof (i_failed _ _ _ Hi _ _ _ Hu Hr Hf) as (g & Hg & Hw)%list_elem_of_omap.
    rewrite Forall_forall in Hgs. specialize (Hgs g Hg). congruence.
  - intros c Hc. destruct (inv_call _ _ _ _ _ _ _ _ _ Hi Hc) as [Hi' Hp].
    destruct (runs_exist c _ _ _ _ settled ltac:(done) Hi' Hp) as ([] & s' & ?). eauto.
Qed.

(** No record is made, and no controllers are started. *)
Definition starts_nothing (s s' : store W) : Prop :=
  ∀ p r', records s' !! p = Some r' → ∃ r, records s !! p = Some r ∧ rec_started r' = rec_started r.

Lemma Stop_starts_nothing cluster (s s' : store W) a : runs (Stop (W:=W) cluster) s a s' → starts_nothing s s'.
Proof.
  intros (c & s1 & [Hc ->] & obj & s2 & [-> ->] & Hk). destruct (controllers s !! _) as [q|].
  - destruct Hk as ([] & s1 & (r & Hr & ->) & [] & s2 & -> & _ & ->). intros p r'. simpl.
    intros [[<- <-]|[_ Hp]]%lookup_insert_Some; eauto.
  - destruct Hk as [_ ->]. intros p r'. eauto.
Qed.

Lemma start_new_nil cluster c c' (s s' : store W) a :
  objs s !! cluster = Some c' → runs (start_new NilContext cluster c) s a s' → records s' = records s.
Proof.
  intros Hc (a1 & s1 & Hrec & Hk)%runs_then.
  destruct (toRecord_runs _ _ _ _ _ _ Hc Hrec) as [[-> Hno]|(p & r & _ & ? & _)]; [|done].
  destruct a1 as [[p|]|e|]; [by destruct (Hno p)|by destruct Hk as [-> ->]| |by destruct Hk as [-> ->]].
  by destruct Hk as (b & s2 & -> & -> & ->).
Qed.

Lemma start_nil cluster (s s' : store W) a : runs (start NilContext cluster) s a s' → starts_nothing s s'.
Proof.
  intros (c & s1 & [Hc ->] & obj & s2 & [-> ->] & Hk).
  destruct (controllers s !! UID (cluster_meta c)) as [p|]; [|intros q r'; rewrite (start_new_nil _ _ _ _ _ _ Hc Hk); eauto].
  destruct Hk as (r & s2 & [Hr ->] & existing & s3 & [He ->] & c' & s4 & [Hc' ->] & Hk). simplify_eq.
  change (runs (if negb (changed existing c) then Done (Returns p)
                else (do* Stop (clusterRec r) in start_new NilContext cluster c)%cmd) s a s') in Hk.
  destruct (changed existing c); cbn [negb] in Hk; [|destruct Hk as [-> ->]; intros q r'; eauto].
  apply runs_then in Hk as ([] & s1 & Hstop & Hk).
  assert (objs s1 = objs s) as Ho.
  { destruct Hstop as (? & ? & [_ ->] & obj & ? & [-> ->] & Hstop). destruct (controllers s !! _).
    - by destruct Hstop as ([] & ? & (? & _ & ->) & [] & ? & -> & _ & ->).
    - by destruct Hstop as [_ ->]. }
  rewrite <-Ho in Hc. intros q r'. rewrite (start_new_nil _ _ _ _ _ _ Hc Hk). by apply (Stop_starts_nothing _ _ _ _ Hstop).
Qed.

Notation Updated := (ClusterLifecycle_Updated (W:=W) url_Parse ParseCertsPEM NewUserContext LocalConfig).
Notation Start := (Start (W:=W) url_Parse ParseCertsPEM NewUserContext LocalConfig).

Lemma Updated_starts_nothing p (s s' : store W) a : runs (Updated p) s a s' → starts_nothing s s'.
Proof.
  intros (c & s2 & [Hc ->] & Hk).
  change (runs (if bool_decide (is_Some (DeletionTimestamp (cluster_meta c))) then Done (Returns tt) else
    (let* cached := Get (Name (cluster_meta c)) in
     match cached with
     | inl e => Done (Fails e)
     | inr cluster =>
       let* r := start NilContext cluster in
       Done (match r with Returns _ => Returns tt | Fails e => Fails e | Panics => Panics end)
     end)%cmd) s a s') in Hk.
  case_bool_decide; [destruct Hk as [-> ->]; intros q r'; eauto|]. destruct Hk as ([e|q] & s2 & [-> _] & Hk).
  - destruct Hk as [-> ->]. intros q r'; eauto.
  - apply (runs_then (start NilContext q)) in Hk as (r & s2 & Hstart & -> & ->). by eapply start_nil.
Qed.

Lemma toRecord_nil cluster (s s' : store W) a c kc :
  objs s !! cluster = Some c → toRESTConfig url_Parse ParseCertsPEM LocalConfig c = inr (Some kc) →
  NewUserContext kc (Name (cluster_meta c)) = None →
  runs (toRecord NilContext cluster) s a s' → a = Panics ∧ s' = s.
Proof.
  intros Hc Hcfg Hn (c1 & s1 & [Hc1 ->] & Hk). assert (c1 = c) as -> by congruence. simpl in Hk.
  rewrite Hcfg in Hk. simpl in Hk. by rewrite Hn in Hk.
Qed.

Lemma toRecord_background cluster (s : store W) c kc p :
  objs s !! cluster = Some c → toRESTConfig url_Parse ParseCertsPEM LocalConfig c = inr (Some kc) →
  NewUserContext kc (Name (cluster_meta c)) = None → records s !! p = None →
  runs (toRecord Background cluster) s (Returns (Some p))
    (with_records (<[p := {| clusterRec := cluster;
                             rec_cluster := {| uc_RESTConfig := kc; uc_ClusterName := Name (cluster_meta c) |};
                             rec_cancelled := false; rec_started := 0; rec_failed := false |}]> (records s)) s).
Proof.
  intros Hc Hcfg Hn Hp. exists c, s. split; [done|]. simpl. rewrite Hcfg. simpl. rewrite Hn. simpl. by eexists _, _.
Qed.

(** C19: the handler of update events never starts the controllers of a cluster: it makes no record, and
    for a cluster that could be started it panics, since the lifecycle was registered without a
    context; the same call with a context starts them. *)
Theorem update_events_panic (s : store W) p c q c' kc :
  objs s !! p = Some c → DeletionTimestamp (cluster_meta c) = None → cache s !! Name (cluster_meta c) = Some q →
  objs s !! q = Some c' → controllers s !! UID (cluster_meta c') = None →
  toRESTConfig url_Parse ParseCertsPEM LocalConfig c' = inr (Some kc) →
  NewUserContext kc (Name (cluster_meta c')) = None →
  (∀ s0 p0 a s', runs (Updated p0) s0 a s' → starts_nothing s0 s') ∧
  (∀ a s', runs (Updated p) s a s' → a = Panics ∧ s' = s) ∧
  (∃ s' x, runs (Start Background p) s (Returns tt) s' ∧ running s' (UID (cluster_meta c')) x).
Proof.
  intros Hp Hd Hq Hc' Hu Hcfg Hnew. split_and!; [intros; by eapply Updated_starts_nothing|..].
  - intros a s' (c1 & s1 & [Hc1 ->] & Hk). assert (c1 = c) as -> by congruence. simpl in Hk. rewrite Hd in Hk.
    destruct Hk as (g & s1 & [-> Hg] & Hk). rewrite Hq in Hg. subst g.
    apply (runs_then (start NilContext q)) in Hk as (r & s2 & Hstart & -> & ->).
    destruct Hstart as (c2 & s1 & [Hc2 ->] & obj & s1' & [-> ->] & Hk). assert (c2 = c') as -> by congruence.
    rewrite Hu in Hk. apply (runs_then (toRecord NilContext q)) in Hk as (x & s3 & Hrec & Hk).
    destruct (toRecord_nil _ _ _ _ _ _ Hc' Hcfg Hnew Hrec) as [-> ->]. by destruct Hk as [-> ->].
  - set (x := fresh (dom (records s))).
    assert (records s !! x = None) as Hx by (apply not_elem_of_dom, is_fresh).
    set (r := {| clusterRec := q; rec_cluster := {| uc_RESTConfig := kc; uc_ClusterName := Name (cluster_meta c') |};
                 rec_cancelled := false; rec_started := 0; rec_failed := false |}).
    eexists _, x. split.
    + exists c, s. split; [done|]. simpl. rewrite Hd. exists (inr q), s.
      split; [by simpl; rewrite Hq|].
      apply (runs_then (start Background q)). eexists (Returns x), _. split; [|done].
      exists c', s. split; [done|]. exists None, s. split; [by simpl; rewrite Hu|].
      apply (runs_then (toRecord Background q)). eexists (Returns (Some x)), _. split; [by apply (toRecord_background _ _ c')|].
      eexists (x, false), _. simpl. rewrite Hu. split; [done|]. simpl.
      eexists. split; [|done]. eexists None, _. split; [|done]. exists r. split; [apply lookup_insert_eq|reflexivity].
    + exists (started None r), c'. simpl. rewrite lookup_insert_eq. split_and!; [done..|simpl; lia|done].
Qed.

End sequential.

(** ** Schedules *)

Section schedules.
Context {W : Type} `{!GoRuntime W, !Client W Cluster}.
Variable url_Parse : string → goerr + (string * string).
Variable ParseCertsPEM : string → option goerr.
Variable NewUserContext : RestConfig → string → option goerr.
Variables (LocalConfig : option RestConfig) (ManagementConfig : RestConfig).

Notation step := (step (W:=W) url_Parse ParseCertsPEM NewUserContext LocalConfig ManagementConfig).

(** One answer of an operation: controllers start, and new records come after the others. *)
Definition answer {B} (o : op W B) (s : store W) : option (B * store W) :=
  match o in op _ B return option (B * store W) with
  | Load uid => Some (controllers s !! uid, s)
  | LoadOrStore uid p =>
      match controllers s !! uid with
      | Some q => Some ((q, true), s)
      | None => Some ((p, false), with_controllers (<[uid := p]> (controllers s)) s)
      end
  | Delete uid => Some (tt, with_controllers (delete uid (controllers s)) s)
  | Get name =>
      Some (match cache s !! name with Some p => inr p | None => inl (StatusError StatusReasonNotFound name) end, s)
  | ReadCluster p => c ← objs s !! p; Some (c, s)
  | ReadRecord p => r ← records s !! p; Some (r, s)
  | NewRecord r =>
      let p := map_fold (λ k _ m, Nat.max (S k) m) 0 (records s) in
      match records s !! p with
      | None => Some (p, with_records (<[p := r]> (records s)) s)
      | Some _ => None
      end
  | Cancel p => r ← records s !! p; Some (tt, with_records (<[p := cancelled r]> (records s)) s)
  | RunControllers p => r ← records s !! p; Some (None, with_records (<[p := started None r]> (records s)) s)
  | Api m => Some (tt, with_world (m (st_world s)).2 s)
  end.

(** What happens next: an operation of the i-th call, a call that wants the client of a cluster,
    a new object from the informer, or a write through a cached pointer. *)
Inductive event :=
| Act (i : nat)
| Wanted (name : string)
| Informer (name : string) (p : nat) (c : Cluster)
| Written (p : nat) (c : Cluster).

Definition happens (e : event) (x : store W * list (cmd W unit)) : option (store W * list (cmd W unit)) :=
  let '(s, ts) := x in
  match e with
  | Act i =>
      match ts !! i with
      | Some (Vis o k) => '(b, s') ← answer o s; Some (s', <[i := k b]> ts)
      | Some (Spawn c k) => Some (s, <[i := k]> ts ++ [c])
      | _ => None
      end
  | Wanted name =>
      Some (s, ts ++ [ignore (user_context url_Parse ParseCertsPEM NewUserContext LocalConfig name)])
  | Informer name p c =>
      match objs s !! p with
      | None => Some (with_cache (<[name := p]> (cache s)) (with_objs (<[p := c]> (objs s)) s), ts)
      | Some _ => None
      end
  | Written p c' =>
      c ← objs s !! p;
      if decide (cluster_meta c' = cluster_meta c) then Some (with_objs (<[p := c']> (objs s)) s, ts) else None
  end.

Fixpoint play (es : list event) (x : store W * list (cmd W unit)) : option (store W * list (cmd W unit)) :=
  match es with
  | [] => Some x
  | e :: es => y ← happens e x; play es y
  end.

Lemma answer_exec {B} (o : op W B) s b s' : answer o s = Some (b, s') → exec o s b s'.
Proof.
  destruct o; simpl; intros Ha; try (apply bind_Some in Ha as (x & Hx & Ha)); repeat case_match; simplify_eq; eauto.
Qed.

Lemma happens_step e x y : happens e x = Some y → step x y.
Proof.
  destruct x as [s ts]. destruct e as [i|name|name p c|p c']; simpl.
  - destruct (ts !! i) as [[a|B o k|c k]|] eqn:Hi; try done.
    + intros ([b s'] & Ha & [= <-])%bind_Some. pose proof (lookup_lt_Some _ _ _ Hi) as Hlt.
      rewrite <-(take_drop_middle _ _ _ Hi) at 1. rewrite insert_take_drop by done. apply step_op. by apply answer_exec.
    + intros [= <-]. pose proof (lookup_lt_Some _ _ _ Hi) as Hlt.
      rewrite <-(take_drop_middle _ _ _ Hi) at 1. rewrite insert_take_drop by done. rewrite <-app_assoc. apply step_go.
  - intros [= <-]. apply step_call, call_UserContext.
  - destruct (objs s !! p) eqn:Hp; [done|]. intros [= <-]. by apply step_outside, outside_informer.
  - intros (c & Hc & Ha)%bind_Some. case_decide; [|done]. injection Ha as <-. apply step_outside. by eapply outside_write.
Qed.

Lemma play_steps es x y : play es x = Some y → rtc step x y.
Proof.
  revert x. induction es as [|e es IH]; simpl; intros x; [by intros [= ->]|].
  intros (z & Hz & Hy)%bind_Some. eapply rtc_l; [by eapply happens_step|by apply IH].
Qed.

Definition is_done (c : cmd W unit) : bool := match c with Done _ => true | _ => false end.

Definition runs_with (s : store W) (u : string) (p : nat) : bool :=
  match records s !! p with
  | Some r =>
      match objs s !! clusterRec r with
      | Some c => String.eqb (UID (cluster_meta c)) u && (0 <? rec_started r) && negb (rec_cancelled r)
      | None => false
      end
  | None => false
  end.

Lemma is_done_finished ts : forallb is_done ts = true → Forall finished ts.
Proof.
  intros Hd. apply Forall_forall. intros c Hin%list_elem_of_In. apply (proj1 (forallb_forall _ _) Hd) in Hin.
  by destruct c as [[]| |].
Qed.

Lemma runs_with_running s u p : runs_with s u p = true → running s u p.
Proof.
  unfold runs_with, running. destruct (records s !! p) as [r|]; [|done].
  destruct (objs s !! clusterRec r) as [c|] eqn:Hc; [|done].
  intros [[Hu%String.eqb_eq Hs%Nat.ltb_lt]%andb_true_iff Hn%negb_true_iff]%andb_true_iff. by exists r, c.
Qed.

End schedules.

(** ** Two flaws *)

Definition demo_url_Parse (s : string) : goerr + (string * string) := inr (s, "").

(** A cluster an agent imported, with the token [token]. *)
Definition demo_agent_cluster (token : string) : Cluster :=
  {| cluster_meta := {| Name := "c-1"; GenerateName := ""; Namespace := ""; UID := "u-1"; ResourceVersion := token;
                        Labels := ∅; Annotations := ∅; OwnerReferences := []; CreationTimestamp := 0;
                        DeletionTimestamp := None |};
     cluster_type := {| Kind := "Cluster"; APIVersion := "v3" |}; cluster_Spec := no_spec;
     cluster_Status := {| cs_Driver := "imported"; cs_APIEndpoint := "https://10.0.0.1"; cs_ServiceAccountToken := token;
                          cs_CACert := "Y2E="; cs_AppliedPodSecurityPolicyTemplateName := "" |};
     cluster_Conditions := [{| c_Type := ClusterConditionProvisioned; c_Status := "True"; c_LastUpdateTime := "";
                               c_Reason := ""; c_Message := "" |}] |}.

Notation demo_play es :=
  (play demo_url_Parse (λ _, None) (λ _ _, None) None es (fresh_store (synced empty_state), [])).
Notation demo_step :=
  (step demo_url_Parse (λ _, None) (λ _ _, None) None
     {| rc_Host := ""; rc_Prefix := ""; rc_BearerToken := ""; rc_CAData := ""; rc_Dial := None; rc_DialTLS := false |}).

(** The cluster starts; its token changes, and two calls that want its client find that it
    changed.  The first is in [Stop], with the old record loaded, while the second goes
    through; then the first goes on and deletes the entry the second has made. *)
Definition leak_schedule : list event :=
  [Informer "c-1" 0 (demo_agent_cluster "t1"); Wanted "c-1"] ++ replicate 8 (Act 0) ++ [Act 1] ++
  [Informer "c-1" 1 (demo_agent_cluster "t2"); Wanted "c-1"; Wanted "c-1"] ++
  replicate 8 (Act 2) ++ replicate 15 (Act 3) ++ [Act 4] ++ replicate 7 (Act 2) ++ [Act 5].

(** C20: calls that overlap leave controllers behind: there is a schedule after which no call is in
    progress and the controllers of one cluster run twice, with one record that the table has
    and with one that nothing can stop any more. *)
Theorem manager_leaks : ∃ (s : store Sim) ts p q,
  rtc demo_step (fresh_store (synced empty_state), []) (s, ts) ∧ Forall finished ts ∧
  p ≠ q ∧ running s "u-1" p ∧ running s "u-1" q ∧ controllers s = {[ "u-1" := q ]}.
Proof.
  destruct (demo_play leak_schedule) as [[s ts]|] eqn:Hp; [|vm_compute in Hp; discriminate].
  exists s, ts, 1, 2. assert (match demo_play leak_schedule with
    | Some (s, ts) => forallb is_done ts && runs_with s "u-1" 1 && runs_with s "u-1" 2 &&
                      bool_decide (controllers s = {[ "u-1" := 2 ]})
    | None => false
    end = true) as Hc by (vm_compute; reflexivity).
  rewrite Hp in Hc. apply andb_true_iff in Hc as [[[Hd H1]%andb_true_iff H2]%andb_true_iff Ht%bool_decide_eq_true].
  split_and!; [by eapply play_steps|by apply is_done_finished|done|by apply runs_with_running..|done].
Qed.

(** The cluster starts; its agent registers again with a new token, which the authorizer
    writes to the cached cluster before it updates it; the informer delivers the updated
    cluster, and a call wants its client. *)
Definition stale_schedule : list event :=
  [Informer "c-1" 0 (demo_agent_cluster "t1"); Wanted "c-1"] ++ replicate 8 (Act 0) ++ [Act 1] ++
  [Written 0 (Authorizer.with_status Authorizer.importedDriver "https://10.0.0.1" "t2" "Y2E=" (demo_agent_cluster "t1"));
   Informer "c-1" 1 (demo_agent_cluster "t2"); Wanted "c-1"] ++ replicate 7 (Act 2).

(** A change of credentials that is written through the cached pointer goes unnoticed: the
    record compares the new cluster with the object the write has reached, so that its
    controllers keep the token the agent has replaced. *)
Theorem credentials_stale : ∃ (s : store Sim) ts p r c,
  rtc demo_step (fresh_store (synced empty_state), []) (s, ts) ∧ Forall finished ts ∧
  running s "u-1" p ∧ controllers s !! "u-1" = Some p ∧ records s !! p = Some r ∧
  rc_BearerToken (uc_RESTConfig (rec_cluster r)) = "t1" ∧
  objs s !! 1 = Some c ∧ cache s !! "c-1" = Some 1 ∧ cs_ServiceAccountToken (cluster_Status c) = "t2".
Proof.
  destruct (demo_play stale_schedule) as [[s ts]|] eqn:Hp; [|vm_compute in Hp; discriminate].
  assert (match demo_play stale_schedule with
    | Some (s, ts) => forallb is_done ts && runs_with s "u-1" 0 && bool_decide (controllers s !! "u-1" = Some 0) &&
        bool_decide (cache s !! "c-1" = Some 1) &&
        match records s !! 0, objs s !! 1 with
        | Some r, Some c => String.eqb (rc_BearerToken (uc_RESTConfig (rec_cluster r))) "t1" &&
                            String.eqb (cs_ServiceAccountToken (cluster_Status c)) "t2"
        | _, _ => false
        end
    | None => false
    end = true) as Hc by (vm_compute; reflexivity).
  rewrite Hp in Hc. apply andb_true_iff in Hc as [[[[Hd H0]%andb_true_iff Ht%bool_decide_eq_true]%andb_true_iff
    Hn%bool_decide_eq_true]%andb_true_iff Hm].
  destruct (records s !! 0) as [r|] eqn:Hr, (objs s !! 1) as [c|] eqn:Ho; try done.
  apply andb_true_iff in Hm as [H1%String.eqb_eq H2%String.eqb_eq]. exists s, ts, 0, r, c.
  split_and!; [by eapply play_steps|by apply is_done_finished|by apply runs_with_running|done..].
Qed.

(** Two calls that want the client of one cluster overlap and end with its record in the table. *)
Lemma manager_interleavings_witness : ∃ (s : store Sim) ts,
  rtc demo_step (fresh_store (synced empty_state), []) (s, ts) ∧ controllers s = {[ "u-1" := 0 ]} ∧
  ∀ r, records s !! 0 = Some r → rec_started r = 1 ∧ rec_failed r = false ∧ rec_cancelled r = false.
Proof.
  set (es := [Informer "c-1" 0 (demo_agent_cluster "t1"); Wanted "c-1"; Wanted "c-1"] ++
    replicate 5 (Act 0) ++ replicate 5 (Act 1) ++ [Act 0; Act 0; Act 2; Act 1; Act 0; Act 1]).
  destruct (demo_play es) as [[s ts]|] eqn:Hp; [|vm_compute in Hp; discriminate].
  assert (match demo_play es with
    | Some (s, ts) => forallb is_done ts && bool_decide (controllers s = {[ "u-1" := 0 ]})
    | None => false
    end = true) as Hc by (vm_compute; reflexivity).
  rewrite Hp in Hc. apply andb_true_iff in Hc as [Hd Ht%bool_decide_eq_true].
  exists s, ts. pose proof (play_steps _ _ _ _ {| rc_Host := ""; rc_Prefix := ""; rc_BearerToken := ""; rc_CAData := "";
    rc_Dial := None; rc_DialTLS := false |} _ _ _ Hp) as Hsteps.
  split; [exact Hsteps|]. split; [exact Ht|]. intros r Hr.
  pose proof (manager_interleavings _ _ _ _ _ _ s ts Hsteps) as (_ & _ & _ & Hfin).
  apply (Hfin (is_done_finished ts Hd) "u-1" 0 r); [|exact Hr]. rewrite Ht. reflexivity.
Defined.

(** The cluster of an imported agent is started. *)
Lemma manager_sequential_witness : ∃ s : store Sim,
  running s "u-1" 0 ∧ controllers s !! "u-1" = Some 0.
Proof.
  set (c := demo_agent_cluster "t1"). set (s0 := fresh_store (synced empty_state)).
  set (s1 := with_cache (<["c-1" := 0]> (cache s0)) (with_objs (<[0 := c]> (objs s0)) s0)).
  set (call1 := ignore (Start demo_url_Parse (λ _, None) (λ _ _, None) None Background 0)).
  pose (r := {| clusterRec := 0; rec_cluster := {| uc_RESTConfig := {| rc_Host := "https://10.0.0.1"; rc_Prefix := "";
     rc_BearerToken := "t1"; rc_CAData := "ca"; rc_Dial := Some "c-1"; rc_DialTLS := false |}; uc_ClusterName := "c-1" |};
     rec_cancelled := false; rec_started := 0; rec_failed := false |}).
  pose (s2 := with_records {[ 0 := started None r ]} (with_controllers {[ "u-1" := 0 ]} s1)).
  assert (runs call1 s1 tt s2) as Hrun.
  { exists c, s1. split; [split; reflexivity|]. exists (inr 0), s1. split; [split; reflexivity|].
    exists c, s1. split; [split; reflexivity|]. exists None, s1. split; [split; reflexivity|].
    exists c, s1. split; [split; reflexivity|].
    exists 0, (with_records {[ 0 := r ]} s1). split; [split; reflexivity|].
    eexists (0, false), _. split; [split; reflexivity|].
    eexists. split; [|split; reflexivity]. eexists None, _. split; [|split; reflexivity].
    exists r. split; reflexivity. }
  exists s2. assert (controllers s2 !! "u-1" = Some 0) as Ht by reflexivity. split; [|exact Ht].
  apply (manager_sequential demo_url_Parse (λ _, None) (λ _ _, None) None
     {| rc_Host := ""; rc_Prefix := ""; rc_BearerToken := ""; rc_CAData := ""; rc_Dial := None; rc_DialTLS := false |}
     (synced empty_state) s2); [|exact Ht].
  eapply rtc_l; [apply turn_outside, (outside_informer s0 "c-1" 0 c); reflexivity|].
  eapply rtc_once, (turn_call _ _ _ _ _ _ _ call1); [apply call_Start; by eexists|exact Hrun].
Defined.

(** A cluster of an imported agent that has not been started. *)
Lemma update_events_panic_witness : ∃ s : store Sim, cache s !! "c-1" = Some 0 ∧
  ∀ a s', runs (ClusterLifecycle_Updated demo_url_Parse (λ _, None) (λ _ _, None) None 0) s a s' → a = Panics ∧ s' = s.
Proof.
  set (c := demo_agent_cluster "t1"). set (s0 := fresh_store (synced empty_state)).
  set (s1 := with_cache (<["c-1" := 0]> (cache s0)) (with_objs (<[0 := c]> (objs s0)) s0)).
  exists s1. split; [reflexivity|].
  apply (update_events_panic demo_url_Parse (λ _, None) (λ _ _, None) None s1 0 c 0 c
    {| rc_Host := "https://10.0.0.1"; rc_Prefix := ""; rc_BearerToken := "t1"; rc_CAData := "ca"; rc_Dial := Some "c-1";
       rc_DialTLS := false |}); vm_compute; reflexivity.
Defined.

End ClusterManager.
