(* ===== verification/LocalAuth.v ===== *)
(** * The local authentication provider

    [pkg/auth/providers/local]: logins with a name and a password, the groups of a user, and
    the search for users and groups.  The comparison of a password with its bcrypt hash is
    an argument of the definitions. *)

From stdpp Require Import base gmap list strings.
From Stdlib Require Import Ascii ZArith Lia.
From S2P Require Import Prelude.
From S2P Require Import GoLib.
From S2P Require Import GoEncoding.
From S2P Require Import KubeTypes.
From S2P Require Import KubeObjects.
From S2P Require Import Kube.
From S2P Require Import KubeRules.
From S2P Require Import KubeSim.
From S2P Require Import Tokens.
From S2P Require Import TokenAuth.
From S2P Require Import UserManager.
Import Tokens TokenAuth UserManagers.

Open Scope nat_scope.

Module LocalAuth.

Notation provider_name := "local" (only parsing).
Notation searchIndexDefaultLen := 6 (only parsing).

(** ** Indexes *)

Definition minOf (length defaultLen : nat) : nat := if length <? defaultLen then length else defaultLen.

(** The prefixes of [field] from two characters up to [maxindex]. *)
Definition indexField (field : string) (maxindex : nat) : list string :=
  map (λ i, String.substring 0 i field) (seq 2 (S maxindex - 2)).

Definition userNameIndexer (user : User) : list string := [user_Username user].

Definition gmPIdIndexer (gm : GroupMember) : list string := [gm_PrincipalID gm].

Definition userSearchIndexer (user : User) : list string :=
  let index f := indexField f (minOf (String.length f) searchIndexDefaultLen) in
  index (user_Username user) ++ index (user_DisplayName user) ++ index (Name (user_meta user)).

Definition groupSearchIndexer (group : Group) : list string :=
  let index f := indexField f (minOf (String.length f) searchIndexDefaultLen) in
  index (grp_DisplayName group) ++ index (Name (grp_meta group)).

(** ** Principals *)

Definition isThisUserMe (me other : Principal) : bool :=
  String.eqb (p_Name me) (p_Name other) && String.eqb (p_LoginName me) (p_LoginName other) &&
  String.eqb (p_PrincipalType me) (p_PrincipalType other).

Definition isMemberOf (myGroups : list Principal) (other : Principal) : bool :=
  existsb (λ mygroup, String.eqb (p_Name mygroup) (p_Name other) &&
                      String.eqb (p_PrincipalType mygroup) (p_PrincipalType other)) myGroups.

Definition toPrincipal (principalType displayName loginName id : string) (token : option Token) : Principal :=
  let princ me memberOf type :=
    {| p_Name := id; p_DisplayName := if String.eqb displayName "" then loginName else displayName;
       p_LoginName := loginName; p_ProfilePicture := ""; p_ProfileURL := ""; p_PrincipalType := type;
       p_Me := me; p_MemberOf := memberOf; p_Provider := provider_name; p_ExtraInfo := ∅ |} in
  if String.eqb principalType "user"
  then princ (match token with
              | Some t => isThisUserMe (token_UserPrincipal t) (princ false false "user")
              | None => false
              end) false "user"
  else princ false (match token with
                    | Some t => isMemberOf (token_GroupPrincipals t) (princ false false "group")
                    | None => false
                    end) "group".

(** The last principal of the provider wins; without one the result is empty. *)
Definition getLocalPrincipalID (user : User) : string :=
  fold_left (λ id p, if HasPrefix p (provider_name +:+ "://") then p else id) (user_PrincipalIDs user) "".

Definition with_Me (p : Principal) : Principal :=
  {| p_Name := p_Name p; p_DisplayName := p_DisplayName p; p_LoginName := p_LoginName p;
     p_ProfilePicture := p_ProfilePicture p; p_ProfileURL := p_ProfileURL p; p_PrincipalType := p_PrincipalType p;
     p_Me := true; p_MemberOf := p_MemberOf p; p_Provider := p_Provider p; p_ExtraInfo := p_ExtraInfo p |}.
Definition with_MemberOf (p : Principal) : Principal :=
  {| p_Name := p_Name p; p_DisplayName := p_DisplayName p; p_LoginName := p_LoginName p;
     p_ProfilePicture := p_ProfilePicture p; p_ProfileURL := p_ProfileURL p; p_PrincipalType := p_PrincipalType p;
     p_Me := p_Me p; p_MemberOf := true; p_Provider := p_Provider p; p_ExtraInfo := p_ExtraInfo p |}.

(** What a login sends: the structure of this provider, or that of another one. *)
Inductive login_input :=
| BasicLogin (Username Password : string)
| OtherLogin (fields : gmap string string).

(** The status is 0 for an error that is not one of the API. *)
Definition login_failure : Type := Z * goerr.
Definition login_result : Type := login_failure + (Principal * list Principal * gmap string string).

Section provider.
Context {W : Type}.
Context `{!Client W User, !Client W Group, !Client W GroupMember, !Client W AuthConfig}.
Context `{!Client W ClusterRoleTemplateBinding, !Client W ProjectRoleTemplateBinding}.

(** [bcrypt.CompareHashAndPassword], as far as it succeeds *)
Variable CompareHashAndPassword : string → string → bool.

(** Members of groups that are not found are logged and left out. *)
Definition getGroupPrincipals (user : User) : M W (list Principal) :=
  for_fold (λ groupPrincipals pid,
    let* objs := reads (ByIndex gmPIdIndexer pid) in
    for_fold (λ groupPrincipals gm,
      let* r := attempt (reads (lister_Get (O:=Group) "" (gm_GroupName gm))) in
      ret (match r with
           | inl _ => groupPrincipals
           | inr localGroup =>
             groupPrincipals ++ [with_MemberOf (toPrincipal "group" (grp_DisplayName localGroup) ""
                                   (provider_name +:+ "://" +:+ Name (grp_meta localGroup)) None)]
           end)) groupPrincipals objs) [] (user_PrincipalIDs user).

(** The loop over the configurations of the other providers: whether one was looked at, and
    whether the last one that was looked at lets the user in. *)
Fixpoint check_configs (checked allowed : bool) (acs : list AuthConfig) (userPrincipal : Principal)
    (groupPrincipals : list Principal) : M W (bool * bool) :=
  match acs with
  | [] => ret (checked, allowed)
  | config :: acs =>
    if negb (String.eqb (Name (ac_meta config)) provider_name) && ac_Enabled config then
      let* allowed := CheckAccess (ac_AccessMode config) (ac_AllowedPrincipalIDs config) userPrincipal groupPrincipals in
      if allowed : bool then ret (true, true) else check_configs true allowed acs userPrincipal groupPrincipals
    else check_configs checked allowed acs userPrincipal groupPrincipals
  end.

Definition AuthenticateUser (input : login_input) : M W login_result :=
  match input with
  | OtherLogin _ => ret (inl (500%Z, PlainError "Unexpected input type"))
  | BasicLogin username pwd =>
    let* r := attempt (reads (ByIndex userNameIndexer username)) in
    match r with
    | inl e => ret (inl (0%Z, e))
    | inr [] => ret (inl (401%Z, PlainError "authentication failed"))
    | inr (_ :: _ :: _) => ret (inl (0%Z, PlainError ("found more than one users with username " +:+ username)))
    | inr [user] =>
      if negb (CompareHashAndPassword (user_Password user) pwd)
      then ret (inl (401%Z, PlainError "authentication failed")) else
      let userPrincipal :=
        with_Me (toPrincipal "user" (user_DisplayName user) (user_Username user) (getLocalPrincipalID user) None) in
      let* r := attempt (getGroupPrincipals user) in
      match r with
      | inl e => ret (inl (0%Z, Wrapped ("failed to get groups for " +:+ Name (user_meta user)) e))
      | inr groupPrincipals =>
        let* r := attempt (reads (lister_List "" Everything)) in
        match r with
        | inl e => ret (inl (0%Z, e))
        | inr acs =>
          let* r := attempt (check_configs false false acs userPrincipal groupPrincipals) in
          ret (match r with
               | inl e => inl (0%Z, e)
               | inr (true, false) => inl (401%Z, PlainError "unauthorized")
               | inr _ => inr (userPrincipal, groupPrincipals, ∅)
               end)
        end
      end
    end
  end.

(** ** Search *)

Definition listAllUsersAndGroups (searchKey : string) : M W (list User * list Group) :=
  let* allUsers := reads (lister_List "" Everything) in
  let* allGroups := reads (lister_List "" Everything) in
  ret (List.filter (λ user, HasPrefix (Name (user_meta user)) searchKey || HasPrefix (user_Username user) searchKey ||
                            HasPrefix (user_DisplayName user) searchKey) allUsers,
       List.filter (λ group, HasPrefix (Name (grp_meta group)) searchKey || HasPrefix (grp_DisplayName group) searchKey)
                   allGroups).

Definition listUsersAndGroupsByIndex (searchKey : string) : M W (list User * list Group) :=
  let* objs := reads (ByIndex userSearchIndexer searchKey) in
  let* groupObjs := reads (ByIndex groupSearchIndexer searchKey) in
  ret (objs, groupObjs).

Definition SearchPrincipalsDedupe (searchKey principalType : string) (token : Token)
    (principalsFromOtherProviders : list Principal) : M W (list Principal) :=
  let fromOtherProviders := map p_Name principalsFromOtherProviders in
  let* found := if searchIndexDefaultLen <? String.length searchKey
                then listAllUsersAndGroups searchKey else listUsersAndGroupsByIndex searchKey in
  let '(localUsers, localGroups) := found in
  ret ((if String.eqb principalType "" || String.eqb principalType "user"
        then map (λ user, toPrincipal "user" (user_DisplayName user) (user_Username user)
                            (getLocalPrincipalID user) (Some token))
               (List.filter (λ user, negb (existsb (ContainsString fromOtherProviders) (user_PrincipalIDs user))) localUsers)
        else []) ++
       (if String.eqb principalType "" || String.eqb principalType "group"
        then map (λ group, toPrincipal "group" (grp_DisplayName group) ""
                             (provider_name +:+ "://" +:+ Name (grp_meta group)) (Some token)) localGroups
        else [])).

Definition SearchPrincipals (searchKey principalType : string) (token : Token) : M W (list Principal) :=
  SearchPrincipalsDedupe searchKey principalType token [].

Definition GetPrincipal (principalID : string) (token : Token) : M W Principal :=
  match SplitN2 principalID ":" with
  | [_; rest] =>
    let* user := reads (lister_Get "" (TrimPrefix rest "//")) in
    ret (toPrincipal "user" (user_DisplayName user) (user_Username user) (getLocalPrincipalID user) (Some token))
  | _ => throw (PlainError ("invalid id " +:+ principalID))
  end.

End provider.

(** ** The index of prefixes *)

Lemma HasPrefix_substring s n : n ≤ String.length s → HasPrefix s (String.substring 0 n s) = true.
Proof.
  revert n. induction s as [|c s IH]; intros [|n] Hn; simpl in *; try (done || lia).
  unfold HasPrefix in *. simpl. destruct (Ascii.ascii_dec c c); [|done]. apply IH. lia.
Qed.

Lemma substring_prefix s p : HasPrefix s p = true → String.substring 0 (String.length p) s = p.
Proof.
  unfold HasPrefix. revert s. induction p as [|c p IH]; intros s; simpl; [by destruct s|].
  destruct s as [|d s]; [done|]. simpl. destruct (Ascii.ascii_dec c d) as [->|]; [|done]. intros Hp. by rewrite IH.
Qed.

Lemma prefix_length s p : HasPrefix s p = true → String.length p ≤ String.length s.
Proof.
  unfold HasPrefix. revert s. induction p as [|c p IH]; intros s; simpl; [lia|].
  destruct s as [|d s]; [done|]. simpl. destruct (Ascii.ascii_dec c d) as [->|]; [|done]. intros Hp%IH. lia.
Qed.

Lemma substring_length s n : n ≤ String.length s → String.length (String.substring 0 n s) = n.
Proof. revert n. induction s as [|c s IH]; intros [|n] Hn; simpl in *; try (done || lia). by rewrite IH by lia. Qed.

(** The keys a field is found under are its prefixes of two to six characters. *)
Lemma elem_of_indexField key f :
  key ∈ indexField f (minOf (String.length f) searchIndexDefaultLen) ↔
  2 ≤ String.length key ≤ searchIndexDefaultLen ∧ HasPrefix f key = true.
Proof.
  unfold indexField, minOf. set (m := if _ <? _ then _ else _).
  assert (m = String.length f `min` 6) as ->.
  { unfold m. destruct (Nat.ltb_spec (String.length f) 6); lia. }
  rewrite list_elem_of_In, in_map_iff. setoid_rewrite in_seq. split.
  - intros (i & <- & Hi). rewrite substring_length by lia. split; [lia|]. apply HasPrefix_substring. lia.
  - intros [Hlen Hp]. exists (String.length key). split; [by apply substring_prefix|].
    apply prefix_length in Hp. lia.
Qed.

Lemma for_fold_reads {W A B} (f : list B → A → M W (list B)) (g : A → list B) s xs (w : W) :
  (∀ s x, f s x w = (Ok (s ++ g x), w)) → for_fold f s xs w = (Ok (s ++ concat (map g xs)), w).
Proof.
  intros Hf. revert s. induction xs as [|x xs IH]; intros s; simpl; [by rewrite app_nil_r|].
  unfold bind. rewrite Hf, IH. by rewrite <-app_assoc.
Qed.

Lemma filter_bool {A} (f : A → bool) (l : list A) : List.filter f l = filter (λ x, f x = true) l.
Proof.
  induction l as [|x l IH]; [done|]. rewrite filter_cons. simpl. rewrite IH. by destruct (f x); case_decide.
Qed.

Lemma elem_of_if {A} (b : bool) (l : list A) x : x ∈ (if b then l else []) ↔ b = true ∧ x ∈ l.
Proof. destruct b; rewrite ?elem_of_nil; naive_solver. Qed.

Lemma elem_of_map {A B} (f : A → B) l y : y ∈ map f l ↔ ∃ x, y = f x ∧ x ∈ l.
Proof. exact (list_elem_of_fmap f l y). Qed.

Lemma elem_of_filter_bool {A} (f : A → bool) l x : x ∈ List.filter f l ↔ x ∈ l ∧ f x = true.
Proof. rewrite filter_bool, list_elem_of_filter. tauto. Qed.

Lemma elem_of_concat_map {A B} (f : A → list B) l y : y ∈ concat (map f l) ↔ ∃ x, x ∈ l ∧ y ∈ f x.
Proof.
  rewrite list_elem_of_In, in_concat. setoid_rewrite in_map_iff. setoid_rewrite list_elem_of_In.
  split; [intros (? & (x & <- & ?) & ?)|intros (x & ? & ?)]; eauto.
Qed.

(** The principal of a user is one of its principals, unless it has none of the provider. *)
Lemma getLocalPrincipalID_elem u :
  getLocalPrincipalID u = "" ∨
  getLocalPrincipalID u ∈ user_PrincipalIDs u ∧ HasPrefix (getLocalPrincipalID u) "local://" = true.
Proof.
  unfold getLocalPrincipalID.
  assert (∀ l id, fold_left (λ id p, if HasPrefix p ("local" +:+ "://") then p else id) l id = id ∨
    fold_left (λ id p, if HasPrefix p ("local" +:+ "://") then p else id) l id ∈ l ∧
    HasPrefix (fold_left (λ id p, if HasPrefix p ("local" +:+ "://") then p else id) l id) "local://" = true) as Hgen.
  { induction l as [|p l IH]; intros id; [by left|]. cbn [fold_left]. rewrite elem_of_cons.
    destruct (HasPrefix p ("local" +:+ "://")) eqn:Hp.
    - destruct (IH p) as [->|[? ?]]; [right; by split; [left|]|right; tauto].
    - destruct (IH id) as [|[? ?]]; [by left|right; tauto]. }
  apply Hgen.
Qed.

Section laws.
Context {W : Type} `{!Kube W}.
Context `{!Client W User, !ClientLaws W User, !Client W Group, !ClientLaws W Group}.
Context `{!Client W GroupMember, !ClientLaws W GroupMember, !Client W AuthConfig, !ClientLaws W AuthConfig}.
Context `{!Client W ClusterRoleTemplateBinding, !ClientLaws W ClusterRoleTemplateBinding}.
Context `{!Client W ProjectRoleTemplateBinding, !ClientLaws W ProjectRoleTemplateBinding}.
Implicit Types (w : W).

(** ** Search by index is search by scan *)

Lemma index_scan {O} `{!Stored O, !Client W O, !ClientLaws W O} (f : O → list string) (p : O → bool) key w :
  (∀ o, key ∈ f o ↔ p o = true) →
  ∃ l l', ByIndex f key w = Ok l ∧ lister_List "" Everything w = Ok l' ∧ l ≡ₚ List.filter p l'.
Proof.
  intros Hfp. destruct (by_index_law (O:=O) f key w) as (l & Hl & Hp).
  destruct (lister_list_law (O:=O) "" Everything w) as (l' & Hl' & Hp'). exists l, l'. split_and!; [done..|].
  rewrite filter_bool, Hp, Hp', list_filter_filter. apply Permutation_refl', list_filter_iff.
  intros o. rewrite Hfp. split; [|by intros [? _]]. intros Ho. split; [done|]. split; [by left|apply map_empty_subseteq].
Qed.

(** C26: the index finds what the scan finds: for a key of two to six characters, as long as the
    index answers for it, the users and groups it lists are those whose names start
    with the key; for a shorter key, for which the index is asked too, it lists nobody. *)
Theorem search_by_index key w :
  String.length key ≤ searchIndexDefaultLen →
  ∃ us gs us' gs', listUsersAndGroupsByIndex key w = (Ok (us, gs), w) ∧
    listAllUsersAndGroups key w = (Ok (us', gs'), w) ∧
    (2 ≤ String.length key → us ≡ₚ us' ∧ gs ≡ₚ gs') ∧ (String.length key < 2 → us = [] ∧ gs = []).
Proof.
  intros Hlen.
  destruct (by_index_law userSearchIndexer key w) as (us & Hus & Pus).
  destruct (by_index_law groupSearchIndexer key w) as (gs & Hgs & Pgs).
  destruct (lister_list_law (O:=User) "" Everything w) as (us' & Hus' & _).
  destruct (lister_list_law (O:=Group) "" Everything w) as (gs' & Hgs' & _).
  exists us, gs. eexists _, _. unfold listUsersAndGroupsByIndex, listAllUsersAndGroups, bind, reads.
  rewrite Hus, Hgs, Hus', Hgs'. split_and!; [done..| |].
  - intros H2. split.
    + destruct (index_scan userSearchIndexer (λ user, HasPrefix (Name (user_meta user)) key ||
        HasPrefix (user_Username user) key || HasPrefix (user_DisplayName user) key) key w)
        as (l & l' & Hl & Hl' & Hp); [|congruence].
      intros u. unfold userSearchIndexer. rewrite !elem_of_app, !elem_of_indexField, !orb_true_iff. tauto.
    + destruct (index_scan groupSearchIndexer (λ group, HasPrefix (Name (grp_meta group)) key ||
        HasPrefix (grp_DisplayName group) key) key w) as (l & l' & Hl & Hl' & Hp); [|congruence].
      intros g. unfold groupSearchIndexer. rewrite !elem_of_app, !elem_of_indexField, !orb_true_iff. tauto.
  - intros H2. split.
    + destruct us as [|u us]; [done|]. assert (u ∈ u :: us) as [_ Hu]%(elem_of_index _ _ _ _ _ Hus) by (by left).
      unfold userSearchIndexer in Hu. rewrite !elem_of_app, !elem_of_indexField in Hu. lia.
    + destruct gs as [|g gs]; [done|]. assert (g ∈ g :: gs) as [_ Hg]%(elem_of_index _ _ _ _ _ Hgs) by (by left).
      unfold groupSearchIndexer in Hg. rewrite !elem_of_app, !elem_of_indexField in Hg. lia.
Qed.

(** The names of the user, or of the group, start with the key. *)
Definition user_matches (key : string) (u : User) : Prop :=
  HasPrefix (Name (user_meta u)) key = true ∨ HasPrefix (user_Username u) key = true ∨
  HasPrefix (user_DisplayName u) key = true.
Definition group_matches (key : string) (g : Group) : Prop :=
  HasPrefix (Name (grp_meta g)) key = true ∨ HasPrefix (grp_DisplayName g) key = true.

Lemma search_lists key w :
  2 ≤ String.length key →
  ∃ us gs, (if searchIndexDefaultLen <? String.length key then listAllUsersAndGroups key
            else listUsersAndGroupsByIndex key) w = (Ok (us, gs), w) ∧
    (∀ u, u ∈ us ↔ s_Users (cached w) !! obj_key u = Some u ∧ user_matches key u) ∧
    (∀ g, g ∈ gs ↔ t_Groups (s_Tables (cached w)) !! obj_key g = Some g ∧ group_matches key g).
Proof.
  intros H2. unfold user_matches, group_matches. destruct (Nat.ltb_spec searchIndexDefaultLen (String.length key)).
  - destruct (lister_list_law (O:=User) "" Everything w) as (us & Hus & _).
    destruct (lister_list_law (O:=Group) "" Everything w) as (gs & Hgs & _).
    eexists _, _. unfold listAllUsersAndGroups, bind, reads. rewrite Hus, Hgs. split; [done|]. split.
    + intros u. rewrite elem_of_filter_bool, (elem_of_lister _ _ _ _ _ Hus), !orb_true_iff.
      split; [intros [[? _] ?]; tauto|]. intros [Hu ?]. split; [split_and!; [exact Hu|by left|apply map_empty_subseteq]|tauto].
    + intros g. rewrite elem_of_filter_bool, (elem_of_lister _ _ _ _ _ Hgs), !orb_true_iff.
      split; [intros [[? _] ?]; tauto|]. intros [Hg ?]. split; [split_and!; [exact Hg|by left|apply map_empty_subseteq]|tauto].
  - destruct (by_index_law userSearchIndexer key w) as (us & Hus & _).
    destruct (by_index_law groupSearchIndexer key w) as (gs & Hgs & _).
    exists us, gs. unfold listUsersAndGroupsByIndex, bind, reads. rewrite Hus, Hgs. split; [done|]. split.
    + intros u. rewrite (elem_of_index _ _ _ _ _ Hus). unfold userSearchIndexer.
      rewrite !elem_of_app, !elem_of_indexField. change (tbl (O:=User) ?s) with (s_Users s). intuition lia.
    + intros g. rewrite (elem_of_index _ _ _ _ _ Hgs). unfold groupSearchIndexer.
      rewrite !elem_of_app, !elem_of_indexField. change (tbl (O:=Group) ?s) with (t_Groups (s_Tables s)). intuition lia.
Qed.

(** A search with a key of at least two characters returns the principals of exactly the users
    and groups with a name that starts with the key, without the users that
    another provider has found already. *)
Theorem SearchPrincipalsDedupe_exact key type token others w :
  2 ≤ String.length key →
  ∃ ps, SearchPrincipalsDedupe key type token others w = (Ok ps, w) ∧
    ∀ p, p ∈ ps ↔
      (type = "" ∨ type = "user") ∧ (∃ u, s_Users (cached w) !! obj_key u = Some u ∧ user_matches key u ∧
         (∀ q, q ∈ user_PrincipalIDs u → q ∉ map p_Name others) ∧
         p = toPrincipal "user" (user_DisplayName u) (user_Username u) (getLocalPrincipalID u) (Some token)) ∨
      (type = "" ∨ type = "group") ∧ (∃ g, t_Groups (s_Tables (cached w)) !! obj_key g = Some g ∧ group_matches key g ∧
         p = toPrincipal "group" (grp_DisplayName g) "" ("local://" +:+ Name (grp_meta g)) (Some token)).
Proof.
  intros H2. destruct (search_lists key w H2) as (us & gs & Hs & Hus & Hgs). eexists.
  unfold SearchPrincipalsDedupe, bind. rewrite Hs. split; [done|]. intros p. rewrite elem_of_app.
  rewrite !elem_of_if, !orb_true_iff, !String.eqb_eq, !elem_of_map. f_equiv.
  - split; intros [Ht (u & Hu)]; (split; [done|]); exists u.
    + destruct Hu as [-> [[? ?]%Hus Hn]%elem_of_filter_bool]. split_and!; [done..| |done].
      intros q Hq Ho. apply negb_true_iff, not_true_iff_false in Hn. apply Hn, existsb_contains. eauto.
    + destruct Hu as (Hu & Hm & Hn & ->). split; [done|]. apply elem_of_filter_bool. split; [by apply Hus|].
      apply negb_true_iff, not_true_iff_false. intros (q & ? & ?)%existsb_contains. by eapply Hn.
  - split; intros [Ht (g & Hg)]; (split; [done|]); exists g.
    + destruct Hg as [-> [? ?]%Hgs]. done.
    + destruct Hg as (? & ? & ->). split; [done|]. by apply Hgs.
Qed.

(** ** Who is let in *)

Definition group_principal (g : Group) : Principal :=
  with_MemberOf (toPrincipal "group" (grp_DisplayName g) "" ("local://" +:+ Name (grp_meta g)) None).
Definition user_principal (u : User) : Principal :=
  with_Me (toPrincipal "user" (user_DisplayName u) (user_Username u) (getLocalPrincipalID u) None).

(** A principal of the user is a member of the group. *)
Definition in_group w (u : User) (g : Group) : Prop :=
  ∃ gm, t_GroupMembers (s_Tables (cached w)) !! obj_key gm = Some gm ∧ gm_PrincipalID gm ∈ user_PrincipalIDs u ∧
    t_Groups (s_Tables (cached w)) !! ("", gm_GroupName gm) = Some g.

Lemma getGroupPrincipals_run u w :
  ∃ gs, getGroupPrincipals u w = (Ok gs, w) ∧ ∀ p, p ∈ gs ↔ ∃ g, in_group w u g ∧ p = group_principal g.
Proof.
  set (members pid := match ByIndex gmPIdIndexer pid w with Ok l => l | _ => [] end).
  set (principals gm := match lister_Get (O:=Group) "" (gm_GroupName gm) w with Ok g => [group_principal g] | _ => [] end).
  assert (∀ pid, ByIndex gmPIdIndexer pid w = Ok (members pid)) as Hmem.
  { intros pid. unfold members. by destruct (by_index_law gmPIdIndexer pid w) as (l & -> & _). }
  eexists. split.
  - unfold getGroupPrincipals. apply (for_fold_reads _ (λ pid, concat (map principals (members pid)))).
    intros s pid. unfold bind at 1, reads. rewrite Hmem. apply for_fold_reads.
    intros s' gm. unfold bind, attempt, reads, principals.
    pose proof (lister_get_law (O:=Group) "" (gm_GroupName gm) w) as Hg.
    destruct (tbl (cached w) !! ("", gm_GroupName gm)); [by rewrite Hg|]. destruct Hg as (e & -> & _). by rewrite app_nil_r.
  - assert (∀ gm p, p ∈ principals gm ↔ ∃ g, t_Groups (s_Tables (cached w)) !! ("", gm_GroupName gm) = Some g ∧
      p = group_principal g) as Hpr.
    { intros gm p. unfold principals. pose proof (lister_get_law (O:=Group) "" (gm_GroupName gm) w) as Hg.
      change (tbl (cached w)) with (t_Groups (s_Tables (cached w))) in Hg.
      destruct (t_Groups (s_Tables (cached w)) !! ("", gm_GroupName gm)).
      - rewrite Hg, list_elem_of_singleton. naive_solver.
      - destruct Hg as (e & -> & _). rewrite elem_of_nil. naive_solver. }
    intros p. simpl. rewrite elem_of_concat_map. setoid_rewrite elem_of_concat_map. setoid_rewrite Hpr. unfold in_group. split.
    + intros (pid & Hpid & gm & [Hgm ->%list_elem_of_singleton]%(elem_of_index _ _ _ _ _ (Hmem pid)) & g & Hg & ->). eauto 8.
    + intros (g & (gm & Hgm & Hpid & Hg) & ->). exists (gm_PrincipalID gm). split; [done|]. exists gm.
      split; [|eauto]. apply (elem_of_index _ _ _ _ _ (Hmem _)). split; [done|]. by left.
Qed.

(** The configurations a login is checked against: those of the other providers that are enabled. *)
Definition consulted (config : AuthConfig) : Prop := Name (ac_meta config) ≠ "local" ∧ ac_Enabled config = true.

Definition admits w (p : string) (gs : list Principal) (config : AuthConfig) : Prop :=
  admitted (ac_AccessMode config) (ac_AllowedPrincipalIDs config) p (map p_Name gs) w.

(** Its access mode is not a known one, or more than one user has the principal. *)
Definition undecided w (p : string) (config : AuthConfig) : Prop :=
  ambiguous p w ∨ ac_AccessMode config ∉ ["unrestricted"; ""; "required"; "restricted"].

Lemma consulted_true config :
  negb (String.eqb (Name (ac_meta config)) "local") && ac_Enabled config = true ↔ consulted config.
Proof. unfold consulted. rewrite andb_true_iff, negb_true_iff, String.eqb_neq. done. Qed.

Lemma check_configs_run checked acs up gs w :
  ∃ r, check_configs checked false acs up gs w = (r, w) ∧
  match r with
  | Ok (c, a) => (c = true ↔ checked = true ∨ ∃ config, config ∈ acs ∧ consulted config) ∧
                 (a = true ↔ ∃ config, config ∈ acs ∧ consulted config ∧ admits w (p_Name up) gs config)
  | Err _ => ∃ config, config ∈ acs ∧ consulted config ∧ undecided w (p_Name up) config
  | _ => False
  end.
Proof.
  revert checked. induction acs as [|config acs IH]; intros checked.
  { exists (Ok (checked, false)). split; [done|]. setoid_rewrite elem_of_nil. naive_solver. }
  cbn [check_configs]. destruct (_ && _) eqn:Hc.
  - apply consulted_true in Hc.
    pose proof (CheckAccess_exact (ac_AccessMode config) (ac_AllowedPrincipalIDs config) up gs w) as Hca.
    unfold wp in Hca. unfold bind. destruct (CheckAccess _ _ up gs w) as [[[]|e| |] w']; simpl in Hca; try done.
    + destruct Hca as [-> Had]. exists (Ok (true, true)). split; [done|]. setoid_rewrite elem_of_cons. unfold admits. naive_solver.
    + destruct Hca as [-> Had]. destruct (IH true) as (r & Hr & Hpost). exists r. split; [done|].
      destruct r as [[c a]|e| |]; [|setoid_rewrite elem_of_cons; naive_solver|done..]. setoid_rewrite elem_of_cons. assert (¬ admits w (p_Name up) gs config) by (by intros ?%Had).
      naive_solver.
    + destruct Hca as [-> Hu]. exists (Err e). split; [done|]. setoid_rewrite elem_of_cons. unfold undecided. naive_solver.
  - assert (¬ consulted config) by (rewrite <-consulted_true; congruence).
    destruct (IH checked) as (r & Hr & Hpost). exists r. split; [done|].
    destruct r as [[c a]|e| |]; try done; setoid_rewrite elem_of_cons; naive_solver.
Qed.

Variable CompareHashAndPassword : string → string → bool.

(** The one user with the name, and its password. *)
Definition opens w (n pwd : string) (u : User) : Prop :=
  (∀ u', s_Users (cached w) !! obj_key u' = Some u' ∧ user_Username u' = n ↔ u' = u) ∧
  CompareHashAndPassword (user_Password u) pwd = true.

(** A configuration to consult is in the cache; one of them admits the user. *)
Definition config_in w (P : AuthConfig → Prop) : Prop :=
  ∃ config, t_AuthConfigs (s_Tables (cached w)) !! obj_key config = Some config ∧ consulted config ∧ P config.

Definition let_in w (u : User) (gs : list Principal) : Prop :=
  config_in w (λ _, True) → config_in w (admits w (getLocalPrincipalID u) gs).

Lemma check_configs_cached up gs w acs :
  lister_List "" Everything w = Ok acs →
  ∃ r, check_configs false false acs up gs w = (r, w) ∧
  match r with
  | Ok (true, false) => ¬ (config_in w (λ _, True) → config_in w (admits w (p_Name up) gs))
  | Ok _ => config_in w (λ _, True) → config_in w (admits w (p_Name up) gs)
  | Err _ => config_in w (undecided w (p_Name up))
  | _ => False
  end.
Proof.
  intros Hl. destruct (check_configs_run false acs up gs w) as (r & Hr & Hpost). exists r. split; [done|].
  assert (∀ P, (∃ config, config ∈ acs ∧ consulted config ∧ P config) ↔ config_in w P) as Hin.
  { intros P. split; intros (config & Hc & ? & ?); exists config; (split; [|done]).
    - by apply (elem_of_lister _ _ _ _ _ Hl) in Hc as [? _].
    - apply (elem_of_lister _ _ _ _ _ Hl). split_and!; [exact Hc|by left|apply map_empty_subseteq]. }
  destruct r as [[c a]|e| |]; [|by apply Hin|done..]. destruct Hpost as [Hc Ha]. rewrite Hin in Ha.
  assert (c = true ↔ config_in w (λ _, True)) as Hc'.
  { rewrite Hc, <-Hin. naive_solver. }
  destruct c, a; naive_solver.
Qed.

(** A login with a name and a password is accepted exactly for the one user of that name, with the
    password that matches its hash, and, if other providers are enabled, only if one of
    them admits the user or one of its groups; the answer holds the principal of the
    user and those of exactly its groups, and nothing changes. *)
Theorem AuthenticateUser_exact n pwd w :
  ∃ r, AuthenticateUser CompareHashAndPassword (BasicLogin n pwd) w = (Ok r, w) ∧
  match r with
  | inr (p, gs, info) => ∃ u, opens w n pwd u ∧ let_in w u gs ∧ p = user_principal u ∧ info = ∅ ∧
      ∀ q, q ∈ gs ↔ ∃ g, in_group w u g ∧ q = group_principal g
  | inl _ => ∀ u, opens w n pwd u →
      config_in w (undecided w (getLocalPrincipalID u)) ∨
      ∃ gs, ¬ let_in w u gs ∧ ∀ q, q ∈ gs ↔ ∃ g, in_group w u g ∧ q = group_principal g
  end.
Proof.
  destruct (by_index_law userNameIndexer n w) as (us & Hus & _). unfold AuthenticateUser, bind at 1, attempt at 1, reads at 1.
  rewrite Hus. cbv iota beta.
  assert (∀ u, u ∈ us ↔ s_Users (cached w) !! obj_key u = Some u ∧ user_Username u = n) as Hin.
  { intros u. rewrite (elem_of_index _ _ _ _ _ Hus). unfold userNameIndexer. rewrite list_elem_of_singleton.
    change (tbl (O:=User) ?s) with (s_Users s). naive_solver. }
  pose proof (NoDup_index _ _ _ _ Hus) as Hnd.
  destruct us as [|u [|u2 us]].
  - eexists. split; [done|]. intros u [Hu _]. assert (u ∈ []) as []%elem_of_nil by (by apply Hin, Hu).
  - assert (∀ u', opens w n pwd u' → u' = u) as Hone.
    { intros u' [Hu _]. assert (u' ∈ [u]) as ?%list_elem_of_singleton by (by apply Hin, Hu). done. }
    destruct (CompareHashAndPassword (user_Password u) pwd) eqn:Hpw; cbn [negb]; last first.
    { eexists. split; [done|]. intros u' Hu'. rewrite (Hone u' Hu') in Hu'. destruct Hu' as [_ Hp]. congruence. }
    assert (opens w n pwd u) as Hu.
    { split; [|done]. intros u'. rewrite <-Hin. apply list_elem_of_singleton. }
    destruct (getGroupPrincipals_run u w) as (gs & Hgs & Hgroups). unfold bind at 1, attempt at 1. rewrite Hgs.
    destruct (lister_list_law (O:=AuthConfig) "" Everything w) as (acs & Hacs & _).
    unfold bind at 1, attempt at 1, reads at 1. rewrite Hacs. cbv iota beta.
    destruct (check_configs_cached (user_principal u) gs w acs Hacs) as (r & Hr & Hpost). unfold bind, attempt.
    unfold user_principal in Hr at 1. rewrite Hr. destruct r as [[[] []]|e| |]; try done.
    all: eexists; split; [done|].
    1,3,4: exists u; by split_and!.
    + intros u' ->%Hone. right. by exists gs.
    + intros u' ->%Hone. by left.
  - eexists. split; [done|]. intros u' [Hu _]. exfalso.
    assert (u = u') as -> by (apply Hu, Hin; by left). assert (u2 = u') as -> by (apply Hu, Hin; right; by left).
    simpl in Hnd. apply NoDup_cons in Hnd as [Hnd _]. apply Hnd. by left.
Qed.

End laws.

(** ** An example *)

Definition demo_ada : User :=
  {| user_meta := named_meta "u-ada" ∅ ∅ []; user_DisplayName := "Ada"; user_Description := "";
     user_Username := "ada"; user_Password := "hash of secret"; user_MustChangePassword := false;
     user_PrincipalIDs := ["github_user://7"; "local://u-ada"]; user_Me := false |}.
Definition demo_developers : Group := {| grp_meta := named_meta "g-dev" ∅ ∅ []; grp_DisplayName := "adapters" |}.
Definition demo_member : GroupMember :=
  {| gm_meta := named_meta "gm-1" ∅ ∅ []; gm_GroupName := "g-dev"; gm_PrincipalID := "local://u-ada" |}.
Definition demo_config : AuthConfig :=
  {| ac_meta := named_meta "github" ∅ ∅ []; ac_Enabled := true; ac_AccessMode := "required";
     ac_AllowedPrincipalIDs := ["local://g-dev"] |}.
Definition demo_people : Sim :=
  synced (put_obj demo_config (put_obj demo_member (put_obj demo_developers (put_obj demo_ada empty_state)))).

(** A search for three letters. *)
Lemma search_by_index_witness :
  ∃ us gs, listUsersAndGroupsByIndex "ada" demo_people = (Ok (us, gs), demo_people) ∧ us ≡ₚ [demo_ada] ∧ gs ≡ₚ [demo_developers].
Proof.
  destruct (search_by_index "ada" demo_people) as (us & gs & us' & gs' & Hi & Ha & Hp & _); [simpl; lia|].
  destruct Hp as [Hus Hgs]; [simpl; lia|]. exists us, gs. split; [exact Hi|].
  assert (listAllUsersAndGroups "ada" demo_people = (Ok ([demo_ada], [demo_developers]), demo_people)) as Ha'
    by (vm_compute; reflexivity).
  rewrite Ha in Ha'. injection Ha' as -> ->. split; [exact Hus|exact Hgs].
Defined.

End LocalAuth.
