(* ===== verification/Login.v ===== *)
(** * Logins

    [pkg/auth/providers/providers.go] and [pkg/auth/providers/publicapi/login.go]: the table of
    authentication providers and the action that logs a user in.  A provider is a record
    of operations; the local one is that of the library, the others, which ask GitHub,
    Azure AD or Active Directory, are an argument.  So are the JSON decoder and the
    conversion of a token to the fields of the API. *)

From stdpp Require Import base gmap list strings.
From Stdlib Require Import Ascii ZArith Lia.
From S2P Require Import Prelude.
From S2P Require Import GoLib.
From S2P Require Import GoEncoding.
From S2P Require Import KubeTypes.
From S2P Require Import KubeObjects.
From S2P Require Import Kube.
From S2P Require Import KubeRules.
From S2P Require Import KubeSim.
From S2P Require Import Tokens.
From S2P Require Import TokenAuth.
From S2P Require Import UserManager.
From S2P Require Import LocalAuth.
Import Tokens TokenAuth UserManagers LocalAuth.

Open Scope nat_scope.

Module Login.

(** [common.AuthProvider] *)
Record AuthProvider (W : Type) := {
  provider_AuthenticateUser : login_input → M W login_result;
  provider_SearchPrincipals : string → string → Token → M W (list Principal);
  provider_GetPrincipal : string → Token → M W Principal }.
Arguments provider_AuthenticateUser {W} _ _.
Arguments provider_SearchPrincipals {W} _ _ _ _.
Arguments provider_GetPrincipal {W} _ _ _.

(** [v3public.GenericLogin] *)
Record GenericLogin := {
  gl_TTLMillis : Z;
  gl_Description : string;
  gl_ResponseType : string }.

(** What a login answers with: a cookie for all paths, to be sent over TLS and hidden from
    scripts, or the fields of the token. *)
Inductive login_response (V : Type) :=
| LoginCookie (name value : string)
| LoginToken (status : Z) (tokenData : gmap string V).
Arguments LoginCookie {V} name value.
Arguments LoginToken {V} status tokenData.

Section login.
Context {W : Type} `{!GoRuntime W, !Random W}.
Context `{!Client W User, !Client W Group, !Client W GroupMember, !Client W AuthConfig, !Client W Token}.
Context `{!Client W ClusterRoleTemplateBinding, !Client W ProjectRoleTemplateBinding, !Client W GlobalRoleBinding}.
Variable CompareHashAndPassword : string → string → bool.
(** the providers other than the local one, by name *)
Variable external : string → option (AuthProvider W).
(** [json.Unmarshal] into the structures of a login *)
Variables (unmarshal_generic : string → goerr + GenericLogin) (unmarshal_basic : string → goerr + (string * string)).
Variable unmarshal_other : string → string → goerr + gmap string string.
Context {V : Type} (str : string → V) (ConvertTokenResource : Token → outcome (gmap string V)).

(** ** The table of providers *)

Definition localProvider : AuthProvider W :=
  {| provider_AuthenticateUser := AuthenticateUser CompareHashAndPassword;
     provider_SearchPrincipals := SearchPrincipals;
     provider_GetPrincipal := GetPrincipal |}.

Definition providers (name : string) : option (AuthProvider W) :=
  if String.eqb name "local" then Some localProvider else external name.

(** A method of a provider that is not in the table is a call through a nil interface. *)
Definition provider_call {A} (name : string) (f : AuthProvider W → M W A) : M W A :=
  match providers name with None => panic | Some p => f p end.

Definition AuthenticateUser (input : login_input) (providerName : string) : M W login_result :=
  provider_call providerName (λ p, provider_AuthenticateUser p input).

Definition GetPrincipal (principalID : string) (myToken : Token) : M W Principal :=
  let* r := attempt (provider_call (token_AuthProvider myToken) (λ p, provider_GetPrincipal p principalID myToken)) in
  match r with
  | inr principal => ret principal
  | inl e =>
    if String.eqb (token_AuthProvider myToken) "local" then throw e else
    let* r2 := attempt (provider_GetPrincipal localProvider principalID myToken) in
    match r2 with inr p2 => ret p2 | inl _ => throw e end
  end.

Definition SearchPrincipals (name principalType : string) (myToken : Token) : M W (list Principal) :=
  let* principals := provider_call (token_AuthProvider myToken)
                       (λ p, provider_SearchPrincipals p name principalType myToken) in
  if String.eqb (token_AuthProvider myToken) "local" then ret principals else
  let* localPrincipals := SearchPrincipalsDedupe name principalType myToken principals in
  ret (principals ++ localPrincipals).

(** ** The action *)

Definition createLoginToken (type : string) (body : goerr + string) : M W (login_failure + (Token * string)) :=
  let invalid : login_failure := (422%Z, PlainError "InvalidBodyContent") in
  match body with
  | inl _ => ret (inl invalid)
  | inr bytes =>
    match unmarshal_generic bytes with
    | inl _ => ret (inl invalid)
    | inr generic =>
      let basic := match unmarshal_basic bytes with
                   | inl e => inl e | inr (n, p) => inr (BasicLogin n p) end in
      let other name := match unmarshal_other name bytes with inl e => inl e | inr m => inr (OtherLogin m) end in
      let chosen :=
        if String.eqb type "localProvider" then Some ("local", basic)
        else if String.eqb type "githubProvider" then Some ("github", other "github")
        else if String.eqb type "activeDirectoryProvider" then Some ("activedirectory", basic)
        else if String.eqb type "azureADProvider" then Some ("azuread", other "azuread")
        else None in
      match chosen with
      | None => ret (inl (500%Z, PlainError "unknown authentication provider"))
      | Some (_, inl _) => ret (inl invalid)
      | Some (providerName, inr input) =>
        let* r := AuthenticateUser input providerName in
        match r with
        | inl e => ret (inl e)
        | inr (userPrincipal, groupPrincipals, providerInfo) =>
          let displayName := if String.eqb (p_DisplayName userPrincipal) "" then p_LoginName userPrincipal
                             else p_DisplayName userPrincipal in
          let* r := attempt (EnsureUser (p_Name userPrincipal) displayName) in
          match r with
          | inl e => ret (inl (0%Z, e))
          | inr user =>
            let* r := attempt (NewLoginToken (Name (user_meta user)) userPrincipal groupPrincipals providerInfo
                                 (gl_TTLMillis generic) (gl_Description generic)) in
            ret (match r with inl e => inl (0%Z, e) | inr rToken => inr (rToken, gl_ResponseType generic) end)
          end
        end
      end
    end
  end.

(** Errors that are not of the API are hidden behind a general one. *)
Definition login (actionName type : string) (body : goerr + string) : M W (login_failure + login_response V) :=
  if negb (String.eqb actionName "login") then ret (inl (404%Z, PlainError "ActionNotAvailable")) else
  let* r := createLoginToken type body in
  match r with
  | inl (status, e) =>
    ret (inl (if (status =? 0)%Z then (500%Z, Wrapped "Server error while authenticating" e) else (status, e)))
  | inr (token, responseType) =>
    let value := Name (token_meta token) +:+ ":" +:+ token_Token token in
    if String.eqb responseType "cookie" then ret (inr (LoginCookie CookieName value)) else
    let* r := attempt (reads (λ _, ConvertTokenResource token)) in
    ret (match r with
         | inl e => inl (500%Z, Wrapped "Server error while authenticating" e)
         | inr tokenData => inr (LoginToken 201%Z (<["token" := str value]> tokenData))
         end)
  end.

End login.

Section laws.
Context {W : Type} `{!GoRuntime W, !Float64, !Random W, !Kube W, !RandomLaws W}.
Context `{!Client W User, !ClientLaws W User, !Client W Group, !ClientLaws W Group}.
Context `{!Client W GroupMember, !ClientLaws W GroupMember, !Client W AuthConfig, !ClientLaws W AuthConfig}.
Context `{!Client W ClusterRoleTemplateBinding, !ClientLaws W ClusterRoleTemplateBinding}.
Context `{!Client W ProjectRoleTemplateBinding, !ClientLaws W ProjectRoleTemplateBinding}.
Context `{!Client W GlobalRoleBinding, !ClientLaws W GlobalRoleBinding}.
Context `{!Client W Token, !ClientLaws W Token}.
Variable CompareHashAndPassword : string → string → bool.
Variable external : string → option (AuthProvider W).
Variables (unmarshal_generic : string → goerr + GenericLogin) (unmarshal_basic : string → goerr + (string * string)).
Variable unmarshal_other : string → string → goerr + gmap string string.
Context {V : Type} (str : string → V) (ConvertTokenResource : Token → outcome (gmap string V)).
Implicit Types (w : W).

(** A principal that one user has leads to that user. *)
Lemma EnsureUser_holder p d u w r w' :
  holder p w u → EnsureUser p d w = (Ok r, w') → r = u ∧ w' = w.
Proof.
  intros Hu. unfold EnsureUser, bind at 1. destruct (checkCache_run p w) as (c & -> & Hc).
  destruct c as [[u'|]|e| |]; try done; [|by destruct (Hc u)].
  intros [= -> ->]. destruct Hc as [_ Hc]. by rewrite (Hc u).
Qed.

(** The answer hands out the token [t]. *)
Definition hands_out (resp : login_response V) (t : Token) : Prop :=
  let value := Name (token_meta t) +:+ ":" +:+ token_Token t in
  resp = LoginCookie CookieName value ∨ ∃ data, resp = LoginToken 201%Z (<["token" := str value]> data).

Notation login := (login CompareHashAndPassword external unmarshal_generic unmarshal_basic unmarshal_other
                     str ConvertTokenResource).

Notation createLoginToken := (createLoginToken CompareHashAndPassword external unmarshal_generic unmarshal_basic
                                unmarshal_other).

(** The new token [t], the only change between the worlds, is for the user [u] and the groups [gs] and good
    for requests. *)
Definition session_of w w' (u : User) (gs : list Principal) (t : Token) : Prop :=
  view w' = put_obj t (view w) ∧ s_Tokens (view w) !! ("", Name (token_meta t)) = None ∧
  s_Tokens (view w') !! ("", Name (token_meta t)) = Some t ∧
  token_UserID t = Name (user_meta u) ∧ token_GroupPrincipals t = gs ∧ good_for_requests t.

(** The token is for the user that is found, or made, for the local principal of [u]; it is [u] where [u] has
    such a principal. *)
Definition logged_in w w' (u : User) (gs : list Principal) (t : Token) : Prop := ∃ display user w1,
  EnsureUser (getLocalPrincipalID u) display w = (Ok user, w1) ∧ session_of w1 w' user gs t ∧
  (getLocalPrincipalID u ≠ "" → user = u ∧ w1 = w).

Lemma createLoginToken_local body w t rt w' :
  createLoginToken "localProvider" body w = (Ok (inr (t, rt)), w') →
  ∃ bytes n pwd u gs, body = inr bytes ∧ unmarshal_basic bytes = inr (n, pwd) ∧
    opens CompareHashAndPassword w n pwd u ∧ let_in w u gs ∧
    (∀ q, q ∈ gs ↔ ∃ g, in_group w u g ∧ q = group_principal g) ∧ logged_in w w' u gs t.
Proof.
  destruct body as [e|bytes]; [done|]. unfold Login.createLoginToken. destruct (unmarshal_generic bytes) as [e|generic]; [done|].
  cbn [String.eqb Ascii.eqb Bool.eqb]. destruct (unmarshal_basic bytes) as [e|[n pwd]] eqn:Hb; [done|]. cbv zeta iota beta.
  unfold AuthenticateUser, provider_call. cbn [providers String.eqb Ascii.eqb Bool.eqb localProvider provider_AuthenticateUser].
  destruct (AuthenticateUser_exact CompareHashAndPassword n pwd w) as (r & Hr & Hpost). unfold bind at 1. rewrite Hr.
  destruct r as [e|[[p gs] info]]; [done|]. destruct Hpost as (u & Hu & Hlet & -> & -> & Hgs).
  unfold bind at 1, attempt at 1. destruct (EnsureUser _ _ w) as [[user|e| |] w1] eqn:He; try done.
  unfold bind at 1, attempt at 1. destruct (NewLoginToken _ _ _ _ _ _ w1) as [[t'|e| |] w2] eqn:Ht; try done.
  intros [= -> <- ->]. exists bytes, n, pwd, u, gs. split_and!; [done..|].
  apply NewLoginToken_stored in Ht as (Hv & Hno & Hin & Hid & Hg & _ & Hgood).
  eexists _, user, w1. split; [exact He|]. split; [by split_and!|]. intros Hp.
  destruct (getLocalPrincipalID_elem u) as [|[Hpin _]]; [done|].
  apply (EnsureUser_holder _ _ u) in He; [done|]. split; [by apply Hu|exact Hpin].
Qed.

(** C8: a login with a password gives a session: if the action of the local
    provider succeeds, its body held the name and the password of the one user of that name,
    whom the other providers that are enabled let in; it adds one token, with exactly the groups of
    that user, for the user that the user manager finds or makes for its local principal.  That is the user itself,
    and nothing else is added, where it has a local principal; without one it is a user for the empty
    principal.  A request with the value that is handed out is taken for the user of the token as long as the token is
    on the server and has not expired, no other cached token has the same key, its name has no colon and
    the server answers. *)
Theorem password_login body w resp w' :
  login "login" "localProvider" body w = (Ok (inr resp), w') →
  ∃ bytes n pwd u gs t, body = inr bytes ∧ unmarshal_basic bytes = inr (n, pwd) ∧
    opens CompareHashAndPassword w n pwd u ∧ let_in w u gs ∧
    (∀ q, q ∈ gs ↔ ∃ g, in_group w u g ∧ q = group_principal g) ∧
    hands_out resp t ∧ logged_in w w' u gs t.
Proof.
  unfold Login.login, bind at 1. cbn [String.eqb Ascii.eqb Bool.eqb negb].
  destruct (createLoginToken "localProvider" body w) as [[[[st e]|[t rt]]|e| |] w1] eqn:Hc; try done.
  apply createLoginToken_local in Hc as (bytes & n & pwd & u & gs & Hb & Hn & Hu & Hlet & Hgs & Hs). intros Hl.
  exists bytes, n, pwd, u, gs, t. destruct (String.eqb rt "cookie").
  - injection Hl as <- <-. split_and!; [done..|by left|done].
  - unfold bind, attempt, reads in Hl. destruct (ConvertTokenResource t) as [data|e| |]; try done.
    injection Hl as <- <-. split_and!; [done..|right; by eexists|done].
Qed.

End laws.

(** ** An example *)

Definition demo_compare (hash pwd : string) : bool := String.eqb hash ("hash of " +:+ pwd).

Definition demo_generic (body : string) : goerr + GenericLogin :=
  inr {| gl_TTLMillis := 0; gl_Description := "laptop"; gl_ResponseType := "cookie" |}.
Definition demo_basic (body : string) : goerr + (string * string) := inr ("ada", body).

Notation demo_action :=
  (login (W:=Sim) (V:=string) demo_compare (λ _, None) demo_generic demo_basic (λ _ _, inr ∅) (λ s, s) (λ _, Ok ∅)
     "login" "localProvider" (inr "secret")).

Lemma password_login_witness :
  ∃ value w' t, demo_action demo_people = (Ok (inr (LoginCookie CookieName value)), w') ∧
    value = Name (token_meta t) +:+ ":" +:+ token_Token t ∧ token_UserID t = "u-ada" ∧
    s_Tokens (view w') !! obj_key t = Some t.
Proof.
  assert (∃ value w', demo_action demo_people = (Ok (inr (LoginCookie CookieName value)), w'))
    as (value & w' & Hrun) by (do 2 eexists; vm_compute; reflexivity).
  destruct (password_login demo_compare (λ _, None) demo_generic demo_basic (λ _ _, inr ∅) (λ s, s) (λ _, Ok ∅)
    (inr "secret") demo_people (LoginCookie CookieName value) w' Hrun)
    as (bytes & n & pwd & u & gs & t & _ & _ & [Hu _] & _ & _ & Hout & display & user & w1 & _ & Hs & Hself).
  assert (map_Forall (λ _ u, getLocalPrincipalID u ≠ "" ∧ Name (user_meta u) = "u-ada") (s_Users (cached demo_people))) as Hall
    by (refine (bool_decide_unpack _ _); vm_compute; exact I).
  destruct (proj2 (Hu u) eq_refl) as [Hin _]. destruct (Hall _ _ Hin) as [Hp Hname].
  destruct (Hself Hp) as [-> ->]. destruct Hs as (Hv & _ & _ & Hid & _). exists value, w', t.
  assert (value = Name (token_meta t) +:+ ":" +:+ token_Token t) as Hval.
  { unfold hands_out in Hout. destruct Hout as [Hout|(data & Hout)]; [|discriminate Hout]. by injection Hout. }
  clear Hself Hall Hu Hin Hout.
  split; [exact Hrun|]. split; [exact Hval|].
  split; [by rewrite Hid|]. rewrite Hv. generalize (view demo_people). intros s. exact (tbl_put_eq (O:=Token) t s).
Defined.

End Login.
