(* ===== verification/SecretSync.v ===== *)
(** * Secrets of projects

    [pkg/controllers/user/secret]: the secrets of a project are kept in the namespace of the
    project in the management cluster and copied to every namespace of the project in the
    user cluster. *)

From stdpp Require Import base gmap list strings.
From S2P Require Import Prelude.
From S2P Require Import GoLib.
From S2P Require Import KubeTypes.
From S2P Require Import KubeObjects.
From S2P Require Import Kube.
From S2P Require Import KubeRules.
From S2P Require Import KubeSim.

Module SecretSync.

Notation projectIDLabel := "field.cattle.io/projectId" (only parsing).
Notation projectNamespaceAnnotation := "management.cattle.io/system-namespace" (only parsing).
Notation userSecretAnnotation := "secret.user.cattle.io/secret" (only parsing).

Inductive secret_action := CreateAction | UpdateAction.

(** The entries of [src] are assigned to [dst]. *)
Definition copyMap (src dst : gmap string string) : gmap string string := src ∪ dst.

Definition getNamespacedSecret (obj : ManagementSecret) (namespace : string) : Secret :=
  {| sec_meta := {| Name := Name (msec_meta obj); GenerateName := ""; Namespace := namespace; UID := "";
                    ResourceVersion := ""; Labels := ∅;
                    Annotations := <[userSecretAnnotation := "true"]> (copyMap (Annotations (msec_meta obj)) ∅);
                    OwnerReferences := []; CreationTimestamp := 0; DeletionTimestamp := None |};
     sec_Kind := msec_Kind obj; sec_Data := msec_Data obj; sec_StringData := msec_StringData obj;
     sec_Type := msec_Type obj |}.

(** The annotation of a namespace names a project of any cluster with the name [projectID]. *)
Definition of_project (projectID : string) (namespace : NamespaceObject) : bool :=
  match Split (default "" (Annotations (ns_meta namespace) !! projectIDLabel)) ":" with
  | [_; p] => String.eqb p projectID
  | _ => false
  end.

Section handlers.
Context {W : Type} `{!Client W Secret, !Client W ManagementSecret, !Client W NamespaceObject}.
Context `{!Client W ManagementNamespace, !Client W Project}.
Variable clusterName : string.

Definition create_copy (namespacedSecret : Secret) : M W unit :=
  let* r := attempt (api_create "" namespacedSecret) in
  match r with
  | inl e => if IsAlreadyExists e then ret tt else throw e
  | inr _ => ret tt
  end.

Definition project_secrets_sync (obj : option NamespaceObject) : M W unit :=
  match obj with
  | None => ret tt
  | Some obj =>
    if bool_decide (is_Some (DeletionTimestamp (ns_meta obj))) then ret tt else
    let id := default "" (Annotations (ns_meta obj) !! projectIDLabel) in
    if String.eqb id "" then ret tt else
    match Split id ":" with
    | [_; project] =>
      let* secrets := reads (lister_List project Everything) in
      for_each (λ secret, create_copy (getNamespacedSecret secret (Name (ns_meta obj)))) secrets
    | _ => ret tt
    end
  end.

Definition getClusterNamespaces (obj : ManagementSecret) : M W (list NamespaceObject) :=
  let* r := attempt (reads (lister_Get (O:=ManagementNamespace) "" (Namespace (msec_meta obj)))) in
  match r with
  | inl e => if IsNotFound e then ret [] else throw e
  | inr projectNamespace =>
    if negb (String.eqb (default "" (Annotations (mns_meta projectNamespace) !! projectNamespaceAnnotation)) "true")
    then ret [] else
    let* r := attempt (reads (lister_Get (O:=Project) clusterName (Name (mns_meta projectNamespace)))) in
    match r with
    | inl e => if IsNotFound e then ret [] else throw e
    | inr _ =>
      let* namespaces := reads (lister_List "" Everything) in
      ret (List.filter (of_project (Namespace (msec_meta obj))) namespaces)
    end
  end.

Definition update_copy (namespacedSecret : Secret) : M W unit :=
  let* r := attempt (api_update "" namespacedSecret) in
  match r with
  | inr _ => ret tt
  | inl e => if IsNotFound e then do* api_create "" namespacedSecret in ret tt else throw e
  end.

Definition createOrUpdate (obj : ManagementSecret) (action : secret_action) : M W unit :=
  let id := default "" (Annotations (msec_meta obj) !! projectIDLabel) in
  let other := match Split id ":" with
               | [c; _] => negb (String.eqb id "") && negb (String.eqb c clusterName)
               | _ => false
               end in
  if other then ret tt else
  let* clusterNamespaces := getClusterNamespaces obj in
  for_each (λ namespace,
    let namespacedSecret := getNamespacedSecret obj (Name (ns_meta namespace)) in
    match action with
    | CreateAction => create_copy namespacedSecret
    | UpdateAction => update_copy namespacedSecret
    end) clusterNamespaces.

Definition secret_Create (obj : ManagementSecret) : M W unit := createOrUpdate obj CreateAction.
Definition secret_Updated (obj : ManagementSecret) : M W unit := createOrUpdate obj UpdateAction.

Definition secret_Remove (obj : ManagementSecret) : M W unit :=
  let* clusterNamespaces := getClusterNamespaces obj in
  for_each (λ namespace,
    let* r := attempt (api_delete (O:=Secret) (Name (ns_meta namespace)) (Name (msec_meta obj))) in
    match r with
    | inl e => if IsNotFound e then ret tt else throw e
    | inr _ => ret tt
    end) clusterNamespaces.

End handlers.

Section laws.
Context {W : Type} `{!Kube W, !Client W Secret, !ClientLaws W Secret, !ClientHealthy W Secret, !StrictClient W Secret}.
Context `{!Client W ManagementSecret, !ClientLaws W ManagementSecret, !Client W NamespaceObject, !ClientLaws W NamespaceObject}.
Context `{!Client W ManagementNamespace, !ClientLaws W ManagementNamespace, !Client W Project, !ClientLaws W Project}.
Variable clusterName : string.
Implicit Types (w : W) (obj : ManagementSecret).

(** The namespace of the secret belongs to a project of this cluster. *)
Definition project_here w obj : Prop :=
  ∃ mns, t_ManagementNamespaces (s_Tables (cached w)) !! ("", Namespace (msec_meta obj)) = Some mns ∧
    Annotations (mns_meta mns) !! projectNamespaceAnnotation = Some "true" ∧
    is_Some (s_Projects (cached w) !! (clusterName, Namespace (msec_meta obj))).

(** Where the copies of the secret belong. *)
Definition target w obj (ns : string) : Prop :=
  project_here w obj ∧ ∃ n, s_Namespaces (cached w) !! obj_key n = Some n ∧
    of_project (Namespace (msec_meta obj)) n = true ∧ Name (ns_meta n) = ns.

Lemma getClusterNamespaces_run obj w :
  ∃ l, getClusterNamespaces clusterName obj w = (Ok l, w) ∧ ∀ ns, ns ∈ (λ n, Name (ns_meta n)) <$> l ↔ target w obj ns.
Proof.
  unfold getClusterNamespaces, bind at 1, attempt at 1, reads at 1. unfold target.
  pose proof (lister_get_law (O:=ManagementNamespace) "" (Namespace (msec_meta obj)) w) as Hm.
  change (tbl (O:=ManagementNamespace) ?s) with (t_ManagementNamespaces (s_Tables s)) in Hm.
  destruct (t_ManagementNamespaces (s_Tables (cached w)) !! _) as [mns|] eqn:Hmns; last first.
  { destruct Hm as (e & -> & ->). exists []. split; [done|]. intros ns. unfold project_here. rewrite Hmns.
    split; [by intros ?%elem_of_nil|naive_solver]. }
  rewrite Hm. cbv iota beta.
  assert (Name (mns_meta mns) = Namespace (msec_meta obj)) as Hname.
  { pose proof (cached_keyed (O:=ManagementNamespace) w _ _ Hmns) as Hk. unfold obj_key in Hk. by injection Hk. }
  destruct (String.eqb_spec (default "" (Annotations (mns_meta mns) !! projectNamespaceAnnotation)) "true") as [Ha|Ha];
    cbn [negb]; last first.
  { exists []. split; [done|]. intros ns. split; [by intros ?%elem_of_nil|].
    intros [(mns' & ? & Hx & _) _]. simplify_eq. by rewrite Hx in Ha. }
  rewrite Hname. unfold bind at 1, attempt, reads at 1.
  pose proof (lister_get_law (O:=Project) clusterName (Namespace (msec_meta obj)) w) as Hp.
  change (tbl (O:=Project) ?s) with (s_Projects s) in Hp.
  destruct (s_Projects (cached w) !! _) as [p|] eqn:Hpr; last first.
  { destruct Hp as (e & -> & ->). exists []. split; [done|]. intros ns. unfold project_here. rewrite Hpr.
    split; [by intros ?%elem_of_nil|]. intros [(? & _ & _ & [? ?]) _]. done. }
  rewrite Hp. cbv iota beta. unfold bind, reads.
  destruct (lister_list_law (O:=NamespaceObject) "" Everything w) as (l & Hl & _). rewrite Hl. eexists. split; [done|].
  intros ns. rewrite list_elem_of_fmap. split.
  - intros (n & -> & [Hin Hof]%list_elem_of_In%filter_In). apply list_elem_of_In, (elem_of_lister _ _ _ _ _ Hl) in Hin as [Hin _].
    split; [|by exists n]. exists mns. split_and!; [done| |by eexists].
    destruct (Annotations (mns_meta mns) !! projectNamespaceAnnotation); simpl in Ha; congruence.
  - intros [_ (n & Hn & Hof & <-)]. exists n. split; [done|]. apply list_elem_of_In, filter_In. split; [|done].
    apply list_elem_of_In, (elem_of_lister _ _ _ _ _ Hl). split_and!; [exact Hn|by left|apply map_empty_subseteq].
Qed.

(** A loop that settles one secret after the other: each step starts from [G] and leaves [P]. *)
Lemma wp_settle {A} (key : A → nsname) (G P : A → option Secret → Prop) (f : A → M W unit) l w :
  (∀ a x, P a x → G a x) → (∀ a b x, a ∈ l → b ∈ l → key a = key b → P a x → P b x) →
  (∀ a, a ∈ l → G a (tbl (view w) !! key a)) →
  (∀ a w, a ∈ l → G a (tbl (view w) !! key a) →
     wp (f a) (returns (λ _ w', changed_at (O:=Secret) [key a] (view w) (view w') ∧ P a (tbl (view w') !! key a))) w) →
  wp (for_each f l) (returns (λ _ w', changed_at (O:=Secret) (key <$> l) (view w) (view w') ∧
    ∀ a, a ∈ l → P a (tbl (view w') !! key a))) w.
Proof.
  intros HPG Hkey Hstart Hstep. apply (wp_for_each_returns (λ don w', changed_at (O:=Secret) (key <$> don) (view w) (view w') ∧
    ∀ a, a ∈ don → P a (tbl (view w') !! key a))).
  { split; [apply changed_at_refl|by intros a ?%elem_of_nil]. }
  intros don a rest w' -> [Hch Hd].
  assert (a ∈ don ++ a :: rest) as Ha by (apply elem_of_app; right; by left).
  eapply wp_mono; [apply Hstep; [done|]|].
  - destruct (decide (key a ∈ key <$> don)) as [(b & Hb & Hin)%list_elem_of_fmap|Hno].
    + apply HPG. rewrite Hb. apply (Hkey b); [apply elem_of_app; by left|done..|]. by apply Hd.
    + destruct Hch as [_ ->]; [|done]. by apply Hstart.
  - intros [[]|e| |] w''; try done. intros [Hch' HP]. split.
    + rewrite fmap_app. eapply changed_at_trans.
      * eapply changed_at_mono; [|done]. intros k Hk. apply elem_of_app. by left.
      * eapply changed_at_mono; [|done]. intros k ->%list_elem_of_singleton. apply elem_of_app. right. by left.
    + intros b [Hb| ->%list_elem_of_singleton]%elem_of_app; [|done].
      destruct (decide (key b = key a)) as [E|E]; [rewrite E; apply (Hkey a); [done|apply elem_of_app; by left|done..]|].
      destruct Hch' as [_ ->]; [by apply Hd|]. by intros ?%list_elem_of_singleton.
Qed.

(** What the server holds for the copy of a secret in a namespace. *)
Definition copied obj (ns : string) (x : option Secret) : Prop :=
  ∃ o', x = Some o' ∧ stored_as "" (getNamespacedSecret obj ns) o'.

Lemma copy_key obj ns : ns ≠ "" → write_key "" (getNamespacedSecret obj ns) = (ns, Name (msec_meta obj)).
Proof. intros Hns. unfold write_key, client_ns. simpl. by case_decide. Qed.

Lemma put_copy obj ns o' s :
  ns ≠ "" → Name (msec_meta obj) ≠ "" → stored_as "" (getNamespacedSecret obj ns) o' →
  changed_at (O:=Secret) [(ns, Name (msec_meta obj))] s (put_obj o' s) ∧ copied obj ns (tbl (put_obj o' s) !! (ns, Name (msec_meta obj))).
Proof.
  intros Hns Hn Hst. assert (obj_key o' = (ns, Name (msec_meta obj))) as Hk.
  { rewrite <-(copy_key obj ns Hns). by apply stored_as_key. }
  rewrite <-Hk. split; [apply changed_at_put; by left|]. exists o'. by rewrite tbl_put_eq.
Qed.

(** A secret of another type cannot be turned into the copy. *)
Definition replaceable obj (x : option Secret) : Prop :=
  ∀ o0, x = Some o0 → secret_type (sec_Type o0) = secret_type (msec_Type obj).

Lemma copied_replaceable obj ns x : copied obj ns x → replaceable obj x.
Proof. intros (o' & -> & Hst) o0 [= <-]. destruct Hst as (_ & _ & _ & _ & _ & _ & _ & Ht). by rewrite <-Ht. Qed.

Lemma wp_update_copy obj ns w :
  ns ≠ "" → Name (msec_meta obj) ≠ "" → replaceable obj (tbl (view w) !! (ns, Name (msec_meta obj))) →
  wp (update_copy (getNamespacedSecret obj ns)) (returns (λ _ w',
    changed_at (O:=Secret) [(ns, Name (msec_meta obj))] (view w) (view w') ∧
    copied obj ns (tbl (view w') !! (ns, Name (msec_meta obj))))) w.
Proof.
  intros Hns Hn Hr. unfold update_copy. apply wp_bind, wp_attempt.
  destruct (tbl (view w) !! (ns, Name (msec_meta obj))) as [o0|] eqn:Ho.
  - apply wp_update_any; [done..| |].
    + exists o0. rewrite copy_key by done. split; [exact Ho|]. apply bool_decide_eq_true. simpl. symmetry. by apply Hr.
    + intros o' w1 Hst _ Hv _. apply wp_ret. simpl. rewrite Hv. by apply put_copy.
  - destruct (update_absent (O:=Secret) "" (getNamespacedSecret obj ns) w) as (e & w1 & Hrun & He); [done|by rewrite copy_key|].
    pose proof (update_law (O:=Secret) "" (getNamespacedSecret obj ns) w) as Hlaw. rewrite Hrun in Hlaw. destruct Hlaw as [Hv1 _].
    eapply wp_unfold; [exact Hrun|]. simpl. rewrite He. apply wp_bind, wp_create.
    + intros o' w2 Hst _ Hv2 _. apply wp_ret. simpl. rewrite Hv2, Hv1. by apply put_copy.
    + intros e' w2 _ _ Hno. exfalso. apply Hno; [done| |done]. intros _. rewrite copy_key, Hv1 by done. exact Ho.
Qed.

(** The first request for a copy keeps a secret that has its name. *)
Definition kept_or_copied obj (ns : string) (x0 x : option Secret) : Prop :=
  match x0 with Some _ => x = x0 | None => copied obj ns x end.

Lemma wp_create_copy obj ns x0 w :
  ns ≠ "" → Name (msec_meta obj) ≠ "" →
  (tbl (view w) !! (ns, Name (msec_meta obj)) = x0 ∨ kept_or_copied obj ns x0 (tbl (view w) !! (ns, Name (msec_meta obj)))) →
  wp (create_copy (getNamespacedSecret obj ns)) (returns (λ _ w',
    changed_at (O:=Secret) [(ns, Name (msec_meta obj))] (view w) (view w') ∧
    kept_or_copied obj ns x0 (tbl (view w') !! (ns, Name (msec_meta obj))))) w.
Proof.
  intros Hns Hn Hx. unfold create_copy. apply wp_bind, wp_attempt.
  destruct (tbl (view w) !! (ns, Name (msec_meta obj))) as [o0|] eqn:Ho.
  - destruct (create_taken (O:=Secret) "" (getNamespacedSecret obj ns) w) as (e & w1 & Hrun & He); [done|by rewrite copy_key, Ho|].
    pose proof (create_law (O:=Secret) "" (getNamespacedSecret obj ns) w) as Hlaw. rewrite Hrun in Hlaw. destruct Hlaw as [Hv1 _].
    eapply wp_unfold; [exact Hrun|]. simpl. rewrite He. apply wp_ret. simpl. rewrite Hv1. split; [apply changed_at_refl|].
    change (t_Secrets (s_Tables (view w)) !! (ns, Name (msec_meta obj)) = Some o0) in Ho. rewrite Ho.
    destruct Hx as [<-|Hx]; [done|]. done.
  - apply wp_create.
    + intros o' w1 Hst _ Hv _. apply wp_ret. simpl. rewrite Hv. destruct (put_copy obj ns o' (view w)) as [? Hc]; [done..|].
      split; [done|]. unfold kept_or_copied. destruct x0; [|done]. destruct Hx as [?|Hx]; [done|]. by unfold kept_or_copied in Hx.
    + intros e w1 _ _ Hno. exfalso. apply Hno; [done| |done]. intros _. by rewrite copy_key.
Qed.

(** The annotation of the secret names another cluster. *)
Definition elsewhere obj : bool :=
  let id := default "" (Annotations (msec_meta obj) !! projectIDLabel) in
  match Split id ":" with
  | [c; _] => negb (String.eqb id "") && negb (String.eqb c clusterName)
  | _ => false
  end.

(** The secrets of the name of [obj] in the namespaces of its project satisfy [P], others are as before. *)
Definition at_targets w w' obj (P : string → option Secret → Prop) : Prop :=
  (∀ ns, target w obj ns → P ns (tbl (view w') !! (ns, Name (msec_meta obj)))) ∧
  only_tbl (O:=Secret) (view w) (view w') ∧
  (∀ k, ¬ (target w obj k.1 ∧ k.2 = Name (msec_meta obj)) →
     t_Secrets (s_Tables (view w')) !! k = t_Secrets (s_Tables (view w)) !! k).

Lemma wp_targets obj (G P : string → option Secret → Prop) (f : string → M W unit) w :
  (∀ ns x, P ns x → G ns x) → (∀ ns, target w obj ns → G ns (tbl (view w) !! (ns, Name (msec_meta obj)))) →
  (∀ ns w, ns ≠ "" → G ns (tbl (view w) !! (ns, Name (msec_meta obj))) →
     wp (f ns) (returns (λ _ w', changed_at (O:=Secret) [(ns, Name (msec_meta obj))] (view w) (view w') ∧
                                 P ns (tbl (view w') !! (ns, Name (msec_meta obj))))) w) →
  wp (let* l := getClusterNamespaces clusterName obj in for_each (λ n, f (Name (ns_meta n))) l)
    (returns (λ _ w', at_targets w w' obj P)) w.
Proof.
  intros HPG Hstart Hstep. destruct (getClusterNamespaces_run obj w) as (l & Hl & Hin). apply wp_bind.
  eapply wp_unfold; [exact Hl|]. cbn [bind_post].
  assert (∀ n, n ∈ l → target w obj (Name (ns_meta n))) as Htarget by (intros n Hn; apply Hin, list_elem_of_fmap; by exists n).
  eapply wp_mono; [apply (wp_settle (λ n, (Name (ns_meta n), Name (msec_meta obj))) (λ n, G (Name (ns_meta n)))
    (λ n, P (Name (ns_meta n))))|].
  - intros n x. apply HPG.
  - intros a b x _ _ [= Heq]. by rewrite Heq.
  - intros n Hn. by apply Hstart, Htarget.
  - intros n w' Hn HG. apply Hstep; [|done]. destruct (Htarget n Hn) as [_ (n' & Hn' & _ & <-)].
    exact (cached_named (O:=NamespaceObject) w _ (mk_is_Some _ _ Hn')).
  - intros [[]|e| |] w'; try done. intros [[Hot Hch] HP]. split_and!; [|done|].
    + intros ns (n & -> & Hn)%Hin%list_elem_of_fmap. by apply HP.
    + intros k Hk. apply Hch. intros (n & -> & Hn)%list_elem_of_fmap. apply Hk. split; [|done]. by apply Htarget.
Qed.

(** C22: the copies of a secret follow it.  For a secret of a project of this cluster, the handler of a new secret
    leaves a secret of its name in every namespace of the project, that of an update leaves
    the copy there, also over a secret that was none, and that of a removal leaves nothing of
    the name there, whatever it was; other namespaces and other objects are not touched. *)
Theorem secret_copies obj w :
  Name (msec_meta obj) ≠ "" → elsewhere obj = false →
  (∀ ns, target w obj ns → replaceable obj (tbl (view w) !! (ns, Name (msec_meta obj)))) →
  wp (secret_Create clusterName obj) (returns (λ _ w', at_targets w w' obj (λ ns,
    kept_or_copied obj ns (tbl (view w) !! (ns, Name (msec_meta obj)))))) w ∧
  wp (secret_Updated clusterName obj) (returns (λ _ w', at_targets w w' obj (copied obj))) w ∧
  wp (secret_Remove clusterName obj) (returns (λ _ w', at_targets w w' obj (λ _ x, x = None))) w.
Proof.
  intros Hn He Hr. unfold elsewhere in He. unfold secret_Create, secret_Updated, createOrUpdate. rewrite He. split_and!.
  - set (x0 ns := tbl (O:=Secret) (view w) !! (ns, Name (msec_meta obj))).
    apply (wp_targets obj (λ ns x, x = x0 ns ∨ kept_or_copied obj ns (x0 ns) x) _ (λ ns, create_copy (getNamespacedSecret obj ns)));
      [by right|by left|]. intros ns w' Hns HG. by apply wp_create_copy.
  - apply (wp_targets obj (λ _, replaceable obj) _ (λ ns, update_copy (getNamespacedSecret obj ns)));
      [apply copied_replaceable|done|]. intros ns w' Hns HG. by apply wp_update_copy.
  - apply (wp_targets obj (λ _ _, True) (λ _ x, x = None) (λ ns, let* r := attempt (api_delete (O:=Secret) ns (Name (msec_meta obj))) in
      match r with inl e => if IsNotFound e then ret tt else throw e | inr _ => ret tt end)); [done..|].
    intros ns w' Hns _. apply wp_bind, wp_attempt, wp_delete.
    + intros w1 _ Hv _. apply wp_ret. simpl. rewrite Hv. split; [apply changed_at_del; by left|].
      exact (eq_trans (f_equal (lookup _) (tbl_del (O:=Secret) _ (view w'))) (lookup_delete_eq _ _)).
    + intros e w1 Hnf Hv _ Hh _. simpl. rewrite (Hh _). apply wp_ret. simpl. rewrite Hv. split; [apply changed_at_refl|]. by apply Hnf, Hh.
Qed.

(** A namespace that joins a project gets the secrets of the project: after a sync there is a secret of the
    name of each of them, the one that was there or the copy.  Copies of the secrets of a
    project it has left stay. *)
Theorem project_secrets_sync_copies ns c p w :
  DeletionTimestamp (ns_meta ns) = None → Name (ns_meta ns) ≠ "" →
  Split (default "" (Annotations (ns_meta ns) !! projectIDLabel)) ":" = [c; p] → p ≠ "" →
  wp (project_secrets_sync (Some ns)) (returns (λ _ w',
    (∀ s, t_ManagementSecrets (s_Tables (cached w)) !! obj_key s = Some s → Namespace (msec_meta s) = p →
       kept_or_copied s (Name (ns_meta ns)) (tbl (view w) !! (Name (ns_meta ns), Name (msec_meta s)))
         (tbl (view w') !! (Name (ns_meta ns), Name (msec_meta s)))) ∧
    only_tbl (O:=Secret) (view w) (view w') ∧
    (∀ k o, t_Secrets (s_Tables (view w)) !! k = Some o → t_Secrets (s_Tables (view w')) !! k = Some o))) w.
Proof.
  intros Hdel Hne Hsplit Hp. unfold project_secrets_sync. rewrite Hdel, Hsplit. cbn.
  destruct (String.eqb_spec (default "" (Annotations (ns_meta ns) !! projectIDLabel)) "") as [E|_]; [by rewrite E in Hsplit|].
  destruct (lister_list_law (O:=ManagementSecret) p Everything w) as (l & Hl & _). apply wp_bind, wp_reads. rewrite Hl.
  unfold bind_post. pose proof (λ s, elem_of_lister (O:=ManagementSecret) _ _ _ _ s Hl) as Hin.
  set (key s := (Name (ns_meta ns), Name (msec_meta s))). set (x0 s := tbl (O:=Secret) (view w) !! key s).
  eapply wp_mono; [apply (wp_settle key (λ s x, x = x0 s ∨ kept_or_copied s (Name (ns_meta ns)) (x0 s) x)
    (λ s, kept_or_copied s (Name (ns_meta ns)) (x0 s)))|].
  - by right.
  - intros a b x [Ha [Hnsa _]]%Hin [Hb [Hnsb _]]%Hin [= Heq]. enough (a = b) as -> by done.
    destruct Hnsa as [|Hnsa], Hnsb as [|Hnsb]; try done.
    assert (obj_key a = obj_key b) as Hk by (unfold obj_key; simpl in *; congruence). rewrite Hk in Ha. congruence.
  - by left.
  - intros s w' Hs HG. destruct (proj1 (Hin s) Hs) as [Hc _].
    assert (Name (msec_meta s) ≠ "") by exact (cached_named (O:=ManagementSecret) w _ (mk_is_Some _ _ Hc)).
    by apply wp_create_copy.
  - intros [[]|e| |] w'; try done. intros [[Hot Hch] HP]. split_and!; [|done|].
    + intros s Hs Hns. apply HP, Hin. split_and!; [exact Hs|by right|apply map_empty_subseteq].
    + intros k o Hk. destruct (decide (k ∈ key <$> l)) as [(s & -> & Hs)%list_elem_of_fmap|Hno].
      * specialize (HP s Hs). unfold kept_or_copied, x0 in HP.
        change (t_Secrets (s_Tables (view w)) !! key s) with (tbl (O:=Secret) (view w) !! key s) in Hk. by rewrite Hk in HP.
      * exact (eq_trans (Hch k Hno) Hk).
Qed.

End laws.

(** ** An example *)

(** A project with the namespace "web", which has a secret "db" of its own. *)
Definition demo_db : ManagementSecret :=
  {| msec_meta := {| Name := "db"; GenerateName := ""; Namespace := "p-1"; UID := "u-1"; ResourceVersion := "1";
                     Labels := ∅; Annotations := {[ projectIDLabel := "c-1:p-1" ]}; OwnerReferences := [];
                     CreationTimestamp := 0; DeletionTimestamp := None |};
     msec_Kind := "Secret"; msec_Data := {[ "password" := "x" ]}; msec_StringData := ∅; msec_Type := "Opaque" |}.
Definition demo_own : Secret :=
  {| sec_meta := {| Name := "db"; GenerateName := ""; Namespace := "web"; UID := "u-2"; ResourceVersion := "2";
                    Labels := ∅; Annotations := ∅; OwnerReferences := []; CreationTimestamp := 0; DeletionTimestamp := None |};
     sec_Kind := "Secret"; sec_Data := {[ "mine" := "y" ]}; sec_StringData := ∅; sec_Type := "Opaque" |}.
Definition demo_web : NamespaceObject :=
  {| ns_meta := named_meta "web" ∅ {[ projectIDLabel := "c-1:p-1" ]} []; ns_Phase := "Active" |}.
Definition demo_backing : ManagementNamespace :=
  {| mns_meta := named_meta "p-1" ∅ {[ projectNamespaceAnnotation := "true" ]} []; mns_Phase := "Active" |}.
Definition demo_p1 : Project :=
  {| proj_meta := {| Name := "p-1"; GenerateName := ""; Namespace := "c-1"; UID := "u-3"; ResourceVersion := "3";
                     Labels := ∅; Annotations := ∅; OwnerReferences := []; CreationTimestamp := 0; DeletionTimestamp := None |};
     proj_type := {| Kind := "Project"; APIVersion := "v3" |}; proj_DisplayName := "P"; proj_Description := "";
     proj_ClusterName := "c-1"; proj_Conditions := [] |}.
Definition demo_copies : Sim :=
  synced (put_obj demo_own (put_obj demo_web (put_obj demo_backing (put_obj demo_p1 empty_state)))).

Lemma demo_target : target "c-1" demo_copies demo_db "web".
Proof.
  split; [|exists demo_web; repeat split; vm_compute; reflexivity].
  exists demo_backing. split; [vm_compute; reflexivity|]. split; [reflexivity|]. eexists. vm_compute. reflexivity.
Qed.

Lemma secret_copies_witness : ∃ w' w'',
  secret_Updated "c-1" demo_db demo_copies = (Ok tt, w') ∧ copied demo_db "web" (tbl (view w') !! ("web", "db")) ∧
  secret_Remove "c-1" demo_db demo_copies = (Ok tt, w'') ∧ t_Secrets (s_Tables (view w'')) !! ("web", "db") = None.
Proof.
  destruct (secret_copies "c-1" demo_db demo_copies) as (_ & Hu & Hr).
  - discriminate.
  - reflexivity.
  - intros ns (_ & n & Hn & _ & <-).
    assert (map_Forall (λ _ o, secret_type (sec_Type o) = "Opaque") (t_Secrets (s_Tables (view demo_copies)))) as Hall
      by (refine (bool_decide_unpack _ _); vm_compute; exact I).
    intros o0 Ho. exact (Hall _ _ Ho).
  - unfold wp in Hu, Hr.
    destruct (secret_Updated "c-1" demo_db demo_copies) as [[[]|e| |] w'] eqn:Hru; [|destruct Hu..].
    destruct (secret_Remove "c-1" demo_db demo_copies) as [[[]|e| |] w''] eqn:Hrr; [|destruct Hr..].
    exists w', w''. split; [reflexivity|]. split; [exact (proj1 Hu "web" demo_target)|].
    split; [reflexivity|]. exact (proj1 Hr "web" demo_target).
Defined.

End SecretSync.
