(* ===== verification/EncryptedStore.v ===== *)
(** * The encrypted store

    [pkg/encryptedstore]: maps of strings that are kept as secrets of the management cluster,
    under a prefix.  An update that fails is tried again, five times at most. *)

From stdpp Require Import base gmap list strings.
From Stdlib Require Import Lia.
From S2P Require Import Prelude.
From S2P Require Import GoLib.
From S2P Require Import KubeTypes.
From S2P Require Import KubeObjects.
From S2P Require Import Kube.
From S2P Require Import KubeRules.
From S2P Require Import KubeSim.

Module EncryptedStore.

Record GenericEncryptedStore := {
  store_prefix : string;
  store_namespace : string }.

Section store.
Context {W : Type} `{!Client W ManagementSecret, !Client W ManagementNamespace}.

Definition NewGenericEncrypedStore (prefix namespace : string) : M W GenericEncryptedStore :=
  let namespace := if String.eqb namespace "" then "cattle-system" else namespace in
  let* r := attempt (reads (api_get (O:=ManagementNamespace) "" namespace)) in
  do* match r with
      | inr _ => ret tt
      | inl e =>
        if IsNotFound e
        then do* api_create "" {| mns_meta := named_meta namespace ∅ ∅ []; mns_Phase := "" |} in ret tt
        else throw e
      end in
  ret {| store_prefix := prefix; store_namespace := namespace |}.

Variable g : GenericEncryptedStore.

Definition getKey (name : string) : string := store_prefix g +:+ name.

Definition store_Get (name : string) : M W (gmap string string) :=
  let* sec := reads (api_get (store_namespace g) (getKey name)) in
  ret (msec_Data sec).

(** [reflect.DeepEqual] tells a nil map, as which the server returns a secret without data,
    from the empty one [set] replaces it with. *)
Fixpoint set (name : string) (data : gmap string string) (retries : nat) : M W unit :=
  let* r := attempt (reads (api_get (store_namespace g) (getKey name))) in
  match r with
  | inl e =>
    if IsNotFound e
    then do* api_create (store_namespace g)
           {| msec_meta := named_meta (getKey name) ∅ ∅ []; msec_Kind := ""; msec_Data := ∅; msec_StringData := data;
              msec_Type := "" |} in ret tt
    else throw e
  | inr sec =>
    let newData := data ∪ msec_Data sec in
    if bool_decide (msec_Data sec ≠ ∅ ∧ newData = msec_Data sec) then ret tt else
    let* r := attempt (api_update (store_namespace g)
      {| msec_meta := msec_meta sec; msec_Kind := msec_Kind sec; msec_Data := newData;
         msec_StringData := msec_StringData sec; msec_Type := msec_Type sec |}) in
    match r, retries with
    | inr _, _ => ret tt
    | inl e, S retries => set name data retries
    | inl e, O => throw e
    end
  end.

Definition store_Set (name : string) (data : gmap string string) : M W unit := set name data 5.

Definition store_Remove (name : string) : M W unit :=
  let* r := attempt (api_delete (O:=ManagementSecret) (store_namespace g) (getKey name)) in
  match r with
  | inl e => if IsNotFound e then ret tt else throw e
  | inr _ => ret tt
  end.

End store.

(** The plain text of a secret is write-only: the server never returns it. *)
Class WriteOnlyData (W : Type) `{!Client W ManagementSecret} := {
  create_plain ns o w o' w' : api_create ns o w = (Ok o', w') → msec_StringData o' = ∅;
  update_plain ns o w o' w' : api_update ns o w = (Ok o', w') → msec_StringData o' = ∅ }.

Section laws.
Context {W : Type} `{!Kube W, !Client W ManagementSecret, !ClientLaws W ManagementSecret, !WriteOnlyData W}.
Variable g : GenericEncryptedStore.
Implicit Types (w : W).

Notation key name := (store_namespace g, getKey g name).

Definition plain w : Prop := map_Forall (λ _ s, msec_StringData s = ∅) (t_ManagementSecrets (s_Tables (view w))).

(** The map that is stored under a name; none where there is no secret. *)
Definition stored w (name : string) : option (gmap string string) :=
  msec_Data <$> t_ManagementSecrets (s_Tables (view w)) !! key name.

Lemma store_Get_run name w :
  match store_Get g name w with
  | (Ok m, w') => w' = w ∧ stored w name = Some m
  | (Err e, w') => w' = w ∧ (IsNotFound e = true → stored w name = None) ∧
      (ClientHealthy W ManagementSecret → stored w name = None)
  | _ => False
  end.
Proof.
  unfold store_Get, bind, reads, stored. pose proof (get_law (O:=ManagementSecret) (store_namespace g) (getKey g name) w) as Hg.
  change (tbl (O:=ManagementSecret) ?s) with (t_ManagementSecrets (s_Tables s)) in Hg.
  destruct (api_get (store_namespace g) (getKey g name) w) as [s|e| |] eqn:Hr; try done.
  - by rewrite Hg.
  - split; [done|]. split; [intros He; by rewrite Hg|]. intros Hh.
    destruct (t_ManagementSecrets (s_Tables (view w)) !! key name) as [s|] eqn:Hs; [|done].
    assert (api_get (store_namespace g) (getKey g name) w = Ok s) by (by apply get_healthy). congruence.
Qed.

(** What storing [data] under a name does to the cluster. *)
Record stores w w' (name : string) (data : gmap string string) : Prop := {
  stores_data : stored w' name = Some (data ∪ default ∅ (stored w name));
  stores_only : changed_at (O:=ManagementSecret) [key name] (view w) (view w');
  stores_plain : plain w' }.

Lemma stores_put w w' name data o' :
  plain w → view w' = put_obj o' (view w) → obj_key o' = key name → msec_StringData o' = ∅ →
  msec_Data o' = data ∪ default ∅ (stored w name) → stores w w' name data.
Proof.
  intros Hp Hv Hk Hs Hd. split.
  - rewrite <-Hd. unfold stored. rewrite Hv, <-Hk. change (t_ManagementSecrets (s_Tables ?s)) with (tbl (O:=ManagementSecret) s).
    by rewrite tbl_put_eq.
  - rewrite Hv, <-Hk. apply changed_at_put. by left.
  - unfold plain. rewrite Hv. change (t_ManagementSecrets (s_Tables ?s)) with (tbl (O:=ManagementSecret) s).
    rewrite tbl_put. by apply map_Forall_insert_2.
Qed.

Lemma set_create name data w :
  plain w → getKey g name ≠ "" → stored w name = None →
  wp (do* api_create (store_namespace g)
        {| msec_meta := named_meta (getKey g name) ∅ ∅ []; msec_Kind := ""; msec_Data := ∅; msec_StringData := data;
           msec_Type := "" |} in ret tt)
    (if_ok (λ _ w', stores w w' name data) (λ _ w', view w' = view w ∧ (ClientHealthy W ManagementSecret → False))) w.
Proof.
  intros Hp Hn Hnone. set (o := {| msec_meta := _ |}).
  assert (tbl (O:=ManagementSecret) (view w) !! key name = None) as Hfree.
  { unfold stored in Hnone. by apply fmap_None in Hnone. }
  assert (write_key (store_namespace g) o = key name) as Hk by done.
  apply wp_bind. unfold wp. pose proof (create_law (store_namespace g) o w) as Hlaw.
  destruct (api_create (store_namespace g) o w) as [[o'|e| |] w'] eqn:Hr; try done; simpl.
  - destruct Hlaw as (Hst & _ & Hv & _). pose proof (create_plain _ _ _ _ _ Hr) as Hs.
    pose proof (stored_as_key _ _ _ Hst Hn) as Hko. rewrite Hk in Hko. apply (stores_put w w' name data o'); [done..|].
    destruct Hst as (_ & _ & _ & _ & _ & _ & Heff & _). unfold effective in Heff. simpl in Heff. rewrite Hs in Heff.
    rewrite (left_id_L ∅ (∪)) in Heff. by rewrite <-Heff, Hnone.
  - destruct Hlaw as [Hv _]. split; [done|]. intros Hh.
    destruct (create_healthy (store_namespace g) o w) as (o' & w'' & Hr'); [by rewrite Hk|done|congruence].
Qed.

(** One attempt; [onfail] is what is done when the update fails. *)
Definition set_once (name : string) (data : gmap string string) (onfail : goerr → M W unit) : M W unit :=
  let* r := attempt (reads (api_get (store_namespace g) (getKey g name))) in
  match r with
  | inl e =>
    if IsNotFound e
    then do* api_create (store_namespace g)
           {| msec_meta := named_meta (getKey g name) ∅ ∅ []; msec_Kind := ""; msec_Data := ∅; msec_StringData := data;
              msec_Type := "" |} in ret tt
    else throw e
  | inr sec =>
    let newData := data ∪ msec_Data sec in
    if bool_decide (msec_Data sec ≠ ∅ ∧ newData = msec_Data sec) then ret tt else
    let* r := attempt (api_update (store_namespace g)
      {| msec_meta := msec_meta sec; msec_Kind := msec_Kind sec; msec_Data := newData;
         msec_StringData := msec_StringData sec; msec_Type := msec_Type sec |}) in
    match r with inr _ => ret tt | inl e => onfail e end
  end.

Lemma set_unfold name data retries :
  set g name data retries = set_once name data (match retries with O => throw | S r => λ _, set g name data r end).
Proof. by destruct retries. Qed.

Notation set_post w name data :=
  (if_ok (λ _ w', stores w w' name data) (λ _ w', view w' = view w ∧ (ClientHealthy W ManagementSecret → False))).

Lemma set_once_stores name data onfail w :
  plain w → getKey g name ≠ "" →
  (∀ e w1, view w1 = view w → (ClientHealthy W ManagementSecret → False) → wp (onfail e) (set_post w name data) w1) →
  wp (set_once name data onfail) (set_post w name data) w.
Proof.
  intros Hp Hn Hfail. apply wp_bind, wp_attempt, wp_reads.
  pose proof (get_law (O:=ManagementSecret) (store_namespace g) (getKey g name) w) as Hg.
  destruct (api_get (store_namespace g) (getKey g name) w) as [sec|e| |] eqn:Hr; try done; last first.
  { unfold bind_post. cbv beta iota. destruct (IsNotFound e) eqn:He.
    - apply set_create; [done..|]. unfold stored. apply fmap_None. by apply Hg.
    - apply wp_throw. split; [done|]. intros Hh. destruct (tbl (O:=ManagementSecret) (view w) !! key name) as [s|] eqn:Hs.
      + assert (api_get (store_namespace g) (getKey g name) w = Ok s) by (by apply get_healthy). congruence.
      + destruct (get_absent (O:=ManagementSecret) (store_namespace g) (getKey g name) w) as (e' & ? & ?); congruence. }
  unfold bind_post at 1. cbv beta iota zeta. assert (stored w name = Some (msec_Data sec)) as Hst.
  { unfold stored. change (t_ManagementSecrets (s_Tables ?s)) with (tbl (O:=ManagementSecret) s). by rewrite Hg. }
  assert (Hsd : msec_StringData sec = ∅) by exact (Hp _ _ Hg).
  case_bool_decide as Hsame.
  { apply wp_ret. split; [rewrite Hst; simpl; by destruct Hsame as [_ ->]|apply changed_at_refl|done]. }
  set (o := {| msec_meta := _ |}). pose proof (view_keyed w _ _ Hg) as Hkey.
  assert (write_key (store_namespace g) o = key name) as Hk.
  { rewrite Hkey. unfold write_key, client_ns, obj_key. simpl. case_decide as Hns; [|done].
    unfold obj_key in Hkey. simpl in Hkey. injection Hkey as -> _. by rewrite Hns. }
  assert (Name (msec_meta sec) = getKey g name) as Hname by (unfold obj_key in Hkey; simpl in Hkey; congruence).
  apply wp_bind, wp_attempt. unfold wp. pose proof (update_law (store_namespace g) o w) as Hlaw.
  destruct (api_update (store_namespace g) o w) as [[o'|e| |] w'] eqn:Hu; try done; simpl.
  - destruct Hlaw as (Hso & _ & Hno & Hv & _). pose proof (update_plain _ _ _ _ _ Hu) as Hs.
    pose proof (stored_as_key _ _ _ Hso Hno) as Hko. rewrite Hk in Hko. apply (stores_put w w' name data o'); [done..|].
    destruct Hso as (_ & _ & _ & _ & _ & _ & Heff & _). unfold effective in Heff. simpl in Heff.
    rewrite Hs, Hsd, !(left_id_L ∅ (∪)) in Heff. by rewrite <-Heff, Hst.
  - destruct Hlaw as [Hv _]. apply Hfail; [done|]. intros Hh.
    destruct (update_healthy (store_namespace g) o w) as (o' & w'' & Hu'); [simpl; by rewrite Hname| |congruence].
    exists sec. rewrite Hk. split_and!; [done|by left|]. apply bool_decide_eq_true. done.
Qed.

Lemma set_stores name data retries w :
  plain w → getKey g name ≠ "" → wp (set g name data retries) (set_post w name data) w.
Proof.
  intros Hp Hn. revert w Hp. induction retries as [|retries IH]; intros w Hp; rewrite set_unfold;
    apply set_once_stores; try done; intros e w1 Hv Hh.
  assert (plain w1) as Hp1 by (unfold plain; by rewrite Hv).
  eapply wp_mono; [by apply IH|]. intros [[]|e'| |] w'; simpl; try done.
  - intros [Hd Ho Hpl]. split; [|by rewrite <-Hv|done]. rewrite Hd. unfold stored. by rewrite Hv.
  - intros [Hv' ?]. split; [congruence|done].
Qed.

Lemma store_Remove_run name w :
  ClientHealthy W ManagementSecret → wp (store_Remove g name) (returns (λ _ w', stored w' name = None)) w.
Proof.
  intros Hh. apply wp_bind, wp_attempt, wp_delete.
  - intros w' _ Hv _. apply wp_ret. unfold returns, stored. rewrite Hv.
    change (t_ManagementSecrets (s_Tables ?s)) with (tbl (O:=ManagementSecret) s). by rewrite tbl_del, lookup_delete_eq.
  - intros e w' Hnf Hv _ He _. unfold bind_post. simpl. rewrite (He Hh). apply wp_ret. unfold returns, stored. rewrite Hv.
    apply fmap_None. by apply Hnf, He.
Qed.

(** C23: what is set is what is got.  Setting a map under a name, with up to five more attempts when updates fail, stores the
    map over what was there, keeps the other entries, and touches nothing else; where it
    fails nothing has changed, and with a server that answers it does not fail.  What is
    stored is what [Get] returns, until [Remove]. *)
Theorem store_round_trip name data w :
  plain w → getKey g name ≠ "" →
  wp (store_Set g name data) (if_ok
    (λ _ w', stores w w' name data ∧
       (ClientHealthy W ManagementSecret →
          store_Get g name w' = (Ok (data ∪ default ∅ (stored w name)), w') ∧
          wp (store_Remove g name) (returns (λ _ w'', stored w'' name = None)) w'))
    (λ _ w', view w' = view w ∧ (ClientHealthy W ManagementSecret → False))) w.
Proof.
  intros Hp Hn. eapply wp_mono; [by apply set_stores|]. intros [[]|e| |] w'; simpl; try done.
  intros Hs. split; [done|]. intros Hh. split; [|by apply store_Remove_run].
  pose proof (store_Get_run name w') as Hg. destruct (store_Get g name w') as [[m|e| |] w1]; try done.
  - destruct Hg as [-> Hg]. rewrite (stores_data _ _ _ _ Hs) in Hg. by injection Hg as ->.
  - destruct Hg as (_ & _ & Hg). by rewrite (stores_data _ _ _ _ Hs) in Hg; specialize (Hg Hh).
Qed.

End laws.

#[export] Instance sim_write_only : WriteOnlyData Sim.
Proof.
  split; intros ns o w o' w'; unfold api_create, api_update, sim_client, sim_create, sim_update;
    repeat (case_decide || case_match); intros [= <- _]; done.
Qed.

(** ** An example *)

Definition demo_store : GenericEncryptedStore := {| store_prefix := "c-"; store_namespace := "cattle-system" |}.
Definition demo_secret : ManagementSecret :=
  {| msec_meta := {| Name := "c-local"; GenerateName := ""; Namespace := "cattle-system"; UID := "u-1"; ResourceVersion := "1";
                     Labels := ∅; Annotations := ∅; OwnerReferences := []; CreationTimestamp := 0; DeletionTimestamp := None |};
     msec_Kind := "Secret"; msec_Data := {[ "cluster" := "old"; "token" := "t" ]}; msec_StringData := ∅; msec_Type := "Opaque" |}.
Definition demo_vault : Sim := synced (put_obj demo_secret empty_state).

(** One entry of a map is replaced and the other one is kept. *)
Lemma store_round_trip_witness :
  ∃ w', store_Set demo_store "local" {[ "cluster" := "new" ]} demo_vault = (Ok tt, w') ∧
    store_Get demo_store "local" w' = (Ok ({[ "cluster" := "new"; "token" := "t" ]} : gmap string string), w').
Proof.
  assert (plain demo_vault) as Hp by (refine (bool_decide_unpack _ _); vm_compute; exact I).
  pose proof (store_round_trip demo_store "local" {[ "cluster" := "new" ]} demo_vault Hp ltac:(discriminate)) as Hs.
  unfold wp in Hs.
  destruct (store_Set demo_store "local" {[ "cluster" := "new" ]} demo_vault) as [[[]|e| |] w'] eqn:Hr;
    [|destruct (proj2 Hs _)|destruct Hs..].
  exists w'. split; [reflexivity|]. destruct (proj2 Hs sim_client_healthy) as [Hg _]. simpl fst in Hg. simpl snd in Hg.
  refine (eq_trans Hg _). by do 2 f_equal.
Defined.

End EncryptedStore.
