(* ===== verification/SystemAccount.v ===== *)
(** * System accounts of clusters

    [pkg/systemaccount]: the user that stands for a cluster with its binding to the role of
    owners, and the registration token the server makes for a cluster.  The user manager
    is the interface [UserManager]. *)

From stdpp Require Import base gmap list strings.
From Stdlib Require Import Ascii ZArith Lia.
From S2P Require Import Prelude.
From S2P Require Import GoLib.
From S2P Require Import KubeTypes.
From S2P Require Import KubeObjects.
From S2P Require Import Kube.
From S2P Require Import KubeRules.
From S2P Require Import KubeSim.
From S2P Require Import MgmtHandlers.
From S2P Require Import Tokens.
From S2P Require Import TokenAuth.
From S2P Require Import Authorizer.
Import Tokens TokenAuth.

Module SystemAccount.

Notation clusterOwnerRole := "cluster-owner" (only parsing).

Definition system_binding (cluster user : string) : ClusterRoleTemplateBinding :=
  {| crtb_meta := {| Name := user +:+ "-admin"; GenerateName := ""; Namespace := cluster; UID := "";
                     ResourceVersion := ""; Labels := ∅; Annotations := ∅; OwnerReferences := [];
                     CreationTimestamp := 0; DeletionTimestamp := None |};
     crtb_type := {| Kind := ""; APIVersion := "" |}; crtb_UserName := user; crtb_UserPrincipalName := "";
     crtb_GroupName := ""; crtb_GroupPrincipalName := ""; crtb_ClusterName := cluster;
     crtb_RoleTemplateName := clusterOwnerRole |}.

Definition system_crt (cluster token : string) : ClusterRegistrationToken :=
  {| crt_meta := {| Name := "system"; GenerateName := ""; Namespace := cluster; UID := ""; ResourceVersion := "";
                    Labels := ∅; Annotations := ∅; OwnerReferences := []; CreationTimestamp := 0;
                    DeletionTimestamp := None |};
     crt_ClusterName := cluster; crt_InsecureCommand := ""; crt_Command := ""; crt_NodeCommand := "";
     crt_ManifestURL := ""; crt_Token := token |}.

Section manager.
Context {W : Type} `{!Random W, !UserManager W, !Client W ClusterRoleTemplateBinding, !Client W ClusterRegistrationToken}.

Definition GetSystemUser (cluster : Cluster) : M W User :=
  EnsureUser ("system://" +:+ Name (cluster_meta cluster)) ("System account for Cluster " +:+ Name (cluster_meta cluster)).

(** Any failure to read the binding leads to an attempt to create it. *)
Definition CreateSystemAccount (cluster : Cluster) : M W unit :=
  let* user := GetSystemUser cluster in
  let* r := attempt (reads (api_get (O:=ClusterRoleTemplateBinding) (Name (cluster_meta cluster))
                              (Name (user_meta user) +:+ "-admin"))) in
  match r with
  | inr _ => ret tt
  | inl _ => do* api_create "" (system_binding (Name (cluster_meta cluster)) (Name (user_meta user))) in ret tt
  end.

Definition GetOrCreateSystemClusterToken (clusterName : string) : M W string :=
  let* r := attempt (reads (api_get clusterName "system")) in
  match r with
  | inr crt => ret (crt_Token crt)
  | inl e =>
    if IsNotFound e then
      let* token := Generate in
      do* api_create "" (system_crt clusterName token) in
      ret token
    else throw e
  end.

End manager.

Section laws.
Context {W : Type} `{!GoRuntime W, !Float64, !Random W, !Kube W, !RandomLaws W, !UserManager W}.
Context `{!Client W ClusterRoleTemplateBinding, !ClientLaws W ClusterRoleTemplateBinding}.
Context `{!Client W ClusterRegistrationToken, !ClientLaws W ClusterRegistrationToken, !ClientHealthy W ClusterRegistrationToken}.
Context `{!Client W Cluster, !ClientLaws W Cluster}.
Implicit Types (w : W).

Notation crts s := (t_ClusterRegistrationTokens (s_Tables s)).

(** After the system account of a cluster was made, its user has a binding of its own in the
    cluster: the one that was there, or one to the role of owners. *)
Theorem CreateSystemAccount_binds cluster w w' :
  CreateSystemAccount cluster w = (Ok tt, w') → Name (cluster_meta cluster) ≠ "" →
  let c := Name (cluster_meta cluster) in
  ∃ u w1 b, EnsureUser ("system://" +:+ c) ("System account for Cluster " +:+ c) w = (Ok u, w1) ∧
    s_ClusterRoleTemplateBindings (view w') !! (c, Name (user_meta u) +:+ "-admin") = Some b ∧
    (view w' = view w1 ∨ view w' = put_obj b (view w1) ∧ crtb_UserName b = Name (user_meta u) ∧
       crtb_ClusterName b = c ∧ crtb_RoleTemplateName b = clusterOwnerRole).
Proof.
  intros Hrun Hc c. unfold CreateSystemAccount, GetSystemUser, bind at 1 in Hrun. fold c in Hrun, Hc.
  destruct (EnsureUser _ _ w) as [[u|e| |] w1] eqn:Hu; try done. exists u, w1.
  unfold bind at 1, attempt, reads in Hrun.
  pose proof (get_law (O:=ClusterRoleTemplateBinding) c (Name (user_meta u) +:+ "-admin") w1) as Hg.
  destruct (api_get c (Name (user_meta u) +:+ "-admin") w1) as [b|e| |]; try done.
  { injection Hrun as <-. exists b. split_and!; [done|exact Hg|by left]. }
  unfold bind in Hrun. pose proof (create_law "" (system_binding c (Name (user_meta u))) w1) as Hlaw.
  destruct (api_create "" _ w1) as [[b|e'| |] w2]; try done. injection Hrun as <-.
  destruct Hlaw as (Hst & _ & Hv & _). exists b.
  assert (Name (user_meta u) +:+ "-admin" ≠ "") as Hne by (by destruct (Name (user_meta u))).
  pose proof (stored_as_key _ _ _ Hst Hne) as Hk.
  assert (write_key "" (system_binding c (Name (user_meta u))) = (c, Name (user_meta u) +:+ "-admin")) as Hwk.
  { unfold write_key, client_ns. simpl. by case_decide. }
  rewrite Hwk in Hk. split_and!; [done|rewrite <-Hk, Hv; exact (tbl_put_eq b (view w1))|].
  right. destruct Hst as (_ & _ & _ & _ & _ & _ & Hspec). split_and!; [done|by rewrite Hspec..].
Qed.

Lemma token_found t crt w2 clusterName c (s : KState) :
  crts s !! (clusterName, "system") = Some crt → crt_Token crt = t →
  crts (cached w2) = crts s → s_Clusters (cached w2) !! ("", clusterName) = Some c →
  (∀ k crt', crts s !! k = Some crt' → crt_Token crt' = t → crt_ClusterName crt' = clusterName) →
  Authorizer.getClusterByToken t w2 = (Ok c, w2).
Proof.
  intros Hcrt Ht Hs Hc Honly. unfold Authorizer.getClusterByToken, bind, reads.
  destruct (by_index_law Authorizer.crtIndex t w2) as (l & Hl & _). rewrite Hl.
  pose proof (λ x, elem_of_index _ _ _ _ x Hl) as Hin. unfold Authorizer.crtIndex in Hin.
  destruct l as [|x l].
  - assert (crt ∈ []) as []%elem_of_nil. apply Hin. split; [|rewrite Ht; by left].
    change (crts (cached w2) !! obj_key crt = Some crt).
    rewrite <-Hs in Hcrt.
    pose proof (cached_keyed (O:=ClusterRegistrationToken) w2) as Hk. by rewrite <-(Hk _ _ Hcrt).
  - destruct (proj1 (Hin x)) as [Hx ->%list_elem_of_singleton]; [by left|].
    change (crts (cached w2) !! obj_key x = Some x) in Hx. rewrite Hs in Hx.
    rewrite (Honly _ _ Hx eq_refl). pose proof (lister_get_law (O:=Cluster) "" clusterName w2) as Hg.
    change (tbl (O:=Cluster) ?s) with (s_Clusters s) in Hg. rewrite Hc in Hg. by rewrite Hg.
Qed.

Lemma token_again clusterName crt w :
  crts (view w) !! (clusterName, "system") = Some crt → GetOrCreateSystemClusterToken clusterName w = (Ok (crt_Token crt), w).
Proof.
  intros Hcrt. unfold GetOrCreateSystemClusterToken, bind, attempt, reads.
  assert (api_get clusterName "system" w = Ok crt) as -> by (by apply get_healthy). done.
Qed.

(** The registration token of a cluster is made once: the call returns the token the server holds for the
    cluster, or one it has just stored for it, and every later call returns the same; once the
    caches show it, an agent that shows this token, and no other token of the value exists,
    is taken for one of this cluster. *)
Theorem system_token_stable clusterName w :
  clusterName ≠ "" →
  wp (GetOrCreateSystemClusterToken clusterName) (if_ok
    (λ t w', ∃ crt, crts (view w') !! (clusterName, "system") = Some crt ∧ crt_Token crt = t ∧
       (w' = w ∨ view w' = put_obj crt (view w) ∧ crt_ClusterName crt = clusterName ∧
          String.length t = tokenLength) ∧
       GetOrCreateSystemClusterToken clusterName w' = (Ok t, w') ∧
       ∀ w2 c, crts (cached w2) = crts (view w') → s_Clusters (cached w2) !! ("", clusterName) = Some c →
         (∀ k crt', crts (view w') !! k = Some crt' → crt_Token crt' = t → crt_ClusterName crt' = clusterName) →
         Authorizer.getClusterByToken t w2 = (Ok c, w2))
    (λ _ w', view w' = view w)) w.
Proof.
  intros Hc. apply wp_bind, wp_attempt, wp_reads.
  pose proof (get_law (O:=ClusterRegistrationToken) clusterName "system" w) as Hg.
  destruct (api_get (O:=ClusterRegistrationToken) clusterName "system" w) as [crt|e| |]; try done; unfold bind_post.
  { apply wp_ret. exists crt. split_and!; [exact Hg|done|by left|by apply token_again|].
    intros w2 c Hs Hcl Honly. by apply (token_found _ crt w2 clusterName c (view w)). }
  destruct (IsNotFound e) eqn:He; [|by apply wp_throw].
  eapply wp_bind_if_ok; [apply wp_generate| |by intros e' w' [? _]].
  intros t w1 ((Hlen & _) & Hv1 & _). apply wp_bind, wp_create.
  - intros crt w2 Hst _ Hv2 _. unfold bind_post. apply wp_ret. exists crt.
    pose proof (stored_as_key _ _ _ Hst ltac:(done)) as Hk.
    assert (write_key "" (system_crt clusterName t) = (clusterName, "system")) as Hwk.
    { unfold write_key, client_ns. simpl. by case_decide. }
    rewrite Hwk in Hk. destruct Hst as (_ & _ & _ & _ & _ & _ & Hspec).
    assert (crts (view w2) !! (clusterName, "system") = Some crt) as Hcrt.
    { rewrite <-Hk, Hv2. exact (tbl_put_eq crt (view w1)). }
    assert (crt_Token crt = t ∧ crt_ClusterName crt = clusterName) as [Ht Hcn] by (by rewrite Hspec).
    split_and!; [done..| | |].
    + right. by rewrite Hv2, Hv1.
    + rewrite <-Ht. by apply token_again.
    + intros w3 c Hs Hcl Honly. by apply (token_found _ crt w3 clusterName c (view w2)).
  - intros e' w2 Hv2 _ _. simpl. by rewrite Hv2.
Qed.

End laws.

(** The first call for a cluster, and the second one. *)
Lemma system_token_stable_witness : ∃ t w',
  GetOrCreateSystemClusterToken "c-1" (synced empty_state) = (Ok t, w') ∧
  GetOrCreateSystemClusterToken "c-1" w' = (Ok t, w').
Proof.
  pose proof (system_token_stable "c-1" (synced empty_state) ltac:(discriminate)) as Hs. unfold wp in Hs.
  assert (∃ t w', GetOrCreateSystemClusterToken "c-1" (synced empty_state) = (Ok t, w')) as (t & w' & Hr)
    by (do 2 eexists; vm_compute; reflexivity).
  exists t, w'. split; [exact Hr|]. rewrite Hr in Hs. destruct Hs as (crt & _ & _ & _ & Hagain & _). exact Hagain.
Defined.

End SystemAccount.
