(* ===== verification/HttpProxy.v ===== *)
(** * The proxy to external hosts

    [pkg/httpproxy], [server/whitelist] and [pkg/api/controllers/whitelistproxy]: requests of the
    user interface that are passed on to other hosts, and the list of the hosts they may
    go to, which node drivers extend.  The parser and the printer of URLs are arguments. *)

From stdpp Require Import base gmap list strings.
From Stdlib Require Import Ascii Lia.
From S2P Require Import Prelude.
From S2P Require Import GoLib.
From S2P Require Import KubeTypes.
From S2P Require Import KubeObjects.
From S2P Require Import Kube.
From S2P Require Import KubeSim.

Module HttpProxy.

(** ** The list of hosts *)

(** [ProxyList]: the keys of its map *)
Definition ProxyList : Type := gset string.

(** [range] visits the keys of the map in the order [order]. *)
Definition ProxyList_Get (order : ProxyList → list string) (WhitelistDomain : string) (p : ProxyList) : list string :=
  Split WhitelistDomain "," ++ order p.

Definition ProxyList_Add (key : string) (p : ProxyList) : ProxyList := {[ key ]} ∪ p.

Definition ProxyList_Rm (key : string) (p : ProxyList) : ProxyList := p ∖ {[ key ]}.

(** [v3.NodeDriver], as far as the handler reads it *)
Record NodeDriver := {
  nd_meta : ObjectMeta;
  nd_WhitelistDomains : list string }.

Definition whitelist_sync (key : string) (nodeDriver : option NodeDriver) (p : ProxyList) : ProxyList :=
  match nodeDriver with
  | None => p
  | Some d =>
    if String.eqb key "" then p
    else if bool_decide (is_Some (DeletionTimestamp (nd_meta d)))
    then fold_left (λ p d, ProxyList_Rm d p) (nd_WhitelistDomains d) p
    else fold_left (λ p d, ProxyList_Add d p) (nd_WhitelistDomains d) p
  end.

(** ** The proxy *)

Record URL := {
  u_Scheme : string;
  u_Host : string;
  u_Path : string;
  u_RawQuery : string }.

Definition with_RawQuery (q : string) (u : URL) : URL :=
  {| u_Scheme := u_Scheme u; u_Host := u_Host u; u_Path := u_Path u; u_RawQuery := q |}.

(** [http.Request]; the names of its headers are in their canonical form. *)
Record ProxyRequest := {
  pr_Host : string;
  pr_URL : URL;
  pr_Header : gmap string (list string);
  pr_TLS : bool }.

(** [URL.Hostname]: the host without a port, an IPv6 address without its brackets *)
Definition Hostname (host : string) : string :=
  match cut_sep ":" host with
  | None => host
  | Some (before, _) =>
    match cut_sep "]" host with
    | Some (address, _) => TrimPrefix address "["
    | None => before
    end
  end.

Definition badHeaders : list string := ["host"; "transfer-encoding"; "content-length"; "x-api-auth-header"].

(** The match of a regular expression "^" ++ scheme ++ ":/([^/])": the text after the slash. *)
Definition single_slash (scheme s : string) : option string :=
  match drop_prefix (scheme +:+ ":/") s with
  | Some (String c rest) => if Ascii.eqb c "/" then None else Some (String c rest)
  | _ => None
  end.

Fixpoint drop_chars (n : nat) (s : string) : option string :=
  match n, s with
  | O, _ => Some s
  | S n, String _ s => drop_chars n s
  | S _, EmptyString => None
  end.

Section proxy.
Variable url_Parse : string → goerr + URL.
Variable url_String : URL → string.
Variables (prefix : string) (validHostsSupplier : list string).

Definition isAllowed (host : string) : bool :=
  existsb (λ valid, String.eqb valid host ||
    match valid with String "*" rest => HasSuffix host rest | _ => false end) validHostsSupplier.

(** The text after the prefix; where the prefix is not found its index is -1. *)
Definition dest_path (path : string) : option string :=
  match cut_sep prefix path with
  | Some (_, after) => Some after
  | None => drop_chars (String.length prefix - 1) path
  end.

Definition dest_url (destPath : string) : string :=
  match single_slash "https" destPath, single_slash "http" destPath with
  | Some rest, _ => "https://" +:+ rest
  | None, Some rest => "http://" +:+ rest
  | None, None => "https://" +:+ destPath
  end.

Definition dest_headers (req : ProxyRequest) : gmap string (list string) :=
  let headerCopy : gmap string (list string) := if pr_TLS req then {[ "X-Forwarded-Proto" := ["https"] ]} else ∅ in
  let auth := default "" (head (default [] (pr_Header req !! "X-Api-Auth-Header"))) in
  let headerCopy := if String.eqb auth "" then headerCopy else <["Authorization" := [auth]]> headerCopy in
  (map (λ v, TrimPrefix v "rancher:") <$> filter (λ kv, ToLower kv.1 ∉ badHeaders) (pr_Header req)) ∪ headerCopy.

(** The slice of the path panics where it is too short. *)
Definition proxy (req : ProxyRequest) : outcome ProxyRequest :=
  match dest_path (url_String (pr_URL req)) with
  | None => Panic
  | Some destPath =>
    match url_Parse (dest_url destPath) with
    | inl e => Err e
    | inr destURL =>
      let destURL := with_RawQuery (u_RawQuery (pr_URL req)) destURL in
      if negb (isAllowed (u_Host destURL)) then Err (PlainError ("invalid host: " +:+ u_Host destURL))
      else Ok {| pr_Host := Hostname (u_Host destURL); pr_URL := destURL; pr_Header := dest_headers req;
                 pr_TLS := pr_TLS req |}
    end
  end.

(** The director of the reverse proxy: an error is logged, and the request goes on. *)
Definition director (req : ProxyRequest) : outcome ProxyRequest :=
  match proxy req with
  | Err _ => Ok req
  | r => r
  end.

End proxy.

(** Where the transport sends a request; without a scheme or a host it fails. *)
Definition sent_to (req : ProxyRequest) : option string :=
  let u := pr_URL req in
  if (String.eqb (u_Scheme u) "http" || String.eqb (u_Scheme u) "https") && negb (String.eqb (u_Host u) "")
  then Some (u_Host u) else None.

(** A header the proxy may send for the request [req]. *)
Definition passed_on (req : ProxyRequest) (name : string) (values : list string) : Prop :=
  ToLower name ∉ badHeaders ∧ (∃ v, pr_Header req !! name = Some v ∧ values = map (λ v, TrimPrefix v "rancher:") v) ∨
  name = "Authorization" ∧ pr_Header req !! name = None ∧
    (∃ auth rest, auth ≠ "" ∧ pr_Header req !! "X-Api-Auth-Header" = Some (auth :: rest) ∧ values = [auth]) ∨
  name = "X-Forwarded-Proto" ∧ pr_Header req !! name = None ∧ pr_TLS req = true ∧ values = ["https"].

Lemma dest_headers_passed req name values : dest_headers req !! name = Some values → passed_on req name values.
Proof.
  unfold dest_headers. set (own := map _ <$> filter _ _). set (auth := default "" _). set (base := if String.eqb auth "" then _ else _).
  intros [Hown|[Hno Hbase]]%lookup_union_Some_raw.
  - left. apply lookup_fmap_Some in Hown as (v & <- & [Hv Hb]%map_lookup_filter_Some). eauto.
  - assert (name = "Authorization" ∨ name = "X-Forwarded-Proto" → pr_Header req !! name = None) as Hnone.
    { intros Hname. unfold own in Hno. rewrite lookup_fmap in Hno. apply fmap_None, map_lookup_filter_None in Hno as [|Hno]; [done|].
      destruct (pr_Header req !! name) as [v|] eqn:Hv; [|done]. exfalso. apply (Hno v eq_refl). simpl.
      destruct Hname as [-> | ->]; apply (bool_decide_unpack _); vm_compute; exact I. }
    assert (∀ v, (if pr_TLS req then {[ "X-Forwarded-Proto" := ["https"] ]} else ∅ : gmap string (list string)) !! name = Some v →
      passed_on req name v) as Htls.
    { intros v. destruct (pr_TLS req) eqn:Ht; [|done]. intros [<- <-]%lookup_singleton_Some. right; right. split_and!; [done|by apply Hnone; right|done..]. }
    unfold base in Hbase. destruct (String.eqb_spec auth "") as [|Hauth]; [by apply Htls|].
    apply lookup_insert_Some in Hbase as [[<- <-]|[_ Hbase]]; [|by apply Htls]. right; left. split_and!; [done|by apply Hnone; left|].
    unfold auth in *. destruct (pr_Header req !! "X-Api-Auth-Header") as [[|a rest]|]; simpl in *; [done| |done]. eauto.
Qed.

(** A host is on the list, itself or through a pattern. *)
Definition matches_host (host valid : string) : Prop :=
  valid = host ∨ ∃ rest, valid = String "*" rest ∧ HasSuffix host rest = true.

Lemma isAllowed_true hosts host : isAllowed hosts host = true ↔ ∃ valid, valid ∈ hosts ∧ matches_host host valid.
Proof.
  unfold isAllowed, matches_host. rewrite existsb_exists. setoid_rewrite <-list_elem_of_In.
  split; intros (valid & Hin & Hv); exists valid; (split; [done|]).
  - apply orb_true_iff in Hv as [Hv%String.eqb_eq|Hv]; [by left|]. right.
    destruct valid as [|c rest]; [done|]. exists rest.
    destruct (decide (c = "*"%char)) as [->|Hne]; [done|]. destruct c as [[] [] [] [] [] [] [] []]; by try destruct (Hne eq_refl).
  - apply orb_true_iff. destruct Hv as [->|(rest & -> & Hv)]; [left; apply String.eqb_refl|by right].
Qed.

(** The drivers the handler has seen, in order, with the keys of their events. *)
Definition whitelist_after (es : list (string * option NodeDriver)) : ProxyList :=
  fold_left (λ p e, whitelist_sync e.1 e.2 p) es ∅.

Lemma fold_ProxyList_Add l p d : d ∈ fold_left (λ p d, ProxyList_Add d p) l p ↔ d ∈ p ∨ d ∈ l.
Proof.
  revert p. induction l as [|x l IH]; intros p; simpl; [rewrite elem_of_nil; tauto|].
  rewrite IH. unfold ProxyList_Add. rewrite elem_of_cons. set_solver.
Qed.

Lemma fold_ProxyList_Rm l p d : d ∈ fold_left (λ p d, ProxyList_Rm d p) l p ↔ d ∈ p ∧ d ∉ l.
Proof.
  revert p. induction l as [|x l IH]; intros p; simpl; [rewrite elem_of_nil; tauto|].
  rewrite IH. unfold ProxyList_Rm. rewrite elem_of_cons. set_solver.
Qed.

Lemma whitelist_from es d :
  d ∈ whitelist_after es → ∃ key driver, (key, Some driver) ∈ es ∧ DeletionTimestamp (nd_meta driver) = None ∧
    d ∈ nd_WhitelistDomains driver.
Proof.
  unfold whitelist_after. assert (∀ p, d ∈ fold_left (λ p e, whitelist_sync e.1 e.2 p) es p → d ∈ p ∨
    ∃ key driver, (key, Some driver) ∈ es ∧ DeletionTimestamp (nd_meta driver) = None ∧ d ∈ nd_WhitelistDomains driver) as Hgen;
    [|by intros [?%elem_of_empty|]%Hgen].
  induction es as [|[key [driver|]] es IH]; intros p; cbn [fold_left fst snd whitelist_sync]; [by left|..].
  - intros [Hp|(k & dr & ? & ?)]%IH; [|right; exists k, dr; split; [by right|done]].
    destruct (String.eqb key ""); [by left|]. case_bool_decide as Hdel; [apply fold_ProxyList_Rm in Hp as [? _]; by left|].
    apply fold_ProxyList_Add in Hp as [|Hp]; [by left|]. right. exists key, driver. split_and!; [by left| |done].
    by apply eq_None_not_Some.
  - intros [?|(k & dr & ? & ?)]%IH; [by left|]. right. exists k, dr. split; [by right|done].
Qed.

(** A domain that a driver has listed stays on the list until a driver that lists it is deleted. *)
Lemma whitelist_stays es1 key driver es2 d :
  key ≠ "" → DeletionTimestamp (nd_meta driver) = None → d ∈ nd_WhitelistDomains driver →
  (∀ key' driver', (key', Some driver') ∈ es2 → is_Some (DeletionTimestamp (nd_meta driver')) →
     d ∉ nd_WhitelistDomains driver') →
  d ∈ whitelist_after (es1 ++ (key, Some driver) :: es2).
Proof.
  intros Hkey Hlive Hd Hlater. unfold whitelist_after. rewrite fold_left_app. cbn [fold_left fst snd].
  set (p0 := fold_left _ es1 ∅).
  assert (d ∈ whitelist_sync key (Some driver) p0) as Hin.
  { unfold whitelist_sync. destruct (String.eqb_spec key ""); [done|].
    rewrite bool_decide_eq_false_2 by (rewrite Hlive; by intros []). apply fold_ProxyList_Add. by right. }
  revert Hin. generalize (whitelist_sync key (Some driver) p0). clear -Hlater.
  induction es2 as [|[k [dr|]] es2 IH]; intros p Hp; cbn [fold_left fst snd]; [done|..].
  - apply IH; [intros k' dr' Hin'; apply (Hlater k'); by right|]. unfold whitelist_sync.
    destruct (String.eqb k ""); [done|]. case_bool_decide as Hdel.
    + apply fold_ProxyList_Rm. split; [done|]. apply (Hlater k); [by left|done].
    + apply fold_ProxyList_Add. by left.
  - apply IH; [intros k' dr' Hin'; apply (Hlater k'); by right|]. unfold whitelist_sync. by destruct (String.eqb k "").
Qed.

Section claims.
Variable url_Parse : string → goerr + URL.
Variable url_String : URL → string.
Variables (prefix WhitelistDomain : string) (order : ProxyList → list string).
(** A [range] statement visits every key. *)
Hypothesis order_all : ∀ p d, d ∈ order p → d ∈ p.

(** C13: the proxy only reaches hosts on the list.  A request that names no host of its own and leaves the proxy goes to a
    host of the setting or of a domain that a node driver has listed, and carries only headers
    of the request, without those that would describe another body or target, the
    credentials meant for the host, and a note about TLS. *)
Theorem proxy_whitelist es req req' host :
  director url_Parse url_String prefix (ProxyList_Get order WhitelistDomain (whitelist_after es)) req = Ok req' →
  u_Host (pr_URL req) = "" → sent_to req' = Some host →
  (∃ valid, matches_host host valid ∧ (valid ∈ Split WhitelistDomain "," ∨
     ∃ key driver, (key, Some driver) ∈ es ∧ DeletionTimestamp (nd_meta driver) = None ∧ valid ∈ nd_WhitelistDomains driver)) ∧
  pr_Host req' = Hostname host ∧ u_RawQuery (pr_URL req') = u_RawQuery (pr_URL req) ∧
  ∀ name values, pr_Header req' !! name = Some values → passed_on req name values.
Proof.
  unfold director, proxy. destruct (dest_path _ _) as [path|]; [|done].
  destruct (url_Parse (dest_url path)) as [e|u].
  { intros [= <-] Hh. unfold sent_to. rewrite Hh, andb_false_r. done. }
  destruct (isAllowed _ _) eqn:Ha; cbn [negb].
  - intros [= <-] _. unfold sent_to. simpl. destruct (_ && _); [|done]. intros [= <-].
    split_and!; [|done..|by intros; apply dest_headers_passed].
    apply isAllowed_true in Ha as (valid & [Hin|Hin]%elem_of_app & Hm); exists valid; (split; [done|]); [by left|right].
    by apply whitelist_from, order_all.
  - intros [= <-] Hh. unfold sent_to. rewrite Hh, andb_false_r. done.
Qed.

End claims.

(** ** Three flaws *)

Section limits.
Variable url_Parse : string → goerr + URL.
Variable url_String : URL → string.
Variables (prefix WhitelistDomain : string) (order : ProxyList → list string).
Hypothesis order_complete : ∀ p d, d ∈ p → d ∈ order p.

(** C34: the limits of the list.  Every request that the proxy refuses is sent on unchanged, so that one with a scheme and a host
    in its own URL goes to that host, on the list or not, with all its headers; every
    request that is rewritten carries the cookies of the client, the session among them; and a domain that
    a driver has listed stays allowed, whatever its later versions list, until a driver that lists it is deleted. *)
Theorem proxy_flaws :
  (∀ hosts req e, proxy url_Parse url_String prefix hosts req = Err e →
     director url_Parse url_String prefix hosts req = Ok req ∧
     (u_Scheme (pr_URL req) ∈ ["http"; "https"] → u_Host (pr_URL req) ≠ "" →
      sent_to req = Some (u_Host (pr_URL req)))) ∧
  (∀ hosts req req', proxy url_Parse url_String prefix hosts req = Ok req' →
     pr_Header req' !! "Cookie" = map (λ v, TrimPrefix v "rancher:") <$> pr_Header req !! "Cookie") ∧
  (∀ es1 key driver es2 d,
     key ≠ "" → DeletionTimestamp (nd_meta driver) = None → d ∈ nd_WhitelistDomains driver →
     (∀ key' driver', (key', Some driver') ∈ es2 → is_Some (DeletionTimestamp (nd_meta driver')) →
        d ∉ nd_WhitelistDomains driver') →
     isAllowed (ProxyList_Get order WhitelistDomain (whitelist_after (es1 ++ (key, Some driver) :: es2))) d = true).
Proof.
  split_and!.
  - intros hosts req e He. unfold director. rewrite He. split; [done|]. intros Hs Hh. unfold sent_to.
    destruct (String.eqb_spec (u_Host (pr_URL req)) ""); [done|].
    apply elem_of_cons in Hs as [-> |[-> |[]%elem_of_nil]%elem_of_cons]; done.
  - intros hosts req req'. unfold proxy. destruct (dest_path _ _); [|done].
    destruct (url_Parse _); [done|]. destruct (negb _); [done|]. intros [= <-]. simpl. unfold dest_headers.
    rewrite lookup_union_l.
    + rewrite lookup_fmap, map_lookup_filter. destruct (pr_Header req !! "Cookie"); [|done].
      cbn [mbind option_bind]. rewrite option_guard_True; [done|]. apply (bool_decide_unpack _). vm_compute. exact I.
    + destruct (String.eqb _ ""); [|rewrite lookup_insert_ne by done]; by destruct (pr_TLS req).
  - intros es1 key driver es2 d Hk Hl Hd Hlater. apply isAllowed_true. exists d. split; [|by left].
    unfold ProxyList_Get. apply elem_of_app. right. by apply order_complete, whitelist_stays.
Qed.

End limits.

(** ** Examples *)

(** A URL printed and parsed without an escape. *)
Definition demo_String (u : URL) : string :=
  (if String.eqb (u_Scheme u) "" then "" else u_Scheme u +:+ "://" +:+ u_Host u) +:+ u_Path u +:+
  (if String.eqb (u_RawQuery u) "" then "" else "?" +:+ u_RawQuery u).
Definition demo_Parse (s : string) : goerr + URL :=
  let '(s, query) := match cut_sep "?" s with Some (a, q) => (a, q) | None => (s, "") end in
  match cut_sep "://" s with
  | None => inr {| u_Scheme := ""; u_Host := ""; u_Path := s; u_RawQuery := query |}
  | Some (scheme, rest) =>
    let '(host, path) := match cut_sep "/" rest with Some (h, p) => (h, "/" +:+ p) | None => (rest, "") end in
    inr {| u_Scheme := scheme; u_Host := host; u_Path := path; u_RawQuery := query |}
  end.

Definition demo_proxied (scheme host path : string) : ProxyRequest :=
  {| pr_Host := "rancher"; pr_URL := {| u_Scheme := scheme; u_Host := host; u_Path := path; u_RawQuery := "" |};
     pr_Header := {[ "Cookie" := ["R_SESS=token-1:key"]; "X-Api-Auth-Header" := ["Bearer b"] ]}; pr_TLS := true |}.

Definition demo_driver (domains : list string) : NodeDriver :=
  {| nd_meta := named_meta "do" ∅ ∅ []; nd_WhitelistDomains := domains |}.

Notation demo_director es :=
  (director demo_Parse demo_String "/proxy/" (ProxyList_Get elements "forums.rancher.com" (whitelist_after es))).

(** A request that is refused, and a driver that gives up a domain. *)
Lemma proxy_flaws_witness :
  (∃ req, demo_director [] req = Ok req ∧ sent_to req = Some "169.254.169.254" ∧
     isAllowed (ProxyList_Get elements "forums.rancher.com" (whitelist_after [])) "169.254.169.254" = false) ∧
  isAllowed (ProxyList_Get elements "forums.rancher.com"
    (whitelist_after [("do", Some (demo_driver ["api.digitalocean.com"])); ("do", Some (demo_driver []))]))
    "api.digitalocean.com" = true.
Proof.
  destruct (proxy_flaws demo_Parse demo_String "/proxy/" "forums.rancher.com" elements
    (λ p d, proj2 (elem_of_elements p d))) as (Hrefused & _ & Hstays).
  split.
  - exists (demo_proxied "http" "169.254.169.254" "/meta/proxy/refused").
    destruct (Hrefused (ProxyList_Get elements "forums.rancher.com" (whitelist_after []))
      (demo_proxied "http" "169.254.169.254" "/meta/proxy/refused") (PlainError "invalid host: refused")) as [Hd Hs];
      [vm_compute; reflexivity|].
    split; [exact Hd|]. split; [apply Hs; [by left|discriminate]|vm_compute; reflexivity].
  - apply (Hstays [] "do" (demo_driver ["api.digitalocean.com"]) [("do", Some (demo_driver []))]).
    + discriminate.
    + reflexivity.
    + by left.
    + intros k dr Hin. apply list_elem_of_singleton in Hin. injection Hin as _ ->. by intros [].
Defined.

(** A request of the page that lists the regions of a cloud. *)
Lemma proxy_whitelist_witness : ∃ req',
  demo_director [("do", Some (demo_driver ["*.digitalocean.com"]))] (demo_proxied "" "" "/meta/proxy/https:/api.digitalocean.com/v2") = Ok req' ∧
  sent_to req' = Some "api.digitalocean.com" ∧ pr_Host req' = "api.digitalocean.com" ∧
  ∀ name values, pr_Header req' !! name = Some values →
    passed_on (demo_proxied "" "" "/meta/proxy/https:/api.digitalocean.com/v2") name values.
Proof.
  assert (∃ req', demo_director [("do", Some (demo_driver ["*.digitalocean.com"]))]
    (demo_proxied "" "" "/meta/proxy/https:/api.digitalocean.com/v2") = Ok req' ∧ sent_to req' = Some "api.digitalocean.com")
    as (req' & Hd & Hs) by (eexists; split; vm_compute; reflexivity).
  exists req'. split; [exact Hd|]. split; [exact Hs|].
  destruct (proxy_whitelist demo_Parse demo_String "/proxy/" "forums.rancher.com" elements
    (λ p d, proj1 (elem_of_elements p d)) [("do", Some (demo_driver ["*.digitalocean.com"]))] _ req' "api.digitalocean.com" Hd)
    as (_ & Hhost & _ & Hheaders); [reflexivity|exact Hs|].
  split; [exact Hhost|exact Hheaders].
Defined.

End HttpProxy.
