(* ===== verification/PspTemplate.v ===== *)
(** * Removal of pod security policy templates

    [pkg/controllers/management/podsecuritypolicy]: the removal of a template in the management
    cluster, which is to delete the bindings of projects to it. *)

From stdpp Require Import base gmap list strings.
From S2P Require Import Prelude.
From S2P Require Import GoLib.
From S2P Require Import KubeTypes.
From S2P Require Import KubeObjects.
From S2P Require Import Kube.
From S2P Require Import KubeRules.
From S2P Require Import KubeSim.
From S2P Require Import PodSecurity.

Module PspTemplate.

Notation Binding := PodSecurityPolicyTemplateProjectBinding.
Notation bindings s := (t_PodSecurityPolicyTemplateProjectBindings (s_Tables s)).

Definition PSPTPBByPSPTName (psptpb : Binding) : list string := [psptpb_PodSecurityPolicyTemplateName psptpb].

(** The client is that of no namespace, and [Delete] is given a name only. *)
Definition pspt_Remove {W} `{!Client W Binding} (obj : PodSecurityPolicyTemplate) :
    M W PodSecurityPolicyTemplate :=
  let* r := attempt (reads (ByIndex PSPTPBByPSPTName (Name (pspt_meta obj)))) in
  match r with
  | inl e => throw (PlainError ("error getting psptpbs: " +:+ Error e))
  | inr psptpbs =>
    do* for_each (λ psptpb : Binding,
      let* r := attempt (api_delete (O:=Binding) "" (Name (psptpb_meta psptpb))) in
      match r with
      | inl e => throw (PlainError ("error deleting psptpb: " +:+ Error e))
      | inr _ => ret tt
      end) psptpbs in
    ret obj
  end.

Section laws.
Context {W : Type} `{!Kube W, !Client W Binding, !ClientLaws W Binding}.

(** A template that a project uses cannot be removed: bindings live in the namespaces of projects, the deletion is sent
    without a namespace, so it fails, nothing is deleted, and the template stays. *)
Theorem pspt_Remove_stuck (obj : PodSecurityPolicyTemplate) (b : Binding) (w : W) :
  (∀ k, is_Some (bindings (view w) !! k) → k.1 ≠ "") →
  bindings (cached w) !! obj_key b = Some b → psptpb_PodSecurityPolicyTemplateName b = Name (pspt_meta obj) →
  ∃ e w', pspt_Remove obj w = (Err e, w') ∧ view w' = view w.
Proof.
  intros Hns Hb Ht. unfold pspt_Remove, bind at 1, attempt at 1, reads at 1.
  destruct (by_index_law PSPTPBByPSPTName (Name (pspt_meta obj)) w) as (l & Hl & _). rewrite Hl.
  assert (b ∈ l) as Hin.
  { apply (elem_of_index _ _ _ _ _ Hl). split; [exact Hb|]. unfold PSPTPBByPSPTName. rewrite Ht. by left. }
  destruct l as [|b' l]; [by apply elem_of_nil in Hin|]. cbn [for_each]. unfold bind, attempt.
  pose proof (delete_law (O:=Binding) "" (Name (psptpb_meta b')) w) as Hlaw.
  destruct (api_delete (O:=Binding) "" (Name (psptpb_meta b')) w) as [[[]|e| |] w']; try done.
  - destruct Hlaw as [Hs _]. by apply Hns in Hs.
  - destruct Hlaw as (_ & Hv & _). by eexists _, w'.
Qed.

End laws.

(** A template with a binding in the namespace of a project. *)
Definition demo_bound : Binding :=
  {| psptpb_meta := {| Name := "b-1"; GenerateName := ""; Namespace := "p-1"; UID := "u-1"; ResourceVersion := "1"; Labels := ∅;
                       Annotations := ∅; OwnerReferences := []; CreationTimestamp := 0; DeletionTimestamp := None |};
     psptpb_PodSecurityPolicyTemplateName := "t1"; psptpb_TargetProjectName := "c-1:p-1" |}.
Definition demo_in_use : Sim := synced (put_obj demo_bound empty_state).

Lemma pspt_Remove_stuck_witness : ∃ e w',
  pspt_Remove (PodSecurity.demo_psp_template "1" false) demo_in_use = (Err e, w') ∧ view w' = view demo_in_use.
Proof.
  apply (pspt_Remove_stuck (PodSecurity.demo_psp_template "1" false) demo_bound demo_in_use).
  - assert (map_Forall (λ k _, k.1 ≠ "") (bindings (view demo_in_use))) as Hall
      by (refine (bool_decide_unpack _ _); vm_compute; exact I).
    intros k [b Hb]. exact (Hall k b Hb).
  - vm_compute. reflexivity.
  - reflexivity.
Defined.

End PspTemplate.
