(* ===== verification/UserApi.v ===== *)
(** * Users in the API

    [pkg/api/customization/authn]: the store of users and the actions that change passwords.  A
    resource of the API is a map of JSON values; the store behind that of users, which
    belongs to the API framework, is a record of operations.  bcrypt is a class. *)

From stdpp Require Import base gmap list strings.
From Stdlib Require Import Ascii ZArith Lia.
From S2P Require Import Prelude.
From S2P Require Import GoLib.
From S2P Require Import KubeTypes.
From S2P Require Import KubeObjects.
From S2P Require Import Kube.
From S2P Require Import KubeRules.
From S2P Require Import KubeSim.
From S2P Require Import Tokens.
From S2P Require Import TokenAuth.
From S2P Require Import UserManager.
From S2P Require Import LocalAuth.
Import Tokens TokenAuth UserManagers LocalAuth.

Open Scope nat_scope.

Module UserApi.

(** ** JSON values *)

Inductive json :=
| JString (s : string)
| JBool (b : bool)
| JList (l : list json)
| JOther.

Definition resource : Type := gmap string json.

(** [v.(string)] and [v.([]interface{})] *)
Definition as_string (v : option json) : option string :=
  match v with Some (JString s) => Some s | _ => None end.
Definition as_list (v : option json) : option (list json) :=
  match v with Some (JList l) => Some l | _ => None end.

(** [types.Store], as far as it is used.  With an error the map is nil. *)
Record Store (W : Type) := {
  Store_Create : resource → M W resource;
  Store_ByID : string → M W resource;
  Store_Update : resource → string → M W resource }.
Arguments Store_Create {W} _ _.
Arguments Store_ByID {W} _ _.
Arguments Store_Update {W} _ _ _.

(** Package bcrypt; the salt of a hash is random. *)
Class Bcrypt (W : Type) := {
  GenerateFromPassword : string → M W string;
  CompareHashAndPassword : string → string → bool }.

(** The setting "first-login" *)
Class FirstLogin (W : Type) := {
  FirstLogin_Get : W → string;
  FirstLogin_Set : string → M W unit }.

Definition invalid_body (msg : string) : goerr := PlainError ("InvalidBodyContent 422: " +:+ msg).

(** The transformer of the store: system users are hidden, and the user of the request is marked. *)
Definition transform_user (byID : bool) (req : Request) (data : resource) : goerr + option resource :=
  let system := match as_list (data !! "principalIds") with
                | Some l => existsb (λ p, HasPrefix (default "" (as_string (Some p))) "system://") l
                | None => false
                end in
  if system then (if byID then inl (PlainError "NotFound 404: resource not found") else inr None) else
  let userID := GetUser req in
  inr (Some (if negb (String.eqb userID "") && bool_decide (as_string (data !! "id") = Some userID)
             then <["me" := JString "true"]> data else data)).

Definition userByUsername (u : User) : list string := [user_Username u].

(** [user.Password = newPassHash; user.MustChangePassword = false] *)
Definition with_password (hash : string) (u : User) : User :=
  {| user_meta := user_meta u; user_DisplayName := user_DisplayName u; user_Description := user_Description u;
     user_Username := user_Username u; user_Password := hash; user_MustChangePassword := false;
     user_PrincipalIDs := user_PrincipalIDs u; user_Me := user_Me u |}.

Section api.
Context {W : Type} `{!Bcrypt W, !FirstLogin W, !Client W User}.

Definition HashPasswordString (password : string) : M W string :=
  wrap_err "problem encrypting password" (GenerateFromPassword password).

Definition hashPassword (data : resource) : M W resource :=
  match as_string (data !! "password") with
  | None => throw (PlainError "password not a string")
  | Some pass =>
    let* hashed := HashPasswordString pass in
    ret (<["password" := JString hashed]> data)
  end.

(** ** The store *)

Variable inner : Store W.

(** A mutex is held: creations of one server do not overlap. *)
Definition user_create (data : resource) : M W resource :=
  match as_string (data !! "username") with
  | None => throw (PlainError "invalid username")
  | Some username =>
    let* users := reads (ByIndex userByUsername username) in
    match users with
    | _ :: _ => throw (PlainError "NotUnique 422: Username is already in use.")
    | [] => Store_Create inner data
    end
  end.

(** The loop of [Create] with [n] rounds to go; [created] is nil after a call that failed. *)
Fixpoint create_tries (n : nat) (created : option resource) : M W (option resource) :=
  match n with
  | O => ret created
  | S n =>
    match as_string (d ← created; d !! "id") with
    | None => create_tries n created
    | Some id =>
      let* r := attempt (Store_ByID inner id) in
      match r with
      | inl _ => create_tries n None
      | inr created =>
        let principalIDs := default [] (as_list (created !! "principalIds")) in
        if existsb (λ pid, match pid with JString s => HasPrefix s "local://" | _ => false end) principalIDs
        then ret (Some created)
        else
          let* r := attempt (Store_Update inner
            (<["principalIds" := JList (principalIDs ++ [JString ("local://" +:+ id)])]> created) id) in
          match r with
          | inr created => ret (Some created)
          | inl e => if IsConflict e then create_tries n None else ret None
          end
      end
    end
  end.

Definition userStore_Create (data : resource) : M W (option resource) :=
  let* data := hashPassword data in
  let* created := user_create data in
  let* created := create_tries 3 (Some created) in
  ret (delete "password" <$> created).

(** ** The actions *)

Definition changePassword (body : goerr + resource) (store : option (Store W)) (req : Request) : M W unit :=
  match body, store with
  | inl e, _ => throw e
  | inr _, None => throw (PlainError "no user store available")
  | inr actionInput, Some _ =>
    let userID := GetUser req in
    if String.eqb userID "" then throw (PlainError "can't find user") else
    let currentPass := default "" (as_string (actionInput !! "currentPassword")) in
    if String.eqb currentPass "" then throw (invalid_body "must specify current password") else
    let newPass := default "" (as_string (actionInput !! "newPassword")) in
    if String.eqb newPass "" then throw (invalid_body "invalid new password") else
    let* user := reads (api_get "" userID) in
    if negb (CompareHashAndPassword (user_Password user) currentPass)
    then throw (invalid_body "invalid current password") else
    let* newPassHash := HashPasswordString newPass in
    do* api_update "" (with_password newPassHash user) in
    ret tt
  end.

Definition setPassword (body : goerr + resource) (store : option (Store W)) (ID : string) : M W resource :=
  match body, store with
  | inl e, _ => throw e
  | inr _, None => throw (PlainError "no user store available")
  | inr actionInput, Some store =>
    let* userData := Store_ByID store ID in
    let newPass := default "" (as_string (actionInput !! "newPassword")) in
    if String.eqb newPass "" then throw (PlainError "Invalid password") else
    let* userData := hashPassword (<["password" := JString newPass]> userData) in
    Store_Update store (delete "me" (<["mustChangePassword" := JBool false]> userData)) ID
  end.

Definition Actions (actionName : string) (body : goerr + resource) (store : option (Store W)) (ID : string)
    (req : Request) : M W unit :=
  do* (if String.eqb actionName "changepassword"
       then changePassword body store req
       else if String.eqb actionName "setpassword" then (do* setPassword body store ID in ret tt)
       else throw (PlainError ("bad action " +:+ actionName))) in
  let* first := reads (λ w, Ok (FirstLogin_Get w)) in
  if EqualFold first "false" then ret tt else FirstLogin_Set "false".

End api.

(** ** Passwords *)

(** A hash opens with the password it was made from; hashing does not touch the cluster. *)
Class BcryptLaws (W : Type) `{!Bcrypt W, !Kube W} := {
  generate_law p w :
    match GenerateFromPassword p w with
    | (Ok h, w') => CompareHashAndPassword (W:=W) h p = true ∧ view w' = view w
    | (Err _, w') => view w' = view w
    | _ => False
    end }.

Section laws.
Context {W : Type} `{!Kube W, !Bcrypt W, !FirstLogin W, !BcryptLaws W, !Client W User, !ClientLaws W User}.

Notation opens := (LocalAuth.opens (CompareHashAndPassword (W:=W))).

(** Nobody else has the username of the user. *)
Definition only_name (s : KState) (u : User) : Prop :=
  ∀ k v, s_Users s !! k = Some v → user_Username v = user_Username u → k = obj_key u.

Lemma wp_HashPasswordString p (Q : outcome string → W → Prop) w :
  (∀ h w', CompareHashAndPassword (W:=W) h p = true → view w' = view w → Q (Ok h) w') →
  (∀ e w', view w' = view w → Q (Err e) w') →
  wp (HashPasswordString p) Q w.
Proof.
  intros Hok Herr. unfold wp, HashPasswordString, wrap_err. pose proof (generate_law (W:=W) p w) as Hlaw.
  destruct (GenerateFromPassword p w) as [[] w']; naive_solver.
Qed.

(** A user written over itself is found by its name, with the password written. *)
Lemma opens_put u u' pwd w w' :
  obj_key u' = obj_key u → user_Username u' = user_Username u → only_name (view w) u →
  cached w' = put_obj u' (view w) →
  (∃ v, opens w' (user_Username u) pwd v) ↔ CompareHashAndPassword (W:=W) (user_Password u') pwd = true.
Proof.
  intros Hk Hn Hone Hc.
  assert (∀ x, s_Users (cached w') !! obj_key x = Some x ∧ user_Username x = user_Username u ↔ x = u') as Hx.
  { intros x. rewrite Hc. change (s_Users ?s) with (tbl (O:=User) s). rewrite tbl_put.
    split; [intros [Hx Hu]|intros ->; by rewrite lookup_insert_eq].
    apply lookup_insert_Some in Hx as [[_ ?]|[Hne Hx]]; [done|].
    destruct Hne. rewrite Hk. symmetry. by apply (Hone _ x). }
  split; [intros (v & Hv & Hp)|intros Hp; by exists u'].
  by rewrite <-(proj1 (Hx v) (proj2 (Hv v) eq_refl)).
Qed.

(** What a change of the password did to the cluster. *)
Definition password_changed (input : resource) (req : Request) (w w' : W) : Prop := ∃ u u' current new,
  as_string (input !! "currentPassword") = Some current ∧ as_string (input !! "newPassword") = Some new ∧
  s_Users (view w) !! ("", GetUser req) = Some u ∧
  CompareHashAndPassword (W:=W) (user_Password u) current = true ∧
  u' = set_user_meta (user_meta u') (with_password (user_Password u') u) ∧ obj_key u' = obj_key u ∧
  view w' = put_obj u' (view w) ∧
  CompareHashAndPassword (W:=W) (user_Password u') new = true ∧
  ∀ w2 pwd, cached w2 = view w' → only_name (view w) u →
    ((∃ v, opens w2 (user_Username u) pwd v) ↔ CompareHashAndPassword (W:=W) (user_Password u') pwd = true).

(** C9: a password changes only for the user who makes the request and only against the current password:
    if the action succeeds, the user in the header has the current password of the
    body, one write puts the new one, hashed, in its record and changes nothing else of the cluster; once
    the caches show it, the username, if no other user has it, opens with the new password and
    with no password whose comparison with the new hash fails.  Otherwise nothing is written. *)
Theorem password_change input store req w :
  wp (changePassword (inr input) (Some store) req)
     (if_ok (λ _, password_changed input req w) (λ _ w', view w' = view w)) w.
Proof.
  unfold changePassword. destruct (String.eqb (GetUser req) ""); [by apply wp_throw|].
  destruct (as_string (input !! "currentPassword")) as [cur|] eqn:Hc; simpl; [|by apply wp_throw].
  destruct (String.eqb cur ""); [by apply wp_throw|].
  destruct (as_string (input !! "newPassword")) as [new|] eqn:Hn; simpl; [|by apply wp_throw].
  destruct (String.eqb new ""); [by apply wp_throw|].
  apply wp_bind, wp_reads. pose proof (get_law (O:=User) "" (GetUser req) w) as Hget.
  destruct (api_get "" (GetUser req) w) as [u|e| |]; simpl; try done.
  destruct (CompareHashAndPassword (user_Password u) cur) eqn:Hcur; simpl; [|by apply wp_throw].
  apply wp_bind, wp_HashPasswordString; [|done]. intros h w1 Hh Hw1. simpl.
  apply wp_bind, wp_update; [|intros e w2 Hw2 _ _; simpl; by rewrite Hw2].
  intros u' w2 Hs Hk _ Hw2 _. simpl. apply wp_ret. rewrite Hw1 in Hw2.
  assert (u' = set_user_meta (user_meta u') (with_password h u)) as Hspec by apply Hs.
  assert (user_Password u' = h ∧ user_Username u' = user_Username u) as [Hp Hname] by (by rewrite Hspec).
  assert (obj_key u' = obj_key u) as Hku.
  { rewrite Hk. unfold write_key, client_ns, obj_key. simpl. case_decide; congruence. }
  exists u, u', cur, new. subst h. split_and!; [done..|]. intros w3 pwd Hw3 Hone.
  apply (opens_put u u' pwd w); [done..|congruence].
Qed.

(** ** Creation *)

(** C27: the three tries of a creation are one: if the user that was created cannot be read back, or the update that
    adds its local principal is refused, with a conflict or otherwise, then the remaining tries do
    nothing and the creation answers with no user and no error. *)
Theorem create_not_retried (inner : Store W) data d id created w w1 w2 :
  hashPassword data w = (Ok d, w1) → user_create inner d w1 = (Ok created, w2) →
  created !! "id" = Some (JString id) →
  (∀ e w3, Store_ByID inner id w2 = (Err e, w3) → userStore_Create inner data w = (Ok None, w3)) ∧
  (∀ c w3 e w4, Store_ByID inner id w2 = (Ok c, w3) → c !! "principalIds" = None →
     Store_Update inner (<["principalIds" := JList [JString ("local://" +:+ id)]]> c) id w3 = (Err e, w4) →
     userStore_Create inner data w = (Ok None, w4)).
Proof.
  intros Hh Hc Hid.
  assert (userStore_Create inner data w =
    bind (create_tries inner 3 (Some created)) (λ c, ret (delete "password" <$> c)) w2) as ->.
  { unfold userStore_Create, bind at 1. rewrite Hh. unfold bind at 1. by rewrite Hc. }
  cbn [create_tries]. change (Some created ≫= _) with (created !! "id"). rewrite Hid. cbn [as_string]. split.
  - intros e w3 Hby. unfold bind, attempt. rewrite Hby. done.
  - intros c w3 e w4 Hby Hp Hup. unfold bind, attempt. rewrite Hby. simpl. rewrite Hp. simpl. rewrite Hup.
    by destruct (IsConflict e).
Qed.

(** The store behind that of users adds one user, with the username it is given. *)
Definition adds_user (inner : Store W) : Prop := ∀ data n w r w',
  as_string (data !! "username") = Some n → Store_Create inner data w = (Ok r, w') →
  ∃ u, user_Username u = n ∧ s_Users (view w) !! obj_key u = None ∧ view w' = put_obj u (view w).

Definition unique_usernames (s : KState) : Prop := ∀ k1 u1 k2 u2,
  s_Users s !! k1 = Some u1 → s_Users s !! k2 = Some u2 → user_Username u1 = user_Username u2 → k1 = k2.

(** A name that the cache does not show is not refused. *)
Lemma user_create_free (inner : Store W) data n w :
  as_string (data !! "username") = Some n →
  (∀ k u, s_Users (cached w) !! k = Some u → user_Username u ≠ n) →
  user_create inner data w = Store_Create inner data w.
Proof.
  intros Hn Hfree. unfold user_create. rewrite Hn. unfold bind, reads.
  destruct (by_index_law userByUsername n w) as (us & Hus & _). rewrite Hus. destruct us as [|u us]; [done|].
  destruct (proj1 (elem_of_index _ _ _ _ u Hus)) as [Hu Hin]; [by left|].
  apply list_elem_of_singleton in Hin. by destruct (Hfree _ _ Hu).
Qed.

(** Two users of the cluster have the name. *)
Definition taken_twice (s : KState) (n : string) : Prop := ∃ u1 u2,
  obj_key u1 ≠ obj_key u2 ∧ s_Users s !! obj_key u1 = Some u1 ∧ s_Users s !! obj_key u2 = Some u2 ∧
  user_Username u1 = n ∧ user_Username u2 = n.

(** With caches that show the cluster, a creation keeps usernames unique. *)
Theorem user_create_unique inner data r w w' :
  adds_user inner → cached w = view w → unique_usernames (view w) →
  user_create inner data w = (Ok r, w') → unique_usernames (view w').
Proof.
  intros Hadds Hsync Huniq. unfold user_create.
  destruct (as_string (data !! "username")) as [n|] eqn:Hn; [|done]. unfold bind, reads.
  destruct (by_index_law userByUsername n w) as (us & Hus & _). rewrite Hus.
  destruct us as [|]; [|done]. intros (u & Hu & Hno & ->)%(Hadds _ _ _ _ _ Hn).
  assert (∀ k v, s_Users (view w) !! k = Some v → user_Username v ≠ user_Username u) as Hnew.
  { intros k v Hv Heq. assert (v ∈ []) as []%elem_of_nil. apply (elem_of_index _ _ _ _ _ Hus).
    rewrite Hsync. change (tbl (O:=User) ?s) with (s_Users s). unfold userByUsername.
    pose proof (cached_keyed (O:=User) w k v) as Hk. rewrite Hsync in Hk. specialize (Hk Hv). subst k.
    split; [done|]. rewrite list_elem_of_singleton. congruence. }
  intros k1 u1 k2 u2. change (s_Users (put_obj ?u ?s)) with (tbl (O:=User) (put_obj u s)). rewrite tbl_put.
  rewrite !lookup_insert_Some. change (tbl (O:=User) ?s) with (s_Users s).
  intros [[<- <-]|[_ H1]] [[<- <-]|[_ H2]] Heq; [done|by destruct (Hnew _ _ H2)|by destruct (Hnew _ _ H1)|by eapply Huniq].
Qed.

End laws.

(** ** Two creations *)

Section race.
Context {W : Type} `{!Kube W, !Bcrypt W, !FirstLogin W, !Client W User, !ClientLaws W User}.
Context `{!Client W Group, !Client W GroupMember, !Client W AuthConfig}.
Context `{!Client W ClusterRoleTemplateBinding, !Client W ProjectRoleTemplateBinding}.

(** A name that two cached users have opens for neither. *)
Lemma taken_twice_locked n pwd (w : W) :
  taken_twice (cached w) n →
  ∃ e, AuthenticateUser (CompareHashAndPassword (W:=W)) (BasicLogin n pwd) w = (Ok (inl (0%Z, e)), w).
Proof.
  intros (u1 & u2 & Hne & H1 & H2 & Hn1 & Hn2). unfold AuthenticateUser, bind at 1, attempt at 1, reads at 1.
  destruct (by_index_law userNameIndexer n w) as (us & Hus & _). rewrite Hus.
  assert (∀ u, s_Users (cached w) !! obj_key u = Some u → user_Username u = n → u ∈ us) as Hin.
  { intros u Hu Hn. apply (elem_of_index _ _ _ _ _ Hus). unfold userNameIndexer.
    rewrite list_elem_of_singleton. by split. }
  pose proof (Hin u1 H1 Hn1) as Hu1. pose proof (Hin u2 H2 Hn2) as Hu2.
  destruct us as [|x [|y us]]; [by apply elem_of_nil in Hu1| |by eexists].
  apply list_elem_of_singleton in Hu1, Hu2. congruence.
Qed.

(** C28: usernames are unique only while the caches keep up.  For any store that adds the users it is given, a user is created
    with a username the cache does not show.  While the cache stays as it was, the creation of a second user with that
    username is not refused; if the store adds it, the cluster has two users of the name, and once the
    caches show them the local provider refuses the name, whatever the password. *)
Theorem usernames_race (inner : Store W) data1 data2 n r1 (w w1 : W) :
  adds_user inner →
  as_string (data1 !! "username") = Some n → as_string (data2 !! "username") = Some n →
  (∀ k u, s_Users (cached w) !! k = Some u → user_Username u ≠ n) →
  user_create inner data1 w = (Ok r1, w1) → s_Users (cached w1) = s_Users (cached w) →
  user_create inner data2 w1 = Store_Create inner data2 w1 ∧
  ∀ r2 w2, Store_Create inner data2 w1 = (Ok r2, w2) →
    taken_twice (view w2) n ∧
    ∀ w3 pwd, cached w3 = view w2 →
      ∃ e, AuthenticateUser (CompareHashAndPassword (W:=W)) (BasicLogin n pwd) w3 = (Ok (inl (0%Z, e)), w3).
Proof.
  intros Hadds Hn1 Hn2 Hfree Hc1 Hstale. rewrite (user_create_free inner data1 n) in Hc1 by done.
  split; [apply (user_create_free inner data2 n); [done|by rewrite Hstale]|]. intros r2 w2 Hc2.
  destruct (Hadds _ _ _ _ _ Hn1 Hc1) as (u1 & Hu1 & _ & Hv1), (Hadds _ _ _ _ _ Hn2 Hc2) as (u2 & Hu2 & Hno & Hv2).
  assert (s_Users (view w1) !! obj_key u1 = Some u1) as Hin1 by (rewrite Hv1; exact (tbl_put_eq (O:=User) u1 (view w))).
  assert (obj_key u1 ≠ obj_key u2) as Hne by congruence.
  assert (taken_twice (view w2) n) as Htwice.
  { exists u1, u2. rewrite Hv2. change (s_Users (put_obj ?u ?s)) with (tbl (O:=User) (put_obj u s)). rewrite tbl_put.
    rewrite lookup_insert_eq, lookup_insert_ne by done. by split_and!. }
  split; [done|]. intros w3 pwd Hw3. apply taken_twice_locked. by rewrite Hw3.
Qed.

End race.

(** ** An example *)

#[local] Instance demo_bcrypt : Bcrypt Sim := {
  GenerateFromPassword p := ret ("hash of " +:+ p);
  CompareHashAndPassword h p := String.eqb h ("hash of " +:+ p) }.
#[local] Instance demo_bcrypt_laws : BcryptLaws Sim.
Proof. split. intros p w. simpl. by rewrite String.eqb_refl. Qed.
#[local] Instance demo_first_login : FirstLogin Sim := { FirstLogin_Get _ := "false"; FirstLogin_Set _ := ret tt }.

Definition demo_resource (u : User) : resource :=
  {["id" := JString (Name (user_meta u)); "username" := JString (user_Username u);
    "password" := JString (user_Password u)]} ∪
  (match user_PrincipalIDs u with [] => ∅ | l => {["principalIds" := JList (JString <$> l)]} end).
Definition demo_principals (data : resource) : list string :=
  omap (λ p, as_string (Some p)) (default [] (as_list (data !! "principalIds"))).
Definition demo_named (m : ObjectMeta) (data : resource) : User :=
  {| user_meta := m; user_DisplayName := ""; user_Description := "";
     user_Username := default "" (as_string (data !! "username"));
     user_Password := default "" (as_string (data !! "password")); user_MustChangePassword := false;
     user_PrincipalIDs := demo_principals data; user_Me := false |}.

(** A store that keeps the users in the cluster and refuses updates with [refuse]. *)
Definition demo_user_store (refuse : option goerr) : Store Sim :=
  {| Store_Create data :=
       let* u := api_create "" (demo_named (generate_meta "u-" ∅ ∅) data) in ret (demo_resource u);
     Store_ByID id := let* u := reads (api_get "" id) in ret (demo_resource u);
     Store_Update data id :=
       match refuse with
       | Some e => throw e
       | None => let* u := reads (api_get "" id) in
                 let* u := api_update "" (demo_named (user_meta u) data) in ret (demo_resource u)
       end |}.

Definition demo_new_user (password : string) : resource :=
  {["username" := JString "ada"; "password" := JString password]}.
Definition demo_change : resource :=
  {["currentPassword" := JString "secret"; "newPassword" := JString "better"]}.
Definition demo_from (user : string) : Request := header_Set userAuthHeader user {| Header := ∅; URL_Scheme := "https" |}.

(** Ada changes her password. *)
Lemma password_change_witness :
  ∃ w', changePassword (inr demo_change) (Some (demo_user_store None)) (demo_from "u-ada") demo_people = (Ok tt, w') ∧
    password_changed demo_change (demo_from "u-ada") demo_people w'.
Proof.
  pose proof (password_change demo_change (demo_user_store None) (demo_from "u-ada") demo_people) as H. unfold wp in H.
  assert (∃ w', changePassword (inr demo_change) (Some (demo_user_store None)) (demo_from "u-ada") demo_people = (Ok tt, w'))
    as (w' & Hrun) by (eexists; vm_compute; reflexivity).
  exists w'. split; [exact Hrun|]. rewrite Hrun in H. exact H.
Defined.

(** The update meets a conflict. *)
Lemma create_not_retried_witness :
  ∃ w', userStore_Create (demo_user_store (Some (StatusError StatusReasonConflict "users"))) (demo_new_user "secret") (synced empty_state) = (Ok None, w').
Proof.
  eexists. eapply (create_not_retried (demo_user_store (Some (StatusError StatusReasonConflict "users"))) (demo_new_user "secret")).
  - vm_compute; reflexivity.
  - vm_compute; reflexivity.
  - vm_compute; reflexivity.
  - vm_compute; reflexivity.
  - vm_compute; reflexivity.
  - reflexivity.
Defined.

Lemma demo_user_store_adds refuse : adds_user (demo_user_store refuse).
Proof.
  intros data n w r w' Hn. unfold demo_user_store, Store_Create, bind.
  pose proof (create_law (O:=User) "" (demo_named (generate_meta "u-" ∅ ∅) data) w) as Hlaw.
  destruct (api_create "" _ w) as [[u|e| |] w1]; try done. destruct Hlaw as (Hst & Hno & Hv & _).
  intros [= _ <-]. exists u. split_and!; [|exact Hno|exact Hv].
  destruct Hst as (_ & _ & _ & _ & _ & _ & Hspec).
  assert (u = set_user_meta (user_meta u) (demo_named (generate_meta "u-" ∅ ∅) data)) as -> by exact Hspec.
  simpl. by rewrite Hn.
Qed.

(** Two users of one name in an empty cluster whose caches do not move. *)
Lemma usernames_race_witness :
  ∃ r1 w1 r2 w2,
    user_create (demo_user_store None) (demo_new_user "secret") (synced empty_state) = (Ok r1, w1) ∧
    user_create (demo_user_store None) (demo_new_user "better") w1 = (Ok r2, w2) ∧ taken_twice (view w2) "ada".
Proof.
  destruct (user_create (demo_user_store None) (demo_new_user "secret") (synced empty_state)) as [o1 w1] eqn:H1.
  assert (s_Users (cached w1) = ∅ ∧ ∃ r1, o1 = Ok r1) as [Hc [r1 ->]].
  { change o1 with (o1, w1).1. change w1 with (o1, w1).2 at 1. rewrite <-H1.
    split; [vm_compute; reflexivity|]. eexists. vm_compute. reflexivity. }
  destruct (usernames_race (demo_user_store None) (demo_new_user "secret") (demo_new_user "better") "ada" r1
    (synced empty_state) w1 (demo_user_store_adds None) eq_refl eq_refl) as [Hacc Htwice]; [|exact H1|exact Hc|].
  { intros k u Hk. change (s_Users (cached (synced empty_state))) with (∅ : gmap nsname User) in Hk.
    by rewrite lookup_empty in Hk. }
  destruct (Store_Create (demo_user_store None) (demo_new_user "better") w1) as [o2 w2] eqn:H2.
  assert (∃ r2, o2 = Ok r2) as [r2 ->].
  { change o2 with (o2, w2).1. rewrite <-H2. replace w1 with (Ok r1, w1).2 by reflexivity. rewrite <-H1.
    eexists. vm_compute. reflexivity. }
  exists r1, w1, r2, w2. split; [reflexivity|]. split; [exact Hacc|]. exact (proj1 (Htwice r2 w2 eq_refl)).
Defined.

End UserApi.
